(* ===== verification/_CoqProject ===== *)
-Q . S2P
Prelude.v
PyStr.v
Stable.v
Git.v
R3Engine.v
R3Facts.v
R3Refine.v
R3Idem.v
R3Table.v
RoundTables.v
B2bTable.v
B2eTable.v
R3Moves.v
R3Theorems.v
Drive.v
DriveTheorems.v
Rebuild.v
R1006Table.v
R1007Table.v
RebuildFacts.v
RebuildTheorems.v
PyParse.v
PyRe.v
PyRegex.v
Json.v
Replies.v
RepliesTable.v
RepliesFacts.v
RepliesLines.v
RepliesTheorems.v
Deps.v
DepsTheorems.v
Rebuild8.v
R1008Table.v
Rebuild8Facts.v
Rebuild8Theorems.v
Rebuild5.v
R1005Table.v
Rebuild5Facts.v
Rebuild5Theorems.v
Fold.v
FoldTheorems.v
Arms.v
ArmsTheorems.v
Churn.v
Lift.v
Analyse.v
TxEngine.v
TxFacts.v
Xform.v
XformTheorems.v
Utf8.v
ForkTx.v
ForkTxTheorems.v
Genfix.v
Tx1019.v
Tx1019Fork5.v
Tx1019c.v
Tx1017.v
Tx1018.v
Tx1018Review.v
Tx1014.v
Tx1014Tree.v
Edits13.v
TxEarlier.v
SeriesTheorems.v
ShardTheorems.v
TxLoop.v
ForkTx5.v
ForkTx5Theorems.v
ForkTx5Again.v
TxModules.v
TxTheorems.v
GenfixFacts.v
GenfixEmit.v
GenfixTheorems.v
Scripts.v
Gpoll.v
GpollTheorems.v
