(* ===== verification/Prelude.v ===== *)
(** * The rewriting and lab tools of the lfu repository

    Besides the scanner itself, which is C, the repository holds the Python its
    maintainer works with: scripts that rewrite a series of Lustre commits round
    after round of review (docs/rounds), tools of the test labs (tests) and the
    analysis of the benchmark runs (bench-data).  This development models that
    Python and proves what it is relied on for.  Paths below are under src/.

    ** The parts and how they meet

    A round of review produces a table of textual edits.  An engine applies the
    table to one worktree and one commit message; a driver walks a stack of commits,
    lets the engine edit each tree, and builds a new stack with git.  In September
    the engine is r3fix.apply with a driver beside each table; in October each round
    has a rebuild.py with its own table, its message rewriters and its own loop; and
    from the middle of that month a series rewriter, forktx*.py, loads tx_*.py modules,
    each a table with fn for files and msgfn for messages, and rewrites several
    branches at once.  Two probes say which commits of a series need which.  The
    comments the reviewers leave are watched by a poll of Gerrit and answered from tables
    of replies, which scripts post into the threads.
    The labs use smaller tools on the same footing: they replace a text that must be
    there (the control arms), cut a function out of a source file (the lifters), or
    make and judge a workload (churn and check).

    ** Files

    - [Prelude]: texts as byte lists, the literal decoder [lit], exceptions and the
      result type [res] with its [let!], tactics and hint databases.
    - [PyStr]: str.find, rfind, index, count, replace, in, startswith, rstrip and
      slices, with occurrences ([occ]) as their specification.  [PyParse]: split, join
      and int.  [PyRe]: the words of a text, [\b] and re.sub of words, with the words of
      the result as specification.  [PyRegex]: the patterns of re, by a backtracking matcher
      that lists the matches in the order re tries them, with the relation [matches] as
      specification.  [Json]: json.loads, dumps and dump with indent, and that what is
      printed reads back ([loads_dump]).  [Utf8]: bytes.decode, and that a valid text occurs in
      another only at the boundaries of characters.
    - [Stable]: [no_create], an executable test on three texts that no context in
      which an edit is made can make a given text appear (read backwards: disappear).
      All whole-table theorems rest on it.
    - [R3Engine] (r3-0913/r3fix.py from line 1011, and apply of r0918fix.py and its
      copies): [allowed], [transform_text], [apply] with its cache and its writes,
      and the swap of the table.  A worktree is a finite map from paths to bytes;
      open().read() is [universal_newlines] of the bytes.
    - [R3Table], [RoundTables], [B2bTable], [B2eTable]: the tables, one row per call of t or
      f; the last two are the b2bfix.py of b2-0922 with the four files that add rows to it.  [R3Moves]: the
      rows that are functions.
    - [R3Facts], [R3Refine], [R3Idem], [R3Theorems]: the engine's theorems.
    - [Genfix], [GenfixFacts], [GenfixTheorems] (b2-0922/genfix.py, which derives the rows
      of b2bfix.py from two trees): regions, PAIRS, hunks, since_for and the loop over
      FILES; class [Difflib] is what difflib documents of get_opcodes, [line_difflib] an
      instance.  [GenfixEmit]: the text of the module that is written, and a reader of its
      rows.
    - [Git]: class [Git] is what the scripts ask of git, class [GitLaws] what git
      documents of it (an object is found again under the name commit-tree gave, is
      never changed, and is not stored twice; a branch b is the ref refs/heads/b; rev-list
      over a line of commits lists it oldest first; log --format=%B is the message and a newline).  [ListGit] is a
      store that has the laws; the instances run on it.
    - [Drive] (r3drive.py, its five copies and b2-0922/b2bdrive.py) and
      [DriveTheorems].
    - [Xform] (a-0925: xform.py to xform4.py, msg4.py, msg5.py) and [XformTheorems].
    - [Rebuild] (a-1006 and a-1007 rebuild.py: rep, edit, build, tip, the main part),
      [R1006Table], [R1007Table], [RebuildFacts], [RebuildTheorems].  What build does to
      the files of a commit is an argument of it, [stage], and class [Reads] is what the
      theorems ask of one.
    - [Rebuild8] (a-1008 rebuild.py with edits_lr.py: the framework of a-1006 with renames
      of words, edits after them and paragraphs in messages, as a [stage]), [R1008Table],
      [Rebuild8Facts], [Rebuild8Theorems]; class [Grep] is git grep -l -w.
    - [Rebuild5] (a-1005/lreview2/rebuild.py, whose edits are functions), [R1005Table],
      [Rebuild5Facts], [Rebuild5Theorems].
    - [Scripts]: build and the main part of the rebuild.py of a-1007 and a-1008, and apply
      of the fix modules, each over its own tables.
    - [Replies] (post_replies.py of a-1007 to a-1019, and r3-0913/replies-r3.py): threads,
      grouping by patch set and path, the posts, and the readers of replies.md;
      [RepliesTable], the tables and files of replies; [RepliesFacts], [RepliesTheorems],
      [RepliesLines].  The web server and ssh are arguments.
    - [Deps] (a-1014: textdeps.py and semdeps.py) and [DepsTheorems]; the output of git show
      and whether git apply takes a patch are arguments.
    - [Gpoll] (tests/gerrit-poll/gpoll.py) and [GpollTheorems]; what ssh prints, local time
      and the clock are arguments.
    - [Fold] (a-1009/fold.py) and [FoldTheorems].  [Edits13] (the two scripts of a-1013).
    - [ForkTx] (forktx.py of a-1014 to forktx4.py of a-1019: run with fn, tree_fn and
      msgfn, and Chain) and [ForkTxTheorems], on the classes [GitRefs] and [GitRefsLaws] of
      [Git]: refs, rev-list over several tips, merge-base --is-ancestor, diff --name-only.
    - [TxEngine]: the loops of the tx_*.py modules, one definition for each way they test
      a row before they replace.  [Tx1014], [Tx1014Tree], [Tx1017], [Tx1018],
      [Tx1018Review], [Tx1019], [Tx1019Fork5], [Tx1019c]: the modules of a-1014 to a-1019,
      names prefixed with the module's.  [TxFacts]: replace as a sequence of single edits, and when a
      pass over a table leaves nothing for a second one.  [TxEarlier] and [TxLoop]: the
      modules forktx.py to forktx4.py load, and the while loop of tx_lrv.py.
      [SeriesTheorems] and [ShardTheorems]: driver and modules together.
    - [ForkTx5] (a-1019/forktx5.py: run, cid, the module's base and ANC), with the class
      [Settling], what a module promises the driver; [ForkTx5Theorems], [ForkTx5Again];
      the graph of commits is in class [GitGraphLaws] of [Git].  [TxModules]: the modules
      it loads, as instances of [Settling]; [TxTheorems]: modules and driver together.
    - [Arms] and [ArmsTheorems] (the cut-*.py of lab-160ac, lab-hardlink, lab-posix and
      lab-scanstats, and dbg-resolve.py).
    - [Churn] (lab-1020-stale), [Lift] (tests/lift, lab-1019d/b1/lift.py), [Analyse]
      (bench-data/2026-09-04/analyse.py, in IEEE binary64).

    ** What the theorems show

    - The engine: [apply] is the fold of the allowed rows over the decoded files and
      the message ([apply_refines]); it neither makes nor deletes files, keeps the
      bytes of files no row names ([apply_frame]) and raises before it writes.
      [transform_text] on every branch.  Over the five tables of the rounds: running
      [apply] twice is running it once, on every worktree and message
      ([round_tables_idempotent]); a row that replaces one occurrence has one site only
      when it fires ([fired_rows_unique_site]); and at the commits the drivers name the one
      exception is the ambiguity error, with the row and the count, elsewhere also the
      ValueError of ORDER.index ([round_tables_raise]), for the table of
      b2-0922 too, whose rows rewrite each other's texts and are not claimed to settle as
      a whole.  One row of r3fix that deletes text is shown to fire twice.
    - The generator: its search, which leaves early, gives every region the first context
      that matches the most trees ([hunks_best]); the rows it writes for a file, loaded and
      run by [apply], turn the tip's text into the upper tree's ([generated_rows_apply]),
      when no context reaches a neighbouring region and each old text has one place in its
      turn; without the second they may not ([overlap_misplaced]).  The module it writes,
      read as Python reads it, holds the very rows ([written_module_reads_back]).
    - The drivers: the stack is rebuilt commit by commit on the rebuilt parent
      ([drive_rebuilds]); driving the result again returns and changes no tree
      ([redrive_idle], which reads the messages back through git); b2bdrive reuses all
      of its own last drive, and two runs of it give the same names.
    - The rebuild scripts: what a real run leaves behind ([build_rebuilds]), that a dry
      run predicts it ([dry_run_predicts]), that exactly the unchanged lower part of
      the stack is kept ([kept_prefix]), and that edits outlive the edits after them
      (all of a-1006, all but four of a-1007, whose tip() cannot be run twice).  For a-1008
      that no old name is left as a word in any file, edited or not (no edit brings one
      in, [brings_no]), and no other byte of an unedited file changes ([r1008_renamed]); for a-1005 that a dry run tells how the real run ends, by its
      messages too ([r1005_dry_run]), and what wsub replaces; for fold.py when the branch
      moves ([fold_moves]); for xform.py that it may run twice ([xform_again]).
    - The series rewriter: every commit is rewritten on its rewritten parent, with its
      author and dates; only the named branches move, and none does when the run
      raises or is dry ([run_rewrites]; for forktx5.py [run5_rewrites]).  With modules that
      do not raise, and have no tree_fn, the run ends and reaches every commit
      ([run_reaches]).  After a run with
      tx_shard.py every commit with the device search has the flag ([shard_in_series]).  A
      second run of
      forktx5.py over its own result returns, stores nothing and moves nothing, for every
      module that is [Settling] ([run5_again]).  A run with tx_1019c.py leaves no device
      test in the commits below lfs find --device ([early_commits_have_no_tool]).
    - The modules: those that call themselves idempotent are ([modules_idempotent]), and
      so are thirty that do not say ([earlier_modules_repeat]); where a message has
      been rewritten the next pass stops with AssertionError ([messages_once]); union_fix
      ends, and returns exactly if a blank line follows every initialiser
      ([union_fix_ends]).
    - The replies: each row of a table is posted once, at the patch set, path and place of
      its comment, and nothing else, with one call for each change and patch set ([replies_posted]; from replies.md [md_replies_posted];
      as drafts [r3_drafts_complete]); a dry run posts nothing and prints the same counts
      ([dry_run_posts_nothing]); a row without its comment stops the run at its change
      ([missing_comment_stops]); the text that is sent reads back
      ([posted_text_reads_back]); replies.md is read as it is meant ([replies_md_read]),
      but for items whose reply continues a tag other than (#n) ([item_drops_word]).
    - The probes: what textdeps.py keeps is enough and nothing of it could be dropped in
      its turn ([textdeps_needed]); semdeps.py lists exactly the commits that brought in a
      name or a line of eight characters or more ([semdeps_exact]).
    - The watch: a poll is a poll of a set of keys ([poll_refines]), what was seen is never
      printed again, over any sequence of polls ([polled_quiet]), and an empty message of
      a person or of its owner stops it ([empty_message_stops]).
    - The labs: an arm is cut in or the script stops; check.py lists exactly the mixed
      records when most records are true; churn.py keeps a window of K files; lift
      returns the function as it stands in the file.
    - The analysis: when the sign test's p, as it is computed in binary64, exceeds 1, for
      up to 128 pairs ([sign_test_above_one]); the quartiles.

    ** How the model is set up

    Every loop of the scripts but one is over a finite list, so the definitions are
    structural and need no fuel.  The exception is the while loop of union_fix, with the
    length of the text as fuel: [union_fix_ends] shows that it takes one turn for each
    initialiser, and no more fuel than their number.  The JSON reader has twice the length
    of the text as fuel, and [loads_dump] shows that to be enough for every text that is
    printed; the star of a pattern has the length of the text, as each round takes a byte.  Texts are UTF-8 bytes: in, count and replace give the same answers
    on them as on characters, since UTF-8 is self-synchronising ([utf8_cut] of [Utf8]).
    Words are of ASCII letters, digits and the underscore; git grep gives a list of names;
    textwrap.fill is modelled for ASCII words that have no hyphen and fit the line, as in its
    two calls.  Where a script counts characters so does the model ([char_length],
    [take_chars]).
    Decoding errors are modelled for the series rewriters, which handle them, and left out
    elsewhere; file modes and symbolic links are left out.  rstrip and split
    strip ASCII white space, and [\d] and [\s] of the patterns are the ASCII classes.  A
    float in JSON is kept as its text; patch sets, change numbers and times are whole
    numbers, names and messages strings, and another type there is a TypeError.  The driver owns its worktree, so [git checkout -f] leaves
    exactly the files of the commit there.  What is printed is kept as data where a
    later step or a reader depends on it (report lines, ids, exit status), not as
    text.  Numbers are exact or, in [Analyse], IEEE binary64.

    ** Not modelled

    The amend of msg5.py; the assembly of the lifted programs in tests/lab-1019h; the
    worklist of gerrit-poll/annotate-list.py.  The HITS that some modules print at exit are
    returned by fn and msgfn here, and not printed.  The programs that mostly call other
    programs (debugfs, summaries of timings) and the C sources are
    left out. *)
From stdpp Require Export base list strings gmap pretty.
From Stdlib Require Export Ascii.

(** Texts are UTF-8 byte strings, one [ascii] per byte, as lists so that the
    list library applies.  [str] values that are only compared or used as keys
    (paths, identifiers, commit names) stay [string]. *)
Abbreviation text := (list ascii).

Declare Scope py_scope.
Delimit Scope py_scope with py.

(** [lit s] is the text a Rocq string literal stands for: a backslash followed
    by [q] is a double quote (which a literal cannot hold), two backslashes are
    one, and every other byte, tabs and newlines included, is itself. *)
Fixpoint lit (s : string) : text :=
  match s with
  | EmptyString => []
  | String "\" (String "q" r) => "034"%char :: lit r
  | String "\" (String "\" r) => "\"%char :: lit r
  | String c r => c :: lit r
  end.

(** Python exceptions the scripts raise or let escape. *)
Inductive exn :=
  | RuntimeError (msg : string)
  | ValueError (msg : string)
  | KeyError (key : string)
  | SystemExit (msg : string)
  | FileNotFoundError (path : string)
  | AssertionError (msg : string)
  | CalledProcessError (cmd : string)
  | AttributeError (msg : string)
  | IndexError (msg : string)
  | TypeError (msg : string)
  | StopIteration.

(** The outcome of a Python call: a value, or an exception. *)
Inductive res (A : Type) :=
  | Ok (a : A)
  | Raise (e : exn).
Arguments Ok {A} a.
Arguments Raise {A} e.

Definition res_bind {A B} (r : res A) (k : A → res B) : res B :=
  match r with Ok a => k a | Raise e => Raise e end.

Definition res_is_ok {A} (r : res A) : bool :=
  match r with Ok _ => true | Raise _ => false end.

Notation "'let!' x ':=' r 'in' k" := (res_bind r (λ x, k))
  (at level 10, x pattern, r at level 100, k at level 200) : py_scope.
Notation "'raise!' e" := (Raise e) (at level 10, e at level 9) : py_scope.
Open Scope py_scope.

(** ** Automation *)

Create HintDb py.
Create Rewrite HintDb py_rw.

(** Case analysis on the branch conditions of a definition under study. *)
Ltac cases :=
  repeat (simplify_eq/=; match goal with
  | H : context [match ?x with _ => _ end] |- _ => destruct x eqn:?
  | |- context [match ?x with _ => _ end] => destruct x eqn:?
  end); simplify_eq/=.

(** Turn boolean tests into propositions. *)
Ltac bools :=
  repeat match goal with
  | H : negb _ = true |- _ => apply negb_true_iff in H
  | H : negb _ = false |- _ => apply negb_false_iff in H
  | H : (_ && _)%bool = true |- _ => apply andb_true_iff in H; destruct H
  | H : (_ || _)%bool = false |- _ => apply orb_false_iff in H; destruct H
  | H : (_ <=? _)%nat = true |- _ => apply Nat.leb_le in H
  | H : (_ <=? _)%nat = false |- _ => apply Nat.leb_gt in H
  | H : (_ <? _)%nat = true |- _ => apply Nat.ltb_lt in H
  | H : (_ <? _)%nat = false |- _ => apply Nat.ltb_ge in H
  | H : (_ =? _)%nat = true |- _ => apply Nat.eqb_eq in H
  | H : (_ =? _)%nat = false |- _ => apply Nat.eqb_neq in H
  | H : String.eqb _ _ = true |- _ => apply String.eqb_eq in H
  | H : String.eqb _ _ = false |- _ => apply String.eqb_neq in H
  | H : Ascii.eqb _ _ = true |- _ => apply Ascii.eqb_eq in H
  | H : Ascii.eqb _ _ = false |- _ => apply Ascii.eqb_neq in H
  end.

(** ** Shared lemmas *)

#[export] Instance Ok_inj A : Inj (=) (=) (@Ok A).
Proof. by intros x y [= ->]. Qed.

Lemma res_bind_Ok {A B} (r : res A) (k : A → res B) b :
  res_bind r k = Ok b ↔ ∃ a, r = Ok a ∧ k a = Ok b.
Proof. destruct r; naive_solver. Qed.

Lemma res_bind_Raise {A B} (r : res A) (k : A → res B) e :
  res_bind r k = Raise e ↔ r = Raise e ∨ ∃ a, r = Ok a ∧ k a = Raise e.
Proof. destruct r; naive_solver. Qed.

(** A boolean function on [0 .. n-1] that is tested everywhere. *)
Definition forall_below (n : nat) (f : nat → bool) : bool := forallb f (seq 0 n).

Lemma forall_below_spec n f :
  forall_below n f = true ↔ ∀ i, i < n → f i = true.
Proof.
  unfold forall_below. rewrite forallb_forall. setoid_rewrite in_seq.
  split; intros H i Hi; apply H; lia.
Qed.

(** Membership in a list of strings, as [name in names] decides it. *)
Definition str_mem (x : string) (l : list string) : bool :=
  existsb (String.eqb x) l.

Lemma str_mem_spec x l : str_mem x l = true ↔ x ∈ l.
Proof.
  unfold str_mem. rewrite existsb_exists, list_elem_of_In.
  setoid_rewrite String.eqb_eq. naive_solver.
Qed.

#[export] Hint Rewrite @res_bind_Ok @res_bind_Raise : py_rw.
