(* ===== verification/PyStr.v ===== *)
(** Python's [str] methods as the scripts use them: [in], [find], [index],
    [rfind], [count], [replace], slices, [startswith], and what they promise,
    stated through occurrences [occ sub s i] (the text [sub] stands in [s] at
    index [i]).  [-1] results are [None]. *)
From S2P Require Import Prelude.

(** [strip_prefix p s] is [s] without its prefix [p], if it has it. *)
Fixpoint strip_prefix (p s : text) : option text :=
  match p, s with
  | [], _ => Some s
  | _ :: _, [] => None
  | a :: p', b :: s' => if Ascii.eqb a b then strip_prefix p' s' else None
  end.

(** [s.startswith(p)] *)
Definition py_startswith (s p : text) : bool :=
  match strip_prefix p s with Some _ => true | None => false end.

(** [s.find(sub)] *)
Fixpoint py_find (sub s : text) : option nat :=
  if py_startswith s sub then Some 0 else
  match s with
  | [] => None
  | _ :: s' => S <$> py_find sub s'
  end.

(** [s.find(sub, i)] *)
Definition py_find_from (sub s : text) (i : nat) : option nat :=
  if i <=? length s then Nat.add i <$> py_find sub (drop i s) else None.

(** [s.rfind(sub)] *)
Fixpoint py_rfind (sub s : text) : option nat :=
  match s with
  | [] => if py_startswith s sub then Some 0 else None
  | _ :: s' =>
      match py_rfind sub s' with
      | Some k => Some (S k)
      | None => if py_startswith s sub then Some 0 else None
      end
  end.

(** [sub in s] *)
Definition py_in (sub s : text) : bool :=
  match py_find sub s with Some _ => true | None => false end.

(** [s.index(sub)] and [s.index(sub, i)]: [find], but [-1] is an exception. *)
Definition py_index (sub s : text) : res nat :=
  match py_find sub s with
  | Some i => Ok i
  | None => Raise (ValueError "substring not found")
  end.

Definition py_index_from (sub s : text) (i : nat) : res nat :=
  match py_find_from sub s i with
  | Some i => Ok i
  | None => Raise (ValueError "substring not found")
  end.

(** [s.count(sub)], non-overlapping, left to right; [k] bytes are still to be
    skipped because they belong to the last occurrence counted. *)
Fixpoint count_skip (sub s : text) (k : nat) : nat :=
  match s with
  | [] => 0
  | _ :: s' =>
      match k with
      | S k' => count_skip sub s' k'
      | 0 => if py_startswith s sub
             then S (count_skip sub s' (length sub - 1))
             else count_skip sub s' 0
      end
  end.

Definition py_count (sub s : text) : nat :=
  match sub with
  | [] => S (length s)
  | _ => count_skip sub s 0
  end.

(** [s.replace(old, new, n)] for a non-empty [old]; [n = None] is no limit. *)
Fixpoint replace_skip (old new s : text) (n : option nat) (k : nat) : text :=
  match s with
  | [] => []
  | c :: s' =>
      match k with
      | S k' => replace_skip old new s' n k'
      | 0 =>
          match n with
          | Some 0 => s
          | _ =>
              if py_startswith s old
              then new ++ replace_skip old new s' (pred <$> n) (length old - 1)
              else c :: replace_skip old new s' n 0
          end
      end
  end.

(** The empty [old] occurs before every byte and at the end. *)
Fixpoint replace_empty (new s : text) (n : option nat) : text :=
  match n with
  | Some 0 => s
  | _ => new ++ match s with
                | [] => []
                | c :: s' => c :: replace_empty new s' (pred <$> n)
                end
  end.

Definition py_replace_opt (old new s : text) (n : option nat) : text :=
  match old with
  | [] => replace_empty new s n
  | _ => replace_skip old new s n 0
  end.

Definition py_replace (old new s : text) : text := py_replace_opt old new s None.
Definition py_replace_n (old new s : text) (n : nat) : text :=
  py_replace_opt old new s (Some n).

(** [s[i:j]], [s[:j]] and [s[i:]] for in-range or larger non-negative bounds *)
Definition py_slice (s : text) (i j : nat) : text := take (j - i) (drop i s).

Definition nl : ascii := "010".

(** [s.lstrip()] and [s.rstrip()]: ASCII white space *)
Definition is_space (c : ascii) : bool :=
  let n := nat_of_ascii c in
  ((9 <=? n) && (n <=? 13)) || ((28 <=? n) && (n <=? 32)).

Fixpoint py_lstrip (s : text) : text :=
  match s with
  | [] => []
  | c :: s' => if is_space c then py_lstrip s' else s
  end.

Definition py_rstrip (s : text) : text := rev (py_lstrip (rev s)).

(** [fmt % args] for a format with [%s] and [%%] only *)
Fixpoint py_fmt (fmt : text) (args : list text) : text :=
  match fmt with
  | "%"%char :: "s"%char :: r =>
      match args with
      | x :: args' => x ++ py_fmt r args'
      | [] => []
      end
  | "%"%char :: "%"%char :: r => "%"%char :: py_fmt r args
  | c :: r => c :: py_fmt r args
  | [] => []
  end.

(** ** Occurrences *)

Definition occ (sub s : text) (i : nat) : Prop :=
  ∃ a b, s = a ++ sub ++ b ∧ length a = i.

(** [sub] overlaps a shifted copy of itself: a proper prefix is a suffix. *)
Definition border_at (sub : text) (k : nat) : bool :=
  py_startswith sub (drop k sub).

Definition unbordered (sub : text) : bool :=
  forall_below (length sub - 1) (λ k, negb (border_at sub (S k))).

Section prefix.
Implicit Types p s r : text.

Lemma strip_prefix_Some p s r : strip_prefix p s = Some r ↔ s = p ++ r.
Proof.
  revert s. induction p as [|a p IH]; intros s; simpl.
  { naive_solver. }
  destruct s as [|b s]; [naive_solver|].
  destruct (Ascii.eqb_spec a b) as [->|Hn]; [rewrite IH|]; naive_solver.
Qed.

Lemma py_startswith_true p s : py_startswith s p = true ↔ ∃ r, s = p ++ r.
Proof.
  unfold py_startswith. destruct (strip_prefix p s) eqn:E.
  - apply strip_prefix_Some in E. naive_solver.
  - split; [done|]. intros [r Hr]. apply strip_prefix_Some in Hr. congruence.
Qed.

Lemma py_startswith_app p r : py_startswith (p ++ r) p = true.
Proof. apply py_startswith_true. eauto. Qed.

Lemma py_startswith_occ p s : py_startswith s p = true ↔ occ p s 0.
Proof.
  rewrite py_startswith_true. split.
  - intros [r ->]. by exists [], r.
  - intros ([|??] & b & -> & ?); simplify_eq/=. by exists b.
Qed.
End prefix.

Lemma occ_lookup sub s i :
  occ sub s i ↔
  i + length sub ≤ length s ∧ ∀ k, k < length sub → s !! (i + k) = sub !! k.
Proof.
  split.
  - intros (a & b & -> & <-). rewrite !length_app. split; [lia|].
    intros k Hk. rewrite lookup_app_r by lia.
    replace (length a + k - length a) with k by lia.
    by rewrite lookup_app_l.
  - intros [Hl Hk]. exists (take i s), (drop (i + length sub) s). split.
    + rewrite <-(take_drop i s) at 1. f_equal.
      rewrite <-(take_drop (length sub) (drop i s)), drop_drop. f_equal.
      apply list_eq. intros k. destruct (decide (k < length sub)).
      * rewrite lookup_take_lt, lookup_drop by lia. auto.
      * rewrite !lookup_ge_None_2; [done|lia|]. rewrite length_take; lia.
    + rewrite length_take. lia.
Qed.

Lemma occ_0_cons sub c s i : occ sub (c :: s) (S i) ↔ occ sub s i.
Proof.
  split.
  - intros ([|??] & b & ? & ?); simplify_eq/=. by eexists _, b.
  - intros (a & b & -> & <-). by exists (c :: a), b.
Qed.

Lemma occ_app_l sub a s i : occ sub s i → occ sub (a ++ s) (length a + i).
Proof.
  intros (a' & b & -> & <-). exists (a ++ a'), b.
  by rewrite length_app, <-app_assoc.
Qed.

Lemma occ_app_r sub s b i : occ sub s i → occ sub (s ++ b) i.
Proof. intros (a & b' & -> & <-). exists a, (b' ++ b). by rewrite <-!app_assoc. Qed.

Lemma occ_nil_nil sub i : occ sub [] i → sub = [].
Proof.
  intros (a & b & H & _). symmetry in H. apply app_nil in H as [_ H].
  by apply app_nil in H as [? _].
Qed.

#[export] Hint Resolve occ_app_l occ_app_r : py.

(** ** [find] and [in] *)

Lemma py_find_Some sub s i :
  py_find sub s = Some i ↔ occ sub s i ∧ ∀ j, j < i → ¬ occ sub s j.
Proof.
  revert i. induction s as [|c s IH]; intros i; simpl.
  - destruct (py_startswith [] sub) eqn:E.
    + apply py_startswith_occ in E. split.
      * intros [= <-]. split; [done|lia].
      * intros [Ho Hj]. destruct i; [done|]. exfalso. apply (Hj 0); [lia|done].
    + split; [done|]. intros [Ho _]. pose proof (occ_nil_nil _ _ Ho) as ->. done.
  - destruct (py_startswith (c :: s) sub) eqn:E.
    + apply py_startswith_occ in E. split.
      * intros [= <-]. split; [done|lia].
      * intros [Ho Hj]. destruct i; [done|]. exfalso. apply (Hj 0); [lia|done].
    + rewrite <-not_true_iff_false, py_startswith_occ in E.
      destruct i as [|i]; [destruct (py_find sub s); naive_solver|].
      rewrite occ_0_cons. transitivity (py_find sub s = Some i).
      { destruct (py_find sub s); naive_solver. }
      rewrite IH. split; intros [Ho Hj]; (split; [done|]).
      * intros [|j] ?; [done|]. rewrite occ_0_cons. apply Hj. lia.
      * intros j ? Hoj. apply (Hj (S j)); [lia|]. by apply occ_0_cons.
Qed.

Lemma py_find_None sub s : py_find sub s = None ↔ ∀ i, ¬ occ sub s i.
Proof.
  split.
  - intros Hf i. induction (lt_wf i) as [i _ IH]. intros Ho.
    assert (py_find sub s = Some i) by (apply py_find_Some; auto). congruence.
  - intros H. destruct (py_find sub s) eqn:E; [|done].
    apply py_find_Some in E as [? _]. by destruct (H n).
Qed.

Lemma py_rfind_None sub s : py_rfind sub s = None → ∀ j, ¬ occ sub s j.
Proof.
  induction s as [|c s IH]; simpl.
  - destruct (py_startswith [] sub) eqn:E; [done|]. intros _ j Ho.
    assert (sub = []) as -> by (by eapply occ_nil_nil). done.
  - destruct (py_rfind sub s); [done|]. destruct (py_startswith (c :: s) sub) eqn:E; [done|].
    intros _ [|j] Ho; [apply py_startswith_occ in Ho; congruence|].
    apply occ_0_cons in Ho. by apply (IH eq_refl j).
Qed.

(** [rfind] is the last occurrence, and finds one if there is one. *)
Lemma py_rfind_Some sub s k :
  py_rfind sub s = Some k → occ sub s k ∧ ∀ j, occ sub s j → j ≤ k.
Proof.
  revert k. induction s as [|c s IH]; intros k; simpl.
  - destruct (py_startswith [] sub) eqn:E; [|done]. intros [= <-].
    split; [by apply py_startswith_occ|]. intros j [Hj _]%occ_lookup. simpl in Hj. lia.
  - destruct (py_rfind sub s) as [j|] eqn:Hj.
    + intros [= <-]. destruct (IH j eq_refl) as [Ho Hm]. split; [by apply occ_0_cons|].
      intros [|i] Hi; [lia|]. apply occ_0_cons, Hm in Hi. lia.
    + destruct (py_startswith (c :: s) sub) eqn:E; [|done]. intros [= <-].
      split; [by apply py_startswith_occ|]. intros [|i] Hi; [done|].
      apply occ_0_cons in Hi. exfalso. by apply (py_rfind_None sub s Hj i).
Qed.

Lemma py_in_occ sub s : py_in sub s = true ↔ ∃ i, occ sub s i.
Proof.
  unfold py_in. destruct (py_find sub s) eqn:E.
  - apply py_find_Some in E as [? _]. naive_solver.
  - rewrite py_find_None in E. naive_solver.
Qed.

Lemma py_in_false sub s : py_in sub s = false ↔ ∀ i, ¬ occ sub s i.
Proof.
  rewrite <-not_true_iff_false, py_in_occ. naive_solver.
Qed.

Lemma py_in_app sub s : py_in sub s = true ↔ ∃ a b, s = a ++ sub ++ b.
Proof. rewrite py_in_occ. unfold occ. naive_solver. Qed.

Lemma py_in_mid a sub b : py_in sub (a ++ sub ++ b) = true.
Proof. apply py_in_app. eauto. Qed.

Lemma py_in_prefix sub b : py_in sub (sub ++ b) = true.
Proof. apply (py_in_mid []). Qed.

Lemma py_in_refl s : py_in s s = true.
Proof. apply py_in_app. exists [], []. by rewrite app_nil_r. Qed.

Lemma py_in_trans a b c : py_in a b = true → py_in b c = true → py_in a c = true.
Proof.
  rewrite !py_in_app. intros (x & y & ->) (u & v & ->).
  exists (u ++ x), (y ++ v). by rewrite <-!app_assoc.
Qed.

Lemma py_in_nil s : py_in [] s = true.
Proof. apply py_in_app. by exists [], s. Qed.

#[export] Hint Resolve py_in_mid py_in_refl py_in_nil : py.

(** ** [count] and [replace]: their equations *)

Section scan.
Implicit Types sub old new s r : text.

Lemma count_skip_drop sub s k : count_skip sub s k = count_skip sub (drop k s) 0.
Proof.
  revert k. induction s as [|c s IH]; intros [|k]; try done. apply IH.
Qed.

Lemma replace_skip_drop old new s n k :
  replace_skip old new s n k = replace_skip old new (drop k s) n 0.
Proof.
  revert k. induction s as [|c s IH]; intros [|k]; try done. apply IH.
Qed.

(** Scanning a text for [sub], left to right and without overlaps. *)
Lemma scan_ind sub (P : text → Prop) :
  sub ≠ [] → P [] → (∀ r, P r → P (sub ++ r)) →
  (∀ c s, py_startswith (c :: s) sub = false → P s → P (c :: s)) →
  ∀ s, P s.
Proof.
  intros Hne Hnil Hhit Hmiss s. induction (well_founded_ltof _ (length (A:=ascii)) s)
    as [s _ IH]. unfold ltof in IH.
  destruct s as [|c s]; [done|].
  destruct (py_startswith (c :: s) sub) eqn:E.
  - apply py_startswith_true in E as [r Hr]. rewrite Hr in *. apply Hhit, IH.
    rewrite length_app. destruct sub; simpl; [done|lia].
  - apply Hmiss, IH; [done|]. simpl; lia.
Qed.

Context (sub : text) (Hne : sub ≠ []).

Lemma scan_sub_ind (P : text → Prop) :
  P [] → (∀ r, P r → P (sub ++ r)) →
  (∀ c s, py_startswith (c :: s) sub = false → P s → P (c :: s)) →
  ∀ s, P s.
Proof. by apply scan_ind. Qed.

Lemma drop_tail_app r : drop (length sub - 1) (drop 1 (sub ++ r)) = r.
Proof.
  rewrite drop_drop. replace (1 + (length sub - 1)) with (length sub).
  - by rewrite drop_app_length.
  - destruct sub; simpl; [done|lia].
Qed.

Lemma count_hit r : py_count sub (sub ++ r) = S (py_count sub r).
Proof.
  pose proof (drop_tail_app r) as Hd. pose proof (py_startswith_app sub r) as Hs.
  unfold py_count. destruct sub as [|a sub'] eqn:Esub; [done|].
  rewrite <-app_comm_cons in *. cbn [count_skip]. rewrite Hs.
  rewrite count_skip_drop. rewrite skipn_cons, drop_0 in Hd. by rewrite Hd.
Qed.

Lemma count_miss c s :
  py_startswith (c :: s) sub = false → py_count sub (c :: s) = py_count sub s.
Proof.
  intros E. unfold py_count. destruct sub; [done|].
  cbn [count_skip]. by rewrite E.
Qed.

Lemma count_nil : py_count sub [] = 0.
Proof. unfold py_count. by destruct sub. Qed.

Lemma replace_hit new r n :
  n ≠ Some 0 →
  py_replace_opt sub new (sub ++ r) n = new ++ py_replace_opt sub new r (pred <$> n).
Proof.
  pose proof (drop_tail_app r) as Hd. pose proof (py_startswith_app sub r) as Hs.
  intros Hn. unfold py_replace_opt. destruct sub as [|a sub'] eqn:Esub; [done|].
  rewrite <-app_comm_cons in *. cbn [replace_skip]. rewrite Hs.
  rewrite (replace_skip_drop _ _ (sub' ++ r)). rewrite skipn_cons, drop_0 in Hd. rewrite Hd.
  by destruct n as [[|?]|].
Qed.

Lemma replace_miss new c s n :
  py_startswith (c :: s) sub = false →
  py_replace_opt sub new (c :: s) n = c :: py_replace_opt sub new s n.
Proof.
  intros E. unfold py_replace_opt. destruct sub; [done|].
  cbn [replace_skip]. rewrite E. destruct n as [[|?]|]; try done.
  by destruct s.
Qed.

Lemma replace_nil new n : py_replace_opt sub new [] n = [].
Proof. unfold py_replace_opt. by destruct sub. Qed.

Lemma replace_stop new s : py_replace_opt sub new s (Some 0) = s.
Proof. unfold py_replace_opt. destruct sub; [done|]. by destruct s. Qed.

Lemma in_cons_miss c s :
  py_startswith (c :: s) sub = false → py_in sub (c :: s) = py_in sub s.
Proof. intros E. unfold py_in. simpl. rewrite E. by destruct (py_find sub s). Qed.

Lemma count_zero s : py_count sub s = 0 ↔ py_in sub s = false.
Proof.
  induction s as [|r _|c s E IH] using scan_sub_ind.
  - rewrite count_nil, py_in_false. split; [|done].
    intros _ i Ho. by apply occ_nil_nil in Ho.
  - rewrite count_hit. split; [done|].
    by rewrite py_in_prefix.
  - by rewrite count_miss, in_cons_miss.
Qed.

Lemma count_pos s : 0 < py_count sub s ↔ py_in sub s = true.
Proof.
  pose proof (count_zero s) as H. destruct (py_in sub s).
  - destruct (py_count sub s); [naive_solver|]. split; [done|lia].
  - split; [|done]. assert (py_count sub s = 0) by tauto. lia.
Qed.

(** With [count = 1] the text splits around its first occurrence, and
    nothing is left to count behind it. *)
Lemma count_one_split s :
  py_count sub s = 1 →
  ∃ a b, s = a ++ sub ++ b ∧ py_find sub s = Some (length a) ∧ py_in sub b = false.
Proof.
  induction s as [|r _|c s E IH] using scan_sub_ind.
  - by rewrite count_nil.
  - rewrite count_hit. intros [= Hc]. apply count_zero in Hc.
    exists [], r. split; [done|]. split; [|done].
    apply py_find_Some. split; [by exists [], r|intros j Hj; simpl in Hj; lia].
  - rewrite count_miss by done. intros (a & b & -> & Hf & Hb)%IH.
    exists (c :: a), b. split; [done|]. split; [|done].
    simpl. rewrite E, Hf. done.
Qed.

Lemma find_split s i :
  py_find sub s = Some i → ∃ a b, s = a ++ sub ++ b ∧ length a = i.
Proof. intros [Ho _]%py_find_Some. exact Ho. Qed.

Lemma replace_absent new s n :
  py_in sub s = false → py_replace_opt sub new s n = s.
Proof.
  induction s as [|r _|c s E IH] using scan_sub_ind.
  - by rewrite replace_nil.
  - by rewrite py_in_prefix.
  - rewrite in_cons_miss, replace_miss by done. by intros ->%IH.
Qed.

Lemma replace_first new a b :
  py_find sub (a ++ sub ++ b) = Some (length a) →
  py_replace_n sub new (a ++ sub ++ b) 1 = a ++ new ++ b.
Proof.
  unfold py_replace_n. induction a as [|c a IH]; intros Hf.
  - cbn [app]. rewrite replace_hit by done. cbn. by rewrite replace_stop.
  - rewrite <-!app_comm_cons in *. cbn [py_find] in Hf.
    destruct (py_startswith (c :: a ++ sub ++ b) sub) eqn:E; [done|].
    rewrite replace_miss by done. f_equal. apply IH.
    by destruct (py_find sub (a ++ sub ++ b)); simplify_eq/=.
Qed.

Lemma replace_all_first new a b :
  py_find sub (a ++ sub ++ b) = Some (length a) → py_in sub b = false →
  py_replace sub new (a ++ sub ++ b) = a ++ new ++ b.
Proof.
  unfold py_replace. intros Hf Hb. induction a as [|c a IH].
  - cbn [app]. rewrite replace_hit by done. cbn. by rewrite replace_absent.
  - rewrite <-!app_comm_cons in *. cbn [py_find] in Hf.
    destruct (py_startswith (c :: a ++ sub ++ b) sub) eqn:E; [done|].
    rewrite replace_miss by done. f_equal. apply IH.
    by destruct (py_find sub (a ++ sub ++ b)); simplify_eq/=.
Qed.

(** Replacing everything leaves [new] in the text, if there was anything. *)
Lemma replace_new_in new s :
  py_in sub s = true → py_in new (py_replace sub new s) = true.
Proof.
  unfold py_replace. induction s as [|r _|c s E IH] using scan_sub_ind.
  - rewrite py_in_occ. by intros [i Ho%occ_nil_nil].
  - intros _. rewrite replace_hit by done. apply py_in_app. by eexists [], _.
  - rewrite in_cons_miss, replace_miss by done. intros Hi%IH.
    apply py_in_app in Hi as (a & b & ->). apply py_in_app. by exists (c :: a), b.
Qed.
End scan.

(** An occurrence of an unbordered text cannot overlap another one. *)
Lemma unbordered_occ sub s i j :
  unbordered sub = true → occ sub s i → occ sub s j → i < j → i + length sub ≤ j.
Proof.
  intros Hu Hi Hj Hlt. destruct (decide (i + length sub ≤ j)) as [|Hn]; [done|].
  exfalso. unfold unbordered in Hu. rewrite forall_below_spec in Hu.
  specialize (Hu (j - i - 1) ltac:(lia)).
  replace (S (j - i - 1)) with (j - i) in Hu by lia.
  apply negb_true_iff in Hu. unfold border_at in Hu.
  rewrite <-not_true_iff_false, py_startswith_occ in Hu. apply Hu.
  apply occ_lookup in Hi as [Hil Hik]. apply occ_lookup in Hj as [Hjl Hjk].
  apply occ_lookup. rewrite length_drop. split; [lia|]. intros k Hk.
  rewrite lookup_drop, <-(Hik (j - i + k)) by lia.
  replace (i + (j - i + k)) with (j + k) by lia. simpl. symmetry. apply Hjk. lia.
Qed.

(** For an unbordered text, [count = 1] is a unique occurrence. *)
Lemma count_one_unique sub s :
  unbordered sub = true → sub ≠ [] → py_count sub s = 1 →
  ∃ a b, s = a ++ sub ++ b ∧ py_find sub s = Some (length a) ∧
         ∀ i, occ sub s i → i = length a.
Proof.
  intros Hu Hne Hc. destruct (count_one_split sub Hne s Hc) as (a & b & -> & Hf & Hb).
  exists a, b. split; [done|]. split; [done|]. intros i Hi.
  apply py_find_Some in Hf as [Ha Hlt].
  destruct (decide (i < length a)); [by destruct (Hlt i)|].
  destruct (decide (i = length a)); [done|]. exfalso.
  pose proof (unbordered_occ _ _ _ _ Hu Ha Hi ltac:(lia)) as Hle.
  rewrite py_in_false in Hb. apply (Hb (i - (length a + length sub))).
  rewrite !occ_lookup in *. rewrite !length_app in Hi. destruct Hi as [Hl Hk].
  split; [lia|]. intros k Hkl. rewrite <-Hk by done.
  rewrite !lookup_app_r by lia. f_equal. lia.
Qed.

Lemma py_rstrip_snoc s c : is_space c = true → py_rstrip (s ++ [c]) = py_rstrip s.
Proof. intros Hc. unfold py_rstrip. rewrite rev_unit. simpl. by rewrite Hc. Qed.
