(* ===== verification/Stable.v ===== *)
(** What one textual edit can do to the occurrences of another text.

    An edit turns [a ++ old ++ b] into [a ++ new ++ b].  [no_create sub old new]
    is an executable test, on the three texts alone, that such an edit cannot
    make [sub] appear wherever [a] and [b] come from: every way of laying [sub]
    over the part of [new] that really differs from [old] meets a byte that
    disagrees.  Read with [old] and [new] exchanged it says that the edit cannot
    destroy an occurrence of [sub]. *)
From S2P Require Import Prelude PyStr.

(** The length of the longest common prefix, and of the longest common suffix. *)
Fixpoint lcp (x y : text) : nat :=
  match x, y with
  | a :: x', b :: y' => if Ascii.eqb a b then S (lcp x' y') else 0
  | _, _ => 0
  end.

Definition lcs (x y : text) : nat := lcp (rev x) (rev y).

(** [x] and [y] agree as far as both go. *)
Fixpoint agree (x y : text) : bool :=
  match x, y with
  | a :: x', b :: y' => Ascii.eqb a b && agree x' y'
  | _, _ => true
  end.

(** [f] holds of every tail of [x], with the number of bytes dropped. *)
Fixpoint all_tails (f : nat → text → bool) (k : nat) (x : text) : bool :=
  if f k x
  then match x with [] => true | _ :: x' => all_tails f (S k) x' end
  else false.

(** [sub] laid over [new] so that it ends [e] bytes after the start of [new]:
    either the tail of [sub] covers the start of [new], or [sub] starts at a
    tail of [new].  The layout is harmless when it stays in the common prefix
    or suffix of the edit, or when a byte disagrees. *)
Definition no_create (sub old new : text) : bool :=
  let p := lcp old new in
  let n := length sub in
  let h := n + length new - lcs old new in
  let outside e := if e <=? p then true else h <=? e in
  if all_tails (λ k x, if agree x new then outside (n - k) else true) 0 sub
  then all_tails (λ k y, if agree sub y then outside (n + k) else true) 0 new
  else false.

Section lemmas.
Implicit Types x y a b old new sub : text.

Lemma lcp_lookup x y k : k < lcp x y → x !! k = y !! k.
Proof.
  revert y k. induction x as [|c x IH]; intros [|d y] k; simpl; try lia.
  destruct (Ascii.eqb_spec c d) as [->|]; [|lia].
  destruct k; [done|]. intros ?. simpl. apply IH. lia.
Qed.

Lemma lcp_le x y : lcp x y ≤ length x ∧ lcp x y ≤ length y.
Proof.
  revert y. induction x as [|c x IH]; intros [|d y]; simpl; try lia.
  destruct (Ascii.eqb c d); [|lia]. specialize (IH y). lia.
Qed.

Lemma lcs_le x y : lcs x y ≤ length x ∧ lcs x y ≤ length y.
Proof. unfold lcs. pose proof (lcp_le (rev x) (rev y)). by rewrite !length_rev in *. Qed.

Lemma rev_lookup_back x k :
  k < length x → x !! k = rev x !! (length x - 1 - k).
Proof.
  intros Hk. rewrite rev_alt. change (rev_append x []) with (reverse x).
  rewrite reverse_lookup by lia. f_equal. lia.
Qed.

Lemma lcs_lookup x y k :
  k < lcs x y → x !! (length x - 1 - k) = y !! (length y - 1 - k).
Proof.
  intros Hk. pose proof (lcs_le x y).
  rewrite (rev_lookup_back x), (rev_lookup_back y) by lia.
  replace (length x - 1 - (length x - 1 - k)) with k by lia.
  replace (length y - 1 - (length y - 1 - k)) with k by lia.
  by apply lcp_lookup.
Qed.

Lemma all_tails_spec f k x :
  all_tails f k x = true → ∀ i, i ≤ length x → f (k + i) (drop i x) = true.
Proof.
  revert k. induction x as [|c x IH]; intros k; simpl; destruct (f k _) eqn:E; try done.
  - intros _ i Hi. replace i with 0 by lia. by rewrite Nat.add_0_r.
  - intros H [|i] Hi; [by rewrite Nat.add_0_r|]. rewrite <-Nat.add_succ_comm.
    apply (IH (S k)); [done|lia].
Qed.

Lemma agree_lookup x y :
  (∀ k c d, x !! k = Some c → y !! k = Some d → c = d) → agree x y = true.
Proof.
  revert y. induction x as [|c x IH]; intros [|d y] H; simpl; try done.
  apply andb_true_iff. split.
  - apply Ascii.eqb_eq. by apply (H 0).
  - apply IH. intros k. apply (H (S k)).
Qed.

(** A layout that touches the core of the edit meets a disagreement. *)
Lemma no_create_core sub old new e :
  no_create sub old new = true → lcp old new < e →
  e < length sub + length new - lcs old new →
  ¬ (∀ k c d, drop (length sub - e) sub !! k = Some c →
              drop (e - length sub) new !! k = Some d → c = d).
Proof.
  unfold no_create. intros H Hp Hq Hag. apply agree_lookup in Hag.
  match type of H with (if ?A then _ else _) = true => destruct A eqn:HA; [|done] end.
  destruct (decide (e ≤ length sub)) as [He|He].
  - pose proof (all_tails_spec _ _ _ HA (length sub - e) ltac:(lia)) as HT. simpl in HT.
    replace (length sub - (length sub - e)) with e in HT by lia.
    replace (e - length sub) with 0 in Hag by lia. rewrite drop_0 in Hag.
    rewrite Hag, !leb_correct_conv in HT by lia. done.
  - pose proof (all_tails_spec _ _ _ H (e - length sub) ltac:(lia)) as HT. simpl in HT.
    replace (length sub + (e - length sub)) with e in HT by lia.
    replace (length sub - e) with 0 in Hag by lia. rewrite drop_0 in Hag.
    rewrite Hag, !leb_correct_conv in HT by lia. done.
Qed.
End lemmas.

(** The text before and after an edit, byte by byte. *)
Section edit.
Context (a b old new : text).
Let s := a ++ old ++ b.
Let t := a ++ new ++ b.

Lemma edit_lookup_before j :
  j < length a + lcp old new → t !! j = s !! j.
Proof.
  intros Hj. unfold s, t. destruct (decide (j < length a)).
  { by rewrite !lookup_app_l. }
  pose proof (lcp_le old new).
  rewrite !(lookup_app_r a) by lia. rewrite !lookup_app_l by lia.
  symmetry. apply lcp_lookup. lia.
Qed.

Lemma edit_lookup_after j :
  length a + length new - lcs old new ≤ j →
  t !! j = s !! (j + length old - length new).
Proof.
  intros Hj. pose proof (lcs_le old new). unfold s, t.
  rewrite !(lookup_app_r a) by lia.
  destruct (decide (j - length a < length new)).
  - rewrite !lookup_app_l by lia.
    set (k := length new - 1 - (j - length a)).
    replace (j - length a) with (length new - 1 - k) by lia.
    replace (j + length old - length new - length a) with (length old - 1 - k) by lia.
    symmetry. apply lcs_lookup. lia.
  - rewrite !lookup_app_r by lia. f_equal. lia.
Qed.

Lemma edit_occ sub i :
  no_create sub old new = true → sub ≠ [] → occ sub t i →
  (occ sub s i ∧ i + length sub ≤ length a + lcp old new) ∨
  (length a + length new - lcs old new ≤ i ∧ occ sub s (i + length old - length new)).
Proof.
  intros Hnc Hne Ho. pose proof (lcp_le old new) as Hp. pose proof (lcs_le old new) as Hq.
  assert (0 < length sub) by (destruct sub; simpl; [done|lia]).
  rewrite !occ_lookup in *. destruct Ho as [Hlen Hk].
  assert (length t = length a + length new + length b) as Ht by
    (unfold t; rewrite !length_app; lia).
  assert (length s = length a + length old + length b) as Hs by
    (unfold s; rewrite !length_app; lia).
  destruct (decide (i + length sub ≤ length a + lcp old new)) as [Hl|Hl].
  { left. split; [|done]. split; [lia|]. intros k Hkl.
    rewrite <-Hk, edit_lookup_before by lia. done. }
  destruct (decide (length a + length new - lcs old new ≤ i)) as [Hr|Hr].
  { right. split; [done|]. split; [lia|]. intros k Hkl.
    rewrite <-Hk, (edit_lookup_after (i + k)) by lia. f_equal. lia. }
  exfalso. apply (no_create_core sub old new (i + length sub - length a)); [done|lia..|].
  intros k c d Hc1 Hc2. rewrite lookup_drop in Hc1, Hc2.
  pose proof (lookup_lt_Some _ _ _ Hc1). pose proof (lookup_lt_Some _ _ _ Hc2).
  rewrite <-Hk in Hc1 by lia. unfold t in Hc1.
  rewrite lookup_app_r in Hc1 by lia. rewrite lookup_app_l in Hc1 by lia.
  match type of Hc1 with new !! ?x = _ => match type of Hc2 with new !! ?y = _ =>
    replace x with y in Hc1 by lia end end.
  congruence.
Qed.

(** An edit that cannot create [sub] leaves it absent. *)
Lemma no_create_absent sub :
  no_create sub old new = true → sub ≠ [] → py_in sub s = false → py_in sub t = false.
Proof.
  intros Hnc Hne. rewrite !py_in_false. intros Hs i Ho.
  destruct (edit_occ sub i Hnc Hne Ho) as [[? _]|[_ ?]]; by eapply Hs.
Qed.
End edit.

(** The edit that takes its own text away: no occurrence is left or made. *)
Definition self_clearing (old new : text) : bool :=
  (lcp old new <? length old) && (lcs old new <? length old) &&
  unbordered old && no_create old old new.

Lemma self_clearing_absent old new s :
  self_clearing old new = true → old ≠ [] → py_count old s = 1 →
  ∃ a b, s = a ++ old ++ b ∧ py_find old s = Some (length a) ∧
         py_in old (a ++ new ++ b) = false.
Proof.
  unfold self_clearing. intros Hsc Hne Hc. bools.
  destruct (count_one_unique old s) as (a & b & -> & Hf & Hu); [done..|].
  exists a, b. split; [done|]. split; [done|].
  apply py_in_false. intros i Ho.
  destruct (edit_occ a b old new old i) as [[Ho' ?]|[? Ho']]; [done..| |].
  - apply Hu in Ho'. lia.
  - apply Hu in Ho'. pose proof (lcs_le old new). lia.
Qed.
