(* ===== verification/Git.v ===== *)
(** The interface to git that the rebuild scripts use.

    Git is not part of the repository: [Git] is what the scripts call, [GitLaws]
    what git documents of it (objects are never changed, an object that is
    already stored keeps its name, [rev-list --reverse base..tip] over a line of
    single-parent commits lists them oldest first), and [ListGit] one concrete
    store that satisfies the laws. *)
From Stdlib Require Import Sorted.
From S2P Require Import Prelude PyStr.

(** What [git log --format=%an], [%ae], [%ad], [%cn], [%ce], [%cd] print. *)
Record meta := Meta {
  m_an : string; m_ae : string; m_ad : string;
  m_cn : string; m_ce : string; m_cd : string;
}.

#[export] Instance meta_eq_dec : EqDecision meta.
Proof. solve_decision. Defined.

(** A commit object; its tree is given by the files it holds. *)
Record commit (sha : Type) := Commit {
  c_tree : gmap string text;
  c_parent : option sha;
  c_msg : text;
  c_meta : meta;
}.
Arguments Commit {sha} _ _ _ _.
Arguments c_tree {sha} _.
Arguments c_parent {sha} _.
Arguments c_msg {sha} _.
Arguments c_meta {sha} _.

#[export] Instance commit_eq_dec `{EqDecision sha} : EqDecision (commit sha).
Proof. solve_decision. Defined.

Class Git (sha repo : Type) := {
  (** the object of a commit name *)
  g_show : repo → sha → option (commit sha);
  (** [git rev-list --reverse base..tip] *)
  g_rev_list : repo → sha → sha → option (list sha);
  (** [git commit-tree tree -p parent < msg], with the identity in [env] *)
  g_commit_tree : repo → commit sha → repo * sha;
  (** [git log -1 --format=%B] *)
  g_log_B : commit sha → text;
  (** the clock behind a commit date the caller does not give *)
  g_now : repo → string;
}.

(** A line of commits, each the parent of the next, on top of [base]. *)
Fixpoint chain `{Git sha repo} (r : repo) (base : sha) (l : list sha) : Prop :=
  match l with
  | [] => True
  | h :: l' => (∃ c, g_show r h = Some c ∧ c_parent c = Some base) ∧ chain r h l'
  end.

Definition tip_of {sha : Type} (base : sha) (l : list sha) : sha := default base (last l).

Class GitLaws (sha repo : Type) `{Git sha repo} := {
  (** well-formed repositories: what git itself builds *)
  g_ok : repo → Prop;
  commit_tree_ok r c p r' h :
    g_ok r → c_parent c = Some p → is_Some (g_show r p) →
    g_commit_tree r c = (r', h) → g_ok r';
  (** a commit is stored with its parents *)
  ok_parent r h c p :
    g_ok r → g_show r h = Some c → c_parent c = Some p → is_Some (g_show r p);
  commit_tree_read r c r' h :
    g_commit_tree r c = (r', h) → g_show r' h = Some c;
  commit_tree_keep r c r' h x d :
    g_commit_tree r c = (r', h) → g_show r x = Some d → g_show r' x = Some d;
  commit_tree_stored r c h :
    g_ok r → g_show r h = Some c → g_commit_tree r c = (r, h);
  rev_list_chain r base l :
    g_ok r → is_Some (g_show r base) → chain r base l →
    g_rev_list r base (tip_of base l) = Some l;
  (** [%B] is the message; [log] ends each entry with a newline *)
  log_B_line c : g_log_B c = c_msg c ++ [nl];
}.

(** ** Branches and graphs, for the scripts that rewrite several branches at once *)

Class GitRefs (sha repo : Type) `{Git sha repo} := {
  (** [git rev-list --reverse --topo-order start^..b1 start^..b2 ...] *)
  g_topo : repo → sha → list sha → option (list sha);
  (** [git merge-base --is-ancestor a b] *)
  g_is_ancestor : repo → sha → sha → bool;
  (** [git rev-parse b], for a name that is a branch's and no other ref's *)
  g_ref : repo → string → option sha;
  (** [git update-ref refs/heads/branch new old] *)
  g_update_ref : repo → string → sha → sha → option repo;
  (** [git diff --name-only base c] *)
  g_diff_names : repo → sha → sha → list string;
  (** [git log -1 --format=%s] *)
  g_subject : commit sha → text;
}.

Class GitRefsLaws (sha repo : Type) `{GitLaws sha repo} `{!GitRefs sha repo} := {
  (** parents come before children, and every name is a commit *)
  topo_parents r start tips order i c cc p :
    g_ok r → g_topo r start tips = Some order → order !! i = Some c →
    g_show r c = Some cc → c_parent cc = Some p → p ∈ order → p ∈ take i order;
  topo_NoDup r start tips order : g_ok r → g_topo r start tips = Some order → NoDup order;
  topo_shown r start tips order c :
    g_ok r → g_topo r start tips = Some order → c ∈ order → is_Some (g_show r c);
  commit_tree_refs r c r' h b : g_commit_tree r c = (r', h) → g_ref r' b = g_ref r b;
  (** what git says about commits that are there does not change as others come *)
  commit_tree_ancestor r c p r' h x y :
    g_ok r → c_parent c = Some p → is_Some (g_show r p) → g_commit_tree r c = (r', h) →
    is_Some (g_show r y) → g_is_ancestor r' x y = g_is_ancestor r x y;
  commit_tree_diff r c r' h x y :
    g_commit_tree r c = (r', h) → is_Some (g_show r x) → is_Some (g_show r y) →
    g_diff_names r' x y = g_diff_names r x y;
  update_ref_moves r b new old :
    g_ref r b = Some old →
    ∃ r', g_update_ref r b new old = Some r' ∧ g_ref r' b = Some new ∧
          (∀ b', b' ≠ b → g_ref r' b' = g_ref r b') ∧ ∀ x, g_show r' x = g_show r x;
}.

(** Refs outside refs/heads, and refs set without an old value. *)
Class GitForce (sha repo : Type) `{Git sha repo} := {
  (** [git update-ref ref new] *)
  g_force_ref : repo → string → sha → repo;
  (** [git rev-parse ref], a full name *)
  g_read_ref : repo → string → option sha;
}.

(** The full name of a branch. *)
Definition heads (b : string) : string := String.append "refs/heads/" b.

#[export] Instance heads_inj : Inj (=) (=) heads.
Proof. intros x y [= ?]. done. Qed.

(** [p] is the parent of [x]; [a] is [h] or can be reached from it. *)
Definition parent_of `{Git sha repo} (r : repo) (x p : sha) : Prop :=
  ∃ c, g_show r x = Some c ∧ c_parent c = Some p.

Definition ancestor `{Git sha repo} (r : repo) (a h : sha) : Prop := rtc (parent_of r) h a.

(** What the graph questions mean. *)
Class GitGraphLaws (sha repo : Type) `{GitLaws sha repo} `{!GitRefs sha repo} `{!GitForce sha repo} := {
  is_ancestor_spec r a h :
    g_ok r → is_Some (g_show r h) → g_is_ancestor r a h = true ↔ ancestor r a h;
  (** a commit's name depends on its parents: no cycles *)
  ok_acyclic r x p : g_ok r → parent_of r x p → ¬ ancestor r x p;
  (** start^..b1 start^..b2: what some tip reaches and start^ does not *)
  topo_spec r start p tips order x :
    g_ok r → parent_of r start p → (∀ t, t ∈ tips → is_Some (g_show r t)) →
    g_topo r start tips = Some order →
    x ∈ order ↔ (∃ t, t ∈ tips ∧ ancestor r x t) ∧ ¬ ancestor r x p;
  topo_total r start p tips :
    g_ok r → parent_of r start p → (∀ t, t ∈ tips → is_Some (g_show r t)) →
    is_Some (g_topo r start tips);
  diff_names_spec r x y cx cy path :
    g_show r x = Some cx → g_show r y = Some cy →
    path ∈ g_diff_names r x y ↔ c_tree cx !! path ≠ c_tree cy !! path;
  update_ref_ok r b new old r' : g_ok r → g_update_ref r b new old = Some r' → g_ok r';
  force_ref_moves r name new :
    g_read_ref (g_force_ref r name new) name = Some new ∧
    (∀ name', name' ≠ name → g_read_ref (g_force_ref r name new) name' = g_read_ref r name') ∧
    ∀ x, g_show (g_force_ref r name new) x = g_show r x;
  (** a branch is the ref of its full name *)
  ref_branch r b : g_ref r b = g_read_ref r (heads b);
}.

(** Setting a ref moves the branch of that name and no other. *)
Lemma force_ref_branch `{GitGraphLaws sha repo} r name new b :
  g_ref (g_force_ref r name new) b = if decide (name = heads b) then Some new else g_ref r b.
Proof.
  destruct (force_ref_moves r name new) as (Hn & Ho & _). rewrite !ref_branch.
  destruct (decide (name = heads b)) as [->|]; [done|]. by apply Ho.
Qed.

Section chains.
Context `{GitLaws sha repo}.
Implicit Types (r : repo) (h base : sha) (l : list sha).

Lemma tip_of_snoc base l h : tip_of base (l ++ [h]) = h.
Proof. unfold tip_of. by rewrite last_snoc. Qed.

Lemma chain_snoc r base l h :
  chain r base (l ++ [h]) ↔
  chain r base l ∧ ∃ c, g_show r h = Some c ∧ c_parent c = Some (tip_of base l).
Proof.
  revert base. induction l as [|x l IH]; intros base; simpl; [naive_solver|].
  rewrite IH. assert (tip_of x l = tip_of base (x :: l)) as ->; [|naive_solver].
  unfold tip_of. rewrite last_cons. by destruct (last l).
Qed.

(** Adding objects keeps every line of commits. *)
Lemma chain_mono r r' base l :
  (∀ x d, g_show r x = Some d → g_show r' x = Some d) → chain r base l → chain r' base l.
Proof.
  intros Hk. revert base. induction l as [|x l IH]; intros base; simpl; [done|].
  intros [(c & Hc & Hp) Hl]. split; eauto.
Qed.
Lemma chain_shown r base l s : chain r base l → s ∈ l → is_Some (g_show r s).
Proof.
  revert base. induction l as [|x l IH]; intros base; simpl; [by intros _ ?%not_elem_of_nil|].
  intros [(c & Hc & _) Hl] [->|Hs]%elem_of_cons; [eauto|by eapply IH].
Qed.
End chains.

(** ** A concrete store: objects in a list, named by their position *)

Module ListGit.

Record repo := Repo {
  objects : list (commit nat);
  clock : string;
  refs : gmap string nat;
}.

Definition show (r : repo) (n : nat) : option (commit nat) := objects r !! n.

Definition position (c : commit nat) (l : list (commit nat)) : option nat :=
  fst <$> list_find (λ d, d = c) l.

Definition commit_tree (r : repo) (c : commit nat) : repo * nat :=
  match position c (objects r) with
  | Some n => (r, n)
  | None => (Repo (objects r ++ [c]) (clock r) (refs r), length (objects r))
  end.

(** Walk the parents of [h] down to [base]. *)
Fixpoint walk (fuel : nat) (r : repo) (base h : nat) (acc : list nat) : option (list nat) :=
  match fuel with
  | 0 => None
  | S fuel' =>
      if h =? base then Some acc
      else match show r h with
           | Some c => match c_parent c with
                       | Some p => walk fuel' r base p (h :: acc)
                       | None => Some (h :: acc)
                       end
           | None => None
           end
  end.

Definition rev_list (r : repo) (base tip : nat) : option (list nat) :=
  walk (S (length (objects r))) r base tip [].

(** [%B] is the message; [log] ends its output with a newline. *)
Definition log_B (c : commit nat) : text := c_msg c ++ [nl].

#[global] Instance list_git : Git nat repo := {
  g_show := show;
  g_rev_list := rev_list;
  g_commit_tree := commit_tree;
  g_log_B := log_B;
  g_now := clock;
}.

(** Objects are stored once, after their parent. *)
Definition ok (r : repo) : Prop :=
  NoDup (objects r) ∧ ∀ n c p, objects r !! n = Some c → c_parent c = Some p → p < n.

Lemma position_Some c l n : position c l = Some n → l !! n = Some c.
Proof.
  unfold position. destruct (list_find _ l) as [[i d]|] eqn:E; [|done].
  apply list_find_Some in E as (? & -> & _). simpl. by intros [= <-].
Qed.

Lemma position_None c l : position c l = None → c ∉ l.
Proof.
  unfold position. destruct (list_find _ l) as [[i d]|] eqn:E; [done|].
  intros _ Hin. apply list_find_None in E. rewrite Forall_forall in E. by apply (E c).
Qed.

Lemma walk_chain r base l acc fuel :
  ok r → is_Some (show r base) → chain r base l → tip_of base l < fuel →
  walk fuel r base (tip_of base l) acc = Some (l ++ acc).
Proof.
  intros [Hnd Hp] Hb. revert acc fuel. induction l as [|h l IH] using rev_ind;
    intros acc fuel Hc Hf.
  { destruct fuel; [lia|]. simpl. unfold tip_of. simpl. by rewrite Nat.eqb_refl. }
  apply chain_snoc in Hc as [Hl (c & Hs & Hpar)]. rewrite tip_of_snoc in *.
  destruct fuel as [|fuel]; [lia|]. simpl. simpl in Hs.
  assert (base ≤ tip_of base l) as Hle.
  { clear -Hl Hp. induction l as [|x l IH] using rev_ind; [done|].
    apply chain_snoc in Hl as [Hl (d & Hd & Hdp)]. rewrite tip_of_snoc.
    pose proof (Hp _ _ _ Hd Hdp). specialize (IH Hl). lia. }
  pose proof (Hp _ _ _ Hs Hpar) as Hlt.
  destruct (Nat.eqb_spec h base); [lia|]. rewrite Hs, Hpar.
  rewrite IH by (done || lia). by rewrite <-app_assoc.
Qed.

#[global] Program Instance list_git_laws : GitLaws nat repo := {| g_ok := ok |}.
Next Obligation.
  intros r c p r' h [Hnd Hp] Hpar [d Hd]. simpl in *. unfold commit_tree, show in *.
  destruct (position c (objects r)) eqn:E; intros [= <- <-]; [done|].
  apply position_None in E. split; simpl.
  - apply NoDup_app. split; [done|]. split; [|apply NoDup_singleton].
    intros x Hx ->%list_elem_of_singleton. done.
  - intros n e q Hn Hq. destruct (decide (n < length (objects r))).
    + rewrite lookup_app_l in Hn by done. by eapply Hp.
    + rewrite lookup_app_r in Hn by lia. apply list_lookup_singleton_Some in Hn as [? <-].
      pose proof (lookup_lt_Some _ _ _ Hd). simplify_eq. lia.
Qed.
Next Obligation.
  intros r h c p [_ Hp] Hc Hpar. simpl in *. pose proof (Hp _ _ _ Hc Hpar).
  apply lookup_lt_Some in Hc. apply lookup_lt_is_Some. lia.
Qed.
Next Obligation.
  intros r c r' h. simpl. unfold commit_tree, show.
  destruct (position c (objects r)) eqn:E; intros [= <- <-].
  - by apply position_Some.
  - simpl. rewrite lookup_app_r, Nat.sub_diag by lia. done.
Qed.
Next Obligation.
  intros r c r' h x d. simpl. unfold commit_tree, show.
  destruct (position c (objects r)) eqn:E; intros [= <- <-] Hx; simpl; [done|].
  by apply lookup_app_l_Some.
Qed.
Next Obligation.
  intros r c h [Hnd _]. simpl. unfold commit_tree, show. intros Hh.
  destruct (position c (objects r)) as [n|] eqn:E.
  - apply position_Some in E. by rewrite (NoDup_lookup _ _ _ _ Hnd E Hh).
  - apply position_None in E. destruct E. apply list_elem_of_lookup. eauto.
Qed.
Next Obligation.
  intros r base l Hok Hb Hc. simpl. unfold rev_list.
  rewrite walk_chain; [by rewrite app_nil_r|done..|].
  destruct l as [|x l _] using rev_ind.
  - unfold tip_of. simpl. destruct Hb as [? Hb]. apply lookup_lt_Some in Hb. lia.
  - rewrite tip_of_snoc. apply chain_snoc in Hc as [_ (c & Hs & _)].
    apply lookup_lt_Some in Hs. lia.
Qed.
Next Obligation. done. Qed.


(** [a] is [h] or one of its ancestors; parents have smaller numbers. *)
Fixpoint reach (fuel : nat) (r : repo) (a h : nat) : bool :=
  match fuel with
  | 0 => false
  | S fuel' =>
      (h =? a) ||
      match show r h with
      | Some c => match c_parent c with Some p => reach fuel' r a p | None => false end
      | None => false
      end
  end.

Definition is_ancestor (r : repo) (a h : nat) : bool := reach (S (length (objects r))) r a h.

Definition topo (r : repo) (start : nat) (tips : list nat) : option (list nat) :=
  match show r start with
  | Some c =>
      match c_parent c with
      | Some p => Some (List.filter (λ n, existsb (is_ancestor r n) tips && negb (is_ancestor r n p))
                          (seq 0 (length (objects r))))
      | None => None
      end
  | None => None
  end.

Definition update_ref (r : repo) (b : string) (new old : nat) : option repo :=
  if bool_decide (refs r !! heads b = Some old)
  then Some (Repo (objects r) (clock r) (<[heads b := new]> (refs r))) else None.

(** The paths whose contents differ. *)
Definition diff_names (r : repo) (base c : nat) : list string :=
  match show r base, show r c with
  | Some x, Some y =>
      List.filter (λ p, negb (bool_decide (c_tree x !! p = c_tree y !! p)))
        (elements (dom (c_tree x) ∪ dom (c_tree y)))
  | _, _ => []
  end.

(** The first line of the message. *)
Fixpoint first_line (s : text) : text :=
  match s with
  | c :: s' => if Ascii.eqb c nl then [] else c :: first_line s'
  | [] => []
  end.

#[global] Instance list_git_refs : GitRefs nat repo := {
  g_topo := topo;
  g_is_ancestor := is_ancestor;
  g_ref r b := refs r !! heads b;
  g_update_ref := update_ref;
  g_diff_names := diff_names;
  g_subject c := first_line (c_msg c);
}.

(** Any fuel above the number of the commit gives the same answer. *)
Lemma reach_fuel r r' a h f f' :
  ok r → (∀ x c, show r x = Some c → show r' x = Some c) → is_Some (show r h) →
  h < f → h < f' → reach f' r' a h = reach f r a h.
Proof.
  intros [_ Hp] Hk. revert h f'. induction f as [|f IH]; intros h f' [c Hc] Hf Hf'; [lia|].
  destruct f' as [|f']; [lia|]. simpl. rewrite Hc, (Hk _ _ Hc).
  destruct (c_parent c) as [p|] eqn:Epc; [|done]. f_equal.
  pose proof (Hp _ _ _ Hc Epc) as Hlt. apply IH; try lia.
  unfold show in *. apply lookup_lt_Some in Hc. apply lookup_lt_is_Some. lia.
Qed.

Lemma seq_filter_before (f : nat → bool) n i c p :
  List.filter f (seq 0 n) !! i = Some c → p ∈ List.filter f (seq 0 n) → p < c →
  p ∈ take i (List.filter f (seq 0 n)).
Proof.
  intros Hc Hp Hlt.
  assert (∀ l, StronglySorted lt l → ∀ i, l !! i = Some c → p ∈ l → p ∈ take i l) as Hl.
  { clear -Hlt. induction 1 as [|x l Hs IH Hx]; intros i Hi Hp; [done|].
    destruct i as [|i]; simplify_eq/=.
    - apply elem_of_cons in Hp as [->|Hp]; [lia|].
      rewrite Forall_forall in Hx. specialize (Hx p Hp). lia.
    - apply elem_of_cons in Hp as [->|Hp]; [by left|right; by apply IH]. }
  apply Hl; [|done..]. generalize 0. clear. induction n as [|n IH]; intros k; simpl; [constructor|].
  assert (∀ m, m ∈ List.filter f (seq (S k) n) → k < m) as Hk.
  { intros m Hm. apply list_elem_of_In, filter_In in Hm as [Hm _]. apply in_seq in Hm. lia. }
  destruct (f k); [|apply IH]. constructor; [apply IH|]. by apply Forall_forall.
Qed.

#[global] Program Instance list_git_refs_laws : GitRefsLaws nat repo := {}.
Next Obligation.
  intros r start tips order i c cc p [_ Hok]. simpl. unfold topo.
  destruct (show r start) as [sc|]; [|done]. destruct (c_parent sc); [|done].
  intros [= <-] Hi Hc Hp Hin. eapply seq_filter_before; [done..|]. by eapply Hok.
Qed.
Next Obligation.
  intros r start tips order _. simpl. unfold topo.
  destruct (show r start) as [sc|]; [|done]. destruct (c_parent sc); [|done].
  intros [= <-]. apply NoDup_ListNoDup, List.NoDup_filter, seq_NoDup.
Qed.
Next Obligation.
  intros r start tips order c _. simpl. unfold topo.
  destruct (show r start) as [sc|]; [|done]. destruct (c_parent sc); [|done].
  intros [= <-] Hc. apply list_elem_of_In, filter_In in Hc as [Hc _]. apply in_seq in Hc.
  unfold show. apply lookup_lt_is_Some. lia.
Qed.
Next Obligation.
  intros r c r' h b. simpl. unfold commit_tree.
  by destruct (position c (objects r)); intros [= <- <-].
Qed.
Next Obligation.
  intros r c p r' h x y Hok Hpar Hp Hct Hy. pose proof (λ z d, commit_tree_keep r c r' h z d Hct) as Hk.
  simpl in *. unfold is_ancestor. apply reach_fuel; try done.
  - destruct Hy as [? Hy%lookup_lt_Some]. lia.
  - destruct Hy as [d Hy]. apply Hk, lookup_lt_Some in Hy. lia.
Qed.
Next Obligation.
  intros r c r' h x y Hct [d Hx] [e Hy]. pose proof (commit_tree_keep r c r' h x d Hct Hx) as Hx'.
  pose proof (commit_tree_keep r c r' h y e Hct Hy) as Hy'. simpl in *. unfold diff_names.
  by rewrite Hx, Hy, Hx', Hy'.
Qed.
Next Obligation.
  intros r b new old Hb. simpl in *. unfold update_ref. rewrite bool_decide_eq_true_2 by done.
  eexists. split; [done|]. simpl. split; [by rewrite lookup_insert_eq|].
  split; [|done]. intros b' Hne. rewrite lookup_insert_ne; [done|]. by intros ->%(inj heads).
Qed.

#[global] Instance list_git_force : GitForce nat repo := {
  g_force_ref r name new := Repo (objects r) (clock r) (<[name := new]> (refs r));
  g_read_ref r name := refs r !! name;
}.

Lemma reach_spec r a h f :
  ok r → is_Some (show r h) → h < f → reach f r a h = true ↔ ancestor r a h.
Proof.
  intros [_ Hp]. revert h. induction f as [|f IH]; intros h [c Hc] Hf; [lia|]. simpl. rewrite Hc.
  rewrite orb_true_iff, Nat.eqb_eq. split.
  - intros [->|H]; [apply rtc_refl|]. destruct (c_parent c) as [p|] eqn:Ep; [|done].
    pose proof (Hp _ _ _ Hc Ep). apply rtc_l with p; [by exists c|]. apply IH; [|lia|by rewrite <-H].
    apply lookup_lt_Some in Hc. apply lookup_lt_is_Some. lia.
  - intros Ha. apply rtc_inv in Ha as [->|(p & (d & Hd & Hdp) & Ha)]; [by left|right].
    simpl in Hd. rewrite Hc in Hd. injection Hd as <-. rewrite Hdp.
    pose proof (Hp _ _ _ Hc Hdp). apply IH; [|lia|done].
    apply lookup_lt_Some in Hc. apply lookup_lt_is_Some. lia.
Qed.

Lemma ancestor_le r a h : ok r → ancestor r a h → a ≤ h.
Proof.
  intros [_ Hp]. induction 1 as [|x y z (c & Hc & Hcp) _ IH]; [done|].
  pose proof (Hp _ _ _ Hc Hcp). lia.
Qed.

Lemma is_ancestor_reach r a h :
  ok r → is_Some (show r h) → is_ancestor r a h = true ↔ ancestor r a h.
Proof.
  intros Hok Hh. apply reach_spec; [done..|]. destruct Hh as [c Hc%lookup_lt_Some]. lia.
Qed.

#[global] Program Instance list_git_graph_laws : GitGraphLaws nat repo := {}.
Next Obligation. intros. by apply is_ancestor_reach. Qed.
Next Obligation.
  intros r x p Hok (c & Hc & Hcp) Ha. apply ancestor_le in Ha; [|done].
  pose proof (proj2 Hok _ _ _ Hc Hcp). lia.
Qed.
Next Obligation.
  intros r start p tips order x Hok (sc & Hs & Hsp) Ht. simpl in *. unfold topo. rewrite Hs, Hsp.
  intros [= <-]. rewrite list_elem_of_In, filter_In, andb_true_iff, existsb_exists, in_seq, negb_true_iff.
  assert (is_Some (show r p)) as Hp.
  { pose proof (proj2 Hok _ _ _ Hs Hsp). apply lookup_lt_Some in Hs. apply lookup_lt_is_Some. lia. }
  rewrite <-not_true_iff_false, is_ancestor_reach by done. split.
  - intros (_ & (t & Hin & Ha) & Hn). split; [|done]. apply list_elem_of_In in Hin.
    exists t. split; [done|]. apply is_ancestor_reach in Ha; auto.
  - intros ((t & Hin & Ha) & Hn). destruct (Ht t Hin) as [tc Htc].
    split; [|split; [|done]].
    + apply ancestor_le in Ha; [|done]. apply lookup_lt_Some in Htc. lia.
    + exists t. split; [by apply list_elem_of_In|]. apply is_ancestor_reach; eauto.
Qed.
Next Obligation.
  intros r start p tips _ (sc & Hs & Hsp) _. simpl in *. unfold topo. rewrite Hs, Hsp. by eexists.
Qed.
Next Obligation.
  intros r x y cx cy path Hx Hy. simpl in *. unfold diff_names. rewrite Hx, Hy.
  rewrite list_elem_of_In, filter_In, negb_true_iff, bool_decide_eq_false.
  rewrite <-list_elem_of_In, elem_of_elements, elem_of_union, !elem_of_dom.
  split; [by intros [_ ?]|]. intros Hne. split; [|done].
  destruct (c_tree cx !! path); [left; eauto|]. destruct (c_tree cy !! path); [right; eauto|done].
Qed.
Next Obligation.
  intros r b new old r' Hok. simpl. unfold update_ref. case_bool_decide; [|done].
  by intros [= <-].
Qed.
Next Obligation.
  intros r name new. simpl. split; [by rewrite lookup_insert_eq|].
  split; [intros; by rewrite lookup_insert_ne|done].
Qed.
Next Obligation. done. Qed.

End ListGit.
