(* ===== verification/R3Engine.v ===== *)
(** The transform engine of docs/rounds/r3-0913/r3fix.py, which every later
    round's fix table (r0918fix, r0920fix, r0921fix, b1fix, b2fix, b2bfix)
    runs on: [allowed], [transform_text] and [apply].

    A tree is the files of a checked-out worktree, [gmap string text].  [apply]
    reads each file it needs once, runs every allowed row over the cached text
    and writes the changed files at the end. *)
From S2P Require Import Prelude PyStr Stable.

Module R3.

(** ** Data *)

(** A row of [T]: [dict(id, path, old, new, only, since, all)], or with a
    function [fn] in place of [old], [new] and [all]. *)
Inductive body :=
  | Subst (old new : text) (all : bool)
  | Fn (fn : text → res (text * bool)).

Record transform := Tr {
  tr_id : string;
  tr_path : string;
  tr_body : body;
  tr_only : option (list string);
  tr_since : option string;
}.

Definition MSG : string := "<MSG>".

(** The calls [t(...)] and [f(...)] that fill a table. *)
Definition r3_t (tid path : string) (old new : text) (only : option (list string))
    (since : option string) (count_all : bool) : transform :=
  Tr tid path (Subst old new count_all) only since.

Definition r3_f (tid path : string) (fn : text → res (text * bool))
    (only : option (list string)) (since : option string) : transform :=
  Tr tid path (Fn fn) only since.

Abbreviation tree := (gmap string text).

(** [ORDER.index(name)] *)
Fixpoint list_index (l : list string) (x : string) : res nat :=
  match l with
  | [] => Raise (ValueError (x +:+ " is not in list"))
  | y :: l' =>
      if String.eqb y x then Ok 0
      else let! k := list_index l' x in Ok (S k)
  end.

(** ** The engine *)

Definition allowed (ORDER : list string) (tr : transform) (name : string) : res bool :=
  if (match tr_only tr with Some only => negb (str_mem name only) | None => false end)
  then Ok false
  else match tr_since tr with
       | Some since =>
           let! i := list_index ORDER name in
           let! j := list_index ORDER since in
           if i <? j then Ok false else Ok true
       | None => Ok true
       end.

Definition transform_text (tr : transform) (s : text) : res (text * bool) :=
  match tr_body tr with
  | Fn fn => fn s
  | Subst old new all =>
      let n := py_count old s in
      if n =? 0 then Ok (s, false)
      else if py_in old new && py_in new s then Ok (s, false)
      else if all then Ok (py_replace old new s, true)
      else if negb (n =? 1) then
        Raise (RuntimeError (tr_id tr +:+ ": old text occurs " +:+ pretty (N.of_nat n)
                             +:+ " times"))
      else Ok (py_replace_n old new s 1, true)
  end.

(** [open(p).read()]: universal newlines turn CR LF and CR into LF. *)
Fixpoint universal_newlines (s : text) : text :=
  match s with
  | "013"%char :: "010"%char :: r => "010"%char :: universal_newlines r
  | "013"%char :: r => "010"%char :: universal_newlines r
  | c :: r => c :: universal_newlines r
  | [] => []
  end.

Definition read (tr : tree) (p : string) : option text :=
  universal_newlines <$> tr !! p.

(** The variables of [apply]'s loop. *)
Record loop := Loop {
  l_msg : text;
  l_cache : tree;
  l_applied : list string;
}.

Definition record_ok (ok : bool) (tid : string) (applied : list string) : list string :=
  if ok then applied ++ [tid] else applied.

(** One iteration of [for tr in T]. *)
Definition apply_row (ORDER : list string) (wt : tree) (name : string)
    (l : loop) (tr : transform) : res loop :=
  let! go := allowed ORDER tr name in
  if negb go then Ok l
  else if String.eqb (tr_path tr) MSG then
    let! r := transform_text tr (l_msg l) in
    Ok (Loop r.1 (l_cache l) (record_ok r.2 (tr_id tr) (l_applied l)))
  else
    let cached := match l_cache l !! tr_path tr with
                  | Some s => Some s
                  | None => read wt (tr_path tr)
                  end in
    match cached with
    | None => Ok l
    | Some s =>
        let! r := transform_text tr s in
        Ok (Loop (l_msg l) (<[tr_path tr := r.1]> (l_cache l))
                 (record_ok r.2 (tr_id tr) (l_applied l)))
    end.

Fixpoint apply_rows (ORDER : list string) (wt : tree) (name : string)
    (l : loop) (T : list transform) : res loop :=
  match T with
  | [] => Ok l
  | tr :: T' => let! l' := apply_row ORDER wt name l tr in apply_rows ORDER wt name l' T'
  end.

(** [for path, text in cache.items()]: write what changed. *)
Fixpoint flush (wt : tree) (cache : list (string * text)) : tree * res unit :=
  match cache with
  | [] => (wt, Ok ())
  | (path, s) :: cache' =>
      match read wt path with
      | None => (wt, Raise (FileNotFoundError path))
      | Some cur => flush (if bool_decide (cur = s) then wt else <[path := s]> wt) cache'
      end
  end.

Definition apply (ORDER : list string) (T : list transform)
    (wt : tree) (name : string) (msg : text) : tree * res (text * list string) :=
  match apply_rows ORDER wt name (Loop msg ∅ []) T with
  | Raise e => (wt, Raise e)
  | Ok l =>
      match flush wt (map_to_list (l_cache l)) with
      | (wt', Raise e) => (wt', Raise e)
      | (wt', Ok _) => (wt', Ok (l_msg l, l_applied l))
      end
  end.

(** ** The module state, and the tables that borrow the engine *)

(** The module globals of r3fix that a later table replaces. *)
Record globals := Globals { g_ORDER : list string; g_T : list transform }.

(** [apply] of r0918fix, r0920fix, r0921fix, b1fix, b2fix and b2bfix: put the
    table in, call [r3fix.apply], put the old table back also on an exception. *)
Definition apply_with (T : list transform) (g : globals)
    (wt : tree) (name : string) (msg : text)
    : globals * (tree * res (text * list string)) :=
  let saved := g_T g in
  let g1 := Globals (g_ORDER g) T in
  let r := apply (g_ORDER g1) (g_T g1) wt name msg in
  (Globals (g_ORDER g1) saved, r).

End R3.
