(* ===== verification/R3Facts.v ===== *)
(** Facts about the engine of R3Engine.v: what one row does to one text, how
    [apply]'s cache relates to the files, and the checks under which a table is
    idempotent. *)
From S2P Require Import Prelude PyStr Stable R3Engine.
Import R3.

(** ** One row on one text *)

(** The guard that skips an insertion already made. *)
Definition inserted (old new s : text) : bool := py_in old new && py_in new s.

Section row.
Context (tid path : string) (old new : text) (only : option (list string))
        (since : option string).
Let row := Tr tid path (Subst old new false) only since.

Lemma row_skip s :
  py_count old s = 0 ∨ inserted old new s = true → transform_text row s = Ok (s, false).
Proof.
  unfold transform_text, inserted. simpl. intros [->|H]; [done|].
  destruct (py_count old s =? 0); [done|]. by rewrite H.
Qed.

Lemma row_cases s :
  match transform_text row s with
  | Ok (t, false) => t = s ∧ (py_count old s = 0 ∨ inserted old new s = true)
  | Ok (t, true) => py_count old s = 1 ∧ inserted old new s = false ∧
                    t = py_replace_n old new s 1
  | Raise _ => 2 ≤ py_count old s ∧ inserted old new s = false
  end.
Proof.
  unfold transform_text, inserted. simpl.
  destruct (py_count old s =? 0) eqn:E0; bools; [auto|].
  destruct (py_in old new && py_in new s) eqn:Ei; [auto|].
  destruct (py_count old s =? 1) eqn:E1; bools; simpl; [auto|]. lia.
Qed.

(** A row that fires rewrites the first occurrence and nothing else. *)
Lemma row_fires s t :
  old ≠ [] → transform_text row s = Ok (t, true) →
  ∃ a b, s = a ++ old ++ b ∧ t = a ++ new ++ b ∧
         py_count old s = 1 ∧ py_find old s = Some (length a).
Proof.
  intros Hne Ht. pose proof (row_cases s) as H. rewrite Ht in H.
  destruct H as (Hc & _ & ->).
  destruct (count_one_split old Hne s Hc) as (a & b & -> & Hf & Hb).
  exists a, b. split; [done|]. split; [|done]. by apply replace_first.
Qed.
End row.

(** ** Line endings *)

Definition crfree (s : text) : bool := forallb (λ c, negb (Ascii.eqb c "013")) s.

Lemma crfree_app a b : crfree (a ++ b) = crfree a && crfree b.
Proof. apply forallb_app. Qed.

Lemma universal_cons c s :
  c ≠ "013"%char → universal_newlines (c :: s) = c :: universal_newlines s.
Proof. intros Hc. by destruct c as [[] [] [] [] [] [] [] []]. Qed.

Lemma universal_crfree s : crfree (universal_newlines s) = true.
Proof.
  induction (well_founded_ltof _ (length (A:=ascii)) s) as [s _ IH]. unfold ltof in IH.
  destruct s as [|c s]; [done|]. destruct (decide (c = "013"%char)) as [->|Hc].
  - destruct s as [|d s]; [done|]. destruct (decide (d = "010"%char)) as [->|Hd].
    + simpl. apply IH. simpl; lia.
    + transitivity (crfree (universal_newlines (d :: s))); [|apply IH; simpl; lia].
      by destruct d as [[] [] [] [] [] [] [] []].
  - rewrite universal_cons by done. unfold crfree in *. cbn [forallb].
    rewrite IH by (simpl; lia).
    destruct (Ascii.eqb_spec c "013"); [done|]. done.
Qed.

Lemma crfree_universal s : crfree s = true → universal_newlines s = s.
Proof.
  induction s as [|c s IH]; [done|]. unfold crfree in *. cbn [forallb]. intros Hc. bools.
  rewrite universal_cons by done. by rewrite IH.
Qed.

Lemma read_crfree (wt : tree) p s : read wt p = Some s → crfree s = true.
Proof. intros (bs & _ & ->)%fmap_Some. apply universal_crfree. Qed.

(** ** Settled rows *)

(** [settled row s]: the row has nothing left to do in [s]. *)
Definition settled (b : body) (s : text) : Prop :=
  match b with
  | Subst old new _ => py_in old s = false ∨ inserted old new s = true
  | Fn fn => fn s = Ok (s, false)
  end.

(** The executable conditions on a table. *)
Definition row_ok (b : body) : bool :=
  match b with
  | Subst old new all =>
      negb (bool_decide (old = [])) && negb all &&
      (if py_in old new then true else self_clearing old new) && crfree new
  | Fn _ => false
  end.

(** Row [y], run after row [x] on the same text, cannot unsettle it. *)
Definition pair_ok (x y : body) : bool :=
  match x, y with
  | Subst old new _, Subst old' new' _ =>
      no_create old old' new' && (if py_in old new then no_create new new' old' else true)
  | _, _ => false
  end.

Fixpoint rows_ok (T : list transform) : bool :=
  match T with
  | [] => true
  | x :: T' =>
      row_ok (tr_body x) &&
      forallb (λ y, if String.eqb (tr_path x) (tr_path y)
                    then pair_ok (tr_body x) (tr_body y) else true) T' &&
      rows_ok T'
  end.

Lemma transform_settled tr s :
  row_ok (tr_body tr) = true → settled (tr_body tr) s → transform_text tr s = Ok (s, false).
Proof.
  destruct tr as [tid path [old new all|fn] only since]; simpl; [|done].
  unfold row_ok. intros Hok Hs. bools. case_bool_decide; [done|].
  destruct all; [done|]. apply row_skip.
  destruct Hs as [Hs|Hs]; [left|by right]. by apply count_zero.
Qed.

Lemma transform_settles tr s t ok :
  row_ok (tr_body tr) = true → transform_text tr s = Ok (t, ok) → settled (tr_body tr) t.
Proof.
  destruct tr as [tid path [old new all|fn] only since]; simpl; [|done].
  intros Hok Ht. bools. case_bool_decide as Hne; [done|]. destruct all; [done|].
  destruct ok.
  - destruct (row_fires _ _ _ _ _ _ _ _ Hne Ht) as (a & b & -> & -> & Hc & Hf).
    destruct (py_in old new) eqn:Ein.
    { right. unfold inserted. by rewrite Ein, py_in_mid. }
    left. simpl in *. destruct (self_clearing_absent old new (a ++ old ++ b))
      as (a' & b' & Heq & Hf' & Hin); [done..|].
    assert (length a = length a') as Hl by congruence.
    apply app_inj_1 in Heq as [-> Heq]; [|done].
    by apply app_inv_head in Heq as ->.
  - pose proof (row_cases tid path old new only since s) as Hc. rewrite Ht in Hc.
    destruct Hc as [-> [Hc|Hc]]; [left|by right]. by apply count_zero.
Qed.

Lemma settled_preserved x y s t ok :
  row_ok (tr_body x) = true → row_ok (tr_body y) = true →
  pair_ok (tr_body x) (tr_body y) = true → settled (tr_body x) s →
  transform_text y s = Ok (t, ok) → settled (tr_body x) t.
Proof.
  destruct x as [xi xp [old new all|fn] xo xs], y as [yi yp [old' new' all'|fn'] yo ys];
    simpl; try done.
  intros Hx Hy Hp Hs Ht. bools. case_bool_decide as Hne'; [done|].
  case_bool_decide as Hne; [done|]. destruct all, all'; try done.
  destruct ok.
  2: { pose proof (row_cases yi yp old' new' yo ys s) as Hc. rewrite Ht in Hc.
       by destruct Hc as [-> _]. }
  destruct (row_fires yi yp old' new' yo ys s t ltac:(done) Ht)
    as (a & b & -> & -> & _ & _).
  destruct Hs as [Hs|Hs].
  { left. by apply no_create_absent with old'. }
  right. unfold inserted in *. bools.
  match goal with H : py_in old new = true |- _ => rewrite H in *; simpl in * end.
  match goal with H : py_in new _ = true |- _ => apply py_in_occ in H as [i Ho] end.
  apply py_in_occ.
  assert (new ≠ []) as Hnn.
  { intros ->. match goal with H : py_in old [] = true |- _ =>
      apply py_in_occ in H as [? ?%occ_nil_nil] end. done. }
  destruct (edit_occ a b new' old' new i) as [[? _]|[_ ?]]; eauto.
Qed.

Lemma transform_crfree tr s t ok :
  row_ok (tr_body tr) = true → crfree s = true → transform_text tr s = Ok (t, ok) →
  crfree t = true.
Proof.
  destruct tr as [tid path [old new all|fn] only since]; simpl; [|done].
  intros Hok Hs Ht. bools. case_bool_decide as Hne; [done|]. destruct all; [done|].
  destruct ok.
  - destruct (row_fires _ _ _ _ _ _ _ _ Hne Ht) as (a & b & -> & -> & _).
    rewrite !crfree_app in *. bools. by repeat (apply andb_true_iff; split).
  - pose proof (row_cases tid path old new only since s) as Hc. rewrite Ht in Hc.
    by destruct Hc as [-> _].
Qed.
