(* ===== verification/R3Refine.v ===== *)
(** [apply] against its specification.

    The specification forgets the cache, the laziness and the line endings: it
    is a fold of the rows over one map that holds the decoded files and, under
    the key [MSG], the commit message.  [apply_refines] shows that [apply]
    computes exactly that, writes exactly the files whose text changed, and
    leaves the worktree alone when a row raises. *)
From S2P Require Import Prelude PyStr Stable R3Engine R3Facts.
Import R3.

(** ** Specification *)

Definition doc_of (wt : tree) (msg : text) : tree :=
  <[MSG := msg]> (universal_newlines <$> wt).

Definition spec_row (ORDER : list string) (name : string) (d : tree) (tr : transform)
    : res (tree * list string) :=
  let! go := allowed ORDER tr name in
  if negb go then Ok (d, [])
  else match d !! tr_path tr with
       | None => Ok (d, [])
       | Some s =>
           let! r := transform_text tr s in
           Ok (<[tr_path tr := r.1]> d, if r.2 : bool then [tr_id tr] else [])
       end.

Fixpoint spec_rows (ORDER : list string) (name : string) (d : tree) (T : list transform)
    : res (tree * list string) :=
  match T with
  | [] => Ok (d, [])
  | tr :: T' =>
      let! r := spec_row ORDER name d tr in
      let! r' := spec_rows ORDER name r.1 T' in
      Ok (r'.1, r.2 ++ r'.2)
  end.

(** The file left on disk for a decoded text [s] over the bytes [cur]. *)
Definition written (s cur : text) : text :=
  if bool_decide (universal_newlines cur = s) then cur else s.

(** ** Simulation of the loop *)

Definition sim (wt : tree) (l : loop) (d : tree) : Prop :=
  d = <[MSG := l_msg l]> (l_cache l ∪ (universal_newlines <$> wt)) ∧
  ∀ p, is_Some (l_cache l !! p) → p ≠ MSG ∧ is_Some (wt !! p).

Section refine.
Context (ORDER : list string) (wt : tree) (name : string).

Lemma sim_init msg : sim wt (Loop msg ∅ []) (doc_of wt msg).
Proof.
  split; simpl.
  - unfold doc_of. by rewrite (left_id_L ∅ (∪)).
  - intros p [? Hp]. by rewrite lookup_empty in Hp.
Qed.

Lemma sim_lookup l d p :
  sim wt l d → p ≠ MSG →
  d !! p = match l_cache l !! p with Some s => Some s | None => read wt p end.
Proof.
  intros [-> _] Hp. rewrite lookup_insert_ne by done. unfold read.
  destruct (l_cache l !! p) eqn:E.
  - by apply lookup_union_Some_l.
  - rewrite lookup_union_r by done. by rewrite lookup_fmap.
Qed.

Lemma sim_row l d tr :
  sim wt l d →
  match apply_row ORDER wt name l tr, spec_row ORDER name d tr with
  | Ok l', Ok (d', ids) => sim wt l' d' ∧ l_applied l' = l_applied l ++ ids
  | Raise e, Raise e' => e = e'
  | _, _ => False
  end.
Proof.
  intros Hs. unfold apply_row, spec_row. destruct (allowed ORDER tr name) as [[|]|e]; simpl;
    [|by rewrite app_nil_r|done].
  destruct (String.eqb_spec (tr_path tr) MSG) as [Hm|Hm].
  - assert (d !! tr_path tr = Some (l_msg l)) as ->.
    { destruct Hs as [-> _]. by rewrite Hm, lookup_insert_eq. }
    destruct (transform_text tr (l_msg l)) as [[t ok]|e]; simpl; [|done].
    split; [|unfold record_ok; destruct ok; by rewrite ?app_nil_r].
    destruct Hs as [-> Hc]. split; [|done]. simpl. by rewrite Hm, insert_insert_eq.
  - rewrite (sim_lookup l d) by done.
    destruct (match l_cache l !! tr_path tr with Some s => Some s | None => _ end)
      as [s|] eqn:E; [|by rewrite app_nil_r].
    destruct (transform_text tr s) as [[t ok]|e]; simpl; [|done].
    split; [|unfold record_ok; destruct ok; by rewrite ?app_nil_r].
    destruct Hs as [-> Hc]. split; simpl.
    + by rewrite <-insert_union_l, insert_insert_ne.
    + intros p. destruct (decide (p = tr_path tr)) as [->|Hp].
      * intros _. split; [done|]. destruct (l_cache l !! tr_path tr) eqn:Ec.
        { by apply Hc. }
        unfold read in E. by destruct (wt !! tr_path tr).
      * rewrite lookup_insert_ne by done. apply Hc.
Qed.

Lemma sim_rows T l d :
  sim wt l d →
  match apply_rows ORDER wt name l T, spec_rows ORDER name d T with
  | Ok l', Ok (d', ids) => sim wt l' d' ∧ l_applied l' = l_applied l ++ ids
  | Raise e, Raise e' => e = e'
  | _, _ => False
  end.
Proof.
  revert l d. induction T as [|tr T IH]; intros l d Hs; simpl.
  { by rewrite app_nil_r. }
  pose proof (sim_row l d tr Hs) as Hr.
  destruct (apply_row ORDER wt name l tr) as [l1|], (spec_row ORDER name d tr)
    as [[d1 ids1]|]; simpl; try done.
  destruct Hr as [Hs1 Ha1]. specialize (IH l1 d1 Hs1).
  destruct (apply_rows ORDER wt name l1 T) as [l2|], (spec_rows ORDER name d1 T)
    as [[d2 ids2]|]; simpl; try done.
  destruct IH as [Hs2 Ha2]. split; [done|]. by rewrite Ha2, Ha1, app_assoc.
Qed.
End refine.

(** ** Writing the cache back *)

Lemma flush_list wt kvs :
  NoDup kvs.*1 → (∀ p s, (p, s) ∈ kvs → is_Some (wt !! p)) →
  ∃ wt', flush wt kvs = (wt', Ok ()) ∧
    ∀ p, wt' !! p = match (list_to_map kvs : tree) !! p with
                    | Some s => written s <$> wt !! p
                    | None => wt !! p
                    end.
Proof.
  revert wt. induction kvs as [|[p s] kvs IH]; intros wt Hnd Hex; simpl.
  { exists wt. split; [done|]. intros q. by rewrite lookup_empty. }
  apply NoDup_cons in Hnd as [Hp Hnd]. simpl in Hp.
  destruct (Hex p s ltac:(by left)) as [cur Hcur].
  unfold read. rewrite Hcur. simpl.
  set (wt1 := if bool_decide _ then wt else _).
  destruct (IH wt1) as (wt' & -> & Hwt'); [done| |].
  { intros q u Hq. destruct (Hex q u ltac:(by right)) as [v Hv].
    unfold wt1. case_bool_decide; [by eexists|].
    rewrite lookup_insert. case_decide; by eexists. }
  exists wt'. split; [done|]. intros q. rewrite Hwt'.
  destruct (decide (q = p)) as [->|Hq].
  - rewrite lookup_insert_eq.
    rewrite (not_elem_of_list_to_map_1 kvs p) by done.
    unfold wt1, written. rewrite Hcur. simpl. case_bool_decide; [done|].
    by rewrite lookup_insert_eq.
  - rewrite lookup_insert_ne by done.
    assert (wt1 !! q = wt !! q) as ->; [|done].
    unfold wt1. case_bool_decide; [done|]. by rewrite lookup_insert_ne.
Qed.

Lemma flush_cache wt (cache : tree) :
  (∀ p, is_Some (cache !! p) → is_Some (wt !! p)) →
  ∃ wt', flush wt (map_to_list cache) = (wt', Ok ()) ∧
    ∀ p, wt' !! p = match cache !! p with
                    | Some s => written s <$> wt !! p
                    | None => wt !! p
                    end.
Proof.
  intros Hex. destruct (flush_list wt (map_to_list cache)) as (wt' & Hf & Hl).
  - apply NoDup_fst_map_to_list.
  - intros p s Hin. apply elem_of_map_to_list in Hin. apply Hex. by eexists.
  - exists wt'. split; [done|]. intros p. by rewrite Hl, list_to_map_to_list.
Qed.

(** The refinement, as the rest of the development uses it. *)
Lemma apply_spec ORDER T wt name msg :
  match apply ORDER T wt name msg with
  | (wt', Raise e) => wt' = wt ∧ spec_rows ORDER name (doc_of wt msg) T = Raise e
  | (wt', Ok (msg', ids)) =>
      ∃ d, spec_rows ORDER name (doc_of wt msg) T = Ok (d, ids) ∧
           d !! MSG = Some msg' ∧
           ∀ p, wt' !! p = if String.eqb p MSG then wt !! p
                           else match d !! p, wt !! p with
                                | Some s, Some cur => Some (written s cur)
                                | _, _ => None
                                end
  end.
Proof.
  unfold apply. pose proof (sim_rows ORDER wt name T _ _ (sim_init wt msg)) as Hs.
  destruct (apply_rows ORDER wt name _ T) as [l|e], (spec_rows ORDER name _ T)
    as [[d ids]|e']; simpl in *; try done; [|by subst].
  destruct Hs as [[-> Hc] Ha].
  destruct (flush_cache wt (l_cache l)) as (wt' & -> & Hwt').
  { intros p Hp. by apply Hc. }
  exists (<[MSG:=l_msg l]> (l_cache l ∪ (universal_newlines <$> wt))).
  split; [by rewrite Ha|]. split; [by rewrite lookup_insert_eq|].
  intros p. rewrite Hwt'. destruct (String.eqb_spec p MSG) as [->|Hp].
  { destruct (l_cache l !! MSG) eqn:E; [|done]. by destruct (Hc MSG) as [? _]. }
  rewrite lookup_insert_ne by done.
  destruct (l_cache l !! p) eqn:E.
  - rewrite (lookup_union_Some_l _ _ _ _ E).
    by destruct (Hc p) as [_ [cur ->]].
  - rewrite lookup_union_r, lookup_fmap by done.
    destruct (wt !! p) as [cur|]; simpl; [|done].
    unfold written. by rewrite bool_decide_eq_true_2.
Qed.
