(* ===== verification/R3Idem.v ===== *)
(** Idempotence of [apply] for every table that passes [table_ok], and the
    bookkeeping facts: which rows are reported, which files can change. *)
From S2P Require Import Prelude PyStr Stable R3Engine R3Facts R3Refine.
Import R3.

(** Whether [allowed] lets a row through. *)
Definition lets (ORDER : list string) (name : string) (tr : transform) : bool :=
  match allowed ORDER tr name with Ok b => b | Raise _ => false end.

(** The rows that [allowed] lets through at a commit. *)
Definition enabled (ORDER : list string) (name : string) (T : list transform)
    : list transform :=
  List.filter (lets ORDER name) T.

(** Two rows that some commit of [names] lets through together. *)
Definition coexist (ORDER names : list string) (x y : transform) : bool :=
  existsb (λ name, lets ORDER name x && lets ORDER name y) names.

(** The check on a whole table: every row is safe, and so is every later row on
    the same file that can run at the same commit. *)
Fixpoint table_ok (ORDER names : list string) (T : list transform) : bool :=
  match T with
  | [] => true
  | x :: T' =>
      row_ok (tr_body x) &&
      forallb (λ y, if String.eqb (tr_path x) (tr_path y)
                    then if coexist ORDER names x y
                         then pair_ok (tr_body x) (tr_body y) else true
                    else true) T' &&
      table_ok ORDER names T'
  end.

Definition settled_in (d : tree) (tr : transform) : Prop :=
  ∀ s, d !! tr_path tr = Some s → settled (tr_body tr) s.

Section spec.
Context (ORDER : list string) (name : string).
Implicit Types (d : tree) (T : list transform) (tr : transform).

(** One row, seen from the specification. *)
Lemma spec_row_inv d tr d' ids :
  spec_row ORDER name d tr = Ok (d', ids) →
  (allowed ORDER tr name = Ok false ∧ d' = d ∧ ids = []) ∨
  (allowed ORDER tr name = Ok true ∧ d !! tr_path tr = None ∧ d' = d ∧ ids = []) ∨
  (allowed ORDER tr name = Ok true ∧ ∃ s t ok,
    d !! tr_path tr = Some s ∧ transform_text tr s = Ok (t, ok) ∧
    d' = <[tr_path tr := t]> d ∧ ids = if ok : bool then [tr_id tr] else []).
Proof.
  unfold spec_row. destruct (allowed ORDER tr name) as [[|]|]; simpl; [|naive_solver..].
  destruct (d !! tr_path tr) as [s|]; [|naive_solver].
  destruct (transform_text tr s) as [[t ok]|] eqn:E; simpl; [|done].
  intros [= <- <-]. right. right. split; [done|]. by exists s, t, ok.
Qed.

Lemma spec_rows_cons d tr T d' ids :
  spec_rows ORDER name d (tr :: T) = Ok (d', ids) ↔
  ∃ d1 i1 i2, spec_row ORDER name d tr = Ok (d1, i1) ∧
              spec_rows ORDER name d1 T = Ok (d', i2) ∧ ids = i1 ++ i2.
Proof.
  simpl. rewrite res_bind_Ok. split.
  - intros ([d1 i1] & H1 & H2). apply res_bind_Ok in H2 as ([d2 i2] & H2 & [= <- <-]).
    by exists d1, i1, i2.
  - intros (d1 & i1 & i2 & H1 & H2 & ->). exists (d1, i1). split; [done|].
    apply res_bind_Ok. by exists (d', i2).
Qed.

Lemma enabled_cons tr T :
  enabled ORDER name (tr :: T) =
  match allowed ORDER tr name with
  | Ok true => tr :: enabled ORDER name T
  | _ => enabled ORDER name T
  end.
Proof. unfold enabled, lets. simpl. by destruct (allowed ORDER tr name) as [[|]|]. Qed.

(** Rows neither create nor delete files. *)
Lemma spec_rows_dom d T d' ids p :
  spec_rows ORDER name d T = Ok (d', ids) → is_Some (d' !! p) ↔ is_Some (d !! p).
Proof.
  revert d ids. induction T as [|tr T IH]; intros d ids.
  { simpl. by intros [= <- <-]. }
  intros (d1 & i1 & i2 & Hr & Hrs & ->)%spec_rows_cons. rewrite (IH _ _ Hrs).
  apply spec_row_inv in Hr as [(_ & -> & _)|[(_ & _ & -> & _)|(_ & s & t & ok & Hs & _ & -> & _)]];
    [done..|].
  destruct (decide (p = tr_path tr)) as [->|Hp].
  - rewrite lookup_insert_eq, Hs. split; by eexists.
  - by rewrite lookup_insert_ne.
Qed.

(** A text none of the enabled rows names stays as it is. *)
Lemma spec_rows_frame d T d' ids p :
  spec_rows ORDER name d T = Ok (d', ids) →
  (∀ tr, tr ∈ enabled ORDER name T → tr_path tr ≠ p) → d' !! p = d !! p.
Proof.
  revert d ids. induction T as [|tr T IH]; intros d ids.
  { simpl. by intros [= <- <-]. }
  intros (d1 & i1 & i2 & Hr & Hrs & ->)%spec_rows_cons Hp. rewrite enabled_cons in Hp.
  apply spec_row_inv in Hr as [(Ha & -> & _)|[(Ha & _ & -> & _)|(Ha & s & t & ok & Hs & _ & -> & _)]];
    rewrite Ha in Hp.
  - by eapply IH.
  - eapply IH; [done|]. intros y Hy. apply Hp. by right.
  - rewrite (IH _ _ Hrs); [|intros y Hy; apply Hp; by right].
    rewrite lookup_insert_ne; [done|]. apply Hp. by left.
Qed.

(** What is reported is a subsequence of the enabled rows' ids. *)
Lemma spec_rows_ids d T d' ids :
  spec_rows ORDER name d T = Ok (d', ids) →
  ids `sublist_of` (tr_id <$> enabled ORDER name T).
Proof.
  revert d ids. induction T as [|tr T IH]; intros d ids.
  { simpl. intros [= <- <-]. constructor. }
  intros (d1 & i1 & i2 & Hr & Hrs & ->)%spec_rows_cons. specialize (IH _ _ Hrs).
  rewrite enabled_cons.
  apply spec_row_inv in Hr as [(Ha & _ & ->)|[(Ha & _ & _ & ->)|(Ha & s & t & ok & _ & _ & _ & ->)]];
    rewrite Ha; simpl; [done|by constructor|].
  destruct ok; by constructor.
Qed.

(** [settled_in] survives the rows that come later. *)
Lemma settled_later d T d' ids x :
  spec_rows ORDER name d T = Ok (d', ids) → settled_in d x → row_ok (tr_body x) = true →
  (∀ y, y ∈ enabled ORDER name T → row_ok (tr_body y) = true ∧
        (tr_path x = tr_path y → pair_ok (tr_body x) (tr_body y) = true)) →
  settled_in d' x.
Proof.
  revert d ids. induction T as [|y T IH]; intros d ids.
  { simpl. by intros [= <- <-]. }
  intros (d1 & i1 & i2 & Hr & Hrs & ->)%spec_rows_cons Hx Hok Hy. rewrite enabled_cons in Hy.
  apply spec_row_inv in Hr as [(Ha & -> & _)|[(Ha & _ & -> & _)|(Ha & s & t & ok & Hs & Ht & -> & _)]];
    rewrite Ha in Hy.
  - by eapply IH.
  - eapply IH; [done..|]. intros z Hz. apply Hy. by right.
  - eapply IH; [done| |done|intros z Hz; apply Hy; by right].
    destruct (Hy y ltac:(by left)) as [Hoky Hp]. intros u Hu.
    destruct (decide (tr_path x = tr_path y)) as [He|He].
    + rewrite He, lookup_insert_eq in Hu. simplify_eq.
      eapply settled_preserved; [done|exact Hoky|by apply Hp| |done].
      apply Hx. by rewrite He.
    + rewrite lookup_insert_ne in Hu by done. by apply Hx.
Qed.

Lemma rows_ok_cons x T :
  rows_ok (x :: T) = true →
  row_ok (tr_body x) = true ∧ rows_ok T = true ∧
  ∀ y, y ∈ T → tr_path x = tr_path y → pair_ok (tr_body x) (tr_body y) = true.
Proof.
  simpl. intros H. bools. split; [done|]. split; [done|].
  intros y Hy He. rewrite forallb_forall in *. setoid_rewrite <-list_elem_of_In in H1.
  specialize (H1 y Hy). rewrite He, String.eqb_refl in H1. done.
Qed.

Lemma rows_ok_elem T y : rows_ok T = true → y ∈ T → row_ok (tr_body y) = true.
Proof.
  induction T as [|x T IH]; intros H Hy; [by apply not_elem_of_nil in Hy|].
  apply rows_ok_cons in H as (? & ? & _). apply elem_of_cons in Hy as [->|Hy]; auto.
Qed.

(** After a pass, every enabled row is settled. *)
Lemma spec_rows_settle d T d' ids :
  rows_ok (enabled ORDER name T) = true → spec_rows ORDER name d T = Ok (d', ids) →
  ∀ x, x ∈ enabled ORDER name T → settled_in d' x.
Proof.
  revert d ids. induction T as [|tr T IH]; intros d ids.
  { intros _ _ x Hx. by apply not_elem_of_nil in Hx. }
  rewrite enabled_cons. intros Hok (d1 & i1 & i2 & Hr & Hrs & ->)%spec_rows_cons x Hx.
  apply spec_row_inv in Hr as [(Ha & -> & _)|[(Ha & Hn & -> & _)|(Ha & s & t & ok & Hs & Ht & -> & _)]];
    rewrite Ha in *; [by eapply IH|..];
    apply rows_ok_cons in Hok as (Hx1 & Hok & Hp);
    apply elem_of_cons in Hx as [->|Hx]; try (by eapply IH).
  - eapply settled_later; [done| |done|].
    { intros u Hu. congruence. }
    intros y Hy. split; [by eapply rows_ok_elem|by apply Hp].
  - eapply settled_later; [done| |done|].
    { intros u Hu. rewrite lookup_insert_eq in Hu. simplify_eq.
      by eapply transform_settles. }
    intros y Hy. split; [by eapply rows_ok_elem|by apply Hp].
Qed.

(** A pass that returns has asked [allowed] about every row. *)
Lemma spec_rows_allowed d T d' ids tr :
  spec_rows ORDER name d T = Ok (d', ids) → tr ∈ T → ∃ b, allowed ORDER tr name = Ok b.
Proof.
  revert d ids. induction T as [|y T IH]; intros d ids; [by intros _ ?%not_elem_of_nil|].
  intros (d1 & i1 & i2 & Hr & Hrs & _)%spec_rows_cons [->|Htr]%elem_of_cons.
  - apply spec_row_inv in Hr. naive_solver.
  - by eapply IH.
Qed.

(** On settled texts a pass does nothing. *)
Lemma spec_rows_idle d T :
  (∀ tr, tr ∈ T → ∃ b, allowed ORDER tr name = Ok b) →
  (∀ x, x ∈ enabled ORDER name T → row_ok (tr_body x) = true ∧ settled_in d x) →
  spec_rows ORDER name d T = Ok (d, []).
Proof.
  intros Hall Hx. induction T as [|tr T IH]; [done|].
  apply spec_rows_cons. exists d, [], []. rewrite enabled_cons in Hx.
  destruct (Hall tr ltac:(by left)) as [b Hb]. rewrite Hb in Hx.
  split; [|split; [|done]].
  - unfold spec_row. rewrite Hb. simpl. destruct b; [|done]. simpl.
    destruct (d !! tr_path tr) as [s|] eqn:E; [|done].
    destruct (Hx tr ltac:(by left)) as [Hok Hs].
    rewrite transform_settled by auto. simpl. by rewrite insert_id.
  - apply IH; [intros y Hy; apply Hall; by right|].
    intros y Hy. destruct b; apply Hx; [by right|done].
Qed.

(** Decoded files stay free of carriage returns. *)
Lemma spec_rows_crfree d T d' ids p :
  spec_rows ORDER name d T = Ok (d', ids) →
  (∀ x, x ∈ enabled ORDER name T → row_ok (tr_body x) = true) →
  (∀ s, d !! p = Some s → crfree s = true) → ∀ s, d' !! p = Some s → crfree s = true.
Proof.
  revert d ids. induction T as [|tr T IH]; intros d ids.
  { simpl. by intros [= <- <-]. }
  intros (d1 & i1 & i2 & Hr & Hrs & ->)%spec_rows_cons Hx Hd. rewrite enabled_cons in Hx.
  apply spec_row_inv in Hr as [(Ha & -> & _)|[(Ha & _ & -> & _)|(Ha & s & t & ok & Hs & Ht & -> & _)]];
    rewrite Ha in Hx; (eapply IH; [done|intros y Hy; apply Hx; try by right|]); try done.
  intros u Hu. destruct (decide (p = tr_path tr)) as [->|Hp].
  - rewrite lookup_insert_eq in Hu. simplify_eq.
    eapply transform_crfree; [apply Hx; by left|by apply Hd|done].
  - rewrite lookup_insert_ne in Hu by done. by apply Hd.
Qed.
End spec.

(** The second run starts from the texts the first one ended with. *)
Lemma doc_of_result (wt wt' : tree) msg' (d : tree) :
  d !! MSG = Some msg' →
  (∀ p, wt' !! p = if String.eqb p MSG then wt !! p
                   else match d !! p, wt !! p with
                        | Some s, Some cur => Some (written s cur)
                        | _, _ => None
                        end) →
  (∀ p, p ≠ MSG → is_Some (d !! p) ↔ is_Some (wt !! p)) →
  (∀ p, p ≠ MSG → ∀ s, d !! p = Some s → crfree s = true) →
  doc_of wt' msg' = d.
Proof.
  intros Hm Hwt Hdom Hcr. apply map_eq. intros p. unfold doc_of.
  destruct (decide (p = MSG)) as [->|Hp]; [by rewrite lookup_insert_eq|].
  rewrite lookup_insert_ne, lookup_fmap, Hwt by done.
  destruct (String.eqb_spec p MSG); [done|]. specialize (Hdom p Hp). specialize (Hcr p Hp).
  destruct (d !! p) as [s|], (wt !! p) as [cur|]; simpl.
  - f_equal. unfold written. case_bool_decide; [done|]. by apply crfree_universal, Hcr.
  - destruct Hdom as [Hd _]. destruct Hd; [by eexists|done].
  - destruct Hdom as [_ Hd]. destruct Hd; [by eexists|done].
  - done.
Qed.

(** At every commit of [names] the enabled rows of a checked table are safe. *)
Lemma table_ok_enabled ORDER names T name :
  table_ok ORDER names T = true → name ∈ names → rows_ok (enabled ORDER name T) = true.
Proof.
  intros Hok Hn. induction T as [|x T IH]; [done|]. simpl in Hok. bools.
  unfold enabled. simpl. destruct (lets ORDER name x) eqn:Ex; [|by apply IH].
  simpl. repeat (apply andb_true_iff; split); [done| |by apply IH].
  apply forallb_forall. intros y Hy. apply filter_In in Hy as [Hy Ey].
  destruct (String.eqb (tr_path x) (tr_path y)) eqn:Ep; [|done].
  match goal with H : forallb _ T = true |- _ => rewrite forallb_forall in H;
    specialize (H y Hy); rewrite Ep in H end.
  assert (coexist ORDER names x y = true) as Hc; [|by rewrite Hc in *].
  apply existsb_exists. exists name. split; [by apply list_elem_of_In|].
  by rewrite Ex, Ey.
Qed.

(** The texts after a run are the ones its last row saw. *)
Lemma apply_doc ORDER T name wt msg wt' msg' ids :
  rows_ok (enabled ORDER name T) = true →
  apply ORDER T wt name msg = (wt', Ok (msg', ids)) →
  spec_rows ORDER name (doc_of wt msg) T = Ok (doc_of wt' msg', ids).
Proof.
  intros Hok Ha. pose proof (apply_spec ORDER T wt name msg) as H. rewrite Ha in H.
  destruct H as (d & Hd & Hm & Hwt).
  rewrite (doc_of_result wt wt' msg' d Hm Hwt); [done|..].
  - intros p Hp. rewrite (spec_rows_dom _ _ _ _ _ _ p Hd). unfold doc_of.
    rewrite lookup_insert_ne, lookup_fmap by done. by destruct (wt !! p).
  - intros p Hp. eapply spec_rows_crfree; [exact Hd|intros x Hx; by eapply rows_ok_elem|].
    intros s. unfold doc_of. rewrite lookup_insert_ne, lookup_fmap by done.
    destruct (wt !! p); simpl; [|done]. intros [= <-]. apply universal_crfree.
Qed.

(** A run that leaves the texts as they are leaves the worktree as it is. *)
Lemma apply_idle ORDER T name wt msg :
  spec_rows ORDER name (doc_of wt msg) T = Ok (doc_of wt msg, []) →
  apply ORDER T wt name msg = (wt, Ok (msg, [])).
Proof.
  intros Hd. pose proof (apply_spec ORDER T wt name msg) as H.
  destruct (apply ORDER T wt name msg) as [wt2 [[m2 i2]|e]].
  - destruct H as (d & Hd2 & Hm2 & Hwt2). rewrite Hd in Hd2. injection Hd2 as <- <-.
    unfold doc_of in Hm2. rewrite lookup_insert_eq in Hm2. injection Hm2 as <-.
    f_equal. apply map_eq. intros p. rewrite Hwt2.
    destruct (String.eqb_spec p MSG); [done|]. unfold doc_of.
    rewrite lookup_insert_ne, lookup_fmap by done.
    destruct (wt !! p) as [cur|]; simpl; [|done]. unfold written.
    by rewrite bool_decide_eq_true_2.
  - destruct H as [_ H]. congruence.
Qed.

(** A second run, over any message in which the enabled rows are settled. *)
Lemma apply_again_msg ORDER T name wt msg wt' msg' ids m :
  rows_ok (enabled ORDER name T) = true →
  apply ORDER T wt name msg = (wt', Ok (msg', ids)) →
  (∀ x, x ∈ enabled ORDER name T → tr_path x = MSG → settled (tr_body x) msg' →
        settled (tr_body x) m) →
  apply ORDER T wt' name m = (wt', Ok (m, [])).
Proof.
  intros Hok Ha Hm. pose proof (apply_doc _ _ _ _ _ _ _ _ Hok Ha) as Hd. apply apply_idle.
  apply spec_rows_idle; [intros tr; by eapply spec_rows_allowed|].
  intros x Hx. split; [by eapply rows_ok_elem|].
  pose proof (spec_rows_settle _ _ _ _ _ _ Hok Hd x Hx) as Hs. intros s. specialize (Hs s).
  unfold doc_of in *. destruct (decide (tr_path x = MSG)) as [Ep|Ep].
  - rewrite Ep, lookup_insert_eq in *. intros [= <-]. apply Hm; [done..|].
    pose proof (spec_rows_settle _ _ _ _ _ _ Hok Hd x Hx msg') as Hs'.
    rewrite Ep in Hs'. apply Hs'. unfold doc_of. by rewrite lookup_insert_eq.
  - by rewrite lookup_insert_ne in * by done.
Qed.

Lemma apply_again ORDER T name wt msg wt' msg' ids :
  rows_ok (enabled ORDER name T) = true →
  apply ORDER T wt name msg = (wt', Ok (msg', ids)) →
  apply ORDER T wt' name msg' = (wt', Ok (msg', [])).
Proof. intros Hok Ha. by eapply apply_again_msg. Qed.

(** ** Messages read back from git *)

Definition ends_nl (s : text) : bool := bool_decide (last s = Some nl).

(** A message row on a text that ends in a newline: a further newline is not the
    end of its old text, and rewriting keeps the last newline. *)
Definition msg_row_ok (tr : transform) : bool :=
  if String.eqb (tr_path tr) MSG then
    match tr_body tr with
    | Subst old new _ =>
        negb (bool_decide (drop (length old - 2) old = [nl; nl])) &&
        (negb (ends_nl old) || ends_nl new)
    | Fn _ => false
    end
  else true.

Lemma ends_nl_app a b : b ≠ [] → ends_nl (a ++ b) = ends_nl b.
Proof.
  intros Hb. unfold ends_nl. destruct b as [|c b _] using rev_ind; [done|].
  by rewrite app_assoc, !last_snoc.
Qed.

Lemma in_nl old s :
  old ≠ [] → ends_nl s = true → drop (length old - 2) old ≠ [nl; nl] →
  py_in old (s ++ [nl]) = true → py_in old s = true.
Proof.
  unfold ends_nl. intros Hne Hs Hd Hin. apply bool_decide_eq_true in Hs.
  apply last_Some in Hs as [s0 ->]. apply py_in_app in Hin as (a & b & Heq).
  destruct b as [|c b _] using rev_ind.
  - rewrite app_nil_r in Heq. destruct old as [|x old _] using rev_ind; [done|].
    destruct old as [|y old _] using rev_ind.
    { apply app_inj_2 in Heq as [_ <-]; [|done]. apply py_in_app. exists s0, []. by rewrite app_nil_r. }
    rewrite !app_assoc in Heq. apply app_inj_2 in Heq as [Heq [= <-]]; [|done].
    apply app_inj_2 in Heq as [Heq [= <-]]; [|done].
    destruct Hd. rewrite !length_app. simpl. rewrite <-app_assoc.
    apply drop_app_length'. lia.
  - rewrite !app_assoc in Heq. apply app_inj_2 in Heq as [-> _]; [|done].
    apply py_in_app. exists a, b. by rewrite <-app_assoc.
Qed.

Lemma settled_nl tr s :
  msg_row_ok tr = true → row_ok (tr_body tr) = true → tr_path tr = MSG → ends_nl s = true →
  settled (tr_body tr) s → settled (tr_body tr) (s ++ [nl]).
Proof.
  unfold msg_row_ok. intros Hm Hok Hp Hs. rewrite Hp in Hm. simpl in Hm.
  destruct (tr_body tr) as [old new all|]; [|done]. simpl in *. bools.
  case_bool_decide; [done|]. case_bool_decide as Hd; [done|]. intros [Ha|Hi]; [left|right].
  - apply not_true_iff_false. intros Hin. apply in_nl in Hin; [congruence|done..].
  - unfold inserted in *. bools. apply andb_true_iff. split; [done|].
    eapply py_in_trans; [done|]. apply py_in_prefix.
Qed.

Lemma transform_ends_nl tr s t ok :
  msg_row_ok tr = true → row_ok (tr_body tr) = true → tr_path tr = MSG → ends_nl s = true →
  transform_text tr s = Ok (t, ok) → ends_nl t = true.
Proof.
  unfold msg_row_ok. intros Hm Hok Hp Hs Ht. rewrite Hp in Hm. simpl in Hm.
  destruct tr as [tid path [old new all|] only since]; [|done]. simpl in *. bools.
  case_bool_decide as Hne; [done|]. destruct all; [done|]. destruct ok.
  - destruct (row_fires _ _ _ _ _ _ _ _ Hne Ht) as (a & b & -> & -> & _).
    destruct (decide (b = [])) as [->|Hb].
    + rewrite app_nil_r in *. rewrite ends_nl_app in Hs by done.
      destruct (ends_nl old); [|done]. simpl in *.
      rewrite ends_nl_app; [done|]. by intros ->.
    + rewrite !app_assoc, ends_nl_app in * by done. done.
  - pose proof (row_cases tid path old new only since s) as Hc. rewrite Ht in Hc.
    by destruct Hc as [-> _].
Qed.

Lemma spec_rows_ends_nl ORDER name d T d' ids s s' :
  spec_rows ORDER name d T = Ok (d', ids) →
  (∀ x, x ∈ enabled ORDER name T → msg_row_ok x = true ∧ row_ok (tr_body x) = true) →
  d !! MSG = Some s → ends_nl s = true → d' !! MSG = Some s' → ends_nl s' = true.
Proof.
  revert d ids s. induction T as [|tr T IH]; intros d ids s.
  { simpl. intros [= <- <-] _ Hs He Hs'. congruence. }
  intros (d1 & i1 & i2 & Hr & Hrs & ->)%spec_rows_cons Hx Hs He Hs'. rewrite enabled_cons in Hx.
  apply spec_row_inv in Hr as [(Ha & -> & _)|[(Ha & _ & -> & _)|(Ha & u & t & ok & Hu & Ht & -> & _)]];
    rewrite Ha in Hx; [by eapply IH|(eapply IH; [done| |done..]; intros; apply Hx; by right)|].
  assert (∃ s1, <[tr_path tr:=t]> d !! MSG = Some s1 ∧ ends_nl s1 = true) as (s1 & Hs1 & He1).
  { destruct (decide (tr_path tr = MSG)) as [Ep|Ep].
    - rewrite Ep, lookup_insert_eq. exists t. split; [done|].
      rewrite Ep in Hu. simplify_eq. destruct (Hx tr ltac:(by left)).
      by eapply transform_ends_nl.
    - rewrite lookup_insert_ne by done. eauto. }
  eapply IH; [exact Hrs| |done..]. intros y Hy. apply Hx. by right.
Qed.

(** A second run that reads the message back from git. *)
Lemma apply_again_nl ORDER T name wt msg wt' msg' ids :
  rows_ok (enabled ORDER name T) = true → forallb msg_row_ok T = true → ends_nl msg = true →
  apply ORDER T wt name msg = (wt', Ok (msg', ids)) →
  apply ORDER T wt' name (msg' ++ [nl]) = (wt', Ok (msg' ++ [nl], [])).
Proof.
  intros Hok Hm Hn Ha.
  assert (∀ x, x ∈ enabled ORDER name T → msg_row_ok x = true ∧ row_ok (tr_body x) = true) as Hx.
  { intros x Hx. split; [|by eapply rows_ok_elem]. rewrite forallb_forall in Hm. apply Hm.
    apply list_elem_of_In in Hx. by apply filter_In in Hx as [? _]. }
  eapply apply_again_msg; [done|exact Ha|]. intros x Hin Hp Hs. destruct (Hx x Hin).
  apply settled_nl; try done.
  eapply (spec_rows_ends_nl _ _ _ _ _ _ msg); [by eapply apply_doc|done|..];
    unfold doc_of; by rewrite ?lookup_insert_eq.
Qed.

(** ** Messages stay free of carriage returns *)

(** The message rows of a table put no carriage return in. *)
Definition msg_crfree (T : list transform) : bool :=
  forallb (λ tr, if String.eqb (tr_path tr) MSG then
                   match tr_body tr with
                   | Subst old new _ => negb (bool_decide (old = [])) && crfree new
                   | Fn _ => false
                   end
                 else true) T.

Lemma replace_crfree old new s n :
  old ≠ [] → crfree new = true → crfree s = true → crfree (py_replace_opt old new s n) = true.
Proof.
  intros Hne Hn. revert n.
  apply (scan_ind old (λ s, ∀ n, crfree s = true → crfree (py_replace_opt old new s n) = true));
    [done|intros n _|intros r IH n Hs|intros c r E IH n Hs].
  - by rewrite replace_nil.
  - destruct (decide (n = Some 0)) as [->|H0]; [by rewrite replace_stop|].
    rewrite crfree_app in Hs. bools. rewrite replace_hit by done. rewrite crfree_app, Hn. by apply IH.
  - rewrite replace_miss by done. unfold crfree in *. cbn [forallb] in *.
    apply andb_true_iff in Hs as [Hc Hs]. rewrite Hc. by apply IH.
Qed.

Lemma spec_rows_msg_crfree ORDER name d T d' ids s s' :
  msg_crfree T = true → spec_rows ORDER name d T = Ok (d', ids) →
  d !! MSG = Some s → crfree s = true → d' !! MSG = Some s' → crfree s' = true.
Proof.
  revert d ids s. induction T as [|tr T IH]; intros d ids s.
  { simpl. intros _ [= <- <-] Hs Hc Hs'. congruence. }
  intros Hm (d1 & i1 & i2 & Hr & Hrs & ->)%spec_rows_cons Hs Hc Hs'.
  unfold msg_crfree in Hm. cbn [forallb] in Hm. apply andb_true_iff in Hm as [Hm HT].
  apply spec_row_inv in Hr as [(_ & -> & _)|[(_ & _ & -> & _)|(_ & u & t & ok & Hu & Ht & -> & _)]];
    [by eapply IH..|].
  destruct (String.eqb_spec (tr_path tr) MSG) as [Ep|Ep].
  - rewrite Ep in *. rewrite Hs in Hu. injection Hu as <-.
    eapply (IH _ _ t); [done|exact Hrs|by rewrite lookup_insert_eq| |done].
    unfold transform_text in Ht. destruct (tr_body tr) as [old new all|]; [|done].
    bools. case_bool_decide; [done|]. repeat case_match; simplify_eq; try done;
      by apply replace_crfree.
  - eapply (IH _ _ s); [done|exact Hrs|by rewrite lookup_insert_ne|done..].
Qed.

Lemma apply_msg_crfree ORDER T wt name msg wt' msg' ids :
  msg_crfree T = true → crfree msg = true →
  apply ORDER T wt name msg = (wt', Ok (msg', ids)) → crfree msg' = true.
Proof.
  intros HT Hc Ha. pose proof (apply_spec ORDER T wt name msg) as H. rewrite Ha in H.
  destruct H as (d & Hd & Hm & _).
  eapply spec_rows_msg_crfree; [done|exact Hd| |exact Hc|exact Hm].
  unfold doc_of. by rewrite lookup_insert_eq.
Qed.
