(* ===== verification/R3Table.v ===== *)
(** The fix table of docs/rounds/r3-0913/r3fix.py, row by row: 68 textual
    substitutions and three function rows over the 26 commits of [ORDER].
    Constants keep the source's names, prefixed with [r3_]. *)
From S2P Require Import Prelude PyStr R3Engine.
Import R3.

(** The stack's commits, bottom to top. *)
Definition r3_ORDER : list string :=
  ["c68094"; "c68095"; "c68156"; "c68157"; "c68158"; "c68159";
   "c68160"; "c68163"; "c68288"; "c68415"; "c68416"; "c68417";
   "c68418"; "c68419"; "c68420"; "c68726"; "c68727";
   "c68810"; "c68811"; "c68812"; "c68813"; "c68814"; "c68815";
   "c68816"; "c68817"; "c68818"].

(** [set(ORDER[:ORDER.index(x)])] *)
Definition r3_order_before (x : string) : list string :=
  match list_index r3_ORDER x with Ok i => take i r3_ORDER | Raise _ => [] end.

Definition r3_SANITY : string := "lustre/tests/sanity.sh".

Definition r3_PFIND : string := "lustre/utils/liblustreapi_pfind.c".

Definition r3_ZFS : string := "lustre/utils/libscan_zfs.c".

Definition r3_CL : string := "lustre/utils/liblustreapi_scan_changelog.c".

Definition r3_CLT : string := "lustre/tests/llapi_scan_changelog_test.c".

Definition r3_FIND1 : string := "Documentation/man1/lfs-find.1".

(** r3fix.py, lines 38 to 57: 68094. *)
Definition r3_rows_68094 : list R3.transform := [
  r3_t "77aea866" r3_SANITY
    (lit "	# the binary this test runs is built by the same change that adds the
	# API, so its presence is the gate; a version number cannot be one
	# while master reports the version the change is landing into
	[[ -x $LUSTRE/tests/llapi_scan_test ]] ||
		skip \qllapi_scan_test is not built\q

	mkdir_on_mdt0 $DIR/$tdir
")
    (lit "	(( CLIENT_VERSION >= $(version_code 2.17.57) )) ||
		skip \qNeed client >= 2.17.57 for llapi_scan_namespace()\q

	# any MDT: nothing here depends on which one holds the tree
	$LFS mkdir -i $((RANDOM % MDSCOUNT)) $DIR/$tdir ||
		error \qmkdir $tdir failed\q
")
    None None false;
  r3_t "77aea866-157d" r3_SANITY
    (lit "	# as 157c: the binary ships with the API, so its presence is the gate
	[[ -x $LUSTRE/tests/llapi_scan_changelog_test ]] ||
		skip \qllapi_scan_changelog_test is not built\q
")
    (lit "	(( CLIENT_VERSION >= $(version_code 2.17.57) )) ||
		skip \qNeed client >= 2.17.57 for llapi_scan_changelog()\q
")
    None None false
].

(** r3fix.py, lines 60 to 61: 68160. *)
Definition r3_rows_68160 : list R3.transform := [
  r3_t "6379d8eb" "lustre/tests/conf-sanity.sh"
    (lit " ${sdir:+--search $sdir}")
    (lit "")
    (Some ["c68160"]) None true
].

(** r3fix.py, lines 64 to 123: 68163. *)
Definition r3_rows_68163 : list R3.transform := [
  r3_t "4fe322a2" R3.MSG
    (lit "what the ZFS backend takes, and never reaches the stat.  So
scan_backend_kind() needs no slash case of its own, and -ENOTSUP
keeps the meaning llapi_scan_device.3 gives it and conf-sanity 300
keys its skip on: this build has no backend for the target.
")
    (lit "what the ZFS backend takes, and never reaches the stat.
scan_backend_kind() tests the slash first as well, before its own
stat(), so a mount point or any other directory is never sent to the
ZFS backend.  -ENOTSUP keeps the meaning llapi_scan_device.3 gives it
and conf-sanity 300 keys its skip on: this build has no backend for
the target.
")
    None None false;
  r3_t "a3ac0b0d" r3_ZFS
    (lit "	if (zap_lookup(t->zt_os, MASTER_NODE_OBJ, ZFS_UNLINKED_SET, 8, 1,
		       &t->zt_unlinked) != 0)
		t->zt_unlinked = 0;
")
    (lit "	if (zap_lookup(t->zt_os, MASTER_NODE_OBJ, ZFS_UNLINKED_SET, 8, 1,
		       &t->zt_unlinked) != 0)
		t->zt_unlinked = 0;
	/* empty once drained, as on a clean stop: skip the per-object lookup */
	if (t->zt_unlinked != 0) {
		uint64_t n;

		if (zap_count(t->zt_os, t->zt_unlinked, &n) == 0 && n == 0)
			t->zt_unlinked = 0;
	}
")
    None None false;
  r3_t "2cdfde78-fn" r3_ZFS
    (lit "	       ((pflags & ZFS_APPENDONLY) ? STATX_ATTR_APPEND : 0) |
	       ((pflags & ZFS_NODUMP) ? STATX_ATTR_NODUMP : 0);
")
    (lit "	       ((pflags & ZFS_APPENDONLY) ? STATX_ATTR_APPEND : 0);
")
    None None false;
  r3_t "2cdfde78-cmt" r3_ZFS
    (lit "/* z_pflags bits are ZFS's own; only these three have STATX_ATTR_*
 * equivalents.  Per-file compressed or encrypted does not exist on ZFS --
 * both are dataset properties -- so those bits are never set, rather than
 * set wrong.
 */
")
    (lit "/* z_pflags bits are ZFS's own; IMMUTABLE and APPEND are the two a namespace
 * scan also reports.  ZFS_NODUMP is left out for the reason
 * libscan_ldiskfs.c gives.  Per-file compressed or encrypted does not exist
 * on ZFS -- both are dataset properties.
 */
")
    None None false;
  r3_t "2cdfde78-mask" r3_ZFS
    (lit "		obj.so_attrs_mask = STATX_ATTR_IMMUTABLE | STATX_ATTR_APPEND |
				    STATX_ATTR_NODUMP;
")
    (lit "		obj.so_attrs_mask = STATX_ATTR_IMMUTABLE | STATX_ATTR_APPEND;
")
    None None false;
  r3_t "2cdfde78-hdr" "lustre/utils/lustreapi_scan_backend.h"
    (lit "	 * two backends do not support the same set -- ldiskfs reports
	 * ENCRYPTED and ZFS reports NODUMP -- so one constant in the scanner
	 * would either over-claim for one or drop a bit the other found.
")
    (lit "	 * two backends do not support the same set -- ldiskfs reports
	 * ENCRYPTED, which ZFS has no per-file form of -- so one constant in
	 * the scanner would over-claim for one of them.
")
    None None false;
  r3_t "2cdfde78-man" "Documentation/man3/llapi_scan_device.3"
    (lit "gets from the client. The ZFS backend declares
.B STATX_ATTR_NODUMP
in place of
.BR STATX_ATTR_ENCRYPTED :
")
    (lit "gets from the client. The ZFS backend declares only
.B STATX_ATTR_IMMUTABLE
and
.BR STATX_ATTR_APPEND :
")
    None None false
].

(** r3fix.py, lines 126 to 194: 68288. *)
Definition r3_rows_68288 : list R3.transform := [
  r3_t "cb25d398-a" R3.MSG
    (lit "MDT FID, and the stripe index filter_fid keeps in its f_ver is
dropped,
that field being an index")
    (lit "MDT FID, and the stripe index filter_fid keeps in its f_ver is dropped,
that field being an index")
    None None false;
  r3_t "cb25d398-b" R3.MSG
    (lit "once the map is in use.  The map
is
used precisely")
    (lit "once the map is in use.  The map is
used precisely")
    None None false;
  r3_t "cb25d398-c" R3.MSG
    (lit "exports its pool where the backend
is
ZFS, and compares")
    (lit "exports its pool where the backend is
ZFS, and compares")
    None None false;
  r3_t "cb25d398-d" R3.MSG
    (lit "merely created, a precreated object
being
rightly nameless.")
    (lit "merely created, a precreated object being
rightly nameless.")
    None None false;
  r3_t "cb25d398-e" R3.MSG
    (lit "conf-sanity test_303 covers --paths, where 301 and
302 both exercise only --fid2path, so the composition --paths exists
for was never run.  It scans an MDT in service with no mount given,
which is the case a filesystem whose only MDT is the target has to be
named in, and asserts the answer is the client's set: one path per
object rather than one per name, the hardlinked object once, no FID
where a path was asked for, and no mount point in the answer -- root-
relative being what separates it from --fid2path, and a mounted prefix
meaning the wrong composer ran.  It also asserts the two refusals:
--paths on an OST, whose objects are named by files that live on an
MDT, and --paths together with --fid2path.  ldiskfs only, an imported
ZFS pool answering EBUSY by design.
")
    (lit "conf-sanity test_303 covers --paths, where 301 and 302 both exercise
only --fid2path, so the composition --paths exists for was never run.
It scans an MDT in service with no mount given, which is the case a
filesystem whose only MDT is the target has to be named in, and
asserts the answer is the client's set: one path per object rather
than one per name, the hardlinked object once, no FID where a path was
asked for, and no mount point in the answer -- root-relative being
what separates it from --fid2path, and a mounted prefix meaning the
wrong composer ran.  It also asserts the two refusals: --paths on an
OST, whose objects are named by files that live on an MDT, and --paths
together with --fid2path.  ldiskfs only, an imported ZFS pool
answering EBUSY by design.
")
    None None false;
  r3_t "msg-backslash" R3.MSG
    (lit "The EXAMPLES fragment in llapi_scan_rec_path.3 escapes its newline as
n, not n: troff reads the single form as a register reference,
which rendered the line as printf(\q%s0, path).")
    (lit "The EXAMPLES fragment in llapi_scan_rec_path.3 escapes the backslash
of its newline escape: troff reads a single one as its own escape,
which rendered the line as printf(\q%s0, path).")
    None None false;
  r3_t "ede43c98" "Documentation/man3/llapi_scan_rec_path.3"
    (lit "whose FID has no FLD range, or a FID the MDT no longer resolves. An OST data
object is not in this set: its FID resolves to the file that owns it.
")
    (lit "whose FID has no FLD range, or a FID the MDT no longer resolves. An OST data
object is in this set only when no file owns it: a precreated object that has
never been written carries no owner FID. Otherwise its FID resolves to the
file that owns it.
")
    None None false;
  r3_t "ae6a9326" "include/lustre/lustreapi.h"
    (lit "#define LLAPI_SCAN_LMV_SHARD	0x0020000000000000ULL")
    (lit "#define LLAPI_SCAN_LMV_SHARD	0x0000800000000000ULL")
    None None false;
  r3_t "4e556ce9" r3_PFIND
    (lit "	char mfs[MAX_OBD_NAME + 1] = { 0 };
")
    (lit "	char mfs[PATH_MAX] = { 0 };
")
    None None false
].

(** r3fix.py, lines 197 to 237: 68415. *)
Definition r3_rows_68415 : list R3.transform := [
  r3_t "bfa7b47a" "include/lustre/lustreapi.h"
    (lit " * lfsr_name, lfsr_lmm, lfsr_lmv, lfsr_linkea, lfsr_src_name and
 * lfsr_jobid point into
 * scanner-owned memory and must be copied by a consumer that keeps them.
")
    (lit " * lfsr_name, lfsr_lmm, lfsr_lmv, lfsr_linkea, lfsr_src_name and
 * lfsr_jobid point into scanner-owned memory and must be copied by a
 * consumer that keeps them.
")
    None None false;
  r3_t "b3c1e9ac" r3_CLT
    (lit "	sc.sc_flags = LLAPI_SCAN_CL_F_ONCE;
	rc = llapi_scan_changelog(&sc, cl_cb, &res);
	ASSERTF(rc == -EINVAL, \q_ONCE without _COALESCE returned %d\q, rc);

	llapi_msg_set_level(LLAPI_MSG_ERROR);

	printf(\q  eight bad calls refused with -EINVAL\\n\q);
")
    (lit "	sc.sc_flags = LLAPI_SCAN_CL_F_ONCE;
	rc = llapi_scan_changelog(&sc, cl_cb, &res);
	ASSERTF(rc == -EINVAL, \q_ONCE without _COALESCE returned %d\q, rc);

	param_init(&sc);
	sc.sc_type_mask = 1ULL << CL_UNLINK;
	sc.sc_user = NULL;
	rc = llapi_scan_changelog(&sc, cl_cb, &res);
	ASSERTF(rc == -EINVAL, \qa type mask without a user returned %d\q, rc);

	llapi_msg_set_level(LLAPI_MSG_ERROR);

	printf(\q  nine bad calls refused with -EINVAL\\n\q);
")
    None None false;
  r3_t "e156feaf" r3_CLT
    (lit "	       \q       -o  tests to run\\n\q, prog);
	exit(0);
")
    (lit "	       \q       -o  tests to run\\n\q, prog);
	exit(EXIT_FAILURE);
")
    None None false;
  r3_t "aa575ca1" r3_CL
    (lit "				 LLAPI_SCAN_SIZE | LLAPI_SCAN_BLOCKS)
")
    (lit "				 LLAPI_SCAN_SIZE | LLAPI_SCAN_BLOCKS | \\
				 LLAPI_SCAN_LAZY_SIZE | LLAPI_SCAN_LAZY_BLOCKS)
")
    None None false;
  r3_t "aa575ca1-msg" R3.MSG
    (lit "OBD_MD_FLLAZYSIZE, so they are not interchangeable.
")
    (lit "OBD_MD_FLLAZYSIZE, so they are not interchangeable.  sc_got counts
them under a resolve, as both siblings' masks do.
")
    None None false
].

Definition r3_RESOLVE_OLD : text :=
  (lit "/*
 * Fill what the changelog does not carry, from the object itself.
 *
 * This is one open and one stat per object -- two of each for a regular
 * file whose demand mask named a size, the glimpse needing its own open --
 * which is why it is opt-in and why
 * object mode exists: a file written a hundred times is one lookup here, not
 * a hundred.  An object that has since been unlinked cannot be opened, and
 * that is not an error -- the record is delivered with what the event said
 * and the rest absent, and a predicate that needed more counts undecided.
 */
").

Definition r3_RESOLVE_NEW : text :=
  (lit "/*
 * Fill what the changelog does not carry, from the object itself.
 *
 * This is one open and one stat per object -- two of each for a regular
 * file whose demand mask named a size, the glimpse needing its own open --
 * which is why it is opt-in and why object mode exists: a file written a
 * hundred times is one lookup here, not a hundred.  An object that has since
 * been unlinked cannot be opened, and that is not an error -- the record is
 * delivered with what the event said and the rest absent, and a predicate
 * that needed more counts undecided.
 */
").

Definition r3_RESOLVE_FN : text :=
  (lit "static void scan_cl_resolve(struct scan_cl *sl, struct llapi_scan_rec *rec)
{
").

Definition r3_move_resolve_comment (s : text) : res (text * bool) :=
  if negb (py_in r3_RESOLVE_OLD s) || negb (py_in r3_RESOLVE_FN s) then Ok (s, false)
  else
    let s := py_replace_n r3_RESOLVE_OLD [] s 1 in
    let s := py_replace_n r3_RESOLVE_FN (r3_RESOLVE_NEW ++ r3_RESOLVE_FN) s 1 in
    Ok (s, true).

(** r3fix.py, lines 274 to 284: 68415. *)
Definition r3_rows_68415_2 : list R3.transform := [
  r3_f "617400ed" r3_CL r3_move_resolve_comment None None;
  r3_t "617400ed-wrap" r3_CL
    (lit "	 * does -- but only a regular file has that size, and llite gives a
	 * special file
	 * init_special_inode(), so a real open on a device node stored in
	 * the filesystem opens the driver.  O_NONBLOCK holds off the wait,
	 * not the rest of what an open does.
")
    (lit "	 * does -- but only a regular file has that size, and llite gives a
	 * special file init_special_inode(), so a real open on a device node
	 * stored in the filesystem opens the driver.  O_NONBLOCK holds off the
	 * wait, not the rest of what an open does.
")
    None None false
].

(** r3fix.py, lines 287 to 417: 68416. *)
Definition r3_rows_68416 : list R3.transform := [
  r3_t "adac49ea-a" R3.MSG
    (lit "The kernel-doc no longer lists lfsp_flags among the fields that are
ignored.  Every flag it defines is, but a bit outside them is refused
with -EINVAL, as the code does and llapi_scan_fid.3 already says.
")
    (lit "The flags the other scanners define are ignored here, but a bit
outside them is refused with -EINVAL, as llapi_scan_fid.3 says.
")
    None None false;
  r3_t "adac49ea-b" R3.MSG
    (lit "mnt_fd has to be the mount root now.  The ioctl behind
llapi_fid2path_at() takes any descriptor in the filesystem, and the
page always named llapi_root_path_open(), which returns the root; a
caller that passed something else answered before and answers -ENOENT
now.  mnt_path stays required and stays what lfsr_path is built from,
so a wrong one still mislabels the answer -- it just no longer decides
what was read.
")
    (lit "mnt_fd has to be the mount root, as llapi_root_path_open() returns:
the ioctl behind llapi_fid2path_at() takes any descriptor in the
filesystem, but the name it answers is relative to the root, so any
other descriptor answers -ENOENT.  mnt_path is required and is what
lfsr_path is built from, so a wrong one mislabels the answer.
")
    None None false;
  r3_t "afc96fd0-msg" R3.MSG
    (lit "The syscalls go through mnt_fd, not through the composed pathname.
The FID was already resolved through that descriptor; the statx, the
object's open and the parent's now use it too, at the name fid2path
answered, so mnt_fd alone says which filesystem is read.  An fd pins
its mount where a path string is resolved afresh every time, and a
mount replaced between the open and the scan would otherwise have the
resolve read one filesystem and the gather another, with rc 0 and
nothing said.  It also takes the mount prefix off every lookup, three
per object, which over a changelog's worth of FIDs is what this entry
point is for.
")
    (lit "The call's own syscalls go through mnt_fd, not through the composed
pathname.  The FID was already resolved through that descriptor; the
statx and the open of the parent, or of a directory itself, use it
too, at the name fid2path answered.  An fd pins its mount where a path
string is resolved afresh every time.  The opens scan_rec_gather()
makes for LLAPI_SCAN_PROJID, LLAPI_SCAN_HSM and a regular file's
LLAPI_SCAN_MDT_INDEX are still by pathname, so for those three
mnt_path does decide what is read.  It also takes the mount prefix
off the call's own lookups, which over a changelog's worth of FIDs is
what this entry point is for.
")
    None None false;
  r3_t "afc96fd0-doc" "lustre/utils/liblustreapi_scan.c"
    (lit " * @mnt_fd is the filesystem and @mnt_path only the spelling.  Every syscall
 * here -- the statx, the object's open, the parent's -- goes through @mnt_fd
 * and the name fid2path answered, so the two cannot name different
 * filesystems between them: an fd pins its mount, where a path string is
 * resolved afresh each time and can be a mount that has since been replaced.
")
    (lit " * @mnt_fd is the filesystem and @mnt_path mostly the spelling.  The syscalls
 * this function makes -- the statx, and the open of a directory or of the
 * parent -- go through @mnt_fd and the name fid2path answered: an fd pins its
 * mount, where a path string is resolved afresh each time and can be a mount
 * that has since been replaced.  scan_rec_gather() still opens by pathname
 * for LLAPI_SCAN_PROJID, LLAPI_SCAN_HSM and a regular file's
 * LLAPI_SCAN_MDT_INDEX, so for those @mnt_path does decide what is read.
")
    None None false;
  r3_t "afc96fd0-doc2" "lustre/utils/liblustreapi_scan.c"
    (lit " * what the record's lfsr_path is built from, so a wrong one still mislabels
 * the answer -- it just no longer decides what was read.
")
    (lit " * what the record's lfsr_path is built from, so a wrong one mislabels the
 * answer.
")
    None None false;
  r3_t "afc96fd0-man" "Documentation/man3/llapi_scan_fid.3"
    (lit "returns. It is the filesystem: the FID is resolved through it, and the object
and its parent are opened through it too, at the name
.BR llapi_fid2path (3)
answered. The root, rather than any descriptor in the filesystem, because that
name is relative to it.
")
    (lit "returns. It is the filesystem: the FID is resolved through it, and a directory,
or the parent of anything else, is opened through it too, at the name
.BR llapi_fid2path (3)
answered. The root, rather than any descriptor in the filesystem, because that
name is relative to it. The opens that gather a project id, HSM state and a
regular file's MDT index are still made by pathname, through
.IR mnt_path .
")
    None None false;
  r3_t "afc96fd0-man2" "Documentation/man3/llapi_scan_fid.3"
    (lit "is open on mislabels the answer; it no longer decides what was read. That is
")
    (lit "is open on mislabels the answer. That is
")
    None None false;
  r3_t "00ea7018" r3_PFIND
    (lit " * Four fields are the search's to decide and are overwritten whatever the
 * caller set: lfsp_want (the predicates decide it), lfsp_thread_count,
 * lfsp_stats
 * and lfsp_filter.  lfsp_filter goes because this function has no void *data of
 * its own to give it: the scan carries find's state, and a caller's callback
 * would be handed that and read it as its own context.
")
    (lit " * Five fields are the search's to decide and are overwritten whatever the
 * caller set: lfsp_want (the predicates decide it), lfsp_thread_count,
 * lfsp_stats, lfsp_filter and lfsp_got.  lfsp_filter goes because this
 * function has no void *data of its own to give it: the scan carries find's
 * state, and a caller's callback would be handed that and read it as its own
 * context.
")
    None (Some "c68416") false;
  r3_t "00ea7018-lower" r3_PFIND
    (lit " * Four fields are the search's to decide and are overwritten whatever the
 * caller set: lfsp_want (the predicates decide it), lfsp_thread_count,
 * lfsp_stats
 * and lfsp_filter.  lfsp_filter goes because this function has no void *data of
 * its own to give it: the scan carries find's state, and a caller's callback
 * would be handed that and read it as its own context.
")
    (lit " * Four fields are the search's to decide and are overwritten whatever the
 * caller set: lfsp_want (the predicates decide it), lfsp_thread_count,
 * lfsp_stats and lfsp_filter.  lfsp_filter goes because this function has
 * no void *data of its own to give it: the scan carries find's state, and a
 * caller's callback would be handed that and read it as its own context.
")
    (Some (r3_order_before "c68416")) None false;
  r3_t "1f5eb08c-decl" "lustre/tests/llapi_scan_test.c"
    (lit "	char mnt[PATH_MAX], want[PATH_MAX], copy[PATH_MAX];
	struct fid_seen fs;
")
    (lit "	char mnt[PATH_MAX], want[PATH_MAX], copy[PATH_MAX];
	char slashed[PATH_MAX + 1];
	struct fid_seen fs;
")
    None None false;
  r3_t "1f5eb08c" "lustre/tests/llapi_scan_test.c"
    (lit "	ASSERTF((fs.fs_valid & LLAPI_SCAN_FID) != 0,
		\qthe record carries no FID: lfsr_valid %#llx\q,
		(unsigned long long)fs.fs_valid);

	/* a filter that skips")
    (lit "	ASSERTF((fs.fs_valid & LLAPI_SCAN_FID) != 0,
		\qthe record carries no FID: lfsr_valid %#llx\q,
		(unsigned long long)fs.fs_valid);

	/* a trailing slash on mnt_path is trimmed, not doubled into the path */
	rc = snprintf(slashed, sizeof(slashed), \q%s/\q, mnt);
	ASSERTF(rc > 0 && (size_t)rc < sizeof(slashed), \qpath too long\q);
	memset(&fs, 0, sizeof(fs));
	rc = llapi_scan_fid(mnt_fd, slashed, &fid, &sp, fid_cb, &fs);
	ASSERTF(rc == 0, \qllapi_scan_fid under '%s' failed: %s\q, slashed,
		strerror(-rc));
	ASSERTF(strcmp(fs.fs_path, want) == 0,
		\qlfsr_path under '%s' is '%s', expected '%s'\q, slashed,
		fs.fs_path, want);
	ASSERTF(strcmp(fs.fs_name, basename(copy)) == 0,
		\qlfsr_name under '%s' is '%s', expected '%s'\q, slashed,
		fs.fs_name, basename(copy));

	/* a filter that skips")
    None None false
].

Definition r3_SYN_SIZE : text :=
  (lit ".RB [[ ! ]
.BR --size | -s
").

Definition r3_SYN_SINCE : text :=
  (lit ".RB [ --since
").

Definition r3_SYN_END : text :=
  (lit ".RB [[ ! ]
.BR --stripe-count | -c
").

Definition r3_OPT_SIZE : text :=
  (lit ".TP
.BR -s \q, \q --size
").

Definition r3_OPT_SINCE : text :=
  (lit ".TP
.BI --since \q TIME\q").

Definition r3_OPT_END : text :=
  (lit ".TP
.BR -k \q, \q --skip
").

Definition r3__move (s anchor start stop : text) : res (text * bool) :=
  match py_find anchor s, py_find start s with
  | Some a, Some i =>
      if i <? a then Ok (s, false)
      else match py_find_from stop s i with
           | None => Raise (RuntimeError ("no end for " +:+ String.string_of_list_ascii start))
           | Some e =>
               let block := py_slice s i e in
               let s := take i s ++ drop e s in
               Ok (take a s ++ block ++ drop a s, true)
           end
  | _, _ => Ok (s, false)
  end.

Definition r3_move_since (s : text) : res (text * bool) :=
  let! r := r3__move s r3_SYN_SIZE r3_SYN_SINCE r3_SYN_END in
  let! r' := r3__move r.1 r3_OPT_SIZE r3_OPT_SINCE r3_OPT_END in
  Ok (r'.1, r.2 || r'.2).

(** r3fix.py, lines 447 to 528: 68417. *)
Definition r3_rows_68417 : list R3.transform := [
  r3_f "a2ba1626" r3_FIND1 r3_move_since None None;
  r3_t "fff5372a-man" "Documentation/man3/llapi_find_since.3"
    (lit ".I fp_thread_count
is above 1. This source is single-threaded, and it is the first thing
tested \\(em before
.IR path ,
the mount and the MDT list \\(em so a
.B find_param
that a walk left a thread count in is refused whatever else it holds.
")
    (lit ".I fp_thread_count
is above 1. This source is single-threaded, and the count is tested as soon
as the arguments are well formed \\(em before
.I path
is resolved or any MDT is read \\(em so a
.B find_param
that a walk left a thread count in is refused rather than run on one thread.
")
    None None false;
  r3_t "fff5372a-dup" "Documentation/man3/llapi_find_since.3"
    (lit ".IP
Also for
.I fp_thread_count
above 1. This source is single-threaded, and it is the first thing tested
\\(em before
.IR path ,
the mount and the MDT list \\(em so a
.B find_param
that a walk left a thread count in is refused whatever else it holds.
")
    (lit "")
    None None false;
  r3_t "fff5372a-msg" R3.MSG
    (lit "llapi_find_since() refuses fp_thread_count above 1 for itself, before
it looks at anything else: this source reads one MDT's changelog at a
time and has no work to divide.  That is why lfs_find() now computes
the default thread count on the walk's arm of the dispatch rather than
above it -- computed for every search, the default alone was above 1
and the refusal fired on every --since run, which is not a setting the
caller made.
")
    (lit "llapi_find_since() refuses fp_thread_count above 1 for itself, once
its arguments are well formed and before any MDT is read: this source
reads one MDT's changelog at a time and has no work to divide.  So
lfs_find() computes the default thread count on the walk's arm of the
dispatch rather than above it -- computed for every search, the
default alone is above 1 and the refusal would fire on every --since
run, which is not a setting the caller made.
")
    None None false;
  r3_t "fd5bc71b" r3_PFIND
    (lit "	rc = llapi_get_obd_count(mnt_path, &mdt_bound, 1);
	if (rc < 0 || mdt_bound <= 0)
		mdt_bound = 1;
")
    (lit "	rc = llapi_get_obd_count(mnt_path, &mdt_bound, 1);
	if (rc < 0) {
		llapi_error(LLAPI_MSG_ERROR, rc,
			    \qcannot count the MDTs of '%s'\q, mnt_path);
		return rc;
	}
	if (mdt_bound <= 0)
		mdt_bound = 1;
")
    None None false;
  r3_t "fd5bc71b-msg" R3.MSG
    (lit "bound and each index confirmed with llapi_search_tgt() before its
changelog is read.
")
    (lit "bound and each index confirmed with llapi_search_tgt() before its
changelog is read.  A count that cannot be read at all is an error
rather than a bound of one, which would search MDT0000 alone and say
nothing.
")
    None None false;
  r3_t "37d1fed2" r3_PFIND
    (lit "			    \q%llu objects could not be decided from their changelog record\q,
")
    (lit "			    \q%llu objects could not be decided and are not in the answer\q,
")
    None None false;
  r3_t "080e9b9d" "lustre/utils/lfs_find_parse.c"
    (lit "		if (strncmp(fmts[i], \q%H\q, 2) == 0) {
			localtime_r(&now, &tm);
		} else {
")
    (lit "		if (strncmp(fmts[i], \q%H\q, 2) == 0) {
			localtime_r(&now, &tm);
			tm.tm_sec = 0;	/* \q%H:%M\q sets no seconds */
		} else {
")
    None None false;
  r3_t "09cfc4b1-2a3e" r3_PFIND
    (lit "--threads describes a walk; --since reads one changelog per MDT in turn")
    (lit "--threads describes a walk; --since and --changelog read one changelog per MDT in turn")
    (Some ["c68418"]) None false;
  r3_t "09cfc4b1" r3_PFIND
    (lit "--threads describes a walk; --since reads one changelog per MDT in turn")
    (lit "--threads describes a walk; --since, --since-cookie and --changelog read one changelog per MDT in turn")
    None (Some "c68419") false
].

(** r3fix.py, lines 531 to 582: 68418. *)
Definition r3_rows_68418 : list R3.transform := [
  r3_t "2d0b68e4" R3.MSG
    (lit "object.  An object time is refused outright, a record carrying an
event time and the two being different questions; the message says
--since 1d is how to ask.  Only --mdt, --maxdepth and --mindepth are
refused at every setting -- they describe a walk, or need something a
per-MDT log does not have.  --ost and the object times are refused
without --resolve alone, the lookup supplying both.
")
    (lit "object.  An object time is refused without --resolve, a record
carrying an event time and the two being different questions; the
message says --since 1d is how to ask.  Only --mdt, --maxdepth and
--mindepth are refused at every setting -- they describe a walk, or
need something a per-MDT log does not have.  --ost is refused without
--resolve too, the lookup supplying it.
")
    None None false;
  r3_t "b3d55630" r3_FIND1
    (lit "counted as undecided rather than answered from the record's zeroes. So
.B \\-\\-resolve
can leave an object out that the same search without it reports by FID.
")
    (lit "counted as undecided rather than answered from the record's zeroes.
")
    None None false;
  r3_t "3b37662f" "include/lustre/lustreapi.h"
    (lit "				 fp_unused_bit3:1,  /* once used, we must add */
				 fp_unused_bit4:1,  /* a separate flag field  */
				 fp_unused_bits2:22; /* at the end of this    */
")
    (lit "				 fp_unused_bit3:1,  /* once used, we must add */
				 fp_unused_bit4:1,  /* a flag field at the */
				 fp_unused_bits2:22; /* end of this struct */
")
    None None false;
  r3_t "195af7cb" r3_PFIND
    (lit "	 * mark rather than passing that value off as a FID, so the gate below
	 * would drop it -- but as an object whose name could not be
	 * recovered, which a mark is not.  Testing the type here says which
	 * case it is.
")
    (lit "	 * mark rather than passing that value off as a FID, so the gate below
	 * drops it too; testing the type here keeps that from resting on the
	 * library alone.
")
    None None false;
  r3_t "195af7cb-msg" R3.MSG
    (lit "with cr_tfid, so cr_tfid.f_seq would read back as CLM_ON|CLM_START,
0x10001 -- and fid_seq_is_igif() accepts anything in [12, 0xffffffff],
so the FID gate would pass a value that is not a FID and find_decide()
would print it as a FID with no pathname.
")
    (lit "with cr_tfid, so cr_tfid.f_seq would read back as CLM_ON|CLM_START,
0x10001, which fid_seq_is_igif() accepts.  llapi_scan_changelog()
already clears LLAPI_SCAN_FID for a mark, so the FID gate drops it;
the type test is defence in depth over that.
")
    None None false;
  r3_t "37d1fed2-msg" R3.MSG
    (lit "The undecided warning no longer claims a missing field.
find_since_cand_cb() also counts an object undecided when it has gone
and the search needed a lookup or named a subtree, and there the
record answered -- the object is what is missing.  \qcould not be
decided from their changelog record\q covers both.
")
    (lit "The undecided warning names no cause.  find_since_cand_cb() counts an
object undecided when its record cannot answer, and also when it has
gone and the search needed a lookup or named a subtree, where the
record did answer and the object is what is missing.
")
    None None false
].

Definition r3_COOKIE_TMP_FN : text :=
  (lit "/*
 * The temporary a cookie is written through, beside it and private to this
 * run: two runs over one cookie -- a cron job that outlasts its interval --
 * must not truncate or unlink each other's copy between write and rename.
 * O_EXCL rather than mkstemp(), which would give a first run's cookie 0600
 * instead of the umask's answer.
 *
 * Return: an open descriptor, or a negative errno.
 */
static int find_cookie_tmp(const char *file, char *tmp, size_t len)
{
	int i;

	for (i = 0; i < 100; i++) {
		int fd;

		if (snprintf(tmp, len, \q%s.%d.%d.new\q, file, (int)getpid(),
			     i) >= (int)len)
			return -ENAMETOOLONG;
		fd = open(tmp, O_WRONLY | O_CREAT | O_EXCL | O_CLOEXEC, 0666);
		if (fd >= 0)
			return fd;
		if (errno != EEXIST)
			return -errno;
	}

	return -EEXIST;
}

").

Definition r3_WRITE_HDR : text :=
  (lit "static int find_cookie_write(const char *file, const char *fsname,
			     const char *root, const __u64 *seen, int nseen)
").

Definition r3_WRITE_DOC_TAIL : text :=
  (lit " * in place for the MDTs this run reached.
 */
").

Definition r3_add_cookie_tmp (s : text) : res (text * bool) :=
  if py_in (lit "static int find_cookie_tmp(") s then Ok (s, false)
  else
    let anchor := r3_WRITE_DOC_TAIL ++ r3_WRITE_HDR in
    if negb (py_in anchor s) then Ok (s, false)
    else
      let! i := py_index anchor s in
      match py_rfind (lit "
/*
") (take i s) with
      | None => Raise (RuntimeError "no kernel-doc start for find_cookie_write")
      | Some j => Ok (take (j + 1) s ++ r3_COOKIE_TMP_FN ++ drop (j + 1) s, true)
      end.

(** r3fix.py, lines 636 to 773: 68419. *)
Definition r3_rows_68419 : list R3.transform := [
  r3_f "e31be789-fn" r3_PFIND r3_add_cookie_tmp None (Some "c68419");
  r3_t "e31be789-write" r3_PFIND
    (lit "	FILE *fp;
	int rc = 0;
	int i;

	if (snprintf(tmp, sizeof(tmp), \q%s.new\q, file) >= (int)sizeof(tmp))
		return -ENAMETOOLONG;

	rc = find_ck_escape(rootesc, sizeof(rootesc), root);
	if (rc != 0)
		return rc;

	fp = fopen(tmp, \qw\q);
	if (fp == NULL)
		return -errno;
")
    (lit "	FILE *fp;
	int rc = 0;
	int fd;
	int i;

	rc = find_ck_escape(rootesc, sizeof(rootesc), root);
	if (rc != 0)
		return rc;

	fd = find_cookie_tmp(file, tmp, sizeof(tmp));
	if (fd < 0)
		return fd;
	fp = fdopen(fd, \qw\q);
	if (fp == NULL) {
		rc = -errno;
		close(fd);
		unlink(tmp);
		return rc;
	}
")
    None None false;
  r3_t "e31be789-probe" r3_PFIND
    (lit "	if (snprintf(probe, sizeof(probe), \q%s.new\q, cookie) >=
	    (int)sizeof(probe)) {
		llapi_error(LLAPI_MSG_ERROR | LLAPI_MSG_NO_ERRNO, -ENAMETOOLONG,
			    \qthe cookie '%s' is too long to write beside\q,
			    cookie);
		return -ENAMETOOLONG;
	}

	fp = fopen(probe, \qw\q);
	if (fp == NULL) {
		int rc = -errno;

		llapi_error(LLAPI_MSG_ERROR, rc,
			    \qcannot write the cookie '%s'\q, cookie);
		return rc;
	}
	fclose(fp);
	unlink(probe);
")
    (lit "	fd = find_cookie_tmp(cookie, probe, sizeof(probe));
	if (fd == -ENAMETOOLONG) {
		llapi_error(LLAPI_MSG_ERROR | LLAPI_MSG_NO_ERRNO, fd,
			    \qthe cookie '%s' is too long to write beside\q,
			    cookie);
		return fd;
	}
	if (fd < 0) {
		llapi_error(LLAPI_MSG_ERROR, fd,
			    \qcannot write the cookie '%s'\q, cookie);
		return fd;
	}
	close(fd);
	unlink(probe);
")
    None None false;
  r3_t "e31be789-probedecl" r3_PFIND
    (lit "	char probe[PATH_MAX];
	struct stat st;
	FILE *fp;
	int i;
")
    (lit "	char probe[PATH_MAX];
	struct stat st;
	int fd;
	int i;
")
    None None false;
  r3_t "e31be789-probecmt" r3_PFIND
    (lit "	 * The probe is find_cookie_write()'s own temporary name, not the
	 * cookie: the write creates \q<cookie>.new\q and renames over, so what
	 * it needs is permission on the containing directory, which opening
")
    (lit "	 * The probe is a temporary beside the cookie, as find_cookie_write()
	 * makes one, not the cookie: the write renames over, so what it
	 * needs is permission on the containing directory, which opening
")
    None None false;
  r3_t "09cfc4b1-2" r3_PFIND
    (lit "	 * Both refusals here say so.  They used to return the errno alone,
	 * where the \qis not a regular file\q case below reports itself, so an
	 * empty --since-cookie ended at the caller's \qfailed for '<path>':
	 * Invalid argument\q with nothing naming the argument at fault.
")
    (lit "	 * Every refusal here names the argument at fault, or the run would
	 * end at the caller's \qfailed for '<path>': Invalid argument\q.
")
    None None false;
  r3_t "bd138920" r3_PFIND
    (lit "	if (rc == 0 && param->fp_since_cookie != NULL) {
		/*
		 * starts[] holds what the file said")
    (lit "	/*
	 * Matches printed into a stdout that failed are as lost as the ones
	 * above, and llapi_printf() reports nothing, so ask stdout itself.
	 */
	if (rc == 0 && param->fp_since_cookie != NULL &&
	    (fflush(stdout) != 0 || ferror(stdout))) {
		rc = -EIO;
		llapi_error(LLAPI_MSG_ERROR | LLAPI_MSG_NO_ERRNO, rc,
			    \qthe matches could not be written; '%s' is left where it was\q,
			    param->fp_since_cookie);
	}

	if (rc == 0 && param->fp_since_cookie != NULL) {
		/*
		 * starts[] holds what the file said")
    None None false;
  r3_t "240ce397-probe" R3.MSG
    (lit "The pre-pass probes the temporary name the write will use rather than
the cookie itself, because the write creates \q<cookie>.new\q and
renames over: what it needs is permission on the directory, which
opening an existing cookie for append does not test.  A cookie owned
by the job user in a root-owned directory passed and then failed
EACCES with every match already printed.
")
    (lit "The pre-pass probes by creating a temporary beside the cookie rather
than opening the cookie itself, because the write creates one and
renames over: what it needs is permission on the directory, which
opening an existing cookie for append does not test.  A cookie owned
by the job user in a root-owned directory would pass that and then
fail EACCES with every match already printed.

The temporary is private to the run, \q<cookie>.<pid>.<n>.new\q created
O_EXCL.  One fixed name would let an overlapping run -- a cron job
that outlasts its interval -- truncate or unlink the other's copy
between its write and its rename, and an empty cookie reads as no
anchors at all.  O_EXCL rather than mkstemp() keeps the umask's mode
for a first run's cookie.

Matches that could not be written hold the anchors too.  They go to
stdout through llapi_printf(), which reports nothing, so stdout is
flushed and its error flag read before the rewrite; otherwise
\qlfs find --since-cookie ck > out\q on a full filesystem would lose
the matches, advance past their records and exit 0.
")
    None None false
].

(** r3fix.py, lines 774 to 890: 68419. *)
Definition r3_rows_68419_2 : list R3.transform := [
  r3_t "240ce397-tail" R3.MSG
    (lit "The cookie names the search as well as the filesystem, and a
mismatch is refused the way a wrong fsname already was.  The anchors
say how far each log was read, not how far a subtree was: a record is
counted before the FID and the subtree are tested, so a run over one
subtree carries every anchor to the end of the log and a second
subtree sharing the cookie starts past its own changes and prints
nothing.  That is the collision lfs_find() refuses when two paths are
given to one command, reached by running the command twice.  A cookie
written before this carries no root and is still accepted.

A cookie that exists and is not a regular file is refused up front.
The probe settles the containing directory, not the name: the write
ends in rename(), which answers EISDIR over a directory, while the
read succeeds and returns no anchors -- so naming a directory scanned
every log to the end, printed every match, and only then said it
could not rewrite.  An empty name is refused with it.

The comment on the file format said a comment or a blank line costs
nothing.  It costs the read nothing; the rewrite emits the header and
the anchors and nothing else, so it does not survive the run.  Said
so, the sentence otherwise reading as an invitation to annotate the
file.

The documentation for fp_since_cookie arrives here rather than in the
previous patch, which described the field, its -EINVAL and its
-ESTALE before any of them existed.

The root is the rest of the header line rather than a field.  A
pathname can hold a space and %s cuts it at the first one, so a search
under \q/mnt/lustre/my data\q was recorded whole and read back as
\q/mnt/lustre/my\q: the comparison then failed for every run after the
first, and the message named a path the caller never gave.  The root
is whatever realpath() returned for the caller's path, so a directory
with a space in it was enough to reach it.

And the root is escaped rather than written raw, because the rest of a
line still cannot hold a newline.  Only '/' and NUL are excluded from
a name, so \q/mnt/lustre/anb\q was written whole, read back as
\q/mnt/lustre/a\q, and refused for every run after the first naming a
path the caller never gave -- the space case one character further
out, with the remainder becoming its own line and being dropped.  Both
sides escape and the reader compares the escaped forms, so nothing
decodes: the mapping only has to be injective for a comparison, which
is also why backslash is escaped.  The refusal names both sides in
that spelling, or a newline would break the line meant to name it.

find_cookie_check()'s two other refusals say so as well.  An empty
--since-cookie and a name too long to append \q.new\q to both returned
the errno alone, beside a \qis not a regular file\q case that reports
itself, so the run ended at the caller's \qfailed for '<path>': Invalid
argument\q with nothing naming the argument at fault.

Two diagnostics that this patch makes reachable are corrected with it.
The refusal of --resolve without --changelog said \q--since already
reads the object\q, which names an option the caller need not have
given once --since-cookie exists; it names both anchored spellings
now.  And a cookie refused for its filesystem or its root was reported
twice, the second line saying \qcannot read\q over a file that read
perfectly well -- find_cookie_read() has already named which refusal
it was, so the wrapper is left with what fopen() passed up.

The MDT number is exactly the four hex digits find_cookie_write()
emits.  %4x converts the leading digits and ignores what follows, so
\q<fsname>-MDT00001\q and \q<fsname>-MDT0000_UUID\q both anchored MDT0000
at an index never written for it -- the short answer with nothing said
that the stale check exists to catch, from a file this function's own
comment says it ignores anything but \q<mdtname> <index>\q in.  The span
refuses the sign as well, so the separate test for it goes.

ERRORS gains -ESTALE, which the previous patch dropped on the
understanding it would arrive with the cookie and which the kernel-doc
Return: block has listed since.  It is the error the whole option is
built around, and the man page was the one place a caller of the API
could not find it.
")
    (lit "The cookie names the search as well as the filesystem, and a
mismatch is refused the way a wrong fsname is.  The anchors say how
far each log was read, not how far a subtree was: a record is counted
before the FID and the subtree are tested, so a run over one subtree
carries every anchor to the end of the log, and a second subtree
sharing the cookie would start past its own changes and print nothing.
That is the collision lfs_find() refuses when two paths are given to
one command, reached by running the command twice.  A header with no
root is accepted.

A cookie that exists and is not a regular file is refused up front.
The probe settles the containing directory, not the name: the write
ends in rename(), which answers EISDIR over a directory, while the
read succeeds and returns no anchors -- so a directory named here
would scan every log to the end, print every match, and only then say
it could not rewrite.  An empty name is refused with it.

The root is the rest of the header line rather than a field, because
a pathname can hold a space and %s cuts at the first one.  It is
whatever realpath() returned for the caller's path.  And it is escaped
rather than written raw, because a name can hold a newline, which the
rest of a line cannot: only '/' and NUL are excluded from a name.  Both
sides escape and the reader compares the escaped forms, so nothing
decodes: the mapping only has to be injective for a comparison, which
is also why backslash is escaped.  The refusal names both sides in
that spelling, or a newline would break the line meant to name it.

Every refusal in find_cookie_check() names the argument at fault, so a
run does not end at the caller's \qfailed for '<path>': Invalid
argument\q.  The refusal of --resolve without --changelog names both
anchored spellings, since --since-cookie reaches it too.  A cookie
refused for its filesystem or its root is reported once:
find_cookie_read() names the refusal, and the wrapper adds nothing.

The MDT number is exactly the four hex digits find_cookie_write()
emits.  %4x converts the leading digits and ignores what follows, so
without the span \q<fsname>-MDT00001\q and \q<fsname>-MDT0000_UUID\q
would both anchor MDT0000 at an index never written for it -- the
short answer with nothing said that the stale check exists to catch.
The span refuses a sign as well.

ERRORS lists -ESTALE, the error the whole option is built around.
")
    None None false
].

(** r3fix.py, lines 893 to 970: 68420. *)
Definition r3_rows_68420 : list R3.transform := [
  r3_t "3d25f00b" R3.MSG
    (lit "lfs-find.1 gains --since, --since-cookie, --changelog and --resolve:
what each answers, that --since is a strict subset of the same search
without it, that a bare index belongs to one MDT and is refused where
that is ambiguous, that a number which could be an index or an epoch
second is never guessed at, and that reading a changelog neither
consumes it nor needs a registered user while records exist only while
some user is registered.  TIME's spellings are given in full, since
set_since() takes eight of them and its error text offers one the page
would otherwise not list.

The page says what --resolve does not answer for -- an object gone
between its event and the lookup is counted undecided and dropped, so
--resolve can leave out an object the same search without it reports
by FID -- and which name -name is tested against.  The log is
coalesced to one record per object before the search sees it, so the
name that can match is the one the object's latest event to carry one
carried: a file created as f and hardlinked as g is matched by \q-name
g\q alone, and the pathname printed is its first name rather than the
one that matched.  A plain walk meets each name in turn and matches
all of them.  The behaviour is deliberate -- substituting a current
name would answer -name against something the record never said -- but
a reader had no way to know it.
")
    (lit "Three changes to lfs-find.1 ride along.  --since-cookie moves up
beside --since in SYNOPSIS and OPTIONS: it is the other way to say
where a --since search starts, where --changelog is a different
source.  TIME's spellings are given in full -- set_since() takes
eight of them, and its error text offers one the page would otherwise
not list -- and seconds are optional wherever a time appears.  And the
-name paragraph says which name a match is tested against under
--changelog: the one carried by the object's latest event that
carried a name, so a file created as f and then written and closed
still matches -name f, its CL_CLOSE naming nothing.
")
    None None false;
  r3_t "6cf9bb05-msg" R3.MSG
    (lit "and then a stale anchor and both anchors together are refused.  It
asks for creations only.  A wide mask records the test's own reads,
and then \qnothing changed since\q is never true -- which is what hid an
off-by-one in the cookie until a narrow mask made every run repeat the
last object of the one before it.
")
    (lit "and then a stale anchor and both anchors together are refused, as is
the cookie under a root other than its own.  A run whose output cannot
be written must fail and leave the cookie as it was, so that the run
after it still returns the object.  It asks for creations only.  A wide
mask records the test's own reads, and then \qnothing changed since\q is
never true -- which is what hid an off-by-one in the cookie until a
narrow mask made every run repeat the last object of the one before
it.
")
    None None false;
  r3_t "6cf9bb05-local" r3_SANITY
    (lit "	local ck=$TMP/lfs-find-cookie.$$
	local out
")
    (lit "	local ck=$TMP/lfs-find-cookie.$$
	local out
	local sum
")
    None None false;
  r3_t "6cf9bb05" r3_SANITY
    (lit "	[[ -z \q$out\q ]] || error \qthe third run returned '$out'\q
")
    (lit "	[[ -z \q$out\q ]] || error \qthe third run returned '$out'\q

	# bound to the root it was written under, not only the filesystem
	sum=$(cksum < $ck)
	out=$($LFS find $DIR --since-cookie $ck -type f 2>&1) &&
		error \qa cookie written under $DIR/$tdir was used under $DIR\q
	grep -q \qis a cookie for a search under\q <<< \q$out\q ||
		error \qrefused for another reason: $out\q
	[[ \q$(cksum < $ck)\q == \q$sum\q ]] ||
		error \qthe cookie refused for its root was rewritten\q

	# matches that could not be written leave the anchors where they were
	touch $DIR/$tdir/c || error \qtouch c failed\q
	sync; sleep 2
	$LFS find $DIR/$tdir --since-cookie $ck -type f > /dev/full \\
		2> /dev/null &&
		error \qa run whose output was lost reported success\q
	[[ \q$(cksum < $ck)\q == \q$sum\q ]] ||
		error \qa run whose output was lost advanced the cookie\q
	out=$($LFS find $DIR/$tdir --since-cookie $ck -type f) ||
		error \qthe run after a lost one failed\q
	grep -q \q/c$\q <<< \q$out\q || error \qthe run after a lost one missed c\q
")
    None (Some "c68420") false
].

(** r3fix.py, lines 973 to 1008: 68727. *)
Definition r3_rows_68727 : list R3.transform := [
  r3_t "fb139d1b" R3.MSG
    (lit "the start-point line agree as well belongs to a fix for that, not
here.
")
    (lit "the start-point line agree as well belongs to a fix for that, not
here.

A trailing slash on something that is not a directory is trimmed too,
so \qlfs find f/\q reports f where find(1) fails with ENOTDIR.
")
    None None false;
  r3_t "0957ec61" "lustre/utils/liblustreapi.c"
    (lit " * @path	Starting path for the traversal
 * @param	Ponter to find_param structure
")
    (lit " * @path	Starting path for the traversal; trailing slashes are ignored
 * @param	Pointer to find_param structure
")
    None (Some "c68727") false;
  r3_t "513bd9ed" "lustre/utils/liblustreapi.c"
    (lit "	 * Here rather than in each caller: this is the one way into the
	 * traversal, so")
    (lit "	 * Here rather than in each caller: this is the one way into find's
	 * traversal, so")
    None None false;
  r3_t "513bd9ed-msg" R3.MSG
    (lit "It goes in llapi_find_with_cb(), which is the one way into the
traversal:")
    (lit "It goes in llapi_find_with_cb(), which is the one way into find's
traversal:")
    None None false;
  r3_t "836aa67b" r3_PFIND
    (lit "	 * A walk does print the doubled separator -- llapi_semantic_traverse()
	 * appends to the argument as given, and GNU find does the same --
	 * so this is the one place --since's spelling differs from the same
	 * search without it, deliberately: the set of objects is identical,
	 * only the separator is tidied.
")
    (lit "	 * llapi_find_with_cb() trims a walk's start point the same way, so the
	 * two spell names alike.
")
    None (Some "c68727") false;
  r3_t "8e5a951e" "lustre/utils/liblustreapi_scan.c"
    (lit "	 * object, so it goes the way llapi_scan_namespace() trims its own
	 * path argument.
")
    (lit "	 * object, so it goes the way llapi_find_with_cb() trims a walk's start
	 * point.
")
    None (Some "c68727") false
].

(** The table [T] as the module leaves it. *)
Definition r3_T : list R3.transform :=
  r3_rows_68094 ++
  r3_rows_68160 ++
  r3_rows_68163 ++
  r3_rows_68288 ++
  r3_rows_68415 ++
  r3_rows_68415_2 ++
  r3_rows_68416 ++
  r3_rows_68417 ++
  r3_rows_68418 ++
  r3_rows_68419 ++
  r3_rows_68419_2 ++
  r3_rows_68420 ++
  r3_rows_68727.
