(* ===== verification/RoundTables.v ===== *)
(** The fix tables of the rounds of 0918, 0920 and 0921 and of batches 1 and 2, names
    prefixed with the module's. *)
From S2P Require Import Prelude PyStr R3Engine.
Import R3.

(** The fix table of docs/rounds/r-0918/r0918fix.py, names prefixed with
    [r0918_]. *)

Definition r0918_API : string := "include/lustre/lustreapi.h".

Definition r0918_NS3 : string := "Documentation/man3/llapi_scan_namespace.3".

Definition r0918_DEV3 : string := "Documentation/man3/llapi_scan_device.3".

Definition r0918_SANITY : string := "lustre/tests/sanity.sh".

Definition r0918_PFIND : string := "lustre/utils/liblustreapi_pfind.c".

Definition r0918_SCAN : string := "lustre/utils/liblustreapi_scan.c".

Definition r0918_INTH : string := "lustre/utils/lustreapi_internal.h".

Definition r0918_DEV : string := "lustre/utils/liblustreapi_scan_device.c".

Definition r0918_LDISK : string := "lustre/utils/libscan_ldiskfs.c".

(** r0918fix.py, lines 35 to 41: 68094 lustreapi.h:639. *)
Definition r0918_rows_68094_lustreapi_h : list R3.transform := [
  r3_t "ac853bff" r0918_API
    (lit " * Valid only for the duration of the callback it is passed to.  lfsr_path,
 * lfsr_name and lfsr_lmm point into scanner-owned memory and must be copied by
 * a consumer that keeps them.
")
    (lit " * Valid only for the duration of the callback it is passed to.  lfsr_path,
 * lfsr_name, lfsr_lmm and lfsr_lmv point into scanner-owned memory and must
 * be copied by a consumer that keeps them.
")
    None None false
].

(** r0918fix.py, lines 44 to 52: 68094 man3:303. *)
Definition r0918_rows_68094_man3 : list R3.transform := [
  r3_t "aea0225b" r0918_NS3
    (lit "set beside it when the buffer is a
.B struct lmv_foreign_md
rather than an
")
    (lit "set beside it when the buffer is a
.B struct lmv_foreign_md
(declared in
.BR <linux/lustre/lustre_idl.h> )
rather than an
")
    None None false
].

(** r0918fix.py, lines 55 to 57: 68094 man3:476. *)
Definition r0918_rows_68094_man3_2 : list R3.transform := [
  r3_t "cb723540" r0918_NS3
    (lit "                if ((rec->lfsr_stx.stx_mask & STATX_MODE) &&
")
    (lit "                if ((rec->lfsr_stx.stx_mask & STATX_TYPE) &&
")
    None None false
].

(** r0918fix.py, lines 60 to 80: 68095 sanity.sh:10606. *)
Definition r0918_rows_68095_sanity_sh : list R3.transform := [
  r3_t "7bf450ef" r0918_SANITY
    (lit "	# the walk descends into a subtree that is not on Lustre; --links
	# fetches each directory's LMV, which off Lustre answers ENOTTY
	local raw

	raw=$($LFS find $dir -type f --links 1) ||
		error \qlfs find failed on $dir\q
	found=$(wc -l <<< \q$raw\q)
	(( found == 3 )) ||
		error \qlfs find found $found files under $dir, expected 3\q
")
    (lit "	# the walk descends into a subtree that is not on Lustre, where each
	# object's stat and, for --links, each directory's LMV answer ENOTTY.
	# No -type: d_type would reject the directories before the LMV fetch.
	local raw

	raw=$($LFS find $dir --links 1) ||
		error \qlfs find failed on $dir\q
	found=$(wc -l <<< \q$raw\q)
	# f1, f2, f3 and l1; every directory has more than one link
	(( found == 4 )) ||
		error \qlfs find found $found objects under $dir, expected 4\q
")
    None None false
].

(** r0918fix.py, lines 83 to 129: 68095 scan.c:292 rename. *)
Definition r0918_rows_68095_scan_c : list R3.transform := [
  r3_t "be5960c4-h1" r0918_INTH
    (lit "int scan_rec_gather_lmv(struct find_param *param, char *path, int d,
			__u64 want, bool *have_lmv);
")
    (lit "int scan_rec_gather_begin(struct find_param *param, char *path, int d,
			  __u64 want, bool *have_lmv);
")
    None None false;
  r3_t "be5960c4-h2" r0918_INTH
    (lit "int scan_rec_gather_rest(struct find_param *param, char *path, int p,
			 int d, int *fdp, __u64 want, bool have_lmv,
			 struct llapi_scan_rec *rec);
")
    (lit "int scan_rec_gather_finish(struct find_param *param, char *path, int p,
			   int d, int *fdp, __u64 want, bool have_lmv,
			   struct llapi_scan_rec *rec);
")
    None None false;
  r3_t "be5960c4-s1" r0918_SCAN
    (lit "int scan_rec_gather_lmv(struct find_param *param, char *path, int d,
			__u64 want, bool *have_lmv)
")
    (lit "int scan_rec_gather_begin(struct find_param *param, char *path, int d,
			  __u64 want, bool *have_lmv)
")
    None None false;
  r3_t "be5960c4-s2" r0918_SCAN
    (lit "/* The second step of scan_rec_gather(), after scan_rec_gather_lmv(). */
int scan_rec_gather_rest(struct find_param *param, char *path, int p,
			 int d, int *fdp, __u64 want, bool have_lmv,
			 struct llapi_scan_rec *rec)
")
    (lit "/* The second step of scan_rec_gather(), after scan_rec_gather_begin(). */
int scan_rec_gather_finish(struct find_param *param, char *path, int p,
			   int d, int *fdp, __u64 want, bool have_lmv,
			   struct llapi_scan_rec *rec)
")
    None None false;
  r3_t "be5960c4-s3" r0918_SCAN
    (lit "	rc = scan_rec_gather_lmv(param, path, d, want, &have_lmv);
")
    (lit "	rc = scan_rec_gather_begin(param, path, d, want, &have_lmv);
")
    None None false;
  r3_t "be5960c4-s4" r0918_SCAN
    (lit "	return scan_rec_gather_rest(param, path, p, d, fdp, want, have_lmv,
				    rec);
")
    (lit "	return scan_rec_gather_finish(param, path, p, d, fdp, want, have_lmv,
				      rec);
")
    None None false;
  r3_t "be5960c4-p1" r0918_PFIND
    (lit "		ret = scan_rec_gather_lmv(param, path, d, want, &have_lmv);
")
    (lit "		ret = scan_rec_gather_begin(param, path, d, want, &have_lmv);
")
    None None false;
  r3_t "be5960c4-p2" r0918_PFIND
    (lit "			ret = scan_rec_gather_rest(param, path, p, d, &fd, want,
						   have_lmv, &rec);
")
    (lit "			ret = scan_rec_gather_finish(param, path, p, d, &fd,
						     want, have_lmv, &rec);
")
    None None false;
  r3_t "be5960c4-msg" R3.MSG
    (lit "  calls its two steps itself, scan_rec_gather_lmv() and
  scan_rec_gather_rest(), so")
    (lit "  calls its two steps itself, scan_rec_gather_begin() and
  scan_rec_gather_finish(), so")
    None None false
].

(** r0918fix.py, lines 132 to 134: 68156 lustreapi.h:673. *)
Definition r0918_rows_68156_lustreapi_h : list R3.transform := [
  r3_t "cb09f4cc" r0918_API
    (lit "	LLAPI_SCAN_CLS_BAD = 5,		/* unreadable or unsupported */
")
    (lit "	LLAPI_SCAN_CLS_BAD = 5,		/* LMA has an unknown incompat bit */
")
    None None false
].

(** r0918fix.py, lines 137 to 224: 68156 scan_device.c:400. *)
Definition r0918_rows_68156_scan_device_c : list R3.transform := [
  r3_t "5aeb39c8-fn" r0918_DEV
    (lit "/*
 * Size and blocks.  The object's own size is the file's only when the file
 * has no layout; trusted.som answers otherwise, and answers lazily, which is
 * what LLAPI_SCAN_LAZY_SIZE already means.
 */
static void scan_size(")
    (lit "/*
 * Whether HSM has released the file, decided as mdt_hsm_is_released()
 * does: every component released.  The bytes are raw from the target.
 */
static bool scan_lov_released(const void *buf, size_t len)
{
	const struct lov_comp_md_v1 *comp = buf;
	const struct lov_user_md_v1 *v1 = buf;
	__u32 magic;
	__u16 count;
	__u16 i;

	if (len < sizeof(*v1))
		return false;

	magic = __le32_to_cpu(v1->lmm_magic);
	if (magic == LOV_MAGIC_V1 || magic == LOV_MAGIC_V3)
		return __le32_to_cpu(v1->lmm_pattern) & LOV_PATTERN_F_RELEASED;
	if (magic != LOV_MAGIC_COMP_V1 || len < sizeof(*comp))
		return false;

	count = __le16_to_cpu(comp->lcm_entry_count);
	if (len < sizeof(*comp) + count * sizeof(comp->lcm_entries[0]))
		return false;
	for (i = 0; i < count; i++) {
		__u32 off = __le32_to_cpu(comp->lcm_entries[i].lcme_offset);

		if (off > len - sizeof(*v1))
			return false;
		v1 = (const struct lov_user_md_v1 *)((const char *)buf + off);
		if (!(__le32_to_cpu(v1->lmm_pattern) & LOV_PATTERN_F_RELEASED))
			return false;
	}
	return true;
}

/*
 * Size and blocks.  The object's own size is the file's only when the file
 * has no layout, or HSM has released it; trusted.som answers otherwise, and
 * answers lazily, which is what LLAPI_SCAN_LAZY_SIZE already means.
 */
static void scan_size(")
    None None false;
  r3_t "5aeb39c8-decl" r0918_DEV
    (lit "		      struct llapi_scan_rec *rec)
{
	const struct lustre_som_attrs *som;
	size_t len = 0;
	__u16 valid;
")
    (lit "		      struct llapi_scan_rec *rec)
{
	const struct lustre_som_attrs *som;
	const void *lov;
	size_t len = 0;
	__u16 valid;
")
    None None false;
  r3_t "5aeb39c8-body" r0918_DEV
    (lit "		rec->lfsr_stx.stx_mask |= STATX_SIZE | STATX_BLOCKS;
		return;
	}

	som = scan_xattr(obj, LLAPI_SCAN_XA_SOM, &len);
")
    (lit "		rec->lfsr_stx.stx_mask |= STATX_SIZE | STATX_BLOCKS;
		return;
	}

	/* released: the MDT inode holds the size; one block, as for a client */
	lov = scan_xattr(obj, LLAPI_SCAN_XA_LOV, &len);
	if (lov != NULL && scan_lov_released(lov, len)) {
		rec->lfsr_stx.stx_size = obj->so_size;
		rec->lfsr_stx.stx_blocks = obj->so_size == 0 ? 0 : 1;
		rec->lfsr_stx.stx_mask |= STATX_SIZE | STATX_BLOCKS;
		return;
	}

	som = scan_xattr(obj, LLAPI_SCAN_XA_SOM, &len);
")
    None None false;
  r3_t "5aeb39c8-man" r0918_DEV3
    (lit "the object's size is exactly what that OST holds \\(em and a regular file
carrying no layout at all.
")
    (lit "the object's size is exactly what that OST holds \\(em and a regular file
carrying no layout at all. So is a file that HSM has released: its data is
in the archive, and the MDT keeps its size in the inode and reports one
block for it, as a client sees it.
")
    None None false
].

(** r0918fix.py, lines 227 to 253: 68156 libscan_ldiskfs.c:579. *)
Definition r0918_rows_68156_libscan_ldiskfs_c : list R3.transform := [
  r3_t "8be61d7b" r0918_LDISK
    (lit "			 * The same two questions the readable path below
			 * asks, and for the same reasons: whose chunk this
			 * inode is, and whether it is an object at all.
			 * ext2fs_get_next_inode_full() assigns *ino before
			 * it returns any of these three, so both can be
			 * asked here -- unlike the errors above, which
			 * leave it untouched.
")
    (lit "			 * The same questions the readable path below asks,
			 * and for the same reasons: whose chunk this inode
			 * is, whether it is an object at all, and whether
			 * the bitmap has it.  The bitmap is in another
			 * block, read at open, so it is still good here.
			 * ext2fs_get_next_inode_full() assigns *ino before
			 * it returns any of these three, so all can be
			 * asked here -- unlike the errors above, which
			 * leave it untouched.
")
    None None false;
  r3_t "8be61d7b-code" r0918_LDISK
    (lit "			if (ino < EXT2_FIRST_INODE(fs->super))
				continue;
			sink->ss_skip(sink->ss_ctx, LLAPI_SCAN_SKIP_IO);
")
    (lit "			if (ino < EXT2_FIRST_INODE(fs->super))
				continue;
			if (!ext2fs_test_inode_bitmap2(t->st_fs->inode_map,
						       ino))
				continue;
			sink->ss_skip(sink->ss_ctx, LLAPI_SCAN_SKIP_IO);
")
    None None false
].

(** r0918fix.py, lines 256 to 273: messages (plain English). *)
Definition r0918_rows_messages_plain_English : list R3.transform := [
  r3_t "msg-56El" R3.MSG
    (lit "sanity 56El mounts a tmpfs under the Lustre mount. It checks that the
walk finds the files below it, and that -printf %LF and %Lc print
nothing on stderr for them.")
    (lit "sanity 56El mounts a tmpfs under the Lustre mount. It checks that the
walk finds the objects below it with --links, so that each directory
there has its LMV fetched, and that -printf %LF and %Lc print
nothing on stderr for them.")
    None None false;
  r3_t "msg-released" R3.MSG
    (lit "- LLAPI_SCAN_LMV_FOREIGN asked for alone also reads the LMV.
")
    (lit "- LLAPI_SCAN_LMV_FOREIGN asked for alone also reads the LMV.
- A file that HSM has released gets its size from the MDT inode, and
  one block, as a client sees it. Its old SOM is not used.
")
    None None false;
  r3_t "msg-bitmap" R3.MSG
    (lit "- An inode that cannot be read is counted once, by the chunk that owns
  it.
")
    (lit "- An inode that cannot be read is counted once, by the chunk that owns
  it, and only if the inode bitmap says it is in use.
")
    None None false
].

(** The table [T] as the module leaves it. *)
Definition r0918_T : list R3.transform :=
  r0918_rows_68094_lustreapi_h ++
  r0918_rows_68094_man3 ++
  r0918_rows_68094_man3_2 ++
  r0918_rows_68095_sanity_sh ++
  r0918_rows_68095_scan_c ++
  r0918_rows_68156_lustreapi_h ++
  r0918_rows_68156_scan_device_c ++
  r0918_rows_68156_libscan_ldiskfs_c ++
  r0918_rows_messages_plain_English.

(** The fix table of docs/rounds/r-0920/r0920fix.py, names prefixed with
    [r0920_], and the commit names c00 to c63 the later rounds use. *)

(** [r3fix.ORDER] as r0920fix, r0921fix, b1fix, b2fix and b2bfix set it:
    [c%02d] for 0 to 63. *)
Definition two_digits (n : nat) : string :=
  if n <? 10 then "0" +:+ pretty (N.of_nat n) else pretty (N.of_nat n).

Definition ORDER64 : list string := (λ i, "c" +:+ two_digits i) <$> seq 0 64.

Definition r0920_API : string := "include/lustre/lustreapi.h".

Definition r0920_DEV3 : string := "Documentation/man3/llapi_scan_device.3".

Definition r0920_PFIND : string := "lustre/utils/liblustreapi_pfind.c".

Definition r0920_DEV : string := "lustre/utils/liblustreapi_scan_device.c".

Definition r0920_LDISK : string := "lustre/utils/libscan_ldiskfs.c".

Definition r0920_BEH : string := "lustre/utils/lustreapi_scan_backend.h".

Definition r0920_FIDH : string := "include/uapi/linux/lustre/lustre_fid.h".

(** r0920fix.py, lines 36 to 81: 68156 item 1: the orphan class. *)
Definition r0920_rows_68156_item_1 : list R3.transform := [
  r3_t "orphan-enum" r0920_API
    (lit "	LLAPI_SCAN_CLS_BAD = 5,		/* LMA has an unknown incompat bit */
	LLAPI_SCAN_CLS_MAX = 6
")
    (lit "	LLAPI_SCAN_CLS_BAD = 5,		/* LMA has an unknown incompat bit */
	/*
	 * in PENDING: an open-unlinked file, or a volatile one a migrate,
	 * resync or HSM restore is using.  It keeps a link and a FID, so it
	 * would otherwise read as visible, but no name reaches it.
	 */
	LLAPI_SCAN_CLS_ORPHAN = 6,
	LLAPI_SCAN_CLS_MAX = 7
")
    None None false;
  r3_t "orphan-classify" r0920_DEV
    (lit "	if (fid_seq_is_idif(seq))
		return LLAPI_SCAN_CLS_OST_OBJ;
")
    (lit "	if (fid_seq_is_idif(seq))
		return LLAPI_SCAN_CLS_OST_OBJ;
	/*
	 * PENDING keeps a link to an open-unlinked file, so it has a normal
	 * FID and would otherwise read as visible.  Last of the tests, so
	 * only what would have been visible changes class.
	 */
	if (lma->lma_incompat & LMAI_ORPHAN)
		return LLAPI_SCAN_CLS_ORPHAN;
")
    None None false;
  r3_t "orphan-man" r0920_DEV3
    (lit ".B LLAPI_SCAN_CLS_BAD
its LMA sets an incompatible bit this library does not know, so what the
object is cannot be decided. It is counted, and held back with the rest.
.LP
")
    (lit ".B LLAPI_SCAN_CLS_BAD
its LMA sets an incompatible bit this library does not know, so what the
object is cannot be decided. It is counted, and held back with the rest.
.TP
.B LLAPI_SCAN_CLS_ORPHAN
an open\\-unlinked file, or a volatile one a migrate, resync or HSM restore
is using \\(em
.B LMAI_ORPHAN
in
.IR lma_incompat ,
which
.BR mdd_mark_orphan_object ()
sets. PENDING keeps a link to it, so it has a FID and would otherwise read
as visible, but no name reaches it: it is gone when the MDT next mounts and
clears PENDING.
.LP
")
    None None false
].

(** r0920fix.py, lines 84 to 96: 68156 item 2: no layout, no blocks. *)
Definition r0920_rows_68156_item_2 : list R3.transform := [
  r3_t "noreg-blocks" r0920_DEV
    (lit "		/* nothing is striped out from under it */
		rec->lfsr_stx.stx_size = obj->so_size;
		rec->lfsr_stx.stx_blocks = obj->so_blocks;
")
    (lit "		/* nothing is striped out from under it */
		rec->lfsr_stx.stx_size = obj->so_size;
		/*
		 * A regular file with no layout has no data blocks: the MDT
		 * inode's own are its xattrs, which mdt_pack_attr2body()
		 * does not report either.
		 */
		rec->lfsr_stx.stx_blocks = S_ISREG(obj->so_mode) ? 0 :
					   obj->so_blocks;
")
    None None false
].

(** r0920fix.py, lines 99 to 104: 68156 item 3: the plugin's name. *)
Definition r0920_rows_68156_item_3 : list R3.transform := [
  r3_t "so-name" r0920_DEV
    (lit "	 * scan_ldiskfs.so out of step with this library is a real arrival --
	 * and a symbol missing from it would be called through NULL.
")
    (lit "	 * scan_osd_ldiskfs.so out of step with this library is a real
	 * arrival -- and a symbol missing from it would be called through
	 * NULL.
")
    None None false
].

(** r0920fix.py, lines 107 to 118: 68156 item 4: what ss_skipped holds. *)
Definition r0920_rows_68156_item_4 : list R3.transform := [
  r3_t "skipped-man" r0920_DEV3
    (lit "is normally zero. The exception is ldiskfs open-unlinked files still on the
orphan list, as in a snapshot of a target in service or after a crash: they
have no links and are counted in
.IR ss_skipped .
")
    (lit "is normally zero. The exception is ldiskfs inodes left on the orphan list
with no links at all, as in a snapshot of a target in service or after a
crash: they are counted in
.IR ss_skipped .
Lustre's own open\\-unlinked files are not among them \\(em PENDING keeps a
link to each, so they are read and classified
.BR LLAPI_SCAN_CLS_ORPHAN .
")
    None None false
].

(** r0920fix.py, lines 121 to 121: 68156 item 5: the option is --attrs. *)
Definition r0920_rows_68156_item_5 : list R3.transform := [
  r3_t "attrs-man" r0920_DEV3
    (lit ".B lfs find -attrs
")
    (lit ".B lfs find --attrs
")
    None None false
].

(** r0920fix.py, lines 124 to 179: 68156 item 6: describe the field. *)
Definition r0920_rows_68156_item_6 : list R3.transform := [
  r3_t "field-ino" r0920_API
    (lit "/*
 * A scanner that reads a target's objects directly answers for these, and
 * one that walks a namespace does not: it is standing in the namespace and
 * has no need of them.
 */
")
    (lit "/*
 * The object as the target holds it: its id there, the parent and name its
 * linkea records, and its LMA.
 */
")
    None None false;
  r3_t "field-class" r0920_API
    (lit " * A namespace walk only ever reaches namespace-visible objects.  A scanner
 * reading a target directly also finds the objects the filesystem keeps for
 * itself, and a consumer that acts on what it is given has to be able to
 * tell them apart.
")
    (lit " * Besides the objects a client can name, a target holds the ones the
 * filesystem keeps for itself, and a consumer that acts on what it is
 * given has to be able to tell them apart.
")
    None None false;
  r3_t "field-path" r0920_API
    (lit " * The pointer fields carry their own answer: lfsr_path is NULL for a scanner
 * that has no namespace to walk, and lfsr_name is NULL when it could not
 * recover one.  A path is not a scan's to invent.
")
    (lit " * The pointer fields carry their own answer: lfsr_path is NULL where no
 * namespace was walked, and lfsr_name is NULL where no name was recovered.
 * A path is not a scan's to invent.
")
    None None false;
  r3_t "field-lmv" r0920_API
    (lit "	 * The directory stripe, in the lmv_user_md form unless
	 * LLAPI_SCAN_LMV_FOREIGN says otherwise: a device scan converts the
	 * on-disk lmv_mds_md_v1 it reads, so the field means one thing
	 * whichever scanner filled it.  A foreign LMV has no such form and
	 * is delivered as the struct lmv_foreign_md it is, which is what
	 * that bit is for.  A device scan does not carry the shard FIDs --
	 * naming a stripe needs an MDT index, which is an FLD lookup it has
	 * no client to make.
	 *
	 * So lum_objects[] is measured by lfsr_lmvsize and never by
	 * lum_stripe_count: the count is the directory's real one either
	 * way, but only a namespace scan is answered with the shards to
	 * match it, and the two sizes differ by 24 bytes a stripe.
")
    (lit "	 * The directory stripe, in the lmv_user_md form unless
	 * LLAPI_SCAN_LMV_FOREIGN says otherwise: a foreign LMV has no such
	 * form and is delivered as the struct lmv_foreign_md it is, which
	 * is what that bit is for.
	 *
	 * The shard FIDs may be absent, naming a stripe needing an MDT
	 * index and so an FLD lookup, so lum_objects[] is measured by
	 * lfsr_lmvsize and never by lum_stripe_count: the count is the
	 * directory's real one either way, and the two sizes differ by 24
	 * bytes a stripe.
")
    None None false;
  r3_t "field-fromhere" r0920_API
    (lit "	/* from here on, what a scan of a target's own objects answers for */
")
    (lit "	/* from here on, the object as the target holds it */
")
    None None false
].

(** r0920fix.py, lines 182 to 218: 68156 item 7: comments on the code. *)
Definition r0920_rows_68156_item_7 : list R3.transform := [
  r3_t "narr-bound" r0920_LDISK
    (lit "			 * Without the bound an unreadable inode just past
			 * end_ino was consumed by this chunk and read again
			 * by the chunk starting there, and ss_seen and
			 * ss_skipped counted it twice.  Nothing was
			 * delivered twice; it was the accounting that
			 * overstated.
")
    (lit "			 * The bound matters here too: an unreadable inode
			 * past end_ino belongs to the chunk starting
			 * there, which reads it again, so counting it in
			 * this one counts it twice.
")
    None None false;
  r3_t "narr-lostfound" r0920_DEV
    (lit "		 * inode numbers -- so lost+found came out as [0xb:0x0:0x0],
		 * which is FID_SEQ_RSVD and names something else entirely.
		 * Below the IGIF range there is no IGIF, and the object is
		 * left with the target's own id for it.
")
    (lit "		 * inode numbers: lost+found would be [0xb:0x0:0x0], which is
		 * FID_SEQ_RSVD and names something else entirely.  Below the
		 * IGIF range there is no IGIF, and the object is left with
		 * the target's own id for it.
")
    None None false;
  r3_t "narr-skipcount" r0920_DEV
    (lit "	 * after the pre-filter has run and its object is already in ss_seen;
	 * counting it again inflated exactly the torn-read case these
	 * counters exist to describe.
")
    (lit "	 * after the pre-filter has run and its object is already in ss_seen,
	 * so counting it again would inflate exactly the torn-read case
	 * these counters exist to describe.
")
    None None false;
  r3_t "narr-padding" r0920_BEH
    (lit "	 * the scanner would over-claim for one of them.
	 *
	 * Carved from the padding, so every offset above is unchanged.
	 */
")
    (lit "	 * the scanner would over-claim for one of them.
	 */
")
    None None false
].

(** r0920fix.py, lines 221 to 231: 68156 item 8: the original comment. *)
Definition r0920_rows_68156_item_8 : list R3.transform := [
  r3_t "fid-root" r0920_FIDH
    (lit " * the root FID will still be IGIF
 *
 * Here rather than in lustre_fid.h because it is only LU_ROOT_FID and
 * lu_fid_eq(), both of which are above, and userspace has the same question
 * to ask: a scan of a target has to tell the root from the rest of
 * FID_SEQ_ROOT.  unlikely() is not used, this header being compiled in
 * userspace too.
 */
")
    (lit " * the root FID will still be IGIF
 */
")
    None None false
].

(** r0920fix.py, lines 234 to 256: 68095 item 1: %Li on a foreign dir. *)
Definition r0920_rows_68095_item_1 : list R3.transform := [
  r3_t "printf-Li" r0920_PFIND
    (lit "		case 'i':	/* starting index */
			*wrote = snprintf(buffer, size, \q%d\q,
					  lum->lum_stripe_offset);
			break;
")
    (lit "		case 'i':	/* starting index */
			/*
			 * A foreign LMV has no stripe offset: lfm_type is
			 * at that offset, so the directory's own MDT index
			 * is printed instead, from where the gather left
			 * it.
			 */
			if (lmv_is_foreign(lum->lum_magic)) {
				if (param->fp_file_mdt_index == OBD_NOT_FOUND)
					goto format_done;
				*wrote = snprintf(buffer, size, \q%d\q,
						  param->fp_file_mdt_index);
				break;
			}
			*wrote = snprintf(buffer, size, \q%d\q,
					  lum->lum_stripe_offset);
			break;
")
    None (Some "c01") false
].

(** r0920fix.py, lines 259 to 270: 68095 item 2: the projid comments. *)
Definition r0920_rows_68095_item_2 : list R3.transform := [
  r3_t "projid-outer" r0920_PFIND
    (lit "		 * project id cannot be answered for such an object, so it
		 * does not match; one that only prints it prints DEFAULT_PROJID.
")
    (lit "		 * project id cannot be answered for such an object, so
		 * --projid N does not match; ! --projid N does, and one that
		 * only prints it prints DEFAULT_PROJID.
")
    None None false;
  r3_t "projid-inner" r0920_PFIND
    (lit "			 * made this disagree with -printf, which already
			 * prints none for the same object.
")
    (lit "			 * made this disagree with -printf, which already
			 * prints DEFAULT_PROJID for the same object.
")
    None None false
].

(** r0920fix.py, lines 273 to 321: 68095 item 3: comments on the code. *)
Definition r0920_rows_68095_item_3 : list R3.transform := [
  r3_t "narr-walkfid" r0920_PFIND
    (lit "			 * A walk now descends a directory that is not on
			 * Lustre -- cb_find_init() treats the stripe ioctl's
			 * ENOTTY as \qno stripe\q rather than an error -- so
			 * the objects under it reach here.  Having no FID is
			 * what such an object is, not a failure to report:
			 * the directive stays empty and nothing is said.
")
    (lit "			 * A walk descends a directory that is not on Lustre
			 * -- cb_find_init() treats the stripe ioctl's ENOTTY
			 * as \qno stripe\q rather than an error -- so the
			 * objects under it reach here.  Having no FID is what
			 * such an object is, not a failure to report: the
			 * directive stays empty and nothing is said.
")
    None None false;
  r3_t "narr-errno" r0920_PFIND
    (lit "		 * EIO from a flush -- sets errno of its own, and this errno
		 * now picks a branch rather than only wording a message.
")
    (lit "		 * EIO from a flush -- sets errno of its own, and this errno
		 * picks the branch below.
")
    None None false;
  r3_t "narr-projid-walk" r0920_PFIND
    (lit "			 * that is not on Lustre answers ENOTTY.  A walk now
			 * descends such a subtree, and having no project id
			 * is what an object there is rather than a failure to
			 * report -- as with the FID and the layout, which
			 * this walk already keeps quiet about.
")
    (lit "			 * that is not on Lustre answers ENOTTY.  Having no
			 * project id is what an object there is rather than a
			 * failure to report, as with its FID and its layout.
")
    None None false;
  r3_t "narr-reachable-old" r0920_PFIND
    (lit "		 * Reachable because -printf sets gather_all and this walk
		 * now descends off Lustre: left as an error it exited
		 * non-zero on the first symlink under the subtree, and on a
		 * pre-v6.0 client on the first regular file.
")
    (lit "		 * Reachable because -printf sets gather_all: left as an
		 * error, the walk would exit non-zero on the first symlink
		 * under the subtree, and on a pre-v6.0 client on the first
		 * regular file.
")
    None None false;
  r3_t "narr-reachable-new" r0920_PFIND
    (lit "		 * Reachable because -printf sets gather_all: left as an
		 * error, the walk exited non-zero on the first symlink under
		 * the subtree, and on a pre-v6.0 client on the first file.
")
    (lit "		 * Reachable because -printf sets gather_all: left as an
		 * error, the walk would exit non-zero on the first symlink
		 * under the subtree, and on a pre-v6.0 client on the first
		 * regular file.
")
    None None false
].

(** The table [T] as the module leaves it. *)
Definition r0920_T : list R3.transform :=
  r0920_rows_68156_item_1 ++
  r0920_rows_68156_item_2 ++
  r0920_rows_68156_item_3 ++
  r0920_rows_68156_item_4 ++
  r0920_rows_68156_item_5 ++
  r0920_rows_68156_item_6 ++
  r0920_rows_68156_item_7 ++
  r0920_rows_68156_item_8 ++
  r0920_rows_68095_item_1 ++
  r0920_rows_68095_item_2 ++
  r0920_rows_68095_item_3.

(** The fix table of docs/rounds/r-0921/r0921fix.py, names prefixed with
    [r0921_]. *)

Definition r0921_API : string := "include/lustre/lustreapi.h".

Definition r0921_NS3 : string := "Documentation/man3/llapi_scan_namespace.3".

Definition r0921_DEV3 : string := "Documentation/man3/llapi_scan_device.3".

Definition r0921_SCAN : string := "lustre/utils/liblustreapi_scan.c".

Definition r0921_PFIND : string := "lustre/utils/liblustreapi_pfind.c".

Definition r0921_DEV : string := "lustre/utils/liblustreapi_scan_device.c".

Definition r0921_IGN : string := "lustre/tests/.gitignore".

Definition r0921_PRESPLIT : list string := ["c01"; "c02"].

(** r0921fix.py, lines 41 to 90: 68094: what says the attrs were answered. *)
Definition r0921_rows_68094 : list R3.transform := [
  r3_t "attrs-gate" r0921_SCAN
    (lit "	/*
	 * stx_attributes has no bit of its own in stx_mask; what says the
	 * flags are meaningful is the server declaring which it supports.
	 * Masked down to that declaration, because the MDT ORs the raw inode
	 * flags in and only the bits it names are STATX_ATTR_* values --
	 * FS_INDEX_FL would otherwise read as STATX_ATTR_AUTOMOUNT.
	 */
	if (rec->lfsr_stx.stx_attributes_mask != 0) {
")
    (lit "	/*
	 * stx_attributes has no bit of its own in stx_mask, so what says the
	 * flags were answered is OBD_MD_FLFLAGS: mdt_pack_attr2body() sets
	 * it only for LA_FLAGS, and ll_dir_ioctl() reads mbo_flags only
	 * under it.  stx_attributes_mask is not that answer -- llite fills
	 * it with a build-time constant, the STATX_ATTR_* bits the client
	 * can represent -- so gating on it would set this bit for every
	 * object whether or not the MDT reported flags at all.
	 *
	 * Masked down to that declaration all the same, because the MDT ORs
	 * the raw inode flags in and only the bits it names are STATX_ATTR_*
	 * values -- FS_INDEX_FL would otherwise read as STATX_ATTR_AUTOMOUNT.
	 */
	if (flags & OBD_MD_FLFLAGS) {
")
    None None false;
  r3_t "attrs-man" r0921_NS3
    (lit ".B LLAPI_SCAN_ATTRS
.IR lfsr_stx.stx_attributes ,
the
.B STATX_ATTR_*
bits the server declared it supports in
.IR lfsr_stx.stx_attributes_mask ;
flags outside that declaration are masked off rather than reported. This bit
is in
.I lfsr_valid
because statx has no mask bit of its own for
.IR stx_attributes .
")
    (lit ".B LLAPI_SCAN_ATTRS
.IR lfsr_stx.stx_attributes ,
set when the object's flags were answered \\(em
.B OBD_MD_FLFLAGS
in the MDT's reply, which it sets only when it filled them. The value is
masked down to the
.B STATX_ATTR_*
bits named in
.IR lfsr_stx.stx_attributes_mask ,
which is the scanner's own declaration of what it can represent; flags
outside it are masked off rather than reported. This bit is in
.I lfsr_valid
because statx has no mask bit of its own for
.IR stx_attributes .
")
    None None false
].

Definition r0921_HELPER : text :=
  (lit "/*
 * `! --foreign` on a directory with no stripe of its own: accepted on the
 * LMV alone.  Nothing between here and the print reads what the getattr
 * fetches, so it is not asked for -- as it was not before this became a
 * record.  -printf is the exception: those attributes are what it prints.
 */
static bool find_foreign_accepts(const struct find_param *param,
				 bool have_lmv, bool gather_all)
{
	return param->fp_get_lmv && !have_lmv && !gather_all &&
	       param->fp_check_foreign && param->fp_exclude_foreign;
}

").

Definition r0921_ANCHOR : text :=
  (lit "/*
 * The checks that need only the directory's LMV.  Run before the stat RPC,
 * so a directory they reject costs no more than the LMV fetch.
 *
 * Return: true if the object is rejected.
 */
").

(** r0921fix.py, lines 116 to 116: 68095: `! --foreign` costs no getattr again. *)
Definition r0921_rows_68095 : list R3.transform := [
  r3_t "foreign-helper" r0921_PFIND
    r0921_ANCHOR
    (r0921_HELPER ++ r0921_ANCHOR)
    None (Some "c01") false
].

Definition r0921_GATHER : text :=
  (lit "		/* the LMV first: its checks can reject before the stat RPC */
		ret = scan_rec_gather_begin(param, path, d, want, &have_lmv);
		if (ret == 0 && find_lmv_rejects(param, have_lmv))
			goto decided;
").

(** r0921fix.py, lines 124 to 141: 68095: `! --foreign` costs no getattr again. *)
Definition r0921_rows_68095_2 : list R3.transform := [
  r3_t "foreign-early-95" r0921_PFIND
    r0921_GATHER
    (r0921_GATHER ++ (lit "		if (ret == 0 &&
		    find_foreign_accepts(param, have_lmv, gather_all))
			goto print;
"))
    (Some r0921_PRESPLIT) None false;
  r3_t "foreign-early-157" r0921_PFIND
    r0921_GATHER
    (r0921_GATHER ++ (lit "		if (ret == 0 &&
		    find_foreign_accepts(param, have_lmv, gather_all))
			goto decide;
"))
    None (Some "c03") false;
  r3_t "foreign-label-157" r0921_PFIND
    (lit "	fc.fc_rec = &rec;
	fc.fc_path = path;
")
    (lit "decide:
	fc.fc_rec = &rec;
	fc.fc_path = path;
")
    None (Some "c03") false
].

(** r0921fix.py, lines 144 to 145: 68156: the test binary is ignored. *)
Definition r0921_rows_68156 : list R3.transform := [
  r3_t "gitignore" r0921_IGN
    (lit "/llapi_scan_test
")
    (lit "/llapi_scan_test
/llapi_scan_device_test
")
    None (Some "c02") false
].

(** r0921fix.py, lines 148 to 161: 68156: a striped directory's size is not its own. *)
Definition r0921_rows_68156_2 : list R3.transform := [
  r3_t "striped-size-want" r0921_DEV
    (lit "	if (want & (LLAPI_SCAN_SIZE | LLAPI_SCAN_BLOCKS |
		    LLAPI_SCAN_LAZY_SIZE | LLAPI_SCAN_LAZY_BLOCKS))
		xa |= LLAPI_SCAN_XA_BIT(LLAPI_SCAN_XA_LOV) |
		      LLAPI_SCAN_XA_BIT(LLAPI_SCAN_XA_SOM);
")
    (lit "	/*
	 * trusted.lmv with it: a striped directory's own size is not the
	 * directory's, and scan_size() has no other way to tell one.
	 */
	if (want & (LLAPI_SCAN_SIZE | LLAPI_SCAN_BLOCKS |
		    LLAPI_SCAN_LAZY_SIZE | LLAPI_SCAN_LAZY_BLOCKS))
		xa |= LLAPI_SCAN_XA_BIT(LLAPI_SCAN_XA_LOV) |
		      LLAPI_SCAN_XA_BIT(LLAPI_SCAN_XA_SOM) |
		      LLAPI_SCAN_XA_BIT(LLAPI_SCAN_XA_LMV);
")
    None (Some "c02") false
].

Definition r0921_GATE : text :=
  (lit "	if (!(want & (LLAPI_SCAN_SIZE | LLAPI_SCAN_BLOCKS |
		      LLAPI_SCAN_LAZY_SIZE | LLAPI_SCAN_LAZY_BLOCKS)))
		return;
").

(** r0921fix.py, lines 168 to 206: 68156: a striped directory's size is not its own. *)
Definition r0921_rows_68156_3 : list R3.transform := [
  r3_t "striped-size" r0921_DEV
    r0921_GATE
    (r0921_GATE ++ (lit "
	/*
	 * A striped directory's size and blocks are aggregated by the client
	 * across its shards, so the master object's own are not the
	 * directory's: ll_dir_ioctl() drops STATX_SIZE and STATX_BLOCKS for
	 * one, and a scan of a target, which holds only the master, answers
	 * \qnot known\q as well rather than a number of its own.
	 */
	if (S_ISDIR(obj->so_mode) && scan_lmv_is_striped(obj))
		return;
"))
    None (Some "c02") false;
  r3_t "striped-helper" r0921_DEV
    (lit "/*
 * The directory stripe, converted to the form the record declares.
")
    (lit "/*
 * The master object of a striped directory: trusted.lmv holding an
 * lmv_mds_md_v1, which is what lmv_dir_striped() tests on the client side.
 * A shard's own LMV_MAGIC_STRIPE and a foreign LMV are neither.
 */
static bool scan_lmv_is_striped(const struct llapi_scan_obj *obj)
{
	size_t len = 0;
	__u32 magic;
	const void *lmv;

	lmv = scan_xattr(obj, LLAPI_SCAN_XA_LMV, &len);
	if (lmv == NULL || len < sizeof(magic))
		return false;

	memcpy(&magic, lmv, sizeof(magic));

	return __le32_to_cpu(magic) == LMV_MAGIC_V1;
}

/*
 * The directory stripe, converted to the form the record declares.
")
    None (Some "c02") false
].

Definition r0921_MAN_HSM : text :=
  (lit "block for it, as a client sees it.
").

(** r0921fix.py, lines 211 to 217: 68156: a striped directory's size is not its own. *)
Definition r0921_rows_68156_4 : list R3.transform := [
  r3_t "striped-man" r0921_DEV3
    r0921_MAN_HSM
    (r0921_MAN_HSM ++ (lit "A striped directory is the exception: the client aggregates its size and
blocks across the shards, so the master object a target holds answers for
neither, and both bits are left clear \\(em as
.BR ll_dir_ioctl ()
leaves them for a walk.
"))
    None (Some "c02") false
].

(** r0921fix.py, lines 220 to 248: 68156, from lreview: an OST data object's blocks are its own. *)
Definition r0921_rows_68156_from_lreview : list R3.transform := [
  r3_t "ost-blocks-sig" r0921_DEV
    (lit "static void scan_size(const struct llapi_scan_obj *obj, __u64 want,
		      struct llapi_scan_rec *rec)
")
    (lit "static void scan_size(const struct llapi_scan_obj *obj, __u64 want,
		      bool ost, struct llapi_scan_rec *rec)
")
    None (Some "c02") false;
  r3_t "ost-blocks-call" r0921_DEV
    (lit "	scan_size(obj, dev->sd_want, &rec);
")
    (lit "	scan_size(obj, dev->sd_want,
		  dev->sd_tgt_info.tt_flags & LLAPI_SCAN_TGT_OST, &rec);
")
    None (Some "c02") false;
  r3_t "ost-blocks" r0921_DEV
    (lit "		/*
		 * A regular file with no layout has no data blocks: the MDT
		 * inode's own are its xattrs, which mdt_pack_attr2body()
		 * does not report either.
		 */
		rec->lfsr_stx.stx_blocks = S_ISREG(obj->so_mode) ? 0 :
					   obj->so_blocks;
")
    (lit "		/*
		 * A regular file with no layout has no data blocks on an MDT:
		 * the inode's own are its xattrs, which mdt_pack_attr2body()
		 * does not report either.  On an OST the object is the data,
		 * so its own blocks are exactly what that target holds, which
		 * is what llapi_scan_device.3 promises for one.
		 */
		rec->lfsr_stx.stx_blocks = S_ISREG(obj->so_mode) && !ost ? 0 :
					   obj->so_blocks;
")
    None (Some "c02") false
].

(** r0921fix.py, lines 251 to 258: 68095, from lreview: the %Li delta the message did not list. *)
Definition r0921_rows_68095_from_lreview : list R3.transform := [
  r3_t "printf-i-msg" R3.MSG
    (lit "- -name now tests lfsr_name, which is the whole path when the path ends
")
    (lit "- -printf %Li on a foreign directory prints the directory's own MDT
  index, or nothing when it could not be fetched. Before, it printed
  lfm_type: lmv_foreign_md aliases lum_stripe_offset, so the code read
  the foreign type as a stripe offset.
- -name now tests lfsr_name, which is the whole path when the path ends
")
    (Some ["c01"]) None false
].

(** The table [T] as the module leaves it. *)
Definition r0921_T : list R3.transform :=
  r0921_rows_68094 ++
  r0921_rows_68095 ++
  r0921_rows_68095_2 ++
  r0921_rows_68156 ++
  r0921_rows_68156_2 ++
  r0921_rows_68156_3 ++
  r0921_rows_68156_4 ++
  r0921_rows_68156_from_lreview ++
  r0921_rows_68095_from_lreview.

(** The fix tables of docs/rounds/b1-0921/b1fix.py and
    docs/rounds/b2-0921/b2fix.py, names prefixed with [b1_] and [b2_]. *)

Definition b1_PFIND : string := "lustre/utils/liblustreapi_pfind.c".

Definition b1_FIND1 : string := "Documentation/man1/lfs-find.1".

(** b1fix.py, lines 36 to 45: 68159: why an MDT object with no LMA keeps obj:ID. *)
Definition b1_rows_68159 : list R3.transform := [
  r3_t "igif-msg" R3.MSG
    (lit "Signed-off-by: Hiroshi Nishida <hnishida@thelustrecollective.com>")
    (lit "An MDT object with no trusted.lma keeps obj:ID for the same kind of
reason, from the other direction: an IGIF is the inode number and its
generation, and the record carries no generation -- lfsr_stx.stx_ino
is the id, and there is no field for the rest. Building one from the
id alone would be a FID that names a different object.

Signed-off-by: Hiroshi Nishida <hnishida@thelustrecollective.com>")
    (Some ["c05"]) None false
].

(** b1fix.py, lines 48 to 58: 68158: the joined call is in the loop, not a helper. *)
Definition b1_rows_68158 : list R3.transform := [
  r3_t "join-msg" R3.MSG
    (lit "set_time() prototype is re-indented and one call to
llapi_lov_string_pattern() is joined onto one line. The loop moves
with only these differences:
- \qparam.\q becomes \qparam->\q
")
    (lit "set_time() prototype is re-indented. The loop moves with only these
differences:
- one call to llapi_lov_string_pattern(), under case 'L', is joined
  onto one line
- \qparam.\q becomes \qparam->\q
")
    (Some ["c04"]) None false
].

(** b1fix.py, lines 61 to 69: 68160: a failure the command line caused ends the sweep. *)
Definition b1_rows_68160 : list R3.transform := [
  r3_t "sweep-man" b1_FIND1
    (lit "A target that cannot be read is reported and the others are still read,
and the exit status is non-zero.
")
    (lit "A target that cannot be read is reported and the others are still read,
and the exit status is non-zero.
A failure the command line caused rather than the target ends the sweep:
this build having no backend for a target's type stops it there, since
every later target of that type would fail the same way.
")
    None (Some "c06") false
].

(** The table [T] as the module leaves it. *)
Definition b1_T : list R3.transform :=
  b1_rows_68159 ++
  b1_rows_68158 ++
  b1_rows_68160.

Definition b2_PFIND : string := "lustre/utils/liblustreapi_pfind.c".

Definition b2_DEV : string := "lustre/utils/liblustreapi_scan_device.c".

Definition b2_INT : string := "lustre/utils/lustreapi_internal.h".

Definition b2_FIND1 : string := "Documentation/man1/lfs-find.1".

(** b2fix.py, lines 45 to 97: the pre-pass reports that it ran, rather than being guessed at. *)
Definition b2_rows_the_pre_pass_reports_that_it_ran_rather_than_being_guessed_at : list R3.transform := [
  r3_t "prepass-ran-field" b2_INT
    (lit "	__u64		*pp_skipped;	/* out or NULL: skipped by the pass */
")
    (lit "	__u64		*pp_skipped;	/* out or NULL: skipped by the pass */
	/* out or NULL: set when the pre-pass actually swept the target */
	bool		*pp_ran;
")
    None (Some "c08") false;
  r3_t "prepass-ran-set" b2_DEV
    (lit "	if (pre != NULL && pre->pp_cb != NULL) {
		struct llapi_scan_stats prestats = { 0 };
")
    (lit "	if (pre != NULL && pre->pp_cb != NULL) {
		struct llapi_scan_stats prestats = { 0 };
		/* the caller's own answer to \qwas a map built for this
		 * target\q, which it cannot get from the map's contents
		 */
		if (pre->pp_ran != NULL)
			*pre->pp_ran = true;
")
    None (Some "c08") false;
  r3_t "dirmap-state" b2_PFIND
    (lit "	/* every directory on the target, empty unless it is an MDT */
	struct scan_dirmap	 fds_dirmap;
};
")
    (lit "	/* every directory on the target, empty unless it is an MDT */
	struct scan_dirmap	 fds_dirmap;
	/* whether the pre-pass swept: an MDT's map may be built and empty */
	bool			 fds_dirmap_built;
};
")
    None (Some "c08") false;
  r3_t "dirmap-gate" b2_PFIND
    (lit "	/*
	 * --paths has only the map, even an empty one: falling through to the
	 * FID print would name an object --paths promised to count instead.
	 */
	fc.fc_dirmap = st->fds_dirmap.dm_used != 0 || param->fp_paths ?
		       &st->fds_dirmap : NULL;
")
    (lit "	/*
	 * Built, not non-empty: an MDT whose files all sit in the filesystem
	 * root ends the pre-pass with dm_used == 0 -- ROOT, .lustre and
	 * lost+found carry no trusted.link, so scan_dirmap_cb() inserts
	 * none of them -- and composing still answers, scan_dirmap_path()
	 * stopping at LU_ROOT_FID without a lookup.  Keying on the contents
	 * sent --paths to the FID print and --fid2path to one
	 * llapi_fid2path_at() per object against the target being scanned,
	 * which is the lookup this path exists to avoid.  An OST leaves the
	 * flag clear, so --fid2path still names its objects through the
	 * mount.
	 */
	fc.fc_dirmap = st->fds_dirmap_built ? &st->fds_dirmap : NULL;
")
    None (Some "c08") false;
  r3_t "prepass-ran-wire" b2_PFIND
    (lit "		pre.pp_skipped = &pre_skipped;
")
    (lit "		pre.pp_skipped = &pre_skipped;
		pre.pp_ran = &st.fds_dirmap_built;
")
    None (Some "c08") false
].

(** b2fix.py, lines 100 to 126: --paths and --fid2path are exclusive for a library caller too. *)
Definition b2_rows_paths_and_fid2path_are_exclusive_for_a_library_caller_too : list R3.transform := [
  r3_t "paths-fid2path-excl" b2_PFIND
    (lit "	/* -printf prints its own fields, never the composed pathname */
	if (param->fp_format_printf_str != NULL &&
	    (param->fp_paths || param->fp_fid2path_mnt != NULL)) {
		llapi_error(LLAPI_MSG_ERROR | LLAPI_MSG_NO_ERRNO, -ENOTSUP,
			    \q-printf cannot be used with --paths or --fid2path\q);
		return -ENOTSUP;
	}
")
    (lit "	/* -printf prints its own fields, never the composed pathname */
	if (param->fp_format_printf_str != NULL &&
	    (param->fp_paths || param->fp_fid2path_mnt != NULL)) {
		llapi_error(LLAPI_MSG_ERROR | LLAPI_MSG_NO_ERRNO, -ENOTSUP,
			    \q-printf cannot be used with --paths or --fid2path\q);
		return -ENOTSUP;
	}

	/*
	 * Refused here and not only in lfs: a library caller setting both
	 * gets the map on an MDT, whose answers carry the mount point that
	 * fp_paths says they will not, and -ENOTDIR on an OST that
	 * fp_fid2path_mnt could have named.
	 */
	if (param->fp_paths && param->fp_fid2path_mnt != NULL) {
		llapi_error(LLAPI_MSG_ERROR | LLAPI_MSG_NO_ERRNO, -EINVAL,
			    \q--paths and --fid2path name objects two different ways; use one\q);
		return -EINVAL;
	}
")
    None (Some "c08") false
].

(** b2fix.py, lines 129 to 135: the man page said every match prints as a FID. *)
Definition b2_rows_the_man_page_said_every_match_prints_as_a_FID : list R3.transform := [
  r3_t "man-fid-sentence" b2_FIND1
    (lit "A target holds no pathnames, so each match is printed as its FID.
")
    (lit "A target holds no pathnames, so each match is printed as its FID, unless
.B --fid2path
or
.B --paths
is given.
")
    None (Some "c08") false
].

(** The table [T] as the module leaves it. *)
Definition b2_T : list R3.transform :=
  b2_rows_the_pre_pass_reports_that_it_ran_rather_than_being_guessed_at ++
  b2_rows_paths_and_fid2path_are_exclusive_for_a_library_caller_too ++
  b2_rows_the_man_page_said_every_match_prints_as_a_FID.
