(* ===== verification/B2bTable.v ===== *)
(** The rows of docs/rounds/b2-0922/b2bfix.py and b2bextra.py, names prefixed with [b2b_] and
    [b2bx_]. *)
From S2P Require Import Prelude PyStr R3Engine R3Table.
Import R3.

(** [t()]: no row of this round is [all]. *)
Definition b2b_t (tid path : string) (old new : text) (only : option (list string))
    (since : option string) : R3.transform :=
  r3_t tid path old new only since false.

Definition b2b_PFIND : string := "lustre/utils/liblustreapi_pfind.c".

Definition b2b_DEV : string := "lustre/utils/liblustreapi_scan_device.c".

Definition b2b_INT : string := "lustre/utils/lustreapi_internal.h".

Definition b2b_KERNEL : string := "lustre/utils/libscan_kernel.c".

Definition b2b_LFUREC : string := "lustre/utils/lustreapi_lfu_rec.h".

Definition b2b_SPEC : string := "lustre.spec.in".

Definition b2b_FIND1 : string := "Documentation/man1/lfs-find.1".

Definition b2b_DEV3 : string := "Documentation/man3/llapi_scan_device.3".

Definition b2b_CONF : string := "lustre/tests/conf-sanity.sh".

Definition b2b_BACKEND : string := "lustre/utils/lustreapi_scan_backend.h".

Definition b2b_LDISKFS : string := "lustre/utils/libscan_ldiskfs.c".

Definition b2b_ZFS : string := "lustre/utils/libscan_zfs.c".

Definition b2b_MAKEAM : string := "lustre/utils/Makefile.am".

Definition b2b_LFUH : string := "include/uapi/linux/lustre/lustre_lfu.h".

Definition b2b_DTOBJ : string := "lustre/obdclass/dt_object.c".

Definition b2b_DTOBJH : string := "lustre/include/dt_object.h".

Definition b2b_RING : string := "lustre/lfu/lfu_ring.c".

Definition b2b_MAN4RS : string := "Documentation/man4/lfu.ring_size.4".

Definition b2b_MAN4B : string := "Documentation/man4/lfu.batch.4".

Definition b2b_LFS : string := "lustre/utils/lfs.c".

Definition b2b_PARSE : string := "lustre/utils/lfs_find_parse.c".

Definition b2b_SCAN : string := "lustre/utils/liblustreapi_scan.c".

Definition b2b_APIH : string := "include/lustre/lustreapi.h".

Definition b2b_MAN3NS : string := "Documentation/man3/llapi_scan_namespace.3".

Definition b2b_SCANTEST : string := "lustre/tests/llapi_scan_test.c".

Definition b2b_CLOG : string := "lustre/utils/liblustreapi_scan_changelog.c".

Definition b2b_CLOGTEST : string := "lustre/tests/llapi_scan_changelog_test.c".

Definition b2b_MAN3FD : string := "Documentation/man3/llapi_find_device.3".

Definition b2b_PROD : string := "c21".

Definition b2b_LIVE : string := "c22".

(** Lines 89 to 147. *)
Definition b2b_rows_1 : list R3.transform := [
  b2b_t "pfind-0" b2b_PFIND
    (lit "static int find_decide(struct find_ctx *fc, struct find_param *param)
")
    (lit "/*
 * Whether an object of this class has a pathname anywhere, which is what
 * makes a fid2path lookup worth an ioctl.  An object a target keeps for
 * itself, a DNE agent inode and an orphan in PENDING have none; a record
 * whose source sets no class -- a namespace walk, a changelog -- is not
 * judged here.
 */
static bool find_rec_may_have_name(const struct llapi_scan_rec *rec)
{
	if (!(rec->lfsr_valid & LLAPI_SCAN_CLASS))
		return true;

	return rec->lfsr_class == LLAPI_SCAN_CLS_VISIBLE ||
	       rec->lfsr_class == LLAPI_SCAN_CLS_OST_OBJ;
}

static int find_decide(struct find_ctx *fc, struct find_param *param)
")
    None (Some "c08");
  b2b_t "pfind-1" b2b_PFIND
    (lit "		int prc;
")
    (lit "		bool looked_up = false;
		int prc;
")
    None (Some "c08");
  b2b_t "pfind-2" b2b_PFIND
    (lit "		} else if (fc->fc_dirmap != NULL) {
			const struct llapi_scan_rec *r = fc->fc_rec;
			char rel[PATH_MAX];

			prc = -ENOENT;
			if (r->lfsr_name != NULL &&
			    (r->lfsr_valid & LLAPI_SCAN_PARENT))
				prc = scan_dirmap_path(fc->fc_dirmap,
						       &r->lfsr_parent_fid,
						       r->lfsr_name, rel,
						       sizeof(rel));
			if (prc == 0) {
				int n = snprintf(pbuf, sizeof(pbuf), \q%s%s\q,
						 fc->fc_mnt_path != NULL ?
						 fc->fc_mnt_path : \q\q, rel);

				if (n < 0 || (size_t)n >= sizeof(pbuf))
					prc = -ERANGE;
			}
			/*
			 * No fall back to the lookup: the map is used whenever
			 * it was built, and a lookup asks a target that may be
			 * out of service.  An object the map cannot place --
			 * the root itself, .lustre, and under DNE anything
			 * whose ancestors are on another MDT -- is counted
			 * with the rest that have no name.
			 */
		} else {
			prc = llapi_scan_rec_path(fc->fc_mnt_fd,
						  fc->fc_mnt_path,
						  fc->fc_rec, pbuf,
						  sizeof(pbuf));
")
    (lit "		} else {
			prc = -ENOENT;
			if (fc->fc_dirmap != NULL) {
				const struct llapi_scan_rec *r = fc->fc_rec;
				char rel[PATH_MAX];

				if (r->lfsr_name != NULL &&
				    (r->lfsr_valid & LLAPI_SCAN_PARENT))
					prc = scan_dirmap_path(fc->fc_dirmap,
							&r->lfsr_parent_fid,
							r->lfsr_name, rel,
							sizeof(rel));
				if (prc == 0) {
					int n;

					n = snprintf(pbuf, sizeof(pbuf), \q%s%s\q,
						     fc->fc_mnt_path != NULL ?
						     fc->fc_mnt_path : \q\q, rel);
					if (n < 0 || (size_t)n >= sizeof(pbuf))
						prc = -ERANGE;
				}
			}
			/*
			 * The lookup is for a target with no map: an OST,
			 * whose objects are named by an owner that lives on
			 * an MDT and not on the target being scanned.  An
			 * MDT's own map answers or nothing does -- a lookup
			 * of an MDT object goes to the MDT holding it, which
			 * a device scan reads precisely because it is
			 * stopped.  An object the map cannot place -- the
			 * root itself, .lustre, and under DNE anything whose
			 * ancestors are on another MDT -- is counted with the
			 * rest that have no name.
			 *
			 * Only for a class that has a name somewhere: an
			 * object a target keeps for itself, an agent inode
			 * and an orphan have none anywhere, and asking would
			 * be one ioctl per object to be told so.  A record
			 * whose source sets no class -- a namespace walk, a
			 * changelog -- is looked up as before.
			 */
			if (fc->fc_dirmap == NULL && fc->fc_mnt_fd >= 0 &&
			    find_rec_may_have_name(fc->fc_rec)) {
				prc = llapi_scan_rec_path(fc->fc_mnt_fd,
							  fc->fc_mnt_path,
							  fc->fc_rec, pbuf,
							  sizeof(pbuf));
				looked_up = true;
			}
")
    None (Some "c08");
  b2b_t "pfind-3" b2b_PFIND
    (lit "				if (fc->fc_dirmap == NULL &&
				    fc->fc_mnt_path != NULL)
")
    (lit "				if (looked_up && fc->fc_mnt_path != NULL)
")
    None (Some "c08");
  b2b_t "pfind-4" b2b_PFIND
    (lit "	 * sent --paths to the FID print and --fid2path to one
	 * llapi_fid2path_at() per object against the target being scanned,
	 * which is the lookup this path exists to avoid.  An OST leaves the
	 * flag clear, so --fid2path still names its objects through the
	 * mount.
")
    (lit "	 * sent --paths to the FID print, and --fid2path to one
	 * llapi_fid2path_at() per object where the map answers all but a
	 * few -- the per-object lookup this path exists to avoid.  An OST
	 * leaves the flag clear, so --fid2path names its objects through
	 * the mount and asks for no map.
")
    None (Some "c08");
  b2b_t "pfind-live-0" b2b_PFIND
    (lit "		objects = lum->lum_objects;

")
    (lit "		objects = lum->lum_objects;

		/*
		 * A foreign LMV is a different structure at the same address,
		 * so every field below is somebody else's bytes: lfm_length
		 * sits where lum_stripe_count does, lfm_flags where
		 * lum_hash_type does, and lfm_value under both lum_pool_name
		 * and lum_objects[].  Printing them would put the foreign
		 * value's length where a stripe count belongs and part of its
		 * payload where a pool name belongs.  'i' answers for one
		 * from the directory's own MDT index, below; the rest have no
		 * answer and print nothing.
		 */
		if (lmv_is_foreign(lum->lum_magic) && *seq != 'i')
			goto format_done;

")
    None (Some "c05");
  b2b_t "pfind-live-1" b2b_PFIND
    (lit " * record.  -printf is the exception: those attributes are what it prints.
")
    (lit " * record.  -printf is the exception: those attributes are what it prints.
 *
 * True of the path actually taken, and only because it is a shortcut: the
 * predicates that would read the getattr -- -uid, -type, -perm, --projid,
 * the time checks -- are jumped over with it, so
 * `lfs find $DIR ! --foreign --uid 0` prints an unstriped directory
 * whatever its owner.  That is upstream's own `goto print` and not new
 * here, though this patch widens what reaches it: llapi_scan_get_lmv()
 * now lets ENOTTY through, so a directory off Lustre takes the shortcut
 * too.  Fixing the skip belongs in a patch of its own.
")
    None (Some "c01");
  b2b_t "pfind-live-2" b2b_PFIND
    (lit "	const struct scan_dirmap *fc_dirmap;
")
    (lit "	const struct scan_dirmap *fc_dirmap;
	/* whether the target that answers a lookup of this object's own FID
	 * is in service: false for a scan of a stopped target, where
	 * lmv_fid2path() would send the lookup to the target being scanned
	 */
	bool			 fc_tgt_live;
")
    None (Some b2b_LIVE);
  b2b_t "pfind-live-3" b2b_PFIND
    (lit " * that a scan with no namespace behind it can reach it too, every
 * path-dependent step here being guarded by what the context carries.
")
    (lit " * that a scan with no namespace behind it can reach it too.
 *
 * find_get_projid() is what tests fc_path today; setup_target_indexes(),
 * find_check_xattrs(), the lstat_f() arm and the printing still take it
 * unconditionally, and reach llistxattr(NULL) and lstat(NULL) if it is not
 * there.  Nothing passes NULL to those yet -- a target scan is decided
 * before them -- and the caller that does will have to guard them, so this
 * says which steps are covered rather than claiming they all are.
")
    None (Some "c03");
  b2b_t "pfind-live-4" b2b_PFIND
    (lit "	       rec->lfsr_class == LLAPI_SCAN_CLS_OST_OBJ;
")
    (lit "	       rec->lfsr_class == LLAPI_SCAN_CLS_OST_OBJ;
}

/*
 * Whether naming this object through the mount leaves the scanned target
 * alone.  lmv_fid2path() sends the lookup to the MDT that owns the FID, so
 * an MDT object's own FID goes to the target being scanned -- which a
 * device scan reads precisely because it is stopped, and the client would
 * wait for it rather than answer.  An OST data object is named by its
 * owner, whose FID is on an MDT and not on the target, so that lookup is
 * safe whatever state the OST is in.
 */
static bool find_lookup_spares_tgt(const struct find_ctx *fc)
{
	return fc->fc_tgt_live ||
	       (fc->fc_rec->lfsr_valid & LLAPI_SCAN_OWNER) != 0;
")
    None (Some b2b_LIVE);
  b2b_t "pfind-live-5" b2b_PFIND
    (lit "			 * The lookup is for a target with no map: an OST,
			 * whose objects are named by an owner that lives on
			 * an MDT and not on the target being scanned.  An
			 * MDT's own map answers or nothing does -- a lookup
			 * of an MDT object goes to the MDT holding it, which
			 * a device scan reads precisely because it is
			 * stopped.  An object the map cannot place -- the
			 * root itself, .lustre, and under DNE anything whose
			 * ancestors are on another MDT -- is counted with the
			 * rest that have no name.
			 *
			 * Only for a class that has a name somewhere: an
			 * object a target keeps for itself, an agent inode
			 * and an orphan have none anywhere, and asking would
			 * be one ioctl per object to be told so.  A record
			 * whose source sets no class -- a namespace walk, a
			 * changelog -- is looked up as before.
			 */
			if (fc->fc_dirmap == NULL && fc->fc_mnt_fd >= 0 &&
			    find_rec_may_have_name(fc->fc_rec)) {
")
    (lit "			 * The map first, the lookup only for what it cannot
			 * place: the root itself, .lustre, and under DNE
			 * anything whose ancestors are on another MDT.
			 *
			 * --paths has no mount and stops here, which is what
			 * lets a target be scanned while it is out of
			 * service.  --fid2path has a mount, and where the
			 * lookup does not go to the target being scanned it
			 * answers under DNE exactly the names the map is
			 * missing, at one ioctl each.  Where it would go
			 * there, find_lookup_spares_tgt() stops it: a stopped
			 * MDT cannot name its own objects.
			 *
			 * Only for a class that has a name somewhere: an
			 * object a target keeps for itself, an agent inode
			 * and an orphan have none anywhere, and asking would
			 * be one ioctl per object to be told so.  A record
			 * whose source sets no class -- a namespace walk, a
			 * changelog -- is looked up as before.
			 */
			if (prc != 0 && fc->fc_mnt_fd >= 0 &&
			    find_rec_may_have_name(fc->fc_rec) &&
			    find_lookup_spares_tgt(fc)) {
")
    None (Some b2b_LIVE);
  b2b_t "pfind-live-6" b2b_PFIND
    (lit "};

/*
 * What only the mounted filesystem can answer: the xattrs --xattr reads
")
    (lit "	/* whether the scan reads a target that is in service */
	bool			 fds_tgt_live;
	/* whether the unsupported-option refusal has been answered once */
	bool			 fds_nobytes_said;
};

/*
 * What only the mounted filesystem can answer: the xattrs --xattr reads
")
    None (Some b2b_LIVE);
  b2b_t "pfind-live-7" b2b_PFIND
    (lit "static int find_device_cb(const struct llapi_scan_rec *rec, void *data)
{
	struct find_device_state *st = data;
	struct find_param *param = st->fds_param;
	struct find_ctx fc = { 0 };
	const char *what;
	int checked_type = 0;
	int rc;

	/* a target in service sends no layout bytes: refuse, do not forge */
	what = find_device_nobytes(param, st->fds_got, st->fds_printf_lmm);
	if (what != NULL) {
		llapi_error(LLAPI_MSG_ERROR | LLAPI_MSG_NO_ERRNO, -ENOTSUP,
			    \q%s need the layout or directory stripe bytes, which a scan of a target in service does not carry\q,
			    what);
		return -ENOTSUP;
	}
	/* -links on a directory counts its stripes, from the LMV */
	if (!(st->fds_got & LLAPI_SCAN_LMV) && param->fp_nlink &&
	    (rec->lfsr_stx.stx_mask & STATX_MODE) &&
	    S_ISDIR(rec->lfsr_stx.stx_mode)) {
		st->fds_undecided++;
		return 0;
	}

	rc = find_device_prefilter(rec, param, &checked_type);
	if (rc == 2)
		st->fds_undecided++;
	if (rc != 0)
		return 0;
")
    (lit "/*
 * The refusal, said once for the scan rather than once per record: what it
 * tests -- the demand mask the scan answered and the caller's own options
 * -- is fixed for the whole sweep.  Called again when the sweep delivered
 * nothing, so a target with no matching objects still says why instead of
 * succeeding silently with the option never mentioned.
 */
static int find_device_nobytes_say(struct find_device_state *st)
{
	const char *what;

	if (st->fds_nobytes_said)
		return 0;
	st->fds_nobytes_said = true;

	what = find_device_nobytes(st->fds_param, st->fds_got,
				   st->fds_printf_lmm);
	if (what == NULL)
		return 0;

	/*
	 * What the scan did not answer, not why: this fires on lfsp_got, so
	 * it also catches an OST read off the device -- an OST scan never
	 * answers LLAPI_SCAN_LAYOUT -- and telling that admin their target
	 * is in service would be wrong twice over.
	 */
	llapi_error(LLAPI_MSG_ERROR | LLAPI_MSG_NO_ERRNO, -ENOTSUP,
		    \q%s need the layout or directory stripe bytes, which this scan does not carry\q,
		    what);
	return -ENOTSUP;
}

static int find_device_cb(const struct llapi_scan_rec *rec, void *data)
{
	struct find_device_state *st = data;
	struct find_param *param = st->fds_param;
	struct find_ctx fc = { 0 };
	int checked_type = 0;
	int rc;

	/* a target in service sends no layout bytes: refuse, do not forge */
	rc = find_device_nobytes_say(st);
	if (rc != 0)
		return rc;
	rc = find_device_prefilter(rec, param, &checked_type);
	if (rc == 2)
		st->fds_undecided++;
	if (rc != 0)
		return 0;

	/*
	 * -links on a directory counts its stripes, from the LMV.  After the
	 * prefilter, not before: a directory the search had already excluded
	 * is not a question this scan could not answer, and counting it made
	 * \q-type f -links +1\q report every directory on the target as
	 * undecided.
	 */
	if (!(st->fds_got & LLAPI_SCAN_LMV) && param->fp_nlink &&
	    (rec->lfsr_stx.stx_mask & STATX_MODE) &&
	    S_ISDIR(rec->lfsr_stx.stx_mode)) {
		st->fds_undecided++;
		return 0;
	}
")
    None (Some b2b_LIVE);
  b2b_t "pfind-live-8" b2b_PFIND
    (lit "	fc.fc_unresolved = &st->fds_unresolved;
")
    (lit "	fc.fc_tgt_live = st->fds_tgt_live;
	fc.fc_unresolved = &st->fds_unresolved;
")
    None (Some b2b_LIVE);
  b2b_t "pfind-live-9" b2b_PFIND
    (lit "	fc.fc_mnt_path = st->fss_mnt_path;
")
    (lit "	/* the log was read from an MDT in service, and it is the MDT the
	 * lookup goes to
	 */
	fc.fc_tgt_live = true;
	fc.fc_mnt_path = st->fss_mnt_path;
")
    None (Some b2b_LIVE)
].

(** Lines 149 to 207. *)
Definition b2b_rows_2 : list R3.transform := [
  b2b_t "pfind-live-10" b2b_PFIND
    (lit "		prep = &pre;
")
    (lit "		pre.pp_live = &st.fds_tgt_live;
		prep = &pre;
")
    None (Some b2b_LIVE);
  b2b_t "pfind-live-11" b2b_PFIND
    (lit "
	if (rc == 0 && st.fds_undecided != 0)
")
    (lit "	/*
	 * A sweep that delivered no record never reached find_device_cb(),
	 * so an option the scan cannot answer would go unmentioned and the
	 * search would succeed on a question it never asked.
	 */
	if (rc == 0)
		rc = find_device_nobytes_say(&st);

	if (rc == 0 && st.fds_undecided != 0)
")
    None (Some b2b_LIVE);
  b2b_t "dev-0" b2b_DEV
    (lit "		/* the caller's own answer to \qwas a map built for this
		 * target\q, which it cannot get from the map's contents
		 */
		if (pre->pp_ran != NULL)
			*pre->pp_ran = true;
		llapi_scan_cb_t filter = dev.sd_filter;
		__u64 want = dev.sd_want;
		__u32 want_xattr = dev.sd_want_xattr;
")
    (lit "		llapi_scan_cb_t filter = dev.sd_filter;
		__u64 want = dev.sd_want;
		__u32 want_xattr = dev.sd_want_xattr;

		/* the caller's own answer to \qwas a map built for this
		 * target\q, which it cannot get from the map's contents
		 */
		if (pre->pp_ran != NULL)
			*pre->pp_ran = true;
")
    None (Some "c08");
  b2b_t "dev-live-0" b2b_DEV
    (lit " */
static bool scan_lmv_is_striped(const struct llapi_scan_obj *obj)
{
	size_t len = 0;
	__u32 magic;
	const void *lmv;

	lmv = scan_xattr(obj, LLAPI_SCAN_XA_LMV, &len);
	if (lmv == NULL || len < sizeof(magic))
		return false;
")
    (lit " *
 * Presence is the question and the bytes are the refinement, because a
 * backend may know the object has an LMV without having brought it across:
 * the kernel ring sets so_xa_present for one and so_xa_valid only for a
 * shard, whose magic it rebuilds.  Reading only the bytes made a master
 * from that backend answer \qnot striped\q, and its own size was then
 * reported as the directory's where neither a device scan nor
 * ll_dir_ioctl() reports one.
 *
 * A foreign LMV is not a striped directory and is not a shard, so presence
 * alone would read it as striped and leave its size unanswered where a
 * device scan reports it.  The backend says which, having read the magic.
 */
static bool scan_lmv_is_striped(const struct llapi_scan_obj *obj)
{
	size_t len = 0;
	__u32 magic;
	const void *lmv;

	lmv = scan_xattr(obj, LLAPI_SCAN_XA_LMV, &len);
	if (lmv == NULL || len < sizeof(magic))
		return !(obj->so_valid & LLAPI_SCAN_SO_LMV_FOREIGN) &&
		       (obj->so_xa_present &
			LLAPI_SCAN_XA_BIT(LLAPI_SCAN_XA_LMV)) != 0;
")
    None (Some b2b_LIVE);
  b2b_t "dev-live-1" b2b_DEV
    (lit "	if (!S_ISREG(obj->so_mode) ||
")
    (lit "	/*
	 * A clear layout bit means \qno layout\q only where the backend read
	 * every xattr it meant to: with so_xa_partial it may mean \qcould not
	 * read it\q, and taking the object's own size for the file's would be
	 * the misreading the bit exists to prevent.  Left unanswered
	 * instead, which is what a scan says when it does not know.
	 */
	if (obj->so_valid & LLAPI_SCAN_SO_XA_PARTIAL)
		return;

	if (!S_ISREG(obj->so_mode) ||
")
    None (Some b2b_LIVE);
  b2b_t "dev-live-2" b2b_DEV
    (lit "	/* released: the MDT inode holds the size; one block, as for a client */
	lov = scan_xattr(obj, LLAPI_SCAN_XA_LOV, &len);
	if (lov != NULL && scan_lov_released(lov, len)) {
")
    (lit "	/*
	 * Released: the MDT inode holds the size; one block, as for a client.
	 *
	 * The bytes where a backend brought them across, and otherwise the
	 * backend's own answer -- one that carries the layout as presence
	 * read the pattern before it decided not to.  Without that, a
	 * released file fell through to the SOM below and was given its
	 * pre-release size and blocks, or no size at all.
	 */
	lov = scan_xattr(obj, LLAPI_SCAN_XA_LOV, &len);
	if ((lov != NULL && scan_lov_released(lov, len)) ||
	    (obj->so_valid & LLAPI_SCAN_SO_RELEASED)) {
")
    None (Some b2b_LIVE);
  b2b_t "dev-live-3" b2b_DEV
    (lit "	void *handle;
")
    (lit "	const __u32 *abi;
	void *handle;
")
    None (Some b2b_LIVE);
  b2b_t "dev-live-4" b2b_DEV
    (lit "			    \q%s is not a device scan backend\q, filename);
")
    (lit "			    \q%s is not a device scan backend\q, filename);
		dlclose(handle);
		free(be);
		return;
	}

	/*
	 * And that it agrees about what the five mean.  The symbols resolving
	 * says nothing about the struct they fill: a plugin built before
	 * so_xa_present leaves that field zero, which reads as \qno layout\q
	 * and reports a striped file's MDT inode size as the file's own
	 * without a word.  Refused rather than believed.
	 */
	snprintf(symbol, sizeof(symbol), \qscan_%s_abi\q, name);
	abi = dlsym(handle, symbol);
	if (abi == NULL || *abi != LLAPI_SCAN_BACKEND_ABI) {
		llapi_error(LLAPI_MSG_ERROR | LLAPI_MSG_NO_ERRNO, -ENOTSUP,
			    \q%s speaks scan backend version %u, this library expects %u\q,
			    filename, abi != NULL ? *abi : 0,
			    LLAPI_SCAN_BACKEND_ABI);
")
    None (Some b2b_LIVE);
  b2b_t "dev-live-5" b2b_DEV
    (lit "	if (pre != NULL && pre->pp_tgt_flags != 0 &&
")
    (lit "	/*
	 * Which the caller cannot see from here: a device or a pool is read
	 * from outside the server and the target is stopped, and every other
	 * backend reads it through a server that is running.  Put this way
	 * round so a backend added later is in service unless it says
	 * otherwise.  find_decide() needs it to know whether a fid2path
	 * lookup would be sent to the target being scanned.
	 *
	 * Answered before the pp_tgt_flags test below, which drops @pre for
	 * a target of the wrong kind: an OST scan asks for no directory map
	 * and would otherwise never be told whether its target is running.
	 */
	if (pre != NULL && pre->pp_live != NULL)
		*pre->pp_live = kind != SCAN_BACKEND_LDISKFS &&
				kind != SCAN_BACKEND_ZFS;

	if (pre != NULL && pre->pp_tgt_flags != 0 &&
")
    None (Some b2b_LIVE);
  b2b_t "dev-live-6" b2b_DEV
    (lit "		stats.ss_size = size;
")
    (lit "		/* a whole counter, never half of one */
		size = scan_stats_whole(size);
		stats.ss_size = size;
")
    None (Some "c02");
  b2b_t "int-live-0" b2b_INT
    (lit "#include \qlstddef.h\q		/* ARRAY_SIZE */
")
    (lit "")
    None (Some "c02");
  b2b_t "int-live-1" b2b_INT
    (lit "	for (i = 0; i < ARRAY_SIZE(ends); i++)
		if (ends[i] <= size)
")
    (lit "	for (i = 0; i < sizeof(ends) / sizeof(ends[0]); i++)
		if (ends[i] <= size)
			whole = ends[i];

	return whole;
}

/*
 * The same, for struct llapi_scan_stats, which a caller also sizes with its
 * own ss_size.  Rounding down to a whole counter matters more here than it
 * looks: an ss_size that stops inside one -- 20 passes
 * LLAPI_SCAN_STATS_MIN_SIZE and lands in the middle of ss_emitted -- would
 * otherwise leave the caller the low half of a number and its own bytes in
 * the high half, which is neither the library's value nor zero.
 */
static inline __u32 scan_stats_whole(__u32 size)
{
#define SCAN_SF_END(f)							\\
	((__u32)(offsetof(struct llapi_scan_stats, f) +			\\
		 sizeof(((struct llapi_scan_stats *)0)->f)))
	static const __u32 ends[] = {
		SCAN_SF_END(ss_padding), SCAN_SF_END(ss_seen),
		SCAN_SF_END(ss_emitted), SCAN_SF_END(ss_skipped),
		SCAN_SF_END(ss_filtered), SCAN_SF_END(ss_class),
	};
	static_assert(SCAN_SF_END(ss_class) ==
		      sizeof(struct llapi_scan_stats),
		      \qa counter was added without a row in ends[]\q);
#undef SCAN_SF_END
	__u32 whole = ends[0];
	unsigned int i;

	for (i = 0; i < sizeof(ends) / sizeof(ends[0]); i++)
		if (ends[i] <= size)
")
    None (Some "c02");
  b2b_t "int-live-2" b2b_INT
    (lit "	for (i = 0; i < ARRAY_SIZE(ends); i++)
		if (ends[i] <= size && ends[i] > whole)
")
    (lit "	for (i = 0; i < sizeof(ends) / sizeof(ends[0]); i++)
		if (ends[i] <= size && ends[i] > whole)
")
    None (Some "c02");
  b2b_t "int-live-3" b2b_INT
    (lit " * answers for it: the layout, the directory stripe, the lazy SOM size, the
 * MDT index and the linkea with the parent it names are the MDT's, and an
 * OST data object's owner is the OST's.
")
    (lit " * answers for it: the layout, the directory stripe, the HSM state, the lazy
 * SOM size, the MDT index and the linkea with the parent it names are the
 * MDT's, and an OST data object's owner is the OST's.
")
    None (Some "c02");
  b2b_t "int-live-4" b2b_INT
    (lit "};

/* liblustreapi_scan_device.c: FID and name to pathname, for one target */
")
    (lit "	/* out or NULL: whether the target being scanned is in service */
	bool		*pp_live;
};

/* liblustreapi_scan_device.c: FID and name to pathname, for one target */
")
    None (Some b2b_LIVE)
].

(** Lines 209 to 267. *)
Definition b2b_rows_3 : list R3.transform := [
  b2b_t "kernel-live-0" b2b_KERNEL
    (lit "#include \qlustreapi_scan_backend.h\q
")
    (lit "#include \qlustreapi_scan_backend.h\q

/* what this plugin was built against; see the loader */
const __u32 scan_kernel_abi = LLAPI_SCAN_BACKEND_ABI;
")
    None (Some "c22");
  b2b_t "kernel-live-1" b2b_KERNEL
    (lit "	/* fsname-MDT0000: the kind and the index are the last eight */
	sep = strrchr(name, '-');
	if (sep != NULL && strlen(sep) == 8) {
		if (strncmp(sep + 1, \qMDT\q, 3) == 0)
			tgt->tt_flags |= LLAPI_SCAN_TGT_MDT;
		else if (strncmp(sep + 1, \qOST\q, 3) == 0)
			tgt->tt_flags |= LLAPI_SCAN_TGT_OST;
		tgt->tt_index = strtoul(sep + 4, NULL, 16);
		tgt->tt_flags |= LLAPI_SCAN_TGT_INDEX;
")
    (lit "	/*
	 * fsname-MDT0000: the kind and the index are the last eight.  Read
	 * exactly as scan_ldiskfs_label() reads the label, so the same
	 * target answers the same whichever backend opened it: all four hex
	 * digits consumed, no flag at all for a kind that is neither, and
	 * INDEX_UNASSIGNED left as \qnot known yet\q rather than 65535.
	 */
	sep = strrchr(name, '-');
	if (sep != NULL && strlen(sep) == 8) {
		char *end;
		long idx;

		idx = strtol(sep + 4, &end, 16);
		if (strncmp(sep + 1, \qMDT\q, 3) == 0)
			tgt->tt_flags |= LLAPI_SCAN_TGT_MDT;
		else if (strncmp(sep + 1, \qOST\q, 3) == 0)
			tgt->tt_flags |= LLAPI_SCAN_TGT_OST;
		else
			end = NULL;
		if (end == sep + 8 && idx >= 0 && idx != 0xffff) {
			tgt->tt_index = (__u32)idx;
			tgt->tt_flags |= LLAPI_SCAN_TGT_INDEX;
		}
")
    None (Some b2b_LIVE);
  b2b_t "kernel-live-2" b2b_KERNEL
    (lit "	 * As the device backends declare it: ldiskfs's i_flags carries the
	 * encrypted bit, ZFS's z_pflags carries nodump, and the module said
	 * which OSD is underneath.
	 */
	if (t->kt_flags & LFU_INFO_ZFS)
		w->kw_attrs_mask = STATX_ATTR_IMMUTABLE | STATX_ATTR_APPEND |
				   STATX_ATTR_NODUMP;
")
    (lit "	 * As the device backends declare it, and no wider: ldiskfs's i_flags
	 * carries the encrypted bit, and the module said which OSD is
	 * underneath.  osd-zfs does set LUSTRE_NODUMP_FL from ZFS_NODUMP, so
	 * lr_flags carries it -- but libscan_zfs.c declares IMMUTABLE and
	 * APPEND only, deliberately, so that one file answers \qlfs find
	 * --attrs d\q the same whichever scanner read it.  Letting it out here
	 * is the divergence that mask exists to prevent.
	 */
	if (t->kt_flags & LFU_INFO_ZFS)
		w->kw_attrs_mask = STATX_ATTR_IMMUTABLE | STATX_ATTR_APPEND;
")
    None (Some b2b_LIVE);
  b2b_t "lfurec-live-0" b2b_LFUREC
    (lit "	obj->so_valid = LLAPI_SCAN_SO_PROJID | LLAPI_SCAN_SO_BTIME;
")
    (lit "	/*
	 * What the OSD actually filled, not what the record has room for:
	 * lr_valid is its LA_* mask, and both device backends gate these two
	 * the same way.  An inode too small for i_crtime leaves la_btime 0,
	 * and claiming it would answer \qborn at the epoch\q where a device
	 * scan of the same target answers \qnot known\q.
	 */
	if (lr->lr_valid & LA_PROJID)
		obj->so_valid |= LLAPI_SCAN_SO_PROJID;
	if (lr->lr_valid & LA_BTIME)
		obj->so_valid |= LLAPI_SCAN_SO_BTIME;
")
    None (Some b2b_LIVE);
  b2b_t "lfurec-live-1" b2b_LFUREC
    (lit "	if (lr->lr_lfu & LFU_REC_HAVE_SOM) {
")
    (lit "	/*
	 * No LMA, so no FID of its own recorded -- but the iterator still
	 * reported one, and on MDT0000 with os_convert_igif that is the IGIF
	 * the inode number and its generation make.  Hand the generation
	 * over the way a device backend does, so scan_rec_class() rebuilds
	 * the same FID: below the IGIF range, or where the sequence is not
	 * this object's id, there is no IGIF and so_gen stays unset.
	 */
	if (!(lr->lr_lfu & LFU_REC_HAVE_LMA) &&
	    lr->lr_fid_seq == lr->lr_oid &&
	    lr->lr_fid_seq >= FID_SEQ_IGIF &&
	    lr->lr_fid_seq <= FID_SEQ_IGIF_MAX) {
		obj->so_gen = lr->lr_fid_oid;
		obj->so_valid |= LLAPI_SCAN_SO_GEN;
	}

	if (lr->lr_lfu & LFU_REC_HAVE_SOM) {
")
    None (Some b2b_LIVE);
  b2b_t "lfurec-live-2" b2b_LFUREC
    (lit "	if (lr->lr_lfu & LFU_REC_LMV_SHARD) {
")
    (lit "	/*
	 * What the OSD read of them before it decided to carry presence
	 * only.  Without these a consumer has the question and no bytes to
	 * answer it with: a released file would be given its pre-release
	 * size, and a foreign directory read as a striped one.
	 */
	if (lr->lr_lfu & LFU_REC_LOV_RELEASED)
		obj->so_valid |= LLAPI_SCAN_SO_RELEASED;
	if (lr->lr_lfu & LFU_REC_LMV_FOREIGN)
		obj->so_valid |= LLAPI_SCAN_SO_LMV_FOREIGN;
	if (lr->lr_lfu & LFU_REC_XA_INCOMPLETE)
		obj->so_valid |= LLAPI_SCAN_SO_XA_PARTIAL;
	if (lr->lr_lfu & LFU_REC_LMV_SHARD) {
")
    None (Some b2b_LIVE);
  b2b_t "spec-live-0" b2b_SPEC
    (lit "	echo '%{_libdir}/@PACKAGE@/scan_osd_kernel.so' >>lustre.files
")
    (lit "	echo '%dir %{_libdir}/@PACKAGE@' >>lustre.files
	echo '%{_libdir}/@PACKAGE@/scan_osd_kernel.so' >>lustre.files
")
    None (Some b2b_LIVE);
  b2b_t "find1-0" b2b_FIND1
    (lit "On an OST each kept object costs one lookup;
on an MDT there is no lookup but a whole extra pass over the target first,
to build a map of its directories.
")
    (lit "On an OST each kept object costs one lookup,
which asks the MDT that owns the object and not the OST being scanned.
On an MDT there is no lookup at all,
but a whole extra pass over the target first,
to build a map of its directories:
a lookup of an MDT object goes to the MDT holding it,
and a device scan reads that MDT because it is stopped.
")
    None (Some "c08");
  b2b_t "find1-1" b2b_FIND1
    (lit "Lists every object of project 1999 on this server's targets of testfs:
")
    (lit "The same, named through a client mount of the same filesystem:
.EX
.RS
.B # lfs find --device /dev/vdb --fid2path /mnt/testfs --type f
.RE
.EE
.PP
And with no mount at all, from the target's own directory entries:
.EX
.RS
.B # lfs find --device /dev/vdb --paths --type f
.RE
.EE
.PP
Lists every object of project 1999 on this server's targets of testfs:
")
    None (Some "c08");
  b2b_t "find1-live-0" b2b_FIND1
    (lit "On an MDT there is no lookup at all,
but a whole extra pass over the target first,
to build a map of its directories:
a lookup of an MDT object goes to the MDT holding it,
and a device scan reads that MDT because it is stopped.
")
    (lit "On an MDT a whole extra pass over the target runs first,
to build a map of its directories,
and no lookup is made at all unless that MDT is in service:
a lookup of an MDT object goes to the MDT holding it,
so a stopped target cannot name its own objects.
Where it is in service,
an object the map cannot place --
under DNE, one whose ancestors are on another MDT --
is looked up through
.IR MOUNT .
")
    None (Some b2b_LIVE);
  b2b_t "find1-live-1" b2b_FIND1
    (lit "nor, under DNE, an object whose ancestors are on another MDT.
A hardlinked file is printed once, under its first name.
")
    (lit "nor, on a DNE filesystem, an object whose ancestors are on another MDT --
unless
.B --fid2path
can look it up, which needs the MDT to be in service.
A hardlinked file is printed once, under its first name.
.PP
A scan does not always carry the layout and the directory stripe.  A target
that is mounted is read through its own server rather than off the device,
and that scan carries neither; an OST holds no layout of its own however it
is read.  Where they are missing,
.BR --stripe-count ,
.BR --stripe-size ,
.BR --pool ,
.BR --layout ,
.BR --component-count ,
.BR --component-start ,
.BR --component-end ,
.BR --component-flags ,
.BR --mirror-count ,
.BR --mirror-state ,
.BR --extension-size ,
.BR --mdt-count ,
.BR --mdt-hash ,
.B --hash-flags
and
.B --foreign
are refused rather than answered wrongly,
and
.B -links
on a directory is counted undecided.
Scan a stopped MDT to ask those.
")
    None (Some b2b_LIVE);
  b2b_t "dev3-live-0" b2b_DEV3
    (lit "The target is opened read-only and there is no write path. It is not
mounted, not modified, and the server that owns it is neither asked nor
told: a scan reads what is on the device, at device speed, and a target
that is in service is scanned without interrupting it.
")
    (lit "The target is opened read-only and there is no write path; it is never
modified.
.LP
How it is read depends on whether it is in service. A stopped target is
read from the device: not mounted, and the server that owns it neither
asked nor told, at device speed. A target that
.I is
mounted is read through its own server instead, because ZFS refuses a live
pool and ldiskfs on a live device is exposed to torn reads; this needs the
.B lfu
module, and without it the device backends answer as before. Which one ran
is not otherwise visible: the record is the same and the answers agree.
.LP
A target in service delivers its extended attributes as presence rather
than bytes for the layout and the directory stripe \\(em
.B LLAPI_SCAN_LAYOUT
and
.B LLAPI_SCAN_LMV
say that the object has one without carrying it \\(em so a consumer that
needs the bytes has to ask a stopped target for them.
")
    None (Some b2b_LIVE);
  b2b_t "dev3-live-1" b2b_DEV3
    (lit "per-file ones, so no per-file answer exists to give.
")
    (lit "per-file ones, so no per-file answer exists to give. A scan of a target in
service declares whichever of those two sets belongs to the OSD underneath
it, so the same file answers the same whether it was read through the
server or off the device.
")
    None (Some b2b_LIVE);
  b2b_t "conf-live-0" b2b_CONF
    (lit "		grep -q -- \q-MDT\q $scan_err && {
			cat $scan_err
			error \qlfs find --local --ost $ostsvc read an MDT\q
		}
		do_facet mds1 \q$LFS find --local --mdt $mdtsvc --type f\q \\
			> /dev/null 2> $scan_err || {
			cat $scan_err
			error \qlfs find --local --mdt $mdtsvc failed\q
")
    (lit "		# the naming line is only printed when more than one target
		# was swept, so assert the right one was read as well as that
		# the wrong one was not -- otherwise an empty $scan_err
		# passes both greps while checking nothing
		grep -q -- \q-OST\q $scan_err || {
			cat $scan_err
			error \qlfs find --local --ost $ostsvc did not read the OST\q
		}
		grep -q -- \q-MDT\q $scan_err && {
			cat $scan_err
			error \qlfs find --local --ost $ostsvc read an MDT\q
		}
		do_facet mds1 \q$LFS find --local --mdt $mdtsvc --type f\q \\
			> /dev/null 2> $scan_err || {
			cat $scan_err
			error \qlfs find --local --mdt $mdtsvc failed\q
		}
		grep -q -- \q-MDT\q $scan_err || {
			cat $scan_err
			error \qlfs find --local --mdt $mdtsvc did not read the MDT\q
")
    None (Some "c06");
  b2b_t "conf-live-1" b2b_CONF
    (lit "	grep -q \qis not a filesystem name\q $scan_err || {
")
    (lit "	grep -q \qfilesystem name\q $scan_err || {
")
    None (Some "c06")
].

(** Lines 269 to 327. *)
Definition b2b_rows_4 : list R3.transform := [
  b2b_t "conf-live-2" b2b_CONF
    (lit "#
# (This was sanity/802a)
")
    (lit "test_305() {
	[[ \q$mds1_FSTYPE\q == ldiskfs || \q$mds1_FSTYPE\q == zfs ]] ||
		skip \q$mds1_FSTYPE has no scan backend\q
	remote_mds_nodsh && skip \qremote MDS with nodsh\q
	(( MDS1_VERSION >= $(version_code 2.17.58) )) ||
		skip \qNeed MDS >= 2.17.58 for a scan of a target in service\q

	local got=$TMP/$tfile.got
	local want=$TMP/$tfile.want

	stack_trap \qrm -f $TMP/$tfile.*\q

	is_mounted $MOUNT || setup_noconfig
	check_mount || error \qcheck_mount failed\q
	stack_trap \qrm -rf $MOUNT/$tdir\q

	# the backend for a target in service needs the module; without it
	# the device backends answer, which the tests above already cover
	do_facet mds1 \qmodprobe lfu 2>/dev/null; test -c /dev/lfu_scan\q ||
		skip \qno lfu module on mds1: nothing reads a target in service\q

	# the device the target is mounted from, which is what the routing
	# compares against -- not mdsdevname, which a flakey device replaces
	local mntdev=$(do_facet mds1 \\
		\q$LCTL get_param -n osd-*.$FSNAME-MDT0000.mntdev\q)
	[[ -n \q$mntdev\q ]] || error \qno mntdev for $FSNAME-MDT0000\q

	mkdir_on_mdt0 $MOUNT/$tdir || error \qmkdir $tdir failed\q
	createmany -o $MOUNT/$tdir/f 20 || error \qcreatemany failed\q
	sync; sync
	do_facet mds1 \qsync; sync\q

	# counts: every regular file the client sees under $tdir, named by
	# the scan through the mount it is given
	$LFS find $MOUNT/$tdir -type f | sort > $want
	(( $(wc -l < $want) == 20 )) ||
		error \qclient sees $(wc -l < $want) files, want 20\q

	do_facet mds1 \q$LFS find --device $mntdev --paths -type f\q \\
		2> $got.err | grep \q/$tdir/\q | sort > $got ||
		error \qlfs find --paths on $mntdev failed: $(cat $got.err)\q
	local n=$(wc -l < $got)

	(( n == 20 )) ||
		error \qa scan of the mounted target named $n objects, want 20\q
	grep -q \q^\\[0x\q $got &&
		error \q--paths printed a FID where a path was asked for\q

	# -name, answered from the same records
	do_facet mds1 \q$LFS find --device $mntdev --paths -name f7\q \\
		> $got.name 2> $got.err ||
		error \qlfs find -name on $mntdev failed: $(cat $got.err)\q
	local hits=$(grep -c \q/$tdir/f7$\q $got.name)

	(( hits == 1 )) || error \q-name f7 matched $hits objects, want 1\q

	# and what such a scan cannot answer is refused, not forged: a target
	# in service sends no layout bytes
	do_facet mds1 \q$LFS find --device $mntdev --stripe-count 2\q \\
		> /dev/null 2> $got.err &&
		error \q--stripe-count answered on a target in service\q
	grep -q \qthe layout options need\q $got.err || {
		cat $got.err
		error \q--stripe-count was refused without saying why\q
	}

	echo \qa scan of the mounted $FSNAME-MDT0000 named $n objects\q
}
run_test 305 \qlfs find over a target that is in service\q

#
# (This was sanity/802a)
")
    None (Some b2b_LIVE);
  b2b_t "backend-live-0" b2b_BACKEND
    (lit "
/* Target flags a backend reports at open time. */
")
    (lit "/*
 * What a backend that carries the layout and the directory stripe as
 * presence rather than as bytes has read of them anyway.  Both mean \qknown
 * to be\q, so clear is \qnot known\q, not \qnot so\q: a backend that brought the
 * bytes across leaves them clear and the reader looks at the bytes.
 */
#define LLAPI_SCAN_SO_RELEASED	0x00000010U	/* the layout is released */
#define LLAPI_SCAN_SO_LMV_FOREIGN 0x00000020U	/* the LMV is a foreign one */
/*
 * An xattr the backend meant to read did not read, for a reason other than
 * its absence, so so_xa_present is not a complete answer for this object:
 * a bit that is clear may mean \qabsent\q or \qnot readable\q.
 */
#define LLAPI_SCAN_SO_XA_PARTIAL 0x00000040U

/* Target flags a backend reports at open time. */
")
    None (Some b2b_LIVE);
  b2b_t "backend-live-1" b2b_BACKEND
    (lit "struct llapi_scan_backend {
")
    (lit "/*
 * What a plugin is built against.  so_xa_present took over so_padding[1],
 * and a plugin built before that leaves it zero -- which reads as \qthis
 * object has no layout\q and makes scan_size() report a striped file's MDT
 * inode size as the file's own, silently.  This library and the plugins
 * ship in separate RPMs and the $LUSTRE fallback loads whatever a build
 * tree has, so the skew is reachable; each plugin exports
 * scan_<name>_abi and the loader refuses one that disagrees.  Bump it
 * whenever struct llapi_scan_obj or this interface changes meaning.
 */
#define LLAPI_SCAN_BACKEND_ABI	1U

struct llapi_scan_backend {
")
    None (Some b2b_LIVE);
  b2b_t "ldiskfs-live-0" b2b_LDISKFS
    (lit "#include \qlustreapi_scan_backend.h\q
")
    (lit "#include \qlustreapi_scan_backend.h\q

/* what this plugin was built against; see the loader */
const __u32 scan_ldiskfs_abi = LLAPI_SCAN_BACKEND_ABI;
")
    None (Some "c22");
  b2b_t "zfs-live-0" b2b_ZFS
    (lit "#include <errno.h>
")
    (lit "#include <ctype.h>
#include <errno.h>
")
    None (Some "c07");
  b2b_t "zfs-live-1" b2b_ZFS
    (lit "#include \qlustreapi_scan_backend.h\q
")
    (lit "#include \qlustreapi_scan_backend.h\q

/* what this plugin was built against; see the loader */
const __u32 scan_zfs_abi = LLAPI_SCAN_BACKEND_ABI;
")
    None (Some "c22");
  b2b_t "zfs-live-2" b2b_ZFS
    (lit "	 * An empty name or \q@snap\q has no pool.  An empty pool name would
	 * reach the kstat probe below as \q/proc/spl/kstat/zfs/\q, which
	 * exists whenever the module is loaded, and answer \qin use\q.
	 */
	if (t->zt_pool[0] == '\\0') {
")
    (lit "	 * An empty name or \q@snap\q has no pool, and neither do \q.\q and \q..\q:
	 * a pool name has to start with an alphanumeric.  All three would
	 * reach the kstat probe below as a directory that exists whenever
	 * the module is loaded -- \q/proc/spl/kstat/zfs/\q, and for \q..\q its
	 * parent -- and be answered \qin use\q, telling the caller to export a
	 * pool that was never named.  \qlfs find --device ..\q is the way in:
	 * scan_backend_kind() sends a relative name that stats as a
	 * directory here.
	 */
	if (!isalnum((unsigned char)t->zt_pool[0])) {
")
    None (Some "c07");
  b2b_t "makeam-live-0" b2b_MAKEAM
    (lit "endif
if SERVER
LIB_TARGETS += mount_osd_wbcfs.so
")
    (lit "LIB_TARGETS += mount_osd_wbcfs.so
")
    None (Some b2b_LIVE);
  b2b_t "lfuh-live-0" b2b_LFUH
    (lit "#define LFU_REC_HAVE_PFID	0x80	/* lr_pfid_*: an OST object's parent */
")
    (lit "#define LFU_REC_HAVE_PFID	0x80	/* lr_pfid_*: an OST object's parent */
/*
 * What the layout and the directory stripe say, for a consumer that is
 * given them as presence rather than as bytes.  Set only where the OSD read
 * enough to tell: a layout too large for the xattr buffer is reported
 * present and unjudged, so the absence of LFU_REC_LOV_RELEASED means \qnot
 * known to be released\q and not \qnot released\q.
 */
/*
 * The smallest buffer read() accepts: one record can be this long, and the
 * device hands out whole records only, so a shorter buffer could never be
 * filled and is refused with -EINVAL rather than returning 0 for ever.  A
 * consumer that sizes its buffer from li_rec_size alone gets that -EINVAL
 * with nothing to explain it.
 */
#define LFU_REC_MAX		(sizeof(struct lfu_rec) + LFU_LINK_MAX)

#define LFU_REC_LOV_RELEASED	0x100	/* every component released (HSM) */
#define LFU_REC_LMV_FOREIGN	0x200	/* the trusted.lmv is a foreign one */
/*
 * An xattr read failed for a reason other than the xattr not being there,
 * so the HAVE_* bits above are not a complete answer for this object: a
 * clear one may mean \qabsent\q or may mean \qnot readable\q.  A consumer that
 * would otherwise take a clear LFU_REC_HAVE_LOV as \qno layout, so the
 * inode's own size is the file's\q has to stop at this bit instead.
 */
#define LFU_REC_XA_INCOMPLETE	0x400	/* an xattr read failed, not absent */
")
    None (Some b2b_PROD);
  b2b_t "dtobj-live-0" b2b_DTOBJ
    (lit "/**
 * dt_otable_lfu_rec() - build the LFU wire record for the current object
")
    (lit "/*
 * Whether HSM has released the file: every component released, decided as
 * mdt_hsm_is_released() decides it.  The bytes are raw from the target, and
 * liblustreapi's scan_lov_released() reads them the same way for a scan
 * that brought the layout across -- the two have to agree, or one file
 * answers \qlfs find --size\q differently depending on which read it.
 */
static bool dt_otable_lov_released(const void *buf, int len)
{
	const struct lov_comp_md_v1 *comp = buf;
	const struct lov_mds_md_v1 *v1 = buf;
	__u32 magic;
	__u16 count;
	__u16 i;

	if (len < (int)sizeof(*v1))
		return false;

	magic = le32_to_cpu(v1->lmm_magic);
	if (magic == LOV_MAGIC_V1 || magic == LOV_MAGIC_V3)
		return le32_to_cpu(v1->lmm_pattern) & LOV_PATTERN_F_RELEASED;
	if (magic != LOV_MAGIC_COMP_V1 || len < (int)sizeof(*comp))
		return false;

	count = le16_to_cpu(comp->lcm_entry_count);
	if (len < (int)(sizeof(*comp) + count * sizeof(comp->lcm_entries[0])))
		return false;
	for (i = 0; i < count; i++) {
		__u32 off = le32_to_cpu(comp->lcm_entries[i].lcme_offset);

		if (off > len - sizeof(*v1))
			return false;
		v1 = (const struct lov_mds_md_v1 *)((const char *)buf + off);
		if (!(le32_to_cpu(v1->lmm_pattern) & LOV_PATTERN_F_RELEASED))
			return false;
	}
	return true;
}

/**
 * dt_otable_lfu_rec() - build the LFU wire record for the current object
")
    None (Some b2b_PROD);
  b2b_t "dtobj-live-1" b2b_DTOBJ
    (lit " * absent xattr is a definite answer; any other error leaves its bit clear,
 * which the consumer reads as \qnot answered\q, not \qnot there\q.
")
    (lit " * absent xattr is a definite answer; any other error leaves its bit clear
 * and sets LFU_REC_XA_INCOMPLETE, since a clear bit on its own can only
 * say \qnot there\q.
")
    None (Some b2b_PROD);
  b2b_t "dtobj-live-2" b2b_DTOBJ
    (lit "			lr->lr_lfu |= LFU_REC_HAVE_LOV;
")
    (lit "			lr->lr_lfu |= LFU_REC_HAVE_LOV;
		/*
		 * Not there and not readable are different answers, and a
		 * clear HAVE_LOV can only carry one of them: an -EIO here
		 * would otherwise build a record identical to a file that
		 * has no layout, and a consumer would take the MDT inode's
		 * own size for the file's.
		 */
		else if (rc != -ENODATA)
			lr->lr_lfu |= LFU_REC_XA_INCOMPLETE;
		/*
		 * The layout crosses as presence, so whether it is released
		 * has to cross as an answer: a consumer without the bytes
		 * cannot tell, and would report the pre-release size and
		 * blocks for a file that has neither.  Judged only where the
		 * whole layout was read -- -ERANGE leaves it unjudged.
		 */
		if (rc > 0 && dt_otable_lov_released(xabuf, rc))
			lr->lr_lfu |= LFU_REC_LOV_RELEASED;
")
    None (Some b2b_PROD);
  b2b_t "dtobj-live-3" b2b_DTOBJ
    (lit "		/* a stripe's LMV is the short header; a master's may not fit */
		if (rc >= (int)sizeof(__u32) &&
		    le32_to_cpu(*(__le32 *)xabuf) == LMV_MAGIC_STRIPE)
			lr->lr_lfu |= LFU_REC_LMV_SHARD;
")
    (lit "		else if (rc != -ENODATA)
			lr->lr_lfu |= LFU_REC_XA_INCOMPLETE;
		/*
		 * A stripe's LMV is the short header; a master's may not fit.
		 * A foreign one is neither, and says so: a consumer given the
		 * LMV as presence would otherwise read it as a striped
		 * directory and leave its size unanswered.
		 */
		if (rc >= (int)sizeof(__u32)) {
			__u32 magic = le32_to_cpu(*(__le32 *)xabuf);

			if (magic == LMV_MAGIC_STRIPE)
				lr->lr_lfu |= LFU_REC_LMV_SHARD;
			else if (magic == LMV_MAGIC_FOREIGN)
				lr->lr_lfu |= LFU_REC_LMV_FOREIGN;
		}
")
    None (Some b2b_PROD);
  b2b_t "dtobjh-live-0" b2b_DTOBJH
    (lit "#define DT_LFU_XA_BUFLEN	64
")
    (lit "/*
 * Scratch for the xattrs dt_otable_lfu_rec() reads.  A page, not the 64
 * bytes the small ones need: LFU_REC_LOV_RELEASED and LFU_REC_LMV_FOREIGN
 * are answers computed here rather than bytes carried across, and at 64
 * neither could be reached -- a lov_mds_md_v1 is 32 plus 24 a stripe, a v3
 * with a pool name is 48 before its first, and every composite layout is
 * larger again, so they all came back -ERANGE and the questions went
 * unanswered.  The read costs the same either way: the OSD has already
 * located the xattr when the size is compared, so what changes is how much
 * is copied out of a block it is holding, not whether the block is read.
 */
#define DT_LFU_XA_BUFLEN	4096
")
    None (Some b2b_PROD);
  b2b_t "ring-live-0" b2b_RING
    (lit "
/* the largest record: a header and the most tail it carries */
#define LFU_REC_MAX	(sizeof(struct lfu_rec) + LFU_LINK_MAX)
")
    (lit "")
    None (Some b2b_PROD)
].

(** Lines 329 to 387. *)
Definition b2b_rows_5 : list R3.transform := [
  b2b_t "ring-live-1" b2b_RING
    (lit "	WRITE_ONCE(r->done, 1);
")
    (lit "	/*
	 * Release, not WRITE_ONCE: err and ls_err are plain stores just
	 * above, and a reader that sees done without them would report a
	 * scan that ended in -ESHUTDOWN as a clean EOF.  Pairs with the
	 * smp_load_acquire(&r->done) on the read side.
	 */
	smp_store_release(&r->done, 1);
")
    None (Some b2b_PROD);
  b2b_t "ring-live-2" b2b_RING
    (lit "	t = kthread_create(lfu_producer, r, \qlfu_scan\q);
")
    (lit "	/* named for its target: several can run at once */
	t = kthread_create(lfu_producer, r, \qlfu_%s\q,
			   r->obd_name[0] != '\\0' ? r->obd_name : \qscan\q);
")
    None (Some b2b_PROD);
  b2b_t "ring-live-3" b2b_RING
    (lit "		avail = lfu_ring_avail(r);
		if (avail > 0)
			break;
		if (READ_ONCE(r->done)) {
")
    (lit "		/*
		 * done first, then avail: the producer advances head and
		 * only then sets done, so a reader that read avail first
		 * could see the empty ring from before the last burst and
		 * the done from after it, and call that a clean EOF with
		 * records still in the ring.  This way round, an avail read
		 * after a done of 1 is at least as new as the burst that
		 * preceded it.
		 */
		bool ended = smp_load_acquire(&r->done);

		avail = lfu_ring_avail(r);
		if (avail > 0)
			break;
		if (ended) {
")
    None (Some b2b_PROD);
  b2b_t "ring-live-4" b2b_RING
    (lit "	if (!is_power_of_2(ring_size) || ring_size < 2 * LFU_REC_MAX ||
	    batch < LFU_REC_MAX || batch > ring_size / 2)
		return -EINVAL;
")
    (lit "	int rc = -EINVAL;

	if (!is_power_of_2(ring_size) || ring_size < 2 * LFU_REC_MAX) {
		CERROR(\q%s: ring_size %u is not a power of two of at least %zu bytes: rc = %d\\n\q,
		       LFU_DEVNAME, ring_size, 2 * LFU_REC_MAX, rc);
		return rc;
	}
	if (batch < LFU_REC_MAX || batch > ring_size / 2) {
		CERROR(\q%s: batch %u is not between %zu and ring_size/2 (%u): rc = %d\\n\q,
		       LFU_DEVNAME, batch, LFU_REC_MAX, ring_size / 2, rc);
		return rc;
	}
")
    None (Some b2b_PROD);
  b2b_t "man4rs-live-0" b2b_MAN4RS
    (lit ".BR batch (4),
")
    (lit ".BR lfu.batch (4),
")
    None (Some b2b_PROD);
  b2b_t "man4b-live-0" b2b_MAN4B
    (lit ".BR ring_size (4)
")
    (lit ".BR lfu.ring_size (4)
")
    None (Some b2b_PROD);
  b2b_t "man4b-live-1" b2b_MAN4B
    (lit ".BR ring_size (4),
")
    (lit ".BR lfu.ring_size (4),
")
    None (Some b2b_PROD);
  b2b_t "lfs-live-0" b2b_LFS
    (lit "				    \q%s: cannot read the device of %s\q,
				    progname, name);
")
    (lit "				    \qcannot read the device of %s\q, name);
")
    None (Some "c06");
  b2b_t "lfs-live-1" b2b_LFS
    (lit "	/* any of the paths, so a second target is refused and not walked */
	for (i = pathstart; pathstart != -1 && i < pathend; i++) {
")
    (lit "	if (pathstart == -1)
		return false;

	/* any of the paths, so a second target is refused and not walked */
	for (i = pathstart; i < pathend; i++) {
")
    None (Some "c06");
  b2b_t "parse-live-0" b2b_PARSE
    (lit "}

/*
 * Could mkfs.lustre have formatted a filesystem by this name?  Its own check,
 * so a mistyped --fsname is refused rather than matching no target.
 */
static bool lfs_find_fsname_valid(const char *name)
{
	return llapi_name_validate(name, \q_-\q, LUSTRE_MAXFSNAME) == 0;
")
    (lit "")
    None (Some "c06");
  b2b_t "parse-live-1" b2b_PARSE
    (lit "			if (c == LFS_FSNAME_OPT &&
			    !lfs_find_fsname_valid(optarg)) {
				fprintf(stderr,
					\qerror: %s: '%s' is not a filesystem name: 1-%d letters, digits, '_' or '-'\\n\q,
					argv[0], optarg, LUSTRE_MAXFSNAME);
				ret = CMD_HELP;
				goto out;
			}
")
    (lit "			/*
			 * mkfs.lustre's own check, through the wrapper it
			 * calls with the same arguments, so a mistyped
			 * --fsname is refused rather than matching no
			 * target -- and so too long is told apart from a
			 * character that is not allowed.
			 */
			if (c == LFS_FSNAME_OPT &&
			    llapi_name_verify(optarg, \q_-\q, LUSTRE_MAXFSNAME,
					      \qfilesystem\q) != 0) {
				ret = CMD_HELP;
				goto out;
			}
			/*
			 * Borrowed from argv, not strdup()ed as every other
			 * string this switch stores is: argv outlives the
			 * command, so nothing frees these -- and
			 * lfs_find_parse_fini() must not learn to.
			 */
")
    None (Some "c06");
  b2b_t "scan-live-0" b2b_SCAN
    (lit "		st.ss_stats.ss_size = room;
")
    (lit "		/* a whole counter, never half of one */
		room = scan_stats_whole(room);
		st.ss_stats.ss_size = room;
")
    None (Some "c02");
  b2b_t "apih-live-0" b2b_APIH
    (lit "#define LLAPI_SCAN_LAYOUT	0x0000000400000000ULL
")
    (lit "/*
 * lfsr_lmm.  For a directory this is the *default* layout new files under
 * it inherit, never a layout of its own -- and where the directory has none,
 * what the filesystem root's default is, which may describe nothing about
 * this directory at all.  It carries no objects either way.
 */
#define LLAPI_SCAN_LAYOUT	0x0000000400000000ULL
")
    None (Some "c00");
  b2b_t "man3ns-live-0" b2b_MAN3NS
    (lit "on success.
")
    (lit "on success. Objects may still have been left out: a fetch that fails for
a reason other than the object having gone \\(em an eviction or a recovery
window, say \\(em drops that object from the callback stream and the scan
carries on. Set
.B LLAPI_SCAN_F_STOP_ON_ERROR
in
.I lfsp_flags
for a scan that stops on the first of those instead, and read
.I ss_skipped
to learn how many were left out.
")
    None (Some "c02");
  b2b_t "man3ns-live-1" b2b_MAN3NS
    (lit "guarantee fields already have: a caller never has one silently ignored.
")
    (lit "guarantee fields already have: a caller never has one silently ignored.
It is also returned when
.I lfsp_stats
is not NULL and its
.I ss_size
is shorter than the minimum a scan writes back, which reaches through
.IR ss_seen ,
for the same reason.
")
    None (Some "c02")
].

(** Lines 389 to 419. *)
Definition b2b_rows_6 : list R3.transform := [
  b2b_t "scantest-live-0" b2b_SCANTEST
    (lit "#include <libgen.h>
#include <time.h>
#include <ftw.h>
#include <fnmatch.h>
#include <getopt.h>
")
    (lit "#include <time.h>
#include <ftw.h>
#include <fnmatch.h>
#include <getopt.h>
#include <libgen.h>
")
    None (Some "c00");
  b2b_t "scantest-live-1" b2b_SCANTEST
    (lit "
	/* the scan above delivered records: start the next check from zero */
")
    (lit "
	/* and the third of the same family: a flag this library does not
	 * define, which the man page's ERRORS names beside the other two
	 */
	sp.lfsp_flags = LLAPI_SCAN_F_STOP_ON_ERROR << 1;
	rc = llapi_scan_namespace(testdir, &sp, count_cb, &res);
	ASSERTF(rc == -EINVAL,
		\qan undefined lfsp_flags returned %d, expected -EINVAL\q, rc);
	sp.lfsp_flags = 0;

	/* the scan above delivered records: start the next check from zero */
")
    None (Some "c00");
  b2b_t "clog-live-0" b2b_CLOG
    (lit "	if (!glimpse) {
		if (statx(fd, \q\q, AT_EMPTY_PATH | AT_STATX_DONT_SYNC,
			  STATX_SIZE | STATX_BLOCKS, &lz) != 0)
			return -errno;
		mask &= ~(STATX_SIZE | STATX_BLOCKS | STATX_MTIME);
	}
	if (statx(fd, \q\q, AT_EMPTY_PATH, mask, &stx) != 0)
")
    (lit "	if (!glimpse)
		mask &= ~(STATX_SIZE | STATX_BLOCKS | STATX_MTIME);
	if (statx(fd, \q\q, AT_EMPTY_PATH, mask, &stx) != 0)
		return -errno;
	/*
	 * The lazy read second, and not first.  ll_getattr_dentry() skips
	 * ll_inode_revalidate() for AT_STATX_DONT_SYNC, and
	 * llapi_open_by_fid_at() sends no RPC for an inode already in cache,
	 * so read first it answers from the last revalidation -- often this
	 * FID's previous resolve in event mode -- and the revalidating call
	 * below it never reaches the size.  After it, the cached size is at
	 * least as new as the attributes beside it.
	 */
	if (!glimpse &&
	    statx(fd, \q\q, AT_EMPTY_PATH | AT_STATX_DONT_SYNC,
		  STATX_SIZE | STATX_BLOCKS, &lz) != 0)
")
    None (Some "c09");
  b2b_t "clog-live-1" b2b_CLOG
    (lit " * why object mode exists: a file written a
 * hundred times is one lookup here, not a hundred.  An object that has since
 * been unlinked cannot be opened, and that is not an error -- the record is
 * delivered with what the event said and the rest absent, and a predicate
 * that needed more counts undecided.
")
    (lit " * why object mode exists: a file written a hundred times is one lookup
 * here, not a hundred.  An object that has since been unlinked cannot be
 * opened, and that is not an error -- the record is delivered with what the
 * event said and the rest absent, and a predicate that needed more counts
 * undecided.
")
    None (Some "c09");
  b2b_t "clog-live-2" b2b_CLOG
    (lit "	int rc = 0;
	int i = 0;
")
    (lit "	__u64 before = sl->sl_accepted;
	int rc = 0;
	int i = 0;
")
    None (Some "c09");
  b2b_t "clog-live-3" b2b_CLOG
    (lit "	} while (rc == 0 && ++i < n);
")
    (lit "	} while (rc == 0 && ++i < n);

	/*
	 * A rename over an existing name is two objects under one cr_index,
	 * and sl_accepted moves per object.  A consumer that stops on the
	 * second would otherwise leave the whole record counted as consumed,
	 * and _CLEAR would purge it with no callback having seen that
	 * object -- which is what llapi_scan_changelog.3 promises cannot
	 * happen.  The cache is empty in event mode, so scan_cl_held_first()
	 * does not hold it back either.  Put it back where it was: a record
	 * is consumed only when all of it is.
	 */
	if (rc != 0)
		sl->sl_accepted = before;
")
    None (Some "c09");
  b2b_t "clogtest-live-0" b2b_CLOGTEST
    (lit "static struct test_tbl_entry test_tbl[] = {
	TEST_REGISTER(0),
	TEST_REGISTER(1),
	TEST_REGISTER(2),
	TEST_REGISTER(3),
	TEST_REGISTER(4),
	TEST_REGISTER(5),
	TEST_REGISTER(6),
	TEST_REGISTER(7),
	TEST_REGISTER(8),
")
    (lit "#define T9_DESC \qsc_type_mask filters on the server, through the user\q
static void test9(void)
{
	struct llapi_scan_changelog_param sc;
	struct cl_result all = { 0 }, masked = { 0 };
	int rc;

	if (cluser == NULL) {
		printf(\q  no -u, so no user to filter for; skipped\\n\q);
		return;
	}

	ASSERTF(make_events(testdir) != 0, \qcannot make events under %s\q,
		testdir);

	/* the whole stream, for something to compare against */
	param_init(&sc);
	rc = llapi_scan_changelog(&sc, cl_cb, &all);
	ASSERTF(rc == 0, \qthe unmasked scan failed: %s\q, strerror(-rc));
	ASSERTF(all.cr_with_event > 0, \qthe unmasked scan delivered nothing\q);

	/*
	 * sc_type_mask reaches the server only through
	 * llapi_changelog_start_user(), which the library calls only when
	 * the mask is set -- so this is the one case that exercises it, and
	 * the refusals in test4 cover the mask without a user.
	 */
	param_init(&sc);
	sc.sc_type_mask = 1ULL << CL_CREATE;
	rc = llapi_scan_changelog(&sc, cl_cb, &masked);
	ASSERTF(rc == 0, \qthe masked scan failed: %s\q, strerror(-rc));
	ASSERTF(masked.cr_with_event <= all.cr_with_event,
		\qthe mask delivered more than the whole stream: %llu > %llu\q,
		(unsigned long long)masked.cr_with_event,
		(unsigned long long)all.cr_with_event);

	printf(\q  %llu of %llu records with CL_CREATE asked for\\n\q,
	       (unsigned long long)masked.cr_with_event,
	       (unsigned long long)all.cr_with_event);
}

static struct test_tbl_entry test_tbl[] = {
	TEST_REGISTER(0),
	TEST_REGISTER(1),
	TEST_REGISTER(2),
	TEST_REGISTER(3),
	TEST_REGISTER(4),
	TEST_REGISTER(5),
	TEST_REGISTER(6),
	TEST_REGISTER(7),
	TEST_REGISTER(8),
	TEST_REGISTER(9),
")
    None (Some "c09");
  b2b_t "man3fd-live-0" b2b_MAN3FD
    (lit "as it does for a scan.  Four of its fields are the search's to decide and
are overwritten whatever the caller set:
.IR lfsp_want ,
.IR lfsp_thread_count ,
.I lfsp_stats
and
.IR lfsp_filter .
")
    (lit "as it does for a scan.  Five of its fields are the search's to decide and
are overwritten whatever the caller set:
.IR lfsp_want ,
.IR lfsp_thread_count ,
.IR lfsp_stats ,
.I lfsp_filter
and
.IR lfsp_got .
The last is cleared rather than filled for the caller: it would report the
demand mask the search settled on and not the one the caller asked for.
")
    None (Some "c10")
].

Definition b2bx_KERNEL : string := "lustre/utils/libscan_kernel.c".

Definition b2bx_SO_VALID_OLD : text :=
  (lit "	obj->so_valid = LLAPI_SCAN_SO_PROJID | LLAPI_SCAN_SO_BTIME;
").

Definition b2bx_SO_VALID_NEW : text :=
  (lit "	/*
	 * What the OSD actually filled, not what the record has room for:
	 * lr_valid is its LA_* mask, and both device backends gate these two
	 * the same way.  An inode too small for i_crtime leaves la_btime 0,
	 * and claiming it would answer \qborn at the epoch\q where a device
	 * scan of the same target answers \qnot known\q.
	 */
	if (lr->lr_valid & LA_PROJID)
		obj->so_valid |= LLAPI_SCAN_SO_PROJID;
	if (lr->lr_valid & LA_BTIME)
		obj->so_valid |= LLAPI_SCAN_SO_BTIME;
").

Definition b2bx_IGIF_ANCHOR : text :=
  (lit "	/* the SOM, whole, the same way */
").

Definition b2bx_IGIF_NEW : text :=
  ((lit "	/*
	 * No LMA, so no FID of its own recorded -- but the iterator still
	 * reported one, and on MDT0000 with os_convert_igif that is the IGIF
	 * the inode number and its generation make.  Hand the generation
	 * over the way a device backend does, so scan_rec_class() rebuilds
	 * the same FID: below the IGIF range, or where the sequence is not
	 * this object's id, there is no IGIF and so_gen stays unset.
	 */
	if (!(lr->lr_lfu & LFU_REC_HAVE_LMA) &&
	    lr->lr_fid_seq == lr->lr_oid &&
	    lr->lr_fid_seq >= FID_SEQ_IGIF &&
	    lr->lr_fid_seq <= FID_SEQ_IGIF_MAX) {
		obj->so_gen = lr->lr_fid_oid;
		obj->so_valid |= LLAPI_SCAN_SO_GEN;
	}

") ++
     b2bx_IGIF_ANCHOR).

Definition b2bx_MSG_REFUSE_OLD : text :=
  (lit "This backend does not claim LAYOUT, LMV or HSM, and lfs find
refuses the layout and directory stripe options with -ENOTSUP
rather than compare them against the default layout.  -links on a
directory, which counts stripes, is undecided.
").

Definition b2bx_MSG_REFUSE_NEW : text :=
  (lit "This backend does not claim LAYOUT, LMV or HSM, and lfs find
refuses the layout and directory stripe options with -ENOTSUP
rather than compare them against the default layout.  -links on a
directory, which counts stripes, is undecided.

The refusal is on what the scan answered, not on which backend
answered it, so it reaches an OST scan through the device backends
too: \qlfs find <ost> --stripe-count 2\q used to be compared against
a forged default layout and is now refused.  conf-sanity 305 scans
a target while it is mounted -- counts, --paths, -name, and that
refusal -- and skips where lfu.ko is not there to read one.
").

Definition b2bx_MSG_NAMING_OLD : text :=
  (lit "A stripe of a striped directory is marked in the record and rebuilt
as its LMV magic, so --paths does not print a shard as a directory.
").

Definition b2bx_MSG_NAMING_NEW : text :=
  (lit "A stripe of a striped directory is marked in the record and rebuilt
as its LMV magic, so --paths does not print a shard as a directory.

Naming changes with it.  A scan reports whether its target is in
service, and lfs find takes a fid2path lookup only where that
lookup will not be sent to the target being scanned -- the target
is running, or the object is an OST object named through its owner
on an MDT.  So --fid2path on a running MDT now names what the
directory map could not place, under DNE the objects whose
ancestors are on another MDT, at one ioctl each; on a stopped one
it names no more than it did.  A changelog is read from a running
MDT, so that source says so.
").

Definition b2bx_MSG_TESTPARAMS_OLD : text :=
  (lit "Test-Parameters: ignore
").

Definition b2bx_MSG_TESTPARAMS_NEW : text :=
  (lit "Test-Parameters: testlist=conf-sanity env=ONLY=305
").

Definition b2bx_add (live : string) (msg : string) : list R3.transform := [
  b2b_t "kernel-so-valid" b2bx_KERNEL
    b2bx_SO_VALID_OLD
    b2bx_SO_VALID_NEW
    None (Some live);
  b2b_t "kernel-igif" b2bx_KERNEL
    b2bx_IGIF_ANCHOR
    b2bx_IGIF_NEW
    None (Some live);
  b2b_t "msg-refusal-reach" msg
    b2bx_MSG_REFUSE_OLD
    b2bx_MSG_REFUSE_NEW
    (Some [live]) (Some "c08");
  b2b_t "msg-naming" msg
    b2bx_MSG_NAMING_OLD
    b2bx_MSG_NAMING_NEW
    (Some [live]) (Some "c08");
  b2b_t "msg-testparams" msg
    b2bx_MSG_TESTPARAMS_OLD
    b2bx_MSG_TESTPARAMS_NEW
    (Some [live]) (Some "c08")
].

Definition b2bx_RING : string := "lustre/lfu/lfu_ring.c".

Definition b2bx_RING_LOV_OLD : text :=
  (lit "		rc = lfu_fill_xattr(env, iops, di, r, XATTR_NAME_LOV, buf,
				    LFU_XA_BUFLEN);
		if (rc >= 0 || rc == -ERANGE)
			lr->lr_lfu |= LFU_REC_HAVE_LOV;
").

Definition b2bx_RING_LOV_NEW : text :=
  (lit "		rc = lfu_fill_xattr(env, iops, di, r, XATTR_NAME_LOV, buf,
				    LFU_XA_BUFLEN);
		if (rc >= 0 || rc == -ERANGE)
			lr->lr_lfu |= LFU_REC_HAVE_LOV;
		/*
		 * Not there and not readable are different answers, and a
		 * clear HAVE_LOV can only carry one of them: an -EIO here
		 * would otherwise build a record identical to a file that
		 * has no layout, and a consumer would take the MDT inode's
		 * own size for the file's.
		 */
		else if (rc != -ENODATA)
			lr->lr_lfu |= LFU_REC_XA_INCOMPLETE;
		/*
		 * The layout crosses as presence, so whether it is released
		 * has to cross as an answer: a consumer without the bytes
		 * cannot tell, and would report the pre-release size and
		 * blocks for a file that has neither.  Judged only where the
		 * whole layout was read -- -ERANGE leaves it unjudged.
		 */
		if (rc > 0 && lfu_lov_released(buf, rc))
			lr->lr_lfu |= LFU_REC_LOV_RELEASED;
").

Definition b2bx_RING_LMV_INCOMPLETE_OLD : text :=
  (lit "		rc = lfu_fill_xattr(env, iops, di, r, XATTR_NAME_LMV, buf,
				    LFU_XA_BUFLEN);
		if (rc >= 0 || rc == -ERANGE)
			lr->lr_lfu |= LFU_REC_HAVE_LMV;
").

Definition b2bx_RING_LMV_INCOMPLETE_NEW : text :=
  (lit "		rc = lfu_fill_xattr(env, iops, di, r, XATTR_NAME_LMV, buf,
				    LFU_XA_BUFLEN);
		if (rc >= 0 || rc == -ERANGE)
			lr->lr_lfu |= LFU_REC_HAVE_LMV;
		else if (rc != -ENODATA)
			lr->lr_lfu |= LFU_REC_XA_INCOMPLETE;
").

Definition b2bx_RING_LMV_OLD : text :=
  (lit "		/* a stripe's LMV is the short header; a master's may not fit */
		if (rc >= (int)sizeof(__u32) &&
		    le32_to_cpu(*(__le32 *)buf) == LMV_MAGIC_STRIPE)
			lr->lr_lfu |= LFU_REC_LMV_SHARD;
").

Definition b2bx_RING_LMV_NEW : text :=
  (lit "		/*
		 * A stripe's LMV is the short header; a master's may not fit.
		 * A foreign one is neither, and says so: a consumer given the
		 * LMV as presence would otherwise read it as a striped
		 * directory and leave its size unanswered.
		 */
		if (rc >= (int)sizeof(__u32)) {
			__u32 magic = le32_to_cpu(*(__le32 *)buf);

			if (magic == LMV_MAGIC_STRIPE)
				lr->lr_lfu |= LFU_REC_LMV_SHARD;
			else if (magic == LMV_MAGIC_FOREIGN)
				lr->lr_lfu |= LFU_REC_LMV_FOREIGN;
		}
").

Definition b2bx_RING_HELPER_ANCHOR : text :=
  (lit "static void lfu_fill_pfid(struct lfu_rec *lr, const struct lu_fid *pfid)
").

Definition b2bx_RING_HELPER : text :=
  ((lit "/*
 * Whether HSM has released the file: every component released, decided as
 * mdt_hsm_is_released() decides it.  The bytes are raw from the target, and
 * liblustreapi's scan_lov_released() reads them the same way for a scan
 * that brought the layout across -- the two have to agree, or one file
 * answers \qlfs find --size\q differently depending on which read it.
 */
static bool lfu_lov_released(const void *buf, int len)
{
	const struct lov_comp_md_v1 *comp = buf;
	const struct lov_mds_md_v1 *v1 = buf;
	__u32 magic;
	__u16 count;
	__u16 i;

	if (len < (int)sizeof(*v1))
		return false;

	magic = le32_to_cpu(v1->lmm_magic);
	if (magic == LOV_MAGIC_V1 || magic == LOV_MAGIC_V3)
		return le32_to_cpu(v1->lmm_pattern) & LOV_PATTERN_F_RELEASED;
	if (magic != LOV_MAGIC_COMP_V1 || len < (int)sizeof(*comp))
		return false;

	count = le16_to_cpu(comp->lcm_entry_count);
	if (len < (int)(sizeof(*comp) + count * sizeof(comp->lcm_entries[0])))
		return false;
	for (i = 0; i < count; i++) {
		__u32 off = le32_to_cpu(comp->lcm_entries[i].lcme_offset);

		if (off > len - sizeof(*v1))
			return false;
		v1 = (const struct lov_mds_md_v1 *)((const char *)buf + off);
		if (!(le32_to_cpu(v1->lmm_pattern) & LOV_PATTERN_F_RELEASED))
			return false;
	}
	return true;
}

") ++
     b2bx_RING_HELPER_ANCHOR).

Definition b2bx_add_ring (prod : string) : list R3.transform := [
  b2b_t "ring-lov-released" b2bx_RING
    b2bx_RING_LOV_OLD
    b2bx_RING_LOV_NEW
    None (Some prod);
  b2b_t "ring-lmv-incomplete" b2bx_RING
    b2bx_RING_LMV_INCOMPLETE_OLD
    b2bx_RING_LMV_INCOMPLETE_NEW
    None (Some prod);
  b2b_t "ring-lmv-incomplete" b2bx_RING
    b2bx_RING_LMV_INCOMPLETE_OLD
    b2bx_RING_LMV_INCOMPLETE_NEW
    None (Some prod);
  b2b_t "ring-lmv-foreign" b2bx_RING
    b2bx_RING_LMV_OLD
    b2bx_RING_LMV_NEW
    None (Some prod);
  b2b_t "ring-released-helper" b2bx_RING
    b2bx_RING_HELPER_ANCHOR
    b2bx_RING_HELPER
    None (Some prod)
].

Definition b2bx_LMV_CLAMP_OLD : text :=
  (lit "	stripes = __le32_to_cpu(md->lmv_stripe_count);
	room = (outlen - lmv_user_md_size(0, LMV_USER_MAGIC)) /
").

Definition b2bx_LMV_CLAMP_NEW : text :=
  (lit "	stripes = __le32_to_cpu(md->lmv_stripe_count);
	/*
	 * A count no Lustre directory can have is not a count: refused here
	 * rather than carried, because lmv_user_md_size() returns unsigned
	 * int and a count whose product with sizeof(struct lmv_user_mds_data)
	 * is a multiple of 2^32 -- 0x20000000 and its multiples -- computes
	 * back to the bare header size, so every bound built from it reads
	 * as \qthe array is there\q for an array that is not.
	 */
	if (stripes > LMV_MAX_STRIPE_COUNT)
		return 0;
	room = (outlen - lmv_user_md_size(0, LMV_USER_MAGIC)) /
").

Definition b2bx_LMV_GUARD_OLD : text :=
  (lit "			if (path == NULL && rec != NULL &&
			    rec->lfsr_lmvsize <
			    lmv_user_md_size(lum->lum_stripe_count,
					     LMV_USER_MAGIC_SPECIFIC))
				break;
").

Definition b2bx_LMV_GUARD_NEW : text :=
  (lit "			/*
			 * Measured by the bytes, not by a product that can
			 * wrap: lmv_user_md_size() is unsigned int, and a
			 * count off a device whose product with the entry
			 * size is a multiple of 2^32 computes back to the
			 * bare header and slips through a \q<\q against it.
			 */
			if (path == NULL && rec != NULL &&
			    (rec->lfsr_lmvsize <
			     lmv_user_md_size(0, LMV_USER_MAGIC_SPECIFIC) ||
			     (rec->lfsr_lmvsize -
			      lmv_user_md_size(0, LMV_USER_MAGIC_SPECIFIC)) /
			     sizeof(struct lmv_user_mds_data) <
			     lum->lum_stripe_count))
				break;
").

Definition b2bx_add_lmv (at_read : string) (at_guard : string) : list R3.transform := [
  b2b_t "lmv-count-clamp" "lustre/utils/liblustreapi_scan_device.c"
    b2bx_LMV_CLAMP_OLD
    b2bx_LMV_CLAMP_NEW
    None (Some at_read);
  b2b_t "lmv-objects-bound" "lustre/utils/liblustreapi_pfind.c"
    b2bx_LMV_GUARD_OLD
    b2bx_LMV_GUARD_NEW
    None (Some at_guard)
].

Definition b2bx_MSG_FIXES : list (string * string * text * text) := [
  ("msg-68156-otherfixes", "c02",
    (lit "Other fixes in the scanner:
"),
    (lit "The scanner is new here, so these are how it is written rather than
fixes to anything in the tree:
"));
  ("msg-68156-roottest", "c02",
    (lit "Existing callers are not affected. A hand-written root test that also
accepted a non-zero f_ver now uses it.
"),
    (lit "Existing callers are not affected; its only new caller is
scan_classify().
"));
  ("msg-68156-example", "c02",
    (lit "what 0 in lfsp_want means for a device scan. The man page example now
escapes its newline correctly.
"),
    (lit "what 0 in lfsp_want means for a device scan.
"));
  ("msg-68156-stacktrap", "c02",
    (lit "OST part for a ZFS, unreachable or older OST, and says so. The
stack_trap calls no longer pass EXIT, which is the default.
"),
    (lit "OST part for a ZFS, unreachable or older OST, and says so.
"));
  ("msg-68157-list", "c03",
    (lit "- the project id 0 is written as DEFAULT_PROJID (also 0), in the code
  and in two comments
"),
    (lit "- the project id 0 is written as DEFAULT_PROJID (also 0), in the code
  and in two comments
- \qgoto print;\q became \qgoto decide;\q, a new label in cb_find_init()
- the fp_get_lmv/fp_check_foreign block moved out of the \qif (want != 0)\q
  body to the top of find_decide(). It now also runs when want == 0 and
  on the find_foreign_accepts() arm, and comes out the same either way:
  fp_get_lmv stays 0 unless scan_rec_gather_begin() ran, and
  lfsr_valid gains LLAPI_SCAN_LMV only in scan_rec_gather_finish(),
  which that arm skips
"));
  ("msg-68158-phantom", "c04",
    (lit "- \qparam.\q becomes \qparam->\q
"),
    (lit ""));
  ("msg-68415-subject", "c09",
    (lit "LU-20649 llapi: a changelog as an Object Stream
"),
    (lit "LU-20649 llapi: llapi_scan_changelog(), a changelog as a stream
"))
].

Definition b2bx_add_msgfix (msg : string) : list R3.transform :=
  (λ x, b2b_t x.1.1.1 msg x.1.2 x.2 (Some [x.1.1.2]) (Some x.1.1.2)) <$> b2bx_MSG_FIXES.
