(* ===== verification/B2eTable.v ===== *)
(** The rows of docs/rounds/b2-0922/b2cextra.py and b2dartem.py, names prefixed with [b2c_] and
    [b2d_]. *)
From S2P Require Import Prelude PyStr R3Engine R3Table B2bTable RoundTables.
Import R3.

Definition b2c_MSG_C06 : text * text :=
  ((lit "llapi_name_validate(), so a typo is refused instead of matching
"),
   (lit "llapi_name_verify(), so a typo is refused instead of matching
")).

Definition b2c_APIH_OLD : text :=
  (lit "	 * lfs find --device, --target and --fsname: a target read directly
	 * rather than a namespace walked.  The parser has nowhere but here to
	 * put what it read; the library's find entry points look at none.
").

Definition b2c_APIH_NEW : text :=
  (lit "	 * lfs find --device, --target and --fsname: a target read directly
	 * rather than a namespace walked.  Only lfs uses these: its parser
	 * returns everything it reads in this struct.  The library ignores
	 * them.
").

Definition b2c_APIH_OLD_C07 : text :=
  (lit "	 * lfs find --device, --target, --fsname and --search: a target read
	 * directly rather than a namespace walked.  The parser has nowhere but
	 * here to put what it read; the library's find entry points look at
	 * none.
").

Definition b2c_APIH_NEW_C07 : text :=
  (lit "	 * lfs find --device, --target, --fsname and --search: a target read
	 * directly rather than a namespace walked.  Only lfs uses these: its
	 * parser returns everything it reads in this struct.  The library
	 * ignores them.
").

Definition b2c_FIND1_LOCAL_OLD : text :=
  (lit "A failure the command line caused rather than the target ends the sweep:
this build having no backend for a target's type stops it there, since
every later target of that type would fail the same way.
").

Definition b2c_FIND1_LOCAL_NEW : text :=
  (lit "So is a target this build has no scan backend for,
and one that cannot answer an option, such as an OST asked about layouts.
").

Definition b2c_FIND1_BLK_OLD : text :=
  (lit "without
.BR --device .
A disk image may not, since it cannot be told apart from a file.
").

Definition b2c_FIND1_BLK_NEW : text :=
  (lit "without
.BR --device ,
unless the device node is itself stored on Lustre:
that is a file, and is walked as before.
A disk image may not, since it cannot be told apart from a file.
").

Definition b2c_LFS_INC_OLD : text :=
  (lit "#include <sys/types.h>
#include <sys/xattr.h>
").

Definition b2c_LFS_INC_NEW : text :=
  (lit "#include <sys/types.h>
#include <sys/vfs.h>
#include <sys/xattr.h>
").

Definition b2c_LFS_BLK_OLD : text :=
  (lit "	/* any of the paths, so a second target is refused and not walked */
	for (i = pathstart; i < pathend; i++) {
		if (stat(argv[i], &st) == 0 && S_ISBLK(st.st_mode))
			return true;
	}
").

Definition b2c_LFS_BLK_NEW : text :=
  (lit "	/* any of the paths, so a second target is refused and not walked */
	for (i = pathstart; i < pathend; i++) {
		struct statfs sfs;

		if (stat(argv[i], &st) != 0 || !S_ISBLK(st.st_mode))
			continue;
		/* a device node stored on Lustre is a file, walked as before */
		if (statfs(argv[i], &sfs) == 0 && sfs.f_type == LL_SUPER_MAGIC)
			continue;
		return true;
	}
").

Definition b2c_KIND_OLD : text :=
  (lit " * disabled.  Which one a device gets is decided by what the string is: a
 * block device or an image file is ldiskfs's, anything else is read as a
 * ZFS dataset name, which never names an existing file.
").

Definition b2c_KIND_NEW : text :=
  (lit " * disabled.  scan_backend_kind() picks one from the string: a name that
 * begins with '/', or a relative block device or regular file, is
 * ldiskfs's; any other name is read as a ZFS dataset.
").

Definition b2c_DEV3_OLD : text :=
  (lit "on it in this process. The pool is exported in that second case and
exporting it again is not the answer.
").

Definition b2c_DEV3_NEW : text :=
  (lit "on it in this process. The pool is exported in that second case and
exporting it again is not the answer.
.IP
These checks are made when this process imports the pool. The pool stays
imported here while any scan in this process is open, and a new scan of it
in that time is not checked again: if a server has imported the pool since,
the new scan reads the pool as it was at the first import.
").

Definition b2c_MSG_C06_STAT : text * text :=
  ((lit "- a block device given where a directory would be; lfs_find_is_device()
  checks with stat(), and a disk image is a regular file, so it needs
  --device
"),
   (lit "- a block device given where a directory would be; lfs_find_is_device()
  checks with stat(), and a disk image is a regular file, so it needs
  --device. A block device node stored on Lustre is a file, and is
  walked as before: statfs() tells it apart
")).

Definition b2c_FIND1_NAMING_OLD : text :=
  (lit "Where more than one target is read,
a line naming each one goes to standard error ahead of its objects,
").

Definition b2c_FIND1_NAMING_NEW : text :=
  (lit "Where the sweep finds more than one target,
a line naming each one it reads goes to standard error ahead of its objects,
").

Definition b2c_ROLE_HELPER_OLD : text :=
  (lit "	return dash != NULL && (size_t)(dash - label) == strlen(fsname) &&
	       strncmp(label, fsname, dash - label) == 0;
}
").

Definition b2c_ROLE_HELPER_NEW : text :=
  (lit "	return dash != NULL && (size_t)(dash - label) == strlen(fsname) &&
	       strncmp(label, fsname, dash - label) == 0;
}

/* Is @label's role @role (\qMDT\q or \qOST\q)?  Read after the last '-' too. */
static bool lfs_find_label_is(const char *label, const char *role)
{
	const char *dash = strrchr(label, '-');

	return dash != NULL && strncmp(dash + 1, role, 3) == 0;
}
").

Definition b2c_ROLE_LOCAL_OLD : text :=
  (lit "		if (strstr(name, \q-MDT\q) == NULL &&
		    strstr(name, \q-OST\q) == NULL)
			continue;
").

Definition b2c_ROLE_LOCAL_NEW : text :=
  (lit "		if (!lfs_find_label_is(name, \qMDT\q) &&
		    !lfs_find_label_is(name, \qOST\q))
			continue;
").

Definition b2c_ROLE_SWEEP_OLD : text :=
  (lit "		    ((param->fp_obd_uuid != NULL &&
		      strstr(tgts[i].lt_name, \q-OST\q) == NULL) ||
		     (param->fp_mdt_uuid != NULL &&
		      strstr(tgts[i].lt_name, \q-MDT\q) == NULL)))
").

Definition b2c_ROLE_SWEEP_NEW : text :=
  (lit "		    ((param->fp_obd_uuid != NULL &&
		      !lfs_find_label_is(tgts[i].lt_name, \qOST\q)) ||
		     (param->fp_mdt_uuid != NULL &&
		      !lfs_find_label_is(tgts[i].lt_name, \qMDT\q))))
").

Definition b2c_STX_V1_OLD : text :=
  (lit "	memmove(&lmd_v2->lmd_lmm, &lmd_v1->lmd_lmm,
		lmdlen - (&lmd_v2->lmd_lmm - &lmd_v1->lmd_lmm));
	convert_lmd_statx(lmd_v2, &st, false);
	/*
	 * The bytes at lmd_fid are the V1 lmd_st that sat where a FID sits
	 * now -- st_dev in f_seq, the halves of st_ino in f_oid and f_ver --
	 * which reads as a plausible IGIF.
	 */
	memset(&lmd_v2->lmd_fid, 0, sizeof(lmd_v2->lmd_fid));
	lmd_v2->lmd_lmmsize = 0;
	lmd_v2->lmd_padding = 0;
").

Definition b2c_STX_V1_NEW : text :=
  (lit "	memmove(&lmd_v2->lmd_lmm, &lmd_v1->lmd_lmm,
		lmdlen - (&lmd_v2->lmd_lmm - &lmd_v1->lmd_lmm));
	/*
	 * Everything up to lmd_lmm is still the V1 lmd_st: lmd_fid would read
	 * as an IGIF and stx_mask would keep st_nlink's bits, and
	 * convert_lmd_statx() writes only the fields lstat has.
	 */
	memset(lmd_v2, 0, offsetof(typeof(*lmd_v2), lmd_lmm));
	convert_lmd_statx(lmd_v2, &st, false);
").

Definition b2c_STX_ENOTTY_OLD : text :=
  (lit "			convert_lmd_statx(lmd, &st, true);
			/*
			 * A stat answers for an object the ioctl could not,
			 * so there is no FID: what is left at lmd_fid is the
			 * name the caller wrote there for that ioctl, which
			 * reads as a plausible IGIF.  Cleared here rather
			 * than in convert_lmd_statx(), whose third caller --
			 * cb_find_init() under gather_all -- runs after the
			 * V2 ioctl has put a real FID there.
			 */
			memset(&lmd->lmd_fid, 0, sizeof(lmd->lmd_fid));
").

Definition b2c_STX_ENOTTY_NEW : text :=
  (lit "			/*
			 * A stat answers for an object the ioctl could not,
			 * and the buffer holds the name written in for that
			 * ioctl or the previous object: lmd_fid would read as
			 * an IGIF, stx_mask would keep the name's bits, and
			 * llapi_get_lum_file_fd() copies by lmd_lmmsize.
			 * Cleared here rather than in convert_lmd_statx(),
			 * whose third caller -- cb_find_init() under
			 * gather_all -- runs after the V2 ioctl has put real
			 * values there.
			 */
			memset(lmd, 0, offsetof(typeof(*lmd), lmd_lmm));
			convert_lmd_statx(lmd, &st, true);
").

Definition b2c_STX_ENOTTY_OLD_C03 : text :=
  (py_replace (lit "cb_find_init() under gather_all -- runs after the")
     (lit "find_decide() under gather_all -- runs after the")
     b2c_STX_ENOTTY_OLD).

Definition b2c_STX_ENOTTY_NEW_C03 : text :=
  (py_replace (lit "whose third caller -- cb_find_init() under")
     (lit "whose third caller -- find_decide() under")
     b2c_STX_ENOTTY_NEW).

Definition b2c_MSG_C00_STX : text * text :=
  ((lit "- For an object that is not on Lustre, lmd_fid kept an old value, so
  the record got a FID made from the file name. The two callers that
  have no FID now clear it. convert_lmd_statx() no longer clears it,
  because cb_find_init() has a real FID there.
"),
   (lit "- The two callers that have no FID clear the record up to lmd_lmm
  before the conversion. lmd_fid held a FID made from the file name,
  stx_mask kept bits from the V1 lmd_st or the name, which could set
  STATX_BTIME with no btime behind it, and lmd_lmmsize is the length
  llapi_get_lum_file_fd() copies by. convert_lmd_statx() clears
  nothing, because cb_find_init() has real values there. This takes
  in LU-20643, which was change 68340.
")).

Definition b2c_MSG_C00_FIXES : text * text :=
  ((lit "Signed-off-by: Hiroshi Nishida <hnishida@thelustrecollective.com>
"),
   (lit "Fixes: 11aa7f8704c4 (\qLU-11367 som: integrate LSOM with lfs find\q)
Signed-off-by: Hiroshi Nishida <hnishida@thelustrecollective.com>
")).

Definition b2c_MDTIDX_C01_OLD : text :=
  (lit "		/*
		 * An unstriped directory answered ENODATA, or one off Lustre
		 * answered ENOTTY: no stripe of its own either way.
		 */
").

Definition b2c_MDTIDX_C01_NEW : text :=
  ((lit "		/* --mdt cannot be answered without the index: leave it out */
		if (param->fp_mdt_uuid != NULL &&
		    !(rec.lfsr_valid & LLAPI_SCAN_MDT_INDEX))
			goto decided;

") ++
     b2c_MDTIDX_C01_OLD).

Definition b2c_MDTIDX_C03_OLD : text :=
  (lit "		} else {
			stripe_count = find_get_stripe_count(param);
		}
	}

decide:
").

Definition b2c_MDTIDX_C03_NEW : text :=
  (lit "		} else {
			stripe_count = find_get_stripe_count(param);
		}
		/* --mdt cannot be answered without the index: leave it out */
		if (param->fp_mdt_uuid != NULL &&
		    !(rec.lfsr_valid & LLAPI_SCAN_MDT_INDEX))
			goto decided;
	}

decide:
").

Definition b2c_MSG_C01_MDTIDX : text * text :=
  ((lit "- An MDT index that cannot be fetched no longer fails the object.
"),
   (lit "- An MDT index that cannot be fetched no longer fails the object.
  With --mdt, such an object is left out: it matches neither --mdt
  nor ! --mdt.
")).

Definition b2c_LI_OLD : text :=
  (lit "		case 'i':	/* starting index */
			/*
			 * A foreign LMV has no stripe offset: lfm_type is
").

Definition b2c_LI_NEW : text :=
  (lit "		case 'i':	/* starting index */
			/*
			 * A target scan builds no stub for an unstriped
			 * directory and sets fp_file_mdt_index only under
			 * --mdt: the record's own index answers, or nothing.
			 */
			if (path == NULL && rec != NULL &&
			    (lum->lum_magic == 0 ||
			     lmv_is_foreign(lum->lum_magic))) {
				if (!(rec->lfsr_valid & LLAPI_SCAN_MDT_INDEX))
					goto format_done;
				*wrote = snprintf(buffer, size, \q%d\q,
						  (int)rec->lfsr_mdt_index);
				break;
			}
			/*
			 * A foreign LMV has no stripe offset: lfm_type is
").

Definition b2c_OSTLAY_FN_OLD : text :=
  (lit "/*
 * --ost and --mdt against the target being scanned, rather than against a
").

Definition b2c_OSTLAY_FN_NEW : text :=
  ((lit "/* the options only a layout answers; not --projid, which an OST has */
static bool find_asks_layout(const struct find_param *param)
{
	return param->fp_check_pool || param->fp_check_stripe_count ||
	       param->fp_check_stripe_size || param->fp_check_layout ||
	       param->fp_check_comp_count || param->fp_check_comp_end ||
	       param->fp_check_comp_start || param->fp_check_comp_flags ||
	       param->fp_check_mirror_count || param->fp_check_foreign ||
	       param->fp_check_mirror_state || param->fp_check_ext_size;
}

") ++
     b2c_OSTLAY_FN_OLD).

Definition b2c_OSTLAY_CALL_OLD : text :=
  (lit "		if (param->fp_mdt_uuid != NULL)
			param->fp_file_mdt_index = (int)tgt.tt_index;
	}
").

Definition b2c_OSTLAY_CALL_NEW : text :=
  (b2c_OSTLAY_CALL_OLD ++
     (lit "
	/*
	 * An OST object has no layout, so these would be compared against a
	 * default that was never read.  A target the probe cannot name is
	 * left to answer as before.
	 */
	if (find_asks_layout(param)) {
		if (param->fp_obd_uuid == NULL && param->fp_mdt_uuid == NULL &&
		    scan_device_target(target, &tgt) != 0)
			tgt.tt_flags = 0;
		if (tgt.tt_flags & LLAPI_SCAN_TGT_OST) {
			llapi_error(LLAPI_MSG_ERROR | LLAPI_MSG_NO_ERRNO,
				    -ENOTSUP,
				    \qthe layout options need an MDT; '%s' is an OST, whose objects carry no layout\q,
				    tgt.tt_label);
			rc = -ENOTSUP;
			goto out;
		}
	}
")).

Definition b2c_OSTLAY_PROBE_C05 : text :=
  (lit "		    scan_device_target(target, &tgt) != 0)
").

Definition b2c_OSTLAY_PROBE_C07 : text :=
  (lit "		    scan_device_target(target, spl.lfsp_search, &tgt) != 0)
").

Definition b2c_MSG_C05_OSTLAY : text * text :=
  ((lit "and --ost over an MDT asks about layouts, not about the target.
"),
   (lit "and --ost over an MDT asks about layouts, not about the target. The
layout options over an OST are refused for the same reason: an OST
object has no layout, so they would compare a default never read.
")).

Definition b2c_T157D_OLD : text :=
  (lit "	# -u puts the read on llapi_changelog_start_user(), which is the
	# path that sets the server-side filter; without it the binary
	# never exercises that call at all
	llapi_scan_changelog_test -m $(facet_svc mds1) -d $MOUNT \\
		-u $cl_user || error \qllapi_scan_changelog_test failed\q
").

Definition b2c_T157D_NEW : text :=
  (lit "	# test9 filters on the server, with a key the MDS has only from
	# 2.17.0 (LU-19296); test6 sees a clear purge the log only when no
	# other changelog user holds it back.  Either skips that case alone.
	local users=$(do_facet mds1 $LCTL get_param -n \\
		mdd.$(facet_svc mds1).changelog_users | grep -c \q^cl\q)
	local skip=\q\q

	(( MDS1_VERSION >= $(version_code 2.17.50) )) || skip=\q9\q
	(( users <= 1 )) || skip=\q${skip:+$skip,}6\q

	# -u puts the read on llapi_changelog_start_user(), which is the
	# path that sets the server-side filter; without it the binary
	# never exercises that call at all
	llapi_scan_changelog_test -m $(facet_svc mds1) -d $MOUNT \\
		-u $cl_user ${skip:+-e $skip} ||
		error \qllapi_scan_changelog_test failed\q
").

Definition b2c_CLSIZE_OLD : text :=
  (lit "	if (sc->sc_size < LLAPI_SCAN_CL_PARAM_MIN_SIZE)
		return -EINVAL;
").

Definition b2c_CLSIZE_NEW : text :=
  (lit "	if (sc->sc_size < LLAPI_SCAN_CL_PARAM_MIN_SIZE ||
	    sc->sc_size > LLAPI_SCAN_PARAM_MAX_SIZE)
		return -EINVAL;
").

Definition b2c_CLSTATS_OLD : text :=
  (lit "		if (room > sizeof(sl->sl_stats))
			room = sizeof(sl->sl_stats);
		memcpy(scl.sc_stats, &sl->sl_stats, room);
").

Definition b2c_CLSTATS_NEW : text :=
  (lit "		if (room > sizeof(sl->sl_stats))
			room = sizeof(sl->sl_stats);
		/* a whole counter, never half of one */
		room = scan_stats_whole(room);
		memcpy(scl.sc_stats, &sl->sl_stats, room);
").

Definition b2c_SWEEP_CODE_OLD : text :=
  (lit "			if (ret == 0)
				ret = rc;
			if (rc == -ENOTSUP)
				break;
").

Definition b2c_SWEEP_CODE_NEW : text :=
  (lit "			if (ret == 0)
				ret = rc;
").

Definition b2c_SWEEP_CMT_OLD : text :=
  (lit " * A sweep skips the targets --ost or --mdt cannot name.  After that, ENOTSUP
 * ends the sweep: a predicate a target scan cannot answer is a property of
 * the command line, and would fail the same way for every remaining target.
").

Definition b2c_SWEEP_CMT_NEW : text :=
  (lit " * A sweep skips the targets --ost or --mdt cannot name.  ENOTSUP does not
 * end it: an OST cannot answer everything an MDT can, and a node may serve
 * a kind of target this build has no backend for.
").

Definition b2c_MSG_C06_SWEEP : text * text :=
  ((lit "the targets of the other type, which those options cannot name. After
that, ENOTSUP ends the sweep: it comes from the command line, and would
fail the same way for every remaining target.
"),
   (lit "the targets of the other type, which those options cannot name.
ENOTSUP does not end a sweep either: an OST cannot answer everything an
MDT can, and a node may serve a kind of target this build cannot read.
")).

Definition b2c_add (msg : string) : list R3.transform := [
  b2b_t "c00-stx-v1" "lustre/utils/liblustreapi_pfind.c"
    b2c_STX_V1_OLD
    b2c_STX_V1_NEW
    None (Some "c00");
  b2b_t "c00-stx-enotty" "lustre/utils/liblustreapi_pfind.c"
    b2c_STX_ENOTTY_OLD
    b2c_STX_ENOTTY_NEW
    None (Some "c00");
  b2b_t "c03-stx-enotty" "lustre/utils/liblustreapi_pfind.c"
    b2c_STX_ENOTTY_OLD_C03
    b2c_STX_ENOTTY_NEW_C03
    None (Some "c03");
  b2b_t "c00-msg-stx" msg
    b2c_MSG_C00_STX.1
    b2c_MSG_C00_STX.2
    None (Some "c00");
  b2b_t "c00-msg-fixes" msg
    b2c_MSG_C00_FIXES.1
    b2c_MSG_C00_FIXES.2
    (Some ["c00"]) (Some "c00");
  b2b_t "c01-mdtidx" "lustre/utils/liblustreapi_pfind.c"
    b2c_MDTIDX_C01_OLD
    b2c_MDTIDX_C01_NEW
    None (Some "c01");
  b2b_t "c03-mdtidx" "lustre/utils/liblustreapi_pfind.c"
    b2c_MDTIDX_C03_OLD
    b2c_MDTIDX_C03_NEW
    None (Some "c03");
  b2b_t "c01-msg-mdtidx" msg
    b2c_MSG_C01_MDTIDX.1
    b2c_MSG_C01_MDTIDX.2
    None (Some "c01");
  b2b_t "c05-li" "lustre/utils/liblustreapi_pfind.c"
    b2c_LI_OLD
    b2c_LI_NEW
    None (Some "c05");
  b2b_t "c05-ostlay-fn" "lustre/utils/liblustreapi_pfind.c"
    b2c_OSTLAY_FN_OLD
    b2c_OSTLAY_FN_NEW
    None (Some "c05");
  b2b_t "c05-ostlay-call" "lustre/utils/liblustreapi_pfind.c"
    b2c_OSTLAY_CALL_OLD
    b2c_OSTLAY_CALL_NEW
    None (Some "c05");
  b2b_t "c07-ostlay-probe" "lustre/utils/liblustreapi_pfind.c"
    b2c_OSTLAY_PROBE_C05
    b2c_OSTLAY_PROBE_C07
    None (Some "c07");
  b2b_t "c05-msg-ostlay" msg
    b2c_MSG_C05_OSTLAY.1
    b2c_MSG_C05_OSTLAY.2
    None (Some "c05");
  b2b_t "c09-157d-gate" "lustre/tests/sanity.sh"
    b2c_T157D_OLD
    b2c_T157D_NEW
    None (Some "c09");
  b2b_t "c09-clsize" "lustre/utils/liblustreapi_scan_changelog.c"
    b2c_CLSIZE_OLD
    b2c_CLSIZE_NEW
    None (Some "c09");
  b2b_t "c09-clstats" "lustre/utils/liblustreapi_scan_changelog.c"
    b2c_CLSTATS_OLD
    b2c_CLSTATS_NEW
    None (Some "c09");
  b2b_t "c06-sweep-code" "lustre/utils/lfs.c"
    b2c_SWEEP_CODE_OLD
    b2c_SWEEP_CODE_NEW
    None (Some "c06");
  b2b_t "c06-sweep-cmt" "lustre/utils/lfs.c"
    b2c_SWEEP_CMT_OLD
    b2c_SWEEP_CMT_NEW
    None (Some "c06");
  b2b_t "c06-msg-sweep" msg
    b2c_MSG_C06_SWEEP.1
    b2c_MSG_C06_SWEEP.2
    None (Some "c06");
  b2b_t "c06-msg-verify" msg
    b2c_MSG_C06.1
    b2c_MSG_C06.2
    None (Some "c06");
  b2b_t "c06-msg-stat" msg
    b2c_MSG_C06_STAT.1
    b2c_MSG_C06_STAT.2
    None (Some "c06");
  b2b_t "c06-find1-naming" "Documentation/man1/lfs-find.1"
    b2c_FIND1_NAMING_OLD
    b2c_FIND1_NAMING_NEW
    None (Some "c06");
  b2b_t "c06-apih-comment" "include/lustre/lustreapi.h"
    b2c_APIH_OLD
    b2c_APIH_NEW
    None (Some "c06");
  b2b_t "c07-apih-comment" "include/lustre/lustreapi.h"
    b2c_APIH_OLD_C07
    b2c_APIH_NEW_C07
    None (Some "c07");
  b2b_t "c06-find1-local" "Documentation/man1/lfs-find.1"
    b2c_FIND1_LOCAL_OLD
    b2c_FIND1_LOCAL_NEW
    None (Some "c06");
  b2b_t "c06-find1-blk" "Documentation/man1/lfs-find.1"
    b2c_FIND1_BLK_OLD
    b2c_FIND1_BLK_NEW
    None (Some "c06");
  b2b_t "c06-lfs-inc" "lustre/utils/lfs.c"
    b2c_LFS_INC_OLD
    b2c_LFS_INC_NEW
    None (Some "c06");
  b2b_t "c06-lfs-blk" "lustre/utils/lfs.c"
    b2c_LFS_BLK_OLD
    b2c_LFS_BLK_NEW
    None (Some "c06");
  b2b_t "c06-role-helper" "lustre/utils/lfs.c"
    b2c_ROLE_HELPER_OLD
    b2c_ROLE_HELPER_NEW
    None (Some "c06");
  b2b_t "c06-role-local" "lustre/utils/lfs.c"
    b2c_ROLE_LOCAL_OLD
    b2c_ROLE_LOCAL_NEW
    None (Some "c06");
  b2b_t "c06-role-sweep" "lustre/utils/lfs.c"
    b2c_ROLE_SWEEP_OLD
    b2c_ROLE_SWEEP_NEW
    None (Some "c06");
  b2b_t "c07-kind-comment" "lustre/utils/liblustreapi_scan_device.c"
    b2c_KIND_OLD
    b2c_KIND_NEW
    None (Some "c07");
  b2b_t "c07-dev3-nested" "Documentation/man3/llapi_scan_device.3"
    b2c_DEV3_OLD
    b2c_DEV3_NEW
    None (Some "c07")
].

Definition b2d_DEV : string := "lustre/utils/liblustreapi_scan_device.c".

Definition b2d_PFIND : string := "lustre/utils/liblustreapi_pfind.c".

Definition b2d_DEV3 : string := "Documentation/man3/llapi_scan_device.3".

Definition b2d_WANT_CMT_OLD : text :=
  (lit " * The xattrs a demand mask implies.  trusted.lma is always read: an object
 * without it has no FID and no class.  A size needs two, trusted.lov to say
 * whether the object's own size is the file's and trusted.som to answer when
 * it is not.
 */
static __u32 scan_want_xattr(__u64 want)
{
	__u32 xa = LLAPI_SCAN_XA_BIT(LLAPI_SCAN_XA_LMA);
").

Definition b2d_WANT_CMT_NEW : text :=
  (lit " * The xattrs a demand mask implies.  trusted.lma and trusted.link are always
 * read: an object without an LMA has no FID and no class, and on an MDT one
 * with a namespace FID but no link is the target's own and not a file's --
 * see scan_classify().  A size needs two, trusted.lov to say whether the
 * object's own size is the file's and trusted.som to answer when it is not.
 */
static __u32 scan_want_xattr(__u64 want)
{
	__u32 xa = LLAPI_SCAN_XA_BIT(LLAPI_SCAN_XA_LMA) |
		   LLAPI_SCAN_XA_BIT(LLAPI_SCAN_XA_LINK);
").

Definition b2d_WANT_LINK_OLD : text :=
  (lit "	if (want & (LLAPI_SCAN_LINKEA | LLAPI_SCAN_PARENT))
		xa |= LLAPI_SCAN_XA_BIT(LLAPI_SCAN_XA_LINK);
").

Definition b2d_WANT_LINK_NEW : text :=
  (lit "").

Definition b2d_HASLINK_ANCHOR : text :=
  (lit "	*len = obj->so_xattr[x].sv_len;
	return obj->so_xattr[x].sv_buf;
}
").

Definition b2d_HASLINK_C02 : text :=
  (b2d_HASLINK_ANCHOR ++
     (lit "
/* Whether the object has a trusted.link, as every name in the namespace does */
static bool scan_has_link(const struct llapi_scan_obj *obj)
{
	size_t len;

	return scan_xattr(obj, LLAPI_SCAN_XA_LINK, &len) != NULL;
}
")).

Definition b2d_HASLINK_BODY_C02 : text :=
  (lit "	size_t len;

	return scan_xattr(obj, LLAPI_SCAN_XA_LINK, &len) != NULL;
}
").

Definition b2d_HASLINK_BODY_C22 : text :=
  (lit "	/* not read is not absent: an object read in part keeps its class */
	if (obj->so_valid & LLAPI_SCAN_SO_XA_PARTIAL)
		return true;
	/* presence: the ring carries a link too big for it as presence only */
	return obj->so_xa_present & LLAPI_SCAN_XA_BIT(LLAPI_SCAN_XA_LINK);
}
").

Definition b2d_CLS_HDR_OLD : text :=
  (lit " * without an LMA: reconstructing one is LFSCK's job.
 */
static enum llapi_scan_class scan_classify(const struct lustre_mdt_attrs *lma,
					   bool have_lma)
").

Definition b2d_CLS_HDR_NEW : text :=
  (lit " * without an LMA: reconstructing one is LFSCK's job.
 *
 * fid_is_namespace_visible() goes by the FID alone, which is not enough on
 * an MDT: the target's own files outside ROOT -- CONFIGS/mountdata with an
 * IGIF, the update logs with a normal FID -- pass it.  What they lack is a
 * name in the namespace, so an MDT object with such a FID and no trusted.link
 * is the target's own.  So is a file from before linkEA (2.4) that LFSCK has
 * not given one yet: it is reachable, but nothing on the target says so.
 */
static enum llapi_scan_class scan_classify(const struct lustre_mdt_attrs *lma,
					   bool have_lma, bool mdt,
					   bool have_link)
").

Definition b2d_CLS_BODY_OLD : text :=
  (lit "	if (fid_seq_is_norm(seq) || fid_seq_is_igif(seq) ||
	    fid_is_root(&lma->lma_self_fid) ||
	    fid_seq_is_dot(seq))
		return LLAPI_SCAN_CLS_VISIBLE;
").

Definition b2d_CLS_BODY_NEW : text :=
  (lit "	if (fid_is_root(&lma->lma_self_fid) || fid_seq_is_dot(seq))
		return LLAPI_SCAN_CLS_VISIBLE;
	if (fid_seq_is_norm(seq) || fid_seq_is_igif(seq))
		return mdt && !have_link ? LLAPI_SCAN_CLS_INTERNAL :
					   LLAPI_SCAN_CLS_VISIBLE;
").

Definition b2d_CLS_CALL_OLD : text :=
  (lit "	cls = scan_classify(&lma, have_lma);
").

Definition b2d_CLS_CALL_NEW : text :=
  (lit "	cls = scan_classify(&lma, have_lma,
			    dev->sd_tgt_info.tt_flags & LLAPI_SCAN_TGT_MDT,
			    scan_has_link(obj));
").

Definition b2d_LINKEA_OLD : text :=
  (lit "	scan_linkea(obj, w->sw_name, sizeof(w->sw_name), &rec);
").

Definition b2d_LINKEA_NEW : text :=
  (lit "	if (dev->sd_want & (LLAPI_SCAN_LINKEA | LLAPI_SCAN_PARENT))
		scan_linkea(obj, w->sw_name, sizeof(w->sw_name), &rec);
").

Definition b2d_DOMFN_OLD : text :=
  (lit "		if (!(__le32_to_cpu(v1->lmm_pattern) & LOV_PATTERN_F_RELEASED))
			return false;
	}
	return true;
}

/*
 * Size and blocks.  The object's own size is the file's only when the file
 * has no layout, or HSM has released it; trusted.som answers otherwise, and
 * answers lazily, which is what LLAPI_SCAN_LAZY_SIZE already means.
 */
").

Definition b2d_DOMFN_NEW : text :=
  (lit "		if (!(__le32_to_cpu(v1->lmm_pattern) & LOV_PATTERN_F_RELEASED))
			return false;
	}
	return true;
}

/*
 * Whether every instantiated component is on the MDT, as
 * mdt_lmm_dom_entry_check() decides for is_dom_only: then the MDT inode
 * holds the data, the MDT keeps no SOM for it (mdt_som.c), and the inode's
 * own size is the file's.  The bytes are raw from the target.
 */
static bool scan_lov_dom_only(const void *buf, size_t len)
{
	const struct lov_comp_md_v1 *comp = buf;
	const struct lov_user_md_v1 *v1;
	bool dom = false;
	__u16 count;
	__u16 i;

	if (len < sizeof(*comp) ||
	    __le32_to_cpu(comp->lcm_magic) != LOV_MAGIC_COMP_V1)
		return false;

	count = __le16_to_cpu(comp->lcm_entry_count);
	if (len < sizeof(*comp) + count * sizeof(comp->lcm_entries[0]))
		return false;
	for (i = 0; i < count; i++) {
		const struct lov_comp_md_entry_v1 *e = &comp->lcm_entries[i];
		__u32 off = __le32_to_cpu(e->lcme_offset);

		if (!(__le32_to_cpu(e->lcme_flags) & LCME_FL_INIT))
			continue;
		if (off > len - sizeof(*v1))
			return false;
		v1 = (const struct lov_user_md_v1 *)((const char *)buf + off);
		if (!(__le32_to_cpu(v1->lmm_pattern) & LOV_PATTERN_MDT))
			return false;
		dom = true;
	}
	return dom;
}

/*
 * Size and blocks.  The object's own size is the file's when the file has
 * no layout, HSM has released it, or all its data is on the MDT; trusted.som
 * answers otherwise, and answers lazily, which is what LLAPI_SCAN_LAZY_SIZE
 * already means.
 */
").

Definition b2d_DOMSIZE_OLD : text :=
  (lit "		return;
	}

	som = scan_xattr(obj, LLAPI_SCAN_XA_SOM, &len);
").

Definition b2d_DOMSIZE_NEW : text :=
  (lit "		return;
	}
	/* Data-on-MDT only: the inode is the data, as an OST object is */
	if (lov != NULL && scan_lov_dom_only(lov, len)) {
		rec->lfsr_stx.stx_size = obj->so_size;
		rec->lfsr_stx.stx_blocks = obj->so_blocks;
		rec->lfsr_stx.stx_mask |= STATX_SIZE | STATX_BLOCKS;
		return;
	}

	som = scan_xattr(obj, LLAPI_SCAN_XA_SOM, &len);
").

Definition b2d_MAN_DOM_OLD : text :=
  (lit "A data\\-on\\-MDT file is not one of those. Its layout is a composite one held
in
.BR trusted.lov ,
so it takes the size\\-on\\-MDT path like any other file with a layout, and
with no
.B trusted.som
written for it neither bit is set. The object's own size is the file's only
while the file fits inside the DoM component, which is a question the scan
leaves to the consumer: the layout is in
.I lfsr_lmm
for one that wants to answer it.
").

Definition b2d_MAN_DOM_NEW : text :=
  (lit "A data\\-on\\-MDT file whose instantiated components are all on the MDT is
one of those too: the inode holds the data, as an OST object does, and the
MDT keeps no
.B trusted.som
for it. Its size and blocks are the object's own and
.B LLAPI_SCAN_SIZE
and
.B LLAPI_SCAN_BLOCKS
are set, which is the test
.BR mdt_lmm_dom_entry_check ()
applies to the same file. One that has instantiated an OST component as well
takes the size\\-on\\-MDT path like any other file with a layout.
").

Definition b2d_MAN_CLS_OLD : text :=
  (lit "counter, or its sequence is not one the namespace uses.
.TP
").

Definition b2d_MAN_CLS_NEW : text :=
  (lit "counter, or its sequence is not one the namespace uses.
On an MDT, so is an object whose FID the namespace would use but which has no
.BR trusted.link :
the target's own files outside ROOT, such as
.I CONFIGS/mountdata
and the update logs, carry such FIDs and no name.
A file from before linkEA (Lustre 2.4) that LFSCK has not yet given one is
counted here too, having nothing on the target to say it is reachable.
.TP
").

Definition b2d_MAN_VIS_OLD : text :=
  (lit "pseudo\\-directory and what is under it. Their FIDs are the ones
.BR fid_is_namespace_visible ()
accepts, which is the test the MDT applies to the same question.
").

Definition b2d_MAN_VIS_NEW : text :=
  (lit "pseudo\\-directory and what is under it.
.BR fid_is_namespace_visible ()
accepts their FIDs, which is the MDT's own test; the scan adds the
.B trusted.link
one above, since that test passes the target's own files as well.
").

Definition b2d_DECL_OLD : text :=
  (lit "	bool no_projid = false;	/* the object has none, not one that is 0 */
	int decision = 1;	/* 1 is accepted; -1 is rejected. */
	int ret = 0;
	__u64 flags;
").

Definition b2d_DECL_NEW : text :=
  (lit "	bool no_projid = false;	/* the object has none, not one that is 0 */
	int decision = 1;	/* 1 is accepted; -1 is rejected. */
	bool size_elsewhere;
	int ret = 0;
	__u64 flags;
").

Definition b2d_SIZE_OLD : text :=
  (lit "	flags = param->fp_lmd->lmd_flags;
	if (param->fp_check_size &&
	    ((S_ISREG(lmd->lmd_stx.stx_mode) && stripe_count) ||
	      S_ISDIR(lmd->lmd_stx.stx_mode)) &&
	    !(flags & OBD_MD_FLSIZE ||
	      (param->fp_lazy && flags & OBD_MD_FLLAZYSIZE)))
		decision = 0;

	if (param->fp_check_blocks &&
	    ((S_ISREG(lmd->lmd_stx.stx_mode) && stripe_count) ||
	      S_ISDIR(lmd->lmd_stx.stx_mode)) &&
").

Definition b2d_SIZE_NEW : text :=
  (lit "	flags = param->fp_lmd->lmd_flags;
	/*
	 * A walk knows a size is elsewhere from the stripes it read.  A scan
	 * of a target has only what the scan reported, so a size it left out
	 * is undecided whatever the layout says: a file whose layout does not
	 * parse, or one the scanner has no answer for, has a stripe count of
	 * 0 too, and its stx_size is not a size.
	 */
	size_elsewhere = path == NULL || S_ISDIR(lmd->lmd_stx.stx_mode) ||
			 (S_ISREG(lmd->lmd_stx.stx_mode) && stripe_count);
	if (param->fp_check_size && size_elsewhere &&
	    !(flags & OBD_MD_FLSIZE ||
	      (param->fp_lazy && flags & OBD_MD_FLLAZYSIZE)))
		decision = 0;

	if (param->fp_check_blocks && size_elsewhere &&
").

Definition b2d_SOB : text :=
  (lit "Signed-off-by: Hiroshi Nishida <hnishida@thelustrecollective.com>
").

Definition b2d_SOB_ARTEM : text :=
  (lit "Signed-off-by: Artem Blagodarenko <ablagodarenko@thelustrecollective.com>
").

Definition b2d_MSG_C02_OLD : text :=
  ((lit "the scanner is missing, because that is a broken install. It skips the
OST part for a ZFS, unreachable or older OST, and says so.

") ++
     b2d_SOB).

Definition b2d_MSG_C02_NEW : text :=
  (((lit "the scanner is missing, because that is a broken install. It skips the
OST part for a ZFS, unreachable or older OST, and says so.

Two fixes by Artem Blagodarenko, found by a scan of a new filesystem:
- On an MDT, an object with a namespace FID but no trusted.link is the
  target's own, like CONFIGS/mountdata and the update logs, and is
  classified internal. trusted.link is read for every object so that
  its absence means absent. A pre-2.4 file that LFSCK has not given a
  link yet is counted internal too.
- A Data-on-MDT file whose instantiated components are all on the MDT
  gets its inode's size and blocks, as mdt_lmm_dom_entry_check() decides.
  Before, it got no size at all.

") ++
     b2d_SOB) ++
     b2d_SOB_ARTEM).

Definition b2d_MSG_C05_OLD : text :=
  ((lit "is the id, and there is no field for the rest. Building one from the
id alone would be a FID that names a different object.

") ++
     b2d_SOB).

Definition b2d_MSG_C05_NEW : text :=
  (((lit "is the id, and there is no field for the rest. Building one from the
id alone would be a FID that names a different object.

A size the scan did not report is undecided for -size and -blocks,
whatever the layout says: a Data-on-MDT file's stripe count is 0, so
it would otherwise be decided on a stx_size the scan never reported.
The fix is Artem Blagodarenko's.

") ++
     b2d_SOB) ++
     b2d_SOB_ARTEM).

Definition b2d_add (msg : string) : list R3.transform := [
  b2b_t "artem-want-cmt" b2d_DEV
    b2d_WANT_CMT_OLD
    b2d_WANT_CMT_NEW
    None (Some "c02");
  b2b_t "artem-want-link" b2d_DEV
    b2d_WANT_LINK_OLD
    b2d_WANT_LINK_NEW
    None (Some "c02");
  b2b_t "artem-haslink" b2d_DEV
    b2d_HASLINK_ANCHOR
    b2d_HASLINK_C02
    None (Some "c02");
  b2b_t "artem-haslink-c22" b2d_DEV
    b2d_HASLINK_BODY_C02
    b2d_HASLINK_BODY_C22
    None (Some "c22");
  b2b_t "artem-cls-hdr" b2d_DEV
    b2d_CLS_HDR_OLD
    b2d_CLS_HDR_NEW
    None (Some "c02");
  b2b_t "artem-cls-body" b2d_DEV
    b2d_CLS_BODY_OLD
    b2d_CLS_BODY_NEW
    None (Some "c02");
  b2b_t "artem-cls-call" b2d_DEV
    b2d_CLS_CALL_OLD
    b2d_CLS_CALL_NEW
    None (Some "c02");
  b2b_t "artem-linkea" b2d_DEV
    b2d_LINKEA_OLD
    b2d_LINKEA_NEW
    None (Some "c02");
  b2b_t "artem-domfn" b2d_DEV
    b2d_DOMFN_OLD
    b2d_DOMFN_NEW
    None (Some "c02");
  b2b_t "artem-domsize" b2d_DEV
    b2d_DOMSIZE_OLD
    b2d_DOMSIZE_NEW
    None (Some "c02");
  b2b_t "artem-man-dom" b2d_DEV3
    b2d_MAN_DOM_OLD
    b2d_MAN_DOM_NEW
    None (Some "c02");
  b2b_t "artem-man-cls" b2d_DEV3
    b2d_MAN_CLS_OLD
    b2d_MAN_CLS_NEW
    None (Some "c02");
  b2b_t "artem-man-vis" b2d_DEV3
    b2d_MAN_VIS_OLD
    b2d_MAN_VIS_NEW
    None (Some "c02");
  b2b_t "artem-decl" b2d_PFIND
    b2d_DECL_OLD
    b2d_DECL_NEW
    None (Some "c05");
  b2b_t "artem-size" b2d_PFIND
    b2d_SIZE_OLD
    b2d_SIZE_NEW
    None (Some "c05");
  b2b_t "artem-msg-c02" msg
    b2d_MSG_C02_OLD
    b2d_MSG_C02_NEW
    None (Some "c02");
  b2b_t "artem-msg-c05" msg
    b2d_MSG_C05_OLD
    b2d_MSG_C05_NEW
    None (Some "c05")
].

(** The rows of docs/rounds/b2-0922/b2eminor.py, names prefixed with [b2e_], and the table of
    the round as b2bfix.py puts it together. *)

Definition b2e_PFIND : string := "lustre/utils/liblustreapi_pfind.c".

Definition b2e_MSG_C00_MAX : text * text :=
  ((lit "  Bytes past this library's definition must be zero, up to
  LLAPI_SCAN_PARAM_MAX_SIZE (4096 bytes). Only whole fields are
"),
   (lit "  Bytes past this library's definition must be zero, up to 4096
  bytes. Only whole fields are
")).

Definition b2e_MSG_C00_NEW : text * text :=
  ((lit "- llapi_scan_get_lmv() also clears lum_pool_name, which kept the
  previous directory's value.
- A foreign directory's LMV is not changed. Writing the MDT index at
  offset 8 overwrote the foreign type.
- STATX_INO is added to LLAPI_SCAN_MDT_MASK. Asked for alone, it came
  back as zero with its bit clear.
- LLAPI_SCAN_LMV_FOREIGN asked for alone now also fetches the LMV.
"),
   (lit "
In the new code: llapi_scan_get_lmv() clears lum_pool_name, so it
never keeps the previous directory's value, and leaves a foreign
directory's LMV alone, since its type is where the MDT index would be
written. STATX_INO is in LLAPI_SCAN_MDT_MASK, because only the ioctl
answers it. LLAPI_SCAN_LMV_FOREIGN asked for alone fetches the LMV.
")).

Definition b2e_MSG_C00_TESTS : text * text :=
  ((lit "test10 scans a tree that is not Lustre: the stat fields are set, and
FID, layout, LMV, MDT index and HSM are clear. It skips itself when
the tree is on Lustre.
"),
   (lit "lustre/tests/llapi_scan_test.c is new, and sanity test_157c runs it.
Tests 0-9 cover every object once at any thread count, the depth
limit, a consumer stopping the scan, the demand mask, the filter, bad
arguments, the project id, the HSM state and the layout. test10 scans
a tree that is not Lustre: the stat fields are set, and FID, layout,
LMV, MDT index and HSM are clear. It skips itself when the tree is on
Lustre.
")).

Definition b2e_SCANC_OLD : text :=
  (lit "	/*
	 * fp_lmd is one buffer for the whole scan, and the lstat() fallback
	 * builds lmd_stx field by field rather than replacing it, so
	 * STATX_BTIME in stx_mask and a non-zero stx_attributes_mask would
	 * otherwise survive from the previous object and be reported as this
	 * one's.  An object off Lustre keeps its record --
	 * llapi_scan_get_lmv() lets ENOTTY through on purpose -- so this is
	 * reached whenever a scan crosses onto a non-Lustre subtree.
	 * lmd_fid needs no clear here: the fallback in get_lmd_info_fd()
	 * clears it beside its own convert_lmd_statx() call.
	 */
").

Definition b2e_SCANC_NEW : text :=
  (lit "	/*
	 * fp_lmd is one buffer for the whole scan.  get_lmd_info_fd() fills
	 * or clears lmd_stx on every path it takes; this is the cheap
	 * guarantee that nothing of the previous object's is left if a later
	 * change adds one that does not.
	 */
").

Definition b2e_INTH_OLD : text :=
  (lit " * to reach the MDT.  LLAPI_SCAN_STATX_MASK promises the whole low half,
 * named or not, so asking for it is legal and used to return zero with
 * the bit clear.
").

Definition b2e_INTH_NEW : text :=
  (lit " * to reach the MDT.  LLAPI_SCAN_STATX_MASK promises the whole low half,
 * named or not, so asking for it alone is legal.
").

Definition b2e_MAN_HLD_OLD : text :=
  (lit "names it and the filesystem supports project quotas. This is the HLD's POSIX Input
Scanner: the same traversal with a different attribute source, rather than a
second scanner.
").

Definition b2e_MAN_HLD_NEW : text :=
  (lit "names it and the filesystem supports project quotas. It is the same walk with
.BR stat (2)
as the attribute source, not a second scanner.
").

Definition b2e_MAN_RET_OLD : text :=
  (lit "a negative errno on failure, or the value
.I lfsp_filter
returned to stop the scan, passed back unchanged.").

Definition b2e_MAN_RET_NEW : text :=
  (lit "a negative errno on failure, or the negative value
.I cb
or
.I lfsp_filter
returned to stop the scan, passed back unchanged.").

Definition b2e_TEST400_OLD : text :=
  (lit "	ASSERTF(res.res_gathered == res.res_count,
").

Definition b2e_TEST400_NEW : text :=
  (lit "	/* each delivered record passed the filter, and was gathered after */
	ASSERTF(res.res_gathered == res.res_count,
").

Definition b2e_MSG_C01_FIXES : text * text :=
  ((lit "Fixes: 3dad616e09fc (\qLU-4017 quota: add project id support to lfs find\q)
"),
   (lit "Fixes: 3dad616e09fc (\qLU-4017 quota: add project id support to lfs find\q)
Fixes: 501e5b2c8a47 (\qLU-18027 lfs: lfs find handling special files\q)
")).

Definition b2e_MSG_C02_LSTDDEF : text * text :=
  ((lit "OST part for a ZFS, unreachable or older OST, and says so.

Two fixes by Artem Blagodarenko"),
   (lit "OST part for a ZFS, unreachable or older OST, and says so.

lustreapi_internal.h no longer includes lstddef.h: nothing in it uses
ARRAY_SIZE any more, and the include reached 27 files.

Two fixes by Artem Blagodarenko")).

Definition b2e_BLANK2_OLD : text :=
  (lit "#include <linux/lustre/lustre_kernelcomm.h>


#include <lustre/lustreapi.h>
").

Definition b2e_BLANK2_NEW : text :=
  (lit "#include <linux/lustre/lustre_kernelcomm.h>

#include <lustre/lustreapi.h>
").

Definition b2e_MSG_C05_IGIF : text * text :=
  ((lit "An MDT object with no trusted.lma keeps obj:ID for the same kind of
reason, from the other direction: an IGIF is the inode number and its
generation, and the record carries no generation -- lfsr_stx.stx_ino
is the id, and there is no field for the rest. Building one from the
id alone would be a FID that names a different object.
"),
   (lit "An MDT object with no trusted.lma keeps obj:ID unless it is on
MDT0000, where its IGIF is built from the inode number and generation,
as osd_scrub.c does. Elsewhere there is nothing to build a FID from:
an IGIF belongs to MDT0000 only, and a ZFS object id is wider than an
IGIF holds.
")).

Definition b2e_NULLCMT_OLD : text :=
  (lit " * find_get_projid() is what tests fc_path today; setup_target_indexes(),
 * find_check_xattrs(), the lstat_f() arm and the printing still take it
 * unconditionally, and reach llistxattr(NULL) and lstat(NULL) if it is not
 * there.  Nothing passes NULL to those yet -- a target scan is decided
 * before them -- and the caller that does will have to guard them, so this
 * says which steps are covered rather than claiming they all are.
").

Definition b2e_NULLCMT_NEW : text :=
  (lit " * A target scan passes no path.  find_get_projid() tests fc_path itself,
 * and the other steps that take it are kept from NULL elsewhere: --xattr is
 * refused before the scan, setup_target_indexes() runs only where
 * lustre_fs is set, which a scan leaves 0, the stat arm counts the object
 * undecided when there is no path, descriptor or dirent, and the printing
 * tests the path where it needs one.
").

Definition b2e_DEV : string := "lustre/utils/liblustreapi_scan_device.c".

Definition b2e_MAN3FD : string := "Documentation/man3/llapi_find_device.3".

Definition b2e_KINDTAIL_OLD : text :=
  (lit "	 * named \qpool/dataset\q and is not a path.  A name that begins with a
	 * slash never reaches here -- the test above takes it, and
	 * scan_device_exists() has already answered -errno for one that does
	 * not exist, which is what keeps \qlfs find --device /dev/sdb99\q from
	 * being reported as a missing ZFS backend on a node that has no ZFS.
	 */
").

Definition b2e_KINDTAIL_NEW : text :=
  (lit "	 * named \qpool/dataset\q and is not a path.  A name that begins with a
	 * slash never reaches here: the test above sends it to ldiskfs.
	 */
").

Definition b2e_EXISTS_OLD : text :=
  (lit " * A pathname that is not there is not a ZFS dataset.
 *
 * scan_backend_kind() answers ZFS for anything that is not a block device or
 * a regular file, which is right for a dataset name -- \qpool/mdt0\q does not
 * stat -- and wrong for \q/dev/mapper/gone\q.  Left to it, a mistyped or
 * torn-down device is reported as a missing ZFS backend, which sends the
 * reader looking for a package rather than at the name they typed.  Only a
 * leading '/' distinguishes the two: a dataset name never has one.
 */
").

Definition b2e_EXISTS_NEW : text :=
  (lit " * A pathname that is not there is not a target.
 *
 * scan_backend_kind() sends every name that begins with '/' to ldiskfs, so
 * on a build with no ldiskfs backend a mistyped or torn-down device would
 * come back as a missing backend, which sends the reader looking for a
 * package rather than at the name they typed.  The real errno is answered
 * first: -ENOENT, or -ENOTDIR, -ELOOP or -EACCES as stat() finds them.
 */
").

Definition b2e_THELAST_OLD : text :=
  (lit "The last is cleared rather than filled for the caller: it would report the
demand mask the search settled on and not the one the caller asked for.
The last goes because there is no caller data to pair a filter with: the
").

Definition b2e_THELAST_NEW : text :=
  (lit ".I lfsp_got
is cleared rather than filled for the caller: it would report the
demand mask the search settled on and not the one the caller asked for.
.I lfsp_filter
goes because there is no caller data to pair a filter with: the
").

Definition b2e_MSG_C08_MEM : text * text :=
  ((lit "A directory map entry keeps its name inline, about 288 bytes, so a
million directories use about 288 MB, and 1.5 times that while
scan_dirmap_grow() holds both tables. Keeping names in an arena would
use less."),
   (lit "A directory map entry keeps its name inline, 288 bytes, and the table
is a power of two at most three quarters full: a million directories
use a 2^21-entry table, about 576 MiB, and about 864 MiB while
scan_dirmap_grow() holds both tables. Keeping names in an arena would
use less.")).

Definition b2e_SEEALSO_OLD : text :=
  (lit ".BR lfs (1),
.BR lfs-getdirstripe (1),
").

Definition b2e_SEEALSO_NEW : text :=
  (lit ".BR lfs (1),
.BR lfs-fid2path (1),
.BR lfs-getdirstripe (1),
").

Definition b2e_SEEALSO_C12_OLD : text :=
  (lit ".BR lfs-changelog (1),
.BR lfs-getdirstripe (1),
").

Definition b2e_SEEALSO_C12_NEW : text :=
  (lit ".BR lfs-changelog (1),
.BR lfs-fid2path (1),
.BR lfs-getdirstripe (1),
").

Definition b2e_EXDEV_OLD : text :=
  (lit ".B -EXDEV
.I lfsp_fsname
is set and
.I target
belongs to another filesystem.
").

Definition b2e_EXDEV_NEW : text :=
  (lit ".B -EXDEV
.I target
belongs to another filesystem than the one it is compared with: that of
.I fp_fid2path_mnt
where the search has one, and
.I lfsp_fsname
otherwise.
").

Definition b2e_NOTES_OLD : text :=
  (lit "of another resolves it happily and answers with its own pathname \\(em set
.I lfsp_fsname
on
.I sp
and the scan refuses a target of any other filesystem with
.BR -EXDEV .
").

Definition b2e_NOTES_NEW : text :=
  (lit "of another resolves it happily and answers with its own pathname \\(em so the
filesystem of that mount is compared with the target's label, and a target of
any other filesystem is refused with
.BR -EXDEV .
.I fp_paths
and a plain
.BR llapi_scan_device ()
caller have no mount, and set
.I lfsp_fsname
on
.I sp
for the same check.
").

Definition b2e_DEV3 : string := "Documentation/man3/llapi_scan_device.3".

Definition b2e_VIS_OLD : text :=
  (lit "reachable from the namespace \\(em a file or directory a client can name.
").

Definition b2e_VIS_NEW : text :=
  (lit "reachable from the namespace \\(em a file or directory a client can name.
Each shard of a striped directory is one too, with a name of its own in
.BR trusted.link ,
so a directory striped over N MDTs is N+1 records across their scans.
").

Definition b2e_HSM_OLD : text :=
  (lit "which a device answers for from the object itself where a namespace scan
pays an ioctl.
").

Definition b2e_HSM_NEW : text :=
  (lit "which a device answers for from the object itself where a namespace scan
pays an ioctl.
It is set only for an object that has a
.BR trusted.hsm ;
a namespace scan sets it with no states for any regular file, which the
MDT answers for even where the file was never archived.
").

Definition b2e_ALWAYS_OLD : text :=
  (lit ".B trusted.lma
is always read: without it an object has neither a FID nor a class.
").

Definition b2e_ALWAYS_NEW : text :=
  (lit ".B trusted.lma
and
.B trusted.link
are always read: without the first an object has neither a FID nor a class,
and on an MDT the second is what tells a file from the target's own.
").

Definition b2e_CS300_OLD : text :=
  (lit "		echo \qnot sweeping: mds1 and ost1 are not one ldiskfs node\q
	fi

	# and now the same objects, read off the device with nothing mounted:
").

Definition b2e_CS300_NEW : text :=
  (lit "		echo \qnot sweeping: mds1 and ost1 are not one ldiskfs node\q
	fi

	# --target and --fsname while mds1 is up, which is where they are meant
	# to answer; the sweep above runs only where mds1 and ost1 share a node.
	# ldiskfs only: a ZFS pool in use is refused.
	if [[ \q$mds1_FSTYPE\q == ldiskfs ]]; then
		local mdt1svc=$(facet_svc mds1)
		local n

		n=$(do_facet mds1 \q$LFS find --target $mdt1svc --type f\q \\
			2> $scan_err | wc -l)
		(( n > 0 )) || {
			cat $scan_err
			error \qlfs find --target $mdt1svc found no files\q
		}
		n=$(do_facet mds1 \\
			\q$LFS find --fsname $FSNAME --mdt $mdt1svc --type f\q \\
			2> $scan_err | wc -l)
		(( n > 0 )) || {
			cat $scan_err
			error \q--fsname $FSNAME --mdt $mdt1svc found no files\q
		}
	fi

	# and now the same objects, read off the device with nothing mounted:
").

Definition b2e_INT : string := "lustre/utils/lustreapi_internal.h".

Definition b2e_PPF_FIELD_OLD : text :=
  (lit "	llapi_scan_cb_t	 pp_cb;
").

Definition b2e_PPF_FIELD_NEW : text :=
  (lit "	llapi_scan_cb_t	 pp_cb;
	/* before any xattr is read; NULL: none */
	llapi_scan_cb_t	 pp_filter;
").

Definition b2e_PPF_FN_OLD : text :=
  (lit "/*
 * Set up the map and the pass that fills it:").

Definition b2e_PPF_FN_NEW : text :=
  ((lit "/* the map holds directories: the rest is dropped before its xattrs */
static int scan_dirmap_filter(const struct llapi_scan_rec *rec, void *data)
{
	return S_ISDIR(rec->lfsr_stx.stx_mode) ? 0 : 1;
}

") ++
     b2e_PPF_FN_OLD).

Definition b2e_PPF_SET_OLD : text :=
  (lit "	pre->pp_cb = scan_dirmap_cb;
").

Definition b2e_PPF_SET_NEW : text :=
  (lit "	pre->pp_cb = scan_dirmap_cb;
	pre->pp_filter = scan_dirmap_filter;
").

Definition b2e_PPF_RUN_OLD : text :=
  (lit "		/* lfsp_filter is the caller's, and it is paired with the
		 * caller's own data: a pre-pass has neither
		 */
		dev.sd_filter = NULL;
").

Definition b2e_PPF_RUN_NEW : text :=
  (lit "		/* lfsp_filter is the caller's, paired with the caller's own
		 * data: a pre-pass brings its own, or none
		 */
		dev.sd_filter = pre->pp_filter;
").

Definition b2e_MSG_C08_PPF : text * text :=
  ((lit "Documentation: lfs-find.1 describes both options"),
   (lit "The pre-pass drops every object that is not a directory before its
xattrs are read, through a filter of its own. On a 300,000-file MDT
that was about two thirds of the pass.

Documentation: lfs-find.1 describes both options")).

Definition b2e_CLOG : string := "lustre/utils/liblustreapi_scan_changelog.c".

Definition b2e_CLOGTEST : string := "lustre/tests/llapi_scan_changelog_test.c".

Definition b2e_HOLD_DEF_OLD : text :=
  (lit "/* Held before emitting, so a burst of events on one object is one record. */
#define SCAN_CL_MIN_AGE_DEF	600
").

Definition b2e_HOLD_DEF_NEW : text :=
  (b2e_HOLD_DEF_OLD ++
     (lit "/*
 * An object changed without pause is never quiet for sc_min_age.  Held past
 * this many times it, it is delivered on its next event and held afresh.
 */
#define SCAN_CL_MAX_HOLD	6
")).

Definition b2e_HOLD_FIELD_OLD : text :=
  (lit "	__s64			 co_time;	/* the latest event's */
").

Definition b2e_HOLD_FIELD_NEW : text :=
  (b2e_HOLD_FIELD_OLD ++
     (lit "	__s64			 co_first_time;	/* the earliest event's */
")).

Definition b2e_HOLD_SET_OLD : text :=
  (lit "	o->co_first = o->co_index;	/* only here: absorb() moves co_index */
").

Definition b2e_HOLD_SET_NEW : text :=
  (b2e_HOLD_SET_OLD ++
     (lit "	o->co_first_time = o->co_time;
")).

Definition b2e_HOLD_SEEN_OLD : text :=
  (lit "		list_del(&o->co_link);
		scan_cl_absorb(o, r, fid);
		list_add_tail(&o->co_link, &sl->sl_aged);
		return 0;
").

Definition b2e_HOLD_SEEN_NEW : text :=
  (lit "		list_del(&o->co_link);
		scan_cl_absorb(o, r, fid);
		list_add_tail(&o->co_link, &sl->sl_aged);
		/*
		 * Busy past the limit: delivered now, so that it is reported
		 * at all and its first record can be cleared.  Its next event
		 * starts it afresh.
		 */
		if (o->co_time - o->co_first_time >=
		    (__s64)sl->sl_min_age * SCAN_CL_MAX_HOLD) {
			int rc = scan_cl_deliver(sl, o, true);

			if (rc != 0)
				return rc;
			scan_cl_unlink(sl, o);
			scan_cl_obj_free(o);
		}
		return 0;
").

Definition b2e_MAN_HOLD_OLD : text :=
  (lit "and how many objects may be held. Zero takes the defaults, 600 seconds and
100000 objects.
").

Definition b2e_MAN_HOLD_NEW : text :=
  (b2e_MAN_HOLD_OLD ++
     (lit ".IP
An object that keeps changing is not held for ever: once six times
.I sc_min_age
has passed since its first event, it is delivered on its next one and held
afresh from there. A file written without pause is then delivered about once
every six
.IR sc_min_age ,
and the records behind it can be cleared.
")).

Definition b2e_MSG_C09_HOLD : text * text :=
  ((lit "restart from sc_startrec cannot read it back, because the record is
gone.
"),
   (lit "restart from sc_startrec cannot read it back, because the record is
gone. An object that never goes quiet would hold that point for ever,
and would never be delivered either, so one held for six times
sc_min_age since its first event is delivered on its next event and
held afresh.
")).

Definition b2e_T10_INC_OLD : text :=
  (lit "#include <errno.h>
#include <getopt.h>
#include <stdbool.h>
").

Definition b2e_T10_INC_NEW : text :=
  (lit "#include <errno.h>
#include <fcntl.h>
#include <getopt.h>
#include <pthread.h>
#include <stdbool.h>
").

Definition b2e_T10_OLD : text :=
  (lit "static struct test_tbl_entry test_tbl[] = {
").

Definition b2e_T10_NEW : text :=
  ((lit "struct busy_state {
	char		 path[PATH_MAX + 16];	/* testdir, plus the name */
	struct lu_fid	 fid;
	bool		 running;	/* the writer is still writing */
	bool		 stop;
	bool		 delivered;
	bool		 while_running;
};

/* 200 ms apart for 20 s: never quiet for the 1 s sc_min_age below */
static void *busy_writer(void *arg)
{
	struct busy_state *bs = arg;
	char marker[PATH_MAX + 32];
	int fd;
	int i;

	for (i = 0; i < 100 && !__atomic_load_n(&bs->stop, __ATOMIC_ACQUIRE);
	     i++) {
		(void)chmod(bs->path, i % 2 ? 0644 : 0640);
		usleep(200000);
	}
	__atomic_store_n(&bs->running, false, __ATOMIC_RELEASE);

	/* an event elsewhere, so a scan still holding the file sees it go
	 * quiet and ends rather than waiting for a record that never comes
	 */
	sleep(2);
	snprintf(marker, sizeof(marker), \q%s.marker\q, bs->path);
	fd = creat(marker, 0644);
	if (fd >= 0)
		close(fd);
	return NULL;
}

static int busy_cb(const struct llapi_scan_rec *rec, void *data)
{
	struct busy_state *bs = data;

	if (!(rec->lfsr_valid & LLAPI_SCAN_FID) ||
	    memcmp(&rec->lfsr_fid, &bs->fid, sizeof(bs->fid)) != 0)
		return 0;
	bs->delivered = true;
	bs->while_running = __atomic_load_n(&bs->running, __ATOMIC_ACQUIRE);
	return 1;	/* stop: this is what the case waits for */
}

#define T10_DESC \qan object changed without pause is delivered, not held\q
static void test10(void)
{
	struct llapi_scan_changelog_param sc;
	struct busy_state bs = { .running = true };
	pthread_t th;
	int rc;
	int fd;

	snprintf(bs.path, sizeof(bs.path), \q%s/busy\q, testdir);
	fd = creat(bs.path, 0644);
	ASSERTF(fd >= 0, \qcannot create %s: %s\q, bs.path, strerror(errno));
	close(fd);
	rc = llapi_path2fid(bs.path, &bs.fid);
	ASSERTF(rc == 0, \qno FID for %s: %s\q, bs.path, strerror(-rc));
	ASSERTF(pthread_create(&th, NULL, busy_writer, &bs) == 0,
		\qcannot start the writer\q);

	/* the hold limit is six sc_min_age, so 6 s of changes here */
	param_init(&sc);
	sc.sc_flags = LLAPI_SCAN_CL_F_COALESCE | LLAPI_SCAN_CL_F_FOLLOW;
	sc.sc_min_age = 1;
	rc = llapi_scan_changelog(&sc, busy_cb, &bs);
	__atomic_store_n(&bs.stop, true, __ATOMIC_RELEASE);
	pthread_join(th, NULL);

	ASSERTF(rc == 1, \qthe scan returned %d, not the consumer's stop\q, rc);
	ASSERTF(bs.delivered, \qthe busy file was never delivered\q);
	ASSERTF(bs.while_running,
		\qthe busy file was held until it went quiet\q);
}

") ++
     b2e_T10_OLD).

Definition b2e_T10_REG_OLD : text :=
  (lit "	TEST_REGISTER(9),
").

Definition b2e_T10_REG_NEW : text :=
  (lit "	TEST_REGISTER(9),
	TEST_REGISTER(10),
").

Definition b2e_FDCMT : text :=
  (lit "/*
 * Everything from the MDT's answer onwards: the checks that need it, the
 * glimpse for what only a stat can settle, and the printing.  Split out so
 * that a scan with no namespace behind it can reach it too.
 *
 * A target scan passes no path.  find_get_projid() tests fc_path itself,
 * and the other steps that take it are kept from NULL elsewhere: --xattr is
 * refused before the scan, setup_target_indexes() runs only where
 * lustre_fs is set, which a scan leaves 0, the stat arm counts the object
 * undecided when there is no path, descriptor or dirent, and the printing
 * tests the path where it needs one.
 *
 * Return: 0 once the object is decided, printed or rejected, or a negative
 * errno.  Which of the two it was is not reported: printing is the answer,
 * and no caller has ever read it.  A positive would collide with the 1
 * cb_find_init() returns for \qdo not descend\q, which is the value this
 * lands in there.
 */
").

Definition b2e_FDCMT_DEL_OLD : text :=
  (b2e_FDCMT ++
     (lit "/*
 * Whether an object of this class has a pathname anywhere")).

Definition b2e_FDCMT_DEL_NEW : text :=
  (lit "/*
 * Whether an object of this class has a pathname anywhere").

Definition b2e_FDCMT_ADD_OLD : text :=
  (lit "static int find_decide(struct find_ctx *fc, struct find_param *param)
").

Definition b2e_FDCMT_ADD_NEW : text :=
  (b2e_FDCMT ++
     b2e_FDCMT_ADD_OLD).

Definition b2e_NEEDLMV_OLD : text :=
  (lit " * set before calling cb_get_dirstripe(), and gather_all with it, which a
 * target scan refuses along with -printf.
").

Definition b2e_NEEDLMV_NEW : text :=
  (lit " * set before calling cb_get_dirstripe(), and gather_all with it; a target
 * scan asks for LLAPI_SCAN_LMV itself where -printf needs it.
").

Definition b2e_EREC_DECL_OLD : text :=
  (lit "	struct scan_cl *sl;
	int crc;	/* what a consumer or a flush returned, not the read */
").

Definition b2e_EREC_DECL_NEW : text :=
  (lit "	struct scan_cl *sl;
	__u64 idx;
	int crc;	/* what a consumer or a flush returned, not the read */
").

Definition b2e_EREC_IDX_OLD : text :=
  (lit "			crc = scan_cl_event(sl, rec);

		llapi_changelog_free(&rec);
").

Definition b2e_EREC_IDX_NEW : text :=
  (lit "			crc = scan_cl_event(sl, rec);

		idx = rec->cr_index;
		llapi_changelog_free(&rec);
").

Definition b2e_EREC_BRK_OLD : text :=
  (lit "		scan_cl_clear(sl, false);
	}

	if (rc == 1)		/* the end of the log, not an error */
").

Definition b2e_EREC_BRK_NEW : text :=
  (lit "		scan_cl_clear(sl, false);

		/* sc_endrec is inclusive: under _FOLLOW the next record may
		 * never come, so the range ends on this one
		 */
		if (scl.sc_endrec != 0 && idx >= scl.sc_endrec)
			break;
	}

	if (rc == 1)		/* the end of the log, not an error */
").

Definition b2e_SHADOW_OLD : text :=
  (lit "		__u32 i;

		for (i = 0; i < sc->sc_size - (__u32)sizeof(scl); i++)
			if (tail[i] != 0)
").

Definition b2e_SHADOW_NEW : text :=
  (lit "		__u32 j;

		for (j = 0; j < sc->sc_size - (__u32)sizeof(scl); j++)
			if (tail[j] != 0)
").

Definition b2e_PTRS1_OLD : text :=
  (lit " * llapi_scan_changelog(), whose parameter has three pointers past its own
").

Definition b2e_PTRS1_NEW : text :=
  (lit " * llapi_scan_changelog(), whose parameter has four pointers past its own
").

Definition b2e_PTRS2_OLD : text :=
  (lit " * through sc_mdtname, but sc_user, sc_mnt and sc_stats are pointers beyond
 * it, so a size stopping inside one of them would leave it half the
").

Definition b2e_PTRS2_NEW : text :=
  (lit " * through sc_mdtname, but sc_user, sc_mnt, sc_stats and sc_got are pointers
 * beyond it, so a size stopping inside one of them would leave it half the
").

Definition b2e_T9_OLD : text :=
  (lit "		(unsigned long long)masked.cr_with_event,
		(unsigned long long)all.cr_with_event);

").

Definition b2e_T9_NEW : text :=
  (lit "		(unsigned long long)masked.cr_with_event,
		(unsigned long long)all.cr_with_event);
	/* and the filter ran: make_events() created a file, and nothing
	 * else but the log's own markers may come through
	 */
	ASSERTF(masked.cr_types & (1ULL << CL_CREATE),
		\qthe mask delivered no CL_CREATE, though a file was created\q);
	ASSERTF(!(masked.cr_types & ~((1ULL << CL_CREATE) | (1ULL << CL_MARK))),
		\qthe mask let other types through: %#llx\q,
		(unsigned long long)masked.cr_types);

").

Definition b2e_MAN_ONE_OLD : text :=
  (lit "Only one target may be named, other than through
.B --local
or
.BR --fsname .
").

Definition b2e_MAN_ONE_NEW : text :=
  (lit "Only one of
.BR --device ,
.BR --target ,
.B --fsname
and
.B --local
may be given, and only one target named;
.B --fsname
and
.B --local
may read several.
").

Definition b2e_MAN_OST_OLD : text :=
  (lit ".BR --ost \q, \q --mdt
These name the target being read, so every object on it matches or none does.
.B --ost
applies to an OST, and
.B --mdt
to an MDT.
").

Definition b2e_MAN_OST_NEW : text :=
  (lit ".BR --ost \q, \q --stripe-index \q, \q --mdt
These name the target being read, so every object on it matches or none does.
.B --ost
applies to an OST, and so does
.BR --stripe-index ,
which is taken the same way;
.B --mdt
applies to an MDT.
").

Definition b2e_MSG_C00_SUBJ : text * text :=
  ((lit "LU-20603 llapi: namespace scanner API
"),
   (lit "LU-20603 llapi: add llapi_scan_namespace()
")).

Definition b2e_CAP_OLD : text :=
  (lit "Resolving FIDs needs
.BR CAP_DAC_READ_SEARCH ,
and a FID that cannot be looked up at all is an error, not a missing name.
").

Definition b2e_CAP_NEW : text :=
  (lit "A FID looked up through
.I MOUNT
needs
.BR CAP_DAC_READ_SEARCH ,
which an OST's objects always are, and a FID that cannot be looked up at all
is an error, not a missing name. On an MDT the names come from the map first.
").

Definition b2e_MSG_C09_SUBJ : text * text :=
  ((lit "LU-20649 llapi: llapi_scan_changelog(), a changelog as a stream
"),
   (lit "LU-20649 llapi: add llapi_scan_changelog()
")).

Definition b2e_MSG_C09_FLAGS : text * text :=
  ((lit "per object once it has been quiet, so a file written a hundred times
is one record and one lookup rather than a hundred of each.
"),
   (lit "per object once it has been quiet, so a file written a hundred times
is one record and one lookup rather than a hundred of each.

LLAPI_SCAN_CL_F_FOLLOW keeps reading as the log grows, as lfs changelog
--follow does. LLAPI_SCAN_CL_F_ONCE, which needs _COALESCE, delivers an
object at most once per run: a set of the FIDs already delivered drops
the repeats. test5 covers it.
")).

Definition b2e_MSG_C09_SMALL : text * text :=
  ((lit "Three smaller things.  The second fstat() is taken only when the
glimpse replaced the descriptor.  scan_cl_bucket() drops a modulo
that cannot change llapi_fid_hash()'s value, that being hash_long()
on the same shift.  The sc_mdtname test after the memcpy goes: the
minimum sc_size reaches through that field and the caller's own
struct was tested at the top, so it could never fire.  Four comments
described an earlier revision of this patch rather than the code and
now describe the code.
"),
   (lit "scan_cl_bucket() takes llapi_fid_hash() as it is: that is hash_long()
on the same shift, and a modulo on top could not change it.
")).

Definition b2e_UIDCMT_OLD : text :=
  (lit "	 * EXTRA_FLAGS is what carries uid and gid, which are the only object
	 * attributes a changelog has; asking for JOBID costs nothing when the
").

Definition b2e_UIDCMT_NEW : text :=
  (lit "	 * EXTRA_FLAGS is what carries the uid and gid of whoever acted; asking
	 * for JOBID costs nothing when the
").

Definition b2e_MSG_C07_TPTXT : text * text :=
  ((lit "headers; the Test-Parameters lines below ask for the two sessions that
can say something.

Neither of them exercises the weak slot, and that is not an omission.
"),
   (lit "headers; the Test-Parameters line below asks for the ZFS session that
can say something, and the default testing already runs sanity 157c.

Neither exercises the weak slot, and that is not an omission.
")).

Definition b2e_MSG_C07_TP : text * text :=
  ((lit "Test-Parameters: testlist=sanity env=ONLY=157c
"),
   (lit "")).

Definition b2e_NS3 : string := "Documentation/man3/llapi_scan_namespace.3".

(** ["%-24s" % s]: padded with spaces on the right. *)
Definition ljust (n : nat) (s : text) : text := s ++ replicate (n - length s) " "%char.

(** [name.lstrip("*")] *)
Fixpoint lstrip_star (s : text) : text :=
  match s with
  | c :: s' => if Ascii.eqb c "*" then lstrip_star s' else s
  | [] => []
  end.

(** One line of a struct, spaces only. *)
Definition b2e__fld (typ name comment : text) : text :=
  lit "    " ++ ljust 24 typ ++ (if py_startswith name (lit "*") then lit "*" else lit " ") ++
  ljust 19 (lstrip_star name) ++ comment ++ [nl].

Definition b2e_PSTRUCT_OLD : text :=
  (lit "unchanged.
.LP
.I sp
may be NULL for the defaults. Otherwise its
").

Definition b2e_PSTRUCT_END : text :=
  ((b2e__fld (lit "__u64") (lit "*lfsp_got;") (lit "/* or NULL */")) ++
     (lit "};
")).

Definition b2e_PSTRUCT_NEW : text :=
  ((((((((((lit "unchanged.
.LP
The parameters are:
.PP
.RS 3.5
.nf
struct llapi_scan_param {
") ++
     (b2e__fld (lit "__u32") (lit "lfsp_size;") (lit "/* sizeof(*sp) */"))) ++
     (b2e__fld (lit "__u32") (lit "lfsp_max_depth;") (lit "/* 0: unlimited */"))) ++
     (b2e__fld (lit "__u64") (lit "lfsp_flags;") (lit "/* LLAPI_SCAN_F_* */"))) ++
     (b2e__fld (lit "__u64") (lit "lfsp_want;") (lit "/* LLAPI_SCAN_* */"))) ++
     (b2e__fld (lit "llapi_scan_cb_t") (lit "lfsp_filter;") (lit "/* or NULL */"))) ++
     (b2e__fld (lit "__u8") (lit "lfsp_thread_count;") (lit "/* 0, 1: one thread */"))) ++
     (b2e__fld (lit "__u8") (lit "lfsp_padding[7];") (lit "/* must be zero */"))) ++
     b2e_PSTRUCT_END) ++
     (lit ".fi
.RE
.LP
.I sp
may be NULL for the defaults. Otherwise its
")).

Definition b2e_STATS_LINE : text :=
  (b2e__fld (lit "struct llapi_scan_stats") (lit "*lfsp_stats;") (lit "/* or NULL */")).

Definition b2e_SEARCH_LINE : text :=
  (b2e__fld (lit "const char") (lit "*lfsp_search;") (lit "/* device scans */")).

Definition b2e_FSNAME_LINE : text :=
  (b2e__fld (lit "const char") (lit "*lfsp_fsname;") (lit "/* device scans */")).

Definition b2e_PSTRUCT_C02 : text :=
  (py_replace (lit "};
")
     (b2e_STATS_LINE ++
     (lit "};
"))
     b2e_PSTRUCT_END).

Definition b2e_PSTRUCT_C07_OLD : text :=
  (b2e_STATS_LINE ++
     (lit "};
")).

Definition b2e_PSTRUCT_C07_NEW : text :=
  ((b2e_STATS_LINE ++
     b2e_SEARCH_LINE) ++
     (lit "};
")).

Definition b2e_PSTRUCT_C08_OLD : text :=
  (b2e_SEARCH_LINE ++
     (lit "};
")).

Definition b2e_PSTRUCT_C08_NEW : text :=
  ((b2e_SEARCH_LINE ++
     b2e_FSNAME_LINE) ++
     (lit "};
")).

Definition b2e_MSG_C00_PSTRUCT : text * text :=
  ((lit "LMV buffers stay until the next object is gathered.
"),
   (lit "LMV buffers stay until the next object is gathered. It also prints
struct llapi_scan_param, as llapi_ladvise.3 prints its own.
")).

Definition b2e_add (msg : string) : list R3.transform := [
  b2b_t "m-c00-max" msg
    b2e_MSG_C00_MAX.1
    b2e_MSG_C00_MAX.2
    None (Some "c00");
  b2b_t "m-c00-new" msg
    b2e_MSG_C00_NEW.1
    b2e_MSG_C00_NEW.2
    None (Some "c00");
  b2b_t "m-c00-scanc" "lustre/utils/liblustreapi_scan.c"
    b2e_SCANC_OLD
    b2e_SCANC_NEW
    None (Some "c00");
  b2b_t "m-c00-inth" "lustre/utils/lustreapi_internal.h"
    b2e_INTH_OLD
    b2e_INTH_NEW
    None (Some "c00");
  b2b_t "m-c00-man-hld" "Documentation/man3/llapi_scan_namespace.3"
    b2e_MAN_HLD_OLD
    b2e_MAN_HLD_NEW
    None (Some "c00");
  b2b_t "m-c00-man-ret" "Documentation/man3/llapi_scan_namespace.3"
    b2e_MAN_RET_OLD
    b2e_MAN_RET_NEW
    None (Some "c00");
  b2b_t "m-c00-test400" "lustre/tests/llapi_scan_test.c"
    b2e_TEST400_OLD
    b2e_TEST400_NEW
    None (Some "c00");
  b2b_t "m-c01-fixes" msg
    b2e_MSG_C01_FIXES.1
    b2e_MSG_C01_FIXES.2
    (Some ["c01"]) (Some "c01");
  b2b_t "m-c02-lstddef" msg
    b2e_MSG_C02_LSTDDEF.1
    b2e_MSG_C02_LSTDDEF.2
    None (Some "c02");
  b2b_t "m-c02-blank2" "lustre/utils/lustreapi_internal.h"
    b2e_BLANK2_OLD
    b2e_BLANK2_NEW
    None (Some "c02");
  b2b_t "m-c05-igif" msg
    b2e_MSG_C05_IGIF.1
    b2e_MSG_C05_IGIF.2
    None (Some "c05");
  b2b_t "m-c05-nullcmt" b2e_PFIND
    b2e_NULLCMT_OLD
    b2e_NULLCMT_NEW
    None (Some "c05");
  b2b_t "m-c07-kindtail" b2e_DEV
    b2e_KINDTAIL_OLD
    b2e_KINDTAIL_NEW
    None (Some "c07");
  b2b_t "m-c07-exists" b2e_DEV
    b2e_EXISTS_OLD
    b2e_EXISTS_NEW
    None (Some "c07");
  b2b_t "m-c10-thelast" b2e_MAN3FD
    b2e_THELAST_OLD
    b2e_THELAST_NEW
    None (Some "c10");
  b2b_t "m-c08-mem" msg
    b2e_MSG_C08_MEM.1
    b2e_MSG_C08_MEM.2
    None (Some "c08");
  b2b_t "m-c08-seealso" "Documentation/man1/lfs-find.1"
    b2e_SEEALSO_OLD
    b2e_SEEALSO_NEW
    None (Some "c08");
  b2b_t "m-c12-seealso" "Documentation/man1/lfs-find.1"
    b2e_SEEALSO_C12_OLD
    b2e_SEEALSO_C12_NEW
    None (Some "c12");
  b2b_t "m-c08-exdev" b2e_MAN3FD
    b2e_EXDEV_OLD
    b2e_EXDEV_NEW
    None (Some "c08");
  b2b_t "m-c08-notes" b2e_MAN3FD
    b2e_NOTES_OLD
    b2e_NOTES_NEW
    None (Some "c08");
  b2b_t "m-c02-vis" b2e_DEV3
    b2e_VIS_OLD
    b2e_VIS_NEW
    None (Some "c02");
  b2b_t "m-c02-hsm" b2e_DEV3
    b2e_HSM_OLD
    b2e_HSM_NEW
    None (Some "c02");
  b2b_t "m-c02-always" b2e_DEV3
    b2e_ALWAYS_OLD
    b2e_ALWAYS_NEW
    None (Some "c02");
  b2b_t "m-c06-cs300" "lustre/tests/conf-sanity.sh"
    b2e_CS300_OLD
    b2e_CS300_NEW
    None (Some "c06");
  b2b_t "m-c08-ppf-field" b2e_INT
    b2e_PPF_FIELD_OLD
    b2e_PPF_FIELD_NEW
    None (Some "c08");
  b2b_t "m-c08-ppf-fn" b2e_DEV
    b2e_PPF_FN_OLD
    b2e_PPF_FN_NEW
    None (Some "c08");
  b2b_t "m-c08-ppf-set" b2e_DEV
    b2e_PPF_SET_OLD
    b2e_PPF_SET_NEW
    None (Some "c08");
  b2b_t "m-c08-ppf-run" b2e_DEV
    b2e_PPF_RUN_OLD
    b2e_PPF_RUN_NEW
    None (Some "c08");
  b2b_t "m-c08-ppf-msg" msg
    b2e_MSG_C08_PPF.1
    b2e_MSG_C08_PPF.2
    None (Some "c08");
  b2b_t "m-c09-hold-def" b2e_CLOG
    b2e_HOLD_DEF_OLD
    b2e_HOLD_DEF_NEW
    None (Some "c09");
  b2b_t "m-c09-hold-field" b2e_CLOG
    b2e_HOLD_FIELD_OLD
    b2e_HOLD_FIELD_NEW
    None (Some "c09");
  b2b_t "m-c09-hold-set" b2e_CLOG
    b2e_HOLD_SET_OLD
    b2e_HOLD_SET_NEW
    None (Some "c09");
  b2b_t "m-c09-hold-seen" b2e_CLOG
    b2e_HOLD_SEEN_OLD
    b2e_HOLD_SEEN_NEW
    None (Some "c09");
  b2b_t "m-c09-hold-man" "Documentation/man3/llapi_scan_changelog.3"
    b2e_MAN_HOLD_OLD
    b2e_MAN_HOLD_NEW
    None (Some "c09");
  b2b_t "m-c09-hold-msg" msg
    b2e_MSG_C09_HOLD.1
    b2e_MSG_C09_HOLD.2
    None (Some "c09");
  b2b_t "m-c09-t10-inc" b2e_CLOGTEST
    b2e_T10_INC_OLD
    b2e_T10_INC_NEW
    None (Some "c09");
  b2b_t "m-c09-t10" b2e_CLOGTEST
    b2e_T10_OLD
    b2e_T10_NEW
    None (Some "c09");
  b2b_t "m-c09-t10-reg" b2e_CLOGTEST
    b2e_T10_REG_OLD
    b2e_T10_REG_NEW
    None (Some "c09");
  b2b_t "f-c08-fdcmt-del" b2e_PFIND
    b2e_FDCMT_DEL_OLD
    b2e_FDCMT_DEL_NEW
    None (Some "c08");
  b2b_t "f-c08-fdcmt-add" b2e_PFIND
    b2e_FDCMT_ADD_OLD
    b2e_FDCMT_ADD_NEW
    None (Some "c08");
  b2b_t "f-c05-needlmv" b2e_PFIND
    b2e_NEEDLMV_OLD
    b2e_NEEDLMV_NEW
    None (Some "c05");
  b2b_t "f-c09-erec-decl" b2e_CLOG
    b2e_EREC_DECL_OLD
    b2e_EREC_DECL_NEW
    None (Some "c09");
  b2b_t "f-c09-erec-idx" b2e_CLOG
    b2e_EREC_IDX_OLD
    b2e_EREC_IDX_NEW
    None (Some "c09");
  b2b_t "f-c09-erec-brk" b2e_CLOG
    b2e_EREC_BRK_OLD
    b2e_EREC_BRK_NEW
    None (Some "c09");
  b2b_t "f-c09-shadow" b2e_CLOG
    b2e_SHADOW_OLD
    b2e_SHADOW_NEW
    None (Some "c09");
  b2b_t "f-c09-ptrs1" b2e_INT
    b2e_PTRS1_OLD
    b2e_PTRS1_NEW
    None (Some "c09");
  b2b_t "f-c09-ptrs2" b2e_INT
    b2e_PTRS2_OLD
    b2e_PTRS2_NEW
    None (Some "c09");
  b2b_t "f-c09-t9" b2e_CLOGTEST
    b2e_T9_OLD
    b2e_T9_NEW
    None (Some "c09");
  b2b_t "f-c06-man-one" "Documentation/man1/lfs-find.1"
    b2e_MAN_ONE_OLD
    b2e_MAN_ONE_NEW
    None (Some "c06");
  b2b_t "f-c06-man-ost" "Documentation/man1/lfs-find.1"
    b2e_MAN_OST_OLD
    b2e_MAN_OST_NEW
    None (Some "c06");
  b2b_t "f-c00-subj" msg
    b2e_MSG_C00_SUBJ.1
    b2e_MSG_C00_SUBJ.2
    (Some ["c00"]) (Some "c00");
  b2b_t "f-c08-cap" "Documentation/man1/lfs-find.1"
    b2e_CAP_OLD
    b2e_CAP_NEW
    None (Some "c08");
  b2b_t "g-c09-subj" msg
    b2e_MSG_C09_SUBJ.1
    b2e_MSG_C09_SUBJ.2
    (Some ["c09"]) (Some "c09");
  b2b_t "g-c09-flags" msg
    b2e_MSG_C09_FLAGS.1
    b2e_MSG_C09_FLAGS.2
    None (Some "c09");
  b2b_t "g-c09-small" msg
    b2e_MSG_C09_SMALL.1
    b2e_MSG_C09_SMALL.2
    None (Some "c09");
  b2b_t "g-c09-uidcmt" b2e_CLOG
    b2e_UIDCMT_OLD
    b2e_UIDCMT_NEW
    None (Some "c09");
  b2b_t "g-c07-tptxt" msg
    b2e_MSG_C07_TPTXT.1
    b2e_MSG_C07_TPTXT.2
    (Some ["c07"]) (Some "c07");
  b2b_t "g-c07-tp" msg
    b2e_MSG_C07_TP.1
    b2e_MSG_C07_TP.2
    (Some ["c07"]) (Some "c07");
  b2b_t "n-c00-msg" msg
    b2e_MSG_C00_PSTRUCT.1
    b2e_MSG_C00_PSTRUCT.2
    (Some ["c00"]) (Some "c00");
  b2b_t "n-c00-pstruct" b2e_NS3
    b2e_PSTRUCT_OLD
    b2e_PSTRUCT_NEW
    None (Some "c00");
  b2b_t "n-c02-pstats" b2e_NS3
    b2e_PSTRUCT_END
    b2e_PSTRUCT_C02
    None (Some "c02");
  b2b_t "n-c07-psearch" b2e_NS3
    b2e_PSTRUCT_C07_OLD
    b2e_PSTRUCT_C07_NEW
    None (Some "c07");
  b2b_t "n-c08-pfsname" b2e_NS3
    b2e_PSTRUCT_C08_OLD
    b2e_PSTRUCT_C08_NEW
    None (Some "c08");
  b2b_t "m-c00-tests" msg
    b2e_MSG_C00_TESTS.1
    b2e_MSG_C00_TESTS.2
    None (Some "c00")
].

(** The table [T] as b2bfix.py leaves it. *)
Definition b2b_T : list R3.transform :=
  b2_T ++ b2b_rows_1 ++ b2b_rows_2 ++ b2b_rows_3 ++ b2b_rows_4 ++ b2b_rows_5 ++ b2b_rows_6 ++
  b2bx_add b2b_LIVE R3.MSG ++ b2bx_add_ring b2b_PROD ++ b2bx_add_lmv "c02" "c05" ++
  b2bx_add_msgfix R3.MSG ++ b2c_add R3.MSG ++ b2d_add R3.MSG ++ b2e_add R3.MSG.
