(* ===== verification/R3Moves.v ===== *)
(** The three function rows of r3fix.py: [_move] (with [move_since]), which
    moves a block of the man page up in front of an anchor, [add_cookie_tmp],
    which inserts a function, and [move_resolve_comment]. *)
From S2P Require Import Prelude PyStr Stable R3Engine R3Table.
Import R3.

(** No non-empty tail of [x] can be continued by [y]. *)
Definition tails_disagree (x y : text) : bool :=
  all_tails (λ _ u, match u with [] => true | _ => negb (agree u y) end) 0 x.

Lemma tails_disagree_spec x y k :
  tails_disagree x y = true → k < length x →
  ¬ (∀ j c d, x !! (k + j) = Some c → y !! j = Some d → c = d).
Proof.
  intros Ht Hk Hag. pose proof (all_tails_spec _ _ _ Ht k ltac:(lia)) as H.
  assert (agree (drop k x) y = true) as Ha.
  { apply agree_lookup. intros j c d. rewrite lookup_drop. apply Hag. }
  simpl in H. destruct (drop k x) eqn:E; [|by rewrite Ha in H].
  apply (f_equal length) in E. rewrite length_drop in E. simpl in E. lia.
Qed.

Lemma py_find_from_Some sub s i e :
  py_find_from sub s i = Some e → occ sub s e ∧ i ≤ e.
Proof.
  unfold py_find_from. destruct (i <=? length s) eqn:Hi; [|done]. bools.
  destruct (py_find sub (drop i s)) as [k|] eqn:Hk; [|done]. simpl. intros [= <-].
  apply py_find_Some in Hk as [Ho _]. split; [|lia].
  apply (occ_app_l _ (take i s)) in Ho. rewrite take_drop, length_take in Ho.
  by replace (i `min` length s) with i in Ho by lia.
Qed.

Section move.
Context (anchor start stop : text).
Context (Hne : anchor ≠ []) (Hss : tails_disagree start stop = true)
        (Has : tails_disagree anchor start = true).

(** What [_move] does when it moves: the block from [start] up to [stop] is cut
    out and put back in front of the first [anchor]. *)
Lemma move_shape s t :
  r3__move s anchor start stop = Ok (t, true) →
  ∃ x y blk z, s = x ++ y ++ blk ++ z ∧ t = x ++ blk ++ y ++ z ∧
    py_find anchor s = Some (length x) ∧ (∃ r, blk = start ++ r) ∧ ∃ r, z = stop ++ r.
Proof.
  unfold r3__move. destruct (py_find anchor s) as [a|] eqn:Ha; [|done].
  destruct (py_find start s) as [i|] eqn:Hi; [|done].
  destruct (i <? a) eqn:Hia; bools; [done|].
  destruct (py_find_from stop s i) as [e|] eqn:He; [|done].
  apply py_find_from_Some in He as [Hoe Hie].
  pose proof (proj1 (proj1 (py_find_Some _ _ _) Hi)) as Hoi.
  pose proof (proj1 (occ_lookup _ _ _) Hoi) as [Hil Hik].
  pose proof (proj1 (occ_lookup _ _ _) Hoe) as [Hel Hek].
  assert (i + length start ≤ e) as Hse.
  { destruct (decide (i + length start ≤ e)); [done|]. exfalso.
    apply (tails_disagree_spec start stop (e - i) Hss ltac:(lia)).
    intros j c d Hc Hd. pose proof (lookup_lt_Some _ _ _ Hc). pose proof (lookup_lt_Some _ _ _ Hd).
    rewrite <-Hik in Hc by lia. rewrite <-Hek in Hd by lia.
    replace (i + (e - i + j)) with (e + j) in Hc by lia. congruence. }
  intros [= <-]. exists (take a s), (drop a (take i s)), (py_slice s i e), (drop e s).
  assert (drop i s = py_slice s i e ++ drop e s) as Hde.
  { unfold py_slice. rewrite <-(take_drop (e - i) (drop i s)) at 1. f_equal.
    rewrite drop_drop. f_equal. lia. }
  assert (take a s = take a (take i s)) as Hta by (rewrite take_take; f_equal; lia).
  split; [|split; [|split; [|split]]].
  - rewrite Hta, <-Hde, (app_assoc (take a (take i s))), !take_drop. done.
  - rewrite take_app_le, drop_app_le by (rewrite length_take; lia). by rewrite <-Hta.
  - f_equal. rewrite length_take. lia.
  - exists (drop (length start) (py_slice s i e)).
    rewrite <-(take_drop (length start) (py_slice s i e)) at 1. f_equal.
    unfold py_slice. rewrite take_take. replace (length start `min` (e - i)) with (length start) by lia.
    destruct Hoi as (u & v & -> & <-). rewrite drop_app_length. by rewrite take_app_length.
  - destruct Hoe as (u & v & -> & <-). exists v. by rewrite drop_app_length.
Qed.

(** A moved text is not moved again. *)
Lemma move_again s t :
  r3__move s anchor start stop = Ok (t, true) → r3__move t anchor start stop = Ok (t, false).
Proof.
  intros H. destruct (move_shape s t H) as (x & y & blk & z & Hs & Ht & Ha & [r Hb] & _).
  unfold r3__move. destruct (py_find anchor t) as [a'|] eqn:Ha'; [|done].
  destruct (py_find start t) as [i'|] eqn:Hi'; [|done].
  assert (i' <? a' = true) as ->; [|done]. apply Nat.ltb_lt.
  destruct (decide (i' < a')) as [|Hn]; [done|]. exfalso.
  assert (i' ≤ length x).
  { destruct (decide (i' ≤ length x)); [done|]. apply py_find_Some in Hi' as [_ Hm].
    exfalso. apply (Hm (length x)); [lia|]. exists x, (r ++ y ++ z). split; [|done].
    rewrite Ht, Hb, <-!app_assoc. done. }
  apply py_find_Some in Ha' as [Hoa _]. apply py_find_Some in Ha as [_ Hm].
  apply occ_lookup in Hoa as [Hal Hak].
  assert (0 < length anchor) by (destruct anchor; simpl; [done|lia]).
  destruct (decide (a' + length anchor ≤ length x)) as [Hin|Hout].
  - apply (Hm a'); [lia|]. apply occ_lookup. subst s t. rewrite !length_app in *.
    split; [lia|]. intros k Hk. rewrite <-Hak by done. by rewrite !lookup_app_l by lia.
  - apply (tails_disagree_spec anchor start (length x - a') Has ltac:(lia)).
    intros j c d Hc Hd. pose proof (lookup_lt_Some _ _ _ Hc). pose proof (lookup_lt_Some _ _ _ Hd).
    rewrite <-Hak in Hc by lia. replace (a' + (length x - a' + j)) with (length x + j) in Hc by lia.
    subst t blk. rewrite lookup_app_r in Hc by lia.
    replace (length x + j - length x) with j in Hc by lia.
    rewrite <-app_assoc, lookup_app_l in Hc by lia. congruence.
Qed.
End move.

(** The two moves [move_since] makes. *)
Definition since_moves : list (text * text * text) :=
  [(r3_SYN_SIZE, r3_SYN_SINCE, r3_SYN_END); (r3_OPT_SIZE, r3_OPT_SINCE, r3_OPT_END)].

Definition move_ok (m : text * text * text) : bool :=
  negb (bool_decide (m.1.1 = [])) && tails_disagree m.1.2 m.2 && tails_disagree m.1.1 m.1.2.

Lemma since_moves_ok : forallb move_ok since_moves = true.
Proof. vm_compute. reflexivity. Qed.

(** [add_cookie_tmp] when it inserts. *)
Lemma cookie_tmp_shape s t :
  r3_add_cookie_tmp s = Ok (t, true) →
  ∃ a b, s = a ++ b ∧ t = a ++ r3_COOKIE_TMP_FN ++ b ∧ (∃ r, b = lit "/*
" ++ r) ∧ ∃ u, py_find (r3_WRITE_DOC_TAIL ++ r3_WRITE_HDR) s = Some (length a + u).
Proof.
  unfold r3_add_cookie_tmp, py_index.
  destruct (py_in (lit "static int find_cookie_tmp(") s); [done|].
  destruct (negb (py_in (r3_WRITE_DOC_TAIL ++ r3_WRITE_HDR) s)); [done|].
  destruct (py_find (r3_WRITE_DOC_TAIL ++ r3_WRITE_HDR) s) as [i|] eqn:Hi; simpl; [|done].
  destruct (py_rfind _ (take i s)) as [j|] eqn:Hj; [|done]. intros [= <-].
  apply py_rfind_Some in Hj as [Ho _]. pose proof (proj1 (occ_lookup _ _ _) Ho) as [Hl _].
  rewrite length_take in Hl. simpl in Hl.
  exists (take (j + 1) s), (drop (j + 1) s). split; [by rewrite take_drop|]. split; [done|]. split.
  - destruct Ho as (u & v & Hs & <-). exists (v ++ drop i s).
    rewrite <-(take_drop i s) at 1. rewrite Hs, <-!app_assoc, drop_app_add. done.
  - exists (i - (j + 1)). f_equal. rewrite length_take. lia.
Qed.

Lemma cookie_tmp_named : py_in (lit "static int find_cookie_tmp(") r3_COOKIE_TMP_FN = true.
Proof. vm_compute. reflexivity. Qed.
