(* ===== verification/R3Theorems.v ===== *)
(** The correctness theorems of the r3fix engine and of the tables that run on
    it, each with the concrete run that shows its hypotheses can hold. *)
From S2P Require Import Prelude PyStr Stable R3Engine R3Facts R3Refine R3Idem.
From S2P Require Import R3Table R3Moves RoundTables B2eTable.
Import R3.

(** ** The tables *)

(** The rounds that borrow the engine, with the [ORDER] they run under: r0918fix
    keeps r3fix's own, the later ones set c00 to c63.  Their drivers name the
    commits c00, c01, ... *)
Definition round_tables : list (list string * list transform) :=
  [(r3_ORDER, r0918_T); (ORDER64, r0920_T); (ORDER64, r0921_T);
   (ORDER64, b1_T); (ORDER64, b2_T)].

(** And the one of the second pass of batch 2, which b2bdrive.py runs: some of its rows
    rewrite the texts of earlier ones, so it is not among the tables that settle. *)
Definition driven_tables : list (list string * list transform) :=
  round_tables ++ [(ORDER64, b2b_T)].



Lemma round_tables_ok :
  forallb (λ r, table_ok r.1 ORDER64 r.2) round_tables = true.
Proof. vm_compute. reflexivity. Qed.

Lemma round_table_enabled ORDER T name :
  (ORDER, T) ∈ round_tables → name ∈ ORDER64 → rows_ok (enabled ORDER name T) = true.
Proof.
  intros HT Hn. pose proof round_tables_ok as H. rewrite forallb_forall in H.
  apply table_ok_enabled with ORDER64; [|done].
  apply (H (ORDER, T)). by apply list_elem_of_In.
Qed.



(** [only] and [since] speak of commits that [ORDER] knows. *)
Definition since_known (ORDER : list string) (tr : transform) : bool :=
  match tr_since tr with Some c => str_mem c ORDER | None => true end.

Lemma list_index_known l x : str_mem x l = true → ∃ i, list_index l x = Ok i.
Proof.
  unfold str_mem. induction l as [|y l IH]; simpl; [done|]. rewrite String.eqb_sym.
  destruct (String.eqb y x); [by exists 0|]. simpl. intros [i ->]%IH. by exists (S i).
Qed.

Lemma allowed_known ORDER tr name :
  since_known ORDER tr = true → str_mem name ORDER = true ∨ tr_since tr = None →
  ∃ b, allowed ORDER tr name = Ok b.
Proof.
  unfold allowed, since_known. intros Hs Hn.
  destruct (match tr_only tr with Some _ => _ | None => false end); [by eexists|].
  destruct (tr_since tr) as [c|]; [|by eexists].
  destruct Hn as [Hn|]; [|done].
  destruct (list_index_known _ _ Hn) as [i ->], (list_index_known _ _ Hs) as [j ->].
  simpl. destruct (i <? j); by eexists.
Qed.

(** No row of a round table raises at a driver's commit for want of a name. *)
Definition names_known (r : list string * list transform) : bool :=
  forallb (λ tr, since_known r.1 tr &&
    forallb (λ n, str_mem n r.1 || bool_decide (tr_since tr = None)) ORDER64) r.2.

Lemma driven_tables_names : forallb names_known driven_tables = true.
Proof. vm_compute. reflexivity. Qed.

(** All their rows replace one text by another, at one place. *)
Definition plain_row (tr : transform) : bool :=
  match tr_body tr with Subst _ _ all => negb all | Fn _ => false end.

Lemma driven_tables_plain : forallb (λ r, forallb plain_row r.2) driven_tables = true.
Proof. vm_compute. reflexivity. Qed.

Lemma driven_table_names ORDER T tr :
  (ORDER, T) ∈ driven_tables → tr ∈ T →
  since_known ORDER tr = true ∧
  forallb (λ n, str_mem n ORDER || bool_decide (tr_since tr = None)) ORDER64 = true.
Proof.
  intros HT Htr. pose proof driven_tables_names as H.
  rewrite forallb_forall in H. specialize (H _ (proj1 (list_elem_of_In _ _) HT)).
  unfold names_known in H. rewrite forallb_forall in H.
  specialize (H _ (proj1 (list_elem_of_In _ _) Htr)). by apply andb_true_iff in H.
Qed.

Lemma driven_table_allowed ORDER T tr name :
  (ORDER, T) ∈ driven_tables → tr ∈ T → name ∈ ORDER64 → ∃ b, allowed ORDER tr name = Ok b.
Proof.
  intros HT Htr Hn. destruct (driven_table_names _ _ _ HT Htr) as [H1 H2].
  rewrite forallb_forall in H2. specialize (H2 _ (proj1 (list_elem_of_In _ _) Hn)).
  rewrite orb_true_iff, bool_decide_eq_true in H2. by apply allowed_known.
Qed.

(** [ORDER.index] raises for a name that is not there, and [allowed] only so. *)
Lemma list_index_raise l x e :
  list_index l x = Raise e → x ∉ l ∧ e = ValueError (x +:+ " is not in list").
Proof.
  induction l as [|y l IH]; cbn [list_index].
  { intros [= <-]. split; [apply not_elem_of_nil|done]. }
  destruct (String.eqb y x) eqn:E; [done|]. bools.
  intros [[Hn ->]%IH|(? & _ & ?)]%res_bind_Raise; [|done].
  split; [|done]. apply not_elem_of_cons. done.
Qed.

Lemma driven_table_disallowed ORDER T tr name e :
  (ORDER, T) ∈ driven_tables → tr ∈ T → allowed ORDER tr name = Raise e →
  name ∉ ORDER64 ∧ name ∉ ORDER ∧ is_Some (tr_since tr) ∧ e = ValueError (name +:+ " is not in list").
Proof.
  intros HT Htr Ha. split.
  { intros Hn. destruct (driven_table_allowed _ _ _ _ HT Htr Hn). congruence. }
  destruct (driven_table_names _ _ _ HT Htr) as [Hs _]. unfold allowed in Ha. unfold since_known in Hs.
  destruct (match tr_only tr with Some _ => _ | None => false end); [done|].
  destruct (tr_since tr) as [c|]; [|done].
  apply res_bind_Raise in Ha as [[Hn ->]%list_index_raise|(k & _ & Ha)]; [done|].
  destruct (list_index_known _ _ Hs) as [j Hj]. rewrite Hj in Ha. cbn [res_bind] in Ha. by destruct (k <? j).
Qed.

(** Where a pass stops: at the first row that [allowed] raises for, or that it lets through
    and whose text is ambiguous. *)
Lemma spec_rows_raise ORDER name d T e :
  spec_rows ORDER name d T = Raise e →
  ∃ T1 tr T2 d1 ids, T = T1 ++ tr :: T2 ∧ spec_rows ORDER name d T1 = Ok (d1, ids) ∧
    (allowed ORDER tr name = Raise e ∨
     ∃ s, allowed ORDER tr name = Ok true ∧ d1 !! tr_path tr = Some s ∧
          transform_text tr s = Raise e).
Proof.
  revert d. induction T as [|tr T IH]; intros d; simpl; [done|]. intros He.
  apply res_bind_Raise in He as [He|([d1 i1] & Hr & He)].
  - exists [], tr, T, d, []. do 2 (split; [done|]). unfold spec_row in He.
    apply res_bind_Raise in He as [He|(b & Hb & He)]; [by left|right].
    destruct b; simpl in He; [|done]. destruct (d !! tr_path tr) as [s|]; [|done].
    apply res_bind_Raise in He as [He|(? & _ & ?)]; [|done]. by exists s.
  - apply res_bind_Raise in He as [He|(? & _ & ?)]; [|done]. simpl in He.
    destruct (IH _ He) as (T1 & y & T2 & d2 & ids & -> & H1 & H2).
    exists (tr :: T1), y, T2, d2, (i1 ++ ids). split; [done|]. split; [|done].
    apply spec_rows_cons. eauto 10.
Qed.

(** ** Theorems *)

(** C1: [apply], with its cache, its lazy reads and its selective writes, does
    what the specification does: the same ids in the same order and the same
    message; every file holds the specification's text, its bytes kept as they
    were when that text is the one it already decoded to; and when a row raises
    the worktree is left as it was and the exception is the specification's. *)
Theorem apply_refines ORDER T wt name msg :
  match apply ORDER T wt name msg with
  | (wt', Raise e) => wt' = wt ∧ spec_rows ORDER name (doc_of wt msg) T = Raise e
  | (wt', Ok (msg', ids)) =>
      ∃ d, spec_rows ORDER name (doc_of wt msg) T = Ok (d, ids) ∧
           d !! MSG = Some msg' ∧
           ∀ p, wt' !! p = if String.eqb p MSG then wt !! p
                           else match d !! p, wt !! p with
                                | Some s, Some cur => Some (written s cur)
                                | _, _ => None
                                end
  end.
Proof. apply apply_spec. Qed.

(** C34: the tables of rounds 0918, 0920, 0921 and of batches 1 and 2 are
    idempotent on every worktree and message: running [apply] again on what it
    left, at the same commit, succeeds, reports no row and changes nothing. *)
Theorem round_tables_idempotent ORDER T name wt msg wt' msg' ids :
  (ORDER, T) ∈ round_tables → name ∈ ORDER64 →
  apply ORDER T wt name msg = (wt', Ok (msg', ids)) →
  apply ORDER T wt' name msg' = (wt', Ok (msg', [])).
Proof. intros HT Hn. apply apply_again. by apply round_table_enabled. Qed.

(** A worktree with one file that rows of r0921fix rewrite. *)
Definition demo_tree : tree := {[ r0921_IGN := lit "/llapi_root
/llapi_scan_test
" ]}.
Definition demo_msg : text := lit "LU-20603 llapi: demo
".
Definition demo_tree' : tree := {[ r0921_IGN := lit "/llapi_root
/llapi_scan_test
/llapi_scan_device_test
" ]}.

Lemma round_tables_idempotent_witness :
  apply ORDER64 r0921_T demo_tree "c02" demo_msg = (demo_tree', Ok (demo_msg, ["gitignore"])) ∧
  apply ORDER64 r0921_T demo_tree' "c02" demo_msg = (demo_tree', Ok (demo_msg, [])).
Proof.
  assert (apply ORDER64 r0921_T demo_tree "c02" demo_msg
          = (demo_tree', Ok (demo_msg, ["gitignore"]))) as H
    by (vm_compute; reflexivity).
  split; [exact H|].
  apply (round_tables_idempotent ORDER64 r0921_T "c02" demo_tree demo_msg demo_tree'
           demo_msg ["gitignore"]); [| |exact H].
  - apply list_elem_of_In. simpl. auto.
  - apply list_elem_of_In. vm_compute. auto.
Defined.

(** the three branches of one substitution row.  It is skipped, with the
    text unchanged, exactly when the old text is absent or the insertion is
    already there; it fires exactly on one (non-overlapping) occurrence, and then
    only that occurrence changes; every other text is refused. *)
Theorem transform_text_branches tid path old new only since s :
  old ≠ [] →
  let row := Tr tid path (Subst old new false) only since in
  (transform_text row s = Ok (s, false) ∧
     (py_in old s = false ∨ (py_in old new = true ∧ py_in new s = true))) ∨
  (∃ a b, s = a ++ old ++ b ∧ transform_text row s = Ok (a ++ new ++ b, true) ∧
     py_count old s = 1 ∧ ¬ (py_in old new = true ∧ py_in new s = true)) ∨
  (∃ e, transform_text row s = Raise e ∧ 2 ≤ py_count old s ∧
     ¬ (py_in old new = true ∧ py_in new s = true)).
Proof.
  intros Hne row. pose proof (row_cases tid path old new only since s) as H.
  fold row in H. unfold inserted in H.
  destruct (transform_text row s) as [[t [|]]|e] eqn:E.
  - right. left. destruct H as (Hc & Hi & ->).
    destruct (row_fires _ _ _ _ _ _ _ _ Hne E) as (a & b & -> & Ht & _ & _).
    exists a, b. rewrite Ht. split; [done|]. split; [done|]. split; [done|].
    intros [H1 H2]. by rewrite H1, H2 in Hi.
  - left. destruct H as [-> [H|H]]; (split; [done|]).
    + left. by apply count_zero.
    + right. by apply andb_true_iff in H.
  - right. right. destruct H as [Hc Hi]. exists e. split; [done|]. split; [done|].
    intros [H1 H2]. by rewrite H1, H2 in Hi.
Qed.

Lemma transform_text_branches_witness :
  lit "ab" ≠ [] ∧
  let row := Tr "x" "f" (Subst (lit "ab") (lit "cd") false) None None in
  (transform_text row (lit "-ab-") = Ok (lit "-ab-", false) ∧
     (py_in (lit "ab") (lit "-ab-") = false ∨
      (py_in (lit "ab") (lit "cd") = true ∧ py_in (lit "cd") (lit "-ab-") = true))) ∨
  (∃ a b, lit "-ab-" = a ++ lit "ab" ++ b ∧
     transform_text row (lit "-ab-") = Ok (a ++ lit "cd" ++ b, true) ∧
     py_count (lit "ab") (lit "-ab-") = 1 ∧
     ¬ (py_in (lit "ab") (lit "cd") = true ∧ py_in (lit "cd") (lit "-ab-") = true)) ∨
  (∃ e, transform_text row (lit "-ab-") = Raise e ∧ 2 ≤ py_count (lit "ab") (lit "-ab-") ∧
     ¬ (py_in (lit "ab") (lit "cd") = true ∧ py_in (lit "cd") (lit "-ab-") = true)).
Proof.
  split; [done|].
  apply (transform_text_branches "x" "f" (lit "ab") (lit "cd") None None (lit "-ab-")).
  done.
Defined.


(** The row of a table with a given id. *)
Definition row_named (tid : string) (T : list transform) : transform :=
  default (r3_t "" "" [] [] None None false)
          (List.find (λ tr, String.eqb (tr_id tr) tid) T).

Lemma row_named_in tid T :
  existsb (λ tr, String.eqb (tr_id tr) tid) T = true → row_named tid T ∈ T.
Proof.
  unfold row_named. induction T as [|x T IH]; simpl; [done|].
  destruct (String.eqb (tr_id x) tid); [by left|]. intros H. right. by apply IH.
Qed.


(** C36: for the tables of all the rounds, at a commit of whatever name, [apply] that raises
    leaves the worktree as it was before the call, and raises one of two exceptions.  At a
    row that was allowed, and whose old text stands two or more times in the text the
    earlier rows produced, it is the engine's own RuntimeError with the row's id and the
    count.  At a row with [since] it is the ValueError of [ORDER.index], and then the name
    of the commit is not in the table's order, nor is it one of the names c00 to c63 the
    drivers give to the commits of a stack of 64: for those the first is the only one. *)
Theorem round_tables_raise ORDER T name wt msg wt' e :
  (ORDER, T) ∈ driven_tables →
  apply ORDER T wt name msg = (wt', Raise e) →
  wt' = wt ∧
  ∃ T1 tr T2 d ids, T = T1 ++ tr :: T2 ∧
    spec_rows ORDER name (doc_of wt msg) T1 = Ok (d, ids) ∧
    ((name ∉ ORDER64 ∧ name ∉ ORDER ∧ is_Some (tr_since tr) ∧
      e = ValueError (name +:+ " is not in list")) ∨
     ∃ s old new, allowed ORDER tr name = Ok true ∧ d !! tr_path tr = Some s ∧
       tr_body tr = Subst old new false ∧ 2 ≤ py_count old s ∧
       e = RuntimeError (tr_id tr +:+ ": old text occurs "
                         +:+ pretty (N.of_nat (py_count old s)) +:+ " times")).
Proof.
  intros HT Ha. pose proof (apply_spec ORDER T wt name msg) as H. rewrite Ha in H.
  destruct H as [-> He]. split; [done|].
  destruct (spec_rows_raise _ _ _ _ _ He) as (T1 & tr & T2 & d & ids & HTs & H1 & Hr).
  assert (tr ∈ T) as Htr by (rewrite HTs; apply elem_of_app; right; by left).
  exists T1, tr, T2, d, ids. do 2 (split; [done|]).
  destruct Hr as [Hr|(s & Hal & Hd & Ht)]; [left; by apply (driven_table_disallowed ORDER T tr)|right].
  assert (plain_row tr = true) as Hok.
  { pose proof driven_tables_plain as H. rewrite forallb_forall in H.
    specialize (H _ (proj1 (list_elem_of_In _ _) HT)). cbn [snd] in H. rewrite forallb_forall in H.
    by apply H, list_elem_of_In. }
  destruct tr as [tid path [old new [|]|fn] only since]; simpl in Hok; try done.
  exists s, old, new. do 3 (split; [done|]).
  pose proof (row_cases tid path old new only since s) as Hc. rewrite Ht in Hc.
  destruct Hc as [Hc Hi]. split; [done|].
  unfold transform_text in Ht. simpl in Ht. unfold inserted in Hi. rewrite Hi in Ht.
  destruct (py_count old s) as [|[|n]]; [lia..|]. simpl in Ht. by injection Ht as <-.
Qed.

Definition twice_tree : tree := {[ r0921_IGN := lit "/llapi_scan_test
/llapi_scan_test
" ]}.

Lemma round_tables_raise_witness :
  twice_tree = twice_tree ∧
  ∃ T1 tr T2 d ids, r0921_T = T1 ++ tr :: T2 ∧
    spec_rows ORDER64 "c02" (doc_of twice_tree demo_msg) T1 = Ok (d, ids) ∧
    (("c02" ∉ ORDER64 ∧ "c02" ∉ ORDER64 ∧ is_Some (tr_since tr) ∧
      RuntimeError "gitignore: old text occurs 2 times" =
      ValueError ("c02" +:+ " is not in list")) ∨
     ∃ s old new, allowed ORDER64 tr "c02" = Ok true ∧ d !! tr_path tr = Some s ∧
       tr_body tr = Subst old new false ∧ 2 ≤ py_count old s ∧
       RuntimeError "gitignore: old text occurs 2 times" =
       RuntimeError (tr_id tr +:+ ": old text occurs "
                     +:+ pretty (N.of_nat (py_count old s)) +:+ " times")).
Proof.
  apply (round_tables_raise ORDER64 r0921_T "c02" twice_tree demo_msg twice_tree).
  - apply list_elem_of_In. simpl. auto.
  - vm_compute. reflexivity.
Defined.

(** what a successful [apply] leaves alone, for any table: it creates and
    deletes no file; a file that no row allowed at this commit names keeps its
    bytes; and the ids it reports are ids of allowed rows, in table order. *)
Theorem apply_frame ORDER T wt name msg wt' msg' ids :
  apply ORDER T wt name msg = (wt', Ok (msg', ids)) →
  (∀ p, is_Some (wt' !! p) ↔ is_Some (wt !! p)) ∧
  (∀ p, (∀ tr, tr ∈ enabled ORDER name T → tr_path tr ≠ p) → wt' !! p = wt !! p) ∧
  ids `sublist_of` (tr_id <$> enabled ORDER name T).
Proof.
  intros Ha. pose proof (apply_spec ORDER T wt name msg) as H. rewrite Ha in H.
  destruct H as (d & Hd & Hm & Hwt).
  assert (∀ p, p ≠ MSG → doc_of wt msg !! p = universal_newlines <$> wt !! p) as Hdoc.
  { intros p Hp. unfold doc_of. by rewrite lookup_insert_ne, lookup_fmap. }
  split; [|split].
  - intros p. rewrite Hwt. destruct (String.eqb_spec p MSG) as [|Hp]; [done|].
    pose proof (spec_rows_dom _ _ _ _ _ _ p Hd) as Hi. rewrite Hdoc in Hi by done.
    destruct (d !! p), (wt !! p); simpl in *; done || (split; by eexists) || naive_solver.
  - intros p Hp. rewrite Hwt. destruct (String.eqb_spec p MSG) as [|Hn]; [done|].
    rewrite (spec_rows_frame _ _ _ _ _ _ p Hd Hp), Hdoc by done.
    destruct (wt !! p); simpl; [|done]. unfold written. by rewrite bool_decide_eq_true_2.
  - by eapply spec_rows_ids.
Qed.

Lemma apply_frame_witness :
  (∀ p, is_Some (demo_tree' !! p) ↔ is_Some (demo_tree !! p)) ∧
  (∀ p, (∀ tr, tr ∈ enabled ORDER64 "c02" r0921_T → tr_path tr ≠ p) →
        demo_tree' !! p = demo_tree !! p) ∧
  ["gitignore"] `sublist_of` (tr_id <$> enabled ORDER64 "c02" r0921_T).
Proof.
  apply (apply_frame ORDER64 r0921_T demo_tree "c02" demo_msg demo_tree' demo_msg).
  vm_compute. reflexivity.
Defined.

(** the man-page moves of [move_since].  Each is a rearrangement: the block
    from its start line up to its end line is cut out and put back, unchanged, in
    front of the first anchor, and the rest of the page keeps its order; and a
    page that has been moved is not moved again. *)
Theorem since_moves_correct anchor start stop s t :
  (anchor, start, stop) ∈ since_moves → r3__move s anchor start stop = Ok (t, true) →
  (∃ x y blk z, s = x ++ y ++ blk ++ z ∧ t = x ++ blk ++ y ++ z ∧
     py_find anchor s = Some (length x) ∧ (∃ r, blk = start ++ r) ∧ ∃ r, z = stop ++ r) ∧
  r3__move t anchor start stop = Ok (t, false).
Proof.
  intros Hm Ht. pose proof since_moves_ok as H. rewrite forallb_forall in H.
  specialize (H _ (proj1 (list_elem_of_In _ _) Hm)). unfold move_ok in H. simpl in H. bools.
  case_bool_decide; [done|]. split; [by eapply move_shape|by eapply move_again].
Qed.

Definition demo_page : text := lit "x
" ++ r3_SYN_SIZE ++ lit "y
" ++ r3_SYN_SINCE ++ lit "z
" ++ r3_SYN_END.
Definition demo_page' : text := lit "x
" ++ r3_SYN_SINCE ++ lit "z
" ++ r3_SYN_SIZE ++ lit "y
" ++ r3_SYN_END.

Lemma since_moves_correct_witness :
  (∃ x y blk z, demo_page = x ++ y ++ blk ++ z ∧ demo_page' = x ++ blk ++ y ++ z ∧
     py_find r3_SYN_SIZE demo_page = Some (length x) ∧
     (∃ r, blk = r3_SYN_SINCE ++ r) ∧ ∃ r, z = r3_SYN_END ++ r) ∧
  r3__move demo_page' r3_SYN_SIZE r3_SYN_SINCE r3_SYN_END = Ok (demo_page', false).
Proof.
  apply (since_moves_correct r3_SYN_SIZE r3_SYN_SINCE r3_SYN_END demo_page demo_page').
  - apply list_elem_of_In. simpl. auto.
  - vm_compute. reflexivity.
Defined.

(** [add_cookie_tmp] inserts [find_cookie_tmp()] once: what it adds is the
    function and nothing else, in front of a line that opens a comment and above
    the anchor it looked for, and the second run finds it there. *)
Theorem add_cookie_tmp_once s t :
  r3_add_cookie_tmp s = Ok (t, true) →
  (∃ a b, s = a ++ b ∧ t = a ++ r3_COOKIE_TMP_FN ++ b ∧ (∃ r, b = lit "/*
" ++ r) ∧ ∃ u, py_find (r3_WRITE_DOC_TAIL ++ r3_WRITE_HDR) s = Some (length a + u)) ∧
  r3_add_cookie_tmp t = Ok (t, false).
Proof.
  intros H. pose proof (cookie_tmp_shape s t H) as Hs. split; [done|].
  destruct Hs as (a & b & _ & -> & _). unfold r3_add_cookie_tmp.
  assert (py_in (lit "static int find_cookie_tmp(") (a ++ r3_COOKIE_TMP_FN ++ b) = true)
    as ->; [|done].
  eapply py_in_trans; [exact cookie_tmp_named|]. apply py_in_mid.
Qed.

Definition demo_c : text := lit "}

/*
 * Doc.
" ++ r3_WRITE_DOC_TAIL ++ r3_WRITE_HDR.
Definition demo_c' : text := lit "}

" ++ r3_COOKIE_TMP_FN ++ lit "/*
 * Doc.
" ++ r3_WRITE_DOC_TAIL ++ r3_WRITE_HDR.

Lemma add_cookie_tmp_once_witness :
  (∃ a b, demo_c = a ++ b ∧ demo_c' = a ++ r3_COOKIE_TMP_FN ++ b ∧ (∃ r, b = lit "/*
" ++ r) ∧ ∃ u, py_find (r3_WRITE_DOC_TAIL ++ r3_WRITE_HDR) demo_c = Some (length a + u)) ∧
  r3_add_cookie_tmp demo_c' = Ok (demo_c', false).
Proof. apply (add_cookie_tmp_once demo_c demo_c'). vm_compute. reflexivity. Defined.

(** The r3fix rows whose single-row check fails: two deletions, and the three
    function rows. *)
Definition r3_unchecked : list string :=
  ["6379d8eb"; "617400ed"; "a2ba1626"; "fff5372a-dup"; "e31be789-fn"].

(** And those of b2bfix.py: deletions, and rows that move a text. *)
Definition b2b_unchecked : list string :=
  ["dev-0"; "int-live-0"; "makeam-live-0"; "ring-live-0"; "parse-live-0"; "scantest-live-0";
   "msg-68158-phantom"; "c00-stx-enotty"; "c03-stx-enotty"; "c06-sweep-code"; "artem-want-link";
   "m-c00-new"; "f-c08-fdcmt-del"; "g-c07-tp"].

Lemma r3_rows_checked :
  forallb (λ tr, row_ok (tr_body tr) || str_mem (tr_id tr) (r3_unchecked ++ b2b_unchecked))
    (r3_T ++ b2b_T) = true.
Proof. vm_compute. reflexivity. Qed.

(** each of the 66 other rows of r3fix's own table, and each of the 209 other rows of
    b2bfix.py's, is idempotent by itself, on every text it accepts: what it returns it
    leaves alone the next time. *)
Theorem r3_rows_idempotent tr s t ok :
  tr ∈ r3_T ++ b2b_T → tr_id tr ∉ r3_unchecked ++ b2b_unchecked → transform_text tr s = Ok (t, ok) →
  transform_text tr t = Ok (t, false).
Proof.
  intros Hin Hid Ht. pose proof r3_rows_checked as H. rewrite forallb_forall in H.
  specialize (H _ (proj1 (list_elem_of_In _ _) Hin)).
  apply orb_true_iff in H as [H|H]; [|by apply str_mem_spec in H].
  apply transform_settled; [done|]. by eapply transform_settles.
Qed.

Lemma r3_rows_idempotent_witness :
  transform_text (row_named "4e556ce9" r3_T) (lit "	char mfs[PATH_MAX] = { 0 };
") = Ok (lit "	char mfs[PATH_MAX] = { 0 };
", false).
Proof.
  apply (r3_rows_idempotent (row_named "4e556ce9" r3_T) (lit "	char mfs[MAX_OBD_NAME + 1] = { 0 };
") _ true).
  - apply elem_of_app. left. apply row_named_in. vm_compute. reflexivity.
  - intros H%str_mem_spec. revert H. vm_compute. discriminate.
  - vm_compute. reflexivity.
Defined.

(** the deletion rows are not idempotent on every text, against the
    module's description of its rows: a deleted text that stood inside another
    copy of itself leaves that copy, and the row fires a second time. *)
Theorem r3_deletion_fires_twice :
  ∃ tr s t u, tr ∈ r3_T ∧ tr_id tr = "6379d8eb" ∧
    transform_text tr s = Ok (t, true) ∧ transform_text tr t = Ok (u, true) ∧ t ≠ u.
Proof.
  exists (row_named "6379d8eb" r3_T), (lit " ${sdir:+ ${sdir:+--search $sdir}--search $sdir}"),
         (lit " ${sdir:+--search $sdir}"), [].
  split; [apply row_named_in; vm_compute; reflexivity|].
  split; [vm_compute; reflexivity|]. split; [vm_compute; reflexivity|].
  split; [vm_compute; reflexivity|done].
Qed.
