(* ===== verification/Drive.v ===== *)
(** The drivers that rebuild a stack of commits with a fix table applied to
    every tree: r3drive.py, the copies of it beside the later tables
    (r0918drive, r0920drive, r0921drive, b1drive, b2drive), and b2bdrive.py,
    which pins the committer date and reuses the commits of an earlier drive.

    The worktree is given over to the driver: [git checkout -f] leaves exactly the
    files of the commit in it, and [git add -u] with [git write-tree] records what
    [apply] made of them.  What the driver prints is the list of [entry]s, the new
    tip and the ids that never applied. *)
From S2P Require Import Prelude PyStr R3Engine R3Facts R3Refine R3Idem R3Table RoundTables B2eTable Git.
Import R3.

Section drive.
Context {sha repo : Type} `{EqDecision sha} `{Git sha repo}.

(** One line of the report. *)
Record entry := Entry {
  e_name : string;
  e_sha : sha;
  e_new : sha;
  e_same : bool;
  e_reused : bool;
  e_applied : list string;
}.

(** The identity [commit-tree] gets: r3drive and its copies pass five of the six
    fields, so the committer date is the clock's; b2bdrive passes all six. *)
Definition env_r3 (r : repo) (c : commit sha) : meta :=
  let m := c_meta c in Meta (m_an m) (m_ae m) (m_ad m) (m_cn m) (m_ce m) (g_now r).

Definition env_b2b (r : repo) (c : commit sha) : meta :=
  let m := c_meta c in Meta (m_an m) (m_ae m) (m_ad m) (m_cn m) (m_ce m) (m_cd m).

(** [git("log", "-1", "--format=%B", sha)]: the output of git is read in text mode. *)
Definition log_msg (c : commit sha) : text := universal_newlines (g_log_B c).

(** [if i < len(prev): ...]: the commit at this position of the last drive, if
    its tree, parent and message are the ones about to be committed. *)
Definition reuse (r : repo) (prev_i : option sha) (wt : tree) (parent : sha) (msg : text)
    : res (option sha) :=
  match prev_i with
  | None => Ok None
  | Some p =>
      match g_show r p with
      | None => Raise (CalledProcessError "rev-parse")
      | Some pc =>
          if negb (bool_decide (c_tree pc = wt)) then Ok None
          else match c_parent pc with
               | None => Raise (CalledProcessError "rev-parse")
               | Some q =>
                   if negb (bool_decide (q = parent)) then Ok None
                   else if bool_decide (py_rstrip (log_msg pc) = py_rstrip msg)
                   then Ok (Some p) else Ok None
               end
      end
  end.

(** The body of the loop over the stack. *)
Definition drive_one (env : repo → commit sha → meta) (ORDER : list string)
    (T : list transform) (prev : list sha) (r : repo) (parent : sha) (i : nat)
    (s : sha) (name : string) : repo * res entry :=
  match g_show r s with
  | None => (r, Raise (CalledProcessError "checkout"))
  | Some c =>
      match apply ORDER T (c_tree c) name (log_msg c) with
      | (_, Raise e) => (r, Raise e)
      | (wt, Ok (msg, applied)) =>
          match reuse r (prev !! i) wt parent msg with
          | Raise e => (r, Raise e)
          | Ok (Some p) =>
              (r, Ok (Entry name s p (bool_decide (c_tree c = wt)) true applied))
          | Ok None =>
              let (r', new) := g_commit_tree r (Commit wt (Some parent) msg (env r c)) in
              (r', Ok (Entry name s new (bool_decide (c_tree c = wt)) false applied))
          end
      end
  end.

Fixpoint drive_loop (env : repo → commit sha → meta) (ORDER : list string)
    (T : list transform) (prev : list sha) (r : repo) (parent : sha) (i : nat)
    (work : list (sha * string)) : repo * res (list entry) :=
  match work with
  | [] => (r, Ok [])
  | (s, name) :: work' =>
      match drive_one env ORDER T prev r parent i s name with
      | (r1, Raise e) => (r1, Raise e)
      | (r1, Ok e) =>
          match drive_loop env ORDER T prev r1 (e_new e) (S i) work' with
          | (r2, Raise x) => (r2, Raise x)
          | (r2, Ok es) => (r2, Ok (e :: es))
          end
      end
  end.

(** [NEWTIP] and [NEVER-APPLIED]. *)
Definition new_tip (base : sha) (es : list entry) : sha := tip_of base (e_new <$> es).

Definition never_applied (T : list transform) (es : list entry) : list string :=
  List.filter (λ tid, negb (str_mem tid (mjoin (e_applied <$> es)))) (tr_id <$> T).

(** r3drive.py *)
Definition r3_drive (r : repo) (base tip : sha) : repo * res (list entry) :=
  match g_rev_list r base tip with
  | None => (r, Raise (CalledProcessError "rev-list"))
  | Some shas =>
      if negb (length shas =? length r3_ORDER)
      then (r, Raise (AssertionError "len(shas) == len(r3fix.ORDER)"))
      else drive_loop env_r3 r3_ORDER r3_T [] r base 0 (zip shas r3_ORDER)
  end.

(** [names = ["c%02d" % i for i in range(len(shas))]] *)
Definition drive_names (shas : list sha) : list string :=
  (λ i, "c" +:+ two_digits i) <$> seq 0 (length shas).

(** r0918drive.py, r0920drive.py, r0921drive.py, b1drive.py and b2drive.py, over
    their own table *)
Definition round_drive (ORDER : list string) (T : list transform)
    (r : repo) (base tip : sha) : repo * res (list entry) :=
  match g_rev_list r base tip with
  | None => (r, Raise (CalledProcessError "rev-list"))
  | Some shas => drive_loop env_r3 ORDER T [] r base 0 (zip shas (drive_names shas))
  end.

(** b2bdrive.py *)
Definition b2b_drive (ORDER : list string) (T : list transform)
    (r : repo) (base tip : sha) (prev_tip : option sha) : repo * res (list entry) :=
  match g_rev_list r base tip with
  | None => (r, Raise (CalledProcessError "rev-list"))
  | Some shas =>
      let prev := match prev_tip with
                  | None => Some []
                  | Some p => g_rev_list r base p
                  end in
      match prev with
      | None => (r, Raise (CalledProcessError "rev-list"))
      | Some prev => drive_loop env_b2b ORDER T prev r base 0 (zip shas (drive_names shas))
      end
  end.

(** The scripts. *)
Definition drive_r0918 := round_drive r3_ORDER r0918_T.
Definition drive_r0920 := round_drive ORDER64 r0920_T.
Definition drive_r0921 := round_drive ORDER64 r0921_T.
Definition drive_b1 := round_drive ORDER64 b1_T.
Definition drive_b2 := round_drive ORDER64 b2_T.
Definition drive_b2b := b2b_drive ORDER64 b2b_T.

Definition round_drivers := [drive_r0918; drive_r0920; drive_r0921; drive_b1; drive_b2].
End drive.

Arguments entry sha : clear implicits.

(** ** Facts *)

Section facts.
Context {sha repo : Type} `{EqDecision sha} `{GitLaws sha repo}.
Context (env : repo → commit sha → meta) (ORDER : list string) (T : list transform).
Implicit Types (r : repo) (e : entry sha) (es : list (entry sha)).

(** A message without carriage returns is read back with one newline more. *)
Lemma log_msg_line (c : commit sha) : crfree (c_msg c) = true → log_msg c = c_msg c ++ [nl].
Proof.
  intros Hc. unfold log_msg. rewrite log_B_line. apply crfree_universal.
  by rewrite crfree_app, Hc.
Qed.

Lemma log_msg_rstrip (c : commit sha) :
  crfree (c_msg c) = true → py_rstrip (log_msg c) = py_rstrip (c_msg c).
Proof. intros Hc. rewrite log_msg_line by done. by apply py_rstrip_snoc. Qed.

Definition keeps r r' : Prop := ∀ x d, g_show r x = Some d → g_show r' x = Some d.

#[export] Instance keeps_preorder : PreOrder keeps.
Proof. split; unfold keeps; repeat intro; eauto. Qed.

(** What an entry says is so in the repository it was reported for. *)
Definition entry_ok r parent (sn : sha * string) e : Prop :=
  e_sha e = sn.1 ∧ e_name e = sn.2 ∧
  ∃ c nc msg, g_show r (e_sha e) = Some c ∧ g_show r (e_new e) = Some nc ∧
    c_parent nc = Some parent ∧
    apply ORDER T (c_tree c) (e_name e) (log_msg c) = (c_tree nc, Ok (msg, e_applied e)) ∧
    e_same e = bool_decide (c_tree c = c_tree nc) ∧
    (if e_reused e then py_rstrip (log_msg nc) = py_rstrip msg
     else c_msg nc = msg ∧ ∃ r0, c_meta nc = env r0 c).

(** A commit of the earlier drive is reused only when it is the one wanted. *)
Lemma reuse_Some r prev_i wt parent msg p :
  reuse r prev_i wt parent msg = Ok (Some p) ↔
  prev_i = Some p ∧ ∃ pc, g_show r p = Some pc ∧ c_tree pc = wt ∧
    c_parent pc = Some parent ∧ py_rstrip (log_msg pc) = py_rstrip msg.
Proof.
  unfold reuse. destruct prev_i as [q|]; [|naive_solver].
  destruct (g_show r q) as [pc|] eqn:Hp; [|naive_solver].
  destruct (decide (c_tree pc = wt)); [rewrite (bool_decide_eq_true_2 (_ = wt)) by done
    |rewrite (bool_decide_eq_false_2 (_ = wt)) by done; naive_solver]; simpl.
  destruct (c_parent pc) as [o|] eqn:Ho; [|naive_solver].
  repeat case_bool_decide; naive_solver.
Qed.

Lemma drive_one_ok prev r parent i s name r' e :
  g_ok r → is_Some (g_show r parent) →
  drive_one env ORDER T prev r parent i s name = (r', Ok e) →
  g_ok r' ∧ keeps r r' ∧ entry_ok r' parent (s, name) e.
Proof.
  intros Hok Hpar. unfold drive_one. destruct (g_show r s) as [c|] eqn:Hs; [|done].
  destruct (apply ORDER T (c_tree c) name (log_msg c)) as [wt [[msg ap]|x]] eqn:Ha; [|done].
  destruct (reuse _ _ _ _ _) as [[p|]|] eqn:Hr; [..|done].
  - apply reuse_Some in Hr as (_ & pc & ? & <- & ? & ?). intros [= <- <-].
    do 2 (split; [done|]). do 2 (split; [done|]). exists c, pc, msg. by repeat (split; [done|]).
  - destruct (g_commit_tree _ _) as [r1 new] eqn:Hc. intros [= <- <-].
    pose proof (commit_tree_read _ _ _ _ Hc). pose proof (commit_tree_keep _ _ _ _ s _ Hc Hs).
    split; [by eapply (commit_tree_ok r _ parent); [| |exact Hpar|exact Hc]|]. split; [intros x d; by apply (commit_tree_keep _ _ _ _ x d Hc)|].
    do 2 (split; [done|]). eexists c, _, msg. do 5 (split; [done|]). simpl. eauto.
Qed.

Lemma entry_ok_keeps r r' parent sn e : keeps r r' → entry_ok r parent sn e → entry_ok r' parent sn e.
Proof. intros Hk (? & ? & c & nc & msg & ? & ? & ?). do 2 (split; [done|]). exists c, nc, msg. naive_solver. Qed.

(** Every entry of a list, each on the commit the one before it made. *)
Fixpoint entries_ok r parent (work : list (sha * string)) es : Prop :=
  match work, es with
  | [], [] => True
  | sn :: work', e :: es' => entry_ok r parent sn e ∧ entries_ok r (e_new e) work' es'
  | _, _ => False
  end.

Lemma entries_ok_keeps r r' parent work es :
  keeps r r' → entries_ok r parent work es → entries_ok r' parent work es.
Proof.
  intros Hk. revert parent es. induction work as [|sn work IH]; intros parent [|e es]; simpl; try done.
  intros [? ?]. split; [by eapply entry_ok_keeps|auto].
Qed.

Lemma entries_ok_chain r parent work es :
  entries_ok r parent work es → chain r parent (e_new <$> es).
Proof.
  revert parent es. induction work as [|sn work IH]; intros parent [|e es]; simpl; try done.
  intros [(_ & _ & c & nc & msg & _ & ? & ? & _) ?]. split; eauto.
Qed.

Lemma drive_loop_ok prev work r parent i r' es :
  g_ok r → is_Some (g_show r parent) →
  drive_loop env ORDER T prev r parent i work = (r', Ok es) →
  g_ok r' ∧ keeps r r' ∧ entries_ok r' parent work es.
Proof.
  revert r parent i es. induction work as [|[s name] work IH]; intros r parent i es Hok Hpar;
    simpl; [by intros [= <- <-]|].
  destruct (drive_one _ _ _ _ _ _ _ _ _) as [r1 [e|x]] eqn:H1; [|done].
  apply drive_one_ok in H1 as (Hok1 & Hk1 & He1); [|done..].
  destruct (drive_loop _ _ _ _ _ _ _ _) as [r2 [es'|x]] eqn:H2; [|done].
  intros [= <- <-]. apply IH in H2 as (Hok2 & Hk2 & He2); [|done|destruct He1 as (_ & _ & ? & ? & ? & _ & ? & _); eauto].
  split; [done|]. split; [by etrans|]. split; [by eapply entry_ok_keeps|done].
Qed.

(** Without an earlier drive nothing is reused. *)
Lemma drive_loop_fresh work r parent i r' es :
  drive_loop env ORDER T [] r parent i work = (r', Ok es) → Forall (λ e, e_reused e = false) es.
Proof.
  revert r parent i r' es. induction work as [|[s name] work IH]; intros r parent i r' es; simpl.
  { by intros [= _ <-]. }
  unfold drive_one. destruct (g_show r s); [|done].
  destruct (apply _ _ _ _ _) as [? [[? ?]|]]; [|done]. simpl.
  destruct (g_commit_tree _ _). destruct (drive_loop _ _ _ _ _ _ _ _) as [? [?|]] eqn:E; [|done].
  intros [= _ <-]. constructor; [done|eauto].
Qed.

(** A drive over commits that are all there already: nothing is built, and each
    is reused. *)
Lemma drive_loop_reuse r prev work parent i es :
  msg_crfree T = true →
  entries_ok r parent work es → (∀ j e, es !! j = Some e → prev !! (i + j) = Some (e_new e)) →
  drive_loop env ORDER T prev r parent i work =
  (r, Ok ((λ e, Entry (e_name e) (e_sha e) (e_new e) (e_same e) true (e_applied e)) <$> es)).
Proof.
  intros Hcr. revert parent i es.
  induction work as [|[s name] work IH]; intros parent i [|e es]; simpl; try done.
  intros [(Hs & Hn & c & nc & msg & Hc & Hnc & Hp & Ha & Hsame & Hm) Hes] Hprev.
  simpl in *. rewrite <-Hs, <-Hn in *. unfold drive_one. rewrite Hc, Ha.
  pose proof (Hprev 0 e eq_refl) as Hp0. rewrite Nat.add_0_r in Hp0.
  assert (reuse r (prev !! i) (c_tree nc) parent msg = Ok (Some (e_new e))) as ->.
  { apply reuse_Some. split; [done|]. exists nc. do 3 (split; [done|]).
    destruct (e_reused e); [done|]. destruct Hm as [<- _]. apply log_msg_rstrip.
    eapply apply_msg_crfree; [done| |exact Ha]. apply universal_crfree. }
  simpl. rewrite (IH (e_new e) (S i) es); [by rewrite Hsame|done|].
  intros j e' Hj. replace (S i + j) with (i + S j) by lia. by apply Hprev.
Qed.

(** What the loop needs of the earlier drive: each of its commits has a parent. *)
Definition prev_ok r (prev : list sha) : Prop :=
  ∀ i p, prev !! i = Some p → ∃ pc q, g_show r p = Some pc ∧ c_parent pc = Some q.

Lemma chain_prev_ok r base l : chain r base l → prev_ok r l.
Proof.
  revert base. induction l as [|x l IH]; intros base; [done|].
  intros [(c & ? & ?) Hl] [|i] p Hi; simplify_eq/=; [eauto|]. by eapply IH.
Qed.

Lemma prev_ok_keeps r r' prev : keeps r r' → prev_ok r prev → prev_ok r' prev.
Proof. intros Hk Hp i p (pc & q & ? & ?)%Hp. eauto. Qed.

(** One turn of the loop raises only what [apply] raises. *)
Lemma drive_one_raise prev r parent i s name r' x c :
  prev_ok r prev → g_show r s = Some c →
  drive_one env ORDER T prev r parent i s name = (r', Raise x) →
  r' = r ∧ (apply ORDER T (c_tree c) name (log_msg c)).2 = Raise x.
Proof.
  unfold drive_one. intros Hp ->. destruct (apply _ _ _ _ _) as [wt [[msg ap]|y]].
  - destruct (reuse _ _ _ _ _) as [[p|]|y] eqn:Hr; [done|by destruct (g_commit_tree _ _)|].
    exfalso. unfold reuse in Hr. destruct (prev !! i) as [p|] eqn:Hi; [|done].
    destruct (Hp _ _ Hi) as (pc & q & Hpc & Hq). rewrite Hpc, Hq in Hr.
    by repeat case_match.
  - by intros [= <- <-].
Qed.

Lemma drive_loop_raise prev work r parent i r' x :
  g_ok r → is_Some (g_show r parent) → prev_ok r prev →
  (∀ sn, sn ∈ work → is_Some (g_show r sn.1)) →
  drive_loop env ORDER T prev r parent i work = (r', Raise x) →
  keeps r r' ∧ ∃ s name c, (s, name) ∈ work ∧ g_show r s = Some c ∧
    (apply ORDER T (c_tree c) name (log_msg c)).2 = Raise x.
Proof.
  revert r parent i. induction work as [|[s name] work IH]; intros r parent i Hok Hpar Hprev Hw;
    simpl; [done|].
  destruct (Hw (s, name) ltac:(by left)) as [c Hc]. simpl in Hc.
  destruct (drive_one _ _ _ _ _ _ _ _ _) as [r1 [e|y]] eqn:H1.
  - apply drive_one_ok in H1 as (Hok1 & Hk1 & He1); [|done..].
    destruct (drive_loop _ _ _ _ _ _ _ _) as [r2 [es'|y]] eqn:H2; [done|].
    intros [= <- <-]. apply IH in H2 as (Hk2 & s' & n' & c' & Hin & Hs' & Ha); [|done|..].
    + split; [by etrans|]. destruct (Hw (s', n') ltac:(by right)) as [c2 Hc2]. simpl in Hc2.
      pose proof (Hk1 _ _ Hc2). simplify_eq. exists s', n', c'. split; [by right|done].
    + destruct He1 as (_ & _ & ? & ? & ? & _ & ? & _); eauto.
    + by eapply prev_ok_keeps.
    + intros sn Hsn. destruct (Hw sn ltac:(by right)) as [d Hd]. exists d. by apply Hk1.
  - apply drive_one_raise with (c := c) in H1 as [-> Ha]; [|done..]. intros [= <- <-].
    split; [done|]. exists s, name, c. split; [by left|done].
Qed.

(** With the same identity for every run, a second drive finds every object. *)
Lemma drive_loop_again r work parent i es :
  (∀ r1 r2 c, env r1 c = env r2 c) → g_ok r →
  entries_ok r parent work es → Forall (λ e, e_reused e = false) es →
  drive_loop env ORDER T [] r parent i work = (r, Ok es).
Proof.
  intros Henv Hok. revert parent i es.
  induction work as [|[s name] work IH]; intros parent i [|e es]; simpl; try done.
  intros [(Hs & Hn & c & nc & msg & Hc & Hnc & Hp & Ha & Hsame & Hfresh) Hes] Hf.
  apply Forall_cons in Hf as [Hr Hf]. rewrite Hr in Hfresh. destruct Hfresh as [<- [r0 Hmeta]].
  simpl in *. rewrite <-Hs, <-Hn in *. unfold drive_one. rewrite Hc, Ha. simpl.
  rewrite (Henv r r0), <-Hmeta, <-Hp.
  replace (Commit (c_tree nc) (c_parent nc) (c_msg nc) (c_meta nc)) with nc by by destruct nc.
  rewrite (commit_tree_stored r nc (e_new e)) by done. simpl.
  rewrite (IH (e_new e) (S i) es) by done.
  destruct e; simpl in *. by rewrite Hsame, Hr.
Qed.
End facts.
