(* ===== verification/DriveTheorems.v ===== *)
(** The theorems about the drivers of Drive.v, with a small repository in
    [ListGit] on which they are instantiated. *)
From S2P Require Import Prelude PyStr R3Engine R3Facts R3Refine R3Idem RoundTables.
From S2P Require Import R3Theorems Git Drive.
Import R3.

(** ** The names a driver gives *)

Lemma drive_names_ORDER64 {sha : Type} (l : list sha) name :
  length l ≤ 64 → name ∈ drive_names l → name ∈ ORDER64.
Proof.
  intros Hl. unfold drive_names. intros (i & -> & Hi)%list_elem_of_fmap.
  apply elem_of_seq in Hi. unfold ORDER64. apply list_elem_of_fmap. exists i.
  split; [done|]. apply elem_of_seq. lia.
Qed.

Lemma round_tables_msg : forallb (λ r, forallb msg_row_ok r.2) round_tables = true.
Proof. vm_compute. reflexivity. Qed.

Lemma round_table_msg ORDER T : (ORDER, T) ∈ round_tables → forallb msg_row_ok T = true.
Proof.
  intros HT. pose proof round_tables_msg as H. rewrite forallb_forall in H.
  apply (H (ORDER, T)). by apply list_elem_of_In.
Qed.

Lemma round_tables_crfree : forallb (λ r, msg_crfree r.2) round_tables = true.
Proof. vm_compute. reflexivity. Qed.

Lemma round_table_crfree ORDER T : (ORDER, T) ∈ round_tables → msg_crfree T = true.
Proof.
  intros HT. pose proof round_tables_crfree as H. rewrite forallb_forall in H.
  apply (H (ORDER, T)). by apply list_elem_of_In.
Qed.

(** Text mode keeps the newline at the end. *)
Lemma universal_ends_nl s : ends_nl (universal_newlines (s ++ [nl])) = true.
Proof.
  induction (well_founded_ltof _ (length (A:=ascii)) s) as [s _ IH]. unfold ltof in IH.
  destruct s as [|c s]; [done|]. simpl in IH.
  assert (∀ x y, ends_nl y = true → ends_nl (x :: y) = true) as Hcons.
  { intros x y Hy. change (x :: y) with ([x] ++ y). rewrite ends_nl_app; [done|]. by intros ->. }
  destruct (decide (c = "013"%char)) as [->|Hc].
  2: { cbn [app]. rewrite universal_cons by done. apply Hcons, IH. lia. }
  destruct s as [|d s]; [done|]. simpl in IH. destruct (decide (d = "010"%char)) as [->|Hd].
  - cbn [app universal_newlines]. apply Hcons, IH. lia.
  - assert (universal_newlines ("013"%char :: (d :: s) ++ [nl])
            = "010"%char :: universal_newlines ((d :: s) ++ [nl])) as Hu
      by by destruct d as [[] [] [] [] [] [] [] []].
    cbn [app] in *. rewrite Hu. apply Hcons. apply (IH (d :: s)). simpl. lia.
Qed.

Section theorems.
Context {sha repo : Type} `{EqDecision sha} `{GitLaws sha repo}.
Implicit Types (r : repo) (base : sha) (l : list sha) (es : list (entry sha)).

(** The work list names every commit of the stack. *)
Lemma work_shown r base l sn :
  chain r base l → sn ∈ zip l (drive_names l) → is_Some (g_show r sn.1).
Proof. intros Hc. destruct sn as [s n]. intros Hs%elem_of_zip_l. by eapply chain_shown. Qed.

Lemma work_length l : length (zip l (drive_names l)) = length l.
Proof. unfold drive_names. rewrite length_zip_with, length_fmap, length_seq. lia. Qed.

Lemma entries_ok_length env ORDER T r parent work es :
  entries_ok env ORDER T r parent work es → length es = length work.
Proof.
  revert parent es. induction work as [|x work IH]; intros parent [|e es]; simpl; try done.
  intros [_ Hes]. f_equal. by eapply IH.
Qed.

Lemma entries_ok_elem env ORDER T r parent work es e :
  entries_ok env ORDER T r parent work es → e ∈ es → ∃ p sn, entry_ok env ORDER T r p sn e.
Proof.
  revert parent es. induction work as [|x work IH]; intros parent [|y es]; simpl; try done.
  { by intros _ ?%not_elem_of_nil. }
  intros [? Hes] [->|He]%elem_of_cons; [eauto|by eapply IH].
Qed.

Lemma entries_ok_names env ORDER T r parent work es :
  entries_ok env ORDER T r parent work es → work.*2 = e_name <$> es.
Proof.
  revert parent es. induction work as [|x work IH]; intros parent [|y es]; simpl; try done.
  intros [(_ & -> & _) Hes]. f_equal. by eapply IH.
Qed.

(** The stack a drive built is driven again under the same names. *)
Lemma rework env ORDER T r base l es :
  entries_ok env ORDER T r base (zip l (drive_names l)) es →
  zip (e_new <$> es) (drive_names (e_new <$> es)) = (λ e, (e_new e, e_name e)) <$> es.
Proof.
  intros Hes. pose proof (entries_ok_length _ _ _ _ _ _ _ Hes) as Hl. rewrite work_length in Hl.
  apply entries_ok_names in Hes. rewrite snd_zip in Hes.
  - unfold drive_names in *. rewrite length_fmap, Hl, Hes. clear. induction es as [|e es IH]; [done|]. csimpl. by f_equal.
  - unfold drive_names. by rewrite length_fmap, length_seq.
Qed.

(** The driver over a line of commits, in terms of its loop. *)
Lemma round_drive_loop ORDER T r base l :
  g_ok r → is_Some (g_show r base) → chain r base l →
  round_drive ORDER T r base (tip_of base l) =
  drive_loop env_r3 ORDER T [] r base 0 (zip l (drive_names l)).
Proof. intros. unfold round_drive. by rewrite rev_list_chain. Qed.

Lemma log_msg_ends_nl (c : commit sha) : ends_nl (log_msg c) = true.
Proof. unfold log_msg. rewrite log_B_line. apply universal_ends_nl. Qed.

(** [apply] finds nothing to do in a commit the driver built. *)
Lemma built_settled ORDER T env r p sn e :
  (ORDER, T) ∈ round_tables → e_name e ∈ ORDER64 → entry_ok env ORDER T r p sn e →
  e_reused e = false →
  ∃ c, g_show r (e_new e) = Some c ∧
       apply ORDER T (c_tree c) (e_name e) (log_msg c) = (c_tree c, Ok (log_msg c, [])).
Proof.
  intros HT Hn (_ & _ & c & nc & msg & Hc & Hnc & _ & Ha & _ & Hf) Hr.
  rewrite Hr in Hf. destruct Hf as [<- _]. exists nc. split; [done|].
  rewrite log_msg_line.
  - eapply apply_again_nl; [by apply round_table_enabled|by eapply round_table_msg| |exact Ha].
    by apply log_msg_ends_nl.
  - eapply apply_msg_crfree; [by eapply round_table_crfree| |exact Ha]. apply universal_crfree.
Qed.

Lemma redrive_entries env ORDER T r base work es :
  entries_ok env ORDER T r base work es →
  (∀ s n, (s, n) ∈ work → ∃ c, g_show r s = Some c ∧
     apply ORDER T (c_tree c) n (log_msg c) = (c_tree c, Ok (log_msg c, []))) →
  Forall (λ e, e_same e = true ∧ e_applied e = []) es.
Proof.
  revert base es. induction work as [|[s n] work IH]; intros base [|e es]; simpl; try done.
  intros [(Hs & Hn & c & nc & msg & Hc & _ & _ & Ha & Hsame & _) Hes] Hw.
  constructor; [|eapply IH; [done|]; intros; apply Hw; by right].
  destruct (Hw s n ltac:(by left)) as (c' & Hs' & Ha'). simpl in *. subst s n.
  rewrite Hc in Hs'. injection Hs' as <-. rewrite Ha in Ha'. injection Ha' as Ht _ <-.
  split; [|done]. rewrite Hsame. by rewrite bool_decide_eq_true_2.
Qed.

(** C3: A driver run over a line of commits either rebuilds the whole line or raises
    what [apply] raised at one of its commits.  When it returns, the repository
    keeps every object it had, and there is one new commit per old one: each has
    as tree and message what [apply] made of the old commit's, the author and
    committer of the old commit, and the rebuilt predecessor as parent. *)
Theorem drive_rebuilds ORDER T r base l :
  g_ok r → is_Some (g_show r base) → chain r base l →
  match round_drive ORDER T r base (tip_of base l) with
  | (r', Ok es) =>
      g_ok r' ∧ keeps r r' ∧ length es = length l ∧ chain r' base (e_new <$> es) ∧
      entries_ok env_r3 ORDER T r' base (zip l (drive_names l)) es ∧
      Forall (λ e, e_reused e = false) es
  | (r', Raise x) =>
      keeps r r' ∧ ∃ s name c, (s, name) ∈ zip l (drive_names l) ∧ g_show r s = Some c ∧
        (apply ORDER T (c_tree c) name (log_msg c)).2 = Raise x
  end.
Proof.
  intros Hok Hb Hc. rewrite round_drive_loop by done.
  destruct (drive_loop _ _ _ _ _ _ _ _) as [r' [es|x]] eqn:E.
  - pose proof (drive_loop_fresh _ _ _ _ _ _ _ _ _ E).
    apply drive_loop_ok in E as (? & ? & Hes); [|done..].
    split; [done|]. split; [done|]. split.
    { rewrite (entries_ok_length _ _ _ _ _ _ _ Hes). apply work_length. }
    split; [by eapply entries_ok_chain|done].
  - eapply drive_loop_raise; [done..| | |exact E]; [done|]. intros sn. by eapply work_shown.
Qed.

(** Each driver runs one of the tables of the rounds. *)
Lemma round_drivers_tables (drive : repo → sha → sha → repo * res (list (entry sha))) :
  drive ∈ round_drivers → ∃ ORDER T, (ORDER, T) ∈ round_tables ∧ drive = round_drive ORDER T.
Proof.
  unfold round_drivers. rewrite !elem_of_cons. intros Hd.
  repeat destruct Hd as [->|Hd]; [..|by apply not_elem_of_nil in Hd];
    eexists _, _; (split; [|reflexivity]); unfold round_tables; rewrite !elem_of_cons; tauto.
Qed.

(** C2: Driving the rebuilt stack again with the same table is idle: the second run
    returns, leaves the tree of every commit as it is and applies no row. *)
Theorem redrive_idle drive r base l r1 es :
  drive ∈ round_drivers → length l ≤ 64 →
  g_ok r → is_Some (g_show r base) → chain r base l →
  drive r base (tip_of base l) = (r1, Ok es) →
  ∃ r2 es2, drive r1 base (new_tip base es) = (r2, Ok es2) ∧
    length es2 = length l ∧ Forall (λ e, e_same e = true ∧ e_applied e = []) es2.
Proof.
  intros (ORDER & T & HT & ->)%round_drivers_tables Hlen Hok Hb Hc. rewrite round_drive_loop by done. intros E.
  pose proof (drive_loop_fresh _ _ _ _ _ _ _ _ _ E) as Hf.
  apply drive_loop_ok in E as (Hok1 & Hk1 & Hes); [|done..].
  assert (is_Some (g_show r1 base)) as Hb1 by (destruct Hb; eauto).
  pose proof (entries_ok_chain _ _ _ _ _ _ _ Hes) as Hc1.
  pose proof (entries_ok_length _ _ _ _ _ _ _ Hes) as Hl. rewrite work_length in Hl.
  assert (∀ s n, (s, n) ∈ zip (e_new <$> es) (drive_names (e_new <$> es)) →
    ∃ c, g_show r1 s = Some c ∧
         apply ORDER T (c_tree c) n (log_msg c) = (c_tree c, Ok (log_msg c, []))) as Hidle.
  { intros s n Hin. assert (n ∈ ORDER64) as Hn.
    { eapply (drive_names_ORDER64 (e_new <$> es)); [by rewrite length_fmap, Hl|].
      by apply elem_of_zip_r in Hin. }
    rewrite (rework _ _ _ _ _ _ _ Hes) in Hin.
    apply list_elem_of_fmap in Hin as (e & [= -> ->] & He).
    destruct (entries_ok_elem _ _ _ _ _ _ _ _ Hes He) as (p & sn & Hoke).
    rewrite Forall_forall in Hf. eapply built_settled; eauto. }
  unfold new_tip. rewrite round_drive_loop by done.
  destruct (drive_loop _ _ _ _ _ _ _ _) as [r2 [es2|x]] eqn:E2.
  - apply drive_loop_ok in E2 as (_ & Hk2 & Hes2); [|done..]. exists r2, es2.
    split; [done|]. pose proof (entries_ok_length _ _ _ _ _ _ _ Hes2) as Hl2.
    rewrite work_length, length_fmap in Hl2. split; [congruence|].
    eapply redrive_entries; [exact Hes2|]. intros s n Hin.
    destruct (Hidle s n Hin) as (c & Hs & Ha). exists c. auto.
  - exfalso. apply drive_loop_raise in E2 as (_ & s & n & c & Hin & Hs & Ha); [|done..|].
    + destruct (Hidle s n Hin) as (c' & Hs' & Ha'). simplify_eq. by rewrite Ha' in Ha.
    + intros sn. by eapply work_shown.
Qed.

(** b2bdrive over a line of commits, in terms of its loop. *)
Lemma b2b_drive_loop ORDER T r base l :
  g_ok r → is_Some (g_show r base) → chain r base l →
  b2b_drive ORDER T r base (tip_of base l) None =
  drive_loop env_b2b ORDER T [] r base 0 (zip l (drive_names l)).
Proof. intros. unfold b2b_drive. by rewrite rev_list_chain. Qed.

(** What a run of b2bdrive leaves behind, whatever it reused. *)
Lemma b2b_drive_ok ORDER T r base l prev r' es :
  g_ok r → is_Some (g_show r base) → chain r base l →
  b2b_drive ORDER T r base (tip_of base l) prev = (r', Ok es) →
  g_ok r' ∧ keeps r r' ∧ entries_ok env_b2b ORDER T r' base (zip l (drive_names l)) es.
Proof.
  intros Hok Hb Hc. unfold b2b_drive. rewrite rev_list_chain by done.
  destruct (match prev with None => _ | Some _ => _ end) as [pl|]; [|done].
  by apply drive_loop_ok.
Qed.

(** C4: b2bdrive given its own last tip as PREV_TIP builds nothing: for a table whose
    message rows put no carriage return in, and whatever the first run was given,
    the second one leaves the repository as it is and reports
    every commit of the first as reused, with the same name and the same rows. *)
Theorem b2b_drive_reuses ORDER T r base l prev r' es :
  msg_crfree T = true → g_ok r → is_Some (g_show r base) → chain r base l →
  b2b_drive ORDER T r base (tip_of base l) prev = (r', Ok es) →
  b2b_drive ORDER T r' base (tip_of base l) (Some (new_tip base es)) =
  (r', Ok ((λ e, Entry (e_name e) (e_sha e) (e_new e) (e_same e) true (e_applied e)) <$> es)).
Proof.
  intros Hcr Hok Hb Hc E. apply b2b_drive_ok in E as (Hok' & Hk & Hes); [|done..].
  assert (is_Some (g_show r' base)) as Hb' by (destruct Hb; eauto).
  unfold b2b_drive, new_tip. rewrite !rev_list_chain; try done.
  - eapply drive_loop_reuse; [done..|]. intros j e Hj. rewrite Nat.add_0_l. by rewrite list_lookup_fmap, Hj.
  - by eapply entries_ok_chain.
  - by eapply chain_mono.
Qed.

(** Two runs of b2bdrive over the same input, both without PREV_TIP, give the same
    commits: the second run makes no object the first had not made. *)
Theorem b2b_drive_reproducible ORDER T r base l r' es :
  g_ok r → is_Some (g_show r base) → chain r base l →
  b2b_drive ORDER T r base (tip_of base l) None = (r', Ok es) →
  b2b_drive ORDER T r' base (tip_of base l) None = (r', Ok es).
Proof.
  intros Hok Hb Hc E. pose proof E as E'. rewrite b2b_drive_loop in E' by done.
  apply drive_loop_fresh in E'. apply b2b_drive_ok in E as (Hok' & Hk & Hes); [|done..].
  assert (is_Some (g_show r' base)) as Hb' by (destruct Hb; eauto).
  rewrite b2b_drive_loop; [|done..|by eapply chain_mono].
  by apply drive_loop_again.
Qed.
End theorems.

(** ** A repository to try them on *)

Definition demo_meta (date : string) : meta :=
  Meta "A. Author" "a@example.org" date "C. Committer" "c@example.org" date.

(** A base commit and three commits on it; r0921fix rewrites the third. *)
Definition demo_repo : ListGit.repo := ListGit.Repo [
  Commit ∅ None (lit "base") (demo_meta "1 +0000");
  Commit {["a.c" := lit "one"]} (Some 0) (lit "first") (demo_meta "2 +0000");
  Commit {["a.c" := lit "two"]} (Some 1) (lit "second") (demo_meta "3 +0000");
  Commit demo_tree (Some 2) demo_msg (demo_meta "4 +0000")
] "9 +0000" ∅.

Definition demo_stack : list nat := [1; 2; 3].

Lemma demo_repo_ok : g_ok demo_repo.
Proof.
  split.
  - apply (bool_decide_unpack _). vm_compute. reflexivity.
  - intros n c p Hn Hp. do 4 (destruct n as [|n]; [injection Hn as <-; simpl in Hp; simplify_eq; lia|]).
    done.
Qed.

Lemma demo_base : is_Some (g_show demo_repo 0).
Proof. by eexists. Qed.

Lemma demo_chain : chain demo_repo 0 demo_stack.
Proof. repeat split; eexists; (split; [reflexivity|reflexivity]). Qed.

Lemma drive_rebuilds_witness :
  match round_drive ORDER64 r0921_T demo_repo 0 (tip_of 0 demo_stack) with
  | (r', Ok es) =>
      g_ok r' ∧ keeps demo_repo r' ∧ length es = 3 ∧ chain r' 0 (e_new <$> es) ∧
      entries_ok env_r3 ORDER64 r0921_T r' 0 (zip demo_stack (drive_names demo_stack)) es ∧
      Forall (λ e, e_reused e = false) es
  | (_, Raise _) => False
  end.
Proof.
  pose proof (drive_rebuilds ORDER64 r0921_T demo_repo 0 demo_stack
                demo_repo_ok demo_base demo_chain) as H.
  destruct (round_drive ORDER64 r0921_T demo_repo 0 (tip_of 0 demo_stack)) as [r' [es|x]] eqn:E.
  - exact H.
  - vm_compute in E. discriminate.
Defined.

(** What the drivers report for it. *)
Definition demo_report (reused : bool) (news : list nat) : list (entry nat) :=
  zip_with (λ (x : string * nat * bool * list string) new,
              Entry x.1.1.1 x.1.1.2 new x.1.2 reused x.2)
    [("c00", 1, true, []); ("c01", 2, true, []); ("c02", 3, false, ["gitignore"])] news.

Lemma redrive_idle_witness :
  ∃ r1, drive_r0921 demo_repo 0 3 = (r1, Ok (demo_report false [4; 5; 6])) ∧
  ∃ r2 es2, drive_r0921 r1 0 6 = (r2, Ok es2) ∧
    length es2 = 3 ∧ Forall (λ e, e_same e = true ∧ e_applied e = []) es2.
Proof.
  eexists. split; [vm_compute; reflexivity|].
  apply (redrive_idle drive_r0921 demo_repo 0 demo_stack _ (demo_report false [4; 5; 6])).
  - do 2 apply list_elem_of_further. apply list_elem_of_here.
  - simpl. lia.
  - exact demo_repo_ok.
  - exact demo_base.
  - exact demo_chain.
  - vm_compute. reflexivity.
Defined.

Lemma b2b_drive_reuses_witness :
  ∃ r', b2b_drive ORDER64 r0921_T demo_repo 0 3 None = (r', Ok (demo_report false [4; 5; 6])) ∧
        b2b_drive ORDER64 r0921_T r' 0 3 (Some 6) = (r', Ok (demo_report true [4; 5; 6])).
Proof.
  eexists. split; [vm_compute; reflexivity|].
  apply (b2b_drive_reuses ORDER64 r0921_T demo_repo 0 demo_stack None _
           (demo_report false [4; 5; 6])); [|exact demo_repo_ok|exact demo_base|exact demo_chain|];
    vm_compute; reflexivity.
Defined.

Lemma b2b_drive_reproducible_witness :
  ∃ r', b2b_drive ORDER64 r0921_T demo_repo 0 3 None = (r', Ok (demo_report false [4; 5; 6])) ∧
        b2b_drive ORDER64 r0921_T r' 0 3 None = (r', Ok (demo_report false [4; 5; 6])).
Proof.
  eexists. split; [vm_compute; reflexivity|].
  apply (b2b_drive_reproducible ORDER64 r0921_T demo_repo 0 demo_stack _
           (demo_report false [4; 5; 6]) demo_repo_ok demo_base demo_chain).
  vm_compute. reflexivity.
Defined.
