(* ===== verification/Rebuild.v ===== *)
(** The rebuild.py scripts of the October rounds (docs/rounds/a-1006, a-1007 and
    a-1008, whose [build] differs in the stage that edits the files only): an edit table, message rewriters, [build] over the commits of a stack, and
    [tip], which applies the edits to a worktree.

    Texts come from [git show] undecoded of line endings; [tip] opens files in
    text mode.  The committer is whoever runs the script, at the time it runs. *)
From S2P Require Import Prelude PyStr R3Engine Git.

(** [rep(s, old, new, what)] *)
Definition rep (s old new : text) (what : string) : res text :=
  if py_in new s then Ok s
  else
    let n := py_count old s in
    if negb (n =? 1) then
      Raise (RuntimeError (what +:+ ": " +:+ pretty (N.of_nat n) +:+ " matches"))
    else Ok (py_replace old new s).

(** A row of EDITS, as [edit()] appends it. *)
Record edit_row := Edit {
  ed_own : nat;
  ed_f : string;
  ed_old : text;
  ed_new : text;
  ed_what : string;
  ed_until : option nat;
}.

(** [own > i or (until is not None and i >= until)] *)
Definition skipped (e : edit_row) (i : nat) : bool :=
  (i <? ed_own e) || match ed_until e with Some u => u <=? i | None => false end.

(** The loop over EDITS at commit [i]: the files fetched so far, and the errors
    printed so far.  A file the commit does not have is an error of [git show],
    which nothing catches. *)
Fixpoint edit_files (tree : gmap string text) (i : nat) (EDITS : list edit_row)
    (files : gmap string text) (errs : list exn) : res (gmap string text * list exn) :=
  match EDITS with
  | [] => Ok (files, errs)
  | e :: EDITS' =>
      if skipped e i then edit_files tree i EDITS' files errs
      else
        match (match files !! ed_f e with Some s => Some s | None => tree !! ed_f e end) with
        | None => Raise (CalledProcessError "show")
        | Some s =>
            match rep s (ed_old e) (ed_new e) (ed_what e) with
            | Ok t => edit_files tree i EDITS' (<[ed_f e := t]> files) errs
            | Raise x => edit_files tree i EDITS' (<[ed_f e := s]> files) (errs ++ [x])
            end
        end
  end.

(** What [build] edits at commit [i] of a stack: the files, and the errors printed. *)
Abbreviation stage := (gmap string text → nat → res (gmap string text * list exn)).

(** The stage of a-1006 and a-1007: [files = {}] and the loop over EDITS. *)
Definition edit_stage (EDITS : list edit_row) : stage := λ tree i, edit_files tree i EDITS ∅ [].

(** [reps m rows]: the successive [m = rep(m, ...)] of a message rewriter. *)
Fixpoint reps (m : text) (rows : list (text * text * string)) : res text :=
  match rows with
  | [] => Ok m
  | (old, new, what) :: rows' => let! m' := rep m old new what in reps m' rows'
  end.

(** [git('log', '-1', '--format=%B', c).decode().rstrip('\n') + '\n'] *)
Fixpoint lstrip_nl (s : text) : text :=
  match s with
  | c :: s' => if Ascii.eqb c nl then lstrip_nl s' else s
  | [] => []
  end.

Definition rstrip_nl (s : text) : text := rev (lstrip_nl (rev s)).

Definition one_nl (s : text) : text := rstrip_nl s ++ [nl].

(** The lines [build] prints. *)
Inductive line (sha : Type) :=
  | EditFailed (i : nat) (x : exn)
  | MsgFailed (i : nat) (x : exn)
  | Kept (i : nat) (c : sha)
  | Made (i : nat) (c new : sha).
Arguments EditFailed {sha} _ _.
Arguments MsgFailed {sha} _ _.
Arguments Kept {sha} _ _.
Arguments Made {sha} _ _ _.

Definition failure {sha} (l : line sha) : bool :=
  match l with EditFailed _ _ | MsgFailed _ _ => true | _ => false end.

(** [if i in MSG: try: msg = MSG[i](msg)] *)
Definition rewrite_msg (MSG : nat → option (text → res text)) (i : nat) (msg : text)
    : text * list exn :=
  match MSG i with
  | None => (msg, [])
  | Some m => match m msg with Ok msg' => (msg', []) | Raise x => (msg, [x]) end
  end.

Section build.
Context {sha repo : Type} `{EqDecision sha} `{Git sha repo}.
(** the names in STACK and BASE as [git rev-parse] resolves them, and the
    identity [commit-tree] finds in the configuration *)
Context (rev_parse : string → option sha) (ident : repo → string * string).
Context (BASE : string) (STACK : list string) (edits : stage)
        (MSG : nat → option (text → res text)).

Definition env2 (r : repo) (c : commit sha) : meta :=
  let m := c_meta c in
  Meta (m_an m) (m_ae m) (m_ad m) (ident r).1 (ident r).2 (g_now r).

(** [all(git show c:f == t for f, t in files.items())] *)
Definition same_files (tree files : gmap string text) : bool :=
  bool_decide (map_Forall (λ f t, tree !! f = Some t) files).

(** One turn of the loop over STACK; the new [parent] and the lines printed. *)
Definition build_one (dry : bool) (r : repo) (parent : sha) (i : nat) (name : string)
    : repo * res (sha * list (line sha)) :=
  match rev_parse name with
  | None => (r, Raise (CalledProcessError "show"))
  | Some h =>
      match g_show r h with
      | None => (r, Raise (CalledProcessError "show"))
      | Some c =>
          match edits (c_tree c) i with
          | Raise x => (r, Raise x)
          | Ok (files, errs) =>
              let orig := one_nl (g_log_B c) in
              let (msg, merrs) := rewrite_msg MSG i orig in
              let out := (EditFailed i <$> errs) ++ (MsgFailed i <$> merrs) in
              if dry then (r, Ok (parent, out))
              else
                let make :=
                  let (r', new) := g_commit_tree r
                    (Commit (files ∪ c_tree c) (Some parent) msg (env2 r c)) in
                  (r', Ok (new, out ++ [Made i h new])) in
                if same_files (c_tree c) files && bool_decide (msg = orig) then
                  match c_parent c with
                  | None => (r, Raise (CalledProcessError "rev-parse"))
                  | Some p =>
                      if bool_decide (p = parent) then (r, Ok (h, out ++ [Kept i h]))
                      else make
                  end
                else make
          end
      end
  end.

Fixpoint build_loop (dry : bool) (r : repo) (parent : sha) (i : nat) (stack : list string)
    (out : list (line sha)) : repo * res (sha * list (line sha)) :=
  match stack with
  | [] => (r, Ok (parent, out))
  | name :: stack' =>
      match build_one dry r parent i name with
      | (r1, Raise x) => (r1, Raise x)
      | (r1, Ok (parent', o)) => build_loop dry r1 parent' (S i) stack' (out ++ o)
      end
  end.

(** [build(dry)]: [fail], the last parent and the lines printed. *)
Definition build (dry : bool) (r : repo) : repo * res (bool * sha * list (line sha)) :=
  match rev_parse BASE with
  | None => (r, Raise (CalledProcessError "rev-parse"))
  | Some base =>
      match build_loop dry r base 0 STACK [] with
      | (r', Raise x) => (r', Raise x)
      | (r', Ok (parent, out)) => (r', Ok (existsb failure out, parent, out))
      end
  end.

(** The script without [tip]: the exit status and the tip it prints. *)
Definition main (dry : bool) (r : repo) : repo * res (nat * option sha) :=
  match build dry r with
  | (r', Raise x) => (r', Raise x)
  | (r', Ok (fail, tip, _)) =>
      (r', Ok (if fail then (1, None) else (0, if dry then None else Some tip)))
  end.
End build.

(** [tip()]: the worktree, [fail], and what was applied.  [open()] of a missing
    file is not caught. *)
Fixpoint tip_loop (n : nat) (EDITS : list edit_row) (wt : gmap string text) (fail : bool)
    (applied : list string) : gmap string text * res (bool * list string) :=
  match EDITS with
  | [] => (wt, Ok (fail, applied))
  | e :: EDITS' =>
      if (match ed_until e with Some u => u <=? n | None => false end)
      then tip_loop n EDITS' wt fail applied
      else
        match R3.read wt (ed_f e) with
        | None => (wt, Raise (FileNotFoundError (ed_f e)))
        | Some s =>
            match rep s (ed_old e) (ed_new e) (ed_what e) with
            | Raise _ => tip_loop n EDITS' wt true applied
            | Ok t =>
                if bool_decide (t = s) then tip_loop n EDITS' wt fail applied
                else tip_loop n EDITS' (<[ed_f e := t]> wt) fail (applied ++ [ed_what e])
            end
        end
  end.

(** The exit status of [tip()] and the worktree it leaves. *)
Definition tip (STACK : list string) (EDITS : list edit_row) (wt : gmap string text)
    : gmap string text * res (nat * list string) :=
  match tip_loop (length STACK - 1) EDITS wt false [] with
  | (wt', Raise x) => (wt', Raise x)
  | (wt', Ok (fail, applied)) => (wt', Ok (if fail then 1 else 0, applied))
  end.
