(* ===== verification/R1006Table.v ===== *)
(** The edit table and the message rewriters of docs/rounds/a-1006/rebuild.py,
    names prefixed with [r1006_]. *)
From S2P Require Import Prelude PyStr Rebuild.

Definition r1006_BASE : string := "507b70072f^".

Definition r1006_STACK : list string :=
  ["507b70072f"; "5eadb15998"; "c9c29b8112"; "e6cc02b153";
   "4fb131b82f"; "0e8a719ed2"; "75f8b473d0"; "0e2194257c";
   "85b616af4f"; "88a8ba3435"; "f8691197ca"; "839988686f";
   "3a179e7307"].

Definition r1006_C157 : nat := 1.
Definition r1006_C159 : nat := 3.
Definition r1006_C163 : nat := 5.
Definition r1006_C415 : nat := 7.
Definition r1006_C417 : nat := 9.
Definition r1006_C418 : nat := 10.
Definition r1006_C419 : nat := 11.
Definition r1006_C420 : nat := 12.

Definition r1006_PF : string := "lustre/utils/liblustreapi_pfind.c".

(** rebuild.py, lines 39 to 168: 68157: find_decide()'s return. *)
Definition r1006_edits_1 : list edit_row := [
  Edit r1006_C157 r1006_PF
    (lit " * and no caller has ever read it.  A positive would collide with the 1
 * cb_find_init() returns for \qdo not descend\q, which is the value this
 * lands in there.
 */")
    (lit " * and no caller has ever read it.  No positive: cb_find_init() acts only
 * on a negative and then sets its own return, so a positive would be lost.
 */")
    "157 ret" None;
  Edit r1006_C159 r1006_PF
    (lit "			 * not reach i_projid genuinely has none of.  Neither a
			 * match nor a miss, as an unglimpsable size is.
			 */")
    (lit "			 * not reach i_projid genuinely has none of.  Neither a
			 * match nor a miss, as an unglimpsable size is.  This
			 * holds for ! --projid N too, unlike ! -btime: a walk
			 * is told the kernel's default of 0 for such an inode,
			 * so ! --projid 0 would not match it there.
			 */")
    "159 projid" None;
  Edit r1006_C159 "Documentation/man3/llapi_scan_device.3"
    (lit ".I lfsr_linkeasize
bytes at it.
.TP
.I lfsr_parent_fid")
    (lit ".I lfsr_linkeasize
bytes at it. The bit is set only when the first entry parses, so a
.B trusted.link
that is damaged there is not delivered at all.
.I lfsr_name
can still be NULL with the bit set, when that entry's name is empty.
.TP
.I lfsr_parent_fid")
    "159 man3" None;
  Edit r1006_C163 "lustre/utils/libscan_zfs.c"
    (lit "		zfs_arc_max = 256ULL << 20;
		kernel_init(SPA_MODE_READ);
	}")
    (lit "		zfs_arc_max = 256ULL << 20;
		kernel_init(SPA_MODE_READ);
		/*
		 * ZFS 2.4 also reads /boot/zfs/zpool.cache when that open
		 * fails.  Nothing is imported yet: drop whatever it loaded.
		 */
		spa_evict_all();
	}")
    "163 evict" None;
  Edit r1006_C415 "lustre/tests/sanity.sh"
    (lit "	# log full of somebody else's records.  Made here rather than left to
	# the binary, which can only notice and refuse.
	rm -rf $dir
	$LFS mkdir -i 0 $dir || error \qmkdir $dir failed\q
")
    (lit "	# log full of somebody else's records.  Made here rather than left to
	# the binary, which can only notice and refuse.  The default layout
	# keeps its subdirectories there too, which ROOT's space-balanced
	# default would otherwise move once the MDTs drift apart.
	rm -rf $dir
	$LFS mkdir -i 0 $dir || error \qmkdir $dir failed\q
	$LFS setdirstripe -D -i 0 -c 1 $dir ||
		error \qsetdirstripe -D $dir failed\q
")
    "415 sanity" None;
  Edit r1006_C415 "lustre/tests/llapi_scan_changelog_test.c"
    (lit "	 * Changelog user -- sanity 56Eea creates it with \qlfs mkdir -i 0\q,
	 * before registering, to put it on the MDT whose log is read -- and")
    (lit "	 * Changelog user -- sanity 56Eea creates it with \qlfs mkdir -i 0\q
	 * and a default layout on MDT0, before registering, so that this and
	 * every directory below it are on the MDT whose log is read -- and")
    "415 test.c" None;
  Edit r1006_C417 r1006_PF
    (lit "	isdir = (rec->lfsr_stx.stx_mask & STATX_MODE) &&
		S_ISDIR(rec->lfsr_stx.stx_mode);
	param->fp_get_lmv = isdir && find_needs_lmv(param);

	/*
	 * The path-ful form, unlike a target scan's")
    (lit "	isdir = (rec->lfsr_stx.stx_mask & STATX_MODE) &&
		S_ISDIR(rec->lfsr_stx.stx_mode);
	param->fp_get_lmv = isdir && find_needs_lmv(param);

	/* check_mdt_match() reads this; llapi_scan_fid() set its own copy */
	param->fp_file_mdt_index = (rec->lfsr_valid & LLAPI_SCAN_MDT_INDEX) ?
				   (int)rec->lfsr_mdt_index : OBD_NOT_FOUND;
	/* as the walk does: --mdt cannot be answered without the index */
	if (param->fp_mdt_uuid != NULL &&
	    param->fp_file_mdt_index == OBD_NOT_FOUND)
		return 0;

	/*
	 * The path-ful form, unlike a target scan's")
    "417 mdt" None;
  Edit r1006_C418 r1006_PF
    (lit "	 * LLAPI_SCAN_MDT_INDEX rides along because find_want() adds it with
	 * the rest; nothing on this path reads it.
	 */")
    (lit "	 * LLAPI_SCAN_MDT_INDEX is there for --mdt, which find_since_rec_cb()
	 * copies into fp_file_mdt_index.
	 */")
    "418 want" None;
  Edit r1006_C417 "lustre/utils/lfs_find_parse.c"
    (lit "	/*
	 * strtoull() accepts a leading sign and wraps it, so \q-5\q would come
	 * back as an index near 2^64 rather than as the mistake it is.
	 * Neither an index nor a duration is ever signed here.
	 */
	if (*str == '-' || *str == '+')
		goto bad;
")
    (lit "	/*
	 * strtoull() skips white space and then wraps a sign, so \q -5\q would
	 * come back as an index near 2^64.  Only a leading digit is a number
	 * here; anything else is for the timestamp formats.
	 */
	if (!isdigit((unsigned char)*str))
		goto timestamp;
")
    "417 sign" None;
  Edit r1006_C417 "lustre/utils/lfs_find_parse.c"
    (lit "	/* a timestamp, or @<epoch second> */
	for (i = 0; fmts[i] != NULL; i++) {")
    (lit "timestamp:
	/* a timestamp, or @<epoch second> */
	for (i = 0; fmts[i] != NULL; i++) {")
    "417 label" None;
  Edit r1006_C417 r1006_PF
    (lit " * It is asked here rather than in the callback because sc_filter sees every
 * record the stream produced, in order and before any lookup, and the
 * callback does not: under LLAPI_SCAN_CL_F_ONCE an object already delivered
 * is dropped before the callback.
 */")
    (lit " * It is asked here rather than in the callback because sc_filter sees each
 * delivery before any lookup, and the callback does not: under
 * LLAPI_SCAN_CL_F_ONCE an object already delivered is dropped before the
 * callback.
 */")
    "417 filter" (Some r1006_C419);
  Edit r1006_C419 r1006_PF
    (lit " * Both are here rather than in the callback because sc_filter sees every
 * record the stream produced, in order and before any lookup, and the
 * callback does not.  A record about no object, such as a CL_MARK, is")
    (lit " * Both are here rather than in the callback because sc_filter sees each
 * delivery before any lookup, and the callback does not.  A record about
 * no object, such as a CL_MARK, is")
    "419 filter" None;
  Edit r1006_C419 r1006_PF
    (lit "	 * records the callback does not see the scan finished on, and the
	 * next run re-read them to report them again.
	 */")
    (lit "	 * records the callback does not see the scan finished on, and the
	 * next run re-read them to report them again.  Coalesced, a record
	 * carries its object's latest index and can arrive after a higher
	 * one, so only the highest is kept.
	 */")
    "419 anchor" None
].

(** rebuild.py, lines 171 to 245: 68418: --maxdepth 0, and one line per log. *)
Definition r1006_edits_2 : list edit_row := [
  Edit r1006_C418 "lustre/utils/lfs.c"
    (lit "
	do {
		if (param->fp_since_kind != LLAPI_SINCE_NONE ||
")
    (lit "
	/*
	 * Here, not in the library: lfs seeds fp_max_depth with -1, so 0 is
	 * the user's, while llapi_find_param_alloc() gives an API caller 0.
	 */
	if (param->fp_changelog_mdt != NULL &&
	    (param->fp_max_depth != (unsigned int)-1 ||
	     param->fp_min_depth != 0)) {
		fprintf(stderr,
			\qerror: %s: --maxdepth and --mindepth describe a walk, which --changelog is not; --since honours them\\n\q,
			argv[0]);
		ret = -ENOTSUP;
		goto err;
	}

	do {
		if (param->fp_since_kind != LLAPI_SINCE_NONE ||
")
    "418 lfs" None;
  Edit r1006_C418 r1006_PF
    (lit "	for (p = path + rootlen; *p != '\\0'; p++)
		if (*p == '/' && *(p + 1) != '\\0')
			depth++;

	if (param->fp_max_depth")
    (lit "	/* refused under --changelog, where 0 is an API caller's unset */
	if (st->fss_as_recorded)
		return true;

	for (p = path + rootlen; *p != '\\0'; p++)
		if (*p == '/' && *(p + 1) != '\\0')
			depth++;

	if (param->fp_max_depth")
    "418 under" None;
  Edit r1006_C418 "Documentation/man1/lfs-find.1"
    (lit "a second burst is a second event.
.B --since
asks what is true now and prints such an object once.")
    (lit "a second burst is a second event.
Under
.BR \q--changelog all\q ,
an object recorded in more than one MDT's log \\(em a remote directory, or a
file renamed from one MDT to another \\(em is printed once for each log.
.B --since
asks what is true now and prints such an object once.")
    "418 man" None;
  Edit r1006_C420 "Documentation/man1/lfs-find.1"
    (lit ".PP
List what changed anywhere in the filesystem in the last hour, as the
changelog recorded it:")
    (lit ".PP
List the regular files that changed in the last two hours, each one checked
against the live filesystem:
.EX
.RS
.B # lfs find /mnt/lustre --since 2h -type f
.RE
.EE
.PP
List what changed anywhere in the filesystem in the last hour, as the
changelog recorded it:")
    "420 example" None;
  Edit r1006_C163 "lustre/utils/libscan_zfs.c"
    (lit "		if (err == EINVAL)
			return -EINVAL;
")
    (lit "		if (err == EINVAL)
			return -EINVAL;

		/* the label scan skipped devices this caller cannot read */
		if (lpch.lpc_error == LPC_EACCESS)
			return -EACCES;
")
    "lr163 eacces" None;
  Edit r1006_C163 "Documentation/man3/llapi_scan_device.3"
    (lit "applies, so the scan is as privileged as the device node.
")
    (lit "applies, so the scan is as privileged as the device node. On ZFS this is
also the answer when the pool was not found and some device under the
search path could not be read.
")
    "lr163 man" None
].

Definition r1006_SCL : string := "lustre/utils/liblustreapi_scan_changelog.c".

(** rebuild.py, lines 247 to 306: 68420: a plain --since example. *)
Definition r1006_edits_3 : list edit_row := [
  Edit r1006_C415 r1006_SCL
    (lit "	int			 sl_stop_rc;
")
    (lit "	int			 sl_stop_rc;
	int			 sl_clear_rc;	/* the first failed clear */
")
    "lr415 field" None;
  Edit r1006_C415 r1006_SCL
    (lit "	rc = llapi_changelog_clear(sc->sc_mdtname, sc->sc_user, upto);
	if (rc < 0)
		llapi_error(LLAPI_MSG_ERROR, rc,
			    \qcannot clear %s past record %llu\q,
			    sc->sc_mdtname, (unsigned long long)upto);
	else
		sl->sl_last_cleared = upto;
")
    (lit "	rc = llapi_changelog_clear(sc->sc_mdtname, sc->sc_user, upto);
	if (rc < 0) {
		llapi_error(LLAPI_MSG_ERROR, rc,
			    \qcannot clear %s past record %llu\q,
			    sc->sc_mdtname, (unsigned long long)upto);
		/* returned at the end: the log is not being kept bounded */
		if (sl->sl_clear_rc == 0)
			sl->sl_clear_rc = rc;
	} else {
		sl->sl_last_cleared = upto;
	}
")
    "lr415 clear" None;
  Edit r1006_C415 r1006_SCL
    (lit "	if (sl->sl_stop_rc != 0)
		rc = sl->sl_stop_rc;
out:")
    (lit "	if (sl->sl_stop_rc != 0)
		rc = sl->sl_stop_rc;
	else if (rc == 0)
		rc = sl->sl_clear_rc;
out:")
    "lr415 rc" None;
  Edit r1006_C415 "Documentation/man3/llapi_scan_changelog.3"
    (lit ".B -EACCES
the Changelog device is not readable by this user.
.SH NOTES")
    (lit ".B -EACCES
the Changelog device is not readable by this user.
.LP
With
.BR LLAPI_SCAN_CL_F_CLEAR ,
the first error from
.BR llapi_changelog_clear (3)
is returned once the stream has ended, unless the callback stopped it
first. The records were delivered, but the log was not cleared past that
point.
.B -ENOENT
there usually means that
.I sc_user
is not registered.
.SH NOTES")
    "lr415 man" None;
  Edit r1006_C417 r1006_PF
    (lit "	/* the subtree the search was rooted at, and its depth */")
    (lit "	/* the subtree the search was rooted at */")
    "lr417 depth" None;
  Edit r1006_C417 r1006_PF
    (lit "			    \q%llu objects were dropped with it\q,
			    (unsigned long long)st.fss_dropped);")
    (lit "			    \q%llu of %llu changed objects could not be read and are not in the answer\q,
			    (unsigned long long)st.fss_dropped,
			    (unsigned long long)st.fss_cand);")
    "lr417 dropped" (Some r1006_C418);
  Edit r1006_C418 r1006_PF
    (lit "	 * Rule 2: a changelog is per-MDT and knows nothing about where an
	 * object sits, so under --changelog the path names the filesystem
	 * rather than a subtree.")
    (lit "	 * A changelog is per-MDT and knows nothing about where an object
	 * sits, so under --changelog the path names the filesystem rather
	 * than a subtree.")
    "lr418 rule" None
].

Definition r1006_rows_159 : list (text * text * string) := [
    ((lit "A field that the inode format has no room for, such as a project id or
a birth time, is counted as undecided and reported at the end.
"),
     (lit "A field that the inode format has no room for, such as a project id or
a birth time, is counted as undecided and reported at the end. The
negations differ: a walk sees no birth time for such an inode either,
so ! -btime matches it, but a walk is told a project id of 0, so
! --projid N stays undecided.
"), "m159")
].

Definition r1006_m_159 (m : text) : res text := reps m r1006_rows_159.

Definition r1006_rows_163 : list (text * text * string) := [
    ((lit "of /dev. The scan loads no /etc/zfs/zpool.cache: a pool listed there
would be opened directly, before those checks, and a pool the kernel
holds would answer EREMOTEIO instead of EBUSY.
"),
     (lit "of /dev. The scan loads no /etc/zfs/zpool.cache: a pool listed there
would be opened directly, before those checks, and a pool the kernel
holds would answer EREMOTEIO instead of EBUSY. ZFS 2.4 also falls back
to /boot/zfs/zpool.cache, so the scan drops every pool that
kernel_init() loaded before it opens its own.
"), "m163")
].

Definition r1006_m_163 (m : text) : res text := reps m r1006_rows_163.

Definition r1006_rows_417 : list (text * text * string) := [
    ((lit "LU-20650 lfs: find --since, from the changelog

The three pieces"),
     (lit "LU-20650 lfs: add find --since, from the changelog

Add \qlfs find --since TIME|INDEX\q and llapi_find_since(). They run
find's predicates only over the objects that an MDT changelog reports
as changed, so a periodic search does not have to walk the whole
namespace.

The three pieces"), "m417 open");
    ((lit "spellings.  A leading sign is refused rather than wrapped through
strtoull(), and a duration reaching past the epoch is a typo rather
than a window.
"),
     (lit "spellings.  Only a value that starts with a digit is read as a
number, so a sign is refused, even after a space, rather than wrapped
through strtoull().  A duration reaching past the epoch is a typo
rather than a window.
"), "m417 sign");
    ((lit "--maxdepth and --mindepth.  Without that, a find rooted at one
directory would answer for its siblings.
"),
     (lit "--maxdepth and --mindepth.  Without that, a find rooted at one
directory would answer for its siblings.  --mdt is answered from the
index in the record: llapi_scan_fid() fills its own find_param, so
the index is copied into the caller's for check_mdt_match().
"), "m417 mdt")
].

Definition r1006_m_417 (m : text) : res text := reps m r1006_rows_417.

Definition r1006_rows_418 : list (text * text * string) := [
    ((lit "--mindepth are refused at every setting -- they describe a walk, or
need something a per-MDT log does not have."),
     (lit "--mindepth are refused at every setting -- they describe a walk, or
need something a per-MDT log does not have.  lfs refuses an explicit
--maxdepth 0 as well.  The library cannot, because
llapi_find_param_alloc() gives an API caller 0, so it ignores the
depth bounds under --changelog."), "m418 depth");
    ((lit "sr_fd is not always -1 for a regular file"),
     (lit "lfsr_fd is not always -1 for a regular file"), "m418 fd1");
    ((lit "leaves that descriptor in sr_fd."),
     (lit "leaves that descriptor in lfsr_fd."), "m418 fd2");
    ((lit "copies the device name in, so a mark arrives named \qlustre-
MDT0000\q -- which is also why \q-name 'lustre-MDT*'\q matched one before
the record was dropped above.  A data event on a FID whose name the
log never held is the real case, and the sentence now says only that."),
     (lit "copies the device name in, so a mark arrives named
\qlustre-MDT0000\q.  A data event on a FID whose name the log never held
is the real case, and the sentence now says only that."), "m418 mark")
].

Definition r1006_m_418 (m : text) : res text := reps m r1006_rows_418.

Definition r1006_rows_415 : list (text * text * string) := [
    ((lit "guarantee, so the test makes the directory on MDT0 itself; the binary
still checks and refuses.  -u passes a registered Changelog user.
"),
     (lit "guarantee, so the test makes the directory on MDT0 itself, with a
default layout that keeps the binary's own subdirectories there too;
the binary still checks and refuses.  -u passes a registered
Changelog user.
"), "m415")
].

Definition r1006_m_415 (m : text) : res text := reps m r1006_rows_415.

Definition r1006_rows_420 : list (text * text * string) := [
    ((lit "later MDT during it is not caught.
"),
     (lit "later MDT during it is not caught.  EXAMPLES gains a plain --since
search.
"), "m420")
].

Definition r1006_m_420 (m : text) : res text := reps m r1006_rows_420.

(** [EDITS] as the module leaves it. *)
Definition r1006_EDITS : list edit_row :=
  r1006_edits_1 ++
  r1006_edits_2 ++
  r1006_edits_3.

Definition r1006_MSG (i : nat) : option (text → res text) :=
  if i =? r1006_C159 then Some r1006_m_159 else
  if i =? r1006_C163 then Some r1006_m_163 else
  if i =? r1006_C415 then Some r1006_m_415 else
  if i =? r1006_C417 then Some r1006_m_417 else
  if i =? r1006_C418 then Some r1006_m_418 else
  if i =? r1006_C420 then Some r1006_m_420 else
  None.
