(* ===== verification/R1007Table.v ===== *)
(** The edit table and the message rewriters of docs/rounds/a-1007/rebuild.py,
    names prefixed with [r1007_]. *)
From S2P Require Import Prelude PyStr Rebuild.

Definition r1007_BASE : string := "507b70072f^".

Definition r1007_STACK : list string :=
  ["507b70072f"; "41ce6d4dd3"; "9b2b5a3e00"; "31578b51dc";
   "58bc3dc8f4"; "6d5216f95d"; "25cad69896"; "b8f6b36849";
   "34bea417d0"; "9f160514a9"; "16140614d7"; "40c2603167";
   "8792f895a8"; "6e26f11543"; "ceaeec5973"; "3a2a321ac3";
   "bcf1d6d101"; "036735e9fb"].

Definition r1007_C156 : nat := 0.
Definition r1007_C157 : nat := 1.
Definition r1007_C158 : nat := 2.
Definition r1007_C159 : nat := 3.
Definition r1007_C160 : nat := 4.
Definition r1007_C163 : nat := 5.
Definition r1007_C288 : nat := 6.
Definition r1007_C415 : nat := 7.
Definition r1007_C416 : nat := 8.
Definition r1007_C417 : nat := 9.
Definition r1007_C418 : nat := 10.
Definition r1007_C419 : nat := 11.
Definition r1007_C420 : nat := 12.
Definition r1007_C443 : nat := 13.
Definition r1007_F_GAP : nat := 14.
Definition r1007_F_NLINK : nat := 15.
Definition r1007_F_PICK : nat := 16.
Definition r1007_F_ZFS : nat := 17.

Definition r1007_PF : string := "lustre/utils/liblustreapi_pfind.c".

Definition r1007_ZF : string := "lustre/utils/libscan_zfs.c".

(** rebuild.py, lines 44 to 56: 68163: EACCES survives ZFS 2.4's zpool_find_config(). *)
Definition r1007_edits_1 : list edit_row := [
  Edit r1007_C163 r1007_ZF
    (lit "		/* the label scan skipped devices this caller cannot read */
		if (lpch.lpc_error == LPC_EACCESS)
			return -EACCES;")
    (lit "		/*
		 * The label scan skipped devices this caller cannot read.
		 * Not lpc_error: ZFS 2.4's zpool_find_config() overwrites it.
		 */
		if (lpch.lpc_open_access_error && geteuid() != 0)
			return -EACCES;")
    "163 eacces" None;
  Edit r1007_C163 r1007_ZF
    (lit " * Lustre creates its pools with cachefile=none, so the config cache that
 * kernel_init() loads knows nothing and dmu_objset_own() says ENOENT; the
 * pool has to be found the way zpool import and zdb -e find it.")
    (lit " * scan_zfs_open() leaves no config cache loaded, so dmu_objset_own() says
 * ENOENT whatever the pool's cachefile property; the pool has to be found
 * the way zpool import and zdb -e find it.")
    "163 cache" None
].

Definition r1007_LF1 : string := "Documentation/man1/lfs-find.1".

Definition r1007_LS3 : string := "Documentation/man3/llapi_find_since.3".

(** rebuild.py, lines 63 to 135: 68419: a symlinked cookie is refused. *)
Definition r1007_edits_2 : list edit_row := [
  Edit r1007_C419 r1007_PF
    (lit "	/* O_NONBLOCK so a FIFO cannot hang the open */
	fd = open(file, O_RDONLY | O_NONBLOCK | O_CLOEXEC);
	if (fd < 0) {
		/* the first run has no cookie: start at the oldest record */
		if (errno == ENOENT)
			return 0;
		return -errno;
	}")
    (lit "	/*
	 * O_NONBLOCK so a FIFO cannot hang the open.  O_NOFOLLOW because the
	 * rename in find_cookie_write() would replace a link, not its target;
	 * a dangling link would also read as a first run.
	 */
	fd = open(file, O_RDONLY | O_NONBLOCK | O_NOFOLLOW | O_CLOEXEC);
	if (fd < 0) {
		/* the first run has no cookie: start at the oldest record */
		if (errno == ENOENT)
			return 0;
		if (errno == ELOOP) {
			llapi_error(LLAPI_MSG_ERROR | LLAPI_MSG_NO_ERRNO,
				    -EINVAL,
				    \qthe cookie '%s' is not a regular file\q,
				    file);
			return -EINVAL;
		}
		return -errno;
	}")
    "419 nofollow" None;
  Edit r1007_C419 r1007_PF
    (lit "	if (stat(cookie, &st) == 0 && !S_ISREG(st.st_mode)) {")
    (lit "	if (lstat(cookie, &st) == 0 && !S_ISREG(st.st_mode)) {")
    "419 lstat" None;
  Edit r1007_C419 r1007_LF1
    (lit ".I FILE
that is not a regular file is refused too.")
    (lit ".I FILE
that is not a regular file, a symbolic link included, is refused too.")
    "419 man1 symlink" None;
  Edit r1007_C419 r1007_LS3
    (lit "on a filesystem with more than one MDT. Also for a cookie that is not a
regular file, or that was written for another filesystem or another search
root.")
    (lit "on a filesystem with more than one MDT. Also for a cookie that is not a
regular file (a symbolic link is not one), or that was written for another
filesystem or another search root.")
    "419 man3 symlink" None;
  Edit r1007_C419 r1007_LF1
    (lit "starts past N. Keep
.I FILE
outside the searched tree;")
    (lit "starts past N.
An object that cannot be read (an error other than its having gone) is
reported at the end and leaves
.I FILE
as it was, so the next run prints the same matches again. An error that
persists, such as an object the caller may not read, holds the anchors
there on every run until it is fixed or the log is purged past them.
Keep
.I FILE
outside the searched tree;")
    "419 man1 stuck" (Some r1007_C443);
  Edit r1007_C443 r1007_LF1
    (lit "Keep
.I FILE
outside the searched tree;")
    (lit "An object that cannot be read (an error other than its having gone) is
reported at the end and leaves
.I FILE
as it was, so the next run prints the same matches again. An error that
persists, such as an object the caller may not read, holds the anchors
there on every run until it is fixed or the log is purged past them.
Keep
.I FILE
outside the searched tree;")
    "443 man1 stuck" None;
  Edit r1007_C419 r1007_LS3
    (lit "An error reading an MDT's changelog is returned as it came.")
    (lit "An error reading an MDT's changelog is returned as it came. An error
on one object does not end the search: the first is returned once it is
done, and
.I fp_since_cookie
is not rewritten, so the next call reports the same matches again. An
error that persists holds the anchors there on every call until it is
fixed or the log is purged past them, which is then
.BR -ESTALE .")
    "419 man3 stuck" None
].

Definition r1007_SC : string := "lustre/utils/liblustreapi_scan_changelog.c".

Definition r1007_SC3 : string := "Documentation/man3/llapi_scan_changelog.3".

(** rebuild.py, lines 141 to 154: 68415: the replaced object's record carries no source. *)
Definition r1007_edits_3 : list edit_row := [
  Edit r1007_C415 r1007_SC
    (lit "	if (r->cr_flags & CLF_RENAME) {
		struct changelog_ext_rename *rn = changelog_rec_rename(r);

		if (fid_is_sane(&rn->cr_sfid)) {")
    (lit "	if (r->cr_flags & CLF_RENAME) {
		struct changelog_ext_rename *rn = changelog_rec_rename(r);
		/* mv c d over d: old d did not come from c */
		bool replaced = r->cr_type != CL_MIGRATE && fid != NULL &&
				!lu_fid_eq(fid, &rn->cr_sfid);

		if (fid_is_sane(&rn->cr_sfid) && !replaced) {")
    "415 src" None;
  Edit r1007_C415 r1007_SC3
    (lit "= the one that moved, in event mode as in object mode. A")
    (lit "= the one that moved, in event mode as in object mode. Only the second
carries the source fields; the replaced object did not come from
.IR a .
A")
    "415 man src" None
].

Definition r1007_SCT : string := "lustre/tests/llapi_scan_changelog_test.c".

(** rebuild.py, lines 157 to 188: 68415: the replaced object's record carries no source. *)
Definition r1007_edits_4 : list edit_row := [
  Edit r1007_C415 r1007_SCT
    (lit "	unsigned int	rn_victim_hits;
};")
    (lit "	unsigned int	rn_victim_hits;
	unsigned int	rn_over_src;	/* of rn_over_hits, with a source */
	unsigned int	rn_victim_src;
};")
    "415 t8 fields" None;
  Edit r1007_C415 r1007_SCT
    (lit "	if (fid_same(&rec->lfsr_fid, &res->rn_over))
		res->rn_over_hits++;
	if (fid_same(&rec->lfsr_fid, &res->rn_victim))
		res->rn_victim_hits++;
	return 0;")
    (lit "	if (fid_same(&rec->lfsr_fid, &res->rn_over)) {
		res->rn_over_hits++;
		if (rec->lfsr_valid & LLAPI_SCAN_EVENT_SRC)
			res->rn_over_src++;
	}
	if (fid_same(&rec->lfsr_fid, &res->rn_victim)) {
		res->rn_victim_hits++;
		if (rec->lfsr_valid & LLAPI_SCAN_EVENT_SRC)
			res->rn_victim_src++;
	}
	return 0;")
    "415 t8 cb" None;
  Edit r1007_C415 r1007_SCT
    (lit "		\qthe object replaced: %u records in event mode, %u in object mode\q,
		ev.rn_victim_hits, ob.rn_victim_hits);
")
    (lit "		\qthe object replaced: %u records in event mode, %u in object mode\q,
		ev.rn_victim_hits, ob.rn_victim_hits);
	/* only the object that moved came from somewhere */
	ASSERTF(ev.rn_over_src == 1 && ob.rn_over_src == 1,
		\qthe object renamed over a name: %u/%u records carry its source\q,
		ev.rn_over_src, ob.rn_over_src);
	ASSERTF(ev.rn_victim_src == 0 && ob.rn_victim_src == 0,
		\qthe object replaced: %u/%u records carry a source\q,
		ev.rn_victim_src, ob.rn_victim_src);
")
    "415 t8 assert" None
].

Definition r1007_SAN : string := "lustre/tests/sanity.sh".

Definition r1007_GUARD : text :=
  (lit "	# changelog_clear purges only when this test's user is the only one
	local i
	for ((i = 1; i <= MDSCOUNT; i++)); do
		changelog_users mds$i | grep -q \q^cl\q &&
			skip \qactive changelog user on mds$i\q
	done

").

(** rebuild.py, lines 201 to 243: 68420: purge-dependent cases, and refusals pinned to their text. *)
Definition r1007_edits_5 : list edit_row := [
  Edit r1007_C420 r1007_SAN
    (lit "	local m=$MOUNT
	local out

	mkdir_on_mdt0 $DIR/$tdir || error \qmkdir $tdir failed\q

	changelog_register || error \qchangelog_register failed\q
	changelog_chmask \qALL\q")
    (((lit "	local m=$MOUNT
	local out

") ++ r1007_GUARD) ++ (lit "	mkdir_on_mdt0 $DIR/$tdir || error \qmkdir $tdir failed\q

	changelog_register || error \qchangelog_register failed\q
	changelog_chmask \qALL\q"))
    "420 guard Ab" None;
  Edit r1007_C420 r1007_SAN
    (lit "	local ck=$TMP/lfs-find-cookie.$$
	local out
	local sum

	mkdir_on_mdt0 $DIR/$tdir || error \qmkdir $tdir failed\q")
    (((lit "	local ck=$TMP/lfs-find-cookie.$$
	local out
	local sum

") ++ r1007_GUARD) ++ (lit "	mkdir_on_mdt0 $DIR/$tdir || error \qmkdir $tdir failed\q"))
    "420 guard Ac" None;
  Edit r1007_C420 r1007_SAN
    (lit "	$LFS find $DIR/$tdir --since-cookie $ck.noroot -type f &> /dev/null &&
		error \qa cookie with no root should be refused\q
")
    (lit "	out=$($LFS find $DIR/$tdir --since-cookie $ck.noroot -type f 2>&1) &&
		error \qa cookie with no root should be refused\q
	grep -q \qnames no search root\q <<< \q$out\q ||
		error \qrefused for another reason: $out\q
")
    "420 noroot" None;
  Edit r1007_C420 r1007_SAN
    (lit "		# lfs find --since-cookie for ${FSNAME}x
		${FSNAME}x-MDT0000 7
	EOF
	$LFS find $DIR/$tdir --since-cookie $ck.other -type f &> /dev/null &&
		error \qa cookie for another filesystem should be refused\q
")
    (lit "		# lfs find --since-cookie for ${FSNAME}x under $DIR/$tdir
		${FSNAME}x-MDT0000 7
	EOF
	out=$($LFS find $DIR/$tdir --since-cookie $ck.other -type f 2>&1) &&
		error \qa cookie for another filesystem should be refused\q
	grep -q \qis a cookie for '${FSNAME}x'\q <<< \q$out\q ||
		error \qrefused for another reason: $out\q
")
    "420 other fs" None
].

(** rebuild.py, lines 255 to 363: 69443: one purge test for both callers. *)
Definition r1007_PURGE : list (string * text * text * string) := [
  (r1007_PF,
    (lit "/*
 * The stale-anchor check, which is the reason a cookie is worth having:"),
    (lit "/*
 * Has @mdtname purged past @anchor?  The scan starts one past the anchor, so
 * an oldest record above anchor + 1 means the records between are gone.
 *
 * Return: 0, -ESTALE (said here), or the errno reading the log.  @oldest is
 * 0 for an empty log.
 */
static int find_cookie_purged(const char *mdtname, __u64 anchor,
			      const char *cookie, __u64 *oldest)
{
	int rc;

	*oldest = 0;
	rc = find_cl_first(mdtname, 0, oldest@A@);
	if (rc < 0) {
		llapi_error(LLAPI_MSG_ERROR, rc,
			    \qcannot read the changelog of '%s'\q, mdtname);
		return rc;
	}
	if (*oldest > anchor + 1) {
		llapi_error(LLAPI_MSG_ERROR | LLAPI_MSG_NO_ERRNO, -ESTALE,
			    \q'%s' has purged past the cookie: it starts at %llu and '%s' records %llu, so the records in between are gone; '%s' is left where it was\q,
			    mdtname, (unsigned long long)*oldest, cookie,
			    (unsigned long long)anchor, cookie);
		return -ESTALE;
	}

	return 0;
}

/*
 * The stale-anchor check, which is the reason a cookie is worth having:"),
    "443 helper");
  (r1007_PF,
    (lit " * Every MDT is checked before any of them is scanned.  Done inside the scan,
 * the refusal would arrive with the earlier MDTs' matches already on stdout
 * and no cookie written, so the next run would repeat them.  It costs one
 * record per MDT, and none at all for an MDT with no anchor yet: 0 has
 * nothing to be stale against, and that is also every MDT of a first run."),
    (lit " * Every MDT is checked before any of them is scanned.  Done inside the scan,
 * the refusal would arrive with the earlier MDTs' matches already on stdout
 * and no cookie written, so the next run would repeat them.  It reads up to
 * two records per anchored MDT, and none for an MDT with no anchor yet: 0
 * has nothing to be stale against, and that is also every MDT of a first
 * run.  llapi_find_since() reads one more before each later MDT, for a
 * purge during the run."),
    "443 check comment");
  (r1007_PF,
    (lit "		snprintf(mdtname, sizeof(mdtname), \q%s-MDT%04x\q, fsname,
			 mdts[i]);
		rc = find_cl_first(mdtname, 0, &oldest@A@);
		if (rc < 0) {
			llapi_error(LLAPI_MSG_ERROR, rc,
				    \qcannot read the changelog of '%s'\q,
				    mdtname);
			return rc;
		}
		/* the scan starts one past the anchor: see the caller */
		if (oldest > anchor + 1) {
			llapi_error(LLAPI_MSG_ERROR | LLAPI_MSG_NO_ERRNO,
				    -ESTALE,
				    \q'%s' has purged past the cookie: it starts at %llu and '%s' records %llu, so the run would resume at %llu and the records in between are gone\q,
				    mdtname, (unsigned long long)oldest, cookie,
				    (unsigned long long)anchor,
				    (unsigned long long)(anchor + 1));
			return -ESTALE;
		}
		if (oldest == 0)"),
    (lit "		snprintf(mdtname, sizeof(mdtname), \q%s-MDT%04x\q, fsname,
			 mdts[i]);
		rc = find_cookie_purged(mdtname, anchor, cookie, &oldest);
		if (rc < 0)
			return rc;
		if (oldest == 0)"),
    "443 check uses");
  (r1007_PF,
    (lit "		if (i > 0 && param->fp_since_cookie != NULL &&
		    starts[mdts[i]] != 0) {
			__u64 oldest = 0;

			rc = find_cl_first(mdtname, 0, &oldest@A@);
			if (rc < 0) {
				llapi_error(LLAPI_MSG_ERROR, rc,
					    \qcannot read the changelog of '%s'\q,
					    mdtname);
				break;
			}
			if (oldest > starts[mdts[i]] + 1) {
				rc = -ESTALE;
				llapi_error(LLAPI_MSG_ERROR |
					    LLAPI_MSG_NO_ERRNO, rc,
					    \q'%s' purged past the cookie during this run: it starts at %llu, but '%s' records %llu, so the records in between are gone; '%s' is left where it was\q,
					    mdtname, (unsigned long long)oldest,
					    param->fp_since_cookie,
					    (unsigned long long)starts[mdts[i]],
					    param->fp_since_cookie);
				break;
			}
		}"),
    (lit "		if (i > 0 && param->fp_since_cookie != NULL &&
		    starts[mdts[i]] != 0) {
			__u64 oldest;

			rc = find_cookie_purged(mdtname, starts[mdts[i]],
						param->fp_since_cookie,
						&oldest);
			if (rc < 0)
				break;
		}"),
    "443 loop uses");
  (r1007_PF,
    (lit "	 * @cookie is never NULL: the one caller tests it before calling, and
	 * the -ESTALE message below hands it to %s unguarded."),
    (lit "	 * @cookie is never NULL: the one caller tests it before calling, and
	 * find_cookie_purged()'s -ESTALE message hands it to %s unguarded."),
    "443 null note")
].

Definition r1007_purge_edits (own : nat) (until : option nat) (A : text) : list edit_row :=
  (λ '(f, old, new, what),
    Edit own f (py_replace (lit "@A@") A old) (py_replace (lit "@A@") A new) what until)
  <$> r1007_PURGE.

Definition r1007_purged_1 : list edit_row :=
  r1007_purge_edits r1007_C443 (Some r1007_F_GAP) (lit "").

Definition r1007_purged_2 : list edit_row :=
  r1007_purge_edits r1007_F_GAP None (lit ", NULL").

Definition r1007_LFS : string := "lustre/utils/lfs.c".

Definition r1007_XATTR : text :=
  (lit "	if (param->fp_xattr_match_info != NULL) {
		fprintf(stderr, \q%s: --xattr needs a mounted filesystem\\n\q,
			argv[0]);
		return -ENOTSUP;
	}
").

Definition r1007_SINCE_TAIL : text :=
  (lit "	if (what != NULL) {
		fprintf(stderr,
			\q%s: %s needs a changelog, which a target scan has not\\n\q,
			argv[0], what);
		return -ENOTSUP;
	}
").

(** rebuild.py, lines 390 to 440: 68417: --since on a sweep is refused once, in lfs. *)
Definition r1007_edits_7 : list edit_row := [
  Edit r1007_C417 r1007_LFS
    r1007_XATTR
    (r1007_XATTR ++ (lit "	if (param->fp_since_kind != LLAPI_SINCE_NONE) {
		fprintf(stderr,
			\q%s: --since needs a changelog, which a target scan has not\\n\q,
			argv[0]);
		return -ENOTSUP;
	}
"))
    "417 lfs since" (Some r1007_C418);
  Edit r1007_C418 r1007_LFS
    r1007_XATTR
    ((r1007_XATTR ++ (lit "	if (param->fp_since_kind != LLAPI_SINCE_NONE)
		what = \q--since\q;
	else if (param->fp_changelog_mdt != NULL)
		what = \q--changelog\q;
")) ++ r1007_SINCE_TAIL)
    "418 lfs since" (Some r1007_C419);
  Edit r1007_C419 r1007_LFS
    r1007_XATTR
    ((r1007_XATTR ++ (lit "	if (param->fp_since_kind != LLAPI_SINCE_NONE)
		what = \q--since\q;
	else if (param->fp_since_cookie != NULL)
		what = \q--since-cookie\q;
	else if (param->fp_changelog_mdt != NULL)
		what = \q--changelog\q;
")) ++ r1007_SINCE_TAIL)
    "419 lfs since" None;
  Edit r1007_C418 r1007_LFS
    (lit "	const char *device = param->fp_device;
	int scanned = 0;")
    (lit "	const char *device = param->fp_device;
	const char *what = NULL;
	int scanned = 0;")
    "418 lfs what" None;
  Edit r1007_C159 "Documentation/man3/llapi_find_device.3"
    (lit ".B -EIO
the target could not be read.
.SH NOTES")
    (lit ".B -EIO
the target could not be read.
.LP
Any other error
.BR llapi_scan_device (3)
returns is passed back as well;
.BR -EACCES ,
a device the caller cannot read, is the one a non-root caller meets first.
.SH NOTES")
    "159 errors" None;
  Edit r1007_C417 r1007_LF1
    (lit "without this one. The result is a strict subset of the same search without
.BR --since :
narrowed, never different. An object")
    (lit "without this one. The objects reported are a subset of those the same search
without
.B --since
reports, never a different set. A file with several links is printed once,
not once per link, and a path given with a trailing slash is printed without
it. An object")
    "417 man1 subset" None;
  Edit r1007_C417 r1007_LS3
    (lit "such a file once per directory entry and prints it once per link, so the
objects answered for are a subset of the same search without an anchor while
the lines printed are not a subset of its lines.")
    (lit "such a file once per directory entry and prints it once per link, so this
prints one line where the walk prints several.")
    "417 man3 subset" None
].

(** rebuild.py, lines 470 to 527: 68419: comments say why, not what an earlier revision did. *)
Definition r1007_edits_8 : list edit_row := [
  Edit r1007_C419 r1007_PF
    (lit "	__u64			*fss_reached;	/* this MDT's highest index */")
    (lit "	/* this MDT's highest index */
	__u64			*fss_reached;")
    "419 reached col" None;
  Edit r1007_C419 r1007_PF
    (lit " * newline: only '/' and NUL are excluded from a name.  Written raw it ended
 * the line, so the root read back short and every run after the first was
 * refused naming a path the caller never gave -- the space case one
 * character further out -- while the remainder became its own line and was
 * dropped as unparsable.")
    (lit " * newline: only '/' and NUL are excluded from a name.  Written raw, a
 * newline would end the line: the root would read back short, every later
 * run would be refused naming a path the caller never gave, and the rest
 * would be dropped as an unparsable line.")
    "419 raw newline" None;
  Edit r1007_C419 r1007_PF
    (lit "		 * \q<fsname>-MDT0000_UUID\q both anchored MDT0000 at an index")
    (lit "		 * \q<fsname>-MDT0000_UUID\q would both anchor MDT0000 at an index")
    "419 %4x" None;
  Edit r1007_C419 r1007_PF
    (lit " * A record without an index is not index 0.  Storing 0 for it made a log that
 * has records indistinguishable from one that has none, and 0 compares false
 * against every anchor, so the stale check below was skipped in both cases --
 * silently, on the one guard that exists to stop a short answer.  The scan was
 * asked for LLAPI_SCAN_EVENT, so its absence is a protocol error to report
 * rather than a value to record.")
    (lit " * A record without an index is not index 0.  Storing 0 for it would make a
 * log that has records look like one that has none, and 0 compares false
 * against every anchor, so the stale check below would be skipped in both
 * cases -- silently, on the one guard that exists to stop a short answer.
 * The scan was asked for LLAPI_SCAN_EVENT, so its absence is a protocol
 * error to report rather than a value to record.")
    "419 index 0" None;
  Edit r1007_C419 r1007_PF
    (lit "	 * the job user in a root-owned 0755 directory passed that test and
	 * then failed EACCES after every match had been printed.")
    (lit "	 * the job user in a root-owned 0755 directory would pass that test
	 * and then fail EACCES after every match had been printed.")
    "419 probe" None;
  Edit r1007_C419 r1007_PF
    (lit "	 * The anchor takes every record, marks included: taken in the
	 * callback it lagged the end of the log by whatever trailing run of
	 * records the callback does not see the scan finished on, and the
	 * next run re-read them to report them again.  Coalesced, a record
	 * carries its object's latest index and can arrive after a higher
	 * one, so only the highest is kept.")
    (lit "	 * The anchor takes every record, marks included.  Taken in the
	 * callback, it would lag the end of the log by any trailing records
	 * the callback does not see, and the next run would report them
	 * again.  Coalesced, a record carries its object's latest index and
	 * can arrive after a higher one, so only the highest is kept.")
    "419 filter anchor" None;
  Edit r1007_C419 r1007_PF
    (lit "		 * What is left for this one is what fopen() passed up.")
    (lit "		 * What is left for this one is what the open or read of the
		 * file passed up.")
    "419 open or read" None;
  Edit r1007_C419 r1007_PF
    (lit "		 * is, so the next run starts one past it.  Starting at it
		 * instead reported the last object of every run again in the
		 * next one.")
    (lit "		 * is, so the next run starts one past it, or it would report
		 * the last object of every run again.")
    "419 startrec" None;
  Edit r1007_C443 r1007_LF1
    (lit "and the purge test again just before each later MDT is read: a purge that
reaches it while an earlier one is being read is refused then.")
    (lit "and the purge test runs again just before each later MDT is read: a purge
that reaches it while an earlier one is being read is refused then.")
    "443 man1 verb" None
].

(** rebuild.py, lines 585 to 716: lreview 68418: a lookup that fails still prints the match. *)
Definition r1007_edits_9 : list edit_row := [
  Edit r1007_C418 r1007_PF
    (lit "			 * pathname.  llapi_find_device() refuses a mount of
			 * the wrong filesystem before the scan starts, which
			 * is the only place the two can be told apart.
			 */
			if (*fc->fc_path_rc == 0) {")
    (lit "			 * pathname.  llapi_find_device() refuses a mount of
			 * the wrong filesystem before the scan starts, which
			 * is the only place the two can be told apart.
			 *
			 * Under --changelog the record is still the answer,
			 * so it is printed by FID as above; the error still
			 * fails the run.
			 */
			if (fc->fc_fid_when_lost &&
			    (fc->fc_rec->lfsr_valid & LLAPI_SCAN_FID)) {
				llapi_printf(LLAPI_MSG_NORMAL, DFID\q%c\q,
					     PFID(&fc->fc_rec->lfsr_fid),
					     param->fp_zero_end ? '\\0' : '\\n');
				if (fc->fc_unresolved != NULL)
					(*fc->fc_unresolved)++;
			}
			if (*fc->fc_path_rc == 0) {")
    "lr418 fid on error" None;
  Edit r1007_C417 r1007_LS3
    (lit ".EX
        struct find_param param = { 0 };
        int rc;
\\&
        param.fp_max_depth   = (unsigned int)-1;
        param.fp_type        = S_IFREG;
        param.fp_since_kind  = LLAPI_SINCE_TIME;
        param.fp_since_time  = time(NULL) - 2 * 60 * 60;
\\&
        rc = llapi_find_since(\q/mnt/lustre/data\q, &param);
.EE")
    (lit ".EX
        #include <lustre/lustreapi.h>
\\&
        struct find_param *param = llapi_find_param_alloc();
        int rc;
\\&
        if (param == NULL)
                return \\-ENOMEM;
        param\\->fp_max_depth   = (unsigned int)\\-1;
        param\\->fp_type        = S_IFREG;
        param\\->fp_since_kind  = LLAPI_SINCE_TIME;
        param\\->fp_since_time  = time(NULL) \\- 2 * 60 * 60;
\\&
        rc = llapi_find_since(\q/mnt/lustre/data\q, param);
        llapi_find_param_free(param);
.EE")
    "lr417 example" None;
  Edit r1007_C418 r1007_LS3
    (lit ".EX
        struct find_param param = { 0 };
        int rc;
\\&
        param.fp_max_depth      = (unsigned int)-1;
        param.fp_type           = S_IFREG;
        param.fp_changelog_mdt  = \qlustre-MDT0000\q;
\\&
        /* the mount, not a subtree: a record carries no pathname.
         * Set param.fp_resolve to search below it, at one lookup
         * per object.
         */
        rc = llapi_find_since(\q/mnt/lustre\q, &param);
.EE")
    (lit ".EX
        struct find_param *param = llapi_find_param_alloc();
        int rc;
\\&
        if (param == NULL)
                return \\-ENOMEM;
        param\\->fp_max_depth      = (unsigned int)\\-1;
        param\\->fp_type           = S_IFREG;
        param\\->fp_changelog_mdt  = \qlustre\\-MDT0000\q;
\\&
        /* the mount, not a subtree: a record carries no pathname.
         * Set param\\->fp_resolve to search below it, at one lookup
         * per object.
         */
        rc = llapi_find_since(\q/mnt/lustre\q, param);
        llapi_find_param_free(param);
.EE")
    "lr418 example" None;
  Edit r1007_C417 r1007_LS3
    (lit "and
.BR lctl (8).
.LP
Resolving each candidate's FID")
    (lit "and
.BR lctl (8).
The changelog device is readable by root alone by default, so another
caller gets
.B \\-EACCES
from the first MDT, before any FID is resolved.
.LP
Resolving each candidate's FID")
    "lr417 root" (Some r1007_F_GAP);
  Edit r1007_F_GAP r1007_LS3
    (lit "and
.BR lctl (8).
.LP
Another user may have cleared")
    (lit "and
.BR lctl (8).
The changelog device is readable by root alone by default, so another
caller gets
.B \\-EACCES
from the first MDT, before any FID is resolved.
.LP
Another user may have cleared")
    "lr417 root gap" None;
  Edit r1007_C419 r1007_LF1
    (lit "outside the searched tree; the run writes it, so inside the tree it reports
itself on every run. To accept the gap and go on, remove")
    (lit "off the filesystem being searched: the run writes it through a temporary,
so there every run sees its own writes as changes \\(em matches inside the
tree, and objects that \qno longer exist\q outside it. To accept the gap and
go on, remove")
    "lr419 cookie place" None;
  Edit r1007_C420 r1007_SAN
    (lit "	out=$($LFS find $m --since 2m) || error \qlfs find --since failed\q
	grep -qF \q$gonefid\q <<< \q$out\q &&
		error \q--since reported $gonefid, which no longer exists\q
")
    (lit "	# --since never prints a FID, so it is the count that says it was seen
	out=$($LFS find $m --since 2m 2> $TMP/$tfile.err) ||
		error \qlfs find --since failed\q
	grep -qF \q$gonefid\q <<< \q$out\q &&
		error \q--since reported $gonefid, which no longer exists\q
	grep -q \qno longer exist\q $TMP/$tfile.err ||
		error \q--since did not count $gonefid as gone\q
	rm -f $TMP/$tfile.err
")
    "lr420 gone" None;
  Edit r1007_C420 r1007_SAN
    (lit "	[[ -n \q$found\q ]] ||
		error \q--changelog -name g did not report the renamed file\q")
    (lit "	grep -q \q/$tdir/a/g$\q <<< \q$found\q ||
		error \q--changelog -name g missed the renamed file: '$found'\q")
    "lr420 160Ae path" None;
  Edit r1007_C419 r1007_LF1
    (lit "Nor is one record lost to a race in the MDT: records are written")
    (lit "Nor is a record lost to a race in the MDT
caught: records are written")
    "lr419 race" (Some r1007_C443);
  Edit r1007_C443 r1007_LF1
    (lit "Nor is one record lost to a race in the MDT:")
    (lit "Nor is a record lost to a race in the MDT caught:")
    "lr443 race" None
].

Definition r1007_M418_TAIL : text :=
  (lit "The --since code this shares changes with it:

- A printed pathname takes the caller's spelling whichever way it was
  composed: find_since_respell() becomes find_respell(), taking the
  two roots, and the print site uses it.
- -printf widens fss_want, the mask handed to llapi_scan_fid(), so
  --since and --changelog widen together; it buys LLAPI_SCAN_LMV for
  %Lc and its neighbours.  find_since_rec_cb() sets fc_gather_all
  under -printf, which gates find_get_projid() and the OST glimpse, so
  %LP, %s and %b answer as a walk does.
- find_since_pick() puts a link's basename into the record only for
  --since.  Under --changelog the recorded name stays, and the link
  only places the object in the subtree.
- A CL_MARK is dropped at the top of find_since_cand_cb().
  mdd_changelog_write_header() writes the marker flags into the union
  with cr_tfid, where CLM_ON|CLM_START reads as an IGIF sequence.  No
  marker is written today -- with CL_MARK in the mask, which
  CHANGELOG_MINMASK forces, the header write returns early -- so this
  is a guard.
- LLAPI_SCAN_CL_F_ONCE is set for --since and not for --changelog: a
  source answering as it was recorded has a second burst to report, so
  an object touched in two bursts prints twice.  The man page says so.
").

(** rebuild.py, lines 762 to 774: lreview gap: record 1 means nothing lost since the log started. *)
Definition r1007_edits_10 : list edit_row := [
  Edit r1007_F_GAP r1007_PF
    (lit " * answer may be short, so say so.  Changelog indexes start at 1: a log that
 * still holds record 1 has lost nothing.  A warning, not a refusal: unlike")
    (lit " * answer may be short, so say so.  Changelog indexes start at 1: a log that
 * still holds record 1 has lost nothing since it (re)started -- a log is
 * restarted at 1 when its last user goes and the MDT is remounted, and what
 * it held before is not seen.  A warning, not a refusal: unlike")
    "lrgap code" None;
  Edit r1007_F_GAP r1007_LS3
    (lit "the cleared records may all be older than the window. A log that still
holds record 1 has lost nothing, so a new filesystem gives no warning.")
    (lit "the cleared records may all be older than the window. A log that still
holds record 1 has lost nothing since it started, so a new filesystem gives
no warning; neither does a log restarted at 1, though what it held before
the restart is gone.")
    "lrgap man3" None
].

(** rebuild.py, lines 791 to 898: deferred 68419: matches reach the disk before the cookie does. *)
Definition r1007_edits_11 : list edit_row := [
  Edit r1007_C419 r1007_PF
    (lit "/**
 * llapi_find_since() - lfs find over the objects a changelog says changed")
    (lit "/*
 * Sync stdout when it is a regular file.  The cookie is synced before its
 * rename, so without this a crash could keep the new anchors and lose the
 * matches that moved them.  A pipe or a terminal has nothing to sync.
 */
static int find_stdout_sync(void)
{
	struct stat st;
	int fd = fileno(stdout);

	if (fd < 0 || fstat(fd, &st) != 0 || !S_ISREG(st.st_mode))
		return 0;

	return fsync(fd) == 0 ? 0 : -errno;
}

/**
 * llapi_find_since() - lfs find over the objects a changelog says changed")
    "d419 sync helper" None;
  Edit r1007_C419 r1007_PF
    (lit "	 * Matches printed into a stdout that failed are as lost as the ones
	 * above, and llapi_printf() reports nothing, so ask stdout itself.
	 */
	if (rc == 0 && param->fp_since_cookie != NULL &&
	    (fflush(stdout) != 0 || ferror(stdout))) {")
    (lit "	 * Matches printed into a stdout that failed are as lost as the ones
	 * above, and llapi_printf() reports nothing, so ask stdout itself.
	 */
	if (rc == 0 && param->fp_since_cookie != NULL &&
	    (fflush(stdout) != 0 || ferror(stdout) ||
	     find_stdout_sync() != 0)) {")
    "d419 sync use" None;
  Edit r1007_F_GAP r1007_PF
    (lit "	/* only an anchor is compared, so only an anchor reads the log */
	if (param->fp_since_cookie != NULL ||
	    (param->fp_since_kind != LLAPI_SINCE_TIME &&
	     (param->fp_since_kind != LLAPI_SINCE_INDEX ||
	      param->fp_since_index == 0)))
		return;")
    (lit "	/*
	 * Only an anchor is compared, so only an anchor reads the log.  Index
	 * 0 is one: it starts at the oldest record, as 1 does.
	 */
	if (param->fp_since_cookie != NULL ||
	    (param->fp_since_kind != LLAPI_SINCE_TIME &&
	     param->fp_since_kind != LLAPI_SINCE_INDEX))
		return;")
    "dgap zero" None;
  Edit r1007_F_GAP r1007_SAN
    (lit "	grep -q \q'$mdt'.*$msg\q <<< \q$out\q ||
		error \q--since 1 after a clear gave no warning: '$out'\q
")
    (lit "	grep -q \q'$mdt'.*$msg\q <<< \q$out\q ||
		error \q--since 1 after a clear gave no warning: '$out'\q
	# 0 starts at the oldest record too, so it is as short
	out=$($LFS find $MOUNT --changelog $mdt --since 0 \\
		2>&1 >/dev/null) || error \qlfs find --since 0 failed\q
	grep -q \q'$mdt'.*$msg\q <<< \q$out\q ||
		error \q--since 0 after a clear gave no warning: '$out'\q
")
    "dgap 160Af zero" None;
  Edit r1007_C418 r1007_PF
    (lit "	 * stripe block is skipped.  These three live in it, and were
	 * accepted and never evaluated.
	 */")
    (lit "	 * stripe block is skipped.  These three live in it, so accepted
	 * they would never be evaluated.
	 */")
    "d418 stripe" None;
  Edit r1007_C418 r1007_PF
    (lit "	/*
	 * These four were accepted and then answered from a record that
	 * cannot carry them.  --xattr was the loud one: find_check_xattrs()
	 * reaches llistxattr(NULL, ...) and prints an error per object.  The
	 * other three are quieter and worse -- find_rec_to_lmd() leaves the
	 * fields zero, so \q--perm 644\q matched nothing and its negation
	 * matched everything, which is the approximation this refusal exists
	 * to prevent.
	 */")
    (lit "	/*
	 * A record cannot carry these four.  --xattr would reach
	 * llistxattr(NULL, ...) in find_check_xattrs() and print an error per
	 * object.  The other three are quieter and worse: find_rec_to_lmd()
	 * leaves the fields zero, so \q--perm 644\q would match nothing and its
	 * negation everything -- the approximation this refusal prevents.
	 */")
    "d418 four" None;
  Edit r1007_C418 r1007_PF
    (lit "	 * Whatever --resolve looked up.  Dropping these left find_decide()
	 * with no path and no descriptor, so -size, -blocks, -projid and
	 * -printf were undecidable for every object even though --resolve is
	 * documented as the way to make them answerable: the size a striped
	 * file has lives on the OSTs, and only a stat through the path
	 * glimpses it.")
    (lit "	 * Whatever --resolve looked up.  Without a path and a descriptor,
	 * find_decide() cannot decide -size, -blocks, -projid or -printf,
	 * which --resolve is documented to make answerable: the size of a
	 * striped file lives on the OSTs, and only a stat through the path
	 * glimpses it.")
    "d418 resolve" None;
  Edit r1007_C418 r1007_PF
    (lit "	 * index and leaves that descriptor in lfsr_fd -- so passing it through
	 * sent every striped file down the directory branch, onto an lmv
	 * buffer find_rec_to_lmv() had just zeroed.")
    (lit "	 * index and leaves that descriptor in lfsr_fd -- and passing it
	 * through would send every striped file down the directory branch,
	 * onto an lmv buffer find_rec_to_lmv() has just zeroed.")
    "d418 fc_d" None;
  Edit r1007_C418 r1007_PF
    (lit "		* record, find_rec_to_lmd() leaves stx_uid 0 with STATX_UID
		* clear and find_decide() compares it anyway, so \q-uid 0\q
		* kept every gone object and \q! -uid 1000\q kept them too.")
    (lit "		* record, find_rec_to_lmd() leaves stx_uid 0 with STATX_UID
		* clear and find_decide() compares it anyway, so \q-uid 0\q
		* and \q! -uid 1000\q would both keep every gone object.")
    "d418 uid" None;
  Edit r1007_C418 r1007_PF
    (lit "		* path: a record with no lookup behind it left fp_obd_index
		* at OBD_NOT_FOUND, so find_decide() dropped the object
		* without counting it -- and cleared fp_got_uuids on the way,
		* so the next object that did resolve looked the OSTs up
		* again.")
    (lit "		* path: for a record with no lookup behind it fp_obd_index
		* stays OBD_NOT_FOUND, so find_decide() would drop the object
		* without counting it, and clear fp_got_uuids so the next
		* object that resolves looks the OSTs up again.")
    "d418 ost" None
].

Definition r1007_LH : string := "include/lustre/lustreapi.h".

Definition r1007_PARSE : string := "lustre/utils/lfs_find_parse.c".

(** rebuild.py, lines 903 to 959: lreview2. *)
Definition r1007_edits_12 : list edit_row := [
  Edit r1007_C419 r1007_LH
    (lit "	 * the end.  The only anchor that is exact on every MDT.")
    (lit "	 * the end.  One anchor per MDT, so the one that holds on all of them.")
    "l2 419 header" None;
  Edit r1007_C419 r1007_PARSE
    (lit "	 * --resolve only means something to a changelog: lfs find sends the
	 * search to llapi_find_since() only when --since, --since-cookie or --changelog is
	 * given, so on its own the flag was parsed and never looked at.  A flag
	 * accepted and quietly ignored is the thing find_changelog_supported()
	 * was written to avoid.")
    (lit "	 * --resolve only means something to a changelog: lfs find sends the
	 * search to llapi_find_since() only when --since, --since-cookie or
	 * --changelog is given, so on its own the flag would be parsed and
	 * never looked at.  A flag accepted and quietly ignored is what
	 * find_changelog_supported() is there to avoid.")
    "l2 419 parse" None;
  Edit r1007_C420 r1007_SAN
    (lit "	stack_trap \qrm -f $ck.bad $ck.other $ck.noroot\q")
    (lit "	stack_trap \qrm -f $ck.bad $ck.other $ck.noroot $ck.link\q")
    "l2 420 trap" None;
  Edit r1007_C420 r1007_SAN
    (lit "	grep -q \q^${FSNAME}x-MDT0000 7\q $ck.other ||
		error \qthe refused cookie was rewritten\q
")
    (lit "	grep -q \q^${FSNAME}x-MDT0000 7\q $ck.other ||
		error \qthe refused cookie was rewritten\q

	# a symlink is refused and left alone: the rename would replace it
	ln -s $ck $ck.link
	$LFS find $DIR/$tdir --since-cookie $ck.link -type f &> /dev/null &&
		error \qa symlinked cookie should be refused\q
	[[ -L $ck.link ]] || error \qthe symlinked cookie was replaced\q
")
    "l2 420 symlink" None;
  Edit r1007_F_GAP r1007_PF
    (lit "	if (find_cl_first(mdtname, 0, &oldest, &when) < 0 || oldest <= 1)
		return;")
    (lit "	/* an empty log looks the same cleared or idle: nothing to say */
	if (find_cl_first(mdtname, 0, &oldest, &when) < 0 || oldest <= 1)
		return;")
    "l2 gap empty" None;
  Edit r1007_F_GAP r1007_LS3
    (lit "no warning; neither does a log restarted at 1, though what it held before
the restart is gone.")
    (lit "no warning; neither does a log restarted at 1, though what it held before
the restart is gone, nor an empty log, which looks the same to a client
whether it was cleared or nothing happened.")
    "l2 gap man3 empty" None;
  Edit r1007_C420 r1007_SAN
    (lit "	local all since nall nsince
")
    (lit "	local all since nall nsince mid
")
    "l3 420 local" None;
  Edit r1007_C420 r1007_SAN
    (lit "	createmany -o $DIR/$tdir/old 5 || error \qcreatemany failed\q
	sync; sleep 15
	# two inside it")
    (lit "	createmany -o $DIR/$tdir/old 5 || error \qcreatemany failed\q
	# the anchor in the middle of the gap, so neither side depends on how
	# long sync or the walk below take, or on the MDS clock to the second
	sync; sleep 7
	mid=$(date +%s)
	sleep 8
	# two inside it")
    "l3 420 mid" None;
  Edit r1007_C420 r1007_SAN
    (lit "	raw=$($LFS find $DIR/$tdir --since 8s -type f) ||")
    (lit "	raw=$($LFS find $DIR/$tdir --since @$mid -type f) ||")
    "l3 420 since" None;
  Edit r1007_C420 r1007_SAN
    (lit "	# \q8s\q did; the same number written bare")
    (lit "	# \q@$mid\q did; the same number written bare")
    "l3 420 comment" None
].

Definition r1007_rows_417 : list (text * text * string) := [
    ((lit "and judges each the same way: the objects are a strict subset,
narrowed and never different.  The lines are not a subset of the
lines -- a walk reaches a hardlinked file once per directory entry
and prints it once per link, while --since reaches it once per FID
and prints it once, under the first of its names that is under the
root and matches."),
     (lit "and judges each the same way: the objects are a subset, never a
different set.  A hardlinked file is printed once rather than once
per link -- a walk reaches it once per directory entry, while --since
reaches it once per FID and prints the first of its names that is
under the root and matches."), "m417 subset")
].

Definition r1007_m_417 (m : text) : res text := reps m r1007_rows_417.

Definition r1007_rows_415 : list (text * text * string) := [
    ((lit "lfsr_event_gid, not lfsr_uid: mdd_changelog_ns_store() fills the"),
     (lit "lfsr_event_gid, not lfsr_stx.stx_uid: mdd_changelog_ns_store() fills the"), "m415 uid1");
    ((lit "lfsr_uid means in every scanner that fills it and what lfs find -uid
matches. Delivering it as lfsr_uid would have"),
     (lit "stx_uid means in every scanner that fills it and what lfs find -uid
matches. Delivering it as stx_uid would have"), "m415 uid2");
    ((lit "behind three new validity bits.  An event
time is not an object time, so it does not land in lfsr_mtime: a"),
     (lit "behind four new validity bits.  An event
time is not an object time, so it does not land in stx_mtime: a"), "m415 bits")
].

Definition r1007_m_415 (m : text) : res text := reps m r1007_rows_415.

Definition r1007_rows_419 : list (text * text * string) := [
    ((lit "clocks agree; a cookie is exact on every MDT, and is what a repeated
job should use."),
     (lit "clocks agree; a cookie holds an index per MDT, and is what a repeated
job should use."), "m419 exact");
    ((lit "LU-20650 lfs: find --since-cookie, per-MDT anchor"),
     (lit "LU-20650 lfs: add find --since-cookie, a per-MDT anchor"), "m419 subject")
].

Definition r1007_m_419 (m : text) : res text := reps m r1007_rows_419.

Definition r1007_rows_420 : list (text * text * string) := [
    ((lit "holds only the lazy one, and a resolution that did not glimpse left
every object \qcould not be decided\q while still exiting 0.  It also
asserts -printf's %s, which reads the same size through a widened
gather, that --projid is answered rather than failing on the first
record, and that"),
     (lit "holds only the lazy one, and a resolution that does not glimpse
would leave every object \qcould not be decided\q while still exiting
0.  It also asserts -printf's %s, which reads the same size through a
widened gather, that --projid is answered, and that"), "m420 glimpse");
    ((lit "widened gather, that --projid is answered, and that a subtree search under --resolve answers for that
subtree and not the whole filesystem."),
     (lit "widened gather, that --projid is answered, and that a subtree search
under --resolve answers for that subtree and not the whole
filesystem."), "m420 wrap");
    ((lit "LU-20650 tests: sanity cases for find's changelog flags"),
     (lit "LU-20650 tests: add sanity cases for lfs find's changelog flags"), "m420 subject");
    ((lit "

Five sanity cases."),
     (lit "

Add sanity 160Aa-160Ae for the lfs find --since, --changelog and
--since-cookie options added earlier in the series, and bring
lfs-find.1 up to date with them.

Five sanity cases."), "m420 opening");
    ((lit "below the mount, an unknown MDT, -perm, -links, --mdt-count,"),
     (lit "below the mount, an unknown MDT, -perm, -links, -uid, --mdt-count,"), "m420 uid");
    ((lit "Four changes to lfs-find.1 come with the tests."),
     (lit "Five changes to lfs-find.1 come with the tests."), "m420 five");
    ((lit "\qnothing changed since\q is never true -- which is what hid an
off-by-one in the cookie until a narrow mask made every run repeat
the last object of the one before it."),
     (lit "\qnothing changed since\q is never true; the narrow mask is what lets
the third run be asserted empty."), "m420 mask")
].

Definition r1007_m_420 (m : text) : res text := reps m r1007_rows_420.

Definition r1007_rows_443 : list (text * text * string) := [
    ((lit "So the oldest record is read again just before each later MDT is
scanned, with the same one-record scan and the same purge test."),
     (lit "So llapi_find_since() reads the oldest record again just before each
later MDT is scanned, through find_cookie_purged(), the purge test
find_cookie_check() now shares: one find_cl_first() record each."), "m443 names")
].

Definition r1007_m_443 (m : text) : res text := reps m r1007_rows_443.

Definition r1007_m_418 (m : text) : res text :=
  let! m := reps m [
    ((lit "LU-20650 lfs: find --changelog, the log as source"),
     (lit "LU-20650 lfs: add find --changelog, the log as source"), "m418 subject");
    ((lit "-printf, --mdt-count and --mdt-hash; --xattr was the loud one,
reaching llistxattr(NULL, ...) once per object, and the rest were
quiet and worse, \q--perm 644\q matching nothing and its negation
everything.  -uid and -gid are refused for a different reason and at"),
     (lit "-printf, --mdt-count and --mdt-hash; answered from the record,
--xattr would reach llistxattr(NULL, ...) once per object, and
\q--perm 644\q would match nothing and its negation everything.  -uid
and -gid are refused for a different reason and at"), "m418 loud")
  ] in
  let! a := py_index (lit "fc_d is set only for a directory, as find_since_rec_cb() already had") m in
  let stop := (lit "number beside the errno it belongs to.
") in
  let! b := py_index stop m in
  let b := b + length stop in
  Ok (take a m ++ r1007_M418_TAIL ++ drop b m).

Definition r1007_rows_gap : list (text * text * string) := [
    ((lit "check uses. Changelog indexes start at 1, so a log that still holds
record 1 has lost nothing, and a new filesystem gives no warning."),
     (lit "check uses. Changelog indexes start at 1, so a log that still holds
record 1 has lost nothing since it started, and a new filesystem gives
no warning. Nor does a log restarted at 1, after its last user went and
the MDT was remounted."), "mgap");
    ((lit "the MDT was remounted.
For a bare index"),
     (lit "the MDT was remounted, or an empty log.

For a bare index"), "mgap blank")
].

Definition r1007_m_gap (m : text) : res text := reps m r1007_rows_gap.

(** [EDITS] as the module leaves it. *)
Definition r1007_EDITS : list edit_row :=
  r1007_edits_1 ++
  r1007_edits_2 ++
  r1007_edits_3 ++
  r1007_edits_4 ++
  r1007_edits_5 ++
  r1007_purged_1 ++
  r1007_purged_2 ++
  r1007_edits_7 ++
  r1007_edits_8 ++
  r1007_edits_9 ++
  r1007_edits_10 ++
  r1007_edits_11 ++
  r1007_edits_12.

Definition r1007_MSG (i : nat) : option (text → res text) :=
  if i =? r1007_C415 then Some r1007_m_415 else
  if i =? r1007_C417 then Some r1007_m_417 else
  if i =? r1007_C418 then Some r1007_m_418 else
  if i =? r1007_C419 then Some r1007_m_419 else
  if i =? r1007_C420 then Some r1007_m_420 else
  if i =? r1007_C443 then Some r1007_m_443 else
  if i =? r1007_F_GAP then Some r1007_m_gap else
  None.
