(* ===== verification/RebuildFacts.v ===== *)
(** Facts about the rebuild scripts of Rebuild.v: what [rep] does, which edits
    outlive the rest of the table, and the lockstep of a dry and a real run. *)
From S2P Require Import Prelude PyStr Stable R3Engine Git Drive Rebuild.

(** ** rep *)

Section rep.
Implicit Types (s t old new sub : text) (what : string).

Lemma rep_Ok s old new what t :
  old ≠ [] → rep s old new what = Ok t →
  (t = s ∧ py_in new s = true) ∨
  (py_in new s = false ∧ py_count old s = 1 ∧ ∃ a b, s = a ++ old ++ b ∧ t = a ++ new ++ b).
Proof.
  unfold rep. intros Hne. destruct (py_in new s) eqn:Hin; [naive_solver|].
  destruct (py_count old s =? 1) eqn:Hc; simpl; [|done]. bools. intros [= <-]. right.
  destruct (count_one_split old Hne s Hc) as (a & b & -> & Hf & Hb).
  do 2 (split; [done|]). exists a, b. split; [done|]. by apply replace_all_first.
Qed.

Lemma rep_new s old new what t : old ≠ [] → rep s old new what = Ok t → py_in new t = true.
Proof. intros Hne [[-> ?]|(_ & _ & a & b & _ & ->)]%rep_Ok; [done| |done]. apply py_in_mid. Qed.

Lemma rep_skip s old new what : py_in new s = true → rep s old new what = Ok s.
Proof. unfold rep. by intros ->. Qed.

(** An edit that cannot destroy [sub] does not. *)
Lemma rep_keeps sub s old new what t :
  old ≠ [] → no_create sub new old = true → py_in sub s = true →
  rep s old new what = Ok t → py_in sub t = true.
Proof.
  intros Hne Hnc Hs Hr. apply rep_Ok in Hr as [[-> _]|(_ & _ & a & b & -> & ->)]; [done| |done].
  destruct (py_in sub (a ++ new ++ b)) eqn:E; [done|].
  destruct (decide (sub = [])) as [->|Hn]; [by rewrite py_in_nil in E|].
  rewrite (no_create_absent a b new old sub Hnc Hn E) in Hs. done.
Qed.
End rep.

(** ** The edit loop *)

Definition active (e : edit_row) (i : nat) : bool := negb (skipped e i).

(** A later edit of the same file, at a commit both reach, that could undo [x]. *)
Definition clash (n : nat) (x y : edit_row) : bool :=
  if String.eqb (ed_f x) (ed_f y) then
    if existsb (λ i, active x i && active y i) (seq 0 n)
    then negb (no_create (ed_new x) (ed_new y) (ed_old y)) else false
  else false.

(** The edits nothing later in the table can undo. *)
Fixpoint lasting (n : nat) (E : list edit_row) : list edit_row :=
  match E with
  | [] => []
  | x :: E' => (if existsb (clash n x) E' then [] else [x]) ++ lasting n E'
  end.

Definition olds_ok (E : list edit_row) : bool :=
  forallb (λ e, negb (bool_decide (ed_old e = []))) E.

Section edits.
Context (tree : gmap string text) (i : nat).
Implicit Types (E : list edit_row) (files : gmap string text) (errs : list exn) (e : edit_row).

Lemma olds_ok_cons e E : olds_ok (e :: E) = true ↔ ed_old e ≠ [] ∧ olds_ok E = true.
Proof. unfold olds_ok. simpl. rewrite andb_true_iff, negb_true_iff, bool_decide_eq_false. done. Qed.

(** The text the loop works on. *)
Definition current files (f : string) : option text :=
  match files !! f with Some s => Some s | None => tree !! f end.

Lemma edit_files_cons e E files errs :
  edit_files tree i (e :: E) files errs =
  if skipped e i then edit_files tree i E files errs
  else match current files (ed_f e) with
       | None => Raise (CalledProcessError "show")
       | Some s =>
           match rep s (ed_old e) (ed_new e) (ed_what e) with
           | Ok t => edit_files tree i E (<[ed_f e := t]> files) errs
           | Raise x => edit_files tree i E (<[ed_f e := s]> files) (errs ++ [x])
           end
       end.
Proof. done. Qed.

Lemma edit_files_errs E files errs files' errs' :
  edit_files tree i E files errs = Ok (files', errs') → ∃ more, errs' = errs ++ more.
Proof.
  revert files errs. induction E as [|e E IH]; intros files errs.
  { intros [= _ <-]. exists []. by rewrite app_nil_r. }
  rewrite edit_files_cons. destruct (skipped e i); [apply IH|].
  destruct (current files (ed_f e)) as [s|]; [|done].
  destruct (rep _ _ _ _) as [t|x]; [apply IH|]. intros [more ->]%IH.
  exists ([x] ++ more). by rewrite app_assoc.
Qed.

(** Only files that an active edit names are fetched. *)
Lemma edit_files_frame E files errs files' errs' f :
  edit_files tree i E files errs = Ok (files', errs') →
  (∀ e, e ∈ E → active e i = true → ed_f e ≠ f) → files' !! f = files !! f.
Proof.
  revert files errs. induction E as [|e E IH]; intros files errs.
  { by intros [= -> _]. }
  rewrite edit_files_cons. intros He Hf.
  assert (∀ e', e' ∈ E → active e' i = true → ed_f e' ≠ f) as Hf' by (intros; apply Hf; [by right|done]).
  destruct (skipped e i) eqn:Es; [by eapply IH|].
  assert (ed_f e ≠ f) by (apply Hf; [by left|unfold active; by rewrite Es]).
  destruct (current files (ed_f e)) as [s|]; [|done].
  destruct (rep _ _ _ _) as [t|x]; (erewrite IH; [|done..]); by rewrite lookup_insert_ne.
Qed.

(** A text stays in its file if no later active edit can destroy it. *)
Lemma edit_files_keeps E files errs files' errs' f sub s :
  olds_ok E = true → edit_files tree i E files errs = Ok (files', errs') →
  (∀ y, y ∈ E → active y i = true → ed_f y = f → no_create sub (ed_new y) (ed_old y) = true) →
  files !! f = Some s → py_in sub s = true →
  ∃ t, files' !! f = Some t ∧ py_in sub t = true.
Proof.
  revert files errs s. induction E as [|e E IH]; intros files errs s.
  { intros _ [= -> _]. eauto. }
  rewrite edit_files_cons, olds_ok_cons. intros [Hne Hok] He Hy Hs Hin.
  assert (∀ y, y ∈ E → active y i = true → ed_f y = f →
          no_create sub (ed_new y) (ed_old y) = true) as Hy' by (intros; apply Hy; [by right|done..]).
  destruct (skipped e i) eqn:Es; [by eapply IH|].
  destruct (decide (ed_f e = f)) as [Ef|Ef].
  - unfold current in He. rewrite Ef, Hs in He.
    destruct (rep _ _ _ _) as [t|x] eqn:Er; (eapply IH; [done|done|done|by rewrite lookup_insert_eq|]).
    + eapply rep_keeps; [done| |done|exact Er]. apply Hy; [by left| |done].
      unfold active. by rewrite Es.
    + done.
  - destruct (current files (ed_f e)) as [u|]; [|done].
    destruct (rep _ _ _ _) as [t|x]; (eapply IH; [done..| |done]; by rewrite lookup_insert_ne).
Qed.

Lemma clash_false n x y :
  clash n x y = false → i < n → ed_f x = ed_f y → active x i = true → active y i = true →
  no_create (ed_new x) (ed_new y) (ed_old y) = true.
Proof.
  unfold clash. intros Hc Hi Hf Hx Hy. rewrite Hf, String.eqb_refl in Hc. simpl in Hc.
  assert (existsb (λ i, active x i && active y i) (seq 0 n) = true) as He.
  { apply existsb_exists. exists i. rewrite in_seq, Hx, Hy. split; [lia|done]. }
  rewrite He in Hc. simpl in Hc. by apply negb_false_iff in Hc.
Qed.

(** After a pass without errors every lasting edit is in its file. *)
Lemma edit_files_new n E files files' x :
  olds_ok E = true → i < n → edit_files tree i E files [] = Ok (files', []) →
  x ∈ lasting n E → active x i = true →
  ∃ t, files' !! ed_f x = Some t ∧ py_in (ed_new x) t = true.
Proof.
  intros Hok Hi. revert files Hok. induction E as [|e E IH]; intros files Hok He Hx Ha.
  { by apply not_elem_of_nil in Hx. }
  rewrite edit_files_cons in He. apply olds_ok_cons in Hok as [Hne Hok].
  simpl in Hx. apply elem_of_app in Hx as [Hx|Hx].
  - destruct (existsb (clash n e) E) eqn:Ec; [by apply not_elem_of_nil in Hx|].
    apply list_elem_of_singleton in Hx as ->.
    unfold active in Ha. destruct (skipped e i) eqn:Es; [done|].
    destruct (current files (ed_f e)) as [s|]; [|done].
    destruct (rep _ _ _ _) as [t|y] eqn:Er.
    2: { apply edit_files_errs in He as [more He]. by destruct more. }
    eapply (edit_files_keeps _ _ _ _ _ _ _ t); [done|exact He| |by rewrite lookup_insert_eq|by eapply rep_new].
    intros y Hy Hay Hf. apply clash_false with n; [|done..|unfold active; by rewrite Es|done].
    apply not_true_iff_false. intros Hcl. apply not_true_iff_false in Ec. apply Ec.
    apply existsb_exists. exists y. split; [by apply list_elem_of_In|done].
  - destruct (skipped e i); [by eapply IH|].
    destruct (current files (ed_f e)) as [s|]; [|done].
    destruct (rep _ _ _ _) as [t|y] eqn:Er; [by eapply IH|].
    apply edit_files_errs in He as [more He]. by destruct more.
Qed.

(** Edits that are all there already: nothing changes, nothing fails. *)
Lemma edit_files_idle E files errs :
  (∀ f t, files !! f = Some t → tree !! f = Some t) →
  (∀ e, e ∈ E → active e i = true → ∃ t, tree !! ed_f e = Some t ∧ py_in (ed_new e) t = true) →
  ∃ files', edit_files tree i E files errs = Ok (files', errs) ∧
            ∀ f t, files' !! f = Some t → tree !! f = Some t.
Proof.
  revert files. induction E as [|e E IH]; intros files Hf He; [eauto|].
  rewrite edit_files_cons.
  assert (∀ e', e' ∈ E → active e' i = true →
    ∃ t, tree !! ed_f e' = Some t ∧ py_in (ed_new e') t = true) as He' by (intros; apply He; [by right|done]).
  destruct (skipped e i) eqn:Es; [by apply IH|].
  destruct (He e) as (t & Ht & Hin); [by left|unfold active; by rewrite Es|].
  assert (current files (ed_f e) = Some t) as ->.
  { unfold current. destruct (files !! ed_f e) eqn:E0; [|done]. apply Hf in E0. congruence. }
  rewrite rep_skip by done. apply IH; [|done]. intros f u.
  destruct (decide (f = ed_f e)) as [->|Hne].
  - rewrite lookup_insert_eq. congruence.
  - rewrite lookup_insert_ne by done. apply Hf.
Qed.
End edits.

(** The loop raises only for a file that the commit does not have. *)
Lemma edit_files_raise tree i E files errs x :
  (∀ f, is_Some (files !! f) → is_Some (tree !! f)) →
  edit_files tree i E files errs = Raise x →
  x = CalledProcessError "show" ∧
  ∃ e, e ∈ E ∧ active e i = true ∧ tree !! ed_f e = None.
Proof.
  revert files errs. induction E as [|e E IH]; intros files errs Hf; [done|].
  rewrite edit_files_cons. intros He.
  assert (∀ files errs, (∀ f, is_Some (files !! f) → is_Some (tree !! f)) →
    edit_files tree i E files errs = Raise x →
    x = CalledProcessError "show" ∧
    ∃ e', e' ∈ e :: E ∧ active e' i = true ∧ tree !! ed_f e' = None) as IH'.
  { intros files0 errs0 H1 H2. destruct (IH _ _ H1 H2) as (? & e' & ? & ?).
    split; [done|]. exists e'. split; [by right|done]. }
  destruct (skipped e i) eqn:Es; [by eapply IH'|].
  unfold current in He. destruct (files !! ed_f e) as [s|] eqn:E0;
    [|destruct (tree !! ed_f e) as [s|] eqn:E1].
  1,2: assert (is_Some (tree !! ed_f e)) as Hs
    by first [by apply Hf; rewrite E0; eexists | by rewrite E1; eexists];
    destruct (rep _ _ _ _); (eapply IH'; [|exact He]); intros f;
    (destruct (decide (f = ed_f e)) as [->|Hne]; [done|]; rewrite lookup_insert_ne by done; apply Hf).
  injection He as <-. split; [done|]. exists e. split; [by left|]. split; [|done].
  unfold active. by rewrite Es.
Qed.

(** What a stage promises [build]: the one exception that escapes it is that of a file
    it asks the commit for and the commit does not have. *)
Class Reads (edits : stage) := {
  wants : nat → string → Prop;
  reads_raise tree i x :
    edits tree i = Raise x →
    x = CalledProcessError "show" ∧ ∃ f, wants i f ∧ tree !! f = None;
}.

Lemma edit_stage_raise EDITS tree i x :
  edit_stage EDITS tree i = Raise x →
  x = CalledProcessError "show" ∧
  ∃ f, (∃ e, e ∈ EDITS ∧ active e i = true ∧ ed_f e = f) ∧ tree !! f = None.
Proof.
  intros Hx. apply edit_files_raise in Hx as (-> & e & ? & ? & ?);
    [|intros f; rewrite lookup_empty; by intros []].
  split; [done|]. exists (ed_f e). split; [by exists e|done].
Qed.

#[export] Instance edit_stage_reads EDITS : Reads (edit_stage EDITS) := {
  wants i f := ∃ e, e ∈ EDITS ∧ active e i = true ∧ ed_f e = f;
  reads_raise := edit_stage_raise EDITS;
}.

(** ** Messages *)

Lemma one_nl_snoc s : one_nl (s ++ [nl]) = one_nl s.
Proof. unfold one_nl, rstrip_nl. by rewrite rev_unit. Qed.

(** ** build *)

(** The commits a run reports, one per commit of the stack. *)
Definition news {sha} (out : list (line sha)) : list sha :=
  omap (λ l, match l with Kept _ c => Some c | Made _ _ n => Some n | _ => None end) out.

Lemma news_failures {sha} (es ms : list exn) i :
  news ((EditFailed i <$> es) ++ (MsgFailed i <$> ms) : list (line sha)) = [].
Proof.
  unfold news. rewrite omap_app.
  induction es as [|e es IH]; [|done]. simpl. induction ms as [|m ms IH]; [done|]. done.
Qed.

Lemma failures_failing {sha} (es ms : list exn) i :
  List.filter failure ((EditFailed i <$> es) ++ (MsgFailed i <$> ms) : list (line sha)) =
  (EditFailed i <$> es) ++ (MsgFailed i <$> ms).
Proof.
  rewrite List.filter_app. f_equal.
  - induction es as [|e es IH]; [done|]. csimpl. by rewrite IH.
  - induction ms as [|e ms IH]; [done|]. csimpl. by rewrite IH.
Qed.

(** [fail] is set exactly when a failure is printed. *)
Lemma existsb_failures {sha} (out : list (line sha)) :
  existsb failure out = negb (bool_decide (List.filter failure out = [])).
Proof.
  induction out as [|x out IH]; [done|]. simpl. destruct (failure x); [|done].
  by rewrite bool_decide_eq_false_2.
Qed.

Section build.
Context {sha repo : Type} `{EqDecision sha} `{GitLaws sha repo}.
Context (rev_parse : string → option sha) (ident : repo → string * string).
Context (edits : stage) (MSG : nat → option (text → res text)).
Implicit Types (r : repo) (h n parent base : sha) (c : commit sha) (out : list (line sha)).

(** No edit and no message rewriter changes anything in the commit. *)
Definition untouched r i h : Prop :=
  ∃ c files errs, g_show r h = Some c ∧
    edits (c_tree c) i = Ok (files, errs) ∧
    same_files (c_tree c) files = true ∧
    (rewrite_msg MSG i (one_nl (g_log_B c))).1 = one_nl (g_log_B c).

(** [n] is what commit [i] of the stack, [h], becomes on top of [parent]. *)
Definition rebuilt r parent i h n : Prop :=
  ∃ c nc files errs,
    g_show r h = Some c ∧ g_show r n = Some nc ∧
    edits (c_tree c) i = Ok (files, errs) ∧
    c_parent nc = Some parent ∧ c_tree nc = files ∪ c_tree c ∧
    (untouched r i h ∧ n = h ∨
     ¬ (untouched r i h ∧ c_parent c = Some parent) ∧
     c_msg nc = (rewrite_msg MSG i (one_nl (g_log_B c))).1 ∧
     m_an (c_meta nc) = m_an (c_meta c) ∧ m_ae (c_meta nc) = m_ae (c_meta c) ∧
     m_ad (c_meta nc) = m_ad (c_meta c)).

Lemma same_files_union (tree files : gmap string text) :
  same_files tree files = true ↔ files ∪ tree = tree.
Proof.
  unfold same_files. rewrite bool_decide_eq_true. split.
  - intros Hs. apply map_eq. intros f. destruct (files !! f) as [t|] eqn:E.
    + rewrite (lookup_union_Some_l _ _ _ _ E). symmetry. by apply Hs.
    + by rewrite lookup_union_r.
  - intros <- f t Hf. by apply lookup_union_Some_l.
Qed.

Lemma untouched_keeps r r' i h : keeps r r' → is_Some (g_show r h) → untouched r' i h → untouched r i h.
Proof.
  intros Hk [c Hc] (c' & files & errs & Hc' & ?). pose proof (Hk _ _ Hc). simplify_eq.
  exists c', files, errs. done.
Qed.

Lemma untouched_later r r' i h : keeps r r' → untouched r i h → untouched r' i h.
Proof. intros Hk (c & files & errs & Hc & ?). exists c, files, errs. split; [by apply Hk|done]. Qed.

Lemma rebuilt_later r r' parent i h n : keeps r r' → rebuilt r parent i h n → rebuilt r' parent i h n.
Proof.
  intros Hk (c & nc & files & errs & Hc & Hnc & He & Hp & Ht & Hm).
  exists c, nc, files, errs. do 2 (split; [by apply Hk|]). do 3 (split; [done|]).
  destruct Hm as [[? ?]|(Hn & ?)]; [left; split; [by eapply untouched_later|done]|right].
  split; [|done]. intros [Hu ?]. apply Hn. split; [|done]. by eapply untouched_keeps.
Qed.

Abbreviation build_one := (build_one rev_parse ident edits MSG).
Abbreviation build_loop := (build_loop rev_parse ident edits MSG).

(** The failures of commit [i], and the line that follows them in a real run. *)
Lemma build_one_ok r parent i name h c p :
  g_ok r → is_Some (g_show r parent) →
  rev_parse name = Some h → g_show r h = Some c → c_parent c = Some p →
  match build_one true r parent i name with
  | (r1, Ok (p1, o1)) =>
      r1 = r ∧ p1 = parent ∧ List.filter failure o1 = o1 ∧ news o1 = [] ∧
      ∃ r2 n o2, build_one false r parent i name = (r2, Ok (n, o1 ++ o2)) ∧
        g_ok r2 ∧ keeps r r2 ∧ List.filter failure o2 = [] ∧ news o2 = [n] ∧
        rebuilt r2 parent i h n
  | (r1, Raise x) => r1 = r ∧ build_one false r parent i name = (r, Raise x) ∧
      edits (c_tree c) i = Raise x
  end.
Proof.
  intros Hok Hpar Hn Hc Hp. unfold Rebuild.build_one. rewrite Hn, Hc, Hp.
  destruct (edits (c_tree c) i) as [[files errs]|x] eqn:He; [|done].
  destruct (rewrite_msg MSG i (one_nl (g_log_B c))) as [msg merrs] eqn:Hm.
  do 2 (split; [done|]). split; [apply failures_failing|]. split; [apply news_failures|].
  assert (¬ (untouched r i h ∧ c_parent c = Some parent) →
    ∃ r2 n o2, (let (r', new) := g_commit_tree r
        (Commit (files ∪ c_tree c) (Some parent) msg (env2 ident r c)) in
      (r', Ok (new, ((EditFailed i <$> errs) ++ (MsgFailed i <$> merrs)) ++ [Made i h new]))) =
      (r2, Ok (n, ((EditFailed i <$> errs) ++ (MsgFailed i <$> merrs)) ++ o2)) ∧
      g_ok r2 ∧ keeps r r2 ∧ List.filter failure o2 = [] ∧ news o2 = [n] ∧
      rebuilt r2 parent i h n) as Hmake.
  { intros Hun. destruct (g_commit_tree _ _) as [r2 n] eqn:Hct. exists r2, n, [Made i h n].
    assert (keeps r r2) as Hk by (intros x d; by apply (commit_tree_keep _ _ _ _ x d Hct)).
    split; [done|]. split; [by eapply (commit_tree_ok r _ parent); [| |exact Hpar|exact Hct]|].
    split; [done|]. do 2 (split; [done|]).
    pose proof (commit_tree_read _ _ _ _ Hct) as Hr. eexists c, _, files, errs.
    split; [by apply Hk|]. split; [exact Hr|]. do 3 (split; [done|]). right.
    rewrite Hm. split; [|done]. intros [Hu ?]. apply Hun. split; [|done].
    eapply untouched_keeps; eauto. }
  destruct (same_files (c_tree c) files && bool_decide (msg = one_nl (g_log_B c))) eqn:Hs.
  - bools. apply bool_decide_eq_true in H2 as ->.
    assert (untouched r i h) as Hun by (exists c, files, errs; by rewrite Hm).
    case_bool_decide as Hpp.
    + subst p. eexists r, h, [Kept i h]. do 5 (split; [done|]).
      exists c, c, files, errs. do 4 (split; [done|]).
      split; [symmetry; by apply same_files_union|by left].
    + apply Hmake. rewrite Hp. naive_solver.
  - apply Hmake. intros [(c' & files' & errs' & Hc' & He' & Hs' & Hm') _].
    rewrite Hc in Hc'. injection Hc' as <-. rewrite He in He'. injection He' as <- <-.
    rewrite Hm in Hm'. simpl in Hm'. subst msg. rewrite Hs', bool_decide_eq_true_2 in Hs by done.
    done.
Qed.

(** What a dry turn prints depends on the commit only. *)
Lemma build_one_dry r0 r parent0 parent i name h c :
  rev_parse name = Some h → g_show r0 h = Some c → g_show r h = Some c →
  build_one true r0 parent0 i name =
  match (build_one true r parent i name).2 with
  | Ok (_, o) => (r0, Ok (parent0, o))
  | Raise x => (r0, Raise x)
  end.
Proof.
  intros Hn Hc0 Hc. unfold Rebuild.build_one. rewrite Hn, Hc0, Hc.
  destruct (edits _ _) as [[files errs]|]; [|done].
  by destruct (rewrite_msg _ _ _).
Qed.

(** [ns] is what the commits [l] become, from commit [i] on top of [parent]. *)
Fixpoint rebuilt_all r parent (i : nat) (l ns : list sha) : Prop :=
  match l, ns with
  | [], [] => True
  | h :: l', n :: ns' => rebuilt r parent i h n ∧ rebuilt_all r n (S i) l' ns'
  | _, _ => False
  end.

Lemma rebuilt_all_chain r parent i l ns : rebuilt_all r parent i l ns → chain r parent ns.
Proof.
  revert parent i ns. induction l as [|h l IH]; intros parent i [|n ns]; simpl; try done.
  intros [(c & nc & files & errs & _ & ? & _ & ? & _) ?]. split; [eauto|by eapply IH].
Qed.

(** The names of a stack, resolved to commits that have a parent. *)
Definition resolves r (stack : list string) (l : list sha) : Prop :=
  Forall2 (λ name h, rev_parse name = Some h ∧
    ∃ c p, g_show r h = Some c ∧ c_parent c = Some p) stack l.

Lemma chain_resolves r base stack l :
  Forall2 (λ name h, rev_parse name = Some h) stack l → chain r base l → resolves r stack l.
Proof.
  intros Hf. revert base. induction Hf as [|name h stack l Hn Hf IH]; intros base; [constructor|].
  intros [(c & Hc & Hp) Hl]. constructor; [eauto|by eapply IH].
Qed.

(** A dry run of the loop, and the real run from a repository that has grown. *)
Lemma build_loop_lockstep stack l r r0 parent parent0 i out out0 :
  g_ok r → is_Some (g_show r parent) → keeps r0 r → resolves r0 stack l →
  match build_loop true r0 parent0 i stack out0 with
  | (r1, Ok (p1, o1)) =>
      r1 = r0 ∧ p1 = parent0 ∧ ∃ more, o1 = out0 ++ more ∧ List.filter failure more = more ∧
      ∃ r2 ns made, build_loop false r parent i stack out = (r2, Ok (tip_of parent ns, out ++ made)) ∧
        g_ok r2 ∧ keeps r r2 ∧ List.filter failure made = more ∧ news made = ns ∧
        rebuilt_all r2 parent i l ns
  | (r1, Raise x) =>
      r1 = r0 ∧ ∃ r2 j h c, build_loop false r parent i stack out = (r2, Raise x) ∧ keeps r r2 ∧
        l !! j = Some h ∧ g_show r0 h = Some c ∧
        edits (c_tree c) (i + j) = Raise x
  end.
Proof.
  intros Hok Hpar Hk0 Hres. revert r parent i out out0 Hok Hpar Hk0.
  induction Hres as [|name h stack l (Hn & c & p & Hc & Hp) Hres IH];
    intros r parent i out out0 Hok Hpar Hk0; simpl.
  { do 2 (split; [done|]). exists []. rewrite app_nil_r. do 2 (split; [done|]).
    exists r, [], []. by rewrite app_nil_r. }
  pose proof (build_one_dry r0 r parent0 parent i name h c Hn Hc (Hk0 _ _ Hc)) as Hdry.
  pose proof (build_one_ok r parent i name h c p Hok Hpar Hn (Hk0 _ _ Hc) Hp) as H1.
  rewrite Hdry. clear Hdry.
  destruct (build_one true r parent i name) as [r1 [[p1 o1]|x]] eqn:E1; cbn [snd].
  2: { destruct H1 as (-> & -> & He). split; [done|]. exists r, 0, h, c.
       rewrite Nat.add_0_r. done. }
  destruct H1 as (-> & -> & Hf1 & Hn1 & r2 & n & o2 & -> & Hok2 & Hk2 & Hf2 & Hn2 & Hreb).
  assert (is_Some (g_show r2 n)) as Hsn by (destruct Hreb as (? & ? & ? & ? & _ & ? & _); eauto).
  specialize (IH r2 n (S i) (out ++ o1 ++ o2) (out0 ++ o1) Hok2 Hsn ltac:(by etrans)).
  destruct (build_loop true r0 parent0 (S i) stack (out0 ++ o1)) as [r3 [[p3 o3]|x]].
  - destruct IH as (-> & -> & more & -> & Hfm & r4 & ns & made & -> & Hok4 & Hk4 & Hfmade & Hns & Hall).
    do 2 (split; [done|]). exists (o1 ++ more). rewrite app_assoc. split; [done|].
    rewrite List.filter_app, Hf1, Hfm. split; [done|].
    exists r4, (n :: ns), ((o1 ++ o2) ++ made). split.
    { rewrite <-!app_assoc. do 2 f_equal. unfold tip_of. rewrite last_cons. by destruct (last ns). }
    split; [done|]. split; [by etrans|].
    rewrite !List.filter_app, Hf1, Hf2, Hfmade, app_nil_r. split; [done|]. split.
    { unfold news in *. rewrite !omap_app, Hn1, Hn2, Hns. done. }
    split; [by eapply rebuilt_later|done].
  - destruct IH as (-> & r4 & j & h' & c' & -> & Hk4 & Hl & Hc' & He). split; [done|].
    exists r4, (S j), h', c'. split; [done|]. split; [by etrans|]. do 2 (split; [done|]).
    by replace (i + S j) with (S i + j) by lia.
Qed.
End build.

(** ** Message rewriters *)

(** No later row of a rewriter can undo an earlier one. *)
Fixpoint reps_ok (rows : list (text * text * string)) : bool :=
  match rows with
  | [] => true
  | (old, new, _) :: rows' =>
      if bool_decide (old = []) then false
      else if forallb (λ '(o, n, _), no_create new n o) rows' then reps_ok rows' else false
  end.

Lemma reps_keeps sub rows m m' :
  forallb (λ '(o, n, _), no_create sub n o) rows = true → reps_ok rows = true →
  py_in sub m = true → reps m rows = Ok m' → py_in sub m' = true.
Proof.
  revert m. induction rows as [|[[old new] what] rows IH]; intros m; simpl; [by intros _ _ ? [= <-]|].
  intros Hn Hok Hin. bools. case_bool_decide; [done|].
  destruct (forallb (λ '(o, n, _), no_create new n o) rows); [|done].
  intros (m1 & Hr & Hrs)%res_bind_Ok. eapply IH; [done|done| |done]. by eapply rep_keeps.
Qed.

Lemma reps_again rows m m' :
  reps_ok rows = true → reps m rows = Ok m' → reps m' rows = Ok m'.
Proof.
  revert m. induction rows as [|[[old new] what] rows IH]; intros m; simpl; [done|].
  case_bool_decide; [done|].
  destruct (forallb (λ '(o, n, _), no_create new n o) rows) eqn:Hn; [|done].
  intros Hok (m1 & Hr & Hrs)%res_bind_Ok. apply res_bind_Ok. exists m'. split; [|by eapply IH].
  apply rep_skip. eapply reps_keeps; [done|done| |done]. by eapply rep_new.
Qed.
