(* ===== verification/RebuildTheorems.v ===== *)
(** The theorems about the rebuild scripts: [build] over a stack, dry runs, kept
    commits, and the edit tables of a-1006 and a-1007. *)
From S2P Require Import Prelude PyStr Stable R3Engine Git Drive Rebuild R1006Table R1007Table.
From S2P Require Import RebuildFacts.

Section theorems.
Context {sha repo : Type} `{EqDecision sha} `{GitLaws sha repo}.
Context (rev_parse : string → option sha) (ident : repo → string * string).
Context (BASE : string) (STACK : list string) (edits : stage)
        (MSG : nat → option (text → res text)).
Implicit Types (r : repo) (base : sha) (l : list sha).

Abbreviation build := (build rev_parse ident BASE STACK edits MSG).

(** The stack and its base, as the script finds them. *)
Definition stack_at r base l : Prop :=
  g_ok r ∧ rev_parse BASE = Some base ∧ is_Some (g_show r base) ∧
  Forall2 (λ name h, rev_parse name = Some h) STACK l ∧ chain r base l.

Lemma build_lockstep r base l :
  stack_at r base l →
  match build true r with
  | (r1, Ok (fail, p, o1)) =>
      r1 = r ∧ p = base ∧ List.filter failure o1 = o1 ∧
      ∃ r2 out, build false r = (r2, Ok (fail, tip_of base (news out), out)) ∧
        g_ok r2 ∧ keeps r r2 ∧ List.filter failure out = o1 ∧
        rebuilt_all edits MSG r2 base 0 l (news out)
  | (r1, Raise x) =>
      r1 = r ∧ ∃ r2 j h c, build false r = (r2, Raise x) ∧ keeps r r2 ∧
        l !! j = Some h ∧ g_show r h = Some c ∧ edits (c_tree c) j = Raise x
  end.
Proof.
  intros (Hok & Hb & Hbase & Hf & Hc). unfold Rebuild.build. rewrite Hb.
  pose proof (build_loop_lockstep rev_parse ident edits MSG STACK l r r base base 0 [] []
    Hok Hbase ltac:(done) (chain_resolves _ _ _ _ _ Hf Hc)) as Hl.
  destruct (Rebuild.build_loop _ _ _ _ true _ _ _ _ _) as [r1 [[p o]|x]].
  - destruct Hl as (-> & -> & more & -> & Hm & r2 & ns & made & -> & Hok2 & Hk2 & Hfm & Hns & Hall).
    simpl. do 2 (split; [done|]). split; [done|]. exists r2, made. subst ns.
    assert (existsb failure made = existsb failure more) as ->; [|done].
    by rewrite !existsb_failures, Hfm, Hm.
  - destruct Hl as (-> & r2 & j & h & c & -> & Hk & Hj & Hs & He). split; [done|].
    exists r2, j, h, c. done.
Qed.

Lemma build_fail dry r r' fail t out :
  build dry r = (r', Ok (fail, t, out)) → fail = existsb failure out.
Proof.
  unfold Rebuild.build. destruct (rev_parse BASE); [|done].
  destruct (Rebuild.build_loop _ _ _ _ _ _ _ _ _ _) as [? [[? ?]|]]; naive_solver.
Qed.

(** C5: A real run of [build] over a stack on its base returns, or raises because a file
    that the edits of some commit ask for is not in that commit.
    When it returns, nothing is lost from the repository, the commits reported
    form a line on the base that ends in the tip reported, and each of them is the
    commit of the stack with the active edits and the message rewriter applied,
    by the same author. *)
Theorem build_rebuilds `{!Reads edits} r base l :
  stack_at r base l →
  match build false r with
  | (r', Ok (fail, t, out)) =>
      g_ok r' ∧ keeps r r' ∧ chain r' base (news out) ∧ t = tip_of base (news out) ∧
      rebuilt_all edits MSG r' base 0 l (news out) ∧
      fail = negb (bool_decide (List.filter failure out = []))
  | (r', Raise x) =>
      keeps r r' ∧ x = CalledProcessError "show" ∧
      ∃ j h c f, l !! j = Some h ∧ g_show r h = Some c ∧ wants j f ∧ c_tree c !! f = None
  end.
Proof.
  intros Hst. pose proof (build_lockstep r base l Hst) as Hl.
  destruct (build true r) as [r1 [[[fail p] o1]|x]] eqn:Hd.
  - destruct Hl as (-> & -> & Hf1 & r2 & out & -> & Hok & Hk & Hf & Hall).
    do 2 (split; [done|]). split; [by eapply rebuilt_all_chain|]. do 2 (split; [done|]).
    rewrite Hf, (build_fail _ _ _ _ _ _ Hd), existsb_failures. by rewrite Hf1.
  - destruct Hl as (-> & r2 & j & h & c & -> & Hk & Hj & Hs & He). split; [done|].
    apply reads_raise in He as (-> & f & ? & ?). split; [done|]. by exists j, h, c, f.
Qed.

(** C6: A dry run tells what the real run will say.  It changes nothing; if it returns,
    the real run returns too, with the same [fail] and the same failures printed
    in the same order, and if it raises, the real run raises the same. *)
Theorem dry_run_predicts r base l :
  stack_at r base l →
  match build true r with
  | (r1, Ok (fail, _, out)) =>
      r1 = r ∧ ∃ r2 t out2, build false r = (r2, Ok (fail, t, out2)) ∧
        List.filter failure out2 = out
  | (r1, Raise x) => r1 = r ∧ ∃ r2, build false r = (r2, Raise x)
  end.
Proof.
  intros Hst. pose proof (build_lockstep r base l Hst) as Hl.
  destruct (build true r) as [r1 [[[fail p] o1]|x]].
  - destruct Hl as (-> & _ & _ & r2 & out & -> & _ & _ & Hf & _). split; [done|]. by exists r2, (tip_of base (news out)), out.
  - destruct Hl as (-> & r2 & _ & _ & _ & -> & _). split; [done|]. by exists r2.
Qed.

(** Two lines of commits that meet at a position agree below it. *)
Lemma chains_meet r b1 b2 l1 l2 j x :
  chain r b1 l1 → chain r b2 l2 → l1 !! j = Some x → l2 !! j = Some x →
  b1 = b2 ∧ ∀ k, k ≤ j → l1 !! k = l2 !! k.
Proof.
  revert b1 b2 l1 l2. induction j as [|j IH]; intros b1 b2 [|h1 l1] [|h2 l2] H1 H2 Hx1 Hx2; try done;
    simpl in H1, H2; destruct H1 as [(c1 & Hc1 & Hp1) H1], H2 as [(c2 & Hc2 & Hp2) H2]; simplify_eq/=.
  - split; [done|]. intros [|k] Hk; [done|lia].
  - destruct (IH _ _ _ _ H1 H2 Hx1 Hx2) as [-> Hl]. split; [congruence|].
    intros [|k] Hk; [done|]. apply Hl. lia.
Qed.

(** Messages that end in one newline, as [git commit] leaves them. *)
Definition tidy r l : Prop :=
  ∀ h c, h ∈ l → g_show r h = Some c → one_nl (c_msg c) = c_msg c.

(** A commit that was made anew has another name. *)
Lemma rebuilt_same r parent i h :
  (∀ c, g_show r h = Some c → one_nl (c_msg c) = c_msg c) →
  rebuilt edits MSG r parent i h h → untouched edits MSG r i h.
Proof.
  intros Htidy (c & nc & files & errs & Hc & Hnc & He & Hp & Ht & Hm).
  rewrite Hc in Hnc. injection Hnc as <-. destruct Hm as [[Hu _]|(_ & Hm & _)]; [done|].
  exists c, files, errs. do 2 (split; [done|]). split; [by apply same_files_union|].
  rewrite <-Hm, log_B_line, one_nl_snoc. symmetry. by apply Htidy.
Qed.

Lemma kept_below r parent i l ns j h :
  chain r parent l → tidy r l → rebuilt_all edits MSG r parent i l ns → l !! j = Some h →
  ns !! j = Some h ↔ ∀ k hk, k ≤ j → l !! k = Some hk → untouched edits MSG r (i + k) hk.
Proof.
  revert parent i ns j. induction l as [|x l IH]; intros parent i [|n ns] j Hc Ht Hr Hj; try done.
  pose proof (rebuilt_all_chain _ _ _ _ _ _ _ Hr) as Hn. pose proof Hc as Hc'.
  destruct Hc as [(c & Hx & Hp) Hc], Hr as [Hr Hrs].
  pose proof Hr as (c' & nc & files & errs & Hx' & _ & _ & _ & _ & Hm). simplify_eq.
  destruct Hm as [[Hu ->]|(Hu & _)].
  - destruct j as [|j].
    + simplify_eq/=. split; [|done]. intros _ [|k] hk Hk Hlk; [|lia]. simplify_eq/=. by rewrite Nat.add_0_r.
    + simpl in *. rewrite (IH x (S i) ns j); [|done| |done..].
      * split; intros Ha k hk Hk Hlk.
        -- destruct k as [|k]; [injection Hlk as <-; by rewrite Nat.add_0_r|].
           replace (i + S k) with (S i + k) by lia. apply Ha; [lia|done].
        -- replace (S i + k) with (i + S k) by lia. apply Ha; [lia|done].
      * intros y d Hy. apply Ht. by right.
  - assert (¬ untouched edits MSG r i x) as Hnu by naive_solver. split.
    + intros Hnj. exfalso. apply Hnu.
      destruct (chains_meet r parent parent _ _ j h Hn Hc' Hnj Hj) as [_ Hm].
      specialize (Hm 0 ltac:(lia)). injection Hm as ->.
      eapply rebuilt_same; [|done]. intros d Hd. apply (Ht x); [by left|done].
    + intros Ha. exfalso. apply Hnu. specialize (Ha 0 x ltac:(lia) eq_refl).
      by rewrite Nat.add_0_r in Ha.
Qed.

(** C7: [build] keeps exactly the commits below the first one that an edit or a message
    rewriter changes: the commit reported at a position is the old one if and
    only if nothing changes there or further down the stack. *)
Theorem kept_prefix r base l r' fail t out j h :
  stack_at r base l → tidy r l → build false r = (r', Ok (fail, t, out)) →
  l !! j = Some h →
  news out !! j = Some h ↔ ∀ k hk, k ≤ j → l !! k = Some hk → untouched edits MSG r k hk.
Proof.
  intros Hst Ht Hb Hj. pose proof (build_lockstep r base l Hst) as Hl.
  destruct (build true r) as [r1 [[[fail1 p] o1]|x]].
  2: { destruct Hl as (_ & ? & ? & ? & ? & E & _). by rewrite Hb in E. }
  destruct Hl as (_ & _ & _ & r2 & out2 & E & _ & Hk & _ & Hall). rewrite Hb in E.
  injection E as <- <- _ <-. destruct Hst as (_ & _ & _ & _ & Hc).
  assert (∀ h', h' ∈ l → is_Some (g_show r h')) as Hsh.
  { intros h' Hh'. by eapply chain_shown. }
  rewrite (kept_below r' base 0 l (news out) j h); [|by eapply chain_mono| |done..].
  - split; intros Ha k hk Hkj Hlk.
    + eapply untouched_keeps; [exact Hk|apply Hsh; by eapply list_elem_of_lookup_2|]. by apply (Ha k).
    + eapply untouched_later; [exact Hk|]. by apply Ha.
  - intros h' c Hh' Hs. destruct (Hsh h' Hh') as [d Hd]. pose proof (Hk _ _ Hd).
    simplify_eq. by eapply Ht.
Qed.
End theorems.

(** ** The tables *)

Lemma r1006_olds : olds_ok r1006_EDITS = true.
Proof. vm_compute. reflexivity. Qed.

Lemma r1007_olds : olds_ok r1007_EDITS = true.
Proof. vm_compute. reflexivity. Qed.

(** No edit of a-1006 is undone by a later one. *)
Lemma r1006_lasting : lasting 13 r1006_EDITS = r1006_EDITS.
Proof. vm_compute. reflexivity. Qed.

(** C33: The edits of a-1006: at every commit of its stack, if the edits went in
    without a failure, then the text each active edit puts in is in the file it
    names, and a second pass over the result changes nothing and fails nowhere. *)
Theorem r1006_edits_settle tree i files :
  i < length r1006_STACK →
  edit_files tree i r1006_EDITS ∅ [] = Ok (files, []) →
  (∀ e, e ∈ r1006_EDITS → active e i = true →
     ∃ t, (files ∪ tree) !! ed_f e = Some t ∧ py_in (ed_new e) t = true) ∧
  ∃ files', edit_files (files ∪ tree) i r1006_EDITS ∅ [] = Ok (files', []) ∧
            same_files (files ∪ tree) files' = true.
Proof.
  intros Hi He.
  assert (∀ e, e ∈ r1006_EDITS → active e i = true →
     ∃ t, (files ∪ tree) !! ed_f e = Some t ∧ py_in (ed_new e) t = true) as Hnew.
  { intros e Hin Ha. rewrite <-r1006_lasting in Hin.
    destruct (edit_files_new tree i 13 _ _ _ e r1006_olds Hi He Hin Ha) as (t & Ht & ?).
    exists t. split; [by apply lookup_union_Some_l|done]. }
  split; [done|]. destruct (edit_files_idle (files ∪ tree) i r1006_EDITS ∅ []) as (files' & H1 & H2);
    [intros f t Hf; by rewrite lookup_empty in Hf|done|].
  exists files'. split; [done|]. unfold same_files. by apply bool_decide_eq_true_2.
Qed.

(** The edits of a-1007 that a later edit of the table can rewrite. *)
Definition r1007_rewritten : list string :=
  ["419 man1 stuck"; "443 man1 stuck"; "443 helper"; "lrgap man3"].

Lemma r1007_lasting :
  lasting 18 r1007_EDITS =
  List.filter (λ e, negb (str_mem (ed_what e) r1007_rewritten)) r1007_EDITS.
Proof. vm_compute. reflexivity. Qed.

(** The edits of a-1007: at every commit of its stack, if the edits went in without a
    failure, the text of every active edit is in its file at the end, but for
    four edits that later ones of the table build on. *)
Theorem r1007_edits_last tree i files e :
  i < length r1007_STACK →
  edit_files tree i r1007_EDITS ∅ [] = Ok (files, []) →
  e ∈ r1007_EDITS → active e i = true → ed_what e ∉ r1007_rewritten →
  ∃ t, (files ∪ tree) !! ed_f e = Some t ∧ py_in (ed_new e) t = true.
Proof.
  intros Hi He Hin Ha Hw.
  assert (e ∈ lasting 18 r1007_EDITS) as Hl.
  { rewrite r1007_lasting. apply list_elem_of_In, filter_In. split; [by apply list_elem_of_In|].
    apply negb_true_iff, not_true_iff_false. by rewrite str_mem_spec. }
  destruct (edit_files_new tree i 18 _ _ _ e r1007_olds Hi He Hl Ha) as (t & Ht & ?).
  exists t. split; [by apply lookup_union_Some_l|done].
Qed.

Lemma r1006_msgs_ok :
  reps_ok r1006_rows_159 = true ∧ reps_ok r1006_rows_163 = true ∧
  reps_ok r1006_rows_415 = true ∧ reps_ok r1006_rows_417 = true ∧
  reps_ok r1006_rows_418 = true ∧ reps_ok r1006_rows_420 = true.
Proof. split_and!; vm_compute; reflexivity. Qed.

(** The message rewriters of a-1006 are idempotent on every message. *)
Lemma r1006_msgs_again i f m m' :
  r1006_MSG i = Some f → f m = Ok m' → f m' = Ok m'.
Proof.
  destruct r1006_msgs_ok as (H159 & H163 & H415 & H417 & H418 & H420). unfold r1006_MSG.
  destruct (i =? r1006_C159); [intros [= <-]; exact (reps_again _ m m' H159)|].
  destruct (i =? r1006_C163); [intros [= <-]; exact (reps_again _ m m' H163)|].
  destruct (i =? r1006_C415); [intros [= <-]; exact (reps_again _ m m' H415)|].
  destruct (i =? r1006_C417); [intros [= <-]; exact (reps_again _ m m' H417)|].
  destruct (i =? r1006_C418); [intros [= <-]; exact (reps_again _ m m' H418)|].
  destruct (i =? r1006_C420); [intros [= <-]; exact (reps_again _ m m' H420)|done].
Qed.

(** A worktree of a-1007 at which two edits are still to be made: every file holds
    the new text of its edits, but for "lrgap man3", whose old text is there, and
    "l2 gap man3 empty", which works on the text that edit puts in. *)
Definition todo_text (f : string) : text :=
  mjoin ((λ e,
    if negb (String.eqb (ed_f e) f) then []
    else if (match ed_until e with Some u => u <=? 17 | None => false end) then []
    else if String.eqb (ed_what e) "l2 gap man3 empty" then []
    else (if String.eqb (ed_what e) "lrgap man3" then ed_old e else ed_new e) ++ [nl; nl])
  <$> r1007_EDITS).

Definition todo_tree : gmap string text :=
  list_to_map ((λ e, (ed_f e, todo_text (ed_f e))) <$> r1007_EDITS).

Lemma todo_runs :
  let first := tip r1007_STACK r1007_EDITS todo_tree in
  (first.2, (tip r1007_STACK r1007_EDITS first.1).2) =
  (Ok (0, ["lrgap man3"; "l2 gap man3 empty"]), Ok (1, [])).
Proof. vm_compute. reflexivity. Qed.

(** C38: [tip()] of a-1007 cannot be run twice.  There is a worktree that it edits with
    exit status 0, and on the worktree it leaves it exits with 1 and applies
    nothing: "l2 gap man3 empty" has rewritten the text that "lrgap man3" looks
    for to see that it is done. *)
Theorem r1007_tip_not_rerunnable :
  ∃ wt wt', tip r1007_STACK r1007_EDITS wt = (wt', Ok (0, ["lrgap man3"; "l2 gap man3 empty"])) ∧
            (tip r1007_STACK r1007_EDITS wt').2 = Ok (1, []).
Proof.
  pose proof todo_runs as H. cbv zeta in H.
  destruct (tip r1007_STACK r1007_EDITS todo_tree) as [wt' x] eqn:E. cbn [fst snd] in H.
  exists todo_tree, wt'. split; congruence.
Qed.

(** ** Instances *)

(** A base and three commits; a-1006 rewrites the second of the stack. *)
Definition tiny_pf : text :=
  lit "/*
" ++ default [] (ed_old <$> List.head r1006_EDITS) ++ lit "
int x;
".

Definition tiny_repo : ListGit.repo := ListGit.Repo [
  Commit ∅ None (lit "base
") (Meta "a" "b" "c" "d" "e" "f");
  Commit {[r1006_PF := lit "one"]} (Some 0) (lit "first
") (Meta "a" "b" "1" "d" "e" "f");
  Commit {[r1006_PF := tiny_pf]} (Some 1) (lit "second
") (Meta "a" "b" "2" "d" "e" "f")
] "9 +0000" ∅.

Definition tiny_parse (name : string) : option nat :=
  if String.eqb name "507b70072f^" then Some 0
  else if String.eqb name "507b70072f" then Some 1
  else if String.eqb name "5eadb15998" then Some 2 else None.

Definition tiny_ident (r : ListGit.repo) : string * string := ("me", "me@example.org").

Abbreviation tiny_build :=
  (build tiny_parse tiny_ident r1006_BASE (take 2 r1006_STACK) (edit_stage r1006_EDITS) r1006_MSG).

Lemma tiny_stack : stack_at tiny_parse r1006_BASE (take 2 r1006_STACK) tiny_repo 0 [1; 2].
Proof.
  split; [|split; [done|split; [by eexists|split]]].
  - split; [apply (bool_decide_unpack _); vm_compute; reflexivity|].
    intros n c p Hn Hp.
    do 3 (destruct n as [|n]; [injection Hn as <-; simpl in Hp; simplify_eq; lia|]). done.
  - repeat constructor.
  - repeat split; eexists; (split; [reflexivity|reflexivity]).
Qed.

Lemma tiny_tidy : tidy tiny_repo [1; 2].
Proof.
  intros h c Hh. apply elem_of_cons in Hh as [->|Hh]; [by intros [= <-]|].
  apply list_elem_of_singleton in Hh as ->. by intros [= <-].
Qed.

Lemma build_rebuilds_witness :
  match tiny_build false tiny_repo with
  | (r', Ok (fail, t, out)) =>
      g_ok r' ∧ keeps tiny_repo r' ∧ chain r' 0 (news out) ∧ t = tip_of 0 (news out) ∧
      rebuilt_all (edit_stage r1006_EDITS) r1006_MSG r' 0 0 [1; 2] (news out) ∧
      fail = negb (bool_decide (List.filter failure out = []))
  | (_, Raise _) => False
  end.
Proof.
  pose proof (build_rebuilds tiny_parse tiny_ident r1006_BASE (take 2 r1006_STACK)
                (edit_stage r1006_EDITS) r1006_MSG tiny_repo 0 [1; 2] tiny_stack) as H.
  destruct (tiny_build false tiny_repo) as [r' [[[fail t] out]|x]] eqn:E; [exact H|].
  vm_compute in E. discriminate.
Defined.

Lemma dry_run_predicts_witness :
  match tiny_build true tiny_repo with
  | (r1, Ok (fail, _, out)) =>
      r1 = tiny_repo ∧ ∃ r2 t out2, tiny_build false tiny_repo = (r2, Ok (fail, t, out2)) ∧
        List.filter failure out2 = out
  | (_, Raise _) => False
  end.
Proof.
  pose proof (dry_run_predicts tiny_parse tiny_ident r1006_BASE (take 2 r1006_STACK)
                (edit_stage r1006_EDITS) r1006_MSG tiny_repo 0 [1; 2] tiny_stack) as H.
  destruct (tiny_build true tiny_repo) as [r' [[[fail t] out]|x]] eqn:E; [exact H|].
  vm_compute in E. discriminate.
Defined.

Lemma kept_prefix_witness :
  ∃ r', tiny_build false tiny_repo = (r', Ok (false, 3, [Kept 0 1; Made 1 2 3])) ∧
  (Some 1 = Some 1 ↔ ∀ k hk, k ≤ 0 → [1; 2] !! k = Some hk →
                     untouched (edit_stage r1006_EDITS) r1006_MSG tiny_repo k hk).
Proof.
  eexists. split; [vm_compute; reflexivity|].
  apply (kept_prefix tiny_parse tiny_ident r1006_BASE (take 2 r1006_STACK)
           (edit_stage r1006_EDITS) r1006_MSG tiny_repo 0 [1; 2] (tiny_build false tiny_repo).1 false 3 [Kept 0 1; Made 1 2 3] 0 1
           tiny_stack tiny_tidy); [vm_compute; reflexivity|reflexivity].
Defined.

(** The commit the first edit of a-1006 is made in. *)
Definition tiny_files : gmap string text :=
  match edit_files {[r1006_PF := tiny_pf]} 1 r1006_EDITS ∅ [] with
  | Ok (files, _) => files
  | Raise _ => ∅
  end.

Lemma r1006_edits_settle_witness :
  edit_files {[r1006_PF := tiny_pf]} 1 r1006_EDITS ∅ [] = Ok (tiny_files, []) ∧
  ∃ files', edit_files (tiny_files ∪ {[r1006_PF := tiny_pf]}) 1 r1006_EDITS ∅ [] = Ok (files', []) ∧
            same_files (tiny_files ∪ {[r1006_PF := tiny_pf]}) files' = true.
Proof.
  assert (edit_files {[r1006_PF := tiny_pf]} 1 r1006_EDITS ∅ [] = Ok (tiny_files, [])) as H
    by (vm_compute; reflexivity).
  split; [exact H|].
  apply (r1006_edits_settle {[r1006_PF := tiny_pf]} 1 tiny_files); [simpl; lia|exact H].
Defined.

(** A tree at 68159 that a-1007 edits in one manual page. *)
Definition tiny_man : gmap string text :=
  list_to_map ((λ e, (ed_f e, ed_old e)) <$> List.filter (λ e, active e r1007_C159) r1007_EDITS).

Definition tiny_man_files : gmap string text :=
  match edit_files tiny_man r1007_C159 r1007_EDITS ∅ [] with
  | Ok (files, _) => files
  | Raise _ => ∅
  end.

Definition edit_named (what : string) : edit_row :=
  default (Edit 0 "" [] [] "" None)
    (List.find (λ e, String.eqb (ed_what e) what) r1007_EDITS).

Lemma r1007_edits_last_witness :
  edit_files tiny_man r1007_C159 r1007_EDITS ∅ [] = Ok (tiny_man_files, []) ∧
  ∃ t, (tiny_man_files ∪ tiny_man) !! ed_f (edit_named "159 errors") = Some t ∧
       py_in (ed_new (edit_named "159 errors")) t = true.
Proof.
  assert (edit_files tiny_man r1007_C159 r1007_EDITS ∅ [] = Ok (tiny_man_files, [])) as H
    by (vm_compute; reflexivity).
  split; [exact H|].
  apply (r1007_edits_last tiny_man r1007_C159 tiny_man_files); [vm_compute; lia|exact H| | |].
  - apply list_elem_of_In. eapply (List.find_some (λ e, String.eqb (ed_what e) "159 errors")).
    vm_compute. reflexivity.
  - vm_compute. reflexivity.
  - apply (bool_decide_unpack _). vm_compute. reflexivity.
Defined.
