(* ===== verification/PyParse.v ===== *)
(** Splitting lines into fields and reading integers, as Python does it for ASCII
    input: [str.split()], [str.split(sep)] and [int(s, base)]. *)
From S2P Require Import Prelude PyStr.

(** ** split *)

(** [s.split()]: [word] is the field being read, reversed. *)
Fixpoint split_ws (s word : text) : list text :=
  match s with
  | [] => match word with [] => [] | _ => [rev word] end
  | c :: s' =>
      if is_space c
      then match word with [] => split_ws s' [] | _ => rev word :: split_ws s' [] end
      else split_ws s' (c :: word)
  end.

Definition py_split (s : text) : list text := split_ws s [].

(** [s.split(c)] for a separator of one byte. *)
Fixpoint split_sep (sep : ascii) (s word : text) : list text :=
  match s with
  | [] => [rev word]
  | c :: s' => if Ascii.eqb c sep then rev word :: split_sep sep s' []
               else split_sep sep s' (c :: word)
  end.

Definition py_split_on (sep : ascii) (s : text) : list text := split_sep sep s [].

(** [sep.join(l)] *)
Fixpoint py_join (sep : text) (l : list text) : text :=
  match l with
  | [] => []
  | [x] => x
  | x :: l' => x ++ sep ++ py_join sep l'
  end.

(** ** int *)

Definition digit_value (c : ascii) : option Z :=
  let n := Z.of_nat (nat_of_ascii c) in
  if ((48 <=? n) && (n <=? 57))%Z then Some (n - 48)%Z
  else if ((97 <=? n) && (n <=? 122))%Z then Some (n - 87)%Z
  else if ((65 <=? n) && (n <=? 90))%Z then Some (n - 55)%Z
  else None.

(** Digits of a base, with single underscores between them: [gap] says that an
    underscore may come next, [last] that the last byte was a digit. *)
Fixpoint digits (base : Z) (s : text) (gap last : bool) (acc : Z) : option Z :=
  match s with
  | [] => if last then Some acc else None
  | c :: s' =>
      if Ascii.eqb c "_" then if gap then digits base s' false false acc else None
      else match digit_value c with
           | Some d => if (d <? base)%Z then digits base s' true true (acc * base + d)%Z else None
           | None => None
           end
  end.

(** [int(s, base)] for base 10 and 16; base 16 takes a 0x. *)
Definition py_int (base : Z) (s : text) : res Z :=
  let s := py_rstrip (py_lstrip s) in
  let (sign, s) := match s with
                   | c :: s' => if Ascii.eqb c "-" then ((-1)%Z, s')
                                else if Ascii.eqb c "+" then (1%Z, s') else (1%Z, s)
                   | [] => (1%Z, s)
                   end in
  let (gap, s) := match s with
                  | z :: x :: s' =>
                      if Ascii.eqb z "0" && (Ascii.eqb x "x" || Ascii.eqb x "X") && (base =? 16)%Z
                      then (true, s') else (false, s)
                  | _ => (false, s)
                  end in
  match digits base s gap false 0 with
  | Some n => Ok (sign * n)%Z
  | None => Raise (ValueError "invalid literal for int()")
  end.

(** ** Facts *)

(** Fields joined by one blank are split back into the same fields. *)
Definition field_ok (w : text) : bool :=
  negb (bool_decide (w = [])) && forallb (λ c, negb (is_space c)) w.

Lemma split_ws_field w s word :
  forallb (λ c, negb (is_space c)) w = true →
  split_ws (w ++ s) word = split_ws s (rev w ++ word).
Proof.
  revert word. induction w as [|c w IH]; intros word Hw; [done|].
  cbn [forallb] in Hw. apply andb_true_iff in Hw as [Hc Hw]. apply negb_true_iff in Hc.
  simpl. rewrite Hc, IH by done. by rewrite <-app_assoc.
Qed.

Lemma py_split_join ws :
  forallb field_ok ws = true → py_split (mjoin ((λ w, w ++ [" "%char]) <$> ws)) = ws.
Proof.
  unfold py_split. induction ws as [|w ws IH]; intros Hw; [done|].
  cbn [forallb] in Hw. apply andb_true_iff in Hw as [Hf Hw]. unfold field_ok in Hf. bools.
  case_bool_decide as Hne; [done|]. csimpl. rewrite <-app_assoc, split_ws_field by done.
  rewrite app_nil_r. simpl. destruct (rev w) as [|c r] eqn:E.
  - apply (f_equal (@rev ascii)) in E. rewrite rev_involutive in E. by subst w.
  - rewrite <-E, rev_involutive, IH by done. done.
Qed.
