(* ===== verification/PyRe.v ===== *)
(** The regular expressions of the scripts, as functions on bytes: words and [\b],
    and [re.sub] of one word by another, with its specification on the words of the
    text.  A byte outside ASCII is not part of a word. *)
From S2P Require Import Prelude PyStr PyParse.

(** ** Words *)

Definition is_alpha_ (c : ascii) : bool :=
  let n := nat_of_ascii c in
  ((65 <=? n) && (n <=? 90)) || ((97 <=? n) && (n <=? 122)) || (n =? 95).

Definition is_word (c : ascii) : bool :=
  let n := nat_of_ascii c in is_alpha_ c || ((48 <=? n) && (n <=? 57)).

(** [\b] between a byte (whether it is a word byte) and the text after it *)
Definition wb (prev : bool) (s : text) : bool :=
  xorb prev (match s with c :: _ => is_word c | [] => false end).

(** [\b(?:a1|a2|..)\b] at [s]: the first alternative that matches, with what replaces it;
    [prev] tells whether the byte before is a word byte. *)
Fixpoint alt_at (alts : list (text * text)) (prev : bool) (s : text) : option (text * text) :=
  match alts with
  | [] => None
  | (a, b) :: alts' =>
      match strip_prefix a s with
      | Some r => if wb (match last a with Some z => is_word z | None => prev end) r
                  then Some (a, b) else alt_at alts' prev s
      | None => alt_at alts' prev s
      end
  end.

(** [re.sub] of the alternatives, for names; [k] bytes of a match are still to be passed
    over. *)
Fixpoint sub_words_from (alts : list (text * text)) (prev : bool) (k : nat) (s : text) : text :=
  match s with
  | [] => []
  | c :: s' =>
      match k with
      | S k' => sub_words_from alts (is_word c) k' s'
      | 0 =>
          match (if wb prev s then alt_at alts prev s else None) with
          | Some (a, b) => b ++ sub_words_from alts (is_word c) (length a - 1) s'
          | None => c :: sub_words_from alts (is_word c) 0 s'
          end
      end
  end.

Definition sub_words (alts : list (text * text)) (s : text) : text := sub_words_from alts false 0 s.

(** [re.sub(r'\b%s\b' % a, b, s)] for a name [a] *)
Definition sub_word (a b s : text) : text := sub_words [(a, b)] s.

(** ** The specification: the maximal runs of word bytes *)

Definition flush_word (f : text → text) (cur : text) : text :=
  match cur with [] => [] | _ => f (rev cur) end.

(** [f] applied to every word; [cur] is the word being read, reversed. *)
Fixpoint map_words_from (f : text → text) (cur s : text) : text :=
  match s with
  | [] => flush_word f cur
  | c :: s' => if is_word c then map_words_from f (c :: cur) s'
               else flush_word f cur ++ c :: map_words_from f [] s'
  end.

Definition map_words (f : text → text) (s : text) : text := map_words_from f [] s.

Fixpoint words_from (cur s : text) : list text :=
  match s with
  | [] => match cur with [] => [] | _ => [rev cur] end
  | c :: s' => if is_word c then words_from (c :: cur) s'
               else match cur with [] => [] | _ => [rev cur] end ++ words_from [] s'
  end.

Definition words (s : text) : list text := words_from [] s.

(** A name: not empty, and of word bytes. *)
Definition is_name (w : text) : bool := negb (bool_decide (w = [])) && forallb is_word w.

(** A text that does not start, or does not end, in the middle of a word. *)
Definition no_word_head (s : text) : bool := negb (match s with c :: _ => is_word c | [] => false end).

Section words.
Implicit Types (s w r cur a b : text) (f : text → text).

Lemma is_name_spec w : is_name w = true ↔ w ≠ [] ∧ forallb is_word w = true.
Proof. unfold is_name. by rewrite andb_true_iff, negb_true_iff, bool_decide_eq_false. Qed.

Lemma span_words s : ∃ w r, s = w ++ r ∧ forallb is_word w = true ∧ no_word_head r = true.
Proof.
  induction s as [|c s (w & r & -> & Hw & Hr)]; [by exists [], []|].
  destruct (is_word c) eqn:Hc.
  - exists (c :: w), r. cbn. by rewrite Hc, Hw.
  - exists [], (c :: w ++ r). unfold no_word_head. by rewrite Hc.
Qed.

(** A text is read word by word. *)
Lemma word_ind (P : text → Prop) :
  P [] → (∀ c s, is_word c = false → P s → P (c :: s)) →
  (∀ w r, is_name w = true → no_word_head r = true → P r → P (w ++ r)) → ∀ s, P s.
Proof.
  intros Hnil Hgap Hword s. induction (well_founded_ltof _ (length (A:=ascii)) s) as [s _ IH].
  unfold ltof in IH. destruct (span_words s) as ([|c w] & r & -> & Hw & Hr).
  - destruct r as [|c r]; [done|]. apply Hgap; [|apply IH; cbn; lia].
    unfold no_word_head in Hr. by apply negb_true_iff in Hr.
  - apply Hword; [by apply is_name_spec|done|]. apply IH. rewrite length_app. cbn. lia.
Qed.

Lemma map_words_from_gap f cur r :
  no_word_head r = true → map_words_from f cur r = flush_word f cur ++ map_words f r.
Proof.
  destruct r as [|c r]; unfold map_words; cbn; [by rewrite app_nil_r|].
  unfold no_word_head. intros ->%negb_true_iff. done.
Qed.

Lemma map_words_from_run f cur w r :
  forallb is_word w = true → map_words_from f cur (w ++ r) = map_words_from f (rev w ++ cur) r.
Proof.
  revert cur. induction w as [|c w IH]; intros cur; [done|]. cbn.
  intros [-> Hw]%andb_true_iff. rewrite IH by done. by rewrite <-app_assoc.
Qed.

Lemma map_words_word f w r :
  is_name w = true → no_word_head r = true → map_words f (w ++ r) = f w ++ map_words f r.
Proof.
  intros [Hne Hw]%is_name_spec Hr. unfold map_words at 1.
  rewrite map_words_from_run, map_words_from_gap, app_nil_r by done. f_equal.
  unfold flush_word. destruct (rev w) eqn:E; [|rewrite <-E; by rewrite rev_involutive].
  apply (f_equal (@rev ascii)) in E. by rewrite rev_involutive in E.
Qed.

Lemma map_words_byte f c s : is_word c = false → map_words f (c :: s) = c :: map_words f s.
Proof. unfold map_words. cbn. by intros ->. Qed.

Lemma words_from_gap cur r :
  no_word_head r = true →
  words_from cur r = match cur with [] => [] | _ => [rev cur] end ++ words r.
Proof.
  destruct r as [|c r]; unfold words; cbn; [by rewrite app_nil_r|].
  unfold no_word_head. intros ->%negb_true_iff. done.
Qed.

Lemma words_from_run cur w r :
  forallb is_word w = true → words_from cur (w ++ r) = words_from (rev w ++ cur) r.
Proof.
  revert cur. induction w as [|c w IH]; intros cur; [done|]. cbn.
  intros [-> Hw]%andb_true_iff. rewrite IH by done. by rewrite <-app_assoc.
Qed.

Lemma words_word w r :
  is_name w = true → no_word_head r = true → words (w ++ r) = w :: words r.
Proof.
  intros [Hne Hw]%is_name_spec Hr. unfold words at 1.
  rewrite words_from_run, words_from_gap, app_nil_r by done.
  destruct (rev w) eqn:E; [|rewrite <-E; by rewrite rev_involutive].
  apply (f_equal (@rev ascii)) in E. by rewrite rev_involutive in E.
Qed.

Lemma words_byte c s : is_word c = false → words (c :: s) = words s.
Proof. unfold words. cbn. by intros ->. Qed.

Lemma words_names s w : w ∈ words s → is_name w = true.
Proof.
  induction s as [|c s Hc IH|v r Hv Hr IH] using word_ind.
  - intros H. by apply not_elem_of_nil in H.
  - by rewrite words_byte.
  - rewrite words_word by done. intros [->|H]%elem_of_cons; auto.
Qed.

(** Texts that meet at a gap keep their words. *)
Lemma words_app s c t : is_word c = false → words (s ++ c :: t) = words s ++ words t.
Proof.
  intros Hc. induction s as [|d s Hd IH|v r Hv Hr IH] using word_ind.
  - by apply words_byte.
  - rewrite <-app_comm_cons. by rewrite !words_byte.
  - rewrite <-app_assoc, (words_word v r), (words_word v (r ++ c :: t)), IH by (done ||
      (destruct r; [unfold no_word_head; cbn; by rewrite Hc|done])). done.
Qed.

Lemma map_words_ext f g s : (∀ w, w ∈ words s → f w = g w) → map_words f s = map_words g s.
Proof.
  induction s as [|c s Hc IH|v r Hv Hr IH] using word_ind; intros Hf; [done| |].
  - rewrite !map_words_byte, IH; [done| |done..]. by rewrite words_byte in Hf.
  - rewrite !map_words_word by done. rewrite words_word in Hf by done.
    rewrite IH, Hf; [done|by left|]. intros w Hw. apply Hf. by right.
Qed.

Lemma map_words_id f s : (∀ w, w ∈ words s → f w = w) → map_words f s = s.
Proof.
  induction s as [|c s Hc IH|v r Hv Hr IH] using word_ind; intros Hf; [done| |].
  - rewrite map_words_byte, IH; [done| |done]. by rewrite words_byte in Hf.
  - rewrite map_words_word by done. rewrite words_word in Hf by done.
    rewrite IH, Hf; [done|by left|]. intros w Hw. apply Hf. by right.
Qed.

Lemma no_word_head_map f s : no_word_head s = true → no_word_head (map_words f s) = true.
Proof.
  destruct s as [|c s]; [done|]. intros Hc. unfold no_word_head in Hc.
  apply negb_true_iff in Hc. rewrite map_words_byte by done. unfold no_word_head. by rewrite Hc.
Qed.

(** Renaming words renames the list of words. *)
Lemma words_map f s :
  (∀ w, w ∈ words s → is_name (f w) = true) → words (map_words f s) = f <$> words s.
Proof.
  induction s as [|c s Hc IH|v r Hv Hr IH] using word_ind; intros Hf; [done| |].
  - rewrite map_words_byte, !words_byte by done. apply IH. by rewrite words_byte in Hf.
  - rewrite words_word in Hf by done.
    rewrite map_words_word by done. rewrite (words_word v r) by done.
    rewrite words_word; [|apply Hf; by left|by apply no_word_head_map]. rewrite IH; [done|]. intros w Hw. apply Hf. by right.
Qed.

Lemma map_words_compose f g s :
  (∀ w, w ∈ words s → is_name (g w) = true) →
  map_words f (map_words g s) = map_words (f ∘ g) s.
Proof.
  induction s as [|c s Hc IH|v r Hv Hr IH] using word_ind; intros Hg; [done| |].
  - rewrite (map_words_byte g), !map_words_byte, IH by (done || by rewrite words_byte in Hg). done.
  - rewrite words_word in Hg by done.
    rewrite (map_words_word g), (map_words_word (f ∘ g)) by done.
    rewrite map_words_word; [|apply Hg; by left|by apply no_word_head_map]. rewrite IH; [done|].
    intros w Hw. apply Hg. by right.
Qed.
End words.

(** ** [re.sub] of words *)

(** A word that is an alternative replaced, any other word kept. *)
Definition rename_words (alts : list (text * text)) (w : text) : text :=
  match List.find (λ e, bool_decide (e.1 = w)) alts with Some e => e.2 | None => w end.

Section sub_words.
Context (alts : list (text * text)) (Ha : forallb (λ e, is_name e.1) alts = true).

Lemma sub_skip w r :
  forallb is_word w = true →
  sub_words_from alts true (length w) (w ++ r) = sub_words_from alts true 0 r.
Proof.
  induction w as [|c w IH]; [done|]. cbn. intros [-> Hw]%andb_true_iff. by apply IH.
Qed.

Lemma sub_inside w r :
  forallb is_word w = true → sub_words_from alts true 0 (w ++ r) = w ++ sub_words_from alts true 0 r.
Proof.
  induction w as [|c w IH]; [done|]. cbn. intros [Hc Hw]%andb_true_iff.
  unfold wb. rewrite Hc. cbn. by rewrite IH.
Qed.

Lemma last_is_word w z : forallb is_word w = true → last w = Some z → is_word z = true.
Proof.
  rewrite forallb_forall. intros Hw Hz. apply Hw, list_elem_of_In.
  by apply last_Some_elem_of.
Qed.

Lemma name_last w : is_name w = true → ∃ z, last w = Some z ∧ is_word z = true.
Proof.
  intros [Hne Hw]%is_name_spec. destruct (last w) as [z|] eqn:E.
  - exists z. split; [done|]. by eapply last_is_word.
  - by apply last_None in E.
Qed.

(** At the start of a word [w] the pattern matches exactly if the word is [a]. *)
Lemma strip_word a w r :
  is_name a = true → is_name w = true → no_word_head r = true → a ≠ w →
  match strip_prefix a (w ++ r) with Some r' => wb true r' = false | None => True end.
Proof.
  intros Hna [_ Hw]%is_name_spec Hr Hn. destruct (strip_prefix a (w ++ r)) as [r'|] eqn:E; [|done].
  apply strip_prefix_Some in E. apply is_name_spec in Hna as [_ Haw].
  apply app_eq_app in E as (l & [[-> ->]|[-> ->]]).
  - destruct l as [|c l]; [by rewrite app_nil_r in Hn|]. rewrite forallb_app in Hw.
    apply andb_true_iff in Hw as [_ Hw]. cbn in Hw. apply andb_true_iff in Hw as [Hc _].
    unfold wb. cbn. by rewrite Hc.
  - destruct l as [|c l]; [by rewrite app_nil_r in Hn|]. rewrite forallb_app in Haw.
    apply andb_true_iff in Haw as [_ Haw]. cbn in Haw. apply andb_true_iff in Haw as [Hc _].
    unfold no_word_head in Hr. cbn in Hr. by rewrite Hc in Hr.
Qed.

Lemma alt_at_word prev w r :
  is_name w = true → no_word_head r = true →
  alt_at alts prev (w ++ r) = List.find (λ e, bool_decide (e.1 = w)) alts.
Proof.
  intros Hw Hr. induction alts as [|[a b] l IH]; [done|]. cbn in Ha |- *.
  apply andb_true_iff in Ha as [Hna Hl]. destruct (name_last _ Hna) as (z & -> & ->).
  case_bool_decide as Ea.
  - subst w. assert (strip_prefix a (a ++ r) = Some r) as -> by (by apply strip_prefix_Some).
    assert (wb true r = true) as ->; [|done].
    unfold wb, no_word_head in *. apply negb_true_iff in Hr. by rewrite Hr.
  - pose proof (strip_word a w r Hna Hw Hr Ea) as Hs.
    destruct (strip_prefix a (w ++ r)); [rewrite Hs|]; by apply IH.
Qed.

Lemma alt_at_gap prev c s : is_word c = false → alt_at alts prev (c :: s) = None.
Proof.
  intros Hc. induction alts as [|[a b] l IH]; [done|]. cbn [alt_at].
  cbn in Ha. apply andb_true_iff in Ha as [Hna Hl]. rewrite (IH Hl).
  destruct (strip_prefix a (c :: s)) as [r|] eqn:E; [|done]. apply strip_prefix_Some in E.
  apply is_name_spec in Hna as [Hne Haw]. destruct a as [|x a']; [done|]. cbn in E, Haw.
  injection E as <- _. by rewrite Hc in Haw.
Qed.

Lemma sub_words_from_spec s prev :
  prev = false ∨ no_word_head s = true →
  sub_words_from alts prev 0 s = map_words (rename_words alts) s.
Proof.
  revert prev. induction s as [|c s Hc IH|w r Hw Hr IH] using word_ind; intros prev Hp; [done| |].
  - rewrite map_words_byte by done. cbn [sub_words_from]. rewrite <-(IH false) by auto.
    rewrite alt_at_gap, Hc by done. by destruct (wb prev (c :: s)).
  - rewrite map_words_word by done. unfold rename_words at 1.
    pose proof Hw as [Hne Hww]%is_name_spec.
    destruct w as [|c w]; [done|]. cbn in Hww. apply andb_true_iff in Hww as [Hc Hww].
    destruct Hp as [->|Hp]; [|unfold no_word_head in Hp; cbn in Hp; by rewrite Hc in Hp].
    cbn [app sub_words_from]. unfold wb at 1. rewrite Hc. cbn [xorb].
    rewrite app_comm_cons, <-(IH true) by auto. rewrite alt_at_word by done.
    destruct (List.find _ alts) as [[a b]|] eqn:E.
    + apply find_some in E as [_ E]. apply bool_decide_eq_true in E. cbn in E. subst a.
      f_equal. cbn [length]. rewrite Nat.sub_1_r. cbn [Nat.pred]. by apply sub_skip.
    + cbn. by rewrite sub_inside.
Qed.

(** [re.sub] replaces the words that are alternatives. *)
Lemma sub_words_spec s : sub_words alts s = map_words (rename_words alts) s.
Proof. apply sub_words_from_spec. by left. Qed.

Context (Hb : forallb (λ e, is_name e.2) alts = true).

Lemma rename_words_name w : is_name w = true → is_name (rename_words alts w) = true.
Proof.
  unfold rename_words. destruct (List.find _ alts) as [e|] eqn:E; [|done].
  apply find_some in E as [Hin _]. rewrite forallb_forall in Hb. by rewrite (Hb e Hin).
Qed.

Lemma sub_words_words s : words (sub_words alts s) = rename_words alts <$> words s.
Proof.
  rewrite sub_words_spec. apply words_map. intros w Hw. apply rename_words_name. by eapply words_names.
Qed.

(** No alternative is left, if none is put in; then a second pass changes nothing. *)
Lemma sub_words_gone s a :
  forallb (λ e, negb (bool_decide (e.2 ∈ alts.*1))) alts = true → a ∈ alts.*1 →
  a ∉ words (sub_words alts s).
Proof.
  rewrite sub_words_words. intros Hn Hin (w & Hw & _)%list_elem_of_fmap. unfold rename_words in Hw.
  destruct (List.find _ alts) as [e|] eqn:E.
  - apply find_some in E as [He _]. rewrite forallb_forall in Hn. specialize (Hn e He).
    apply negb_true_iff, bool_decide_eq_false in Hn. by rewrite <-Hw in Hn.
  - subst a. apply list_elem_of_fmap in Hin as (e & -> & He).
    apply list_elem_of_In, (find_none _ _ E), bool_decide_eq_false in He. done.
Qed.
End sub_words.

Lemma sub_words_absent alts s :
  forallb (λ e, is_name e.1) alts = true → (∀ a, a ∈ alts.*1 → a ∉ words s) → sub_words alts s = s.
Proof.
  intros Ha Hn. rewrite sub_words_spec by done. apply map_words_id. intros w Hw. unfold rename_words.
  destruct (List.find _ alts) as [e|] eqn:E; [|done]. apply find_some in E as [He Eq].
  apply bool_decide_eq_true in Eq. destruct (Hn w); [|done].
  apply list_elem_of_fmap. exists e. split; [done|by apply list_elem_of_In].
Qed.

Lemma sub_words_again alts s :
  forallb (λ e, is_name e.1 && is_name e.2 && negb (bool_decide (e.2 ∈ alts.*1))) alts = true →
  sub_words alts (sub_words alts s) = sub_words alts s.
Proof.
  intros Hall. assert (forallb (λ e, is_name e.1) alts = true ∧ forallb (λ e, is_name e.2) alts = true ∧
    forallb (λ e, negb (bool_decide (e.2 ∈ alts.*1))) alts = true) as (H1 & H2 & H3).
  { rewrite forallb_forall in Hall. setoid_rewrite andb_true_iff in Hall.
    setoid_rewrite andb_true_iff in Hall. rewrite !forallb_forall. firstorder. }
  apply sub_words_absent; [done|]. intros a Hin. by apply sub_words_gone.
Qed.

(** ** One word *)

(** A word [a] replaced by [b], any other word kept. *)
Definition rename (a b w : text) : text := if decide (w = a) then b else w.

Lemma rename_one a b w : rename_words [(a, b)] w = rename a b w.
Proof.
  unfold rename_words, rename. cbn. case_bool_decide; case_decide; cbn; congruence.
Qed.

Section sub_word.
Context (a b : text) (Ha : is_name a = true).

(** [re.sub(r'\ba\b', b, s)] replaces the words that are [a]. *)
Lemma sub_word_spec s : sub_word a b s = map_words (rename a b) s.
Proof.
  unfold sub_word. rewrite sub_words_spec by (cbn; by rewrite Ha). apply map_words_ext.
  intros w _. apply rename_one.
Qed.

Context (Hb : is_name b = true).

Lemma rename_name w : is_name w = true → is_name (rename a b w) = true.
Proof. unfold rename. by case_decide. Qed.

Lemma sub_word_words s : words (sub_word a b s) = rename a b <$> words s.
Proof.
  rewrite sub_word_spec. apply words_map. intros w Hw. apply rename_name. by eapply words_names.
Qed.

(** No [a] is left. *)
Lemma sub_word_gone s : a ≠ b → a ∉ words (sub_word a b s).
Proof.
  rewrite sub_word_words. intros Hab (w & Hw & _)%list_elem_of_fmap. unfold rename in Hw.
  case_decide; congruence.
Qed.

Lemma sub_word_absent s : a ∉ words s → sub_word a b s = s.
Proof.
  intros Hn. rewrite sub_word_spec. apply map_words_id. intros w Hw. unfold rename.
  by case_decide; subst.
Qed.
End sub_word.
