(* ===== verification/PyRegex.v ===== *)
(** Python's [re] as a backtracking matcher: a pattern, matched at a place of a text,
    gives the list of its matches in the order in which [re] tries them, so that
    [re.match] is the first of the list.  Texts are bytes: [\d], [\w] and [\s] are the
    ASCII classes, and [.] and [\S] take a character outside ASCII byte by byte, which
    gives the same matches where the pattern goes on with an ASCII byte or a whole
    character.  Star bodies that can match the empty text do not occur in the scripts. *)
From S2P Require Import Prelude PyStr PyParse PyRe.

(** ** Patterns *)

Inductive look :=
  | Bol (* [^] with re.M *)
  | Eol (* [$] *)
  | EolM (* [$] with re.M *)
  | WordB (* [\b] *).

Inductive regex :=
  | REps
  | RSet (p : ascii → bool)
  | RSeq (a b : regex)
  | RAlt (a b : regex)
  | RStar (greedy : bool) (a : regex)
  | RGroup (n : nat) (a : regex)
  | RLook (l : look).

Declare Scope re_scope.
Delimit Scope re_scope with re.
Bind Scope re_scope with regex.
Notation "a ⋅ b" := (RSeq a b) (at level 41, right associativity) : re_scope.
Notation "a ‖ b" := (RAlt a b) (at level 43, right associativity) : re_scope.
Open Scope re_scope.

Fixpoint RLit (s : text) : regex :=
  match s with [] => REps | c :: s' => RSet (Ascii.eqb c) ⋅ RLit s' end.

Definition RPlus (greedy : bool) (a : regex) : regex := a ⋅ RStar greedy a.
Definition ROpt (a : regex) : regex := a ‖ REps.

Fixpoint RRep (n : nat) (a : regex) : regex :=
  match n with 0 => REps | S n' => a ⋅ RRep n' a end.

Definition is_digit (c : ascii) : bool :=
  let n := nat_of_ascii c in (48 <=? n) && (n <=? 57).
Definition is_hexdigit (c : ascii) : bool :=
  let n := nat_of_ascii c in is_digit c || ((97 <=? n) && (n <=? 102)).
Definition not_space (c : ascii) : bool := negb (is_space c).
Definition not_nl (c : ascii) : bool := negb (Ascii.eqb c nl).
Definition any (c : ascii) : bool := true.

(** ** Matching *)

(** A place in the text: the byte before it, the text after it, and the groups so far,
    the last one first. *)
Record place := Place { m_prev : option ascii; m_rest : text; m_caps : list (nat * text) }.

Definition look_holds (l : look) (st : place) : bool :=
  match l with
  | Bol => match m_prev st with None => true | Some c => Ascii.eqb c nl end
  | Eol => match m_rest st with [] => true | [c] => Ascii.eqb c nl | _ => false end
  | EolM => match m_rest st with [] => true | c :: _ => Ascii.eqb c nl end
  | WordB => wb (match m_prev st with Some c => is_word c | None => false end) (m_rest st)
  end.

Definition shorter (st st' : place) : bool := length (m_rest st') <? length (m_rest st).

(** The text between two places. *)
Definition between (st st' : place) : text :=
  take (length (m_rest st) - length (m_rest st')) (m_rest st).

Section star.
Context (body : place → list place) (greedy : bool).

(** Up to [n] further rounds of the body, each of which consumes something. *)
Fixpoint star_run (n : nat) (st : place) : list place :=
  let more := match n with
              | 0 => []
              | S n' => filter (λ x, shorter st x = true) (body st) ≫= star_run n'
              end in
  if greedy then more ++ [st] else st :: more.
End star.

Fixpoint re_run (r : regex) (st : place) : list place :=
  match r with
  | REps => [st]
  | RSet p => match m_rest st with
              | c :: s => if p c then [Place (Some c) s (m_caps st)] else []
              | [] => []
              end
  | RSeq a b => re_run a st ≫= re_run b
  | RAlt a b => re_run a st ++ re_run b st
  | RStar greedy a => star_run (re_run a) greedy (length (m_rest st)) st
  | RGroup n a =>
      (λ st', Place (m_prev st') (m_rest st') ((n, between st st') :: m_caps st')) <$> re_run a st
  | RLook l => if look_holds l st then [st] else []
  end.

Definition group (st : place) (n : nat) : option text :=
  snd <$> find (λ x, x.1 =? n) (m_caps st).

Definition start (s : text) : place := Place None s [].

(** [re.match(r, s)] *)
Definition re_match (r : regex) (s : text) : option place := head (re_run r (start s)).

(** [re.search(r, s)], from the place reached so far *)
Fixpoint search_from (r : regex) (prev : option ascii) (s : text) : option place :=
  match head (re_run r (Place prev s [])) with
  | Some m => Some m
  | None => match s with [] => None | c :: s' => search_from r (Some c) s' end
  end.

Definition re_search (r : regex) (s : text) : option place := search_from r None s.

(** [r.findall(s)] for a pattern without groups that matches no empty text; [k] bytes
    belong to the last match. *)
Fixpoint findall_from (r : regex) (prev : option ascii) (k : nat) (s : text) : list text :=
  match s with
  | [] => []
  | c :: s' =>
      match k with
      | S k' => findall_from r (Some c) k' s'
      | 0 => match head (re_run r (Place prev s [])) with
             | Some m => between (Place prev s []) m
                         :: findall_from r (Some c) (length (between (Place prev s []) m) - 1) s'
             | None => findall_from r (Some c) 0 s'
             end
      end
  end.

Definition re_findall (r : regex) (s : text) : list text := findall_from r None 0 s.

(** ** What a match is, without the order of the search *)

Inductive matches : regex → place → place → Prop :=
  | m_eps st : matches REps st st
  | m_set p c s prev caps :
      p c = true → matches (RSet p) (Place prev (c :: s) caps) (Place (Some c) s caps)
  | m_seq a b x y z : matches a x y → matches b y z → matches (RSeq a b) x z
  | m_alt_l a b x y : matches a x y → matches (RAlt a b) x y
  | m_alt_r a b x y : matches b x y → matches (RAlt a b) x y
  | m_stop g a x : matches (RStar g a) x x
  | m_more g a x y z :
      matches a x y → length (m_rest y) < length (m_rest x) → matches (RStar g a) y z →
      matches (RStar g a) x z
  | m_group n a x y :
      matches a x y →
      matches (RGroup n a) x (Place (m_prev y) (m_rest y) ((n, between x y) :: m_caps y))
  | m_look l x : look_holds l x = true → matches (RLook l) x x.

#[export] Hint Constructors matches : py.

Lemma star_run_elem f g n st st' :
  st' ∈ star_run f g n st ↔
  st' = st ∨ ∃ n' y, n = S n' ∧ y ∈ f st ∧ shorter st y = true ∧ st' ∈ star_run f g n' y.
Proof.
  assert (st' ∈ star_run f g n st ↔ st' = st ∨ st' ∈ match n with
    | 0 => [] | S n' => filter (λ x, shorter st x = true) (f st) ≫= star_run f g n' end) as ->.
  { destruct n, g; cbn [star_run]; rewrite ?elem_of_app, ?elem_of_cons, ?elem_of_nil; tauto. }
  destruct n as [|n].
  { rewrite elem_of_nil. split; [tauto|]. intros [?|(? & ? & ? & _)]; by left. }
  rewrite list_elem_of_bind. setoid_rewrite list_elem_of_filter. apply or_iff_compat_l.
  split; [intros (y & ? & ? & ?); by exists n, y|].
  intros (n' & y & [= <-] & ? & ? & ?). by exists y.
Qed.

Lemma star_run_sound g a n st st' :
  (∀ x y, y ∈ re_run a x → matches a x y) →
  st' ∈ star_run (re_run a) g n st → matches (RStar g a) st st'.
Proof.
  intros Ha. revert st. induction n as [|n IH]; intros st.
  all: intros [->|(n' & y & [=] & Hy & Hs & Hr)]%star_run_elem; eauto with py.
  subst. apply Nat.ltb_lt in Hs. eauto with py.
Qed.

Lemma star_run_complete g a x z :
  (∀ x y, matches a x y → y ∈ re_run a x) →
  matches (RStar g a) x z → ∀ n, length (m_rest x) ≤ n → z ∈ star_run (re_run a) g n x.
Proof.
  intros Ha Hm. remember (RStar g a) as r eqn:Er. induction Hm; simplify_eq; intros n Hn;
    apply star_run_elem; [by left|right].
  destruct n as [|n]; [lia|]. exists n, y. split_and!; [done|auto|by apply Nat.ltb_lt|].
  apply IHHm2; [done|lia].
Qed.

(** The matcher finds a match exactly where there is one. *)
Lemma re_run_spec r x y : y ∈ re_run r x ↔ matches r x y.
Proof.
  split.
  - revert x y. induction r; intros x y Hin; simpl in Hin.
    + apply list_elem_of_singleton in Hin as ->. eauto with py.
    + destruct x as [pv [|c s] cs]; simpl in Hin; [by apply elem_of_nil in Hin|].
      destruct (p c) eqn:E; [apply list_elem_of_singleton in Hin as ->; eauto with py|].
      by apply elem_of_nil in Hin.
    + apply list_elem_of_bind in Hin as (z & Hz & Hx). eauto with py.
    + apply elem_of_app in Hin as [Hin|Hin]; eauto with py.
    + by eapply star_run_sound.
    + apply list_elem_of_fmap in Hin as (z & -> & Hz). eauto with py.
    + destruct (look_holds l x) eqn:E; [apply list_elem_of_singleton in Hin as ->; eauto with py|].
      by apply elem_of_nil in Hin.
  - intros Hm. assert (∀ g a x z, (∀ x y, matches a x y → y ∈ re_run a x) →
      matches (RStar g a) x z → z ∈ re_run (RStar g a) x) as Hstar.
    { intros g a x' z Ha Hs. by eapply star_run_complete. }
    revert x y Hm. induction r; intros x y Hm; try by apply Hstar.
    all: inversion Hm; subst; simpl.
    + by apply list_elem_of_singleton.
    + match goal with H : _ = true |- _ => rewrite H end. by apply list_elem_of_singleton.
    + apply list_elem_of_bind. eauto.
    + apply elem_of_app. auto.
    + apply elem_of_app. auto.
    + apply list_elem_of_fmap. eauto.
    + match goal with H : _ = true |- _ => rewrite H end. by apply list_elem_of_singleton.
Qed.

(** ** The first match *)

(** The byte before the place that is reached over [w]. *)
Definition after (pv : option ascii) (w : text) : option ascii :=
  match last w with Some c => Some c | None => pv end.

Definition stops (p : ascii → bool) (s : text) : bool :=
  match s with c :: _ => negb (p c) | [] => true end.

Lemma after_cons pv c w : after pv (c :: w) = after (Some c) w.
Proof.
  unfold after. rewrite last_cons. by destruct (last w).
Qed.

Section first.
Implicit Types (p : ascii → bool) (w s : text) (pv : option ascii) (cs : list (nat * text)).

Lemma run_set_yes p pv c s cs :
  p c = true → re_run (RSet p) (Place pv (c :: s) cs) = [Place (Some c) s cs].
Proof. intros H. simpl. by rewrite H. Qed.

Lemma run_set_no p pv s cs : stops p s = true → re_run (RSet p) (Place pv s cs) = [].
Proof. destruct s as [|c s]; simpl; [done|]. intros ->%negb_true_iff. done. Qed.

Lemma run_seq a b x : re_run (a ⋅ b) x = re_run a x ≫= re_run b.
Proof. done. Qed.

Lemma run_star g a x : re_run (RStar g a) x = star_run (re_run a) g (length (m_rest x)) x.
Proof. done. Qed.

(** A place reached for sure is as good as the place itself. *)
Lemma bind_one {A B} (x : A) (f : A → list B) l : l = [x] → l ≫= f = f x.
Proof. intros ->. cbn. by rewrite app_nil_r. Qed.

Lemma run_lit w pv s cs : re_run (RLit w) (Place pv (w ++ s) cs) = [Place (after pv w) s cs].
Proof.
  revert pv. induction w as [|c w IH]; intros pv; [done|].
  cbn [RLit app]. rewrite run_seq, after_cons.
  erewrite bind_one by (apply run_set_yes, Ascii.eqb_refl). apply IH.
Qed.

Lemma run_rep p w pv s cs :
  forallb p w = true →
  re_run (RRep (length w) (RSet p)) (Place pv (w ++ s) cs) = [Place (after pv w) s cs].
Proof.
  revert pv. induction w as [|c w IH]; intros pv; [done|]. intros [Hc Hw]%andb_true_iff.
  cbn [RRep app length]. rewrite run_seq, after_cons.
  erewrite bind_one by by apply run_set_yes. by apply IH.
Qed.

Lemma run_group n a x (f : place → list place) :
  re_run (RGroup n a) x ≫= f =
  re_run a x ≫= λ y, f (Place (m_prev y) (m_rest y) ((n, between x y) :: m_caps y)).
Proof. cbn [re_run]. induction (re_run a x) as [|y l IH]; [done|]. cbn. by f_equal. Qed.

Lemma between_app pv w s cs pv' cs' :
  between (Place pv (w ++ s) cs) (Place pv' s cs') = w.
Proof.
  unfold between. cbn. rewrite length_app.
  replace (length w + length s - length s) with (length w) by lia. by rewrite take_app_length.
Qed.

Lemma between_eq pv s w s' cs pv' cs' :
  s = w ++ s' → between (Place pv s cs) (Place pv' s' cs') = w.
Proof. intros ->. apply between_app. Qed.

Lemma star_set_cons p pv c s cs n (f : place → list place) :
  p c = true →
  star_run (re_run (RSet p)) true (S n) (Place pv (c :: s) cs) ≫= f =
  (star_run (re_run (RSet p)) true n (Place (Some c) s cs) ≫= f) ++ f (Place pv (c :: s) cs).
Proof.
  intros Hc. cbn [star_run]. rewrite run_set_yes by done.
  rewrite filter_cons_True by (apply Nat.ltb_lt; cbn; lia).
  rewrite bind_app. cbn. by rewrite !app_nil_r.
Qed.

Lemma star_set_stop p pv s cs n (f : place → list place) :
  stops p s = true →
  star_run (re_run (RSet p)) true n (Place pv s cs) ≫= f = f (Place pv s cs).
Proof.
  intros Hs. destruct n; cbn [star_run]; rewrite ?run_set_no by done; cbn; by rewrite app_nil_r.
Qed.

(** What follows a greedy class fails at every place but the first. *)
Lemma star_only_first p w s cs (f : place → list place) n pv :
  forallb p w = true → stops p s = true →
  (∀ pv u v, u ≠ [] → w = u ++ v → f (Place pv (v ++ s) cs) = []) →
  length (w ++ s) ≤ n →
  star_run (re_run (RSet p)) true n (Place pv (w ++ s) cs) ≫= f = f (Place pv (w ++ s) cs).
Proof.
  revert pv n. induction w as [|c w IH]; intros pv n Hw Hs Hf Hn; [by apply star_set_stop|].
  apply andb_true_iff in Hw as [Hc Hw]. cbn in Hn. destruct n as [|n]; [lia|].
  cbn [app]. rewrite star_set_cons by done. rewrite IH; [|done|done| |lia].
  - rewrite (Hf _ [c] w); done.
  - intros pv' u v Hu ->. apply (Hf _ (c :: u)); done.
Qed.

(** A greedy class gives back only as much as what follows it needs. *)
Lemma star_first p w1 w2 s cs (f : place → list place) n pv :
  forallb p (w1 ++ w2) = true → stops p s = true →
  (∀ pv u v, u ≠ [] → w2 = u ++ v → f (Place pv (v ++ s) cs) = []) →
  f (Place (after pv w1) (w2 ++ s) cs) ≠ [] →
  length (w1 ++ w2 ++ s) ≤ n →
  head (star_run (re_run (RSet p)) true n (Place pv (w1 ++ w2 ++ s) cs) ≫= f) =
  head (f (Place (after pv w1) (w2 ++ s) cs)).
Proof.
  revert pv n. induction w1 as [|c w1 IH]; intros pv n Hw Hs Hf Hne Hn.
  { change ([] ++ w2 ++ s) with (w2 ++ s). by rewrite star_only_first. }
  apply andb_true_iff in Hw as [Hc Hw]. cbn in Hn. destruct n as [|n]; [lia|].
  rewrite after_cons in Hne |- *. cbn [app]. rewrite star_set_cons by done.
  specialize (IH (Some c) n Hw Hs Hf Hne ltac:(lia)).
  destruct (f (Place (after (Some c) w1) (w2 ++ s) cs)) eqn:E; [done|].
  destruct (star_run (re_run (RSet p)) true n (Place (Some c) (w1 ++ w2 ++ s) cs) ≫= f);
    [done|exact IH].
Qed.

Lemma bind_bind {A B C} (l : list A) (f : A → list B) (g : B → list C) :
  (l ≫= f) ≫= g = l ≫= λ x, f x ≫= g.
Proof. induction l as [|x l IH]; [done|]. cbn. rewrite bind_app. by f_equal. Qed.

Lemma run_seq_bind a b x (f : place → list place) :
  re_run (a ⋅ b) x ≫= f = re_run a x ≫= λ y, re_run b y ≫= f.
Proof. apply bind_bind. Qed.

(** [p+] of one byte and more, followed by [f] that needs [w2] back. *)
Lemma plus_first p c w1 w2 s cs (f : place → list place) pv m :
  p c = true → forallb p (w1 ++ w2) = true → stops p s = true →
  (∀ pv u v, u ≠ [] → w2 = u ++ v → f (Place pv (v ++ s) cs) = []) →
  head (f (Place (after pv (c :: w1)) (w2 ++ s) cs)) = Some m →
  head (re_run (RPlus true (RSet p)) (Place pv (c :: w1 ++ w2 ++ s) cs) ≫= f) = Some m.
Proof.
  intros Hc Hw Hs Hf Hm. unfold RPlus. rewrite run_seq_bind.
  erewrite bind_one by by apply run_set_yes. rewrite run_star.
  rewrite after_cons in Hm. rewrite star_first; [done..| |cbn [m_rest]; lia].
  by destruct (f (Place (after (Some c) w1) (w2 ++ s) cs)).
Qed.

Lemma plus_whole p c w s cs (f : place → list place) pv m :
  p c = true → forallb p w = true → stops p s = true →
  head (f (Place (after pv (c :: w)) s cs)) = Some m →
  head (re_run (RPlus true (RSet p)) (Place pv (c :: w ++ s) cs) ≫= f) = Some m.
Proof.
  intros Hc Hw Hs Hm. apply (plus_first p c w [] s cs); [done|by rewrite app_nil_r|done| |done].
  intros pv' u v Hu E. symmetry in E. apply app_nil in E as [-> _]. done.
Qed.

(** [p*], followed by [f] that needs [w2] back. *)
Lemma star_upto p w1 w2 s cs (f : place → list place) pv m :
  forallb p (w1 ++ w2) = true → stops p s = true →
  (∀ pv u v, u ≠ [] → w2 = u ++ v → f (Place pv (v ++ s) cs) = []) →
  head (f (Place (after pv w1) (w2 ++ s) cs)) = Some m →
  head (re_run (RStar true (RSet p)) (Place pv (w1 ++ w2 ++ s) cs) ≫= f) = Some m.
Proof.
  intros Hw Hs Hf Hm. rewrite run_star, star_first; [done..| |cbn [m_rest]; lia].
  by destruct (f (Place (after pv w1) (w2 ++ s) cs)).
Qed.

Lemma star_all p w cs (f : place → list place) pv m :
  forallb p w = true → head (f (Place (after pv w) [] cs)) = Some m →
  head (re_run (RStar true (RSet p)) (Place pv w cs) ≫= f) = Some m.
Proof.
  intros Hw Hm. rewrite <-(app_nil_r w). apply (star_upto p w [] []); [by rewrite app_nil_r|done| |done].
  intros pv' u v Hu E. symmetry in E. by apply app_nil in E as [-> _].
Qed.

(** A literal that is there, and one that is not. *)
Lemma lit_then w s pv cs (f : place → list place) m :
  head (f (Place (after pv w) s cs)) = Some m →
  head (re_run (RLit w) (Place pv (w ++ s) cs) ≫= f) = Some m.
Proof. intros H. by erewrite bind_one by apply run_lit. Qed.

Lemma alt_left a b x (f : place → list place) m :
  head (re_run a x ≫= f) = Some m → head (re_run (a ‖ b) x ≫= f) = Some m.
Proof.
  change (re_run (a ‖ b) x) with (re_run a x ++ re_run b x). rewrite bind_app.
  by destruct (re_run a x ≫= f).
Qed.

Lemma alt_right a b x (f : place → list place) m :
  re_run a x ≫= f = [] → head (re_run b x ≫= f) = Some m → head (re_run (a ‖ b) x ≫= f) = Some m.
Proof.
  change (re_run (a ‖ b) x) with (re_run a x ++ re_run b x). rewrite bind_app. by intros ->.
Qed.

Lemma bind_ret (l : list place) : l = l ≫= λ y, [y].
Proof. induction l as [|x l IH]; [done|]. cbn. by f_equal. Qed.

Lemma rep_then p w s pv cs (f : place → list place) m :
  forallb p w = true → head (f (Place (after pv w) s cs)) = Some m →
  head (re_run (RRep (length w) (RSet p)) (Place pv (w ++ s) cs) ≫= f) = Some m.
Proof. intros Hw H. by erewrite bind_one by by apply run_rep. Qed.

Lemma lit_fails c w s pv cs (f : place → list place) :
  stops (Ascii.eqb c) s = true → re_run (RLit (c :: w)) (Place pv s cs) ≫= f = [].
Proof.
  intros Hs. cbn [RLit]. rewrite run_seq_bind.
  by rewrite run_set_no.
Qed.
End first.
