(* ===== verification/Json.v ===== *)
(** Python's [json] as the scripts use it: [json.loads], [json.dumps] and [json.dump]
    with [indent], on texts of UTF-8 bytes, and that what is printed reads back.  An
    object is a list of pairs in insertion order, its keys different, as a dict keeps
    them; a float is kept as the text it was read from. *)
From Stdlib Require Import DecimalString DecimalZ DecimalPos ZifyBool.
From S2P Require Import Prelude PyStr PyRegex.

Inductive json :=
  | JNull
  | JBool (b : bool)
  | JInt (n : Z)
  | JFloat (lexeme : text)
  | JStr (s : text)
  | JList (l : list json)
  | JObj (l : list (text * json)).

(** ** Dicts in insertion order *)

Section dict.
Context {K A : Type} `{EqDecision K}.

Fixpoint dict_find (k : K) (l : list (K * A)) : option A :=
  match l with
  | [] => None
  | (k', a) :: l' => if decide (k = k') then Some a else dict_find k l'
  end.

(** [d[k] = a]: in place where [k] is a key, at the end where it is not *)
Fixpoint assign (k : K) (a : A) (l : list (K * A)) : list (K * A) :=
  match l with
  | [] => [(k, a)]
  | (k', a') :: l' => if decide (k = k') then (k', a) :: l' else (k', a') :: assign k a l'
  end.

Lemma assign_new k a l : k ∉ l.*1 → assign k a l = l ++ [(k, a)].
Proof.
  induction l as [|[k' a'] l IH]; cbn; [done|]. intros [Hn Hl]%not_elem_of_cons.
  rewrite decide_False by done. by rewrite IH.
Qed.
End dict.

(** ** Decimal numbers *)

Fixpoint uint_text (d : Decimal.uint) : text :=
  match d with
  | Decimal.Nil => []
  | Decimal.D0 d => "0"%char :: uint_text d
  | Decimal.D1 d => "1"%char :: uint_text d
  | Decimal.D2 d => "2"%char :: uint_text d
  | Decimal.D3 d => "3"%char :: uint_text d
  | Decimal.D4 d => "4"%char :: uint_text d
  | Decimal.D5 d => "5"%char :: uint_text d
  | Decimal.D6 d => "6"%char :: uint_text d
  | Decimal.D7 d => "7"%char :: uint_text d
  | Decimal.D8 d => "8"%char :: uint_text d
  | Decimal.D9 d => "9"%char :: uint_text d
  end.

(** [str(n)] and [%d] *)
Definition Z_text (n : Z) : text :=
  match Z.to_int n with
  | Decimal.Pos d => uint_text d
  | Decimal.Neg d => "-"%char :: uint_text d
  end.

(** The digits a text starts with, and the rest. *)
Fixpoint read_uint (s : text) : Decimal.uint * text :=
  match s with
  | "0"%char :: s => let (d, r) := read_uint s in (Decimal.D0 d, r)
  | "1"%char :: s => let (d, r) := read_uint s in (Decimal.D1 d, r)
  | "2"%char :: s => let (d, r) := read_uint s in (Decimal.D2 d, r)
  | "3"%char :: s => let (d, r) := read_uint s in (Decimal.D3 d, r)
  | "4"%char :: s => let (d, r) := read_uint s in (Decimal.D4 d, r)
  | "5"%char :: s => let (d, r) := read_uint s in (Decimal.D5 d, r)
  | "6"%char :: s => let (d, r) := read_uint s in (Decimal.D6 d, r)
  | "7"%char :: s => let (d, r) := read_uint s in (Decimal.D7 d, r)
  | "8"%char :: s => let (d, r) := read_uint s in (Decimal.D8 d, r)
  | "9"%char :: s => let (d, r) := read_uint s in (Decimal.D9 d, r)
  | _ => (Decimal.Nil, s)
  end.

(** ** Strings *)

Definition byte (n : N) : ascii := ascii_of_N n.

(** The UTF-8 bytes of a code point. *)
Definition utf8_encode (n : N) : text :=
  (if n <? 128 then [byte n]
   else if n <? 2048 then [byte (192 + n / 64); byte (128 + n mod 64)]
   else if n <? 65536 then
     [byte (224 + n / 4096); byte (128 + n / 64 mod 64); byte (128 + n mod 64)]
   else [byte (240 + n / 262144); byte (128 + n / 4096 mod 64); byte (128 + n / 64 mod 64);
         byte (128 + n mod 64)])%N.

Definition hex_digit (n : N) : ascii := byte (if n <? 10 then 48 + n else 87 + n)%N.

Definition hex_value (c : ascii) : option N :=
  let n := N_of_ascii c in
  (if (48 <=? n) && (n <=? 57) then Some (n - 48)
   else if (97 <=? n) && (n <=? 102) then Some (n - 87)
   else if (65 <=? n) && (n <=? 70) then Some (n - 55)
   else None)%N.

Definition hex4 (a b c d : ascii) : option N :=
  match hex_value a, hex_value b, hex_value c, hex_value d with
  | Some a, Some b, Some c, Some d => Some (((a * 16 + b) * 16 + c) * 16 + d)%N
  | _, _, _, _ => None
  end.

(** [\uXXXX] for a code unit *)
Definition u_escape (n : N) : text :=
  ["\"%char; "u"%char; hex_digit (n / 4096 mod 16); hex_digit (n / 256 mod 16);
   hex_digit (n / 16 mod 16); hex_digit (n mod 16)]%N.

(** A code point above the first plane is a surrogate pair. *)
Definition u_escapes (n : N) : text :=
  (if n <? 65536 then u_escape n
   else u_escape (55296 + (n - 65536) / 1024) ++ u_escape (56320 + (n - 65536) mod 1024))%N.

Definition esc_ascii (c : ascii) : text :=
  match c with
  | "034"%char => ["\"; "034"]%char
  | "\"%char => ["\"; "\"]%char
  | "010"%char => ["\"; "n"]%char
  | "013"%char => ["\"; "r"]%char
  | "009"%char => ["\"; "t"]%char
  | "012"%char => ["\"; "f"]%char
  | "008"%char => ["\"; "b"]%char
  | _ => let n := N_of_ascii c in
         if ((32 <=? n) && (n <=? 126))%N then [c] else u_escape n
  end.

Definition bits (x : ascii) : N := (N_of_ascii x mod 64)%N.

(** The string between its quotes, with [ensure_ascii]. *)
Fixpoint esc (s : text) : text :=
  match s with
  | [] => []
  | c :: r =>
      let n := N_of_ascii c in
      if (n <? 128)%N then esc_ascii c ++ esc r
      else match r with
        | c1 :: r1 =>
            if (n <? 224)%N then u_escapes (n mod 32 * 64 + bits c1) ++ esc r1
            else match r1 with
                 | c2 :: r2 =>
                     if (n <? 240)%N
                     then u_escapes ((n mod 16 * 64 + bits c1) * 64 + bits c2) ++ esc r2
                     else match r2 with
                          | c3 :: r3 =>
                              u_escapes (((n mod 8 * 64 + bits c1) * 64 + bits c2) * 64 + bits c3)
                              ++ esc r3
                          | [] => []
                          end
                 | [] => []
                 end
        | [] => []
        end
  end.

Definition quote : ascii := "034".

Definition dump_str (s : text) : text := quote :: esc s ++ [quote].

Definition is_high (n : N) : bool := ((55296 <=? n) && (n <=? 56319))%N.
Definition is_low (n : N) : bool := ((56320 <=? n) && (n <=? 57343))%N.

Definition put (w : text) (x : option (text * text)) : option (text * text) :=
  match x with Some (s, r) => Some (w ++ s, r) | None => None end.

(** What a backslash and this byte stand for. *)
Definition unescape (c : ascii) : option ascii :=
  match c with
  | "034"%char => Some "034"%char
  | "\"%char => Some "\"%char
  | "/"%char => Some "/"%char
  | "b"%char => Some "008"%char
  | "f"%char => Some "012"%char
  | "n"%char => Some "010"%char
  | "r"%char => Some "013"%char
  | "t"%char => Some "009"%char
  | _ => None
  end.

(** [scanstring]: the string up to its closing quote, and what follows it. *)
Fixpoint scan_string (s : text) : option (text * text) :=
  match s with
  | [] => None
  | c :: r =>
      if Ascii.eqb c quote then Some ([], r)
      else if Ascii.eqb c "\" then
        match r with
        | [] => None
        | e :: r1 =>
            if Ascii.eqb e "u" then
              match r1 with
              | a :: b :: c :: d :: r2 =>
                  match hex4 a b c d with
                  | None => None
                  | Some hi =>
                      if is_high hi then
                        match r2 with
                        | b1 :: u1 :: a' :: b' :: c' :: d' :: r3 =>
                            if Ascii.eqb b1 "\" && Ascii.eqb u1 "u" then
                              match hex4 a' b' c' d' with
                              | None => None
                              | Some lo =>
                                  if is_low lo
                                  then put (utf8_encode (65536 + (hi - 55296) * 1024 + (lo - 56320))%N)
                                           (scan_string r3)
                                  else put (utf8_encode hi) (scan_string r2)
                              end
                            else put (utf8_encode hi) (scan_string r2)
                        | _ => put (utf8_encode hi) (scan_string r2)
                        end
                      else put (utf8_encode hi) (scan_string r2)
                  end
              | _ => None
              end
            else match unescape e with
                 | Some x => put [x] (scan_string r1)
                 | None => None
                 end
        end
      else if (N_of_ascii c <? 32)%N then None
      else put [c] (scan_string r)
  end.

(** ** Printing *)

Section dump.
Context (indent : option nat).

(** A new line at a level, where the output is indented. *)
Definition newline (level : nat) : text :=
  match indent with None => [] | Some n => nl :: replicate (n * level) " "%char end.

Definition separator (level : nat) : text :=
  match indent with None => [","; " "]%char | Some _ => ","%char :: newline level end.

Definition items (level : nat) (a b : ascii) (l : list text) : text :=
  match l with
  | [] => [a; b]
  | _ => a :: newline (S level) ++ PyParse.py_join (separator (S level)) l ++ newline level ++ [b]
  end.

Fixpoint dump_at (level : nat) (j : json) : text :=
  match j with
  | JNull => lit "null"
  | JBool true => lit "true"
  | JBool false => lit "false"
  | JInt n => Z_text n
  | JFloat t => t
  | JStr s => dump_str s
  | JList l => items level "[" "]" (map (dump_at (S level)) l)
  | JObj l => items level "{" "}"
                (map (λ x, dump_str x.1 ++ lit ": " ++ dump_at (S level) x.2) l)
  end.
End dump.

(** [json.dumps(j)], and the text [json.dump(j, f, indent=n)] writes *)
Definition json_dumps (j : json) : text := dump_at None 0 j.
Definition json_dump_indent (n : nat) (j : json) : text := dump_at (Some n) 0 j.

(** ** Reading *)

Definition is_ws (c : ascii) : bool :=
  match c with " "%char | "009"%char | "010"%char | "013"%char => true | _ => false end.

Fixpoint skip_ws (s : text) : text :=
  match s with
  | c :: r => if is_ws c then skip_ws r else s
  | [] => []
  end.

(** [(\.\d+)?] and [([eE][-+]?\d+)?] at a place: what they take, and the rest *)
Definition frac (s : text) : text * text :=
  match s with
  | "."%char :: r =>
      match read_uint r with
      | (Decimal.Nil, _) => ([], s)
      | (d, r') => ("."%char :: uint_text d, r')
      end
  | _ => ([], s)
  end.

Definition expo (s : text) : text * text :=
  match s with
  | e :: r =>
      if Ascii.eqb e "e" || Ascii.eqb e "E" then
        let (sign, r) := match r with
                         | c :: r' => if Ascii.eqb c "-" || Ascii.eqb c "+" then ([c], r') else ([], r)
                         | [] => ([], r)
                         end in
        match read_uint r with
        | (Decimal.Nil, _) => ([], s)
        | (d, r') => (e :: sign ++ uint_text d, r')
        end
      else ([], s)
  | [] => ([], s)
  end.

(** [0|[1-9]\d*]: a leading zero stands alone. *)
Definition int_part (s : text) : option (Decimal.uint * text) :=
  match s with
  | "0"%char :: r => Some (Decimal.D0 Decimal.Nil, r)
  | _ => match read_uint s with (Decimal.Nil, _) => None | x => Some x end
  end.

Definition number (neg : bool) (s : text) : option (json * text) :=
  match int_part s with
  | None => None
  | Some (d, r) =>
      let (f, r1) := frac r in
      let (e, r2) := expo r1 in
      match f ++ e with
      | [] => Some (JInt (Z.of_int (if neg then Decimal.Neg d else Decimal.Pos d)), r)
      | fe => Some (JFloat ((if neg then ["-"%char] else []) ++ uint_text d ++ fe), r2)
      end
  end.

(** A word at a place: the value it stands for. *)
Definition word (w : string) (j : json) (s : text) (other : option (json * text)) :
    option (json * text) :=
  match strip_prefix (lit w) s with Some r => Some (j, r) | None => other end.

(** [scan_once] without the bracketed values *)
Definition scalar (s : text) : option (json * text) :=
  match s with
  | [] => None
  | c :: r =>
      if Ascii.eqb c quote then
        match scan_string r with Some (t, r') => Some (JStr t, r') | None => None end
      else
        word "null" JNull s (word "true" (JBool true) s (word "false" (JBool false) s (
        word "NaN" (JFloat (lit "NaN")) s (word "Infinity" (JFloat (lit "Infinity")) s (
        word "-Infinity" (JFloat (lit "-Infinity")) s (
        if Ascii.eqb c "-" then number true r else number false s))))))
  end.

(** The text after a byte it starts with. *)
Definition take1 (c : ascii) (s : text) : option text :=
  match s with x :: r => if Ascii.eqb x c then Some r else None | [] => None end.

(** [scan_once], the loop of a list and the loop of an object; [acc] is what was read. *)
Fixpoint scan_value (n : nat) (s : text) : option (json * text) :=
  match n with
  | 0 => None
  | S n' =>
      match take1 "[" s, take1 "{" s with
      | Some r, _ =>
          match take1 "]" (skip_ws r) with
          | Some r' => Some (JList [], r')
          | None => scan_elements n' (skip_ws r) []
          end
      | _, Some r =>
          match take1 "}" (skip_ws r) with
          | Some r' => Some (JObj [], r')
          | None => scan_members n' (skip_ws r) []
          end
      | _, _ => scalar s
      end
  end
with scan_elements (n : nat) (s : text) (acc : list json) : option (json * text) :=
  match n with
  | 0 => None
  | S n' =>
      match scan_value n' s with
      | None => None
      | Some (j, r) =>
          match take1 "]" (skip_ws r), take1 "," (skip_ws r) with
          | Some r', _ => Some (JList (acc ++ [j]), r')
          | _, Some r' => scan_elements n' (skip_ws r') (acc ++ [j])
          | _, _ => None
          end
      end
  end
with scan_members (n : nat) (s : text) (acc : list (text * json)) : option (json * text) :=
  match n with
  | 0 => None
  | S n' =>
      match take1 quote s ≫= scan_string with
      | None => None
      | Some (k, r1) =>
          match take1 ":" (skip_ws r1) with
          | None => None
          | Some r2 =>
              match scan_value n' (skip_ws r2) with
              | None => None
              | Some (j, r3) =>
                  match take1 "}" (skip_ws r3), take1 "," (skip_ws r3) with
                  | Some r4, _ => Some (JObj (assign k j acc), r4)
                  | _, Some r4 => scan_members n' (skip_ws r4) (assign k j acc)
                  | _, _ => None
                  end
              end
          end
      end
  end.

Definition json_error : exn := ValueError "JSONDecodeError".

(** [json.loads(s)]; every second call takes a byte, so the fuel is enough. *)
Definition json_loads (s : text) : res json :=
  match scan_value (S (2 * length s)) (skip_ws s) with
  | Some (j, r) => match skip_ws r with [] => Ok j | _ => Raise json_error end
  | None => Raise json_error
  end.

Example loads_ex :
  json_loads (lit ")]}'
{\qa\q: [1, -2.5e3, \qx\\u2014\\n\q, null], \qb\q: {}, \qa\q: true}") = Raise json_error ∧
  json_loads (lit "
{\qa\q: [1, -2.5e3, \qx\\u2014\\n\q, null], \qb\q: {}, \qa\q: true}") =
    Ok (JObj [(lit "a", JBool true); (lit "b", JObj [])]) ∧
  json_loads (lit "[1, -2.5e3, \qx\\u2014\\n\q, null]") =
    Ok (JList [JInt 1; JFloat (lit "-2.5e3"); JStr (lit "x—
"); JNull]) ∧
  json_dumps (JList [JInt (-10); JStr (lit "x—
"); JObj [(lit "k", JList [])]]) = lit "[-10, \qx\\u2014\\n\q, {\qk\q: []}]" ∧
  json_dump_indent 1 (JObj [(lit "k", JList [JInt 1; JInt 2]); (lit "l", JNull)]) = lit "{
 \qk\q: [
  1,
  2
 ],
 \ql\q: null
}".
Proof. repeat split; vm_compute; reflexivity. Qed.

(** ** What is printed reads back *)

Section utf8.
Open Scope N_scope.

Definition cont (c : ascii) : bool := (128 <=? N_of_ascii c) && (N_of_ascii c <=? 191).

(** A byte that goes on with a character. *)
Definition in_char (c : ascii) : bool := cont c.

(** [s[:n]], which counts characters *)
Fixpoint take_chars (n : nat) (s : text) : text :=
  match s with
  | [] => []
  | c :: s' =>
      if in_char c then c :: take_chars n s'
      else match n with
           | O => []
           | S n' => c :: take_chars n' s'
           end
  end.

Definition surrogate (n : N) : bool := is_high n || is_low n.

(** The text is UTF-8: shortest forms, no surrogates, no code point above the last. *)
Fixpoint is_utf8 (s : text) : bool :=
  match s with
  | [] => true
  | c :: r =>
      let n := N_of_ascii c in
      if n <? 128 then is_utf8 r
      else match r with
        | c1 :: r1 =>
            if n <? 224 then (194 <=? n) && cont c1 && is_utf8 r1
            else match r1 with
                 | c2 :: r2 =>
                     if n <? 240
                     then let m := (n mod 16 * 64 + bits c1) * 64 + bits c2 in
                          cont c1 && cont c2 && (2048 <=? m) && negb (surrogate m) && is_utf8 r2
                     else match r2 with
                          | c3 :: r3 =>
                              let m := ((n mod 8 * 64 + bits c1) * 64 + bits c2) * 64 + bits c3 in
                              (n <? 248) && cont c1 && cont c2 && cont c3 && (65536 <=? m) &&
                              (m <? 1114112) && is_utf8 r3
                          | [] => false
                          end
                 | [] => false
                 end
        | [] => false
        end
  end.

End utf8.

(** Values of the texts and numbers that the scripts put together: strings, whole
    numbers, and objects with different keys. *)
Fixpoint plain (j : json) : bool :=
  match j with
  | JNull | JBool _ | JInt _ => true
  | JFloat _ => false
  | JStr s => is_utf8 s
  | JList l => forallb plain l
  | JObj l => bool_decide (NoDup l.*1) && forallb (λ x, is_utf8 x.1 && plain x.2) l
  end.

(** The fuel it takes to read a value. *)
Fixpoint cost (j : json) : nat :=
  match j with
  | JList l => S (sum_list_with (λ j, S (cost j)) l)
  | JObj l => S (sum_list_with (λ x, S (cost x.2)) l)
  | _ => 1
  end.

Section json_induction.
Context (P : json → Prop).
Context (Hnull : P JNull) (Hbool : ∀ b, P (JBool b)) (Hint : ∀ n, P (JInt n)).
Context (Hfloat : ∀ t, P (JFloat t)) (Hstr : ∀ s, P (JStr s)).
Context (Hlist : ∀ l, Forall P l → P (JList l)).
Context (Hobj : ∀ l, Forall (λ x, P x.2) l → P (JObj l)).

Lemma json_strong_ind : ∀ j, P j.
Proof using Type*.
  fix IH 1. intros [|b|n|t|s|l|l]; [done|done|done|done|done| |].
  - apply Hlist. induction l; constructor; auto.
  - apply Hobj. induction l as [|[k j] l IHl]; constructor; auto.
Qed.
End json_induction.

Section strings.
Open Scope N_scope.

Lemma byte_of c n : n = N_of_ascii c → byte n = c.
Proof. intros ->. apply ascii_N_embedding. Qed.

Lemma hex_digit_value n : n < 16 → hex_value (hex_digit n) = Some n.
Proof. intros H. do 16 (destruct n as [|n] using N.peano_ind; [reflexivity|]; clear IHn). lia. Qed.

Ltac nsolve := zify; Z.to_euclidean_division_equations; lia.

Lemma hex4_escape n :
  n < 65536 →
  hex4 (hex_digit (n / 4096 mod 16)) (hex_digit (n / 256 mod 16)) (hex_digit (n / 16 mod 16))
    (hex_digit (n mod 16)) = Some n.
Proof.
  intros H. unfold hex4. rewrite !hex_digit_value by (apply N.mod_lt; lia). f_equal.
  nsolve.
Qed.

Lemma scan_unit n r :
  n < 65536 → is_high n = false →
  scan_string (u_escape n ++ r) = put (utf8_encode n) (scan_string r).
Proof.
  intros Hn Hh. unfold u_escape. cbn [app scan_string]. cbn [Ascii.eqb quote Bool.eqb].
  by rewrite hex4_escape, Hh.
Qed.

Lemma scan_pair hi lo r :
  is_high hi = true → is_low lo = true →
  scan_string (u_escape hi ++ u_escape lo ++ r) =
    put (utf8_encode (65536 + (hi - 55296) * 1024 + (lo - 56320))) (scan_string r).
Proof.
  intros Hh Hl. unfold u_escape. cbn [app scan_string]. cbn [Ascii.eqb quote Bool.eqb andb].
  unfold is_high, is_low in *. rewrite !hex4_escape by lia. unfold is_high, is_low. by rewrite Hh, Hl.
Qed.

Lemma scan_escapes n r :
  n < 1114112 → surrogate n = false →
  scan_string (u_escapes n ++ r) = put (utf8_encode n) (scan_string r).
Proof.
  intros Hn [Hh Hl]%orb_false_iff. unfold u_escapes. destruct (N.ltb_spec n 65536).
  { by apply scan_unit. }
  rewrite <-app_assoc, scan_pair.
  - f_equal. f_equal. nsolve.
  - unfold is_high. nsolve.
  - unfold is_low. nsolve.
Qed.

Lemma encode2 c c1 :
  194 <= N_of_ascii c < 224 → cont c1 = true →
  utf8_encode (N_of_ascii c mod 32 * 64 + bits c1) = [c; c1].
Proof.
  unfold cont, bits. intros Hc H1. unfold utf8_encode.
  destruct (N.ltb_spec (N_of_ascii c mod 32 * 64 + N_of_ascii c1 mod 64) 128); [nsolve|].
  destruct (N.ltb_spec (N_of_ascii c mod 32 * 64 + N_of_ascii c1 mod 64) 2048); [|nsolve].
  f_equal; [|f_equal]; apply byte_of; nsolve.
Qed.

Lemma encode3 c c1 c2 :
  let m := (N_of_ascii c mod 16 * 64 + bits c1) * 64 + bits c2 in
  224 <= N_of_ascii c < 240 → cont c1 = true → cont c2 = true → 2048 <= m →
  m < 65536 ∧ utf8_encode m = [c; c1; c2].
Proof.
  unfold cont, bits. cbv zeta. intros Hc H1 H2 Hm. split; [nsolve|]. unfold utf8_encode.
  match goal with |- context [?m <? 128] => destruct (N.ltb_spec m 128); [lia|] end.
  match goal with |- context [?m <? 2048] => destruct (N.ltb_spec m 2048); [lia|] end.
  match goal with |- context [?m <? 65536] => destruct (N.ltb_spec m 65536); [|nsolve] end.
  f_equal; [|f_equal; [|f_equal]]; apply byte_of; nsolve.
Qed.

Lemma encode4 c c1 c2 c3 :
  let m := ((N_of_ascii c mod 8 * 64 + bits c1) * 64 + bits c2) * 64 + bits c3 in
  240 <= N_of_ascii c < 248 → cont c1 = true → cont c2 = true → cont c3 = true → 65536 <= m →
  utf8_encode m = [c; c1; c2; c3].
Proof.
  unfold cont, bits. cbv zeta. intros Hc H1 H2 H3 Hm. unfold utf8_encode.
  match goal with |- context [?m <? 128] => destruct (N.ltb_spec m 128); [lia|] end.
  match goal with |- context [?m <? 2048] => destruct (N.ltb_spec m 2048); [lia|] end.
  match goal with |- context [?m <? 65536] => destruct (N.ltb_spec m 65536); [lia|] end.
  f_equal; [|f_equal; [|f_equal; [|f_equal]]]; apply byte_of; nsolve.
Qed.

Lemma esc_ascii_read c r :
  (N_of_ascii c <? 128)%N = true →
  scan_string (esc_ascii c ++ r) = put [c] (scan_string r).
Proof.
  destruct c as [[] [] [] [] [] [] [] []]; intros H; vm_compute in H; try discriminate H;
    reflexivity.
Qed.

Lemma scan_esc s r : is_utf8 s = true → scan_string (esc s ++ quote :: r) = Some (s, r).
Proof.
  induction s as [s IH] using (induction_ltof1 _ (@length ascii)); unfold ltof in IH.
  destruct s as [|c s]; [done|]. cbn [is_utf8 esc].
  destruct (N.ltb_spec (N_of_ascii c) 128) as [Hc|Hc].
  { intros Hs. rewrite <-app_assoc, esc_ascii_read by (by apply N.ltb_lt). by rewrite IH by (done || cbn; lia). }
  destruct s as [|c1 s]; [done|]. destruct (N.ltb_spec (N_of_ascii c) 224) as [Hc'|Hc'].
  { intros [[H0%N.leb_le H1]%andb_true_iff Hs]%andb_true_iff. pose proof (encode2 c c1 ltac:(lia) H1) as He.
    rewrite <-app_assoc, scan_escapes, He, IH; [done|cbn; lia|done| |];
      unfold surrogate, is_high, is_low, bits in *; nsolve. }
  destruct s as [|c2 s]; [done|].
  destruct (N.ltb_spec (N_of_ascii c) 240) as [Hd|Hd].
  { intros [[[[H1 H2]%andb_true_iff Hm%N.leb_le]%andb_true_iff Hsur%negb_true_iff]%andb_true_iff
             Hs]%andb_true_iff.
    destruct (encode3 c c1 c2 ltac:(lia) H1 H2 Hm) as [Hlt He].
    rewrite <-app_assoc, scan_escapes, He, IH; [done|cbn; lia|done|lia|exact Hsur]. }
  destruct s as [|c3 s]; [done|].
  intros [[[[[[H0%N.ltb_lt H1]%andb_true_iff H2]%andb_true_iff H3]%andb_true_iff
     Hm%N.leb_le]%andb_true_iff Hlt%N.ltb_lt]%andb_true_iff Hs]%andb_true_iff.
  pose proof (encode4 c c1 c2 c3 ltac:(lia) H1 H2 H3 Hm) as He.
  rewrite <-app_assoc, scan_escapes, He, IH; [done|cbn; lia|done|exact Hlt|].
  unfold surrogate, is_high, is_low. lia.
Qed.
End strings.

Section numbers.
Lemma digit_head c r : is_digit c = false → read_uint (c :: r) = (Decimal.Nil, c :: r).
Proof. destruct c as [[] [] [] [] [] [] [] []]; intros H; (discriminate H || done). Qed.

Lemma read_uint_text d r : stops is_digit r = true → read_uint (uint_text d ++ r) = (d, r).
Proof.
  intros Hr. induction d as [|d IH|d IH|d IH|d IH|d IH|d IH|d IH|d IH|d IH|d IH];
    [|cbn; by rewrite IH..].
  destruct r as [|c r]; [done|]. by apply digit_head, negb_true_iff.
Qed.

(** No number goes on with this text. *)
Definition ends_number (r : text) : bool :=
  match r with
  | [] => true
  | c :: _ => negb (is_digit c || Ascii.eqb c "." || Ascii.eqb c "e" || Ascii.eqb c "E")
  end.

Lemma ends_number_spec r :
  ends_number r = true → stops is_digit r = true ∧ frac r = ([], r) ∧ expo r = ([], r).
Proof.
  destruct r as [|c r]; [done|]. unfold ends_number, stops, expo.
  rewrite negb_true_iff, !orb_false_iff. intros [[[-> Hd] ->] ->]. split_and!; [done| |done].
  destruct c as [[] [] [] [] [] [] [] []]; done.
Qed.

(** A number in normal form: no leading zero but that of 0. *)
Lemma int_part_text d r :
  ends_number r = true → d ≠ Decimal.Nil → Decimal.unorm d = d →
  int_part (uint_text d ++ r) = Some (d, r).
Proof.
  intros (Hr & _)%ends_number_spec Hd Hn. pose proof (read_uint_text d r Hr) as Hu.
  destruct d as [|d|d|d|d|d|d|d|d|d|d]; [done| |unfold int_part; rewrite Hu; done..].
  assert (d = Decimal.Nil) as ->; [|done].
  unfold Decimal.unorm in Hn. cbn [Decimal.nzhead] in Hn.
  destruct (Decimal.nzhead d) as [|x| | | | | | | | |] eqn:E; simplify_eq; [done|].
  by apply DecimalFacts.nzhead_nonzero in E.
Qed.

Lemma number_text neg d r :
  ends_number r = true → d ≠ Decimal.Nil → Decimal.unorm d = d →
  number neg (uint_text d ++ r) =
  Some (JInt (Z.of_int (if neg then Decimal.Neg d else Decimal.Pos d)), r).
Proof.
  intros Hr Hd Hn. unfold number. rewrite int_part_text by done.
  apply ends_number_spec in Hr as (_ & -> & ->). done.
Qed.

Lemma uint_text_head d : d ≠ Decimal.Nil → ∃ c r, uint_text d = c :: r ∧ is_digit c = true.
Proof. destruct d; [done|..]; eauto. Qed.
End numbers.

Section reading.
Context (ind : option nat).

Lemma skip_blank w s : forallb is_ws w = true → skip_ws (w ++ s) = skip_ws s.
Proof. induction w as [|c w IH]; [done|]. intros [Hc Hw]%andb_true_iff. cbn. rewrite Hc. auto. Qed.

Lemma newline_blank k : forallb is_ws (newline ind k) = true.
Proof.
  unfold newline. destruct ind as [n|]; [|done]. cbn.
  induction (n * k) as [|m IH]; [done|exact IH].
Qed.

Lemma separator_shape k : ∃ w, separator ind k = ","%char :: w ∧ forallb is_ws w = true.
Proof.
  pose proof (newline_blank k) as H. unfold separator.
  destruct ind; eexists; (split; [reflexivity|]); [exact H|done].
Qed.

(** A byte a value can start with. *)
Definition starts_value (c : ascii) : bool :=
  negb (is_ws c || Ascii.eqb c "]" || Ascii.eqb c "}" || Ascii.eqb c ",").

Definition value_head (s : text) : Prop := ∃ c r, s = c :: r ∧ starts_value c = true.

Lemma value_head_skip s t : value_head s → skip_ws (s ++ t) = s ++ t.
Proof.
  intros (c & r & -> & H). unfold starts_value in H.
  rewrite negb_true_iff, !orb_false_iff in H. destruct H as [[[H _] _] _]. cbn. by rewrite H.
Qed.

Lemma value_head_take s t :
  value_head s → take1 "]" (s ++ t) = None ∧ take1 "}" (s ++ t) = None.
Proof.
  intros (c & r & -> & H). unfold starts_value in H.
  rewrite negb_true_iff, !orb_false_iff in H. destruct H as [[[_ H1] H2] _].
  cbn. by rewrite H1, H2.
Qed.

Lemma digit_starts c : is_digit c = true → starts_value c = true.
Proof. destruct c as [[] [] [] [] [] [] [] []]; intros H; (discriminate H || done). Qed.

Lemma Z_int n :
  ∃ d, d ≠ Decimal.Nil ∧ Decimal.unorm d = d ∧
    ((Z.to_int n = Decimal.Pos d ∧ Z_text n = uint_text d) ∨
     (Z.to_int n = Decimal.Neg d ∧ Z_text n = "-"%char :: uint_text d)).
Proof.
  assert (Decimal.norm (Z.to_int n) = Z.to_int n) as Hn.
  { by rewrite <-DecimalZ.to_of, DecimalZ.of_to. }
  unfold Z_text. destruct (Z.to_int n) as [d|d]; exists d; cbn in Hn.
  - injection Hn as Hn. split_and!; [|done|auto]. intros ->. done.
  - unfold Decimal.unorm. destruct (Decimal.nzhead d) eqn:E; simplify_eq; naive_solver.
Qed.

Lemma dump_head l j : plain j = true → value_head (dump_at ind l j).
Proof.
  assert (∀ a b k ts, starts_value a = true → value_head (items ind k a b ts)) as Hi.
  { intros a b k [|t ts] Ha; unfold items; eexists _, _; done. }
  destruct j as [|[]|n|t|s|js|js]; intros Hp; try discriminate Hp;
    try (eexists _, _; split; reflexivity).
  - destruct (Z_int n) as (d & Hd & _ & [[_ E]|[_ E]]); cbn; rewrite E; [|by eexists _, _].
    destruct (uint_text_head d Hd) as (c & r & -> & Hc). eexists _, _.
    split; [done|by apply digit_starts].
  - by apply Hi.
  - by apply Hi.
Qed.

Lemma word_other w j c s other :
  head (lit w) ≠ Some c → lit w ≠ [] → word w j (c :: s) other = other.
Proof.
  intros Hc Hn. unfold word. destruct (lit w) as [|x l]; [done|]. cbn.
  destruct (Ascii.eqb_spec x c) as [->|]; done.
Qed.

Lemma scalar_digit c s : is_digit c = true → scalar (c :: s) = number false (c :: s).
Proof. destruct c as [[] [] [] [] [] [] [] []]; intros H; (discriminate H || done). Qed.

Lemma scalar_minus c s : is_digit c = true → scalar ("-"%char :: c :: s) = number true (c :: s).
Proof. destruct c as [[] [] [] [] [] [] [] []]; intros H; (discriminate H || done). Qed.

Lemma scalar_int n r : ends_number r = true → scalar (Z_text n ++ r) = Some (JInt n, r).
Proof.
  intros Hr. rewrite <-(DecimalZ.of_to n) at 2.
  destruct (Z_int n) as (d & Hd & Hu & [[-> ->]|[-> ->]]);
    destruct (uint_text_head d Hd) as (c & t & E & Hc).
  - rewrite E. cbn [app]. rewrite scalar_digit by done. change (c :: t ++ r) with ((c :: t) ++ r).
    rewrite <-E. by apply number_text.
  - rewrite E. cbn [app]. rewrite scalar_minus by done. change (c :: t ++ r) with ((c :: t) ++ r).
    rewrite <-E. by apply number_text.
Qed.

Lemma ends_ws w c r :
  forallb is_ws w = true → ends_number (c :: r) = true → ends_number (w ++ c :: r) = true.
Proof.
  destruct w as [|x w]; [done|]. intros [Hx _]%andb_true_iff _. revert Hx.
  destruct x as [[] [] [] [] [] [] [] []]; intros H; (discriminate H || done).
Qed.

Lemma skip_newline k c r : is_ws c = false → skip_ws (newline ind k ++ c :: r) = c :: r.
Proof. intros Hc. rewrite skip_blank by apply newline_blank. cbn. by rewrite Hc. Qed.

(** [j] is read back at every level, whatever follows it. *)
Definition reads (j : json) : Prop :=
  ∀ n l r, cost j ≤ n → ends_number r = true → scan_value n (dump_at ind l j ++ r) = Some (j, r).

Lemma value_head_app s t : value_head s → value_head (s ++ t).
Proof. intros (c & r & -> & H). by eexists _, _. Qed.

Lemma value_head_join sep s ts : value_head s → value_head (PyParse.py_join sep (s :: ts)).
Proof. destruct ts; [done|]. apply value_head_app. Qed.

(** What follows a value in a list or an object. *)
Lemma after_last b k r :
  is_ws b = false → ends_number [b] = true →
  ends_number (newline ind k ++ b :: r) = true ∧ take1 b (skip_ws (newline ind k ++ b :: r)) = Some r.
Proof.
  intros Hb He. split; [apply ends_ws; [apply newline_blank|exact He]|].
  rewrite skip_newline by done. cbn. by rewrite Ascii.eqb_refl.
Qed.

Lemma after_more b l s r :
  Ascii.eqb "," b = false → value_head s →
  ∃ t, separator ind l ++ s ++ r = ","%char :: t ∧ skip_ws t = s ++ r ∧
    take1 b (skip_ws (","%char :: t)) = None ∧ take1 "," (skip_ws (","%char :: t)) = Some t.
Proof.
  intros Hb Hs. destruct (separator_shape l) as (w & -> & Hw). exists (w ++ s ++ r).
  split; [done|]. rewrite skip_blank by done. split; [by apply value_head_skip|].
  change (skip_ws (","%char :: w ++ s ++ r)) with (","%char :: w ++ s ++ r).
  cbn [take1]. by rewrite Hb.
Qed.

Lemma elements_read js n l k r acc :
  js ≠ [] → Forall (λ j, plain j = true) js → Forall reads js →
  sum_list_with (λ j, S (cost j)) js ≤ n →
  scan_elements n (PyParse.py_join (separator ind l) (map (dump_at ind l) js)
              ++ newline ind k ++ "]"%char :: r) acc = Some (JList (acc ++ js), r).
Proof.
  revert n acc. induction js as [|j js IH]; intros n acc Hne Hp Hr Hn; [done|].
  inversion Hp as [|?? Hpj Hps]; inversion Hr as [|?? Hrj Hrs]; subst. cbn in Hn.
  destruct n as [|n]; [lia|]. destruct js as [|j' js].
  - destruct (after_last "]" k r) as [He Ht]; [done..|].
    cbn [map PyParse.py_join scan_elements]. by rewrite Hrj, Ht by (done || lia).
  - inversion Hps as [|?? Hpj' _]; subst.
    destruct (after_more "]" l (PyParse.py_join (separator ind l) (map (dump_at ind l) (j' :: js)))
      (newline ind k ++ "]"%char :: r)) as (t & Ht & Hsk & H1 & H2); [done| |].
    { by apply value_head_join, dump_head. }
    change (PyParse.py_join (separator ind l) (map (dump_at ind l) (j :: j' :: js))) with
      (dump_at ind l j ++ separator ind l ++
        PyParse.py_join (separator ind l) (map (dump_at ind l) (j' :: js))).
    rewrite <-!app_assoc, Ht. cbn [scan_elements]. rewrite Hrj, H1, H2, Hsk by (done || lia).
    rewrite IH by (done || lia). by rewrite <-app_assoc.
Qed.

Definition obj_entry (l : nat) (x : text * json) : text :=
  dump_str x.1 ++ lit ": " ++ dump_at ind l x.2.

Lemma entry_read x n l r :
  is_utf8 x.1 = true → plain x.2 = true → reads x.2 → cost x.2 ≤ n → ends_number r = true →
  ∃ r1 r2, take1 quote (obj_entry l x ++ r) ≫= scan_string = Some (x.1, r1) ∧
    take1 ":" (skip_ws r1) = Some r2 ∧ scan_value n (skip_ws r2) = Some (x.2, r).
Proof.
  intros Hk Hp Hr Hn He. unfold obj_entry, dump_str.
  exists (lit ": " ++ dump_at ind l x.2 ++ r), (" "%char :: dump_at ind l x.2 ++ r).
  split_and!; [|done|].
  - cbn [app take1]. rewrite Ascii.eqb_refl. cbn. rewrite <-!app_assoc. by apply scan_esc.
  - change (" "%char :: dump_at ind l x.2 ++ r) with ([" "%char] ++ dump_at ind l x.2 ++ r).
    rewrite skip_blank, value_head_skip by (done || by apply dump_head). by apply Hr.
Qed.

Lemma members_read xs n l k r acc :
  xs ≠ [] → Forall (λ x, is_utf8 x.1 = true ∧ plain x.2 = true) xs →
  Forall (λ x, reads x.2) xs → NoDup (acc ++ xs).*1 →
  sum_list_with (λ x, S (cost x.2)) xs ≤ n →
  scan_members n (PyParse.py_join (separator ind l) (map (obj_entry l) xs)
             ++ newline ind k ++ "}"%char :: r) acc = Some (JObj (acc ++ xs), r).
Proof.
  revert n acc. induction xs as [|x xs IH]; intros n acc Hne Hp Hr Hd Hn; [done|].
  inversion Hp as [|?? [Hk Hpj] Hps]; inversion Hr as [|?? Hrj Hrs]; subst. cbn in Hn.
  assert (assign x.1 x.2 acc = acc ++ [x]) as Has.
  { rewrite assign_new; [by destruct x|]. rewrite fmap_app, NoDup_app in Hd.
    intros Hin. destruct Hd as (_ & Hd & _). apply (Hd _ Hin). by left. }
  rewrite cons_middle, app_assoc in Hd. destruct n as [|n]; [lia|]. destruct xs as [|y xs].
  - destruct (after_last "}" k r) as [He Ht]; [done..|].
    destruct (entry_read x n l _ Hk Hpj Hrj ltac:(lia) He) as (r1 & r2 & E1 & E2 & E3).
    cbn [map PyParse.py_join scan_members]. by rewrite E1, E2, E3, Ht, Has.
  - destruct (after_more "}" l (PyParse.py_join (separator ind l) (map (obj_entry l) (y :: xs)))
      (newline ind k ++ "}"%char :: r)) as (t & Ht & Hsk & H1 & H2); [done| |].
    { apply value_head_join. by eexists _, _. }
    change (PyParse.py_join (separator ind l) (map (obj_entry l) (x :: y :: xs))) with
      (obj_entry l x ++ separator ind l ++ PyParse.py_join (separator ind l) (map (obj_entry l) (y :: xs))).
    rewrite <-!app_assoc, Ht.
    destruct (entry_read x n l (","%char :: t) Hk Hpj Hrj ltac:(lia) ltac:(done))
      as (r1 & r2 & E1 & E2 & E3).
    cbn [scan_members]. rewrite E1, E2, E3, H1, H2, Hsk, Has, IH by (done || lia).
    by rewrite <-app_assoc.
Qed.

Lemma value_scalar n c t :
  Ascii.eqb c "[" = false → Ascii.eqb c "{" = false → scan_value (S n) (c :: t) = scalar (c :: t).
Proof. intros H1 H2. cbn [scan_value take1]. by rewrite H1, H2. Qed.

Lemma value_list n s :
  take1 "]" (skip_ws s) = None → scan_value (S n) ("["%char :: s) = scan_elements n (skip_ws s) [].
Proof. intros H. change (scan_value (S n) ("["%char :: s)) with
  (match take1 "]" (skip_ws s) with Some r => Some (JList [], r) | None => scan_elements n (skip_ws s) [] end).
  by rewrite H. Qed.

Lemma value_obj n s :
  take1 "}" (skip_ws s) = None → scan_value (S n) ("{"%char :: s) = scan_members n (skip_ws s) [].
Proof. intros H. change (scan_value (S n) ("{"%char :: s)) with
  (match take1 "}" (skip_ws s) with Some r => Some (JObj [], r) | None => scan_members n (skip_ws s) [] end).
  by rewrite H. Qed.

Lemma value_int n z r : ends_number r = true → scan_value (S n) (Z_text z ++ r) = Some (JInt z, r).
Proof.
  intros He. rewrite <-(scalar_int z r He).
  destruct (Z_int z) as (d & Hd & _ & [[_ ->]|[_ ->]]); [|done].
  destruct (uint_text_head d Hd) as (c & t & -> & Hc).
  apply value_scalar; revert Hc;
    destruct c as [[] [] [] [] [] [] [] []]; intros H; (discriminate H || done).
Qed.

Lemma items_open l a b t ts r :
  items ind l a b (t :: ts) ++ r =
  a :: newline ind (S l) ++ PyParse.py_join (separator ind (S l)) (t :: ts)
       ++ newline ind l ++ b :: r.
Proof. unfold items. cbn [app]. by rewrite <-!app_assoc. Qed.

(** Inside the brackets: a value comes first. *)
Lemma inside l b t ts r :
  value_head t → let s := PyParse.py_join (separator ind (S l)) (t :: ts) ++ newline ind l ++ b :: r in
  skip_ws (newline ind (S l) ++ s) = s ∧ take1 "]" s = None ∧ take1 "}" s = None.
Proof.
  intros Ht s. pose proof (value_head_join (separator ind (S l)) t ts Ht) as Hj. subst s.
  rewrite skip_blank by apply newline_blank. rewrite value_head_skip by done.
  split; [done|]. by apply value_head_take.
Qed.

Lemma dump_reads j : plain j = true → reads j.
Proof.
  induction j as [|b|z|t|s|js IH|xs IH] using json_strong_ind; intros Hp n l r Hn He.
  all: destruct n as [|n]; [cbn in Hn; lia|].
  - done.
  - by destruct b.
  - by apply value_int.
  - done.
  - cbn [dump_at]. unfold dump_str. cbn [app]. rewrite value_scalar by done.
    cbn [scalar]. rewrite Ascii.eqb_refl, <-app_assoc. cbn [app]. by rewrite scan_esc.
  - destruct js as [|j js]; [done|].
    assert (Forall (λ j, plain j = true) (j :: js)) as Hps.
    { apply Forall_forall. intros x Hx. cbn [plain] in Hp. rewrite forallb_forall in Hp.
      by apply Hp, list_elem_of_In. }
    assert (Forall reads (j :: js)) as Hrs.
    { rewrite Forall_forall in IH, Hps |- *. intros y Hy. apply IH; [done|]. by apply Hps. }
    pose proof (Forall_inv Hps) as Hj.
    destruct (inside l "]" (dump_at ind (S l) j) (map (dump_at ind (S l)) js) r) as (E1 & E2 & _);
      [by apply dump_head|].
    change (dump_at ind l (JList (j :: js))) with
      (items ind l "[" "]" (dump_at ind (S l) j :: map (dump_at ind (S l)) js)).
    rewrite items_open, value_list; rewrite E1; [|exact E2].
    apply (elements_read (j :: js)); [done..|]. cbn in Hn |- *. lia.
  - destruct xs as [|x xs]; [done|].
    cbn [plain] in Hp. apply andb_true_iff in Hp as [Hd Hp]. apply bool_decide_eq_true in Hd.
    assert (Forall (λ x, is_utf8 x.1 = true ∧ plain x.2 = true) (x :: xs)) as Hps.
    { apply Forall_forall. intros y Hy. rewrite forallb_forall in Hp.
      by apply andb_true_iff, Hp, list_elem_of_In. }
    assert (Forall (λ x, reads x.2) (x :: xs)) as Hrs.
    { rewrite Forall_forall in IH, Hps |- *. intros y Hy. apply IH; [done|]. by apply Hps. }
    destruct (inside l "}" (obj_entry (S l) x) (map (obj_entry (S l)) xs) r) as (E1 & _ & E2);
      [by eexists _, _|].
    change (dump_at ind l (JObj (x :: xs))) with
      (items ind l "{" "}" (obj_entry (S l) x :: map (obj_entry (S l)) xs)).
    rewrite items_open, value_obj; rewrite E1; [|exact E2].
    apply (members_read (x :: xs)); [done..|]. cbn in Hn |- *. lia.
Qed.
End reading.

(** ** The fuel is enough *)

Section fuel.
Context (ind : option nat).

Lemma join_length sep ts :
  sep ≠ [] → sum_list_with (λ t, S (length t)) ts ≤ S (length (PyParse.py_join sep ts)).
Proof.
  intros Hs. induction ts as [|t [|t' ts] IH]; [cbn; lia|cbn; lia|].
  change (PyParse.py_join sep (t :: t' :: ts)) with (t ++ sep ++ PyParse.py_join sep (t' :: ts)).
  rewrite !length_app. cbn [sum_list_with] in *. destruct sep; [done|]. cbn [length]. lia.
Qed.

Lemma items_length k a b ts :
  1 + sum_list_with (λ t, S (2 * length t)) ts ≤ 2 * length (items ind k a b ts).
Proof.
  destruct ts as [|t ts]; [cbn; lia|]. unfold items. cbn [length]. rewrite !length_app. cbn [length].
  assert (separator ind (S k) ≠ []) as Hs by (destruct (separator_shape ind (S k)) as (? & -> & _); done).
  pose proof (join_length _ (t :: ts) Hs) as Hj.
  assert (∀ us : list text, sum_list_with (λ t, S (2 * length t)) us ≤
    2 * sum_list_with (λ t, S (length t)) us) as Hd 
    by (induction us; cbn [sum_list_with]; lia).
  specialize (Hd (t :: ts)). lia.
Qed.

Lemma sum_map_le {A} (f : A → text) (g : A → nat) l :
  Forall (λ x, g x ≤ 2 * length (f x)) l →
  sum_list_with (λ x, S (g x)) l ≤ sum_list_with (λ t, S (2 * length t)) (map f l).
Proof. induction 1; cbn [map sum_list_with]; lia. Qed.

Lemma dump_cost l j : plain j = true → cost j ≤ 2 * length (dump_at ind l j).
Proof.
  assert (∀ l j, plain j = true → 1 ≤ length (dump_at ind l j)) as Hpos.
  { intros l' j' Hp. destruct (dump_head ind l' j' Hp) as (c & r & -> & _). cbn. lia. }
  revert l. induction j as [|b|z|t|s|js IH|xs IH] using json_strong_ind; intros l Hp;
    try (specialize (Hpos l _ Hp); cbn [cost]; lia).
  - cbn [cost dump_at]. etrans; [|apply items_length]. apply le_n_S, sum_map_le.
    rewrite Forall_forall in IH |- *. cbn [plain] in Hp. rewrite forallb_forall in Hp.
    intros j Hj. apply IH; [done|]. by apply Hp, list_elem_of_In.
  - cbn [cost dump_at]. etrans; [|apply items_length]. apply le_n_S, sum_map_le.
    rewrite Forall_forall in IH |- *. cbn [plain] in Hp. apply andb_true_iff in Hp as [_ Hp].
    rewrite forallb_forall in Hp. intros x Hx. rewrite !length_app.
    assert (cost x.2 ≤ 2 * length (dump_at ind (S l) x.2)); [|lia].
    apply IH; [done|]. eapply andb_true_iff, Hp, list_elem_of_In, Hx.
Qed.
End fuel.

(** Compact or indented, and after blanks, what is printed reads back. *)
Lemma loads_dump ind w j :
  forallb is_ws w = true → plain j = true → json_loads (w ++ dump_at ind 0 j) = Ok j.
Proof.
  intros Hw Hp. unfold json_loads. rewrite skip_blank by done.
  pose proof (value_head_skip (dump_at ind 0 j) [] (dump_head ind 0 j Hp)) as Hs.
  rewrite app_nil_r in Hs. rewrite Hs. rewrite <-(app_nil_r (dump_at ind 0 j)) at 2.
  rewrite (dump_reads ind j Hp _ 0 []); [done| |done].
  pose proof (dump_cost ind 0 j Hp). rewrite length_app. lia.
Qed.
