(* ===== verification/Replies.v ===== *)
(** Replies to review comments: post_replies.py of the rounds a-1007 to a-1019, which
    post a table of replies into their threads, and replies-r3.py of round 3, which
    drafts them as files.  The web server ([urlopen]) and the ssh command ([ssh]) are
    parameters; what is printed and what is posted is the state. *)
From stdpp Require Export sorting.
From S2P Require Import Prelude PyStr PyParse PyRe PyRegex Json.
From S2P Require R3Engine.

(** ** JSON values as Python objects *)

Definition jget (k : string) (j : json) : res json :=
  match j with
  | JObj l => match dict_find (lit k) l with Some v => Ok v | None => Raise (KeyError k) end
  | _ => Raise (TypeError "indices must be integers")
  end.

(** [k in j], for an object *)
Definition jhas (k : string) (j : json) : bool :=
  match j with
  | JObj l => match dict_find (lit k) l with Some _ => true | None => false end
  | _ => false
  end.

(** [j.items()] *)
Definition jitems (j : json) : res (list (text * json)) :=
  match j with JObj l => Ok l | _ => Raise (AttributeError "items") end.

(** [for x in j] *)
Definition jiter (j : json) : res (list json) :=
  match j with
  | JList l => Ok l
  | JObj l => Ok (map (λ x, JStr x.1) l)
  | JStr s => Ok (map (λ c, JStr [c]) s)
  | _ => Raise (TypeError "not iterable")
  end.

(** A value used as an integer: by [%d], as a patch set. *)
Definition jint (j : json) : res Z :=
  match j with JInt n => Ok n | _ => Raise (TypeError "%d format: a number is required") end.

Fixpoint foldM {A B} (f : B → A → res B) (l : list A) (b : B) : res B :=
  match l with
  | [] => Ok b
  | a :: l' => let! b' := f b a in foldM f l' b'
  end.

(** ** Threads and grouping *)

(** The comments of a change by id: the path of each and the comment. *)
Abbreviation threads := (gmap text (text * json)).

(** [roots[c['id']] = (path, c)]; a key that is not a string is never looked up. *)
Definition add_root (path : text) (roots : threads) (c : json) : res threads :=
  let! id := jget "id" c in
  match id with
  | JStr t => Ok (<[t := (path, c)]> roots)
  | JList _ | JObj _ => Raise (TypeError "unhashable type")
  | _ => Ok roots
  end.

Definition add_path (roots : threads) (x : text * json) : res threads :=
  let! cs := jiter x.2 in foldM (add_root x.1) cs roots.

Definition all_roots (comments : json) : res threads :=
  let! paths := jitems comments in foldM add_path paths ∅.

(** [roots[cid]] *)
Definition root_of (roots : threads) (cid : text) : res (text * json) :=
  match roots !! cid with
  | Some x => Ok x
  | None => Raise (KeyError (String.string_of_list_ascii cid))
  end.

(** The replies by patch set and path, in the order of insertion. *)
Abbreviation by_path := (list (text * list json)).
Abbreviation by_ps := (list (Z * by_path)).

(** [byps.setdefault(ps, {}).setdefault(path, []).append(rep)] *)
Definition add_reply (ps : Z) (path : text) (rep : json) (d : by_ps) : by_ps :=
  let comments := default [] (dict_find ps d) in
  let reps := default [] (dict_find path comments) in
  assign ps (assign path (reps ++ [rep]) comments) d.

Definition ps_le (x y : Z * by_path) : Prop := (x.1 ≤ y.1)%Z.
#[export] Instance ps_le_dec : RelDecision ps_le := λ x y, decide (x.1 ≤ y.1)%Z.

(** [sorted(byps.items())]: the keys are different, so only they are compared. *)
Definition sorted_ps (d : by_ps) : by_ps := merge_sort ps_le d.

(** [sum(map(len, comments.values()))] *)
Definition count (comments : by_path) : nat := sum_list_with (λ x, length x.2) comments.

Definition review_body (comments : by_path) : json :=
  JObj [(lit "tag", JStr (lit "review-reply")); (lit "notify", JStr (lit "OWNER"));
        (lit "comments", JObj (map (λ x, (x.1, JList x.2)) comments))].

(** ** a-1007 to a-1013 *)

Record reply_row := Reply {
  r_change : Z;
  r_cid : text;
  r_msg : text;
  r_resolved : bool;
}.

Definition make_reply (r : reply_row) (c : json) : res json :=
  let rep := [(lit "in_reply_to", JStr (r_cid r)); (lit "message", JStr (r_msg r));
              (lit "unresolved", JBool (negb (r_resolved r)))] in
  if jhas "range" c then
    let! range := jget "range" c in
    let! e := jget "end_line" range in
    Ok (JObj (rep ++ [(lit "range", range); (lit "line", e)]))
  else if jhas "line" c then
    let! l := jget "line" c in Ok (JObj (rep ++ [(lit "line", l)]))
  else Ok (JObj rep).

(** One row of the table, for the change at hand. *)
Definition group_row (change : Z) (roots : threads) (d : by_ps) (r : reply_row) : res by_ps :=
  if negb (r_change r =? change)%Z then Ok d
  else
    let! pc := root_of roots (r_cid r) in
    let! rep := make_reply r pc.2 in
    let! p := jget "patch_set" pc.2 in
    let! ps := jint p in
    Ok (add_reply ps pc.1 rep d).

Definition group_rows (R : list reply_row) (change : Z) (roots : threads) : res by_ps :=
  foldM (group_row change roots) R [].

Definition count_line (change : Z) (x : Z * by_path) : text :=
  Z_text change ++ lit "," ++ Z_text x.1 ++ lit ": " ++ Z_text (Z.of_nat (count x.2)) ++
  lit " replies".

(** A row of replies.md: the change, the comment and the reply. *)
Abbreviation md_row := (Z * (text * text))%type.

(** The order of the rows by change. *)
Definition item_le (x y : Z * list (text * text)) : Prop := (x.1 ≤ y.1)%Z.
#[export] Instance item_le_dec : RelDecision item_le := λ x y, decide (x.1 ≤ y.1)%Z.

(** ** The outside world *)

(** A command with its standard input. *)
Record command := Call { c_argv : list text; c_input : text }.

(** What was printed, and the calls of ssh. *)
Record io := Io { io_out : list text; io_calls : list command }.

Definition print_line (w : io) (t : text) : io := Io (io_out w ++ [t]) (io_calls w).

(** [gerrit review change,ps --json], with the body *)
Definition review_call (change ps : Z) (comments : by_path) : command :=
  Call [lit "ssh"; lit "-p"; lit "29418"; lit "hnishida@review.whamcloud.com"; lit "gerrit";
        lit "review"; Z_text change ++ lit "," ++ Z_text ps; lit "--json"]
       (json_dumps (review_body comments)).

Definition py_strip (s : text) : text := py_rstrip (py_lstrip s).

Definition rc_line (blanks : string) (r : Z * text) : text :=
  lit blanks ++ lit "rc=" ++ Z_text r.1 ++ lit " " ++ take_chars 200 (py_strip r.2).

Section world.
Context (urlopen : text → res text) (ssh : command → Z * text).

Definition comments_url (change : Z) : text :=
  lit "https://review.whamcloud.com/changes/" ++ Z_text change ++ lit "/comments".
Definition detail_url (change : Z) : text :=
  lit "https://review.whamcloud.com/changes/" ++ Z_text change ++
  lit "/detail?o=CURRENT_REVISION".

(** [get]: the answer without its first bytes, which guard it against inclusion *)
Definition get (url : text) : res json := let! s := urlopen url in json_loads (drop 4 s).
Definition get5 (url : text) : res json := let! s := urlopen url in json_loads (drop 5 s).

(** [subprocess.run(..)] and the line with its outcome *)
Definition review (blanks : string) (w : io) (c : command) : io :=
  Io (io_out w ++ [rc_line blanks (ssh c)]) (io_calls w ++ [c]).

Definition send (dry : bool) (change : Z) (w : io) (x : Z * by_path) : io :=
  let w := print_line w (count_line change x) in
  if dry then w else review "  " w (review_call change x.1 x.2).

(** The body of the loop over the changes. *)
Definition post_change (dry : bool) (R : list reply_row) (w : io) (change : Z) : res io :=
  let! comments := get (comments_url change) in
  let! roots := all_roots comments in
  let! d := group_rows R change roots in
  Ok (foldl (send dry change) w (sorted_ps d)).

(** [sorted({r[0] for r in R})] *)
Definition changes (R : list reply_row) : list Z := merge_sort Z.le (remove_dups (map r_change R)).

Fixpoint post_changes (dry : bool) (only : list Z) (R : list reply_row) (w : io) (l : list Z) :
    io * res unit :=
  match l with
  | [] => (w, Ok ())
  | change :: l' =>
      if negb (bool_decide (only = [])) && negb (bool_decide (change ∈ only))
      then post_changes dry only R w l'
      else match post_change dry R w change with
           | Ok w' => post_changes dry only R w' l'
           | Raise e => (w, Raise e)
           end
  end.

Definition post_replies (dry : bool) (only : list Z) (R : list reply_row) (w : io) : io * res unit :=
  post_changes dry only R w (changes R).

(** The arguments: [--dry] anywhere, and from a-1010 on the numbers of changes. *)
Definition is_dry (argv : list text) : bool := bool_decide (lit "--dry" ∈ argv).

Definition isdigit (s : text) : bool := negb (bool_decide (s = [])) && forallb is_digit s.

(** [{int(x) for x in sys.argv[1:] if x.isdigit()}] *)
Definition only_changes (argv : list text) : res (list Z) :=
  foldM (λ l x, if isdigit x then let! n := py_int 10 x in Ok (l ++ [n]) else Ok l) (tail argv) [].

(** The scripts of a-1007 and a-1008 *)
Definition main_1007 (R : list reply_row) (argv : list text) (w : io) : io * res unit :=
  post_replies (is_dry argv) [] R w.

(** The scripts of a-1010 and a-1013 *)
Definition main_1010 (R : list reply_row) (argv : list text) (w : io) : io * res unit :=
  match only_changes argv with
  | Ok only => post_replies (is_dry argv) only R w
  | Raise e => (w, Raise e)
  end.

(** ** a-1017 to a-1019 *)

(** [by.setdefault(n, []).append((cid, msg))] *)
Definition add_item (d : list (Z * list (text * text))) (r : md_row) : list (Z * list (text * text)) :=
  assign r.1 (default [] (dict_find r.1 d) ++ [r.2]) d.

Definition by_change (rows : list md_row) : list (Z * list (text * text)) := foldl add_item [] rows.

(** [e], the entry for one reply: the line is copied, the range is not. *)
Definition make_entry (cid msg : text) (c : json) : res json :=
  let e := [(lit "in_reply_to", JStr cid); (lit "unresolved", JBool false);
            (lit "message", JStr msg)] in
  if jhas "line" c then let! l := jget "line" c in Ok (JObj (e ++ [(lit "line", l)]))
  else Ok (JObj e).

Definition group_item (byid : threads) (d : by_ps) (x : text * text) : res by_ps :=
  let! pc := root_of byid x.1 in
  let! e := make_entry x.1 x.2 pc.2 in
  let! p := jget "patch_set" pc.2 in
  let! ps := jint p in
  Ok (add_reply ps pc.1 e d).

(** [list(ps['revisions'].values())[0]['_number']] *)
Definition current_ps (detail : json) : res json :=
  let! revs := jget "revisions" detail in
  let! l := jitems revs in
  match l with
  | x :: _ => jget "_number" x.2
  | [] => Raise (IndexError "list index out of range")
  end.

Definition md_line (n : Z) (cur : Z) (x : Z * by_path) : text :=
  Z_text n ++ lit " PS" ++ Z_text x.1 ++ lit " (current " ++ Z_text cur ++ lit "): " ++
  Z_text (Z.of_nat (count x.2)) ++ lit " replies".

Definition send_md (dry : bool) (n : Z) (cur : json) (w : io) (x : Z * by_path) : res io :=
  let! cur := jint cur in
  let w := print_line w (md_line n cur x) in
  Ok (if dry then w else review "   " w (review_call n x.1 x.2)).

Definition post_item (dry : bool) (w : io) (x : Z * list (text * text)) : res io :=
  let! detail := get5 (detail_url x.1) in
  let! cur := current_ps detail in
  let! allc := get5 (comments_url x.1) in
  let! byid := all_roots allc in
  let! d := foldM (group_item byid) x.2 [] in
  foldM (send_md dry x.1 cur) (sorted_ps d) w.

Fixpoint post_items (dry : bool) (l : list (Z * list (text * text))) (w : io) : io * res unit :=
  match l with
  | [] => (w, Ok ())
  | x :: l' => match post_item dry w x with
               | Ok w' => post_items dry l' w'
               | Raise e => (w, Raise e)
               end
  end.

Definition post_md (dry : bool) (rows : list md_row) (w : io) : io * res unit :=
  post_items dry (merge_sort item_le (by_change rows)) w.
End world.

(** ** replies.md *)

(** The lines of a file, with their ends. *)
Fixpoint file_lines_from (s cur : text) : list text :=
  match s with
  | [] => match cur with [] => [] | _ => [rev cur] end
  | c :: s' => if Ascii.eqb c nl then rev (c :: cur) :: file_lines_from s' []
               else file_lines_from s' (c :: cur)
  end.

Definition file_lines (s : text) : list text := file_lines_from s [].

Definition group_text (m : place) (n : nat) : text := default [] (group m n).

(** a-1017: a table, [\| (\d+) \| (\w+_\w+) \| ( .* ) \|$] *)
Definition ROW17 : regex :=
  RLit (lit "| ") ⋅ RGroup 1 (RPlus true (RSet is_digit)) ⋅ RLit (lit " | ") ⋅
  RGroup 2 (RPlus true (RSet is_word) ⋅ RLit (lit "_") ⋅ RPlus true (RSet is_word)) ⋅
  RLit (lit " | ") ⋅ RGroup 3 (RStar true (RSet not_nl)) ⋅ RLit (lit " |") ⋅ RLook Eol.

Definition step17 (rows : list md_row) (l : text) : res (list md_row) :=
  match re_match ROW17 (py_strip l) with
  | Some m =>
      let! n := py_int 10 (group_text m 1) in
      Ok (rows ++ [(n, (group_text m 2, group_text m 3))])
  | None => Ok rows
  end.

Definition rows17 (md : text) : res (list md_row) :=
  foldM step17 (file_lines (R3Engine.R3.universal_newlines md)) [].

(** a-1018 and a-1019: the change in a heading, the replies in a list.  The pattern
    that is assigned to [m] first is overwritten and left out. *)
Definition HEAD18 : regex := RLit (lit "## ") ⋅ RGroup 1 (RPlus true (RSet is_digit)).
Definition HEAD19 : regex :=
  RLit (lit "## ") ⋅ ROpt (RLit (lit "adilger ")) ⋅ RGroup 1 (RPlus true (RSet is_digit)).

(** [[0-9a-f]{8}_[0-9a-f]{8}] *)
Definition CID : regex := RRep 8 (RSet is_hexdigit) ⋅ RLit (lit "_") ⋅ RRep 8 (RSet is_hexdigit).

(** [\(#\d+\)|\S+(?: \S+)?] *)
Definition TAG : regex :=
  (RLit (lit "(#") ⋅ RPlus true (RSet is_digit) ⋅ RLit (lit ")")) ‖
  (RPlus true (RSet not_space) ⋅ ROpt (RLit (lit " ") ⋅ RPlus true (RSet not_space))).

(** [- (CID) (?:TAG)(?::| —) ( .* )$] *)
Definition ITEM : regex :=
  RLit (lit "- ") ⋅ RGroup 1 CID ⋅ RLit (lit " ") ⋅ TAG ⋅ (RLit (lit ":") ‖ RLit (lit " —")) ⋅
  RLit (lit " ") ⋅ RGroup 2 (RStar true (RSet not_nl)) ⋅ RLook Eol.

Section list_md.
Context (head : regex) (wanted : Z → text → bool).

Definition step_md (st : option Z * list md_row) (l : text) : res (option Z * list md_row) :=
  let (chg, rows) := st in
  match re_match head l with
  | Some h => let! n := py_int 10 (group_text h 1) in Ok (Some n, rows)
  | None =>
      match re_match ITEM (py_rstrip l), chg with
      | Some m, Some n =>
          if negb (n =? 0)%Z && wanted n (group_text m 2)
          then Ok (chg, rows ++ [(n, (group_text m 1, py_strip (group_text m 2)))])
          else Ok st
      | _, _ => Ok st
      end
  end.

Definition rows_md (md : text) : res (list md_row) :=
  let! st := foldM step_md (file_lines (R3Engine.R3.universal_newlines md)) (None, []) in
  Ok st.2.
End list_md.

Definition wanted18 (chg : Z) (msg : text) : bool := negb (py_startswith msg (lit "(no reply")).
Definition wanted19 (chg : Z) (msg : text) : bool :=
  negb (chg =? 69796)%Z && negb (py_startswith msg (lit "no reply")).

Definition rows18 : text → res (list md_row) := rows_md HEAD18 wanted18.
Definition rows19 : text → res (list md_row) := rows_md HEAD19 wanted19.

(** The three scripts: read replies.md, then post. *)
Definition main_md (rows : text → res (list md_row)) (md : text) (urlopen : text → res text)
    (ssh : command → Z * text) (dry : bool) (w : io) : io * res unit :=
  match rows md with
  | Ok l => post_md urlopen ssh dry l w
  | Raise e => (w, Raise e)
  end.

(** ** replies-r3.py *)

(** A value of the table: a text, or a tuple of DECLINE and a text. *)
Inductive answer := Reply_text (t : text) | Decline (t : text).

Definition DONE : answer := Reply_text (lit "Done.").

(** [bool(j)]; of a float only the sign of its digits is looked at. *)
Definition truthy (j : json) : bool :=
  match j with
  | JNull => false
  | JBool b => b
  | JInt n => negb (n =? 0)%Z
  | JFloat t => negb (existsb is_digit t) || existsb (λ c, is_digit c && negb (Ascii.eqb c "0")) t
  | JStr s => negb (bool_decide (s = []))
  | JList l => match l with [] => false | _ => true end
  | JObj l => match l with [] => false | _ => true end
  end.

(** [x.get(k)] *)
Definition jget_or_none (k : string) (j : json) : json :=
  match jget k j with Ok v => v | Raise _ => JNull end.

(** [x["id"][:8]] *)
Definition short_id (x : json) : res text :=
  let! id := jget "id" x in
  match id with JStr t => Ok (take_chars 8 t) | _ => Raise (TypeError "not subscriptable") end.

Definition make_draft (id : json) (a : answer) (x : json) : res json :=
  let entry := [(lit "in_reply_to", id);
                (lit "unresolved", JBool (match a with Decline _ => true | Reply_text _ => false end));
                (lit "message", JStr (match a with Decline t | Reply_text t => t end))] in
  if jhas "range" x then
    let! range := jget "range" x in
    let! e := jget "end_line" range in
    Ok (JObj (entry ++ [(lit "range", range); (lit "line", e)]))
  else if jhas "line" x then
    let! l := jget "line" x in Ok (JObj (entry ++ [(lit "line", l)]))
  else Ok (JObj entry).

(** The keys of the table that were met, and the replies of the change. *)
Abbreviation draft_state := (gset text * by_ps)%type.

Section drafts.
Context (R : list (text * answer)).

Definition draft_comment (path : text) (st : draft_state) (x : json) : res draft_state :=
  let! key := short_id x in
  match dict_find key R with
  | None => Ok st
  | Some a =>
      if truthy (jget_or_none "in_reply_to" x) then Ok st
      else
        let! id := jget "id" x in
        let! entry := make_draft id a x in
        let! p := jget "patch_set" x in
        let! ps := jint p in
        Ok ({[key]} ∪ st.1, add_reply ps path entry st.2)
  end.

Definition draft_path (st : draft_state) (x : text * json) : res draft_state :=
  let! l := jiter x.2 in foldM (draft_comment x.1) l st.

(** The files that are written, by name, and the lines that are printed. *)
Record drafts := Drafts { d_files : list (text * text); d_out : list text }.

Definition draft_name (S : text) (c ps : Z) : text :=
  S ++ lit "/replies-r3/" ++ Z_text c ++ lit "-" ++ Z_text ps ++ lit ".json".

Definition write_draft (S : text) (c : Z) (w : drafts) (x : Z * by_path) : drafts :=
  let fn := draft_name S c x.1 in
  Drafts (d_files w ++ [(fn, json_dump_indent 1 (review_body x.2))])
         (d_out w ++ [fn ++ lit " " ++ Z_text (Z.of_nat (count x.2))]).

(** The body of the loop over CHANGES; [files] are the saved comments, by change. *)
Definition draft_change (S : text) (files : Z → option text) (st : gset text * drafts) (c : Z) :
    res (gset text * drafts) :=
  match files c with
  | None => Raise (FileNotFoundError "c%d.json")
  | Some s =>
      let! comments := json_loads s in
      let! paths := jitems comments in
      let! d := foldM draft_path paths (st.1, []) in
      Ok (d.1, foldl (write_draft S c) st.2 d.2)
  end.

Fixpoint draft_changes (S : text) (files : Z → option text) (st : gset text * drafts) (l : list Z) :
    (gset text * drafts) * res unit :=
  match l with
  | [] => (st, Ok ())
  | c :: l' => match draft_change S files st c with
               | Ok st' => draft_changes S files st' l'
               | Raise e => (st, Raise e)
               end
  end.

Definition text_le (a b : text) : Prop :=
  String.leb (String.string_of_list_ascii a) (String.string_of_list_ascii b) = true.
#[export] Instance text_le_dec : RelDecision text_le.
Proof. intros x y. unfold text_le. apply _. Defined.

(** [sorted(set(R) - used)] *)
Definition missing (used : gset text) : list text :=
  merge_sort text_le (remove_dups (filter (λ k, k ∉ used) R.*1)).

(** [print("unmatched ids:", ..)]: the ids hold no quote, so a list prints them bare. *)
Definition missing_line (l : list text) : text :=
  lit "unmatched ids: " ++
  match l with
  | [] => lit "none"
  | _ => lit "[" ++ py_join (lit ", ") (map (λ k, lit "'" ++ k ++ lit "'") l) ++ lit "]"
  end.

(** The whole script. *)
Definition replies_r3 (S : text) (files : Z → option text) (CHANGES : list Z) : drafts * res unit :=
  match draft_changes S files (∅, Drafts [] []) CHANGES with
  | (st, Raise e) => (st.2, Raise e)
  | ((used, w), Ok _) =>
      (Drafts (d_files w)
         (d_out w ++ [missing_line (missing used);
                      lit "total replies: " ++ Z_text (Z.of_nat (size used))]), Ok ())
  end.
End drafts.
