(* ===== verification/RepliesTable.v ===== *)
(** The tables of replies: R of post_replies.py in a-1007 to a-1013, R and CHANGES of
    replies-r3.py, and the texts of replies.md of a-1017 to a-1019 that the later scripts
    read. *)
From S2P Require Import Prelude PyStr Json Replies.

Definition replies_1007_R : list reply_row := [
  Reply 68159 (lit "c25be809_3bda963b")
    (lit "Done.") true;
  Reply 68163 (lit "963a5de4_b3355c0c")
    (lit "Done.") true;
  Reply 68163 (lit "81827f44_c98949dd")
    (lit "Done. It tests lpc_open_access_error with geteuid() != 0 now.") true;
  Reply 68415 (lit "a55b8afc_98fef952")
    (lit "Done.") true;
  Reply 68415 (lit "f74c1dd9_631952dd")
    (lit "Done. Only the moved object's record carries the source now; test8 checks it.") true;
  Reply 68417 (lit "d740f535_b9571eee")
    (lit "Done.") true;
  Reply 68417 (lit "d585a1a8_4477d9e7")
    (lit "Done.") true;
  Reply 68418 (lit "72ba260c_81b05286")
    (lit "68420 rewrites this paragraph, with both points.") true;
  Reply 68419 (lit "23366946_40529039")
    (lit "Done.") true;
  Reply 68419 (lit "ec958800_bb6abb23")
    (lit "Done.") true;
  Reply 68419 (lit "b06c5a29_b66f78ff")
    (lit "Done.") true;
  Reply 68419 (lit "4ccc5b3a_616b761e")
    (lit "Done. A symlink is refused (O_NOFOLLOW, lstat()).") true;
  Reply 68419 (lit "d382f74a_a86d6760")
    (lit "Done.") true;
  Reply 68419 (lit "c5256ba4_96b099bc")
    (lit "Intended; the man pages say so now.") true;
  Reply 68420 (lit "9b919579_3ab48756")
    (lit "Done.") true;
  Reply 68420 (lit "62f06a34_5801f3dc")
    (lit "Done.") true;
  Reply 68420 (lit "9541f67b_3a4f8bad")
    (lit "Done.") true;
  Reply 68420 (lit "cf7f229d_bc450d7e")
    (lit "Done.") true;
  Reply 69443 (lit "eeae8a85_92242f5c")
    (lit "Done.") true;
  Reply 69443 (lit "c877de12_e409591b")
    (lit "Done.") true;
  Reply 69443 (lit "a3bd9728_fe489deb")
    (lit "Done. find_cookie_purged().") true].

Definition replies_1008_R : list reply_row := [
  Reply 68159 (lit "b609e81c_4c626663")
    (lit "Done. An empty name now takes the torn-linkea path.") true;
  Reply 68163 (lit "91805ad6_be5bfa54")
    (lit "Done.") true;
  Reply 68415 (lit "e89b731d_1f3019b2")
    (lit "Done.") true;
  Reply 68415 (lit "1ef16650_0b2ff779")
    (lit "Done.") true;
  Reply 68415 (lit "ac3a6f27_8f07b059")
    (lit "Done.") true;
  Reply 68417 (lit "a1c09353_42920310")
    (lit "Done.") true;
  Reply 68417 (lit "5538d83f_826a1c71")
    (lit "Done: -EINVAL, for fp_changelog_mdt and fp_since_cookie too.") true;
  Reply 68417 (lit "cdc038e8_0f90aadb")
    (lit "Done.") true;
  Reply 68417 (lit "7bb83a4f_6a0f084a")
    (lit "Done.") true;
  Reply 68417 (lit "7efd9bab_1892aea0")
    (lit "Done.") true;
  Reply 68418 (lit "e601b13a_f9d4d449")
    (lit "Done.") true;
  Reply 68419 (lit "c4dd5f3b_aaba6d0b")
    (lit "Done.") true;
  Reply 68419 (lit "2ca7425b_3f9336b4")
    (lit "Done.") true;
  Reply 68420 (lit "e17fb28d_9d96d1b2")
    (lit "Done, where \qburst\q first appears (68418).") true;
  Reply 69443 (lit "f4af31b9_52a9d5f7")
    (lit "Done.") true;
  Reply 69500 (lit "608bbf64_c2246537")
    (lit "Done.") true;
  Reply 69500 (lit "33869de4_6135daec")
    (lit "Done.") true;
  Reply 69501 (lit "fbce656d_82653553")
    (lit "Done. The count is given for a directory too.") true].

Definition replies_1010_R : list reply_row := [
  Reply 68415 (lit "6ae9093e_b21df3b0")
    (lit "Done.") true;
  Reply 68415 (lit "950d74f6_d7985183")
    (lit "Done.") true;
  Reply 68415 (lit "f88c505d_d8dd59e9")
    (lit "Done. -ENOENT now counts as already cleared when the MDS still finds sc_user. A user registered without a mask or name cannot be looked up before LU-20647, so that case still fails; the page says so.") true;
  Reply 68159 (lit "2597ea78_75fe6c1a")
    (lit "Done. -EINVAL first, as llapi_scan_device() gives.") true;
  Reply 68159 (lit "50166fe2_8aa0e69b")
    (lit "Done. The bitmap is now read for the first worker and not at open (that part is in 68156), and the comment gives the real cost.") true;
  Reply 68288 (lit "39ffce91_7e9f1f98")
    (lit "Done.") true;
  Reply 68288 (lit "941f276d_46bf5f8c")
    (lit "Done. The page says to allow about 1 KB per directory.") true;
  Reply 68288 (lit "22d5a676_6d6ae838")
    (lit "Done.") true;
  Reply 68288 (lit "fe063eeb_0d54bfc4")
    (lit "Not changed: style only, and the rename would touch most of the file.") true;
  Reply 68417 (lit "68ca454d_0f345470")
    (lit "Done.") true;
  Reply 68417 (lit "59a08d1c_ab5649a6")
    (lit "lfs-find.1 and llapi_find_since.3 now say the window is measured on the MDS clock. No slack is added to the cut in this patch.") true;
  Reply 68417 (lit "fa9800de_61888d7f")
    (lit "Done. A failed object with no name under the search root is skipped and not counted.") true;
  Reply 68418 (lit "ed0726f3_16587653")
    (lit "Done, in the comment and the message.") true;
  Reply 68418 (lit "9b7a96f7_5fa0df4d")
    (lit "Done.") true;
  Reply 68418 (lit "a946ef6e_d22faf54")
    (lit "Done. A record that carries a name is tested by find_prefilter() before the lookup.") true;
  Reply 68419 (lit "1cefe938_a28342ab")
    (lit "Done. '! --changelog' and '! --resolve' are refused too, in 68418.") true].

Definition replies_1013_R : list reply_row := [
  Reply 68156 (lit "376d68e6_4605c58b")
    (lit "Done. The page and the kernel-doc now say that only an unreadable or plainly invalid object is skipped, and that another can give an inconsistent record.") true;
  Reply 68156 (lit "907d6e29_719ad93c")
    (lit "Done, in %description.") true;
  Reply 68156 (lit "cd5b4613_b149dbdb")
    (lit "Done.") true;
  Reply 68159 (lit "95ee222e_01551aa7")
    (lit "Done.") true;
  Reply 68159 (lit "8916fd96_b9c45c0b")
    (lit "Done. A scan now skips only the --foreign test for such a directory and applies the other predicates. It does not fall through to find_check_foreign(): that would reject every unstriped directory.") true;
  Reply 68288 (lit "8f88a2d2_ef901386")
    (lit "Done.") true;
  Reply 68288 (lit "f3088c1f_47371b2b")
    (lit "Done.") true;
  Reply 68415 (lit "177f57f0_9c92ecd2")
    (lit "Done.") true;
  Reply 68415 (lit "91059706_f187cbe4")
    (lit "Done. The scan stops clearing after the first failure.") true;
  Reply 68416 (lit "bd08a29b_66d40182")
    (lit "Done.") true;
  Reply 68416 (lit "3d27afd4_4c146d50")
    (lit "Done.") true;
  Reply 68416 (lit "c1f7f7c5_2216cc9c")
    (lit "Done.") true;
  Reply 68416 (lit "09644765_5919ffe2")
    (lit "Done.") true;
  Reply 68417 (lit "1f3b9901_12acaa7e")
    (lit "Done, with a tab-indented continuation.") true;
  Reply 68417 (lit "c6e8ee4f_64ebdd59")
    (lit "Done. The first error is kept, the other MDTs are read, and it is returned at the end, unless fp_stop_on_error is set.") true;
  Reply 68418 (lit "1aeae682_17d3654c")
    (lit "Done.") true;
  Reply 68419 (lit "3a1ee14c_6a057b83")
    (lit "Done.") true;
  Reply 68419 (lit "9a24f3a7_8fa68a39")
    (lit "Done.") true;
  Reply 68419 (lit "ba5a37ce_af079a72")
    (lit "Done.") true;
  Reply 68420 (lit "006804da_25e7d865")
    (lit "Done.") true;
  Reply 68420 (lit "dbff52a1_654cb5b9")
    (lit "Done. Both names are added, at index 1; the sign cases stay.") true].

Definition replies_r3_R : list (text * answer) := [
  (lit "77aea866",
   Reply_text (lit "Done: gated on CLIENT_VERSION >= 2.17.57, so a missing binary now fails the test; 157d the same."));
  (lit "eb27d35a",
   Reply_text (lit "Done: $LFS mkdir -i $((RANDOM % MDSCOUNT)); nothing in the test depends on MDT0000."));
  (lit "6379d8eb",
   Reply_text (lit "Done: removed here; --search arrives with the ZFS backend in LU-20613."));
  (lit "bd2794d9",
   Reply_text (lit "lfind.c is gone in the next patchset (lfs find --device), and the pre-pass with it."));
  (lit "4fe322a2", DONE);
  (lit "a3ac0b0d", DONE);
  (lit "2cdfde78",
   Reply_text (lit "Done: narrowed to IMMUTABLE|APPEND, page and backend header with it."));
  (lit "cb25d398", DONE);
  (lit "ede43c98", DONE);
  (lit "ae6a9326",
   Reply_text (lit "Done: LMV_SHARD takes 1<<47; 1<<49..52 are the changelog bits LU-20649 adds, so the set is packed."));
  (lit "44cf4ff2",
   Reply_text (lit "Already fixed in the next patchset: --paths hands over the map whenever the pre-pass ran."));
  (lit "4e556ce9", DONE);
  (lit "bfa7b47a", DONE);
  (lit "b3c1e9ac", DONE);
  (lit "e156feaf", DONE);
  (lit "aa575ca1", DONE);
  (lit "617400ed", DONE);
  (lit "adac49ea", DONE);
  (lit "1f5eb08c", DONE);
  (lit "00ea7018", DONE);
  (lit "afc96fd0",
   Reply_text (lit "Done: narrowed to this function's own syscalls, with the three path-based gather opens named, here and in the page."));
  (lit "a2ba1626",
   Reply_text (lit "Done: --since moves above --size in both sections."));
  (lit "fff5372a",
   Reply_text (lit "Done, and the duplicate paragraph under the second -ENOTSUP is gone."));
  (lit "7d9d284f",
   Decline (lit "Leaving it at 0: the entries shift when a name is removed, so starting at 1 skips a name if link 0 goes mid-run. One ioctl per hardlinked candidate buys that."));
  (lit "fd5bc71b", DONE);
  (lit "37d1fed2",
   Reply_text (lit "Done: the warning names no cause now, since from --changelog on the record can be one."));
  (lit "2d0b68e4", DONE);
  (lit "b3d55630",
   Reply_text (lit "Done: the sentence is gone; the case cannot occur."));
  (lit "3b37662f", DONE);
  (lit "195af7cb", DONE);
  (lit "240ce397", DONE);
  (lit "e31be789",
   Reply_text (lit "Done: <cookie>.<pid>.<n>.new created O_EXCL for both the probe and the write, which keeps the umask's mode."));
  (lit "09cfc4b1", DONE);
  (lit "bd138920",
   Reply_text (lit "Done: stdout is flushed and checked before the rewrite; 160ac asserts it with /dev/full."));
  (lit "3d25f00b", DONE);
  (lit "080e9b9d",
   Reply_text (lit "Done in the --since patch: tm_sec is zeroed for the time-only forms."));
  (lit "6cf9bb05", DONE);
  (lit "fb139d1b", DONE);
  (lit "0957ec61", DONE);
  (lit "513bd9ed", DONE);
  (lit "836aa67b", DONE);
  (lit "8e5a951e", DONE)].

Definition replies_r3_CHANGES : list Z := [68094; 68160; 68163; 68288; 68415; 68416; 68417; 68418; 68419; 68420; 68727]%Z.

Definition replies_1017_md : text := lit "# a1017 replies -- AI round on the 10-14 patchsets

To post WITH the push (gerrit-reply-brevity: \qDone.\q when addressed, a reason
only when declining).  Thread ids are the root comment ids.

| Change | Thread | Reply |
|---|---|---|
| 68156 | 485b1c07_663e0a08 | Done. |
| 68158 | 63979fe1_edbc257c | Done. 68160 adds it back with its first use, llapi_name_verify(). |
| 68158 | 4441713a_bb86dbec | Done. |
| 68159 | fa712d02_eb6ba86f | Done. |
| 68159 | 1e2474be_2b6c6bbf | Done. |
| 68159 | ac196834_d22b8344 | Not changed. find_lmv_rejects() is a few in-memory comparisons, and fc_path is not a walk marker: the --since records of 68417 set it too, so that gate would skip the check there. |
| 68159 | cc0ef9d2_27476a6b | Done. |
| 68160 | 02a10a46_6d2cda51 | Done. |
| 68163 | 7bf7ed99_f24edadf | Done. |
| 68163 | 62de17d3_e446743a | Done. |
| 68288 | 010bc2da_8d1a04ef | Done. |
| 68288 | 3592e59a_a2da22be | Done. |
| 68415 | cc706da5_c17708f9 | Done, the owner moves into 68288. |
| 68415 | 8a0307fa_e005a11c | Done. |
| 68415 | 19270dda_fa62847e | Done. |
| 68415 | fa65a621_7109b0b7 | Done. |
| 68415 | bf6ad7f2_1e6a8337 | Done. |
| 68415 | 6e7bfba4_f341a114 | Done. |
| 68416 | e191222a_da091859 | Done. |
| 68417 | 4205536b_8b56e27e | Done. |
| 68726 | 9954f2b7_fc17ba8b | Done. |
| 69501 | 2019ab14_b1a379e6 | Done. |
| 69502 | 3c794599_c46c0b3f | Done. |
| 69502 | 86500a8b_90ecd953 | Done. |
| 69502 | 94da9534_83ebfc3f | Done. |
| 68726 | 43e4332a_1d7ecc36 | Agreed that the guard belongs in the code. Held until 68726 and 68288 are both on master: 68288 grows the record on another branch, so a sizeof() assert now would fail whichever lands second. The header note stays until then. |
".

Definition replies_1018_md : text := lit "# Replies to the 2026-10-18 AI round (drafts, NOT posted)

Keyed by change and full comment id, as in triage.md. #19 gets no reply
(user choice).

## 68156
- d636e2aa_7810f44a (#1): Done.

## 68415
- f5001c3d_79a7a1f1 (#2): Done.
- 568c239a_2aa4b6f5 (#3): The tree uses this form for remote_mds_nodsh (108 times in sanity.sh, never the negated one), so it stays.

## 68416
- 4d6e64ad_c1f1dd87 (#4): Done.
- 4df24fc4_84c74c03 (#5): Declined: a directory renamed away and back gives the same name with the object reachable again; that is the flip-flop case the retry was made for (tests/lab-1013/06). The cost is bounded at SCAN_FID_RETRIES.
- 1360e218_543e97db (#6): Done. Documented, no fallback: a name-only record when the caller asked for MDT fields would drop them with no signal.
  (10-18 pm: the -EACCES text it points at was corrected locally per lreview 68416 (1): the type statx runs on every call, and root squash is named. The reply stays as drafted.)

## 68158
- 80b7eeb7_6af36526 (#7): Only lfs links this file, and these were lfs.c's names already; left as they are.

## 68160
- 768567ff_f7b15737 (#8): Done.
- 20098768_5da9a980 (#9): Done.

## 68163
- f8d7ad60_6508299b (#10): Done.

## 68288
- 8ac62df6_b32ea242 (#11): Done.
- 9c17e029_accf7832 (#12): Done.
- cf29a8b3_d89f9234 (#13): Done. scan_device_run() went too: llapi_scan_device() was its only caller.

## 68159
- 85bb9fc5_096d9840 (#14): Done. The device scanner's LMV buffer is now XATTR_SIZE_MAX (68156), so the sentence holds; the message says so.
- 64f8e0e0_b6a46bba (#15): Real, but in landed code since LU-14489; fixed separately under LU-20988.
- d55e3e04_b65d5ec4 (#16): Done.
- 2fee127e_b9be2f21 (#17): Done. SCAN_LMV_BUF is XATTR_SIZE_MAX now, which covers every foreign LMV an MDT can store; llapi_scan_device.3 says a damaged trusted.lmv comes without LLAPI_SCAN_LMV.
- 13021777_d0514133 (#18): Done.

## 68419
- 963dc2c7_f94f2e0d (#19): (no reply, user choice)
- 6b5da815_881fe259 (#20): Done.
- 397172d9_5d095b24 (#21): Done. Every covered MDT now gets a line, 0 for an empty log. A 0 whose log now starts past 1 warns rather than refuses: a log drained before the empty run looks the same, and refusing would stop every later run.

## 69502 PS9 (AI, 10-18 14:51)
- 0d84ae74_13e630ce /COMMIT_MSG:19 — Done.
  (fork-69502 reworded locally: names \qllapi: pass FID and nlink to llapi_scan_fid() filter\q; paragraph rewrapped. Tree unchanged.)

## 69700 PS3
- 312cc898_63b63dd4 (liblustreapi_scan_device.c ~786): Done. A pre-filter skip now takes a rate slot too.
  (Local: rate-1017 dfa074ae7d. Lab: 2000 torn inodes on an MDT image, test7 FAILs on PS3 at 0.198s of 0.500s, passes with the fix.)
".

Definition replies_1019_md : text := lit "# Replies to the 2026-10-19 AI round -- POSTED 10-20 after the a1019 push (12, verified resolved)

Keyed by change and full comment id, as in triage.md. Only the items taken
in this round (#1 #2 #5 #6 #7 #8 #9). #3 #4 #10 #11 #12 wait for the user.

## 68156
- e75b10aa_c578be0c (#1): The behaviour stays: llapi_scan_device(3) NOTES says STOP_ON_ERROR has no effect there, so it is not silent, and accepting it lets one lfsp_flags value work with both scanners. The comment now names the exception.
- b8a84763_cbe30c3b (#2): Done.

## 68415
- 46b2065c_12e2ffed (#5): Done.
- adfd872c_11cf9826 (#6): Done.

## 68416
- 1cdbec45_86ee0a52 (#7): Done.
- 73b12b8e_8a21b5b2 (#8): Done.

## 68419
- 11b505e3_37d86a3b (#9): Done.

## 68419 (#10, PS24 patch-set message suggestion)
No comment id: the suggestion is in the AI's patch-set message, not an
inline thread, so there is nothing to reply to or resolve. If a note is
wanted on the next PS: \q160Ac now has a DNE block (MDSCOUNT > 1): a file on
MDT0001 moves only that MDT's anchor, and a --changelog MDT0001 run keeps
MDT0000's line.\q

## adilger 68156 (2026-10-19 21:03 UTC), drafts, NOT posted

- a59a8bba_15a65561 (#A1): Done.
- 4bbe6d43_25750cd3 (#A2): Done. -printf %LF on an OST object now prints the file's MDT FID from trusted.fid (in LU-20637, where the scan reads it), and nothing for an object no file owns yet. New %LO prints the OST object FIDs like %Lo: \q[fid,fid]\q per component on a walk or MDT scan, \q[own fid]\q on an OST scan. lfsr_fid stays the object's own FID, and so does the default output line of an OST scan, so objects with no owner are still listed.
- 92f32c7a_a6060b9e (#A3): Done. conf-sanity 300a/300b and llapi_scan_device_test moved to the lfs find --device patch. The FID check now uses lfs find --device -printf; the tool only checks what lfs find cannot show (stats, threads, filter).
- c2744717_0990f0e0 (#A4): Done.
- 69637d7f_1669b4b7 (#A5): Done.
- 4257d2cf_59026163 (#A6): no reply needed.

## 69796 PS1 AI (10-19), draft, NOT posted

- 1a9c818f_0a6400fb (#M1): Declined: LU-20989 is filed as an Improvement, not a bug fix, so no Fixes: tag.
".

(** ** The scripts *)

Section scripts.
Context (urlopen : text → res text) (ssh : command → Z * text).

Definition post_replies_1007 : list text → io → io * res unit := main_1007 urlopen ssh replies_1007_R.
Definition post_replies_1008 : list text → io → io * res unit := main_1007 urlopen ssh replies_1008_R.
Definition post_replies_1010 : list text → io → io * res unit := main_1010 urlopen ssh replies_1010_R.
Definition post_replies_1013 : list text → io → io * res unit := main_1010 urlopen ssh replies_1013_R.

(** Those that read replies.md; [dry] is whether DRY is set in the environment. *)
Definition post_replies_1017 (md : text) (dry : bool) (w : io) : io * res unit :=
  main_md rows17 md urlopen ssh dry w.
Definition post_replies_1018 (md : text) (dry : bool) (w : io) : io * res unit :=
  main_md rows18 md urlopen ssh dry w.
Definition post_replies_1019 (md : text) (dry : bool) (w : io) : io * res unit :=
  main_md rows19 md urlopen ssh dry w.
End scripts.

Definition draft_replies_r3 (S : text) (files : Z → option text) : drafts * res unit :=
  replies_r3 replies_r3_R S files replies_r3_CHANGES.
