(* ===== verification/RepliesFacts.v ===== *)
(** Lemmas about the posting of replies: the grouping by patch set and path keeps every
    reply, the threads of a change are found by id, and what a run prints and posts. *)
From S2P Require Import Prelude PyStr Json Replies.

(** ** Dicts *)

Section assign.
Context {K A B : Type} `{EqDecision K}.
Implicit Types (l : list (K * A)) (F : K * A → list B).

Lemma bind_assign F k a l extra :
  F (k, a) ≡ₚ match dict_find k l with Some a0 => F (k, a0) | None => [] end ++ extra →
  assign k a l ≫= F ≡ₚ (l ≫= F) ++ extra.
Proof.
  induction l as [|[k' a'] l IH]; cbn [dict_find assign]; intros H.
  { cbn. by rewrite app_nil_r. }
  destruct (decide (k = k')) as [->|Hn]; cbn.
  - rewrite H. by rewrite <-!app_assoc, (Permutation_app_comm extra).
  - rewrite IH by done. by rewrite app_assoc.
Qed.

Lemma assign_keys k a l k' : k' ∈ (assign k a l).*1 ↔ k' = k ∨ k' ∈ l.*1.
Proof.
  induction l as [|[k0 a0] l IH]; cbn.
  { rewrite list_elem_of_singleton, elem_of_nil. tauto. }
  destruct (decide (k = k0)) as [->|Hn]; cbn; rewrite !elem_of_cons; [tauto|].
  rewrite IH. tauto.
Qed.

Lemma assign_NoDup k a l : NoDup l.*1 → NoDup (assign k a l).*1.
Proof.
  induction l as [|[k0 a0] l IH]; cbn; intros Hd.
  { apply NoDup_singleton. }
  apply NoDup_cons in Hd as [Hn Hd].
  destruct (decide (k = k0)) as [->|Hk]; cbn; apply NoDup_cons; [done|].
  split; [|by apply IH]. rewrite assign_keys. intros [->|?]; done.
Qed.
End assign.

(** Every reply of the grouping, with its patch set and path. *)
Definition flat_path (ps : Z) (x : text * list json) : list (Z * text * json) :=
  map (λ rep, (ps, x.1, rep)) x.2.
Definition flat_ps (d : by_ps) : list (Z * text * json) := d ≫= λ x, x.2 ≫= flat_path x.1.

Lemma flat_add ps path rep d : flat_ps (add_reply ps path rep d) ≡ₚ flat_ps d ++ [(ps, path, rep)].
Proof.
  unfold flat_ps, add_reply. apply bind_assign. cbn [fst snd].
  transitivity ((default [] (dict_find ps d) ≫= flat_path ps) ++ [(ps, path, rep)]).
  - apply bind_assign. unfold flat_path. cbn [fst snd]. rewrite map_app.
    by destruct (dict_find path (default [] (dict_find ps d))).
  - by destruct (dict_find ps d).
Qed.

(** The keys of a dict and of the dicts in it are different, and no list is empty. *)
Definition paths_ok (x : by_path) : Prop := NoDup x.*1 ∧ ∀ p reps, (p, reps) ∈ x → reps ≠ [].
Definition keys_differ (d : by_ps) : Prop := NoDup d.*1 ∧ ∀ ps x, (ps, x) ∈ d → paths_ok x.

Lemma assign_elem {K A} `{EqDecision K} (k : K) (a : A) l x :
  x ∈ assign k a l → x = (k, a) ∨ x ∈ l.
Proof.
  induction l as [|[k0 a0] l IH]; cbn; [by left; apply list_elem_of_singleton|].
  destruct (decide (k = k0)) as [->|Hn]; rewrite !elem_of_cons; tauto.
Qed.

Lemma dict_find_elem {K A} `{EqDecision K} (k : K) (a : A) l : dict_find k l = Some a → (k, a) ∈ l.
Proof.
  induction l as [|[k0 a0] l IH]; cbn; [done|].
  destruct (decide (k = k0)) as [->|Hn]; [intros [= ->]; by left|]. right. auto.
Qed.

Lemma add_reply_keys ps path rep d : keys_differ d → keys_differ (add_reply ps path rep d).
Proof.
  intros [Hd Hx]. split; [by apply assign_NoDup|]. intros ps' x Hin.
  apply assign_elem in Hin as [[= -> ->]|Hin]; [|by eapply Hx].
  assert (paths_ok (default [] (dict_find ps d))) as [Hn Hne].
  { destruct (dict_find ps d) as [y|] eqn:E; [eapply Hx, dict_find_elem, E|].
    split; [constructor|]. by intros ?? ?%elem_of_nil. }
  split; [by apply assign_NoDup|]. intros p reps Hp.
  apply assign_elem in Hp as [[= -> ->]|Hp]; [intros []%eq_sym%app_cons_not_nil|by eapply Hne].
Qed.

(** ** Folds that can raise *)

Lemma foldM_app {A B} (f : B → A → res B) l l' b :
  foldM f (l ++ l') b = let! b' := foldM f l b in foldM f l' b'.
Proof.
  revert b. induction l as [|a l IH]; intros b; [done|]. cbn. destruct (f b a); [|done]. apply IH.
Qed.

Lemma foldM_Ok {A B} (f : B → A → res B) (g : B → A → B) l b :
  (∀ b a, a ∈ l → f b a = Ok (g b a)) → foldM f l b = Ok (foldl g b l).
Proof.
  revert b. induction l as [|a l IH]; intros b H; [done|]. cbn.
  rewrite H by by left. cbn. apply IH. intros b' a' Ha. apply H. by right.
Qed.

(** ** Threads *)

(** The comments of a change as the server gives them: by path, each an object with an
    id of its own. *)
Definition comments_json (paths : list (text * list json)) : json :=
  JObj (map (λ x, (x.1, JList x.2)) paths).

Definition comment_id (c : json) : text :=
  match jget "id" c with Ok (JStr t) => t | _ => [] end.

Definition has_id (c : json) : Prop := jget "id" c = Ok (JStr (comment_id c)).

(** All comments with their paths, in the order of the answer. *)
Definition listed (paths : list (text * list json)) : list (text * json) :=
  paths ≫= λ x, map (pair x.1) x.2.

Definition add_listed (roots : threads) (x : text * json) : threads :=
  <[comment_id x.2 := x]> roots.

Lemma add_path_listed m p cs :
  Forall (λ x, has_id x.2) (map (pair p) cs) →
  add_path m (p, JList cs) = Ok (foldl add_listed m (map (pair p) cs)).
Proof.
  intros H. cbn. rewrite (foldM_Ok _ (λ m c, add_listed m (p, c))).
  { f_equal. clear. revert m. induction cs as [|c cs IH]; intros m; [done|]. apply IH. }
  intros b c Hin. rewrite Forall_forall in H. unfold add_root.
  rewrite (H (p, c)); [done|]. apply list_elem_of_In, in_map, list_elem_of_In, Hin.
Qed.

Lemma all_roots_listed paths :
  Forall (λ x, has_id x.2) (listed paths) →
  all_roots (comments_json paths) = Ok (foldl add_listed ∅ (listed paths)).
Proof.
  unfold all_roots. cbn. generalize (∅ : threads) as m.
  induction paths as [|[p cs] paths IH]; intros m H; [done|].
  change (listed ((p, cs) :: paths)) with (map (pair p) cs ++ listed paths) in *.
  apply Forall_app in H as [Hc Hp]. cbn [map foldM fst snd].
  rewrite add_path_listed by done. cbn [res_bind]. rewrite IH by done. by rewrite foldl_app.
Qed.

Lemma foldl_add_other l m cid :
  cid ∉ map (comment_id ∘ snd) l → foldl add_listed m l !! cid = m !! cid.
Proof.
  revert m. induction l as [|x l IH]; intros m; [done|]. cbn [map foldl].
  intros [Hn Hl]%not_elem_of_cons. rewrite IH by done. apply lookup_insert_ne. naive_solver.
Qed.

(** With different ids a thread is found by its own. *)
Lemma foldl_add_lookup l m x :
  NoDup (map (comment_id ∘ snd) l) → x ∈ l → foldl add_listed m l !! comment_id x.2 = Some x.
Proof.
  revert m. induction l as [|y l IH]; intros m; [by intros _ ?%elem_of_nil|].
  cbn [map foldl]. intros [Hn Hd]%NoDup_cons [->|Hx]%elem_of_cons; [|by apply IH].
  rewrite foldl_add_other by exact Hn. apply lookup_insert_eq.
Qed.

(** ** The reply a row asks for *)

(** The part of a comment that places a reply: the range with its last line, the line,
    or nothing for a comment on the whole file. *)
Inductive located (c : json) : list (text * json) → Prop :=
  | at_range range e :
      jget "range" c = Ok range → jget "end_line" range = Ok e →
      located c [(lit "range", range); (lit "line", e)]
  | at_line l :
      jhas "range" c = false → jget "line" c = Ok l → located c [(lit "line", l)]
  | at_file : jhas "range" c = false → jhas "line" c = false → located c [].

(** The patch set, path and text of the reply to the comment with the row's id. *)
Inductive answers (paths : list (text * list json)) (r : reply_row) : Z * text * json → Prop :=
  | Answers path c ps loc :
      (path, c) ∈ listed paths → comment_id c = r_cid r →
      jget "patch_set" c = Ok (JInt ps) → located c loc →
      answers paths r
        (ps, path, JObj ([(lit "in_reply_to", JStr (r_cid r)); (lit "message", JStr (r_msg r));
                          (lit "unresolved", JBool (negb (r_resolved r)))] ++ loc)).

Definition ids_ok (paths : list (text * list json)) : Prop :=
  Forall (λ x, has_id x.2) (listed paths) ∧ NoDup (map (comment_id ∘ snd) (listed paths)).

Lemma jget_jhas k c v : jget k c = Ok v → jhas k c = true.
Proof. destruct c; cbn; try done. by destruct (dict_find (lit k) l). Qed.

Lemma make_reply_located r c loc :
  located c loc →
  make_reply r c =
  Ok (JObj ([(lit "in_reply_to", JStr (r_cid r)); (lit "message", JStr (r_msg r));
             (lit "unresolved", JBool (negb (r_resolved r)))] ++ loc)).
Proof.
  unfold make_reply. intros [range e Hr He|l Hn Hl|Hn Hl].
  - rewrite (jget_jhas _ _ _ Hr), Hr. cbn [res_bind]. by rewrite He.
  - rewrite Hn, (jget_jhas _ _ _ Hl), Hl. done.
  - by rewrite Hn, Hl.
Qed.

Lemma group_row_answers paths change roots d r t :
  ids_ok paths → all_roots (comments_json paths) = Ok roots → r_change r = change →
  answers paths r t → group_row change roots d r = Ok (add_reply t.1.1 t.1.2 t.2 d).
Proof.
  intros [Hid Hnd] Hroots Hc Ha. destruct Ha as [path c ps loc Hin Hcid Hps Hloc].
  rewrite all_roots_listed in Hroots by done. injection Hroots as <-.
  unfold group_row. rewrite Hc, Z.eqb_refl. cbn [negb].
  unfold root_of. rewrite <-Hcid, (foldl_add_lookup _ ∅ (path, c) Hnd Hin). cbn [res_bind snd fst].
  rewrite (make_reply_located r c loc Hloc), Hcid. cbn [res_bind]. by rewrite Hps.
Qed.

Section grouping.
Context (paths : list (text * list json)) (roots : threads) (change : Z).
Context (f : reply_row → Z * text * json).
Context (Hids : ids_ok paths) (Hroots : all_roots (comments_json paths) = Ok roots).

Definition of_change (R : list reply_row) : list reply_row := filter (λ r, r_change r = change) R.

Lemma group_rows_from R d :
  (∀ r, r ∈ R → r_change r = change → answers paths r (f r)) → keys_differ d →
  ∃ d', foldM (group_row change roots) R d = Ok d' ∧
    flat_ps d' ≡ₚ flat_ps d ++ map f (of_change R) ∧ keys_differ d'.
Proof using Hids Hroots.
  revert d. induction R as [|r R IH]; intros d Ha Hd.
  { exists d. split_and!; [done| |done]. by rewrite app_nil_r. }
  assert (∀ r', r' ∈ R → r_change r' = change → answers paths r' (f r')) as Ha'.
  { intros r' Hr'. apply Ha. by right. }
  unfold of_change. cbn [foldM]. destruct (decide (r_change r = change)) as [Hr|Hr].
  - rewrite filter_cons_True by done.
    erewrite group_row_answers; [|done..|apply Ha; [by left|done]]. cbn [res_bind].
    destruct (IH (add_reply (f r).1.1 (f r).1.2 (f r).2 d)) as (d' & E & Hp & Hn); [done| |].
    { by apply add_reply_keys. }
    exists d'. split_and!; [done| |done]. rewrite Hp, flat_add, <-app_assoc. cbn.
    by destruct (f r) as [[??]?].
  - rewrite filter_cons_False by done. unfold group_row at 1.
    rewrite (proj2 (Z.eqb_neq _ _)) by done. cbn [negb res_bind]. by apply IH.
Qed.
End grouping.

(** ** Sorted lists with different keys *)

Section strict.
Context {A : Type} (k : A → Z) (R : relation A).
Context (HR : ∀ x y, R x y → (k x ≤ k y)%Z).

Lemma strictly_sorted l :
  StronglySorted R l → NoDup (map k l) → StronglySorted (λ x y, (k x < k y)%Z) l.
Proof using HR.
  induction 1 as [|x l Hl IH Hx]; intros Hd; [constructor|].
  apply NoDup_cons in Hd as [Hn Hd]. constructor; [auto|].
  rewrite Forall_forall in Hx |- *. intros y Hy. specialize (HR _ _ (Hx y Hy)).
  assert (k x ≠ k y); [|lia]. intros E. apply Hn. rewrite E.
  apply list_elem_of_In, in_map, list_elem_of_In, Hy.
Qed.
End strict.

#[export] Instance ps_le_trans : Transitive ps_le.
Proof. intros x y z. unfold ps_le. lia. Qed.
#[export] Instance ps_le_total : Total ps_le.
Proof. intros x y. unfold ps_le. lia. Qed.

Lemma sorted_ps_strict d :
  NoDup d.*1 → StronglySorted (λ x y, (x.1 < y.1)%Z) (sorted_ps d).
Proof.
  intros Hd. apply (strictly_sorted fst ps_le); [done| |].
  - apply (StronglySorted_merge_sort ps_le).
  - change (NoDup (sorted_ps d).*1). unfold sorted_ps. by rewrite (merge_sort_Permutation ps_le d).
Qed.

Lemma flat_sorted d : flat_ps (sorted_ps d) ≡ₚ flat_ps d.
Proof. unfold flat_ps, sorted_ps. by rewrite (merge_sort_Permutation ps_le d). Qed.

Lemma changes_strict R : StronglySorted (λ x y, (x < y)%Z) (changes R).
Proof.
  apply (strictly_sorted id Z.le); [done| |].
  - apply (StronglySorted_merge_sort Z.le).
  - rewrite map_id. unfold changes. rewrite (merge_sort_Permutation Z.le). apply NoDup_remove_dups.
Qed.

Lemma changes_spec R c : c ∈ changes R ↔ ∃ r, r ∈ R ∧ r_change r = c.
Proof.
  unfold changes. rewrite (merge_sort_Permutation Z.le), elem_of_remove_dups.
  rewrite list_elem_of_In, in_map_iff. setoid_rewrite list_elem_of_In.
  split; intros (r & ? & ?); by exists r.
Qed.

Lemma strict_NoDup l : StronglySorted (λ x y, (x < y)%Z) l → NoDup l.
Proof.
  induction 1 as [|x l _ IH Hx]; constructor; [|done].
  intros Hin. rewrite Forall_forall in Hx. specialize (Hx x Hin). lia.
Qed.

(** ** Rows by change *)

Lemma of_change_of_change c c' R :
  c ≠ c' → of_change c' (filter (λ r, ¬ r_change r = c) R) = of_change c' R.
Proof.
  intros Hc. unfold of_change. rewrite list_filter_filter.
  apply list_filter_iff. intros r. split; [by intros []|]. intros ->. split; [done|congruence].
Qed.

Lemma rows_by_change L R :
  NoDup L → L ≫= (λ c, of_change c R) ≡ₚ filter (λ r, r_change r ∈ L) R.
Proof.
  revert R. induction L as [|c L IH]; intros R Hd.
  { cbn. induction R; [done|]. rewrite filter_cons_False; [done|]. apply not_elem_of_nil. }
  apply NoDup_cons in Hd as [Hn Hd]. cbn.
  assert (L ≫= (λ c', of_change c' R) =
          L ≫= (λ c', of_change c' (filter (λ r, ¬ r_change r = c) R))) as ->.
  { clear IH Hd. induction L as [|c' L IHL]; [done|]. apply not_elem_of_cons in Hn as [Hc Hn].
    cbn. rewrite IHL by done. by rewrite of_change_of_change. }
  rewrite IH by done. unfold of_change.
  clear IH Hd Hn. induction R as [|r R IHR]; [done|].
  destruct (decide (r_change r = c)) as [Hr|Hr].
  - rewrite filter_cons_True by done. rewrite (filter_cons_False (λ r, ¬ r_change r = c))
      by (intros Hx; by apply Hx).
    rewrite (filter_cons_True (λ r, r_change r ∈ c :: L)) by (rewrite Hr; by left).
    cbn. by rewrite IHR.
  - rewrite filter_cons_False by done. rewrite (filter_cons_True (λ r, ¬ r_change r = c)) by done.
    destruct (decide (r_change r ∈ L)) as [Hl|Hl].
    + rewrite (filter_cons_True (λ r, r_change r ∈ L)) by done.
      rewrite (filter_cons_True (λ r, r_change r ∈ c :: L)) by by right.
      by rewrite <-IHR, Permutation_middle.
    + rewrite (filter_cons_False (λ r, r_change r ∈ L)) by done.
      rewrite (filter_cons_False (λ r, r_change r ∈ c :: L)); [done|].
      intros [?|?]%elem_of_cons; done.
Qed.

(** ** A run as a list of calls *)

Definition selected (only : list Z) (c : Z) : Prop := only = [] ∨ c ∈ only.
#[export] Instance selected_dec only c : Decision (selected only c) := _.

(** A call to be made: the change, the patch set and the comments. *)
Definition call_of (s : Z * (Z * by_path)) : command := review_call s.1 s.2.1 s.2.2.

Section plan.
Context (urlopen : text → res text) (ssh : command → Z * text) (R : list reply_row).

(** What is to be sent for one change, and for a list of them up to the first error. *)
Definition plan (change : Z) : res by_ps :=
  let! comments := get urlopen (comments_url change) in
  let! roots := all_roots comments in
  let! d := group_rows R change roots in
  Ok (sorted_ps d).

Fixpoint plans (l : list Z) : list (Z * (Z * by_path)) * res unit :=
  match l with
  | [] => ([], Ok ())
  | c :: l' => match plan c with
               | Ok d => (map (pair c) d ++ (plans l').1, (plans l').2)
               | Raise e => ([], Raise e)
               end
  end.

Definition lines_of (dry : bool) (s : Z * (Z * by_path)) : list text :=
  count_line s.1 s.2 :: if dry then [] else [rc_line "  " (ssh (call_of s))].

Definition effect (dry : bool) (w : io) (l : list (Z * (Z * by_path))) : io :=
  Io (io_out w ++ (l ≫= lines_of dry)) (io_calls w ++ if dry then [] else map call_of l).

Lemma effect_app dry w l l' : effect dry w (l ++ l') = effect dry (effect dry w l) l'.
Proof.
  unfold effect. cbn. rewrite bind_app, !app_assoc. f_equal.
  destruct dry; [by rewrite !app_nil_r|]. by rewrite map_app, app_assoc.
Qed.

Lemma effect_nil dry w : effect dry w [] = w.
Proof. unfold effect. destruct w, dry; cbn; by rewrite !app_nil_r. Qed.

Lemma send_one dry change w x : send ssh dry change w x = effect dry w [(change, x)].
Proof.
  unfold send, effect. destruct dry; cbn; [by rewrite app_nil_r|].
  unfold review, print_line. cbn. by rewrite <-app_assoc.
Qed.

Lemma send_effect dry change l w :
  foldl (send ssh dry change) w l = effect dry w (map (pair change) l).
Proof.
  revert w. induction l as [|x l IH]; intros w; cbn [foldl map]; [by rewrite effect_nil|].
  by rewrite IH, send_one, <-effect_app.
Qed.

Lemma post_change_effect dry w c :
  post_change urlopen ssh dry R w c =
  let! d := plan c in Ok (effect dry w (map (pair c) d)).
Proof.
  unfold post_change, plan. destruct (get urlopen (comments_url c)) as [j|e]; [cbn [res_bind]|done].
  destruct (all_roots j) as [m|e]; [cbn [res_bind]|done].
  destruct (group_rows R c m) as [d|e]; [cbn [res_bind]|done]. by rewrite send_effect.
Qed.

Lemma post_changes_effect dry only w l :
  post_changes urlopen ssh dry only R w l =
  (effect dry w (plans (filter (selected only) l)).1, (plans (filter (selected only) l)).2).
Proof.
  revert w. induction l as [|c l IH]; intros w; [cbn; by rewrite effect_nil|].
  assert (negb (bool_decide (only = [])) && negb (bool_decide (c ∈ only)) =
          bool_decide (¬ selected only c)) as E.
  { rewrite <-!bool_decide_not, <-bool_decide_and. apply bool_decide_ext.
    unfold selected. tauto. }
  cbn [post_changes]. rewrite E. destruct (decide (selected only c)) as [Hs|Hs].
  - rewrite filter_cons_True, bool_decide_eq_false_2 by tauto. rewrite post_change_effect.
    cbn [plans]. destruct (plan c) as [d|e]; cbn [res_bind fst snd].
    + by rewrite IH, effect_app.
    + by rewrite effect_nil.
  - by rewrite filter_cons_False, bool_decide_eq_true_2.
Qed.
End plan.

(** ** Runs in which every row finds its comment *)

(** The server answers for a change with these comments. *)
Definition serves (urlopen : text → res text) (change : Z) (paths : list (text * list json)) : Prop :=
  get urlopen (comments_url change) = Ok (comments_json paths) ∧ ids_ok paths.

(** The replies of a list of calls: change, patch set, path and reply. *)
Definition flat_sent (s : list (Z * (Z * by_path))) : list (Z * (Z * text * json)) :=
  s ≫= λ x, map (pair x.1) (flat_ps [x.2]).

(** Calls in the order of changes, and of patch sets within a change. *)
Definition before (x y : Z * (Z * by_path)) : Prop :=
  (x.1 < y.1 ∨ x.1 = y.1 ∧ x.2.1 < y.2.1)%Z.

Lemma flat_sent_app s t : flat_sent (s ++ t) = flat_sent s ++ flat_sent t.
Proof. apply bind_app. Qed.

Lemma flat_sent_pair c d : flat_sent (map (pair c) d) = map (pair c) (flat_ps d).
Proof.
  unfold flat_sent, flat_ps. induction d as [|x d IH]; [done|].
  change (map (pair c) (x :: d)) with ((c, x) :: map (pair c) d). cbn.
  cbn in IH. rewrite IH, app_nil_r. by rewrite map_app.
Qed.

Lemma filter_in {A} (P Q : A → Prop) `{∀ x, Decision (P x), ∀ x, Decision (Q x)} (l : list A) :
  (∀ x, x ∈ l → P x ↔ Q x) → filter P l = filter Q l.
Proof.
  induction l as [|x l IH]; intros Hl; [done|].
  assert (filter P l = filter Q l) as E by (apply IH; intros y Hy; apply Hl; by right).
  rewrite !filter_cons. assert (P x ↔ Q x) as Hx by (apply Hl; by left).
  destruct (decide (P x)), (decide (Q x)); tauto || by rewrite E.
Qed.

Section complete.
Context (urlopen : text → res text) (R : list reply_row).
Context (paths : Z → list (text * list json)) (f : reply_row → Z * text * json).

(** The server knows the change, and every row of it is a reply to one of its comments. *)
Definition answered (c : Z) : Prop :=
  serves urlopen c (paths c) ∧ ∀ r, r ∈ R → r_change r = c → answers (paths c) r (f r).

Lemma plan_answered c :
  answered c →
  ∃ d, plan urlopen R c = Ok d ∧ flat_ps d ≡ₚ map f (of_change c R) ∧
    StronglySorted (λ x y, (x.1 < y.1)%Z) d ∧ (∀ ps x, (ps, x) ∈ d → paths_ok x).
Proof.
  intros [[Hg Hi] Ha].
  assert (all_roots (comments_json (paths c)) = Ok (foldl add_listed ∅ (listed (paths c)))) as Hr
    by apply all_roots_listed, Hi.
  destruct (group_rows_from (paths c) _ c f Hi Hr R [] Ha) as (d & E & Hp & Hk & Hx).
  { split; [constructor|]. intros ps x Hin. by apply elem_of_nil in Hin. }
  exists (sorted_ps d). unfold plan. rewrite Hg. cbn [res_bind]. rewrite Hr. cbn [res_bind].
  unfold group_rows. rewrite E. split_and!; [done|by rewrite flat_sorted|by apply sorted_ps_strict|].
  intros ps x Hin. apply (Hx ps). unfold sorted_ps in Hin.
  by rewrite (merge_sort_Permutation ps_le d) in Hin.
Qed.

Lemma plans_answered l :
  StronglySorted (λ x y, (x < y)%Z) l → Forall answered l →
  ∃ s, plans urlopen R l = (s, Ok ()) ∧ StronglySorted before s ∧ Forall (λ x, x.1 ∈ l) s ∧
    flat_sent s ≡ₚ map (λ r, (r_change r, f r)) (l ≫= λ c, of_change c R) ∧
    Forall (λ x, paths_ok x.2.2) s.
Proof.
  induction 1 as [|c l Hl IH Hc]; intros Ha; [by exists []; split_and!; constructor|].
  apply Forall_cons in Ha as [Hac Hal]. destruct (IH Hal) as (s & E & Hs & Hm & Hf & Hk).
  destruct (plan_answered c Hac) as (d & Ed & Hfd & Hsd & Hkd).
  exists (map (pair c) d ++ s). cbn [plans]. rewrite Ed, E. split_and!; [done|..].
  - apply StronglySorted_app_2; [|
      clear -Hsd; induction Hsd as [|x d _ IH Hx]; cbn; constructor; [done|];
      rewrite Forall_map; eapply Forall_impl; [exact Hx|]; intros y Hy; right; by split|done].
    intros x y Hx Hy. apply list_elem_of_In, in_map_iff in Hx as (z & <- & _).
    rewrite Forall_forall in Hc. rewrite Forall_forall in Hm. left. by apply Hc, Hm.
  - apply Forall_app. split; [|eapply Forall_impl; [exact Hm|]; intros; by right].
    rewrite Forall_map. apply Forall_forall. intros. by left.
  - rewrite flat_sent_app, flat_sent_pair. cbn. rewrite map_app. apply Permutation_app; [|done].
    rewrite Hfd. rewrite map_map. unfold of_change. clear.
    induction R as [|r R' IH]; [done|]. rewrite filter_cons. destruct (decide _) as [<-|]; [|done].
    cbn. by rewrite IH.
  - apply Forall_app. split; [|done]. rewrite Forall_map. apply Forall_forall.
    intros [ps x] Hin. by eapply Hkd.
Qed.

Lemma selected_sorted only : StronglySorted (λ x y, (x < y)%Z) (filter (selected only) (changes R)).
Proof.
  induction (changes_strict R) as [|c l _ IH Hc]; [constructor|]. rewrite filter_cons.
  destruct (decide _); [|done]. constructor; [done|].
  apply Forall_forall. intros x [_ Hx]%list_elem_of_filter.
  rewrite Forall_forall in Hc. by apply Hc.
Qed.

Lemma selected_rows only :
  filter (selected only) (changes R) ≫= (λ c, of_change c R) ≡ₚ
  filter (λ r, selected only (r_change r)) R.
Proof.
  rewrite rows_by_change by apply strict_NoDup, selected_sorted.
  erewrite filter_in; [done|]. intros r Hr. cbn. rewrite list_elem_of_filter, changes_spec.
  split; [by intros [? _]|]. intros ?. split; [done|]. by exists r.
Qed.
End complete.

(** ** Runs that stop *)

Definition unknown (paths : list (text * list json)) (r : reply_row) : Prop :=
  r_cid r ∉ map (comment_id ∘ snd) (listed paths).

Lemma group_row_skip c roots d r : r_change r ≠ c → group_row c roots d r = Ok d.
Proof. intros H. unfold group_row. by rewrite (proj2 (Z.eqb_neq _ _)). Qed.

Lemma group_rows_of_change c roots R d :
  foldM (group_row c roots) (of_change c R) d = foldM (group_row c roots) R d.
Proof.
  revert d. unfold of_change. induction R as [|r R IH]; intros d; [done|]. rewrite filter_cons.
  destruct (decide (r_change r = c)) as [Hr|Hr]; cbn [foldM].
  - by destruct (group_row c roots d r); cbn [res_bind].
  - by rewrite group_row_skip by done.
Qed.

Lemma group_rows_unknown paths c roots f R d :
  ids_ok paths → all_roots (comments_json paths) = Ok roots →
  (∀ r, r ∈ R → r_change r = c → unknown paths r ∨ answers paths r (f r)) →
  (∃ r, r ∈ R ∧ r_change r = c ∧ unknown paths r) →
  ∃ r, r ∈ R ∧ r_change r = c ∧ unknown paths r ∧
    foldM (group_row c roots) R d = Raise (KeyError (String.string_of_list_ascii (r_cid r))).
Proof.
  intros Hi Hroots. revert d. induction R as [|r R IH]; intros d Ha (x & Hx & Hxc & Hxu).
  { by apply elem_of_nil in Hx. }
  assert (∀ r', r' ∈ R → r_change r' = c → unknown paths r' ∨ answers paths r' (f r')) as Ha'.
  { intros r' Hr'. apply Ha. by right. }
  assert (∀ d', ¬ (r_change r = c ∧ unknown paths r) → ∃ r', r' ∈ r :: R ∧ r_change r' = c ∧
    unknown paths r' ∧ foldM (group_row c roots) R d' =
      Raise (KeyError (String.string_of_list_ascii (r_cid r')))) as Hrest.
  { intros d' Hn. destruct (IH d' Ha') as (r' & Hr' & Hrest).
    - exists x. split_and!; [|done..]. apply elem_of_cons in Hx as [->|Hx]; [|done]. by destruct Hn.
    - exists r'. split; [by right|done]. }
  cbn [foldM]. destruct (decide (r_change r = c)) as [Hr|Hr].
  2:{ rewrite group_row_skip by done. apply Hrest. by intros []. }
  destruct (decide (r_cid r ∈ map (comment_id ∘ snd) (listed paths))) as [Hk|Hk].
  - destruct (Ha r) as [Hu|Hans]; [by left|done|done|].
    rewrite (group_row_answers paths c roots d r (f r)) by done. apply Hrest. by intros [_ []].
  - exists r. split_and!; [by left|done|done|]. unfold group_row. rewrite Hr, Z.eqb_refl. cbn [negb].
    rewrite all_roots_listed in Hroots by apply Hi. injection Hroots as <-.
    unfold root_of. rewrite foldl_add_other by done. by rewrite lookup_empty.
Qed.

Lemma plan_ext urlopen R R' c : of_change c R = of_change c R' → plan urlopen R c = plan urlopen R' c.
Proof.
  intros E. unfold plan, group_rows. destruct (get _ _) as [j|]; cbn [res_bind]; [|done].
  destruct (all_roots j) as [m|]; cbn [res_bind]; [|done].
  by rewrite <-(group_rows_of_change c m R), E, group_rows_of_change.
Qed.

Lemma plans_ext urlopen R R' l :
  Forall (λ c, of_change c R = of_change c R') l → plans urlopen R l = plans urlopen R' l.
Proof.
  induction 1 as [|c l Hc _ IH]; [done|]. cbn [plans].
  by rewrite (plan_ext urlopen R R' c Hc), IH.
Qed.

Lemma plans_stop urlopen R l c l' s e :
  plans urlopen R l = (s, Ok ()) → plan urlopen R c = Raise e →
  plans urlopen R (l ++ c :: l') = (s, Raise e).
Proof.
  revert s. induction l as [|c0 l IH]; intros s; cbn [plans app].
  { intros [= <-] ->. done. }
  destruct (plan urlopen R c0) as [d|e0]; [|done].
  destruct (plans urlopen R l) as [s0 r0]. cbn [fst snd]. intros [= <- ->] Hc.
  by rewrite (IH s0).
Qed.

Lemma sorted_split (c : Z) L :
  StronglySorted (λ x y, (x < y)%Z) L → c ∈ L →
  ∃ L', L = filter (λ x, (x < c)%Z) L ++ c :: L'.
Proof.
  induction 1 as [|x L HL IH Hx]; [by intros ?%elem_of_nil|]. rewrite Forall_forall in Hx.
  intros [->|Hc]%elem_of_cons.
  - exists L. rewrite filter_cons_False by lia.
    assert (filter (λ y, (y < x)%Z) L = []) as ->; [|done].
    clear -Hx. induction L as [|y L IHL]; [done|].
    assert (x < y)%Z by (apply Hx; by left). rewrite filter_cons_False by lia.
    apply IHL. intros z Hz. apply Hx. by right.
  - destruct (IH Hc) as (L' & E). exists L'. rewrite filter_cons_True by by apply Hx.
    cbn. by rewrite <-E.
Qed.

Lemma changes_below only R c :
  filter (selected only) (changes (filter (λ r, (r_change r < c)%Z) R)) =
  filter (λ x, (x < c)%Z) (filter (selected only) (changes R)).
Proof.
  assert (∀ l, StronglySorted (λ x y, (x < y)%Z) l → StronglySorted Z.le l) as Hle.
  { induction 1 as [|x l _ IH Hx]; constructor; [done|]. eapply Forall_impl; [exact Hx|].
    cbn. lia. }
  assert (∀ l, StronglySorted (λ x y, (x < y)%Z) l →
    StronglySorted (λ x y, (x < y)%Z) (filter (λ x, (x < c)%Z) l)) as Hf.
  { induction 1 as [|x l _ IH Hx]; [constructor|]. rewrite filter_cons.
    destruct (decide _); [|done]. constructor; [done|]. apply Forall_forall.
    intros y [_ Hy]%list_elem_of_filter. rewrite Forall_forall in Hx. by apply Hx. }
  pose proof (selected_sorted R only) as H1.
  pose proof (selected_sorted (filter (λ r, (r_change r < c)%Z) R) only) as H2.
  apply (StronglySorted_unique Z.le); [by apply Hle|by apply Hle, Hf|].
  apply NoDup_Permutation; [by apply strict_NoDup|by apply strict_NoDup, Hf|].
  intros x. rewrite !list_elem_of_filter, !changes_spec.
  setoid_rewrite list_elem_of_filter. split.
  - intros [Hs (r & [Hr Hin] & <-)]. split; [done|]. split; [done|]. by exists r.
  - intros [Hc [Hs (r & Hin & <-)]]. split; [done|]. by exists r.
Qed.

(** ** Bodies of plain values *)

Lemma jget_plain k c v : jget k c = Ok v → plain c = true → plain v = true.
Proof.
  destruct c as [| | | | | |l]; cbn [jget]; try done.
  destruct (dict_find (lit k) l) as [x|] eqn:E; [|done]. intros [= ->].
  cbn [plain]. intros [_ H]%andb_true_iff. rewrite forallb_forall in H.
  apply dict_find_elem, list_elem_of_In, H, andb_true_iff in E. apply E.
Qed.

Definition plain_row (r : reply_row) : Prop := is_utf8 (r_cid r) = true ∧ is_utf8 (r_msg r) = true.

Lemma answers_plain paths r t :
  answers paths r t → plain_row r →
  Forall (λ x, is_utf8 x.1 = true ∧ plain x.2 = true) (listed paths) →
  is_utf8 t.1.2 = true ∧ plain t.2 = true.
Proof.
  intros [path c ps loc Hin _ _ Hloc] [Hc Hm] Hp. rewrite Forall_forall in Hp.
  destruct (Hp _ Hin) as [Hpath Hpc]. split; [done|].
  destruct Hloc as [range e Hr He|l _ Hl|_ _]; cbn [snd app plain];
    (apply andb_true_iff; split; [by apply bool_decide_eq_true; vm_compute; apply (bool_decide_unpack _)|]);
    cbn; rewrite Hc, Hm; cbn [andb].
  - pose proof (jget_plain _ _ _ Hr Hpc) as H1. by rewrite H1, (jget_plain _ _ _ He H1).
  - by rewrite (jget_plain _ _ _ Hl Hpc).
  - done.
Qed.

Lemma review_body_plain comments :
  NoDup comments.*1 →
  (∀ p rep reps, (p, reps) ∈ comments → rep ∈ reps → plain rep = true) →
  (∀ p reps, (p, reps) ∈ comments → is_utf8 p = true) →
  plain (review_body comments) = true.
Proof.
  intros Hd Hr Hp. unfold review_body.
  assert (plain (JObj (map (λ x, (x.1, JList x.2)) comments)) = true) as H.
  2:{ revert H. generalize (JObj (map (λ x, (x.1, JList x.2)) comments)) as o. intros o H.
      cbn [plain forallb fst snd]. rewrite H. vm_compute. reflexivity. }
  cbn [plain]. apply andb_true_iff. split.
  - apply bool_decide_eq_true. revert Hd. clear. generalize comments as l. intros l.
    replace (map (λ x, (x.1, JList x.2)) l).*1 with l.*1; [done|].
    induction l as [|x l IH]; [done|]. cbn. by f_equal.
  - apply forallb_forall. intros x Hx. apply in_map_iff in Hx as ([p reps] & <- & Hin).
    apply list_elem_of_In in Hin. cbn [fst snd plain]. rewrite (Hp _ _ Hin). cbn [andb].
    apply forallb_forall. intros rep Hrep. eapply Hr; [exact Hin|]. by apply list_elem_of_In.
Qed.
