(* ===== verification/RepliesLines.v ===== *)
(** The lines of replies.md: what the patterns of post_replies.py read from a row of the
    table of a-1017 and from an item of the lists of a-1018 and a-1019. *)
From S2P Require Import Prelude PyStr PyParse PyRe PyRegex Json Replies RepliesTable.
From S2P Require R3Facts.

(** ** Rows of the table *)

Definition alnum (c : ascii) : bool := is_word c && negb (Ascii.eqb c "_").
Definition some_of (p : ascii → bool) (w : text) : bool := negb (bool_decide (w = [])) && forallb p w.

Definition row_line (ds a b msg : text) : text :=
  lit "| " ++ ds ++ lit " | " ++ (a ++ lit "_" ++ b) ++ lit " | " ++ msg ++ lit " |".

Lemma some_of_cons p w : some_of p w = true → ∃ c w', w = c :: w' ∧ p c = true ∧ forallb p w' = true.
Proof.
  unfold some_of. destruct w as [|c w]; [done|]. intros [_ [Hc Hw]%andb_true_iff]%andb_true_iff. eauto.
Qed.

Lemma alnum_word w : forallb alnum w = true → forallb is_word w = true.
Proof.
  rewrite !forallb_forall. intros H c Hc. by apply H, andb_true_iff in Hc as [? _].
Qed.

(** Nothing of [w] starts with [p], and neither does what follows it. *)
Lemma suffix_stops p c w u v s :
  u ≠ [] → c :: w = u ++ v → forallb (λ x, negb (p x)) w = true → stops p s = true →
  stops p (v ++ s) = true.
Proof.
  destruct u as [|c' u]; [done|]. intros _ [= -> ->]. rewrite forallb_app.
  intros [_ Hv]%andb_true_iff Hs. destruct v as [|x v]; [done|].
  by apply andb_true_iff in Hv as [Hx _].
Qed.

Lemma alnum_no_bar w : forallb alnum w = true → forallb (λ c, negb (Ascii.eqb "_" c)) w = true.
Proof.
  rewrite !forallb_forall. intros H c Hc. apply H, andb_true_iff in Hc as [_ Hc].
  by rewrite Ascii.eqb_sym.
Qed.

(** The text read by a pattern so far does not change what comes next. *)
Ltac next_lit := rewrite run_seq; apply lit_then.
Ltac next_group := rewrite run_seq, run_group; cbn [m_prev m_rest m_caps].

Lemma row17_match ds a b msg :
  some_of is_digit ds = true → some_of alnum a = true → some_of alnum b = true →
  forallb not_nl msg = true →
  ∃ m, re_match ROW17 (row_line ds a b msg) = Some m ∧
    group_text m 1 = ds ∧ group_text m 2 = a ++ lit "_" ++ b ∧ group_text m 3 = msg.
Proof.
  intros (d & ds' & -> & Hd & Hds)%some_of_cons (x & a' & -> & Hx & Ha)%some_of_cons
    (y & b' & -> & Hy & Hb)%some_of_cons Hm.
  apply andb_true_iff in Hx as [Hx Hx']. apply andb_true_iff in Hy as [Hy Hy'].
  eexists. split.
  { unfold re_match, ROW17, start, row_line.
    next_lit. next_group. apply plus_whole; [done..|]. cbn [m_prev m_rest m_caps].
    next_lit. next_group.
    rewrite run_seq_bind, <-!app_assoc. cbn [app].
    apply (plus_first is_word x a' (lit "_" ++ y :: b')); [done| |done| |].
    { rewrite forallb_app. rewrite (alnum_word a' Ha). cbn. by rewrite Hy, (alnum_word b' Hb). }
    { intros pv u v Hu E. rewrite run_seq_bind. apply lit_fails.
      eapply suffix_stops; [exact Hu|exact E| |done].
      apply alnum_no_bar. cbn. unfold alnum at 1. by rewrite Hy, Hy', Hb. }
    rewrite run_seq_bind, <-app_assoc. apply lit_then. cbn [app].
    apply plus_whole; [done|by apply alnum_word|done|]. cbn [m_prev m_rest m_caps].
    next_lit. next_group.
    rewrite <-(app_nil_r (lit " |")).
    apply (star_upto not_nl msg (lit " |") []); [by rewrite forallb_app, Hm|done| |].
    { intros pv u v Hu E. rewrite run_seq. apply lit_fails.
      eapply suffix_stops; [exact Hu|exact E|done|done]. }
    cbn [m_prev m_rest m_caps]. next_lit. reflexivity. }
  split_and!; apply between_eq; [done| |]; cbn; by rewrite <-?app_assoc, ?app_nil_r.
Qed.

(** ** Items of the list *)

Definition hex8 (w : text) : bool := (length w =? 8) && forallb is_hexdigit w.

(** The tag of an item: (#n), a word, or two words. *)
Inductive item_tag := Number (ds : text) | Word (w : text) | Words (w1 w2 : text).

Definition tag_text (t : item_tag) : text :=
  match t with
  | Number ds => lit "(#" ++ ds ++ lit ")"
  | Word w => w
  | Words w1 w2 => w1 ++ lit " " ++ w2
  end.

(** A colon or a dash ends the tag. *)
Definition sep_text (dash : bool) : text := if dash then lit " —" else lit ":".

Definition item_line (h1 h2 : text) (t : item_tag) (dash : bool) (msg : text) : text :=
  lit "- " ++ (h1 ++ lit "_" ++ h2) ++ lit " " ++ tag_text t ++ sep_text dash ++ lit " " ++ msg.

(** A separator and a blank stand here. *)
Definition sep_here (s : text) : bool := py_startswith s (lit ": ") || py_startswith s (lit " — ").

(** The first word of a text, or a part of it, has a separator after it. *)
Fixpoint sep_after (seen : bool) (s : text) : bool :=
  (seen && sep_here s) ||
  match s with
  | c :: s' => not_space c && sep_after true s'
  | [] => false
  end.

(** The text starts as (#n) does. *)
Definition numbered (s : text) : bool :=
  match s with
  | a :: b :: d :: _ => Ascii.eqb a "(" && Ascii.eqb b "#" && is_digit d
  | _ => false
  end.

(** A tag that the pattern takes as it is: a number; or words that do not look like one, with
    no separator after a word of the reply that the pattern could take as one more. *)
Definition tag_ok (t : item_tag) (dash : bool) (msg : text) : bool :=
  match t with
  | Number ds => some_of is_digit ds
  | Word w =>
      some_of not_space w && negb (numbered w) &&
      negb (sep_after false (if dash then lit "— " ++ msg else msg)) &&
      (dash || negb (py_startswith msg (lit "— ")))
  | Words w1 w2 =>
      some_of not_space w1 && negb (numbered w1) && some_of not_space w2 &&
      (dash || negb (py_startswith msg (lit "— ")))
  end.

Lemma hex8_spec w : hex8 w = true → 8 = length w ∧ forallb is_hexdigit w = true.
Proof. intros [Hl Hw]%andb_true_iff. by apply Nat.eqb_eq in Hl. Qed.

(** ** The parts of the pattern for an item *)

Definition SEP : regex := RLit (lit ":") ‖ RLit (lit " —").
Definition REST : regex := RLit (lit " ") ⋅ RGroup 2 (RStar true (RSet not_nl)) ⋅ RLook Eol.

Lemma lit_absent w pv s cs : py_startswith s w = false → re_run (RLit w) (Place pv s cs) = [].
Proof.
  revert pv s. induction w as [|c w IH]; intros pv s Hs.
  { pose proof (py_startswith_app [] s) as H. cbn [app] in H. by rewrite H in Hs. }
  cbn [RLit]. rewrite run_seq. destruct s as [|d s]; [done|]. cbn [re_run m_rest].
  destruct (Ascii.eqb c d) eqn:E; [|done]. apply Ascii.eqb_eq in E as ->.
  rewrite (bind_one _ _ _ eq_refl). apply IH.
  destruct (py_startswith s w) eqn:E; [|done]. apply py_startswith_true in E as [r ->].
  pose proof (py_startswith_app (d :: w) r) as H. cbn [app] in H. by rewrite H in Hs.
Qed.

Lemma sep_absent pv s cs : sep_here s = false → re_run (SEP ⋅ REST) (Place pv s cs) = [].
Proof.
  intros [Hc Hd]%orb_false_iff. rewrite run_seq. unfold SEP, REST.
  change (re_run (?a ‖ ?b) ?x) with (re_run a x ++ re_run b x). rewrite bind_app.
  assert (∀ w (f : place → list place), py_startswith s (w ++ lit " ") = false →
    re_run (RLit w) (Place pv s cs) ≫= (λ y, re_run (RLit (lit " ")) y ≫= f) = []) as H.
  { intros w f Hw. destruct (py_startswith s w) eqn:E; [|by rewrite lit_absent].
    apply py_startswith_true in E as [r ->]. erewrite bind_one by apply run_lit.
    rewrite lit_absent; [done|]. destruct (py_startswith r (lit " ")) eqn:E'; [|done].
    apply py_startswith_true in E' as [z ->]. rewrite app_assoc, py_startswith_app in Hw. done. }
  apply app_nil. split; [by apply (H (lit ":"))|by apply (H (lit " —"))].
Qed.

Lemma sep_then dash msg pv cs m :
  (∀ pv, head (re_run REST (Place pv (lit " " ++ msg) cs)) = Some (m pv)) →
  head (re_run (SEP ⋅ REST) (Place pv (sep_text dash ++ lit " " ++ msg) cs)) =
    Some (m (after pv (sep_text dash))).
Proof.
  intros H. rewrite run_seq. unfold SEP, sep_text. destruct dash.
  - apply alt_right; [by rewrite lit_absent|]. apply lit_then, H.
  - apply alt_left, lit_then, H.
Qed.

Lemma star_none p s cs (f : place → list place) n pv :
  (∀ pv u v, s = u ++ v → forallb p u = true → f (Place pv v cs) = []) →
  star_run (re_run (RSet p)) true n (Place pv s cs) ≫= f = [].
Proof.
  revert s pv. induction n as [|n IH]; intros s pv Hf.
  { cbn. by rewrite (Hf pv [] s), app_nil_r. }
  destruct s as [|c s].
  { cbn. by rewrite (Hf pv [] []). }
  destruct (p c) eqn:Hc.
  - rewrite star_set_cons by done. rewrite (Hf pv [] (c :: s)) by done.
    rewrite IH; [done|]. intros pv' u v -> Hu. apply (Hf _ (c :: u)); [done|]. cbn. by rewrite Hc.
  - rewrite star_set_stop; [by rewrite (Hf pv [] (c :: s))|]. cbn. by rewrite Hc.
Qed.

Lemma sep_after_split seen s u v :
  sep_after seen s = false → s = u ++ v → forallb not_space u = true → seen = true ∨ u ≠ [] →
  sep_here v = false.
Proof.
  revert seen s. induction u as [|c u IH]; intros seen s H -> Hu Hs.
  - destruct Hs as [->|]; [|done]. cbn [app] in H. destruct v; apply orb_false_iff in H as [H _]; done.
  - apply andb_true_iff in Hu as [Hc Hu]. cbn [app sep_after] in H.
    apply orb_false_iff in H as [_ H]. rewrite Hc in H. by eapply IH; [exact H|..|left].
Qed.

(** A second word that no separator ends. *)
Lemma no_second_word s pv cs :
  sep_after false s = false →
  re_run (RLit (lit " ") ⋅ RPlus true (RSet not_space)) (Place pv (lit " " ++ s) cs)
    ≫= re_run (SEP ⋅ REST) = [].
Proof.
  intros Hs. rewrite run_seq_bind. erewrite bind_one by apply run_lit. unfold RPlus. rewrite run_seq_bind.
  destruct s as [|c s]; [done|]. destruct (not_space c) eqn:Hc.
  - erewrite bind_one by (apply run_set_yes; exact Hc). rewrite run_star. apply star_none.
    intros pv' u v -> Hu. apply sep_absent. eapply (sep_after_split false _ (c :: u) v); [exact Hs|done| |by right].
    cbn. by rewrite Hc.
  - rewrite run_set_no; [done|]. cbn. by rewrite Hc.
Qed.

Lemma not_numbered s pv cs (f : place → list place) :
  numbered s = false →
  re_run (RLit (lit "(#") ⋅ RPlus true (RSet is_digit) ⋅ RLit (lit ")")) (Place pv s cs) ≫= f = [].
Proof.
  intros Hn. rewrite run_seq_bind. destruct (py_startswith s (lit "(#")) eqn:E; [|by rewrite lit_absent].
  apply py_startswith_true in E as [r ->]. erewrite bind_one by apply run_lit.
  rewrite run_seq_bind. unfold RPlus. rewrite run_seq_bind. destruct r as [|d r]; [done|].
  change (is_digit d = false) in Hn. rewrite run_set_no; [done|]. cbn. by rewrite Hn.
Qed.

Lemma numbered_app w c r :
  w ≠ [] → Ascii.eqb c "#" = false → is_digit c = false → numbered w = false →
  numbered (w ++ c :: r) = false.
Proof.
  intros Hne Hc Hd Hw. destruct w as [|x [|y [|z w]]]; [done|..|exact Hw]; cbn [app numbered].
  - destruct r as [|z r]; [done|]. by rewrite Hc, andb_false_r.
  - by rewrite Hd, andb_false_r.
Qed.

Lemma some_of_ne p w : some_of p w = true → w ≠ [].
Proof. by intros (c & w' & -> & _)%some_of_cons. Qed.

Lemma sep_numbered w dash r : some_of not_space w = true → numbered w = false → numbered (w ++ sep_text dash ++ r) = false.
Proof. intros Hw%some_of_ne Hn. destruct dash; by apply numbered_app. Qed.

(** One word, then what ends it. *)
Lemma word_then w w2 s pv cs (f : place → list place) m :
  some_of not_space w = true → forallb not_space w2 = true → stops not_space s = true →
  (∀ pv u v, u ≠ [] → w2 = u ++ v → f (Place pv (v ++ s) cs) = []) →
  head (f (Place (after pv w) (w2 ++ s) cs)) = Some m →
  head (re_run (RPlus true (RSet not_space)) (Place pv (w ++ w2 ++ s) cs) ≫= f) = Some m.
Proof.
  intros (c & w' & -> & Hc & Hw)%some_of_cons H2 Hs Hf Hm. cbn [app].
  apply (plus_first not_space c w' w2 s cs f pv m); [done|by rewrite forallb_app, Hw|done..].
Qed.

Lemma word_only w s pv cs (f : place → list place) m :
  some_of not_space w = true → stops not_space s = true →
  head (f (Place (after pv w) s cs)) = Some m →
  head (re_run (RPlus true (RSet not_space)) (Place pv (w ++ s) cs) ≫= f) = Some m.
Proof.
  intros Hw Hs Hm. apply (word_then w [] s); [done..| |done].
  intros pv' u v Hu E. symmetry in E. by apply app_nil in E as [-> _].
Qed.

(** The colon that the word takes with it at first. *)
Lemma colon_back msg (f : place → list place) cs :
  (∀ pv, f (Place pv (lit " " ++ msg) cs) = []) →
  ∀ pv u v, u ≠ [] → lit ":" = u ++ v → f (Place pv (v ++ lit " " ++ msg) cs) = [].
Proof.
  intros Hf pv u v Hu E. destruct u as [|x [|y u]]; [done| |by destruct v].
  injection E as _ E. destruct v; [apply Hf|done].
Qed.

Lemma dash_here dash msg :
  dash = false → dash || negb (py_startswith msg (lit "— ")) = true → sep_here (lit " " ++ msg) = false.
Proof.
  intros -> H%negb_true_iff. unfold sep_here. apply orb_false_iff. split; [done|].
  change (py_startswith msg (lit "— ") = false). exact H.
Qed.

Lemma run_eps x (f : place → list place) : re_run REps x ≫= f = f x.
Proof. by apply bind_one. Qed.

Lemma tag_then t dash msg pv cs m :
  tag_ok t dash msg = true →
  (∀ pv, head (re_run REST (Place pv (lit " " ++ msg) cs)) = Some (m pv)) →
  ∃ pv', head (re_run (TAG ⋅ SEP ⋅ REST) (Place pv (tag_text t ++ sep_text dash ++ lit " " ++ msg) cs))
         = Some (m pv').
Proof.
  intros Ht Hm. rewrite run_seq. unfold TAG.
  assert (∀ pv, head (re_run (SEP ⋅ REST) (Place pv (sep_text dash ++ lit " " ++ msg) cs)) =
    Some (m (after pv (sep_text dash)))) as Hsep by (intros; by apply sep_then).
  destruct t as [ds|w|w1 w2]; cbn [tag_ok tag_text] in Ht |- *.
  - apply some_of_cons in Ht as (d & ds' & -> & Hd & Hds). eexists. apply alt_left.
    rewrite <-!app_assoc, run_seq_bind. apply lit_then. rewrite run_seq_bind. cbn [app].
    apply plus_whole; [done..|]. apply lit_then. apply Hsep.
  - apply andb_true_iff in Ht as [[[Hw Hn%negb_true_iff]%andb_true_iff Hs%negb_true_iff]%andb_true_iff Hd].
    destruct dash; eexists; (apply alt_right; [by apply not_numbered, sep_numbered|]);
      rewrite run_seq_bind; unfold ROpt.
    + apply word_only; [done..|].
      apply alt_right; [|rewrite run_eps; apply Hsep].
      apply (no_second_word (lit "— " ++ msg)). exact Hs.
    + apply (word_then w (lit ":") (lit " " ++ msg)); [done..| |].
      { apply (colon_back msg (λ y, re_run ((RLit (lit " ") ⋅ RPlus true (RSet not_space)) ‖ REps) y
          ≫= re_run (SEP ⋅ REST))). intros pv'. change (re_run (?a ‖ ?b) ?x) with (re_run a x ++ re_run b x).
        rewrite bind_app, no_second_word by exact Hs. cbn [app].
        rewrite run_eps. by apply sep_absent, (dash_here false). }
      apply alt_right; [by rewrite run_seq_bind, lit_absent|].
      rewrite run_eps. apply Hsep.
  - apply andb_true_iff in Ht as [[[Hw Hn%negb_true_iff]%andb_true_iff Hw2]%andb_true_iff Hd].
    exists (after (after (after (after pv w1) (lit " ")) w2) (sep_text dash)). apply alt_right.
    { apply not_numbered. rewrite <-app_assoc. by apply numbered_app; [eapply some_of_ne|..]. }
    rewrite run_seq_bind, <-!app_assoc. unfold ROpt. apply word_only; [done..|].
    apply alt_left. rewrite run_seq_bind. apply lit_then. destruct dash.
    + apply word_only; [done..|apply Hsep].
    + apply (word_then w2 (lit ":") (lit " " ++ msg)); [done..| |apply Hsep].
      apply (colon_back msg (re_run (SEP ⋅ REST))). intros pv'. by apply sep_absent, (dash_here false).
Qed.

Lemma rest_then msg pv cs :
  forallb not_nl msg = true →
  head (re_run REST (Place pv (lit " " ++ msg) cs)) =
    Some (Place (after (after pv (lit " ")) msg) []
            ((2, PyRegex.between (Place (after pv (lit " ")) msg cs)
                         (Place (after (after pv (lit " ")) msg) [] cs)) :: cs)).
Proof. intros Hm. unfold REST. next_lit. next_group. apply star_all; [done|reflexivity]. Qed.

Lemma item_match h1 h2 t dash msg :
  hex8 h1 = true → hex8 h2 = true → tag_ok t dash msg = true → forallb not_nl msg = true →
  ∃ m, re_match ITEM (item_line h1 h2 t dash msg) = Some m ∧
    group_text m 1 = h1 ++ lit "_" ++ h2 ∧ group_text m 2 = msg.
Proof.
  intros [L1 H1]%hex8_spec [L2 H2]%hex8_spec Ht Hm.
  edestruct (tag_then t dash msg) as [pv' E]; [exact Ht|intros pv; by apply rest_then|].
  eexists. split.
  { unfold re_match, ITEM, start, item_line, CID. rewrite <-!app_assoc.
    next_lit. next_group. rewrite L1 at 1.
    rewrite run_seq_bind. apply rep_then; [done|]. rewrite run_seq_bind. apply lit_then.
    rewrite L2. apply rep_then; [done|]. cbn [m_prev m_rest m_caps].
    next_lit. exact E. }
  split; apply between_eq; cbn; by rewrite <-?app_assoc, ?app_nil_r.
Qed.

(** ** Numbers *)

Lemma digits_step c k s g l acc :
  Ascii.eqb c "_" = false → digit_value c = Some k → (k <? 10)%Z = true →
  digits 10 (c :: s) g l acc = digits 10 s true true (acc * 10 + k)%Z.
Proof. intros Hc Hk Hl. cbn [digits]. by rewrite Hc, Hk, Hl. Qed.

Lemma digits_acc d acc :
  digits 10 (uint_text d) true true (Zpos acc) = Some (Zpos (Pos.of_uint_acc d acc)).
Proof.
  revert acc. induction d as [|d IH|d IH|d IH|d IH|d IH|d IH|d IH|d IH|d IH|d IH]; intros acc;
    [done|..]; cbn [uint_text Pos.of_uint_acc]; rewrite <-IH; erewrite digits_step by (vm_compute; reflexivity);
    f_equal; lia.
Qed.

Lemma digits_zero d g l :
  d ≠ Decimal.Nil → digits 10 (uint_text d) g l 0 = Some (Z.of_N (Pos.of_uint d)).
Proof.
  revert g l. induction d as [|d IH|d IH|d IH|d IH|d IH|d IH|d IH|d IH|d IH|d IH];
    intros g l Hd; [done| |cbn [uint_text]; erewrite digits_step by (vm_compute; reflexivity); apply digits_acc..].
  cbn [uint_text Pos.of_uint]. erewrite digits_step by (vm_compute; reflexivity).
  destruct d; [done|by apply IH..].
Qed.

Lemma digit_not_space c : is_digit c = true → is_space c = false.
Proof. destruct c as [[] [] [] [] [] [] [] []]; intros H; (discriminate H || done). Qed.

Lemma uint_digits d : forallb is_digit (uint_text d) = true.
Proof. by induction d. Qed.

(** Text that starts and ends without a blank is not changed by [strip]. *)
Definition no_blank_head (s : text) : bool :=
  match s with c :: _ => negb (is_space c) | [] => false end.
Definition trimmed (s : text) : bool := no_blank_head s && no_blank_head (rev s).

Lemma no_blank_lstrip s t : no_blank_head s = true → py_lstrip (s ++ t) = s ++ t.
Proof. destruct s as [|c s]; [done|]. intros Hc%negb_true_iff. cbn. by rewrite Hc. Qed.

Lemma trimmed_strip s : trimmed s = true → py_lstrip s = s ∧ py_rstrip s = s.
Proof.
  intros [H1 H2]%andb_true_iff. apply (no_blank_lstrip _ []) in H1, H2. rewrite app_nil_r in H1, H2.
  unfold py_rstrip. by rewrite H2, rev_involutive.
Qed.

Lemma digits_no_blank s : some_of is_digit s = true → no_blank_head s = true.
Proof. intros (c & r & -> & Hc & _)%some_of_cons. cbn. by rewrite digit_not_space. Qed.

Lemma uint_trimmed d : d ≠ Decimal.Nil → trimmed (uint_text d) = true.
Proof.
  intros Hd. destruct (uint_text_head d Hd) as (c & r & E & Hc).
  assert (∀ s, forallb is_digit s = true → s ≠ [] → no_blank_head s = true) as H.
  { intros s Hs Hn. apply digits_no_blank. unfold some_of. by rewrite bool_decide_eq_false_2, Hs. }
  apply andb_true_iff. split; apply H.
  - apply uint_digits.
  - by rewrite E.
  - rewrite forallb_forall. intros x Hx%in_rev. pose proof (uint_digits d) as Hu.
    rewrite forallb_forall in Hu. auto.
  - rewrite E. cbn. intros []%eq_sym%app_cons_not_nil.
Qed.

Lemma py_int_text n : (0 ≤ n)%Z → py_int 10 (Z_text n) = Ok n ∧ some_of is_digit (Z_text n) = true.
Proof.
  intros Hn. assert (∃ d, d ≠ Decimal.Nil ∧ Z_text n = uint_text d ∧ Z.of_N (Pos.of_uint d) = n)
    as (d & Hd & -> & Ed).
  { unfold Z_text. pose proof (DecimalZ.of_to n) as Ho.
    destruct n as [|p|p]; [by exists (Decimal.D0 Decimal.Nil)| |lia].
    destruct (Z_int (Zpos p)) as (d & Hd & _ & [[E _]|[E _]]); [|done].
    rewrite E in Ho |- *. by exists d. }
  destruct (trimmed_strip _ (uint_trimmed d Hd)) as [E1 E2].
  destruct (uint_text_head d Hd) as (c & r & E & Hc). split.
  - unfold py_int. rewrite E1, E2. rewrite <-Ed, <-(Z.mul_1_l (Z.of_N _)).
    pose proof (digits_zero d false false Hd) as Hz. rewrite E in Hz |- *.
    assert (Ascii.eqb c "-" = false ∧ Ascii.eqb c "+" = false) as [-> ->].
    { revert Hc. destruct c as [[] [] [] [] [] [] [] []]; intros H; (discriminate H || done). }
    destruct r as [|x r]; [by rewrite Hz|]. rewrite andb_false_r. by rewrite Hz.
  - unfold some_of. rewrite uint_digits, andb_true_r, E. done.
Qed.

(** ** Files *)

(** A file of lines. *)
Definition file_of (ls : list text) : text := ls ≫= λ l, l ++ [nl].

Definition one_line (l : text) : bool := forallb not_nl l && R3Facts.crfree l.

Lemma file_lines_line l cur rest :
  forallb not_nl l = true →
  file_lines_from (l ++ nl :: rest) cur = (rev cur ++ l ++ [nl]) :: file_lines_from rest [].
Proof.
  revert cur. induction l as [|c l IH]; intros cur Hl; cbn [app file_lines_from]; [done|].
  apply andb_true_iff in Hl as [Hc Hl]. apply negb_true_iff in Hc. rewrite Hc, IH by done.
  cbn [rev]. by rewrite <-app_assoc.
Qed.

Lemma file_lines_of ls :
  Forall (λ l, one_line l = true) ls →
  file_lines (R3Engine.R3.universal_newlines (file_of ls)) = map (λ l, l ++ [nl]) ls.
Proof.
  intros Hls. rewrite R3Facts.crfree_universal.
  - unfold file_lines. induction Hls as [|l ls Hl _ IH]; [done|].
    apply andb_true_iff in Hl as [Hl _].
    change (file_of (l :: ls)) with ((l ++ [nl]) ++ file_of ls). rewrite <-app_assoc. cbn [app].
    rewrite file_lines_line by done. cbn [map]. by rewrite IH.
  - induction Hls as [|l ls Hl _ IH]; [done|]. apply andb_true_iff in Hl as [_ Hl].
    change (file_of (l :: ls)) with ((l ++ [nl]) ++ file_of ls).
    rewrite !R3Facts.crfree_app, Hl, IH. done.
Qed.

Lemma strip_line s : trimmed s = true → py_strip (s ++ [nl]) = s ∧ py_rstrip (s ++ [nl]) = s.
Proof.
  intros Hs. destruct (trimmed_strip s Hs) as [Hl Hr].
  assert (py_rstrip (s ++ [nl]) = s) as E.
  { unfold py_rstrip in *. rewrite rev_app_distr. exact Hr. }
  split; [|done]. apply andb_true_iff in Hs as [Hs _]. unfold py_strip.
  by rewrite no_blank_lstrip.
Qed.

(** ** a-1017: the rows of a table among other lines *)

Inductive line17 := Row17 (n : Z) (a b msg : text) | Other17 (l : text).

Definition line17_text (l : line17) : text :=
  match l with Row17 n a b msg => row_line (Z_text n) a b msg | Other17 l => l end.

Definition line17_row (l : line17) : list md_row :=
  match l with Row17 n a b msg => [(n, (a ++ lit "_" ++ b, msg))] | Other17 _ => [] end.

(** A row with a number, an id and a reply on one line; or a line that is no row. *)
Definition line17_ok (l : line17) : Prop :=
  match l with
  | Row17 n a b msg =>
      (0 ≤ n)%Z ∧ some_of alnum a = true ∧ some_of alnum b = true ∧ one_line msg = true
  | Other17 l => one_line l = true ∧ re_match ROW17 (py_strip (l ++ [nl])) = None
  end.

Lemma row_trimmed ds a b msg : trimmed (row_line ds a b msg) = true.
Proof.
  unfold trimmed, row_line. rewrite !app_assoc, rev_app_distr. done.
Qed.

Lemma one_line_app x y : one_line (x ++ y) = one_line x && one_line y.
Proof.
  unfold one_line. rewrite forallb_app, R3Facts.crfree_app.
  destruct (forallb not_nl x), (forallb not_nl y), (R3Facts.crfree x); done.
Qed.

(** Bytes of a class without line ends make one line. *)
Lemma class_one_line p w :
  (∀ c, p c = true → not_nl c && negb (Ascii.eqb c "013") = true) →
  forallb p w = true → one_line w = true.
Proof.
  intros Hp Hw. unfold one_line, R3Facts.crfree. rewrite andb_true_iff, !forallb_forall.
  rewrite forallb_forall in Hw.
  split; intros c Hc; specialize (Hp c (Hw c Hc)); apply andb_true_iff in Hp as [H1 H2]; done.
Qed.

Lemma word_one_line w : forallb is_word w = true → one_line w = true.
Proof.
  apply class_one_line. intros c.
  destruct c as [[] [] [] [] [] [] [] []]; intros H; (discriminate H || done).
Qed.

Lemma digits_word w : forallb is_digit w = true → forallb is_word w = true.
Proof.
  rewrite !forallb_forall. intros H c Hc. specialize (H c Hc). unfold is_word.
  unfold is_digit in H. rewrite H. apply orb_true_r.
Qed.

Lemma line17_one l : line17_ok l → one_line (line17_text l) = true.
Proof.
  destruct l as [n a b msg|l]; [|by intros [? _]]. cbn [line17_ok line17_text]. intros (Hn & Ha & Hb & Hm).
  apply py_int_text in Hn as [_ Hn]. apply andb_true_iff in Hn as [_ Hn], Ha as [_ Ha], Hb as [_ Hb].
  apply digits_word, word_one_line in Hn. apply alnum_word, word_one_line in Ha, Hb.
  unfold row_line. by rewrite !one_line_app, Hn, Ha, Hb, Hm.
Qed.

Lemma step17_line rows l :
  line17_ok l → step17 rows (line17_text l ++ [nl]) = Ok (rows ++ line17_row l).
Proof.
  destruct l as [n a b msg|l]; cbn [line17_ok line17_text line17_row]; intros Hl; unfold step17.
  - destruct Hl as (Hn & Ha & Hb & Hm). apply andb_true_iff in Hm as [Hm _].
    destruct (py_int_text n Hn) as [Ei Hd].
    rewrite (proj1 (strip_line _ (row_trimmed _ _ _ _))).
    destruct (row17_match (Z_text n) a b msg Hd Ha Hb Hm) as (m & -> & -> & -> & ->).
    by rewrite Ei.
  - destruct Hl as [_ ->]. by rewrite app_nil_r.
Qed.

Lemma rows17_lines ls :
  Forall line17_ok ls → rows17 (file_of (map line17_text ls)) = Ok (ls ≫= line17_row).
Proof.
  intros Hls. unfold rows17. rewrite file_lines_of.
  2:{ rewrite Forall_map. eapply Forall_impl; [exact Hls|]. apply line17_one. }
  rewrite <-(app_nil_l (ls ≫= line17_row)). generalize (@nil md_row) as rows.
  induction Hls as [|l ls Hl _ IH]; intros rows; [by rewrite app_nil_r|].
  cbn [map foldM]. rewrite step17_line by done. cbn [res_bind]. rewrite IH.
  cbn. by rewrite app_assoc.
Qed.

(** ** a-1018 and a-1019: headings and items among other lines *)

Inductive md_entry :=
  | Heading (named : bool) (n : Z) (rest : text)
  | Item (h1 h2 : text) (t : item_tag) (dash : bool) (msg : text)
  | Plain (l : text).

Definition entry_text (e : md_entry) : text :=
  match e with
  | Heading named n rest =>
      lit "## " ++ (if named then lit "adilger " else []) ++ Z_text n ++ rest
  | Item h1 h2 t dash msg => item_line h1 h2 t dash msg
  | Plain l => l
  end.

(** The replies, each to the change of the last heading above it. *)
Fixpoint read_entries (wanted : Z → text → bool) (chg : option Z) (es : list md_entry) : list md_row :=
  match es with
  | [] => []
  | Heading _ n _ :: es => read_entries wanted (Some n) es
  | Item h1 h2 _ _ msg :: es =>
      match chg with
      | Some n => if negb (n =? 0)%Z && wanted n msg then [(n, (h1 ++ lit "_" ++ h2, msg))] else []
      | None => []
      end ++ read_entries wanted chg es
  | Plain _ :: es => read_entries wanted chg es
  end.

Section entries.
Context (heading : regex) (names : bool) (wanted : Z → text → bool).
Context (Hhead : ∀ named n rest, implb named names = true → (0 ≤ n)%Z → stops is_digit rest = true →
  ∃ m, re_match heading (lit "## " ++ (if named then lit "adilger " else []) ++ Z_text n ++ rest) = Some m
       ∧ group_text m 1 = Z_text n).
Context (Hitem : ∀ s, re_match heading (lit "- " ++ s) = None).

(** A heading in the form of the round, an item with a tag and a reply, or a line that is
    neither. *)
Definition entry_ok (e : md_entry) : Prop :=
  match e with
  | Heading named n rest =>
      implb named names = true ∧ (0 ≤ n)%Z ∧ stops is_digit rest = true ∧ one_line rest = true
  | Item h1 h2 t dash msg =>
      hex8 h1 = true ∧ hex8 h2 = true ∧ tag_ok t dash msg = true ∧ trimmed msg = true ∧
      one_line msg = true
  | Plain l =>
      one_line l = true ∧ re_match heading (l ++ [nl]) = None ∧
      re_match ITEM (py_rstrip (l ++ [nl])) = None
  end.

Lemma hex_word w : forallb is_hexdigit w = true → forallb is_word w = true.
Proof.
  rewrite !forallb_forall. intros H c Hc. specialize (H c Hc). revert H. clear.
  destruct c as [[] [] [] [] [] [] [] []]; intros H; (discriminate H || done).
Qed.

Lemma space_one_line w : some_of not_space w = true → one_line w = true.
Proof.
  intros [_ Hw]%andb_true_iff. revert Hw. apply class_one_line. intros c.
  destruct c as [[] [] [] [] [] [] [] []]; intros H; (discriminate H || done).
Qed.

Lemma tag_one_line t dash msg : tag_ok t dash msg = true → one_line (tag_text t) = true.
Proof.
  destruct t as [ds|w|w1 w2]; cbn [tag_ok tag_text].
  - intros [_ Hd]%andb_true_iff. apply digits_word, word_one_line in Hd. by rewrite !one_line_app, Hd.
  - intros [[[Hw%space_one_line _]%andb_true_iff _]%andb_true_iff _]%andb_true_iff. done.
  - intros [[[Hw%space_one_line _]%andb_true_iff Hw2%space_one_line]%andb_true_iff _]%andb_true_iff.
    by rewrite !one_line_app, Hw, Hw2.
Qed.

Lemma entry_one e : entry_ok e → one_line (entry_text e) = true.
Proof.
  destruct e as [named n rest|h1 h2 t dash msg|l]; [| |by intros [? _]]; cbn [entry_ok entry_text].
  - intros (_ & Hn & _ & Hr). apply py_int_text in Hn as [_ Hn]. apply andb_true_iff in Hn as [_ Hn].
    apply digits_word, word_one_line in Hn. rewrite !one_line_app, Hn, Hr. by destruct named.
  - intros ([_ H1]%hex8_spec & [_ H2]%hex8_spec & Ht%tag_one_line & _ & Hm).
    apply hex_word, word_one_line in H1, H2.
    unfold item_line. rewrite !one_line_app, H1, H2, Ht, Hm. by destruct dash.
Qed.

Lemma item_trimmed h1 h2 t dash msg : trimmed msg = true → trimmed (item_line h1 h2 t dash msg) = true.
Proof.
  intros [_ Hm]%andb_true_iff. apply andb_true_iff. split; [done|]. unfold item_line.
  rewrite !app_assoc, rev_app_distr. destruct (rev msg); done.
Qed.

Lemma step_entry chg rows e :
  entry_ok e →
  ∃ chg' new, step_md heading wanted (chg, rows) (entry_text e ++ [nl]) = Ok (chg', rows ++ new) ∧
    ∀ es, read_entries wanted chg (e :: es) = new ++ read_entries wanted chg' es.
Proof using Hhead Hitem.
  destruct e as [named n rest|h1 h2 t dash msg|l]; cbn [entry_ok entry_text].
  - intros (Hna & Hn & Hr & _). exists (Some n), []. split; [|done]. unfold step_md.
    rewrite <-!app_assoc. destruct (Hhead named n (rest ++ [nl]) Hna Hn) as (m & -> & ->).
    { by destruct rest. }
    rewrite (proj1 (py_int_text n Hn)), app_nil_r. done.
  - intros (H1 & H2 & Hd & Ht & Hm). unfold step_md.
    assert (re_match heading (item_line h1 h2 t dash msg ++ [nl]) = None) as ->.
    { unfold item_line. rewrite <-!app_assoc. apply Hitem. }
    rewrite (proj2 (strip_line _ (item_trimmed h1 h2 t dash msg Ht))).
    apply andb_true_iff in Hm as [Hm _].
    destruct (item_match h1 h2 t dash msg H1 H2 Hd Hm) as (m & -> & -> & ->).
    cbn [read_entries]. destruct chg as [n|]; [|by exists None, []; rewrite app_nil_r].
    destruct (trimmed_strip msg Ht) as [El Er]. unfold py_strip. rewrite El, Er.
    destruct (negb (n =? 0)%Z && wanted n msg); [by eexists _, _|].
    exists (Some n), []. by rewrite app_nil_r.
  - intros (_ & Hh & Hi). exists chg, []. unfold step_md. rewrite Hh, Hi, app_nil_r.
    by destruct chg.
Qed.

Lemma rows_entries es :
  Forall entry_ok es →
  rows_md heading wanted (file_of (map entry_text es)) = Ok (read_entries wanted None es).
Proof using Hhead Hitem.
  intros Hes. unfold rows_md. rewrite file_lines_of.
  2:{ rewrite Forall_map. eapply Forall_impl; [exact Hes|]. apply entry_one. }
  assert (∀ chg rows, ∃ c, foldM (step_md heading wanted) (map (λ l, l ++ [nl]) (map entry_text es))
    (chg, rows) = Ok (c, rows ++ read_entries wanted chg es)) as H.
  { induction Hes as [|e es He _ IH]; intros chg rows; [exists chg; by rewrite app_nil_r|].
    destruct (step_entry chg rows e He) as (chg' & new & E & Hr). cbn [map foldM].
    rewrite E. cbn [res_bind]. destruct (IH chg' (rows ++ new)) as (c & ->). exists c.
    by rewrite Hr, <-app_assoc. }
  destruct (H None []) as (c & ->). done.
Qed.
End entries.

Lemma number_group n rest pv cs :
  (0 ≤ n)%Z → stops is_digit rest = true →
  ∃ m, head (re_run (RGroup 1 (RPlus true (RSet is_digit))) (Place pv (Z_text n ++ rest) cs)) = Some m ∧
    group_text m 1 = Z_text n.
Proof.
  intros Hn Hr. destruct (py_int_text n Hn) as [_ (d & ds & E & Hd & Hds)%some_of_cons].
  eexists. split.
  { rewrite (bind_ret (re_run _ _)), run_group, E. cbn [app]. apply plus_whole; [done..|reflexivity]. }
  apply between_eq. cbn [m_rest]. by rewrite E.
Qed.

Lemma head18_number named n rest :
  implb named false = true → (0 ≤ n)%Z → stops is_digit rest = true →
  ∃ m, re_match HEAD18 (lit "## " ++ (if named then lit "adilger " else []) ++ Z_text n ++ rest) = Some m
       ∧ group_text m 1 = Z_text n.
Proof.
  destruct named; [done|]. intros _ Hn Hr. unfold re_match, HEAD18, start. cbn [app].
  destruct (number_group n rest (after None (lit "## ")) [] Hn Hr) as (m & E & Hm).
  exists m. split; [|done]. next_lit. exact E.
Qed.

Lemma head19_number named n rest :
  implb named true = true → (0 ≤ n)%Z → stops is_digit rest = true →
  ∃ m, re_match HEAD19 (lit "## " ++ (if named then lit "adilger " else []) ++ Z_text n ++ rest) = Some m
       ∧ group_text m 1 = Z_text n.
Proof.
  intros _ Hn Hr. unfold re_match, HEAD19, start, ROpt. destruct named.
  - destruct (number_group n rest (after (after None (lit "## ")) (lit "adilger ")) [] Hn Hr)
      as (m & E & Hm).
    exists m. split; [|done]. next_lit. rewrite run_seq. apply alt_left, lit_then. exact E.
  - destruct (number_group n rest (after None (lit "## ")) [] Hn Hr) as (m & E & Hm).
    exists m. split; [|done]. cbn [app]. next_lit. rewrite run_seq. apply alt_right.
    + apply lit_fails. destruct (py_int_text n Hn) as [_ (d & ds & -> & Hd & _)%some_of_cons].
      revert Hd. destruct d as [[] [] [] [] [] [] [] []]; intros H; (discriminate H || done).
    + by erewrite bind_one.
Qed.

(** C16: replies.md is read as it is meant.  Of a file of rows "| change | id | reply |" and
    other lines the script of a-1017 reads exactly the rows, whatever bars and blanks the
    replies hold.  Of a file of headings, items and other lines the scripts of a-1018 and
    a-1019 read exactly the items with a reply that is wanted, each for the change of the
    last heading above it.  An item is "- id tag: reply", or with a dash for the colon; a
    tag is (#n), or one or two words that do not start as (#n) does, and then the reply must
    not continue the tag: no dash at its start after a colon, and after a tag of one word no
    colon or dash that ends its first word. *)
Theorem replies_md_read :
  (∀ ls, Forall line17_ok ls → rows17 (file_of (map line17_text ls)) = Ok (ls ≫= line17_row)) ∧
  (∀ es, Forall (entry_ok HEAD18 false) es →
     rows18 (file_of (map entry_text es)) = Ok (read_entries wanted18 None es)) ∧
  (∀ es, Forall (entry_ok HEAD19 true) es →
     rows19 (file_of (map entry_text es)) = Ok (read_entries wanted19 None es)).
Proof.
  split_and!; [exact rows17_lines| |].
  - apply (rows_entries HEAD18 false wanted18 head18_number). done.
  - apply (rows_entries HEAD19 true wanted19 head19_number). done.
Qed.

Lemma replies_md_read_witness :
  let ls := [Other17 (lit "| Change | Thread | Reply |");
             Row17 68158 (lit "63979fe1") (lit "edbc257c") (lit "Done. a | b ")] in
  let es := [Plain (lit "# Replies"); Heading true 68156 (lit " (2026-10-19)");
             Item (lit "a59a8bba") (lit "15a65561") (Number (lit "1")) false (lit "Declined: a: b — c.");
             Item (lit "4bbe6d43") (lit "25750cd3") (Word (lit "(#A2)")) false (lit "Done. It prints: x");
             Item (lit "0d84ae74") (lit "13e630ce") (Word (lit "/COMMIT_MSG:19")) true (lit "Done.");
             Item (lit "312cc898") (lit "63b63dd4") (Words (lit "(scan.c") (lit "~786)")) false (lit "Done: yes.");
             Item (lit "4257d2cf") (lit "59026163") (Word (lit "(#A6)")) false (lit "no reply needed.")] in
  rows17 (file_of (map line17_text ls)) =
    Ok [(68158%Z, (lit "63979fe1_edbc257c", lit "Done. a | b "))] ∧
  rows19 (file_of (map entry_text es)) =
    Ok [(68156%Z, (lit "a59a8bba_15a65561", lit "Declined: a: b — c."));
        (68156%Z, (lit "4bbe6d43_25750cd3", lit "Done. It prints: x"));
        (68156%Z, (lit "0d84ae74_13e630ce", lit "Done."));
        (68156%Z, (lit "312cc898_63b63dd4", lit "Done: yes."))].
Proof.
  intros ls es. destruct replies_md_read as (H17 & _ & H19). split.
  - refine (H17 ls _). repeat constructor; lia.
  - refine (H19 es _). repeat constructor; lia.
Defined.

(** An item whose tag is not a number loses the first word of its reply where a colon
    follows that word: the pattern for the tag takes it.  The item of 69796 in replies.md
    of a-1019 reads "Declined: LU-20989 is filed ..", and the reply that is read from it
    starts with "LU-20989". *)
Theorem item_drops_word :
  py_in (lit "
- 1a9c818f_0a6400fb (#M1): Declined: LU-20989 is filed as an Improvement, not a bug fix, so no Fixes: tag.
") replies_1019_md = true ∧
  rows_md HEAD19 wanted18 (lit "## 69796
- 1a9c818f_0a6400fb (#M1): Declined: LU-20989 is filed as an Improvement, not a bug fix, so no Fixes: tag.
") =
  Ok [(69796%Z, (lit "1a9c818f_0a6400fb",
                 lit "LU-20989 is filed as an Improvement, not a bug fix, so no Fixes: tag."))].
Proof. split; vm_compute; reflexivity. Qed.

(** The numbers of rows in the files of the rounds. *)
Example md_files_read :
  match rows17 replies_1017_md, rows18 replies_1018_md, rows19 replies_1019_md with
  | Ok a, Ok b, Ok c => (length a, length b, length c) = (26, 22, 12)
  | _, _, _ => False
  end.
Proof. vm_compute. reflexivity. Qed.
