(* ===== verification/RepliesTheorems.v ===== *)
(** What the posting of replies promises: every row of the table goes to its thread, once;
    a dry run shows what a real run does and sends nothing; a run that stops has posted
    the changes before the one that stopped it; what is sent reads back; and the lines of
    replies.md are read as they are meant, but for one kind. *)
From S2P Require Import Prelude PyStr PyParse PyRe PyRegex Json Replies RepliesTable RepliesFacts.

(** ** Witness data: two threads of one change *)

Definition demo_answer : text := lit ")]}'
{\qlustre/utils/lfs.c\q: [
  {\qid\q: \qc25be809_3bda963b\q, \qpatch_set\q: 7,
   \qrange\q: {\qstart_line\q: 10, \qend_line\q: 12}, \qline\q: 12},
  {\qid\q: \q963a5de4_b3355c0c\q, \qpatch_set\q: 6, \qline\q: 40, \qin_reply_to\q: \qx\q}],
 \q/COMMIT_MSG\q: [{\qid\q: \q81827f44_c98949dd\q, \qpatch_set\q: 7}]}".

Definition demo_urlopen (url : text) : res text :=
  if bool_decide (url = comments_url 68159) then Ok demo_answer
  else Raise (RuntimeError "HTTP Error 404").

Definition demo_ssh (c : command) : Z * text := (0%Z, []).

Definition demo_row (cid msg : string) : reply_row := Reply 68159 (lit cid) (lit msg) true.

Definition demo_R : list reply_row :=
  [demo_row "81827f44_c98949dd" "Done."; demo_row "963a5de4_b3355c0c" "Not changed.";
   demo_row "c25be809_3bda963b" "Done."].

(** The comments in the answer, by path. *)
Definition demo_c1 : json :=
  JObj [(lit "id", JStr (lit "c25be809_3bda963b")); (lit "patch_set", JInt 7);
        (lit "range", JObj [(lit "start_line", JInt 10); (lit "end_line", JInt 12)]);
        (lit "line", JInt 12)].
Definition demo_c2 : json :=
  JObj [(lit "id", JStr (lit "963a5de4_b3355c0c")); (lit "patch_set", JInt 6);
        (lit "line", JInt 40); (lit "in_reply_to", JStr (lit "x"))].
Definition demo_c3 : json :=
  JObj [(lit "id", JStr (lit "81827f44_c98949dd")); (lit "patch_set", JInt 7)].

Definition demo_paths : list (text * list json) :=
  [(lit "lustre/utils/lfs.c", [demo_c1; demo_c2]); (lit "/COMMIT_MSG", [demo_c3])].

Definition demo_reply (r : reply_row) (loc : list (text * json)) : json :=
  JObj ([(lit "in_reply_to", JStr (r_cid r)); (lit "message", JStr (r_msg r));
         (lit "unresolved", JBool false)] ++ loc).

(** Where each of the three replies goes. *)
Definition demo_f (r : reply_row) : Z * text * json :=
  if bool_decide (r_cid r = lit "c25be809_3bda963b") then
    (7%Z, lit "lustre/utils/lfs.c",
     demo_reply r [(lit "range", JObj [(lit "start_line", JInt 10); (lit "end_line", JInt 12)]);
                   (lit "line", JInt 12)])
  else if bool_decide (r_cid r = lit "963a5de4_b3355c0c") then
    (6%Z, lit "lustre/utils/lfs.c", demo_reply r [(lit "line", JInt 40)])
  else (7%Z, lit "/COMMIT_MSG", demo_reply r []).

Lemma demo_serves : serves demo_urlopen 68159 demo_paths.
Proof.
  split; [vm_compute; reflexivity|]. split.
  - repeat constructor.
  - apply (bool_decide_unpack _). vm_compute. exact I.
Qed.

(** A row of the table with its comment: the reply is the one [demo_f] gives. *)
Lemma demo_answer_of r t path c ps loc :
  (path, c) ∈ listed demo_paths → comment_id c = r_cid r → jget "patch_set" c = Ok (JInt ps) →
  located c loc → t = (ps, path, demo_reply r loc) → r_resolved r = true → answers demo_paths r t.
Proof.
  intros Hin Hid Hps Hloc -> Hr. unfold demo_reply.
  pose proof (Answers demo_paths r path c ps loc Hin Hid Hps Hloc) as H. by rewrite Hr in H.
Qed.

Lemma demo_answered r : r ∈ demo_R → answers demo_paths r (demo_f r).
Proof.
  intros [<-|[<-|[<-|[]]]]%list_elem_of_In.
  - eapply (demo_answer_of _ _ (lit "/COMMIT_MSG") demo_c3); [by right; right; left| | | | |];
      try reflexivity; by apply at_file.
  - eapply (demo_answer_of _ _ (lit "lustre/utils/lfs.c") demo_c2); [by right; left| | | | |];
      try reflexivity; by apply at_line.
  - eapply (demo_answer_of _ _ (lit "lustre/utils/lfs.c") demo_c1); [by left| | | | |];
      try reflexivity; by apply at_range.
Qed.

Section claims.
Context (urlopen : text → res text) (ssh : command → Z * text).

(** C14: post_replies.py of a-1007 to a-1013, not dry: where the server knows the changes
    that are asked for and every row of them replies to one of their comments, the run
    returns, makes one call of ssh for each change and patch set, in their order, and the
    calls carry exactly the rows of these changes: each once, on the patch set and path of
    its comment, with the range and line of the comment, the message, and unresolved set
    from the table.  The headers of the scripts speak of one call per change; a change with
    rows on two patch sets has two. *)
Theorem replies_posted (only : list Z) (R : list reply_row) (w : io)
    (paths : Z → list (text * list json)) (f : reply_row → Z * text * json) :
  (∀ r, r ∈ R → selected only (r_change r) →
     serves urlopen (r_change r) (paths (r_change r)) ∧ answers (paths (r_change r)) r (f r)) →
  ∃ sent w',
    post_replies urlopen ssh false only R w = (w', Ok ()) ∧
    io_calls w' = io_calls w ++ map call_of sent ∧
    StronglySorted before sent ∧
    flat_sent sent ≡ₚ map (λ r, (r_change r, f r)) (filter (λ r, selected only (r_change r)) R).
Proof.
  intros H. assert (Forall (answered urlopen R paths f) (filter (selected only) (changes R))) as Ha.
  { apply Forall_forall. intros c [Hs (r & Hr & <-)%changes_spec]%list_elem_of_filter.
    split; [by apply H|]. intros r' Hr' E. rewrite <-E. apply H; [done|]. by rewrite E. }
  destruct (plans_answered urlopen R paths f _ (selected_sorted R only) Ha)
    as (s & E & Hs & _ & Hf & _).
  exists s, (effect ssh false w s). unfold post_replies. rewrite post_changes_effect, E.
  split_and!; [done|done|done|]. by rewrite Hf, selected_rows.
Qed.

(** A line that tells how a call went. *)
Definition is_rc_line (t : text) : bool := py_startswith t (lit "  rc=").

Lemma count_line_not_rc c x : is_rc_line (count_line c x) = false.
Proof.
  unfold is_rc_line, count_line. destruct (Z_int c) as (d & Hd & _ & [[_ ->]|[_ ->]]); [|done].
  destruct (uint_text_head d Hd) as (h & t & -> & Hh). revert Hh.
  destruct h as [[] [] [] [] [] [] [] []]; intros H; (discriminate H || done).
Qed.

Lemma rc_line_rc r : is_rc_line (rc_line "  " r) = true.
Proof.
  unfold is_rc_line, rc_line. rewrite app_assoc. apply py_startswith_app.
Qed.

Lemma dry_lines l :
  l ≫= lines_of ssh true = filter (λ t, is_rc_line t = false) (l ≫= lines_of ssh false).
Proof.
  induction l as [|x l IH]; [done|].
  change (lines_of ssh true x ++ (l ≫= lines_of ssh true) =
    filter (λ t, is_rc_line t = false) (lines_of ssh false x ++ (l ≫= lines_of ssh false))).
  rewrite filter_app, <-IH. f_equal. unfold lines_of.
  rewrite filter_cons_True by apply count_line_not_rc.
  rewrite filter_cons_False; [done|]. by rewrite rc_line_rc.
Qed.

(** C37: a run with --dry calls ssh not once, ends as the real run ends, an exception
    included, and prints what the real run prints but for the lines with the outcome of
    the calls. *)
Theorem dry_run_posts_nothing (only : list Z) (R : list reply_row) (w : io) :
  let dry := post_replies urlopen ssh true only R w in
  let real := post_replies urlopen ssh false only R w in
  dry.2 = real.2 ∧ io_calls dry.1 = io_calls w ∧
  ∃ lines, io_out real.1 = io_out w ++ lines ∧
    io_out dry.1 = io_out w ++ filter (λ t, is_rc_line t = false) lines.
Proof.
  cbn zeta. unfold post_replies. rewrite !post_changes_effect. cbn [fst snd]. split; [done|].
  unfold effect. cbn [io_calls io_out]. split; [by rewrite app_nil_r|].
  eexists. split; [done|]. by rewrite dry_lines.
Qed.

(** C23: a row whose id is not among the comments of its change stops the run with
    KeyError at that change.  The changes before it are posted, as a run over their rows
    alone posts them, and nothing of the change itself or of a later one is. *)
Theorem missing_comment_stops (only : list Z) (R : list reply_row) (w : io)
    (paths : Z → list (text * list json)) (f : reply_row → Z * text * json) (c : Z) :
  selected only c →
  (∃ r, r ∈ R ∧ r_change r = c ∧ unknown (paths c) r) →
  (∀ r, r ∈ R → selected only (r_change r) → (r_change r < c)%Z →
     serves urlopen (r_change r) (paths (r_change r)) ∧ answers (paths (r_change r)) r (f r)) →
  serves urlopen c (paths c) →
  (∀ r, r ∈ R → r_change r = c → unknown (paths c) r ∨ answers (paths c) r (f r)) →
  ∃ r w', r ∈ R ∧ r_change r = c ∧ unknown (paths c) r ∧
    post_replies urlopen ssh false only R w =
      (w', Raise (KeyError (String.string_of_list_ascii (r_cid r)))) ∧
    post_replies urlopen ssh false only (filter (λ r, (r_change r < c)%Z) R) w = (w', Ok ()).
Proof.
  intros Hsel Hex Hbelow [Hg Hi] Hc.
  destruct (sorted_split c (filter (selected only) (changes R))) as (L' & HL).
  { apply selected_sorted. }
  { apply list_elem_of_filter. split; [done|]. apply changes_spec.
    destruct Hex as (r & ? & ? & _). by exists r. }
  set (L := filter (λ x, (x < c)%Z) (filter (selected only) (changes R))) in *.
  assert (Forall (answered urlopen R paths f) L) as Ha.
  { apply Forall_forall. intros x [Hx [Hs (r & Hr & <-)%changes_spec]%list_elem_of_filter]%list_elem_of_filter.
    split; [by apply Hbelow|]. intros r' Hr' E. rewrite <-E. apply Hbelow; [done|by rewrite E..]. }
  destruct (plans_answered urlopen R paths f L) as (s & Es & _); [|done|].
  { unfold L. rewrite <-changes_below. apply selected_sorted. }
  pose proof (all_roots_listed (paths c) (proj1 Hi)) as Hr.
  destruct (group_rows_unknown (paths c) c _ f R [] Hi Hr Hc Hex) as (r & Hin & Hrc & Hu & E).
  exists r, (effect ssh false w s). split_and!; [done..| |].
  - unfold post_replies. rewrite post_changes_effect, HL.
    rewrite (plans_stop urlopen R L c L' s (KeyError (String.string_of_list_ascii (r_cid r))));
      [done|done|].
    unfold plan. rewrite Hg. cbn [res_bind]. rewrite Hr. cbn [res_bind].
    unfold group_rows. by rewrite E.
  - unfold post_replies. rewrite post_changes_effect, changes_below. fold L.
    rewrite <-(plans_ext urlopen R), Es; [done|].
    apply Forall_forall. intros x [Hx _]%list_elem_of_filter. unfold of_change.
    rewrite list_filter_filter. apply list_filter_iff. intros r'. split; [|by intros []].
    intros <-. done.
Qed.

(** C24: where ids, messages, paths and comments are plain JSON (UTF-8 strings, whole
    numbers), the text each call hands to ssh is read back by json.loads as the body that
    was meant: the tag, the notification and the replies by path. *)
Theorem posted_text_reads_back (only : list Z) (R : list reply_row) (w : io)
    (paths : Z → list (text * list json)) (f : reply_row → Z * text * json) :
  (∀ r, r ∈ R → selected only (r_change r) →
     serves urlopen (r_change r) (paths (r_change r)) ∧ answers (paths (r_change r)) r (f r) ∧
     plain_row r ∧
     Forall (λ x, is_utf8 x.1 = true ∧ plain x.2 = true) (listed (paths (r_change r)))) →
  ∃ sent w', post_replies urlopen ssh false only R w = (w', Ok ()) ∧
    io_calls w' = io_calls w ++ map call_of sent ∧
    Forall (λ s, json_loads (c_input (call_of s)) = Ok (review_body s.2.2)) sent.
Proof.
  intros H. assert (Forall (answered urlopen R paths f) (filter (selected only) (changes R))) as Ha.
  { apply Forall_forall. intros c [Hs (r & Hr & <-)%changes_spec]%list_elem_of_filter.
    split; [by apply H|]. intros r' Hr' E. rewrite <-E. apply H; [done|]. by rewrite E. }
  destruct (plans_answered urlopen R paths f _ (selected_sorted R only) Ha)
    as (s & E & _ & _ & Hf & Hk).
  exists s, (effect ssh false w s). unfold post_replies. rewrite post_changes_effect, E.
  split_and!; [done|done|]. rewrite selected_rows in Hf.
  assert (∀ x, x ∈ flat_sent s → is_utf8 x.2.1.2 = true ∧ plain x.2.2 = true) as Hflat.
  { intros x Hx. rewrite Hf in Hx. apply list_elem_of_In, in_map_iff in Hx as (r & <- & Hr).
    apply list_elem_of_In, list_elem_of_filter in Hr as [Hsel Hr].
    destruct (H r Hr Hsel) as (_ & Hans & Hpl & Hls). by eapply answers_plain. }
  apply Forall_forall. intros [c [ps x]] Hin. rewrite Forall_forall in Hk.
  destruct (Hk _ Hin) as [Hd Hne]. apply (loads_dump None []); [done|].
  assert (∀ p rep reps, (p, reps) ∈ x → rep ∈ reps → (c, (ps, p, rep)) ∈ flat_sent s) as Hmem.
  { intros p rep reps Hp Hrep. apply list_elem_of_bind. exists (c, (ps, x)). split; [|done].
    apply list_elem_of_In, in_map. unfold flat_ps. cbn. rewrite app_nil_r.
    apply list_elem_of_In, list_elem_of_bind. exists (p, reps). split; [|done].
    apply list_elem_of_In, (in_map (λ rep, (ps, p, rep))). by apply list_elem_of_In. }
  apply review_body_plain; [done| |].
  - intros p rep reps Hp Hrep. by apply (Hflat (c, (ps, p, rep))), (Hmem p rep reps).
  - intros p reps Hp. specialize (Hne p reps Hp). destruct reps as [|rep reps]; [done|].
    apply (Hflat (c, (ps, p, rep))), (Hmem p rep (rep :: reps)); [done|by left].
Qed.
End claims.

Lemma replies_posted_witness :
  ∃ sent w',
    post_replies demo_urlopen demo_ssh false [] demo_R (Io [] []) = (w', Ok ()) ∧
    io_calls w' = [] ++ map call_of sent ∧ StronglySorted before sent ∧
    flat_sent sent ≡ₚ map (λ r, (r_change r, demo_f r)) (filter (λ r, selected [] (r_change r)) demo_R).
Proof.
  apply (replies_posted demo_urlopen demo_ssh [] demo_R (Io [] []) (λ _, demo_paths) demo_f).
  intros r Hr _. split; [|by apply demo_answered].
  assert (r_change r = 68159%Z) as ->; [|apply demo_serves].
  apply list_elem_of_In in Hr as [<-|[<-|[<-|[]]]]; reflexivity.
Defined.

Lemma missing_comment_stops_witness :
  ∃ r w', r ∈ demo_R ++ [demo_row "00000000_00000000" "Done."] ∧ r_change r = 68159%Z ∧
    unknown demo_paths r ∧
    post_replies demo_urlopen demo_ssh false [] (demo_R ++ [demo_row "00000000_00000000" "Done."])
      (Io [] []) = (w', Raise (KeyError (String.string_of_list_ascii (r_cid r)))) ∧
    post_replies demo_urlopen demo_ssh false []
      (filter (λ r, (r_change r < 68159)%Z) (demo_R ++ [demo_row "00000000_00000000" "Done."]))
      (Io [] []) = (w', Ok ()).
Proof.
  assert (unknown demo_paths (demo_row "00000000_00000000" "Done.")) as Hu.
  { unfold unknown. apply (bool_decide_unpack _). vm_compute. exact I. }
  assert (∀ r, r ∈ demo_R ++ [demo_row "00000000_00000000" "Done."] → r_change r = 68159%Z) as Hc.
  { intros r [Hr|Hr]%elem_of_app; [|by apply list_elem_of_singleton in Hr as ->].
    apply list_elem_of_In in Hr as [<-|[<-|[<-|[]]]]; reflexivity. }
  apply (missing_comment_stops demo_urlopen demo_ssh [] _ (Io [] []) (λ _, demo_paths) demo_f 68159).
  - by left.
  - exists (demo_row "00000000_00000000" "Done."). split_and!; [|reflexivity|exact Hu].
    apply elem_of_app. right. by left.
  - intros r Hr _ Hlt. rewrite (Hc r Hr) in Hlt. lia.
  - apply demo_serves.
  - intros r [Hr|Hr]%elem_of_app _; [right; by apply demo_answered|].
    apply list_elem_of_singleton in Hr as ->. by left.
Defined.

Lemma posted_text_reads_back_witness :
  ∃ sent w', post_replies demo_urlopen demo_ssh false [] demo_R (Io [] []) = (w', Ok ()) ∧
    io_calls w' = [] ++ map call_of sent ∧
    Forall (λ s, json_loads (c_input (call_of s)) = Ok (review_body s.2.2)) sent.
Proof.
  apply (posted_text_reads_back demo_urlopen demo_ssh [] demo_R (Io [] []) (λ _, demo_paths) demo_f).
  intros r Hr _.
  assert (r_change r = 68159%Z ∧ plain_row r) as [-> Hp].
  { apply list_elem_of_In in Hr as [<-|[<-|[<-|[]]]]; by vm_compute. }
  split_and!; [apply demo_serves|by apply demo_answered|exact Hp|].
  repeat constructor.
Defined.

(** What replies-r3.py drafts: a file for each change and patch set with the replies to the
    root comments that the table names, and the ids of the table that no comment has. *)

Section drafts.
Context (R : list (text * answer)).

(** A root comment whose id starts with a key of the table. *)
Definition named (c : json) : Prop :=
  take_chars 8 (comment_id c) ∈ R.*1 ∧ truthy (jget_or_none "in_reply_to" c) = false.
#[local] Instance named_dec c : Decision (named c) := _.

(** The reply the table has for a comment, where the comment is. *)
Inductive drafted : text * json → Z * text * json → Prop :=
  | Drafted path c a ps loc :
      dict_find (take_chars 8 (comment_id c)) R = Some a → jget "patch_set" c = Ok (JInt ps) →
      located c loc →
      drafted (path, c)
        (ps, path,
         JObj ([(lit "in_reply_to", JStr (comment_id c));
                (lit "unresolved", JBool (match a with Decline _ => true | Reply_text _ => false end));
                (lit "message", JStr (match a with Decline t | Reply_text t => t end))] ++ loc)).

Lemma dict_find_None {A} k (l : list (text * A)) : dict_find k l = None ↔ k ∉ l.*1.
Proof.
  induction l as [|[k' a] l IH]; cbn; [split; [intros _; apply not_elem_of_nil|done]|].
  rewrite not_elem_of_cons. destruct (decide (k = k')) as [->|Hn]; [by split; [|intros []]|].
  rewrite IH. by split; [|intros []].
Qed.

Lemma make_draft_located c a loc :
  located c loc →
  make_draft (JStr (comment_id c)) a c =
  Ok (JObj ([(lit "in_reply_to", JStr (comment_id c));
             (lit "unresolved", JBool (match a with Decline _ => true | Reply_text _ => false end));
             (lit "message", JStr (match a with Decline t | Reply_text t => t end))] ++ loc)).
Proof.
  unfold make_draft. intros [range e Hr He|l Hn Hl|Hn Hl].
  - rewrite (jget_jhas _ _ _ Hr), Hr. cbn [res_bind]. by rewrite He.
  - rewrite Hn, (jget_jhas _ _ _ Hl), Hl. done.
  - by rewrite Hn, Hl.
Qed.

Lemma draft_comment_skip path st c : has_id c → ¬ named c → draft_comment R path st c = Ok st.
Proof.
  intros Hid Hn. unfold draft_comment, short_id. rewrite Hid. cbn [res_bind].
  destruct (dict_find (take_chars 8 (comment_id c)) R) as [a|] eqn:E; [|done].
  destruct (truthy (jget_or_none "in_reply_to" c)) eqn:Et; [done|]. destruct Hn. split; [|done].
  destruct (decide (take_chars 8 (comment_id c) ∈ R.*1)) as [|Hk]; [done|].
  apply dict_find_None in Hk. congruence.
Qed.

Lemma draft_comment_named path st c t :
  has_id c → named c → drafted (path, c) t →
  draft_comment R path st c =
  Ok ({[take_chars 8 (comment_id c)]} ∪ st.1, add_reply t.1.1 t.1.2 t.2 st.2).
Proof.
  intros Hid [_ Ht] Hd. inversion Hd as [path' c' a ps loc Ha Hps Hloc]; subst.
  unfold draft_comment, short_id. rewrite Hid. cbn [res_bind]. rewrite Ha, Ht.
  rewrite (make_draft_located c a loc Hloc). cbn [res_bind]. by rewrite Hps.
Qed.

(** The fold over all comments, path by path, is a fold over the list of them. *)
Definition draft_one (st : draft_state) (x : text * json) : res draft_state :=
  draft_comment R x.1 st x.2.

Lemma draft_paths_listed paths st :
  foldM (draft_path R) (map (λ x, (x.1, JList x.2)) paths) st = foldM draft_one (listed paths) st.
Proof.
  revert st. induction paths as [|[p cs] paths IH]; intros st; [done|].
  change (listed ((p, cs) :: paths)) with (map (pair p) cs ++ listed paths).
  rewrite foldM_app. cbn [map foldM]. unfold draft_path at 1. cbn [jiter snd fst res_bind].
  assert (foldM (draft_comment R p) cs st = foldM draft_one (map (pair p) cs) st) as ->.
  { clear IH. revert st. induction cs as [|c cs IH]; intros st; [done|]. cbn [map foldM].
    change (draft_one st (p, c)) with (draft_comment R p st c).
    destruct (draft_comment R p st c); [|done]. apply IH. }
  destruct (foldM draft_one (map (pair p) cs) st); [|done]. apply IH.
Qed.

Lemma draft_fold (f : text * json → Z * text * json) l used d :
  Forall (λ x, has_id x.2) l → (∀ x, x ∈ l → named x.2 → drafted x (f x)) → keys_differ d →
  ∃ used' d', foldM draft_one l (used, d) = Ok (used', d') ∧
    (∀ k, k ∈ used' ↔ k ∈ used ∨ ∃ x, x ∈ l ∧ named x.2 ∧ take_chars 8 (comment_id x.2) = k) ∧
    flat_ps d' ≡ₚ flat_ps d ++ map f (filter (λ x, named x.2) l) ∧ keys_differ d'.
Proof.
  revert used d. induction l as [|[p c] l IH]; intros used d Hid Hf Hd.
  { exists used, d. split_and!; [done| |by rewrite app_nil_r|done]. intros k.
    split; [by left|]. intros [?|(x & Hx & _)]; [done|by apply elem_of_nil in Hx]. }
  apply Forall_cons in Hid as [Hc Hid].
  assert (∀ x, x ∈ l → named x.2 → drafted x (f x)) as Hf' by (intros x Hx; apply Hf; by right).
  cbn [foldM]. unfold draft_one at 1. cbn [fst snd]. destruct (decide (named c)) as [Hn|Hn].
  - rewrite (draft_comment_named p _ c (f (p, c))); [|done..|apply Hf; [by left|done]].
    cbn [res_bind fst snd].
    destruct (IH ({[take_chars 8 (comment_id c)]} ∪ used)
      (add_reply (f (p, c)).1.1 (f (p, c)).1.2 (f (p, c)).2 d) Hid Hf')
      as (used' & d' & E & Hu & Hp & Hk); [by apply add_reply_keys|].
    exists used', d'. split_and!; [done| | |done].
    + intros k. rewrite Hu, elem_of_union, elem_of_singleton. setoid_rewrite elem_of_cons. split.
      * intros [[->|?]|(x & ? & ?)]; [right; by exists (p, c); auto|by left|right; exists x; auto].
      * intros [?|(x & [->|?] & ? & <-)]; [tauto|by left; left|right; by exists x].
    + rewrite Hp, flat_add, filter_cons_True by done. rewrite <-app_assoc. cbn.
      by destruct (f (p, c)) as [[??]?].
  - rewrite draft_comment_skip by done. cbn [res_bind].
    destruct (IH used d Hid Hf' Hd) as (used' & d' & E & Hu & Hp & Hk).
    exists used', d'. split_and!; [done| | |done].
    + intros k. rewrite Hu. setoid_rewrite elem_of_cons. split.
      * intros [?|(x & ? & ?)]; [by left|right; exists x; auto].
      * intros [?|(x & [->|?] & ? & ?)]; [by left|done|right; by exists x].
    + by rewrite Hp, filter_cons_False.
Qed.

(** The saved comments of a change. *)
Definition saved (files : Z → option text) (paths : Z → list (text * list json)) (c : Z) : Prop :=
  ∃ s, files c = Some s ∧ json_loads s = Ok (comments_json (paths c)) ∧
    Forall (λ x, has_id x.2) (listed (paths c)).

Definition draft_file (S : text) (c : Z) (y : Z * by_path) : text * text :=
  (draft_name S c y.1, json_dump_indent 1 (review_body y.2)).

Lemma write_drafts S c l w :
  d_files (foldl (write_draft S c) w l) = d_files w ++ map (draft_file S c) l.
Proof.
  revert w. induction l as [|y l IH]; intros w; cbn [foldl map]; [by rewrite app_nil_r|].
  rewrite IH. cbn. by rewrite <-app_assoc.
Qed.

Context (S : text) (files : Z → option text) (paths : Z → list (text * list json)).
Context (f : text * json → Z * text * json).

Definition change_ok (c : Z) : Prop :=
  saved files paths c ∧ ∀ x, x ∈ listed (paths c) → named x.2 → drafted x (f x).

(** The replies of a change, and the keys they have used. *)
Definition drafts_of (x : Z * by_ps) : Prop :=
  NoDup x.2.*1 ∧ flat_ps x.2 ≡ₚ map f (filter (λ y, named y.2) (listed (paths x.1))).

Definition met (l : list Z) (k : text) : Prop :=
  ∃ c x, c ∈ l ∧ x ∈ listed (paths c) ∧ named x.2 ∧ take_chars 8 (comment_id x.2) = k.

Lemma draft_change_ok c used w :
  change_ok c →
  ∃ used' d, draft_change R S files (used, w) c = Ok (used', foldl (write_draft S c) w d) ∧
    drafts_of (c, d) ∧ ∀ k, k ∈ used' ↔ k ∈ used ∨ met [c] k.
Proof.
  intros [(s & Es & Ej & Hid) Hf].
  destruct (draft_fold f (listed (paths c)) used [] Hid Hf) as (used' & d & E & Hu & Hp & Hk & _).
  { split; [constructor|]. by intros ?? ?%elem_of_nil. }
  exists used', d. unfold draft_change. rewrite Es, Ej. cbn [res_bind comments_json jitems fst].
  rewrite draft_paths_listed, E. split_and!; [done|done|]. intros k. rewrite Hu.
  apply or_iff_compat_l. split.
  - intros (x & ? & ? & ?). exists c, x. by split; [left|].
  - intros (c' & x & ->%list_elem_of_singleton & ?). by exists x.
Qed.

Lemma draft_changes_ok l used w :
  Forall change_ok l →
  ∃ ds used' w', draft_changes R S files (used, w) l = ((used', w'), Ok ()) ∧
    ds.*1 = l ∧ Forall drafts_of ds ∧ (∀ k, k ∈ used' ↔ k ∈ used ∨ met l k) ∧
    d_files w' = d_files w ++ (ds ≫= λ x, map (draft_file S x.1) x.2).
Proof.
  intros Hl. revert used w. induction Hl as [|c l Hc _ IH]; intros used w.
  { exists [], used, w. split_and!; [done..| |by rewrite app_nil_r]. intros k.
    split; [by left|]. intros [?|(c & x & Hc & _)]; [done|by apply elem_of_nil in Hc]. }
  destruct (draft_change_ok c used w Hc) as (used1 & d & E & Hd & Hu1).
  destruct (IH used1 (foldl (write_draft S c) w d)) as (ds & used' & w' & E' & Hds & Hok & Hu & Hf).
  exists ((c, d) :: ds), used', w'. cbn [draft_changes]. rewrite E, E'. split_and!; [done| | | |].
  - cbn. by rewrite Hds.
  - by constructor.
  - intros k. rewrite Hu, Hu1. unfold met. setoid_rewrite elem_of_cons. split.
    + intros [[?|(c' & x & Hc' & ?)]|(c' & x & ? & ?)]; [by left|right..].
      * exists c', x. split; [|done]. left. by destruct Hc' as [?|?%elem_of_nil].
      * exists c', x. split; [by right|done].
    + intros [?|(c' & x & [->|?] & ?)]; [by left; left|left; right|right; by exists c', x].
      exists c, x. split; [by left|done].
  - rewrite Hf, write_drafts, <-app_assoc. done.
Qed.
End drafts.

(** C21: replies-r3.py: where the comments of every change of CHANGES are saved and the root
    comments the table names have a patch set, the script returns.  It writes for each
    change one file per patch set; the files of a change hold, path by path, exactly one
    reply to each root comment whose id starts with a key of the table, with the text of
    the table, the place of the comment, and unresolved set only where the table declines;
    and the ids it prints as unmatched are the keys that no such comment has. *)
Theorem r3_drafts_complete (R : list (text * answer)) (S : text) (files : Z → option text)
    (paths : Z → list (text * list json)) (f : text * json → Z * text * json) (CHANGES : list Z) :
  Forall (change_ok R files paths f) CHANGES →
  ∃ ds w out l,
    replies_r3 R S files CHANGES = (w, Ok ()) ∧
    ds.*1 = CHANGES ∧ Forall (drafts_of R paths f) ds ∧
    d_files w = ds ≫= (λ x, map (draft_file S x.1) x.2) ∧
    d_out w = out ++ [missing_line l; lit "total replies: " ++
      Z_text (Z.of_nat (size (list_to_set (filter (λ k, k ∉ l) R.*1) : gset text)))] ∧
    ∀ k, k ∈ l ↔ k ∈ R.*1 ∧ ¬ met R paths CHANGES k.
Proof.
  intros H. destruct (draft_changes_ok R S files paths f CHANGES ∅ (Drafts [] []) H)
    as (ds & used & w & E & Hds & Hok & Hu & Hf).
  assert (∀ k, k ∈ missing R used ↔ k ∈ R.*1 ∧ k ∉ used) as Hm.
  { intros k. unfold missing. rewrite (merge_sort_Permutation text_le), elem_of_remove_dups.
    rewrite list_elem_of_filter. tauto. }
  exists ds, (Drafts (d_files w) (d_out w ++ [missing_line (missing R used);
    lit "total replies: " ++ Z_text (Z.of_nat (size used))])), (d_out w), (missing R used).
  unfold replies_r3. rewrite E. split_and!; [done|done|done|exact Hf| |].
  - cbn [d_out]. do 3 f_equal. do 2 f_equal. do 2 f_equal. apply leibniz_equiv. intros k.
    rewrite elem_of_list_to_set, list_elem_of_filter, Hm. split.
    + intros Hk. split; [tauto|]. apply Hu in Hk as [Hk|(c & x & _ & _ & [Hk _] & <-)]; [|done].
      by apply not_elem_of_empty in Hk.
    + intros [Hn Hk]. destruct (decide (k ∈ used)); tauto.
  - intros k. rewrite Hm, Hu, elem_of_empty. tauto.
Qed.

(** The answer of the server with its first line cut, as it is saved. *)
Definition r3_demo_files (c : Z) : option text :=
  if (c =? 68094)%Z then Some (lit "{\qlustre/tests/sanity.sh\q: [
   {\qid\q: \q77aea866_11111111\q, \qpatch_set\q: 3, \qline\q: 5},
   {\qid\q: \qffffffff_11111111\q, \qpatch_set\q: 3, \qin_reply_to\q: \q77aea866_11111111\q}],
  \q/COMMIT_MSG\q: [{\qid\q: \qeb27d35a_22222222\q, \qpatch_set\q: 4}]}") else None.

Definition r3_demo_paths (c : Z) : list (text * list json) :=
  [(lit "lustre/tests/sanity.sh",
    [JObj [(lit "id", JStr (lit "77aea866_11111111")); (lit "patch_set", JInt 3);
           (lit "line", JInt 5)];
     JObj [(lit "id", JStr (lit "ffffffff_11111111")); (lit "patch_set", JInt 3);
           (lit "in_reply_to", JStr (lit "77aea866_11111111"))]]);
   (lit "/COMMIT_MSG", [JObj [(lit "id", JStr (lit "eb27d35a_22222222")); (lit "patch_set", JInt 4)]])].

(** The entry of the table for a comment, at its line. *)
Definition r3_demo_f (x : text * json) : Z * text * json :=
  let loc := match jget "line" x.2 with Ok l => [(lit "line", l)] | Raise _ => [] end in
  let ps := match jget "patch_set" x.2 with Ok (JInt n) => n | _ => 0%Z end in
  match dict_find (take_chars 8 (comment_id x.2)) replies_r3_R with
  | Some (Reply_text t) =>
      (ps, x.1, JObj ([(lit "in_reply_to", JStr (comment_id x.2)); (lit "unresolved", JBool false);
                       (lit "message", JStr t)] ++ loc))
  | _ => (ps, x.1, JNull)
  end.

Lemma drafted_eq R x a ps loc t :
  dict_find (take_chars 8 (comment_id x.2)) R = Some a → jget "patch_set" x.2 = Ok (JInt ps) →
  located x.2 loc →
  t = (ps, x.1,
       JObj ([(lit "in_reply_to", JStr (comment_id x.2));
              (lit "unresolved", JBool (match a with Decline _ => true | Reply_text _ => false end));
              (lit "message", JStr (match a with Decline t | Reply_text t => t end))] ++ loc)) →
  drafted R x t.
Proof. intros Ha Hp Hl ->. destruct x as [p c]. by apply Drafted. Qed.

Lemma r3_drafts_complete_witness :
  ∃ ds w out l,
    replies_r3 replies_r3_R (lit "/r") r3_demo_files [68094%Z] = (w, Ok ()) ∧
    ds.*1 = [68094%Z] ∧ Forall (drafts_of replies_r3_R r3_demo_paths r3_demo_f) ds ∧
    d_files w = ds ≫= (λ x, map (draft_file (lit "/r") x.1) x.2) ∧
    d_out w = out ++ [missing_line l; lit "total replies: " ++
      Z_text (Z.of_nat (size (list_to_set (filter (λ k, k ∉ l) replies_r3_R.*1) : gset text)))] ∧
    ∀ k, k ∈ l ↔ k ∈ replies_r3_R.*1 ∧ ¬ met replies_r3_R r3_demo_paths [68094%Z] k.
Proof.
  apply (r3_drafts_complete replies_r3_R (lit "/r") r3_demo_files r3_demo_paths r3_demo_f [68094%Z]).
  constructor; [|constructor]. split.
  - eexists. split; [reflexivity|]. split; [vm_compute; reflexivity|repeat constructor].
  - intros x Hx Hn. apply list_elem_of_In in Hx. destruct Hx as [<-|[<-|[<-|[]]]].
    + eapply (drafted_eq _ _ _ 3 [(lit "line", JInt 5)]);
        [vm_compute; reflexivity|reflexivity|by apply at_line|vm_compute; reflexivity].
    + exfalso. destruct Hn as [Hn _]. revert Hn. apply (bool_decide_unpack _). vm_compute. exact I.
    + eapply (drafted_eq _ _ _ 4 []);
        [vm_compute; reflexivity|reflexivity|by apply at_file|vm_compute; reflexivity].
Defined.

(** The scripts of a-1017 to a-1019: the rows of replies.md, grouped by change, go to their
    threads. *)

(** ** Rows by change *)

Definition flat_items (d : list (Z * list (text * text))) : list md_row :=
  d ≫= λ x, map (pair x.1) x.2.

Lemma flat_add_item d r : flat_items (add_item d r) ≡ₚ flat_items d ++ [r].
Proof.
  unfold flat_items, add_item. apply bind_assign. cbn [fst snd]. rewrite map_app.
  destruct r as [n x]. cbn. by destruct (dict_find n d).
Qed.

Definition groups_ok (d : list (Z * list (text * text))) : Prop :=
  NoDup d.*1 ∧ ∀ x, x ∈ d → x.2 ≠ [].

Lemma add_item_ok d r : groups_ok d → groups_ok (add_item d r).
Proof.
  intros [Hn Hx]. split; [by apply assign_NoDup|]. intros x Hin.
  apply assign_elem in Hin as [->|Hin]; [intros []%eq_sym%app_cons_not_nil|by apply Hx].
Qed.

Lemma by_change_spec rows : flat_items (by_change rows) ≡ₚ rows ∧ groups_ok (by_change rows).
Proof.
  unfold by_change. assert (∀ d, groups_ok d →
    flat_items (foldl add_item d rows) ≡ₚ flat_items d ++ rows ∧ groups_ok (foldl add_item d rows)) as H.
  { induction rows as [|r rows IH]; intros d Hd; [by rewrite app_nil_r|]. cbn [foldl].
    destruct (IH (add_item d r)) as [Hp Hn]; [by apply add_item_ok|]. split; [|done].
    by rewrite Hp, flat_add_item, <-app_assoc. }
  apply (H []). split; [constructor|]. by intros ? ?%elem_of_nil.
Qed.

#[export] Instance item_le_trans : Transitive item_le.
Proof. intros x y z. unfold item_le. lia. Qed.
#[export] Instance item_le_total : Total item_le.
Proof. intros x y. unfold item_le. lia. Qed.

Definition sorted_items (rows : list md_row) : list (Z * list (text * text)) :=
  merge_sort item_le (by_change rows).

Lemma sorted_items_spec rows :
  flat_items (sorted_items rows) ≡ₚ rows ∧
  StronglySorted (λ x y, (x.1 < y.1)%Z) (sorted_items rows) ∧
  ∀ x, x ∈ sorted_items rows → x.2 ≠ [].
Proof.
  destruct (by_change_spec rows) as [Hp [Hn Hx]]. unfold sorted_items. split_and!.
  - unfold flat_items. by rewrite (merge_sort_Permutation item_le).
  - apply (strictly_sorted fst item_le); [done|apply (StronglySorted_merge_sort item_le)|].
    change (NoDup (merge_sort item_le (by_change rows)).*1).
    by rewrite (merge_sort_Permutation item_le).
  - intros x. rewrite (merge_sort_Permutation item_le). apply Hx.
Qed.

(** ** The reply of a row *)

Inductive on_line (c : json) : list (text * json) → Prop :=
  | line_at l : jget "line" c = Ok l → on_line c [(lit "line", l)]
  | line_none : jhas "line" c = false → on_line c [].

Inductive md_answers (paths : list (text * list json)) (x : text * text) : Z * text * json → Prop :=
  | Md_answers path c ps loc :
      (path, c) ∈ listed paths → comment_id c = x.1 →
      jget "patch_set" c = Ok (JInt ps) → on_line c loc →
      md_answers paths x
        (ps, path, JObj ([(lit "in_reply_to", JStr x.1); (lit "unresolved", JBool false);
                          (lit "message", JStr x.2)] ++ loc)).

Lemma group_item_answers paths byid d x t :
  ids_ok paths → all_roots (comments_json paths) = Ok byid → md_answers paths x t →
  group_item byid d x = Ok (add_reply t.1.1 t.1.2 t.2 d).
Proof.
  intros [Hid Hnd] Hroots [path c ps loc Hin Hcid Hps Hloc].
  rewrite all_roots_listed in Hroots by done. injection Hroots as <-.
  unfold group_item, root_of. rewrite <-Hcid, (foldl_add_lookup _ ∅ (path, c) Hnd Hin).
  cbn [res_bind snd fst]. unfold make_entry. destruct Hloc as [l Hl|Hl].
  - rewrite (jget_jhas _ _ _ Hl), Hl. cbn [res_bind]. rewrite Hps, Hcid. done.
  - rewrite Hl. cbn [res_bind]. rewrite Hps, Hcid. done.
Qed.

Lemma group_items_answers paths byid f l d :
  ids_ok paths → all_roots (comments_json paths) = Ok byid →
  (∀ x, x ∈ l → md_answers paths x (f x)) → keys_differ d →
  ∃ d', foldM (group_item byid) l d = Ok d' ∧ flat_ps d' ≡ₚ flat_ps d ++ map f l ∧ keys_differ d'.
Proof.
  intros Hi Hr. revert d. induction l as [|x l IH]; intros d Hf Hd.
  { exists d. split_and!; [done|by rewrite app_nil_r|done]. }
  cbn [foldM]. rewrite (group_item_answers paths byid d x (f x)); [|done..|apply Hf; by left].
  cbn [res_bind].
  destruct (IH (add_reply (f x).1.1 (f x).1.2 (f x).2 d)) as (d' & E & Hp & Hk).
  { intros y Hy. apply Hf. by right. }
  { by apply add_reply_keys. }
  exists d'. split_and!; [done| |done]. rewrite Hp, flat_add, <-app_assoc. cbn.
  by destruct (f x) as [[??]?].
Qed.

(** ** A run *)

Section run.
Context (urlopen : text → res text) (ssh : command → Z * text).
Context (paths : Z → list (text * list json)) (f : md_row → Z * text * json).

(** The server knows the change, its current patch set and its comments. *)
Definition serves_md (c : Z) : Prop :=
  (∃ detail cur, get5 urlopen (detail_url c) = Ok detail ∧ current_ps detail = Ok (JInt cur)) ∧
  get5 urlopen (comments_url c) = Ok (comments_json (paths c)) ∧ ids_ok (paths c).

Definition item_ok (x : Z * list (text * text)) : Prop :=
  serves_md x.1 ∧ ∀ y, y ∈ x.2 → md_answers (paths x.1) y (f (x.1, y)).

Lemma send_md_calls dry n cur l w :
  ∃ w', foldM (send_md ssh dry n (JInt cur)) l w = Ok w' ∧
    io_calls w' = io_calls w ++ if dry then [] else map call_of (map (pair n) l).
Proof.
  revert w. induction l as [|x l IH]; intros w.
  { exists w. split; [done|]. destruct dry; by rewrite app_nil_r. }
  cbn [foldM]. unfold send_md at 1. cbn [jint res_bind].
  match goal with |- context [foldM _ l ?w1] => destruct (IH w1) as (w' & E & Hc) end.
  exists w'. split; [exact E|]. rewrite Hc. destruct dry; cbn; [done|]. by rewrite <-app_assoc.
Qed.

Lemma post_item_ok dry w x :
  item_ok x →
  ∃ d w', post_item urlopen ssh dry w x = Ok w' ∧
    io_calls w' = io_calls w ++ (if dry then [] else map call_of (map (pair x.1) d)) ∧
    flat_ps d ≡ₚ map (λ y, f (x.1, y)) x.2 ∧ StronglySorted (λ x y, (x.1 < y.1)%Z) d.
Proof.
  intros [((detail & cur & Ed & Ec) & Eg & Hi) Hf].
  pose proof (all_roots_listed (paths x.1) (proj1 Hi)) as Hr.
  destruct (group_items_answers (paths x.1) _ (λ y, f (x.1, y)) x.2 [] Hi Hr Hf)
    as (d & E & Hp & Hk & _).
  { split; [constructor|]. by intros ?? ?%elem_of_nil. }
  destruct (send_md_calls dry x.1 cur (sorted_ps d) w) as (w' & Ew & Hw).
  exists (sorted_ps d), w'. unfold post_item. rewrite Ed. cbn [res_bind]. rewrite Ec. cbn [res_bind].
  rewrite Eg. cbn [res_bind]. rewrite Hr. cbn [res_bind]. rewrite E. cbn [res_bind].
  split_and!; [done|done|by rewrite flat_sorted|by apply sorted_ps_strict].
Qed.

Lemma post_items_ok dry l w :
  Forall item_ok l → StronglySorted (λ x y, (x.1 < y.1)%Z) l →
  ∃ sent w', post_items urlopen ssh dry l w = (w', Ok ()) ∧
    io_calls w' = io_calls w ++ (if dry then [] else map call_of sent) ∧
    StronglySorted before sent ∧ Forall (λ s, s.1 ∈ l.*1) sent ∧
    flat_sent sent ≡ₚ map (λ r, (r.1, f r)) (flat_items l).
Proof.
  intros Ha Hs. revert w. induction Hs as [|x l Hs IH Hx]; intros w.
  { exists [], w. split_and!; [done|destruct dry; by rewrite app_nil_r|constructor|constructor|done]. }
  apply Forall_cons in Ha as [Hok Ha].
  destruct (post_item_ok dry w x Hok) as (d & w1 & E & Hc & Hf & Hd).
  destruct (IH Ha w1) as (s & w' & E' & Hc' & Hso & Hm & Hf').
  exists (map (pair x.1) d ++ s), w'. cbn [post_items]. rewrite E, E'. split_and!; [done|..].
  - rewrite Hc', Hc, <-app_assoc. destruct dry; [done|]. by rewrite (map_app call_of).
  - apply StronglySorted_app_2; [| |done].
    + intros y z Hy Hz. apply list_elem_of_In, in_map_iff in Hy as (y' & <- & _).
      rewrite Forall_forall in Hm. apply Hm, list_elem_of_fmap in Hz as (z' & Ez & Hz).
      rewrite Forall_forall in Hx. left. rewrite Ez. by apply Hx.
    + clear -Hd. induction Hd as [|y d _ IH Hy]; cbn; constructor; [done|].
      rewrite Forall_map. eapply Forall_impl; [exact Hy|]. intros z Hz. right. by split.
  - apply Forall_app. split; [|eapply Forall_impl; [exact Hm|]; intros; by right].
    rewrite Forall_map. apply Forall_forall. intros. by left.
  - rewrite flat_sent_app, flat_sent_pair, Hf'. unfold flat_items. cbn. rewrite map_app.
    apply Permutation_app; [|done]. rewrite Hf, !map_map. done.
Qed.
End run.

Section claims.
Context (urlopen : text → res text) (ssh : command → Z * text).

(** C17: the scripts of a-1017 to a-1019, from replies.md to the posts: where the server
    knows the changes the rows name and every row replies to one of their comments, the run
    returns, with one call of ssh for each change and patch set, in their order, that carry
    exactly the rows: each once, resolved, on the patch set, path and line of its comment.
    The docstrings speak of one call per change; a change with rows on two patch sets has
    two.  With DRY set the run returns as well and makes no call. *)
Theorem md_replies_posted (rows_of : text → res (list md_row)) (md : text) (rows : list md_row)
    (w : io) (paths : Z → list (text * list json)) (f : md_row → Z * text * json) :
  rows_of md = Ok rows →
  (∀ r, r ∈ rows → serves_md urlopen paths r.1 ∧ md_answers (paths r.1) r.2 (f r)) →
  (∃ w', main_md rows_of md urlopen ssh true w = (w', Ok ()) ∧ io_calls w' = io_calls w) ∧
  ∃ sent w', main_md rows_of md urlopen ssh false w = (w', Ok ()) ∧
    io_calls w' = io_calls w ++ map call_of sent ∧ StronglySorted before sent ∧
    flat_sent sent ≡ₚ map (λ r, (r.1, f r)) rows.
Proof.
  intros Hmd H. destruct (sorted_items_spec rows) as (Hp & Hs & Hne).
  assert (Forall (item_ok urlopen paths f) (sorted_items rows)) as Ha.
  { apply Forall_forall. intros x Hx.
    assert (∀ y, y ∈ x.2 → (x.1, y) ∈ rows) as Hin.
    { intros y Hy. rewrite <-Hp. apply list_elem_of_bind. exists x. split; [|done].
      apply list_elem_of_In, in_map. by apply list_elem_of_In. }
    split; [|intros y Hy; by apply (H (x.1, y)), Hin].
    specialize (Hne x Hx). destruct x as [c [|y l]]; [done|].
    apply (H (c, y)), Hin. by left. }
  unfold main_md. rewrite Hmd. unfold post_md. fold (sorted_items rows).
  destruct (post_items_ok urlopen ssh paths f true _ w Ha Hs) as (s1 & w1 & E1 & C1 & _).
  destruct (post_items_ok urlopen ssh paths f false _ w Ha Hs) as (s2 & w2 & E2 & C2 & Hso & _ & Hf).
  split; [exists w1; split; [done|]; by rewrite C1, app_nil_r|].
  exists s2, w2. split_and!; [done..|]. by rewrite Hf, Hp.
Qed.
End claims.

(** Two replies of a-1017, and a server that knows their change. *)
Definition md_demo : text := lit "| Change | Thread | Reply |
| 69502 | 3c794599_c46c0b3f | Done. |
| 69502 | 86500a8b_90ecd953 | Done. |
".

Definition md_demo_paths : list (text * list json) :=
  [(lit "/COMMIT_MSG",
    [JObj [(lit "id", JStr (lit "86500a8b_90ecd953")); (lit "patch_set", JInt 8);
           (lit "line", JInt 19)]]);
   (lit "lfs.c",
    [JObj [(lit "id", JStr (lit "3c794599_c46c0b3f")); (lit "patch_set", JInt 9)]])].

Definition md_demo_urlopen (url : text) : res text :=
  Ok (lit ")]}'
" ++ if bool_decide (url = detail_url 69502)
     then lit "{\qrevisions\q: {\qabc\q: {\q_number\q: 9}}}"
     else json_dumps (comments_json md_demo_paths)).

Definition md_demo_f (r : md_row) : Z * text * json :=
  let rep := [(lit "in_reply_to", JStr r.2.1); (lit "unresolved", JBool false);
              (lit "message", JStr r.2.2)] in
  if bool_decide (r.2.1 = lit "86500a8b_90ecd953")
  then (8%Z, lit "/COMMIT_MSG", JObj (rep ++ [(lit "line", JInt 19)]))
  else (9%Z, lit "lfs.c", JObj (rep ++ [])).

Lemma md_answers_eq paths x path c ps loc t :
  (path, c) ∈ listed paths → comment_id c = x.1 → jget "patch_set" c = Ok (JInt ps) →
  on_line c loc →
  t = (ps, path, JObj ([(lit "in_reply_to", JStr x.1); (lit "unresolved", JBool false);
                        (lit "message", JStr x.2)] ++ loc)) → md_answers paths x t.
Proof. intros ???? ->. by eapply Md_answers. Qed.

Lemma md_replies_posted_witness :
  let rows := [(69502%Z, (lit "3c794599_c46c0b3f", lit "Done."));
               (69502%Z, (lit "86500a8b_90ecd953", lit "Done."))] in
  (∃ w', main_md rows17 md_demo md_demo_urlopen (λ _, (0%Z, [])) true (Io [] []) = (w', Ok ()) ∧
     io_calls w' = []) ∧
  ∃ sent w', main_md rows17 md_demo md_demo_urlopen (λ _, (0%Z, [])) false (Io [] []) = (w', Ok ()) ∧
    io_calls w' = [] ++ map call_of sent ∧ StronglySorted before sent ∧
    flat_sent sent ≡ₚ map (λ r, (r.1, md_demo_f r)) rows.
Proof.
  intros rows.
  apply (md_replies_posted md_demo_urlopen (λ _, (0%Z, [])) rows17 md_demo rows (Io [] [])
    (λ _, md_demo_paths) md_demo_f); [vm_compute; reflexivity|].
  assert (serves_md md_demo_urlopen (λ _, md_demo_paths) 69502) as Hs.
  { split; [eexists _, _; split; vm_compute; reflexivity|]. split; [vm_compute; reflexivity|].
    split; [repeat constructor|]. apply (bool_decide_unpack _). vm_compute. exact I. }
  intros r Hr. apply list_elem_of_In in Hr. destruct Hr as [<-|[<-|[]]]; (split; [exact Hs|]).
  - eapply (md_answers_eq _ _ (lit "lfs.c") _ 9 []); [right; left| | |by apply line_none|];
      vm_compute; reflexivity.
  - eapply (md_answers_eq _ _ (lit "/COMMIT_MSG") _ 8 [(lit "line", JInt 19)]);
      [left| | |by apply line_at|]; vm_compute; reflexivity.
Defined.
