(* ===== verification/Deps.v ===== *)
(** The dependency probes of a-1014: textdeps.py, which drops from the commits before a
    commit those without which its patch still applies, and semdeps.py, which lists the
    earlier commits whose names a commit uses or whose lines it takes out.  What git
    prints and whether a patch applies are parameters. *)
From stdpp Require Export sorting.
From S2P Require Import Prelude PyStr PyParse PyRe PyRegex Json.

(** ** textdeps.py *)

Section textdeps.
Context {index : Type} (master : index) (git_apply : index → text → option index).
Context (patches : string → text).

(** [applies(seq)]: the patches in turn, on the index of master *)
Fixpoint apply_all (idx : index) (seq : list string) : bool :=
  match seq with
  | [] => true
  | c :: seq' => match git_apply idx (patches c) with
                 | Some idx' => apply_all idx' seq'
                 | None => false
                 end
  end.

Definition applies (seq : list string) : bool := apply_all master seq.

(** [[x for x in S if x != j]] *)
Definition without (j : string) (S : list string) : list string :=
  filter (λ x, x ≠ j) S.

(** The loop over the earlier commits, the last one first. *)
Fixpoint drop_from (c : string) (js S : list string) : list string :=
  match js with
  | [] => S
  | j :: js' => let T := without j S in
                drop_from c js' (if applies (T ++ [c]) then T else S)
  end.

Definition deps_of (c : string) (before : list string) : list string :=
  drop_from c (rev before) before.

(** [commits.index(x)] *)
Fixpoint index_of (x : string) (l : list string) : nat :=
  match l with
  | [] => 0
  | y :: l' => if String.eqb x y then 0 else S (index_of x l')
  end.

Definition name_of (commits : list string) (x : string) : text :=
  lit "C" ++ Z_text (Z.of_nat (S (index_of x commits))).

(** One line of the report. *)
Definition dep_line (commits : list string) (i : nat) (S : list string) : text :=
  lit "C" ++ Z_text (Z.of_nat (i + 1)) ++ lit " <- " ++ py_join (lit " ") (map (name_of commits) S).

(** The loop over the commits; the rest of them, and those before. *)
Fixpoint textdeps_from (commits before rest : list string) : list (string * list string) :=
  match rest with
  | [] => []
  | c :: rest' => (c, deps_of c before) :: textdeps_from commits (before ++ [c]) rest'
  end.

Definition textdeps (commits : list string) : list (string * list string) :=
  textdeps_from commits [] commits.

Definition textdeps_lines (commits : list string) : list text :=
  imap (λ i x, dep_line commits i x.2) (textdeps commits).

(** What textdeps.json holds. *)
Definition textdeps_json (commits : list string) : text :=
  json_dumps (JObj (map (λ x, (String.list_ascii_of_string x.1,
                               JList (map (λ c, JStr (String.list_ascii_of_string c)) x.2)))
                        (textdeps commits))).
End textdeps.

(** ** semdeps.py *)

Definition is_letter (c : ascii) : bool := is_alpha_ c && negb (Ascii.eqb c "_").
Definition is_letter_digit (c : ascii) : bool := is_word c && negb (Ascii.eqb c "_").

(** [\b[A-Za-z][A-Za-z0-9]*_[A-Za-z0-9_]+\b] *)
Definition TOK : regex :=
  RLook WordB ⋅ RSet is_letter ⋅ RStar true (RSet is_letter_digit) ⋅ RLit (lit "_") ⋅
  RPlus true (RSet is_word) ⋅ RLook WordB.

Definition tokens (s : text) : gset text := list_to_set (re_findall TOK s).

(** The names in the files of master that can be read. *)
Definition master_tokens (files : list text) : gset text := ⋃ map tokens files.

(** A line of a diff with its file, which is None before the first header. *)
Abbreviation fline := (option text * text)%type.

(** The file, the added and the removed lines so far. *)
Record diff := Diff { df_file : option text; df_plus : list fline; df_minus : list fline }.

Definition diff_line (d : diff) (l : text) : diff :=
  if py_startswith l (lit "+++ ") then Diff (Some (drop 6 l)) (df_plus d) (df_minus d)
  else if py_startswith l (lit "--- ") then d
  else if py_startswith l (lit "+")
  then Diff (df_file d) (df_plus d ++ [(df_file d, drop 1 l)]) (df_minus d)
  else if py_startswith l (lit "-")
  then Diff (df_file d) (df_plus d) (df_minus d ++ [(df_file d, drop 1 l)])
  else d.

Definition read_diff (s : text) : diff := foldl diff_line (Diff None [] []) (py_split_on nl s).

Definition line_tokens (ls : list fline) : gset text := ⋃ map (λ x, tokens x.2) ls.

Definition stripped (x : fline) : fline := (x.1, py_rstrip (py_lstrip x.2)).

(** What is kept of a commit: intro[c], added_lines[c], uses[c] and edits[c], the last
    two by the number of the earlier commit. *)
Record commit_info := Info {
  ci_intro : gset text;
  ci_added : list fline;
  ci_uses : list (nat * gset text);
  ci_edits : list (nat * nat);
}.

(** [uses[c][j] = u], for the earlier commits in turn *)
Definition uses_of (used : gset text) (before : list commit_info) : list (nat * gset text) :=
  omap (λ x, let u := used ∩ ci_intro x.2 in if decide (u = ∅) then None else Some (x.1, u))
       (imap pair before).

(** The last of the earlier commits that added the line. *)
Fixpoint last_adding (x : fline) (before : list commit_info) (i : nat) : option nat :=
  match before with
  | [] => None
  | c :: before' =>
      match last_adding x before' (S i) with
      | Some k => Some k
      | None => if decide (x ∈ ci_added c) then Some i else None
      end
  end.

(** [len(s)]: the bytes that start a character *)
Definition char_length (s : text) : nat := length (List.filter (λ c, negb (cont c)) s).

(** [edits[c][j] = edits[c].get(j, 0) + 1] *)
Definition count_edit (before : list commit_info) (d : list (nat * nat)) (x : fline) : list (nat * nat) :=
  let s := stripped x in
  if char_length s.2 <? 8 then d
  else match last_adding s before 0 with
       | Some j => assign j (S (default 0 (dict_find j d))) d
       | None => d
       end.

Section semdeps.
Context (master : gset text).

(** The body of the loop: the names seen so far, the commits before, and the output of
    git show. *)
Definition commit_step (st : gset text * list commit_info) (show : text) :
    gset text * list commit_info :=
  let (seen, before) := st in
  let d := read_diff show in
  let toks := line_tokens (df_plus d) in
  let mt := line_tokens (df_minus d) in
  let new := toks ∖ master ∖ seen in
  (seen ∪ new,
   before ++ [Info new (map stripped (df_plus d)) (uses_of (toks ∪ mt) before)
                   (foldl (count_edit before) [] (df_minus d))]).

Definition semdeps (shows : list text) : list commit_info := (foldl commit_step (∅, []) shows).2.

(** [set(uses[c]) | set(edits[c])] *)
Definition deps (c : commit_info) : list nat :=
  merge_sort le (remove_dups ((ci_uses c).*1 ++ (ci_edits c).*1)).
End semdeps.

Definition text_lt_eq (a b : text) : Prop :=
  String.leb (String.string_of_list_ascii a) (String.string_of_list_ascii b) = true.
#[export] Instance text_lt_eq_dec : RelDecision text_lt_eq.
Proof. intros x y. unfold text_lt_eq. apply _. Defined.

Definition commit_name (i : nat) : text := lit "C" ++ Z_text (Z.of_nat (i + 1)).

(** The lines printed for a commit. *)
Definition dep_detail (c : commit_info) (j : nat) : text :=
  let u := merge_sort text_lt_eq (elements (default ∅ (dict_find j (ci_uses c)))) in
  lit "    " ++ commit_name j ++ lit ": uses " ++ Z_text (Z.of_nat (length u)) ++ lit " " ++
  py_join (lit ", ") (take 8 u) ++
  match dict_find j (ci_edits c) with
  | Some n => if n =? 0 then [] else lit "; edits " ++ Z_text (Z.of_nat n) ++ lit " lines"
  | None => []
  end.

Definition semdeps_report (cs : list commit_info) : list text :=
  mjoin (imap (λ i c,
    (commit_name i ++ lit " <- " ++ py_join (lit " ") (map commit_name (deps c)))
    :: map (dep_detail c) (deps c)) cs).
