(* ===== verification/DepsTheorems.v ===== *)
(** What the dependency probes find: textdeps.py keeps commits with which the patch applies
    and each of which it could not drop when it came to it; semdeps.py lists exactly the
    earlier commits that first added a name the commit uses, or that last added a line it
    takes out. *)
From S2P Require Import Prelude PyStr PyParse PyRe PyRegex Json RepliesFacts Deps.

(** ** textdeps.py *)

Lemma snoc_split {A} (l : list A) x a y b :
  l ++ [x] = a ++ y :: b → (b = [] ∧ y = x ∧ a = l) ∨ ∃ b', b = b' ++ [x] ∧ l = a ++ y :: b'.
Proof.
  destruct b as [|z b _] using rev_ind; intros E.
  - apply app_inj_tail in E as [-> ->]. by left.
  - rewrite app_comm_cons, app_assoc in E. apply app_inj_tail in E as [-> ->]. right. eauto.
Qed.

Section textdeps.
Context {index : Type} (master : index) (git_apply : index → text → option index).
Context (patches : string → text) (c : string).

Abbreviation applies := (applies master git_apply patches).

Lemma without_last j a K : NoDup (a ++ j :: K) → without j (a ++ j :: K) = a ++ K.
Proof.
  intros Hd. assert (∀ l, j ∉ l → without j l = l) as Hid.
  { intros l Hl. unfold without. induction l as [|x l IH]; [done|].
    apply not_elem_of_cons in Hl as [Hx Hl]. rewrite filter_cons_True by done. by rewrite IH. }
  apply NoDup_app in Hd as (_ & Hj & Hd). apply NoDup_cons in Hd as [HK _].
  unfold without in *. rewrite filter_app, filter_cons_False by tauto. rewrite !Hid; [done|done|].
  intros Ha. apply (Hj j Ha). by left.
Qed.

(** The earlier commits [a] are still to be looked at, the later ones [K] are kept. *)
Lemma drop_from_spec a K :
  NoDup (a ++ K) →
  ∃ A, drop_from master git_apply patches c (rev a) (a ++ K) = A ++ K ∧ sublist A a ∧
    (applies (a ++ K ++ [c]) = true → applies (A ++ K ++ [c]) = true) ∧
    ∀ a1 j a2 D1 D2, a = a1 ++ j :: a2 → A = D1 ++ j :: D2 → applies (a1 ++ D2 ++ K ++ [c]) = false.
Proof.
  revert K. induction a as [|j a IH] using rev_ind; intros K Hd.
  { exists []. split_and!; [done|constructor|done|]. by intros ????? ?%app_cons_not_nil. }
  rewrite <-app_assoc in Hd. cbn [app] in Hd.
  assert (j ∉ a) as Hj by (intros Hj; apply NoDup_app in Hd as (_ & Hx & _); apply (Hx j Hj); by left).
  rewrite rev_app_distr, <-app_assoc. cbn [rev app drop_from]. rewrite without_last by done.
  destruct (applies ((a ++ K) ++ [c])) eqn:E.
  - destruct (IH K) as (A & -> & Hs & Ha & Hn).
    { apply NoDup_app in Hd as (H1 & H2 & [_ H3]%NoDup_cons). apply NoDup_app. split_and!; [done| |done].
      intros x Hx Hk. apply (H2 x Hx). by right. }
    exists A. split_and!; [done|by apply sublist_inserts_r| |].
    { intros _. apply Ha. by rewrite app_assoc. }
    intros a1 j' a2 D1 D2 Ea EA. apply snoc_split in Ea as [(_ & -> & _)|(b & -> & ->)].
    + exfalso. apply Hj. eapply elem_of_sublist; [|exact Hs]. rewrite EA. apply elem_of_app. right. by left.
    + by eapply Hn.
  - destruct (IH (j :: K) Hd) as (A & -> & Hs & Ha & Hn).
    exists (A ++ [j]). rewrite <-!app_assoc. split_and!; [done|by apply sublist_app|exact Ha|].
    intros a1 j' a2 D1 D2 Ea EA.
    apply snoc_split in EA, Ea. destruct Ea as [(? & ? & ?)|(b & ? & ?)],
      EA as [(? & ? & ?)|(D & ? & ?)]; subst.
    + cbn. by rewrite app_assoc.
    + exfalso. apply Hj. eapply elem_of_sublist; [|exact Hs]. apply elem_of_app. right. by left.
    + exfalso. apply Hj. apply elem_of_app. right. by left.
    + rewrite <-app_assoc. by eapply Hn.
Qed.

Lemma textdeps_from_lookup commits before rest i :
  textdeps_from master git_apply patches commits before rest !! i =
  (λ x, (x, deps_of master git_apply patches x (before ++ take i rest))) <$> rest !! i.
Proof.
  revert before i. induction rest as [|x rest IH]; intros before i; [done|].
  destruct i as [|i]; cbn; [by rewrite app_nil_r|].
  rewrite IH. cbn. by rewrite <-app_assoc.
Qed.
End textdeps.

(** C19: textdeps.py, for a series of different commits whose patches apply one after the
    other: the commits it keeps for a commit are among those before it, in their order; the
    patch applies on them; and none of them could be dropped when its turn came: without
    it, on the commits before it and the later ones that are kept, the patch does not
    apply. *)
Theorem textdeps_needed {index : Type} (master : index) (git_apply : index → text → option index)
    (patches : string → text) (commits : list string) (i : nat) (c : string) :
  NoDup commits →
  (∀ k, applies master git_apply patches (take k commits) = true) →
  commits !! i = Some c →
  ∃ D, textdeps master git_apply patches commits !! i = Some (c, D) ∧
    sublist D (take i commits) ∧ applies master git_apply patches (D ++ [c]) = true ∧
    ∀ a j b D1 D2, take i commits = a ++ j :: b → D = D1 ++ j :: D2 →
      applies master git_apply patches (a ++ D2 ++ [c]) = false.
Proof.
  intros Hd Ha Hi. unfold textdeps. rewrite textdeps_from_lookup, Hi. cbn.
  destruct (drop_from_spec master git_apply patches c (take i commits) [])
    as (A & E & Hs & Hap & Hn).
  { rewrite app_nil_r. rewrite <-(take_drop i commits) in Hd. by apply NoDup_app in Hd as [? _]. }
  rewrite !app_nil_r in E. exists A. unfold deps_of. rewrite E. split_and!; [done|done| |].
  - apply Hap. cbn. rewrite <-(take_S_r commits i c Hi). apply Ha.
  - intros a j b D1 D2 E1 E2. by eapply Hn.
Qed.

(** Four commits: the third needs the first, the fourth the second and third. *)
Definition demo_apply (idx : list text) (p : text) : option (list text) :=
  let has x := bool_decide (lit x ∈ idx) in
  if bool_decide (p = lit "c") && negb (has "a") then None
  else if bool_decide (p = lit "d") && negb (has "b" && has "c") then None
  else Some (p :: idx).

Lemma textdeps_needed_witness :
  ∃ D, textdeps [] demo_apply String.list_ascii_of_string ["a"; "b"; "c"; "d"] !! 3 = Some ("d", D) ∧
    sublist D ["a"; "b"; "c"] ∧
    applies [] demo_apply String.list_ascii_of_string (D ++ ["d"]) = true ∧
    ∀ a j b D1 D2, ["a"; "b"; "c"] = a ++ j :: b → D = D1 ++ j :: D2 →
      applies [] demo_apply String.list_ascii_of_string (a ++ D2 ++ ["d"]) = false.
Proof.
  apply (textdeps_needed [] demo_apply String.list_ascii_of_string ["a"; "b"; "c"; "d"] 3 "d").
  - apply (bool_decide_unpack _). vm_compute. exact I.
  - intros k. do 5 (destruct k as [|k]; [vm_compute; reflexivity|]). vm_compute. reflexivity.
  - reflexivity.
Defined.

(** ** semdeps.py *)

(** The names a diff adds and the names it takes out; the lines it adds and takes out. *)
Definition names_added (show : text) : gset text := line_tokens (df_plus (read_diff show)).
Definition names_removed (show : text) : gset text := line_tokens (df_minus (read_diff show)).
Definition lines_added (show : text) : list fline := map stripped (df_plus (read_diff show)).

(** The lines of at least eight characters that a diff takes out. *)
Definition lines_removed (show : text) : list fline :=
  filter (λ x, 8 ≤ char_length x.2) (map stripped (df_minus (read_diff show))).

(** Commit [j] is the first of the series that adds a name master does not have. *)
Definition introduces (master : gset text) (shows : list text) (j : nat) (t : text) : Prop :=
  (t ∉ master) ∧ (∃ s, shows !! j = Some s ∧ t ∈ names_added s) ∧
  ∀ k s, k < j → shows !! k = Some s → t ∉ names_added s.

(** Commit [j] is the last one before [i] that adds a line. *)
Definition last_added (shows : list text) (i j : nat) (x : fline) : Prop :=
  (∃ s, shows !! j = Some s ∧ x ∈ lines_added s) ∧
  ∀ k s, j < k → k < i → shows !! k = Some s → x ∉ lines_added s.

Lemma last_adding_spec x before i j :
  last_adding x before i = Some j ↔
  i ≤ j ∧ (∃ c, before !! (j - i) = Some c ∧ x ∈ ci_added c) ∧
  ∀ k c, j - i < k → before !! k = Some c → x ∉ ci_added c.
Proof.
  revert i j. induction before as [|c before IH]; intros i j; cbn [last_adding].
  { split; [done|]. by intros (_ & (c & ? & _) & _). }
  destruct (last_adding x before (S i)) as [k|] eqn:E.
  - apply IH in E as (Hk & (ck & Hck & Hin) & Hlast). split.
    + intros [= <-]. split_and!; [lia| |].
      * exists ck. replace (k - i) with (S (k - S i)) by lia. done.
      * intros [|m] cm Hm Hlk; [lia|]. apply (Hlast m); [lia|done].
    + intros (Hj & (cj & Hcj & Hxj) & Hjl). f_equal. destruct (decide (k = j)) as [|Hne]; [done|].
      exfalso. destruct (decide (k < j)).
      * apply (Hlast (j - S i) cj); [lia| |done]. by replace (j - i) with (S (j - S i)) in Hcj by lia.
      * apply (Hjl (S (k - S i)) ck); [lia|done|done].
  - assert (∀ m cm, before !! m = Some cm → x ∉ ci_added cm) as Hno.
    { clear -E. revert i E. induction before as [|c before IH]; intros i E m cm Hm; [done|].
      cbn [last_adding] in E. destruct (last_adding x before (S (S i))) eqn:E'; [done|].
      destruct (decide (x ∈ ci_added c)); [done|]. destruct m as [|m]; [by simplify_eq/=|].
      by eapply (IH (S i)). }
    destruct (decide (x ∈ ci_added c)) as [Hin|Hin].
    + split.
      * intros [= <-]. rewrite Nat.sub_diag. split_and!; [done|by exists c|].
        intros [|m] cm Hm Hlk; [lia|]. by apply (Hno m).
      * intros (Hj & (cj & Hcj & Hxj) & _). destruct (j - i) as [|m] eqn:Em; [f_equal; lia|].
        by apply Hno in Hcj.
    + split; [done|]. intros (Hj & (cj & Hcj & Hxj) & _).
      destruct (j - i) as [|m]; [by simplify_eq/=|]. by apply Hno in Hcj.
Qed.

Lemma edits_keys before l d j :
  j ∈ (foldl (count_edit before) d l).*1 ↔
  j ∈ d.*1 ∨ ∃ x, x ∈ l ∧ 8 ≤ char_length (stripped x).2 ∧ last_adding (stripped x) before 0 = Some j.
Proof.
  revert d. induction l as [|x l IH]; intros d; cbn [foldl].
  { split; [by left|]. intros [?|(x & Hx & _)]; [done|by apply elem_of_nil in Hx]. }
  rewrite IH. setoid_rewrite elem_of_cons.
  assert (j ∈ (count_edit before d x).*1 ↔ j ∈ d.*1 ∨
    (8 ≤ char_length (stripped x).2 ∧ last_adding (stripped x) before 0 = Some j)) as ->.
  { unfold count_edit. destruct (char_length (stripped x).2 <? 8) eqn:El; bools; [intuition lia|].
    destruct (last_adding (stripped x) before 0) as [k|]; [|naive_solver].
    rewrite assign_keys. naive_solver. }
  split.
  - intros [[?|?]|(y & ? & ?)]; [by left|right; exists x; auto|right; exists y; auto].
  - intros [?|(y & [->|?] & ?)]; [by left; left|by left; right|right; by exists y].
Qed.

Lemma uses_keys used before j :
  j ∈ (uses_of used before).*1 ↔ ∃ c t, before !! j = Some c ∧ t ∈ used ∧ t ∈ ci_intro c.
Proof.
  unfold uses_of. rewrite list_elem_of_fmap. setoid_rewrite list_elem_of_omap. split.
  - intros ([k u] & -> & ([k' c] & Hin & Hu)). cbn in Hu |- *.
    apply list_elem_of_lookup in Hin as (n & Hn). rewrite list_lookup_imap in Hn.
    destruct (before !! n) as [c'|] eqn:En; [|done]. cbn in Hn. simplify_eq.
    destruct (decide (used ∩ ci_intro c = ∅)) as [|Hne]; [done|]. simplify_eq.
    apply set_choose_L in Hne as [t Ht]. apply elem_of_intersection in Ht as [??].
    by exists c, t.
  - intros (c & t & Hc & Hu & Hi). exists (j, used ∩ ci_intro c). split; [done|].
    exists (j, c). split.
    + apply list_elem_of_lookup. exists j. by rewrite list_lookup_imap, Hc.
    + cbn. rewrite decide_False; [done|]. intros E.
      assert (t ∈ (∅ : gset text)) as Ht by (rewrite <-E; by apply elem_of_intersection).
      by apply not_elem_of_empty in Ht.
Qed.

Section semdeps.
Context (master : gset text).

Definition state (shows : list text) : gset text * list commit_info :=
  foldl (commit_step master) (∅, []) shows.

Lemma state_snoc shows s : state (shows ++ [s]) = commit_step master (state shows) s.
Proof. apply foldl_snoc. Qed.

Lemma state_length shows : length (state shows).2 = length shows.
Proof.
  induction shows as [|s shows IH] using rev_ind; [done|]. rewrite state_snoc.
  unfold commit_step. destruct (state shows) as [seen before]. cbn in IH |- *.
  by rewrite !length_app, IH.
Qed.

(** What is kept of a commit depends on those before it. *)
Definition info (shows : list text) (s : text) : commit_info :=
  let (seen, before) := state shows in
  Info (names_added s ∖ master ∖ seen) (lines_added s)
       (uses_of (names_added s ∪ names_removed s) before)
       (foldl (count_edit before) [] (df_minus (read_diff s))).

Lemma state_lookup shows i :
  (state shows).2 !! i = info (take i shows) <$> shows !! i.
Proof.
  induction shows as [|s shows IH] using rev_ind; [done|]. rewrite state_snoc.
  assert ((commit_step master (state shows) s).2 = (state shows).2 ++ [info shows s]) as ->.
  { unfold commit_step, info. by destruct (state shows). }
  destruct (decide (i < length shows)) as [Hi|Hi].
  - rewrite lookup_app_l by (by rewrite state_length). rewrite IH.
    rewrite (lookup_app_l shows) by done. by rewrite take_app_le by lia.
  - rewrite lookup_app_r by (rewrite state_length; lia). rewrite state_length.
    rewrite (lookup_app_r shows) by lia. destruct (i - length shows) as [|k] eqn:E; [|done].
    cbn. replace i with (length shows) by lia. by rewrite take_app_length.
Qed.

Lemma seen_spec shows t :
  t ∈ (state shows).1 ↔ (t ∉ master) ∧ ∃ k s, shows !! k = Some s ∧ t ∈ names_added s.
Proof.
  induction shows as [|s shows IH] using rev_ind.
  { split; [by intros ?%not_elem_of_empty|]. by intros (_ & k & s & ? & _). }
  rewrite state_snoc. unfold commit_step. destruct (state shows) as [seen before]. cbn in IH |- *.
  fold (names_added s). rewrite elem_of_union, !elem_of_difference. split.
  - intros [(Hm & k & s' & Hk & Ht)%IH|[[Ht Hm] _]]; (split; [done|]).
    + exists k, s'. split; [|done]. by apply lookup_app_l_Some.
    + exists (length shows), s. split; [|done]. by apply list_lookup_middle.
  - intros (Hm & k & s' & Hk & Ht). apply lookup_app_Some in Hk as [Hk|[Hl Hk]].
    + left. apply IH. split; [done|]. by exists k, s'.
    + apply list_lookup_singleton_Some in Hk as [_ ->]. destruct (decide (t ∈ seen)); [by left|by right].
Qed.

Lemma info_intro shows i s t :
  shows !! i = Some s → t ∈ ci_intro (info (take i shows) s) ↔ introduces master shows i t.
Proof.
  intros Hi. unfold info, introduces. destruct (state (take i shows)) as [seen before] eqn:E. cbn.
  rewrite !elem_of_difference. pose proof (seen_spec (take i shows) t) as Hs. rewrite E in Hs. cbn in Hs.
  split.
  - intros [[Ht Hm] Hn]. split_and!; [done|by exists s|]. intros k s' Hk Hl Hin. apply Hn, Hs.
    split; [done|]. exists k, s'. split; [|done]. by rewrite lookup_take_lt.
  - intros (Hm & (s' & Hs' & Ht) & Hb). simplify_eq. split_and!; [done|done|].
    intros (_ & k & s' & Hk & Hin)%Hs. apply lookup_take_Some in Hk as [Hk Hl]. by eapply Hb.
Qed.

Lemma semdeps_lookup shows i c :
  semdeps master shows !! i = Some c → ∃ s, shows !! i = Some s ∧ c = info (take i shows) s.
Proof.
  unfold semdeps. fold (state shows). rewrite state_lookup.
  intros (s & -> & ->)%fmap_Some. by exists s.
Qed.

Lemma state_take shows i j :
  (state (take i shows)).2 !! j = if decide (j < i) then info (take j shows) <$> shows !! j else None.
Proof.
  rewrite state_lookup. destruct (decide (j < i)) as [Hj|Hj].
  - rewrite lookup_take_lt by done. by rewrite take_take, Nat.min_l by lia.
  - by rewrite lookup_take_ge by lia.
Qed.

Lemma info_uses shows i s j :
  j ∈ (ci_uses (info (take i shows) s)).*1 ↔
  j < i ∧ ∃ t, introduces master shows j t ∧ (t ∈ names_added s ∨ t ∈ names_removed s).
Proof.
  unfold info. destruct (state (take i shows)) as [seen before] eqn:E. cbn.
  pose proof (state_take shows i j) as Hb. rewrite E in Hb. cbn in Hb.
  rewrite uses_keys, Hb. setoid_rewrite elem_of_union. split.
  - intros (c & t & Hc & Ht & Hin). destruct (decide (j < i)) as [Hj|]; [|done].
    apply fmap_Some in Hc as (s' & Hs' & ->). split; [done|]. exists t. split; [|done].
    by apply (info_intro _ _ s').
  - intros (Hj & t & Hin & Ht). rewrite decide_True by done.
    pose proof Hin as (_ & (s' & Hs' & _) & _). rewrite Hs'. eexists _, t.
    split_and!; [done|done|]. by apply info_intro.
Qed.

Lemma info_added shows s : ci_added (info shows s) = lines_added s.
Proof. unfold info. by destruct (state shows). Qed.

Lemma info_edits shows i s j :
  i ≤ length shows →
  j ∈ (ci_edits (info (take i shows) s)).*1 ↔
  j < i ∧ ∃ x, x ∈ lines_removed s ∧ last_added shows i j x.
Proof.
  intros Hi. unfold info. destruct (state (take i shows)) as [seen before] eqn:E. cbn [ci_edits].
  assert (∀ k, before !! k = if decide (k < i) then info (take k shows) <$> shows !! k else None) as Hb.
  { intros k. rewrite <-state_take, E. done. }
  rewrite edits_keys. unfold lines_removed.
  assert (∀ x, last_adding x before 0 = Some j ↔ j < i ∧ last_added shows i j x) as Hl.
  { intros x. rewrite last_adding_spec, Nat.sub_0_r. unfold last_added. split.
    - intros (_ & (c & Hc & Hx) & Hn). rewrite Hb in Hc.
      destruct (decide (j < i)) as [Hj|]; [|done]. apply fmap_Some in Hc as (s' & Hs' & ->).
      rewrite info_added in Hx. split_and!; [done|by exists s'|]. intros k sk Hk Hki Hsk.
      rewrite <-(info_added (take k shows)). eapply (Hn k); [done|].
      rewrite Hb, decide_True by done. by rewrite Hsk.
    - intros (Hj & (s' & Hs' & Hx) & Hn). split_and!; [lia| |].
      + exists (info (take j shows) s'). rewrite Hb, decide_True, Hs' by done. by rewrite info_added.
      + intros k c Hk Hc. rewrite Hb in Hc. destruct (decide (k < i)) as [Hki|]; [|done].
        apply fmap_Some in Hc as (sk & Hsk & ->). rewrite info_added. by apply (Hn k). }
  setoid_rewrite Hl. setoid_rewrite list_elem_of_filter. split.
  - intros [?%elem_of_nil|(x & Hx & H8 & Hj & Hla)]; [done|]. split; [done|].
    exists (stripped x). split; [|done]. split; [done|].
    apply list_elem_of_In, in_map. by apply list_elem_of_In.
  - intros (Hj & x & [H8 Hx] & Hla). right.
    apply list_elem_of_In, in_map_iff in Hx as (y & <- & Hy). exists y.
    split; [by apply list_elem_of_In|done].
Qed.
End semdeps.

(** C18: semdeps.py: a commit is found to depend on an earlier one exactly when the earlier
    one is the first of the series to add a name, one master does not have, that the commit
    adds or takes out in a line; or when the commit takes out a line that, blanks at its
    ends aside, has at least eight characters, and that the earlier one, and none between
    the two, has added under the same file name. *)
Theorem semdeps_exact (master : gset text) (shows : list text) (i : nat) (c : commit_info) :
  semdeps master shows !! i = Some c →
  ∃ s, shows !! i = Some s ∧
    ∀ j, j ∈ deps c ↔
      j < i ∧ ((∃ t, introduces master shows j t ∧ (t ∈ names_added s ∨ t ∈ names_removed s)) ∨
               ∃ x, x ∈ lines_removed s ∧ last_added shows i j x).
Proof.
  intros (s & Hs & ->)%semdeps_lookup. exists s. split; [done|]. intros j.
  unfold deps. rewrite (merge_sort_Permutation le), elem_of_remove_dups, elem_of_app.
  assert (i ≤ length shows) as Hl by (apply lookup_lt_Some in Hs; lia).
  rewrite info_uses, info_edits by done. tauto.
Qed.

(** Two diffs: the second uses a name the first has added and takes out one of its lines. *)
Definition demo_shows : list text :=
  [lit "+++ b/f.c
+int scan_one(void);
+	scan_two(x_y);";
   lit "+++ b/f.c
-int scan_one(void);
+int scan_three(void);"].

Lemma semdeps_exact_witness :
  ∃ s, demo_shows !! 1 = Some s ∧
    ∀ j, j ∈ deps (Info {[lit "scan_three"]} [(Some (lit "f.c"), lit "int scan_three(void);")]
                        [(0, {[lit "scan_one"]})] [(0, 1)]) ↔
      j < 1 ∧ ((∃ t, introduces {[lit "x_y"]} demo_shows j t ∧
                     (t ∈ names_added s ∨ t ∈ names_removed s)) ∨
               ∃ x, x ∈ lines_removed s ∧ last_added demo_shows 1 j x).
Proof.
  apply (semdeps_exact {[lit "x_y"]} demo_shows 1). vm_compute. reflexivity.
Defined.
