(* ===== verification/Rebuild8.v ===== *)
(** docs/rounds/a-1008/rebuild.py with the edits_lr.py it executes: the framework of
    Rebuild.v, with two more stages after the edits (names renamed word by word in
    every file of the commit that has them, and edits made after that) and with
    paragraphs added to messages.

    [git grep -l -w] is a parameter, with what git documents of it as [GrepLaws]. *)
From S2P Require Import Prelude PyStr Stable PyRe Rebuild RebuildFacts.

(** ** Messages *)

(** The trailer a paragraph is put before. *)
Definition trailers : list text := [lit "
Test-Parameters:"; lit "
Signed-off-by:"].

Fixpoint trailer_pos (ts : list text) (m : text) : option nat :=
  match ts with
  | [] => None
  | t :: ts' => match py_find t m with Some k => Some k | None => trailer_pos ts' m end
  end.

(** [para(m, text, what)] *)
Definition para (m txt : text) (what : string) : res text :=
  let k := trailer_pos trailers m in
  if py_in txt m then Ok m
  else match k with
       | None => Raise (RuntimeError (what +:+ ": no trailer"))
       | Some k => Ok (take k m ++ [nl] ++ txt ++ [nl] ++ drop k m)
       end.

(** A rewriter is a sequence of [rep] and [para]. *)
Inductive mstep :=
  | MRep (old new : text) (what : string)
  | MPara (txt : text) (what : string).

Definition run_mstep (m : text) (st : mstep) : res text :=
  match st with
  | MRep old new what => rep m old new what
  | MPara txt what => para m txt what
  end.

Fixpoint msteps (m : text) (sts : list mstep) : res text :=
  match sts with
  | [] => Ok m
  | st :: sts' => let! m' := run_mstep m st in msteps m' sts'
  end.

(** ** Files *)

(** A row of RENAMES: the commit, the name and the new name. *)
Record rename_row := Rename { rn_own : nat; rn_a : text; rn_b : text }.

(** A row of POST. *)
Record post_row := Post {
  po_own : nat; po_f : string; po_a : text; po_b : text; po_what : string;
}.

(** [git grep -l -w a c]: the files of the commit that have the word. *)
Class Grep := grep_lw : gmap string text → text → list string.

Class GrepLaws `{Grep} := {
  grep_lw_spec tree a f :
    f ∈ grep_lw tree a ↔ ∃ s, tree !! f = Some s ∧ a ∈ words s;
}.

Section stage.
Context `{Grep}.
Context (tree : gmap string text) (i : nat).

(** [for f in out.split()] *)
Fixpoint rename_in (a b : text) (fs : list string) (files : gmap string text)
    : res (gmap string text) :=
  match fs with
  | [] => Ok files
  | f :: fs' =>
      match (match files !! f with Some s => Some s | None => tree !! f end) with
      | None => Raise (CalledProcessError "show")
      | Some s => rename_in a b fs' (<[f := sub_word a b s]> files)
      end
  end.

Fixpoint rename_files (RENAMES : list rename_row) (files : gmap string text)
    : res (gmap string text) :=
  match RENAMES with
  | [] => Ok files
  | r :: RENAMES' =>
      if i <? rn_own r then rename_files RENAMES' files
      else
        let! files' := rename_in (rn_a r) (rn_b r) (grep_lw tree (rn_a r)) files in
        rename_files RENAMES' files'
  end.

(** The loop over POST; a file that nothing has fetched is a [KeyError], which is
    caught like the rest. *)
Fixpoint post_files (POST : list post_row) (files : gmap string text) (errs : list exn)
    : gmap string text * list exn :=
  match POST with
  | [] => (files, errs)
  | p :: POST' =>
      if i <? po_own p then post_files POST' files errs
      else match files !! po_f p with
           | None => post_files POST' files (errs ++ [KeyError (po_f p)])
           | Some s =>
               match rep s (po_a p) (po_b p) (po_what p) with
               | Ok t => post_files POST' (<[po_f p := t]> files) errs
               | Raise x => post_files POST' files (errs ++ [x])
               end
           end
  end.
End stage.

(** What [build] of a-1008 does to the files of commit [i]. *)
Definition stage8 `{Grep} (EDITS : list edit_row) (RENAMES : list rename_row)
    (POST : list post_row) : stage := λ tree i,
  let! fe := edit_files tree i EDITS ∅ [] in
  let! files := rename_files tree i RENAMES fe.1 in
  Ok (post_files i POST files fe.2).
