(* ===== verification/R1008Table.v ===== *)
(** The edits, renames and message rewriters of docs/rounds/a-1008/rebuild.py, names
    prefixed with [r1008_]. *)
From S2P Require Import Prelude PyStr Rebuild Rebuild8.

Definition r1008_BASE : string := "507b70072f^".

Definition r1008_STACK : list string :=
  ["507b70072f"; "41ce6d4dd3"; "9b2b5a3e00"; "05f759fd87";
   "31e7e4514b"; "37b7eea72b"; "9c978aa1c1"; "1e2c28137b";
   "d5da1d2821"; "1ce5c85105"; "042fdbdcc3"; "32eed0704f";
   "77d69359a6"; "37e8b4ce9a"; "5fb491bd27"; "f3f607be9a";
   "4f3960ebaf"; "ab63954c73"].

Definition r1008_C156 : nat := 0.
Definition r1008_C157 : nat := 1.
Definition r1008_C158 : nat := 2.
Definition r1008_C159 : nat := 3.
Definition r1008_C160 : nat := 4.
Definition r1008_C163 : nat := 5.
Definition r1008_C288 : nat := 6.
Definition r1008_C415 : nat := 7.
Definition r1008_C416 : nat := 8.
Definition r1008_C417 : nat := 9.
Definition r1008_C418 : nat := 10.
Definition r1008_C419 : nat := 11.
Definition r1008_C420 : nat := 12.
Definition r1008_C443 : nat := 13.
Definition r1008_F_GAP : nat := 14.
Definition r1008_F_NLINK : nat := 15.
Definition r1008_F_PICK : nat := 16.
Definition r1008_F_ZFS : nat := 17.

Definition r1008_PF : string := "lustre/utils/liblustreapi_pfind.c".

Definition r1008_LA : string := "lustre/utils/liblustreapi.c".

Definition r1008_LI : string := "lustre/utils/lustreapi_internal.h".

Definition r1008_ZF : string := "lustre/utils/libscan_zfs.c".

Definition r1008_SC : string := "lustre/utils/liblustreapi_scan_changelog.c".

Definition r1008_LF1 : string := "Documentation/man1/lfs-find.1".

Definition r1008_LC3 : string := "Documentation/man3/llapi_scan_changelog.3".

(** rebuild.py, lines 49 to 112. *)
Definition r1008_edits_1 : list edit_row := [
  Edit r1008_C159 r1008_PF
    (lit "				     &off, name, sizeof(name), NULL) == 0) {
			/*
			 * The linkea claims more names than it can spell:
			 * leh_reccount is capped by the smallest entry that
			 * could fit, so a torn trusted.link parses entry 0
			 * and runs out on a later one.  The names left are")
    (lit "				     &off, name, sizeof(name), NULL) == 0 ||
		    name[0] == '\\0') {
			/*
			 * The linkea claims more names than it can spell:
			 * leh_reccount is capped by the smallest entry that
			 * could fit, so a torn trusted.link parses entry 0
			 * and runs out on a later one.  A name that starts
			 * with NUL is the same damage, and fnmatch() would
			 * answer it as \q\q.  The names left are")
    "159 empty name" None;
  Edit r1008_C288 r1008_PF
    (lit "				     &named.lfsr_parent_fid) == 0)
			break;
")
    (lit "				     &named.lfsr_parent_fid) == 0)
			break;
		/* an empty name is damage, not a name to place */
		if (name[0] == '\\0')
			continue;
")
    "288 empty name" None;
  Edit r1008_C163 r1008_ZF
    (lit "	 * and records its id here; the commit callback frees it moments
	 * later, but after a crash nothing has -- osd_unlinked_drain() runs
	 * at the next mount, and a failover partner's copy has not had one.")
    (lit "	 * and records its id here; osd_trans_stop() frees it in a new
	 * transaction straight after, but after a crash nothing has --
	 * osd_unlinked_drain() runs at the next mount, and a failover
	 * partner's copy has not had one.")
    "163 unlinked free" None;
  Edit r1008_C415 r1008_LC3
    (lit "and the birth time is filled where the MDT has one. No object is opened for read, so resolution adds
no
.B CL_OPEN")
    (lit "and the birth time is filled where the MDT has one.
No object is opened for read, so resolution adds no
.B CL_OPEN")
    "415 man wrap" None;
  Edit r1008_C415 r1008_SC
    (lit "#include <sys/types.h>
#include <time.h>
#include <unistd.h>")
    (lit "#include <sys/types.h>
#include <unistd.h>")
    "415 time.h" None;
  Edit r1008_C415 r1008_SC
    (lit "		/* a lookup is what adds the object's own attributes, and it
		 * needs both the flag and a mount to open through
		 */
		if ((scl.sc_flags & LLAPI_SCAN_CL_F_RESOLVE) &&
		    scl.sc_mnt != NULL)
			known |= SCAN_CL_RESOLVE_MASK;")
    (lit "		/* a lookup adds the object's own attributes; the flag
		 * without a mount was refused above
		 */
		if (scl.sc_flags & LLAPI_SCAN_CL_F_RESOLVE)
			known |= SCAN_CL_RESOLVE_MASK;")
    "415 sc_mnt" None;
  Edit r1008_C417 r1008_LF1
    (lit "not when an entry is created, removed or renamed in it, although that changes
its mtime and ctime.
")
    (lit "not when an entry is created, removed or renamed in it, although that changes
its mtime and ctime. A write to a file makes no record until the file is
closed, so a file whose only change is a write by a process that still has it
open, such as the output of a running job, does not appear.
")
    "417 man close" None
].

Definition r1008_FWC_OLD : text :=
  (lit "int llapi_find_with_cb(char *path, struct find_param *param,
		       llapi_find_cb_t cb_init, llapi_find_cb_t cb_fini)
{
	if (param->fp_format_printf_str)").

Definition r1008_FWC : text :=
  (lit "int llapi_find_with_cb(char *path, struct find_param *param,
		       llapi_find_cb_t cb_init, llapi_find_cb_t cb_fini)
{
	/* a walk reads no changelog: llapi_find_since() is the call */
	if (%s)
		return -EINVAL;
	if (param->fp_format_printf_str)").

(** rebuild.py, lines 125 to 146. *)
Definition r1008_edits_2 : list edit_row := [
  Edit r1008_C417 r1008_LA
    r1008_FWC_OLD
    (py_fmt r1008_FWC [(lit "param->fp_since_kind != LLAPI_SINCE_NONE")])
    "417 find_with_cb" (Some r1008_C418);
  Edit r1008_C418 r1008_LA
    r1008_FWC_OLD
    (py_fmt r1008_FWC [(lit "param->fp_since_kind != LLAPI_SINCE_NONE ||
	    param->fp_changelog_mdt != NULL")])
    "418 find_with_cb" (Some r1008_C419);
  Edit r1008_C419 r1008_LA
    r1008_FWC_OLD
    (py_fmt r1008_FWC [(lit "param->fp_since_kind != LLAPI_SINCE_NONE ||
	    param->fp_changelog_mdt != NULL || param->fp_since_cookie != NULL")])
    "419 find_with_cb" None;
  Edit r1008_C417 r1008_PF
    (lit "			    \q--threads describes a walk; --since reads one changelog per MDT in turn\q);
		return -ENOTSUP;
	}
")
    (lit "			    \q--threads describes a walk; --since reads one changelog per MDT in turn\q);
		return -ENOTSUP;
	}
	/* warn of a bad -printf directive, as a walk does */
	if (param->fp_format_printf_str)
		validate_printf_str(param);
")
    "417 printf" (Some r1008_C418)
].

Definition r1008_PRINTF : text :=
  (lit "			    \q--threads describes a walk; %s read one changelog per MDT in turn\q);
		return -ENOTSUP;
	}
").

Definition r1008_PRINTF_ADD : text :=
  (lit "	/* warn of a bad -printf directive, as a walk does */
	if (param->fp_format_printf_str)
		validate_printf_str(param);
").

(** rebuild.py, lines 155 to 181. *)
Definition r1008_edits_3 : list edit_row := [
  Edit r1008_C418 r1008_PF
    (py_fmt r1008_PRINTF [(lit "--since and --changelog")])
    ((py_fmt r1008_PRINTF [(lit "--since and --changelog")]) ++ r1008_PRINTF_ADD)
    "418 printf" (Some r1008_C419);
  Edit r1008_C419 r1008_PF
    (py_fmt r1008_PRINTF [(lit "--since, --since-cookie and --changelog")])
    ((py_fmt r1008_PRINTF [(lit "--since, --since-cookie and --changelog")]) ++ r1008_PRINTF_ADD)
    "419 printf" None;
  Edit r1008_C417 r1008_PF
    (lit "Give a time (--since 2h, --since @%lld) or name one MDT\q,
			    (unsigned long long)param->fp_since_index,
			    fsname, mdt_count, (long long)time(NULL));")
    (lit "Give a time (--since 2h, --since @1787674596) or name one MDT\q,
			    (unsigned long long)param->fp_since_index,
			    fsname, mdt_count);")
    "417 hint" None;
  Edit r1008_C417 r1008_PF
    (lit "int common_param_init(struct find_param *param, char *path)")
    (lit "int common_param_init(struct find_param *param, const char *path)")
    "417 cpi def" None;
  Edit r1008_C417 r1008_LI
    (lit "int common_param_init(struct find_param *param, char *path);")
    (lit "int common_param_init(struct find_param *param, const char *path);")
    "417 cpi decl" None;
  Edit r1008_C417 r1008_PF
    (lit "	rc = common_param_init(param, (char *)path);")
    (lit "	rc = common_param_init(param, path);")
    "417 cpi cast" None;
  Edit r1008_C443 r1008_PF
    (lit " * Return: 0, -ESTALE (said here), or the errno reading the log.  @oldest is
 * 0 for an empty log.
 */")
    (lit " * Return: 0, -ESTALE (said here), or the errno reading the log.  @oldest,
 * if not NULL, is 0 for an empty log.
 */")
    "443 doc" None
].

Definition r1008_NULL_OLD : text :=
  (lit "	int rc;

	*oldest = 0;
	rc = find_cl_first(mdtname, 0, oldest%s);").

Definition r1008_NULL_NEW : text :=
  (lit "	__u64 first;
	int rc;

	if (oldest == NULL)
		oldest = &first;
	rc = find_cl_first(mdtname, 0, oldest%s);").

(** rebuild.py, lines 192 to 309. *)
Definition r1008_edits_4 : list edit_row := [
  Edit r1008_C443 r1008_PF
    (py_fmt r1008_NULL_OLD [(lit "")])
    (py_fmt r1008_NULL_NEW [(lit "")])
    "443 null" (Some r1008_F_GAP);
  Edit r1008_F_GAP r1008_PF
    (py_fmt r1008_NULL_OLD [(lit ", NULL")])
    (py_fmt r1008_NULL_NEW [(lit ", NULL")])
    "gap 443 null" None;
  Edit r1008_C443 r1008_PF
    (lit "		    starts[mdts[i]] != 0) {
			__u64 oldest;

			rc = find_cookie_purged(mdtname, starts[mdts[i]],
						param->fp_since_cookie,
						&oldest);")
    (lit "		    starts[mdts[i]] != 0) {
			rc = find_cookie_purged(mdtname, starts[mdts[i]],
						param->fp_since_cookie, NULL);")
    "443 caller" None;
  Edit r1008_F_GAP r1008_PF
    (lit "static void find_since_gap(const struct find_param *param, time_t since,
			   const char *mdtname)
{
	__u64 oldest = 0;
	__s64 when = 0;
	char stamp[32] = \q\q;
	struct tm tm;
	time_t t;
")
    (lit "static int find_since_gap(const struct find_param *param, time_t since,
			  const char *mdtname)
{
	__u64 oldest = 0;
	__s64 when = 0;
	char stamp[32] = \q\q;
	struct tm tm;
	time_t t;
	int rc;
")
    "gap int" None;
  Edit r1008_F_GAP r1008_PF
    (lit "	     param->fp_since_kind != LLAPI_SINCE_INDEX))
		return;
	/* an empty log looks the same cleared or idle: nothing to say */
	if (find_cl_first(mdtname, 0, &oldest, &when) < 0 || oldest <= 1)
		return;
")
    (lit "	     param->fp_since_kind != LLAPI_SINCE_INDEX))
		return 0;
	/* an empty log looks the same cleared or idle: nothing to say */
	rc = find_cl_first(mdtname, 0, &oldest, &when);
	if (rc < 0 || oldest <= 1)
		return rc;
")
    "gap rc" None;
  Edit r1008_F_GAP r1008_PF
    (lit "				    mdtname, (unsigned long long)oldest);
		return;
	}
")
    (lit "				    mdtname, (unsigned long long)oldest);
		return 0;
	}
")
    "gap index ret" None;
  Edit r1008_F_GAP r1008_PF
    (lit "	 * what is known.
	 */
	if (when <= since)
		return;
")
    (lit "	 * what is known.  The window holds the anchor's own second, so a
	 * record from that second may have been cleared too.
	 */
	if (when < since)
		return 0;
")
    "gap boundary" None;
  Edit r1008_F_GAP r1008_PF
    (lit "		    \q'%s' has been cleared and starts at record %llu, from %s, after the --since anchor; anything cleared after the anchor is not in the answer\q,
		    mdtname, (unsigned long long)oldest, stamp);
}")
    (lit "		    \q'%s' has been cleared and starts at record %llu, from %s, not before the --since anchor; anything cleared from the anchor on is not in the answer\q,
		    mdtname, (unsigned long long)oldest, stamp);
	return 0;
}")
    "gap msg" None;
  Edit r1008_F_GAP r1008_PF
    (lit "		find_since_gap(param, st.fss_since, mdtname);

		rc = llapi_scan_changelog(&sc, find_since_cand_cb, &st);
		if (rc < 0) {")
    (lit "		rc = find_since_gap(param, st.fss_since, mdtname);
		if (rc == 0)
			rc = llapi_scan_changelog(&sc, find_since_cand_cb,
						  &st);
		if (rc < 0) {")
    "gap caller" None;
  Edit r1008_C417 r1008_PF
    (lit "	memcpy(param->fp_lmv_md, rec->lfsr_lmv, rec->lfsr_lmvsize);
	return 0;
}
")
    (lit "	memcpy(param->fp_lmv_md, rec->lfsr_lmv, rec->lfsr_lmvsize);
	return 0;
}

/*
 * An unstriped directory's record has no LMV.  Build the stub a walk builds,
 * which names the directory's MDT, so %Li and %Lo answer as on a walk.
 */
static void find_rec_dir_stub(struct find_param *param, bool isdir)
{
	if (!isdir || param->fp_lmv_md->lum_magic != 0 ||
	    param->fp_file_mdt_index == OBD_NOT_FOUND)
		return;
	param->fp_lmv_md->lum_magic = LMV_MAGIC_V1;
	param->fp_lmv_md->lum_stripe_offset = param->fp_file_mdt_index;
}
")
    "stub helper" None;
  Edit r1008_C417 r1008_PF
    (lit "	if (param->fp_mdt_uuid != NULL &&
	    param->fp_file_mdt_index == OBD_NOT_FOUND)
		return 0;
")
    (lit "	if (param->fp_mdt_uuid != NULL &&
	    param->fp_file_mdt_index == OBD_NOT_FOUND)
		return 0;
	find_rec_dir_stub(param, isdir);
")
    "stub since" None;
  Edit r1008_C418 r1008_PF
    (lit "	param->fp_get_lmv = isdir && find_needs_lmv(param);

	fc.fc_rec = rec;
	/*
	 * Whatever --resolve looked up.")
    (lit "	param->fp_get_lmv = isdir && find_needs_lmv(param);
	/* as find_since_rec_cb() has it; 0 would name MDT0000 */
	param->fp_file_mdt_index = (rec->lfsr_valid & LLAPI_SCAN_MDT_INDEX) ?
				   (int)rec->lfsr_mdt_index : OBD_NOT_FOUND;
	find_rec_dir_stub(param, isdir);

	fc.fc_rec = rec;
	/*
	 * Whatever --resolve looked up.")
    "stub changelog" None
].

Definition r1008_steps_417 : list mstep := [
  MPara (lit "llapi_find() and llapi_find_with_cb() return -EINVAL for a set
fp_since_kind instead of walking with it ignored.")
    "m417"
].

Definition r1008_m_417 (m : text) : res text := msteps m r1008_steps_417.

Definition r1008_steps_418 : list mstep := [
  MRep (lit "-type is the one field with a third answer.  A record says what kind")
    (lit "-type has a third answer, as -name does below.  A record says what kind")
    "m418 type";
  MPara (lit "llapi_find_with_cb() refuses fp_changelog_mdt as it refuses
fp_since_kind.")
    "m418"
].

Definition r1008_m_418 (m : text) : res text := msteps m r1008_steps_418.

Definition r1008_steps_419 : list mstep := [
  MPara (lit "llapi_find_with_cb() refuses fp_since_cookie as it refuses
fp_since_kind.")
    "m419"
].

Definition r1008_m_419 (m : text) : res text := msteps m r1008_steps_419.

Definition r1008_steps_gap : list mstep := [
  MRep (lit "window. The warning then says only where the log starts and that
anything cleared after the anchor is missing.")
    (lit "window. The warning then says only where the log starts and that
anything cleared from the anchor on is missing.")
    "mgap anchor";
  MPara (lit "If the read of the oldest record fails, the run stops as it does
when the scan itself fails.")
    "mgap"
].

Definition r1008_m_gap (m : text) : res text := msteps m r1008_steps_gap.

(** The edits, renames and message rewriters of docs/rounds/a-1008/rebuild.py from edits_lr.py, names
    prefixed with [r1008_]. *)

Definition r1008_LH : string := "include/lustre/lustreapi.h".

Definition r1008_LFD3 : string := "Documentation/man3/llapi_find_device.3".

Definition r1008_LFS3 : string := "Documentation/man3/llapi_find_since.3".

Definition r1008_LSD3 : string := "Documentation/man3/llapi_scan_device.3".

Definition r1008_LRP3 : string := "Documentation/man3/llapi_scan_rec_path.3".

Definition r1008_LSC : string := "lustre/utils/liblustreapi_scan.c".

Definition r1008_TMK : string := "lustre/tests/Makefile.am".

Definition r1008_CLT : string := "lustre/tests/llapi_scan_changelog_test.c".

(** edits_lr.py, lines 13 to 144. *)
Definition r1008_edits_5 : list edit_row := [
  Edit r1008_C159 r1008_PF
    (lit "	uint64_t str_cnt, str_size, idx;")
    (lit "	uint64_t str_cnt, str_size, idx, pattern;")
    "lr2 decl" None;
  Edit r1008_C159 r1008_PF
    (lit "			if (str_cnt == LLAPI_LAYOUT_DEFAULT)
				goto format_done;
			*wrote = snprintf(buffer, size, \q%llu\q,
					  (unsigned long long)str_cnt);")
    (lit "			/*
			 * But Data-on-MDT has a real count of 0.  Not the
			 * default find_lmm_set_default() forges for a scanned
			 * object with no layout: its pattern, all ones, has
			 * the MDT bit set too.
			 */
			if (str_cnt == LLAPI_LAYOUT_DEFAULT &&
			    !(param->fp_lmd->lmd_lmm.lmm_magic ==
			      LOV_USER_MAGIC_V1 &&
			      param->fp_lmd->lmd_lmm.lmm_pattern ==
			      LOV_PATTERN_DEFAULT) &&
			    llapi_layout_pattern_get(layout, &pattern) == 0 &&
			    pattern == LLAPI_LAYOUT_MDT)
				str_cnt = 0;
			if (str_cnt == LLAPI_LAYOUT_DEFAULT)
				goto format_done;
			*wrote = snprintf(buffer, size, \q%llu\q,
					  (unsigned long long)str_cnt);")
    "lr2 dom" None;
  Edit r1008_C159 r1008_PF
    (lit "				goto format_done;
			}
			/* the default, as above, is not an index to print */
			if (idx == LLAPI_LAYOUT_DEFAULT)
				goto format_done;
			*wrote = snprintf(buffer, size, \q%llu\q,
					  (unsigned long long)idx);")
    (lit "				goto format_done;
			}
			*wrote = snprintf(buffer, size, \q%llu\q,
					  (unsigned long long)idx);")
    "lr3 idx" None;
  Edit r1008_C159 r1008_PF
    (lit "	case 'p':	/* Path name of file */
		*wrote = snprintf(buffer, size, \q%s\q, path);")
    (lit "	case 'p':	/* Path name of file */
		/* the two format parsers can disagree: never print NULL */
		if (path == NULL)
			break;
		*wrote = snprintf(buffer, size, \q%s\q, path);")
    "lr4 p" None;
  Edit r1008_C288 r1008_PF
    (lit "	rc = find_device_prefilter(rec, param, &checked_type, &entry);")
    (lit "	/* a shard is part of its striped directory: the master answers */
	if (rec->lfsr_valid & LLAPI_SCAN_LMV_SHARD)
		return 0;

	rc = find_device_prefilter(rec, param, &checked_type, &entry);")
    "lr5 shard" None;
  Edit r1008_C288 r1008_LFD3
    (lit "delivers \\(em and is counted undecided rather than answered.
.SH RETURN VALUES")
    (lit "delivers \\(em and is counted undecided rather than answered.
.LP
A striped directory has a shard on each MDT it is striped over. The shards are
not reported: the master answers for the directory, once, as a walk does.
.SH RETURN VALUES")
    "lr5 man" None;
  Edit r1008_C288 r1008_LF1
    (lit ".B CAP_DAC_READ_SEARCH
unless
.B llite.*.user_fid2path
is set, and a FID that cannot be looked up is an error, not a missing name.")
    (lit ".B CAP_DAC_READ_SEARCH
unless the client was mounted with
.BR \q-o user_fid2path\q ,
and a FID that cannot be looked up is an error, not a missing name.")
    "lr6 man1" None;
  Edit r1008_C288 r1008_LRP3
    (lit ".B CAP_DAC_READ_SEARCH
unless
.B llite.*.user_fid2path
is set.")
    (lit ".B CAP_DAC_READ_SEARCH
unless the client was mounted with
.BR \q-o user_fid2path\q .")
    "lr6 man3" None;
  Edit r1008_C288 r1008_LSC
    (lit " *   CAP_DAC_READ_SEARCH unless llite.*.user_fid2path is set")
    (lit " *   CAP_DAC_READ_SEARCH unless the client was mounted with -o user_fid2path")
    "lr6 kdoc" None;
  Edit r1008_C288 r1008_LFD3
    (lit "longer than 4096 bytes, or longer than its own definition with a byte past the
end of it set.")
    (lit "longer than 4096 bytes, or longer than its own definition with a byte past the
end of it set. Also when
.I fp_paths
is set together with
.IR fp_fid2path_mnt ,
or when
.I fp_fid2path_mnt
is a subdirectory (fileset) mount.")
    "lr7 einval" None;
  Edit r1008_C288 r1008_LH
    (lit "	 * The MDT FID of the file an OST data object belongs to, from the
	 * object's own trusted.fid.  It is what names such an object: its")
    (lit "	 * The MDT FID of the file an OST data object belongs to, from the
	 * object's own trusted.fid, or from trusted.lma where there is none
	 * (an OST with 256-byte inodes).  It is what names such an object: its")
    "lr8 hdr" None;
  Edit r1008_C288 r1008_LSD3
    (lit "which the object records in its own
.BR trusted.fid .")
    (lit "which the object records in its own
.B trusted.fid
(on an OST with 256-byte inodes, in its
.B trusted.lma
instead).")
    "lr8 man" None;
  Edit r1008_C163 r1008_TMK
    (lit "# backend the library no longer carries.  With plugins it is dlopen'ed and
# there is nothing to link.")
    (lit "# ZFS backend, which liblustreapi does not link.  With plugins it is
# dlopen'ed and there is nothing to link.")
    "lr10 mk" None;
  Edit r1008_C415 r1008_SC
    (lit "		if (fid_is_sane(&rn->cr_sfid) && !replaced) {
			o->co_src_fid = rn->cr_sfid;")
    (lit "		if (fid_is_sane(&rn->cr_sfid) && !replaced) {
			/* both bits describe the replaced target */
			if (r->cr_type != CL_MIGRATE)
				o->co_flags &= ~(CLF_RENAME_LAST |
						 CLF_RENAME_LAST_EXISTS);
			o->co_src_fid = rn->cr_sfid;")
    "lr11 code" None;
  Edit r1008_C415 r1008_LC3
    (lit "carries the source fields; the replaced object did not come from
.IR a .")
    (lit "carries the source fields; the replaced object did not come from
.IR a .
.B CLF_RENAME_LAST
and
.B CLF_RENAME_LAST_EXISTS
describe the replaced object, so only its record carries them.")
    "lr11 man" None;
  Edit r1008_C415 r1008_CLT
    (lit "/* A workload with one of each event this test reasons about. */
static __u64 make_events(const char *dir)")
    (lit "/* the file the burst is made on, for test1 */
static struct lu_fid burst_fid;

/* A workload with one of each event this test reasons about. */
static __u64 make_events(const char *dir)")
    "lr13 global" None
].

(** edits_lr.py, lines 145 to 181. *)
Definition r1008_edits_6 : list edit_row := [
  Edit r1008_C415 r1008_CLT
    (lit "	/* a burst: object mode must make one record of this */
	for (i = 0; i < 20; i++) {
		if (write(fd, \qx\q, 1) != 1)
			break;
		fsync(fd);
	}
	close(fd);")
    (lit "	/*
	 * A burst: object mode must make one record of this.  A write is no
	 * Changelog event, a chmod is: each one is a CL_SETATTR.
	 */
	if (llapi_fd2fid(fd, &burst_fid) < 0)
		memset(&burst_fid, 0, sizeof(burst_fid));
	for (i = 0; i < 20; i++) {
		if (fchmod(fd, i % 2 ? 0644 : 0640) < 0)
			break;
	}
	close(fd);")
    "lr13 burst" None;
  Edit r1008_C415 r1008_CLT
    (lit "	param_init(&sc);
	rc = llapi_scan_changelog(&sc, cl_cb, &ev);
	ASSERTF(rc == 0, \qevent mode failed: %s\q, strerror(-rc));
")
    (lit "	ev.cr_target = burst_fid;
	ob.cr_target = burst_fid;
	param_init(&sc);
	rc = llapi_scan_changelog(&sc, cl_cb, &ev);
	ASSERTF(rc == 0, \qevent mode failed: %s\q, strerror(-rc));
")
    "lr13 target" None;
  Edit r1008_C415 r1008_CLT
    (lit "	printf(\q  %u events collapse to %u objects\\n\q,
	       ev.cr_records, ob.cr_records);")
    (lit "	ASSERTF(burst_fid.f_seq != 0, \qthe burst's file has no FID\q);
	ASSERTF(ev.cr_target_hits >= 20,
		\q%u events on the burst's file, expected 20 or more\q,
		ev.cr_target_hits);
	ASSERTF(ob.cr_target_hits == 1,
		\qthe burst's file arrived %u times in object mode\q,
		ob.cr_target_hits);

	printf(\q  %u events collapse to %u objects\\n\q,
	       ev.cr_records, ob.cr_records);")
    "lr13 assert" None
].

Definition r1008_REF_OLD : text :=
  (lit "is refused too, because its format ends in
.BR %p .
.PP
.BR llapi_find_device (3)
describes each difference in full.").

Definition r1008_REF_NEW : text :=
  (lit "is refused too, because its format ends in
.BR %%p .
.TP
%s
%s refused too: a target scan reads no changelog.
.PP
.BR llapi_find_device (3)
describes each difference in full.").

(** edits_lr.py, lines 197 to 203. *)
Definition r1008_edits_7 : list edit_row := [
  Edit r1008_C417 r1008_LF1
    r1008_REF_OLD
    (py_fmt r1008_REF_NEW [(lit ".B --since"); (lit "This is")])
    "lr14 man1" (Some r1008_C418);
  Edit r1008_C418 r1008_LF1
    r1008_REF_OLD
    (py_fmt r1008_REF_NEW [(lit ".BR --since \q, \q --changelog"); (lit "These are")])
    "lr14 man1 418" (Some r1008_C419);
  Edit r1008_C419 r1008_LF1
    r1008_REF_OLD
    (py_fmt r1008_REF_NEW [(lit ".BR --since \q, \q --since-cookie \q, \q --changelog"); (lit "These are")])
    "lr14 man1 419" None
].

Definition r1008_NS_OLD : text :=
  (lit ".BR --mindepth \q, \q --threads ).
.B --ost
over an MDT and").

Definition r1008_NS_NEW : text :=
  (lit ".BR --mindepth \q, \q --threads ).
Nor does it have a changelog
.RI ( %s ).
.B --ost
over an MDT and").

(** edits_lr.py, lines 212 to 352. *)
Definition r1008_edits_8 : list edit_row := [
  Edit r1008_C417 r1008_LFD3
    r1008_NS_OLD
    (py_fmt r1008_NS_NEW [(lit "fp_since_kind")])
    "lr14 man3" (Some r1008_C418);
  Edit r1008_C418 r1008_LFD3
    r1008_NS_OLD
    (py_fmt r1008_NS_NEW [(lit "fp_since_kind \q, \q fp_changelog_mdt")])
    "lr14 man3 418" (Some r1008_C419);
  Edit r1008_C419 r1008_LFD3
    r1008_NS_OLD
    (py_fmt r1008_NS_NEW [(lit "fp_since_kind \q, \q fp_changelog_mdt \q, \q fp_since_cookie")])
    "lr14 man3 419" None;
  Edit r1008_C417 r1008_LH
    (lit "#define LLAPI_SINCE_INDEX	1	/* a bare integer: one MDT's cr_index */
/* a duration, a timestamp, or @seconds */
#define LLAPI_SINCE_TIME	2")
    (lit "#define LLAPI_SINCE_INDEX	1	/* fp_since_index: one MDT's cr_index */
/* fp_since_time: an absolute time, in seconds since the epoch */
#define LLAPI_SINCE_TIME	2")
    "lr15 hdr" None;
  Edit r1008_C417 r1008_PF
    (lit "	if (param->fp_since_kind == LLAPI_SINCE_NONE")
    (lit "	/* a kind this library does not know is not read as \qall\q */
	if (param->fp_since_kind > LLAPI_SINCE_TIME)
		return -EINVAL;
	if (param->fp_since_kind == LLAPI_SINCE_NONE")
    "lr16 code" (Some r1008_C418);
  Edit r1008_C418 r1008_PF
    (lit "	/* one of the two has to have selected this path */
	if (param->fp_since_kind == LLAPI_SINCE_NONE")
    (lit "	/* a kind this library does not know is not read as \qall\q */
	if (param->fp_since_kind > LLAPI_SINCE_TIME)
		return -EINVAL;
	/* one of the two has to have selected this path */
	if (param->fp_since_kind == LLAPI_SINCE_NONE")
    "lr16 code 418" None;
  Edit r1008_C417 r1008_LFS3
    (lit ".I param
is NULL,
.I fp_since_kind
is
")
    (lit ".I param
is NULL,
.I fp_since_kind
is a value this library does not know, or it is
")
    "lr16 man" None;
  Edit r1008_C419 r1008_PF
    (lit "	struct stat st;
	FILE *fp;
	int fd;
	int rc;

	rc = find_ck_escape(rootesc, sizeof(rootesc), root);")
    (lit "	struct stat st;
	int known = 0;
	int lines = 0;
	FILE *fp;
	int fd;
	int rc;

	rc = find_ck_escape(rootesc, sizeof(rootesc), root);")
    "lr21 decl" None;
  Edit r1008_C419 r1008_PF
    (lit "		int pos;

		/*
		 * The header names the filesystem the file was written for.")
    (lit "		int pos;

		/* a line with text on it, for the not-a-cookie test below */
		if (line[strspn(line, \q \\t\\n\q)] != '\\0' && line[0] != '#')
			lines++;

		/*
		 * The header names the filesystem the file was written for.")
    "lr21 count" None;
  Edit r1008_C419 r1008_PF
    (lit "				fclose(fp);
				return -EINVAL;
			}
			continue;
		}
")
    (lit "				fclose(fp);
				return -EINVAL;
			}
			known++;
			continue;
		}
")
    "lr21 header" None;
  Edit r1008_C419 r1008_PF
    (lit "		starts[mdt] = idx;
	}

	/* a read error must not read as a short cookie, i.e. a first run */
	rc = ferror(fp) ? -EIO : 0;
	fclose(fp);
	return rc;")
    (lit "		starts[mdt] = idx;
		known++;
	}

	/* a read error must not read as a short cookie, i.e. a first run */
	rc = ferror(fp) ? -EIO : 0;
	fclose(fp);
	/*
	 * Text, and none of it ours: some other file, which the rewrite would
	 * replace.  An empty file is a first run, and anchors written by hand
	 * are read.
	 */
	if (rc == 0 && lines > 0 && known == 0) {
		llapi_error(LLAPI_MSG_ERROR | LLAPI_MSG_NO_ERRNO, -EINVAL,
			    \q'%s' is not a cookie: no line in it is one lfs find writes\q,
			    file);
		rc = -EINVAL;
	}
	return rc;")
    "lr21 refuse" None;
  Edit r1008_C419 r1008_PF
    (lit " * reached.  A line is \q<mdtname> <index>\q; anything else is ignored, so a
 * comment or a blank line costs the read nothing -- but the rewrite emits
 * the header and the anchors and nothing else, so it does not survive the
 * next run.  The file is this call's to own, not a place to annotate.")
    (lit " * reached.  A line is \q<mdtname> <index>\q; anything else is ignored, so a
 * comment or a blank line costs the read nothing -- but the rewrite emits
 * the header and the anchors and nothing else, so it does not survive the
 * next run.  The file is this call's to own, not a place to annotate.  A
 * file with text in it and no header or anchor at all is refused.")
    "lr21 cmt" None;
  Edit r1008_C419 r1008_LFS3
    (lit "regular file (a symbolic link is not one), or that was written for another
filesystem or another search root.")
    (lit "regular file (a symbolic link is not one), that was written for another
filesystem or another search root, or that has text in it but no line that
.B lfs find
writes.")
    "lr21 man" None;
  Edit r1008_C419 r1008_LFS3
    (lit ".BR realpath (3)'s
answer, and not the one for a path outside Lustre.")
    (lit ".BR realpath (3)'s
answer, and not the one for a path outside Lustre.
.IP
The errors from opening, creating or renaming
.I fp_since_cookie
are returned as they came, so
.BR -ENOENT ,
.B -EACCES
and
.B -EROFS
can also be about the cookie.")
    "lr24 man" None;
  Edit r1008_C419 r1008_LH
    (lit "	/* --since-cookie: per-MDT indexes from a previous run, rewritten at
	 * the end.  One anchor per MDT, so the one that holds on all of them.
	 */")
    (lit "	/* --since-cookie: the pathname of a file of per-MDT changelog
	 * indexes, read before the search and rewritten after it.  NULL: not
	 * given.
	 */")
    "lr25 hdr" None;
  Edit r1008_C419 r1008_LH
    (lit " * param->fp_since_kind says where to start.
 */
int llapi_find_since(")
    (lit " * param->fp_since_kind or param->fp_since_cookie says where to start.
 */
int llapi_find_since(")
    "lr25 proto" None
].

(** edits_lr.py, lines 355 to 396. *)
Definition r1008_edits_9 : list edit_row := [
  Edit r1008_C443 r1008_PF
    (lit "		 * find_cookie_check() ran before any MDT was read, so a purge
		 * on this MDT while an earlier one was being read got past it.
		 * Ask again just before reading: one record, as there.  The
		 * cookie is not rewritten, so every later run is refused the
		 * same way until it is removed, rather than skip the records.")
    (lit "		 * find_cookie_check() ran before any MDT was read, so a purge
		 * on this MDT since then got past it -- for the first MDT,
		 * during the rest of the check.  Ask again just before
		 * reading: one record, as there.  The cookie is not
		 * rewritten, so every later run is refused the same way
		 * until it is removed, rather than skip the records.")
    "lr26 cmt" None;
  Edit r1008_C443 r1008_PF
    (lit "		if (i > 0 && param->fp_since_cookie != NULL &&
		    starts[mdts[i]] != 0) {")
    (lit "		if (param->fp_since_cookie != NULL &&
		    starts[mdts[i]] != 0) {")
    "lr26 code" None;
  Edit r1008_C443 r1008_LF1
    (lit "and the purge test runs again just before each later MDT is read: a purge
that reaches it while an earlier one is being read is refused then.")
    (lit "and the purge test runs again just before each MDT is read: a purge
that reaches it after the first test is refused then.")
    "lr26 man1" None;
  Edit r1008_C443 r1008_LFS3
    (lit "scanned, and the purge test runs again just before each later MDT is read:
a clear that lands on it while an earlier one is being read ends the call")
    (lit "scanned, and the purge test runs again just before each MDT is read:
a clear that lands on it after the first test ends the call")
    "lr26 man3" None;
  Edit r1008_F_GAP r1008_LF1
    (lit ".I INDEX
the records before it are certainly missing from the answer. For")
    (lit ".I INDEX
the records from it up to where the log now starts are certainly missing from
the answer. For")
    "lr27 man" None;
  Edit r1008_F_GAP r1008_PF
    (lit "		/* exact: the records before the oldest were in the window */
		if (oldest > param->fp_since_index)
			llapi_error(LLAPI_MSG_WARN | LLAPI_MSG_NO_ERRNO, 0,
				    \q'%s' has been cleared past the --since anchor: its oldest record is %llu, and the records before it are not in the answer\q,
				    mdtname, (unsigned long long)oldest);")
    (lit "		/* exact: anchor to oldest - 1 were in the window (0 is 1) */
		if (oldest > param->fp_since_index)
			llapi_error(LLAPI_MSG_WARN | LLAPI_MSG_NO_ERRNO, 0,
				    \q'%s' has been cleared past the --since anchor: records %llu to %llu are not in the answer\q,
				    mdtname, (unsigned long long)
				    (param->fp_since_index ?: 1),
				    (unsigned long long)(oldest - 1));")
    "lr28 msg" None
].

Definition r1008_RENAMES : list rename_row := [
  Rename r1008_C415 (lit "LLAPI_SCAN_JOBID") (lit "LLAPI_SCAN_EVENT_JOBID");
  Rename r1008_C415 (lit "lfsr_jobid") (lit "lfsr_event_jobid");
  Rename r1008_C419 (lit "find_ck_escape") (lit "find_cookie_escape");
  Rename r1008_C419 (lit "FIND_CK_W_") (lit "FIND_COOKIE_WIDTH_");
  Rename r1008_C419 (lit "FIND_CK_W") (lit "FIND_COOKIE_WIDTH")
].

Definition r1008_POST : list post_row := [
  Post r1008_C415 r1008_LH
    (lit "*lfsr_event_jobid;	/* with LLAPI_SCAN_EVENT_JOBID */")
    (lit "*lfsr_event_jobid; /* LLAPI_SCAN_EVENT_JOBID */") "post jobid"
].

Definition r1008_steps_159 : list mstep := [
  MRep (lit "Three -printf answers were wrong in a walk too. For a layout that only
says \qthe default\q, the stripe count, size and index printed
LLAPI_LAYOUT_DEFAULT. They now print nothing. %Lo skips a component")
    (lit "Three -printf answers were wrong in a walk too. For a layout that only
says \qthe default\q, the stripe count and size printed
LLAPI_LAYOUT_DEFAULT. They now print nothing, except that a
Data-on-MDT component's count prints 0, as lfs getstripe says.
%Lo skips a component")
    "m159 default"
].

Definition r1008_m_159 (m : text) : res text := msteps m r1008_steps_159.

Definition r1008_steps_288 : list mstep := [
  MPara (lit "A striped directory's shards are not reported: the master answers
for the directory once, as a walk does.")
    "m288"
].

Definition r1008_m_288 (m : text) : res text := msteps m r1008_steps_288.

Definition r1008_steps_163 : list mstep := [
  MRep (lit "LU-20613 llapi: ZFS backend for llapi_scan_device
")
    (lit "LU-20613 llapi: add a ZFS backend to llapi_scan_device()
")
    "m163 subject"
].

Definition r1008_m_163 (m : text) : res text := msteps m r1008_steps_163.

Definition r1008_steps_415 : list mstep := [
  MPara (lit "CLF_RENAME_LAST and CLF_RENAME_LAST_EXISTS describe the replaced
target of a rename, so the moved object's record does not carry them.")
    "m415"
].

Definition r1008_m_415 (m : text) : res text := msteps m r1008_steps_415.

Definition r1008_steps_418_b : list mstep := r1008_steps_418 ++ [
  MRep (lit "- find_since_pick() puts a link's basename into the record only for
  --since.  Under --changelog the recorded name stays, and the link")
    (lit "- find_since_pick() puts a link's basename into the record only for
  --since, or for a --changelog record that carried no name.  Under
  --changelog the recorded name stays, and the link")
    "m418 pick"
].

Definition r1008_m_418_b (m : text) : res text := msteps m r1008_steps_418_b.

Definition r1008_steps_419_b : list mstep := r1008_steps_419 ++ [
  MRep (lit "\qlfs find --since-cookie ck > out\q on a full filesystem would lose
the matches, advance past their records and exit 0.")
    (lit "\qlfs find --since-cookie ck > out\q on a full filesystem would lose
the matches, advance past their records and exit 0.  When stdout is
a regular file it is also fsync()ed, and a failed sync holds the
anchors and returns -EIO.")
    "m419 fsync"
].

Definition r1008_m_419_b (m : text) : res text := msteps m r1008_steps_419_b.

Definition r1008_steps_443 : list mstep := [
  MRep (lit "So llapi_find_since() reads the oldest record again just before each
later MDT is scanned, through find_cookie_purged(), the purge test
find_cookie_check() now shares: one find_cl_first() record each. If it
is past anchor + 1, the run stops with -ESTALE and names both numbers.")
    (lit "So llapi_find_since() reads the oldest record again just before each
MDT is scanned, the first one too, through find_cookie_purged(), the
purge test find_cookie_check() now shares: one find_cl_first() record
each. If it is past anchor + 1, the run stops with -ESTALE and names
both numbers.")
    "m443"
].

Definition r1008_m_443 (m : text) : res text := msteps m r1008_steps_443.

(** edits_lr.py, lines 470 to 537. *)
Definition r1008_edits_10 : list edit_row := [
  Edit r1008_C288 "lustre/utils/liblustreapi_scan_device.c"
    (lit "	if (want & LLAPI_SCAN_LMV)
		xa |= LLAPI_SCAN_XA_BIT(LLAPI_SCAN_XA_LMV);")
    (lit "	if (want & (LLAPI_SCAN_LMV | LLAPI_SCAN_LMV_SHARD))
		xa |= LLAPI_SCAN_XA_BIT(LLAPI_SCAN_XA_LMV);")
    "lr5 xa" None;
  Edit r1008_C288 r1008_PF
    (lit "	if (param->fp_fid2path_mnt != NULL || param->fp_paths)
		want |= LLAPI_SCAN_OWNER | LLAPI_SCAN_PARENT |
			LLAPI_SCAN_LINKEA | LLAPI_SCAN_LMV_SHARD;

	return want;")
    (lit "	if (param->fp_fid2path_mnt != NULL || param->fp_paths)
		want |= LLAPI_SCAN_OWNER | LLAPI_SCAN_PARENT |
			LLAPI_SCAN_LINKEA | LLAPI_SCAN_LMV_SHARD;
	/* find_device_cb() skips a shard, so it has to know one */
	want |= LLAPI_SCAN_LMV_SHARD;

	return want;")
    "lr5 want" None;
  Edit r1008_C418 r1008_LF1
    (lit "An object touched in two separate bursts is delivered twice and printed
twice: coalescing collapses events only within the window a burst spans, and
a second burst is a second event.")
    (lit "A burst is the events on one object with no gap of ten minutes or more
between them, and at most about an hour long; on a busy log it can end
sooner. An object touched in two separate bursts is delivered twice and
printed twice: coalescing collapses events only within a burst, and a second
burst is a second event.")
    "ai420 burst" None;
  Edit r1008_C419 r1008_PF
    (lit "	/* one of the two has to have selected this path */")
    (lit "	/* --since, --changelog or a cookie has to have selected this path */")
    "ai419 three" None;
  Edit r1008_F_NLINK r1008_LSC
    (lit "		/* a directory's count is its subdirectories, not its names */
		if (nlink != 0 && !S_ISDIR(mode)) {")
    (lit "		/* a directory's too, as every scanner gives it */
		if (nlink != 0) {")
    "ai501 lib" None;
  Edit r1008_F_NLINK r1008_PF
    (lit "	if ((rec->lfsr_stx.stx_mask & STATX_MODE) &&
	    S_ISDIR(rec->lfsr_stx.stx_mode))
		return false;
	return true;
}")
    (lit "	/* a directory's count is its subdirectories, not its names */
	if ((rec->lfsr_stx.stx_mask & (STATX_TYPE | STATX_MODE)) &&
	    S_ISDIR(rec->lfsr_stx.stx_mode))
		return false;
	return true;
}")
    "ai501 consumer" None;
  Edit r1008_F_NLINK "Documentation/man3/llapi_scan_fid.3"
    (lit "and, for anything but a directory, the link count in")
    (lit "and the link count in")
    "ai501 man1" None;
  Edit r1008_F_NLINK "Documentation/man3/llapi_scan_fid.3"
    (lit "before trusting the count: it is clear for a directory, when
.BR statx (2)
did not report one, and when the count read back was 0, as for a file
unlinked after its FID was resolved.")
    (lit "before trusting the count: it is clear when
.BR statx (2)
did not report one, and when the count read back was 0, as for a file
unlinked after its FID was resolved. A directory's count is given as the
other scanners give it; it counts subdirectories, not names.")
    "ai501 man2" None;
  Edit r1008_F_NLINK "lustre/tests/llapi_scan_test.c"
    (lit "	/* a directory's link count counts subdirectories, so it is left out */
	memset(&fb, 0, sizeof(fb));
	rc = llapi_scan_fid(mnt_fd, mnt, &dfid, &sp, fid_cb, &fb);
	ASSERTF(rc == 0 && fb.fb_peek.fp_count == 1 &&
		!(fb.fb_peek.fp_stx_mask & STATX_NLINK),")
    (lit "	/* a directory's link count is given too, as other scanners give it */
	memset(&fb, 0, sizeof(fb));
	rc = llapi_scan_fid(mnt_fd, mnt, &dfid, &sp, fid_cb, &fb);
	ASSERTF(rc == 0 && fb.fb_peek.fp_count == 1 &&
		(fb.fb_peek.fp_stx_mask & STATX_NLINK),")
    "ai501 test" None
].

Definition r1008_steps_nlink : list mstep := [
  MRep (lit "for and, for anything but a directory, the link count. A directory has
one name, and its link count counts its subdirectories. The statx()")
    (lit "for and the link count, a directory's included, as the other
scanners give it; the filter tests the type itself. The statx()")
    "m501"
].

Definition r1008_m_nlink (m : text) : res text := msteps m r1008_steps_nlink.

(** edits_lr.py, lines 548 to 579. *)
Definition r1008_edits_11 : list edit_row := [
  Edit r1008_C418 r1008_LF1
    (lit ".B --since
asks what is true now and prints such an object once.
")
    (lit ".B --since
asks what is true now and prints such an object once.
With
.B OPEN
in the MDT's changelog mask,
.B --resolve
with
.B -printf
or
.B --projid
opens each file it looks up, and the log records those opens while the search
is reading it. A file can then be printed again, for the search's own opens.
")
    "lr19 man1" None;
  Edit r1008_C418 r1008_LFS3
    (lit "guessed at. See
.BR lfs-find (1)
for which predicates those are.
")
    (lit "guessed at. See
.BR lfs-find (1)
for which predicates those are.
.IP
With
.B CL_OPEN
in the MDT's changelog mask,
.I fp_resolve
with a
.B -printf
format or a project id test opens each regular file it looks up, and the log
records those opens while this call is reading it. A file can then be
reported again, for the call's own opens.
")
    "lr19 man3" None
].

Definition r1008_steps_418_c : list mstep := r1008_steps_418_b ++ [
  MPara (lit "With OPEN in the changelog mask, --changelog --resolve with -printf
or --projid can read back the CL_OPEN records its own lookups write
and print a file again.  Both man pages say so.  A cut at the start
of the search would have to be made per record, before coalescing,
inside llapi_scan_changelog(); that is left for a later change.")
    "m418 open"
].

Definition r1008_m_418_c (m : text) : res text := msteps m r1008_steps_418_c.

(** edits_lr.py, lines 593 to 605. *)
Definition r1008_edits_12 : list edit_row := [
  Edit r1008_C159 r1008_PF
    (lit "			 * The two magics a client is never shown are given
			 * the form it would have been shown, so that every
			 * check below reads one shape: lod_xattr_get() turns
			 * SEL into COMP_V1, and SPECIFIC is a V3 whose object
			 * list only --ost would read, which a target scan
			 * refuses anyway.")
    (lit "			 * Two magics are given a form the checks below read:
			 * lod_xattr_get() turns SEL into COMP_V1 for a client,
			 * and SPECIFIC becomes a V3 whose object list only
			 * --ost would read, which a target scan refuses.  A
			 * walk sees SPECIFIC as it is, so --pool matches such
			 * a directory on a scan and not on a walk.")
    "lr2-1 specific" None
].

Definition r1008_steps_159_b : list mstep := r1008_steps_159 ++ [
  MRep (lit "- LOV_MAGIC_SEL and LOV_USER_MAGIC_SPECIFIC are written by lod and
  never rewritten for a client. They are converted to the forms that a
  client sees, COMP_V1 and V3.")
    (lit "- LOV_MAGIC_SEL is written by lod and shown to a client as COMP_V1,
  and it is converted to that. LOV_USER_MAGIC_SPECIFIC is converted to
  V3; a walk sees it unchanged, so --pool can match such a directory on
  a scan and not on a walk.")
    "m159 specific"
].

Definition r1008_m_159_b (m : text) : res text := msteps m r1008_steps_159_b.

(** edits_lr.py, lines 619 to 646. *)
Definition r1008_edits_13 : list edit_row := [
  Edit r1008_C163 r1008_LSD3
    (lit "gets from the client. The ZFS backend declares only
.B STATX_ATTR_IMMUTABLE
and
.BR STATX_ATTR_APPEND :
on ZFS both compression and encryption are dataset properties, not
per-file ones, so no per-file answer exists to give.")
    (lit "gets from the client. The ZFS backend declares the same two,
.B STATX_ATTR_IMMUTABLE
and
.BR STATX_ATTR_APPEND .")
    "lr2-2 zfs" None;
  Edit r1008_C288 r1008_PF
    (lit "		want |= LLAPI_SCAN_OWNER | LLAPI_SCAN_PARENT |
			LLAPI_SCAN_LINKEA | LLAPI_SCAN_LMV_SHARD;
	/* find_device_cb() skips a shard, so it has to know one */")
    (lit "		want |= LLAPI_SCAN_OWNER | LLAPI_SCAN_PARENT |
			LLAPI_SCAN_LINKEA;
	/* find_device_cb() skips a shard, so it has to know one */")
    "lr2-3 want" None;
  Edit r1008_C288 r1008_LF1
    (lit "A hardlinked file is printed once: under the first of its names that
.B --name
matches, or else under its first name.")
    (lit "A hardlinked file is printed once: under the first of its names that
.B --name
matches and whose directory this target can place; if there is none, it is
counted as having no pathname. Without
.BR --name ,
it is printed under the first name that can be placed.")
    "lr2-3 man" None
].

Definition r1008_steps_288_b : list mstep := r1008_steps_288 ++ [
  MRep (lit "directory is named through its master directory. A shard itself is
not in the namespace, so it is counted as having no name. The
pre-pass asks for LLAPI_SCAN_LMV, and a search that names objects
asks for LLAPI_SCAN_LMV_SHARD, which also reads trusted.lmv.")
    (lit "directory is named through its master directory. A shard itself is
not in the namespace and is not reported. The pre-pass asks for
LLAPI_SCAN_LMV, and every search asks for LLAPI_SCAN_LMV_SHARD, which
also reads trusted.lmv.")
    "m288 shard";
  MRep (lit "path on this MDT. A hardlinked object is printed once, under the first
name that --name matches and the target can place, or else under its
first name. On an OST, a file is printed once per object it has there.")
    (lit "path on this MDT. A hardlinked object is printed once, under the first
name that --name matches and the target can place; if there is none,
it counts as having no pathname. Without --name it is printed under
the first name the target can place. On an OST, a file is printed
once per object it has there.")
    "m288 name"
].

Definition r1008_m_288_b (m : text) : res text := msteps m r1008_steps_288_b.

(** edits_lr.py, lines 670 to 685. *)
Definition r1008_edits_14 : list edit_row := [
  Edit r1008_C415 r1008_SC
    (lit "	 * EXTRA_FLAGS is what carries the uid and gid of whoever acted; asking
	 * for JOBID costs nothing when the
	 * server did not record one.")
    (lit "	 * EXTRA_FLAGS is what carries the uid and gid of whoever acted; asking
	 * for JOBID costs nothing when the server did not record one.")
    "lr2-4 reflow" None;
  Edit r1008_C415 r1008_LH
    (lit " * Called once per object.  Return 0 to continue the scan; any other value
 * stops it and is returned to the caller of llapi_scan_namespace() or
 * llapi_scan_device().  With more than one scan thread this is called
 * concurrently and must be thread-safe.")
    (lit " * Called once per object (for llapi_scan_changelog(), once per record
 * unless LLAPI_SCAN_CL_F_COALESCE is set).  Return 0 to continue the scan;
 * any other value stops it and is returned to the caller of
 * llapi_scan_namespace(), llapi_scan_device() or llapi_scan_changelog().
 * With more than one scan thread this is called concurrently and must be
 * thread-safe.")
    "lr2-4 kdoc" None
].

Definition r1008_steps_415_b : list mstep := r1008_steps_415 ++ [
  MRep (lit "A resolve is skipped only for a demand mask every event can answer,
which LLAPI_SCAN_TYPE is not: scan_cl_mode() answers it for the four
record types that imply one and no others, so counting it there would
leave a consumer asking for FID and type with neither a lookup nor a
type on a CL_CLOSE.")
    (lit "A resolve is skipped when the demand mask names nothing a resolve
can fill. LLAPI_SCAN_TYPE is in that set: scan_cl_mode() answers it
for the four record types that imply one and no others, so leaving
it out would give a consumer asking for FID and type neither a
lookup nor a type on a CL_CLOSE.")
    "m415 resolve"
].

Definition r1008_m_415_b (m : text) : res text := msteps m r1008_steps_415_b.

(** edits_lr.py, lines 702 to 775. *)
Definition r1008_edits_15 : list edit_row := [
  Edit r1008_C417 "lustre/utils/lfs_find_parse.c"
    (lit "		case LFS_SINCE_OPT:
			ret = set_since(param, t, optarg);")
    (lit "		case LFS_SINCE_OPT:
			/* the changelog lists what changed, not what did not */
			if (neg_opt) {
				fprintf(stderr,
					\q%s: '! --since' is not supported\\n\q,
					progname);
				ret = -EINVAL;
				goto out;
			}
			ret = set_since(param, t, optarg);")
    "lr2-5 neg" None;
  Edit r1008_C417 r1008_LFS3
    (lit "unless
.B llite.*.user_fid2path
is set.")
    (lit "unless the client was mounted with
.BR \q-o user_fid2path\q .")
    "lr2-5 fid2path" None;
  Edit r1008_C418 r1008_PF
    (lit "		 * Never, with or without --resolve: check_mdt_match() reads
		 * fp_file_mdt_index, and scan_rec_gather() sets that on the
		 * find_param llapi_scan_fid() carries, not on this one.  The
		 * changelog an event arrived in is not always the object's
		 * MDT either, so --mdt has two readings here and the source
		 * selector already spells one of them.")
    (lit "		 * Never, with or without --resolve: the changelog an event
		 * arrived in is not always the object's MDT, so --mdt has
		 * two readings here and the source selector already spells
		 * one of them.")
    "lr2-6 mdt" None;
  Edit r1008_C418 r1008_LFS3
    (lit ".LP
An object that has been unlinked since its event no longer resolves and is
not in the answer.")
    (lit ".LP
With
.I fp_changelog_mdt
set and
.I fp_resolve
clear, neither of the paragraphs above and below applies: every object is
printed, by FID where it has no pathname, and counted as named by FID.
.LP
An object that has been unlinked since its event no longer resolves and is
not in the answer.")
    "lr2-6 man3" None;
  Edit r1008_C419 r1008_PF
    (lit " * and no cookie written, so the next run would repeat them.  It costs one
 * record per MDT, and none at all for an MDT with no anchor yet: 0 has
 * nothing to be stale against, and that is also every MDT of a first run.")
    (lit " * and no cookie written, so the next run would repeat them.  It reads up to
 * two records per anchored MDT, and none for an MDT with no anchor yet: 0
 * has nothing to be stale against, and that is also every MDT of a first
 * run.")
    "lr2-7 two" None;
  Edit r1008_C443 r1008_PF
    (lit " * run.  llapi_find_since() reads one more before each later MDT, for a
 * purge during the run.")
    (lit " * run.  llapi_find_since() reads one more before each MDT, for a purge
 * during the run.")
    "lr2-8 each" None;
  Edit r1008_F_GAP r1008_LF1
    (lit "they may be: the client cannot tell whether the cleared records were inside
the window.")
    (lit "they may be: the client cannot tell whether the cleared records were inside
the window. No warning is given for an empty log or one restarted at 1,
so silence does not prove the answer complete.")
    "lr2-9 silence" None;
  Edit r1008_F_NLINK r1008_LSC
    (lit "	 * Only the type is wanted, and asking for only the type matters:")
    (lit "	 * Only the type and the link count are wanted, and asking for nothing
	 * that needs the OSTs matters:")
    "lr2-10 statx" None;
  Edit r1008_F_NLINK r1008_LSC
    (lit "		 * A copy: the FID asked for and the link count let a filter
		 * look at the object's other names, but the record cb gets
		 * must carry only what the gather found, or the -ESTALE test
		 * below would pass on a FID nothing read back.")
    (lit "		 * A copy: the FID asked for and the link count let a filter
		 * look at the object's other names, but the record cb gets
		 * must carry only what the gather found -- under a name-only
		 * mask no gather runs, and cb would get a FID nothing read
		 * back.")
    "lr2-10 copy" None
].

Definition r1008_steps_nlink_b : list mstep := r1008_steps_nlink ++ [
  MRep (lit "carries a FID only when the gather read one back, which is what the
-ESTALE test relies on. llapi_scan_test 17 checks both.")
    (lit "carries a FID only when the gather read one back; under a name-only
mask no gather runs, so it carries none. llapi_scan_test 17 checks
both.")
    "m501 estale"
].

Definition r1008_m_nlink_b (m : text) : res text := msteps m r1008_steps_nlink_b.

(** [EDITS] as the two modules leave it. *)
Definition r1008_EDITS : list edit_row :=
  r1008_edits_1 ++
  r1008_edits_2 ++
  r1008_edits_3 ++
  r1008_edits_4 ++
  r1008_edits_5 ++
  r1008_edits_6 ++
  r1008_edits_7 ++
  r1008_edits_8 ++
  r1008_edits_9 ++
  r1008_edits_10 ++
  r1008_edits_11 ++
  r1008_edits_12 ++
  r1008_edits_13 ++
  r1008_edits_14 ++
  r1008_edits_15.

Definition r1008_MSG (i : nat) : option (text → res text) :=
  if i =? r1008_C159 then Some r1008_m_159_b else
  if i =? r1008_C163 then Some r1008_m_163 else
  if i =? r1008_C288 then Some r1008_m_288_b else
  if i =? r1008_C415 then Some r1008_m_415_b else
  if i =? r1008_C417 then Some r1008_m_417 else
  if i =? r1008_C418 then Some r1008_m_418_c else
  if i =? r1008_C419 then Some r1008_m_419_b else
  if i =? r1008_C443 then Some r1008_m_443 else
  if i =? r1008_F_GAP then Some r1008_m_gap else
  if i =? r1008_F_NLINK then Some r1008_m_nlink_b else
  None.
