(* ===== verification/Rebuild8Facts.v ===== *)
(** Facts about the stages of a-1008: what the renames do to one file, that they never
    raise, and when a rewriter of messages finds its work done. *)
From S2P Require Import Prelude PyStr Stable PyRe Rebuild RebuildFacts Rebuild8.

(** ** Renames, file by file *)

(** Names, of which no new one is an old one. *)
Definition renames_ok (R : list rename_row) : bool :=
  forallb (λ r, is_name (rn_a r) && is_name (rn_b r) &&
                forallb (λ r', negb (bool_decide (rn_b r' = rn_a r))) R) R.

Lemma renames_ok_spec R r r' :
  renames_ok R = true → r ∈ R → r' ∈ R →
  is_name (rn_a r) = true ∧ is_name (rn_b r) = true ∧ rn_b r' ≠ rn_a r.
Proof.
  unfold renames_ok. rewrite forallb_forall. intros Hok Hr Hr'.
  apply list_elem_of_In, Hok in Hr. bools. split; [done|]. split; [done|].
  rewrite forallb_forall in H0. apply list_elem_of_In, H0 in Hr'.
  by apply negb_true_iff, bool_decide_eq_false in Hr'.
Qed.

Section renames.
Context `{Grep} (tree : gmap string text) (i : nat).
Implicit Types (R : list rename_row) (r : rename_row) (files : gmap string text) (f : string).

Lemma sub_word_idem a b s :
  is_name a = true → is_name b = true → b ≠ a → sub_word a b (sub_word a b s) = sub_word a b s.
Proof. intros Ha Hb Hn. apply sub_word_absent; [done|]. by apply sub_word_gone. Qed.

Lemma rename_in_current a b fs files files' f :
  is_name a = true → is_name b = true → b ≠ a →
  rename_in tree a b fs files = Ok files' →
  current tree files' f =
  if decide (f ∈ fs) then sub_word a b <$> current tree files f else current tree files f.
Proof.
  intros Ha Hb Hn. revert files. induction fs as [|g fs IH]; intros files; cbn [rename_in].
  { intros Hok. apply (inj Ok) in Hok as <-. by rewrite decide_False by apply not_elem_of_nil. }
  fold (current tree files g). destruct (current tree files g) as [s|] eqn:Eg; [|done].
  intros Hok%IH. rewrite Hok. destruct (decide (f = g)) as [->|Hne].
  - assert (current tree (<[g:=sub_word a b s]> files) g = Some (sub_word a b s)) as ->
      by (unfold current; by rewrite lookup_insert_eq).
    rewrite (decide_True (P := g ∈ g :: fs)) by (by left). rewrite Eg. cbn.
    destruct (decide (g ∈ fs)); cbn; [by rewrite sub_word_idem|done].
  - assert (current tree (<[g:=sub_word a b s]> files) f = current tree files f) as ->
      by (unfold current; by rewrite lookup_insert_ne).
    destruct (decide (f ∈ fs)), (decide (f ∈ g :: fs)) as [Hin|Hin]; try done.
    + exfalso. apply Hin. by right.
    + by apply elem_of_cons in Hin as [?|?].
Qed.

(** What one row does to the text of [f]. *)
Definition rename_step f (s : text) r : text :=
  if i <? rn_own r then s
  else if decide (f ∈ grep_lw tree (rn_a r)) then sub_word (rn_a r) (rn_b r) s else s.

Lemma rename_files_current R0 R files files' f :
  renames_ok R0 = true → R ⊆ R0 → rename_files tree i R files = Ok files' →
  current tree files' f = (λ s, fold_left (rename_step f) R s) <$> current tree files f.
Proof.
  intros Hok. revert files. induction R as [|r R IH]; intros files Hsub; cbn [rename_files].
  { intros Hr. apply (inj Ok) in Hr as <-. by destruct (current tree files f). }
  assert (r ∈ R0) as Hr by (apply Hsub; by left).
  assert (R ⊆ R0) as HR by (intros x ?; apply Hsub; by right).
  destruct (renames_ok_spec R0 r r Hok Hr Hr) as (Ha & Hb & Hn).
  destruct (i <? rn_own r) eqn:E.
  { intros ->%IH; [|done]. cbn [fold_left]. unfold rename_step at 3. by rewrite E. }
  intros (files1 & H1 & H2)%res_bind_Ok. rewrite (IH _ HR H2).
  rewrite (rename_in_current _ _ _ _ _ f Ha Hb Hn H1). cbn [fold_left].
  unfold rename_step at 3. rewrite E. case_decide; [|done].
  by destruct (current tree files f).
Qed.

(** Files that have been fetched stay fetched. *)
Lemma rename_in_fetched a b fs files files' f :
  rename_in tree a b fs files = Ok files' → is_Some (files !! f) ∨ f ∈ fs → is_Some (files' !! f).
Proof.
  revert files. induction fs as [|g fs IH]; intros files; cbn [rename_in].
  { intros Hok. apply (inj Ok) in Hok as <-. intros [?|Hin]; [done|]. by apply not_elem_of_nil in Hin. }
  destruct (match files !! g with Some s => Some s | None => tree !! g end) as [s|]; [|done].
  intros Hok Hf. apply (IH _ Hok). destruct (decide (f = g)) as [->|Hne].
  - left. rewrite lookup_insert_eq. eauto.
  - destruct Hf as [Hf|[?|Hf]%elem_of_cons]; [|done|by right]. left. by rewrite lookup_insert_ne.
Qed.

Lemma rename_files_fetched R files files' f :
  rename_files tree i R files = Ok files' →
  is_Some (files !! f) ∨ (∃ r, r ∈ R ∧ rn_own r ≤ i ∧ f ∈ grep_lw tree (rn_a r)) →
  is_Some (files' !! f).
Proof.
  revert files. induction R as [|r R IH]; intros files; cbn [rename_files].
  { intros Hok. apply (inj Ok) in Hok as <-. intros [?|(r & Hr & _)]; [done|].
    by apply not_elem_of_nil in Hr. }
  destruct (i <? rn_own r) eqn:E; bools.
  - intros Hok Hf. apply (IH _ Hok). destruct Hf as [?|(r' & [->|Hr]%elem_of_cons & Ho & Hg)]; [by left|lia|].
    right. by exists r'.
  - intros (files1 & H1 & H2)%res_bind_Ok Hf. apply (IH _ H2).
    destruct Hf as [Hf|(r' & [->|Hr]%elem_of_cons & Ho & Hg)].
    + left. eapply rename_in_fetched; eauto.
    + left. eapply rename_in_fetched; eauto.
    + right. by exists r'.
Qed.

(** A word that is no new name does not appear. *)
Lemma rename_step_other s f r a :
  is_name (rn_a r) = true → is_name (rn_b r) = true → rn_b r ≠ a → a ∉ words s →
  a ∉ words (rename_step f s r).
Proof.
  intros Ha Hb Hn Hs. unfold rename_step. destruct (i <? rn_own r); [done|]. case_decide; [|done].
  rewrite sub_word_words by done. intros (w & Hw & Hin)%list_elem_of_fmap.
  unfold rename in Hw. case_decide; congruence.
Qed.

Lemma rename_fold_other R0 R s f a :
  renames_ok R0 = true → R ⊆ R0 → (∀ r, r ∈ R0 → rn_b r ≠ a) → a ∉ words s →
  a ∉ words (fold_left (rename_step f) R s).
Proof.
  intros Hok Hsub Ha. revert s. induction R as [|r R IH]; intros s Hs; [done|]. cbn.
  assert (r ∈ R0) as Hr by (apply Hsub; by left).
  destruct (renames_ok_spec R0 r r Hok Hr Hr) as (? & ? & ?).
  apply IH; [intros x ?; apply Hsub; by right|]. apply rename_step_other; auto.
Qed.

(** An old name that the commit has in the file is gone from it. *)
Lemma rename_fold_gone R s f r :
  renames_ok R = true → r ∈ R → rn_own r ≤ i → f ∈ grep_lw tree (rn_a r) →
  rn_a r ∉ words (fold_left (rename_step f) R s).
Proof.
  intros Hok Hr Ho Hf. pose proof Hr as (l1 & l2 & Hl)%list_elem_of_split.
  destruct (renames_ok_spec R r r Hok Hr Hr) as (? & ? & ?).
  rewrite Hl at 1. rewrite fold_left_app. cbn [fold_left].
  apply (rename_fold_other R); [done| |intros r' Hr'; by apply (renames_ok_spec R r r')|].
  - intros x Hx. rewrite Hl. apply elem_of_app. right. by right.
  - unfold rename_step. destruct (i <? rn_own r) eqn:E; bools; [lia|].
    rewrite decide_True by done. by apply sub_word_gone.
Qed.

(** All active renames at once, on one word. *)
Definition rename_all R (w : text) : text :=
  fold_left (λ w r, if i <? rn_own r then w else rename (rn_a r) (rn_b r) w) R w.

Context `{!GrepLaws}.

(** On the commit's own text the renames are one map over its words. *)
Lemma rename_fold_map R0 R s t f :
  renames_ok R0 = true → R ⊆ R0 → tree !! f = Some s →
  (∀ r, r ∈ R → rn_a r ∉ words s → rn_a r ∉ words t) →
  fold_left (rename_step f) R t = map_words (rename_all R) t.
Proof.
  intros Hok Hsub Ht. revert t. induction R as [|r R IH]; intros t Hn.
  { unfold rename_all. cbn. symmetry. by apply map_words_id. }
  assert (r ∈ R0) as Hr by (apply Hsub; by left).
  destruct (renames_ok_spec R0 r r Hok Hr Hr) as (Ha & Hb & Hab).
  assert (∀ w, is_name w = true → is_name (rename (rn_a r) (rn_b r) w) = true) as Hnm
    by (intros w; by apply rename_name).
  cbn [fold_left]. assert (rename_step f t r =
    map_words (λ w, if i <? rn_own r then w else rename (rn_a r) (rn_b r) w) t) as Hst.
  { unfold rename_step. destruct (i <? rn_own r); [symmetry; by apply map_words_id|].
    case_decide as Hg; [by apply sub_word_spec|]. rewrite <-sub_word_spec by done.
    symmetry. apply sub_word_absent; [done|]. apply Hn; [by left|]. intros Hin. apply Hg.
    apply grep_lw_spec. by exists s. }
  rewrite IH.
  - rewrite Hst, map_words_compose; [done|]. intros w Hw%words_names.
    destruct (i <? rn_own r); [done|by apply Hnm].
  - intros x ?. apply Hsub. by right.
  - intros r' Hr' Hns. apply rename_step_other; [done..| |].
    + apply (renames_ok_spec R0 r' r); [done| |done]. apply Hsub. by right.
    + apply Hn; [by right|done].
Qed.

(** The renames never raise. *)
Lemma rename_in_total a b fs files :
  (∀ f, f ∈ fs → is_Some (tree !! f)) → ∃ files', rename_in tree a b fs files = Ok files'.
Proof.
  revert files. induction fs as [|f fs IH]; intros files Hf; [by eexists|]. cbn [rename_in].
  destruct (Hf f) as [s Hs]; [by left|].
  destruct (files !! f) as [u|]; [|rewrite Hs]; apply IH; intros g ?; apply Hf; by right.
Qed.

Lemma rename_files_total R files : ∃ files', rename_files tree i R files = Ok files'.
Proof.
  revert files. induction R as [|r R IH]; intros files; [by eexists|]. cbn [rename_files].
  destruct (i <? rn_own r); [apply IH|].
  destruct (rename_in_total (rn_a r) (rn_b r) (grep_lw tree (rn_a r)) files) as [files' ->]; [|apply IH].
  intros f (s & Hs & _)%grep_lw_spec. eauto.
Qed.
End renames.

(** ** Posts *)

(** A text whose first and last bytes are no word bytes. *)
Definition gapped (t : text) : bool :=
  match t, last t with
  | c :: _, Some d => negb (is_word c) && negb (is_word d)
  | _, _ => false
  end.

Lemma words_snoc s c : is_word c = false → words (s ++ [c]) = words s.
Proof. intros Hc. rewrite words_app by done. by rewrite app_nil_r. Qed.

Lemma words_gapped x t y : gapped t = true → words (x ++ t ++ y) = words x ++ words t ++ words y.
Proof.
  destruct t as [|c t]; [done|]. unfold gapped. destruct (last (c :: t)) as [d|] eqn:El; [|done].
  intros Hg. bools. rewrite <-app_comm_cons, words_app, (words_byte c t) by done. f_equal.
  destruct t as [|e t _] using rev_ind; [done|].
  rewrite app_comm_cons, last_snoc in El. injection El as ->.
  rewrite <-app_assoc. cbn [app]. by rewrite words_app, words_snoc.
Qed.

(** The edits after the renames bring no old name back. *)
Definition posts_ok (R : list rename_row) (P : list post_row) : bool :=
  forallb (λ p, negb (bool_decide (po_a p = [])) && gapped (po_a p) && gapped (po_b p) &&
    forallb (λ r, negb (bool_decide (rn_a r ∈ words (po_b p)))) R) P.

Section posts.
Context (i : nat).

Lemma post_files_keeps R P files errs f s a :
  posts_ok R P = true → (∃ r, r ∈ R ∧ rn_a r = a) → files !! f = Some s → a ∉ words s →
  ∃ t, (post_files i P files errs).1 !! f = Some t ∧ a ∉ words t.
Proof.
  intros Hok (r & Hr & <-). revert files errs s Hok.
  induction P as [|p P IH]; intros files errs s Hok Hf Ha; [by exists s|].
  unfold posts_ok in Hok. cbn [forallb] in Hok. apply andb_true_iff in Hok as [Hp Hok]. bools.
  cbn [post_files]. destruct (i <? po_own p); [by eapply IH|].
  destruct (files !! po_f p) as [u|] eqn:Eu; [|by eapply IH].
  destruct (rep u (po_a p) (po_b p) (po_what p)) as [t|x] eqn:Er; [|by eapply IH].
  destruct (decide (f = po_f p)) as [->|Hne]; [|eapply IH; [done|by rewrite lookup_insert_ne|done]].
  rewrite Hf in Eu. injection Eu as <-. eapply IH; [done|by rewrite lookup_insert_eq|].
  apply bool_decide_eq_false in H.
  apply rep_Ok in Er as [[-> _]|(_ & _ & x & y & -> & ->)]; [done| |done].
  rewrite words_gapped in Ha |- * by done. rewrite !elem_of_app in *.
  rewrite forallb_forall in H0. apply list_elem_of_In, H0 in Hr.
  apply negb_true_iff, bool_decide_eq_false in Hr. tauto.
Qed.

Lemma post_files_other P files errs f :
  (∀ p, p ∈ P → po_f p ≠ f) → (post_files i P files errs).1 !! f = files !! f.
Proof.
  revert files errs. induction P as [|p P IH]; intros files errs Hf; [done|]. cbn [post_files].
  assert (∀ p', p' ∈ P → po_f p' ≠ f) as Hf' by (intros p' ?; apply Hf; by right).
  destruct (i <? po_own p); [by apply IH|]. destruct (files !! po_f p); [|by apply IH].
  destruct (rep _ _ _ _); [|by apply IH]. rewrite IH by done.
  rewrite lookup_insert_ne; [done|]. apply Hf. by left.
Qed.

(** A file that nothing has fetched is not fetched by them. *)
Lemma post_files_unfetched P files errs f :
  files !! f = None → (post_files i P files errs).1 !! f = None.
Proof.
  revert files errs. induction P as [|p P IH]; intros files errs Hf; [done|]. cbn [post_files].
  destruct (i <? po_own p); [by apply IH|]. destruct (files !! po_f p) eqn:E; [|by apply IH].
  destruct (rep _ _ _ _); [|by apply IH]. apply IH. rewrite lookup_insert_ne; [done|]. congruence.
Qed.
End posts.

(** ** Edits that bring no word in *)

(** A text around its words: those that may join the text before and after it, and the
    part from its first to its last byte that is no word byte. *)
Fixpoint head_word (s : text) : text :=
  match s with c :: s' => if is_word c then c :: head_word s' else [] | [] => [] end.
Definition last_word (s : text) : text := rev (head_word (rev s)).
Definition inner (s : text) : text :=
  drop (length (head_word s)) (take (length s - length (last_word s)) s).

(** The pieces as an edit has them: the text is the three together. *)
Definition parts_ok (s : text) : bool :=
  bool_decide (s = head_word s ++ inner s ++ last_word s) && gapped (inner s) &&
  forallb is_word (head_word s) && forallb is_word (last_word s).

(** Replacing [old] by [new] brings the word [a] into no text that does not have it. *)
Definition brings_no (a old new : text) : bool :=
  parts_ok old && parts_ok new &&
  (bool_decide (head_word new = head_word old) ||
   negb (bool_decide (head_word new = [])) && negb (py_startswith (rev a) (rev (head_word new)))) &&
  (bool_decide (last_word new = last_word old) ||
   negb (bool_decide (last_word new = [])) && negb (py_startswith a (last_word new))) &&
  (negb (bool_decide (a ∈ words (inner new))) || bool_decide (a ∈ words (inner old))).

Lemma words_run w : forallb is_word w = true → words w = if decide (w = []) then [] else [w].
Proof.
  intros Hw. pose proof (words_word w []) as H. case_decide as Hn; [by rewrite Hn|].
  rewrite app_nil_r in H. apply H; [|done]. apply is_name_spec. done.
Qed.

(** All but the last word of a text is in what follows, and all but its first word in what
    precedes it. *)
Lemma words_before p : ∃ W x, forallb is_word x = true ∧ ∀ z, words (p ++ z) = W ++ words (x ++ z).
Proof.
  induction p as [|c p (W & x & Hx & Hp)] using rev_ind; [by exists [], []|].
  destruct (is_word c) eqn:Hc.
  - exists W, (x ++ [c]). split; [rewrite forallb_app, Hx; cbn; by rewrite Hc|].
    intros z. by rewrite <-!app_assoc, Hp.
  - exists (words p), []. split; [done|]. intros z. rewrite <-app_assoc. by apply words_app.
Qed.

Lemma words_after q : ∃ y W, forallb is_word y = true ∧ ∀ z, words (z ++ q) = words (z ++ y) ++ W.
Proof.
  induction q as [|c q (y & W & Hy & Hq)].
  { exists [], []. split; [done|]. intros z. by rewrite !app_nil_r. }
  destruct (is_word c) eqn:Hc.
  - exists (c :: y), W. split; [cbn; by rewrite Hc, Hy|]. intros z.
    rewrite (cons_middle c z q), (cons_middle c z y), !app_assoc. apply Hq.
  - exists [], (words q). split; [done|]. intros z. rewrite app_nil_r. by apply words_app.
Qed.

Lemma forallb_app_true (f : ascii → bool) x y :
  forallb f x = true → forallb f y = true → forallb f (x ++ y) = true.
Proof. intros Hx Hy. by rewrite forallb_app, Hx, Hy. Qed.

Lemma words_head_edge a p ho hn :
  forallb is_word ho = true → forallb is_word hn = true →
  hn = ho ∨ hn ≠ [] ∧ py_startswith (rev a) (rev hn) = false →
  a ∉ words (p ++ ho) → a ∉ words (p ++ hn).
Proof.
  intros Ho Hn [->|[Hne Hs]]; [done|]. destruct (words_before p) as (W & x & Hx & Hp).
  rewrite !Hp, !not_elem_of_app. intros [HW _]. split; [done|].
  rewrite words_run by (by apply forallb_app_true). case_decide; [apply not_elem_of_nil|].
  intros ->%list_elem_of_singleton. rewrite rev_app_distr, py_startswith_app in Hs. done.
Qed.

Lemma words_last_edge a q lo ln :
  forallb is_word lo = true → forallb is_word ln = true →
  ln = lo ∨ ln ≠ [] ∧ py_startswith a ln = false →
  a ∉ words (lo ++ q) → a ∉ words (ln ++ q).
Proof.
  intros Ho Hn [->|[Hne Hs]]; [done|]. destruct (words_after q) as (y & W & Hy & Hq).
  rewrite !Hq, !not_elem_of_app. intros [_ HW]. split; [|done].
  rewrite words_run by (by apply forallb_app_true). case_decide; [apply not_elem_of_nil|].
  intros ->%list_elem_of_singleton. rewrite py_startswith_app in Hs. done.
Qed.

Lemma parts_words p s q :
  parts_ok s = true →
  words (p ++ s ++ q) = words (p ++ head_word s) ++ words (inner s) ++ words (last_word s ++ q).
Proof.
  unfold parts_ok. intros Hs. bools. apply bool_decide_eq_true in H.
  rewrite H at 1. rewrite <-!app_assoc, (app_assoc p). by apply words_gapped.
Qed.

Lemma parts_edges s :
  parts_ok s = true → forallb is_word (head_word s) = true ∧ forallb is_word (last_word s) = true.
Proof. unfold parts_ok. intros Hs. by bools. Qed.

Lemma brings_no_spec a old new p q :
  brings_no a old new = true → a ∉ words (p ++ old ++ q) → a ∉ words (p ++ new ++ q).
Proof.
  unfold brings_no. intros [[[[Po Pn]%andb_true_iff Hh]%andb_true_iff Hl]%andb_true_iff
    Hi]%andb_true_iff. rewrite !parts_words by done. rewrite !not_elem_of_app.
  destruct (parts_edges _ Po) as [Ho1 Ho2], (parts_edges _ Pn) as [Hn1 Hn2].
  intros (H1 & H2 & H3). split; [|split].
  - apply (words_head_edge a p (head_word old)); [done..| |done].
    apply orb_true_iff in Hh as [?%bool_decide_eq_true|Hh]; [by left|right]. bools.
    by apply bool_decide_eq_false in H.
  - apply orb_true_iff in Hi as [Hi|Hi%bool_decide_eq_true]; [|done].
    by apply negb_true_iff, bool_decide_eq_false in Hi.
  - apply (words_last_edge a q (last_word old)); [done..| |done].
    apply orb_true_iff in Hl as [?%bool_decide_eq_true|Hl]; [by left|right]. bools.
    by apply bool_decide_eq_false in H.
Qed.

(** No edit brings an old name in. *)
Definition edits_ok (R : list rename_row) (E : list edit_row) : bool :=
  forallb (λ e, negb (bool_decide (ed_old e = [])) &&
    forallb (λ r, brings_no (rn_a r) (ed_old e) (ed_new e)) R) E.

Lemma edits_ok_spec R E r e :
  edits_ok R E = true → r ∈ R → e ∈ E →
  ed_old e ≠ [] ∧ brings_no (rn_a r) (ed_old e) (ed_new e) = true.
Proof.
  unfold edits_ok. rewrite forallb_forall. intros Hok Hr He.
  apply list_elem_of_In, Hok in He. bools. apply bool_decide_eq_false in H.
  rewrite forallb_forall in H0. by apply list_elem_of_In, H0 in Hr.
Qed.

Lemma edit_files_brings_no R tree i E files errs files' errs' f r s :
  edits_ok R E = true → r ∈ R → edit_files tree i E files errs = Ok (files', errs') →
  current tree files f = Some s → rn_a r ∉ words s →
  ∃ t, current tree files' f = Some t ∧ rn_a r ∉ words t.
Proof.
  intros Hok Hr. assert (∀ e, e ∈ E → ed_old e ≠ [] ∧
    brings_no (rn_a r) (ed_old e) (ed_new e) = true) as HE by (intros e; by apply (edits_ok_spec R)).
  clear Hok. revert files errs s. induction E as [|e E IH]; intros files errs s.
  { intros [= <- _]. eauto. }
  assert (∀ e', e' ∈ E → ed_old e' ≠ [] ∧ brings_no (rn_a r) (ed_old e') (ed_new e') = true)
    as HE' by (intros; apply HE; by right).
  destruct (HE e) as [Hne Hb]; [by left|]. rewrite edit_files_cons.
  destruct (skipped e i); [by eauto|]. intros He Hf Hs.
  destruct (current tree files (ed_f e)) as [u|] eqn:Eu; [|done].
  destruct (decide (f = ed_f e)) as [->|Hfe].
  - rewrite Hf in Eu. injection Eu as <-.
    destruct (rep s (ed_old e) (ed_new e) (ed_what e)) as [t|x] eqn:Er;
      (eapply IH; [done|exact He|unfold current; by rewrite lookup_insert_eq|]); [|done].
    apply rep_Ok in Er as [[-> _]|(_ & _ & p & q & -> & ->)]; [done| |done].
    by eapply brings_no_spec.
  - destruct (rep _ _ _ _) as [t|x];
      (eapply IH; [done|exact He|unfold current in *; by rewrite lookup_insert_ne|done]).
Qed.

(** ** The stage *)

Section stage.
Context `{GrepLaws}.
Context (EDITS : list edit_row) (RENAMES : list rename_row) (POST : list post_row).

Lemma stage8_Ok tree i files errs :
  stage8 EDITS RENAMES POST tree i = Ok (files, errs) →
  ∃ f1 e1 f2, edit_files tree i EDITS ∅ [] = Ok (f1, e1) ∧
    rename_files tree i RENAMES f1 = Ok f2 ∧ (files, errs) = post_files i POST f2 e1.
Proof.
  unfold stage8. intros ([f1 e1] & He & (f2 & Hr & Hp)%res_bind_Ok)%res_bind_Ok.
  apply (inj Ok) in Hp. exists f1, e1, f2. done.
Qed.

Lemma stage8_raise tree i x :
  stage8 EDITS RENAMES POST tree i = Raise x → edit_stage EDITS tree i = Raise x.
Proof.
  unfold stage8, edit_stage. intros [Hx|([f1 e1] & _ & Hx)]%res_bind_Raise; [done|].
  destruct (rename_files_total tree i RENAMES f1) as [f2 Hf].
  cbn [fst] in Hx. rewrite Hf in Hx. done.
Qed.

#[export] Instance stage8_reads : Reads (stage8 EDITS RENAMES POST) := {
  wants i f := ∃ e, e ∈ EDITS ∧ active e i = true ∧ ed_f e = f;
  reads_raise tree i x Hx := edit_stage_raise EDITS tree i x (stage8_raise tree i x Hx);
}.
End stage.

(** ** Messages *)

(** The text by which a step is seen to be done. *)
Definition marker (st : mstep) : text :=
  match st with MRep _ new _ => new | MPara txt _ => txt end.

(** The edits a step can make, as pairs of texts. *)
Definition mstep_edits (st : mstep) : list (text * text) :=
  match st with
  | MRep old new _ => [(old, new)]
  | MPara txt _ => map (λ t, (t, [nl] ++ txt ++ [nl] ++ t)) trailers
  end.

Definition mstep_spares (sub : text) (st : mstep) : bool :=
  forallb (λ '(old, new), no_create sub new old) (mstep_edits st).

(** No later step can undo an earlier one. *)
Fixpoint msteps_ok (sts : list mstep) : bool :=
  match sts with
  | [] => true
  | st :: sts' =>
      if (match st with MRep old _ _ => bool_decide (old = []) | MPara _ _ => false end) then false
      else if forallb (mstep_spares (marker st)) sts' then msteps_ok sts' else false
  end.

Lemma trailer_pos_split ts m k :
  trailer_pos ts m = Some k → ∃ t x y, t ∈ ts ∧ m = x ++ t ++ y ∧ length x = k.
Proof.
  induction ts as [|t ts IH]; [done|]. cbn [trailer_pos].
  destruct (py_find t m) as [k'|] eqn:E.
  - intros [= ->]. apply py_find_Some in E as [(x & y & Hm & Hl) _]. exists t, x, y.
    split; [by left|done].
  - intros (t' & x & y & Ht & ? & ?)%IH. exists t', x, y. split; [by right|done].
Qed.

(** A step leaves the message, or makes one of its edits at one place. *)
Lemma run_mstep_Ok st m m' :
  (match st with MRep old _ _ => old ≠ [] | MPara _ _ => True end) →
  run_mstep m st = Ok m' →
  (m' = m ∧ py_in (marker st) m = true) ∨
  ∃ old new x y, (old, new) ∈ mstep_edits st ∧ m = x ++ old ++ y ∧ m' = x ++ new ++ y ∧
                 py_in (marker st) new = true.
Proof.
  destruct st as [old new what|txt what]; cbn [run_mstep marker mstep_edits]; intros Hne Hr.
  - apply rep_Ok in Hr as [?|(_ & _ & x & y & ? & ?)]; [by left| |done].
    right. exists old, new, x, y. split; [by left|]. do 2 (split; [done|]). apply py_in_refl.
  - unfold para in Hr. destruct (py_in txt m) eqn:Hin; [left; by apply (inj Ok) in Hr as <-|].
    destruct (trailer_pos trailers m) as [k|] eqn:Ek; [|done]. right.
    apply (inj Ok) in Hr as <-. apply trailer_pos_split in Ek as (t & x & y & Ht & -> & <-).
    exists t, ([nl] ++ txt ++ [nl] ++ t), x, y. split; [|split; [done|split]].
    + apply list_elem_of_fmap. by exists t.
    + rewrite take_app_length, drop_app_length. by rewrite <-!app_assoc.
    + apply (py_in_mid [nl]).
Qed.

Lemma run_mstep_skip st m : py_in (marker st) m = true → run_mstep m st = Ok m.
Proof.
  destruct st; cbn [run_mstep marker]; [apply rep_skip|]. unfold para. by intros ->.
Qed.

Lemma run_mstep_keeps sub st m m' :
  (match st with MRep old _ _ => old ≠ [] | MPara _ _ => True end) →
  mstep_spares sub st = true → py_in sub m = true → run_mstep m st = Ok m' → py_in sub m' = true.
Proof.
  intros Hne Hsp Hs Hr.
  apply run_mstep_Ok in Hr as [[-> _]|(old & new & x & y & He & -> & -> & _)]; [done| |done].
  unfold mstep_spares in Hsp. rewrite forallb_forall in Hsp. apply list_elem_of_In, Hsp in He.
  destruct (py_in sub (x ++ new ++ y)) eqn:E; [done|].
  destruct (decide (sub = [])) as [->|Hn]; [by rewrite py_in_nil in E|].
  by rewrite (no_create_absent x y new old sub He Hn E) in Hs.
Qed.

Lemma msteps_ok_cons st sts :
  msteps_ok (st :: sts) = true ↔
  (match st with MRep old _ _ => old ≠ [] | MPara _ _ => True end) ∧
  forallb (mstep_spares (marker st)) sts = true ∧ msteps_ok sts = true.
Proof.
  cbn [msteps_ok]. destruct st as [old ? ?|]; [case_bool_decide|];
    destruct (forallb _ sts); naive_solver.
Qed.

Lemma msteps_keeps sub sts m m' :
  forallb (mstep_spares sub) sts = true → msteps_ok sts = true →
  py_in sub m = true → msteps m sts = Ok m' → py_in sub m' = true.
Proof.
  revert m. induction sts as [|st sts IH]; intros m; [by intros _ _ ? [= <-]|].
  rewrite msteps_ok_cons. cbn [forallb msteps]. intros Hn (Hne & _ & Hok) Hin. bools.
  intros (m1 & Hr & Hrs)%res_bind_Ok. eapply IH; [done|done| |done]. by eapply run_mstep_keeps.
Qed.

(** A rewriter that has run finds its work done. *)
Lemma msteps_again sts m m' :
  msteps_ok sts = true → msteps m sts = Ok m' → msteps m' sts = Ok m'.
Proof.
  revert m. induction sts as [|st sts IH]; intros m; [done|]. rewrite msteps_ok_cons.
  cbn [msteps]. intros (Hne & Hsp & Hok) (m1 & Hr & Hrs)%res_bind_Ok.
  rewrite run_mstep_skip; [cbn; by eapply IH|]. eapply msteps_keeps; [done|done| |done].
  apply run_mstep_Ok in Hr as [[-> ?]|(old & new & x & y & _ & _ & -> & Hin)]; [done| |done].
  eapply py_in_trans; [exact Hin|]. apply py_in_mid.
Qed.
