(* ===== verification/Rebuild8Theorems.v ===== *)
(** The theorems about a-1008: its old names are gone from every file, and its
    rewriters of messages, like those of a-1006, may run twice. *)
From S2P Require Import Prelude PyStr Stable PyRe Rebuild RebuildFacts R1006Table RebuildTheorems.
From S2P Require Import Rebuild8 R1008Table Rebuild8Facts.

Abbreviation r1008_stage := (stage8 r1008_EDITS r1008_RENAMES r1008_POST).

Lemma r1008_renames_ok : renames_ok r1008_RENAMES = true.
Proof. vm_compute. reflexivity. Qed.

Lemma r1008_edits_ok : edits_ok r1008_RENAMES r1008_EDITS = true.
Proof. vm_compute. reflexivity. Qed.

Lemma r1008_posts_ok : posts_ok r1008_RENAMES r1008_POST = true.
Proof. vm_compute. reflexivity. Qed.

(** The rewriters of a-1008. *)
Definition r1008_rewriters : list (nat * list mstep) := [
  (r1008_C159, r1008_steps_159_b); (r1008_C163, r1008_steps_163);
  (r1008_C288, r1008_steps_288_b); (r1008_C415, r1008_steps_415_b);
  (r1008_C417, r1008_steps_417); (r1008_C418, r1008_steps_418_c);
  (r1008_C419, r1008_steps_419_b); (r1008_C443, r1008_steps_443);
  (r1008_F_GAP, r1008_steps_gap); (r1008_F_NLINK, r1008_steps_nlink_b)].

Lemma r1008_rewriters_ok : forallb (λ x, msteps_ok x.2) r1008_rewriters = true.
Proof. vm_compute. reflexivity. Qed.

Lemma r1008_MSG_steps i f :
  r1008_MSG i = Some f → ∃ sts, (i, sts) ∈ r1008_rewriters ∧ f = λ m, msteps m sts.
Proof.
  unfold r1008_MSG. intros Hf.
  repeat (destruct (i =? _) eqn:E in Hf;
    [apply Nat.eqb_eq in E as ->; injection Hf as <-; eexists; split; [|reflexivity];
     unfold r1008_rewriters; repeat first [apply list_elem_of_here | apply list_elem_of_further]|clear E]).
  done.
Qed.

Section theorems.
Context `{GrepLaws}.

(** The old name of an active rename is gone once the renames are done: by the renames
    where the commit has it, and because no edit brings it in where the commit does not. *)
Lemma r1008_gone tree i f1 e1 f2 f s r :
  edit_files tree i r1008_EDITS ∅ [] = Ok (f1, e1) → rename_files tree i r1008_RENAMES f1 = Ok f2 →
  tree !! f = Some s → r ∈ r1008_RENAMES → rn_own r ≤ i →
  ∃ t, current tree f2 f = Some t ∧ rn_a r ∉ words t.
Proof.
  intros He Hr Hs Hin Ho.
  pose proof (rename_files_current tree i r1008_RENAMES r1008_RENAMES f1 f2 f
    r1008_renames_ok ltac:(done) Hr) as Hc.
  destruct (decide (rn_a r ∈ words s)) as [Hw|Hw].
  - assert (f ∈ grep_lw tree (rn_a r)) as Hg by (apply grep_lw_spec; by exists s).
    destruct (rename_files_fetched _ _ _ _ _ f Hr) as [t Ht]; [right; by exists r|].
    assert (current tree f2 f = Some t) as Hf2 by (unfold current; by rewrite Ht).
    exists t. split; [done|]. rewrite Hf2 in Hc. apply symmetry, fmap_Some in Hc as (u & _ & ->).
    by apply rename_fold_gone; [exact r1008_renames_ok|..].
  - destruct (edit_files_brings_no r1008_RENAMES tree i _ _ _ _ _ f r s r1008_edits_ok Hin He)
      as (t & Ht & Ha); [unfold current; by rewrite lookup_empty|done|].
    rewrite Ht in Hc. eexists. split; [exact Hc|].
    apply (rename_fold_other tree i r1008_RENAMES); [exact r1008_renames_ok|done| |done].
    intros r' Hr'. by apply (renames_ok_spec r1008_RENAMES r r' r1008_renames_ok).
Qed.

(** It stays away over the posts. *)
Lemma r1008_post tree i f2 e1 f r :
  r ∈ r1008_RENAMES → (∃ t, current tree f2 f = Some t ∧ rn_a r ∉ words t) →
  ∃ t, ((post_files i r1008_POST f2 e1).1 ∪ tree) !! f = Some t ∧ rn_a r ∉ words t.
Proof.
  intros Hin (t & Ht & Ha). unfold current in Ht. destruct (f2 !! f) as [u|] eqn:E.
  - injection Ht as ->.
    destruct (post_files_keeps i r1008_RENAMES r1008_POST f2 e1 f t (rn_a r) r1008_posts_ok
      ltac:(by exists r) E Ha) as (t' & Ht' & Ha').
    exists t'. split; [by apply lookup_union_Some_l|done].
  - exists t. split; [|done]. by rewrite lookup_union_r by (by apply post_files_unfetched).
Qed.

(** C8: The renames of a-1008.  Whatever the edits do, no file of the commit has the old
    name of an active rename as a word when the stage is over, be it that the commit had
    the name, that [git grep] on the commit missed the file, or that an edit rewrote it; and
    a file that no edit names is the commit's, with every word that is the old name of an
    active rename replaced by the new one, and no other byte changed. *)
Theorem r1008_renamed tree i files errs f s :
  r1008_stage tree i = Ok (files, errs) → tree !! f = Some s →
  (∃ t, (files ∪ tree) !! f = Some t ∧
     ∀ r, r ∈ r1008_RENAMES → rn_own r ≤ i → rn_a r ∉ words t) ∧
  ((∀ e, e ∈ r1008_EDITS → active e i = true → ed_f e ≠ f) →
   (∀ p, p ∈ r1008_POST → po_f p ≠ f) →
   (files ∪ tree) !! f = Some (map_words (rename_all i r1008_RENAMES) s)).
Proof.
  intros (f1 & e1 & f2 & He & Hr & Hp)%stage8_Ok Hs.
  assert (files = (post_files i r1008_POST f2 e1).1) as -> by (by rewrite <-Hp).
  split.
  - destruct (((post_files i r1008_POST f2 e1).1 ∪ tree) !! f) as [t|] eqn:Et.
    + exists t. split; [done|]. intros r Hin Ho.
      destruct (r1008_post tree i f2 e1 f r Hin) as (t' & Ht' & Ha); [by eapply r1008_gone|].
      congruence.
    + apply lookup_union_None in Et as [_ Et]. congruence.
  - intros Hne Hnp. apply (edit_files_frame _ _ _ _ _ _ _ _ He) in Hne.
    pose proof (rename_files_current tree i r1008_RENAMES r1008_RENAMES f1 f2 f
      r1008_renames_ok ltac:(done) Hr) as Hc.
    assert (current tree f1 f = Some s) as Hf1 by (unfold current; by rewrite Hne, lookup_empty).
    rewrite Hf1 in Hc. cbn [fmap option_fmap option_map] in Hc.
    rewrite (rename_fold_map _ _ r1008_RENAMES _ s) in Hc by
      (exact r1008_renames_ok || done).
    rewrite <-Hc. unfold current. destruct (f2 !! f) eqn:E2.
    + apply lookup_union_Some_l. by rewrite post_files_other.
    + rewrite lookup_union_r; [done|]. by rewrite post_files_other.
Qed.
End theorems.

(** The message rewriters of a-1006 and a-1008 are idempotent: on a message that one of
    them has rewritten it returns the message as it is, be the steps replacements or
    paragraphs put before the trailers. *)
Theorem msgs_idempotent i f m m' :
  r1006_MSG i = Some f ∨ r1008_MSG i = Some f → f m = Ok m' → f m' = Ok m'.
Proof.
  intros [Hf|Hf]; [by eapply r1006_msgs_again|].
  apply r1008_MSG_steps in Hf as (sts & Hin & ->). apply msteps_again.
  pose proof r1008_rewriters_ok as Hok. rewrite forallb_forall in Hok.
  by apply (Hok (i, sts)), list_elem_of_In.
Qed.

(** ** Instances *)

(** [git grep] by looking at every file. *)
#[export] Instance tree_grep : Grep := λ tree a,
  omap (λ '(f, s), if decide (a ∈ words s) then Some f else None) (map_to_list tree).

#[export] Instance tree_grep_laws : GrepLaws.
Proof.
  split. intros tree a f. unfold grep_lw, tree_grep. rewrite list_elem_of_omap. split.
  - intros ([f' s] & Hin & Hf). case_decide; simplify_eq. exists s.
    split; [by apply elem_of_map_to_list|done].
  - intros (s & Hs & Hw). exists (f, s). split; [by apply elem_of_map_to_list|].
    by rewrite decide_True.
Qed.

(** A tree at 68415: the edits find their files, though not their places in them; one
    file no edit names. *)
Definition job_file : string := "lustre/utils/lfs_job.c".
Definition job_text : text := lit "	if (want & LLAPI_SCAN_JOBID)
		puts(rec->lfsr_jobid); /* my_lfsr_jobid is another */
".
Definition job_tree : gmap string text :=
  <[job_file := job_text]> (list_to_map ((λ e, (ed_f e, lit "lfsr_jobid
")) <$> r1008_EDITS)).

Definition job_stage := r1008_stage job_tree r1008_C415.
Definition job_files : gmap string text :=
  match job_stage with Ok (files, _) => files | Raise _ => ∅ end.
Definition job_errs : list exn := match job_stage with Ok (_, e) => e | Raise _ => [] end.

Lemma r1008_renamed_witness :
  r1008_stage job_tree r1008_C415 = Ok (job_files, job_errs) ∧
  (∃ t, (job_files ∪ job_tree) !! job_file = Some t ∧ lit "lfsr_jobid" ∉ words t) ∧
  (job_files ∪ job_tree) !! job_file =
    Some (map_words (rename_all r1008_C415 r1008_RENAMES) job_text).
Proof.
  assert (r1008_stage job_tree r1008_C415 = Ok (job_files, job_errs)) as Hs.
  { assert (res_is_ok job_stage = true) as Hok by (vm_compute; reflexivity).
    unfold job_files, job_errs. fold job_stage. destruct job_stage as [[fs es]|x]; [reflexivity|].
    discriminate Hok. }
  split; [exact Hs|].
  destruct (r1008_renamed job_tree r1008_C415 job_files job_errs job_file job_text Hs
    ltac:(vm_compute; reflexivity)) as [(t & Ht & Hg) Hm]. split.
  - exists t. split; [exact Ht|].
    apply (Hg (Rename r1008_C415 (lit "lfsr_jobid") (lit "lfsr_event_jobid")));
      [|vm_compute; lia].
    apply (list_elem_of_lookup_2 _ 1). vm_compute. reflexivity.
  - apply Hm.
    + apply (Forall_forall (λ e, active e r1008_C415 = true → ed_f e ≠ job_file)).
      apply (bool_decide_unpack _). vm_compute. reflexivity.
    + apply (Forall_forall (λ p, po_f p ≠ job_file)).
      apply (bool_decide_unpack _). vm_compute. reflexivity.
Defined.

(** A message made of the texts the rewriter of 68418 looks for. *)
Definition r1008_demo_418 : text :=
  mjoin ((λ st, match st with MRep old _ _ => old ++ [nl] | MPara _ _ => [] end)
    <$> r1008_steps_418_c) ++ lit "
Signed-off-by: A B <a@b>
".
Definition r1008_demo_418' : text :=
  match r1008_m_418_c r1008_demo_418 with Ok m => m | Raise _ => [] end.

Lemma msgs_idempotent_witness :
  r1008_m_418_c r1008_demo_418 = Ok r1008_demo_418' ∧
  r1008_m_418_c r1008_demo_418' = Ok r1008_demo_418'.
Proof.
  assert (r1008_m_418_c r1008_demo_418 = Ok r1008_demo_418') as Hm by (vm_compute; reflexivity).
  split; [exact Hm|].
  apply (msgs_idempotent r1008_C418 r1008_m_418_c r1008_demo_418);
    [right; vm_compute; reflexivity|exact Hm].
Defined.
