(* ===== verification/Rebuild5.v ===== *)
(** docs/rounds/a-1005/lreview2/rebuild.py, the first of the rebuild scripts: its edits are
    functions, [rep] insists on one match, messages are matched with any white space
    between their words, and [build] keeps a commit only where it has nothing to do.

    In a dry run the message is read as [git log] prints it and an exception of its
    rewriter is caught; in a real run it is stripped first, and nothing is caught. *)
From S2P Require Import Prelude PyStr PyParse PyRe R3Engine Git Rebuild.

(** [rep(s, old, new, what)] *)
Definition rep1 (s old new : text) (what : string) : res text :=
  let n := py_count old s in
  if negb (n =? 1) then
    Raise (RuntimeError (what +:+ ": " +:+ pretty (N.of_nat n) +:+ " matches"))
  else Ok (py_replace old new s).

(** ** Messages *)

(** [r'\s+'.join(re.escape(w) for w in ws)] at the start of [s]: what follows the match.
    Words hold no white space, so [\s+] has nothing to give back. *)
Fixpoint match_words (ws : list text) (s : text) : option text :=
  match ws with
  | [] => Some s
  | w :: ws' =>
      match strip_prefix w s with
      | None => None
      | Some r =>
          match ws' with
          | [] => Some r
          | _ => match r with
                 | c :: r' => if is_space c then match_words ws' (py_lstrip r') else None
                 | [] => None
                 end
          end
      end
  end.

(** [re.subn(pat, lambda _: new, s)]; [k] bytes of a match are still to be passed over. *)
Fixpoint subn_words (ws : list text) (new : text) (k : nat) (s : text) : text * nat :=
  match s with
  | [] => ([], 0)
  | c :: s' =>
      match k with
      | S k' => subn_words ws new k' s'
      | 0 =>
          match match_words ws s with
          | Some r =>
              let (t, n) := subn_words ws new (length s - length r - 1) s' in (new ++ t, S n)
          | None => let (t, n) := subn_words ws new 0 s' in (c :: t, n)
          end
      end
  end.

(** [wsub(msg, old, new, what)] *)
Definition wsub (msg old new : text) (what : string) : res text :=
  let (m, n) := subn_words (py_split old) new 0 msg in
  if negb (n =? 1) then
    Raise (RuntimeError (what +:+ ": " +:+ pretty (N.of_nat n) +:+ " matches"))
  else Ok m.

(** [textwrap.fill] of ASCII words that fit the line and have no hyphen: [cur] is the length of
    the line so far. *)
Fixpoint fill_words (width cur : nat) (ws : list text) : text :=
  match ws with
  | [] => []
  | w :: ws' =>
      if cur + 1 + length w <=? width
      then " "%char :: w ++ fill_words width (cur + 1 + length w) ws'
      else nl :: w ++ fill_words width (length w) ws'
  end.

Definition refill (s : text) : text :=
  match py_split s with
  | [] => []
  | w :: ws => w ++ fill_words 72 (length w) ws
  end.

(** ** Files *)

(** A row of EDITS: [(own, f, fn)], with [fn.__name__]. *)
Record edit_fn := EditFn {
  ef_own : nat;
  ef_f : string;
  ef_name : string;
  ef_fn : text → res text;
}.

Fixpoint edit_files5 (tree : gmap string text) (i : nat) (EDITS : list edit_fn)
    (files : gmap string text) (errs : list exn) : res (gmap string text * list exn) :=
  match EDITS with
  | [] => Ok (files, errs)
  | e :: EDITS' =>
      if i <? ef_own e then edit_files5 tree i EDITS' files errs
      else
        match (match files !! ef_f e with Some s => Some s | None => tree !! ef_f e end) with
        | None => Raise (CalledProcessError "show")
        | Some s =>
            match ef_fn e s with
            | Ok t => edit_files5 tree i EDITS' (<[ef_f e := t]> files) errs
            | Raise x => edit_files5 tree i EDITS' (<[ef_f e := s]> files) (errs ++ [x])
            end
        end
  end.

Section build5.
Context {sha repo : Type} `{EqDecision sha} `{Git sha repo}.
Context (rev_parse : string → option sha) (ident : repo → string * string).
Context (BASE : string) (STACK : list string) (EDITS : list edit_fn)
        (MSG : nat → option (text → res text)).

(** [not files and i not in MSG] *)
Definition idle5 (files : gmap string text) (i : nat) : bool :=
  bool_decide (files = ∅) && match MSG i with None => true | Some _ => false end.

(** The failure a dry run prints for the message of a commit. *)
Definition dry_msg5 (i : nat) (c : commit sha) : list exn :=
  match MSG i with
  | None => []
  | Some m => match m (g_log_B c) with Ok _ => [] | Raise x => [x] end
  end.

(** [if i in MSG: msg = MSG[i](msg)] of a real run *)
Definition real_msg5 (i : nat) (c : commit sha) : res text :=
  let msg := one_nl (g_log_B c) in
  match MSG i with None => Ok msg | Some m => m msg end.

Definition make5 (r : repo) (parent : sha) (i : nat) (h : sha) (c : commit sha)
    (files : gmap string text) (out : list (line sha)) : repo * res (sha * list (line sha)) :=
  match real_msg5 i c with
  | Raise x => (r, Raise x)
  | Ok msg =>
      let (r', new) := g_commit_tree r
        (Commit (files ∪ c_tree c) (Some parent) msg (env2 ident r c)) in
      (r', Ok (new, out ++ [Made i h new]))
  end.

(** One turn of the loop over STACK. *)
Definition build5_one (dry : bool) (r : repo) (parent : sha) (i : nat) (name : string)
    : repo * res (sha * list (line sha)) :=
  match rev_parse name with
  | None => (r, Raise (CalledProcessError "show"))
  | Some h =>
      match g_show r h with
      | None => (r, Raise (CalledProcessError "show"))
      | Some c =>
          match edit_files5 (c_tree c) i EDITS ∅ [] with
          | Raise x => (r, Raise x)
          | Ok (files, errs) =>
              let out := EditFailed i <$> errs in
              if dry then (r, Ok (parent, out ++ (MsgFailed i <$> dry_msg5 i c)))
              else if idle5 files i then
                match c_parent c with
                | None => (r, Raise (CalledProcessError "rev-parse"))
                | Some p =>
                    if bool_decide (p = parent) then (r, Ok (h, out ++ [Kept i h]))
                    else make5 r parent i h c files out
                end
              else make5 r parent i h c files out
          end
      end
  end.

Fixpoint build5_loop (dry : bool) (r : repo) (parent : sha) (i : nat) (stack : list string)
    (out : list (line sha)) : repo * res (sha * list (line sha)) :=
  match stack with
  | [] => (r, Ok (parent, out))
  | name :: stack' =>
      match build5_one dry r parent i name with
      | (r1, Raise x) => (r1, Raise x)
      | (r1, Ok (parent', o)) => build5_loop dry r1 parent' (S i) stack' (out ++ o)
      end
  end.

(** [build(dry)] *)
Definition build5 (dry : bool) (r : repo) : repo * res (bool * sha * list (line sha)) :=
  match rev_parse BASE with
  | None => (r, Raise (CalledProcessError "rev-parse"))
  | Some base =>
      match build5_loop dry r base 0 STACK [] with
      | (r', Raise x) => (r', Raise x)
      | (r', Ok (parent, out)) => (r', Ok (existsb failure out, parent, out))
      end
  end.
End build5.
