(* ===== verification/R1005Table.v ===== *)
(** The edits and message rewriters of docs/rounds/a-1005/lreview2/rebuild.py, names
    prefixed with [r1005_]. *)
From S2P Require Import Prelude PyStr PyParse Rebuild5.

Definition r1005_BASE : string := "d2a385f08f".

Definition r1005_STACK : list string :=
  ["507b70072f"; "5eadb15998"; "c9c29b8112"; "40c2602c05";
   "f928042765"; "4e7fde3fee"; "66b4fa6e08"; "8123faeccc";
   "ed7024395f"; "e00b1af3a2"; "0130fc912c"; "1a82be36df";
   "ae9b2ca3a3"].

Definition r1005_PF : string := "lustre/utils/liblustreapi_pfind.c".

Definition r1005_CL : string := "lustre/utils/liblustreapi_scan_changelog.c".

Definition r1005_SC : string := "lustre/utils/liblustreapi_scan.c".

Definition r1005_e_targets (s : text) : res text :=
  let! s := rep1 s
    (lit "	if (param->fp_mdt_uuid != NULL) {
		if (!is_mdt) {
			llapi_error(LLAPI_MSG_ERROR | LLAPI_MSG_NO_ERRNO,
				    -ENOTSUP,
				    \q--mdt needs an MDT; '%s' is an OST, whose objects name their MDT only through an FLD lookup\q,
				    tgt->tt_label);
			return -ENOTSUP;
		}

		indexes =")
    (lit "	/* both refusals first, so every device of a sweep gives the same one */
	if (param->fp_mdt_uuid != NULL && !is_mdt) {
		llapi_error(LLAPI_MSG_ERROR | LLAPI_MSG_NO_ERRNO, -ENOTSUP,
			    \q--mdt needs an MDT; '%s' is an OST, whose objects name their MDT only through an FLD lookup\q,
			    tgt->tt_label);
		return -ENOTSUP;
	}
	if (param->fp_obd_uuid != NULL && is_mdt) {
		llapi_error(LLAPI_MSG_ERROR | LLAPI_MSG_NO_ERRNO, -ENOTSUP,
			    \q--ost needs an OST; over '%s' it would ask which OSTs a file is striped over, which this search does not answer\q,
			    tgt->tt_label);
		return -ENOTSUP;
	}

	if (param->fp_mdt_uuid != NULL) {
		indexes =")
    "targets mdt" in
  let! s := rep1 s
    (lit "	if (param->fp_obd_uuid != NULL) {
		if (is_mdt) {
			llapi_error(LLAPI_MSG_ERROR | LLAPI_MSG_NO_ERRNO,
				    -ENOTSUP,
				    \q--ost needs an OST; over '%s' it would ask which OSTs a file is striped over, which this search does not answer\q,
				    tgt->tt_label);
			return -ENOTSUP;
		}

		for")
    (lit "	if (param->fp_obd_uuid != NULL) {
		for")
    "targets ost" in
  Ok s.

(** The literal parts of the expression CALLER. *)
Definition r1005_CALLER_HEAD : text :=
  (lit "	/*
	 * --ost and --mdt are about the target, so the label has to be read
	 * before the search can say whether they can be answered.  The probe
	 * is an open and a close, paid only when one of the two was given.
	 */
	if (param->fp_obd_uuid != NULL || param->fp_mdt_uuid != NULL) {
		rc = scan_device_target(").

Definition r1005_CALLER_PROBE : text :=
  (lit ");
		if (rc == 0) {
			probed = true;
			rc = find_device_targets(param, &tgt);
		}
		if (rc != 0)
			goto out;
").

Definition r1005_CALLER_IDX : text :=
  (lit "		/*
		 * Every object an MDT scan delivers").

Definition r1005_CALLER_IDX_END : text :=
  (lit "
		if (param->fp_mdt_uuid != NULL)
			param->fp_file_mdt_index = (int)tgt.tt_index;
").

Definition r1005_CALLER_LAYOUT : text :=
  (lit "	}

	/*
	 * An OST object has no layout, so these would be compared against a
	 * default that was never read.  A failed probe has already said why,
	 * and the scan would fail the same way and say it twice.
	 */
	if (find_asks_layout(param)) {
		if (!probed) {
			rc = scan_device_target(").

Definition r1005_CALLER_TAIL : text :=
  (lit ");
			if (rc != 0)
				goto out;
		}
		if (tgt.tt_flags & LLAPI_SCAN_TGT_OST) {
			llapi_error(LLAPI_MSG_ERROR | LLAPI_MSG_NO_ERRNO,
				    -ENOTSUP,
				    \qthe layout options need an MDT; '%s' is an OST, whose objects carry no layout\q,
				    tgt.tt_label);
			rc = -ENOTSUP;
			goto out;
		}
	}
").

(** CALLER at the start of [s]: the groups args and mdtidx, and what follows the match.
    [[^)]*] ends at the first closing parenthesis, and [.*?] as early as the rest of the
    expression matches. *)
Fixpoint r1005_caller_args (s : text) : text * text :=
  match s with
  | c :: s' => if Ascii.eqb c ")" then ([], s)
               else let (a, r) := r1005_caller_args s' in (c :: a, r)
  | [] => ([], [])
  end.

Fixpoint r1005_caller_lazy (rest s : text) : option (text * text) :=
  match strip_prefix rest s with
  | Some r => Some ([], r)
  | None => match s with
            | [] => None
            | c :: s' => (λ '(mid, r), (c :: mid, r)) <$> r1005_caller_lazy rest s'
            end
  end.

Definition r1005_caller_at (s : text) : option (text * text * text) :=
  r1 ← strip_prefix r1005_CALLER_HEAD s;
  let (args, r2) := r1005_caller_args r1 in
  r3 ← strip_prefix (r1005_CALLER_PROBE ++ r1005_CALLER_IDX) r2;
  '(mid, r) ← r1005_caller_lazy (r1005_CALLER_IDX_END ++ r1005_CALLER_LAYOUT ++ args ++
                                 r1005_CALLER_TAIL) r3;
  Some (args, r1005_CALLER_IDX ++ mid ++ r1005_CALLER_IDX_END, r).

(** [CALLER.search(s)]: the start, the groups and the end *)
Fixpoint r1005_caller_search (i : nat) (s : text) : option (nat * (text * text) * nat) :=
  match r1005_caller_at s with
  | Some (args, mdtidx, r) => Some (i, (args, mdtidx), i + length s - length r)
  | None => match s with [] => None | _ :: s' => r1005_caller_search (S i) s' end
  end.

(** [len(CALLER.findall(s))]; [k] bytes of a match are still to be passed over *)
Fixpoint r1005_caller_count (k : nat) (s : text) : nat :=
  match s with
  | [] => 0
  | _ :: s' =>
      match k with
      | S k' => r1005_caller_count k' s'
      | 0 => match r1005_caller_at s with
             | Some (_, _, r) => S (r1005_caller_count (length s - length r - 1) s')
             | None => r1005_caller_count 0 s'
             end
      end
  end.

Definition r1005_e_caller (s : text) : res text :=
  match r1005_caller_search 0 s with
  | None => Raise (RuntimeError "caller block")
  | Some (start, (args, mdtidx), stop) =>
      if negb (r1005_caller_count 0 s =? 1) then Raise (RuntimeError "caller block")
      else
        let new := py_fmt (lit "	/*
	 * --ost, --mdt and the layout options are about the target, so the
	 * label has to be read before the search can say whether they can be
	 * answered.  The probe is an open and a close, paid only when one of
	 * them was given.
	 */
	if (param->fp_obd_uuid != NULL || param->fp_mdt_uuid != NULL ||
	    find_asks_layout(param)) {
		rc = scan_device_target(%s);
		if (rc != 0)
			goto out;
	}

	/*
	 * An OST object has no layout, so these would be compared against a
	 * default that was never read.  Checked before find_device_targets()
	 * can skip this device, so every device of a sweep refuses it.
	 */
	if (find_asks_layout(param) && (tgt.tt_flags & LLAPI_SCAN_TGT_OST)) {
		llapi_error(LLAPI_MSG_ERROR | LLAPI_MSG_NO_ERRNO, -ENOTSUP,
			    \qthe layout options need an MDT; '%%s' is an OST, whose objects carry no layout\q,
			    tgt.tt_label);
		rc = -ENOTSUP;
		goto out;
	}

	if (param->fp_obd_uuid != NULL || param->fp_mdt_uuid != NULL) {
		rc = find_device_targets(param, &tgt);
		if (rc != 0)
			goto out;
%s	}
") [args; mdtidx] in
        let s := take start s ++ new ++ drop stop s in
        rep1 s (lit "	bool probed = false;
") (lit "") "probed"
  end.

Definition r1005_e_accept (s : text) : res text :=
  let! s := rep1 s
    (lit " * file's size when the request names a size, blocks or an mtime, as stat(2)
")
    (lit " * file's size when the request names a size, blocks or a time, as stat(2)
")
    "glimpse" in
  let! s := rep1 s
    (lit "			sl->sl_accepted = o->co_index;
			return 0;
")
    (lit "			scan_cl_accept(sl, o->co_index);
			return 0;
")
    "acc1" in
  let! s := rep1 s
    (lit "		sl->sl_accepted = o->co_index;
		return 0;
	}

	if (sc->sc_flags & LLAPI_SCAN_CL_F_RESOLVE)")
    (lit "		scan_cl_accept(sl, o->co_index);
		return 0;
	}

	if (sc->sc_flags & LLAPI_SCAN_CL_F_RESOLVE)")
    "acc2" in
  let! s := rep1 s
    (lit "	sl->sl_accepted = o->co_index;

	return 0;
}
")
    (lit "	scan_cl_accept(sl, o->co_index);

	return 0;
}
")
    "acc3" in
  let! s := rep1 s
    (lit "/*
 * @keyed says the object came out of the coalescing cache")
    (lit "/*
 * Raised, never lowered: a held object flushed after a later one was
 * delivered has a lower index, and lowering would stop _CLEAR short.
 */
static void scan_cl_accept(struct scan_cl *sl, __u64 index)
{
	if (index > sl->sl_accepted)
		sl->sl_accepted = index;
}

/*
 * @keyed says the object came out of the coalescing cache")
    "helper" in
  Ok s.

Definition r1005_e_scan (s : text) : res text :=
  let! s := rep1 s
    (lit "	 * swapped in on the path, or a mount over a directory -- and that is
	 * not the object asked for either.
	 */")
    (lit "	 * swapped in on the path, or a mount over a directory -- and that is
	 * not the object asked for either.  Client modules with only the V1
	 * getinfo ioctl return no FID, so every lookup is -ESTALE there.
	 */")
    "v1" in
  rep1 s
    (lit "	/*
	 * fid2path answers relative to the filesystem root, and \q/\q for the
	 * root itself, which would compose")
    (lit "	/*
	 * fid2path answers relative to the mount root, and \q/\q for the
	 * root itself, which would compose")
    "mount root".

Definition r1005_e_fidman (s : text) : res text :=
  let! s := rep1 s
    (lit "answers relative to the filesystem root and a caller needs the whole name. A
")
    (lit "answers relative to the mount root and a caller needs the whole name. A
")
    "man root" in
  rep1 s
    (lit ".B -ESTALE
the name it resolved to holds a different object now.")
    (lit ".B -ESTALE
the name it resolved to holds a different object now, or is no longer on
Lustre. Client modules with only the V1 getinfo ioctl return no FID, so
every lookup answers this there.")
    "man estale".

Definition r1005_SEEN_FNS : text :=
  (lit "static int find_fid_cmp(const void *a, const void *b)
{
	const struct lu_fid *x = a, *y = b;

	if (x->f_seq != y->f_seq)
		return x->f_seq < y->f_seq ? -1 : 1;
	if (x->f_oid != y->f_oid)
		return x->f_oid < y->f_oid ? -1 : 1;
	if (x->f_ver != y->f_ver)
		return x->f_ver < y->f_ver ? -1 : 1;
	return 0;
}

/*
 * Whether another MDT's log already gave this FID.  A remote mkdir or a
 * cross-MDT rename puts one object in two logs.
 *
 * Return: 1 if seen, 0 if not (now recorded), or -ENOMEM.
 */
static int find_since_seen(struct find_since_state *st,
			   const struct lu_fid *fid)
{
	struct lu_fid *key;
	void *node;

	key = malloc(sizeof(*key));
	if (key == NULL)
		return -ENOMEM;
	*key = *fid;
	node = tsearch(key, &st->fss_seen, find_fid_cmp);
	if (node == NULL) {
		free(key);
		return -ENOMEM;
	}
	if (*(struct lu_fid **)node != key) {
		free(key);
		return 1;
	}
	return 0;
}

").

Definition r1005_e_since (s : text) : res text :=
  let! s := rep1 s
    (lit "#include <pwd.h>
")
    (lit "#include <pwd.h>
#include <search.h>
")
    "include" in
  let! i := py_index (lit "struct find_since_state {") s in
  let! j := py_index_from (lit "
};
") s i in
  let s := (((take j s) ++ (lit "
	/* FIDs already taken, across MDTs: _ONCE's set is per MDT */
	void			*fss_seen;
	bool			 fss_multi_mdt;")) ++ (drop j s)) in
  let! s := rep1 s
    (lit "/* One coalesced object out of an MDT's changelog. */
static int find_since_cand_cb(")
    (r1005_SEEN_FNS ++ (lit "/* One coalesced object out of an MDT's changelog. */
static int find_since_cand_cb("))
    "fns" in
  let! s := rep1 s
    (lit "	/* the window cut is find_since_filter_cb()'s, before this */
	st->fss_cand++;
")
    (lit "	if (st->fss_multi_mdt) {
		rc = find_since_seen(st, &rec->lfsr_fid);
		if (rc != 0)
			return rc < 0 ? rc : 0;
	}

	/* the window cut is find_since_filter_cb()'s, before this */
	st->fss_cand++;
")
    "dedup" in
  let loop := (lit "	for (i = 0; i < mdt_count; i++) {
		struct llapi_scan_changelog_param sc = { 0 };
") in
  let! s := rep1 s
    loop
    ((lit "	st.fss_multi_mdt = mdt_count > 1;
") ++ loop)
    "multi" in
  let! k := py_index (lit "	st.fss_multi_mdt = mdt_count > 1;
") s in
  let! o := py_index_from (lit "out:
	free(mdts);
") s k in
  let s := (((take o s) ++ (lit "out:
	tdestroy(st.fss_seen, free);
")) ++ (drop (o + 5) s)) in
  rep1 s
    (lit "	{
		struct lu_fid mfid;

		st.fss_fileset = llapi_path2fid(mnt_path, &mfid) == 0 &&
				 !lu_fid_eq(&mfid, &LU_ROOT_FID);
	}
")
    (lit "	st.fss_fileset = find_mount_is_fileset(mnt_path) == 1;
")
    "fileset".

Definition r1005_e_changelog (s : text) : res text :=
  let! s := rep1 s
    (lit "	if (st->fss_multi_mdt) {
")
    (lit "	if (st->fss_multi_mdt && !st->fss_as_recorded) {
")
    "as_recorded" in
  let! s := rep1 s
    (lit "	if (st.fss_unresolved != 0)
		llapi_error(LLAPI_MSG_WARN | LLAPI_MSG_NO_ERRNO, 0,
			    \q%llu objects have no pathname and are named by FID\q,
			    (unsigned long long)st.fss_unresolved);")
    (lit "	/* --changelog reads the whole filesystem's log, fileset or not */
	if (st.fss_unresolved != 0)
		llapi_error(LLAPI_MSG_WARN | LLAPI_MSG_NO_ERRNO, 0,
			    \q%llu objects have no pathname%s and are named by FID\q,
			    (unsigned long long)st.fss_unresolved,
			    st.fss_fileset && st.fss_as_recorded ?
			    \q or are outside this fileset\q : \q\q);")
    "unresolved" in
  rep1 s
    (lit "	if (param->fp_max_depth != (unsigned int)-1 ||
	    param->fp_min_depth != 0) {
		llapi_error(LLAPI_MSG_ERROR | LLAPI_MSG_NO_ERRNO, -ENOTSUP,
			    \q--maxdepth and --mindepth describe a walk")
    (lit "	/* 0 too, as find_device_supported(): llapi_find_param_alloc() */
	if ((param->fp_max_depth != (unsigned int)-1 &&
	     param->fp_max_depth != 0) || param->fp_min_depth != 0) {
		llapi_error(LLAPI_MSG_ERROR | LLAPI_MSG_NO_ERRNO, -ENOTSUP,
			    \q--maxdepth and --mindepth describe a walk")
    "depth".

Definition r1005_e_sinceman (s : text) : res text :=
  let first := (lit ".TP 15
.B -ENOTSUP
.I fp_thread_count
is above 1. This source is single-threaded, and the count is tested as soon
as the arguments are well formed \\(em before
.I path
is resolved or any MDT is read \\(em so a
.B find_param
that a walk left a thread count in is refused rather than run on one thread.
") in
  let! s := rep1 s
    first
    (lit "")
    "enotsup1" in
  let old := (lit "Refused before the search runs rather than answered from a record that
cannot settle it.
") in
  rep1 s
    old
    (old ++ (lit "The predicates are named by their
.BR lfs-find (1)
options; each is a
.B find_param
field. Also
.I fp_thread_count
above 1. This source is single-threaded, and the count is tested as soon
as the arguments are well formed \\(em before
.I path
is resolved or any MDT is read \\(em so a
.B find_param
that a walk left a thread count in is refused rather than run on one thread.
"))
    "enotsup2".

Definition r1005_e_cookie (s : text) : res text :=
  let! s := rep1 s
    (lit "			 * by running the command twice.  A cookie written
			 * before this carried no root and is accepted.
")
    (lit "			 * by running the command twice.  A header with no
			 * root is refused the same way: find_cookie_write()
			 * always writes one.
")
    "noroot comment" in
  let! s := rep1 s
    (lit "			if (oldroot != NULL &&
			    (oldlen != strlen(rootesc) ||
			     strncmp(oldroot, rootesc, oldlen) != 0)) {")
    (lit "			if (oldroot == NULL) {
				llapi_error(LLAPI_MSG_ERROR |
					    LLAPI_MSG_NO_ERRNO, -EINVAL,
					    \q'%s' names no search root in its header\q,
					    file);
				fclose(fp);
				return -EINVAL;
			}
			if (oldlen != strlen(rootesc) ||
			    strncmp(oldroot, rootesc, oldlen) != 0) {")
    "noroot" in
  rep1 s
    (lit "		 * which is the failure the stale check exists to catch.  The
		 * span also refuses the sign %x would otherwise take:
		 * \q-MDT-1\q read back as 0xffffffff, an out-of-bounds write
		 * rather than an anchor to ignore.
")
    (lit "		 * which is the failure the stale check exists to catch.  The
		 * span also refuses a sign, which %x would take.
")
    "sign".

Definition r1005_RACE : text :=
  (lit "Nor is one record lost to a race in the MDT: records are written
in parallel, so a run that reaches the end of a busy log can read record N+1
before N is complete, and the next run starts past N. Keep
.I FILE
outside the searched tree; the run writes it, so inside the tree it reports
itself on every run. ").

Definition r1005_e_findman (s : text) : res text :=
  if negb (py_in (lit "not caught. To accept") s) then
    rep1 s
    (lit "refused instead. To accept")
    (((lit "refused instead. ") ++ r1005_RACE) ++ (lit "To accept"))
    "findman 68419"
  else
    rep1 s
    (lit "so a purge that reaches a later MDT while an earlier one is being read is
not caught. To accept")
    (lit "so a purge that reaches a later MDT while an earlier one is being read is
not caught. Nor is one record lost to a race in the MDT: records are written
in parallel, so a run that reaches the end of a busy log can read record N+1
before N is complete, and the next run starts past N. Keep
.I FILE
outside the searched tree; the run writes it, so inside the tree it reports
itself on every run. To accept")
    "findman".

Definition r1005_e_test (s : text) : res text :=
  rep1 s
    (lit "	# A line the cookie is never written with.  \q%x\q takes a sign, so a
	# negative MDT index read back as an unsigned one is a write past the
	# end of the anchor array rather than an anchor to ignore: this run
	# either ignores the line or dies.
	stack_trap \qrm -f $ck.bad $ck.other\q
	cat > $ck.bad <<-EOF
		# lfs find --since-cookie for $FSNAME
		$FSNAME-MDT-1 42
		$FSNAME-MDT-800 42
	EOF
	$LFS find $DIR/$tdir --since-cookie $ck.bad -type f > /dev/null ||
		error \qa negative MDT index should be ignored\q
")
    (lit "	# Lines the cookie is never written with: a malformed MDT name is
	# ignored, not read as an anchor.
	stack_trap \qrm -f $ck.bad $ck.other $ck.noroot\q
	{ head -n 1 $ck; echo \q$FSNAME-MDT-1 42\q; echo \q$FSNAME-MDT-800 42\q; } \\
		> $ck.bad
	$LFS find $DIR/$tdir --since-cookie $ck.bad -type f > /dev/null ||
		error \qa malformed MDT name should be ignored\q

	# the run always writes its root, so a header without one is refused
	cat > $ck.noroot <<-EOF
		# lfs find --since-cookie for $FSNAME
		$FSNAME-MDT0000 1
	EOF
	$LFS find $DIR/$tdir --since-cookie $ck.noroot -type f &> /dev/null &&
		error \qa cookie with no root should be refused\q
")
    "test".

Definition r1005_EDITS : list edit_fn := [
  EditFn 3 r1005_PF "e_targets" r1005_e_targets;
  EditFn 3 r1005_PF "e_caller" r1005_e_caller;
  EditFn 7 r1005_CL "e_accept" r1005_e_accept;
  EditFn 8 r1005_SC "e_scan" r1005_e_scan;
  EditFn 8 "Documentation/man3/llapi_scan_fid.3" "e_fidman" r1005_e_fidman;
  EditFn 9 r1005_PF "e_since" r1005_e_since;
  EditFn 10 r1005_PF "e_changelog" r1005_e_changelog;
  EditFn 10 "Documentation/man3/llapi_find_since.3" "e_sinceman" r1005_e_sinceman;
  EditFn 11 r1005_PF "e_cookie" r1005_e_cookie;
  EditFn 11 "Documentation/man1/lfs-find.1" "e_findman" r1005_e_findman;
  EditFn 12 "lustre/tests/sanity.sh" "e_test" r1005_e_test
].

Definition r1005_m_68415 (msg : text) : res text :=
  let! msg := wsub msg
    (lit "blocks or mtime was asked for;")
    (lit "blocks or a time was asked for;")
    "m1" in
  wsub msg
    (lit "A regular file's size and mtime are strict only when the OSTs were glimpsed, which happens when the demand mask is 0 or names a size, blocks or an mtime. Otherwise the size is the MDT's lazy one, which LLAPI_SCAN_LAZY_SIZE and LLAPI_SCAN_LAZY_BLOCKS say, and the mtime is left out.")
    (refill (lit "A regular file's size and times are strict only when the OSTs were glimpsed, which happens when the demand mask is 0 or names a size, blocks or a time. Otherwise the size is the MDT's lazy one, which LLAPI_SCAN_LAZY_SIZE and LLAPI_SCAN_LAZY_BLOCKS say, and the times are left out."))
    "m2".

Definition r1005_m_68420 (msg : text) : res text :=
  wsub msg
    (lit "160Ac also feeds the cookie two files it is never written with: one whose MDT index is negative, and one whose header names another filesystem. Neither is a bad anchor to ignore -- the first indexes the anchor array far past its end, and the second is a whole-log rescan of this filesystem plus the loss of the other one's anchors -- so one has to be ignored and the other refused, and the file it refuses has to still be there afterwards.")
    (refill (lit "160Ac also feeds the cookie three files it is never written with. One has a malformed MDT name, which is ignored. One names another filesystem in its header; read, it would rescan this filesystem's whole log and drop the other one's anchors, so it is refused, and the file has to still be there afterwards. One has no search root in its header, and is refused too."))
    "m3".

Definition r1005_MSG (i : nat) : option (text → res text) :=
  if i =? 7 then Some r1005_m_68415 else
  if i =? 12 then Some r1005_m_68420 else
  None.
