(* ===== verification/Rebuild5Facts.v ===== *)
(** Facts about a-1005: what [wsub] finds, that newlines at the end of a message do not
    matter to it, and how a dry and a real turn of [build] go together. *)
From S2P Require Import Prelude PyStr Stable PyParse PyRe R3Engine Git Drive Rebuild RebuildFacts Rebuild5.

(** ** Words between white space *)

(** A field of [str.split()]: not empty, and without white space. *)
Definition is_field (w : text) : bool :=
  negb (bool_decide (w = [])) && forallb (λ c, negb (is_space c)) w.

Lemma is_field_spec w : is_field w = true ↔ w ≠ [] ∧ forallb (λ c, negb (is_space c)) w = true.
Proof. unfold is_field. by rewrite andb_true_iff, negb_true_iff, bool_decide_eq_false. Qed.

Lemma split_ws_fields s word w :
  forallb (λ c, negb (is_space c)) word = true → w ∈ split_ws s word → is_field w = true.
Proof.
  assert (∀ v, v ≠ [] → forallb (λ c, negb (is_space c)) v = true → is_field (rev v) = true) as Hrev.
  { intros v Hne Hv. apply is_field_spec. split.
    - intros E. apply Hne. apply (f_equal (@rev ascii)) in E. by rewrite rev_involutive in E.
    - rewrite forallb_forall in Hv |- *. intros x Hx. apply Hv. by apply in_rev. }
  revert word. induction s as [|c s IH]; intros word Hw; cbn [split_ws].
  - destruct word; [intros H; by apply not_elem_of_nil in H|].
    intros ->%list_elem_of_singleton. by apply Hrev.
  - destruct (is_space c) eqn:Ec.
    + destruct word; [by apply IH|]. intros [->|Hin]%elem_of_cons; [by apply Hrev|by apply (IH [])].
    + apply IH. cbn. by rewrite Ec, Hw.
Qed.

Lemma py_split_fields s w : w ∈ py_split s → is_field w = true.
Proof. by apply split_ws_fields. Qed.

Lemma split_ws_space s : py_split (py_lstrip s) = py_split s.
Proof.
  unfold py_split. induction s as [|c s IH]; [done|]. cbn. destruct (is_space c) eqn:E; [done|].
  cbn. by rewrite E.
Qed.

Lemma split_field w s :
  is_field w = true → py_split (w ++ s) =
  match s with [] => [w] | c :: s' => if is_space c then w :: py_split s' else py_split (w ++ s) end.
Proof.
  intros [Hne Hw]%is_field_spec.
  assert (∀ word, split_ws (w ++ s) word = split_ws s (rev w ++ word)) as Hrun.
  { clear Hne. induction w as [|c w IH]; intros word; [done|]. cbn in Hw |- *.
    apply andb_true_iff in Hw as [Hc Hw]. apply negb_true_iff in Hc. rewrite Hc.
    rewrite IH by done. by rewrite <-app_assoc. }
  destruct s as [|c s]; [|destruct (is_space c) eqn:E; [|done]]; unfold py_split;
    rewrite Hrun, app_nil_r; cbn; rewrite ?E.
  all: destruct (rev w) eqn:Er; [apply (f_equal (@rev ascii)) in Er; by rewrite rev_involutive in Er|].
  all: rewrite <-Er, rev_involutive; done.
Qed.

(** ** The pattern *)

Section match_words.
Implicit Types (ws : list text) (s r new : text).

(** A match is a piece with the same fields. *)
Lemma match_words_spec ws s r :
  ws ≠ [] → Forall (λ w, is_field w = true) ws → match_words ws s = Some r →
  ∃ m, s = m ++ r ∧ py_split m = ws ∧ m ≠ [].
Proof.
  revert s. induction ws as [|w ws IH]; intros s Hne Hws; [done|]. apply Forall_cons in Hws as [Hw Hws].
  cbn [match_words]. destruct (strip_prefix w s) as [s'|] eqn:E; [|done].
  apply strip_prefix_Some in E as ->. destruct ws as [|w' ws].
  { intros [= ->]. exists w. split; [done|]. rewrite <-(app_nil_r w) at 1.
    rewrite split_field by done. split; [done|]. by apply is_field_spec in Hw as [? _]. }
  destruct s' as [|c s']; [done|]. destruct (is_space c) eqn:Ec; [|done].
  intros Hm. destruct (IH _ ltac:(done) Hws Hm) as (m & Hs & Hsp & _).
  assert (∃ g, s' = g ++ py_lstrip s' ∧ forallb is_space g = true) as (g & Hg & Hgs).
  { clear. induction s' as [|c s IH]; [by exists []|]. cbn. destruct (is_space c) eqn:E.
    - destruct IH as (g & Hg & Hgs). exists (c :: g). cbn. by rewrite E, <-Hg.
    - by exists []. }
  exists (w ++ c :: g ++ m). split; [|split].
  - rewrite <-!app_assoc. cbn. rewrite <-app_assoc, <-Hs, <-Hg. done.
  - rewrite split_field by done. rewrite Ec. f_equal. rewrite <-Hsp.
    clear -Hgs. induction g as [|d g IH]; [done|]. cbn in Hgs. apply andb_true_iff in Hgs as [Hd Hg].
    unfold py_split. cbn. rewrite Hd. by apply IH.
  - by destruct w.
Qed.

Lemma lstrip_length s : length (py_lstrip s) ≤ length s.
Proof. induction s as [|c s IH]; [done|]. cbn. destruct (is_space c); cbn; lia. Qed.

Lemma match_words_length ws s r :
  ws ≠ [] → Forall (λ w, is_field w = true) ws → match_words ws s = Some r → length r < length s.
Proof.
  intros ?? (m & -> & _ & Hm)%match_words_spec; [|done..]. rewrite length_app.
  destruct m; [done|cbn; lia].
Qed.

(** [re.subn] with no match, and with one. *)
Lemma subn_skip ws new s k : k ≤ length s → subn_words ws new k s = subn_words ws new 0 (drop k s).
Proof.
  revert k. induction s as [|c s IH]; intros [|k] Hk; try done. cbn [subn_words drop].
  apply IH. cbn in Hk. lia.
Qed.

Lemma subn_hit ws new s r :
  ws ≠ [] → Forall (λ w, is_field w = true) ws → match_words ws s = Some r →
  subn_words ws new 0 s = (new ++ (subn_words ws new 0 r).1, S (subn_words ws new 0 r).2).
Proof.
  intros Hne Hws Hm. pose proof (match_words_length _ _ _ Hne Hws Hm) as Hl.
  destruct (match_words_spec _ _ _ Hne Hws Hm) as (m & Hs & _ & _).
  destruct s as [|c s]; [cbn in Hl; lia|]. cbn [subn_words]. rewrite Hm.
  rewrite subn_skip by (cbn; lia).
  assert (drop (length (c :: s) - length r - 1) s = r) as ->.
  { destruct m as [|a m]; [cbn in Hs; rewrite <-Hs in Hl; lia|].
    injection Hs as _ ->. cbn [length]. rewrite length_app.
    replace (S (length m + length r) - length r - 1) with (length m) by lia.
    by rewrite drop_app_length. }
  by destruct (subn_words ws new 0 r).
Qed.

Lemma subn_zero ws new s :
  (subn_words ws new 0 s).2 = 0 → (subn_words ws new 0 s).1 = s.
Proof.
  induction s as [|c s IH]; [done|]. cbn [subn_words].
  destruct (match_words ws (c :: s)) as [r|].
  - clear IH. destruct (subn_words _ _ _ s). done.
  - destruct (subn_words ws new 0 s) as [t n] eqn:E. cbn in *. intros ->. by rewrite IH.
Qed.

Lemma subn_one ws new s :
  ws ≠ [] → Forall (λ w, is_field w = true) ws → (subn_words ws new 0 s).2 = 1 →
  ∃ x m y, s = x ++ m ++ y ∧ py_split m = ws ∧ (subn_words ws new 0 s).1 = x ++ new ++ y.
Proof.
  intros Hne Hws. induction s as [|c s IH]; [done|].
  destruct (match_words ws (c :: s)) as [r|] eqn:E.
  - rewrite (subn_hit _ _ _ _ Hne Hws E). cbn [fst snd]. intros Hn.
    destruct (match_words_spec _ _ _ Hne Hws E) as (m & Hs & Hm & _).
    exists [], m, r. cbn. rewrite subn_zero by lia. done.
  - cbn [subn_words]. rewrite E. destruct (subn_words ws new 0 s) as [t n]. cbn in *.
    intros (x & m & y & -> & Hm & ->)%IH. by exists (c :: x), m, y.
Qed.
End match_words.

(** ** Newlines at the end *)

Abbreviation nls k := (replicate k nl).

Lemma is_space_nl : is_space nl = true.
Proof. done. Qed.

Lemma strip_prefix_nls w s k :
  is_field w = true → strip_prefix w (s ++ nls k) = (λ r, r ++ nls k) <$> strip_prefix w s.
Proof.
  intros [_ Hw]%is_field_spec. revert s. induction w as [|a w IH]; intros s; [done|].
  cbn in Hw. apply andb_true_iff in Hw as [Ha Hw]. apply negb_true_iff in Ha.
  destruct s as [|c s].
  - destruct k as [|k]; [done|]. cbn. destruct (Ascii.eqb_spec a nl) as [->|]; [|done].
    by rewrite is_space_nl in Ha.
  - cbn. destruct (Ascii.eqb a c); [by apply IH|done].
Qed.

Lemma lstrip_nls s k :
  py_lstrip (s ++ nls k) = match py_lstrip s with [] => [] | r => r ++ nls k end.
Proof.
  induction s as [|c s IH].
  - cbn [app py_lstrip]. induction k as [|k IHk]; [done|]. cbn. by rewrite IHk.
  - cbn. destruct (is_space c); [done|]. done.
Qed.

Lemma match_words_nls ws s k :
  ws ≠ [] → Forall (λ w, is_field w = true) ws →
  match_words ws (s ++ nls k) = (λ r, r ++ nls k) <$> match_words ws s.
Proof.
  revert s. induction ws as [|w ws IH]; intros s Hne Hws; [done|]. apply Forall_cons in Hws as [Hw Hws].
  cbn [match_words]. rewrite strip_prefix_nls by done.
  destruct (strip_prefix w s) as [r|]; [|done]. cbn [fmap option_fmap option_map].
  destruct ws as [|w' ws]; [done|].
  assert (match_words (w' :: ws) [] = None) as Hnil.
  { apply Forall_cons in Hws as [Hw' _]. apply is_field_spec in Hw' as [Hn _].
    cbn [match_words]. by destruct w'. }
  destruct r as [|c r].
  - destruct k as [|k]; [done|]. cbn [app replicate]. rewrite is_space_nl.
    assert (py_lstrip (nls k) = []) as -> by (apply (lstrip_nls [] k)). by rewrite Hnil.
  - cbn [app]. destruct (is_space c); [|done]. rewrite lstrip_nls.
    destruct (py_lstrip r) as [|d r'] eqn:E; [by rewrite Hnil|]. by rewrite (IH (d :: r')).
Qed.

Lemma subn_nls ws new s k j :
  ws ≠ [] → Forall (λ w, is_field w = true) ws → j ≤ length s →
  subn_words ws new j (s ++ nls k) =
  ((subn_words ws new j s).1 ++ nls k, (subn_words ws new j s).2).
Proof.
  intros Hne Hws. revert j. induction s as [|c s IH]; intros j Hj.
  { assert (j = 0) as -> by (cbn in Hj; lia). cbn. clear Hj.
    induction k as [|k IHk]; [done|]. cbn [replicate subn_words].
    pose proof (match_words_nls ws [] (S k) Hne Hws) as Hm. cbn [app replicate] in Hm.
    assert (match_words ws [] = None) as Hnil.
    { destruct (match_words ws []) as [r|] eqn:E; [|done].
      apply match_words_length in E; [|done..]. cbn in E. lia. }
    rewrite Hm, Hnil. cbn. by rewrite IHk. }
  cbn [app subn_words]. destruct j as [|j]; [|apply IH; cbn in Hj; lia].
  rewrite app_comm_cons, match_words_nls by done.
  destruct (match_words ws (c :: s)) as [r|] eqn:E; cbn [fmap option_fmap option_map].
  - pose proof (match_words_length _ _ _ Hne Hws E) as Hl. cbn in Hl.
    rewrite !length_app.
    replace (length (c :: s) + length (nls k) - (length r + length (nls k)) - 1)
      with (length (c :: s) - length r - 1) by (cbn; lia).
    rewrite IH by (cbn; lia). destruct (subn_words _ _ _ s). cbn. by rewrite app_assoc.
  - rewrite IH by lia. by destruct (subn_words _ _ _ s).
Qed.

(** A rewriter that does not look at the newlines at the end. *)
Definition blind (f : text → res text) : Prop :=
  ∀ s k, f (s ++ nls k) = (let! t := f s in Ok (t ++ nls k)).

Lemma wsub_blind old new what : py_split old ≠ [] → blind (λ m, wsub m old new what).
Proof.
  intros Hne s k. unfold wsub. rewrite subn_nls; [|done| |lia].
  2: { apply Forall_forall. intros w. apply py_split_fields. }
  destruct (subn_words (py_split old) new 0 s) as [m n]. cbn [fst snd].
  by destruct (negb (n =? 1)).
Qed.

Lemma blind_bind f g : blind f → blind g → blind (λ m, let! m := f m in g m).
Proof. intros Hf Hg s k. rewrite Hf. destruct (f s) as [t|x]; [|done]. cbn. apply Hg. Qed.
