(* ===== verification/Rebuild5Theorems.v ===== *)
(** The theorems about a-1005: what a dry run tells of the real one, whose exceptions are
    not all caught, and what [wsub] replaces. *)
From S2P Require Import Prelude PyStr Stable PyParse PyRe R3Engine Git Drive Rebuild RebuildFacts RebuildTheorems.
From S2P Require Import Rebuild5 R1005Table Rebuild5Facts.

(** The first failure of a message among the lines printed. *)
Definition first_msg {sha} (out : list (line sha)) : option exn :=
  head (omap (λ l, match l with MsgFailed _ x => Some x | _ => None end) out).

Lemma first_msg_edits {sha} (es : list exn) i (out : list (line sha)) :
  first_msg ((EditFailed i <$> es) ++ out) = first_msg out.
Proof. unfold first_msg. rewrite omap_app. induction es as [|e es IH]; [done|]. done. Qed.

Lemma first_msg_app {sha} (a b : list (line sha)) :
  first_msg a = None → first_msg (a ++ b) = first_msg b.
Proof.
  unfold first_msg. rewrite omap_app. destruct (omap _ a); [done|]. done.
Qed.

Lemma filter_twice {A} (f : A → bool) l : List.filter f (List.filter f l) = List.filter f l.
Proof.
  induction l as [|x l IH]; [done|]. cbn. destruct (f x) eqn:E; [|done]. cbn. by rewrite E, IH.
Qed.

Lemma rstrip_nl_split s : ∃ k, s = rstrip_nl s ++ nls k.
Proof.
  unfold rstrip_nl. assert (∃ k, rev s = nls k ++ lstrip_nl (rev s)) as [k Hk].
  { generalize (rev s). clear s. induction l as [|c l [k IH]]; [by exists 0|]. cbn.
    destruct (Ascii.eqb_spec c nl) as [->|]; [exists (S k); cbn; by rewrite <-IH|by exists 0]. }
  exists k. rewrite <-(rev_involutive s) at 1. rewrite Hk at 1. rewrite rev_app_distr. f_equal.
  clear. induction k as [|k IH]; [done|]. cbn. rewrite IH. clear.
  induction k as [|k IH]; [done|]. cbn. by rewrite IH.
Qed.

Section build5.
Context {sha repo : Type} `{EqDecision sha} `{GitLaws sha repo}.
Context (rev_parse : string → option sha) (ident : repo → string * string).
Context (BASE : string) (STACK : list string) (EDITS : list edit_fn)
        (MSG : nat → option (text → res text)).
(** The rewriters do not look at the newlines at the end of a message. *)
Context (HMSG : ∀ i f, MSG i = Some f → blind f).
Implicit Types (r : repo) (h n parent base : sha) (c : commit sha) (out : list (line sha)).

Abbreviation build5_one := (build5_one rev_parse ident EDITS MSG).
Abbreviation build5_loop := (build5_loop rev_parse ident EDITS MSG).
Abbreviation build5 := (build5 rev_parse ident BASE STACK EDITS MSG).

(** What the dry run sees of a message is what the real run meets. *)
Lemma dry_real_msg i c :
  match dry_msg5 MSG i c with
  | [] => ∃ m, real_msg5 MSG i c = Ok m
  | x :: _ => real_msg5 MSG i c = Raise x ∧ is_Some (MSG i)
  end.
Proof.
  unfold dry_msg5, real_msg5. destruct (MSG i) as [f|] eqn:E; [|by eexists].
  destruct (rstrip_nl_split (g_log_B c)) as [k Hk]. pose proof (HMSG i f E) as Hb.
  unfold one_nl. rewrite (Hb _ 1 : f (_ ++ [nl]) = _).
  assert (f (g_log_B c) = (let! t := f (rstrip_nl (g_log_B c)) in Ok (t ++ nls k))) as ->
    by (rewrite Hk at 1; apply Hb).
  destruct (f (rstrip_nl (g_log_B c))); cbn; [by eexists|by eauto].
Qed.

(** [n] is what commit [i] of the stack, [h], becomes on top of [parent]. *)
Definition rebuilt5 r parent i h n : Prop :=
  ∃ c nc files errs,
    g_show r h = Some c ∧ g_show r n = Some nc ∧
    edit_files5 (c_tree c) i EDITS ∅ [] = Ok (files, errs) ∧
    c_parent nc = Some parent ∧ c_tree nc = files ∪ c_tree c ∧
    (idle5 MSG files i = true ∧ n = h ∨
     ¬ (idle5 MSG files i = true ∧ c_parent c = Some parent) ∧
     real_msg5 MSG i c = Ok (c_msg nc) ∧
     m_an (c_meta nc) = m_an (c_meta c) ∧ m_ae (c_meta nc) = m_ae (c_meta c) ∧
     m_ad (c_meta nc) = m_ad (c_meta c)).

Lemma rebuilt5_later r r' parent i h n :
  keeps r r' → rebuilt5 r parent i h n → rebuilt5 r' parent i h n.
Proof.
  intros Hk (c & nc & files & errs & Hc & Hnc & ?). exists c, nc, files, errs.
  split; [by apply Hk|]. split; [by apply Hk|done].
Qed.

Lemma make5_ok r parent i h c files errs out m :
  g_ok r → is_Some (g_show r parent) → g_show r h = Some c →
  edit_files5 (c_tree c) i EDITS ∅ [] = Ok (files, errs) → real_msg5 MSG i c = Ok m →
  ¬ (idle5 MSG files i = true ∧ c_parent c = Some parent) →
  ∃ r2 n, make5 ident MSG r parent i h c files out = (r2, Ok (n, out ++ [Made i h n])) ∧
    g_ok r2 ∧ keeps r r2 ∧ rebuilt5 r2 parent i h n.
Proof.
  intros Hok Hpar Hc He Hm Hn. unfold make5. rewrite Hm.
  destruct (g_commit_tree _ _) as [r2 n] eqn:Hct. exists r2, n.
  assert (keeps r r2) as Hk by (intros x d; by apply (commit_tree_keep _ _ _ _ x d Hct)).
  split; [done|]. split; [by eapply (commit_tree_ok r _ parent); [| |exact Hpar|exact Hct]|].
  split; [done|]. pose proof (commit_tree_read _ _ _ _ Hct) as Hr.
  eexists c, _, files, errs. split; [by apply Hk|]. split; [exact Hr|].
  do 3 (split; [done|]). right. done.
Qed.

(** One turn, dry and real. *)
Lemma build5_turn r parent i name h c p :
  g_ok r → is_Some (g_show r parent) →
  rev_parse name = Some h → g_show r h = Some c → c_parent c = Some p →
  match edit_files5 (c_tree c) i EDITS ∅ [] with
  | Raise x => build5_one false r parent i name = (r, Raise x)
  | Ok (files, errs) =>
      match dry_msg5 MSG i c with
      | [] => ∃ r2 n o2, build5_one false r parent i name =
            (r2, Ok (n, (EditFailed i <$> errs) ++ o2)) ∧
          g_ok r2 ∧ keeps r r2 ∧ List.filter failure o2 = [] ∧ news o2 = [n] ∧
          rebuilt5 r2 parent i h n
      | x :: _ => build5_one false r parent i name = (r, Raise x)
      end
  end.
Proof.
  intros Hok Hpar Hn Hc Hp. unfold Rebuild5.build5_one. rewrite Hn, Hc, Hp.
  destruct (edit_files5 (c_tree c) i EDITS ∅ []) as [[files errs]|x] eqn:He; [|done].
  pose proof (dry_real_msg i c) as Hm. destruct (dry_msg5 MSG i c) as [|x xs].
  - destruct Hm as [m Hm].
    assert (¬ (idle5 MSG files i = true ∧ c_parent c = Some parent) → ∃ r2 n o2,
      make5 ident MSG r parent i h c files (EditFailed i <$> errs) =
        (r2, Ok (n, (EditFailed i <$> errs) ++ o2)) ∧ g_ok r2 ∧ keeps r r2 ∧
      List.filter failure o2 = [] ∧ news o2 = [n] ∧ rebuilt5 r2 parent i h n) as Hmake.
    { intros Hi. destruct (make5_ok r parent i h c files errs (EditFailed i <$> errs) m)
        as (r2 & n & ? & ? & ? & ?); try done. by exists r2, n, [Made i h n]. }
    destruct (idle5 MSG files i) eqn:Ei.
    + case_bool_decide as Hpp; [|apply Hmake; rewrite Hp; naive_solver]. subst p.
      exists r, h, [Kept i h]. do 5 (split; [done|]). exists c, c, files, errs.
      do 4 (split; [done|]). split; [|by left]. unfold idle5 in Ei. bools.
      apply bool_decide_eq_true in H1 as ->. by rewrite (left_id_L ∅ (∪)).
    + apply Hmake. by intros [? _].
  - destruct Hm as (Hm & f & Hf). unfold idle5. rewrite Hf, andb_false_r.
    unfold make5. by rewrite Hm.
Qed.

Lemma build5_dry r parent i name h c :
  rev_parse name = Some h → g_show r h = Some c →
  build5_one true r parent i name =
  match edit_files5 (c_tree c) i EDITS ∅ [] with
  | Raise x => (r, Raise x)
  | Ok (files, errs) =>
      (r, Ok (parent, (EditFailed i <$> errs) ++ (MsgFailed i <$> dry_msg5 MSG i c)))
  end.
Proof.
  intros Hn Hc. unfold Rebuild5.build5_one. rewrite Hn, Hc.
  by destruct (edit_files5 _ _ _ _ _) as [[files errs]|x].
Qed.

Fixpoint rebuilt5_all r parent (i : nat) (l ns : list sha) : Prop :=
  match l, ns with
  | [], [] => True
  | h :: l', n :: ns' => rebuilt5 r parent i h n ∧ rebuilt5_all r n (S i) l' ns'
  | _, _ => False
  end.

Lemma rebuilt5_chain r parent i l ns : rebuilt5_all r parent i l ns → chain r parent ns.
Proof.
  revert parent i ns. induction l as [|h l IH]; intros parent i [|n ns]; simpl; try done.
  intros [(c & nc & files & errs & _ & ? & _ & ? & _) ?]. split; [eauto|by eapply IH].
Qed.

(** The dry run of the loop, and the real run from a repository that has grown. *)
Lemma build5_lockstep stack l r r0 parent parent0 i out out0 :
  g_ok r → is_Some (g_show r parent) → keeps r0 r → resolves rev_parse r0 stack l →
  match build5_loop true r0 parent0 i stack out0 with
  | (r1, Raise x) => r1 = r0 ∧ ∃ r2 x2, build5_loop false r parent i stack out = (r2, Raise x2) ∧
      keeps r r2
  | (r1, Ok (p1, o1)) =>
      r1 = r0 ∧ p1 = parent0 ∧ ∃ more, o1 = out0 ++ more ∧
      match first_msg more with
      | Some x => ∃ r2, build5_loop false r parent i stack out = (r2, Raise x) ∧ keeps r r2
      | None => ∃ r2 ns made,
          build5_loop false r parent i stack out = (r2, Ok (tip_of parent ns, out ++ made)) ∧
          g_ok r2 ∧ keeps r r2 ∧ List.filter failure made = more ∧ news made = ns ∧
          rebuilt5_all r2 parent i l ns
      end
  end.
Proof.
  intros Hok Hpar Hk0 Hres. revert r parent i out out0 Hok Hpar Hk0.
  induction Hres as [|name h stack l (Hn & c & p & Hc & Hp) Hres IH];
    intros r parent i out out0 Hok Hpar Hk0; cbn [Rebuild5.build5_loop].
  { do 2 (split; [done|]). exists []. rewrite app_nil_r. split; [done|]. cbn.
    exists r, [], []. by rewrite app_nil_r. }
  rewrite (build5_dry r0 parent0 i name h c Hn Hc).
  pose proof (build5_turn r parent i name h c p Hok Hpar Hn (Hk0 _ _ Hc) Hp) as H1.
  destruct (edit_files5 (c_tree c) i EDITS ∅ []) as [[files errs]|x].
  2: { rewrite H1. split; [done|]. by exists r, x. }
  destruct (dry_msg5 MSG i c) as [|x xs] eqn:Ed.
  - destruct H1 as (r2 & n & o2 & -> & Hok2 & Hk2 & Hf2 & Hn2 & Hreb). cbn [fmap list_fmap].
    rewrite app_nil_r.
    assert (is_Some (g_show r2 n)) as Hsn by (destruct Hreb as (? & ? & ? & ? & _ & ? & _); eauto).
    specialize (IH r2 n (S i) (out ++ (EditFailed i <$> errs) ++ o2) (out0 ++ (EditFailed i <$> errs))
      Hok2 Hsn ltac:(by etrans)).
    destruct (build5_loop true r0 parent0 (S i) stack _) as [r3 [[p3 o3]|x]].
    2: { destruct IH as (-> & r4 & x2 & -> & Hk4). split; [done|]. exists r4, x2.
         split; [done|by etrans]. }
    destruct IH as (-> & -> & more & -> & IH). do 2 (split; [done|]).
    exists ((EditFailed i <$> errs) ++ more). split; [by rewrite app_assoc|].
    rewrite first_msg_edits. destruct (first_msg more) as [x|].
    { destruct IH as (r4 & -> & Hk4). exists r4. split; [done|by etrans]. }
    destruct IH as (r4 & ns & made & -> & Hok4 & Hk4 & Hfm & Hns & Hall).
    exists r4, (n :: ns), ((EditFailed i <$> errs) ++ o2 ++ made). split.
    { rewrite <-!app_assoc. do 2 f_equal. unfold tip_of. rewrite last_cons. by destruct (last ns). }
    split; [done|]. split; [by etrans|].
    pose proof (failures_failing (sha := sha) errs [] i) as Hfe.
    pose proof (news_failures (sha := sha) errs [] i) as Hne. cbn [fmap list_fmap] in Hfe, Hne.
    rewrite app_nil_r in Hfe, Hne.
    rewrite !List.filter_app, Hfe, Hf2, Hfm. split; [done|]. split.
    { unfold news in *. by rewrite !omap_app, Hne, Hn2, Hns. }
    split; [by eapply rebuilt5_later|done].
  - rewrite H1. cbn [fmap list_fmap].
    set (o := (EditFailed i <$> errs) ++ MsgFailed i x :: (MsgFailed i <$> xs)).
    assert (first_msg o = Some x) as Ho by (unfold o; by rewrite first_msg_edits).
    assert (∃ r3, (∃ q, build5_loop true r0 parent0 (S i) stack (out0 ++ o) = (r3, Raise q)) ∨
      ∃ more, build5_loop true r0 parent0 (S i) stack (out0 ++ o) =
        (r3, Ok (parent0, (out0 ++ o) ++ more))) as [r3 Hd].
    { specialize (IH r parent (S i) out (out0 ++ o) Hok Hpar Hk0).
      destruct (build5_loop true r0 parent0 (S i) stack _) as [r3 [[p3 o3]|q]]; exists r3;
        [right|left; by exists q]. destruct IH as (_ & -> & more & -> & _). by exists more. }
    specialize (IH r parent (S i) out (out0 ++ o) Hok Hpar Hk0).
    destruct Hd as [[q Hd]|[more Hd]]; rewrite Hd in IH |- *.
    + destruct IH as (-> & _). split; [done|]. by exists r, x.
    + destruct IH as (-> & _). do 2 (split; [done|]). exists (o ++ more).
      split; [by rewrite app_assoc|].
      assert (first_msg (o ++ more) = Some x) as ->; [|by exists r].
      unfold first_msg in *. rewrite omap_app. by destruct (omap _ o).
Qed.
End build5.

Lemma r1005_MSG_blind i f : r1005_MSG i = Some f → blind f.
Proof.
  unfold r1005_MSG. destruct (i =? 7); [|destruct (i =? 12); [|done]]; intros [= <-].
  - apply (blind_bind (λ m, wsub m _ _ _) (λ m, wsub m _ _ _)); apply wsub_blind;
      vm_compute; discriminate.
  - apply wsub_blind. vm_compute. discriminate.
Qed.

Section theorems.
Context {sha repo : Type} `{EqDecision sha} `{GitLaws sha repo}.
Context (rev_parse : string → option sha) (ident : repo → string * string).
Context (BASE : string) (STACK : list string) (EDITS : list edit_fn).

Abbreviation build5 := (build5 rev_parse ident BASE STACK EDITS r1005_MSG).

(** C9: A dry run of a-1005 tells how the real run ends, with the rewriters of messages the
    script has.  It changes nothing.  If it reports no failed message the real run
    returns, with the same failures of edits, a line of commits on the base that ends in
    the tip, and each commit of the stack with its edits, its rewritten message and its
    author.  If it reports one, the real run stops with the exception of the first, and
    if it stops itself the real run stops too; commits made by then stay in the
    repository, and nothing is lost. *)
Theorem r1005_dry_run r base l :
  stack_at rev_parse BASE STACK r base l →
  match build5 true r with
  | (r1, Raise x) => r1 = r ∧ ∃ r2 x2, build5 false r = (r2, Raise x2) ∧ keeps r r2
  | (r1, Ok (fail, _, out)) =>
      r1 = r ∧
      match first_msg out with
      | Some x => ∃ r2, build5 false r = (r2, Raise x) ∧ keeps r r2
      | None => ∃ r2 out2, build5 false r = (r2, Ok (fail, tip_of base (news out2), out2)) ∧
          g_ok r2 ∧ keeps r r2 ∧ List.filter failure out2 = out ∧ chain r2 base (news out2) ∧
          rebuilt5_all EDITS r1005_MSG r2 base 0 l (news out2)
      end
  end.
Proof.
  intros (Hok & Hb & Hbase & Hf & Hc). unfold Rebuild5.build5. rewrite Hb.
  pose proof (build5_lockstep rev_parse ident EDITS r1005_MSG r1005_MSG_blind STACK l r r base base
    0 [] [] Hok Hbase ltac:(done) (chain_resolves _ _ _ _ _ Hf Hc)) as Hl.
  destruct (Rebuild5.build5_loop _ _ _ _ true _ _ _ _ _) as [r1 [[p o]|x]].
  - destruct Hl as (-> & -> & more & -> & Hl). split; [done|]. cbn [app].
    destruct (first_msg more) as [x|].
    + destruct Hl as (r2 & -> & Hk). by exists r2.
    + destruct Hl as (r2 & ns & made & -> & Hok2 & Hk2 & Hfm & <- & Hall). exists r2, made.
      split; [|split; [done|split; [done|split; [done|split; [by eapply rebuilt5_chain|done]]]]].
      cbn [app]. assert (existsb failure made = existsb failure more) as ->; [|done].
      by rewrite !existsb_failures, <-Hfm, filter_twice.
  - destruct Hl as (-> & r2 & x2 & -> & Hk). split; [done|]. by exists r2, x2.
Qed.
End theorems.

(** [wsub] replaces one piece of the message, that has the words of [old] in order with
    any white space between them, and nothing else; it raises RuntimeError with the
    number of matches when that is not one. *)
Theorem wsub_replaces msg old new what :
  py_split old ≠ [] →
  match wsub msg old new what with
  | Ok m => ∃ x w y, msg = x ++ w ++ y ∧ m = x ++ new ++ y ∧ py_split w = py_split old
  | Raise e => ∃ n, n ≠ 1 ∧ (subn_words (py_split old) new 0 msg).2 = n ∧
      e = RuntimeError (what +:+ ": " +:+ pretty (N.of_nat n) +:+ " matches")
  end.
Proof.
  intros Hne. unfold wsub. destruct (subn_words (py_split old) new 0 msg) as [m n] eqn:E.
  destruct (n =? 1) eqn:En; bools; cbn [negb].
  - subst n. destruct (subn_one (py_split old) new msg Hne) as (x & w & y & Hs & Hw & Ht).
    { apply Forall_forall. intros w. apply py_split_fields. }
    { by rewrite E. }
    rewrite E in Ht. by exists x, w, y.
  - by exists n.
Qed.

(** ** Instances *)

Definition old_repo (m : text) : ListGit.repo := ListGit.Repo [
  Commit ∅ None (lit "base
") (Meta "a" "b" "c" "d" "e" "f");
  Commit {["x" := lit "one"]} (Some 0) m (Meta "a" "b" "1" "d" "e" "f")
] "9 +0000" ∅.

Definition old_parse (name : string) : option nat :=
  if String.eqb name r1005_BASE then Some 0
  else if String.eqb name "507b70072f" then Some 1 else None.
Definition old_ident (r : ListGit.repo) : string * string := ("me", "me@example.org").

(** The stack of one commit, whose file is edited. *)
Abbreviation old_build := (build5 old_parse old_ident r1005_BASE (take 1 r1005_STACK)
  [EditFn 0 "x" "e_one" (λ s, rep1 s (lit "one") (lit "two") "one")] r1005_MSG).

Lemma r1005_dry_run_witness :
  match old_build true (old_repo (lit "first
")) with
  | (r1, Ok (fail, _, out)) =>
      r1 = old_repo (lit "first
") ∧ first_msg out = None ∧
      ∃ r2 out2, old_build false (old_repo (lit "first
")) = (r2, Ok (fail, tip_of 0 (news out2), out2)) ∧ g_ok r2 ∧ List.filter failure out2 = out
  | (_, Raise _) => False
  end.
Proof.
  pose proof (r1005_dry_run old_parse old_ident r1005_BASE (take 1 r1005_STACK)
    [EditFn 0 "x" "e_one" (λ s, rep1 s (lit "one") (lit "two") "one")]
    (old_repo (lit "first
")) 0 [1]) as Hd.
  assert (stack_at old_parse r1005_BASE (take 1 r1005_STACK) (old_repo (lit "first
")) 0 [1]) as Hst.
  { split; [|split; [done|split; [by eexists|split]]].
    - split; [apply (bool_decide_unpack _); vm_compute; reflexivity|].
      intros n c p Hn Hp.
      do 2 (destruct n as [|n]; [injection Hn as <-; simpl in Hp; simplify_eq; lia|]). done.
    - repeat constructor.
    - repeat split; eexists; (split; [reflexivity|reflexivity]). }
  specialize (Hd Hst).
  destruct (old_build true _) as [r1 [[[fail p] out]|x]] eqn:E; [|vm_compute in E; discriminate].
  assert (first_msg out = None) as Hm by (vm_compute in E; injection E as _ _ _ <-; reflexivity).
  rewrite Hm in Hd. destruct Hd as (-> & r2 & out2 & Hb & Hok & _ & Hf & _).
  split; [reflexivity|]. split; [exact Hm|]. exists r2, out2. done.
Defined.

Lemma wsub_replaces_witness :
  ∃ x w y, lit "size, blocks
  or mtime was asked for; and" = x ++ w ++ y ∧
    lit "size, blocks or a time was asked for; and" = x ++ lit "blocks or a time was asked for;" ++ y ∧
    py_split w = py_split (lit "blocks or mtime was asked for;").
Proof.
  assert (py_split (lit "blocks or mtime was asked for;") ≠ []) as Hne by (vm_compute; discriminate).
  pose proof (wsub_replaces (lit "size, blocks
  or mtime was asked for; and") (lit "blocks or mtime was asked for;")
    (lit "blocks or a time was asked for;") "m1" Hne) as Hw.
  assert (wsub (lit "size, blocks
  or mtime was asked for; and") (lit "blocks or mtime was asked for;")
    (lit "blocks or a time was asked for;") "m1" =
    Ok (lit "size, blocks or a time was asked for; and")) as E by (vm_compute; reflexivity).
  rewrite E in Hw. exact Hw.
Defined.

(** What [textwrap.fill] makes of a rewritten paragraph. *)
Example refill_m2 : refill (lit "A regular file's size and times are strict only when the OSTs were glimpsed, which happens when the demand mask is 0 or names a size, blocks or a time.") =
  lit "A regular file's size and times are strict only when the OSTs were
glimpsed, which happens when the demand mask is 0 or names a size,
blocks or a time.".
Proof. vm_compute. reflexivity. Qed.
