(* ===== verification/Fold.v ===== *)
(** docs/rounds/a-1009/fold.py: two fixes folded into their commits and carried up the
    stack, names prefixed with [fold_].  Each new commit is the old one's tree with the
    edits; the branch moves only if the tip's tree is the one that was tested.

    The script reads and writes git in text mode.  SystemExit and every other exception
    end it. *)
From S2P Require Import Prelude PyStr R3Engine Git Drive.

(** [rep(s, a, b, what)] *)
Definition fold_rep (s a b : text) (what : string) : res text :=
  if negb (py_count a s =? 1) then
    Raise (SystemExit (what +:+ ": " +:+ pretty (N.of_nat (py_count a s)) +:+ " matches"))
  else Ok (py_replace a b s).

Definition fold_BASE : string := "f20ad1ea81".

Definition fold_FIRST_68417 : string := "0675d64536".

Definition fold_OLD_TIP : string := "a009cfea7b".

Definition fold_FIX : string := "fix-1009".

Definition fold_F : string := "lustre/utils/liblustreapi_pfind.c".

(** fold.py, lines 26 to 134. *)
Definition fold_T_1 (s : text) : res text :=
  let! i := py_index (lit "struct find_ctx {
") s in
  let! j := py_index_from (lit "
};
") s i in
  let s := (((take j s) ++ (lit "
	bool			 fc_matched;	/* out: reached print */")) ++ (drop j s)) in
  let! s := fold_rep s
    (lit "print:
	if (param->fp_skip_percent && find_skip_file(param))")
    (lit "print:
	fc->fc_matched = true;
	if (param->fp_skip_percent && find_skip_file(param))")
    "print" in
  let! s := fold_rep s
    (lit "	/* FIDs already taken, across MDTs: _ONCE's set is per MDT */
	void			*fss_seen;
	bool			 fss_multi_mdt;
};
")
    (lit "	/* struct find_since_obj per FID, across MDTs */
	void			*fss_seen;
	bool			 fss_matched;	/* reached print */
};

/*
 * A candidate already looked up.  Done once it was printed or cannot be
 * looked up again usefully.  A rejected one is not done: a change made
 * after its lookup, read later in the same run, may make it match.
 */
struct find_since_obj {
	struct lu_fid		fso_fid;	/* first: find_fid_cmp() key */
	bool			fso_done;
	time_t			fso_looked;	/* when the lookup started */
};
")
    "state" in
  let! i := py_index (lit "static int find_since_rec_cb(") s in
  let a := (lit "	rc = find_decide(&fc, param);
	if (fd >= 0)
		close(fd);

	return rc;
}") in
  let! j := py_index_from a s i in
  let s := (((take j s) ++ (py_replace (lit "

	return rc;") (lit "
	if (fc.fc_matched)
		st->fss_matched = true;

	return rc;") a)) ++ (drop (j + (length a)) s)) in
  let! s := (if py_in (lit " * LLAPI_SCAN_CL_F_ONCE an object already delivered is dropped before the
 * callback.
") s then
      let! s := fold_rep s
    (lit " * It is asked here rather than in the callback because sc_filter sees each
 * delivery before any lookup, and the callback does not: under
 * LLAPI_SCAN_CL_F_ONCE an object already delivered is dropped before the
 * callback.
")
    (lit " * It is asked here rather than in the callback because sc_filter sees each
 * delivery before any lookup, and the callback does not: an object already
 * printed is dropped before the lookup.
")
    "hdr1" in
      Ok s
    else
      let! s := fold_rep s
    (lit " * -- and under LLAPI_SCAN_CL_F_ONCE an object already delivered is dropped
 * before the callback too.
")
    (lit " * -- and an object already printed is dropped before the lookup too.
")
    "hdr3" in
      Ok s) in
  let! s := fold_rep s
    (lit "	 * Refused here and not in the callback because _ONCE records what
	 * the callback was handed: a burst from before the window taken as a
	 * delivery would suppress the burst inside it that follows, and turn
	 * a duplicate line into a missing one.
")
    (lit "	 * Refused here and not in the callback, so a burst from before the
	 * window is never looked up: it would print an object that has not
	 * changed inside it.
")
    "refused" in
  let! s := fold_rep s
    (lit "/*
 * Whether another MDT's log already gave this FID.  A remote mkdir or a
 * cross-MDT rename puts one object in two logs.
 *
 * Return: 1 if seen, 0 if not (now recorded), or -ENOMEM.
 */
static int find_since_seen(struct find_since_state *st,
			   const struct lu_fid *fid)
{
	struct lu_fid *key;
	void *node;

	key = malloc(sizeof(*key));
	if (key == NULL)
		return -ENOMEM;
	*key = *fid;
	node = tsearch(key, &st->fss_seen, find_fid_cmp);
	if (node == NULL) {
		free(key);
		return -ENOMEM;
	}
	if (*(struct lu_fid **)node != key) {
		free(key);
		return 1;
	}
	return 0;
}
")
    (lit "/*
 * Find or add @fid in the candidates of this run, across MDTs: a remote
 * mkdir or a cross-MDT rename puts one object in two logs.
 *
 * Return: 1 if new, 0 if seen before, or -ENOMEM.
 */
static int find_since_obj(struct find_since_state *st,
			  const struct lu_fid *fid, struct find_since_obj **obj)
{
	struct find_since_obj *key;
	void *node;

	key = calloc(1, sizeof(*key));
	if (key == NULL)
		return -ENOMEM;
	key->fso_fid = *fid;
	node = tsearch(key, &st->fss_seen, find_fid_cmp);
	if (node == NULL) {
		free(key);
		return -ENOMEM;
	}
	*obj = *(struct find_since_obj **)node;
	if (*obj != key) {
		free(key);
		return 0;
	}
	return 1;
}
")
    "seen" in
  Ok s.

(** fold.py, lines 135 to 279. *)
Definition fold_T_2 (s : text) : res text :=
  let! s := (if py_in (lit "	if (st->fss_multi_mdt) {
") s then
      let! s := fold_rep s
    (lit "	struct llapi_scan_param sp = { .lfsp_size = sizeof(sp) };
	int rc;

	if (!(rec->lfsr_valid & LLAPI_SCAN_FID))
")
    (lit "	struct llapi_scan_param sp = { .lfsp_size = sizeof(sp) };
	struct find_since_obj *obj = NULL;
	__u64 undecided;
	int rc;

	if (!(rec->lfsr_valid & LLAPI_SCAN_FID))
")
    "decl1" in
      let! s := fold_rep s
    (lit "	if (st->fss_multi_mdt) {
		rc = find_since_seen(st, &rec->lfsr_fid);
		if (rc != 0)
			return rc < 0 ? rc : 0;
	}

	/* the window cut is find_since_filter_cb()'s, before this */
	st->fss_cand++;
	sp.lfsp_want = st->fss_want;

	st->fss_cb_called = false;
	rc = llapi_scan_fid(st->fss_mnt_fd, st->fss_mnt_path, &rec->lfsr_fid,
			    &sp, find_since_rec_cb, st);
")
    (lit "	/*
	 * Each object once, unless it was rejected and changed after its
	 * lookup: the anchor moves past that change either way.
	 */
	rc = find_since_obj(st, &rec->lfsr_fid, &obj);
	if (rc < 0)
		return rc;
	if (obj->fso_done)
		return 0;
	/*
	 * The lookup saw every event before it started.  The clocks are
	 * compared as the --since window already compares them.
	 */
	if (rc == 0 && (rec->lfsr_valid & LLAPI_SCAN_EVENT) &&
	    rec->lfsr_event_time < obj->fso_looked)
		return 0;
	/* the window cut is find_since_filter_cb()'s, before this */
	if (rc == 1)
		st->fss_cand++;
	sp.lfsp_want = st->fss_want;

	st->fss_cb_called = false;
	st->fss_matched = false;
	undecided = st->fss_undecided;
	obj->fso_looked = time(NULL);
	rc = llapi_scan_fid(st->fss_mnt_fd, st->fss_mnt_path, &rec->lfsr_fid,
			    &sp, find_since_rec_cb, st);
	/* anything but a rejection is final */
	if (rc != 0 || st->fss_matched || st->fss_undecided != undecided)
		obj->fso_done = true;
")
    "cand1" in
      let! s := fold_rep s
    (lit "		/*
		 * _ONCE for --since and not for --changelog: coalescing
		 * reduces an object to one record only within sc_min_age, so
		 * over a longer window an object touched in two bursts
		 * arrives twice, is looked up twice and prints its path
		 * twice -- where a walk prints it once.  --changelog reports
		 * the log, and a second burst is a second thing that
		 * happened, so it keeps both.
		 */
		sc.sc_flags = LLAPI_SCAN_CL_F_COALESCE | LLAPI_SCAN_CL_F_ONCE;
")
    (lit "		/*
		 * Not _ONCE: it would drop a later burst of an object the
		 * callback rejected.  find_since_cand_cb() keeps its own set.
		 */
		sc.sc_flags = LLAPI_SCAN_CL_F_COALESCE;
")
    "once1" in
      Ok s
    else
      let! s := fold_rep s
    (lit "	struct find_cl_merge m = { .fcm_st = st, .fcm_cl = rec };
	int rc;
")
    (lit "	struct find_cl_merge m = { .fcm_st = st, .fcm_cl = rec };
	struct find_since_obj *obj = NULL;
	__u64 undecided;
	int rc;
")
    "decl2" in
      let! s := fold_rep s
    (lit "	if (st->fss_multi_mdt && !st->fss_as_recorded) {
		rc = find_since_seen(st, &rec->lfsr_fid);
		if (rc != 0)
			return rc < 0 ? rc : 0;
	}

	/* the window cut is find_since_filter_cb()'s, before this */
	st->fss_cand++;
")
    (lit "	/*
	 * Each object once, unless it was rejected and changed after its
	 * lookup: the anchor moves past that change either way.
	 */
	if (!st->fss_as_recorded) {
		rc = find_since_obj(st, &rec->lfsr_fid, &obj);
		if (rc < 0)
			return rc;
		if (obj->fso_done)
			return 0;
		/*
		 * The lookup saw every event before it started.  The clocks
		 * are compared as the --since window already compares them.
		 */
		if (rc == 0 && (rec->lfsr_valid & LLAPI_SCAN_EVENT) &&
		    rec->lfsr_event_time < obj->fso_looked)
			return 0;
		/* the window cut is find_since_filter_cb()'s, before this */
		if (rc == 1)
			st->fss_cand++;
	} else {
		st->fss_cand++;
	}
")
    "cand2" in
      let call := (lit "		rc = llapi_scan_fid(st->fss_mnt_fd, st->fss_mnt_path,
				    &rec->lfsr_fid, &sp, find_since_rec_cb, st);
	}
") in
      let! s := fold_rep s
    call
    (lit "		st->fss_matched = false;
		undecided = st->fss_undecided;
		obj->fso_looked = time(NULL);
		rc = llapi_scan_fid(st->fss_mnt_fd, st->fss_mnt_path,
				    &rec->lfsr_fid, &sp, find_since_rec_cb, st);
		/* anything but a rejection is final */
		if (rc != 0 || st->fss_matched ||
		    st->fss_undecided != undecided)
			obj->fso_done = true;
	}
")
    "call2" in
      let! s := fold_rep s
    (lit "		/*
		 * _ONCE for --since and not for --changelog: coalescing
		 * reduces an object to one record only within sc_min_age, so
		 * over a longer window an object touched in two bursts
		 * arrives twice, is looked up twice and prints its path
		 * twice -- where a walk prints it once.  --changelog reports
		 * the log, and a second burst is a second thing that
		 * happened, so it keeps both.
		 */
		sc.sc_flags = LLAPI_SCAN_CL_F_COALESCE;
		if (!st.fss_as_recorded)
			sc.sc_flags |= LLAPI_SCAN_CL_F_ONCE;
")
    (lit "		/*
		 * Not _ONCE: it would drop a later burst of an object the
		 * callback rejected.  find_since_cand_cb() keeps its own set.
		 */
		sc.sc_flags = LLAPI_SCAN_CL_F_COALESCE;
")
    "once2" in
      Ok s) in
  Ok s.

(** fold.py, lines 280 to 330. *)
Definition fold_T_3 (s : text) : res text :=
  let! s := fold_rep s
    (lit "	st.fss_multi_mdt = mdt_count > 1;
")
    (lit "")
    "multi" in
  let! s := fold_rep s
    (lit "/* Stage 5, on a record llapi_scan_fid() filled: the ordinary predicates. */")
    (lit "/* On a record llapi_scan_fid() filled: the ordinary predicates. */")
    "stage5a" in
  let! s := (if py_in (lit " * Stage 5 on a changelog record itself") s then
      let! s := fold_rep s
    (lit " * Stage 5 on a changelog record itself")
    (lit " * On a changelog record itself")
    "stage5b" in
      Ok s
    else
      Ok s) in
  let! s := fold_rep s
    (lit "	time_t			fso_looked;	/* when the lookup started */
};")
    (lit "	time_t			fso_looked;	/* when the lookup started */
};

/* how far the MDS clock may lag this one before a change is missed */
#define FIND_SINCE_CLOCK_SLACK	600")
    "slack" in
  let old1 := (lit "	/*
	 * The lookup saw every event before it started.  The clocks are
	 * compared as the --since window already compares them.
	 */
	if (rc == 0 && (rec->lfsr_valid & LLAPI_SCAN_EVENT) &&
	    rec->lfsr_event_time < obj->fso_looked)
		return 0;") in
  let new1 := (lit "	/*
	 * The lookup saw every event before it started.  The event time
	 * is the MDS's, so only one well before it is skipped.
	 */
	if (rc == 0 && (rec->lfsr_valid & LLAPI_SCAN_EVENT) &&
	    rec->lfsr_event_time < obj->fso_looked - FIND_SINCE_CLOCK_SLACK)
		return 0;") in
  let old2 := (lit "		/*
		 * The lookup saw every event before it started.  The clocks
		 * are compared as the --since window already compares them.
		 */
		if (rc == 0 && (rec->lfsr_valid & LLAPI_SCAN_EVENT) &&
		    rec->lfsr_event_time < obj->fso_looked)
			return 0;") in
  let new2 := (lit "		/*
		 * The lookup saw every event before it started.  The event
		 * time is the MDS's, so only one well before it is skipped.
		 */
		if (rc == 0 && (rec->lfsr_valid & LLAPI_SCAN_EVENT) &&
		    rec->lfsr_event_time <
		    obj->fso_looked - FIND_SINCE_CLOCK_SLACK)
			return 0;") in
  let! s := (if py_in old1 s then fold_rep s
    old1
    new1
    "gate1"
   else fold_rep s
    old2
    new2
    "gate2") in
  let! s := fold_rep s
    (lit "static int find_since_obj(struct find_since_state *st,
			  const struct lu_fid *fid, struct find_since_obj **obj)")
    (lit "static int find_since_obj_get(struct find_since_state *st,
			      const struct lu_fid *fid,
			      struct find_since_obj **obj)")
    "getdef" in
  let! s := fold_rep s
    (lit "rc = find_since_obj(st, &rec->lfsr_fid, &obj);")
    (lit "rc = find_since_obj_get(st, &rec->lfsr_fid, &obj);")
    "getcall" in
  Ok s.

Definition fold_T (s : text) : res text :=
  let! s := fold_T_1 s in
  let! s := fold_T_2 s in
  fold_T_3 s.

Definition fold_MSG_ADD : text :=
  (lit "
Coalescing gives an object one record per burst, so one object can
arrive more than once in a run.  Each FID is kept in one set across
bursts and MDTs.  It is done once it was printed, was gone, could not
be read or was undecided; find_decide() now sets fc_matched at print:
to say so.  A rejected object is looked up again for a later record
whose event is less than FIND_SINCE_CLOCK_SLACK seconds older than
that lookup: a change made after the lookup may make it match, and
the next run starts past it.
").

Definition fold_M (msg : text) : res text :=
  let a := (lit "under the root and matches.  No new predicates and no second copy of the
vocabulary.
") in
  fold_rep msg
    a
    (a ++ fold_MSG_ADD)
    "msg".

Definition fold_CL : string := "lustre/utils/liblustreapi_scan_changelog.c".

Definition fold_CLDOC : string := "Documentation/man3/llapi_scan_changelog.3".

Definition fold_C (s : text) : res text :=
  fold_rep s
    (lit "		scan_cl_clear(sl, false);

		/* sc_endrec is inclusive")
    (lit "		scan_cl_clear(sl, false);
		/* _FOLLOW never ends, so a failed clear ends it here */
		if ((scl.sc_flags & LLAPI_SCAN_CL_F_FOLLOW) &&
		    sl->sl_clear_rc != 0)
			break;

		/* sc_endrec is inclusive")
    "follow".

Definition fold_CD (t : text) : res text :=
  fold_rep t
    (lit "first. The records were delivered, but the log was not cleared past that
point.
")
    (lit "first. The records were delivered, but the log was not cleared past that
point. With
.B LLAPI_SCAN_CL_F_FOLLOW
the stream has no end, so the first failed clear ends it.
")
    "followdoc".

Definition fold_DOC : string := "Documentation/man3/llapi_find_since.3".

Definition fold_D (t : text) : res text :=
  fold_rep t
    (lit ".BR \q-o user_fid2path\q . A refusal there")
    (lit ".BR \q-o user_fid2path\q .
A refusal there")
    "man".

(** [edits] at a commit: the two of 68415, and from 68417 on two more *)
Definition fold_edits (in17 : bool) : list (string * (text → res text)) :=
  [(fold_CL, fold_C); (fold_CLDOC, fold_CD)] ++
  (if in17 then [(fold_F, fold_T); (fold_DOC, fold_D)] else []).

(** [for path, fn in edits]: the files as the index gets them *)
Fixpoint fold_files (tree : gmap string text) (edits : list (string * (text → res text)))
    (index : gmap string text) : res (gmap string text) :=
  match edits with
  | [] => Ok index
  | (path, fn) :: edits' =>
      match tree !! path with
      | None => Raise (CalledProcessError "show")
      | Some bytes =>
          let! new := fn (R3.universal_newlines bytes) in
          fold_files tree edits' (<[path := new]> index)
      end
  end.

Section fold.
Context {sha repo : Type} `{EqDecision sha} `{Git sha repo} `{!GitForce sha repo}.
(** [git rev-parse] of BASE, OLD_TIP, FIRST_68417 and FIX *)
Context (rev_parse : string → option sha).

Definition fold_env (r : repo) (c : commit sha) : meta :=
  let m := c_meta c in Meta (m_an m) (m_ae m) (m_ad m) "Hiroshi Nishida" (m_ce m) (g_now r).

Definition fold_msg (first : bool) (c : commit sha) : res text :=
  let msg := log_msg c in if first then fold_M msg else Ok msg.

(** The loop over the commits; the new parent, and the pairs printed. *)
Fixpoint fold_loop (r : repo) (first17 parent : sha) (in17 : bool) (commits : list sha)
    : repo * res sha :=
  match commits with
  | [] => (r, Ok parent)
  | h :: commits' =>
      let first := bool_decide (h = first17) in
      let in17 := in17 || first in
      match g_show r h with
      | None => (r, Raise (CalledProcessError "read-tree"))
      | Some c =>
          match fold_files (c_tree c) (fold_edits in17) (c_tree c) with
          | Raise x => (r, Raise x)
          | Ok tree =>
              match fold_msg first c with
              | Raise x => (r, Raise x)
              | Ok msg =>
                  let (r', new) := g_commit_tree r (Commit tree (Some parent) msg (fold_env r c)) in
                  fold_loop r' first17 new in17 commits'
              end
          end
      end
  end.

(** [git('rev-parse', x + '^{tree}')], as the files of the tree *)
Definition tree_of (r : repo) (x : option sha) : res (gmap string text) :=
  match x with
  | None => Raise (CalledProcessError "rev-parse")
  | Some h => match g_show r h with
              | None => Raise (CalledProcessError "rev-parse")
              | Some c => Ok (c_tree c)
              end
  end.

(** The script: the tip, and whether its tree is the one of fix-1009. *)
Definition fold (dry : bool) (r : repo) : repo * res (sha * bool) :=
  match rev_parse fold_BASE, rev_parse fold_OLD_TIP, rev_parse fold_FIRST_68417 with
  | Some base, Some old, Some first17 =>
      match g_rev_list r base old with
      | None => (r, Raise (CalledProcessError "rev-list"))
      | Some commits =>
          match fold_loop r first17 base false commits with
          | (r', Raise x) => (r', Raise x)
          | (r', Ok tip) =>
              match (let! t := tree_of r' (Some tip) in
                     let! t' := tree_of r' (rev_parse fold_FIX) in
                     Ok (bool_decide (t = t'))) with
              | Raise x => (r', Raise x)
              | Ok same =>
                  (if negb dry && same then g_force_ref r' "refs/heads/fold-1009" tip else r',
                   Ok (tip, same))
              end
          end
      end
  | _, _, _ => (r, Raise (CalledProcessError "rev-parse"))
  end.
End fold.
