(* ===== verification/FoldTheorems.v ===== *)
(** The theorem about fold.py: what a run leaves behind, and when the branch moves. *)
From S2P Require Import Prelude PyStr R3Engine Git Drive Fold.

(** The paths a commit's edits write. *)
Lemma fold_files_frame tree edits index t p :
  fold_files tree edits index = Ok t → p ∉ edits.*1 → t !! p = index !! p.
Proof.
  revert index. induction edits as [|[path fn] edits IH]; intros index.
  { cbn. by intros [= ->]. }
  cbn [fold_files]. destruct (tree !! path) as [bytes|]; [|done].
  intros (new & _ & Ht)%res_bind_Ok Hp. rewrite fmap_cons, not_elem_of_cons in Hp.
  destruct Hp as [Hne Hp]. rewrite (IH _ Ht Hp). by rewrite lookup_insert_ne.
Qed.

(** Each edit's file is what its function makes of the commit's text. *)
Lemma fold_files_at tree edits index t path fn :
  NoDup edits.*1 → fold_files tree edits index = Ok t → (path, fn) ∈ edits →
  ∃ bytes new, tree !! path = Some bytes ∧ fn (R3.universal_newlines bytes) = Ok new ∧
               t !! path = Some new.
Proof.
  revert index. induction edits as [|[q g] edits IH]; intros index Hnd Hok Hin.
  { by apply not_elem_of_nil in Hin. }
  cbn [fold_files] in Hok. destruct (tree !! q) as [bytes|] eqn:Eq; [|done].
  apply res_bind_Ok in Hok as (new & Hnew & Hok). rewrite fmap_cons in Hnd.
  apply NoDup_cons in Hnd as [Hq Hnd]. apply elem_of_cons in Hin as [Heq|Hin]; [|by eapply IH].
  injection Heq as -> ->. exists bytes, new. do 2 (split; [done|]).
  rewrite (fold_files_frame _ _ _ _ q Hok Hq). by rewrite lookup_insert_eq.
Qed.

Section fold.
Context {sha repo : Type} `{EqDecision sha} `{GitGraphLaws sha repo}.
Context `{!GitRefsLaws sha repo}.
Context (rev_parse : string → option sha).
Implicit Types (r : repo) (h n parent base tip : sha) (l ns : list sha).

(** [n] is what [h] becomes on top of [parent]. *)
Definition folded r (first17 : sha) parent (in17 : bool) h n : Prop :=
  ∃ c nc, g_show r h = Some c ∧ g_show r n = Some nc ∧ c_parent nc = Some parent ∧
    fold_files (c_tree c) (fold_edits in17) (c_tree c) = Ok (c_tree nc) ∧
    fold_msg (bool_decide (h = first17)) c = Ok (c_msg nc) ∧
    m_an (c_meta nc) = m_an (c_meta c) ∧ m_ae (c_meta nc) = m_ae (c_meta c) ∧
    m_ad (c_meta nc) = m_ad (c_meta c).

Fixpoint folded_all r (first17 : sha) parent (in17 : bool) l ns : Prop :=
  match l, ns with
  | [], [] => True
  | h :: l', n :: ns' =>
      let in17 := in17 || bool_decide (h = first17) in
      folded r first17 parent in17 h n ∧ folded_all r first17 n in17 l' ns'
  | _, _ => False
  end.

Lemma folded_chain r first17 parent in17 l ns :
  folded_all r first17 parent in17 l ns → chain r parent ns.
Proof.
  revert parent in17 ns. induction l as [|h l IH]; intros parent in17 [|n ns]; cbn; try done.
  intros [(c & nc & _ & ? & ? & _) ?]. split; [eauto|by eapply IH].
Qed.

Lemma folded_later r r' first17 parent in17 h n :
  (∀ x d, g_show r x = Some d → g_show r' x = Some d) →
  folded r first17 parent in17 h n → folded r' first17 parent in17 h n.
Proof. intros Hk (c & nc & ? & ? & ?). exists c, nc. split; [by apply Hk|]. split; [by apply Hk|done]. Qed.

Lemma folded_all_later r r' first17 parent in17 l ns :
  (∀ x d, g_show r x = Some d → g_show r' x = Some d) →
  folded_all r first17 parent in17 l ns → folded_all r' first17 parent in17 l ns.
Proof.
  intros Hk. revert parent in17 ns. induction l as [|h l IH]; intros parent in17 [|n ns]; cbn; try done.
  intros [Hf Ha]. split; [by eapply folded_later|by apply IH].
Qed.

Lemma fold_loop_spec r first17 parent in17 l :
  g_ok r → is_Some (g_show r parent) → (∀ h, h ∈ l → is_Some (g_show r h)) →
  match fold_loop r first17 parent in17 l with
  | (r', Raise _) => keeps r r' ∧ ∀ b, g_ref r' b = g_ref r b
  | (r', Ok tip) => g_ok r' ∧ keeps r r' ∧ (∀ b, g_ref r' b = g_ref r b) ∧
      is_Some (g_show r' tip) ∧ ∃ ns, folded_all r' first17 parent in17 l ns ∧ tip = tip_of parent ns
  end.
Proof.
  revert r parent in17. induction l as [|h l IH]; intros r parent in17 Hok Hpar Hl; cbn [fold_loop].
  { repeat (split; [done|]). by exists []. }
  destruct (Hl h) as [c Hc]; [by left|]. rewrite Hc.
  set (first := bool_decide (h = first17)).
  destruct (fold_files (c_tree c) (fold_edits (in17 || first)) (c_tree c)) as [t|x] eqn:Et; [|done].
  destruct (fold_msg first c) as [m|x] eqn:Em; [|done].
  destruct (g_commit_tree _ _) as [r1 n] eqn:Hct.
  assert (keeps r r1) as Hk by (intros x d; by apply (commit_tree_keep _ _ _ _ x d Hct)).
  assert (g_ok r1) as Hok1 by (by eapply (commit_tree_ok r _ parent); [| |exact Hpar|exact Hct]).
  pose proof (commit_tree_read _ _ _ _ Hct) as Hn.
  assert (∀ b, g_ref r1 b = g_ref r b) as Hrefs by (intros b; by eapply commit_tree_refs).
  specialize (IH r1 n (in17 || first) Hok1 ltac:(eauto)).
  assert (∀ h', h' ∈ l → is_Some (g_show r1 h')) as Hl1.
  { intros h' Hh'. destruct (Hl h') as [d Hd]; [by right|]. exists d. by apply Hk. }
  specialize (IH Hl1). destruct (fold_loop r1 first17 n (in17 || first) l) as [r2 [tip|x]].
  - destruct IH as (Hok2 & Hk2 & Hr2 & Htip & ns & Hall & ->).
    split; [done|]. split; [by etrans|]. split; [intros b; by rewrite Hr2|]. split; [done|].
    exists (n :: ns). split.
    + split; [|done]. eapply folded_later; [exact Hk2|].
      exists c, (Commit t (Some parent) m (fold_env r c)). split; [by apply Hk|]. done.
    + unfold tip_of. rewrite last_cons. by destruct (last ns).
  - destruct IH as [Hk2 Hr2]. split; [by etrans|]. intros b. by rewrite Hr2.
Qed.

(** C10: A run of fold.py over the commits [l] between its base and the old tip.  When it
    returns, the new commits are a line on the base that ends in the tip, each the old
    one's tree with its edits (the two of 68415, and from 68417 on all four), its author
    and its message; and fold-1009 is moved, to the tip, exactly if the run is not dry and
    the tip's tree is the tree of fix-1009.  No other branch moves, and none at all when
    the run stops; no commit is lost either way. *)
Theorem fold_moves dry r base old first17 fix_ fc l :
  g_ok r → rev_parse fold_BASE = Some base → rev_parse fold_OLD_TIP = Some old →
  rev_parse fold_FIRST_68417 = Some first17 → rev_parse fold_FIX = Some fix_ →
  is_Some (g_show r base) → g_show r fix_ = Some fc → chain r base l → old = tip_of base l →
  match fold rev_parse dry r with
  | (r', Raise _) => keeps r r' ∧ ∀ b, g_ref r' b = g_ref r b
  | (r', Ok (tip, same)) =>
      keeps r r' ∧ (∃ ns, folded_all r' first17 base false l ns ∧ chain r' base ns ∧
                          tip = tip_of base ns) ∧
      (∃ c, g_show r' tip = Some c ∧ same = bool_decide (c_tree c = c_tree fc)) ∧
      (∀ b, b ≠ "fold-1009" → g_ref r' b = g_ref r b) ∧
      (negb dry && same = true → g_ref r' "fold-1009" = Some tip) ∧
      (negb dry && same = false → ∀ b, g_ref r' b = g_ref r b)
  end.
Proof.
  intros Hok Hb Ho Hf Hx Hbase Hfix Hch ->. unfold fold. rewrite Hb, Ho, Hf, Hx.
  rewrite rev_list_chain by done.
  assert (∀ h, h ∈ l → is_Some (g_show r h)) as Hl by (intros h Hh; by eapply chain_shown).
  pose proof (fold_loop_spec r first17 base false l Hok Hbase Hl) as Hlp.
  destruct (fold_loop r first17 base false l) as [r1 [tip|x]]; [|done].
  destruct Hlp as (Hok1 & Hk1 & Hr1 & [c Hc] & ns & Hall & Htip).
  unfold tree_of. rewrite Hc, (Hk1 _ _ Hfix). cbn [res_bind].
  set (same := bool_decide (c_tree c = c_tree fc)).
  set (r2 := if negb dry && same then _ else _).
  assert (∀ x, g_show r2 x = g_show r1 x) as Hsh.
  { unfold r2. destruct (negb dry && same); [|done].
    by destruct (force_ref_moves r1 "refs/heads/fold-1009" tip) as (_ & _ & ?). }
  assert (keeps r1 r2) as Hk2 by (intros x d Hd; by rewrite Hsh).
  split; [by etrans|]. split.
  { exists ns. assert (folded_all r2 first17 base false l ns) as Ha by (by eapply folded_all_later).
    split; [done|]. split; [by eapply folded_chain|done]. }
  split; [exists c; by rewrite Hsh|]. unfold r2. destruct (negb dry && same).
  - change "refs/heads/fold-1009" with (heads "fold-1009"). split; [|split; [|done]].
    + intros b Hne. rewrite force_ref_branch, decide_False; [apply Hr1|]. intros E%(inj heads). by apply Hne.
    + intros _. by rewrite force_ref_branch, decide_True.
  - split; [intros b _; by rewrite Hr1|]. by split.
Qed.
End fold.

(** ** Instances *)

(** A commit of 68415 on its base, and the tree that was tested. *)
Definition cl_old : text := lit "		scan_cl_clear(sl, false);

		/* sc_endrec is inclusive */
".
Definition cl_new : text := lit "		scan_cl_clear(sl, false);
		/* _FOLLOW never ends, so a failed clear ends it here */
		if ((scl.sc_flags & LLAPI_SCAN_CL_F_FOLLOW) &&
		    sl->sl_clear_rc != 0)
			break;

		/* sc_endrec is inclusive */
".
Definition cldoc_old : text :=
  lit "first. The records were delivered, but the log was not cleared past that
point.
".
Definition cldoc_new : text :=
  lit "first. The records were delivered, but the log was not cleared past that
point. With
.B LLAPI_SCAN_CL_F_FOLLOW
the stream has no end, so the first failed clear ends it.
".

Definition unfolded_repo : ListGit.repo := ListGit.Repo [
  Commit ∅ None (lit "base
") (Meta "a" "b" "c" "d" "e" "f");
  Commit {[fold_CL := cl_old; fold_CLDOC := cldoc_old]} (Some 0) (lit "68415
") (Meta "a" "b" "1" "d" "e" "f");
  Commit {[fold_CL := cl_new; fold_CLDOC := cldoc_new]} (Some 0) (lit "tested
") (Meta "a" "b" "2" "d" "e" "f")
] "9 +0000" ∅.

Definition unfolded_parse (name : string) : option nat :=
  if String.eqb name fold_BASE then Some 0 else if String.eqb name fold_OLD_TIP then Some 1
  else if String.eqb name fold_FIX then Some 2 else Some 7.

Lemma unfolded_ok : g_ok unfolded_repo.
Proof.
  split; [apply (bool_decide_unpack _); vm_compute; reflexivity|].
  intros n c p Hn Hp.
  do 3 (destruct n as [|n]; [injection Hn as <-; simpl in Hp; simplify_eq; lia|]). done.
Qed.

Lemma fold_moves_witness :
  match fold unfolded_parse false unfolded_repo with
  | (r', Ok (tip, same)) =>
      same = true ∧ tip = 3 ∧ g_ref r' "fold-1009" = Some tip ∧
      ∃ ns, folded_all r' 7 0 false [1] ns ∧ tip = tip_of 0 ns
  | (_, Raise _) => False
  end.
Proof.
  pose proof (fold_moves unfolded_parse false unfolded_repo 0 1 7 2 _ [1] unfolded_ok
    eq_refl eq_refl eq_refl eq_refl ltac:(by eexists) eq_refl) as Hf.
  assert (chain unfolded_repo 0 [1]) as Hc
    by (repeat split; eexists; (split; [reflexivity|reflexivity])).
  specialize (Hf Hc eq_refl).
  assert ((fold unfolded_parse false unfolded_repo).2 = Ok (3, true)) as E
    by (vm_compute; reflexivity).
  destruct (fold unfolded_parse false unfolded_repo) as [r' o]. cbn [snd] in E.
  rewrite E in Hf |- *.
  destruct Hf as (_ & (ns & Ha & _ & Ht) & _ & _ & Hm & _).
  split; [reflexivity|]. split; [reflexivity|]. split; [by apply Hm|]. by exists ns.
Defined.
