(* ===== verification/Arms.v ===== *)
(** The control-arm cutters of the labs: lab-160ac/cut-bound, cut-glimpse,
    cut-guard, cut-header, cut-lastid, cut-resolve and dbg-resolve,
    lab-hardlink/cut-fidfallback and cut-links, lab-posix/cut-fid and cut-statx,
    lab-scanstats/cut-stats.  Each puts a known fault back into a source tree so
    that a test can be seen to fail, and must stop rather than leave the tree as
    it was when the text it cuts is no longer there.

    A file is read in text mode and written back whole; what is printed on success
    is left out. *)
From S2P Require Import Prelude PyStr Stable R3Engine.

Abbreviation files := (gmap string text).

(** ** The texts *)

Definition old_bound : text :=
  lit "		num = name + fslen + strlen(\q-MDT\q);
		if (*num == '-' || *num == '+')
			continue;
		if (sscanf(num, \q%4x\q, &mdt) != 1)
			continue;
		if (mdt >= (unsigned int)nstarts)
			continue;
".

Definition new_bound : text :=
  lit "		(void)num;	/* NOBOUND ARM */
		if (sscanf(name + fslen, \q-MDT%04x\q, &mdt) != 1)
			continue;
		if ((int)mdt >= nstarts)
			continue;
".

Definition old_glimpse : text :=
  lit "	if (find_cl_needs_glimpse(m->fcm_st->fss_param, &rec))".

Definition new_glimpse : text :=
  lit "	if (0 /* NOGLIMPSE ARM */ && find_cl_needs_glimpse(m->fcm_st->fss_param, &rec))".

Definition old_header : text :=
  lit "			if (strcmp(name, fsname) == 0)
				continue;
			llapi_error(LLAPI_MSG_ERROR | LLAPI_MSG_NO_ERRNO,
				    -EINVAL,
				    \q'%s' is a cookie for '%s', not for '%s'\q,
				    file, name, fsname);
			fclose(fp);
			return -EINVAL;
".

Definition new_header : text :=
  lit "			continue;	/* NOHEADER ARM */
".

Definition old_fidfallback : text :=
  lit "	/* an object unlinked since its event is in this answer, by FID */
	fc.fc_fid_when_lost = true;
".

Definition new_fidfallback : text :=
  lit "	fc.fc_fid_when_lost = false;
".

Definition old_links : text :=
  lit "	if (!find_since_hardlinked(rec) || !(rec->sr_valid & LLAPI_SCAN_FID))
		return false;
".

Definition new_links : text :=
  lit "	return false;
	if (!find_since_hardlinked(rec) || !(rec->sr_valid & LLAPI_SCAN_FID))
		return false;
".

Definition old_fid : text :=
  lit "	/*
	 * Neither caller has a FID to give: a stat answers for an object the
	 * ioctl could not, and the bytes at lmd_fid are the name the caller
	 * wrote there for that ioctl, or the V1 lmd_st that sat where a FID
	 * sits now.  Either reads as a plausible IGIF.
	 */
	memset(&lmd_v2->lmd_fid, 0, sizeof(lmd_v2->lmd_fid));
".

Definition new_fid : text :=
  lit "	/* NOFID ARM: the clear is cut out */
".

Definition old_guard : text :=
  lit "			if (sc.sc_startrec != 0 && oldest > sc.sc_startrec) {
				llapi_error(LLAPI_MSG_ERROR |
					    LLAPI_MSG_NO_ERRNO, -ESTALE,
					    \q'%s' has purged past the cookie: it starts at %llu and '%s' says %llu, so records in between are gone\q,
					    mdtname, (unsigned long long)oldest,
					    param->fp_since_cookie,
					    (unsigned long long)sc.sc_startrec);
				rc = -ESTALE;
				break;
			}
".

Definition fixed_order : text :=
  lit "	if (fid_is_last_id(&lma->lma_self_fid))
		return LLAPI_SCAN_CLS_INTERNAL;
	if (lma->lma_compat & LMAC_FID_ON_OST)
		return LLAPI_SCAN_CLS_OST_OBJ;

	seq = lma->lma_self_fid.f_seq;
	if (fid_seq_is_idif(seq))
		return LLAPI_SCAN_CLS_OST_OBJ;
".

Definition unfixed_order : text :=
  lit "	if (lma->lma_compat & LMAC_FID_ON_OST)
		return LLAPI_SCAN_CLS_OST_OBJ;

	seq = lma->lma_self_fid.f_seq;
	if (fid_seq_is_idif(seq))
		return LLAPI_SCAN_CLS_OST_OBJ;
	if (fid_is_last_id(&lma->lma_self_fid))
		return LLAPI_SCAN_CLS_INTERNAL;
".

Definition fixed_einval : text :=
  lit "		else if (prc == -ENOENT || prc == -ENODATA || prc == -EINVAL) {".

Definition unfixed_einval : text :=
  lit "		else if (prc == -ENOENT || prc == -ENODATA) {".

Definition old_nopath : text :=
  lit "	fc.fc_path = (char *)rec->sr_path;	/* read only, as elsewhere */
	fc.fc_p = rec->sr_parent_fd;
	fc.fc_d = rec->sr_fd;".

Definition new_nopath : text :=
  lit "	fc.fc_path = NULL;	/* NOPATH ARM */
	fc.fc_p = -1;
	fc.fc_d = -1;".

Definition old_nosubtree : text :=
  lit "	if (rec->sr_path != NULL && !find_since_under(st, rec->sr_path))
		return 0;

	find_rec_to_lmd(rec, param);
	if (param->fp_lmd->lmd_lmm.lmm_magic == 0 && find_check_lmm_info(param))
		find_lmm_set_default(param);
	find_rec_to_lmv(rec, param);
	param->fp_get_lmv = (rec->sr_valid & LLAPI_SCAN_MODE) &&".

Definition new_nosubtree : text :=
  lit "	if (0 /* NOSUBTREE ARM */ &&
	    rec->sr_path != NULL && !find_since_under(st, rec->sr_path))
		return 0;

	find_rec_to_lmd(rec, param);
	if (param->fp_lmd->lmd_lmm.lmm_magic == 0 && find_check_lmm_info(param))
		find_lmm_set_default(param);
	find_rec_to_lmv(rec, param);
	param->fp_get_lmv = (rec->sr_valid & LLAPI_SCAN_MODE) &&".

Definition old_inject : text :=
  lit "		if (scan_read_xattrs(wk, ino, sink->ss_want_xattr,
				     &obj) < 0) {".

Definition new_inject : text :=
  lit "		if ((ino % 7) == 0 ||
		    scan_read_xattrs(wk, ino, sink->ss_want_xattr,
				     &obj) < 0) {".

Definition old_control : text :=
  lit "	if (why != LLAPI_SCAN_SKIP_XATTR)
		w->sw_stats.ss_seen++;".

Definition new_control : text :=
  lit "	(void)why;
	w->sw_stats.ss_seen++;".

Definition old_dbg : text :=
  lit "	find_rec_to_lmd(rec, param);".

Definition new_dbg : text :=
  lit "	find_rec_to_lmd(rec, param);
	fprintf(stderr,
		\qDBG rec: valid=0x%llx SIZE=%d size=%llu | lmd: FLSIZE=%d stx_size=%llu mode=0%o\\n\q,
		(unsigned long long)rec->sr_valid,
		!!(rec->sr_valid & LLAPI_SCAN_SIZE),
		(unsigned long long)rec->sr_size_bytes,
		!!(param->fp_lmd->lmd_flags & OBD_MD_FLSIZE),
		(unsigned long long)param->fp_lmd->lmd_stx.stx_size,
		param->fp_lmd->lmd_stx.stx_mode);".

Definition old2_dbg : text :=
  lit "		if (path == NULL && d == -1 && de == NULL) {
			fc->fc_undecided = true;
			return 0;
		}".

Definition new2_dbg : text :=
  lit "		if (path == NULL && d == -1 && de == NULL) {
			fprintf(stderr,
				\qDBG undecided: decision=%d gather_all=%d check_size=%d stripe_count=%d flags=0x%llx\\n\q,
				decision, gather_all, param->fp_check_size,
				stripe_count, (unsigned long long)flags);
			fc->fc_undecided = true;
			return 0;
		}".

(** ** The scripts *)

(** [if old not in s: sys.exit(msg)], or [assert old in s, msg], then
    [s.replace(old, new)] ([first = false]) or [s.replace(old, new, 1)]. *)
Definition cut (old new : text) (first : bool) (why : exn) (p : string) (fs : files)
    : files * res unit :=
  match R3.read fs p with
  | None => (fs, Raise (FileNotFoundError p))
  | Some s =>
      if negb (py_in old s) then (fs, Raise why)
      else (<[p := if first then py_replace_n old new s 1 else py_replace old new s]> fs, Ok ())
  end.

Definition PFIND (root : string) : string := root +:+ "/lustre/utils/liblustreapi_pfind.c".
Definition DEVICE (root : string) : string :=
  root +:+ "/lustre/utils/liblustreapi_scan_device.c".
Definition LDISKFS (root : string) : string := root +:+ "/lustre/utils/libscan_ldiskfs.c".

Definition cut_bound : string → files → files * res unit :=
  cut old_bound new_bound false
    (SystemExit "NOBOUND CUT DID NOT MATCH -- find_cookie_read() has changed").

Definition cut_glimpse : string → files → files * res unit :=
  cut old_glimpse new_glimpse true (SystemExit "NOGLIMPSE PATCH DID NOT MATCH").

Definition cut_guard : string → files → files * res unit :=
  cut old_guard [] true
    (SystemExit "CONTROL PATCH DID NOT MATCH -- the guard block has changed").

Definition cut_header : string → files → files * res unit :=
  cut old_header new_header false
    (SystemExit "NOHEADER CUT DID NOT MATCH -- find_cookie_read() has changed").

Definition cut_fidfallback (root : string) : files → files * res unit :=
  cut old_fidfallback new_fidfallback false
    (AssertionError "fc_fid_when_lost assignment not found") (PFIND root).

Definition cut_links (root : string) : files → files * res unit :=
  cut old_links new_links false
    (AssertionError "find_since_pick's enumeration guard not found") (PFIND root).

Definition cut_fid : string → files → files * res unit :=
  cut old_fid new_fid false
    (SystemExit "NOFID CUT DID NOT MATCH -- convert_lmd_statx() has changed").

(** [f"{arm.upper()} PATCH DID NOT MATCH"] for the two arms there are *)
Definition cut_resolve (arm p : string) (fs : files) : files * res unit :=
  match R3.read fs p with
  | None => (fs, Raise (FileNotFoundError p))
  | Some _ =>
      if String.eqb arm "nopath" then
        cut old_nopath new_nopath true (SystemExit "NOPATH PATCH DID NOT MATCH") p fs
      else if String.eqb arm "nosubtree" then
        cut old_nosubtree new_nosubtree true (SystemExit "NOSUBTREE PATCH DID NOT MATCH") p fs
      else (fs, Raise (SystemExit ("unknown arm " +:+ arm)))
  end.

(** One step after another; an exception ends the script. *)
Definition andthen (x : files * res unit) (k : files → files * res unit) : files * res unit :=
  match x with
  | (fs, Ok _) => k fs
  | (fs, Raise e) => (fs, Raise e)
  end.

Definition cut_lastid (d : string) (fs : files) : files * res unit :=
  andthen (cut fixed_order unfixed_order true
             (AssertionError "the fixed order is not there") (DEVICE d) fs)
    (cut fixed_einval unfixed_einval true
       (AssertionError "the -EINVAL arm is not there") (PFIND d)).

Definition cut_stats (arm root : string) (fs : files) : files * res unit :=
  andthen (cut old_inject new_inject false (AssertionError "xattr call not found")
             (LDISKFS root) fs)
    (λ fs, if String.eqb arm "control"
           then cut old_control new_control false (AssertionError "skip guard not found")
                  (DEVICE root) fs
           else (fs, Ok ())).

(** dbg-resolve replaces two texts and writes the file once, at the end. *)
Definition dbg_resolve (p : string) (fs : files) : files * res unit :=
  match R3.read fs p with
  | None => (fs, Raise (FileNotFoundError p))
  | Some s =>
      if negb (py_in old_dbg s)
      then (fs, Raise (SystemExit "DBG: find_rec_to_lmd call site not found"))
      else
        let s := py_replace_n old_dbg new_dbg s 1 in
        if negb (py_in old2_dbg s)
        then (fs, Raise (SystemExit "DBG: undecided site not found"))
        else (<[p := py_replace_n old2_dbg new2_dbg s 1]> fs, Ok ())
  end.

Definition statx_mark : text := lit "\qerror: %s: statx failed for %s\q".
Definition statx_if : text := lit "#ifdef HAVE_STATX".
Definition statx_arm : text := lit "#if 0	/* NOSTATX ARM */".

Definition cut_statx (p : string) (fs : files) : files * res unit :=
  match R3.read fs p with
  | None => (fs, Raise (FileNotFoundError p))
  | Some s =>
      match py_find statx_mark s with
      | None => (fs, Raise (SystemExit
                   "NOSTATX CUT DID NOT MATCH -- no statx in the ENOTTY fallback"))
      | Some k =>
          match py_rfind statx_if (take k s) with
          | None => (fs, Raise (ValueError "substring not found"))
          | Some i =>
              (<[p := take i s ++ statx_arm ++ drop (i + length statx_if) s]> fs, Ok ())
          end
      end
  end.
