(* ===== verification/ArmsTheorems.v ===== *)
(** What the control-arm cutters of Arms.v guarantee: an arm is cut in or the
    script stops; most arms stop when run again; and where a script cuts two files
    it can stop half way. *)
From S2P Require Import Prelude PyStr Stable R3Engine R3Facts R3Idem Arms.

(** An arm on one file: the script, the text it looks for, the text it leaves and
    how it stops. *)
Record arm := Arm {
  arm_cut : string → files → files * res unit;
  arm_old : text;
  arm_new : text;
  arm_first : bool;
  arm_stop : exn;
}.

Definition arms : list arm := [
  Arm cut_bound old_bound new_bound false
    (SystemExit "NOBOUND CUT DID NOT MATCH -- find_cookie_read() has changed");
  Arm cut_glimpse old_glimpse new_glimpse true (SystemExit "NOGLIMPSE PATCH DID NOT MATCH");
  Arm cut_header old_header new_header false
    (SystemExit "NOHEADER CUT DID NOT MATCH -- find_cookie_read() has changed");
  Arm cut_fid old_fid new_fid false
    (SystemExit "NOFID CUT DID NOT MATCH -- convert_lmd_statx() has changed");
  Arm (cut_resolve "nopath") old_nopath new_nopath true
    (SystemExit "NOPATH PATCH DID NOT MATCH");
  Arm (cut_resolve "nosubtree") old_nosubtree new_nosubtree true
    (SystemExit "NOSUBTREE PATCH DID NOT MATCH")].

Definition arm_ok (a : arm) : bool :=
  negb (bool_decide (arm_old a = [])) && crfree (arm_new a) &&
  self_clearing (arm_old a) (arm_new a).

Lemma arms_ok : forallb arm_ok arms = true.
Proof. vm_compute. reflexivity. Qed.

(** Every arm of the list is [cut] with its texts. *)
Lemma arms_cut a p fs :
  a ∈ arms → arm_cut a p fs = cut (arm_old a) (arm_new a) (arm_first a) (arm_stop a) p fs.
Proof.
  unfold arms. rewrite !elem_of_cons. intros Ha.
  destruct_or! Ha; [subst a; try reflexivity..|by apply not_elem_of_nil in Ha];
    cbn [arm_cut arm_old arm_new arm_first arm_stop]; unfold cut_resolve, cut;
    cbn [String.eqb Ascii.eqb Bool.eqb]; by destruct (R3.read fs p).
Qed.

(** The text a cut leaves in the file. *)
Lemma cut_text old new first s :
  old ≠ [] → py_in old s = true →
  py_in new (if first : bool then py_replace_n old new s 1 else py_replace old new s) = true.
Proof.
  intros Hne Hin. destruct first; [|by apply replace_new_in].
  apply py_in_occ in Hin as [i Hi]. destruct (py_find old s) as [k|] eqn:Hk.
  - pose proof Hk as Hk'. apply find_split in Hk' as (a & b & -> & <-).
    rewrite replace_first by done. apply py_in_mid.
  - rewrite py_find_None in Hk. by apply Hk in Hi.
Qed.

Lemma cut_crfree old new first s :
  old ≠ [] → crfree new = true → crfree s = true →
  crfree (if first : bool then py_replace_n old new s 1 else py_replace old new s) = true.
Proof. intros. destruct first; by apply replace_crfree. Qed.

Lemma read_insert (fs : files) p s : crfree s = true → R3.read (<[p := s]> fs) p = Some s.
Proof. intros Hs. unfold R3.read. rewrite lookup_insert_eq. simpl. by rewrite crfree_universal. Qed.

Lemma arm_in_ok a : a ∈ arms →
  arm_old a ≠ [] ∧ crfree (arm_new a) = true ∧ self_clearing (arm_old a) (arm_new a) = true.
Proof.
  intros Ha. pose proof arms_ok as H. rewrite forallb_forall in H.
  specialize (H a (proj1 (list_elem_of_In _ _) Ha)). unfold arm_ok in H. bools.
  case_bool_decide; [done|]. done.
Qed.

(** A control arm is cut in or the script stops.  If the text the arm cuts is not in
    the file, the script exits with its own message and no file changes; if it
    is, only that file changes, and the text of the arm is in it. *)
Theorem arm_cut_or_stop a p fs s :
  a ∈ arms → R3.read fs p = Some s →
  (py_in (arm_old a) s = false ∧ arm_cut a p fs = (fs, Raise (arm_stop a))) ∨
  (py_in (arm_old a) s = true ∧ ∃ t, arm_cut a p fs = (<[p := t]> fs, Ok ()) ∧
     py_in (arm_new a) t = true).
Proof.
  intros Ha Hs. rewrite arms_cut by done. destruct (arm_in_ok a Ha) as (Hne & _ & _).
  unfold cut. rewrite Hs. destruct (py_in (arm_old a) s) eqn:Hin; [right|by left].
  split; [done|]. eexists. split; [reflexivity|]. by apply cut_text.
Qed.

(** A control arm cannot be cut in twice: where the text it cuts is there once, the
    script run again on the file it wrote exits with its message and changes
    nothing. *)
Theorem arm_rerun_stops a p fs s fs' :
  a ∈ arms → R3.read fs p = Some s → py_count (arm_old a) s = 1 →
  arm_cut a p fs = (fs', Ok ()) → arm_cut a p fs' = (fs', Raise (arm_stop a)).
Proof.
  intros Ha Hs Hc. rewrite !arms_cut by done. destruct (arm_in_ok a Ha) as (Hne & Hcr & Hsc).
  unfold cut. rewrite Hs. destruct (py_in (arm_old a) s) eqn:Hin; [|done]. cbn [negb].
  intros [= <-]. rewrite read_insert by (apply cut_crfree; [done..|by eapply read_crfree]).
  destruct (self_clearing_absent _ _ s Hsc Hne Hc) as (x & y & -> & Hf & Hout).
  assert ((if arm_first a then py_replace_n (arm_old a) (arm_new a) (x ++ arm_old a ++ y) 1
           else py_replace (arm_old a) (arm_new a) (x ++ arm_old a ++ y))
          = x ++ arm_new a ++ y) as ->; [|by rewrite Hout].
  destruct (arm_first a); [by apply replace_first|].
  destruct (count_one_split _ Hne _ Hc) as (u & v & Heq & Hf' & Hv).
  rewrite Hf in Hf'. injection Hf' as Hl. apply app_inj_1 in Heq as [<- Heq]; [|done].
  apply app_inv_head in Heq as <-. by apply replace_all_first.
Qed.

(** cut-statx turns off the last [#ifdef HAVE_STATX] above the first statx error
    message and nothing else, and stops without writing when there is none. *)
Theorem cut_statx_spec p fs s :
  R3.read fs p = Some s →
  (∃ e, cut_statx p fs = (fs, Raise e) ∧
     (py_in statx_mark s = false ∨
      ∃ k, py_find statx_mark s = Some k ∧ ∀ j, ¬ occ statx_if (take k s) j)) ∨
  (∃ a b c, s = a ++ statx_if ++ b ++ statx_mark ++ c ∧
     py_find statx_mark s = Some (length (a ++ statx_if ++ b)) ∧
     (∀ j, occ statx_if (a ++ statx_if ++ b) j → j ≤ length a) ∧
     cut_statx p fs = (<[p := a ++ statx_arm ++ b ++ statx_mark ++ c]> fs, Ok ())).
Proof.
  intros Hs. unfold cut_statx. rewrite Hs.
  destruct (py_find statx_mark s) as [k|] eqn:Hk.
  2: { left. eexists. split; [done|]. left. unfold py_in. by rewrite Hk. }
  destruct (py_rfind statx_if (take k s)) as [i|] eqn:Hi.
  2: { left. eexists. split; [done|]. right. exists k. split; [done|]. by apply py_rfind_None. }
  right. pose proof Hk as (x & c & -> & <-)%find_split.
  rewrite take_app_length in Hi. apply py_rfind_Some in Hi as [(a & b & -> & <-) Hm].
  exists a, b, c. rewrite <-!app_assoc in *. do 2 (split; [done|]). split; [done|].
  rewrite take_app_length. do 3 f_equal.
  rewrite (app_assoc a statx_if). f_equal. apply drop_app_length'. by rewrite length_app.
Qed.

Lemma DEVICE_PFIND d : DEVICE d ≠ PFIND d.
Proof. unfold DEVICE, PFIND. intros H. apply (inj (String.append d)) in H. discriminate. Qed.

(** cut-lastid cuts two files one after the other.  It returns only with both cut; if
    the second text is missing it stops with the first file already cut, and if
    the first is missing nothing has changed. *)
Theorem cut_lastid_outcomes d fs dev pf :
  R3.read fs (DEVICE d) = Some dev → R3.read fs (PFIND d) = Some pf →
  let dev' := py_replace_n fixed_order unfixed_order dev 1 in
  let pf' := py_replace_n fixed_einval unfixed_einval pf 1 in
  cut_lastid d fs =
  if py_in fixed_order dev then
    if py_in fixed_einval pf then (<[PFIND d := pf']> (<[DEVICE d := dev']> fs), Ok ())
    else (<[DEVICE d := dev']> fs, Raise (AssertionError "the -EINVAL arm is not there"))
  else (fs, Raise (AssertionError "the fixed order is not there")).
Proof.
  intros Hd Hp. cbv zeta. unfold cut_lastid, cut at 1. rewrite Hd.
  destruct (py_in fixed_order dev); [|done]. cbn [negb andthen]. unfold cut.
  assert (R3.read (<[DEVICE d := py_replace_n fixed_order unfixed_order dev 1]> fs) (PFIND d)
          = Some pf) as ->; [|by destruct (py_in fixed_einval pf)].
  unfold R3.read. rewrite lookup_insert_ne; [done|]. apply DEVICE_PFIND.
Qed.

(** ** Instances *)

(** A file with the text of an arm in it once. *)
Definition bound_file : text := lit "{
" ++ old_bound ++ lit "}
".

Definition bound_tree : files := {["pfind.c" := bound_file]}.

Lemma arm_cut_or_stop_witness :
  py_in (arm_old (Arm cut_bound old_bound new_bound false
    (SystemExit "NOBOUND CUT DID NOT MATCH -- find_cookie_read() has changed"))) bound_file = true ∧
  ∃ t, cut_bound "pfind.c" bound_tree = (<["pfind.c" := t]> bound_tree, Ok ()) ∧
       py_in new_bound t = true.
Proof.
  destruct (arm_cut_or_stop (Arm cut_bound old_bound new_bound false
    (SystemExit "NOBOUND CUT DID NOT MATCH -- find_cookie_read() has changed"))
    "pfind.c" bound_tree bound_file) as [[H _]|H].
  - by left.
  - vm_compute. reflexivity.
  - vm_compute in H. discriminate.
  - exact H.
Defined.

Lemma arm_rerun_stops_witness :
  cut_bound "pfind.c" (cut_bound "pfind.c" bound_tree).1 =
  ((cut_bound "pfind.c" bound_tree).1,
   Raise (SystemExit "NOBOUND CUT DID NOT MATCH -- find_cookie_read() has changed")).
Proof.
  apply (arm_rerun_stops (Arm cut_bound old_bound new_bound false
    (SystemExit "NOBOUND CUT DID NOT MATCH -- find_cookie_read() has changed"))
    "pfind.c" bound_tree bound_file).
  - by left.
  - vm_compute. reflexivity.
  - vm_compute. reflexivity.
  - vm_compute. reflexivity.
Defined.

Definition statx_file : text := lit "#ifdef HAVE_STATX
a
#endif
#ifdef HAVE_STATX
b " ++ statx_mark ++ lit "
#endif
".

Lemma cut_statx_spec_witness :
  (∃ e, cut_statx "f" {["f" := statx_file]} = ({["f" := statx_file]}, Raise e) ∧
     (py_in statx_mark statx_file = false ∨
      ∃ k, py_find statx_mark statx_file = Some k ∧ ∀ j, ¬ occ statx_if (take k statx_file) j)) ∨
  (∃ a b c, statx_file = a ++ statx_if ++ b ++ statx_mark ++ c ∧
     py_find statx_mark statx_file = Some (length (a ++ statx_if ++ b)) ∧
     (∀ j, occ statx_if (a ++ statx_if ++ b) j → j ≤ length a) ∧
     cut_statx "f" {["f" := statx_file]} =
       (<["f" := a ++ statx_arm ++ b ++ statx_mark ++ c]> {["f" := statx_file]}, Ok ())).
Proof. apply (cut_statx_spec "f" {["f" := statx_file]} statx_file). vm_compute. reflexivity. Defined.

Lemma cut_lastid_outcomes_witness :
  let fs : files := {[ DEVICE "t" := fixed_order; PFIND "t" := lit "x" ]} in
  cut_lastid "t" fs =
  (<[DEVICE "t" := py_replace_n fixed_order unfixed_order fixed_order 1]> fs,
   Raise (AssertionError "the -EINVAL arm is not there")).
Proof.
  cbv zeta.
  apply (cut_lastid_outcomes "t" {[ DEVICE "t" := fixed_order; PFIND "t" := lit "x" ]}
           fixed_order (lit "x")); vm_compute; reflexivity.
Defined.
