(* ===== verification/Churn.v ===== *)
(** The stale-record lab, tests/lab-1020-stale: churn.py, which creates and unlinks
    numbered files, and check.py, which finds the records that pair the FID of one
    file with the name of another. *)
From S2P Require Import Prelude PyStr PyParse.

(** ** churn.py *)

(** The directory by the numbers of its c<i>, and the next number. *)
Record churn_state := Churn { ch_dir : gset Z; ch_i : Z }.

(** One turn of the inner loop. *)
Definition churn_step (k : Z) (st : churn_state) : res churn_state :=
  let i := ch_i st in
  let dir := ch_dir st ∪ {[i]} in
  if (k <=? i)%Z then
    if bool_decide ((i - k)%Z ∈ dir) then Ok (Churn (dir ∖ {[(i - k)%Z]}) (i + 1)%Z)
    else Raise (FileNotFoundError "c%d")
  else Ok (Churn dir (i + 1)%Z).

Fixpoint churn_steps (n : nat) (k : Z) (st : churn_state) : res churn_state :=
  match n with
  | 0 => Ok st
  | S n' => let! st' := churn_step k st in churn_steps n' k st'
  end.

(** [while not os.path.exists(stop)], with the answers of the test in order; the
    answers run out while the stop file is still awaited. *)
Fixpoint churn (k : Z) (exists_stop : list bool) (st : churn_state) : res churn_state :=
  match exists_stop with
  | [] => Ok st
  | true :: _ => Ok st
  | false :: rest => let! st' := churn_steps 100 k st in churn k rest st'
  end.

(** ** check.py *)

Record pair := Pair { p_seq : text; p_delta : Z; p_fid : text; p_name : text }.

(** [dseq, doid = dirfid.split(":")[:2]] *)
Definition two (l : list text) : res (text * text) :=
  match l with
  | [x; y] => Ok (x, y)
  | _ => Raise (ValueError "not enough or too many values to unpack")
  end.

(** The loop body: [None] is [continue]. *)
Definition check_line (dseq doid : text) (line : text) : res (option pair) :=
  match py_split line with
  | f0 :: _ :: f2 :: f3 :: _ =>
      if negb (py_startswith f2 (lit "c")) then Ok None
      else
        let! p := two (py_split_on ":" f3) in
        let! ps := py_int 16 p.1 in
        let! ds := py_int 16 dseq in
        if negb (ps =? ds)%Z then Ok None
        else
          let! po := py_int 16 p.2 in
          let! d := py_int 16 doid in
          if negb (po =? d)%Z then Ok None
          else
            let! q := two (take 2 (py_split_on ":" f0)) in
            let! oid := py_int 16 q.2 in
            let! i := py_int 10 (drop 1 f2) in
            Ok (Some (Pair q.1 (oid - i)%Z f0 f2))
  | _ => Ok None
  end.

Fixpoint check_lines (dseq doid : text) (lines : list text) : res (list pair) :=
  match lines with
  | [] => Ok []
  | l :: lines' =>
      let! p := check_line dseq doid l in
      let! ps := check_lines dseq doid lines' in
      Ok (match p with Some p => p :: ps | None => ps end)
  end.

(** [Counter(...).most_common(1)[0][0]]: the value that occurs most, the first met
    of those that do. *)
Definition occurrences (x : Z) (l : list Z) : nat := length (List.filter (Z.eqb x) l).

Fixpoint most_common_from (all : list Z) (best : Z) (l : list Z) : Z :=
  match l with
  | [] => best
  | x :: l' =>
      most_common_from all
        (if occurrences best all <? occurrences x all then x else best) l'
  end.

Definition most_common (l : list Z) : option Z :=
  match l with [] => None | x :: l' => Some (most_common_from l x l') end.

(** [[p[1] for p in pairs if p[0] == seq]] *)
Definition deltas (seq : text) (pairs : list pair) : list Z :=
  p_delta <$> List.filter (λ p, bool_decide (p_seq p = seq)) pairs.

(** [mode[seq]] *)
Definition mode (pairs : list pair) (seq : text) : option Z := most_common (deltas seq pairs).

Definition mixed (pairs : list pair) : list pair :=
  List.filter (λ p, negb (bool_decide (mode pairs (p_seq p) = Some (p_delta p)))) pairs.

(** [sys.argv[2].strip("[]")] *)
Fixpoint lstrip_brackets (s : text) : text :=
  match s with
  | c :: s' => if Ascii.eqb c "[" || Ascii.eqb c "]" then lstrip_brackets s' else s
  | [] => []
  end.

Definition strip_brackets (s : text) : text :=
  rev (lstrip_brackets (rev (lstrip_brackets s))).

(** The script: the pairs and the mixed ones. *)
Definition check (lines : list text) (dirfid : text) : res (list pair * list pair) :=
  let! d := two (take 2 (py_split_on ":" (strip_brackets dirfid))) in
  let! pairs := check_lines d.1 d.2 lines in
  Ok (pairs, mixed pairs).

(** ** Facts *)

Section churn_facts.
Context (k : Z) (Hk : (0 ≤ k)%Z).

(** The directory holds the last [k] files made. *)
Definition churn_inv (st : churn_state) : Prop :=
  (0 ≤ ch_i st)%Z ∧
  ∀ j, j ∈ ch_dir st ↔ (0 ≤ j ∧ ch_i st - k ≤ j ∧ j < ch_i st)%Z.

Lemma churn_step_inv st :
  churn_inv st → ∃ st', churn_step k st = Ok st' ∧ churn_inv st' ∧ ch_i st' = (ch_i st + 1)%Z.
Proof.
  destruct st as [dir i]. unfold churn_inv, churn_step. cbn [ch_i ch_dir]. intros [Hi Hd].
  destruct (Z.leb_spec k i) as [Hle|Hlt].
  - rewrite bool_decide_eq_true_2.
    + eexists. split; [reflexivity|]. cbn [ch_i ch_dir]. split; [|done]. split; [lia|].
      intros j. rewrite elem_of_difference, elem_of_union, !elem_of_singleton, Hd. lia.
    + rewrite elem_of_union, elem_of_singleton, Hd. lia.
  - eexists. split; [reflexivity|]. cbn [ch_i ch_dir]. split; [|done]. split; [lia|].
    intros j. rewrite elem_of_union, elem_of_singleton, Hd. lia.
Qed.

Lemma churn_steps_inv n st :
  churn_inv st →
  ∃ st', churn_steps n k st = Ok st' ∧ churn_inv st' ∧ ch_i st' = (ch_i st + Z.of_nat n)%Z.
Proof.
  revert st. induction n as [|n IH]; intros st Hst; cbn [churn_steps].
  - exists st. split; [done|]. split; [done|]. lia.
  - destruct (churn_step_inv st Hst) as (st1 & -> & H1 & Hi1). cbn [res_bind].
    destruct (IH st1 H1) as (st2 & -> & H2 & Hi2). exists st2. do 2 (split; [done|]). lia.
Qed.
End churn_facts.

Section check_facts.
Implicit Types (l : list Z) (x y : Z) (pairs : list pair).

(** A value more frequent than every other one is the most common. *)
Lemma most_common_from_spec all x best l :
  (∀ y, y ∈ all → y ≠ x → occurrences y all < occurrences x all) →
  best ∈ all → (∀ y, y ∈ l → y ∈ all) → best = x ∨ x ∈ l → most_common_from all best l = x.
Proof.
  intros Hx. revert best. induction l as [|z l IH]; intros best Hb Hl Hin; simpl.
  { destruct Hin as [->|Hin]; [done|]. by apply not_elem_of_nil in Hin. }
  assert (∀ y, y ∈ l → y ∈ all) as Hl' by (intros; apply Hl; by right).
  assert (z ∈ all) as Hz by (apply Hl; by left).
  destruct (occurrences best all <? occurrences z all) eqn:E; bools; apply IH; try done.
  - destruct (decide (z = x)) as [|Hzx]; [by left|]. right.
    destruct Hin as [->|Hin]; [specialize (Hx z Hz Hzx); lia|].
    apply elem_of_cons in Hin as [->|Hin]; done.
  - destruct (decide (best = x)) as [|Hbx]; [by left|]. right.
    destruct Hin as [->|Hin]; [done|]. apply elem_of_cons in Hin as [->|Hin]; [|done].
    specialize (Hx best Hb Hbx). lia.
Qed.

Lemma most_common_spec l x :
  x ∈ l → (∀ y, y ∈ l → y ≠ x → occurrences y l < occurrences x l) → most_common l = Some x.
Proof.
  intros Hx Ho. destruct l as [|z l]; [by apply not_elem_of_nil in Hx|]. simpl. f_equal.
  apply most_common_from_spec; [done|by left|intros; by right|].
  apply elem_of_cons in Hx as [->|Hx]; auto.
Qed.

Lemma occurrences_split x y l : x ≠ y → occurrences x l + occurrences y l ≤ length l.
Proof.
  intros Hxy. unfold occurrences. induction l as [|z l IH]; simpl; [lia|].
  destruct (Z.eqb_spec x z), (Z.eqb_spec y z); simpl; lia || congruence.
Qed.

(** A strict majority is the most common value. *)
Lemma most_common_majority l x : length l < 2 * occurrences x l → most_common l = Some x.
Proof.
  intros Hm. apply most_common_spec.
  - unfold occurrences in Hm. destruct (List.filter (Z.eqb x) l) as [|y f] eqn:E; [simpl in Hm; lia|].
    assert (In y (List.filter (Z.eqb x) l)) as Hy by (rewrite E; by left).
    apply filter_In in Hy as [Hy He]. apply Z.eqb_eq in He as <-. by apply list_elem_of_In.
  - intros y _ Hy. pose proof (occurrences_split x y l ltac:(congruence)). lia.
Qed.
End check_facts.

(** ** Theorems *)

(** How often [while not os.path.exists(stop)] goes round. *)
Fixpoint rounds (answers : list bool) : nat :=
  match answers with false :: rest => S (rounds rest) | _ => 0 end.

Lemma churn_rounds k answers st :
  (0 ≤ k)%Z → churn_inv k st →
  ∃ st', churn k answers st = Ok st' ∧ churn_inv k st' ∧
         ch_i st' = (ch_i st + 100 * Z.of_nat (rounds answers))%Z.
Proof.
  intros Hk. revert st. induction answers as [|[] answers IH]; intros st Hst; cbn [churn rounds].
  1,2: exists st; do 2 (split; [done|]); lia.
  destruct (churn_steps_inv k Hk 100 st Hst) as (st1 & -> & H1 & Hi1). cbn [res_bind].
  destruct (IH st1 H1) as (st2 & -> & H2 & Hi2). exists st2. do 2 (split; [done|]). lia.
Qed.

(** churn.py in an empty directory never fails to unlink a file, makes a hundred
    files a round, and whenever it stops the directory holds exactly the last K
    files it made. *)
Theorem churn_window k answers :
  (0 ≤ k)%Z →
  ∃ st, churn k answers (Churn ∅ 0) = Ok st ∧
    ch_i st = (100 * Z.of_nat (rounds answers))%Z ∧
    ∀ j, j ∈ ch_dir st ↔ (0 ≤ j ∧ ch_i st - k ≤ j ∧ j < ch_i st)%Z.
Proof.
  intros Hk. destruct (churn_rounds k answers (Churn ∅ 0) Hk) as (st & Hc & [_ Hd] & Hi).
  - split; cbn [ch_i ch_dir]; [lia|]. intros j. rewrite elem_of_empty. lia.
  - exists st. split; [done|]. split; [|done]. simpl in Hi. lia.
Qed.

Lemma churn_window_witness :
  (0 ≤ 3)%Z ∧
  ∃ st, churn 3 [false; false; true] (Churn ∅ 0) = Ok st ∧ ch_i st = 200%Z ∧
    ∀ j, j ∈ ch_dir st ↔ (0 ≤ j ∧ ch_i st - 3 ≤ j ∧ j < ch_i st)%Z.
Proof. split; [lia|]. apply (churn_window 3 [false; false; true]). lia. Defined.

(** check.py reports exactly the mixed records.  If in every sequence more than half
    of the records pair a FID with its own file's name, that is, have the true
    difference of object id and number, then the records listed as mixed are
    those with another difference, in the order read. *)
Theorem check_finds_mixed lines dirfid pairs bad (truth : text → Z) :
  check lines dirfid = Ok (pairs, bad) →
  (∀ p, p ∈ pairs →
     length (deltas (p_seq p) pairs) < 2 * occurrences (truth (p_seq p)) (deltas (p_seq p) pairs)) →
  bad = List.filter (λ p, negb (p_delta p =? truth (p_seq p))%Z) pairs.
Proof.
  unfold check. intros Hc Hm.
  apply res_bind_Ok in Hc as (d & _ & Hc). apply res_bind_Ok in Hc as (ps & _ & [= <- <-]).
  unfold mixed. apply filter_ext_in. intros p Hp. apply list_elem_of_In in Hp.
  unfold mode. rewrite (most_common_majority _ _ (Hm p Hp)). f_equal.
  destruct (Z.eqb_spec (p_delta p) (truth (p_seq p))) as [->|Hne].
  - by rewrite bool_decide_eq_true_2.
  - rewrite bool_decide_eq_false_2; [done|]. intros [= H]. by apply Hne.
Qed.

(** Five records of the churn directory, one of them mixed, and a file elsewhere. *)
Definition demo_lines : list text :=
  [lit "0x200000401:0x15:0x0 r c5 0x200000400:0x3
"; lit "0x200000401:0x16:0x0 r c6 0x200000400:0x3
"; lit "0x200000401:0x17:0x0 r c3 0x200000400:0x3
"; lit "0x200000401:0x18:0x0 r c8 0x200000400:0x3
"; lit "0x200000999:0x18:0x0 r c1 0x200000400:0x4
"].

Definition demo_pair (oid delta name : string) : pair :=
  Pair (lit "0x200000401") (match py_int 10 (lit delta) with Ok z => z | _ => 0%Z end)
    (lit ("0x200000401:" +:+ oid +:+ ":0x0")) (lit name).

Lemma check_finds_mixed_witness :
  check demo_lines (lit "[0x200000400:0x3:0x0]") =
    Ok ([demo_pair "0x15" "16" "c5"; demo_pair "0x16" "16" "c6"; demo_pair "0x17" "20" "c3";
         demo_pair "0x18" "16" "c8"], [demo_pair "0x17" "20" "c3"]) ∧
  [demo_pair "0x17" "20" "c3"] =
    List.filter (λ p, negb (p_delta p =? 16)%Z)
      [demo_pair "0x15" "16" "c5"; demo_pair "0x16" "16" "c6"; demo_pair "0x17" "20" "c3";
       demo_pair "0x18" "16" "c8"].
Proof.
  assert (check demo_lines (lit "[0x200000400:0x3:0x0]") =
    Ok ([demo_pair "0x15" "16" "c5"; demo_pair "0x16" "16" "c6"; demo_pair "0x17" "20" "c3";
         demo_pair "0x18" "16" "c8"], [demo_pair "0x17" "20" "c3"])) as H
    by (vm_compute; reflexivity).
  split; [exact H|].
  apply (check_finds_mixed demo_lines (lit "[0x200000400:0x3:0x0]") _ _ (λ _, 16%Z) H).
  intros p Hp. assert (p_seq p = lit "0x200000401") as ->.
  { repeat (apply elem_of_cons in Hp as [->|Hp]; [reflexivity|]). by apply not_elem_of_nil in Hp. }
  vm_compute. lia.
Defined.
