(* ===== verification/Lift.v ===== *)
(** The function lifters of the harnesses: tests/lift/lift.py with lift_lmv.py and
    lift_root.py, tests/lab-1019h/lift.py and tests/lab-1019d/b1/lift.py.  They cut a
    function out of a C file by name so that a harness compiles the code itself.

    The regular expressions are written out as scans: [^] with re.M is the start of
    the text or the byte after a newline, [.] is any byte but a newline. *)
From S2P Require Import Prelude PyStr R3Engine R3Facts PyRe.

(** [.*\bNAME\(] after the byte [prev] of a line *)
Fixpoint sig_in (name : text) (prev : ascii) (r : text) : bool :=
  (xorb (is_word prev) (match r with c :: _ => is_word c | [] => false end) &&
   py_startswith r (name ++ lit "(")) ||
  match r with
  | [] => false
  | c :: r' => if Ascii.eqb c nl then false else sig_in name c r'
  end.

(** [re.search(r'^[a-zA-Z_].*\bNAME\(', s, re.M).start()] *)
Fixpoint def_pos (name : text) (s : text) (bol : bool) (i : nat) : option nat :=
  match s with
  | [] => None
  | c :: s' =>
      if bol && is_alpha_ c && sig_in name c s' then Some i
      else def_pos name s' (Ascii.eqb c nl) (S i)
  end.

(** The brace loop: the index of the brace that closes the first one opened. *)
Fixpoint brace_end (s : text) (depth : Z) (seen : bool) (i : nat) : option nat :=
  match s with
  | [] => None
  | c :: s' =>
      if Ascii.eqb c "{" then brace_end s' (depth + 1) true (S i)
      else if Ascii.eqb c "}" then
        if seen && (depth - 1 =? 0)%Z then Some i else brace_end s' (depth - 1) seen (S i)
      else brace_end s' depth seen (S i)
  end.

Definition py_endswith (s x : text) : bool := py_startswith (rev s) (rev x).

(** [s[start:stop]] where [start] may be -1, the answer of a failed [rfind] *)
Definition slice_from (s : text) (start : option nat) (stop : nat) : text :=
  match start with
  | Some i => py_slice s i stop
  | None => py_slice s (length s - 1) stop
  end.

(** [lift(path, name)] on the text of the file *)
Definition lift (s name : text) (path : string) : res text :=
  match def_pos name s true 0 with
  | None => Raise (SystemExit ("no definition of " +:+ String.string_of_list_ascii name
                               +:+ " in " +:+ path))
  | Some m =>
      let head := py_rstrip (take m s) in
      let start := if py_endswith head (lit "*/") then py_rfind (lit "/*") head else Some m in
      match brace_end (drop m s) 0 false m with
      | Some i => Ok (slice_from s start (i + 1) ++ [nl])
      | None => Raise (SystemExit ("unbalanced braces for " +:+ String.string_of_list_ascii name))
      end
  end.

Abbreviation files := (gmap string text).

Definition lift_file (fs : files) (path : string) (name : text) : res text :=
  match R3.read fs path with
  | None => Raise (FileNotFoundError path)
  | Some s => lift s name path
  end.

(** lift.py *)
Definition lift_main (T : string) (fs : files) : res text :=
  let! a := lift_file fs (T +:+ "/lustre/utils/liblustreapi_scan_device.c") (lit "scan_linkea_entry") in
  let! b := lift_file fs (T +:+ "/lustre/utils/liblustreapi_pfind.c") (lit "find_prefilter") in
  let! c := lift_file fs (T +:+ "/lustre/utils/liblustreapi_pfind.c") (lit "find_device_prefilter") in
  Ok (a ++ b ++ c).

(** lift_lmv.py and lift_root.py *)
Definition lift_lmv (T : string) (fs : files) : res text :=
  let! s := lift_file fs (T +:+ "/lustre/utils/liblustreapi_scan_device.c") (lit "scan_lmv_to_user") in
  Ok (py_replace_n (lit "static __u32 scan_lmv_to_user") (lit "__u32 scan_lmv_to_user") s 1).

Definition lift_root (T : string) (fs : files) : res text :=
  let! s := lift_file fs (T +:+ "/lustre/utils/liblustreapi_scan_device.c") (lit "scan_classify") in
  Ok (py_replace_n (lit "static enum llapi_scan_class scan_classify")
        (lit "enum llapi_scan_class scan_classify") s 1).

(** [grab(src, sig)] of lab-1019d/b1/lift.py on the text of the file *)
Definition body_end : text := lit "
}
".

Definition grab (s sig : text) : res text :=
  let! i := py_index sig s in
  let! j := py_index_from body_end s i in
  Ok (py_slice s i (j + 3)).

(** ** Facts *)

(** How many braces are open. *)
Fixpoint depth (s : text) : Z :=
  match s with
  | [] => 0
  | c :: s' => ((if Ascii.eqb c "{" then 1 else if Ascii.eqb c "}" then -1 else 0) + depth s')%Z
  end.

Definition opens (s : text) : bool := existsb (Ascii.eqb "{") s.

(** [body] ends with the brace that closes the first one opened in it. *)
Definition closes (body : text) : Prop :=
  opens body = true ∧ depth body = 0%Z ∧ last body = Some "}"%char ∧
  ∀ n, n < length body → opens (take n body) = true →
       last (take n body) = Some "}"%char → depth (take n body) ≠ 0%Z.

Lemma depth_app a b : depth (a ++ b) = (depth a + depth b)%Z.
Proof. induction a as [|c a IH]; simpl; [done|]. rewrite IH. lia. Qed.

Lemma opens_app a b : opens (a ++ b) = opens a || opens b.
Proof. apply existsb_app. Qed.

(** The loop, with the text [q] already read. *)
Lemma brace_end_spec q s i k :
  brace_end s (depth q) (opens q) i = Some k →
  (∀ n, n ≤ length q → opens (take n q) = true → last (take n q) = Some "}"%char →
        depth (take n q) ≠ 0%Z) →
  ∃ a b, s = a ++ b ∧ k = i + length a - 1 ∧ a ≠ [] ∧ closes (q ++ a).
Proof.
  revert q i. induction s as [|c s IH]; intros q i; [done|]. intros He Hq.
  assert (brace_end s (depth (q ++ [c])) (opens (q ++ [c])) (S i) = Some k →
    ¬ (opens (q ++ [c]) = true ∧ c = "}"%char ∧ depth (q ++ [c]) = 0%Z) →
    ∃ a b, c :: s = a ++ b ∧ k = i + length a - 1 ∧ a ≠ [] ∧ closes (q ++ a)) as Hgo.
  { intros He' Hn. destruct (IH (q ++ [c]) (S i) He') as (a & b & -> & Hk & Ha & Hcl).
    - intros n Hnl. destruct (decide (n ≤ length q)) as [Hle|Hgt].
      + rewrite take_app_le by done. by apply Hq.
      + rewrite length_app in Hnl. simpl in Hnl.
        rewrite take_ge by (rewrite length_app; simpl; lia).
        rewrite last_snoc. intros Ho [= ->] Hd. by apply Hn.
    - exists (c :: a), b. split; [done|]. split; [|split; [done|]].
      + simpl. destruct a; [done|]. simpl in *. lia.
      + by rewrite <-app_assoc in Hcl. }
  cbn [brace_end] in He.
  destruct (Ascii.eqb_spec c "{") as [->|Hc1].
  { apply Hgo; [|naive_solver]. rewrite depth_app, opens_app. simpl.
    rewrite orb_true_r, Z.add_0_r. exact He. }
  assert (opens (q ++ [c]) = opens q) as Ho.
  { rewrite opens_app. assert (opens [c] = false) as ->; [|by rewrite orb_false_r].
    unfold opens. cbn [existsb]. destruct (Ascii.eqb_spec "{" c); [congruence|done]. }
  destruct (Ascii.eqb_spec c "}") as [->|Hc2].
  - assert (depth (q ++ ["}"%char]) = depth q - 1)%Z as Hd by (rewrite depth_app; simpl; lia).
    destruct (opens q && (depth q - 1 =? 0)%Z) eqn:Ez.
    + injection He as <-. apply andb_true_iff in Ez as [Hoq Hz]. apply Z.eqb_eq in Hz.
      exists ["}"%char], s. split; [done|]. split; [simpl; lia|]. split; [done|].
      split; [by rewrite Ho|]. split; [lia|]. split; [apply last_snoc|].
      intros n Hn. rewrite length_app in Hn. simpl in Hn. rewrite take_app_le by lia. apply Hq. lia.
    + apply Hgo.
      * by rewrite Hd, Ho.
      * rewrite Ho, Hd. intros (Hoq & _ & Hz). rewrite Hoq, Hz in Ez. done.
  - apply Hgo; [|naive_solver]. rewrite Ho, depth_app. cbn [depth].
    destruct (Ascii.eqb_spec c "{"), (Ascii.eqb_spec c "}"); try done.
    by rewrite !Z.add_0_r.
Qed.

(** [rstrip] drops blanks at the end. *)
Lemma py_rstrip_prefix s : ∃ w, s = py_rstrip s ++ w.
Proof.
  unfold py_rstrip. assert (∀ x, ∃ w, x = w ++ py_lstrip x) as Hl.
  { induction x as [|c x [w IH]]; [by exists []|]. simpl. destruct (is_space c).
    - exists (c :: w). simpl. by rewrite <-IH.
    - by exists []. }
  destruct (Hl (rev s)) as [w Hw]. exists (rev w).
  by rewrite <-rev_app_distr, <-Hw, rev_involutive.
Qed.

Lemma def_pos_spec name s bol i m :
  def_pos name s bol i = Some m →
  ∃ a c r, s = a ++ c :: r ∧ m = i + length a ∧ is_alpha_ c = true ∧ sig_in name c r = true ∧
    (a = [] ∧ bol = true ∨ last a = Some nl).
Proof.
  revert bol i. induction s as [|c s IH]; intros bol i; simpl; [done|].
  destruct (bol && is_alpha_ c && sig_in name c s) eqn:E.
  - intros [= <-]. bools. exists [], c, s. split; [done|]. split; [simpl; lia|]. auto.
  - intros (a & d & r & -> & -> & Hd & Hs & Ha)%IH. exists (c :: a), d, r.
    split; [done|]. split; [simpl; lia|]. do 2 (split; [done|]). right.
    destruct Ha as [[-> Hc]|Ha].
    + apply Ascii.eqb_eq in Hc as ->. done.
    + rewrite last_cons, Ha. done.
Qed.

(** What [lift] returns is a piece of the file as it stands, ended by a newline: it
    runs from the definition found, at the start of a line, to the brace that
    closes the first one opened after it, with the comment above it in front.
    The exception is a comment end with no comment start anywhere above. *)
Theorem lift_verbatim s name path t :
  lift s name path = Ok t →
  ∃ a body b, s = a ++ body ++ b ∧ (a = [] ∨ last a = Some nl) ∧
    def_pos name s true 0 = Some (length a) ∧ closes body ∧
    (t = body ++ [nl] ∨
     (∃ a' note, a = a' ++ note ∧ py_startswith note (lit "/*") = true ∧
                 t = note ++ body ++ [nl]) ∨
     (py_endswith (py_rstrip a) (lit "*/") = true ∧ py_in (lit "/*") (py_rstrip a) = false)).
Proof.
  unfold lift. destruct (def_pos name s true 0) as [m|] eqn:Hm; [|done].
  pose proof (def_pos_spec _ _ _ _ _ Hm) as (a & c & r & -> & -> & _ & _ & Ha).
  rewrite Nat.add_0_l in *.
  rewrite take_app_length, drop_app_length.
  destruct (brace_end (c :: r) 0 false (length a)) as [k|] eqn:Hk; [|done].
  destruct (brace_end_spec [] (c :: r) (length a) k Hk) as (body & b & Hb & -> & Hne & Hcl).
  { intros n Hn. by rewrite take_nil. }
  rewrite Hb. assert (0 < length body) by (destruct body; [done|simpl; lia]).
  replace (length a + length body - 1 + 1) with (length a + length body) by lia.
  intros Ht. apply (inj Ok) in Ht. subst t.
  exists a, body, b. split; [done|]. split; [destruct Ha as [[-> _]|]; auto|].
  do 2 (split; [done|]).
  destruct (py_endswith (py_rstrip a) (lit "*/")) eqn:He.
  - destruct (py_rfind (lit "/*") (py_rstrip a)) as [j|] eqn:Hj.
    + right. left. apply py_rfind_Some in Hj as [(x & y & Hx & <-) _].
      destruct (py_rstrip_prefix a) as [w Hw]. rewrite Hx, <-!app_assoc in Hw.
      exists x, (lit "/*" ++ y ++ w). split; [done|]. split; [by apply py_startswith_app|].
      unfold slice_from, py_slice. rewrite Hw. rewrite <-!app_assoc, drop_app_length.
      rewrite !length_app.
      replace (length x + (length (lit "/*") + (length y + length w)) + length body - length x)
        with (length (lit "/*" ++ y ++ w ++ body)) by (rewrite !length_app; lia).
      rewrite !app_assoc, take_app_length. done.
    + right. right. split; [done|]. apply py_in_false. by apply py_rfind_None.
  - left. unfold slice_from, py_slice. rewrite drop_app_length.
    replace (length a + length body - length a) with (length body) by lia.
    by rewrite take_app_length.
Qed.

(** [grab] returns the piece of the file from the first place the signature stands to
    the first closing brace alone on a line after it, or raises. *)
Theorem grab_verbatim s sig t :
  grab s sig = Ok t →
  ∃ a body b, s = a ++ body ++ body_end ++ b ∧ t = body ++ body_end ∧
    py_find sig s = Some (length a) ∧ py_find body_end (body ++ body_end ++ b) = Some (length body).
Proof.
  unfold grab, py_index, py_index_from, py_find_from.
  destruct (py_find sig s) as [i|] eqn:Hi; [|done]. cbn [res_bind].
  pose proof Hi as Hi'. apply find_split in Hi' as (a & r & -> & <-).
  rewrite length_app. destruct (_ <=? _); [|done]. rewrite drop_app_length.
  destruct (py_find body_end (sig ++ r)) as [j|] eqn:Hj; [|done]. cbn [res_bind fmap option_fmap option_map].
  pose proof Hj as Hj'. apply find_split in Hj' as (body & b & Hb & <-).
  rewrite Hb in *. intros Ht. apply (inj Ok) in Ht. subst t.
  exists a, body, b. split; [done|]. split; [|done].
  unfold py_slice. rewrite drop_app_length.
  replace (length a + length body + 3 - length a) with (length (body ++ body_end))
    by (rewrite length_app; simpl; lia).
  by rewrite (app_assoc body), take_app_length.
Qed.

(** ** Instances *)

Definition lift_source : text := lit "#include <x.h>

/* doubles its argument */
static int twice(int n)
{
	if (n) { n += n; }
	return n;
}

int other(void) { return twice(1); }
".

Definition lift_body : text := lit "static int twice(int n)
{
	if (n) { n += n; }
	return n;
}".

Definition lift_note : text := lit "/* doubles its argument */
".

Lemma lift_verbatim_witness :
  lift lift_source (lit "twice") "x.c" = Ok (lift_note ++ lift_body ++ [nl]) ∧
  ∃ a body b, lift_source = a ++ body ++ b ∧ (a = [] ∨ last a = Some nl) ∧
    def_pos (lit "twice") lift_source true 0 = Some (length a) ∧ closes body ∧
    (lift_note ++ lift_body ++ [nl] = body ++ [nl] ∨
     (∃ a' note, a = a' ++ note ∧ py_startswith note (lit "/*") = true ∧
                 lift_note ++ lift_body ++ [nl] = note ++ body ++ [nl]) ∨
     (py_endswith (py_rstrip a) (lit "*/") = true ∧ py_in (lit "/*") (py_rstrip a) = false)).
Proof.
  assert (lift lift_source (lit "twice") "x.c" = Ok (lift_note ++ lift_body ++ [nl])) as H
    by (vm_compute; reflexivity).
  split; [exact H|]. apply (lift_verbatim lift_source (lit "twice") "x.c"). exact H.
Defined.

Lemma grab_verbatim_witness :
  ∃ a body b, lift_source = a ++ body ++ body_end ++ b ∧
    lift_body ++ [nl] = body ++ body_end ∧
    py_find (lit "static int twice(") lift_source = Some (length a) ∧
    py_find body_end (body ++ body_end ++ b) = Some (length body).
Proof.
  apply (grab_verbatim lift_source (lit "static int twice(")). vm_compute. reflexivity.
Defined.
