(* ===== verification/Analyse.v ===== *)
(** bench-data/2026-09-04/analyse.py: the paired analysis of an A/B run.

    Floats are IEEE binary64, computed by the specification functions of the
    Standard Library ([SpecFloat] at 53 and 1024).  [float(s)] is modelled for
    decimal notation with an optional fraction, which is what the runs are
    written in.  What is printed is the [report]. *)
From Stdlib Require Import Floats.SpecFloat.
From S2P Require Import Prelude PyStr PyParse.

Abbreviation float := spec_float.

Definition fsub : float → float → float := SFsub 53 1024.
Definition fadd : float → float → float := SFadd 53 1024.
Definition fmul : float → float → float := SFmul 53 1024.
Definition fdiv : float → float → float := SFdiv 53 1024.
Definition fltb (x y : float) : bool :=
  match SFcompare x y with Some Lt => true | _ => false end.

(** [float(n)] of an integer *)
Definition of_Z (n : Z) : float := binary_normalize 53 1024 n 0 false.

(** [a / b] on integers: the quotient, rounded once *)
Definition exact (n : Z) : float :=
  match n with
  | Z0 => S754_zero false
  | Zpos p => S754_finite false p 0
  | Zneg p => S754_finite true p 0
  end.

Definition int_div (a b : Z) : float := fdiv (exact a) (exact b).

(** [float(s)] for [-]ddd[.ddd] *)
Definition py_float (s : text) : res float :=
  let (neg, s) := match s with
                  | c :: s' => if Ascii.eqb c "-" then (true, s') else (false, s)
                  | [] => (false, s)
                  end in
  let '(whole, frac) := match py_split_on "." s with
                        | [w] => (w, [])
                        | [w; f] => (w, f)
                        | _ => ([], [])
                        end in
  match digits 10 (whole ++ frac) false false 0 with
  | Some m =>
      let x := int_div m (10 ^ Z.of_nat (length frac)) in
      Ok (if neg then SFopp x else x)
  | None => Raise (ValueError "could not convert string to float")
  end.

(** [(f[0], int(f[2]), float(f[6]), int(f[5]))] *)
Record row := Row { r_arm : text; r_emit : Z; r_time : float; r_bytes : Z }.

Definition read_row (line : text) : res (option row) :=
  match py_split line with
  | f0 :: _ :: f2 :: _ :: _ :: f5 :: f6 :: _ =>
      let! n := py_int 10 f2 in
      let! t := py_float f6 in
      let! b := py_int 10 f5 in
      Ok (Some (Row f0 n t b))
  | _ => Ok None
  end.

Fixpoint read_rows (lines : list text) : res (list row) :=
  match lines with
  | [] => Ok []
  | l :: lines' =>
      let! r := read_row l in
      let! rs := read_rows lines' in
      Ok (match r with Some r => r :: rs | None => rs end)
  end.

Definition arm_rows (name : text) (rows : list row) : list row :=
  List.filter (λ r, bool_decide (r_arm r = name)) rows.

(** [x / y] on floats *)
Definition fdiv_py (x y : float) : res float :=
  match y with
  | S754_zero _ => Raise (ValueError "float division by zero")
  | _ => Ok (fdiv x y)
  end.

(** [[100.0 * (post - pre) / pre ...]] over the pairs *)
Definition hundred : float := of_Z 100.
Definition billion : float := of_Z 1000000000.

Fixpoint paired (f : float → float → res float) (pre post : list row) : res (list float) :=
  match pre, post with
  | a :: pre', b :: post' =>
      let! d := f (r_time a) (r_time b) in
      let! ds := paired f pre' post' in
      Ok (d :: ds)
  | _, _ => Ok []
  end.

Definition delta_pct (pre post : float) : res float := fdiv_py (fmul hundred (fsub post pre)) pre.
Definition delta_ns (emit : Z) (pre post : float) : res float :=
  fdiv_py (fmul billion (fsub post pre)) (of_Z emit).

(** [list.sort()]: stable *)
Fixpoint insert_float (x : float) (l : list float) : list float :=
  match l with
  | [] => [x]
  | y :: l' => if fltb x y then x :: l else y :: insert_float x l'
  end.

Definition sort_floats (l : list float) : list float :=
  fold_left (λ acc x, insert_float x acc) l [].

(** [statistics.median] *)
Definition median (l : list float) : res float :=
  let v := sort_floats l in
  let n := length v in
  if n =? 0 then Raise (ValueError "no median for empty data")
  else match v !! (n / 2), v !! (n / 2 - 1) with
       | Some hi, Some lo =>
           if Nat.odd n then Ok hi else Ok (fdiv (fadd lo hi) (of_Z 2))
       | _, _ => Raise (ValueError "index out of range")
       end.

(** [int(round(p * (len(v) - 1)))] for [p = q/4]: round half to even *)
Definition round_quarters (x : nat) : nat :=
  let k := x / 4 in
  let r := x mod 4 in
  if r <? 2 then k else if 2 <? r then S k else if Nat.even k then k else S k.

Definition pct_index (q n : nat) : nat :=
  Nat.min (n - 1) (Nat.max 0 (round_quarters (q * (n - 1)))).

Definition nth_py (v : list float) (i : nat) : res float :=
  match v !! i with
  | Some x => Ok x
  | None => Raise (ValueError "list index out of range")
  end.

(** [pct(v, q/4)] *)
Definition pct (v : list float) (q : nat) : res float := nth_py v (pct_index q (length v)).

Definition wins (deltas : list float) : nat :=
  length (List.filter (λ d, fltb (S754_zero false) d) deltas).

(** ** The sign test *)

(** [math.comb(n, k)] *)
Fixpoint comb (n k : nat) : nat :=
  match n, k with
  | _, 0 => 1
  | 0, S _ => 0
  | S n', S k' => comb n' k' + comb n' (S k')
  end.

(** [sum(comb(n, k) for k in range(m))] *)
Fixpoint comb_sum (n m : nat) : nat :=
  match m with 0 => 0 | S m' => comb_sum n m' + comb n m' end.

Definition tail_sum (n w : nat) : nat := comb_sum n (Nat.min w (n - w) + 1).

(** [p = sum(...) / 2**n * 2] *)
Definition sign_test (n w : nat) : float :=
  fmul (int_div (Z.of_nat (tail_sum n w)) (2 ^ Z.of_nat n)) (of_Z 2).

(** [p > 0.05] picks the verdict *)
Definition significant (p : float) : bool := negb (fltb (int_div 5 100) p).

(** ** The script *)

Record report := Report {
  rp_pairs : nat; rp_objects : Z; rp_pre_bytes : Z; rp_post_bytes : Z;
  rp_median : float; rp_q1 : float; rp_q3 : float; rp_low : float; rp_high : float;
  rp_ns_median : float; rp_ns_q1 : float; rp_ns_q3 : float;
  rp_wins : nat; rp_p : float;
}.

Definition analyse (lines : list text) : res report :=
  let! rows := read_rows lines in
  let pre := arm_rows (lit "pre") rows in
  let post := arm_rows (lit "post") rows in
  let n := Nat.min (length pre) (length post) in
  match pre, post with
  | a :: _, b :: _ =>
      let emit := r_emit a in
      if (emit =? 0)%Z then Raise (ValueError "integer division or modulo by zero")
      else
        let! deltas := paired delta_pct pre post in
        let! ns := paired (delta_ns emit) pre post in
        let deltas := sort_floats deltas in
        let ns := sort_floats ns in
        let! m := median deltas in
        let! q1 := pct deltas 1 in
        let! q3 := pct deltas 3 in
        let! lo := nth_py deltas 0 in
        let! hi := nth_py deltas (length deltas - 1) in
        let! nm := median ns in
        let! n1 := pct ns 1 in
        let! n3 := pct ns 3 in
        let w := wins deltas in
        Ok (Report n emit (r_bytes a / emit) (r_bytes b / emit) m q1 q3 lo hi nm n1 n3 w
              (sign_test n w))
  | _, _ => Raise (ValueError "list index out of range")
  end.

(** ** Facts *)

Lemma comb_gt n k : n < k → comb n k = 0.
Proof.
  revert k. induction n as [|n IH]; intros [|k] Hk; try lia; [done|].
  simpl. rewrite !IH by lia. done.
Qed.

Lemma comb_pos n k : k ≤ n → 0 < comb n k.
Proof.
  revert k. induction n as [|n IH]; intros [|k] Hk; simpl; try lia.
  specialize (IH k). lia.
Qed.

Lemma comb_sym n k : k ≤ n → comb n (n - k) = comb n k.
Proof.
  revert k. induction n as [|n IH]; intros k Hk; [by replace k with 0 by lia|].
  destruct k as [|k].
  - rewrite Nat.sub_0_r. clear. induction n as [|n IH]; [done|].
    cbn [comb] in *. rewrite (comb_gt n (S (S n))), (comb_gt n (S n)) in * by lia. lia.
  - cbn [Nat.sub]. destruct (decide (k = n)) as [->|Hne].
    + rewrite Nat.sub_diag. cbn [comb]. rewrite (comb_gt n (S n)) by lia.
      rewrite <-(IH n), Nat.sub_diag by lia. by destruct n.
    + replace (n - k) with (S (n - S k)) by lia. cbn [comb].
      rewrite IH by lia. replace (S (n - S k)) with (n - k) by lia. rewrite IH by lia. lia.
Qed.

Lemma comb_sum_step n m : comb_sum (S n) (S m) = comb_sum n (S m) + comb_sum n m.
Proof.
  induction m as [|m IH]; [by destruct n|].
  change (comb_sum (S n) (S (S m))) with (comb_sum (S n) (S m) + comb (S n) (S m)).
  rewrite IH. cbn [comb comb_sum]. lia.
Qed.

Lemma comb_sum_total n : comb_sum n (S n) = 2 ^ n.
Proof.
  induction n as [|n IH]; [done|]. rewrite comb_sum_step.
  change (comb_sum n (S (S n))) with (comb_sum n (S n) + comb n (S n)).
  rewrite comb_gt, IH by lia. simpl. lia.
Qed.

(** The first [m] terms and the first [n + 1 - m] make up the whole row. *)
Lemma comb_sum_split n m : m ≤ S n → comb_sum n m + comb_sum n (S n - m) = 2 ^ n.
Proof.
  induction m as [|m IH]; intros Hm; [rewrite <-comb_sum_total; done|].
  rewrite <-IH by lia. replace (S n - m) with (S (n - m)) by lia. cbn [comb_sum Nat.sub].
  rewrite comb_sym by lia. lia.
Qed.

Lemma comb_sum_mono n a b : a ≤ b → comb_sum n a ≤ comb_sum n b.
Proof. induction 1; cbn [comb_sum]; lia. Qed.

Lemma round_quarters_le x : 4 * round_quarters x ≤ x + 2.
Proof.
  unfold round_quarters. pose proof (Nat.div_mod_eq x 4).
  pose proof (Nat.mod_upper_bound x 4 ltac:(lia)).
  destruct (x mod 4 <? 2) eqn:E1; bools; [lia|].
  destruct (2 <? x mod 4) eqn:E2; bools; [lia|]. destruct (Nat.even (x / 4)); lia.
Qed.

Lemma round_quarters_ge x : x ≤ 4 * round_quarters x + 2.
Proof.
  unfold round_quarters. pose proof (Nat.div_mod_eq x 4).
  pose proof (Nat.mod_upper_bound x 4 ltac:(lia)).
  destruct (x mod 4 <? 2) eqn:E1; bools; [lia|].
  destruct (2 <? x mod 4) eqn:E2; bools; [lia|]. destruct (Nat.even (x / 4)); lia.
Qed.

(** ** Theorems *)

(** The exact tail: doubled, it is above the whole row exactly when half of the pairs went
    each way, as the middle term is then in both tails. *)
Lemma tail_above_half n w :
  w ≤ n → 2 ^ n < 2 * tail_sum n w ↔ 2 * w = n.
Proof.
  intros Hw. unfold tail_sum. set (m := Nat.min w (n - w)).
  assert (2 * m ≤ n) as Hm by (unfold m; lia).
  assert (2 * m = n ↔ 2 * w = n) as <- by (unfold m; lia).
  pose proof (comb_sum_split n (m + 1) ltac:(lia)) as Hs.
  replace (S n - (m + 1)) with (n - m) in Hs by lia. split.
  - intros Hlt. destruct (decide (2 * m = n)); [done|].
    pose proof (comb_sum_mono n (m + 1) (n - m) ltac:(lia)). lia.
  - intros Heq. replace (n - m) with m in Hs by lia.
    rewrite Nat.add_1_r in *. cbn [comb_sum] in *. pose proof (comb_pos n m ltac:(lia)). lia.
Qed.

(** ** The sign test in binary64 *)

(** Pascal's triangle in binary integers, a row at a time. *)
Fixpoint add_rows (x y : list Z) : list Z :=
  match x, y with
  | a :: x', b :: y' => (a + b)%Z :: add_rows x' y'
  | _, _ => []
  end.

Fixpoint pascal (n : nat) : list Z :=
  match n with
  | 0 => [1%Z]
  | S n' => let row := pascal n' in add_rows (row ++ [0%Z]) (0%Z :: row)
  end.

Definition sum_first (m : nat) (l : list Z) : Z := foldr Z.add 0%Z (take m l).

Lemma add_rows_lookup x y k :
  length x = length y → add_rows x y !! k = (a ← x !! k; b ← y !! k; Some (a + b)%Z).
Proof.
  revert y k. induction x as [|a x IH]; intros [|b y] [|k] Hl; try done; cbn in *.
  apply IH. lia.
Qed.

Lemma add_rows_length x y : length x = length y → length (add_rows x y) = length x.
Proof. revert y. induction x as [|a x IH]; intros [|b y] Hl; try done; cbn in *. rewrite IH; lia. Qed.

Lemma pascal_length n : length (pascal n) = S n.
Proof. induction n as [|n IH]; [done|]. cbn [pascal]. rewrite add_rows_length; rewrite length_app; cbn; lia. Qed.

Lemma pascal_comb n k : k ≤ n → pascal n !! k = Some (Z.of_nat (comb n k)).
Proof.
  revert k. induction n as [|n IH]; intros k Hk; [by replace k with 0 by lia|].
  cbn [pascal]. rewrite add_rows_lookup by (rewrite length_app; cbn; lia).
  assert ((pascal n ++ [0%Z]) !! k = Some (Z.of_nat (comb n k))) as Hx.
  { destruct (decide (k ≤ n)).
    - rewrite lookup_app_l by (rewrite pascal_length; lia). by apply IH.
    - replace k with (S n) by lia. rewrite lookup_app_r by (rewrite pascal_length; lia).
      rewrite pascal_length, Nat.sub_diag, comb_gt by lia. done. }
  rewrite Hx. destruct k as [|k].
  - cbn. by destruct n.
  - cbn [lookup list_lookup]. rewrite IH by lia. cbn [mbind option_bind comb]. f_equal. lia.
Qed.

Lemma sum_first_comb n m : m ≤ S n → sum_first m (pascal n) = Z.of_nat (comb_sum n m).
Proof.
  unfold sum_first. induction m as [|m IH]; intros Hm; [done|].
  rewrite (take_S_r _ _ _ (pascal_comb n m ltac:(lia))), foldr_app. cbn [foldr comb_sum].
  rewrite Nat2Z.inj_add, <-IH by lia. rewrite Z.add_0_r. clear.
  induction (take m (pascal n)) as [|x l IH]; cbn [foldr]; lia.
Qed.

(** [sign_test n w], of a row of the triangle *)
Definition sign_row (n w : nat) (row : list Z) : float :=
  fmul (int_div (sum_first (Nat.min w (n - w) + 1) row) (2 ^ Z.of_nat n)) (of_Z 2).

Lemma sign_test_row n w : w ≤ n → sign_test n w = sign_row n w (pascal n).
Proof. intros Hw. unfold sign_test, sign_row, tail_sum. by rewrite sum_first_comb by lia. Qed.

Definition one : float := of_Z 1.

(** All splits of up to [max_pairs] pairs, by computation. *)
Definition max_pairs : nat := 128.

Definition row_checked (n : nat) : bool :=
  let row := pascal n in
  forall_below (S n) (λ w, Bool.eqb (fltb one (sign_row n w row)) (2 * w =? n)).

Lemma rows_checked : forall_below (S max_pairs) row_checked = true.
Proof. vm_compute. reflexivity. Qed.

Lemma sign_test_split n w :
  w ≤ n → n ≤ max_pairs → fltb one (sign_test n w) = true ↔ 2 * w = n.
Proof.
  intros Hw Hn. pose proof rows_checked as H. rewrite forall_below_spec in H.
  specialize (H n ltac:(lia)). unfold row_checked in H. rewrite forall_below_spec in H.
  specialize (H w ltac:(lia)). apply Bool.eqb_prop in H. rewrite sign_test_row, H by done.
  apply Nat.eqb_eq.
Qed.

(** What the report says of the pairs. *)
Lemma insert_float_length x l : length (insert_float x l) = S (length l).
Proof. induction l as [|y l IH]; [done|]. cbn. destruct (fltb x y); cbn; [done|by rewrite IH]. Qed.

Lemma sort_floats_length l : length (sort_floats l) = length l.
Proof.
  unfold sort_floats. transitivity (length (@nil float) + length l); [|done].
  generalize (@nil float) as acc. induction l as [|x l IH]; intros acc; cbn; [lia|].
  rewrite IH, insert_float_length. lia.
Qed.

Lemma paired_length f pre post l :
  paired f pre post = Ok l → length l = Nat.min (length pre) (length post).
Proof.
  revert post l. induction pre as [|a pre IH]; intros [|b post] l; try by intros [= <-].
  intros (d & _ & (ds & Hds & [= <-])%res_bind_Ok)%res_bind_Ok. cbn. by rewrite (IH _ _ Hds).
Qed.

Lemma wins_le l : wins l ≤ length l.
Proof. unfold wins. induction l as [|x l IH]; [done|]. cbn. destruct (fltb _ x); cbn; lia. Qed.

Lemma analyse_pairs lines rp :
  analyse lines = Ok rp → rp_p rp = sign_test (rp_pairs rp) (rp_wins rp) ∧ rp_wins rp ≤ rp_pairs rp.
Proof.
  unfold analyse. intros (rows & _ & H)%res_bind_Ok. revert H.
  destruct (arm_rows (lit "pre") rows) as [|a pre]; [done|].
  destruct (arm_rows (lit "post") rows) as [|b post]; [done|].
  destruct (r_emit a =? 0)%Z; [done|]. intros (ds & Hds%paired_length & H)%res_bind_Ok. revert H.
  repeat (intros (? & _ & H)%res_bind_Ok; revert H). intros [= <-]. cbn [rp_p rp_pairs rp_wins].
  split; [done|]. pose proof (wins_le (sort_floats ds)) as Hw. by rewrite sort_floats_length, Hds in Hw.
Qed.

(** C40: The p of the sign test, as the script computes and reports it in binary64, is above
    1 exactly when half of the pairs went each way, for every input the script analyses
    with up to 128 pairs. *)
Theorem sign_test_above_one lines rp :
  analyse lines = Ok rp → rp_pairs rp ≤ max_pairs →
  fltb one (rp_p rp) = true ↔ 2 * rp_wins rp = rp_pairs rp.
Proof. intros [-> Hw]%analyse_pairs Hn. by apply sign_test_split. Qed.

(** The quartiles are always there: over a non-empty list [pct] returns an entry of
    it, the one for .25 at most half an entry away from a quarter of the way up,
    and not above the one for .75. *)
Theorem quartiles_in_range v :
  v ≠ [] →
  ∃ q1 q3, pct v 1 = Ok q1 ∧ pct v 3 = Ok q3 ∧
    v !! pct_index 1 (length v) = Some q1 ∧ v !! pct_index 3 (length v) = Some q3 ∧
    pct_index 1 (length v) ≤ pct_index 3 (length v) ∧
    4 * pct_index 1 (length v) ≤ (length v - 1) + 2 ∧
    length v - 1 ≤ 4 * pct_index 1 (length v) + 2.
Proof.
  intros Hv. assert (0 < length v) as Hl by (destruct v; [done|simpl; lia]).
  set (n := length v) in *.
  pose proof (round_quarters_le (1 * (n - 1))). pose proof (round_quarters_ge (1 * (n - 1))).
  pose proof (round_quarters_ge (3 * (n - 1))).
  destruct (lookup_lt_is_Some_2 v (pct_index 1 n)) as [q1 Hq1]; [unfold pct_index; fold n; lia|].
  destruct (lookup_lt_is_Some_2 v (pct_index 3 n)) as [q3 Hq3]; [unfold pct_index; fold n; lia|].
  exists q1, q3. unfold pct, nth_py. fold n. rewrite Hq1, Hq3. do 4 (split; [done|]).
  unfold pct_index. lia.
Qed.

Lemma quartiles_in_range_witness :
  [of_Z 1; of_Z 2; of_Z 3] ≠ [] ∧
  ∃ q1 q3, pct [of_Z 1; of_Z 2; of_Z 3] 1 = Ok q1 ∧ pct [of_Z 1; of_Z 2; of_Z 3] 3 = Ok q3 ∧
    [of_Z 1; of_Z 2; of_Z 3] !! pct_index 1 3 = Some q1 ∧
    [of_Z 1; of_Z 2; of_Z 3] !! pct_index 3 3 = Some q3 ∧
    pct_index 1 3 ≤ pct_index 3 3 ∧
    4 * pct_index 1 3 ≤ (3 - 1) + 2 ∧ 3 - 1 ≤ 4 * pct_index 1 3 + 2.
Proof. split; [done|]. apply (quartiles_in_range [of_Z 1; of_Z 2; of_Z 3]). done. Defined.

(** A run of two pairs, one each way: the script prints p = 1.5. *)
Definition two_pairs : list text :=
  [lit "pre 10 10 0.5 1 3280 0.5"; lit "post 10 10 0.6 1 5120 0.75";
   lit "pre 10 10 0.5 1 3280 0.75"; lit "post 10 10 0.6 1 5120 0.5"].

Lemma two_pairs_p : rp_p <$> (match analyse two_pairs with Ok r => Some r | _ => None end)
  = Some (int_div 3 2).
Proof. vm_compute. reflexivity. Qed.

Definition two_pairs_report : report :=
  match analyse two_pairs with
  | Ok r => r
  | Raise _ => Report 0 0 0 0 one one one one one one one one 0 one
  end.

Lemma sign_test_above_one_witness :
  analyse two_pairs = Ok two_pairs_report ∧ rp_pairs two_pairs_report = 2 ∧
  rp_wins two_pairs_report = 1 ∧
  (fltb one (rp_p two_pairs_report) = true ↔ 2 * rp_wins two_pairs_report = rp_pairs two_pairs_report).
Proof.
  assert (analyse two_pairs = Ok two_pairs_report) as Hr by (vm_compute; reflexivity).
  split; [exact Hr|]. split; [vm_compute; reflexivity|]. split; [vm_compute; reflexivity|].
  apply (sign_test_above_one two_pairs two_pairs_report Hr). apply Nat.leb_le. vm_compute. reflexivity.
Defined.
