(* ===== verification/TxEngine.v ===== *)
(** The loops of the rewrite modules, docs/rounds/a-1014 to a-1019, tx_*.py.

    A module is a table of old and new texts and a loop over it.  The loops differ
    in what they test before they replace; each test is one definition here, with
    the modules that have it.  A body gives the text and, when it replaced, the tag
    that is appended to HITS[subj]; modules that keep no HITS have empty tags. *)
From S2P Require Import Prelude PyStr.

(** ** Tables *)

(** One replacement: [(tag, old, new)], or [(old, new)] with an empty tag. *)
Record row := Row { r_tag : string; r_old : text; r_new : text }.

(** One replacement of a flat table: [(tag, path, old, new, gate)].  The gate is asked
    for [ANC], the Change-Ids of the commit and its ancestors. *)
Record frow := FRow {
  f_path : string;
  f_row : row;
  f_gate : option (list string → bool);
}.

(** [d.get(k)] for a dict written as a literal; its keys are distinct. *)
Definition dict_get {K A : Type} `{EqDecision K} (d : list (K * A)) (k : K) : option A :=
  snd <$> List.find (λ e, bool_decide (e.1 = k)) d.

(** [d.get(k, [])] *)
Definition dict_rows {K A : Type} `{EqDecision K} (d : list (K * list A)) (k : K) : list A :=
  default [] (dict_get d k).

(** [path.split('/')[-1]] *)
Fixpoint basename_from (p acc : string) : string :=
  match p with
  | EmptyString => acc
  | String "/" p' => basename_from p' ""
  | String c p' => basename_from p' (String.append acc (String c ""))
  end.

Definition basename (p : string) : string := basename_from p "".

(** ** Loop bodies *)

Abbreviation outcome := (res (text * option string)).

Definition keep (s : text) : outcome := Ok (s, None).

Definition substitute (r : row) (s : text) : outcome :=
  Ok (py_replace (r_old r) (r_new r) s, Some (r_tag r)).

(** [if o in s: s = s.replace(o, n)] *)
Definition sub_in (r : row) (s : text) : outcome :=
  if py_in (r_old r) s then substitute r s else keep s.

(** [if s.count(o) == 1: s = s.replace(o, n)] *)
Definition sub_count (r : row) (s : text) : outcome :=
  if py_count (r_old r) s =? 1 then substitute r s else keep s.

(** [assert s.count(o) == 1; s = s.replace(o, n)] *)
Definition assert_sub (r : row) (s : text) : outcome :=
  if py_count (r_old r) s =? 1 then substitute r s else Raise (AssertionError (r_tag r)).

(** [if o in s: assert s.count(o) == 1; s = s.replace(o, n)] *)
Definition sub_assert (r : row) (s : text) : outcome :=
  if py_in (r_old r) s then assert_sub r s else keep s.

(** As [sub_assert], with [if n in s and o in n: continue] after the assert. *)
Definition sub_assert_skip (r : row) (s : text) : outcome :=
  if negb (py_in (r_old r) s) then keep s
  else if negb (py_count (r_old r) s =? 1) then Raise (AssertionError (r_tag r))
  else if py_in (r_new r) s && py_in (r_old r) (r_new r) then keep s
  else substitute r s.

(** As [sub_assert], with [if o in n and n in s: continue] before the assert. *)
Definition sub_skip_assert (r : row) (s : text) : outcome :=
  if negb (py_in (r_old r) s) then keep s
  else if py_in (r_old r) (r_new r) && py_in (r_new r) s then keep s
  else assert_sub r s.

(** [assert o in msg; msg = msg.replace(o, n)] *)
Definition msg_assert (r : row) (s : text) : outcome :=
  if py_in (r_old r) s then substitute r s else Raise (AssertionError (r_tag r)).

(** [if o in msg and n not in msg: msg = msg.replace(o, n)] *)
Definition msg_new (r : row) (s : text) : outcome :=
  if py_in (r_old r) s && negb (py_in (r_new r) s) then substitute r s else keep s.

(** [if o in msg and (n == '' or n not in msg): msg = msg.replace(o, n)] *)
Definition msg_new_or_cut (r : row) (s : text) : outcome :=
  if py_in (r_old r) s && (bool_decide (r_new r = []) || negb (py_in (r_new r) s))
  then substitute r s else keep s.

(** ** The loop *)

Fixpoint for_rows {A : Type} (body : A → text → outcome) (rows : list A) (s : text)
    (hits : list string) : res (text * list string) :=
  match rows with
  | [] => Ok (s, hits)
  | r :: rows' =>
      let! x := body r s in
      for_rows body rows' x.1 (match x.2 with Some tag => hits ++ [tag] | None => hits end)
  end.

(** [gate_ok(gate)]; a table without gates has [None] everywhere. *)
Definition gate_ok (ANC : list string) (gate : option (list string → bool)) : bool :=
  match gate with None => true | Some g => g ANC end.

(** [for tag, p, o, n, gate in R: if p != path or ... not gate_ok(gate): continue] *)
Definition at_path (ANC : list string) (path : string) (body : row → text → outcome)
    (r : frow) (s : text) : outcome :=
  if String.eqb (f_path r) path && gate_ok ANC (f_gate r) then body (f_row r) s else keep s.

(** [HITS.setdefault(subj, []).append('msg' + tag)] *)
Definition hit_prefix {A : Type} (pre : string) (body : A → text → outcome) (r : A) (s : text)
    : outcome :=
  let! x := body r s in Ok (x.1, (String.append pre) <$> x.2).
