(* ===== verification/TxFacts.v ===== *)
(** When a pass of a rewrite module over a text leaves nothing for a second pass.

    A row of a table is seen through [arow]: the texts it can replace and what makes
    it skip.  [unchecked] runs over the texts of a whole table and names the rows
    that might find work again; all others are settled after one pass, on every
    text ([for_rows_again]). *)
From S2P Require Import Prelude PyStr Stable TxEngine.

(** ** str.replace as a sequence of edits *)

Definition edit (o n s t : text) : Prop := ∃ a b, s = a ++ o ++ b ∧ t = a ++ n ++ b.

Section replace.
Implicit Types (o n s t sub : text).

Lemma edit_context o n c d s t : edit o n s t → edit o n (c ++ s ++ d) (c ++ t ++ d).
Proof.
  intros (a & b & -> & ->). exists (c ++ a), (b ++ d). by rewrite <-!app_assoc.
Qed.

Lemma edits_app_l o n c s t : rtc (edit o n) s t → rtc (edit o n) (c ++ s) (c ++ t).
Proof.
  induction 1 as [|s t u H _ IH]; [done|]. eapply rtc_l; [|exact IH].
  apply (edit_context o n c []) in H. by rewrite !app_nil_r in H.
Qed.

Lemma replace_opt_edits o n s k : o ≠ [] → rtc (edit o n) s (py_replace_opt o n s k).
Proof.
  intros Hne. revert s k.
  apply (scan_ind o (λ s, ∀ k, rtc (edit o n) s (py_replace_opt o n s k))); [done|..].
  - intros k. by rewrite replace_nil.
  - intros r IH k. destruct (decide (k = Some 0)) as [->|Hk]; [by rewrite replace_stop|].
    rewrite replace_hit by done. eapply rtc_r; [apply edits_app_l, (IH (pred <$> k))|]. by exists [], (py_replace_opt o n r (pred <$> k)).
  - intros c s E IH k. rewrite replace_miss by done. by apply (edits_app_l o n [c]).
Qed.

Lemma replace_edits o n s : o ≠ [] → rtc (edit o n) s (py_replace o n s).
Proof. apply replace_opt_edits. Qed.

(** A property that single edits keep, replace keeps. *)
Lemma replace_opt_invariant o n (P : text → Prop) s k :
  o ≠ [] → (∀ s t, edit o n s t → P s → P t) → P s → P (py_replace_opt o n s k).
Proof.
  intros Hne Hstep. pose proof (replace_opt_edits o n s k Hne) as H.
  induction H as [|s t u H _ IH]; [done|]. intros Hs. apply IH. by eapply Hstep.
Qed.

Lemma replace_invariant o n (P : text → Prop) s :
  o ≠ [] → (∀ s t, edit o n s t → P s → P t) → P s → P (py_replace o n s).
Proof. apply replace_opt_invariant. Qed.

Lemma replace_absent_other o n sub s :
  o ≠ [] → sub ≠ [] → no_create sub o n = true →
  py_in sub s = false → py_in sub (py_replace o n s) = false.
Proof.
  intros Hne Hns Hnc. apply (replace_invariant o n (λ s, py_in sub s = false)); [done|].
  intros x y (a & b & -> & ->). by apply no_create_absent.
Qed.

Lemma edit_keeps o n sub s t :
  no_create sub n o = true → edit o n s t → py_in sub s = true → py_in sub t = true.
Proof.
  intros Hnc (a & b & -> & ->) Hs. destruct (py_in sub (a ++ n ++ b)) eqn:E; [done|].
  destruct (decide (sub = [])) as [->|Hn]; [by rewrite py_in_nil in E|].
  by rewrite (no_create_absent a b n o sub Hnc Hn E) in Hs.
Qed.

Lemma replace_keeps o n sub s :
  o ≠ [] → no_create sub n o = true →
  py_in sub s = true → py_in sub (py_replace o n s) = true.
Proof.
  intros Hne Hnc. apply (replace_invariant o n (λ s, py_in sub s = true)); [done|].
  intros x y. by apply edit_keeps.
Qed.

(** An occurrence that starts past a prefix is one of the rest. *)
Lemma occ_rest o p s i : occ o (p ++ s) i → length p ≤ i → occ o s (i - length p).
Proof.
  intros (a & b & Hab & Ha) Hi. exists (drop (length p) a), b.
  assert (s = drop (length p) (p ++ s)) as -> by (by rewrite drop_app_length).
  rewrite Hab, drop_app_le, length_drop by lia. split; [done|lia].
Qed.

Lemma replace_leftmost o n a b :
  o ≠ [] → py_find o (a ++ o ++ b) = Some (length a) →
  py_replace o n (a ++ o ++ b) = a ++ n ++ py_replace o n b.
Proof.
  intros Hne. unfold py_replace. induction a as [|c a IHa]; intros Hf; cbn [app] in *;
    [by rewrite replace_hit|].
  cbn [length py_find] in Hf. destruct (py_startswith _ o) eqn:E; [done|].
  rewrite replace_miss by done. f_equal. apply IHa.
  destruct (py_find o (a ++ o ++ b)); simplify_eq/=. done.
Qed.

(** Replacing the leftmost occurrence again and again: [p] is done, all that is left of
    [o] is in [s]. *)
Lemma replace_clears_from o n p s :
  self_clearing o n = true → o ≠ [] → (∀ i, occ o (p ++ s) i → length p ≤ i) →
  py_in o (p ++ py_replace o n s) = false.
Proof.
  intros Hsc Hne. unfold self_clearing in Hsc. bools.
  remember (length s) as k eqn:Hk. revert p s Hk. induction (lt_wf k) as [k _ IH].
  intros p s -> Hp. destruct (py_find o s) as [i|] eqn:Hf.
  2: { unfold py_replace. rewrite replace_absent; [|done|unfold py_in; by rewrite Hf].
       apply py_in_false. intros i Ho.
       eapply py_find_None; [exact Hf|]. by apply occ_rest, Hp. }
  destruct (find_split o s i Hf) as (a & b & -> & <-).
  rewrite replace_leftmost by done. rewrite !app_assoc. eapply IH; [|reflexivity|].
  { rewrite !length_app. assert (0 < length o) by (destruct o; simpl; [done|lia]). lia. }
  intros j Hj. rewrite <-(app_assoc (p ++ a)) in Hj.
  assert (∀ i, occ o ((p ++ a) ++ o ++ b) i → length (p ++ a) ≤ i) as Hfirst.
  { intros m Hm. rewrite <-app_assoc in Hm. pose proof (Hp m Hm) as Hpm.
    rewrite length_app. destruct (decide (length p + length a ≤ m)) as [|Hlt]; [done|].
    apply py_find_Some in Hf as [_ Hmin]. exfalso. apply (Hmin (m - length p)); [lia|].
    by apply occ_rest. }
  pose proof (lcs_le o n). pose proof (lcp_le o n). rewrite (length_app (p ++ a)).
  destruct (edit_occ (p ++ a) b o n o j) as [[Ho Hle]|[Hle Ho]]; [done..| |].
  - apply Hfirst in Ho. lia.
  - assert (occ o ((p ++ a) ++ o ++ b) (length (p ++ a))) as Hat by by exists (p ++ a), b.
    pose proof (Hfirst _ Ho).
    pose proof (unbordered_occ o _ _ _ ltac:(done) Hat Ho ltac:(lia)). lia.
Qed.

Lemma replace_clears o n s :
  self_clearing o n = true → o ≠ [] → py_in o (py_replace o n s) = false.
Proof. intros Hsc Hne. apply (replace_clears_from o n [] s); [done..|]. simpl. lia. Qed.

(** ** One occurrence *)

Definition uniq o s : Prop := ∃ i, occ o s i ∧ ∀ j, occ o s j → j = i.

Lemma uniq_count o s : uniq o s → py_count o s = 1.
Proof.
  intros (i & Hi & Hu). destruct (decide (o = [])) as [->|Hne].
  { destruct s as [|c s]; [done|]. exfalso.
    assert (0 = i) by (apply Hu; by exists [], (c :: s)).
    assert (1 = i) by (apply Hu; by exists [c], s). lia. }
  destruct (py_find o s) as [k|] eqn:Hf.
  2: { exfalso. eapply py_find_None; [exact Hf|exact Hi]. }
  destruct (find_split o s k Hf) as (a & b & -> & <-).
  assert (py_in o b = false) as Hb.
  { apply py_in_false. intros j Hj.
    assert (occ o (a ++ o ++ b) (length a)) as H1 by by exists a, b.
    pose proof (occ_app_l _ (a ++ o) _ _ Hj) as H2. rewrite <-app_assoc, length_app in H2.
    apply Hu in H1, H2. assert (0 < length o) by (destruct o; simpl; [done|lia]). lia. }
  revert Hf. clear Hi Hu. induction a as [|c a IH]; intros Hf; cbn [app] in *.
  - rewrite count_hit by done. f_equal. by apply count_zero.
  - cbn [length py_find] in Hf. destruct (py_startswith _ o) eqn:E; [done|].
    rewrite count_miss by done. apply IH. destruct (py_find o (a ++ o ++ b)); by simplify_eq/=.
Qed.

(** An edit that is no room for a second copy: the shared ends do not overlap. *)
Definition apart (o o' n' : text) : bool := lcp o' n' + lcs o' n' <? length o' + length o.

Lemma edit_uniq o o' n' s t :
  o ≠ [] → no_create o o' n' = true → apart o o' n' = true → py_in o t = true →
  edit o' n' s t → uniq o s → uniq o t.
Proof.
  unfold apart. intros Hne Hnc Hap Hin (a & b & -> & ->) (k & Hk & Hu). bools.
  apply py_in_occ in Hin as [i Hi]. exists i. split; [done|]. intros j Hj.
  pose proof (lcs_le o' n'). pose proof (lcp_le o' n').
  destruct (edit_occ a b o' n' o i) as [[Hoi Hli]|[Hli Hoi]]; [done..| |];
  (destruct (edit_occ a b o' n' o j) as [[Hoj Hlj]|[Hlj Hoj]]; [done..| |]);
    apply Hu in Hoi, Hoj; lia.
Qed.

(** What one insertion does around its anchor: [n = x ++ o ++ y] puts [x] before and [y]
    after, and neither makes a second anchor. *)
Definition keeps_one (o n : text) : bool :=
  match py_find o n with
  | None => false
  | Some k =>
      let x := take k n in
      let y := drop (k + length o) n in
      (bool_decide (x = []) || no_create o o (x ++ o) && (lcp o (x ++ o) <? length o)) &&
      (bool_decide (y = []) || no_create o o (o ++ y) && (lcs o (o ++ y) <? length o))
  end.

Lemma uniq_before o x a b :
  o ≠ [] → x = [] ∨ no_create o o (x ++ o) = true ∧ lcp o (x ++ o) < length o →
  uniq o (a ++ o ++ b) → uniq o (a ++ x ++ o ++ b).
Proof.
  intros Hne [->|[Hnc Hl]] (k & Hk & Hu); [by exists k|].
  assert (length a = k) as <- by (apply Hu; by exists a, b).
  exists (length a + length x). split; [exists (a ++ x), b; by rewrite <-app_assoc, length_app|].
  intros j Hj. rewrite (app_assoc x) in Hj.
  pose proof (lcs_le o (x ++ o)). destruct (edit_occ a b o (x ++ o) o j) as [[Ho Hle]|[Hle Ho]]; [done..| |]; apply Hu in Ho.
  - lia.
  - rewrite length_app in *. lia.
Qed.

Lemma uniq_after o y a b :
  o ≠ [] → y = [] ∨ no_create o o (o ++ y) = true ∧ lcs o (o ++ y) < length o →
  uniq o (a ++ o ++ b) → uniq o (a ++ o ++ y ++ b).
Proof.
  intros Hne [->|[Hnc Hl]] (k & Hk & Hu); [by exists k|].
  assert (length a = k) as <- by (apply Hu; by exists a, b).
  exists (length a). split; [by exists a, (y ++ b)|].
  intros j Hj. rewrite (app_assoc o) in Hj.
  pose proof (lcs_le o (o ++ y)). destruct (edit_occ a b o (o ++ y) o j) as [[Ho Hle]|[Hle Ho]]; [done..| |]; apply Hu in Ho.
  - lia.
  - rewrite length_app in *. lia.
Qed.

Lemma keeps_one_uniq o n a b :
  o ≠ [] → keeps_one o n = true → uniq o (a ++ o ++ b) → uniq o (a ++ n ++ b).
Proof.
  unfold keeps_one. intros Hne Hk Hu. destruct (py_find o n) as [k|] eqn:Hf; [|done].
  destruct (find_split o n k Hf) as (x & y & -> & <-).
  rewrite take_app_length, <-length_app, app_assoc, drop_app_length in Hk. bools.
  rewrite <-!app_assoc. apply uniq_before; [done| |].
  - match goal with H : (bool_decide (x = []) || _) = true |- _ =>
      apply orb_true_iff in H as [H|H]; [left; by apply bool_decide_eq_true in H|right; by bools] end.
  - apply uniq_after; [done| |done].
    match goal with H : (bool_decide (y = []) || _) = true |- _ =>
      apply orb_true_iff in H as [H|H]; [left; by apply bool_decide_eq_true in H|right; by bools] end.
Qed.
End replace.

Lemma for_rows_app {A : Type} (b : A → text → outcome) l l' s hits :
  for_rows b (l ++ l') s hits = let! x := for_rows b l s hits in for_rows b l' x.1 x.2.
Proof.
  revert s hits. induction l as [|r l IH]; intros s hits; [done|]. simpl.
  destruct (b r s) as [[t tag]|]; [|done]. simpl. apply IH.
Qed.

(** ** Rows, as the check sees them *)

(** When the new text is in the file already: [Always] skip, or [Once] skip if the old
    one is there once; and [Never] look.  [Unsure] is a body that computes the new text
    from the file. *)
Inductive guard := Never | Always | Once | Unsure.

(** The file it works on, the text it looks for, and the texts it may put there. *)
Record arow := ARow { a_path : string; a_old : text; a_news : list text; a_guard : guard }.

(** [s] has nothing left for the row to do. *)
Definition settled (x : arow) (s : text) : Prop :=
  py_in (a_old x) s = false ∨
  match a_guard x with
  | Never | Unsure => False
  | Always => ∀ n, n ∈ a_news x → py_in n s = true
  | Once => (∀ n, n ∈ a_news x → py_in n s = true) ∧ uniq (a_old x) s
  end.

(** What a loop body promises of itself. *)
Record body_law (x : arow) (body : text → outcome) : Prop := {
  law_settled s : settled x s → body s = keep s;
  law_keep s t : body s = Ok (t, None) → t = s;
  law_sub s t tag :
    body s = Ok (t, Some tag) →
    py_in (a_old x) s = true ∧ (a_guard x = Once → py_count (a_old x) s = 1) ∧
    ∃ n, n ∈ a_news x ∧ t = py_replace (a_old x) n s;
  law_done s :
    a_old x ≠ [] → a_guard x ≠ Unsure → (a_guard x = Once → unbordered (a_old x) = true) →
    body s = keep s → settled x s;
}.

Definition one_new (l : list text) : bool := match l with [_] => true | _ => false end.

(** The row by itself. *)
Definition row_ok (x : arow) : bool :=
  match a_guard x with
  | Never => forallb (self_clearing (a_old x)) (a_news x)
  | Always => one_new (a_news x)
  | Once => one_new (a_news x) && unbordered (a_old x) && forallb (keeps_one (a_old x)) (a_news x)
  | Unsure => false
  end.

(** Row [y], after row [x] on the same file. *)
Definition pair_ok (x y : arow) : bool :=
  if String.eqb (a_path x) (a_path y) then
    forallb (λ n', no_create (a_old x) (a_old y) n' &&
                   match a_guard x with
                   | Never | Unsure => true
                   | Always => forallb (λ n, no_create n n' (a_old y)) (a_news x)
                   | Once => forallb (λ n, no_create n n' (a_old y)) (a_news x) &&
                             apart (a_old x) (a_old y) n' &&
                             existsb (py_in (a_old x)) (a_news x)
                   end) (a_news y)
  else true.

Definition nonempty (x : arow) : bool := negb (bool_decide (a_old x = [])).

(** The rows the check cannot vouch for. *)
Fixpoint unchecked (l : list arow) : list arow :=
  match l with
  | [] => []
  | x :: l' => (if row_ok x && forallb (pair_ok x) l' then [] else [x]) ++ unchecked l'
  end.

Lemma nonempty_ne x : nonempty x = true ↔ a_old x ≠ [].
Proof. unfold nonempty. by rewrite negb_true_iff, bool_decide_eq_false. Qed.

Lemma one_new_elem l n m : one_new l = true → n ∈ l → m ∈ l → n = m.
Proof.
  destruct l as [|x [|]]; [done| |done]. by intros _ ->%list_elem_of_singleton ->%list_elem_of_singleton.
Qed.

(** A row that has run is settled. *)
Lemma body_settles x body s t tag :
  nonempty x = true → row_ok x = true → body_law x body → body s = Ok (t, tag) → settled x t.
Proof.
  rewrite nonempty_ne. intros Hne Hok L Hb. destruct tag as [tag|].
  2: { pose proof (law_keep _ _ L _ _ Hb) as ->. unfold row_ok in Hok. eapply law_done; [exact L|done|by intros Hg; rewrite Hg in Hok| |done].
       intros Hg. rewrite Hg in Hok. by bools. }
  destruct (law_sub _ _ L _ _ _ Hb) as (Hin & Hc & n & Hn & ->).
  unfold row_ok in Hok. unfold settled. destruct (a_guard x); bools; try done.
  - left. rewrite forallb_forall in Hok. apply replace_clears; [|done].
    by apply Hok, list_elem_of_In.
  - right. intros m Hm. rewrite (one_new_elem _ m n Hok Hm Hn). by apply replace_new_in.
  - right. split.
    { intros m Hm. rewrite (one_new_elem _ m n ltac:(done) Hm Hn). by apply replace_new_in. }
    destruct (count_one_unique (a_old x) s) as (a & b & -> & Hf & Hu); [done|done|by apply Hc|].
    rewrite replace_leftmost by done. unfold py_replace. rewrite replace_absent; [|done|].
    + match goal with H : forallb (keeps_one _) _ = true |- _ => rewrite forallb_forall in H;
        apply keeps_one_uniq; [done|by apply H, list_elem_of_In|] end.
      exists (length a). split; [by exists a, b|done].
    + apply py_in_false. intros j Hj. pose proof (occ_app_l _ (a ++ a_old x) _ _ Hj) as H2.
      rewrite <-app_assoc, length_app in H2. apply Hu in H2.
      destruct (a_old x); simpl in *; [done|lia].
Qed.

(** The rows after it on the same file leave it so. *)
Lemma settled_edit x y n s :
  nonempty x = true → nonempty y = true → a_path x = a_path y → pair_ok x y = true →
  n ∈ a_news y → settled x s → settled x (py_replace (a_old y) n s).
Proof.
  rewrite !nonempty_ne. unfold pair_ok. intros Hnx Hny -> Hp Hn Hs.
  rewrite String.eqb_refl, forallb_forall in Hp.
  specialize (Hp n (proj1 (list_elem_of_In _ _) Hn)). bools.
  destruct Hs as [Hs|Hs]; [left; by apply replace_absent_other|right].
  assert (∀ l, forallb (λ m, no_create m n (a_old y)) l = true →
    ∀ m, m ∈ l → no_create m n (a_old y) = true) as Hk.
  { intros l Hl m Hm. rewrite forallb_forall in Hl. by apply Hl, list_elem_of_In. }
  destruct (a_guard x); [done|intros m Hm; apply replace_keeps; eauto| |done].
  destruct Hs as [Hs Hu]. bools.
  apply (replace_invariant (a_old y) n
    (λ s, (∀ m, m ∈ a_news x → py_in m s = true) ∧ uniq (a_old x) s)); [done| |done].
  intros u v Huv [Hu1 Hu2]. split; [intros m Hm; eapply edit_keeps; eauto|].
  eapply edit_uniq; [done..| |exact Huv|done].
  match goal with H : existsb _ _ = true |- _ => apply existsb_exists in H as (m & Hm & Ho) end.
  apply list_elem_of_In in Hm. eapply py_in_trans; [exact Ho|].
  eapply edit_keeps; [by eapply Hk|exact Huv|by apply Hu1].
Qed.

(** ** A whole table *)

Section table.
Context {A : Type} (view : A → arow) (body : A → text → outcome) (live : A → bool).
Context (path : string).
Context (live_path : ∀ r, live r = true → a_path (view r) = path).
Implicit Types (l : list A) (s t : text).

(** The loop: rows of other files, or behind a closed gate, are passed over. *)
Let step (r : A) (s : text) : outcome := if live r then body r s else keep s.

Lemma for_rows_cons r l s hits t h :
  for_rows step (r :: l) s hits = Ok (t, h) ↔
  ∃ s1 tag, step r s = Ok (s1, tag) ∧
    for_rows step l s1 (match tag with Some g => hits ++ [g] | None => hits end) = Ok (t, h).
Proof.
  simpl. rewrite res_bind_Ok. split.
  - intros ([s1 tag] & H1 & H2). by exists s1, tag.
  - intros (s1 & tag & H1 & H2). by exists (s1, tag).
Qed.

Lemma settled_rows x l s hits t h :
  (∀ r, r ∈ l → body_law (view r) (body r)) → forallb nonempty (view <$> l) = true →
  nonempty x = true → a_path x = path → forallb (pair_ok x) (view <$> l) = true →
  for_rows step l s hits = Ok (t, h) → settled x s → settled x t.
Proof.
  intros HL Hne Hx Hp. revert s hits. induction l as [|r l IH]; intros s hits Hok.
  { simpl. by intros [= <- <-]. }
  intros (s1 & tag & H1 & H2)%for_rows_cons Hs. simpl in Hne, Hok. bools.
  assert (body_law (view r) (body r)) as L by (apply HL; by left).
  eapply IH; [intros r' Hr'; apply HL; by right|done|done|exact H2|].
  unfold step in H1. destruct (live r) eqn:El; [|by injection H1 as <- _].
  destruct tag as [tag|]; [|by rewrite <-(law_keep _ _ L _ _ H1) in Hs].
  destruct (law_sub _ _ L _ _ _ H1) as (_ & _ & n & Hn & ->).
  apply settled_edit; [done..| |done|done|done]. by rewrite Hp, live_path.
Qed.

(** A table after its pass: a row is settled unless the check has doubts about it and its
    text is still there. *)
Lemma rows_settle l s hits t h :
  (∀ r, r ∈ l → body_law (view r) (body r)) → forallb nonempty (view <$> l) = true →
  for_rows step l s hits = Ok (t, h) →
  (∀ r, r ∈ l → live r = true → view r ∈ unchecked (view <$> l) → py_in (a_old (view r)) t = false) →
  ∀ r, r ∈ l → live r = true → settled (view r) t.
Proof.
  intros HL. revert s hits. induction l as [|x l IH]; intros s hits Hne.
  { intros _ _ r []%not_elem_of_nil. }
  intros (s1 & tag & H1 & H2)%for_rows_cons Hu r Hr Hl. simpl in Hne. bools.
  assert (∀ r, r ∈ l → body_law (view r) (body r)) as HL' by (intros; apply HL; by right).
  apply elem_of_cons in Hr as [->|Hr].
  - destruct (row_ok (view x) && forallb (pair_ok (view x)) (view <$> l)) eqn:Eok.
    + bools. eapply settled_rows; [done..|by apply live_path|done|exact H2|].
      unfold step in H1. rewrite Hl in H1.
      eapply body_settles; [done..|apply HL; by left|exact H1].
    + left. apply Hu; [by left|done|]. rewrite fmap_cons. cbn [unchecked]. rewrite Eok. by left.
  - eapply IH; [done..|exact H2| |done|done]. intros r' Hr' Hl' Hun. apply Hu; [by right|done|].
    rewrite fmap_cons. cbn [unchecked]. apply elem_of_app. by right.
Qed.

Lemma rows_idle l t hits :
  (∀ r, r ∈ l → body_law (view r) (body r)) →
  (∀ r, r ∈ l → live r = true → settled (view r) t) → for_rows step l t hits = Ok (t, hits).
Proof.
  induction l as [|r l IH]; intros HL Hs; [done|]. simpl. unfold step at 1.
  destruct (live r) eqn:El.
  - rewrite (law_settled _ _ (HL r ltac:(by left))) by (apply Hs; [by left|done]). simpl.
    apply IH; intros; [apply HL|apply Hs]; [by right..|done].
  - simpl. apply IH; intros; [apply HL|apply Hs]; [by right..|done].
Qed.

(** The texts in doubt, with their files. *)
Definition doubts l : list (string * text) :=
  (λ x, (a_path x, a_old x)) <$> unchecked (view <$> l).

(** The second pass. *)
Lemma for_rows_again l s hits t h hits' :
  (∀ r, r ∈ l → body_law (view r) (body r)) → forallb nonempty (view <$> l) = true →
  for_rows step l s hits = Ok (t, h) →
  (∀ o, (path, o) ∈ doubts l → py_in o t = false) →
  for_rows step l t hits' = Ok (t, hits').
Proof.
  intros HL Hne Hr Hu. apply rows_idle; [done|]. eapply rows_settle; [done..|].
  intros r Hin Hlive Hun. apply Hu. unfold doubts. rewrite <-(live_path r Hlive).
  apply list_elem_of_fmap. by exists (view r).
Qed.
End table.

(** ** The loop bodies keep the law *)

(** A body that skips when the old text is absent, and replaces otherwise. *)
Ltac by_cases_in :=
  repeat match goal with
  | |- context [py_in ?o ?s] => destruct (py_in o s) eqn:?
  | |- context [py_count ?o ?s =? 1] => destruct (py_count o s =? 1) eqn:?
  end; simpl; try done.

Ltac one_of := eexists; split; [apply list_elem_of_singleton; reflexivity|reflexivity].

Section laws.
Context (path : string).
Implicit Types (r : row) (s : text).

(** How each body is seen. *)
Definition plain (r : row) : arow := ARow path (r_old r) [r_new r] Never.

Definition inserts (g : guard) (r : row) : arow :=
  ARow path (r_old r) [r_new r] (if py_in (r_old r) (r_new r) then g else Never).

Definition with_new (r : row) : arow := ARow path (r_old r) [r_new r] Always.

Lemma sub_in_law r : body_law (plain r) (sub_in r).
Proof.
  unfold sub_in, plain, keep, substitute. constructor; unfold settled; simpl.
  - intros s [->|[]]. done.
  - intros s t. by_cases_in. by intros [= ->].
  - intros s t tag. by_cases_in. intros [= <- _]. split; [done|]. split; [done|]. one_of.
  - intros s _ _ _. by_cases_in. by left.
Qed.

Lemma sub_assert_law r : body_law (plain r) (sub_assert r).
Proof.
  unfold sub_assert, assert_sub, plain, keep, substitute. constructor; unfold settled; simpl.
  - intros s [->|[]]. done.
  - intros s t. by_cases_in. by intros [= ->].
  - intros s t tag. by_cases_in. intros [= <- _]. split; [done|]. split; [done|]. one_of.
  - intros s _ _ _. by_cases_in. by left.
Qed.

Lemma sub_skip_assert_law r : body_law (inserts Always r) (sub_skip_assert r).
Proof.
  unfold sub_skip_assert, assert_sub, inserts, keep, substitute.
  constructor; unfold settled; simpl.
  - intros s. destruct (py_in (r_old r) (r_new r)); simpl; intros [->|H]; try done.
    rewrite (H (r_new r)) by by rewrite list_elem_of_singleton. by destruct (py_in _ s).
  - intros s t. by_cases_in; by intros [= ->].
  - intros s t tag. destruct (py_in (r_old r) (r_new r)); by_cases_in;
      (intros [= <- _]; split; [done|]; split; [done|]; one_of).
  - intros s _ _ _. destruct (py_in (r_old r) (r_new r)); by_cases_in; try (by left).
    all: intros _; right; by intros n ->%list_elem_of_singleton.
Qed.

Lemma sub_assert_skip_law r : body_law (inserts Once r) (sub_assert_skip r).
Proof.
  unfold sub_assert_skip, inserts, keep, substitute. constructor; unfold settled; simpl.
  - intros s. destruct (py_in (r_old r) (r_new r)); simpl; intros [->|H]; try done.
    destruct H as [H Hu]. rewrite (H (r_new r)) by by rewrite list_elem_of_singleton.
    rewrite (uniq_count _ _ Hu). by destruct (py_in _ s).
  - intros s t. by_cases_in; by intros [= ->].
  - intros s t tag. destruct (py_in (r_old r) (r_new r)); by_cases_in;
      (intros [= <- _]; bools; split; [done|]; split; [done|]; one_of).
  - intros s Hne _ Hub. destruct (py_in (r_old r) (r_new r)); by_cases_in; try (by left).
    intros _. bools. right. split; [by intros n ->%list_elem_of_singleton|].
    destruct (count_one_unique (r_old r) s) as (a & b & -> & _ & Hu); [by apply Hub|done..|].
    exists (length a). split; [by exists a, b|done].
Qed.

Lemma msg_new_law r : body_law (with_new r) (msg_new r).
Proof.
  unfold msg_new, with_new, keep, substitute. constructor; unfold settled; simpl.
  - intros s [->|H]; [done|]. rewrite (H (r_new r)) by by rewrite list_elem_of_singleton.
    by destruct (py_in _ s).
  - intros s t. by_cases_in; by intros [= ->].
  - intros s t tag. by_cases_in. intros [= <- _]. split; [done|]. split; [done|]. one_of.
  - intros s _ _ _. by_cases_in; try (by left).
    intros _. right. by intros n ->%list_elem_of_singleton.
Qed.

(** A message that loses a paragraph. *)
Definition new_or_cut (r : row) : arow :=
  if bool_decide (r_new r = []) then plain r else with_new r.

Lemma msg_new_or_cut_law r : body_law (new_or_cut r) (msg_new_or_cut r).
Proof.
  unfold new_or_cut. destruct (bool_decide (r_new r = [])) eqn:E.
  - apply bool_decide_eq_true in E. destruct (sub_in_law r) as [L1 L2 L3 L4].
    assert (∀ s, msg_new_or_cut r s = sub_in r s) as He.
    { intros s. unfold msg_new_or_cut, sub_in. rewrite bool_decide_eq_true_2 by done.
      by rewrite orb_true_l, andb_true_r. }
    constructor; intros s; rewrite He; eauto.
  - destruct (msg_new_law r) as [L1 L2 L3 L4].
    assert (∀ s, msg_new_or_cut r s = msg_new r s) as He.
    { intros s. unfold msg_new_or_cut, msg_new. by rewrite E. }
    constructor; intros s; rewrite He; eauto.
Qed.
End laws.

Lemma hit_prefix_law {A : Type} (x : arow) pre (body : A → text → outcome) r :
  body_law x (body r) → body_law x (hit_prefix pre body r).
Proof.
  intros [L1 L2 L3 L4]. unfold hit_prefix. constructor.
  - intros s Hs. by rewrite L1.
  - intros s t ([u tag] & Hb & [= -> Ht])%res_bind_Ok. destruct tag; [done|]. by apply L2.
  - intros s t tag ([u g] & Hb & [= -> Ht])%res_bind_Ok. destruct g as [g|]; [|done]. by eapply L3.
  - intros s H1 H2 H3 ([u g] & Hb & [= -> Ht])%res_bind_Ok. destruct g; [done|]. by apply L4.
Qed.
