(* ===== verification/Xform.v ===== *)
(** docs/rounds/a-0925: xform.py to xform4.py, which edit a checked-out tree in place, and
    msg4.py and msg5.py, which rewrite the message of one commit.  Names are prefixed with
    the script's.

    A tree is the files under the directory the script is given; os.path.exists asks for a
    key of it.  The scripts read with universal newlines.  Of the text of a SystemExit the
    model keeps what names the file. *)
From S2P Require Import Prelude PyStr R3Engine TxEngine.

(** The tree and the two counters. *)
Record xf := Xf { xf_tree : gmap string text; xf_applied : nat; xf_skipped : nat }.

Definition xf_skip (st : xf) : xf := Xf (xf_tree st) (xf_applied st) (S (xf_skipped st)).

Definition xf_write (st : xf) (path : string) (s : text) (n : nat) : xf :=
  Xf (<[path := s]> (xf_tree st)) (xf_applied st + n) (xf_skipped st).

Definition xf_start (tree : gmap string text) : xf := Xf tree 0 0.

(** ** xform.py *)

(** [edit(path, old, new)]; every call has [once=True].  What has been written stays
    written when the script exits. *)
Definition xform_edit (st : xf) (r : frow) : xf * res unit :=
  match xf_tree st !! f_path r with
  | None => (xf_skip st, Ok ())
  | Some bytes =>
      let s := R3.universal_newlines bytes in
      let old := r_old (f_row r) in
      let new := r_new (f_row r) in
      if negb (py_in old s) || (negb (bool_decide (new = [])) && py_in new s)
      then (xf_skip st, Ok ())
      else if negb (py_count old s =? 1)
      then (st, Raise (SystemExit ("ambiguous anchor in " +:+ f_path r)))
      else (xf_write st (f_path r) (py_replace old new s) 1, Ok ())
  end.

Fixpoint xform_edits (st : xf) (rows : list frow) : xf * res unit :=
  match rows with
  | [] => (st, Ok ())
  | r :: rows' =>
      match xform_edit st r with
      | (st', Ok _) => xform_edits st' rows'
      | (st', Raise e) => (st', Raise e)
      end
  end.

Definition xform_PF : string := "lustre/utils/liblustreapi_pfind.c".

(** The calls of [edit], lines 32 to 100. *)
Definition xform_rows : list frow := [
  FRow "lustre/utils/lustreapi_scan_backend.h" (Row ""
    (lit "	__u32	so_gen;
")
    (lit "	__u32	so_gen;
	__u32	so_rdev;		/* la_rdev of a device node, as the OSD has it */
")) None;
  FRow "lustre/utils/libscan_ldiskfs.c" (Row ""
    (lit "	obj->so_gen = inode->i_generation;
")
    (lit "	obj->so_gen = inode->i_generation;
	/* as ext4_iget() reads i_rdev, which osd-ldiskfs reports as la_rdev */
	if (LINUX_S_ISCHR(inode->i_mode) || LINUX_S_ISBLK(inode->i_mode)) {
		__u32 old = inode->i_block[0];
		__u32 new = inode->i_block[1];

		if (old != 0)
			obj->so_rdev = (((old >> 8) & 0xff) << 20) | (old & 0xff);
		else
			obj->so_rdev = (((new & 0xfff00) >> 8) << 20) |
				       (new & 0xff) | ((new >> 12) & 0xfff00);
	}
")) None;
  FRow "lustre/utils/liblustreapi_scan_device.c" (Row ""
    (lit "	rec->lfsr_stx.stx_gid = obj->so_gid;
")
    (lit "	rec->lfsr_stx.stx_gid = obj->so_gid;
	/*
	 * la_rdev holds the client's old_encode_dev() value; decode it as
	 * ll_update_inode() does, so this is what stat(2) shows.
	 */
	if (S_ISCHR(obj->so_mode) || S_ISBLK(obj->so_mode)) {
		rec->lfsr_stx.stx_rdev_major = (obj->so_rdev >> 8) & 0xff;
		rec->lfsr_stx.stx_rdev_minor = obj->so_rdev & 0xff;
	}
	rec->lfsr_stx.stx_blksize = getpagesize();	/* as ll_dir_ioctl() */
")) None;
  FRow "lustre/utils/libscan_zfs.c" (Row ""
    (lit "	if (scan_zfs_sa_get_u64(hdl, a[ZPL_SIZE], &v) == 0)
")
    (lit "	/* osd-zfs keeps la_rdev in ZPL_RDEV as it was given */
	if ((S_ISCHR(obj.so_mode) || S_ISBLK(obj.so_mode)) &&
	    scan_zfs_sa_get_u64(hdl, a[ZPL_RDEV], &v) == 0)
		obj.so_rdev = (__u32)v;
	if (scan_zfs_sa_get_u64(hdl, a[ZPL_SIZE], &v) == 0)
")) None;
  FRow "Documentation/man3/llapi_scan_device.3" (Row ""
    (lit "on \\(em the default \\(em is most of them.
.LP
")
    (lit "on \\(em the default \\(em is most of them.
.LP
For a character or block device,
.I lfsr_stx.stx_rdev_major
and
.I lfsr_stx.stx_rdev_minor
are the device number that
.BR stat (2)
shows on a client.
statx has no mask bit for them.
.I lfsr_stx.stx_blksize
is the page size, as a namespace scan reports it.
.LP
")) None;
  FRow xform_PF (Row ""
    (lit "	__u32			 fc_projid;	/* only with fc_have_projid */
")
    (lit "")) None;
  FRow xform_PF (Row ""
    (lit "	bool			 fc_have_projid;
")
    (lit "")) None;
  FRow xform_PF (Row ""
    (lit "	if (fc->fc_have_projid) {
		*projid = fc->fc_projid;
")
    (lit "	if (fc->fc_rec->lfsr_valid & LLAPI_SCAN_PROJID) {
		*projid = fc->fc_rec->lfsr_projid;
")) None;
  FRow xform_PF (Row ""
    (lit "	    (param->fp_format_printf_str != NULL && fc->fc_have_projid)) {
")
    (lit "	    (param->fp_format_printf_str != NULL &&
	     (fc->fc_rec->lfsr_valid & LLAPI_SCAN_PROJID))) {
")) None
].

Definition xform_pat : text :=
  (lit "	fc.fc_have_projid = !!(rec->lfsr_valid & LLAPI_SCAN_PROJID);
	fc.fc_projid = rec->lfsr_projid;
").

(** The copies in the scan callbacks. *)
Definition xform_callbacks (st : xf) : xf :=
  match xf_tree st !! xform_PF with
  | None => st
  | Some bytes =>
      let s := R3.universal_newlines bytes in
      match py_count xform_pat s with
      | 0 => xf_skip st
      | n => xf_write st xform_PF (py_replace xform_pat [] s) n
      end
  end.

(** The script: the tree it leaves, and what it prints. *)
Definition xform (tree : gmap string text) : gmap string text * res (nat * nat) :=
  match xform_edits (xf_start tree) xform_rows with
  | (st, Raise e) => (xf_tree st, Raise e)
  | (st, Ok _) =>
      let st := xform_callbacks st in (xf_tree st, Ok (xf_applied st, xf_skipped st))
  end.

(** ** xform2.py *)

Definition xform2_rows : list frow := [
  FRow "lustre/utils/libscan_ldiskfs.c" (Row ""
    (lit "			obj->so_rdev = (((old >> 8) & 0xff) << 20) | (old & 0xff);
")
    (lit "			obj->so_rdev = (((old >> 8) & 0xff) << 20) |
				       (old & 0xff);
")) None;
  FRow "lustre/utils/lustreapi_scan_backend.h" (Row ""
    (lit "	__u32	so_rdev;		/* la_rdev of a device node, as the OSD has it */
")
    (lit "	__u32	so_rdev;		/* la_rdev of a device node */
")) None
].

Fixpoint xform2_loop (st : xf) (rows : list frow) : xf :=
  match rows with
  | [] => st
  | r :: rows' =>
      let s := match xf_tree st !! f_path r with
               | Some bytes => R3.universal_newlines bytes | None => [] end in
      if py_in (r_old (f_row r)) s
      then xform2_loop (xf_write st (f_path r) (py_replace (r_old (f_row r)) (r_new (f_row r)) s) 1) rows'
      else xform2_loop (xf_skip st) rows'
  end.

Definition xform2 (tree : gmap string text) : gmap string text * (nat * nat) :=
  let st := xform2_loop (xf_start tree) xform2_rows in
  (xf_tree st, (xf_applied st, xf_skipped st)).

(** ** xform3.py *)

Definition xform3_old : text :=
  (lit "sets a bit this library does not define, or
").

Definition xform3_new : text :=
  (lit "sets a bit this library does not define or that only
.BR llapi_scan_device (3)
acts on, such as
.BR LLAPI_SCAN_F_INTERNAL ,
or
").

Definition xform3_h : string := "include/lustre/lustreapi.h".
Definition xform3_p : string := "Documentation/man3/llapi_scan_namespace.3".

(** The number of edits it prints. *)
Definition xform3 (tree : gmap string text) : gmap string text * res nat :=
  match tree !! xform3_h with
  | None => (tree, Raise (FileNotFoundError xform3_h))
  | Some h =>
      let s := match tree !! xform3_p with Some bytes => R3.universal_newlines bytes | None => [] end in
      if py_in (lit "define LLAPI_SCAN_F_INTERNAL") (R3.universal_newlines h) && py_in xform3_old s
      then (<[xform3_p := py_replace xform3_old xform3_new s]> tree, Ok 1)
      else (tree, Ok 0)
  end.

(** ** xform4.py *)

Definition xform4_rows : list row := [
  Row ""
    (lit "	if (rc == -ENOPKG)
		llapi_error(LLAPI_MSG_ERROR | LLAPI_MSG_NO_ERRNO, rc,
			    \q%s: unsupported features; needs Lustre's e2fsprogs\q,
			    device);
")
    (lit "	if (rc == -ENOPKG && kind == SCAN_BACKEND_ZFS)
		llapi_error(LLAPI_MSG_ERROR | LLAPI_MSG_NO_ERRNO, rc,
			    \q%s: unsupported pool features; needs newer libzpool\q,
			    device);
	else if (rc == -ENOPKG)
		llapi_error(LLAPI_MSG_ERROR | LLAPI_MSG_NO_ERRNO, rc,
			    \q%s: unsupported features; needs Lustre's e2fsprogs\q,
			    device);
");
  Row ""
    (lit " * target answers for itself instead, -ENOPKG for an ldiskfs target this
 * libext2fs will not open and -EMEDIUMTYPE for a dataset holding no ZPL
")
    (lit " * target answers for itself instead, -ENOPKG for a target this libext2fs or
 * libzpool will not open and -EMEDIUMTYPE for a dataset holding no ZPL
");
  Row ""
    (lit "	 * stats as.  Routing by type alone sent a mount point or any other
	 * directory to the ZFS backend, where the caller was told there was
	 * no ZFS backend -- looking for a package rather than at the name
	 * they typed -- or, on a ZFS build, -ENOENT for a path that plainly
	 * exists, scan_zfs_open() having cut the name at its first slash.
")
    (lit "	 * stats as.  Routing by type alone would send a directory to the ZFS
	 * backend, which answers -ENOTSUP or, as it cuts the name at its
	 * first slash, -ENOENT for a path that exists.
")
].

Definition xform4_gate : string := "lustre/utils/libscan_zfs.c".
Definition xform4_p : string := "lustre/utils/liblustreapi_scan_device.c".

(** The text and the two counters. *)
Fixpoint xform4_loop (rows : list row) (s : text) (applied skipped : nat) : text * (nat * nat) :=
  match rows with
  | [] => (s, (applied, skipped))
  | r :: rows' =>
      if py_in (r_old r) s
      then xform4_loop rows' (py_replace (r_old r) (r_new r) s) (S applied) skipped
      else xform4_loop rows' s applied (S skipped)
  end.

(** [None]: the gate; the file is written back whether it has changed or not. *)
Definition xform4 (tree : gmap string text) : gmap string text * res (option (nat * nat)) :=
  match tree !! xform4_gate with
  | None => (tree, Ok None)
  | Some _ =>
      match tree !! xform4_p with
      | None => (tree, Raise (FileNotFoundError xform4_p))
      | Some bytes =>
          let x := xform4_loop xform4_rows (R3.universal_newlines bytes) 0 0 in
          (<[xform4_p := x.1]> tree, Ok (Some x.2))
      end
  end.

(** ** msg4.py and msg5.py *)

Definition msg4_rows : list row := [
  Row ""
    (lit "a pool listed there
was opened directly, before those checks, and a pool the kernel held
answered EREMOTEIO instead of EBUSY.")
    (lit "a pool listed there
would be opened directly, before those checks, and a pool the kernel
holds would answer EREMOTEIO instead of EBUSY.");
  Row ""
    (lit "scan.  sanity 131d is what noticed: it reads errno through rwv, which")
    (lit "scan.  sanity 131d shows this: it reads errno through rwv, which");
  Row ""
    (lit "says why.  A lab build is what caught it: nm still read \qw
scan_zfs_open\q and the binary held no libzpool symbol at all.  So the
program names one symbol undefined up front, -Wl,-u,scan_zfs_open,
")
    (lit "says why: nm reads \qw scan_zfs_open\q and the binary holds no
libzpool symbol at all.  So the program names one symbol undefined
up front, -Wl,-u,scan_zfs_open,
");
  Row ""
    (lit "sanity on every change -- which is how 131d found this to begin with.
")
    (lit "sanity on every change.
")
].

Fixpoint msg4_loop (rows : list row) (m : text) : res text :=
  match rows with
  | [] => Ok m
  | r :: rows' =>
      if negb (py_in (r_old r) m) && negb (py_in (r_new r) m)
      then Raise (SystemExit "msg4: anchor missing")
      else msg4_loop rows' (py_replace (r_old r) (r_new r) m)
  end.

(** From what is read to what is written. *)
Definition msg4 (m : text) : res text :=
  if py_in (lit "Change-Id: I97a6d8815924b2671c818152f42d66cc580a609d") m
  then msg4_loop msg4_rows m else Ok m.

Definition msg5_anchor : text :=
  (lit "date on osd-zfs.
").

Definition msg5_add : text :=
  (lit "
osd-zfs keeps an xattr that does not fit in the SA in a directory of
its own, one object for each value. These objects hold the xattrs of
another object, like an ldiskfs ea_inode, so they are neither reported
nor counted. They have no ZPL_MODE, so otherwise they would be counted
in ss_skipped, and lfs find --device would report damage that is not
there.
").

(** The message that [git commit --amend] is given. *)
Definition msg5 (msg : text) : res text :=
  if (py_count msg5_anchor msg =? 1) && negb (py_in (lit "ea_inode") msg)
  then Ok (py_replace_n msg5_anchor (msg5_anchor ++ msg5_add) msg 1)
  else Raise (AssertionError "").
