(* ===== verification/XformTheorems.v ===== *)
(** xform.py run twice on a tree. *)
From S2P Require Import Prelude PyStr Stable R3Engine R3Facts R3Idem TxEngine TxFacts Xform.

(** ** A file as the rows see it *)

(** A call of [edit] ([false]), or the block for the scan callbacks ([true]). *)
Definition xf_body (x : bool * frow) (s : text) : outcome :=
  let r := f_row x.2 in
  if x.1 then sub_in r s
  else if negb (py_in (r_old r) s) || (negb (bool_decide (r_new r = [])) && py_in (r_new r) s) then keep s
  else if negb (py_count (r_old r) s =? 1) then Raise (SystemExit ("ambiguous anchor in " +:+ f_path x.2))
  else substitute r s.

Definition xf_view (x : bool * frow) : arow :=
  if x.1 then plain (f_path x.2) (f_row x.2) else new_or_cut (f_path x.2) (f_row x.2).

Lemma xf_view_path x : a_path (xf_view x) = f_path x.2.
Proof. unfold xf_view, new_or_cut. destruct x.1; [done|]. by destruct (bool_decide _). Qed.

Lemma xf_body_law x : body_law (xf_view x) (xf_body x).
Proof.
  destruct x as [[|] [p r g]]; unfold xf_view, xf_body; cbn [fst snd f_row f_path]; [apply sub_in_law|].
  unfold new_or_cut. destruct (bool_decide (r_new r = [])) eqn:E; unfold plain, with_new, keep, substitute.
  - constructor; unfold settled; simpl; intros s.
    + by intros [->|[]].
    + intros t. by_cases_in; by intros [= ->].
    + intros t tag. by_cases_in; intros [= <- _]; (split; [done|]; split; [done|]; one_of).
    + intros _ _ _. by_cases_in; intros _; by left.
  - constructor; unfold settled; simpl; intros s.
    + intros [->|Hn]; [done|]. rewrite (Hn (r_new r)) by by left. by rewrite orb_true_r.
    + intros t. by_cases_in; by intros [= ->].
    + intros t tag. by_cases_in; intros [= <- _]; (split; [done|]; split; [done|]; one_of).
    + intros _ _ _. by_cases_in; intros _; first [by left|right; by intros n ->%list_elem_of_singleton].
Qed.

Definition xf_rows : list (bool * frow) :=
  (pair false <$> xform_rows) ++ [(true, FRow xform_PF (Row "" xform_pat []) None)].

Definition xf_at (p : string) (x : bool * frow) : bool := String.eqb (f_path x.2) p.
Definition xf_step (p : string) (x : bool * frow) (s : text) : outcome :=
  if xf_at p x then xf_body x s else keep s.

Definition xf_news_ok (x : bool * frow) : bool :=
  negb (bool_decide (r_old (f_row x.2) = [])) && crfree (r_new (f_row x.2)).

(** ** The tree *)

Section tree.
Implicit Types (st : xf) (p : string).

(** What a call of [edit] does to the file [p]. *)
Lemma xform_edit_file st r st' p bytes :
  xf_news_ok (false, r) = true → xform_edit st r = (st', Ok ()) → xf_tree st !! p = Some bytes →
  ∃ bytes' tag, xf_tree st' !! p = Some bytes' ∧
    xf_step p (false, r) (R3.universal_newlines bytes) = Ok (R3.universal_newlines bytes', tag).
Proof.
  intros [Hne Hcr]%andb_true_iff He Hb. unfold xform_edit in He. unfold xf_step, xf_at, xf_body.
  apply negb_true_iff, bool_decide_eq_false in Hne. cbn [fst snd] in *.
  destruct (String.eqb_spec (f_path r) p) as [Hp|Hp].
  - rewrite Hp, Hb in He. destruct (negb _ || _); [injection He as <-; by exists bytes, None|].
    destruct (negb _); [done|]. injection He as <-. cbn [xf_tree xf_write]. rewrite lookup_insert_eq. eexists _, _.
    split; [reflexivity|]. unfold substitute. rewrite (crfree_universal (py_replace _ _ _)); [done|].
    apply replace_crfree; [done..|apply universal_crfree].
  - assert (xf_tree st' !! p = Some bytes) as Hb'; [|by exists bytes, None].
    destruct (xf_tree st !! f_path r) as [b|]; [|by injection He as <-].
    destruct (negb _ || _); [by injection He as <-|]. destruct (negb _); [done|].
    injection He as <-. cbn. by rewrite lookup_insert_ne.
Qed.

Lemma xform_edits_file rows st st' p bytes hits :
  forallb xf_news_ok (pair false <$> rows) = true → xform_edits st rows = (st', Ok ()) →
  xf_tree st !! p = Some bytes →
  ∃ bytes' h, xf_tree st' !! p = Some bytes' ∧
    for_rows (xf_step p) (pair false <$> rows) (R3.universal_newlines bytes) hits =
      Ok (R3.universal_newlines bytes', h).
Proof.
  revert st bytes hits. induction rows as [|r rows IH]; intros st bytes hits Hok Hr Hb.
  { injection Hr as <-. by exists bytes, hits. }
  rewrite fmap_cons in *. cbn [forallb] in Hok. apply andb_true_iff in Hok as [Hok1 Hok].
  cbn [xform_edits] in Hr. destruct (xform_edit st r) as [st1 [[]|]] eqn:He; [|done].
  destruct (xform_edit_file _ _ _ p bytes Hok1 He Hb) as (b1 & tag & Hb1 & H1).
  destruct (IH st1 b1 (match tag with Some g => hits ++ [g] | None => hits end) Hok Hr Hb1)
    as (b2 & h & Hb2 & H2).
  exists b2, h. split; [done|]. cbn [for_rows]. rewrite H1. exact H2.
Qed.

Lemma xform_callbacks_file st p bytes :
  xf_tree st !! p = Some bytes →
  ∃ bytes' tag, xf_tree (xform_callbacks st) !! p = Some bytes' ∧
    xf_step p (true, FRow xform_PF (Row "" xform_pat []) None) (R3.universal_newlines bytes) =
      Ok (R3.universal_newlines bytes', tag).
Proof.
  intros Hb. unfold xform_callbacks, xf_step, xf_at, xf_body, sub_in. cbn [fst snd f_path f_row r_old r_new].
  destruct (String.eqb_spec xform_PF p) as [Hp|Hp].
  - rewrite Hp, Hb. destruct (py_count xform_pat (R3.universal_newlines bytes)) eqn:Ec.
    + apply count_zero in Ec; [|by vm_compute]. rewrite Ec. by exists bytes, None.
    + assert (py_in xform_pat (R3.universal_newlines bytes) = true) as ->
        by (apply count_pos; [by vm_compute|lia]).
      cbn [xf_tree xf_write]. rewrite lookup_insert_eq. eexists _, _. split; [reflexivity|]. unfold substitute.
      rewrite (crfree_universal (py_replace _ _ _)); [done|].
      apply replace_crfree; [by vm_compute|done|apply universal_crfree].
  - assert (xf_tree (xform_callbacks st) !! p = Some bytes) as Hb'; [|by exists bytes, None].
    unfold xform_callbacks. destruct (xf_tree st !! xform_PF); [|done].
    destruct (py_count _ _); [done|]. cbn. by rewrite lookup_insert_ne.
Qed.

(** No file is made. *)
Lemma xf_write_dom st p s n :
  is_Some (xf_tree st !! p) → dom (xf_tree (xf_write st p s n)) = dom (xf_tree st).
Proof. intros Hp. by apply dom_insert_lookup_L. Qed.

Lemma xform_edits_dom rows st st' :
  xform_edits st rows = (st', Ok ()) → dom (xf_tree st') = dom (xf_tree st).
Proof.
  revert st. induction rows as [|r rows IH]; intros st Hr; [by injection Hr as <-|].
  cbn [xform_edits] in Hr. destruct (xform_edit st r) as [st1 [[]|]] eqn:He; [|done].
  rewrite (IH _ Hr). unfold xform_edit in He. destruct (xf_tree st !! f_path r) eqn:Eb.
  - destruct (negb _ || _); [by injection He as <-|]. destruct (negb _); [done|].
    injection He as <-. by rewrite xf_write_dom.
  - by injection He as <-.
Qed.

Lemma xform_callbacks_dom st : dom (xf_tree (xform_callbacks st)) = dom (xf_tree st).
Proof.
  unfold xform_callbacks. destruct (xf_tree st !! xform_PF) eqn:Eb; [|done].
  destruct (py_count _ _); [done|]. by rewrite xf_write_dom.
Qed.

(** Rows that have nothing to do leave the tree. *)
Lemma xform_edits_idle rows tree a k :
  (∀ r bytes, r ∈ rows → tree !! f_path r = Some bytes →
     xf_body (false, r) (R3.universal_newlines bytes) = keep (R3.universal_newlines bytes)) →
  ∃ k', xform_edits (Xf tree a k) rows = (Xf tree a k', Ok ()).
Proof.
  revert k. induction rows as [|r rows IH]; intros k Hi; [by exists k|]. cbn [xform_edits].
  assert (xform_edit (Xf tree a k) r = (Xf tree a (S k), Ok ())) as ->.
  { unfold xform_edit. cbn [xf_tree]. destruct (tree !! f_path r) as [bytes|] eqn:Eb; [|done].
    specialize (Hi r bytes ltac:(by left) Eb). unfold xf_body in Hi. cbn [fst snd] in Hi.
    destruct (negb _ || _); [done|]. by destruct (negb _). }
  apply IH. intros r' bytes Hr'. apply Hi. by right.
Qed.
End tree.

(** The texts of liblustreapi_pfind.c that the script takes out: cut out of a text that
    nests them in itself, they may come back. *)
Definition xform_doubts : list (string * text) := doubts xf_view xf_rows.

(** xform.py is one idempotent transform of a tree, as its header says, where it leaves
    none of the texts it takes out of liblustreapi_pfind.c: run again on the tree it has
    left it exits neither on an ambiguous anchor nor otherwise, applies nothing and
    changes no file. *)
Theorem xform_again tree tree1 n :
  xform tree = (tree1, Ok n) →
  (∀ p o bytes, (p, o) ∈ xform_doubts → tree1 !! p = Some bytes →
     py_in o (R3.universal_newlines bytes) = false) →
  ∃ k, xform tree1 = (tree1, Ok (0, k)).
Proof.
  intros Hx Hd. assert (forallb xf_news_ok (pair false <$> xform_rows) = true) as Hok
    by (vm_compute; reflexivity).
  unfold xform in Hx. destruct (xform_edits (xf_start tree) xform_rows) as [st [[]|]] eqn:He; [|done].
  injection Hx as Ht _.
  assert (∀ x bytes, x ∈ xf_rows → tree1 !! f_path x.2 = Some bytes →
    xf_body x (R3.universal_newlines bytes) = keep (R3.universal_newlines bytes)) as Hidle.
  { intros x bytes Hin Hb. apply (law_settled _ _ (xf_body_law x)).
    assert (∃ b0, xf_tree (xf_start tree) !! f_path x.2 = Some b0) as [b0 Hb0].
    { apply elem_of_dom. rewrite <-(xform_edits_dom _ _ _ He), <-xform_callbacks_dom, Ht.
      apply elem_of_dom. by exists bytes. }
    destruct (xform_edits_file _ _ _ _ _ [] Hok He Hb0) as (b1 & h1 & Hb1 & H1).
    destruct (xform_callbacks_file _ _ _ Hb1) as (b2 & tag & Hb2 & H2).
    rewrite Ht, Hb in Hb2. injection Hb2 as <-.
    assert (for_rows (xf_step (f_path x.2)) xf_rows (R3.universal_newlines b0) [] =
      Ok (R3.universal_newlines bytes, match tag with Some g => h1 ++ [g] | None => h1 end)) as Hrows.
    { unfold xf_rows. rewrite for_rows_app, H1. cbn [res_bind for_rows fst snd]. rewrite H2.
      cbn [res_bind fst snd]. done. }
    apply (rows_settle xf_view xf_body (xf_at (f_path x.2)) (f_path x.2)) with
      (l := xf_rows) (s := R3.universal_newlines b0) (hits := [])
      (h := match tag with Some g => h1 ++ [g] | None => h1 end).
    - intros y Hy%String.eqb_eq. by rewrite xf_view_path.
    - intros y _. apply xf_body_law.
    - vm_compute. reflexivity.
    - exact Hrows.
    - intros y _ Hy%String.eqb_eq Hu. apply (Hd (f_path x.2)); [|done].
      unfold xform_doubts, doubts. apply list_elem_of_fmap. exists (xf_view y).
      by rewrite xf_view_path, Hy.
    - done.
    - by apply String.eqb_eq. }
  unfold xform, xf_start. destruct (xform_edits_idle xform_rows tree1 0 0) as [k ->].
  { intros r bytes Hr. apply (Hidle (false, r)). apply elem_of_app. left. by apply list_elem_of_fmap_2. }
  assert (xform_callbacks (Xf tree1 0 k) = Xf tree1 0 k ∨
          xform_callbacks (Xf tree1 0 k) = Xf tree1 0 (S k)) as [-> | ->]; [|by eexists..].
  unfold xform_callbacks. cbn [xf_tree]. destruct (tree1 !! xform_PF) as [bytes|] eqn:Eb; [|by left].
  right. specialize (Hidle (true, FRow xform_PF (Row "" xform_pat []) None) bytes).
  unfold xf_body, sub_in in Hidle. cbn [fst snd f_row f_path r_old] in Hidle.
  destruct (py_in xform_pat (R3.universal_newlines bytes)) eqn:Ep.
  - specialize (Hidle ltac:(apply elem_of_app; right; by left) Eb). discriminate.
  - apply count_zero in Ep; [|by vm_compute]. by rewrite Ep.
Qed.

(** A tree with the anchor of the first edit, and a copy in a callback. *)
Definition rdev_tree : gmap string text :=
  {["lustre/utils/lustreapi_scan_backend.h" := lit "	__u32	so_gen;
"; xform_PF := xform_pat ++ lit "}
"]}.
Definition rdev_tree1 : gmap string text := (xform rdev_tree).1.

Lemma xform_again_witness :
  (xform rdev_tree).2 = Ok (2, 8) ∧ ∃ k, xform rdev_tree1 = (rdev_tree1, Ok (0, k)).
Proof.
  assert ((xform rdev_tree).2 = Ok (2, 8)) as E by (vm_compute; reflexivity). split; [exact E|].
  apply (xform_again rdev_tree rdev_tree1 (2, 8)).
  - unfold rdev_tree1. destruct (xform rdev_tree) as [t o]. cbn in E |- *. by rewrite E.
  - assert (forallb (λ '(p, o), match rdev_tree1 !! p with
      | Some bytes => negb (py_in o (R3.universal_newlines bytes)) | None => true end) xform_doubts = true)
      as Hd by (vm_compute; reflexivity).
    intros p o bytes Hin Hb. rewrite forallb_forall in Hd. apply list_elem_of_In in Hin.
    specialize (Hd (p, o) Hin). cbn beta iota in Hd. rewrite Hb in Hd. by apply negb_true_iff in Hd.
Defined.
