(* ===== verification/Utf8.v ===== *)
(** [bytes.decode()], and why the scripts can be modelled on bytes: a valid text can only
    occur in another at the boundary of a character, so that replacing one by another
    keeps texts valid, and cutting at an occurrence cuts between characters. *)
From S2P Require Import Prelude PyStr R3Engine TxEngine TxFacts.

(** Reading UTF-8 with [need] bytes to come, the next one between [lo] and [hi]. *)
Fixpoint utf8_from (need lo hi : nat) (s : text) : bool :=
  match s with
  | [] => need =? 0
  | c :: s' =>
      let n := nat_of_ascii c in
      match need with
      | S need' => (lo <=? n) && (n <=? hi) && utf8_from need' 128 191 s'
      | 0 =>
          if n <=? 127 then utf8_from 0 0 0 s'
          else if n <=? 193 then false
          else if n <=? 223 then utf8_from 1 128 191 s'
          else if n =? 224 then utf8_from 2 160 191 s'
          else if n =? 237 then utf8_from 2 128 159 s'
          else if n <=? 239 then utf8_from 2 128 191 s'
          else if n =? 240 then utf8_from 3 144 191 s'
          else if n <=? 243 then utf8_from 3 128 191 s'
          else if n =? 244 then utf8_from 3 128 143 s'
          else false
      end
  end.

Definition utf8_ok (s : text) : bool := utf8_from 0 0 0 s.

Section utf8.
Implicit Types (s t o n a b : text) (need lo hi : nat).

(** A state of the reader: between characters, or waiting for a continuation byte. *)
Definition reading need lo hi : Prop := need = 0 ∨ (128 ≤ lo ∧ hi ≤ 191).

Lemma utf8_from_0 lo hi s : utf8_from 0 lo hi s = utf8_ok s.
Proof. by destruct s. Qed.

(** What has been read shows in the state only. *)
Lemma utf8_from_app need lo hi a s :
  reading need lo hi → utf8_from need lo hi (a ++ s) = true →
  ∃ need' lo' hi', reading need' lo' hi' ∧
    ∀ t, utf8_from need lo hi (a ++ t) = utf8_from need' lo' hi' t.
Proof.
  revert need lo hi. induction a as [|c a IH]; intros need lo hi Hr Hs; [by exists need, lo, hi|].
  cbn [app utf8_from] in Hs |- *. destruct need as [|need].
  - repeat (match goal with H : context [if ?x then _ else _] |- _ => destruct x end; [|]);
      try done; (eapply IH; [|exact Hs]); unfold reading; lia.
  - apply andb_true_iff in Hs as [Hc Hs].
    destruct (IH need 128 191 ltac:(unfold reading; lia) Hs) as (n' & l' & h' & Hr' & Ht).
    exists n', l', h'. split; [done|]. intros t. by rewrite Hc, <-Ht.
Qed.

(** A valid text does not start in the middle of a character. *)
Lemma utf8_head need lo hi o s :
  o ≠ [] → utf8_ok o = true → reading need lo hi → utf8_from need lo hi (o ++ s) = true → need = 0.
Proof.
  destruct o as [|c o]; [done|]. intros _ Ho [->|[Hlo Hhi]] Hs; [done|].
  destruct need as [|need]; [done|]. exfalso. cbn in Hs. rewrite !andb_true_iff in Hs.
  destruct Hs as [[H1 H2] _]. apply Nat.leb_le in H1, H2. unfold utf8_ok in Ho. cbn [utf8_from] in Ho.
  destruct (nat_of_ascii c <=? 127) eqn:E1; bools; [lia|].
  destruct (nat_of_ascii c <=? 193) eqn:E2; bools; [done|lia].
Qed.

Lemma utf8_app a s : utf8_ok a = true → utf8_ok (a ++ s) = utf8_ok s.
Proof.
  intros Ha. rewrite <-(app_nil_r a) in Ha.
  destruct (utf8_from_app 0 0 0 a [] ltac:(by left) Ha) as (need & lo & hi & _ & Ht).
  unfold utf8_ok in *. rewrite Ht in Ha. cbn in Ha. bools. rewrite Ht. subst. apply utf8_from_0.
Qed.

(** Where a valid text occurs in a valid one, both ends are boundaries. *)
Lemma utf8_cut a o b :
  o ≠ [] → utf8_ok o = true → utf8_ok (a ++ o ++ b) = true → utf8_ok a = true ∧ utf8_ok b = true.
Proof.
  intros Hne Ho Hs. destruct (utf8_from_app 0 0 0 a _ ltac:(by left) Hs) as (need & lo & hi & Hr & Ht).
  unfold utf8_ok in Hs. rewrite Ht in Hs. pose proof (utf8_head _ _ _ o b Hne Ho Hr Hs) as ->.
  rewrite utf8_from_0 in Hs. split.
  - unfold utf8_ok. rewrite <-(app_nil_r a), Ht. done.
  - by rewrite utf8_app in Hs.
Qed.

Lemma utf8_edit o n s t :
  o ≠ [] → utf8_ok o = true → utf8_ok n = true → edit o n s t → utf8_ok s = true → utf8_ok t = true.
Proof.
  intros Hne Ho Hn (a & b & -> & ->) Hs. apply utf8_cut in Hs as [Ha Hb]; [|done..].
  by rewrite !utf8_app.
Qed.

Lemma utf8_replace_opt o n s k :
  o ≠ [] → utf8_ok o = true → utf8_ok n = true → utf8_ok s = true →
  utf8_ok (py_replace_opt o n s k) = true.
Proof.
  intros Hne Ho Hn. apply (replace_opt_invariant o n (λ s, utf8_ok s = true)); [done|].
  intros x y. by apply utf8_edit.
Qed.

(** Cutting a valid text where another valid one occurs. *)
Lemma utf8_occ o a b r :
  b = o ++ r → o ≠ [] → utf8_ok o = true → utf8_ok (a ++ b) = true →
  utf8_ok a = true ∧ utf8_ok b = true.
Proof.
  intros -> Hne Ho Hs. pose proof (utf8_cut a o r Hne Ho Hs) as [Ha _]. split; [done|].
  by rewrite utf8_app in Hs.
Qed.

(** Reading with universal newlines. *)
Lemma utf8_ascii need lo hi c s :
  reading need lo hi → nat_of_ascii c ≤ 127 →
  utf8_from need lo hi (c :: s) = (need =? 0) && utf8_ok s.
Proof.
  intros Hr Hc. cbn [utf8_from]. apply Nat.leb_le in Hc as E. destruct need as [|need]; [by rewrite E|].
  destruct Hr as [|[Hlo _]]; [done|]. assert (lo <=? nat_of_ascii c = false) as ->; [|done].
  apply Nat.leb_gt. lia.
Qed.

Lemma universal_newlines_step c s :
  R3.universal_newlines (c :: s) =
  if Ascii.eqb c "013" then nl :: R3.universal_newlines (match s with "010"%char :: r => r | _ => s end)
  else c :: R3.universal_newlines s.
Proof.
  destruct c as [[] [] [] [] [] [] [] []]; try reflexivity.
  destruct s as [|[[] [] [] [] [] [] [] []] s]; reflexivity.
Qed.

Lemma utf8_universal_newlines s : utf8_ok s = true → utf8_ok (R3.universal_newlines s) = true.
Proof.
  assert (∀ k s need lo hi, length s ≤ k → reading need lo hi → utf8_from need lo hi s = true →
    utf8_from need lo hi (R3.universal_newlines s) = true) as Hk; [|intros Hs; apply (Hk (length s)); [done|by left|done]].
  clear s. intros k. induction k as [|k IH]; intros s need lo hi Hl Hr Hs.
  { destruct s; [done|]. cbn in Hl. lia. }
  destruct s as [|c s]; [done|]. cbn in Hl. rewrite universal_newlines_step.
  destruct (Ascii.eqb_spec c "013") as [->|Hc].
  - rewrite utf8_ascii in Hs by (done || (vm_compute; lia)). apply andb_true_iff in Hs as [Hn Hs].
    rewrite utf8_ascii by (done || (vm_compute; lia)). rewrite Hn. cbn [andb].
    assert (utf8_ok (match s with "010"%char :: r => r | _ => s end) = true ∧
            length (match s with "010"%char :: r => r | _ => s end) ≤ k) as [Hu Hle].
    { destruct s as [|d s]; [split; [done|cbn; lia]|].
      destruct (Ascii.eqb_spec d "010") as [->|Hd].
      - split; [|cbn in *; lia]. unfold utf8_ok in Hs |- *. rewrite utf8_ascii in Hs by ((by left) || (vm_compute; lia)).
        done.
      - assert ((match d :: s with "010"%char :: r => r | _ => d :: s end) = d :: s) as ->; [|split; [done|cbn in *; lia]].
        destruct d as [[] [] [] [] [] [] [] []]; done. }
    apply IH; [done|by left|done].
  - cbn [utf8_from] in Hs |- *. destruct need as [|need].
    + repeat (match goal with H : context [if ?x then _ else _] |- _ => destruct x end; [|]);
        try done; (apply IH; [lia| |exact Hs]); unfold reading; lia.
    + apply andb_true_iff in Hs as [-> Hs]. apply IH; [lia| |done]. unfold reading. lia.
Qed.
End utf8.
