(* ===== verification/ForkTx.v ===== *)
(** The series rewriter: docs/rounds/a-1014/forktx.py, a-1017/forktx2.py, a-1018/forktx3.py
    and a-1019/forktx4.py.  Every commit from a start up, on every branch, gets the
    module's fn on the files that differ from the base, its tree_fn on the files it asks
    for, and its msgfn on the message; parents are remapped and the branches moved.

    The four scripts have one [run].  forktx.py runs it on a module, without HAS288;
    the later three on a Chain of modules, which has msgfn and no tree_fn; the last two
    leave the branches where they are when DRY is set.  A module is what the script sees
    of it, functions of their arguments and of HAS288, which can raise.  The index
    is a map from paths to contents: modes are carried over by ls-files. *)
From S2P Require Import Prelude PyStr R3Engine Git Utf8.

(** ** Modules *)

(** [fn(path, s, subj)] and [msgfn(msg, subj)]; the first argument is HAS288. *)
Record txmod := TxMod {
  tx_fn : bool → string → text → text → res text;
  tx_msgfn : option (bool → text → text → res text);
}.

(** What [run] is given: a module, or a Chain.  [tree_fn] comes with the keys of the
    module's R, and gives the items of the dict it returns. *)
Record series_mod := SeriesMod {
  sm_fn : bool → string → text → text → res text;
  sm_msgfn : option (bool → text → text → res text);
  sm_tree : option (list string * (gmap string text → res (list (string * text))));
}.

(** A module without tree_fn. *)
Definition One (m : txmod) : series_mod := SeriesMod (tx_fn m) (tx_msgfn m) None.

(** [Chain.fn] *)
Fixpoint chain_fn (mods : list txmod) (has : bool) (path : string) (s subj : text) : res text :=
  match mods with
  | [] => Ok s
  | m :: mods' => let! t := tx_fn m has path s subj in chain_fn mods' has path t subj
  end.

(** [Chain.msgfn] *)
Fixpoint chain_msgfn (mods : list txmod) (has : bool) (msg subj : text) : res text :=
  match mods with
  | [] => Ok msg
  | m :: mods' =>
      let! t := match tx_msgfn m with Some f => f has msg subj | None => Ok msg end in
      chain_msgfn mods' has t subj
  end.

Definition Chain (mods : list txmod) : series_mod :=
  SeriesMod (chain_fn mods) (Some (chain_msgfn mods)) None.

(** ** run *)

(** The loop over the paths: the index and [changed]. *)
Fixpoint edit_paths (tree : gmap string text) (fn : string → text → res text)
    (paths : list string) (idx : gmap string text) (changed : bool)
    : res (gmap string text * bool) :=
  match paths with
  | [] => Ok (idx, changed)
  | path :: paths' =>
      if String.eqb path "" then edit_paths tree fn paths' idx changed
      else match tree !! path with
           | None => edit_paths tree fn paths' idx changed
           | Some s =>
               if negb (utf8_ok s) then edit_paths tree fn paths' idx changed
               else
                 let! t := fn path s in
                 if bool_decide (t = s) then edit_paths tree fn paths' idx changed
                 else edit_paths tree fn paths' (<[path := t]> idx) true
           end
  end.

(** [files[path] = git('show', c + ':' + path, raw=True).decode()] for the paths; one that
    is not in the tree is passed over. *)
Fixpoint read_files (tree : gmap string text) (paths : list string) (files : gmap string text)
    : res (gmap string text) :=
  match paths with
  | [] => Ok files
  | path :: paths' =>
      match tree !! path with
      | None => read_files tree paths' files
      | Some s => if utf8_ok s then read_files tree paths' (<[path := s]> files)
                  else Raise (ValueError "UnicodeDecodeError")
      end
  end.

(** [for path, t in mod.tree_fn(files).items()]; [git ls-files -s] of a path that is not in
    the index gives nothing, which has no first field. *)
Fixpoint put_files (files : gmap string text) (items : list (string * text))
    (idx : gmap string text) (changed : bool) : res (gmap string text * bool) :=
  match items with
  | [] => Ok (idx, changed)
  | (path, t) :: items' =>
      if bool_decide (files !! path = Some t) then put_files files items' idx changed
      else match idx !! path with
           | None => Raise (IndexError "list index out of range")
           | Some _ => put_files files items' (<[path := t]> idx) true
           end
  end.

Definition PFIND_C : string := "lustre/utils/liblustreapi_pfind.c".

(** [if hasattr(mod, 'tree_fn')] *)
Definition edit_tree (sm : series_mod) (tree idx : gmap string text) (changed : bool)
    : res (gmap string text * bool) :=
  match sm_tree sm with
  | None => Ok (idx, changed)
  | Some (R, tree_fn) =>
      let! files := read_files tree (R ++ [PFIND_C]) ∅ in
      let! items := tree_fn files in
      put_files files items idx changed
  end.

(** [mod.msgfn(msg, subj) if hasattr(mod, 'msgfn') else msg] *)
Definition edit_msg (sm : series_mod) (has : bool) (msg subj : text) : res text :=
  match sm_msgfn sm with Some f => f has msg subj | None => Ok msg end.

(** The index and [changed] after both blocks of the loop body. *)
Definition edit_commit (sm : series_mod) (has : bool) (subj : text) (names : list string)
    (tree : gmap string text) : res (gmap string text * bool) :=
  let! x := edit_paths tree (λ path s, sm_fn sm has path s subj) names tree false in
  edit_tree sm tree x.1 x.2.

Section run.
Context {sha repo : Type} `{EqDecision sha} `{Git sha repo} `{!GitRefs sha repo}.
Context (BRANCHES : list string) (BASE : sha) (R288 : option sha) (sm : series_mod).

(** [newof], newest entry first; [newof.get(x, x)] *)
Definition newof_get (newof : list (sha * sha)) (x : sha) : sha :=
  match list_find (λ e, e.1 = x) newof with Some (_, e) => e.2 | None => x end.

(** [git('log', '-1', '--format=%B', c) + '\n']: the output is stripped *)
Definition tx_msg (c : commit sha) : text :=
  py_rstrip (py_lstrip (R3.universal_newlines (g_log_B c))) ++ [nl].

Definition tx_subj (c : commit sha) : text :=
  py_rstrip (py_lstrip (R3.universal_newlines (g_subject c))).

(** HAS288; forktx.py does not set it *)
Definition has288 (r : repo) (c : sha) : bool :=
  match R288 with Some x => g_is_ancestor r x c | None => false end.

(** The loop body: the repository and the new name of [c]. *)
Definition run_one (r : repo) (newof : list (sha * sha)) (c : sha) : repo * res sha :=
  match g_show r c with
  | None => (r, Raise (CalledProcessError "rev-parse"))
  | Some cc =>
      match c_parent cc with
      | None => (r, Raise (CalledProcessError "rev-parse"))
      | Some par =>
          let np := newof_get newof par in
          let has := has288 r c in
          let subj := tx_subj cc in
          match edit_commit sm has subj (g_diff_names r BASE c) (c_tree cc) with
          | Raise e => (r, Raise e)
          | Ok (tree, changed) =>
              match edit_msg sm has (tx_msg cc) subj with
              | Raise e => (r, Raise e)
              | Ok nmsg =>
                  if bool_decide (np = par) && negb changed && bool_decide (nmsg = tx_msg cc)
                  then (r, Ok c)
                  else let (r', n) := g_commit_tree r (Commit tree (Some np) nmsg (c_meta cc)) in
                       (r', Ok n)
              end
          end
      end
  end.

Fixpoint run_loop (r : repo) (newof : list (sha * sha)) (order : list sha)
    : repo * res (list (sha * sha)) :=
  match order with
  | [] => (r, Ok newof)
  | c :: order' =>
      match run_one r newof c with
      | (r', Raise e) => (r', Raise e)
      | (r', Ok n) => run_loop r' ((c, n) :: newof) order'
      end
  end.

(** [for b in BRANCHES]: move the branch, unless DRY is set. *)
Fixpoint move_branches (dry : bool) (r : repo) (newof : list (sha * sha)) (bs : list string)
    : repo * res unit :=
  match bs with
  | [] => (r, Ok ())
  | b :: bs' =>
      match g_ref r b with
      | None => (r, Raise (CalledProcessError "rev-parse"))
      | Some o =>
          let n := newof_get newof o in
          if negb (bool_decide (n = o)) && negb dry then
            match g_update_ref r b n o with
            | None => (r, Raise (CalledProcessError "update-ref"))
            | Some r' => move_branches dry r' newof bs'
            end
          else move_branches dry r newof bs'
      end
  end.

(** [run(start, mod)] *)
Definition run (dry : bool) (start : sha) (r : repo) : repo * res (list (sha * sha)) :=
  match mapM (g_ref r) BRANCHES with
  | None => (r, Raise (CalledProcessError "rev-list"))
  | Some tips =>
      match g_topo r start tips with
      | None => (r, Raise (CalledProcessError "rev-list"))
      | Some order =>
          match run_loop r [] (List.filter (g_is_ancestor r start) order) with
          | (r', Raise e) => (r', Raise e)
          | (r', Ok newof) =>
              match move_branches dry r' newof BRANCHES with
              | (r2, Raise e) => (r2, Raise e)
              | (r2, Ok _) => (r2, Ok newof)
              end
          end
      end
  end.
End run.

(** ** The four scripts *)

Definition forktx_BRANCHES : list string :=
  ["fork-1014"; "fork-69501"; "fork-69502"; "fork-69503"; "fork-68726"].

Definition forktx2_BRANCHES : list string :=
  ["fork-1014"; "fork-69501"; "fork-69502"; "fork-69503"; "fork-68726"].

Definition forktx3_BRANCHES : list string :=
  ["fork-1014"; "fork-69501"; "fork-69502"; "fork-69503"; "rate-1017"; "igif-1017"; "maxrate-1017"].

Definition forktx4_BRANCHES : list string :=
  ["fork-1014"; "fork-69501"; "fork-69502"; "fork-69503"; "rate-1017"; "igif-1017"; "maxrate-1017"].

(** [base] and [r288] are what git resolves BASE and R288 to. *)
Section scripts.
Context {sha repo : Type} `{EqDecision sha} `{Git sha repo} `{!GitRefs sha repo}.
Context (base r288 start : sha).

(** One module, which may have tree_fn; no HAS288 and no DRY. *)
Definition forktx (m : series_mod) : repo → repo * res (list (sha * sha)) :=
  run forktx_BRANCHES base None m false start.

Definition forktx2 (mods : list txmod) : repo → repo * res (list (sha * sha)) :=
  run forktx2_BRANCHES base (Some r288) (Chain mods) false start.

Definition forktx3 (mods : list txmod) (DRY : bool) : repo → repo * res (list (sha * sha)) :=
  run forktx3_BRANCHES base (Some r288) (Chain mods) DRY start.

Definition forktx4 (mods : list txmod) (DRY : bool) : repo → repo * res (list (sha * sha)) :=
  run forktx4_BRANCHES base (Some r288) (Chain mods) DRY start.
End scripts.
