(* ===== verification/ForkTxTheorems.v ===== *)
(** What a run of the series rewriter of ForkTx.v leaves behind: the graph of commits
    keeps its shape, every commit is rewritten on its rewritten parent, and the
    branches move together or not at all. *)
From S2P Require Import Prelude PyStr R3Engine Git Drive Utf8 ForkTx.

Lemma edit_paths_true tree fn paths idx idx' b :
  edit_paths tree fn paths idx true = Ok (idx', b) → b = true.
Proof.
  revert idx. induction paths as [|p paths IH]; intros idx; simpl; [naive_solver|].
  destruct (String.eqb p ""); [apply IH|]. destruct (tree !! p); [|apply IH].
  destruct (utf8_ok _); [|apply IH]. simpl. destruct (fn p _); [|done]. simpl.
  case_bool_decide; apply IH.
Qed.

Lemma edit_paths_unchanged tree fn paths idx idx' :
  edit_paths tree fn paths idx false = Ok (idx', false) → idx' = idx.
Proof.
  revert idx. induction paths as [|p paths IH]; intros idx; simpl; [by intros [= ->]|].
  destruct (String.eqb p ""); [apply IH|]. destruct (tree !! p); [|apply IH].
  destruct (utf8_ok _); [|apply IH]. simpl. destruct (fn p _); [|done]. simpl.
  case_bool_decide; [apply IH|]. intros Hx%edit_paths_true. done.
Qed.

Lemma put_files_true files items idx idx' b : put_files files items idx true = Ok (idx', b) → b = true.
Proof.
  revert idx. induction items as [|[p t] items IH]; intros idx; simpl; [naive_solver|].
  case_bool_decide; [apply IH|]. destruct (idx !! p); [apply IH|done].
Qed.

Lemma put_files_unchanged files items idx idx' :
  put_files files items idx false = Ok (idx', false) → idx' = idx.
Proof.
  revert idx. induction items as [|[p t] items IH]; intros idx; simpl; [by intros [= ->]|].
  case_bool_decide; [apply IH|]. destruct (idx !! p); [|done]. intros Hx%put_files_true. done.
Qed.

(** A commit whose files have not changed keeps its tree. *)
Lemma edit_commit_unchanged sm has subj names tree idx :
  edit_commit sm has subj names tree = Ok (idx, false) → idx = tree.
Proof.
  unfold edit_commit, edit_tree. intros ([i b] & He & Ht)%res_bind_Ok. cbn [fst snd] in Ht.
  destruct (sm_tree sm) as [[R f]|]; [|injection Ht as -> ->; by eapply edit_paths_unchanged].
  apply res_bind_Ok in Ht as (files & _ & (items & _ & Hp)%res_bind_Ok).
  destruct b; [by apply put_files_true in Hp|].
  apply put_files_unchanged in Hp as ->. by eapply edit_paths_unchanged.
Qed.

Section facts.
Context {sha repo : Type} `{EqDecision sha} `{GitLaws sha repo} `{!GitRefs sha repo}
        `{!GitRefsLaws sha repo}.
Context (BRANCHES : list string) (BASE : sha) (R288 : option sha) (sm : series_mod).
Implicit Types (r : repo) (c n par : sha) (newof : list (sha * sha)).

(** [n] is what [c] becomes when its parent's new name is read off [newof]. *)
Definition rewritten r newof c n : Prop :=
  ∃ cc par tree changed nmsg,
    g_show r c = Some cc ∧ c_parent cc = Some par ∧
    edit_commit sm (has288 R288 r c) (tx_subj cc) (g_diff_names r BASE c) (c_tree cc) =
      Ok (tree, changed) ∧
    edit_msg sm (has288 R288 r c) (tx_msg cc) (tx_subj cc) = Ok nmsg ∧
    (n = c ∧ newof_get newof par = par ∧ tree = c_tree cc ∧ nmsg = tx_msg cc ∨
     g_show r n = Some (Commit tree (Some (newof_get newof par)) nmsg (c_meta cc))).

(** Two repositories that agree on the commits of the first. *)
Definition extends r r' : Prop :=
  keeps r r' ∧ (∀ b, g_ref r' b = g_ref r b) ∧
  (∀ x y, is_Some (g_show r y) → g_is_ancestor r' x y = g_is_ancestor r x y) ∧
  (∀ x y, is_Some (g_show r x) → is_Some (g_show r y) → g_diff_names r' x y = g_diff_names r x y).

#[global] Instance extends_preorder : PreOrder extends.
Proof.
  split.
  - intros r. by split_and!.
  - intros r1 r2 r3 (K1 & R1 & A1 & D1) (K2 & R2 & A2 & D2). split; [by etrans|].
    assert (∀ x, is_Some (g_show r1 x) → is_Some (g_show r2 x)) as Hs by (intros x [d Hd]; eauto).
    split; [intros b; by rewrite R2|]. split.
    + intros x y Hy. rewrite A2; auto.
    + intros x y Hx Hy. rewrite D2; auto.
Qed.

Lemma has288_extends r r' c :
  extends r r' → is_Some (g_show r c) → has288 R288 r' c = has288 R288 r c.
Proof. intros (_ & _ & A & _) Hc. unfold has288. destruct R288; [by apply A|done]. Qed.

Lemma rewritten_extends r r' newof c n :
  is_Some (g_show r BASE) → extends r r' → rewritten r newof c n → rewritten r' newof c n.
Proof.
  intros Hb Hx (cc & par & tree & changed & nmsg & Hc & Hp & He & Hm & Hn).
  pose proof Hx as (K & _ & _ & D).
  exists cc, par, tree, changed, nmsg. split; [by apply K|]. split; [done|].
  rewrite (has288_extends _ _ _ Hx), D by eauto. do 2 (split; [done|]). destruct Hn as [Hn|Hn]; [by left|right]. by apply K.
Qed.

(** ** newof *)

Lemma newof_get_cons newof c n x :
  newof_get ((c, n) :: newof) x = if decide (c = x) then n else newof_get newof x.
Proof.
  unfold newof_get. simpl. destruct (decide (c = x)); [done|].
  by destruct (list_find (λ e, e.1 = x) newof) as [[? ?]|].
Qed.

Lemma newof_get_other newof x : x ∉ newof.*1 → newof_get newof x = x.
Proof.
  unfold newof_get. intros Hx. destruct (list_find _ newof) as [[i e]|] eqn:E; [|done].
  apply list_find_Some in E as (Hi & <- & _). destruct Hx.
  apply list_elem_of_fmap. exists e. split; [done|]. by eapply list_elem_of_lookup_2.
Qed.

Lemma newof_get_shown r newof x :
  (∀ y m, (y, m) ∈ newof → is_Some (g_show r m)) → is_Some (g_show r x) →
  is_Some (g_show r (newof_get newof x)).
Proof.
  unfold newof_get. intros Hn Hx. destruct (list_find _ newof) as [[i [y m]]|] eqn:E; [|done].
  apply list_find_Some in E as (Hi & _ & _). apply (Hn y m). by eapply list_elem_of_lookup_2.
Qed.

(** A new commit leaves what git says of the others. *)
Lemma commit_tree_extends r tree par msg mt r' h :
  g_ok r → is_Some (g_show r par) → g_commit_tree r (Commit tree (Some par) msg mt) = (r', h) →
  extends r r'.
Proof.
  intros Hok Hp Hct. split; [intros x d; by apply (commit_tree_keep _ _ _ _ x d Hct)|].
  split; [intros b; by apply (commit_tree_refs _ _ _ _ b Hct)|]. split.
  - intros x y Hy. by eapply (commit_tree_ancestor r _ par); [| |exact Hp|exact Hct|].
  - intros x y Hx Hy. eapply commit_tree_diff; [exact Hct|done..].
Qed.

Lemma run_one_ok r newof c r' n :
  g_ok r → is_Some (g_show r BASE) → (∀ x m, (x, m) ∈ newof → is_Some (g_show r m)) →
  run_one BASE R288 sm r newof c = (r', Ok n) →
  g_ok r' ∧ extends r r' ∧ rewritten r' newof c n ∧ is_Some (g_show r' n).
Proof.
  intros Hok Hb Hnew. unfold run_one. destruct (g_show r c) as [cc|] eqn:Hc; [|done].
  destruct (c_parent cc) as [par|] eqn:Hp; [|done].
  destruct (edit_commit _ _ _ _ _) as [[tree changed]|] eqn:He; [|done].
  destruct (edit_msg _ _ _ _) as [nmsg|] eqn:Hm; [|done].
  destruct (bool_decide (newof_get newof par = par) && negb changed &&
            bool_decide (nmsg = tx_msg cc)) eqn:Hk.
  - intros [= <- <-]. apply andb_true_iff in Hk as [[Hnp Hch]%andb_true_iff Hms].
    apply negb_true_iff in Hch. apply bool_decide_eq_true in Hnp, Hms. subst changed nmsg.
    apply edit_commit_unchanged in He as Ht. split; [done|]. split; [reflexivity|].
    split; [|eauto]. exists cc, par, tree, false, (tx_msg cc).
    split; [exact Hc|]. split; [exact Hp|]. split; [exact He|]. split; [exact Hm|]. by left.
  - destruct (g_commit_tree _ _) as [r1 h] eqn:Hct. intros [= <- <-].
    pose proof (newof_get_shown r newof par Hnew (ok_parent _ _ _ _ Hok Hc Hp)) as Hnp.
    pose proof (commit_tree_read _ _ _ _ Hct) as Hr.
    assert (extends r r1) as Hx by by eapply commit_tree_extends.
    split; [by eapply (commit_tree_ok r _ (newof_get newof par)); [| |exact Hnp|exact Hct]|].
    split; [done|]. split; [|eauto].
    pose proof Hx as (K & _ & _ & D). exists cc, par, tree, changed, nmsg.
    split; [by apply K|]. split; [done|]. rewrite (has288_extends _ _ _ Hx), D by eauto. do 2 (split; [done|]). by right.
Qed.

(** An entry does not depend on entries for commits other than its parent. *)
Lemma rewritten_newof r newof newof' c n :
  (∀ cc p, g_show r c = Some cc → c_parent cc = Some p → newof_get newof' p = newof_get newof p) →
  rewritten r newof c n → rewritten r newof' c n.
Proof.
  intros Hg (cc & par & tree & changed & nmsg & Hc & Hp & He & Hm & Hn).
  exists cc, par, tree, changed, nmsg. do 4 (split; [done|]).
  by rewrite (Hg cc par Hc Hp).
Qed.

(** Parents first. *)
Definition parents_first r (order : list sha) : Prop :=
  ∀ l1 c l2 cc p, order = l1 ++ c :: l2 → g_show r c = Some cc → c_parent cc = Some p →
    p ∈ order → p ∈ l1.

(** A commit is not the parent of what came before it, nor of itself. *)
Lemma parents_first_past r0 r past c todo d cc :
  NoDup (past ++ c :: todo) → parents_first r0 (past ++ c :: todo) → keeps r0 r →
  (∀ x, x ∈ past ++ c :: todo → is_Some (g_show r0 x)) →
  d ∈ past ++ [c] → g_show r d = Some cc → c_parent cc ≠ Some c.
Proof.
  intros Hnd Hpf Hk Hsh Hd Hcc Hp. apply list_elem_of_split in Hd as (l1 & l2 & Heq).
  assert (past ++ c :: todo = l1 ++ d :: l2 ++ todo) as Heq'.
  { change (c :: todo) with ([c] ++ todo). rewrite app_assoc, Heq, <-app_assoc. done. }
  destruct (Hsh d) as [d0 Hd0]; [rewrite Heq'; apply elem_of_app; right; by left|].
  pose proof (Hk _ _ Hd0) as Hd1. simplify_eq.
  assert (c ∈ l1) as Hin by (eapply Hpf; eauto; apply elem_of_app; right; by left).
  apply NoDup_app in Hnd as (_ & Hnd & _). apply (Hnd c); [|by left].
  destruct l2 as [|y l2 _] using rev_ind.
  - by apply app_inj_2 in Heq as [-> _].
  - rewrite app_comm_cons, app_assoc in Heq. apply app_inj_2 in Heq as [-> _]; [|done].
    apply elem_of_app. by left.
Qed.

Lemma keys_past {X : Type} (l : list (sha * X)) past d x :
  l.*1 = rev past → (d, x) ∈ l → d ∈ past.
Proof.
  intros Hk Hin. assert (d ∈ l.*1) as H1 by (apply list_elem_of_fmap; by exists (d, x)).
  rewrite Hk in H1. apply list_elem_of_In, in_rev in H1. by apply list_elem_of_In.
Qed.

(** The loop from repository [r0], with the commits [past] behind it. *)
Definition loop_inv r0 r (past : list sha) newof : Prop :=
  g_ok r ∧ extends r0 r ∧ newof.*1 = rev past ∧
  (∀ c n, (c, n) ∈ newof → is_Some (g_show r n) ∧ rewritten r newof c n).

Lemma loop_step r0 r past c todo newof r1 n :
  is_Some (g_show r0 BASE) → NoDup (past ++ c :: todo) → parents_first r0 (past ++ c :: todo) →
  (∀ d, d ∈ past ++ c :: todo → is_Some (g_show r0 d)) →
  loop_inv r0 r past newof → run_one BASE R288 sm r newof c = (r1, Ok n) →
  loop_inv r0 r1 (past ++ [c]) ((c, n) :: newof).
Proof.
  intros Hb Hnd Hpf Hsh (Hok & Hx & Hkeys & Hall) H1.
  assert (is_Some (g_show r BASE)) as Hb' by (destruct Hb as [d Hd]; exists d; by apply Hx).
  apply run_one_ok in H1 as (Hok1 & Hx1 & Hrw & Hn); [|done..|intros x m Hin; by apply (Hall x m)].
  assert (extends r0 r1) as Hx01 by by etrans.
  assert (∀ d cc, d ∈ past ++ [c] → g_show r1 d = Some cc → c_parent cc ≠ Some c) as Hparent.
  { intros d cc Hd Hcc. by eapply parents_first_past; [exact Hnd|exact Hpf|apply Hx01| |exact Hd|]. }
  split; [done|]. split; [done|]. split; [rewrite fmap_cons, Hkeys, rev_app_distr; done|].
  intros d m Hin.
  assert (rewritten r1 newof d m ∧ is_Some (g_show r1 m) ∧ d ∈ past ++ [c]) as (Hrd & Hm & Hd).
  { apply elem_of_cons in Hin as [[= -> ->]|Hin].
    - split; [done|]. split; [done|]. apply elem_of_app. right. by left.
    - destruct (Hall d m Hin) as [[md Hm] Hrd]. split; [by apply (rewritten_extends r r1)|].
      split; [exists md; by apply Hx1|]. apply elem_of_app. left. by eapply keys_past. }
  split; [done|]. eapply rewritten_newof; [|exact Hrd]. intros cc p Hc Hp.
  rewrite newof_get_cons. destruct (decide (c = p)) as [<-|]; [|done].
  exfalso. by eapply Hparent.
Qed.

Lemma run_one_raise r newof c r' e : run_one BASE R288 sm r newof c = (r', Raise e) → r' = r.
Proof.
  unfold run_one. destruct (g_show r c) as [cc|]; [|by intros [= <- _]].
  destruct (c_parent cc); [|by intros [= <- _]].
  destruct (edit_commit _ _ _ _ _) as [[? ?]|]; [|by intros [= <- _]].
  destruct (edit_msg _ _ _ _); [|by intros [= <- _]].
  destruct (_ && _); [done|]. by destruct (g_commit_tree _ _).
Qed.

Lemma run_loop_ok r0 todo past r newof :
  is_Some (g_show r0 BASE) → NoDup (past ++ todo) → parents_first r0 (past ++ todo) →
  (∀ d, d ∈ past ++ todo → is_Some (g_show r0 d)) → loop_inv r0 r past newof →
  match run_loop BASE R288 sm r newof todo with
  | (r', Ok newof') => loop_inv r0 r' (past ++ todo) newof'
  | (r', Raise _) => extends r0 r'
  end.
Proof.
  revert past r newof. induction todo as [|c todo IH]; intros past r newof Hb Hnd Hpf Hsh Hinv.
  { simpl. by rewrite app_nil_r. }
  cbn [run_loop]. destruct (run_one _ _ _ _ _ _) as [r1 [n|e]] eqn:H1.
  - pose proof (loop_step _ _ _ _ _ _ _ _ Hb Hnd Hpf Hsh Hinv H1) as Hinv1.
    assert (past ++ c :: todo = (past ++ [c]) ++ todo) as Hs by by rewrite <-app_assoc.
    rewrite Hs in *. by apply IH.
  - apply run_one_raise in H1 as ->. apply Hinv.
Qed.

(** ** The branches *)

Lemma move_branches_ok dry r newof bs :
  NoDup bs → (∀ b, b ∈ bs → is_Some (g_ref r b)) →
  ∃ r', move_branches dry r newof bs = (r', Ok ()) ∧ (∀ x, g_show r' x = g_show r x) ∧
    ∀ b, g_ref r' b = if bool_decide (b ∈ bs) && negb dry
                      then newof_get newof <$> g_ref r b else g_ref r b.
Proof.
  revert r. induction bs as [|b bs IH]; intros r Hnd Hr.
  { exists r. split; [done|]. split; [done|]. intros b.
    by rewrite bool_decide_eq_false_2 by apply not_elem_of_nil. }
  apply NoDup_cons in Hnd as [Hb Hnd]. cbn [move_branches].
  destruct (Hr b ltac:(by left)) as [o Ho]. rewrite Ho.
  assert (∃ r1, (∀ x, g_show r1 x = g_show r x) ∧ (∀ b', b' ≠ b → g_ref r1 b' = g_ref r b') ∧
    g_ref r1 b = (if negb dry then Some (newof_get newof o) else Some o) ∧
    (if negb (bool_decide (newof_get newof o = o)) && negb dry
     then match g_update_ref r b (newof_get newof o) o with
          | None => (r, Raise (CalledProcessError "update-ref"))
          | Some r' => move_branches dry r' newof bs
          end
     else move_branches dry r newof bs) = move_branches dry r1 newof bs)
    as (r1 & Hs1 & Hb1 & Ho1 & ->).
  { destruct (decide (newof_get newof o = o)) as [He|He].
    - exists r. rewrite bool_decide_eq_true_2, He by done. simpl. by destruct dry.
    - rewrite bool_decide_eq_false_2 by done. destruct dry; [by exists r|]. simpl.
      destruct (update_ref_moves r b (newof_get newof o) o Ho) as (r' & -> & Hn & Hoth & Hsh).
      by exists r'. }
  destruct (IH r1 Hnd) as (r' & -> & Hs & Hrefs).
  { intros b' Hb'. rewrite Hb1; [apply Hr; by right|]. by intros ->. }
  exists r'. split; [done|]. split; [intros x; by rewrite Hs|]. intros b'. rewrite Hrefs.
  destruct (decide (b' = b)) as [->|Hne].
  - rewrite (bool_decide_eq_false_2 (b ∈ bs)), (bool_decide_eq_true_2 (b ∈ b :: bs)) by (done || by left).
    simpl. rewrite Ho1, Ho. by destruct dry.
  - rewrite Hb1 by done.
    assert (bool_decide (b' ∈ b :: bs) = bool_decide (b' ∈ bs)) as ->; [|done].
    apply bool_decide_ext. rewrite elem_of_cons. naive_solver.
Qed.

(** ** The order *)

Lemma filter_split (f : sha → bool) l m1 c m2 :
  List.filter f l = m1 ++ c :: m2 →
  ∃ l1 l2, l = l1 ++ c :: l2 ∧ List.filter f l1 = m1.
Proof.
  revert m1. induction l as [|x l IH]; intros m1 Hf; simpl in Hf; [by destruct m1|].
  destruct (f x) eqn:Ex.
  - destruct m1 as [|y m1]; simpl in Hf; injection Hf as -> Hf; [by exists [], l|].
    destruct (IH m1 Hf) as (l1 & l2 & -> & Hl1). exists (y :: l1), l2. simpl. by rewrite Ex, Hl1.
  - destruct (IH m1 Hf) as (l1 & l2 & -> & Hl1). exists (x :: l1), l2. simpl. by rewrite Ex.
Qed.

Lemma topo_filter_first r start tips order f :
  g_ok r → g_topo r start tips = Some order → parents_first r (List.filter f order).
Proof.
  intros Hok Ht m1 c m2 cc p Hf Hc Hp Hin.
  apply filter_split in Hf as (l1 & l2 & Ho & <-).
  apply list_elem_of_In, filter_In in Hin as [Hin Hfp].
  apply list_elem_of_In, filter_In. split; [|done].
  assert (p ∈ take (length l1) order) as Hl.
  { eapply topo_parents; [done..| |exact Hc|done|by apply list_elem_of_In].
    by rewrite Ho, list_lookup_middle. }
  rewrite Ho, take_app_length in Hl. by apply list_elem_of_In.
Qed.

(** [n] in [r'] is what commit [c] of [r] becomes. *)
Definition rewritten_from r r' newof c n : Prop :=
  ∃ cc par tree changed nmsg,
    g_show r c = Some cc ∧ c_parent cc = Some par ∧
    edit_commit sm (has288 R288 r c) (tx_subj cc) (g_diff_names r BASE c) (c_tree cc) =
      Ok (tree, changed) ∧
    edit_msg sm (has288 R288 r c) (tx_msg cc) (tx_subj cc) = Ok nmsg ∧
    (n = c ∧ newof_get newof par = par ∧ tree = c_tree cc ∧ nmsg = tx_msg cc ∨
     g_show r' n = Some (Commit tree (Some (newof_get newof par)) nmsg (c_meta cc))).

Lemma rewritten_back r rm r' newof c n :
  extends r rm → is_Some (g_show r BASE) → is_Some (g_show r c) →
  (∀ x, g_show r' x = g_show rm x) → rewritten rm newof c n → rewritten_from r r' newof c n.
Proof.
  intros Hx Hb [c0 Hc0] Hs (cc & par & tree & changed & nmsg & Hc & Hp & He & Hm & Hn).
  pose proof Hx as (K & _ & _ & D). pose proof (K _ _ Hc0) as Hc1. rewrite Hc in Hc1.
  injection Hc1 as <-. rewrite (has288_extends _ _ _ Hx) in He, Hm by eauto. rewrite D in He by eauto.
  exists cc, par, tree, changed, nmsg. do 4 (split; [done|]). by rewrite Hs.
Qed.

(** What [run] leaves behind. *)
Lemma run_spec dry start r :
  g_ok r → is_Some (g_show r BASE) → NoDup BRANCHES →
  match run BRANCHES BASE R288 sm dry start r with
  | (r', Ok newof) =>
      keeps r r' ∧
      (∃ tips order, mapM (g_ref r) BRANCHES = Some tips ∧ g_topo r start tips = Some order ∧
         newof.*1 = rev (List.filter (g_is_ancestor r start) order)) ∧
      (∀ c n, (c, n) ∈ newof → rewritten_from r r' newof c n) ∧
      (∀ b, g_ref r' b = if bool_decide (b ∈ BRANCHES) && negb dry
                         then newof_get newof <$> g_ref r b else g_ref r b)
  | (r', Raise _) => keeps r r' ∧ ∀ b, g_ref r' b = g_ref r b
  end.
Proof.
  intros Hok Hb Hnd. unfold run. destruct (mapM (g_ref r) BRANCHES) as [tips|] eqn:Hm; [|done].
  destruct (g_topo r start tips) as [order|] eqn:Ht; [|done].
  set (todo := List.filter (g_is_ancestor r start) order).
  assert (∀ d, d ∈ todo → is_Some (g_show r d)) as Hsh.
  { intros d Hd. apply list_elem_of_In, filter_In in Hd as [Hd _].
    eapply topo_shown; [done..|]. by apply list_elem_of_In. }
  pose proof (run_loop_ok r todo [] r [] Hb) as Hl. cbn [app] in Hl.
  specialize (Hl ltac:(apply NoDup_ListNoDup, List.NoDup_filter, NoDup_ListNoDup;
                       by eapply topo_NoDup)
                 ltac:(by eapply topo_filter_first) Hsh
                 ltac:(split; [done|]; split; [reflexivity|]; split; [done|];
                       intros ?? ?%not_elem_of_nil; done)).
  destruct (run_loop BASE R288 sm r [] todo) as [rm [newof|e]].
  2: { destruct Hl as (K & R & _). by split. }
  destruct Hl as (_ & Hx & Hkeys & Hall). pose proof Hx as (K & R & _).
  destruct (move_branches_ok dry rm newof BRANCHES Hnd) as (r' & -> & Hs & Hrefs).
  { intros b Hin. rewrite R. apply mapM_Some_1 in Hm.
    apply list_elem_of_lookup in Hin as [i Hi].
    destruct (Forall2_lookup_l _ _ _ _ _ Hm Hi) as (t & _ & ->). by eexists. }
  split; [intros x d; rewrite Hs; apply K|]. split; [by exists tips, order|]. split.
  - intros c n Hin. eapply rewritten_back; [exact Hx|done| |exact Hs|by apply Hall].
    apply Hsh. apply list_elem_of_In, in_rev. rewrite <-Hkeys.
    apply list_elem_of_In, list_elem_of_fmap. by exists (c, n).
  - intros b. by rewrite Hrefs, R.
Qed.
(** C11: A run of the series rewriter.  When it returns, every commit of the order has an
    entry in newof, and the new commit is the old one with the module, or the
    modules of the Chain, applied to its files and its message, the same author, committer and dates, and on the
    new name of the old parent, so that the graph keeps its shape; a commit keeps
    its name when nothing changes in it.  The branches, and only they, move to
    the new names of their tips, and none moves in a dry run.  When the run
    raises, no branch has moved.  No object is lost either way. *)
Theorem run_rewrites dry start r :
  g_ok r → is_Some (g_show r BASE) → NoDup BRANCHES →
  match run BRANCHES BASE R288 sm dry start r with
  | (r', Ok newof) =>
      keeps r r' ∧
      (∃ tips order, mapM (g_ref r) BRANCHES = Some tips ∧ g_topo r start tips = Some order ∧
         newof.*1 = rev (List.filter (g_is_ancestor r start) order)) ∧
      (∀ c n, (c, n) ∈ newof → rewritten_from r r' newof c n) ∧
      (∀ b, g_ref r' b = if bool_decide (b ∈ BRANCHES) && negb dry
                         then newof_get newof <$> g_ref r b else g_ref r b)
  | (r', Raise _) => keeps r r' ∧ ∀ b, g_ref r' b = g_ref r b
  end.
Proof. apply run_spec. Qed.
End facts.

(** ** An instance *)

(** A base, and a fork: two branches that share the first commit after it. *)
Definition fork_meta : meta := Meta "a" "a@x" "1" "c" "c@x" "2".

Definition fork_repo : ListGit.repo := ListGit.Repo [
  Commit {["f" := lit "base"]} None (lit "base
") fork_meta;
  Commit {["f" := lit "one"]} (Some 0) (lit "one
") fork_meta;
  Commit {["f" := lit "one"; "g" := lit "left"]} (Some 1) (lit "left
") fork_meta;
  Commit {["f" := lit "two"]} (Some 1) (lit "right
") fork_meta
] "9" {[heads "left" := 2; heads "right" := 3; heads "other" := 0]}.

(** A module that spells "one" out in file f. *)
Definition fork_mod : txmod :=
  TxMod (λ _ path s _, Ok (if String.eqb path "f" then py_replace (lit "one") (lit "1.") s else s))
        None.

Lemma fork_repo_ok : g_ok fork_repo.
Proof.
  split.
  - apply (bool_decide_unpack _). vm_compute. reflexivity.
  - intros n c p Hn Hp. do 4 (destruct n as [|n]; [injection Hn as <-; simpl in Hp; simplify_eq; lia|]).
    done.
Qed.

Lemma run_rewrites_witness :
  match run ["left"; "right"] 0 (Some 0) (Chain [fork_mod]) false 1 fork_repo with
  | (r', Ok newof) =>
      newof = [(3, 6); (2, 5); (1, 4)] ∧ keeps fork_repo r' ∧
      (∀ c n, (c, n) ∈ newof → rewritten_from 0 (Some 0) (Chain [fork_mod]) fork_repo r' newof c n) ∧
      g_ref r' "left" = Some 5 ∧ g_ref r' "right" = Some 6 ∧ g_ref r' "other" = Some 0
  | (_, Raise _) => False
  end.
Proof.
  assert (NoDup ["left"; "right"]) as Hnd by (apply (bool_decide_unpack _); vm_compute; reflexivity).
  pose proof (run_rewrites ["left"; "right"] 0 (Some 0) (Chain [fork_mod]) false 1 fork_repo
                fork_repo_ok ltac:(by eexists) Hnd) as H.
  destruct (run ["left"; "right"] 0 (Some 0) (Chain [fork_mod]) false 1 fork_repo) as [r' [newof|e]] eqn:E.
  - assert (newof = [(3, 6); (2, 5); (1, 4)]) as Hn by (vm_compute in E; by injection E as _ <-).
    destruct H as (K & _ & Hrw & Hrefs). split; [exact Hn|]. split; [exact K|].
    split; [exact Hrw|]. rewrite !Hrefs, Hn. by repeat split.
  - vm_compute in E. discriminate.
Defined.
