(* ===== verification/Genfix.v ===== *)
(** The table generator of docs/rounds/b2-0922/genfix.py: it compares two trees
    file by file and writes the rows of b2bfix.py.

    [difflib] is an interface here, with the law its documentation gives: the
    operations tile both sequences, and an ["equal"] one spans equal lines. *)
From S2P Require Import Prelude PyStr R3Engine R3Table B2bTable.
Import R3.

(** ** difflib *)

Module Difflib.

Inductive tag := Replace | Delete | Insert | Equal.

#[export] Instance tag_eq_dec : EqDecision tag.
Proof. solve_decision. Defined.

Record opcode := Opcode { op_tag : tag; op_i1 : nat; op_i2 : nat; op_j1 : nat; op_j2 : nat }.

(** [a[i:j]] for lists *)
Definition slice {A} (l : list A) (i j : nat) : list A := take (j - i) (drop i l).

(** The operations from [(i, j)] on: each starts where the last one ended, and
    the last one ends at the end of both sequences. *)
Inductive tiles (a b : list text) : nat → nat → list opcode → Prop :=
  | tiles_nil : tiles a b (length a) (length b) []
  | tiles_cons tag i1 i2 j1 j2 ops :
      i1 ≤ i2 → j1 ≤ j2 →
      (tag = Equal → slice a i1 i2 = slice b j1 j2) →
      tiles a b i2 j2 ops →
      tiles a b i1 j1 (Opcode tag i1 i2 j1 j2 :: ops).

Class Difflib := {
  get_opcodes : list text → list text → list opcode;
  get_opcodes_tiles a b : tiles a b 0 0 (get_opcodes a b);
}.

End Difflib.

Module Genfix.
Import Difflib.

(** ** Constants *)

Definition GAP : nat := 12.

Definition HAND_MARKERS : list text :=
  [lit "A count no Lustre directory can have is not a count";
   lit "Measured by the bytes, not by a product that can"].

Definition SINCE_MARKERS : list (text * string) := [
  (lit "and the third of the same family: a flag this library", "c00");
  (lit "lfsr_lmm.  For a directory this is the *default* layout", "c00");
  (lit "Objects may still have been left out", "c00");
  (lit "sizeof(ends) / sizeof(ends[0])", "c00");
  (lit "True of the path actually taken, and only because it is a shortcut", "c01");
  (lit "a whole counter, never half of one", "c02");
  (lit "an ss_size that stops inside one", "c02");
  (lit "is not NULL and its", "c02");
  (lit "the HSM state, the lazy", "c02");
  (lit "find_get_projid() is what tests fc_path today", "c03");
  (lit "A foreign LMV is a different structure at the same address", "c05");
  (lit "the naming line is only printed when more than one target", "c06");
  (lit "cannot read the device of %s", "c06");
  (lit "if (pathstart == -1)", "c06");
  (lit "mkfs.lustre's own check, through the wrapper it", "c06");
  (lit "Borrowed from argv, not strdup()ed", "c06");
  (lit "neither do \q.\q and \q..\q", "c07");
  (lit "what this plugin was built against", "c22");
  (lit "grep -q \qfilesystem name\q $scan_err", "c06");
  (lit "#include <ctype.h>
#include <errno.h>", "c07");
  (lit "whether the target being scanned is in service */", "c22")].

Definition FILE_SINCE : list (string * string) := [
  ("lustre/utils/lustreapi_internal.h", "c02");
  ("lustre/utils/liblustreapi_scan.c", "c02");
  ("Documentation/man3/llapi_scan_namespace.3", "c02");
  ("lustre/tests/llapi_scan_test.c", "c00");
  ("lustre/tests/llapi_scan_changelog_test.c", "c09");
  ("include/lustre/lustreapi.h", "c00");
  ("lustre/utils/lfs.c", "c06");
  ("lustre/utils/lfs_find_parse.c", "c06");
  ("lustre/utils/liblustreapi_scan_changelog.c", "c09");
  ("Documentation/man3/llapi_find_device.3", "c10")].

Definition PROD_FILES : list string := [
  "include/uapi/linux/lustre/lustre_lfu.h";
  "lustre/obdclass/dt_object.c";
  "lustre/include/dt_object.h";
  "lustre/lfu/lfu_ring.c";
  "Documentation/man4/lfu.ring_size.4";
  "Documentation/man4/lfu.batch.4"].

Definition FILES : list (string * string) := [
  ("PFIND", "lustre/utils/liblustreapi_pfind.c");
  ("DEV", "lustre/utils/liblustreapi_scan_device.c");
  ("INT", "lustre/utils/lustreapi_internal.h");
  ("KERNEL", "lustre/utils/libscan_kernel.c");
  ("LFUREC", "lustre/utils/lustreapi_lfu_rec.h");
  ("SPEC", "lustre.spec.in");
  ("FIND1", "Documentation/man1/lfs-find.1");
  ("DEV3", "Documentation/man3/llapi_scan_device.3");
  ("CONF", "lustre/tests/conf-sanity.sh");
  ("BACKEND", "lustre/utils/lustreapi_scan_backend.h");
  ("LDISKFS", "lustre/utils/libscan_ldiskfs.c");
  ("ZFS", "lustre/utils/libscan_zfs.c");
  ("MAKEAM", "lustre/utils/Makefile.am");
  ("LFUH", "include/uapi/linux/lustre/lustre_lfu.h");
  ("DTOBJ", "lustre/obdclass/dt_object.c");
  ("DTOBJH", "lustre/include/dt_object.h");
  ("RING", "lustre/lfu/lfu_ring.c");
  ("MAN4RS", "Documentation/man4/lfu.ring_size.4");
  ("MAN4B", "Documentation/man4/lfu.batch.4");
  ("LFS", "lustre/utils/lfs.c");
  ("PARSE", "lustre/utils/lfs_find_parse.c");
  ("SCAN", "lustre/utils/liblustreapi_scan.c");
  ("APIH", "include/lustre/lustreapi.h");
  ("MAN3NS", "Documentation/man3/llapi_scan_namespace.3");
  ("SCANTEST", "lustre/tests/llapi_scan_test.c");
  ("CLOG", "lustre/utils/liblustreapi_scan_changelog.c");
  ("CLOGTEST", "lustre/tests/llapi_scan_changelog_test.c");
  ("MAN3FD", "Documentation/man3/llapi_find_device.3")].

(** ** str.splitlines(True), on UTF-8 bytes *)

(** The length of the line boundary a text starts with, 0 if with none: LF, CR,
    CR LF, VT, FF, the three ASCII separators, NEL, LS and PS. *)
Definition line_end (s : text) : nat :=
  match s with
  | "013" :: "010" :: _ => 2
  | "194" :: "133" :: _ => 2
  | "226" :: "128" :: "168" :: _ => 3
  | "226" :: "128" :: "169" :: _ => 3
  | c :: _ => if existsb (Ascii.eqb c) ["010"; "011"; "012"; "013"; "028"; "029"; "030"]
              then 1 else 0
  | [] => 0
  end%char.

(** [cur] is the line read so far, [k] the bytes of its boundary still to come. *)
Fixpoint split_from (cur : text) (k : nat) (s : text) : list text :=
  match s with
  | [] => match cur with [] => [] | _ => [rev cur] end
  | c :: s' =>
      match (match k with 0 => line_end s | _ => k end) with
      | 0 => split_from (c :: cur) 0 s'
      | 1 => rev (c :: cur) :: split_from [] 0 s'
      | S k' => split_from (c :: cur) k' s'
      end
  end.

Definition splitlines (s : text) : list text := split_from [] 0 s.

(** ** Hunks *)

(** A tuple [(i1, i2, j1, j2)]. *)
Record region := Region { i1 : nat; i2 : nat; j1 : nat; j2 : nat }.

(** One turn of the loop of [regions]; [out] is reversed here. *)
Definition regions_step (out : list region) (op : opcode) : list region :=
  match op_tag op, out with
  | Equal, _ => out
  | _, r :: out' =>
      if op_i1 op - i2 r <=? GAP
      then Region (i1 r) (op_i2 op) (j1 r) (op_j2 op) :: out'
      else Region (op_i1 op) (op_i2 op) (op_j1 op) (op_j2 op) :: out
  | _, [] => [Region (op_i1 op) (op_i2 op) (op_j1 op) (op_j2 op)]
  end.

Definition regions `{Difflib} (a b : list text) : list region :=
  rev (fold_left regions_step (get_opcodes a b) []).

(** [sorted(..., key=lambda p: (max(p), sum(p)))], stable *)
Definition pair_lt (p q : nat * nat) : bool :=
  let mp := p.1 `max` p.2 in
  let mq := q.1 `max` q.2 in
  if mp <? mq then true else if mp =? mq then p.1 + p.2 <? q.1 + q.2 else false.

Fixpoint insert_pair (p : nat * nat) (l : list (nat * nat)) : list (nat * nat) :=
  match l with
  | [] => [p]
  | q :: l' => if pair_lt p q then p :: l else q :: insert_pair p l'
  end.

Definition PAIRS : list (nat * nat) :=
  fold_left (λ acc p, insert_pair p acc)
    (flat_map (λ bb, map (λ aa, (bb, aa)) (seq 0 42)) (seq 0 42)) [].

(** A pair of texts [(o, n)]. *)
Abbreviation hunk := (text * text)%type.

(** ["".join(l[max(0, i - cb):min(len(l), j + ca)])] *)
Definition context (l : list text) (i j cb ca : nat) : text :=
  concat (slice l (i - cb) (length l `min` (j + ca))).

(** The loop over [PAIRS] for one region; [best] is [(score, o, n)]. *)
Fixpoint search (a b : list text) (old : text) (stack : list text) (r : region)
    (best : option (nat * hunk)) (pairs : list (nat * nat)) : option (nat * hunk) :=
  match pairs with
  | [] => best
  | (cb, ca) :: pairs' =>
      let o := context a (i1 r) (i2 r) cb ca in
      let n := context b (j1 r) (j2 r) cb ca in
      if (match o with [] => true | _ => negb (py_count o old =? 1) end)
      then search a b old stack r best pairs'
      else
        let counts := map (py_count o) stack in
        if existsb (Nat.ltb 1) counts then search a b old stack r best pairs'
        else
          let score := length (List.filter (Nat.eqb 1) counts) in
          let best' := match best with
                       | Some (s, _) => if s <? score then Some (score, (o, n)) else best
                       | None => Some (score, (o, n))
                       end in
          if score =? length counts then best'
          else search a b old stack r best' pairs'
  end.

(** The loop over the regions. *)
Fixpoint hunk_loop (a b : list text) (old : text) (stack : list text)
    (rs : list region) : res (list hunk) :=
  match rs with
  | [] => Ok []
  | r :: rs' =>
      match search a b old stack r None PAIRS with
      | None => Raise (AssertionError "no context")
      | Some (_, h) => let! hs := hunk_loop a b old stack rs' in Ok (h :: hs)
      end
  end.

Definition hunks `{Difflib} (old new : text) (stack : list text) : res (list hunk) :=
  let a := splitlines old in
  let b := splitlines new in
  hunk_loop a b old stack (regions a b).

(** ** Rows *)

(** The value after [since=] in a row: a literal or a name of b2bfix.py. *)
Inductive since_arg := Quoted (s : string) | Named (v : string).

(** A call of [t] as it is written into b2bfix.py. *)
Record call := Call {
  c_id : string; c_var : string; c_old : text; c_new : text; c_since : option since_arg;
}.

Fixpoint since_markers_for (l : list (text * string)) (new_text : text) (default : since_arg)
    : since_arg :=
  match l with
  | [] => default
  | (marker, val) :: l' =>
      if py_in marker new_text then Quoted val else since_markers_for l' new_text default
  end.

Definition since_for : text → since_arg → since_arg := since_markers_for SINCE_MARKERS.

(** [var.lower()] for ASCII *)
Fixpoint lower (s : string) : string :=
  match s with
  | EmptyString => EmptyString
  | String c r =>
      let n := nat_of_ascii c in
      String (if (65 <=? n) && (n <=? 90) then ascii_of_nat (n + 32) else c) (lower r)
  end.

Fixpoint assoc (l : list (string * string)) (k : string) : option string :=
  match l with
  | [] => None
  | (k', v) :: l' => if String.eqb k' k then Some v else assoc l' k
  end.

(** [for i, (o, n) in enumerate(hs)] *)
Fixpoint calls_from (i : nat) (id : string) (var : string) (since : text → option since_arg)
    (hs : list hunk) : list call :=
  match hs with
  | [] => []
  | (o, n) :: hs' =>
      Call (id +:+ pretty (N.of_nat i)) var o n (since n) :: calls_from (S i) id var since hs'
  end.

Definition lower_calls (var : string) (lower_h : list hunk) : list call :=
  calls_from 0 (lower var +:+ "-") var (λ _, None) lower_h.

Definition by_hand (h : hunk) : bool := existsb (λ m, py_in m h.2) HAND_MARKERS.

Definition upper_since (path : string) (n : text) : since_arg :=
  let default := Named (if str_mem path PROD_FILES then "PROD" else "LIVE") in
  match assoc FILE_SINCE path with
  | Some v => Quoted v
  | None => since_for n default
  end.

Definition upper_calls (var path : string) (upper_h : list hunk) : list call :=
  calls_from 0 (lower var +:+ "-live-") var (λ n, Some (upper_since path n))
    (List.filter (λ h, negb (by_hand h)) upper_h).

(** [for o, n in lower_h: if t.count(o) == 1: t = t.replace(o, n, 1)] *)
Definition apply_hunks (hs : list hunk) (t : text) : text :=
  fold_left (λ t h, if py_count h.1 t =? 1 then py_replace_n h.1 h.2 t 1 else t) hs t.

Section script.
Context `{Difflib}.
(** [show(sha, path)], the commits [SHAS], and the two directories *)
Context (show : string → string → option text) (SHAS : list string) (WT LOWER : tree).

Definition no_splitlines : exn :=
  AttributeError "'NoneType' object has no attribute 'splitlines'".

(** [hunks] with the [None] that [show] can return as [old]. *)
Definition hunks_of (old : option text) (new : text) (stack : list text) : res (list hunk) :=
  match old with
  | Some old => hunks old new stack
  | None => Raise no_splitlines
  end.

Definition file_stack (path : string) : list text := omap (λ s, show s path) SHAS.

Definition file_low (path : string) : option text :=
  match read LOWER path with Some l => Some l | None => show "b2-tip" path end.

Definition file_lower_h (path : string) : res (list hunk) :=
  match read LOWER path with
  | Some low => if decide (show "b2-tip" path = Some low) then Ok []
                else hunks_of (show "b2-tip" path) low (file_stack path)
  | None => Ok []
  end.

(** The stack as the lower set leaves it. *)
Definition file_after (path : string) (lower_h : list hunk) : list text :=
  map (apply_hunks lower_h) (file_stack path).

Definition file_upper_h (path : string) (up : text) (lower_h : list hunk) : res (list hunk) :=
  if decide (file_low path = Some up) then Ok []
  else hunks_of (file_low path) up (file_after path lower_h).

(** The body of the loop over [FILES]. *)
Definition gen_file (var path : string) : res (list call * (nat * nat)) :=
  match read WT path with
  | None => Raise (FileNotFoundError path)
  | Some up =>
      let! lower_h := file_lower_h path in
      let! upper_h := file_upper_h path up lower_h in
      let lower_c := lower_calls var lower_h in
      let upper_c := upper_calls var path upper_h in
      Ok (lower_c ++ upper_c, (length lower_c, length upper_c))
  end.

Fixpoint gen_files (files : list (string * string)) (body : list call) (counts : nat * nat)
    : res (list call * (nat * nat)) :=
  match files with
  | [] => Ok (body, counts)
  | (var, path) :: files' =>
      let! r := gen_file var path in
      gen_files files' (body ++ r.1) (counts.1 + r.2.1, counts.2 + r.2.2)
  end.

Definition genfix : res (list call * (nat * nat)) := gen_files FILES [] (0, 0).
End script.

(** ** The module that is written *)

(** The names that [HEAD] binds. *)
Definition HEAD_names : list (string * string) := [
  ("PFIND", b2b_PFIND);
  ("DEV", b2b_DEV);
  ("INT", b2b_INT);
  ("KERNEL", b2b_KERNEL);
  ("LFUREC", b2b_LFUREC);
  ("SPEC", b2b_SPEC);
  ("FIND1", b2b_FIND1);
  ("DEV3", b2b_DEV3);
  ("CONF", b2b_CONF);
  ("BACKEND", b2b_BACKEND);
  ("LDISKFS", b2b_LDISKFS);
  ("ZFS", b2b_ZFS);
  ("MAKEAM", b2b_MAKEAM);
  ("LFUH", b2b_LFUH);
  ("DTOBJ", b2b_DTOBJ);
  ("DTOBJH", b2b_DTOBJH);
  ("RING", b2b_RING);
  ("MAN4RS", b2b_MAN4RS);
  ("MAN4B", b2b_MAN4B);
  ("LFS", b2b_LFS);
  ("PARSE", b2b_PARSE);
  ("SCAN", b2b_SCAN);
  ("APIH", b2b_APIH);
  ("MAN3NS", b2b_MAN3NS);
  ("SCANTEST", b2b_SCANTEST);
  ("CLOG", b2b_CLOG);
  ("CLOGTEST", b2b_CLOGTEST);
  ("MAN3FD", b2b_MAN3FD)].

Definition HEAD_since : list (string * string) := [("PROD", b2b_PROD); ("LIVE", b2b_LIVE)].

(** What a call of [t], with the [t] of [HEAD], appends to [T] when b2bfix.py is
    loaded; [None] is a name that is not bound. *)
Definition eval_since (s : option since_arg) : option string :=
  match s with
  | None => Some "c08"
  | Some (Quoted v) => Some v
  | Some (Named v) => assoc HEAD_since v
  end.

Definition eval_call (c : call) : option transform :=
  match assoc HEAD_names (c_var c), eval_since (c_since c) with
  | Some path, Some since =>
      Some (b2b_t (c_id c) path (c_old c) (c_new c) None (Some since))
  | _, _ => None
  end.

End Genfix.
