(* ===== verification/Tx1019.v ===== *)
(** The rewrite modules docs/rounds/a-1019/tx_1019.py and tx_1019b.py, which
    forktx4.py loads.  Names are prefixed with [tx1019_] and [tx1019b_]. *)
From S2P Require Import Prelude PyStr TxEngine.

Definition tx1019_IH : string :=
  "lustre/utils/lustreapi_internal.h".

Definition tx1019_CLC : string :=
  "lustre/utils/liblustreapi_scan_changelog.c".

Definition tx1019_CL3 : string :=
  "Documentation/man3/llapi_scan_changelog.3".

Definition tx1019_CLT : string :=
  "lustre/tests/llapi_scan_changelog_test.c".

Definition tx1019_FID3 : string :=
  "Documentation/man3/llapi_scan_fid.3".

Definition tx1019_SC : string :=
  "lustre/utils/liblustreapi_scan.c".

(** Lines 15 to 115. *)
Definition tx1019_R_1 : list frow := [
  FRow tx1019_IH
   (Row "1"
     (lit " * a flag only one of them can act on cannot be quietly accepted by the other.
 * Deliberately not public:")
     (lit " * a flag only one of them can act on cannot be quietly accepted by the other.
 * The exception is LLAPI_SCAN_F_STOP_ON_ERROR: a device scan accepts it and
 * ignores it, as llapi_scan_device(3) says.
 * Deliberately not public:"))
  None;
  FRow tx1019_IH
   (Row "2"
     (lit "/* and what only one kind of target has, so a scan of the other never
 * answers for it: the layout, the directory stripe, the lazy SOM size, the
 * MDT index and the linkea with the parent it names are the MDT's.
 */")
     (lit "/* and what only one kind of target has, so a scan of the other never
 * answers for it: the layout, the directory stripe, the HSM state, the lazy
 * SOM size, the MDT index and the linkea with the parent it names are the
 * MDT's.
 */"))
  None;
  FRow tx1019_CLC
   (Row "6inc"
     (lit "#include <errno.h>
#include <fcntl.h>
#include <stdbool.h>
")
     (lit "#include <ctype.h>
#include <errno.h>
#include <fcntl.h>
#include <stdbool.h>
"))
  None;
  FRow tx1019_CLC
   (Row "6fn"
     (lit "
/**
 * llapi_scan_changelog() - an Object Stream from one MDT's changelog
")
     (lit "
/* the MDS clears only by \qcl<N>\q; llapi_changelog_clear() drops a \q-name\q */
static bool scan_cl_user_is_id(const char *user)
{
	if (user == NULL || strncmp(user, \qcl\q, 2) != 0 ||
	    !isdigit((unsigned char)user[2]))
		return false;
	for (user += 2; isdigit((unsigned char)*user); user++)
		;
	return *user == '\\0' || *user == '-';
}

/**
 * llapi_scan_changelog() - an Object Stream from one MDT's changelog
"))
  None;
  FRow tx1019_CLC
   (Row "6chk"
     (lit "	if ((scl.lfsc_flags & LLAPI_SCAN_CL_F_CLEAR) && scl.lfsc_user == NULL)
		return -EINVAL;
")
     (lit "	if ((scl.lfsc_flags & LLAPI_SCAN_CL_F_CLEAR) &&
	    !scan_cl_user_is_id(scl.lfsc_user))
		return -EINVAL;
"))
  None;
  FRow tx1019_CL3
   (Row "6man"
     (lit "The registered Changelog user, as
.BR cl1 .
Required by
.BR LLAPI_SCAN_CL_F_CLEAR .
")
     (lit "The registered Changelog user, as
.B cl1
or
.BR cl1-name .
Required by
.BR LLAPI_SCAN_CL_F_CLEAR ,
which refuses any other form, such as a bare number or name.
"))
  None;
  FRow tx1019_CL3
   (Row "6err"
     (lit ".B LLAPI_SCAN_CL_F_CLEAR
without
.IR lfsc_user ;
")
     (lit ".B LLAPI_SCAN_CL_F_CLEAR
without
.IR lfsc_user ;
.B LLAPI_SCAN_CL_F_CLEAR
with an
.I lfsc_user
other than
.BI cl N
or
.BI cl N - name ;
"))
  None;
  FRow tx1019_CLT
   (Row "6tdecl"
     (lit "	struct cl_result res = { 0 };
	int rc;

	/* the library says so on its own; the test knows already */
")
     (lit "	static const char *const bad_users[] = { \q1\q, \qcl\q, \qcl1x\q, \qname\q,
						  NULL };
	struct cl_result res = { 0 };
	int rc;
	int i;

	/* the library says so on its own; the test knows already */
"))
  None
].

(** Lines 116 to 192. *)
Definition tx1019_R_2 : list frow := [
  FRow tx1019_CLT
   (Row "6tcase"
     (lit "	ASSERTF(rc == -EINVAL, \qclear without a user returned %d\q, rc);
")
     (lit "	ASSERTF(rc == -EINVAL, \qclear without a user returned %d\q, rc);

	/* a clear takes only cl<N>, so these fail before any record */
	for (i = 0; bad_users[i] != NULL; i++) {
		param_init(&sc);
		sc.lfsc_flags = LLAPI_SCAN_CL_F_CLEAR;
		sc.lfsc_user = bad_users[i];
		rc = llapi_scan_changelog(&sc, cl_cb, &res);
		ASSERTF(rc == -EINVAL, \qclear with user '%s' returned %d\q,
			bad_users[i], rc);
		ASSERTF(res.cr_records == 0,
			\qclear with user '%s' delivered %u records\q,
			bad_users[i], res.cr_records);
	}
"))
  None;
  FRow tx1019_CLT
   (Row "6tcount"
     (lit "	printf(\q  ten bad calls refused with -EINVAL\\n\q);")
     (lit "	printf(\q  fourteen bad calls refused with -EINVAL\\n\q);"))
  None;
  FRow tx1019_FID3
   (Row "7"
     (lit ".BR llapi_fid2path (3),
.BR llapi_scan_changelog (3),
")
     (lit ".BR llapi_fid2path (3),
.BR llapi_fid2path_at (3),
.BR llapi_path2fid (3),
.BR llapi_root_path_open (3),
.BR llapi_scan_changelog (3),
"))
  None;
  FRow tx1019_SC
   (Row "8code"
     (lit "	    (!(rec.lfsr_valid & LLAPI_SCAN_FID) ||
	     !lu_fid_eq(&rec.lfsr_fid, fid))) {
		rc = -ESTALE;
		goto out;
	}
")
     (lit "	    (!(rec.lfsr_valid & LLAPI_SCAN_FID) ||
	     !lu_fid_eq(&rec.lfsr_fid, fid))) {
		rc = -ESTALE;
		goto out;
	}
	/* the gather opens a regular file again by name: check that too */
	if (fd >= 0) {
		struct lu_fid ofid;

		if (llapi_fd2fid(fd, &ofid) != 0 || !lu_fid_eq(&ofid, fid)) {
			rc = -ESTALE;
			goto out;
		}
	}
"))
  None;
  FRow tx1019_SC
   (Row "8doc"
     (lit " * scan_rec_gather() still opens by pathname for LLAPI_SCAN_PROJID,
 * LLAPI_SCAN_HSM and a regular file's LLAPI_SCAN_MDT_INDEX, so for those
 * @mnt_path does decide what is read.
")
     (lit " * scan_rec_gather() still opens by pathname for LLAPI_SCAN_PROJID,
 * LLAPI_SCAN_HSM and a regular file's LLAPI_SCAN_MDT_INDEX, so for those
 * @mnt_path does decide what is read.  A regular file opened this way is
 * checked against @fid too, and a mismatch is -ESTALE.  A special file's
 * project id is read through its parent and name, and is not checked.
"))
  None;
  FRow tx1019_FID3
   (Row "8man"
     (lit "regular file's MDT index are still made by pathname, through
.IR mnt_path .
")
     (lit "regular file's MDT index are still made by pathname, through
.IR mnt_path .
A regular file opened this way is checked against
.I fid
too. A special file's project id is read through its parent and name, and
is not checked.
"))
  None
].

Definition tx1019_R : list frow :=
  tx1019_R_1 ++ tx1019_R_2.

Definition tx1019_M : list row := [
  Row "5"
    (lit "- LLAPI_SCAN_CL_F_RESOLVE fills the object's own attributes through a
  client mount: one O_PATH open by FID and a statx() or two per
  object. It
  fills only what the record lacks. The demand mask decides if the
  lookup runs at all. It needs CAP_DAC_READ_SEARCH and is refused with
  -EPERM without it. The project id, layout, LMV and HSM state are not
  filled.
")
    (lit "- LLAPI_SCAN_CL_F_RESOLVE fills the object's own attributes through a
  client mount: one O_PATH open by FID and a statx() or two per object.
  It fills only what the record lacks. The demand mask decides if the
  lookup runs at all. It needs CAP_DAC_READ_SEARCH and is refused with
  -EPERM without it. The project id, layout, LMV and HSM state are not
  filled.
");
  Row "8"
    (lit "handing that value back to a caller testing `if (rc)`.  The gather
runs against a pathname, so the FID it found is checked against the
one asked for, and a record never describes a different object.
")
    (lit "handing that value back to a caller testing `if (rc)`.  The gather
runs against a pathname, so the FID it found is checked against the
one asked for, on the getinfo and on any descriptor the gather opened.
");
  Row "9"
    (lit "Five changes to lfs-find.1 cover all three options.  --since-cookie
moves up beside --since in SYNOPSIS and OPTIONS: it is the other way
to say where a --since search starts, where --changelog is a different
source.  TIME's spellings are given in full -- set_since() takes
eight of them, and its error text offers one the page would otherwise
not list -- and seconds are optional wherever a time appears.  And the
-name paragraph says which name a match is tested against under
--changelog: the one carried by the object's latest event that
carried a name in the same burst, so a file created as f and then
written and closed still matches -name f, its CL_CLOSE naming
nothing.  And the --since-cookie paragraph documents the refusal of a
restarted log, which this patch implements, and says
the stale check is made before the search starts, so a purge on a
later MDT during it is not caught.  EXAMPLES gains a plain --since
search.
")
    (lit "lfs-find.1 documents --since-cookie in SYNOPSIS, OPTIONS, the list
of options a target scan refuses, and EXAMPLES.  Its OPTIONS entry
sits beside --since: it is the other way to say where a --since
search starts, where --changelog is a different source.  The entry
documents the refusal of a restarted log, which this patch
implements, and says the stale check is made before the search
starts, so a purge on a later MDT during it is not caught.  TIME's
spellings are given in full -- set_since() takes eight of them, and
its error text offers one the page would otherwise not list -- and
seconds are optional wherever a time appears.  The -name paragraph
says which name a match is tested against under --changelog: the one
carried by the object's latest event that carried a name in the same
burst, so a file created as f and then written and closed still
matches -name f, its CL_CLOSE naming nothing.  EXAMPLES also gains a
plain --since search.
")
].

Definition tx1019_fn (path : string) (s subj : text) : res (text * list string) :=
  for_rows (at_path [] path sub_assert_skip) tx1019_R s [].

Definition tx1019_msgfn (msg subj : text) : res (text * list string) :=
  for_rows (hit_prefix "msg" sub_in) tx1019_M msg [].

Definition tx1019b_SAN : string :=
  "lustre/tests/sanity.sh".

Definition tx1019b_R : list frow := [
  FRow tx1019b_SAN
   (Row "dne"
     (lit "	grep -q \q/kept$\q <<< \q$out\q ||
		error \qthe run after an empty one missed kept: $out\q

	rm -rf $DIR/$tdir
")
     (lit "	grep -q \q/kept$\q <<< \q$out\q ||
		error \qthe run after an empty one missed kept: $out\q

	# Each MDT keeps its own anchor, and a run that reads only one MDT
	# writes the other MDT's line back as it was
	if (( MDSCOUNT > 1 )); then
		local ckd=$ck.dne
		local a0
		local a1

		stack_trap \qrm -f $ckd\q
		$LFS mkdir -i 1 $DIR/$tdir/m1 || error \qmkdir m1 failed\q
		$LFS find $DIR/$tdir --since-cookie $ckd -type f > /dev/null ||
			error \qthe first DNE run failed\q
		a0=$(grep \q^$FSNAME-MDT0000 \q $ckd) ||
			error \qno MDT0000 line: $(cat $ckd)\q
		a1=$(grep \q^$FSNAME-MDT0001 \q $ckd) ||
			error \qno MDT0001 line: $(cat $ckd)\q

		touch $DIR/$tdir/m1/d1 || error \qtouch m1/d1 failed\q
		sync; sleep 2
		out=$($LFS find $DIR/$tdir --since-cookie $ckd -type f) ||
			error \qthe run after m1/d1 failed\q
		[[ \q$out\q == \q$DIR/$tdir/m1/d1\q ]] ||
			error \qthe run after m1/d1 returned '$out'\q
		grep -qFx \q$a0\q $ckd ||
			error \qMDT0000 moved with no new record: $(cat $ckd)\q
		grep -qFx \q$a1\q $ckd &&
			error \qMDT0001 did not move past m1/d1: $(cat $ckd)\q
		a1=$(grep \q^$FSNAME-MDT0001 \q $ckd)

		touch $DIR/$tdir/d0 $DIR/$tdir/m1/d2 || error \qtouch failed\q
		sync; sleep 2
		out=$($LFS find $DIR/$tdir --changelog $FSNAME-MDT0001 \\
		      --resolve --since-cookie $ckd -type f) ||
			error \qthe MDT0001 run failed\q
		[[ \q$out\q == \q$DIR/$tdir/m1/d2\q ]] ||
			error \qthe MDT0001 run returned '$out'\q
		grep -qFx \q$a0\q $ckd ||
			error \qthe MDT0001 run moved MDT0000: $(cat $ckd)\q
		grep -qFx \q$a1\q $ckd &&
			error \qthe MDT0001 run did not move it: $(cat $ckd)\q

		# MDT0000's anchor is still before d0, MDT0001's is past m1/d2
		out=$($LFS find $DIR/$tdir --since-cookie $ckd -type f) ||
			error \qthe run after the MDT0001 run failed\q
		[[ \q$out\q == \q$DIR/$tdir/d0\q ]] ||
			error \qthe run after the MDT0001 run returned '$out'\q
	fi

	rm -rf $DIR/$tdir
"))
  None
].

Definition tx1019b_M : list row := [
  Row "dne"
    (lit "next run warns and still finds the record made after the purge.
")
    (lit "next run warns and still finds the record made after the purge.

With more than one MDT, 160Ac puts files on MDT0001 too and checks that
each MDT keeps its own anchor: a run that finds a new file on MDT0001
moves only that MDT's line, and a --changelog run over MDT0001 writes
MDT0000's line back as it was, so the next run still finds the file
made on MDT0000.
")
].

Definition tx1019b_fn (path : string) (s subj : text) : res (text * list string) :=
  for_rows (at_path [] path sub_assert_skip) tx1019b_R s [].

Definition tx1019b_msgfn (msg subj : text) : res (text * list string) :=
  for_rows (hit_prefix "msg" msg_new) tx1019b_M msg [].
