(* ===== verification/Tx1019Fork5.v ===== *)
(** The rewrite modules docs/rounds/a-1019/tx_1019d.py to tx_1019h.py, which
    forktx5.py loads.  Names are prefixed with the module's. *)
From S2P Require Import Prelude PyStr TxEngine.

Definition tx1019d_C156 : string :=
  "I8a28a8173b0b8f03ba8f9dc5a58a821118ac6296".

Definition tx1019d_C415 : string :=
  "I12efd3bd2150592a4507533129ab56573ef924d9".

Definition tx1019d_C159 : string :=
  "Ibf2dcf71e5444914f306ad37a551262cddd8e1de".

Definition tx1019d_C160 : string :=
  "Ib25109943ad40afbc2d272a65e70c364c376b2b7".

Definition tx1019d_C163 : string :=
  "I97a6d8815924b2671c818152f42d66cc580a609d".

Definition tx1019d_C288 : string :=
  "I6476abfd28c91b2ccc04fb08c4e5860aef8fe009".

Definition tx1019d_C419 : string :=
  "Ia8ce93368a2c2c8c2ea2ee88c8e7f7e099b1bfa5".

Definition tx1019d_SCL : string :=
  "lustre/utils/liblustreapi_scan_changelog.c".

Definition tx1019d_SCL3 : string :=
  "Documentation/man3/llapi_scan_changelog.3".

Definition tx1019d_SCLT : string :=
  "lustre/tests/llapi_scan_changelog_test.c".

Definition tx1019d_SAN : string :=
  "lustre/tests/sanity.sh".

Definition tx1019d_PF : string :=
  "lustre/utils/liblustreapi_pfind.c".

Definition tx1019d_SD : string :=
  "lustre/utils/liblustreapi_scan_device.c".

Definition tx1019d_SD3 : string :=
  "Documentation/man3/llapi_scan_device.3".

Definition tx1019d_FIDH : string :=
  "include/uapi/linux/lustre/lustre_fid.h".

Definition tx1019d_FD3 : string :=
  "Documentation/man3/llapi_find_device.3".

Definition tx1019d_LFS : string :=
  "lustre/utils/lfs.c".

Definition tx1019d_FIND1 : string :=
  "Documentation/man1/lfs-find.1".

Definition tx1019d_ALWAYS : list string :=
  [].

(** Lines 48 to 155. *)
Definition tx1019d_R_1 : list frow := [
  FRow tx1019d_SCL
   (Row "L1-loop"
     (lit "		if (scl.lfsc_endrec != 0 && rec->cr_index > scl.lfsc_endrec) {
			llapi_changelog_free(&rec);
			break;
		}

		sl->sl_stats.ss_seen++;
")
     (lit "		if (scl.lfsc_endrec != 0 && rec->cr_index > scl.lfsc_endrec) {
			llapi_changelog_free(&rec);
			break;
		}

		/* the mdc filters nothing if the user's mask misses this one */
		if (scl.lfsc_type_mask != 0 &&
		    (rec->cr_type >= 64 ||
		     !(scl.lfsc_type_mask & (1ULL << rec->cr_type)))) {
			llapi_changelog_free(&rec);
			continue;
		}

		sl->sl_stats.ss_seen++;
"))
   None;
  FRow tx1019d_SCL3
   (Row "L1-man"
     (lit "of the events wanted, intersected with the registered user's own mask; 0
means every type the log holds. The client asks the MDS for
.IR lfsc_user 's
mask, which needs an MDS of Lustre 2.17.0 or later, and drops the other
records as it reads them; they are still read from the MDT. A mask is
refused without
.IR lfsc_user ,
because there is no user's mask to intersect it with, and refused with
.BR LLAPI_SCAN_CL_F_CLEAR ,
because a clear purges the user's records of every type, including the ones
the mask kept from the consumer. Keep the mask within the user's own: the
client takes an empty intersection as no mask at all, and delivers every
type.
.I lfsc_filter
filters without one.
")
     (lit "of the events wanted; 0 means every type the log holds. Only records of
these types are delivered. The client also asks the MDS for
.IR lfsc_user 's
mask, which needs an MDS of Lustre 2.17.0 or later, and where the two masks
overlap it drops the records outside the overlap as it reads them; they are
still read from the MDT. A mask is refused without
.IR lfsc_user ,
because there is no user's mask to intersect it with, and refused with
.BR LLAPI_SCAN_CL_F_CLEAR ,
because a clear purges the user's records of every type, including the ones
the mask kept from the consumer.
.I lfsc_filter
filters without a user.
"))
   None;
  FRow tx1019d_SCLT
   (Row "L1-t-hdr"
     (lit " * without a mask (LU-20647).  Without -u, test6 and test9 skip.
")
     (lit " * without a mask (LU-20647).  Without -u, test6, test9 and test11 skip.
"))
   None;
  FRow tx1019d_SCLT
   (Row "L1-t-case"
     (lit "static struct test_tbl_entry test_tbl[] = {
")
     (lit "#define T11_DESC \qlfsc_type_mask holds outside the user's own mask\q
static void test11(void)
{
	struct llapi_scan_changelog_param sc;
	struct cl_result res = { 0 };
	int rc;

	if (cluser == NULL) {
		printf(\q  no -u, so no user to filter for; skipped\\n\q);
		return;
	}

	ASSERTF(make_events(testdir) != 0, \qcannot make events under %s\q,
		testdir);

	/*
	 * If this mask and the user's do not overlap, the mdc filters
	 * nothing.  sanity 56Eea runs this case with a user of CREAT only.
	 */
	param_init(&sc);
	sc.lfsc_type_mask = 1ULL << CL_UNLINK;
	rc = llapi_scan_changelog(&sc, cl_cb, &res);
	ASSERTF(rc == 0, \qthe masked scan failed: %s\q, strerror(-rc));
	ASSERTF(res.cr_types & (1ULL << CL_UNLINK),
		\qthe mask delivered no CL_UNLINK, though a file was unlinked\q);
	ASSERTF(!(res.cr_types & ~(1ULL << CL_UNLINK)),
		\qthe mask let other types through: %#llx\q,
		(unsigned long long)res.cr_types);

	printf(\q  %u records, all CL_UNLINK\\n\q, res.cr_with_event);
}

static struct test_tbl_entry test_tbl[] = {
"))
   None;
  FRow tx1019d_SCLT
   (Row "L1-t-reg"
     (lit "	TEST_REGISTER(10),
	TEST_REGISTER_END
")
     (lit "	TEST_REGISTER(10),
	TEST_REGISTER(11),
	TEST_REGISTER_END
"))
   None
].

(** Lines 157 to 263. *)
Definition tx1019d_R_2 : list frow := [
  FRow tx1019d_SAN
   (Row "L1-san"
     (lit "	llapi_scan_changelog_test -m $(facet_svc mds1) -d $MOUNT \\
		-u $cl_user ${skip_cases:+-e $skip_cases} ||
		error \qllapi_scan_changelog_test failed\q
}
run_test 56Eea \qllapi changelog scanner API tests\q
")
     (lit "	llapi_scan_changelog_test -m $(facet_svc mds1) -d $MOUNT \\
		-u $cl_user ${skip_cases:+-e $skip_cases} ||
		error \qllapi_scan_changelog_test failed\q

	# test11 again, with a user whose mask does not overlap the one it
	# asks for: the client then filters nothing, the library must
	(( MDS1_VERSION >= $(version_code 2.17.0) )) || return 0
	changelog_register -m creat ||
		error \qchangelog_register -m creat failed\q
	cl_user=${CL_USERS[mds1]% }
	cl_user=${cl_user##* }
	llapi_scan_changelog_test -m $(facet_svc mds1) -d $MOUNT \\
		-u $cl_user -o 11 ||
		error \qllapi_scan_changelog_test -o 11 failed\q
}
run_test 56Eea \qllapi changelog scanner API tests\q
"))
   None;
  FRow tx1019d_PF
   (Row "L4-filter"
     (lit " * no object, such as a CL_MARK, is
 * delivered as it arrives -- scan_cl_object() routes it to scan_cl_event()
 * -- and an object already printed is dropped before the lookup too.
")
     (lit " * no object, such as a CL_MARK, is delivered as it arrives --
 * scan_cl_object() routes it to scan_cl_event() -- and an object already
 * printed is dropped before the lookup too.
"))
   (Some (λ a, str_mem tx1019d_C419 a));
  FRow tx1019d_PF
   (Row "L4-next"
     (lit " * names.  What happens next depends on
 * the source.
")
     (lit " * names.  What happens next depends on the source.
"))
   (Some (λ a, str_mem tx1019d_C419 a));
  FRow tx1019d_PF
   (Row "L4-return"
     (lit " * one of them) and --changelog names none, if the cookie is not a regular
 * file or was written for
 * another filesystem or another search root, if --resolve is given without
 * --changelog, or if @path is below the mount under --changelog without
 * --resolve.  -ENODEV for a --changelog MDT name that names no MDT of this
 * filesystem.  -ENOTSUP for a predicate the source cannot answer, which
 * find_changelog_supported() lists.  -ESTALE for a cookie whose anchor the
 * log has already passed.
")
     (lit " * one of them) and --changelog names none, if the cookie is not a regular
 * file or was written for another filesystem or another search root, if
 * --resolve is given without --changelog, or if @path is below the mount
 * under --changelog without --resolve.  -ENODEV for a --changelog MDT name
 * that names no MDT of this filesystem.  -ENOTSUP for a predicate the source
 * cannot answer, which find_changelog_supported() lists.  -ESTALE for a
 * cookie whose anchor the log has already passed.
"))
   (Some (λ a, str_mem tx1019d_C419 a));
  FRow tx1019d_SD
   (Row "B1-helper"
     (lit "	return (dev->sd_tgt_info.tt_flags & need) == need &&
	       dev->sd_tgt_info.tt_index == 0;
}
")
     (lit "	return (dev->sd_tgt_info.tt_flags & need) == need &&
	       dev->sd_tgt_info.tt_index == 0;
}

/*
 * An OST without OBD_ROCOMPAT_IDX_IN_IDIF (formatted before 2.6) stores its
 * IDIFs with OST index 0.  osd_check_lma() puts the index back, and so here.
 */
static void scan_idif_set_index(const struct scan_dev *dev, struct lu_fid *fid)
{
	__u32 need = LLAPI_SCAN_TGT_OST | LLAPI_SCAN_TGT_INDEX;
	__u32 idx = dev->sd_tgt_info.tt_index;

	if ((dev->sd_tgt_info.tt_flags & need) != need || idx == 0 ||
	    idx > 0xffff || !fid_is_idif(fid) || fid_idif_ost_idx(fid) != 0)
		return;

	fid->f_seq = fid_idif_seq(fid_idif_id(fid->f_seq, fid->f_oid,
					      fid->f_ver), idx);
}
"))
   None;
  FRow tx1019d_SD
   (Row "B1-call"
     (lit "		rec.lfsr_fid = lma.lma_self_fid;
		if (fid_is_sane(&rec.lfsr_fid))
")
     (lit "		rec.lfsr_fid = lma.lma_self_fid;
		scan_idif_set_index(dev, &rec.lfsr_fid);
		if (fid_is_sane(&rec.lfsr_fid))
"))
   None;
  FRow tx1019d_SD3
   (Row "B1-man"
     (lit "or an IDIF sequence), one stripe of some file's data.
")
     (lit "or an IDIF sequence), one stripe of some file's data. An OST formatted
before Lustre 2.6 stores its IDIFs with OST index 0;
.I lfsr_fid
carries the index from the target's label instead, as the OSD does.
"))
   None
].

(** Lines 266 to 359. *)
Definition tx1019d_R_3 : list frow := [
  FRow tx1019d_SD3
   (Row "B2-eio156"
     (lit ".B -EIO
a read of the target's inode table failed. An object that cannot be read
is skipped and counted in
")
     (lit ".B -EIO
a read the scan cannot go on without failed: the superblock, the group
descriptors, the inode bitmap or the inode table. An object that cannot be
read is skipped and counted in
"))
   None;
  FRow tx1019d_SD3
   (Row "B2-eio163"
     (lit ".B -EIO
a read the scan cannot go on without failed: the inode table on
ldiskfs, the attribute registry or a dnode block on ZFS. An object that
cannot be read is skipped and counted in
")
     (lit ".B -EIO
a read the scan cannot go on without failed: the superblock, the group
descriptors, the inode bitmap or the inode table on ldiskfs, the attribute
registry or a dnode block on ZFS. An object that cannot be read is skipped
and counted in
"))
   None;
  FRow tx1019d_SD3
   (Row "B2-enomem"
     (lit ".SH NOTES
With
.I lfsp_thread_count
")
     (lit ".TP 15
.B -ENOMEM
out of memory.
.SH NOTES
With
.I lfsp_thread_count
"))
   None;
  FRow tx1019d_FIDH
   (Row "B3"
     (lit "static inline int fid_is_root(const struct lu_fid *fid)
")
     (lit "static inline bool fid_is_root(const struct lu_fid *fid)
"))
   None;
  FRow tx1019d_FD3
   (Row "C2"
     (lit "To print every regular file over a gigabyte on a stopped MDT, without
mounting it:
")
     (lit "To print the regular files over a gigabyte on a stopped MDT, without
mounting it. A file whose size the MDT does not hold, such as a striped
file with no
.BR trusted.som ,
is counted as undecided and not printed:
"))
   None;
  FRow tx1019d_LFS
   (Row "D1"
     (lit "		fprintf(stderr, \q%s: '%s' is not an MDT or an OST\\n\q,
			argv[0], param->fp_target);
")
     (lit "		fprintf(stderr,
			\q%s: '%s' is not a target name like FSNAME-MDT0000 or FSNAME-OST0000\\n\q,
			argv[0], param->fp_target);
"))
   None;
  FRow tx1019d_FIND1
   (Row "F1-find1"
     (lit ".B --paths
does not name an object below an encrypted directory either:
the target holds those names encrypted.
")
     (lit "On an MDT, neither option names an object below an encrypted directory:
the target holds those names encrypted.
"))
   None;
  FRow tx1019d_FD3
   (Row "F1-fd3"
     (lit ".BR .lustre ,
and under DNE anything whose ancestors live on another MDT. Such an object
")
     (lit ".BR .lustre ,
anything below an encrypted directory, whose names the target holds
encrypted, and under DNE anything whose ancestors live on another MDT.
Such an object
"))
   None;
  FRow tx1019d_FD3
   (Row "F1-fd3-729"
     (lit "build: under DNE, anything whose ancestors live on another MDT. Such an
")
     (lit "build: anything below an encrypted directory, whose names the target holds
encrypted, and under DNE, anything whose ancestors live on another MDT.
Such an
"))
   None
].

(** Lines 362 to 382. *)
Definition tx1019d_R_4 : list frow := [
  FRow tx1019d_LFS
   (Row "F2"
     (lit "	if (param->fp_xattr_match_info != NULL) {
		fprintf(stderr, \q%s: --xattr needs a mounted filesystem\\n\q,
			argv[0]);
		return -ENOTSUP;
	}
")
     (lit "	if (param->fp_xattr_match_info != NULL) {
		fprintf(stderr, \q%s: --xattr needs a mounted filesystem\\n\q,
			argv[0]);
		return -ENOTSUP;
	}
	/* -printf prints its own fields, never the composed pathname */
	if (param->fp_format_printf_str != NULL &&
	    (param->fp_paths || param->fp_fid2path_mnt != NULL)) {
		fprintf(stderr,
			\q%s: -printf cannot be used with --paths or --fid2path\\n\q,
			argv[0]);
		return -ENOTSUP;
	}
"))
   (Some (λ a, str_mem tx1019d_C288 a))
].

(** The table [R] as the module leaves it. *)
Definition tx1019d_R : list frow :=
  tx1019d_R_1 ++ tx1019d_R_2 ++ tx1019d_R_3 ++ tx1019d_R_4.

Definition tx1019d_fn (ANC : list string) (base : string → res text) (path : string)
    (s : option text) (subj : text) : res (option text * list string) :=
  match s with
  | None => Ok (None, [])
  | Some s =>
      let! x := for_rows (at_path ANC path sub_assert_skip) tx1019d_R s [] in Ok (Some x.1, x.2)
  end.

Definition tx1019d_M : list row := [
  Row "L1"
    (lit "- lfsc_type_mask selects event types and needs lfsc_user. The client
  drops the other records as it reads them.
")
    (lit "- lfsc_type_mask selects event types and needs lfsc_user. The client
  drops the other records as it reads them, but only where this mask and
  the user's own overlap, so the library drops them too.
");
  Row "B1"
    (lit "- LLAPI_SCAN_PARENT is set only when the parent FID is sane.
")
    (lit "- LLAPI_SCAN_PARENT is set only when the parent FID is sane.
- An OST formatted before 2.6 stores its IDIFs with OST index 0. The
  index from the label is put back, as osd_check_lma() does.
");
  Row "E1"
    (lit "Its own autotest reaches the ZFS half only where configure finds the
headers; the Test-Parameters line below asks for the ZFS session that
can say something, and the default testing already runs sanity 157c.

Neither exercises the weak slot, and that is not an omission.
PLUGINS is enable_shared, so the weak references, libscan_zfs_in.la
and the -u exist only in a --disable-shared build; the autotest
sessions are built from the spec, which is %bcond_without shared, and
take the dlopen() path.  The build that does carry them is the
janitor's, which configures --disable-shared and runs the whole of
sanity on every change.
Asking for ONLY=131d here would run it against the shared build,
where the condition cannot arise.

")
    (lit "");
  Row "F2"
    (lit "Refused: --paths with --fid2path, --paths on an OST, either option
without a target, and -printf with either option, because a format
prints its own fields and not the pathname.
")
    (lit "Refused: --paths with --fid2path, --paths on an OST, either option
without a target, and -printf with either option, because a format
prints its own fields and not the pathname. lfs refuses -printf with
either option once, not once for each target of a sweep.
")
].

Definition tx1019d_msgfn (ANC : list string) (msg subj : text) : res (text * list string) :=
  for_rows (hit_prefix "msg-" msg_new_or_cut) tx1019d_M msg [].

Definition tx1019e_SAN : string :=
  "lustre/tests/sanity.sh".

(** Lines 19 to 39. *)
Definition tx1019e_R_1 : list frow := [
  FRow tx1019e_SAN
   (Row "S1"
     (lit "	# test9 asks the MDS for the user's mask, with a key the MDS has
	# only from 2.17.0 (LU-19296); a clear in test6 purges the log only
	# when no other changelog user holds it back.  Either skips that
	# case alone.
	local users=$(do_facet mds1 $LCTL get_param -n \\
		mdd.$(facet_svc mds1).changelog_users | grep -c \q^cl\q)
	local skip_cases=\q\q

	(( MDS1_VERSION >= $(version_code 2.17.0) )) || skip_cases=\q9\q
")
     (lit "	# test9 and test11 ask the MDS for the user's mask, with a key the
	# MDS has only from 2.17.0 (LU-19296); a clear in test6 purges the
	# log only when no other changelog user holds it back.  Each check
	# skips only its own cases.
	local users=$(do_facet mds1 $LCTL get_param -n \\
		mdd.$(facet_svc mds1).changelog_users | grep -c \q^cl\q)
	local skip_cases=\q\q

	(( MDS1_VERSION >= $(version_code 2.17.0) )) || skip_cases=\q9,11\q
"))
   None
].

(** The table [R] as the module leaves it. *)
Definition tx1019e_R : list frow :=
  tx1019e_R_1.

Definition tx1019e_fn (ANC : list string) (base : string → res text) (path : string)
    (s : option text) (subj : text) : res (option text * list string) :=
  match s with
  | None => Ok (None, [])
  | Some s =>
      let! x := for_rows (at_path ANC path sub_assert) tx1019e_R s [] in Ok (Some x.1, x.2)
  end.

Definition tx1019e_M : list row := [
  Row "M23"
    (lit "llapi_scan_changelog_test has eleven cases and sanity 56Eea runs it.
It takes -m for the MDT, -u for a registered changelog user and -d for
a client mount. test6 and test9 need -u and skip without it.
")
    (lit "llapi_scan_changelog_test has twelve cases and sanity 56Eea runs it.
It takes -m for the MDT, -u for a registered changelog user and -d for
a client mount. test6, test9 and test11 need -u and skip without it.
")
].

Definition tx1019e_msgfn (ANC : list string) (msg subj : text) : res (text * list string) :=
  for_rows (hit_prefix "msg-" sub_in) tx1019e_M msg [].

Definition tx1019f_SCAN : string :=
  "lustre/utils/liblustreapi_scan.c".

Definition tx1019f_PFIND : string :=
  "lustre/utils/liblustreapi_pfind.c".

Definition tx1019f_FIND1 : string :=
  "Documentation/man1/lfs-find.1".

Definition tx1019f_SINCE3 : string :=
  "Documentation/man3/llapi_find_since.3".

Definition tx1019f_CID_68419 : string :=
  "Ia8ce93368a2c2c8c2ea2ee88c8e7f7e099b1bfa5".

(** [if gate and CID_68419 not in ANC: continue] *)
Definition tx1019f_gate (needs : bool) : option (list string → bool) :=
  if needs then Some (λ a, str_mem tx1019f_CID_68419 a) else None.

(** Lines 27 to 124. *)
Definition tx1019f_R_1 : list frow := [
  FRow tx1019f_SCAN
   (Row "R9"
     (lit " * A record whose class is not LLAPI_SCAN_CLS_VISIBLE has no pathname: an
 * object a target keeps for itself, an agent inode, an orphan in PENDING.
")
     (lit " * Any other record whose class is not LLAPI_SCAN_CLS_VISIBLE has no
 * pathname: an object a target keeps for itself, an agent inode, an orphan
 * in PENDING.
"))
   (tx1019f_gate false);
  FRow tx1019f_PFIND
   (Row "R11inc"
     (lit "#include <sys/ioctl.h>
#include <sys/sysmacros.h>
")
     (lit "#include <sys/ioctl.h>
#include <sys/syscall.h>
#include <sys/sysmacros.h>
"))
   (tx1019f_gate true);
  FRow tx1019f_PFIND
   (Row "R11inc2"
     (lit "#include <lustre/lustreapi.h>
#include <linux/lustre/lustre_ioctl.h>
")
     (lit "#include <lustre/lustreapi.h>
#include <linux/capability.h>
#include <linux/lustre/lustre_ioctl.h>
"))
   (tx1019f_gate true);
  FRow tx1019f_PFIND
   (Row "R11fn"
     (lit "/*
 * The stale-anchor check, which is the reason a cookie is worth having:
")
     (lit "/*
 * rename() over a file in a sticky directory, such as /tmp, needs the caller
 * to own the file or the directory, or to have CAP_FOWNER.
 */
static bool find_cookie_may_replace(const char *cookie, const struct stat *st)
{
	struct __user_cap_header_struct hdr = {
		.version = _LINUX_CAPABILITY_VERSION_3,
	};
	struct __user_cap_data_struct cap[_LINUX_CAPABILITY_U32S_3];
	char dir[PATH_MAX];
	struct stat dst;
	char *sep;

	if (st->st_uid == geteuid())
		return true;

	snprintf(dir, sizeof(dir), \q%s\q, cookie);
	sep = strrchr(dir, '/');
	if (sep == NULL)
		snprintf(dir, sizeof(dir), \q.\q);
	else if (sep == dir)
		dir[1] = '\\0';	/* the cookie sits in the root */
	else
		*sep = '\\0';
	if (stat(dir, &dst) != 0 || !(dst.st_mode & S_ISVTX) ||
	    dst.st_uid == geteuid())
		return true;

	return syscall(SYS_capget, &hdr, cap) == 0 &&
	       (cap[CAP_TO_INDEX(CAP_FOWNER)].effective &
		CAP_TO_MASK(CAP_FOWNER));
}

/*
 * The stale-anchor check, which is the reason a cookie is worth having:
"))
   (tx1019f_gate true);
  FRow tx1019f_PFIND
   (Row "R11chk"
     (lit "	close(fd);
	unlink(probe);

")
     (lit "	close(fd);
	unlink(probe);

	/* the probe passes there, but rename() over the cookie would not */
	if (lstat(cookie, &st) == 0 && !find_cookie_may_replace(cookie, &st)) {
		llapi_error(LLAPI_MSG_ERROR, -EPERM,
			    \qcannot write the cookie '%s'\q, cookie);
		return -EPERM;
	}

"))
   (tx1019f_gate true);
  FRow tx1019f_FIND1
   (Row "R11man1"
     (lit "that does not exist is a first run and starts at the oldest surviving record;
one that cannot be written is refused before the search prints anything.
")
     (lit "that does not exist is a first run and starts at the oldest surviving record;
one that cannot be written is refused before the search prints anything.
So is another user's
.I FILE
in a sticky directory such as
.IR /tmp ,
which the run could not replace.
"))
   (tx1019f_gate true)
].

(** Lines 126 to 138. *)
Definition tx1019f_R_2 : list frow := [
  FRow tx1019f_SINCE3
   (Row "R11man3"
     (lit ".B -EPERM
FIDs cannot be resolved through this mount.
")
     (lit ".B -EPERM
FIDs cannot be resolved through this mount. Also a
.I fp_since_cookie
owned by another user in a sticky directory such as
.IR /tmp ,
which
.BR rename (2)
could not replace.
"))
   (tx1019f_gate true)
].

(** The table [R] as the module leaves it. *)
Definition tx1019f_R : list frow :=
  tx1019f_R_1 ++ tx1019f_R_2.

Definition tx1019f_fn (ANC : list string) (base : string → res text) (path : string)
    (s : option text) (subj : text) : res (option text * list string) :=
  match s with
  | None => Ok (None, [])
  | Some s =>
      let! x := for_rows (at_path ANC path sub_skip_assert) tx1019f_R s [] in Ok (Some x.1, x.2)
  end.

Definition tx1019f_M : list row := [
  Row "M419"
    (lit "find_cookie_read() takes for a first run, so a typo would not be
noticed until every log had been scanned.
")
    (lit "find_cookie_read() takes for a first run, so a typo would not be
noticed until every log had been scanned.  In a sticky directory such
as /tmp the probe is not enough: rename() over another user's cookie
fails EPERM unless the caller owns the directory or has CAP_FOWNER, so
that is checked too.
")
].

Definition tx1019f_msgfn (ANC : list string) (msg subj : text) : res (text * list string) :=
  for_rows (hit_prefix "msg-" msg_new) tx1019f_M msg [].

Definition tx1019g_LFS : string :=
  "lustre/utils/lfs.c".

Definition tx1019g_FIND1 : string :=
  "Documentation/man1/lfs-find.1".

Definition tx1019g_CONF : string :=
  "lustre/tests/conf-sanity.sh".

Definition tx1019g_CID_68160 : string :=
  "Ib25109943ad40afbc2d272a65e70c364c376b2b7".

(** Lines 26 to 112. *)
Definition tx1019g_R_1 : list frow := [
  FRow tx1019g_LFS
   (Row "helper"
     (lit "/*
 * lfs find over a target's own objects, read off its device by
")
     (lit "/* the options only a layout answers, as find_asks_layout() in the library */
static bool lfs_find_asks_layout(const struct find_param *param)
{
	return param->fp_check_pool || param->fp_check_stripe_count ||
	       param->fp_check_stripe_size || param->fp_check_layout ||
	       param->fp_check_comp_count || param->fp_check_comp_end ||
	       param->fp_check_comp_start || param->fp_check_comp_flags ||
	       param->fp_check_mirror_count || param->fp_check_foreign ||
	       param->fp_check_mirror_state || param->fp_check_ext_size;
}

/*
 * lfs find over a target's own objects, read off its device by
"))
   None;
  FRow tx1019g_LFS
   (Row "doc"
     (lit " * A sweep skips the targets --ost or --mdt cannot name.  ENOTSUP does not
 * end it: an OST cannot answer everything an MDT can, and a node may serve
 * a kind of target this build has no backend for.
")
     (lit " * A sweep skips the targets --ost or --mdt cannot name, and the OSTs when
 * an MDT is there to answer the layout options.  ENOTSUP does not end it:
 * an OST cannot answer everything an MDT can, and a node may serve a kind
 * of target this build has no backend for.
"))
   None;
  FRow tx1019g_LFS
   (Row "decl"
     (lit "	int scanned = 0;
	int ret = 0;
	int named;
")
     (lit "	bool skip_ost = false;
	int scanned = 0;
	int ret = 0;
	int named;
"))
   None;
  FRow tx1019g_LFS
   (Row "pre"
     (lit "	for (i = 0; i < nr; i++) {
		int rc;

")
     (lit "	/* with no MDT, or with --ost, each OST says why it cannot answer */
	if (tgts != &one && param->fp_target == NULL &&
	    param->fp_obd_uuid == NULL && lfs_find_asks_layout(param)) {
		for (i = 0; i < nr; i++)
			skip_ost |= lfs_find_label_is(tgts[i].lt_name, \qMDT\q);
	}

	for (i = 0; i < nr; i++) {
		int rc;

"))
   None;
  FRow tx1019g_LFS
   (Row "loop"
     (lit "			continue;
		scanned++;

		if (nr > 1)
")
     (lit "			continue;
		if (skip_ost && lfs_find_label_is(tgts[i].lt_name, \qOST\q))
			continue;
		scanned++;

		if (nr > 1)
"))
   None;
  FRow tx1019g_FIND1
   (Row "man"
     (lit "a sweep skips the targets of the other kind rather than failing on them,
and refuses the two options together, since no target would be left.
")
     (lit "a sweep skips the targets of the other kind rather than failing on them,
and refuses the two options together, since no target would be left.
Only an MDT answers the layout options, such as
.B --pool
and
.BR --stripe-count ,
so a sweep that reads an MDT skips the OSTs.
With no MDT to read, or with
.BR --ost ,
each OST fails as one that cannot answer them.
"))
   None
].

(** Lines 114 to 144. *)
Definition tx1019g_R_2 : list frow := [
  FRow tx1019g_CONF
   (Row "test"
     (lit "	if grep -q -- \q-OST\q $scan_err; then
		cat $scan_err
		error \qlfs find --local --mdt $mdtsvc read an OST\q
	fi
}
")
     (lit "	if grep -q -- \q-OST\q $scan_err; then
		cat $scan_err
		error \qlfs find --local --mdt $mdtsvc read an OST\q
	fi

	# only an MDT answers a layout option, so the sweep skips the OST
	do_facet mds1 \q$LFS find --local --stripe-count 1 --type f\q \\
		> $scan_out 2> $scan_err || {
		cat $scan_err
		error \qlfs find --local --stripe-count 1 failed\q
	}
	[[ -s $scan_out ]] ||
		error \qlfs find --local --stripe-count 1 found nothing\q
	if grep -q -- \q-OST\q $scan_err; then
		cat $scan_err
		error \qlfs find --local --stripe-count 1 read an OST\q
	fi
	# but an OST named alone still refuses it
	do_facet mds1 \q$LFS find --target $ostsvc --stripe-count 1\q \\
		> /dev/null 2>&1 &&
		error \qlfs find --target $ostsvc --stripe-count 1 succeeded\q
	return 0
}
"))
   None
].

(** The table [R] as the module leaves it. *)
Definition tx1019g_R : list frow :=
  tx1019g_R_1 ++ tx1019g_R_2.

Definition tx1019g_fn (ANC : list string) (base : string → res text) (path : string)
    (s : option text) (subj : text) : res (option text * list string) :=
  match s with
  | None => Ok (None, [])
  | Some s =>
      if negb (str_mem tx1019g_CID_68160 ANC) then Ok (Some s, [])
      else let! x := for_rows (at_path ANC path sub_skip_assert) tx1019g_R s [] in
           Ok (Some x.1, x.2)
  end.

Definition tx1019g_M : list row := [
  Row "M160a"
    (lit "ENOTSUP does not end a sweep either: an OST cannot answer everything an
MDT can, and a node may serve a kind of target this build cannot read.
")
    (lit "ENOTSUP does not end a sweep either: an OST cannot answer everything an
MDT can, and a node may serve a kind of target this build cannot read.
Only an MDT answers the layout options, so a sweep that reads an MDT
skips the OSTs: a node that serves an MDT and an OST answers --pool in
full and exits 0. With no MDT to read, or with --ost, each OST still
fails.
");
  Row "M160b"
    (lit "ldiskfs node it also checks that each reads only targets of its type.
")
    (lit "ldiskfs node it also checks that each reads only targets of its type,
that --local --stripe-count skips the OST and succeeds, and that
--target on the OST refuses it.
")
].

Definition tx1019g_msgfn (ANC : list string) (msg subj : text) : res (text * list string) :=
  if negb (py_in (lit tx1019g_CID_68160) msg) then Ok (msg, [])
  else for_rows (hit_prefix "msg-" msg_new) tx1019g_M msg [].

Definition tx1019h_PF : string :=
  "lustre/utils/liblustreapi_pfind.c".

Definition tx1019h_CID_68419 : string :=
  "Ia8ce93368a2c2c8c2ea2ee88c8e7f7e099b1bfa5".

(** Lines 27 to 107. *)
Definition tx1019h_R_1 : list frow := [
  FRow tx1019h_PF
   (Row "S5"
     (lit "		if (sscanf(line, \q# lfs find --since-cookie for %255s%n\q,
			   name, &pos) == 1) {
")
     (lit "		if (sscanf(line, \q# lfs find --since-cookie for %\q
			   FIND_COOKIE_WIDTH(NAME_MAX) \qs%n\q,
			   name, &pos) == 1) {
"))
   None;
  FRow tx1019h_PF
   (Row "S4-68419"
     (lit "			/*
			 * A clear between the two reads leaves the log empty,
			 * or holding only newer records.  Nothing was lost.
			 */
			rc = find_cl_first(mdtname, 0, &oldest);
			if (rc < 0) {
				llapi_error(LLAPI_MSG_ERROR, rc,
					    \qcannot read the changelog of '%s'\q,
					    mdtname);
				return rc;
			}
			if (oldest == 0 || oldest >= anchor)
				continue;
")
     (lit "			/*
			 * A clear between the two reads leaves the log empty,
			 * or starting at anchor + 1.  Past that is a purge.
			 */
			rc = find_cl_first(mdtname, 0, &oldest);
			if (rc < 0) {
				llapi_error(LLAPI_MSG_ERROR, rc,
					    \qcannot read the changelog of '%s'\q,
					    mdtname);
				return rc;
			}
			if (oldest == 0 || oldest == anchor + 1)
				continue;
			if (oldest > anchor + 1) {
				llapi_error(LLAPI_MSG_ERROR |
					    LLAPI_MSG_NO_ERRNO, -ESTALE,
					    \q'%s' has purged past the cookie: it starts at %llu and '%s' records %llu, so the run would resume at %llu and the records in between are gone\q,
					    mdtname, (unsigned long long)oldest,
					    cookie, (unsigned long long)anchor,
					    (unsigned long long)(anchor + 1));
				return -ESTALE;
			}
"))
   None;
  FRow tx1019h_PF
   (Row "S4-69443"
     (lit "			/*
			 * A clear between the two reads leaves the log empty,
			 * or holding only newer records.  Nothing was lost.
			 */
			rc = find_cl_first(mdtname, 0, &oldest, NULL);
			if (rc < 0) {
				llapi_error(LLAPI_MSG_ERROR, rc,
					    \qcannot read the changelog of '%s'\q,
					    mdtname);
				return rc;
			}
			if (oldest == 0 || oldest >= anchor)
				continue;
")
     (lit "			/*
			 * A clear between the two reads leaves the log empty,
			 * or starting at anchor + 1.  Past that is a purge.
			 */
			rc = find_cookie_purged(mdtname, anchor, cookie,
						&oldest);
			if (rc < 0 && rc != -ESTALE)
				llapi_error(LLAPI_MSG_ERROR, rc,
					    \qcannot read the changelog of '%s'\q,
					    mdtname);
			if (rc < 0)
				return rc;
			if (oldest == 0 || oldest == anchor + 1)
				continue;
"))
   None
].

(** The table [R] as the module leaves it. *)
Definition tx1019h_R : list frow :=
  tx1019h_R_1.

(** [R[-1][3]] *)
Definition tx1019h_P69443 : text :=
  match last tx1019h_R with Some r => r_new (f_row r) | None => [] end.

(** The loop body: the third read of a tree that has find_cookie_purged(). *)
Definition tx1019h_body (r : row) (s : text) : outcome :=
  if negb (py_in (r_old r) s) then keep s
  else if String.eqb (r_tag r) "S4-68419" && py_in (lit "static int find_cookie_purged(") s
  then assert_sub (Row "S4-69443" (r_old r) tx1019h_P69443) s
  else assert_sub r s.

Definition tx1019h_fn (ANC : list string) (base : string → res text) (path : string)
    (s : option text) (subj : text) : res (option text * list string) :=
  match s with
  | None => Ok (None, [])
  | Some s =>
      if negb (str_mem tx1019h_CID_68419 ANC) then Ok (Some s, [])
      else let! x := for_rows (at_path ANC path tx1019h_body) tx1019h_R s [] in
           Ok (Some x.1, x.2)
  end.
