(* ===== verification/Tx1019c.v ===== *)
(** The rewrite module docs/rounds/a-1019/tx_1019c.py, which forktx5.py loads.  Names
    are prefixed with [tx1019c_]. *)
From S2P Require Import Prelude PyStr TxEngine.

(** A row of [R_FN]: the new text is a function of [ANC] and the file. *)
Record fnrow := FnRow {
  fn_tag : string;
  fn_path : string;
  fn_old : text;
  fn_new : list string → text → text;
}.

Definition tx1019c_C156 : string :=
  "I8a28a8173b0b8f03ba8f9dc5a58a821118ac6296".

Definition tx1019c_C159 : string :=
  "Ibf2dcf71e5444914f306ad37a551262cddd8e1de".

Definition tx1019c_C160 : string :=
  "Ib25109943ad40afbc2d272a65e70c364c376b2b7".

Definition tx1019c_C163 : string :=
  "I97a6d8815924b2671c818152f42d66cc580a609d".

Definition tx1019c_C288 : string :=
  "I6476abfd28c91b2ccc04fb08c4e5860aef8fe009".

Definition tx1019c_PF : string :=
  "lustre/utils/liblustreapi_pfind.c".

Definition tx1019c_LAY : string :=
  "lustre/utils/liblustreapi_layout.c".

Definition tx1019c_IH : string :=
  "lustre/utils/lustreapi_internal.h".

Definition tx1019c_LDK : string :=
  "lustre/utils/libscan_ldiskfs.c".

Definition tx1019c_CS : string :=
  "lustre/tests/conf-sanity.sh".

Definition tx1019c_SAN : string :=
  "lustre/tests/sanity.sh".

Definition tx1019c_TOOL : string :=
  "lustre/tests/llapi_scan_device_test.c".

Definition tx1019c_TMK : string :=
  "lustre/tests/Makefile.am".

Definition tx1019c_TGI : string :=
  "lustre/tests/.gitignore".

Definition tx1019c_TU : list string :=
  ["lustre/tests/llapi_test_utils.c"; "lustre/tests/llapi_test_utils.h"].

Definition tx1019c_FIND1 : string :=
  "Documentation/man1/lfs-find.1".

Definition tx1019c_FD3 : string :=
  "Documentation/man3/llapi_find_device.3".

Definition tx1019c_LA : string :=
  "lustre/utils/liblustreapi.c".

Definition tx1019c_ALWAYS : list string :=
  [tx1019c_FIND1; tx1019c_SAN; tx1019c_LA].

(** Lines 47 to 149. *)
Definition tx1019c_R_1 : list frow := [
  FRow tx1019c_LDK
   (Row "A5"
     (lit "/*
 * A target's label is what mkfs.lustre wrote there: fsname-MDT0000.  It is
 * free at open time and it is the only thing on the device that says which
 * target this is, so it settles both the index and MDT versus OST.
 */")
     (lit "/*
 * The label mkfs.lustre wrote, fsname-MDT0000, gives the index and MDT versus
 * OST.  last_rcvd and CONFIGS/mountdata name the target too, and the mount
 * checks them against it, but the label is free at open time.
 */"))
   None;
  FRow tx1019c_PF
   (Row "A2-letters"
     (lit "	if (*seq == '\\0' || strchr(\qaAFPchiopS\q, *seq) == NULL) {")
     (lit "	if (*seq == '\\0' || strchr(\qaAFOPchiopS\q, *seq) == NULL) {"))
   (Some (λ a, str_mem tx1019c_C159 a));
  FRow tx1019c_PF
   (Row "A2-F"
     (lit "			 * default output of such a scan reads it from too,
			 * and an object carrying no trusted.lma has none.
			 */
			if (rec != NULL && (rec->lfsr_valid & LLAPI_SCAN_FID))
				*wrote = snprintf(buffer, size, DFID_NOBRACE,
						  PFID(&rec->lfsr_fid));
			goto format_done;")
     (lit "			 * default output of such a scan reads it from too,
			 * and an object carrying no trusted.lma has none.
			 * An OST data object prints nothing: the FID a user
			 * knows is its file's, which is not read here.
			 */
			if (rec == NULL || find_rec_is_ost_obj(rec) ||
			    !(rec->lfsr_valid & LLAPI_SCAN_FID))
				goto format_done;
			*wrote = snprintf(buffer, size, DFID_NOBRACE,
					  PFID(&rec->lfsr_fid));
			goto format_done;"))
   (Some (λ a, str_mem tx1019c_C159 a));
  FRow tx1019c_PF
   (Row "A2-F288"
     (lit "			 * An OST data object prints nothing: the FID a user
			 * knows is its file's, which is not read here.
			 */
			if (rec == NULL || find_rec_is_ost_obj(rec) ||
			    !(rec->lfsr_valid & LLAPI_SCAN_FID))
				goto format_done;
			*wrote = snprintf(buffer, size, DFID_NOBRACE,
					  PFID(&rec->lfsr_fid));
			goto format_done;")
     (lit "			 * An OST data object prints its file's FID, from its
			 * trusted.fid, and nothing if no file owns it yet.
			 */
			if (rec == NULL)
				goto format_done;
			if (!find_rec_is_ost_obj(rec) &&
			    (rec->lfsr_valid & LLAPI_SCAN_FID))
				fid = rec->lfsr_fid;
			else if (find_rec_is_ost_obj(rec) &&
				 (rec->lfsr_valid & LLAPI_SCAN_OWNER))
				fid = rec->lfsr_owner_fid;
			else
				goto format_done;
			*wrote = snprintf(buffer, size, DFID_NOBRACE,
					  PFID(&fid));
			goto format_done;"))
   (Some (λ a, str_mem tx1019c_C288 a));
  FRow tx1019c_PF
   (Row "A2-O"
     (lit "	case 'P':
		*wrote = snprintf(buffer, size, \q%u\q, projid);
		goto format_done;")
     (lit "	case 'O':
		/* an OST data object is one of its file's: only its own FID */
		if (rec != NULL && find_rec_is_ost_obj(rec)) {
			if (rec->lfsr_valid & LLAPI_SCAN_FID)
				*wrote = snprintf(buffer, size,
						  \q[\q DFID_NOBRACE \q]\q,
						  PFID(&rec->lfsr_fid));
			goto format_done;
		}
		break;
	case 'P':
		*wrote = snprintf(buffer, size, \q%u\q, projid);
		goto format_done;"))
   (Some (λ a, str_mem tx1019c_C159 a));
  FRow tx1019c_PF
   (Row "A2-Ofile"
     (lit "		case 'o':	/* list of object indices */
			*wrote = printf_format_ost_indices(buffer, size, layout,
							   path == NULL);
			break;")
     (lit "		case 'o':	/* list of object indices */
			*wrote = printf_format_ost_indices(buffer, size, layout,
							   path == NULL);
			break;
		case 'O':	/* list of object FIDs */
			*wrote = printf_format_ost_fids(buffer, size, layout);
			break;"))
   (Some (λ a, str_mem tx1019c_C159 a));
  FRow tx1019c_PF
   (Row "A2-Odir"
     (lit "		case 'p':	/* pool name */
			*wrote = snprintf(buffer, size, \q%s\q,")
     (lit "		case 'O':	/* a directory has no OST objects */
			break;
		case 'p':	/* pool name */
			*wrote = snprintf(buffer, size, \q%s\q,"))
   (Some (λ a, str_mem tx1019c_C159 a))
].

(** Lines 151 to 259. *)
Definition tx1019c_R_2 : list frow := [
  FRow tx1019c_PF
   (Row "A2-helpers"
     (lit "/*
 * Print all ost indices associated with a file layout using a commma separated
 * list.")
     (lit "/* An OST data object: one stripe of a file, which the file names */
static bool find_rec_is_ost_obj(const struct llapi_scan_rec *rec)
{
	return (rec->lfsr_valid & LLAPI_SCAN_CLASS) &&
	       rec->lfsr_class == LLAPI_SCAN_CLS_OST_OBJ;
}

/*
 * The FIDs of a file's OST objects, comma-separated, with one bracketed list
 * per component as %Lo prints the indices.  A stripe with no object yet is
 * left out, and a component with none prints nothing.
 */
static int printf_format_ost_fids(char *buffer, size_t size,
				  struct llapi_layout *layout)
{
	size_t wrote = 0;
	int rc;

	rc = llapi_layout_comp_use(layout, LLAPI_LAYOUT_COMP_USE_FIRST);
	while (rc == 0) {
		uint64_t count, i;
		bool listed = false;

		if (llapi_layout_stripe_count_get(layout, &count) != 0 ||
		    count >= LLAPI_LAYOUT_INVALID)
			count = 0;
		for (i = 0; i < count && wrote < size; i++) {
			struct lu_fid fid;

			if (layout_ost_fid_get(layout, i, &fid) != 0)
				continue;
			wrote += snprintf(buffer + wrote, size - wrote,
					  \q%c\q DFID_NOBRACE, listed ? ',' : '[',
					  PFID(&fid));
			listed = true;
		}
		if (listed && wrote < size)
			wrote += snprintf(buffer + wrote, size - wrote, \q]\q);
		rc = llapi_layout_comp_use(layout, LLAPI_LAYOUT_COMP_USE_NEXT);
	}

	return wrote < size ? wrote : size - 1;
}

/*
 * Print all ost indices associated with a file layout using a commma separated
 * list."))
   (Some (λ a, str_mem tx1019c_C159 a));
  FRow tx1019c_PF
   (Row "A2-want"
     (lit "			if (c[1] != '\\0' && strchr(\qchiopS\q, c[1]) != NULL)
				want |= LLAPI_SCAN_LAYOUT | LLAPI_SCAN_LMV;")
     (lit "			if (c[1] != '\\0' && strchr(\qchiOopS\q, c[1]) != NULL)
				want |= LLAPI_SCAN_LAYOUT | LLAPI_SCAN_LMV;"))
   (Some (λ a, str_mem tx1019c_C159 a));
  FRow tx1019c_PF
   (Row "A2-want288"
     (lit "			if (c[1] != '\\0' && strchr(\qchiOopS\q, c[1]) != NULL)
				want |= LLAPI_SCAN_LAYOUT | LLAPI_SCAN_LMV;")
     (lit "			if (c[1] != '\\0' && strchr(\qchiOopS\q, c[1]) != NULL)
				want |= LLAPI_SCAN_LAYOUT | LLAPI_SCAN_LMV;
			/* an OST data object's %LF is its owner's */
			if (c[1] == 'F')
				want |= LLAPI_SCAN_OWNER;"))
   (Some (λ a, str_mem tx1019c_C288 a));
  FRow tx1019c_LAY
   (Row "A2-layout"
     (lit "	if (comp->llc_stripe_offset == LLAPI_LAYOUT_DEFAULT)
		*index = LLAPI_LAYOUT_DEFAULT;
	else
		*index = comp->llc_objects[stripe_number].l_ost_idx;

	return 0;
}
")
     (lit "	if (comp->llc_stripe_offset == LLAPI_LAYOUT_DEFAULT)
		*index = LLAPI_LAYOUT_DEFAULT;
	else
		*index = comp->llc_objects[stripe_number].l_ost_idx;

	return 0;
}

/*
 * The FID of the object @stripe_number in the current component, for
 * lfs find -printf %LO.  -ENODATA for a stripe with no object yet.
 */
int layout_ost_fid_get(const struct llapi_layout *layout,
		       uint64_t stripe_number, struct lu_fid *fid)
{
	struct llapi_layout_comp *comp;
	struct lov_user_ost_data_v1 *obj;

	comp = __llapi_layout_cur_comp(layout);
	if (comp == NULL)
		return -EINVAL;
	if (comp->llc_pattern == LLAPI_LAYOUT_FOREIGN ||
	    stripe_number >= comp->llc_stripe_count ||
	    stripe_number >= comp->llc_objects_count)
		return -EINVAL;

	obj = &comp->llc_objects[stripe_number];
	if (ostid_id(&obj->l_ost_oi) == 0)
		return -ENODATA;

	return ostid_to_fid(fid, &obj->l_ost_oi, obj->l_ost_idx);
}
"))
   (Some (λ a, str_mem tx1019c_C159 a))
].

(** Lines 261 to 364. *)
Definition tx1019c_R_3 : list frow := [
  FRow tx1019c_LAY
   (Row "A2-layout-inc"
     (lit "#include <linux/lustre/lustre_idl.h>
")
     (lit "#include <linux/lustre/lustre_idl.h>
#include <linux/lustre/lustre_ostid.h>
"))
   (Some (λ a, str_mem tx1019c_C159 a));
  FRow tx1019c_LA
   (Row "A2-valid"
     (lit "	char *valid_fmt_lustre = \qaAcFhioPpS\q;")
     (lit "	char *valid_fmt_lustre = \qaAcFhiOoPpS\q;"))
   (Some (λ a, str_mem tx1019c_C159 a));
  FRow tx1019c_IH
   (Row "A2-decl"
     (lit "void layout_swab_lov_user_md(struct lov_user_md *lum, int lum_size);
")
     (lit "void layout_swab_lov_user_md(struct lov_user_md *lum, int lum_size);
int layout_ost_fid_get(const struct llapi_layout *layout,
		       uint64_t stripe_number, struct lu_fid *fid);
"))
   (Some (λ a, str_mem tx1019c_C159 a));
  FRow tx1019c_SAN
   (Row "A2-56Ea"
     (lit "	[[ \q${lattr_printf}\q == \q${lattr_getstr}\q ]] ||
		error \qAttrs from lfs find and lfs getstripe don't match\q
")
     (lit "	[[ \q${lattr_printf}\q == \q${lattr_getstr}\q ]] ||
		error \qAttrs from lfs find and lfs getstripe don't match\q

	# %LO lists the OST object FIDs lfs getstripe -y gives, and a
	# directory has none
	local ofids=$($LFS getstripe -y $path/$tfile |
		      awk '/l_fid:/ { printf \q%s%s\q, s, $2; s = \q,\q }')
	local lo_printf=$($LFS find $path/$tfile -printf \q%LO\q)

	[[ -n \q$ofids\q && \q$lo_printf\q == \q[$ofids]\q ]] ||
		error \q%LO gave '$lo_printf', getstripe gives [$ofids]\q
	lo_printf=$($LFS find $path -maxdepth 0 -printf \q%LO\q)
	[[ -z \q$lo_printf\q ]] || error \q%LO gave '$lo_printf' for a directory\q
"))
   (Some (λ a, str_mem tx1019c_C159 a));
  FRow tx1019c_FIND1
   (Row "A2-find1"
     (lit ".TP
.B %Lo
List of all OST/MDT indices associated with a file or directory.
")
     (lit ".TP
.B %Lo
List of all OST/MDT indices associated with a file or directory.
.TP
.B %LO
List of the FIDs of a file's OST objects, comma-separated, with one list in
brackets for each layout component, as
.B %Lo
lists the indices. A directory has none.
"))
   (Some (λ a, str_mem tx1019c_C159 a));
  FRow tx1019c_FIND1
   (Row "A2-find1-160"
     (lit "A target holds no pathnames, so each match is printed as its FID.
")
     (lit "A target holds no pathnames, so each match is printed as its FID.
On an OST that is the data object's own FID, which
.B -printf %LO
prints too;
.B %LF
prints nothing for a data object.
"))
   None;
  FRow tx1019c_FIND1
   (Row "A2-find1-288"
     (lit ".B --paths
is given.
.SH NOTES")
     (lit ".B --paths
is given.
On an OST that is the data object's own FID, which
.B -printf %LO
prints too;
.B %LF
prints the FID of the file the object belongs to.
.SH NOTES"))
   None;
  FRow tx1019c_FD3
   (Row "A2-fd3"
     (lit ".B %LF
prints the FID the record carries, and nothing for an object the scan has no
FID for;
")
     (lit ".B %LF
prints the FID the record carries, and nothing for an object the scan has no
FID for, or for an OST data object: the FID a user knows for one is its
file's, which this scan does not read.
.B %LO
prints an OST data object's own FID, in brackets, and the FIDs of a file's OST
objects from its layout;
"))
   (Some (λ a, str_mem tx1019c_C159 a));
  FRow tx1019c_FD3
   (Row "A2-fd3-288"
     (lit "FID for, or for an OST data object: the FID a user knows for one is its
file's, which this scan does not read.
")
     (lit "FID for.
For an OST data object it prints the FID of the file the object belongs to,
from its
.BR trusted.fid ,
and nothing for one no file owns yet.
"))
   (Some (λ a, str_mem tx1019c_C288 a))
].

(** Lines 367 to 468. *)
Definition tx1019c_R_4 : list frow := [
  FRow tx1019c_TOOL
   (Row "A3-tool-hdr"
     (lit " * not the scanner's.  conf-sanity 300 runs this after stopall and so never
 * meets it.
 *
 * With -l it prints one FID per object instead, which is what makes the
 * conf-sanity oracle possible.
 *
")
     (lit " * not the scanner's.  conf-sanity 300 runs this after stopall and so never
 * meets it.
 *
"))
   None;
  FRow tx1019c_TOOL
   (Row "A3-tool-list160"
     (lit "/* One FID per line, for a caller diffing this against what a client sees. */
static int fid_cb(const struct llapi_scan_rec *rec, void *data)
{
	if (rec->lfsr_valid & LLAPI_SCAN_FID)
		printf(DFID\q\\n\q, PFID(&rec->lfsr_fid));
	return 0;
}

static int list_fids(void)
{
	struct llapi_scan_param sp = { .lfsp_size = sizeof(sp) };
	int rc;

	rc = llapi_scan_device(device, &sp, fid_cb, NULL);
	if (rc < 0)
		fprintf(stderr, \q%s: %s\\n\q, device, strerror(-rc));

	return rc == 0 ? EXIT_SUCCESS : EXIT_FAILURE;
}

")
     (lit ""))
   None;
  FRow tx1019c_TOOL
   (Row "A3-tool-list163"
     (lit "/* One FID per line, for a caller diffing this against what a client sees. */
static int fid_cb(const struct llapi_scan_rec *rec, void *data)
{
	if (rec->lfsr_valid & LLAPI_SCAN_FID)
		printf(DFID\q\\n\q, PFID(&rec->lfsr_fid));
	return 0;
}

static int list_fids(void)
{
	struct llapi_scan_param sp = { .lfsp_size = sizeof(sp),
				       .lfsp_search = search };
	int rc;

	rc = llapi_scan_device(device, &sp, fid_cb, NULL);
	if (rc < 0)
		fprintf(stderr, \q%s: %s\\n\q, device, strerror(-rc));

	return rc == 0 ? EXIT_SUCCESS : EXIT_FAILURE;
}

")
     (lit ""))
   None;
  FRow tx1019c_TOOL
   (Row "A3-tool-usage160"
     (lit "		\qUsage: %s [-l] [-e <test>] [-o <test>] -d <device>\\n\q
		\q       -d  the target to scan, read-only\\n\q
		\q       -l  list the FID of every object, one per line\\n\q
")
     (lit "		\qUsage: %s [-e <test>] [-o <test>] -d <device>\\n\q
		\q       -d  the target to scan, read-only\\n\q
"))
   None;
  FRow tx1019c_TOOL
   (Row "A3-tool-usage163"
     (lit "		\qUsage: %s [-l] [-e <test>] [-o <test>] [-p <dirs>] -d <device>\\n\q
		\q       -d  the target to scan, read-only\\n\q
		\q       -l  list the FID of every object, one per line\\n\q
")
     (lit "		\qUsage: %s [-e <test>] [-o <test>] [-p <dirs>] -d <device>\\n\q
		\q       -d  the target to scan, read-only\\n\q
"))
   None;
  FRow tx1019c_TOOL
   (Row "A3-tool-main1"
     (lit "	bool list = false;
	int c;
")
     (lit "	int c;
"))
   None;
  FRow tx1019c_TOOL
   (Row "A3-tool-getopt160"
     (lit "\qd:e:lo:\q)")
     (lit "\qd:e:o:\q)"))
   None;
  FRow tx1019c_TOOL
   (Row "A3-tool-getopt163"
     (lit "\qd:e:lo:p:\q)")
     (lit "\qd:e:o:p:\q)"))
   None;
  FRow tx1019c_TOOL
   (Row "A3-tool-main2"
     (lit "		case 'l':
			list = true;
			break;
")
     (lit ""))
   None;
  FRow tx1019c_TOOL
   (Row "A3-tool-main3"
     (lit "	if (list)
		return list_fids();

")
     (lit ""))
   None;
  FRow tx1019c_TMK
   (Row "A3-mk163"
     (lit "# conf-sanity 300 drives this as the oracle for a ZFS target, so it needs the
# ZFS backend, which liblustreapi does not link.")
     (lit "# conf-sanity 300 runs this against a ZFS target, so it needs the ZFS
# backend, which liblustreapi does not link."))
   None
].

Definition tx1019c_PRE160 (a : list string) : bool := negb (str_mem tx1019c_C160 a).

(** Lines 472 to 560. *)
Definition tx1019c_R_5 : list frow := [
  FRow tx1019c_TMK
   (Row "A3-mk-pre"
     (lit "THETESTS += llapi_scan_test llapi_scan_device_test
")
     (lit "THETESTS += llapi_scan_test
"))
   (Some tx1019c_PRE160);
  FRow tx1019c_TMK
   (Row "A3-mk-pre2"
     (lit "llapi_scan_device_test_SOURCES = llapi_scan_device_test.c llapi_test_utils.c \\
				 llapi_test_utils.h
llapi_scan_device_test_LDADD = $(LIBLUSTREAPI) -lpthread
")
     (lit ""))
   (Some tx1019c_PRE160);
  FRow tx1019c_TGI
   (Row "A3-gi-pre"
     (lit "/llapi_scan_device_test
")
     (lit ""))
   (Some tx1019c_PRE160);
  FRow tx1019c_CS
   (Row "A3-300a-locals"
     (lit "	local file_fids=$TMP/$tfile.files
	local find_fids=$TMP/$tfile.find
	local missing
")
     (lit "	local file_fids=$TMP/$tfile.files
	local find_fids=$TMP/$tfile.find
	local lo_fids=$TMP/$tfile.lo
	local missing
"))
   None;
  FRow tx1019c_CS
   (Row "A3-300a-striped"
     (lit "	createmany -o $DIR/$tdir/$tfile- 100 || error \qcreatemany failed\q
	test_mkdir -c 1 -i 0 $DIR/$tdir/subdir || error \qmkdir subdir failed\q
")
     (lit "	createmany -o $DIR/$tdir/$tfile- 100 || error \qcreatemany failed\q
	test_mkdir -c 1 -i 0 $DIR/$tdir/subdir || error \qmkdir subdir failed\q
	# over every OST, so that %LO has more than one FID to list
	$LFS setstripe -c -1 $DIR/$tdir/striped || error \qsetstripe failed\q
"))
   None;
  FRow tx1019c_CS
   (Row "A3-300a-loclient"
     (lit "	$LFS find $DIR/$tdir -type f -printf \q%LF\\n\q | sort > $file_fids
	[[ -s $file_fids ]] || error \qno regular files from the client\q
")
     (lit "	$LFS find $DIR/$tdir -type f -printf \q%LF\\n\q | sort > $file_fids
	[[ -s $file_fids ]] || error \qno regular files from the client\q

	# and each file's OST object FIDs, which the MDT has in its layout;
	# the striped file's are checked against lfs getstripe
	$LFS find $DIR/$tdir -type f -printf \q%LF %LO\\n\q | sort > $lo_fids
	local sfid=$($LFS path2fid $DIR/$tdir/striped | tr -d '[]')
	local ofids=$($LFS getstripe -y $DIR/$tdir/striped |
		      awk '/l_fid:/ { printf \q%s%s\q, s, $2; s = \q,\q }')

	[[ -n \q$ofids\q ]] || error \qno OST objects for $DIR/$tdir/striped\q
	grep -qxF -- \q$sfid [$ofids]\q $lo_fids ||
		error \q%LO of striped is not [$ofids]: $(grep $sfid $lo_fids)\q
"))
   None;
  FRow tx1019c_CS
   (Row "A3-300a-l160"
     (lit "	do_facet mds1 \q$scanner -d $mdt1 -l\q > $scan_fids.raw 2> $scan_err || {
		cat $scan_err
		error \qscanning $mdt1 failed\q
	}
	tr -d '[]' < $scan_fids.raw | sort > $scan_fids
")
     (lit "	do_facet mds1 \q$LFS find --device $mdt1 -printf '%LF\\n'\q \\
		> $scan_fids.raw 2> $scan_err || {
		cat $scan_err
		error \qlfs find --device $mdt1 failed\q
	}
	sort $scan_fids.raw > $scan_fids
"))
   None;
  FRow tx1019c_CS
   (Row "A3-300a-l163"
     (lit "	do_facet mds1 \q$scanner -d $mdt1 ${sdir:+-p $sdir} -l\q \\
		> $scan_fids.raw 2> $scan_err || {
		[[ \q$mds1_FSTYPE\q == zfs ]] && zfs_scan_unbuilt $scan_err &&
			skip \qno zfs scan backend in this build\q
		cat $scan_err
		error \qscanning $mdt1 failed\q
	}
	tr -d '[]' < $scan_fids.raw | sort > $scan_fids
")
     (lit "	do_facet mds1 \q$LFS find --device $mdt1 ${sdir:+--search $sdir} \\
			-printf '%LF\\n'\q > $scan_fids.raw 2> $scan_err || {
		[[ \q$mds1_FSTYPE\q == zfs ]] && zfs_scan_unbuilt $scan_err &&
			skip \qlfs has no zfs scan backend in this build\q
		cat $scan_err
		error \qlfs find --device $mdt1 failed\q
	}
	sort $scan_fids.raw > $scan_fids
"))
   None
].

Definition tx1019c_lo_dev (zfs : bool) : text :=
  let search := if zfs then (lit " ${sdir:+--search $sdir}") else [] in
  py_replace (lit "@SEARCH@") search
    (lit "	echo \qlfs find --type f found all $(wc -l < $file_fids) files\q

	# %LO read off the MDT gives each file the FIDs the client saw
	do_facet mds1 \q$LFS find --device $mdt1@SEARCH@ \\
			--type f -printf '%LF %LO\\n'\q > $lo_fids.raw ||
		error \qlfs find -printf %LO on $mdt1 failed\q
	sort $lo_fids.raw > $lo_fids.dev
	missing=$(comm -23 $lo_fids $lo_fids.dev)
	[[ -z \q$missing\q ]] || {
		echo \q$missing\q | head -20
		error \q%LO differs for $(echo \q$missing\q | wc -l) files\q
	}
").

Definition tx1019c_b_fmt (ANC : list string) : text :=
  if str_mem tx1019c_C288 ANC then lit "%LF %LO" else lit "%LO".

Definition tx1019c_b_setup (ANC : list string) (s : text) : text :=
  (lit "	check_mount || error \qcheck_mount failed\q
	# on ost1 alone, and written: a write gives each object the
	# trusted.fid that names its file, which a precreated one lacks
	mkdir_on_mdt0 $DIR/$tdir || error \qmkdir $tdir failed\q
	$LFS setstripe -i 0 -c 1 $DIR/$tdir || error \qsetstripe $tdir failed\q
	for ((i = 0; i < 20; i++)); do
		echo $i > $DIR/$tdir/$tfile-$i || error \qwrite $tfile-$i failed\q
	done
	# what the scan of ost1 has to give back for each of them
	$LFS find $DIR/$tdir -type f -printf \q") ++
  tx1019c_b_fmt ANC ++
  (lit "\\n\q | sort > $want
	[[ -s $want ]] || error \qno OST object FIDs from the client\q
	# a client sync does not commit the OST
	sync
	do_facet ost1 \qsync; sync\q
	stopall
	stack_trap setupall
").

(** Lines 619 to 648. *)
Definition tx1019c_R_6 : list frow := [
  FRow tx1019c_CS
   (Row "A3-300b-loc160"
     (lit "	local scanner=${SCANNER:-$LUSTRE/tests/llapi_scan_device_test}

	is_mounted $MOUNT || setup_noconfig
")
     (lit "	local scanner=${SCANNER:-$LUSTRE/tests/llapi_scan_device_test}
	local scan_err=$TMP/$tfile.scanerr
	local want=$TMP/$tfile.want
	local missing

	stack_trap \qrm -f $TMP/$tfile.*\q

	is_mounted $MOUNT || setup_noconfig
"))
   None;
  FRow tx1019c_CS
   (Row "A3-300b-loc163"
     (lit "	local scan_err=$TMP/$tfile.scanerr

	stack_trap \qrm -f $TMP/$tfile.*\q

	is_mounted $MOUNT || setup_noconfig
")
     (lit "	local scan_err=$TMP/$tfile.scanerr
	local want=$TMP/$tfile.want
	local missing

	stack_trap \qrm -f $TMP/$tfile.*\q

	is_mounted $MOUNT || setup_noconfig
"))
   None
].

Definition tx1019c_b_check (ANC : list string) (zfs : bool) : text :=
  let what :=
    if str_mem tx1019c_C288 ANC
    then (lit "# lfs find over the same OST: %LF is each object's file, read from
	# its trusted.fid, and %LO the object itself")
    else (lit "# lfs find over the same OST: %LO is each object's own FID") in
  let search := if zfs then (lit " \\
			${odir:+--search $odir}") else [] in
  let skip :=
    if zfs
    then (lit "		[[ \q$ost1_FSTYPE\q == zfs ]] && zfs_scan_unbuilt $scan_err &&
			skip \qlfs has no zfs scan backend in this build\q
")
    else [] in
  (lit "
	") ++ what ++
  (lit "
	do_facet ost1 \q$LFS find --device $(ostdevname 1)") ++ search ++
  (lit " \\
			-printf '") ++ tx1019c_b_fmt ANC ++
  (lit "\\n'\q > $want.raw 2> $scan_err || {
") ++ skip ++
  (lit "		cat $scan_err
		error \qlfs find --device $(ostdevname 1) failed\q
	}
	sort $want.raw > $want.dev
	missing=$(comm -23 $want $want.dev)
	[[ -z \q$missing\q ]] || {
		echo \q$missing\q | head -20
		error \q$(echo \q$missing\q | wc -l) objects not given back\q
	}
}
run_test 300b \qllapi_scan_device reads an OST's data objects\q
").

(** The table [R] as the module leaves it. *)
Definition tx1019c_R : list frow :=
  tx1019c_R_1 ++ tx1019c_R_2 ++ tx1019c_R_3 ++ tx1019c_R_4 ++ tx1019c_R_5 ++ tx1019c_R_6.

Definition tx1019c_R_FN_1 : fnrow :=
  FnRow "A3-300a-lodev" tx1019c_CS
    (lit "	echo \qlfs find --type f found all $(wc -l < $file_fids) files\q
")
    (λ _ s, tx1019c_lo_dev (py_in (lit "zfs_scan_unbuilt") s)).

Definition tx1019c_R_FN_2 : fnrow :=
  FnRow "A3-300b-setup" tx1019c_CS
    (lit "	check_mount || error \qcheck_mount failed\q
	createmany -o $DIR/$tfile- 100 || error \qcreatemany failed\q
	stopall
	stack_trap setupall
")
    tx1019c_b_setup.

Definition tx1019c_R_FN_3 : fnrow :=
  FnRow "A3-300b-check160" tx1019c_CS
    (lit "		error \qllapi_scan_device_test on $(ostdevname 1) failed\q
}
run_test 300b \qllapi_scan_device reads an OST's data objects\q
")
    (λ ANC _, (lit "		error \qllapi_scan_device_test on $(ostdevname 1) failed\q
") ++ tx1019c_b_check ANC false).

Definition tx1019c_R_FN_4 : fnrow :=
  FnRow "A3-300b-check163" tx1019c_CS
    (lit "		error \qscanning $(ostdevname 1) failed\q
	}
}
run_test 300b \qllapi_scan_device reads an OST's data objects\q
")
    (λ ANC _, (lit "		error \qscanning $(ostdevname 1) failed\q
	}
") ++ tx1019c_b_check ANC true).

Definition tx1019c_R_FN : list fnrow := [tx1019c_R_FN_1; tx1019c_R_FN_2; tx1019c_R_FN_3; tx1019c_R_FN_4].


(** The body of the second loop: the new text is computed from the file. *)
Definition tx1019c_sub_fn (ANC : list string) (path : string) (r : fnrow) (s : text) : outcome :=
  if negb (String.eqb (fn_path r) path) || negb (py_in (fn_old r) s) then keep s
  else if negb (py_count (fn_old r) s =? 1) then Raise (AssertionError (fn_tag r))
  else
    let n := fn_new r ANC s in
    if py_in n s then keep s else substitute (Row (fn_tag r) (fn_old r) n) s.

(** The tree before 68160: no tool, and the test files as the base has them. *)
Definition tx1019c_early (ANC : list string) : bool :=
  str_mem tx1019c_C156 ANC && negb (str_mem tx1019c_C160 ANC).

Definition tx1019c_loops (ANC : list string) (path : string) (s : text)
    : res (text * list string) :=
  let! x := for_rows (at_path ANC path sub_assert_skip) tx1019c_R s [] in
  for_rows (tx1019c_sub_fn ANC path) tx1019c_R_FN x.1 x.2.

Definition tx1019c_fn (ANC : list string) (base : string → res text) (path : string)
    (s : option text) (subj : text) : res (option text * list string) :=
  let loops :=
    match s with
    | None => Ok (None, [])
    | Some s => let! x := tx1019c_loops ANC path s in Ok (Some x.1, x.2)
    end in
  if tx1019c_early ANC then
    if String.eqb path tx1019c_TOOL
    then Ok (None, match s with Some _ => ["A3-tool-rm"] | None => [] end)
    else if str_mem path tx1019c_TU || String.eqb path tx1019c_CS then
      let! b := base path in
      Ok (Some b, if bool_decide (s = Some b) then []
                  else [String.append "A3-base:" (basename path)])
    else loops
  else loops.

Definition tx1019c_M : list row := [
  Row "m156-artem"
    (lit "Classification and size, with fixes by Artem Blagodarenko:
")
    (lit "Classification and size, by Artem Blagodarenko:
");
  Row "m156-tests"
    (lit "run_tests() in lustre/tests/llapi_test_utils.{c,h} is split, so that
run_test_tbl() can take a device instead of a mount point.

conf-sanity test_300a scans the MDT and test_300b the OST, each
checking its server's version. Each fails, not skips, if the scanner is
missing, because that is a broken install; 300b skips a ZFS,
unreachable or older OST rather than passing without scanning it.
")
    (lit "The tests come with lfs find --device, which runs this scan from the
command line.
");
  Row "m159-printf"
    (lit "printf_format_want() decides the %p refusal and what a format needs to
read, so \q-printf %i\q does not read a layout.
")
    (lit "printf_format_want() decides the %p refusal and what a format needs to
read, so \q-printf %i\q does not read a layout.

-printf gains %LO, the FIDs of a file's OST objects: comma-separated,
one list in brackets per component, as %Lo lists their indices. It
works on a walk too, from the same layout, through a new internal
layout_ost_fid_get(); a stripe with no object yet is left out. On an
OST scan %LO prints the data object's own FID. %LF prints nothing for
an OST data object: the FID a user knows is the file's, on the MDT.
sanity 56Ea checks %LO against lfs getstripe -y.
");
  Row "m160-tests"
    (lit "conf-sanity 300 runs lfs find over the scan that it already compares
with a client walk. \q--type f\q must return every regular file that the
client listed, and no directory. Both sides print FIDs with
\q-printf %LF\q, and the temporary files go through stack_trap. The test
also checks --device=VALUE, both ways of naming a target twice, and
that --internal only adds objects. test_300c runs --local with --ost
")
    (lit "conf-sanity test_300a stops the filesystem and compares lfs find
--device on the MDT with a client walk made before: every FID the
client saw must be on the device, \q--type f\q must return every regular
file and no directory, and -printf %LO must give each file the OST
object FIDs that the client saw. Both sides print with -printf, and the
temporary files go through stack_trap. test_300b writes files on ost1,
and a scan of the stopped OST must print each one's object FID with
%LO. Both also run llapi_scan_device_test, for what lfs find does not
show: the scan statistics, thread counts, the pre-filter and bad
arguments. Each fails, not skips, if the scanner is missing, because
that is a broken install. run_tests() in
lustre/tests/llapi_test_utils.{c,h} is split, so that run_test_tbl()
can take a device instead of a mount point. test_300a also checks
--device=VALUE, both ways of naming a target twice, and that
--internal only adds objects. test_300c runs --local with --ost
");
  Row "m288-owner"
    (lit "scan reads it from the LMA buffer that it already has. Measured on an
OST formatted with -I 256: without this, none of 33 objects had an
owner.
")
    (lit "scan reads it from the LMA buffer that it already has. Measured on an
OST formatted with -I 256: without this, none of 33 objects had an
owner.

-printf %LF on an OST data object prints that owner FID, the FID a
user knows, and nothing for an object no file owns yet; %LO still
prints the object's own. lfs-find.1 and llapi_find_device.3 say so,
and conf-sanity 300b checks both against what the client printed
before the OST was stopped.
")
].

Definition tx1019c_msgfn (ANC : list string) (msg subj : text) : res (text * list string) :=
  for_rows (hit_prefix "msg-" msg_new) tx1019c_M msg [].
