(* ===== verification/Tx1017.v ===== *)
(** The rewrite modules of docs/rounds/a-1017, which forktx2.py loads.  Names are prefixed
    with [tx1017_] and the module's.  The modules keep no HITS: all tags are empty. *)
From S2P Require Import Prelude PyStr PyParse TxEngine.

Definition tx1017_156_R : list (string * list row) := [
  ("lustre/utils/libscan_ldiskfs.c", [
    Row ""
      (lit "			 * the bitmap has it.  The bitmap is in another
			 * block, read at open, so it is still good here.
			 * ext2fs_get_next_inode_full() assigns *ino before
			 * it returns any of these three, so all can be
			 * asked here -- unlike the errors above, which
			 * leave it untouched.
")
      (lit "			 * the bitmap has it.  The bitmap is in another
			 * block, read for the first worker, so it is still
			 * good here.  ext2fs_get_next_inode_full() assigns
			 * *ino before it returns any of these three, so all
			 * can be asked here -- unlike the read failure
			 * handled below, which leaves it untouched.
")])
].

Definition tx1017_156_fn (path : string) (s subj : text) : res (text * list string) :=
  for_rows sub_in (dict_rows tx1017_156_R path) s [].

Definition tx1017_158_SUBJ : text :=
  (lit "LU-20611 lfs: share find's predicate parsing").

Definition tx1017_158_R : list (string * list row) := [
  ("lustre/utils/lfs_find_parse.c", [
    Row ""
      (lit "#include \qlstddef.h\q
#include \qlustreapi_internal.h\q
")
      (lit "#include \qlstddef.h\q
")]);
  ("lustre/utils/lfs_find_parse.h", [
    Row ""
      (lit " * caller handing over a zeroed structure walks the top directory only and
 * dates it differently.  This sets those two, carries fp_min_depth and
 * fp_quiet as lfs_find() set them, and zeroes the rest, so a second front
 * end copies a call rather than an initialiser.
")
      (lit " * caller handing over a zeroed structure walks the top directory only and
 * compares \q-mtime +1y\q without its margin.  This sets fp_max_depth = -1
 * (no limit), fp_time_margin = FP_DEFAULT_TIME_MARGIN and fp_quiet = 1,
 * and zeroes the rest, so a second front end copies a call rather than an
 * initialiser.
")])
].

Definition tx1017_158_MSG : list row := [
  Row ""
    (lit "lfs_find_parse_init() prepares the structure. It sets fp_max_depth and
fp_time_margin, which must not be 0, keeps fp_min_depth and fp_quiet
as lfs_find() set them, and zeroes the rest. lfs_find_parse_fini()
frees the four find_param fields that a parse can allocate.")
    (lit "lfs_find_parse_init() prepares the structure. It sets fp_max_depth and
fp_time_margin, which must not be 0, sets fp_quiet, and zeroes the
rest. lfs_find_parse_fini() frees the four find_param fields that a
parse can allocate.")
].

Definition tx1017_158_fn (path : string) (s subj : text) : res (text * list string) :=
  if String.eqb path "lustre/utils/lfs_find_parse.c" && py_in (lit "llapi_name_verify") s then Ok (s, [])
  else for_rows sub_in (dict_rows tx1017_158_R path) s [].

Definition tx1017_158_msgfn (msg subj : text) : res (text * list string) :=
  if bool_decide (subj = tx1017_158_SUBJ) then for_rows msg_assert tx1017_158_MSG msg [] else Ok (msg, []).

Definition tx1017_159msg_SUBJ : text :=
  (lit "LU-20611 llapi: run find over a device scan").

Definition tx1017_159msg_MSG : list row := [
  Row ""
    (lit "it would otherwise be decided on a stx_size the scan never reported.
The fix is Artem Blagodarenko's.

Fixes: 6b8e97b76c47 (\qLU-10378 utils: add formatted printf to lfs find\q)
Fixes: 186b97e68abb (\qLU-11971 utils: Send file creation time to clients\q)

")
    (lit "it would otherwise be decided on a stx_size the scan never reported.

");
  Row ""
    (lit "llapi_find_device() clears lfsp_got.  scan_param_copyin() copies the
caller's block whole, so the caller's pointer came through and was
answered with find's own demand mask -- a mask for a question the
caller never asked.

Signed-off-by:")
    (lit "llapi_find_device() leaves lfsp_got zero: filled, it would report
find's own demand mask, not the caller's.

Fixes: 6b8e97b76c47 (\qLU-10378 utils: add formatted printf to lfs find\q)
Fixes: 186b97e68abb (\qLU-11971 utils: Send file creation time to clients\q)
Signed-off-by:")
].

Definition tx1017_159msg_msgfn (msg subj : text) : res (text * list string) :=
  if bool_decide (subj = tx1017_159msg_SUBJ) then for_rows msg_assert tx1017_159msg_MSG msg [] else Ok (msg, []).

Definition tx1017_159msg_fn (path : string) (s subj : text) : res (text * list string) :=
  Ok (s, []).

Definition tx1017_163man_R : list (string * list row) := [
  ("Documentation/man3/llapi_scan_device.3", [
    Row ""
      (lit "also the answer when the pool was not found and some device under the
search path could not be read.
")
      (lit "also the answer when the pool was not found, some device under the
search path could not be read, and the caller is not root.
")])
].

Definition tx1017_163man_fn (path : string) (s subj : text) : res (text * list string) :=
  for_rows sub_in (dict_rows tx1017_163man_R path) s [].

Definition tx1017_288_MAN : string :=
  "Documentation/man3/llapi_find_device.3".

Definition tx1017_288_R : list (string * list row) := [
  (tx1017_288_MAN, [
    Row ""
      (lit ".B LLAPI_SCAN_F_INTERNAL
reaches those, so a default search prints the first form and nothing else.
Every record carries one or the other: the scan sets the object id on all
of them, so the second form always applies where the first does not.
")
      (lit ".B LLAPI_SCAN_F_INTERNAL
reaches those, so a default search prints the first form and nothing else.
Every record carries one or the other: the scan sets the object id on all
of them, so the second form always applies where the first does not.
.I fp_paths
or
.I fp_fid2path_mnt
replaces both with a pathname: a match is then printed by name, or counted
as nameless and not printed (see NOTES).
")]);
  ("lustre/utils/liblustreapi_pfind.c", [
    Row ""
      (lit "	/* a directory the map lacks leaves everything below it nameless */
	if (rc == 0 && pre_skipped != 0)
		llapi_error(LLAPI_MSG_WARN | LLAPI_MSG_NO_ERRNO, 0,
			    \q%s: %llu objects were skipped while mapping directories: pathnames below them may be missing\q,
")
      (lit "	/*
	 * A directory the map lacks leaves everything below it nameless.  An
	 * object it could not read has no known type, so it may not be one.
	 */
	if (rc == 0 && pre_skipped != 0)
		llapi_error(LLAPI_MSG_WARN | LLAPI_MSG_NO_ERRNO, 0,
			    \q%s: %llu objects could not be read while mapping directories: any that were directories leave the pathnames below them missing\q,
")])
].

Definition tx1017_288_fn (path : string) (s subj : text) : res (text * list string) :=
  if String.eqb path tx1017_288_MAN && negb (py_in (lit "fp_fid2path_mnt") s) then Ok (s, [])
  else for_rows sub_in (dict_rows tx1017_288_R path) s [].

Definition tx1017_300a_skip_R : list (string * list row) := [
  ("lustre/tests/conf-sanity.sh", [
    Row ""
      (lit "			error \qlfs find --target $mdt1svc read an imported pool\q
		zfs_scan_unbuilt $scan_err &&
			skip \qlfs has no zfs scan backend in this build\q
		if ! grep -q \qin use: pool imported\q $scan_err; then
			cat $scan_err
			error \q--target $mdt1svc was not refused as in use\q
		fi
")
      (lit "			error \qlfs find --target $mdt1svc read an imported pool\q
		# no backend in lfs: the scanner half below still runs
		if zfs_scan_unbuilt $scan_err; then
			echo \qlfs has no zfs scan backend in this build\q
		elif ! grep -q \qin use: pool imported\q $scan_err; then
			cat $scan_err
			error \q--target $mdt1svc was not refused as in use\q
		fi
")])
].

Definition tx1017_300a_skip_fn (path : string) (s subj : text) : res (text * list string) :=
  for_rows sub_in (dict_rows tx1017_300a_skip_R path) s [].

(** The file 300c.old. *)
Definition tx1017_300c_split_OLD : text :=
  (lit "test_300c() {
	# ldiskfs only: a ZFS pool in use is refused
	[[ \q$mds1_FSTYPE\q == ldiskfs && \q$ost1_FSTYPE\q == ldiskfs ]] ||
		skip \qldiskfs only test\q
	remote_mds_nodsh && skip \qremote MDS with nodsh\q
	(( MDS1_VERSION >= $(version_code 2.17.58) )) ||
		skip \qNeed MDS >= 2.17.58 for lfs find --local\q
	[[ $(facet_active_host mds1) == $(facet_active_host ost1) ]] ||
		skip \qmds1 and ost1 are not on one node\q

	local scan_err=$TMP/$tfile.scanerr

	stack_trap \qrm -f $scan_err\q
	is_mounted $MOUNT || setup_noconfig
	check_mount || error \qcheck_mount failed\q
	createmany -o $DIR/$tfile- 10 || error \qcreatemany failed\q

	# a --local sweep with --ost or --mdt reads only targets of that type,
	# so where one node serves both it skips the other type
	local ostsvc=$(facet_svc ost1)
	local mdtsvc=$(facet_svc mds1)

	do_facet mds1 \q$LFS find --local --ost $ostsvc --type f\q \\
		> /dev/null 2> $scan_err || {
		cat $scan_err
		error \qlfs find --local --ost $ostsvc failed\q
	}
	# the naming line is only printed when more than one target
	# was swept, so assert the right one was read as well as that
	# the wrong one was not -- otherwise an empty $scan_err
	# passes both greps while checking nothing
	grep -q -- \q-OST\q $scan_err || {
		cat $scan_err
		error \qlfs find --local --ost $ostsvc did not read the OST\q
	}
	grep -q -- \q-MDT\q $scan_err && {
		cat $scan_err
		error \qlfs find --local --ost $ostsvc read an MDT\q
	}
	do_facet mds1 \q$LFS find --local --mdt $mdtsvc --type f\q \\
		> /dev/null 2> $scan_err || {
		cat $scan_err
		error \qlfs find --local --mdt $mdtsvc failed\q
	}
	grep -q -- \q-MDT\q $scan_err || {
		cat $scan_err
		error \qlfs find --local --mdt $mdtsvc did not read the MDT\q
	}
	if grep -q -- \q-OST\q $scan_err; then
		cat $scan_err
		error \qlfs find --local --mdt $mdtsvc read an OST\q
	fi
}
run_test 300c \qlfs find --local --ost or --mdt reads only that type\q
").

(** The file 300c.new. *)
Definition tx1017_300c_split_NEW : text :=
  (lit "test_300c() {
	# ldiskfs only: a ZFS pool in use is refused
	[[ \q$mds1_FSTYPE\q == ldiskfs && \q$ost1_FSTYPE\q == ldiskfs ]] ||
		skip \qldiskfs only test\q
	remote_mds_nodsh && skip \qremote MDS with nodsh\q
	(( MDS1_VERSION >= $(version_code 2.17.58) )) ||
		skip \qNeed MDS >= 2.17.58 for lfs find --local\q

	local scan_err=$TMP/$tfile.scanerr
	local scan_out=$TMP/$tfile.scanout

	stack_trap \qrm -f $scan_err $scan_out\q
	is_mounted $MOUNT || setup_noconfig
	check_mount || error \qcheck_mount failed\q
	# on mds1 and ost1, so both sweeps below have something to find
	mkdir_on_mdt0 $DIR/$tdir || error \qmkdir $tdir failed\q
	$LFS setstripe -i 0 -c 1 $DIR/$tdir || error \qsetstripe $tdir failed\q
	createmany -o $DIR/$tdir/$tfile- 10 || error \qcreatemany failed\q

	local ostsvc=$(facet_svc ost1)
	local mdtsvc=$(facet_svc mds1)

	# a --local sweep of mounted targets, each on its own node
	do_facet ost1 \q$LFS find --local --ost $ostsvc --type f\q \\
		> $scan_out 2> $scan_err || {
		cat $scan_err
		error \qlfs find --local --ost $ostsvc failed on ost1\q
	}
	[[ -s $scan_out ]] ||
		error \qlfs find --local --ost $ostsvc found nothing\q
	do_facet mds1 \q$LFS find --local --mdt $mdtsvc --type f\q \\
		> $scan_out 2> $scan_err || {
		cat $scan_err
		error \qlfs find --local --mdt $mdtsvc failed on mds1\q
	}
	[[ -s $scan_out ]] ||
		error \qlfs find --local --mdt $mdtsvc found nothing\q

	# and where one node serves both, --ost or --mdt skips the other type
	[[ $(facet_active_host mds1) == $(facet_active_host ost1) ]] || {
		echo \qmds1 and ost1 are not on one node: no cross-type check\q
		return 0
	}

	do_facet mds1 \q$LFS find --local --ost $ostsvc --type f\q \\
		> /dev/null 2> $scan_err || {
		cat $scan_err
		error \qlfs find --local --ost $ostsvc failed\q
	}
	# the naming line is only printed when more than one target
	# was swept, so assert the right one was read as well as that
	# the wrong one was not -- otherwise an empty $scan_err
	# passes both greps while checking nothing
	grep -q -- \q-OST\q $scan_err || {
		cat $scan_err
		error \qlfs find --local --ost $ostsvc did not read the OST\q
	}
	grep -q -- \q-MDT\q $scan_err && {
		cat $scan_err
		error \qlfs find --local --ost $ostsvc read an MDT\q
	}
	do_facet mds1 \q$LFS find --local --mdt $mdtsvc --type f\q \\
		> /dev/null 2> $scan_err || {
		cat $scan_err
		error \qlfs find --local --mdt $mdtsvc failed\q
	}
	grep -q -- \q-MDT\q $scan_err || {
		cat $scan_err
		error \qlfs find --local --mdt $mdtsvc did not read the MDT\q
	}
	if grep -q -- \q-OST\q $scan_err; then
		cat $scan_err
		error \qlfs find --local --mdt $mdtsvc read an OST\q
	fi
}
run_test 300c \qlfs find --local --ost or --mdt reads only that type\q
").

Definition tx1017_300c_split_fn (path : string) (s subj : text) : res (text * list string) :=
  if String.eqb path "lustre/tests/conf-sanity.sh" then for_rows sub_in [Row "" tx1017_300c_split_OLD tx1017_300c_split_NEW] s [] else Ok (s, []).

Definition tx1017_415_416_417_H : string :=
  "include/lustre/lustreapi.h".

Definition tx1017_415_416_417_CLASS : text :=
  (lit "#define LLAPI_SCAN_CLASS	0x0000400000000000ULL	/* lfsr_class */
").

Definition tx1017_415_416_417_EVENT : text :=
  (lit "#define LLAPI_SCAN_EVENT	0x0002000000000000ULL").

Definition tx1017_415_416_417_SHARD : text :=
  (lit "#define LLAPI_SCAN_LMV_SHARD	0x0000800000000000ULL").

Definition tx1017_415_416_417_OWNER : text :=
  (lit "#define LLAPI_SCAN_OWNER	0x0001000000000000ULL").

Definition tx1017_415_416_417_ALWAYS : list (string * list row) := [
  (tx1017_415_416_417_H, [
    Row ""
      (lit " * event is about unless LLAPI_SCAN_CL_F_COALESCE is set).  Return 0 to
 * continue the scan;
 * any other value stops it and is returned to the caller of
 * llapi_scan_namespace(), llapi_scan_device() or llapi_scan_changelog().
")
      (lit " * event is about unless LLAPI_SCAN_CL_F_COALESCE is set).  Return 0 to
 * continue the scan; any other value stops it and is returned to the caller
 * of llapi_scan_namespace(), llapi_scan_device() or llapi_scan_changelog().
");
    Row ""
      (lit " * event is about unless LLAPI_SCAN_CL_F_COALESCE is set).  Return 0 to
 * continue the scan;
 * any other value stops it and is returned to the caller of
 * llapi_scan_namespace(), llapi_scan_device(), llapi_scan_changelog() or
 * llapi_scan_fid().
")
      (lit " * event is about unless LLAPI_SCAN_CL_F_COALESCE is set).  Return 0 to
 * continue the scan; any other value stops it and is returned to the caller
 * of llapi_scan_namespace(), llapi_scan_device(), llapi_scan_changelog() or
 * llapi_scan_fid().
");
    Row ""
      (lit "int llapi_scan_changelog(const struct llapi_scan_changelog_param *sc,
			 llapi_scan_cb_t cb, void *data);


")
      (lit "int llapi_scan_changelog(const struct llapi_scan_changelog_param *sc,
			 llapi_scan_cb_t cb, void *data);

")]);
  ("lustre/tests/sanity.sh", [
    Row ""
      (lit "	# test9 filters on the server, with a key the MDS has only from
	# 2.17.0 (LU-19296); a clear in test6 purges the log only when no
	# other changelog user holds it back.  Either skips that case alone.
")
      (lit "	# test9 asks the MDS for the user's mask, with a key the MDS has
	# only from 2.17.0 (LU-19296); a clear in test6 purges the log only
	# when no other changelog user holds it back.  Either skips that
	# case alone.
")])
].

Definition tx1017_415_416_417_BELOW : list (string * list row) := [
  ("lustre/utils/liblustreapi_scan_changelog.c", [
    Row ""
      (lit " * layout, an LMV, HSM state, a linkea, an inode number, a class and an OST
 * object's owner are never filled at any setting, and lfsc_got is what says
 * so before the first record rather than leaving a caller to infer it.
")
      (lit " * layout, an LMV, HSM state, a linkea, an inode number and a class are
 * never filled at any setting, and lfsc_got is what says so before the
 * first record rather than leaving a caller to infer it.
")]);
  ("Documentation/man3/llapi_scan_changelog.3", [
    Row ""
      (lit "an LMV, HSM state, a linkea, an inode number, a class and an OST object's
owner are never filled at any setting, and
")
      (lit "an LMV, HSM state, a linkea, an inode number and a class are never filled at
any setting, and
")]);
  ("lustre/utils/liblustreapi_scan.c", [
    Row ""
      (lit " * A hardlinked object has one pathname per link and the record is gathered
 * at the first, as llapi_scan_rec_path() returns it.  The MDT's order picks
")
      (lit " * A hardlinked object has one pathname per link and the record is gathered
 * at the first one fid2path returns.  The MDT's order picks
");
    Row ""
      (lit " * one that was asked for.  llapi_scan_rec_path() carries the same warning
 * and only formats a name; this one goes on to open and gather, so the
 * caller has more to lose by getting it wrong.
")
      (lit " * one that was asked for.  This call goes on to open and gather what it
 * resolved, so the caller has a lot to lose by getting it wrong.
");
    Row ""
      (lit " * name\q as well as a bad argument, as it does for llapi_scan_rec_path();
")
      (lit " * name\q as well as a bad argument;
");
    Row ""
      (lit "	 * -EBADF and not -EINVAL, as llapi_scan_rec_path() answers for the
	 * same mistake: -EINVAL here also means \qthis FID has no name\q, so a
	 * consumer looping over a changelog with a mount it failed to open
	 * would count every object nameless and exit 0.
")
      (lit "	 * -EBADF and not -EINVAL: -EINVAL here also means \qthis FID has no
	 * name\q, so a consumer looping over a changelog with a mount it
	 * failed to open would count every object nameless and exit 0.
");
    Row ""
      (lit "	 * mnt_path is not optional, as it is for llapi_scan_rec_path(): that
	 * call formats a name for the caller to read, this one opens it.  A
	 * filesystem-root-relative path would name whatever sits at the same
	 * place under / -- nothing, usually, but not always the nothing the
	 * caller would notice.
")
      (lit "	 * mnt_path is not optional: this call opens the name it builds.  A
	 * filesystem-root-relative path would name whatever sits at the same
	 * place under / -- nothing, usually, but not always the nothing the
	 * caller would notice.
")]);
  ("Documentation/man3/llapi_scan_fid.3", [
    Row ""
      (lit "is open on mislabels the answer. That is
where this differs from
.BR llapi_scan_rec_path (3),
which formats a name for the caller to read rather than opening it. A caller
")
      (lit "is open on mislabels the answer. A caller
");
    Row ""
      (lit "the first the MDT lists, as
.BR llapi_scan_rec_path (3)
returns it. The caller does not choose")
      (lit "the first the MDT lists. The caller does not choose");
    Row ""
      (lit "because that one also means \\(lqthis FID has no name\\(rq; see
.BR llapi_scan_rec_path (3),
which answers the same way.
")
      (lit "because that one also means \\(lqthis FID has no name\\(rq.
");
    Row ""
      (lit ".I this object has no name
as well as a bad argument, as
.BR llapi_scan_rec_path (3)
documents.
")
      (lit ".I this object has no name
as well as a bad argument.
");
    Row ""
      (lit ".BR llapi_scan_namespace (3),
.BR llapi_scan_rec_path (3),
.BR lustreapi (7)
")
      (lit ".BR llapi_scan_namespace (3),
.BR lustreapi (7)
")])
].

Definition tx1017_415_416_417_SUBJ417 : text :=
  (lit "LU-20650 lfs: add find --since, from the changelog").

Definition tx1017_415_416_417_MSG417 : row :=
  
  Row ""
    (lit "test means.  Its locals stay separate from the assignments that fill
them, and it sorts off the pipeline rather than in it:
")
    (lit "test means.  The locals that take an lfs find's output are declared
apart from the assignment, and it sorts off the pipeline rather than in
it:
").

Definition tx1017_415_416_417__apply (table : list (string * list row)) (path : string) (s : text) : res (text * list string) :=
  for_rows sub_in (dict_rows table path) s [].

(** The bits that are still a gap, as the comment names them. *)
Definition tx1017_415_416_417_gap (s : text) : list text :=
  (if py_in tx1017_415_416_417_SHARD s then [] else [lit "0x0000800000000000 LU-20611"]) ++
  (if py_in tx1017_415_416_417_OWNER s then [] else [lit "0x0001000000000000 LU-20637"]).

Definition tx1017_415_416_417_reserve (s : text) : text :=
  match tx1017_415_416_417_gap s with
  | [] => s
  | gap => py_replace tx1017_415_416_417_CLASS (tx1017_415_416_417_CLASS ++ lit "/* reserved: " ++ py_join (lit ", ") gap ++ lit " */
") s
  end.

Definition tx1017_415_416_417_fn (has : bool) (path : string) (s subj : text) : res (text * list string) :=
  let! x := tx1017_415_416_417__apply tx1017_415_416_417_ALWAYS path s in
  let! y := if has then Ok x else tx1017_415_416_417__apply tx1017_415_416_417_BELOW path x.1 in
  if String.eqb path tx1017_415_416_417_H && py_in tx1017_415_416_417_EVENT y.1 then Ok (tx1017_415_416_417_reserve y.1, []) else Ok (y.1, []).

Definition tx1017_415_416_417_msgfn (msg subj : text) : res (text * list string) :=
  if bool_decide (subj = tx1017_415_416_417_SUBJ417) then for_rows msg_assert [tx1017_415_416_417_MSG417] msg [] else Ok (msg, []).

Definition tx1017_501msg_SUBJ : text :=
  (lit "LU-20650 llapi: pass FID and nlink to llapi_scan_fid() filter").

Definition tx1017_501msg_O : text :=
  (lit "mask no gather runs, so it carries none. llapi_scan_test 17 checks
both.

").

Definition tx1017_501msg_N : text :=
  (lit "mask no gather runs, so it carries none. llapi_scan_test 17 checks
both.

find_since_hardlinked() in liblustreapi_pfind.c takes a directory's
type from STATX_TYPE as well as STATX_MODE. Today's caller only sees
gathered records, which carry STATX_MODE; a filter given only the
type needs the other.

").

Definition tx1017_501msg_msgfn (msg subj : text) : res (text * list string) :=
  if bool_decide (subj = tx1017_501msg_SUBJ) then for_rows msg_assert [Row "" tx1017_501msg_O tx1017_501msg_N] msg [] else Ok (msg, []).

Definition tx1017_501msg_fn (path : string) (s subj : text) : res (text * list string) :=
  Ok (s, []).

Definition tx1017_502_SUBJ : text :=
  (lit "LU-20650 lfs: find --since, pick before the gather").

Definition tx1017_502_R : list (string * list row) := [
  ("lustre/utils/liblustreapi_pfind.c", [
    Row ""
      (lit "	sp.lfsp_want = st->fss_want;

	st->fss_cb_called = false;
	sp.lfsp_filter = find_since_pre_cb;
	st->fss_matched = false;
")
      (lit "	sp.lfsp_want = st->fss_want;
	/* tests the live name: not for a source whose -name tests the
	 * name its record carried, such as --changelog
	 */
	sp.lfsp_filter = find_since_pre_cb;

	st->fss_cb_called = false;
	st->fss_matched = false;
")])
].

Definition tx1017_502_MSG : list row := [
  Row ""
    (lit "LU-20650 lfs: find --since, pick before the gather
")
    (lit "LU-20650 lfs: filter find --since candidates before the gather
");
  Row ""
    (lit "
--changelog must not take this filter when it meets this change: -name
there tests the name the record carried, not the live one.
")
    (lit "")
].

Definition tx1017_502_fn (path : string) (s subj : text) : res (text * list string) :=
  for_rows sub_in (dict_rows tx1017_502_R path) s [].

(** [assert o in msg; msg = msg.replace(o, n, 1)] *)
Definition msg_assert_first (r : row) (s : text) : outcome :=
  if py_in (r_old r) s then Ok (py_replace_n (r_old r) (r_new r) s 1, Some (r_tag r))
  else Raise (AssertionError (r_tag r)).

Definition tx1017_502_msgfn (msg subj : text) : res (text * list string) :=
  if bool_decide (subj = tx1017_502_SUBJ) then for_rows msg_assert_first tx1017_502_MSG msg [] else Ok (msg, []).

Definition tx1017_726race_R : list (string * list row) := [
  ("lustre/tests/llapi_scan_test.c", [
    Row ""
      (lit "	pthread_join(th, NULL);
	ASSERTF(rc >= 0, \qthe slow scan's third batch failed: %d\q, rc);

	if (between(&br.br_when, &t0, &t1))
")
      (lit "	pthread_join(th, NULL);
	/* the helper got in first: the guard refused this thread instead */
	if (rc == -EBUSY && br.br_rc >= 0)
		printf(\q      (the second call won the race; refused here)\\n\q);
	else if (rc < 0)
		DIE(\qthe slow scan's third batch failed: %d\q, rc);
	else if (between(&br.br_when, &t0, &t1))
")])
].

Definition tx1017_726race_fn (path : string) (s subj : text) : res (text * list string) :=
  for_rows sub_in (dict_rows tx1017_726race_R path) s [].

Definition tx1017_lrv_INIT : text :=
  (lit "	} big = { .sp = { .lfsp_size = sizeof(big) } };
").

(** What [union_fix] puts for the initialiser, and after the declarations. *)
Definition tx1017_lrv_big : text := lit "	} big;
".
Definition tx1017_lrv_memset : text := lit "
	/* all of it: an initialiser need not zero buf's tail */
	memset(&big, 0, sizeof(big));
	big.sp.lfsp_size = sizeof(big);".

(** One turn of the loop. *)
Definition tx1017_lrv_union_step (s : text) : res text :=
  let! i := py_index tx1017_lrv_INIT s in
  let s := take i s ++ tx1017_lrv_big ++ drop (i + length tx1017_lrv_INIT) s in
  let! k := py_index_from [nl; nl] s i in
  let j := k + 1 in
  Ok (take j s ++ tx1017_lrv_memset ++ drop j s).

(** [while INIT in s]; [None]: the loop is still running after [fuel] turns. *)
Fixpoint tx1017_lrv_union_loop (fuel : nat) (s : text) : option (res text) :=
  if py_in tx1017_lrv_INIT s then
    match fuel with
    | 0 => None
    | S fuel' =>
        match tx1017_lrv_union_step s with
        | Raise e => Some (Raise e)
        | Ok t => tx1017_lrv_union_loop fuel' t
        end
    end
  else Some (Ok s).

(** The loop runs once for each initialiser. *)
Definition tx1017_lrv_union_fix (s : text) : res text :=
  match tx1017_lrv_union_loop (length s) s with
  | Some x => x
  | None => Raise (RuntimeError "")
  end.

Definition tx1017_lrv_R : list (string * list row) := [
  ("lustre/utils/liblustreapi_pfind.c", [
    Row ""
      (lit "			if (path != NULL)
				llapi_error(LLAPI_MSG_ERROR, -errno,
					    \qerror: cannot get last initialized component\\n\q);")
      (lit "			if (path != NULL)
				llapi_error(LLAPI_MSG_ERROR, err,
					    \qerror: cannot get last initialized component\\n\q);")]);
  ("lustre/utils/lfs_find_parse.h", [
    Row ""
      (lit " * caller handing over a zeroed structure walks the top directory only and
 * compares \q-mtime +1y\q without its margin.  This sets fp_max_depth = -1
 * (no limit), fp_time_margin = FP_DEFAULT_TIME_MARGIN and fp_quiet = 1,
 * and zeroes the rest, so a second front end copies a call rather than an
 * initialiser.
")
      (lit " * caller handing over a zeroed structure walks the top directory only and
 * gives \q-mtime +1y\q a year's margin rather than the default.  This sets
 * fp_max_depth = -1 (no limit), fp_time_margin = FP_DEFAULT_TIME_MARGIN
 * and fp_quiet = 1, and zeroes the rest, so a second front end copies a
 * call rather than an initialiser.
")]);
  ("Documentation/man3/llapi_find_device.3", [
    Row ""
      (lit "as it does for a scan.  Four of its fields are the search's to decide and
are overwritten whatever the caller set:
.IR lfsp_want ,
.IR lfsp_thread_count ,
.I lfsp_filter
and
.IR lfsp_got .
")
      (lit "as it does for a scan.  Three of its fields are the search's to decide and
are overwritten whatever the caller set:
.IR lfsp_want ,
.I lfsp_thread_count
and
.IR lfsp_filter .
")]);
  ("Documentation/man3/llapi_scan_fid.3", [
    Row ""
      (lit "The FID lookup is paid either way: a small buffer and one request to the
MDT per call.
")
      (lit "The FID lookup is paid either way: a small buffer and one request to the
MDT per call.
The opens are MDS opens, so with OPEN in the changelog mask each one is
logged: a consumer resolving its own changelog through this call reads
back the records its resolution wrote.
")])
].

Definition tx1017_lrv_MSG : list (text * list row) := [
  ((lit "LU-20611 lfs: share find's predicate parsing"), [
    Row ""
      (lit "callvpe.c. Nothing is exported from the library and no ABI changes.
")
      (lit "callvpe.c. Nothing is exported from the library and no ABI changes.
A second front end, lfs find over a target (LU-20611), parses the same
options.
");
    Row ""
      (lit "The helpers move unchanged, except that the continuation line of the
set_time() prototype is re-indented. The loop moves with only these
differences:")
      (lit "The helpers move unchanged, except that the continuation line of the
set_time() prototype is re-indented, the ones lfs.c still calls lose
static, and xattr_match_info_append() and xattr_match_info_free()
become static. The loop moves with only these differences:")]);
  ((lit "LU-20611 llapi: run find over a device scan"), [
    Row ""
      (lit "llapi_find_device() leaves lfsp_got zero: filled, it would report
find's own demand mask, not the caller's.
")
      (lit "llapi_find_device() leaves the caller's lfsp_got untouched: written,
it would report find's own demand mask, not the caller's.
")]);
  ((lit "LU-20611 lfs: find over a target, with --device"), [
    Row ""
      (lit "test_300c runs --local with --ost
and with --mdt while the targets are mounted, and checks that each
reads only targets of that type; it skips unless mds1 and ost1 are one
ldiskfs node.
")
      (lit "test_300c runs --local with --ost
on ost1's node and with --mdt on mds1's while the targets are mounted,
and checks that each finds objects. Where mds1 and ost1 are one
ldiskfs node it also checks that each reads only targets of its type.
")])
].

Definition tx1017_lrv_fn (path : string) (s subj : text) : res (text * list string) :=
  let! s := if str_mem path ["lustre/tests/llapi_scan_test.c"; "lustre/tests/llapi_scan_device_test.c"]
            then tx1017_lrv_union_fix s else Ok s in
  for_rows sub_in (dict_rows tx1017_lrv_R path) s [].

Definition tx1017_lrv_msgfn (msg subj : text) : res (text * list string) :=
  for_rows msg_assert (dict_rows tx1017_lrv_MSG subj) msg [].

Definition tx1017_shardwiden_R : list (string * list row) := [
  ("lustre/utils/lustreapi_internal.h", [
    Row ""
      (lit "/* LMV_FOREIGN and LMV_SHARD are read from trusted.lmv, so both need LMV */
static inline __u64 scan_want_widen(__u64 want)
{
	if (want & (LLAPI_SCAN_LMV_FOREIGN | LLAPI_SCAN_LMV_SHARD))
")
      (lit "/*
 * LLAPI_SCAN_LMV_FOREIGN describes lfsr_lmv, so asking for it asks for that.
 * LLAPI_SCAN_LMV_SHARD does not: a shard has no lfsr_lmv, and the device
 * scanner reads trusted.lmv for it without LLAPI_SCAN_LMV.
 */
static inline __u64 scan_want_widen(__u64 want)
{
	if (want & LLAPI_SCAN_LMV_FOREIGN)
")])
].

Definition tx1017_shardwiden_fn (path : string) (s subj : text) : res (text * list string) :=
  for_rows sub_in (dict_rows tx1017_shardwiden_R path) s [].
