(* ===== verification/Tx1018.v ===== *)
(** The rewrite modules of docs/rounds/a-1018, tx_156.py to tx_419.py, which forktx3.py
    loads.  Names are prefixed with [tx1018_] and the module's.  A module that keeps no
    HITS has empty tags. *)
From S2P Require Import Prelude PyStr TxEngine.

Definition tx1018_156_LD : string :=
  "lustre/utils/libscan_ldiskfs.c".

Definition tx1018_156_SD : string :=
  "lustre/utils/liblustreapi_scan_device.c".

Definition tx1018_156_MAN : string :=
  "Documentation/man3/llapi_scan_device.3".

(** Lines 11 to 107. *)
Definition tx1018_156_R_LD_1 : list row := [
  Row ""
    (lit "static void scan_ea_fetch(struct scan_ldiskfs_worker *wk,
			  struct ext2_xattr_handle *h, enum llapi_scan_xattr x,
			  struct llapi_scan_obj *obj)
{
	void *val = NULL;
	size_t len = 0;

	if (wk->sw_nbufs == SCAN_EA_BUFS)
		return;
	if (ext2fs_xattr_get(h, scan_xattr_name[x], &val, &len) != 0 ||
	    val == NULL)
		return;

	wk->sw_bufs[wk->sw_nbufs++] = val;
	obj->so_xattr[x].sv_buf = val;
	obj->so_xattr[x].sv_len = len;
	obj->so_xa_valid |= LLAPI_SCAN_XA_BIT(x);
}

static void scan_ea_fetch_set(struct scan_ldiskfs_worker *wk,
			      struct ext2_xattr_handle *h, __u32 want,
			      struct llapi_scan_obj *obj)
{
	int x;

	for (x = 0; x < LLAPI_SCAN_XA_MAX; x++) {
		if (want & LLAPI_SCAN_XA_BIT(x))
			scan_ea_fetch(wk, h, x, obj);
	}
}
")
    (lit "static int scan_ea_fetch(struct scan_ldiskfs_worker *wk,
			 struct ext2_xattr_handle *h, enum llapi_scan_xattr x,
			 struct llapi_scan_obj *obj)
{
	void *val = NULL;
	size_t len = 0;
	errcode_t err;

	if (wk->sw_nbufs == SCAN_EA_BUFS)
		return 0;
	err = ext2fs_xattr_get(h, scan_xattr_name[x], &val, &len);
	/* absent is normal; any other error leaves the object unread */
	if (err == EXT2_ET_EA_KEY_NOT_FOUND)
		return 0;
	if (err != 0)
		return -1;
	if (val == NULL)
		return 0;

	wk->sw_bufs[wk->sw_nbufs++] = val;
	obj->so_xattr[x].sv_buf = val;
	obj->so_xattr[x].sv_len = len;
	obj->so_xa_valid |= LLAPI_SCAN_XA_BIT(x);

	return 0;
}

static int scan_ea_fetch_set(struct scan_ldiskfs_worker *wk,
			     struct ext2_xattr_handle *h, __u32 want,
			     struct llapi_scan_obj *obj)
{
	int x;

	for (x = 0; x < LLAPI_SCAN_XA_MAX; x++) {
		if ((want & LLAPI_SCAN_XA_BIT(x)) &&
		    scan_ea_fetch(wk, h, x, obj) < 0)
			return -1;
	}

	return 0;
}
");
  Row ""
    (lit "	struct ext2_xattr_handle *h = NULL;

	if (ext2fs_xattrs_open(wk->sw_fs, ino, &h) != 0)
		return -1;
")
    (lit "	struct ext2_xattr_handle *h = NULL;
	int rc;

	if (ext2fs_xattrs_open(wk->sw_fs, ino, &h) != 0)
		return -1;
");
  Row ""
    (lit "	scan_ea_fetch_set(wk, h, want, obj);
	ext2fs_xattrs_close(&h);

	return 0;
}
")
    (lit "	rc = scan_ea_fetch_set(wk, h, want, obj);
	ext2fs_xattrs_close(&h);

	return rc;
}
")
].

(** Lines 108 to 129. *)
Definition tx1018_156_R_SD_1 : list row := [
  Row ""
    (lit " * entries than the buffer holds.  The shard FIDs are not filled.  A foreign
 * LMV larger than this is left out of the record rather than truncated.
 */
#define SCAN_LMV_BUF	(sizeof(struct lmv_user_md) +		\\
			 LMV_MAX_STRIPE_COUNT *			\\
			 sizeof(struct lmv_user_mds_data))
")
    (lit " * entries than the buffer holds.  The shard FIDs are not filled.  It is
 * XATTR_SIZE_MAX, so any foreign LMV an MDT can store fits whole.
 */
#define SCAN_LMV_BUF	XATTR_SIZE_MAX
static_assert(sizeof(struct lmv_user_md) +
	      LMV_MAX_STRIPE_COUNT * sizeof(struct lmv_user_mds_data) <=
	      SCAN_LMV_BUF, \qSCAN_LMV_BUF holds every stripe\q);
");
  Row ""
    (lit "	 * included.  The buffer holds LMV_MAX_STRIPE_COUNT entries, so the
	 * whole shard area the count claims is cleared.
")
    (lit "	 * included.  The buffer holds at least LMV_MAX_STRIPE_COUNT entries, so
	 * the whole shard area the count claims is cleared.
")
].

(** Lines 130 to 143. *)
Definition tx1018_156_R_MAN_1 : list row := [
  Row ""
    (lit ".B LMV_MAGIC_STRIPE
has no user form and is reported as no stripe at all.
")
    (lit ".B LMV_MAGIC_STRIPE
has no user form and is reported as no stripe at all. So is a
.B trusted.lmv
that does not convert, which only a damaged target holds: an unknown magic,
a short value, or more than
.B LMV_MAX_STRIPE_COUNT
stripes. Both come with
.B LLAPI_SCAN_LMV
clear.
")
].

Definition tx1018_156_R : list (string * list row) := [
   (tx1018_156_LD, tx1018_156_R_LD_1);
   (tx1018_156_SD, tx1018_156_R_SD_1);
   (tx1018_156_MAN, tx1018_156_R_MAN_1)
].

Definition tx1018_156_fn (path : string) (s subj : text) : res (text * list string) :=
  for_rows sub_in (dict_rows tx1018_156_R path) s [].

Definition tx1018_156_S156 : text :=
  (lit "LU-20606 llapi: scan an ldiskfs target directly").

Definition tx1018_156_M156 : row :=
  
  Row ""
    (lit "  union of the two structures, so it has the right alignment.
")
    (lit "  union of the two structures, so it has the right alignment. It is
  XATTR_SIZE_MAX bytes, so a foreign LMV of any size an MDT can store
  is delivered whole.
- An xattr that cannot be read, for any reason but its absence, skips
  the object as LLAPI_SCAN_SKIP_XATTR. Taken as absent, a missing
  trusted.link or trusted.lma would misclassify the object, and a
  missing trusted.lov would give a striped file its own size.
").

Definition tx1018_156_msgfn (msg subj : text) : res (text * list string) :=
  if bool_decide (subj = tx1018_156_S156) then for_rows msg_assert [tx1018_156_M156] msg [] else Ok (msg, []).

Definition tx1018_159_PF : string :=
  "lustre/utils/liblustreapi_pfind.c".

Definition tx1018_159_ASK : text :=
  (lit "/* the options only a layout answers; not --projid, which an OST has */
static bool find_asks_layout(const struct find_param *param)
{
	return param->fp_check_pool || param->fp_check_stripe_count ||
	       param->fp_check_stripe_size || param->fp_check_layout ||
	       param->fp_check_comp_count || param->fp_check_comp_end ||
	       param->fp_check_comp_start || param->fp_check_comp_flags ||
	       param->fp_check_mirror_count || param->fp_check_foreign ||
	       param->fp_check_mirror_state || param->fp_check_ext_size;
}

").

Definition tx1018_159_LMM : text :=
  (lit "static bool find_check_lmm_info(struct find_param *param)
{
	return param->fp_check_pool || param->fp_check_stripe_count ||
	       param->fp_check_stripe_size || param->fp_check_layout ||
	       param->fp_check_comp_count || param->fp_check_comp_end ||
	       param->fp_check_comp_start || param->fp_check_comp_flags ||
	       param->fp_check_mirror_count || param->fp_check_foreign ||
	       param->fp_check_mirror_state || param->fp_check_ext_size ||
	       param->fp_check_projid;
}
").

Definition tx1018_159_LMM_NEW : text :=
  (tx1018_159_ASK ++ (lit "static bool find_check_lmm_info(struct find_param *param)
{
	return find_asks_layout(param) || param->fp_check_projid;
}
")).

Definition tx1018_159_DOC : row :=
  
  Row ""
    (lit " * Four fields are the search's to decide and are overwritten whatever the
 * caller set: lfsp_want (the predicates decide it), lfsp_thread_count,
 * lfsp_filter and lfsp_got.  lfsp_filter goes because this
")
    (lit " * Three fields are the search's to decide and are set in its own copy
 * whatever the caller set: lfsp_want (the predicates decide it),
 * lfsp_thread_count and lfsp_filter.  lfsp_got is ignored, and the caller's
 * is left untouched.  lfsp_filter goes because this
").

(** [assert s.index(a) < s.index(b)] *)
Definition assert_before (a b s : text) : res unit :=
  let! i := py_index a s in
  let! j := py_index b s in
  if i <? j then Ok () else Raise (AssertionError "").

(** The function moves up, above the one that now calls it. *)
Definition tx1018_159_move (s : text) : res text :=
  if py_in tx1018_159_ASK s then
    if (py_count tx1018_159_ASK s =? 1) && (py_count tx1018_159_LMM s =? 1) then
      let s := py_replace tx1018_159_ASK [] s in
      let s := py_replace tx1018_159_LMM tx1018_159_LMM_NEW s in
      let! _ := assert_before (lit "static bool find_asks_layout") (lit "static bool find_check_lmm_info") s in
      Ok s
    else Raise (AssertionError "")
  else Ok s.

Definition tx1018_159_fn (path : string) (s subj : text) : res (text * list string) :=
  if negb (String.eqb path tx1018_159_PF) then Ok (s, [])
  else let! s := tx1018_159_move s in for_rows sub_in [tx1018_159_DOC] s [].

Definition tx1018_159_S159 : text :=
  (lit "LU-20611 llapi: run find over a device scan").

Definition tx1018_159_M159 : row :=
  
  Row ""
    (lit "A foreign LMV larger than the search's buffer grows the buffer, as a
walk does, so --foreign and the other LMV checks still see it.
")
    (lit "A foreign LMV larger than the search's buffer grows the buffer, as a
walk does, so --foreign and the other LMV checks still see it. The
device scanner delivers one of up to XATTR_SIZE_MAX, the most an MDT
can store.
").

Definition tx1018_159_msgfn (msg subj : text) : res (text * list string) :=
  if bool_decide (subj = tx1018_159_S159) then for_rows msg_assert [tx1018_159_M159] msg [] else Ok (msg, []).

Definition tx1018_160_163_CS : string :=
  "lustre/tests/conf-sanity.sh".

Definition tx1018_160_163_ZFS : string :=
  "lustre/utils/libscan_zfs.c".

Definition tx1018_160_163_R : list (string * list row) := [
  (tx1018_160_163_CS, [
    Row ""
      (lit "	local svc=$(facet_svc mds1)

	do_facet mds1 \q$LFS find --target $svc --type f\q \\
		> /dev/null 2> $scan_err &&
		error \qlfs find --target $svc answered with $svc stopped\q
	grep -q \qno target '$svc' mounted here\q $scan_err || {
		cat $scan_err
		error \qlfs find --target did not say $svc is not mounted\q
	}
")
      (lit "	do_facet mds1 \q$LFS find --target $mdt1svc --type f\q \\
		> /dev/null 2> $scan_err &&
		error \qlfs find --target $mdt1svc answered with it stopped\q
	grep -q \qno target '$mdt1svc' mounted here\q $scan_err || {
		cat $scan_err
		error \qlfs find --target did not say $mdt1svc is not mounted\q
	}
");
    Row ""
      (lit "	remote_mds_nodsh && skip \qremote MDS with nodsh\q
	(( MDS1_VERSION >= $(version_code 2.17.58) )) ||
		skip \qNeed MDS >= 2.17.58 for lfs find --local\q
")
      (lit "	remote_mds_nodsh && skip \qremote MDS with nodsh\q
	remote_ost_nodsh && skip \qremote OST with nodsh\q
	(( MDS1_VERSION >= $(version_code 2.17.58) )) ||
		skip \qNeed MDS >= 2.17.58 for lfs find --local\q
	(( OST1_VERSION >= $(version_code 2.17.58) )) ||
		skip \qNeed OST >= 2.17.58 for lfs find --local\q
")]);
  (tx1018_160_163_ZFS, [
    Row ""
      (lit "	/* another thread of this process imported it first */
	if (err == EEXIST)
")
      (lit "	/*
	 * Already imported in this process: the dmu_objset_own() that
	 * follows says whether the dataset is in it.
	 */
	if (err == EEXIST)
")])
].

Definition tx1018_160_163_fn (path : string) (s subj : text) : res (text * list string) :=
  for_rows sub_assert (dict_rows tx1018_160_163_R path) s [].

Definition tx1018_288_NSMAN : string :=
  "Documentation/man3/llapi_scan_namespace.3".

Definition tx1018_288_RPMAN : string :=
  "Documentation/man3/llapi_scan_rec_path.3".

Definition tx1018_288_SD : string :=
  "lustre/utils/liblustreapi_scan_device.c".

Definition tx1018_288_IH : string :=
  "lustre/utils/lustreapi_internal.h".

Definition tx1018_288_PF : string :=
  "lustre/utils/liblustreapi_pfind.c".

(** Lines 15 to 25. *)
Definition tx1018_288_R_NSMAN_1 : list row := [
  Row ""
    (lit "looks in to turn a target's name into a device, described on that page. A
namespace scan does not read it, being given a path rather than a target.
")
    (lit "looks in to turn a target's name into a device, described on that page. A
namespace scan does not read it, being given a path rather than a target.
.I lfsp_fsname
is read only by
.BR llapi_scan_device (3),
and is ignored here for the same reason.
")
].

(** Lines 26 to 40. *)
Definition tx1018_288_R_RPMAN_1 : list row := [
  Row ""
    (lit "one belonging to a file created and never written, carry none. Otherwise its
FID resolves to the file that owns it.
")
    (lit "one belonging to a file created and never written, carry none. Otherwise it
is named by
.IR lfsr_owner_fid ,
the file that owns it, which the record carries only with
.B LLAPI_SCAN_OWNER
set in
.IR lfsr_valid :
ask for it in
.I lfsp_want
(or leave that 0). Without it an OST object returns this with no lookup.
")
].

(** Lines 41 to 96. *)
Definition tx1018_288_R_SD_1 : list row := [
  Row ""
    (lit "	/*
	 * lfsp_fsname, not NULL: the check belongs to the scan because only the
	 * scan reads the target's label, and scan_device_run() copies sp in
	 * before it uses anything, so a short struct reads this as NULL.
	 */
	return scan_device_run(device, sp, cb, data,
			       sp != NULL &&
			       sp->lfsp_size >= (__u32)(offsetof(
					struct llapi_scan_param, lfsp_fsname) +
					sizeof(sp->lfsp_fsname)) ?
			       sp->lfsp_fsname : NULL);
}
")
    (lit "	return scan_device_run_prepass(device, sp, cb, data, NULL);
}
");
  Row ""
    (lit " * names as the consumer.  Lifted out of scan_device_run() so a pre-pass can
 * run before the search on the same open and the same workers -- opening a
 * target is not free, and on ZFS it is an import and an export.
")
    (lit " * names as the consumer.  Lifted out of scan_device_run_prepass() so a
 * pre-pass can run before the search on the same open and the same workers:
 * opening a target is not free, and on ZFS it is an import and an export.
");
  Row ""
    (lit " * @want_fsname, when not NULL, is the filesystem the caller is resolving
 * FIDs against; the scan refuses a target belonging to any other.  It is
")
    (lit " * lfsp_fsname, when not NULL, is the filesystem the caller is resolving
 * FIDs against; the scan refuses a target belonging to any other.  It is
");
  Row ""
    (lit "			    llapi_scan_cb_t cb, void *data,
			    const char *want_fsname,
			    const struct scan_prepass *pre)
{
")
    (lit "			    llapi_scan_cb_t cb, void *data,
			    const struct scan_prepass *pre)
{
");
  Row ""
    (lit "	if (want_fsname != NULL) {
		size_t flen = strlen(dev.sd_tgt_info.tt_label);
")
    (lit "	if (spl.lfsp_fsname != NULL) {
		const char *want_fsname = spl.lfsp_fsname;
		size_t flen = strlen(dev.sd_tgt_info.tt_label);
");
  Row ""
    (lit "
/* the same, for the callers with nothing to ask before their own pass */
int scan_device_run(const char *device, const struct llapi_scan_param *sp,
		    llapi_scan_cb_t cb, void *data, const char *want_fsname)
{
	return scan_device_run_prepass(device, sp, cb, data, want_fsname, NULL);
}
")
    (lit "")
].

(** Lines 97 to 115. *)
Definition tx1018_288_R_IH_1 : list row := [
  Row ""
    (lit "/* the scan, plus the fsname a --fid2path mount must match; NULL leaves the
 * target unchecked.  llapi_scan_device() passes lfsp_fsname here.
 */
int scan_device_run(const char *device, const struct llapi_scan_param *sp,
		    llapi_scan_cb_t cb, void *data, const char *want_fsname);
/* the same, running @pre over the target first, on the same open */
int scan_device_run_prepass(const char *device,
			    const struct llapi_scan_param *sp,
			    llapi_scan_cb_t cb, void *data,
			    const char *want_fsname,
			    const struct scan_prepass *pre);
")
    (lit "/* the scan, running @pre (if not NULL) over the target first, on one open */
int scan_device_run_prepass(const char *device,
			    const struct llapi_scan_param *sp,
			    llapi_scan_cb_t cb, void *data,
			    const struct scan_prepass *pre);
")
].

(** Lines 116 to 133. *)
Definition tx1018_288_R_PF_1 : list row := [
  Row ""
    (lit "	/*
	 * mfs is --fid2path's mount; lfsp_fsname is the caller's own answer,
	 * and the only one a --paths run has.  Without the fallback the
	 * -EXDEV this call documents could not fire for that caller.
	 */
	rc = scan_device_run_prepass(target, &spl, find_device_cb, &st,
				     mfs[0] != '\\0' ? mfs : spl.lfsp_fsname,
				     prep);
")
    (lit "	/*
	 * mfs is --fid2path's mount; otherwise lfsp_fsname is the caller's
	 * own answer, and the only one a --paths run has.
	 */
	if (mfs[0] != '\\0')
		spl.lfsp_fsname = mfs;
	rc = scan_device_run_prepass(target, &spl, find_device_cb, &st, prep);
")
].

Definition tx1018_288_R : list (string * list row) := [
   (tx1018_288_NSMAN, tx1018_288_R_NSMAN_1);
   (tx1018_288_RPMAN, tx1018_288_R_RPMAN_1);
   (tx1018_288_SD, tx1018_288_R_SD_1);
   (tx1018_288_IH, tx1018_288_R_IH_1);
   (tx1018_288_PF, tx1018_288_R_PF_1)
].

Definition tx1018_288_S288 : text :=
  (lit "LU-20637 llapi: name a device scan's objects").

Definition tx1018_288_M288 : row :=
  
  Row ""
    (lit "lfsp_fsname gives a public caller the same check. llapi_scan_device()
passes it to the scan, and llapi_scan_rec_path.3 points callers to it.
")
    (lit "lfsp_fsname gives a public caller the same check, and lfs find sets it
from the mount, so the scan reads the name from one place.
llapi_scan_rec_path.3 points callers to it.
").

Definition tx1018_288_fn (has : bool) (path : string) (s subj : text) : res (text * list string) :=
  if negb has then Ok (s, []) else for_rows sub_assert (dict_rows tx1018_288_R path) s [].

Definition tx1018_288_msgfn (msg subj : text) : res (text * list string) :=
  if bool_decide (subj = tx1018_288_S288) then for_rows msg_assert [tx1018_288_M288] msg [] else Ok (msg, []).

Definition tx1018_415_416_CLMAN : string :=
  "Documentation/man3/llapi_scan_changelog.3".

Definition tx1018_415_416_CLC : string :=
  "lustre/utils/liblustreapi_scan_changelog.c".

Definition tx1018_415_416_FIDMAN : string :=
  "Documentation/man3/llapi_scan_fid.3".

Definition tx1018_415_416_R : list (string * list row) := [
  (tx1018_415_416_CLMAN, [
    Row ""
      (lit "stripe or HSM state at any setting. Those fields arrive absent, with their
.I lfsr_valid
bit clear.
")
      (lit "stripe or HSM state at any setting. Those fields arrive absent, with their
bit clear: in
.I lfsr_stx.stx_mask
for the first six and in
.I lfsr_valid
for the rest, as
.BR llapi_scan_namespace (3)
describes.
");
    Row ""
      (lit "names a directory too. So
.B LLAPI_SCAN_TYPE
is set for those and clear for everything else.")
      (lit "names a directory too. So
.B LLAPI_SCAN_TYPE
.RB ( STATX_TYPE )
is set in
.I lfsr_stx.stx_mask
for those and clear for everything else.")]);
  (tx1018_415_416_CLC, [
    Row ""
      (lit " * size, mode, times, layout or HSM state at any setting, so those are either
 * delivered absent, with their lfsr_valid bit clear, or filled by a lookup the
 * caller asked for with LLAPI_SCAN_CL_F_RESOLVE.  Resolution fills; it never
 * removes an object from the stream and never overrides what the event said.
")
      (lit " * size, mode, times, layout or HSM state at any setting, so those are either
 * delivered absent, with their bit clear (in lfsr_stx.stx_mask for the statx
 * fields, in lfsr_valid for the rest), or filled by a lookup the caller asked
 * for with LLAPI_SCAN_CL_F_RESOLVE.  Resolution fills; it never removes an
 * object from the stream and never overrides what the event said.
")]);
  (tx1018_415_416_FIDMAN, [
    Row ""
      (lit ".B -EPERM
the caller may not resolve FIDs; see
.BR llapi_fid2path_at (3).
")
      (lit ".B -EPERM
the caller may not resolve FIDs; see
.BR llapi_fid2path_at (3).
.TP 15
.B -EACCES
the object, if it is a directory, or else its parent could not be opened for
reading. Only a caller without
.B CAP_DAC_READ_SEARCH
on a mount with
.B -o user_fid2path
meets this: the FID lookup itself checks no permission. A
.I lfsp_want
naming no field this call gathers opens nothing and is not affected.
")])
].

Definition tx1018_415_416_S415 : text :=
  (lit "LU-20649 llapi: add llapi_scan_changelog()").

Definition tx1018_415_416_M415 : row :=
  
  Row ""
    (lit "state, so those fields are absent and their lfsr_valid bits are clear.
")
    (lit "state, so those fields are absent: their bits are clear in
lfsr_stx.stx_mask for the statx fields and in lfsr_valid for the rest.
").

Definition tx1018_415_416_S416 : text :=
  (lit "LU-20650 llapi: fill a scan record for one FID").

Definition tx1018_415_416_M416 : row :=
  
  Row ""
    (lit "must fail and deliver no record whichever way it fails.

")
    (lit "must fail and deliver no record whichever way it fails.

test6 now zeroes its oversized parameter block with memset(): an
initialiser need not zero the bytes past .sp, and scan_param_copyin()
refuses non-zero ones.

").

Definition tx1018_415_416_fn (path : string) (s subj : text) : res (text * list string) :=
  for_rows sub_in (dict_rows tx1018_415_416_R path) s [].

Definition tx1018_415_416_msgfn (msg subj : text) : res (text * list string) :=
  let! x := if bool_decide (subj = tx1018_415_416_S415) then for_rows msg_assert [tx1018_415_416_M415] msg [] else Ok (msg, []) in
  if bool_decide (subj = tx1018_415_416_S416) then for_rows msg_assert [tx1018_415_416_M416] x.1 x.2 else Ok x.

Definition tx1018_419_PF : string :=
  "lustre/utils/liblustreapi_pfind.c".

Definition tx1018_419_SH : string :=
  "lustre/tests/sanity.sh".

Definition tx1018_419_LF : string :=
  "Documentation/man1/lfs-find.1".

Definition tx1018_419_FS : string :=
  "Documentation/man3/llapi_find_since.3".

Definition tx1018_419_HELPER : text :=
  (lit "/*
 * An anchor of 0: the MDT's log was empty when the cookie was written.  If it
 * now starts past 1, records may have been purged since that run or before
 * it; the two look the same, so this warns rather than refuses.
 */
static int find_cookie_was_empty(const char *mdtname, const char *cookie)
{
	__u64 oldest;
	int rc;

	rc = find_cl_first(mdtname, 0, &oldest);
	if (rc < 0) {
		llapi_error(LLAPI_MSG_ERROR, rc,
			    \qcannot read the changelog of '%s'\q, mdtname);
		return rc;
	}
	if (oldest > 1)
		llapi_error(LLAPI_MSG_WARN | LLAPI_MSG_NO_ERRNO, 0,
			    \q'%s' starts at %llu and was empty when '%s' was written: any records purged since then are not in the answer\q,
			    mdtname, (unsigned long long)oldest, cookie);

	return 0;
}

").

Definition tx1018_419_STALE : text :=
  (lit "/*
 * The stale-anchor check, which is the reason a cookie is worth having:
").

(** Lines 45 to 127. *)
Definition tx1018_419_R_PF_1 : list row := [
  Row ""
    (lit "#define FIND_COOKIE_IDX_LEN	31
")
    (lit "#define FIND_COOKIE_IDX_LEN	31
/* starts[] for an MDT the cookie has no line for; 0 is an empty log */
#define FIND_COOKIE_NONE	(~0ULL)
");
  Row ""
    (lit " * by MDT number and already carries the values read from the file, updated
 * in place for the MDTs this run reached.
 */
")
    (lit " * by MDT number and already carries the values read from the file, updated
 * in place for the MDTs this run reached.  A covered MDT is written even at
 * 0, an empty log, so the next run can tell it from one never read.
 */
");
  Row ""
    (lit "		if (seen[i] == 0)
			continue;	/* never anchored: same as absent */
")
    (lit "		if (seen[i] == FIND_COOKIE_NONE)
			continue;	/* neither in the file nor covered */
");
  Row ""
    tx1018_419_STALE
    (tx1018_419_HELPER ++ tx1018_419_STALE);
  Row ""
    (lit " * three records per anchored MDT, and none for an MDT with no anchor yet: 0
 * has nothing to be stale against, and that is also every MDT of a first
 * run.
 *
")
    (lit " * three records per anchored MDT, and none for an MDT the cookie has no line
 * for: that is every MDT of a first run.  An anchor of 0 is an MDT whose log
 * was empty, and only warns: see find_cookie_was_empty().
 *
");
  Row ""
    (lit " * three records per anchored MDT, and none for an MDT with no anchor yet: 0
 * has nothing to be stale against, and that is also every MDT of a first
 * run.  llapi_find_since() reads one more before each MDT, for a purge
 * during the run.
")
    (lit " * three records per anchored MDT, and none for an MDT the cookie has no line
 * for: that is every MDT of a first run.  An anchor of 0 is an MDT whose log
 * was empty, and only warns: see find_cookie_was_empty().  llapi_find_since()
 * reads one more before each MDT, for a purge during the run.
");
  Row ""
    (lit "		/* what this run inherits, until the scan moves it on */
		reached[i] = anchor;
		if (anchor == 0)
			continue;

		snprintf(mdtname, sizeof(mdtname), \q%s-MDT%04x\q, fsname,
			 mdts[i]);
")
    (lit "		/* what this run inherits, until the scan moves it on */
		reached[i] = anchor != FIND_COOKIE_NONE ? anchor : 0;
		if (anchor == FIND_COOKIE_NONE)
			continue;

		snprintf(mdtname, sizeof(mdtname), \q%s-MDT%04x\q, fsname,
			 mdts[i]);
		if (anchor == 0) {
			rc = find_cookie_was_empty(mdtname, cookie);
			if (rc < 0)
				return rc;
			continue;
		}
");
  Row ""
    (lit "	if (mdts == NULL || starts == NULL || reached == NULL) {
		rc = -ENOMEM;
		goto out;
	}
")
    (lit "	if (mdts == NULL || starts == NULL || reached == NULL) {
		rc = -ENOMEM;
		goto out;
	}
	for (i = 0; i < mdt_bound; i++)
		starts[i] = FIND_COOKIE_NONE;
");
  Row ""
    (lit "			sc.lfsc_startrec = starts[mdts[i]] != 0 ?
					 starts[mdts[i]] + 1 : 0;
")
    (lit "			sc.lfsc_startrec =
				starts[mdts[i]] != FIND_COOKIE_NONE ?
				starts[mdts[i]] + 1 : 0;
");
  Row ""
    (lit "		if (param->fp_since_cookie != NULL &&
		    starts[mdts[i]] != 0) {
")
    (lit "		if (param->fp_since_cookie != NULL &&
		    starts[mdts[i]] != 0 &&
		    starts[mdts[i]] != FIND_COOKIE_NONE) {
")
].

(** Lines 130 to 166. *)
Definition tx1018_419_R_SH_1 : list row := [
  Row ""
    (lit "	# Both of these run while the cookie is still fresh, which is the
	# right order but not for the reason it once said: neither refusal
	# can be preempted by the staleness check.  llapi_find_since() tests
	# --since against --since-cookie in its first block, and lfs_find()
	# rejects a second path before it calls llapi_find_since() at all.
")
    (lit "	# Both run while the cookie is still fresh, though neither refusal
	# can be preempted by the staleness check: llapi_find_since() tests
	# --since against --since-cookie in its first block, and lfs_find()
	# rejects a second path before it calls llapi_find_since().
");
  Row ""
    (lit "	[[ -L $ck.link ]] || error \qthe symlinked cookie was replaced\q

	rm -rf $DIR/$tdir
")
    (lit "	[[ -L $ck.link ]] || error \qthe symlinked cookie was replaced\q

	# An empty log is written as 0, not left out, so records made and
	# purged before the next run are warned of rather than lost unsaid
	stack_trap \qrm -f $ck.empty\q
	changelog_clear 0 || error \qchangelog_clear failed\q
	$LFS find $DIR/$tdir --since-cookie $ck.empty -type f > /dev/null ||
		error \qa run over an empty log failed\q
	grep -q \q^$FSNAME-MDT0000 0$\q $ck.empty ||
		error \qan empty log left no line: $(cat $ck.empty)\q
	createmany -o $DIR/$tdir/lost 5 || error \qcreatemany failed\q
	sync; sleep 2
	changelog_clear 0 || error \qchangelog_clear failed\q
	touch $DIR/$tdir/kept || error \qtouch kept failed\q
	sync; sleep 2
	out=$($LFS find $DIR/$tdir --since-cookie $ck.empty -type f 2>&1) ||
		error \qthe run after an empty one failed: $out\q
	grep -q \qwas empty when\q <<< \q$out\q ||
		error \qrecords purged after an empty run gave no warning: $out\q
	grep -q \q/kept$\q <<< \q$out\q ||
		error \qthe run after an empty one missed kept: $out\q

	rm -rf $DIR/$tdir
")
].

(** Lines 169 to 179. *)
Definition tx1018_419_R_LF_1 : list row := [
  Row ""
    (lit "that does not exist is a first run and starts at the oldest surviving record;
one that cannot be written is refused before the search prints anything.
")
    (lit "that does not exist is a first run and starts at the oldest surviving record;
one that cannot be written is refused before the search prints anything.
An MDT that
.I FILE
has no line for is read as a first run too. Every MDT a run reads gets a
line, 0 for an empty log. If that log later starts past record 1, the next
run warns and goes on: records purged after the empty run cannot be told
from ones purged before it.
")
].

(** Lines 182 to 188. *)
Definition tx1018_419_R_FS_1 : list row := [
  Row ""
    (lit "first run, which reads every log from its beginning. The call reads the
")
    (lit "first run, which reads every log from its beginning, and so is a missing
line for one MDT. Every MDT the call reads gets a line, 0 for an empty log;
if that log later starts past record 1, the next call warns and goes on,
since records purged after the empty run cannot be told from ones purged
before it. The call reads the
")
].

Definition tx1018_419_R : list (string * list row) := [
   (tx1018_419_PF, tx1018_419_R_PF_1);
   (tx1018_419_SH, tx1018_419_R_SH_1);
   (tx1018_419_LF, tx1018_419_R_LF_1);
   (tx1018_419_FS, tx1018_419_R_FS_1)
].

(** The loop body: 69500 gives find_cl_first() a fourth argument. *)
Definition tx1018_419_body (r : row) (s : text) : outcome :=
  if py_in (r_old r) s then
    if py_count (r_old r) s =? 1 then
      let n := if bool_decide (r_old r = tx1018_419_STALE) && py_in (lit "__s64 *first_time") s
               then py_replace (lit "find_cl_first(mdtname, 0, &oldest);")
                      (lit "find_cl_first(mdtname, 0, &oldest, NULL);") (r_new r)
               else r_new r in
      substitute (Row (r_tag r) (r_old r) n) s
    else Raise (AssertionError (r_tag r))
  else keep s.

Definition tx1018_419_fn (path : string) (s subj : text) : res (text * list string) :=
  if String.eqb path tx1018_419_PF && negb (py_in (lit "FIND_COOKIE_IDX_LEN") s) then Ok (s, [])
  else for_rows tx1018_419_body (dict_rows tx1018_419_R path) s [].

Definition tx1018_419_S419 : text :=
  (lit "LU-20650 lfs: add find --since-cookie, a per-MDT anchor").

Definition tx1018_419_M419 : list row := [
  Row ""
    (lit "repeat them.  An MDT with no anchor is not probed at all -- 0 has
nothing to be stale against, and that is every MDT of a first run.
")
    (lit "repeat them.  An MDT with no line in the cookie is not probed at all:
it has nothing to be stale against, and that is every MDT of a first
run.

Every MDT a run read gets a line, \q<mdtname> 0\q for an empty log, so
the next run can tell \qempty when last read\q from \qnever read\q.
Writing nothing for it would lose, with nothing said, any records made
and purged before the next run.  Such an anchor is probed too, but a
log that now starts past 1 only warns: records purged after the empty
run cannot be told from records purged before it, and refusing would
stop every later run on an MDT whose log a policy engine had drained.
");
  Row ""
    (lit "still be there afterwards. One has no search root in its header, and is
refused too.
")
    (lit "still be there afterwards. One has no search root in its header, and is
refused too.

Last, 160Ac runs a new cookie over an empty log and checks that it
holds \qMDT0000 0\q, then makes and purges records and checks that the
next run warns and still finds the record made after the purge.
")
].

Definition tx1018_419_msgfn (msg subj : text) : res (text * list string) :=
  if bool_decide (subj = tx1018_419_S419) then for_rows msg_assert tx1018_419_M419 msg [] else Ok (msg, []).
