(* ===== verification/Tx1018Review.v ===== *)
(** The rewrite modules of docs/rounds/a-1018 for the second review pass, tx_b.py to
    tx_g2.py.  Names are prefixed with [tx1018_] and the module's. *)
From S2P Require Import Prelude PyStr TxEngine.

Definition tx1018_b_PF : string :=
  "lustre/utils/liblustreapi_pfind.c".

Definition tx1018_b_LF : string :=
  "Documentation/man1/lfs-find.1".

Definition tx1018_b_FS : string :=
  "Documentation/man3/llapi_find_since.3".

Definition tx1018_b_SF : string :=
  "Documentation/man3/llapi_scan_fid.3".

Definition tx1018_b_SC : string :=
  "Documentation/man3/llapi_scan_changelog.3".

Definition tx1018_b_RECHECK : text :=
  (lit "/*
 * Just before an MDT is read: did a purge reach it after find_cookie_check()?
 * An anchored MDT is tested as there.  One recorded at 0 had nothing
 * consumed, so any move of its oldest record from @seen, an emptied log
 * included, lost records.  One that was empty then (@seen 0) cannot be told.
 *
 * Return: 0, -ESTALE (said here), or the errno reading the log.
 */
static int find_cookie_recheck(const char *mdtname, __u64 anchor, __u64 seen,
			       const char *cookie)
{
	__u64 oldest;
	int rc;

	if (anchor == FIND_COOKIE_NONE || (anchor == 0 && seen == 0))
		return 0;
	if (anchor != 0)
		return find_cookie_purged(mdtname, anchor, cookie, NULL);

	rc = find_cl_first(mdtname, 0, &oldest);
	if (rc < 0 || oldest == seen)
		return rc;
	llapi_error(LLAPI_MSG_ERROR | LLAPI_MSG_NO_ERRNO, -ESTALE,
		    \q'%s' started at %llu when the search began and was purged before it was read: those records are not in the answer; '%s' is left where it was\q,
		    mdtname, (unsigned long long)seen, cookie);
	return -ESTALE;
}

").

(** Lines 50 to 154. *)
Definition tx1018_b_R_PF_1 : list row := [
  Row "purged-doc"
    (lit " * Return: 0, -ESTALE (said here), or the errno reading the log.  @oldest,
 * if not NULL, is 0 for an empty log.
 */")
    (lit " * Return: 0, -ESTALE (said here), or the errno reading the log, which the
 * caller reports.  @oldest, if not NULL, is 0 for an empty log.
 */");
  Row "purged-body"
    (lit "	rc = find_cl_first(mdtname, 0, oldest@@);
	if (rc < 0) {
		llapi_error(LLAPI_MSG_ERROR, rc,
			    \qcannot read the changelog of '%s'\q, mdtname);
		return rc;
	}
	if (*oldest > anchor + 1) {")
    (lit "	rc = find_cl_first(mdtname, 0, oldest@@);
	if (rc < 0)
		return rc;
	if (*oldest > anchor + 1) {");
  Row "empty-fn"
    (lit " * it; the two look the same, so this warns rather than refuses.
 */
static int find_cookie_was_empty(const char *mdtname, const char *cookie)
{
	__u64 oldest;
	int rc;

	rc = find_cl_first(mdtname, 0, &oldest@@);
	if (rc < 0) {
		llapi_error(LLAPI_MSG_ERROR, rc,
			    \qcannot read the changelog of '%s'\q, mdtname);
		return rc;
	}
	if (oldest > 1)
		llapi_error(LLAPI_MSG_WARN | LLAPI_MSG_NO_ERRNO, 0,
			    \q'%s' starts at %llu and was empty when '%s' was written: any records purged since then are not in the answer\q,
			    mdtname, (unsigned long long)oldest, cookie);

	return 0;
}

")
    ((lit " * it; the two look the same, so this warns rather than refuses.  *@oldest
 * is kept for find_cookie_recheck().
 */
static int find_cookie_was_empty(const char *mdtname, const char *cookie,
				 __u64 *oldest)
{
	int rc;

	rc = find_cl_first(mdtname, 0, oldest@@);
	if (rc < 0) {
		llapi_error(LLAPI_MSG_ERROR, rc,
			    \qcannot read the changelog of '%s'\q, mdtname);
		return rc;
	}
	if (*oldest > 1)
		llapi_error(LLAPI_MSG_WARN | LLAPI_MSG_NO_ERRNO, 0,
			    \q'%s' starts at %llu and was empty when '%s' was written: any records purged since then are not in the answer\q,
			    mdtname, (unsigned long long)*oldest, cookie);

	return 0;
}

") ++ tx1018_b_RECHECK);
  Row "check-doc"
    (lit " * was empty, and only warns: see find_cookie_was_empty().  llapi_find_since()
 * reads one more before each MDT, for a purge during the run.
")
    (lit " * was empty, and only warns: see find_cookie_was_empty().  llapi_find_since()
 * reads one more before each MDT, for a purge during the run: see
 * find_cookie_recheck(), which gets what this saw for those in @seen.
");
  Row "check-sig"
    (lit "			     const __u64 *starts, __u64 *reached)
{")
    (lit "			     const __u64 *starts, __u64 *reached,
			     __u64 *seen)
{");
  Row "check-empty"
    (lit "			rc = find_cookie_was_empty(mdtname, cookie);
")
    (lit "			rc = find_cookie_was_empty(mdtname, cookie, &seen[i]);
");
  Row "check-purged"
    (lit "		rc = find_cookie_purged(mdtname, anchor, cookie, &oldest);
		if (rc < 0)
			return rc;
		if (oldest == 0)
			continue;
")
    (lit "		rc = find_cookie_purged(mdtname, anchor, cookie, &oldest);
		if (rc < 0 && rc != -ESTALE)
			llapi_error(LLAPI_MSG_ERROR, rc,
				    \qcannot read the changelog of '%s'\q,
				    mdtname);
		if (rc < 0)
			return rc;
		if (oldest == 0)
			continue;
");
  Row "decl"
    (lit "	__u64 *reached = NULL;
	int i;
	int rc;
")
    (lit "	__u64 *reached = NULL;
	__u64 *seen = NULL;
	int i;
	int rc;
");
  Row "alloc"
    (lit "	reached = calloc(mdt_bound, sizeof(*reached));
	if (mdts == NULL || starts == NULL || reached == NULL) {
")
    (lit "	reached = calloc(mdt_bound, sizeof(*reached));
	seen = calloc(mdt_bound, sizeof(*seen));
	if (mdts == NULL || starts == NULL || reached == NULL ||
	    seen == NULL) {
");
  Row "call"
    (lit "				       mdt_count, starts, reached);
")
    (lit "				       mdt_count, starts, reached, seen);
")
].

(** Lines 155 to 213. *)
Definition tx1018_b_R_PF_2 : list row := [
  Row "loop"
    (lit "		 * reading: one record, as there.  The cookie is not
		 * rewritten, so every later run is refused the same way
		 * until it is removed, rather than skip the records.
		 */
		if (param->fp_since_cookie != NULL &&
		    starts[mdts[i]] != 0 &&
		    starts[mdts[i]] != FIND_COOKIE_NONE) {
			rc = find_cookie_purged(mdtname, starts[mdts[i]],
						param->fp_since_cookie, NULL);
			if (rc < 0)
				break;
		}
")
    (lit "		 * reading: one record, as there.  On -ESTALE the cookie is
		 * not rewritten, so the next run sees the purge too rather
		 * than skip the records.  A failed read is a failed scan.
		 */
		rc = 0;
		if (param->fp_since_cookie != NULL)
			rc = find_cookie_recheck(mdtname, starts[mdts[i]],
						 seen[i],
						 param->fp_since_cookie);
		if (rc == -ESTALE)
			break;
");
  Row "scan443"
    (lit "
		rc = llapi_scan_changelog(&sc, find_since_cand_cb, &st);
		if (rc < 0) {")
    (lit "
		if (rc == 0)
			rc = llapi_scan_changelog(&sc, find_since_cand_cb,
						  &st);
		if (rc < 0) {");
  Row "gap500"
    (lit "
		rc = find_since_gap(param, st.fss_since, mdtname);
		if (rc == 0)
			rc = llapi_scan_changelog(&sc, find_since_cand_cb,
						  &st);
")
    (lit "
		if (rc == 0)
			rc = find_since_gap(param, st.fss_since, mdtname);
		if (rc == 0)
			rc = llapi_scan_changelog(&sc, find_since_cand_cb,
						  &st);
");
  Row "free"
    (lit "	free(reached);
	if (st.fss_mnt_fd >= 0)")
    (lit "	free(reached);
	free(seen);
	if (st.fss_mnt_fd >= 0)");
  Row "igif"
    (lit "	 * Built, not non-empty: an MDT other than MDT0000 whose files all
	 * sit in the filesystem root ends the pre-pass with dm_used == 0 --
	 * it has no directory with a linkea -- and composing still answers,
	 * scan_dirmap_path() stopping at LU_ROOT_FID without a lookup.  An
")
    (lit "	 * Built, not non-empty: an MDT other than MDT0000 whose files all
	 * sit in the filesystem root usually ends the pre-pass with
	 * dm_used == 0 (no directory with a linkea, unless LFSCK made
	 * lost+found/MDT000N there), and composing still answers,
	 * scan_dirmap_path() stopping at LU_ROOT_FID without a lookup.  An
")
].

(** Lines 216 to 233. *)
Definition tx1018_b_R_LF_1 : list row := [
  Row "lf-443"
    (lit "that reaches it after the first test is refused then. The matches
already printed stay printed, and
.I FILE
is not rewritten, so every later run is refused the same way until
.I FILE
is removed. Not caught: a purge that empties that log, until new records
arrive; a purge on the MDT being read, which on a single-MDT filesystem is
the only window there is.")
    (lit "that reaches it after the first test is refused then. So is any purge,
after the first test, of an MDT recorded at 0 whose log then held records.
The matches already printed stay printed, and
.I FILE
is not rewritten, so every later run is refused the same way until
.I FILE
is removed, or warned for an MDT recorded at 0. Not caught: a purge that
empties the log of an MDT recorded past 0, until new records arrive; records
made and purged during the run on an MDT whose log was empty when it began;
a purge on the MDT being read, which on a single-MDT filesystem is the only
window there is.")
].

(** Lines 236 to 257. *)
Definition tx1018_b_R_FS_1 : list row := [
  Row "fs-443"
    (lit "a clear that lands on it after the first test ends the call
with this error, after the earlier MDTs' matches were reported.
.I fp_since_cookie
is not rewritten, so every later call fails the same way until it is
removed. Not seen: a clear that empties that log, until new records arrive,
and a clear on the MDT being read.")
    (lit "a clear that lands on it after the first test ends the call
with this error, after the earlier MDTs' matches were reported. So does any
clear, after the first test, of an MDT anchored at 0 whose log then held
records.
.I fp_since_cookie
is not rewritten, so every later call fails the same way until it is
removed, or warns for an MDT anchored at 0. Not seen: a clear that empties
the log of an MDT anchored past 0, until new records arrive; records made and
cleared during the call on an MDT whose log was empty when it began; and a
clear on the MDT being read.");
  Row "fs-einval"
    (lit "filesystem or another search root, or that has text in it but no line that
.B lfs find
writes.")
    (lit "filesystem or another search root, that names no search root in its header,
or that has text in it but no line that
.B lfs find
writes, and for an empty cookie name.")
].

(** Lines 261 to 276. *)
Definition tx1018_b_R_SF_1 : list row := [
  Row "sf-eacces"
    (lit ".B -EACCES
the object, if it is a directory, or else its parent could not be opened for
reading. Only a caller without
.B CAP_DAC_READ_SEARCH
on a mount with
.B -o user_fid2path
meets this: the FID lookup itself checks no permission. A
.I lfsp_want
naming no field this call gathers opens nothing and is not affected.")
    (lit ".B -EACCES
the object, or a directory on the way to it, could not be searched or opened.
A caller without
.B CAP_DAC_READ_SEARCH
(on a mount with
.BR \q-o user_fid2path\q ),
or root on a client with root squash, can meet this. The FID lookup itself
checks no permission.")
].

(** Lines 280 to 287. *)
Definition tx1018_b_R_SC_1 : list row := [
  Row "sc-mark"
    (lit "means in every scanner that fills it. Only a resolve can answer the owner.
")
    (lit "means in every scanner that fills it. Only a resolve can answer the owner.
The
.I lfsr_name
of a
.B CL_MARK
record is the name of the MDT that wrote it.
")
].

Definition tx1018_b_R : list (string * list row) := [
   (tx1018_b_PF, tx1018_b_R_PF_1 ++ tx1018_b_R_PF_2);
   (tx1018_b_LF, tx1018_b_R_LF_1);
   (tx1018_b_FS, tx1018_b_R_FS_1);
   (tx1018_b_SF, tx1018_b_R_SF_1);
   (tx1018_b_SC, tx1018_b_R_SC_1)
].

Definition tx1018_b_G443 : list string :=
  ["purged-doc"; "purged-body"; "empty-fn"; "check-doc"; "check-sig";
   "check-empty"; "check-purged"; "decl"; "alloc"; "call"; "loop";
   "scan443"; "gap500"; "free"].

(** The old and the new text of a row, as the file needs them: 69500 gives find_cl_first() a
    fourth argument. *)
Definition tx1018_b_texts (r : row) (s : text) : text * text :=
  let four := py_in (lit "__s64 *first_time") s in
  let arg := if four then lit ", NULL" else [] in
  let (o, n) := if py_in (lit "@@") (r_old r)
                then (py_replace (lit "@@") arg (r_old r), py_replace (lit "@@") arg (r_new r))
                else (r_old r, r_new r) in
  (o, if String.eqb (r_tag r) "empty-fn" && four
      then py_replace (lit "find_cl_first(mdtname, 0, &oldest);")
             (lit "find_cl_first(mdtname, 0, &oldest, NULL);") n
      else n).

Definition tx1018_b_body (r : row) (s : text) : outcome :=
  if str_mem (r_tag r) tx1018_b_G443 && negb (py_in (lit "static int find_cookie_purged(") s) then keep s
  else
    let (o, n) := tx1018_b_texts r s in
    sub_assert (Row (r_tag r) o n) s.

Definition tx1018_b_fn (path : string) (s subj : text) : res (text * list string) :=
  for_rows tx1018_b_body (dict_rows tx1018_b_R path) s [].

Definition tx1018_b_M : list (text * list row) := [
  ((lit "LU-20649 llapi: add llapi_scan_changelog()"), [
    Row ""
      (lit "  client mount: one O_PATH open by FID and a statx() per object. It
")
      (lit "  client mount: one O_PATH open by FID and a statx() or two per
  object. It
")]);
  ((lit "LU-20650 lfs: find --since-cookie, check each MDT when read"), [
    Row ""
      (lit "each. If it is past anchor + 1, the run stops with -ESTALE and names
both numbers.
")
      (lit "each. If it is past anchor + 1, the run stops with -ESTALE and names
both numbers. An MDT recorded at 0 had nothing consumed, so the
pre-pass keeps the oldest record it saw there, and any change in it
by then, an emptied log included, stops the run the same way.
");
    Row ""
      (lit "than skip the purged records.
")
      (lit "than skip the purged records. For an MDT recorded at 0 the next run
warns instead, as it does for any such log that has moved on.

An error reading that record is handled as a failed scan: the MDT is
not read, the run goes on to the next one and fails at the end, so
the cookie is not rewritten.
");
    Row ""
      (lit "Still not covered, and the man pages say so: a purge that empties the
log (seen once new records arrive), a purge on the MDT being read,
which is the only window on a single-MDT filesystem, and a record
written late at the tail of a busy log.
")
      (lit "Still not covered, and the man pages say so: a purge that empties the
log of an MDT recorded past 0 (seen once new records arrive), records
made and purged during the run on an MDT whose log was empty when it
began, a purge on the MDT being read, which is the only window on a
single-MDT filesystem, and a record written late at the tail of a busy
log.
")]);
  ((lit "LU-20650 lfs: find --since, warn when the log was cleared"), [
    Row ""
      (lit "If the read of the oldest record fails, the run stops as it does
when the scan itself fails.
")
      (lit "If the read of the oldest record fails, that MDT is not scanned, and
the run goes on and fails at the end, as when the scan itself fails.
")])
].

Definition tx1018_b_msgfn (msg subj : text) : res (text * list string) :=
  for_rows (hit_prefix "msg" msg_assert) (dict_rows tx1018_b_M subj) msg [].

Definition tx1018_c_LF : string :=
  "Documentation/man1/lfs-find.1".

Definition tx1018_c_row : row :=
  Row ""
    (lit "is removed, or warned for an MDT recorded at 0. Not caught: a purge that
")
    (lit "is removed; one recorded at 0 is warned of. Not caught: a purge that
").

Definition tx1018_c_fn (path : string) (s subj : text) : res (text * list string) :=
  if String.eqb path tx1018_c_LF then for_rows sub_in [tx1018_c_row] s [] else Ok (s, []).

Definition tx1018_c_S : text :=
  (lit "LU-20650 lfs: find --since-cookie, check each MDT when read").

Definition tx1018_c_msg : row :=
  Row ""
    (lit "pre-pass keeps the oldest record it saw there, and any change in it
by then, an emptied log included, stops the run the same way.
")
    (lit "pre-pass keeps the oldest record it saw there, and any change in it
before that MDT is read, an emptied log included, stops the run the
same way.
").

Definition tx1018_c_msgfn (msg subj : text) : res (text * list string) :=
  if bool_decide (subj = tx1018_c_S) then for_rows msg_assert [tx1018_c_msg] msg [] else Ok (msg, []).

Definition tx1018_d_PF : string :=
  "lustre/utils/liblustreapi_pfind.c".

Definition tx1018_d_LF : string :=
  "Documentation/man1/lfs-find.1".

Definition tx1018_d_FS : string :=
  "Documentation/man3/llapi_find_since.3".

Definition tx1018_d_R : list (string * list row) := [
  (tx1018_d_PF, [
    Row "rc-doc"
      (lit "/*
 * Just before an MDT is read: did a purge reach it after find_cookie_check()?
 * An anchored MDT is tested as there.  One recorded at 0 had nothing
 * consumed, so any move of its oldest record from @seen, an emptied log
 * included, lost records.  One that was empty then (@seen 0) cannot be told.
 *
 * Return: 0, -ESTALE (said here), or the errno reading the log.
 */")
      (lit "/*
 * Just before an MDT is read: refuse a purge past its anchor since
 * find_cookie_check().  At anchor 0, only warn if the oldest moved from @seen.
 *
 * Return: 0, -ESTALE (said here), or the errno reading the log.
 */");
    Row "rc-tail"
      (lit "	if (rc < 0 || oldest == seen)
		return rc;
	llapi_error(LLAPI_MSG_ERROR | LLAPI_MSG_NO_ERRNO, -ESTALE,
		    \q'%s' started at %llu when the search began and was purged before it was read: those records are not in the answer; '%s' is left where it was\q,
		    mdtname, (unsigned long long)seen, cookie);
	return -ESTALE;
}")
      (lit "	if (rc < 0 || oldest == seen)
		return rc;
	/* as find_cookie_was_empty(): nothing to keep, so the cookie advances */
	llapi_error(LLAPI_MSG_WARN | LLAPI_MSG_NO_ERRNO, 0,
		    \q'%s' started at %llu when the search began and has been purged since: records purged during the run may be missing from the answer\q,
		    mdtname, (unsigned long long)seen);
	return 0;
}")]);
  (tx1018_d_LF, [
    Row "lf"
      (lit "that reaches it after the first test is refused then. So is any purge,
after the first test, of an MDT recorded at 0 whose log then held records.
The matches already printed stay printed, and
.I FILE
is not rewritten, so every later run is refused the same way until
.I FILE
is removed; one recorded at 0 is warned of. Not caught: a purge that
empties the log of an MDT recorded past 0, until new records arrive; records
made and purged during the run on an MDT whose log was empty when it began;
a purge on the MDT being read, which on a single-MDT filesystem is the only
window there is. Nor is a record lost to a race in the MDT caught:")
      (lit "that reaches it after the first test is refused then. The matches already
printed stay printed, and
.I FILE
is not rewritten, so every later run is refused the same way until
.I FILE
is removed. For an MDT recorded at 0 whose log held records, such a purge
gives a warning that names the MDT instead; the run goes on and
.I FILE
advances as usual, so records purged during the run may be missing. Not
caught: a purge that empties the log of an MDT recorded past 0, until new
records arrive; records made and purged during the run on an MDT whose log
was empty when it began; a purge during the run of an MDT that
.I FILE
has no line for, as on a first run; a purge on the MDT being read, which on
a single-MDT filesystem is the only window there is. Nor is a record lost to
a race in the MDT caught:")]);
  (tx1018_d_FS, [
    Row "fs"
      (lit "with this error, after the earlier MDTs' matches were reported. So does any
clear, after the first test, of an MDT anchored at 0 whose log then held
records.
.I fp_since_cookie
is not rewritten, so every later call fails the same way until it is
removed, or warns for an MDT anchored at 0. Not seen: a clear that empties
the log of an MDT anchored past 0, until new records arrive; records made and
cleared during the call on an MDT whose log was empty when it began; and a
clear on the MDT being read.")
      (lit "with this error, after the earlier MDTs' matches were reported.
.I fp_since_cookie
is not rewritten, so every later call fails the same way until it is
removed. Such a clear on an MDT anchored at 0, whose log then held records,
only warns: the call goes on and the cookie advances as usual. Not seen: a
clear that empties the log of an MDT anchored past 0, until new records
arrive; records made and cleared during the call on an MDT whose log was
empty when it began; a clear during the call on an MDT the cookie has no
line for, as on a first call; and a clear on the MDT being read.")])
].

Definition tx1018_d_fn (path : string) (s subj : text) : res (text * list string) :=
  for_rows sub_assert (dict_rows tx1018_d_R path) s [].

Definition tx1018_d_S : text :=
  (lit "LU-20650 lfs: find --since-cookie, check each MDT when read").

Definition tx1018_d_M : list row := [
  Row ""
    (lit "both numbers. An MDT recorded at 0 had nothing consumed, so the
pre-pass keeps the oldest record it saw there, and any change in it
before that MDT is read, an emptied log included, stops the run the
same way.
The matches already printed stay printed. The cookie is not rewritten,
so every later run is refused the same way until it is removed, rather
than skip the purged records. For an MDT recorded at 0 the next run
warns instead, as it does for any such log that has moved on.
")
    (lit "both numbers. The matches already printed stay printed. The cookie is
not rewritten, so every later run is refused the same way until it is
removed, rather than skip the purged records.

An MDT recorded at 0 had nothing consumed, so the pre-pass keeps the
oldest record it saw there. If that has changed when the MDT is read,
an emptied log included, the run warns, names the MDT and goes on, as
the pre-pass does for such a log. The cookie advances as usual: the
purged records are gone from the log, so holding it back would get
none of them back and only make the next run repeat this one.
");
  Row ""
    (lit "began, a purge on the MDT being read, which is the only window on a
single-MDT filesystem, and a record written late at the tail of a busy
log.
")
    (lit "began, a purge during the run of an MDT the cookie has no line for
(a first run), a purge on the MDT being read, which is the only window
on a single-MDT filesystem, and a record written late at the tail of a
busy log.
")
].

Definition tx1018_d_msgfn (msg subj : text) : res (text * list string) :=
  if bool_decide (subj = tx1018_d_S) then for_rows (hit_prefix "msg" msg_assert) tx1018_d_M msg [] else Ok (msg, []).

Definition tx1018_e_PF : string :=
  "lustre/utils/liblustreapi_pfind.c".

Definition tx1018_e_row : row :=
  Row ""
    (lit "	/* as find_cookie_was_empty(): nothing to keep, so the cookie advances */
")
    (lit "	/* as find_cookie_was_empty(): warn, and the cookie advances */
").

Definition tx1018_e_fn (path : string) (s subj : text) : res (text * list string) :=
  if String.eqb path tx1018_e_PF then for_rows sub_in [tx1018_e_row] s [] else Ok (s, []).

Definition tx1018_f1_SD : string :=
  "lustre/utils/liblustreapi_scan_device.c".

Definition tx1018_f1_R : list (string * list row) := [
  (tx1018_f1_SD, [
    Row "dev"
      (lit "static void scan_sink_skip(void *ctx, enum llapi_scan_skip why)
{
	struct scan_worker *w = ctx;
")
      (lit "static void scan_sink_skip(void *ctx, enum llapi_scan_skip why)
{
	struct scan_worker *w = ctx;
	struct scan_dev *dev = w->sw_dev;
");
    Row "wait"
      (lit "	if (why != LLAPI_SCAN_SKIP_XATTR)
		w->sw_stats.ss_seen++;
	w->sw_stats.ss_skipped++;
")
      (lit "	if (why != LLAPI_SCAN_SKIP_XATTR) {
		w->sw_stats.ss_seen++;
		/* it was read like any object, so it takes a rate slot */
		if (__atomic_load_n(&dev->sd_stop_rc, __ATOMIC_ACQUIRE) == 0)
			scan_rate_wait(&dev->sd_rate);
	}
	w->sw_stats.ss_skipped++;
")])
].

Definition tx1018_f1_S : text :=
  (lit "LU-20606 llapi: limit a scan's rate").

Definition tx1018_f1_M : list row := [
  Row ""
    (lit "device scan counts it when it reads the inode or dnode, before
lfsp_filter, because that read happens either way.
")
    (lit "device scan counts it when it reads the inode or dnode, before
lfsp_filter, because that read happens either way. An object it skips
there, as torn or unreadable, takes a slot too.
")
].

Definition tx1018_f1_fn (path : string) (s subj : text) : res (text * list string) :=
  for_rows sub_assert (dict_rows tx1018_f1_R path) s [].

Definition tx1018_f1_msgfn (msg subj : text) : res (text * list string) :=
  if bool_decide (subj = tx1018_f1_S) then for_rows (hit_prefix "msg" msg_assert) tx1018_f1_M msg [] else Ok (msg, []).

Definition tx1018_f2_PF : string :=
  "lustre/utils/liblustreapi_pfind.c".

Definition tx1018_f2_O : text :=
  (lit "	/* as find_cookie_was_empty(): warn, and the cookie advances */
	llapi_error(LLAPI_MSG_WARN | LLAPI_MSG_NO_ERRNO, 0,
		    \q'%s' started at %llu when the search began and has been purged since: records purged during the run may be missing from the answer\q,
		    mdtname, (unsigned long long)seen);
	return 0;
").

Definition tx1018_f2_N : text :=
  (lit "	/* as find_cookie_was_empty(): warn, and the cookie advances */
	if (oldest == 0)
		llapi_error(LLAPI_MSG_WARN | LLAPI_MSG_NO_ERRNO, 0,
			    \q'%s' started at %llu when the search began and has been purged since, and is now empty: records purged during the run may be missing from the answer\q,
			    mdtname, (unsigned long long)seen);
	else
		llapi_error(LLAPI_MSG_WARN | LLAPI_MSG_NO_ERRNO, 0,
			    \q'%s' started at %llu when the search began and has been purged since, and now starts at %llu: records purged during the run may be missing from the answer\q,
			    mdtname, (unsigned long long)seen,
			    (unsigned long long)oldest);
	return 0;
").

Definition tx1018_f2_fn (path : string) (s subj : text) : res (text * list string) :=
  if String.eqb path tx1018_f2_PF then for_rows sub_assert [Row "warn" tx1018_f2_O tx1018_f2_N] s [] else Ok (s, []).

Definition tx1018_f3_SD : string :=
  "lustre/utils/liblustreapi_scan_device.c".

Definition tx1018_f3_O : text :=
  (lit "	/* an IGIF root on a filesystem upgraded from before 2.4 */
").

Definition tx1018_f3_N : text :=
  (lit "	/* .lustre's parent: an IGIF on a filesystem from before 2.4 */
").

Definition tx1018_f3_fn (path : string) (s subj : text) : res (text * list string) :=
  if String.eqb path tx1018_f3_SD then for_rows sub_assert [Row "comment" tx1018_f3_O tx1018_f3_N] s [] else Ok (s, []).

Definition tx1018_f4_FD : string :=
  "Documentation/man3/llapi_find_device.3".

Definition tx1018_f4_LF : string :=
  "Documentation/man1/lfs-find.1".

Definition tx1018_f4_R : list (string * list row) := [
  (tx1018_f4_FD, [
    Row "th"
      (lit ".TH LLAPI_FIND_DEVICE 3 2026-10-15 ")
      (lit ".TH LLAPI_FIND_DEVICE 3 2026-10-18 ");
    Row "root"
      (lit "printed as
.B /
(or as the mount with
.IR fp_fid2path_mnt ).
.LP
")
      (lit "printed as
.B /
(or as the mount with
.IR fp_fid2path_mnt ).
On a filesystem from before 2.4 the root has an IGIF and no linkea, so it
is printed only with
.B LLAPI_SCAN_F_INTERNAL
in
.I lfsp_flags
.RB ( \qlfs find \\-\\-internal\q ).
.LP
")]);
  (tx1018_f4_LF, [
    Row "internal"
      (lit "which are otherwise left out.
One with no FID is printed as obj:ID, its object number on the target.
")
      (lit "which are otherwise left out.
One with no FID is printed as obj:ID, its object number on the target.
On a filesystem from before 2.4 the root has no linkea and is counted
among them, so it is printed only with this option.
")])
].

Definition tx1018_f4_S : text :=
  (lit "LU-20637 llapi: find the root of an upgraded filesystem").

Definition tx1018_f4_M : list row := [
  Row ""
    (lit "root is not printed: it has no linkea, so the scan counts it as
internal.
")
    (lit "root is not printed: it has no linkea, so the scan counts it as
internal. llapi_find_device.3 and lfs-find.1 say so.
")
].

Definition tx1018_f4_fn (path : string) (s subj : text) : res (text * list string) :=
  for_rows sub_assert (dict_rows tx1018_f4_R path) s [].

Definition tx1018_f4_msgfn (msg subj : text) : res (text * list string) :=
  if bool_decide (subj = tx1018_f4_S) then for_rows (hit_prefix "msg" msg_assert) tx1018_f4_M msg [] else Ok (msg, []).

Definition tx1018_g1_R : list (string * list row) := [
  ("Documentation/man1/lfs-find.1",
   [Row ""
      (lit "records arrive; records made and purged during the run on an MDT whose log
was empty when it began; a purge during the run of an MDT that
")
      (lit "records arrive; records made and purged during the run on an MDT recorded
at 0 whose log was empty when it began; a purge during the run of an MDT that
")]);
  ("Documentation/man3/llapi_find_since.3",
   [Row ""
      (lit "arrive; records made and cleared during the call on an MDT whose log was
empty when it began; a clear during the call on an MDT the cookie has no
line for, as on a first call; and a clear on the MDT being read.
")
      (lit "arrive; records made and cleared during the call on an MDT anchored at 0
whose log was empty when it began; a clear during the call on an MDT the
cookie has no line for, as on a first call; and a clear on the MDT being
read.
")])
].

Definition tx1018_g1_MO : text :=
  (lit "made and purged during the run on an MDT whose log was empty when it
began, ").

Definition tx1018_g1_MN : text :=
  (lit "made and purged during the run on an MDT recorded at 0 whose log was
empty when it began, ").

(** The tag is the file's name. *)
Definition tx1018_g1_fn (path : string) (s subj : text) : res (text * list string) :=
  for_rows (λ r, sub_assert (Row (basename path) (r_old r) (r_new r))) (dict_rows tx1018_g1_R path) s [].

Definition tx1018_g1_msgfn (msg subj : text) : res (text * list string) :=
  for_rows sub_in [Row "msg" tx1018_g1_MO tx1018_g1_MN] msg [].

Definition tx1018_g2_O : text :=
  (lit "empty when it began, a purge during the run of an MDT the cookie has no line for
(a first run), a purge on the MDT being read, which is the only window
on a single-MDT filesystem, and a record written late at the tail of a
busy log.").

Definition tx1018_g2_N : text :=
  (lit "empty when it began, a purge during the run of an MDT the cookie has
no line for (a first run), a purge on the MDT being read, which is the
only window on a single-MDT filesystem, and a record written late at
the tail of a busy log.").

Definition tx1018_g2_fn (path : string) (s subj : text) : res (text * list string) :=
  Ok (s, []).

Definition tx1018_g2_msgfn (msg subj : text) : res (text * list string) :=
  for_rows sub_in [Row "" tx1018_g2_O tx1018_g2_N] msg [].
