(* ===== verification/Tx1014.v ===== *)
(** The rewrite modules of docs/rounds/a-1014, which forktx.py loads one at a time.  Names are
    prefixed with [tx1014_] and the module's.  The modules keep no HITS: all tags are empty.
    tx_shard.py, tx_split300.py and tx_emdash.py are in Tx1014Tree.v. *)
From S2P Require Import Prelude PyStr PyParse PyRe Rebuild TxEngine.

Definition tx1014_rootfid_P : string :=
  "include/uapi/linux/lustre/lustre_fid.h".

Definition tx1014_rootfid_O : text :=
  (lit "/*
 * For new FS (>= 2.4), the root FID will be changed to
 * [FID_SEQ_ROOT:1:0], for existing FS, (upgraded to 2.4),
 * the root FID will still be IGIF
 */
").

Definition tx1014_rootfid_N : text :=
  (lit "/*
 * A filesystem formatted at 2.4 or later has [FID_SEQ_ROOT:1:0] as its root
 * FID; one upgraded from before 2.4 keeps an IGIF root.
 */
").

Definition tx1014_rootfid_fn (path : string) (s subj : text) : res (text * list string) :=
  if String.eqb path tx1014_rootfid_P then Ok (py_replace tx1014_rootfid_O tx1014_rootfid_N s, []) else Ok (s, []).

Definition tx1014_lma_R : list (string * list row) := [
  ("Documentation/man3/llapi_scan_device.3", [
    Row ""
      (lit "A file from before linkEA (Lustre 1.8, with an IGIF) that LFSCK has not yet
given one is counted here too, having nothing on the target to say it is
reachable.
On an MDT upgraded from 1.8 with no namespace LFSCK run, those are user files,
and a default scan holds them back.
")
      (lit "So is a user file whose
.B trusted.link
was lost, to xattr corruption say: nothing on the target says it is reachable,
so a default scan holds it back until LFSCK restores the link.
");
    Row ""
      (lit ".BR trusted.lma ,
so with no FID of its own recorded.
On MDT0000,
")
      (lit ".BR trusted.lma ,
so with no FID of its own recorded.
Every object has had one since Lustre 2.4, so on a filesystem formatted since
then this is an object that lost it, to xattr corruption say, and LFSCK can
rebuild it.
On MDT0000,
")]);
  ("lustre/utils/liblustreapi_scan_device.c", [
    Row ""
      (lit " * is the target's own.  So is a file from before linkEA (1.8, an IGIF) that
 * LFSCK has not given one yet: it is reachable, but nothing here says so.
")
      (lit " * is the target's own.  So is a user file whose trusted.link was lost: it is
 * reachable, but nothing here says so.
")])
].

Definition tx1014_lma_fn (path : string) (s subj : text) : res (text * list string) :=
  for_rows sub_in (dict_rows tx1014_lma_R path) s [].

Definition tx1014_emdash2_R : list (string * list row) := [
  ("Documentation/man3/llapi_scan_device.3", [
    Row ""
      (lit "are deliberately distinct \\(em a caller that skips its work where a build
")
      (lit "are deliberately distinct: a caller that skips its work where a build
")]);
  ("Documentation/man3/llapi_scan_namespace.3", [
    Row ""
      (lit "once, then as filtered, skipped, or delivered and namespace-visible \\(em
everything a walk reaches arrived through a directory entry, so the other
")
      (lit "once, then as filtered, skipped, or delivered and namespace-visible.
Everything a walk reaches arrived through a directory entry, so the other
")]);
  ("Documentation/man3/llapi_find_device.3", [
    Row ""
      (lit "is outside the range this library accepts \\(em shorter than its minimum,
")
      (lit "is outside the range this library accepts: shorter than its minimum,
")]);
  ("Documentation/man3/llapi_find_since.3", [
    Row ""
      (lit "records nothing at all \\(em
.B mdd_changelog_off()
")
      (lit "records nothing at all:
.B mdd_changelog_off()
");
    Row ""
      (lit "as the arguments are well formed \\(em before
.I path
")
      (lit "as the arguments are well formed, before
.I path
");
    Row ""
      (lit "names no Lustre mount \\(em
.BR llapi_search_fsname (3)
")
      (lit "names no Lustre mount.
.BR llapi_search_fsname (3)
");
    Row ""
      (lit "no anchor. Refused for the anchored form \\(em there is nothing to search
since \\(em but it is the ordinary setting when
")
      (lit "no anchor. Refused for the anchored form (there is nothing to search
since), but it is the ordinary setting when
")]);
  ("Documentation/man1/lfs-find.1", [
    Row ""
      (lit "the search sees it. An object the log named more than once \\(em a file
")
      (lit "the search sees it. An object the log named more than once (a file
");
    Row ""
      (lit ".I g
\\(em is therefore matched by
")
      (lit ".IR g )
is therefore matched by
")])
].

Definition tx1014_emdash2_fn (path : string) (s subj : text) : res (text * list string) :=
  for_rows sub_count (dict_rows tx1014_emdash2_R path) s [].

Definition tx1014_fix159_P : string :=
  "lustre/utils/liblustreapi_pfind.c".

Definition tx1014_fix159_R : list row := [
  Row ""
    (lit "				llapi_error(LLAPI_MSG_ERROR, err,
					    \qerror: cannot get last initialized compomnent\\n\q);
")
    (lit "				llapi_error(LLAPI_MSG_ERROR, -errno,
					    \qerror: cannot get last initialized component\\n\q);
");
  Row ""
    (lit "					llapi_error(LLAPI_MSG_ERROR, err,
						    \qerror: cannot get stripe_count\\n\q);
")
    (lit "					llapi_error(LLAPI_MSG_ERROR, -errno,
						    \qerror: cannot get stripe_count\\n\q);
");
  Row ""
    (lit "					llapi_error(LLAPI_MSG_ERROR, err,
						    \qerror: cannot get OST index of last initialized component\\n\q);
")
    (lit "					llapi_error(LLAPI_MSG_ERROR, -errno,
						    \qerror: cannot get OST index of last initialized component\\n\q);
");
  Row ""
    (lit "					llapi_error(LLAPI_MSG_ERROR, rc,
						    \qerror: cannot get pool name\\n\q);
")
    (lit "					llapi_error(LLAPI_MSG_ERROR, -errno,
						    \qerror: cannot get pool name\\n\q);
");
  Row ""
    (lit "					llapi_error(LLAPI_MSG_ERROR, rc,
						    \qerror: cannot get stripe_size\\n\q);
")
    (lit "					llapi_error(LLAPI_MSG_ERROR, -errno,
						    \qerror: cannot get stripe_size\\n\q);
")
].

Definition tx1014_fix159_fn (path : string) (s subj : text) : res (text * list string) :=
  if negb (String.eqb path tx1014_fix159_P) then Ok (s, []) else for_rows sub_in tx1014_fix159_R s [].

Definition tx1014_fix288_R : list (string * list row) := [
  ("Documentation/man1/lfs-find.1", [
    Row ""
      (lit "nor does an OST object no file owns yet,
")
      (lit "nor does an OST object that has never been written to, even one
belonging to an empty file,
")]);
  ("Documentation/man3/llapi_scan_rec_path.3", [
    Row ""
      (lit "object is in this set only when no file owns it: a precreated object that has
never been written carries no owner FID. Otherwise its FID resolves to the
file that owns it.
")
      (lit "object is in this set when it has never been written to: the OST records its
owner FID on the first write, setattr or punch, so a precreated object, and
one belonging to a file created and never written, carry none. Otherwise its
FID resolves to the file that owns it.
")]);
  ("lustre/utils/liblustreapi_scan.c", [
    Row ""
      (lit " * has on the target.  An object no file owns yet -- precreated and never
 * written, of which a target holds many -- has no owner and no name, and is
")
      (lit " * has on the target.  An object never written to -- precreated, or part of
 * a file created and never written -- has no owner and no name, and is
")]);
  ("lustre/utils/liblustreapi_pfind.c", [
    Row ""
      (lit "		/* the mount point is copied into fds_mnt_path unbounded */
")
      (lit "		/* the copies below are bounded: a longer one would be cut short */
")])
].

Definition tx1014_fix288_fn (path : string) (s subj : text) : res (text * list string) :=
  for_rows sub_in (dict_rows tx1014_fix288_R path) s [].

Definition tx1014_fix415_M : string :=
  "Documentation/man3/llapi_scan_changelog.3".

Definition tx1014_fix415_O : text :=
  (lit "Purge consumed records as they are accepted, never ahead of the consumer. A
").

Definition tx1014_fix415_N : text :=
  (lit "Purge consumed records, never ahead of the consumer: every thousand or so
while the stream runs, and the rest when it ends. A consumer killed
mid-stream, or one that follows a log that has gone quiet, leaves up to that
many consumed records uncleared, and they are delivered again on the next
run: a consumer using this as its checkpoint sees each record at least once,
not exactly once. A
").

Definition tx1014_fix415_fn (path : string) (s subj : text) : res (text * list string) :=
  if String.eqb path tx1014_fix415_M then Ok (py_replace tx1014_fix415_O tx1014_fix415_N s, []) else Ok (s, []).

Definition tx1014_fix416_C : string :=
  "lustre/utils/liblustreapi_scan.c".

Definition tx1014_fix416_M : string :=
  "Documentation/man3/llapi_scan_fid.3".

Definition tx1014_fix416_R : list (string * list row) := [
  (tx1014_fix416_C, [
    Row ""
      (lit "	 * The object or a directory above it may have been renamed between
	 * the fid2path and the steps after it, which then miss a live
	 * object.  Ask for the name again: no name means it is gone, and a
	 * new name is gathered there.
	 */
	if (ours && (rc == -ENOENT || rc == -ESTALE) &&
")
      (lit "	 * The object or a directory above it may have been renamed between
	 * the fid2path and the steps after it, which then miss a live
	 * object.  Ask for the name again: no name means it is gone, and a
	 * new name is gathered there.  -ENOTDIR is a file made where a
	 * renamed directory was.
	 */
	if (ours && (rc == -ENOENT || rc == -ESTALE || rc == -ENOTDIR) &&
")]);
  (tx1014_fix416_M, [
    Row ""
      (lit "An object renamed during the call, or under a directory that was, is not
reported gone: when the name the lookup gave is missing or holds another
object, the lookup is repeated, a few times at most, and the record is
gathered at the new name.
")
      (lit "An object renamed during the call, or under a directory that was, is not
reported gone: when the name the lookup gave is missing, holds another
object or goes through what is no longer a directory, the lookup is
repeated, a few times at most, and the record is gathered at the new name.
A name unlinked and recreated during the call answers this too: the
repeated lookup finds the object gone.
");
    Row ""
      (lit ".I fid
resolved to no longer holds it: it was unlinked and recreated while the
record was being gathered, so the record would have described a different
object. Only a
")
      (lit ".I fid
resolved to still holds another object when the lookup is repeated, so the
record would describe a different object: a directory shard's or an OST
object's FID, a name no longer on Lustre, or client modules with only the V1
getinfo ioctl; see
.BR ERRORS .
Only a
");
    Row ""
      (lit "the name it resolved to holds a different object now, or is no longer on
Lustre.")
      (lit "the name it resolved to still holds a different object when the lookup is
repeated, or is no longer on Lustre.")])
].

Definition tx1014_fix416_fn (path : string) (s subj : text) : res (text * list string) :=
  for_rows sub_in (dict_rows tx1014_fix416_R path) s [].

Definition tx1014_fix416_O1 : text :=
  (lit "runs against a pathname, so the FID it found is checked against the
one asked for and a name unlinked and recreated underneath it answers
-ESTALE rather than a record for a different object.
").

Definition tx1014_fix416_N1 : text :=
  (lit "runs against a pathname, so the FID it found is checked against the
one asked for, and a record never describes a different object.
-ESTALE is what is left when the name still holds another object after
the lookup is repeated (below): a shard's or an OST object's FID, a
name off Lustre, or V1-only client modules.  A name unlinked and
recreated answers -ENOENT, the object being gone.
").

Definition tx1014_fix416_O2 : text :=
  (lit "Only lfsp_want, lfsp_filter and lfsp_got are used from the parameter
block.
lfsp_max_depth, lfsp_stats, lfsp_search and lfsp_fsname describe a
traversal there is none of and are ignored; lfsp_thread_count above 1
is refused rather than ignored, because a caller setting it has
misunderstood the call.
").

Definition tx1014_fix416_N2 : text :=
  (lit "Only lfsp_want, lfsp_filter and lfsp_got are used from the parameter
block.  lfsp_max_depth and lfsp_stats describe a traversal there is
none of and are ignored; lfsp_thread_count above 1 is refused rather
than ignored, because a caller setting it has misunderstood the call.
").

Definition tx1014_fix416_O3 : text :=
  (lit "llapi_find_device() clears lfsp_got.  scan_param_copyin() copies the
caller's block whole, so the caller's pointer came through and was
answered with find's own demand mask -- a mask for a question the
caller never asked.  The field's kernel-doc is rewritten with it, to
say that it is per scan rather than per library and why it is reached
through a pointer.

").

Definition tx1014_fix416_O4 : text :=
  (lit "that window, and a directory's rename logs no record for the objects
under it, so a changelog consumer would drop a live object for good.
The name is looked up again, three times at most: no name means the
object is gone, and a new name is gathered there.
").

Definition tx1014_fix416_N4 : text :=
  (lit "that window, and a directory's rename logs no record for the objects
under it, so a changelog consumer would drop a live object for good.
The name is looked up again, three times at most: no name means the
object is gone, and a new name is gathered there.  -ENOTDIR is retried
too: it is what a file made where a renamed directory was gives.
").

Definition tx1014_fix416_P159 : text :=
  (lit "llapi_find_device() clears lfsp_got.  scan_param_copyin() copies the
caller's block whole, so the caller's pointer came through and was
answered with find's own demand mask -- a mask for a question the
caller never asked.
").

Definition tx1014_fix416_P288 : text :=
  (lit "The kernel-doc of lfsp_got now says that it is per scan rather than
per library -- an OST answers LLAPI_SCAN_OWNER where an MDT answers
LLAPI_SCAN_LMV -- and why it is reached through a pointer.
llapi_scan_fid() ignores lfsp_search and lfsp_fsname as well, and its
page and kernel-doc say so.
").

(** [l.startswith(('Test-Parameters:', 'Signed-off-by:'))] *)
Definition trailer_line (l : text) : bool :=
  py_startswith l (lit "Test-Parameters:") || py_startswith l (lit "Signed-off-by:").

(** [next(k for k, l in enumerate(lines) if ..)] *)
Fixpoint trailer_index (lines : list text) : res nat :=
  match lines with
  | [] => Raise StopIteration
  | l :: lines' => if trailer_line l then Ok 0 else let! i := trailer_index lines' in Ok (S i)
  end.

Definition tx1014_fix416_add_para (m p : text) : res text :=
  let lines := py_split_on nl (rstrip_nl m) in
  let! i := trailer_index lines in
  Ok (rstrip_nl (py_join [nl] (take i lines)) ++ [nl; nl] ++ p ++ [nl] ++
      py_join [nl] (drop i lines) ++ [nl]).

Definition tx1014_fix416_msgfn (msg subj : text) : res (text * list string) :=
  if py_startswith subj (lit "LU-20650 llapi: fill a scan record for one FID") then
    for_rows assert_sub
      [Row "" tx1014_fix416_O1 tx1014_fix416_N1; Row "" tx1014_fix416_O2 tx1014_fix416_N2; Row "" tx1014_fix416_O3 []; Row "" tx1014_fix416_O4 tx1014_fix416_N4] msg []
  else if py_startswith subj (lit "LU-20611 llapi: run find over a device scan") then
    let! m := tx1014_fix416_add_para msg tx1014_fix416_P159 in Ok (m, [])
  else if py_startswith subj (lit "LU-20637 llapi: name a device scan's objects") then
    let! m := tx1014_fix416_add_para msg tx1014_fix416_P288 in Ok (m, [])
  else Ok (msg, []).

Definition tx1014_fix417_P : string :=
  "lustre/utils/liblustreapi_pfind.c".

Definition tx1014_fix417_C1O : text :=
  (lit " * It is asked here rather than in the callback because lfsc_filter sees each
 * delivery before any lookup, and the callback does not: an object already
 * printed is dropped before the lookup.
").

Definition tx1014_fix417_C1N : text :=
  (lit " * It is asked in lfsc_filter rather than in the callback.  Either runs
 * before the lookup, but a cut made here is counted in ss_filtered, with the
 * stream's own statistics.
").

Definition tx1014_fix417_C2O : text :=
  (lit "	 * Refused here and not in the callback, so a burst from before the
	 * window is never looked up: it would print an object that has not
	 * changed inside it.
").

Definition tx1014_fix417_C2N : text :=
  (lit "	 * A burst from before the window is refused before any lookup: looked
	 * up, it would print an object that has not changed inside it.
").

(** [\t+] and the like: the longest prefix of bytes that pass, and the rest. *)
Fixpoint span (f : ascii → bool) (s : text) : text * text :=
  match s with
  | c :: s' => if f c then let x := span f s' in (c :: x.1, x.2) else ([], s)
  | [] => ([], [])
  end.

(** [PAT] at the start of [s]: the tabs of the first group, the call of the second, the
    error of the third, and what follows the match.  The second group stops at the first
    semicolon, since nothing else in it can be one. *)
Definition tx1014_fix417_PAT (s : text) : option (text * text * text * text) :=
  let (tabs, s1) := span (Ascii.eqb "009") s in
  if bool_decide (tabs = []) then None else
  match strip_prefix (lit "llapi_error(LLAPI_MSG_ERROR | LLAPI_MSG_NO_ERRNO, 0,
") s1 with
  | None => None
  | Some s2 =>
      let (call, s3) := span (λ c, negb (Ascii.eqb c ";")) s2 in
      if negb (bool_decide (last call = Some ")"%char)) then None else
      match strip_prefix (lit ";
" ++ tabs ++ lit "rc = -E") s3 with
      | None => None
      | Some s4 =>
          let (name, s5) := span (λ c, let n := nat_of_ascii c in (65 <=? n) && (n <=? 90)) s4 in
          if bool_decide (name = []) then None else
          match strip_prefix (lit ";
") s5 with
          | None => None
          | Some rest => Some (tabs, call ++ lit ";", lit "-E" ++ name, rest)
          end
      end
  end.

(** What replaces a match. *)
Definition tx1014_fix417_new (tabs call err : text) : text :=
  tabs ++ lit "rc = " ++ err ++ lit ";
" ++ tabs ++ lit "llapi_error(LLAPI_MSG_ERROR | LLAPI_MSG_NO_ERRNO, rc,
" ++ call ++ [nl].

(** [PAT.sub(..)]; [k] bytes of a match are still to be passed over. *)
Fixpoint tx1014_fix417_sub (k : nat) (s : text) : text :=
  match s with
  | [] => []
  | c :: s' =>
      match k with
      | S k' => tx1014_fix417_sub k' s'
      | 0 =>
          match tx1014_fix417_PAT s with
          | Some (tabs, call, err, rest) =>
              tx1014_fix417_new tabs call err ++ tx1014_fix417_sub (length s' - length rest) s'
          | None => c :: tx1014_fix417_sub 0 s'
          end
      end
  end.

Definition tx1014_fix417_fn (path : string) (s subj : text) : res (text * list string) :=
  if negb (String.eqb path tx1014_fix417_P) then Ok (s, [])
  else Ok (tx1014_fix417_sub 0 (py_replace tx1014_fix417_C2O tx1014_fix417_C2N (py_replace tx1014_fix417_C1O tx1014_fix417_C1N s)), []).

Definition tx1014_fix418_R : list (string * list row) := [
  ("Documentation/man3/llapi_find_since.3", [
    Row ""
      (lit ".I fp_resolve
is set, there being no pathname to bound it with; and a predicate the record
cannot answer is counted undecided and reported once at the end rather than
guessed at. See
")
      (lit ".I fp_resolve
is set, there being no pathname to bound it with. A predicate the record can
never answer, such as
.B -size
or
.BR -perm ,
is refused with
.B -ENOTSUP
before the log is read unless
.I fp_resolve
is set;
.B -type
or
.B -name
on a record that does not carry the type or a name is counted undecided and
reported once at the end rather than guessed at. See
")]);
  ("lustre/utils/liblustreapi_pfind.c", [
    Row ""
      (lit " * refused rather than widened.  A predicate the record cannot answer
 * is counted undecided and reported at the end rather than guessed at.
")
      (lit " * refused rather than widened.  A predicate a record can never answer is
 * refused with -ENOTSUP unless --resolve is given; -type or -name on a
 * record that lacks them is counted undecided and reported at the end.
")]);
  ("Documentation/man1/lfs-find.1", [
    Row ""
      (lit ".I cr_index
belongs to one MDT and names a different instant on each of them. Nothing else
")
      (lit ".I cr_index
belongs to one MDT and names a different instant on each of them. Naming the
log that way makes it a
.B --changelog
search, answered as recorded rather than through the mount; see below.
Nothing else
")])
].

Definition tx1014_fix418_fn (path : string) (s subj : text) : res (text * list string) :=
  for_rows sub_in (dict_rows tx1014_fix418_R path) s [].

Definition tx1014_fix502_O1 : text :=
  (lit "So --since now passes find_since_pick() as the filter. The filter
").

Definition tx1014_fix502_N1 : text :=
  (lit "So --since now passes find_since_pre_cb(), a wrapper around
find_since_pick(), as the filter. The filter
").

Definition tx1014_fix502_O2 : text :=
  (lit "The warnings can differ a little. The fid2path and the statx() still
run before the filter, so an object that has gone, or one under a
directory the caller cannot search, is counted as before. Only a
failure in the gather itself is no longer counted for an object
outside the subtree: an open of a parent the caller cannot read, or
the object changing after the statx(). --changelog is not changed:
-name there tests the name the record carried, not the live one.
").

Definition tx1014_fix502_N2 : text :=
  (lit "The warnings can differ a little. The fid2path and the statx() still
run before the filter, so an object that has gone, or one under a
directory the caller cannot search, is counted as before. What changes
is an object inside the subtree that -name or -type rejects: a failure
in its gather -- an open of a parent the caller cannot read, or the
object changing after the statx() -- was counted and made the exit
status, and now it is not gathered at all, as a walk never gathers an
entry its pre-filter rejected. An object outside the subtree was not
counted before either.

--changelog must not take this filter when it meets this change: -name
there tests the name the record carried, not the live one.
").

Definition tx1014_fix502_fn (path : string) (s subj : text) : res (text * list string) :=
  Ok (s, []).

Definition tx1014_fix502_msgfn (msg subj : text) : res (text * list string) :=
  if py_startswith subj (lit "LU-20650 lfs: find --since, pick before the gather") then
    for_rows assert_sub [Row "" tx1014_fix502_O1 tx1014_fix502_N1; Row "" tx1014_fix502_O2 tx1014_fix502_N2] msg []
  else Ok (msg, []).

Definition tx1014_fix726_B : string :=
  "lustre/utils/liblustreapi_scan_batch.c".

(** Lines 7 to 85. *)
Definition tx1014_fix726_R_B_1 : list row := [
  Row ""
    (lit "	bool				  sb_nomem;	/* a copy could not */
	struct scan_arena_chunk		 *sb_arena;
};
")
    (lit "	bool				  sb_nomem;	/* a copy could not */
	struct scan_arena_chunk		 *sb_arena;
	struct scan_arena_chunk		 *sb_cur;	/* being filled */
};
");
  Row ""
    (lit "	/*
	 * The whole list is searched, not just the head: after a reset the
	 * chunks are empty but in no particular order, and a batch big
	 * enough to need a second chunk needs it again next time.  The list
	 * is a handful of entries -- one per SCAN_ARENA_CHUNK of payload in
	 * the largest batch so far -- so this is a walk of two or three.
	 */
	for (c = b->sb_arena; c != NULL; c = c->ac_next) {
		if (c->ac_used + len <= c->ac_cap) {
			p = c->ac_data + c->ac_used;
			c->ac_used += len;
			return p;
		}
	}

	cap = len > SCAN_ARENA_CHUNK ? len : SCAN_ARENA_CHUNK;
	c = malloc(sizeof(*c) + cap);
	if (c == NULL) {
		b->sb_nomem = true;
		return NULL;
	}
	c->ac_cap = cap;
	c->ac_used = len;
	c->ac_next = b->sb_arena;
	b->sb_arena = c;
	return c->ac_data;
")
    (lit "	/*
	 * The chunks fill in list order from sb_cur, which a reset rewinds
	 * to the head: the chunks before it are full and the ones after it
	 * empty, so an allocation does not walk the full ones however many
	 * chunks a batch of widely striped layouts needs.  A new chunk goes
	 * in after the cursor, where the next batch finds it in order.
	 */
	for (c = b->sb_cur; c != NULL; c = c->ac_next) {
		if (c->ac_used + len <= c->ac_cap) {
			b->sb_cur = c;
			p = c->ac_data + c->ac_used;
			c->ac_used += len;
			return p;
		}
	}

	cap = len > SCAN_ARENA_CHUNK ? len : SCAN_ARENA_CHUNK;
	c = malloc(sizeof(*c) + cap);
	if (c == NULL) {
		b->sb_nomem = true;
		return NULL;
	}
	c->ac_cap = cap;
	c->ac_used = len;
	if (b->sb_cur == NULL) {
		c->ac_next = b->sb_arena;
		b->sb_arena = c;
	} else {
		c->ac_next = b->sb_cur->ac_next;
		b->sb_cur->ac_next = c;
	}
	b->sb_cur = c;
	return c->ac_data;
");
  Row ""
    (lit "	for (c = b->sb_arena; c != NULL; c = c->ac_next)
		c->ac_used = 0;
	b->sb_count = 0;
")
    (lit "	for (c = b->sb_arena; c != NULL; c = c->ac_next)
		c->ac_used = 0;
	b->sb_cur = b->sb_arena;
	b->sb_count = 0;
")
].

(** Lines 87 to 98. *)
Definition tx1014_fix726_R_2_1 : list row := [
  Row ""
    (lit " * arrives that way too.
 */
struct llapi_scan_rec {
")
    (lit " * arrives that way too.
 *
 * A pointer field added here must also be copied by scan_batch_append(),
 * or a batch hands it out pointing into a buffer the scan has reused.
 */
struct llapi_scan_rec {
")
].

(** Lines 99 to 137. *)
Definition tx1014_fix726_R_3_1 : list row := [
  Row ""
    (lit ".SH NOTES
")
    (lit ".SH ERRORS
.TP 15
.B -EINVAL
.B llapi_scan_namespace_open()
was given a NULL
.I path
or
.IR hp ,
or a parameter block
.BR llapi_scan_namespace (3)
refuses;
.B llapi_scan_next()
was given a NULL handle,
.I recs
or
.IR nrecs .
.I recs
and
.I nrecs
are left as they were.
.TP 15
.B -ENOMEM
the handle, its batches or a record's copy could not be allocated.
.TP 15
.B -EBUSY
another thread is inside
.B llapi_scan_next()
on this handle;
.I recs
and
.I nrecs
are left as they were, and
.B llapi_scan_close()
frees nothing.
.SH NOTES
")
].

(** Lines 138 to 151. *)
Definition tx1014_fix726_R_4_1 : list row := [
  Row ""
    (lit "	if (n == 4) {
		sem_post(&t18_rejecting);
		usleep(200000);
	}
")
    (lit "	/* long enough that only a close that does not stop the walk lets the
	 * next object through, even on a loaded test node
	 */
	if (n == 4) {
		sem_post(&t18_rejecting);
		sleep(3);
	}
")
].

Definition tx1014_fix726_R : list (string * list row) := [
   (tx1014_fix726_B, tx1014_fix726_R_B_1);
   ("include/lustre/lustreapi.h", tx1014_fix726_R_2_1);
   ("Documentation/man3/llapi_scan_next.3", tx1014_fix726_R_3_1);
   ("lustre/tests/llapi_scan_test.c", tx1014_fix726_R_4_1)
].

Definition tx1014_fix726_fn (path : string) (s subj : text) : res (text * list string) :=
  for_rows sub_in (dict_rows tx1014_fix726_R path) s [].

Definition tx1014_fmt2_R : list (string * list row) := [
  ("lustre/utils/lustreapi_internal.h", [
    Row ""
      (lit " * lfsc_mnt are dereferenced as strings.  Rounded down to the last whole field, as the parameter
 * struct above is, so a short size means \qdeclared nothing from here on\q
 * rather than \qdeclared half a pointer\q.
")
      (lit " * lfsc_mnt are dereferenced as strings.  Rounded down to the last whole
 * field, as the parameter struct above is, so a short size means \qdeclared
 * nothing from here on\q rather than \qdeclared half a pointer\q.
")]);
  ("lustre/utils/liblustreapi_pfind.c", [
    Row ""
      (lit "		/* the copies below are bounded: a longer one would be cut short */
")
      (lit "		/* the copies below are bounded: longer would be cut short */
")])
].

Definition tx1014_fmt2_fn (path : string) (s subj : text) : res (text * list string) :=
  for_rows sub_in (dict_rows tx1014_fmt2_R path) s [].

Definition tx1014_hdrblank_O : text :=
  (lit "		      llapi_scan_cb_t cb, void *data);
/* llapi_scan_changelog() flags, lfsc_flags */
").

Definition tx1014_hdrblank_N : text :=
  (lit "		      llapi_scan_cb_t cb, void *data);

/* llapi_scan_changelog() flags, lfsc_flags */
").

Definition tx1014_hdrblank_fn (path : string) (s subj : text) : res (text * list string) :=
  if String.eqb path "include/lustre/lustreapi.h" then Ok (py_replace tx1014_hdrblank_O tx1014_hdrblank_N s, []) else Ok (s, []).

Definition tx1014_hdrmove_H : string :=
  "include/lustre/lustreapi.h".

Definition tx1014_hdrmove_START : text :=
  (lit "/* llapi_scan_changelog() flags, lfsc_flags */
").

Definition tx1014_hdrmove_DECL : text :=
  (lit "int llapi_scan_changelog(const struct llapi_scan_changelog_param *sc,
			 llapi_scan_cb_t cb, void *data);
").

Definition tx1014_hdrmove_RECP : text :=
  (lit "
int llapi_scan_rec_path(int mnt_fd, const char *mnt_path,
			const struct llapi_scan_rec *rec,
			char *buf, size_t buflen);
").

Definition tx1014_hdrmove_DEV : text :=
  (lit "int llapi_scan_device(const char *device, const struct llapi_scan_param *sp,
		      llapi_scan_cb_t cb, void *data);
").

Definition tx1014_hdrmove_fn (path : string) (s subj : text) : res (text * list string) :=
  if negb (String.eqb path tx1014_hdrmove_H) || negb (py_in tx1014_hdrmove_START s) then Ok (s, [])
  else if negb ((py_count tx1014_hdrmove_START s =? 1) && (py_count tx1014_hdrmove_DECL s =? 1) && (py_count tx1014_hdrmove_DEV s =? 1))
  then Raise (AssertionError "")
  else
    let! i := py_index tx1014_hdrmove_START s in
    let! j := py_index tx1014_hdrmove_DECL s in
    let j := j + length tx1014_hdrmove_DECL in
    let j := if py_startswith (drop j s) tx1014_hdrmove_RECP then j + length tx1014_hdrmove_RECP else j in
    let block := py_slice s i j in
    let s := take i s ++ drop j s in
    let! k := py_index tx1014_hdrmove_DEV s in
    let k := k + length tx1014_hdrmove_DEV in
    Ok (take k s ++ block ++ [nl] ++ drop k s, []).

Definition tx1014_msg300_O156 : text :=
  (lit "conf-sanity test_300 checks the MDS version. It fails, not skips, if
the scanner is missing, because that is a broken install. It skips the
OST part for a ZFS, unreachable or older OST, and says so.
").

Definition tx1014_msg300_N156 : text :=
  (lit "conf-sanity test_300a scans the MDT and test_300b the OST, each
checking its server's version. Each fails, not skips, if the scanner is
missing, because that is a broken install; 300b skips a ZFS,
unreachable or older OST rather than passing without scanning it.
").

Definition tx1014_msg300_O160 : text :=
  (lit "that --internal only adds objects. Where mds1 and ost1 are one ldiskfs
node, it runs --local with --ost and with --mdt while the targets are
mounted, and checks that each reads only targets of that type.
").

Definition tx1014_msg300_N160 : text :=
  (lit "that --internal only adds objects. test_300c runs --local with --ost
and with --mdt while the targets are mounted, and checks that each
reads only targets of that type; it skips unless mds1 and ost1 are one
ldiskfs node.
").

Definition tx1014_msg300_fn (path : string) (s subj : text) : res (text * list string) :=
  Ok (s, []).

Definition tx1014_msg300_msgfn (msg subj : text) : res (text * list string) :=
  if py_startswith subj (lit "LU-20606 llapi: scan an ldiskfs target directly") then
    for_rows assert_sub [Row "" tx1014_msg300_O156 tx1014_msg300_N156] msg []
  else if py_startswith subj (lit "LU-20611 lfs: find over a target, with --device") then
    for_rows assert_sub [Row "" tx1014_msg300_O160 tx1014_msg300_N160] msg []
  else Ok (msg, []).

Definition tx1014_rename_F : list text :=
  py_split (lit "endrec filter flags got max_cached mdtname min_age mnt padding size startrec stats type_mask user want").

(** [\bsc_(..)\b], each alternative with what [lfsc_\1] makes of it *)
Definition tx1014_rename_R : list (text * text) :=
  (λ f, (lit "sc_" ++ f, lit "lfsc_" ++ f)) <$> tx1014_rename_F.

(** ['/gss/' in path] *)
Definition tx1014_rename_in_gss (path : string) : bool := py_in (lit "/gss/") (String.list_ascii_of_string path).

Definition tx1014_rename_fn (path : string) (s subj : text) : res (text * list string) :=
  if tx1014_rename_in_gss path then Ok (s, []) else Ok (sub_words tx1014_rename_R s, []).

Definition tx1014_rename_msgfn (msg subj : text) : res (text * list string) :=
  Ok (sub_words tx1014_rename_R msg, []).

Definition tx1014_rename_fmt_R : list frow := [
  FRow "lustre/tests/llapi_scan_changelog_test.c"
   (Row ""
     (lit "	ASSERTF(got != 0, \qlfsc_got came back 0; the scan answers for something\q);
")
     (lit "	ASSERTF(got != 0,
		\qlfsc_got came back 0; the scan answers for something\q);
"))
   None;
  FRow "lustre/utils/liblustreapi_scan_changelog.c"
   (Row ""
     (lit "	 * Off the copy, and only after lfsc_size: lfsc_mdtname sits at the end of
	 * the minimum, so reading it off the caller's own struct first would
	 * read past a struct too short to carry it -- the size check is what
	 * establishes that it is there at all.
")
     (lit "	 * Off the copy, and only after lfsc_size: lfsc_mdtname sits at the end
	 * of the minimum, so reading it off the caller's own struct first
	 * would read past a struct too short to carry it -- the size check is
	 * what establishes that it is there at all.
"))
   None;
  FRow "lustre/utils/liblustreapi_scan_changelog.c"
   (Row ""
     (lit "		*scl.lfsc_got = scl.lfsc_want != 0 ? (scl.lfsc_want & known) : known;
")
     (lit "		*scl.lfsc_got = scl.lfsc_want != 0 ?
				(scl.lfsc_want & known) : known;
"))
   None;
  FRow "lustre/utils/liblustreapi_scan_changelog.c"
   (Row ""
     (lit "		rc = llapi_changelog_start(&sl->sl_priv, flags, scl.lfsc_mdtname,
					   (long long)scl.lfsc_startrec);
")
     (lit "		rc = llapi_changelog_start(&sl->sl_priv, flags,
					   scl.lfsc_mdtname,
					   (long long)scl.lfsc_startrec);
"))
   None;
  FRow "lustre/utils/liblustreapi_scan_changelog.c"
   (Row ""
     (lit "	if (sl->sl_stop_rc == 0 && (scl.lfsc_flags & LLAPI_SCAN_CL_F_COALESCE)) {
")
     (lit "	if (sl->sl_stop_rc == 0 &&
	    (scl.lfsc_flags & LLAPI_SCAN_CL_F_COALESCE)) {
"))
   None;
  FRow "lustre/utils/lustreapi_internal.h"
   (Row ""
     (lit " * The same, for struct llapi_scan_changelog_param.  Its minimum reaches
 * through lfsc_mdtname, but lfsc_user, lfsc_mnt, lfsc_stats and lfsc_got are pointers
 * beyond it, so a size stopping inside one of them would leave it half the
 * caller's bytes and half zero -- and lfsc_user and lfsc_mnt are dereferenced
 * as strings.")
     (lit " * The same, for struct llapi_scan_changelog_param.  Its minimum reaches
 * through lfsc_mdtname, but lfsc_user, lfsc_mnt, lfsc_stats and lfsc_got
 * are pointers beyond it, so a size stopping inside one of them would
 * leave it half the caller's bytes and half zero -- and lfsc_user and
 * lfsc_mnt are dereferenced as strings."))
   None;
  FRow "include/lustre/lustreapi.h"
   (Row ""
     (lit "	__u64			 lfsc_type_mask;	/* BIT(CL_*); 0: every type */
")
     (lit "	/* BIT(CL_*); 0: every type */
	__u64			 lfsc_type_mask;
"))
   None;
  FRow "include/lustre/lustreapi.h"
   (Row ""
     (lit "	__u32			 lfsc_max_cached;	/* objects held while
						 * coalescing; 0 = the default
						 */
")
     (lit "	/* objects held while coalescing; 0 = the default */
	__u32			 lfsc_max_cached;
"))
   None
].

Definition tx1014_rename_fmt_fn (path : string) (s subj : text) : res (text * list string) :=
  for_rows (at_path [] path sub_assert) tx1014_rename_fmt_R s [].

Definition tx1014_shardmsg_O288 : text :=
  (lit "directory is named through its master directory. A shard itself is
not in the namespace and is not reported, and llapi_scan_rec_path()
answers -ENOENT for one. Below an encrypted directory the linkea holds
the name the client encrypted, so such an object is counted as having
no pathname rather than printed as ciphertext. The pre-pass asks for
LLAPI_SCAN_LMV, and every search asks for LLAPI_SCAN_LMV_SHARD, which
also reads trusted.lmv.
llapi_scan_namespace.3 has a section on shards.
").

Definition tx1014_shardmsg_N288 : text :=
  (lit "directory is named through its master directory. A shard itself is
not in the namespace, and llapi_scan_rec_path() answers -ENOENT for
one. Below an encrypted directory the linkea holds the name the client
encrypted, so such an object is counted as having no pathname rather
than printed as ciphertext. The pre-pass asks for LLAPI_SCAN_LMV,
which is what tells a shard from a directory.
").

Definition tx1014_shardmsg_P159 : text :=
  (lit "A striped directory has a shard on each MDT it is striped over. A
shard has a normal FID, an LMA and a linkea of its own, so a search
over an MDT would report it as a directory, once per MDT. The device
gather marks one with LLAPI_SCAN_LMV_SHARD, from its LMV_MAGIC_STRIPE
trusted.lmv, and find_device_cb() skips it: the master answers for the
directory, once, as a walk does. llapi_scan_namespace.3 documents the
flag.
").

Definition tx1014_shardmsg_fn (path : string) (s subj : text) : res (text * list string) :=
  Ok (s, []).

Definition tx1014_shardmsg_msgfn (msg subj : text) : res (text * list string) :=
  if py_startswith subj (lit "LU-20637 llapi: name a device scan's objects") then
    for_rows assert_sub [Row "" tx1014_shardmsg_O288 tx1014_shardmsg_N288] msg []
  else if py_startswith subj (lit "LU-20611 llapi: run find over a device scan") then
    let lines := py_split_on nl (rstrip_nl msg) in
    let! i := trailer_index lines in
    let body := rstrip_nl (py_join [nl] (take i lines)) in
    Ok (body ++ [nl; nl] ++ tx1014_shardmsg_P159 ++ [nl] ++ py_join [nl] (drop i lines) ++ [nl], [])
  else Ok (msg, []).

Definition tx1014_t16_P : string :=
  "lustre/tests/llapi_scan_test.c".

Definition tx1014_t16_O : text :=
  (lit "		.lfsp_want = LLAPI_SCAN_FID | LLAPI_SCAN_UID | LLAPI_SCAN_LINKEA,
").

Definition tx1014_t16_N : text :=
  (lit "		.lfsp_want = LLAPI_SCAN_FID | LLAPI_SCAN_UID |
			     LLAPI_SCAN_LINKEA,
").

Definition tx1014_t16_fn (path : string) (s subj : text) : res (text * list string) :=
  if String.eqb path tx1014_t16_P then Ok (py_replace tx1014_t16_O tx1014_t16_N s, []) else Ok (s, []).

Definition tx1014_300c_rc_P : string :=
  "lustre/tests/conf-sanity.sh".

Definition tx1014_300c_rc_O : text :=
  (lit "	grep -q -- \q-OST\q $scan_err && {
		cat $scan_err
		error \qlfs find --local --mdt $mdtsvc read an OST\q
	}
}
run_test 300c ").

Definition tx1014_300c_rc_N : text :=
  (lit "	if grep -q -- \q-OST\q $scan_err; then
		cat $scan_err
		error \qlfs find --local --mdt $mdtsvc read an OST\q
	fi
}
run_test 300c ").

Definition tx1014_300c_rc_fn (path : string) (s subj : text) : res (text * list string) :=
  if String.eqb path tx1014_300c_rc_P then Ok (py_replace tx1014_300c_rc_O tx1014_300c_rc_N s, []) else Ok (s, []).
