(* ===== verification/Tx1014Tree.v ===== *)
(** Three more modules of docs/rounds/a-1014: tx_shard.py, whose tree_fn works on all files of
    a commit at once, tx_split300.py, which takes a shell test apart, and tx_emdash.py,
    whose table is computed with difflib. *)
From S2P Require Import Prelude PyStr PyParse R3Engine Rebuild Genfix TxEngine ForkTx.

Definition tx1014_shard_DEF : text :=
  (lit "#define LLAPI_SCAN_LMV_SHARD	0x0000800000000000ULL
").

Definition tx1014_shard_R : list (string * list row) := [
  ("include/lustre/lustreapi.h", [
    Row ""
      (lit "#define LLAPI_SCAN_LMV_FOREIGN	0x0000002000000000ULL
")
      ((lit "#define LLAPI_SCAN_LMV_FOREIGN	0x0000002000000000ULL
/*
 * A striped directory's shard, whose trusted.lmv is LMV_MAGIC_STRIPE: an
 * object with a linkea of its own -- name \q<DFID>:<index>\q, parent the
 * master -- that is not a directory the filesystem has a path for.  Set
 * without LLAPI_SCAN_LMV, there being no lmv_user_md form of it, and only
 * by a scan of a target: a namespace walk never sees a shard.  A consumer
 * composing pathnames steps over it to the master, as mdt_path_current()
 * does.
 */
") ++ tx1014_shard_DEF)]);
  ("lustre/utils/liblustreapi_scan_device.c", [
    Row ""
      (lit "	if (want & LLAPI_SCAN_LMV)
		xa |= LLAPI_SCAN_XA_BIT(LLAPI_SCAN_XA_LMV);
")
      (lit "	if (want & (LLAPI_SCAN_LMV | LLAPI_SCAN_LMV_SHARD))
		xa |= LLAPI_SCAN_XA_BIT(LLAPI_SCAN_XA_LMV);
");
    Row ""
      (lit "/*
 * The master object of a striped directory: trusted.lmv holding an
")
      (lit "/*
 * A striped directory's shard: its trusted.lmv is LMV_MAGIC_STRIPE, which
 * scan_lmv_to_user() has no user form for and answers 0 to.  It is worth
 * saying so anyway -- a shard has a linkea and looks like a directory to
 * anything walking one, and it is not a directory the filesystem has a path
 * for.
 */
static bool scan_lmv_is_shard(const void *disk, __u32 len)
{
	__u32 magic;

	if (len < sizeof(magic))
		return false;

	memcpy(&magic, disk, sizeof(magic));

	return __le32_to_cpu(magic) == LMV_MAGIC_STRIPE;
}

/*
 * The master object of a striped directory: trusted.lmv holding an
");
    Row ""
      (lit "				rec.lfsr_valid |= LLAPI_SCAN_LMV_FOREIGN;
		}
	}
")
      (lit "				rec.lfsr_valid |= LLAPI_SCAN_LMV_FOREIGN;
		} else if (scan_lmv_is_shard(val, len)) {
			/* no lfsr_lmv: there is no lmv_user_md for a shard.
			 * The bit is the whole answer, and what a consumer
			 * composing a pathname needs.
			 */
			rec.lfsr_valid |= LLAPI_SCAN_LMV_SHARD;
		}
	}
")]);
  ("lustre/utils/lustreapi_internal.h", [
    Row ""
      (lit "/* LLAPI_SCAN_LMV_FOREIGN describes lfsr_lmv, so asking for it asks for that */
static inline __u64 scan_want_widen(__u64 want)
{
	if (want & LLAPI_SCAN_LMV_FOREIGN)
")
      (lit "/* LMV_FOREIGN and LMV_SHARD are read from trusted.lmv, so both need LMV */
static inline __u64 scan_want_widen(__u64 want)
{
	if (want & (LLAPI_SCAN_LMV_FOREIGN | LLAPI_SCAN_LMV_SHARD))
");
    Row ""
      (lit "	 LLAPI_SCAN_LMV_FOREIGN |				\\
")
      (lit "	 LLAPI_SCAN_LMV_FOREIGN | LLAPI_SCAN_LMV_SHARD |		\\
");
    Row ""
      (lit "	(LLAPI_SCAN_LAYOUT | LLAPI_SCAN_LMV | LLAPI_SCAN_LMV_FOREIGN |	\\
	 LLAPI_SCAN_HSM |						\\
")
      (lit "	(LLAPI_SCAN_LAYOUT | LLAPI_SCAN_LMV | LLAPI_SCAN_LMV_FOREIGN |	\\
	 LLAPI_SCAN_LMV_SHARD | LLAPI_SCAN_HSM |			\\
")]);
  ("lustre/utils/liblustreapi_pfind.c", [
    Row ""
      (lit "		want |= printf_format_want(param->fp_format_printf_str, NULL);

	return want;
}
")
      (lit "		want |= printf_format_want(param->fp_format_printf_str, NULL);
	/* find_device_cb() skips a shard, so it has to know one */
	want |= LLAPI_SCAN_LMV_SHARD;

	return want;
}
");
    Row ""
      (lit "	int checked_type = 0;
	int rc;

	rc = find_device_prefilter(rec, param, &checked_type);
")
      (lit "	int checked_type = 0;
	int rc;

	/* a shard is part of its striped directory: the master answers */
	if (rec->lfsr_valid & LLAPI_SCAN_LMV_SHARD)
		return 0;

	rc = find_device_prefilter(rec, param, &checked_type);
")]);
  ("Documentation/man3/llapi_scan_namespace.3", [
    Row ""
      (lit ".TP
.B LLAPI_SCAN_MDT_INDEX
")
      (lit ".TP
.B LLAPI_SCAN_LMV_SHARD
The object is a striped directory's shard, whose
.B trusted.lmv
is
.BR LMV_MAGIC_STRIPE .
It carries no
.I lfsr_lmv
\\(em there is no
.B lmv_user_md
form of one \\(em so the bit is the whole answer. A shard has a linkea of its
own, naming the master as its parent and itself
.RI < DFID >: <index>,
and is not a directory the filesystem has a pathname for, so a consumer
composing pathnames steps through it to the master. Only
.BR llapi_scan_device (3)
reports it: a namespace walk never reaches a shard.
.TP
.B LLAPI_SCAN_MDT_INDEX
")]);
  ("Documentation/man3/llapi_find_device.3", [
    Row ""
      (lit "which object that is.
.SH RETURN VALUES
")
      (lit "which object that is.
.LP
A striped directory has a shard on each MDT it is striped over. The shards are
not reported: the master answers for the directory, once, as a walk does.
.SH RETURN VALUES
")])
].

Definition tx1014_shard_fn (path : string) (s subj : text) : res (text * list string) :=
  Ok (s, []).

Definition tx1014_shard_LUSTREAPI_H : string := "include/lustre/lustreapi.h".

(** [for p, reps in R.items()], the items of [out] in order *)
Fixpoint tx1014_shard_loop (R : list (string * list row)) (files : gmap string text)
    : res (list (string * text)) :=
  match R with
  | [] => Ok []
  | (p, reps) :: R' =>
      match files !! p with
      | None => Raise (KeyError p)
      | Some s =>
          let! x := for_rows assert_sub reps s [] in
          let! out := tx1014_shard_loop R' files in
          Ok ((p, x.1) :: out)
      end
  end.

Definition tx1014_shard_tree_fn (files : gmap string text) : res (list (string * text)) :=
  match files !! PFIND_C with
  | None => Ok []
  | Some s =>
      if negb (py_in (lit "int llapi_find_device(") s) then Ok []
      else if py_in tx1014_shard_DEF (default [] (files !! tx1014_shard_LUSTREAPI_H)) then Ok []
      else tx1014_shard_loop tx1014_shard_R files
  end.

Definition tx1014_split300_P : string :=
  "lustre/tests/conf-sanity.sh".

Definition tx1014_split300_OST_START : text :=
  (lit "	# an OST has no namespace, so what it delivers by default is its data
").

Definition tx1014_split300_SWEEP_START : text :=
  (lit "	# a --local sweep with --ost or --mdt reads only targets of that type,
").

(** [cut_if_block(s, start)] *)
Definition tx1014_split300_cut_if_block (s start : text) : res (text * text) :=
  let! i := py_index start s in
  let! j := py_index_from (lit "
	fi
") s i in
  let j := j + length (lit "
	fi
") in
  Ok (take i s ++ lstrip_nl (drop j s), py_slice s i j).

Definition tx1014_split300_dedent_line (l : text) : text :=
  if py_startswith l (lit "	") then drop 1 l else l.

Definition tx1014_split300_dedent (block : text) : text :=
  py_join [] (tx1014_split300_dedent_line <$> Genfix.splitlines block).

Definition py_rindex (sub s : text) : res nat :=
  match py_rfind sub s with Some i => Ok i | None => Raise (ValueError "substring not found") end.

Definition tx1014_split300_ost_old : text :=
  (lit "			if [[ \q$ost1_FSTYPE\q == zfs ]] &&
			   zfs_scan_unbuilt $scan_err; then
				echo \qnot scanning ost1: no zfs scan backend\q
			else
				cat $scan_err
				error \qscanning $(ostdevname 1) failed\q
			fi
").
Definition tx1014_split300_ost_new : text :=
  (lit "			[[ \q$ost1_FSTYPE\q == zfs ]] && zfs_scan_unbuilt $scan_err &&
				skip \qno zfs scan backend in this build\q
			cat $scan_err
			error \qscanning $(ostdevname 1) failed\q
").

Definition tx1014_split300_ost_body (block : text) (zfs : bool) : res text :=
  let! i := py_index (lit "	else
") block in
  let! j := py_rindex (lit "	fi
") block in
  let inner := py_slice block (i + length (lit "	else
")) j in
  if zfs then
    if negb (py_count tx1014_split300_ost_old inner =? 1) then Raise (AssertionError "")
    else Ok (tx1014_split300_dedent (py_replace tx1014_split300_ost_old tx1014_split300_ost_new inner))
  else Ok (tx1014_split300_dedent inner).

Definition tx1014_split300_t300b (block : text) (zfs : bool) : res text :=
  let fs := (if zfs then (lit "	[[ \q$ost1_FSTYPE\q == ldiskfs || \q$ost1_FSTYPE\q == zfs ]] ||
		skip \q$ost1_FSTYPE has no scan backend\q
") else (lit "	[ \q$ost1_FSTYPE\q == ldiskfs ] || skip \qldiskfs only test\q
")) in
  let errv := (if zfs then (lit "	local scan_err=$TMP/$tfile.scanerr
") else (lit "")) in
  let trap := (if zfs then (lit "
	stack_trap \qrm -f $TMP/$tfile.*\q
") else (lit "")) in
  let! body := tx1014_split300_ost_body block zfs in
  Ok ((lit "test_300b() {
") ++
    fs ++
    (lit "	remote_ost_nodsh && skip \qremote OST with nodsh\q
	(( OST1_VERSION >= $(version_code 2.17.58) )) ||
		skip \qNeed OST >= 2.17.58 for a target scan\q

	local scanner=${SCANNER:-$LUSTRE/tests/llapi_scan_device_test}
") ++
    errv ++
    trap ++
    (lit "
	is_mounted $MOUNT || setup_noconfig
	check_mount || error \qcheck_mount failed\q
	createmany -o $DIR/$tfile- 100 || error \qcreatemany failed\q
	stopall
	stack_trap setupall

	# an OST has no namespace, so what it delivers by default is its data
	# objects; a scan that returned nothing here would look like success
") ++
    body ++
    (lit "}
run_test 300b \qllapi_scan_device reads an OST's data objects\q
")).

Definition tx1014_split300_t300c (block : text) : res text :=
  let mark := (lit "	   [[ $(facet_active_host mds1) == $(facet_active_host ost1) ]]; then
") in
  let! i := py_index mark block in
  let! j := py_rindex (lit "	else
") block in
  let inner := py_slice block (i + length mark) j in
  Ok ((lit "test_300c() {
	# ldiskfs only: a ZFS pool in use is refused
	[[ \q$mds1_FSTYPE\q == ldiskfs && \q$ost1_FSTYPE\q == ldiskfs ]] ||
		skip \qldiskfs only test\q
	remote_mds_nodsh && skip \qremote MDS with nodsh\q
	(( MDS1_VERSION >= $(version_code 2.17.58) )) ||
		skip \qNeed MDS >= 2.17.58 for lfs find --local\q
	[[ $(facet_active_host mds1) == $(facet_active_host ost1) ]] ||
		skip \qmds1 and ost1 are not on one node\q

	local scan_err=$TMP/$tfile.scanerr

	stack_trap \qrm -f $scan_err\q
	is_mounted $MOUNT || setup_noconfig
	check_mount || error \qcheck_mount failed\q
	createmany -o $DIR/$tfile- 10 || error \qcreatemany failed\q

	# a --local sweep with --ost or --mdt reads only targets of that type,
	# so where one node serves both it skips the other type
") ++
    tx1014_split300_dedent inner ++
    (lit "}
run_test 300c \qlfs find --local --ost or --mdt reads only that type\q
")).

Definition tx1014_split300_zfs_old : text :=
  (lit "		if zfs_scan_unbuilt $scan_err; then
			echo \qlfs has no zfs scan backend in this build\q
		elif ! grep -q \qin use: pool imported\q $scan_err; then
").
Definition tx1014_split300_zfs_new : text :=
  (lit "		zfs_scan_unbuilt $scan_err &&
			skip \qlfs has no zfs scan backend in this build\q
		if ! grep -q \qin use: pool imported\q $scan_err; then
").

(** test_300a: what [split] makes of the rest once the OST and sweep blocks are cut. *)
Definition tx1014_split300_t300a (a : text) (zfs : bool) : res text :=
  let! a := (if zfs then
               if negb (py_count tx1014_split300_zfs_old a =? 1) then Raise (AssertionError "")
               else Ok (py_replace tx1014_split300_zfs_old tx1014_split300_zfs_new a)
             else Ok a) in
  let a := py_replace (lit "	# to answer; the sweep above runs only where mds1 and ost1 share a node.
")
    (lit "	# to answer; test_300c sweeps where mds1 and ost1 share a node.
") a in
  Ok (py_replace_n (lit "
run_test 300 ") (lit "
run_test 300a ") (py_replace_n (lit "test_300() {
") (lit "test_300a() {
") a 1) 1).

Definition tx1014_split300_split (v : text) : res text :=
  let zfs := py_in (lit "export_zpool ost1") v in
  let has_sweep := py_in tx1014_split300_SWEEP_START v in
  let! x := tx1014_split300_cut_if_block v tx1014_split300_OST_START in
  let! y := (if has_sweep then
               let! y := tx1014_split300_cut_if_block x.1 tx1014_split300_SWEEP_START in Ok (y.1, Some y.2)
             else Ok (x.1, None)) in
  let! a := tx1014_split300_t300a y.1 zfs in
  let! b := tx1014_split300_t300b x.2 zfs in
  let! out := (match y.2 with
               | Some sweep => let! c := tx1014_split300_t300c sweep in Ok (a ++ [nl] ++ b ++ [nl] ++ c)
               | None => Ok (a ++ [nl] ++ b)
               end) in
  if negb (py_in (lit "echo \qnot ") out) && negb (py_in (lit "echo \qlfs has no") out)
  then Ok out else Raise (AssertionError "").

Definition tx1014_split300_fn (path : string) (s subj : text) : res (text * list string) :=
  if negb (String.eqb path tx1014_split300_P) || negb (py_in (lit "test_300() {
") s) then Ok (s, [])
  else
    let! i := py_index (lit "test_300() {
") s in
    let! j := py_index_from (lit "
run_test 300 ") s i in
    let! j := py_index_from [nl] s (j + 1) in
    let j := j + 1 in
    let! t := tx1014_split300_split (py_slice s i j) in
    Ok (take i s ++ t ++ drop j s, []).


(** tx_emdash.py reads two directories of manual pages that are not in the repository:
    the names in them, and the texts of the files, are arguments. *)
Section emdash.
Context `{Difflib.Difflib}.
Context (listdir : list string) (orig new : string → option text).

Definition tx1014_emdash_PAGES : list (string * string) :=
  ("lfs-find.1", "Documentation/man1/lfs-find.1") ::
  omap (λ f, if String.eqb f "lfs-find.1" then None
             else Some (f, "Documentation/man3/" +:+ f)) listdir.

(** The loop over the opcodes of a page. *)
Definition tx1014_emdash_reps (a b : list text) : list row :=
  omap (λ op : Difflib.opcode,
    match Difflib.op_tag op with
    | Difflib.Equal => None
    | _ =>
        let lo := Difflib.op_i1 op - 2 in
        let hi := length a `min` (Difflib.op_i2 op + 2) in
        Some (Row "" (py_join [] (Difflib.slice a lo hi))
                (py_join [] (Difflib.slice a lo (Difflib.op_i1 op)) ++
                 py_join [] (Difflib.slice b (Difflib.op_j1 op) (Difflib.op_j2 op)) ++
                 py_join [] (Difflib.slice a (Difflib.op_i2 op) hi)))
    end) (Difflib.get_opcodes a b).

Definition tx1014_emdash_read (dir : string → option text) (f : string) : res (list text) :=
  match dir f with
  | Some s => Ok (Genfix.splitlines (R3.universal_newlines s))
  | None => Raise (FileNotFoundError f)
  end.

Fixpoint tx1014_emdash_loop (pages : list (string * string)) : res (list (string * list row)) :=
  match pages with
  | [] => Ok []
  | (f, path) :: pages' =>
      let! a := tx1014_emdash_read orig f in
      let! b := tx1014_emdash_read new f in
      let! MAP := tx1014_emdash_loop pages' in
      Ok ((path, tx1014_emdash_reps a b) :: MAP)
  end.

Definition tx1014_emdash_MAP : res (list (string * list row)) :=
  tx1014_emdash_loop tx1014_emdash_PAGES.

Definition tx1014_emdash_fn (MAP : list (string * list row)) (path : string) (s subj : text) : res (text * list string) :=
  for_rows sub_count (dict_rows MAP path) s [].
End emdash.
