(* ===== verification/Edits13.v ===== *)
(** docs/rounds/a-1013: edits_items126.py and edits_stats_out.py, which edit
    liblustreapi_pfind.c and a manual page in place.  Names are prefixed with [e126_] and
    [stats_].

    The scripts read with universal newlines and are given the paths of the files. *)
From S2P Require Import Prelude PyStr R3Engine TxEngine Tx1014.

(** ** edits_items126.py *)

(** [once(s, old, new, what)] *)
Definition e126_once (s old new : text) (what : string) : res text :=
  if py_in new s then Ok s
  else if negb (py_count old s =? 1) then Raise (AssertionError what)
  else Ok (py_replace old new s).

(** Items 2 and 1. *)
Definition e126_rows : list row := [
  Row "lmv_rejects"
    (lit "static bool find_lmv_rejects(const struct find_param *param, bool have_lmv)
{
	struct lmv_user_md *lmv = param->fp_lmv_md;

	if (!param->fp_get_lmv)
		return false;

	/* no stripe of its own: rejected unless --foreign is negated */
	if (!have_lmv && param->fp_check_foreign)
		return !param->fp_exclude_foreign;
")
    (lit "static bool find_lmv_rejects(const struct find_param *param, bool have_lmv,
			     bool not_foreign)
{
	struct lmv_user_md *lmv = param->fp_lmv_md;

	if (!param->fp_get_lmv)
		return false;

	/*
	 * No stripe of its own: rejected unless --foreign is negated.  A
	 * walk stops here, its caller printing the directory.  A scan passes
	 * @not_foreign and goes on to the other stripe tests.
	 */
	if (!have_lmv && param->fp_check_foreign && !not_foreign)
		return !param->fp_exclude_foreign;
");
  Row "comment"
    (lit "	 * save the getattr.  A target scan has the attributes already, so it
	 * goes on to the attribute tests.  The stripe tests (--mdt-count,
	 * --mdt-hash) stay skipped, as on a walk: see find_lmv_rejects().
	 */")
    (lit "	 * save the getattr.  A target scan has the attributes already, so it
	 * skips only the --foreign test and goes on to the others.
	 */");
  Row "call1"
    (lit "	if (find_lmv_rejects(param, fc->fc_rec->lfsr_valid & LLAPI_SCAN_LMV))
		return 0;")
    (lit "	if (find_lmv_rejects(param, fc->fc_rec->lfsr_valid & LLAPI_SCAN_LMV,
			     not_foreign))
		return 0;");
  Row "call2"
    (lit "find_lmv_rejects(param, have_lmv))")
    (lit "find_lmv_rejects(param, have_lmv, false))");
  Row "btime"
    (lit "			 * ! -btime does match it, as for find(1) and as for
			 * --projid above: the negation of a false test.
			 */
			if (param->fp_exclude_btime)
				goto btime_done;
			if (path == NULL)
				fc->fc_undecided = true;
			return 0;
")
    (lit "			 * ! -btime does match it, as for find(1) and as for
			 * --projid above: the negation of a false test.
			 *
			 * Not on a target scan.  Over a mount the MDS gives
			 * such an inode a birth time of 0, so a walk answers
			 * both forms from that.  The scan cannot say what the
			 * mount would, and counts both forms undecided.
			 */
			if (path == NULL) {
				fc->fc_undecided = true;
				return 0;
			}
			if (param->fp_exclude_btime)
				goto btime_done;
			return 0;
")
].

(** Item 6, inside llapi_find_device(). *)
Definition e126_device_rows : list row := [
  Row "decl"
    (lit "	struct llapi_scan_stats stats = { .ss_size = sizeof(stats) };
")
    (lit "	struct llapi_scan_stats stats = { .ss_size = sizeof(stats) };
	struct llapi_scan_stats *ustats = NULL;	/* the caller's, if any */
");
  Row "copyin"
    (lit "		rc = scan_param_copyin(&spl, sp, LLAPI_SCAN_F_KNOWN_DEV);
		if (rc != 0)
			return rc;
	}
")
    (lit "		rc = scan_param_copyin(&spl, sp, LLAPI_SCAN_F_KNOWN_DEV);
		if (rc != 0)
			return rc;
		/* filled after the scan, as llapi_scan_device() fills it */
		ustats = spl.lfsp_stats;
		if (ustats != NULL &&
		    ustats->ss_size < LLAPI_SCAN_STATS_MIN_SIZE)
			return -EINVAL;
	}
")
].

Fixpoint e126_all (rows : list row) (s : text) : res text :=
  match rows with
  | [] => Ok s
  | r :: rows' => let! t := e126_once s (r_old r) (r_new r) (r_tag r) in e126_all rows' t
  end.

Definition e126_out : text :=
  (lit "	/*
	 * The scan's counters, so a program can see a partial answer and
	 * not only a message: ss_skipped is what could not be read.
	 * ss_emitted counts the records the search judged, not its matches.
	 */
	if (ustats != NULL) {
		__u32 size = ustats->ss_size;

		if (size > sizeof(stats))
			size = sizeof(stats);
		size = scan_stats_whole(size);
		stats.ss_size = size;
		memcpy(ustats, &stats, size);
		stats.ss_size = sizeof(stats);
	}
").

(** The regular expression of the scan call, at the start of [s]: what follows the match.
    [[^;]*] stops at the first semicolon. *)
Definition e126_call (s : text) : option text :=
  match strip_prefix (lit "	rc = ") s with
  | None => None
  | Some s1 =>
      match (match strip_prefix (lit "llapi_scan_device") s1 with
             | Some r => Some r | None => strip_prefix (lit "scan_device_run_prepass") s1 end) with
      | None => None
      | Some s2 =>
          match strip_prefix (lit "(target, &spl, find_device_cb, &st") s2 with
          | None => None
          | Some s3 => strip_prefix (lit ";
") (span (λ c, negb (Ascii.eqb c ";")) s3).2
          end
      end
  end.

(** [re.finditer]: where the matches end; [k] bytes of a match are still to be passed over. *)
Fixpoint e126_calls (pos k : nat) (s : text) : list nat :=
  match s with
  | [] => []
  | _ :: s' =>
      match k with
      | S k' => e126_calls (S pos) k' s'
      | 0 => match e126_call s with
             | Some rest => (pos + (length s - length rest)) ::
                            e126_calls (S pos) (length s' - length rest) s'
             | None => e126_calls (S pos) 0 s'
             end
      end
  end.

Definition e126_pfind (s : text) : res text :=
  let! s := e126_all e126_rows s in
  let! i := py_index (lit "
int llapi_find_device(") s in
  let head := take i s in
  let! f := e126_all e126_device_rows (drop i s) in
  if py_in e126_out f then Ok (head ++ f)
  else match e126_calls 0 0 f with
       | [e] => Ok (head ++ take e f ++ e126_out ++ drop e f)
       | _ => Raise (AssertionError "scan call")
       end.

Definition e126_STATS : text :=
  (lit ".I lfsp_stats
is filled as
.BR llapi_scan_device (3)
fills it, so a program can see that part of the target was skipped.
Its
.I ss_emitted
counts the objects the search judged, not the ones it matched.
").

Definition e126_v1 : text :=
  (lit "as it does for a scan.  Four of its fields are the search's to decide and
are overwritten whatever the caller set:
.IR lfsp_want ,
.IR lfsp_thread_count ,
.I lfsp_stats
and
.IR lfsp_filter .
The last goes because there is no caller data to pair a filter with: the
").

Definition e126_v2 : text :=
  (lit "as it does for a scan.  Five of its fields are the search's to decide and
are overwritten whatever the caller set:
.IR lfsp_want ,
.IR lfsp_thread_count ,
.IR lfsp_stats ,
.I lfsp_filter
and
.IR lfsp_got .
").

Definition e126_v1_new : text :=
  (lit "as it does for a scan.  Three of its fields are the search's to decide and
are overwritten whatever the caller set:
.IR lfsp_want ,
.I lfsp_thread_count
and
.IR lfsp_filter .
") ++
   e126_STATS ++
   (lit ".I lfsp_filter
goes because there is no caller data to pair a filter with: the
").

Definition e126_v2_new : text :=
  (lit "as it does for a scan.  Four of its fields are the search's to decide and
are overwritten whatever the caller set:
.IR lfsp_want ,
.IR lfsp_thread_count ,
.I lfsp_filter
and
.IR lfsp_got .
") ++
   e126_STATS.

Definition e126_man (s : text) : res text :=
  if py_in e126_STATS s then Ok s
  else if py_in e126_v1 s then Ok (py_replace e126_v1 e126_v1_new s)
  else if negb (py_count e126_v2 s =? 1) then Raise (AssertionError "man v2")
  else Ok (py_replace e126_v2 e126_v2_new s).

(** [for path, fn in ..]: the files as they are left. *)
Fixpoint e126_loop (fs : list (string * (text → res text))) (tree : gmap string text)
    : gmap string text * res unit :=
  match fs with
  | [] => (tree, Ok ())
  | (path, fn) :: fs' =>
      match tree !! path with
      | None => (tree, Raise (FileNotFoundError path))
      | Some bytes =>
          let s := R3.universal_newlines bytes in
          match fn s with
          | Raise e => (tree, Raise e)
          | Ok t => e126_loop fs' (if bool_decide (t = s) then tree else <[path := t]> tree)
          end
      end
  end.

Definition e126 (argv1 argv2 : string) (tree : gmap string text) : gmap string text * res unit :=
  e126_loop [(argv1, e126_pfind); (argv2, e126_man)] tree.

(** ** edits_stats_out.py *)

Definition stats_OLD : text :=
  (lit "	/*
	 * The scan's counters, so a program can see a partial answer and
	 * not only a message: ss_skipped is what could not be read.
	 * ss_emitted counts the records the search judged, not its matches.
	 */
	if (ustats != NULL) {
		__u32 size = ustats->ss_size;

		if (size > sizeof(stats))
			size = sizeof(stats);
		size = scan_stats_whole(size);
		stats.ss_size = size;
		memcpy(ustats, &stats, size);
		stats.ss_size = sizeof(stats);
	}
").

Definition stats_NEW : text :=
  (lit "	/*
	 * The scan's counters, so a program can see a partial answer and
	 * not only a message: ss_skipped is what could not be read.
	 * ss_emitted counts the records the search judged, not its matches.
	 * Here, so a target that was skipped answers zeros and not the
	 * counters of the caller's previous call.
	 */
	if (ustats != NULL) {
		__u32 size = ustats->ss_size;

		if (size > sizeof(stats))
			size = sizeof(stats);
		size = scan_stats_whole(size);
		stats.ss_size = size;
		memcpy(ustats, &stats, size);
	}
").

Definition stats_V1 : text :=
  (lit " * Four fields are the search's to decide and are overwritten whatever the
 * caller set: lfsp_want (the predicates decide it), lfsp_thread_count,
 * lfsp_stats and lfsp_filter.  lfsp_filter goes because this function has
 * no void *data of its own to give it: the scan carries find's state, and a
 * caller's callback would be handed that and read it as its own context.
").

Definition stats_V1N : text :=
  (lit " * Three fields are the search's to decide and are overwritten whatever the
 * caller set: lfsp_want (the predicates decide it), lfsp_thread_count
 * and lfsp_filter.  lfsp_filter goes because this function has
 * no void *data of its own to give it: the scan carries find's state, and a
 * caller's callback would be handed that and read it as its own context.
 * lfsp_stats is filled as llapi_scan_device() fills it.
").

Definition stats_V2 : text :=
  (lit " * Five fields are the search's to decide and are overwritten whatever the
 * caller set: lfsp_want (the predicates decide it), lfsp_thread_count,
 * lfsp_stats, lfsp_filter and lfsp_got.  lfsp_filter goes because this
 * function has no void *data of its own to give it: the scan carries find's
 * state, and a caller's callback would be handed that and read it as its own
 * context.
").

Definition stats_V2N : text :=
  (lit " * Four fields are the search's to decide and are overwritten whatever the
 * caller set: lfsp_want (the predicates decide it), lfsp_thread_count,
 * lfsp_filter and lfsp_got.  lfsp_filter goes because this
 * function has no void *data of its own to give it: the scan carries find's
 * state, and a caller's callback would be handed that and read it as its own
 * context.  lfsp_stats is filled as llapi_scan_device() fills it.
").

(** The block moved to [out:] in llapi_find_device(). *)
Definition stats_f (f : text) : res text :=
  if py_in stats_NEW f then Ok f
  else if negb (py_count stats_OLD f =? 1) then Raise (AssertionError "old block")
  else
    let f := py_replace stats_OLD [] f in
    let! j := py_index (lit "
out:
") f in
    let j := j + length (lit "
out:
") in
    Ok (take j f ++ stats_NEW ++ drop j f).

(** The kernel-doc above it. *)
Definition stats_head (head : text) : res text :=
  if py_in stats_V1N head || py_in stats_V2N head then Ok head
  else if py_in stats_V1 head then Ok (py_replace stats_V1 stats_V1N head)
  else if negb (py_count stats_V2 head =? 1) then Raise (AssertionError "kernel-doc")
  else Ok (py_replace stats_V2 stats_V2N head).

Definition stats_text (s : text) : res text :=
  let! i := py_index (lit "
int llapi_find_device(") s in
  let! f := stats_f (drop i s) in
  let! head := stats_head (take i s) in
  Ok (head ++ f).

(** The script: the file is written back whatever it holds. *)
Definition stats_out (p : string) (tree : gmap string text) : gmap string text * res unit :=
  match tree !! p with
  | None => (tree, Raise (FileNotFoundError p))
  | Some bytes =>
      match stats_text (R3.universal_newlines bytes) with
      | Raise e => (tree, Raise e)
      | Ok t => (<[p := t]> tree, Ok ())
      end
  end.
