(* ===== verification/TxEarlier.v ===== *)
(** The modules of docs/rounds/a-1014, a-1017 and a-1018, and tx_1019.py and tx_1019b.py, as
    forktx.py to forktx4.py load them; which of them may run twice, which refuse to, and that the
    loop of tx_lrv.py ends. *)
From S2P Require Import Prelude PyStr Stable PyRe TxEngine TxFacts ForkTx Tx1017 Tx1018 Tx1018Review Tx1019 Tx1014.

(** ** The modules *)

(** What the driver sees of a module: the texts. *)
Definition mod4 (fn : bool → string → text → text → res (text * list string))
    (msgfn : option (text → text → res (text * list string))) : txmod :=
  TxMod (λ has path s subj, let! x := fn has path s subj in Ok x.1)
        ((λ f _ msg subj, let! x := f msg subj in Ok x.1) <$> msgfn).

Definition mod_1014_rootfid : txmod := mod4 (λ _, tx1014_rootfid_fn) None.
Definition mod_1014_lma : txmod := mod4 (λ _, tx1014_lma_fn) None.
Definition mod_1014_emdash2 : txmod := mod4 (λ _, tx1014_emdash2_fn) None.
Definition mod_1014_fix159 : txmod := mod4 (λ _, tx1014_fix159_fn) None.
Definition mod_1014_fix288 : txmod := mod4 (λ _, tx1014_fix288_fn) None.
Definition mod_1014_fix415 : txmod := mod4 (λ _, tx1014_fix415_fn) None.
Definition mod_1014_fix416 : txmod := mod4 (λ _, tx1014_fix416_fn) (Some tx1014_fix416_msgfn).
Definition mod_1014_fix417 : txmod := mod4 (λ _, tx1014_fix417_fn) None.
Definition mod_1014_fix418 : txmod := mod4 (λ _, tx1014_fix418_fn) None.
Definition mod_1014_fix502 : txmod := mod4 (λ _, tx1014_fix502_fn) (Some tx1014_fix502_msgfn).
Definition mod_1014_fix726 : txmod := mod4 (λ _, tx1014_fix726_fn) None.
Definition mod_1014_fmt2 : txmod := mod4 (λ _, tx1014_fmt2_fn) None.
Definition mod_1014_hdrblank : txmod := mod4 (λ _, tx1014_hdrblank_fn) None.
Definition mod_1014_hdrmove : txmod := mod4 (λ _, tx1014_hdrmove_fn) None.
Definition mod_1014_msg300 : txmod := mod4 (λ _, tx1014_msg300_fn) (Some tx1014_msg300_msgfn).
Definition mod_1014_rename : txmod := mod4 (λ _, tx1014_rename_fn) (Some tx1014_rename_msgfn).
Definition mod_1014_rename_fmt : txmod := mod4 (λ _, tx1014_rename_fmt_fn) None.
Definition mod_1014_shardmsg : txmod := mod4 (λ _, tx1014_shardmsg_fn) (Some tx1014_shardmsg_msgfn).
Definition mod_1014_t16 : txmod := mod4 (λ _, tx1014_t16_fn) None.
Definition mod_1014_300c_rc : txmod := mod4 (λ _, tx1014_300c_rc_fn) None.

Definition mod_1017_156 : txmod := mod4 (λ _, tx1017_156_fn) None.
Definition mod_1017_158 : txmod := mod4 (λ _, tx1017_158_fn) (Some tx1017_158_msgfn).
Definition mod_1017_159msg : txmod := mod4 (λ _, tx1017_159msg_fn) (Some tx1017_159msg_msgfn).
Definition mod_1017_163man : txmod := mod4 (λ _, tx1017_163man_fn) None.
Definition mod_1017_288 : txmod := mod4 (λ _, tx1017_288_fn) None.
Definition mod_1017_300a_skip : txmod := mod4 (λ _, tx1017_300a_skip_fn) None.
Definition mod_1017_300c_split : txmod := mod4 (λ _, tx1017_300c_split_fn) None.
Definition mod_1017_415_416_417 : txmod := mod4 tx1017_415_416_417_fn (Some tx1017_415_416_417_msgfn).
Definition mod_1017_501msg : txmod := mod4 (λ _, tx1017_501msg_fn) (Some tx1017_501msg_msgfn).
Definition mod_1017_502 : txmod := mod4 (λ _, tx1017_502_fn) (Some tx1017_502_msgfn).
Definition mod_1017_726race : txmod := mod4 (λ _, tx1017_726race_fn) None.
Definition mod_1017_lrv : txmod := mod4 (λ _, tx1017_lrv_fn) (Some tx1017_lrv_msgfn).
Definition mod_1017_shardwiden : txmod := mod4 (λ _, tx1017_shardwiden_fn) None.

Definition mod_1018_156 : txmod := mod4 (λ _, tx1018_156_fn) (Some tx1018_156_msgfn).
Definition mod_1018_159 : txmod := mod4 (λ _, tx1018_159_fn) (Some tx1018_159_msgfn).
Definition mod_1018_160_163 : txmod := mod4 (λ _, tx1018_160_163_fn) None.
Definition mod_1018_288 : txmod := mod4 tx1018_288_fn (Some tx1018_288_msgfn).
Definition mod_1018_415_416 : txmod := mod4 (λ _, tx1018_415_416_fn) (Some tx1018_415_416_msgfn).
Definition mod_1018_419 : txmod := mod4 (λ _, tx1018_419_fn) (Some tx1018_419_msgfn).
Definition mod_1018_b : txmod := mod4 (λ _, tx1018_b_fn) (Some tx1018_b_msgfn).
Definition mod_1018_c : txmod := mod4 (λ _, tx1018_c_fn) (Some tx1018_c_msgfn).
Definition mod_1018_d : txmod := mod4 (λ _, tx1018_d_fn) (Some tx1018_d_msgfn).
Definition mod_1018_e : txmod := mod4 (λ _, tx1018_e_fn) None.
Definition mod_1018_f1 : txmod := mod4 (λ _, tx1018_f1_fn) (Some tx1018_f1_msgfn).
Definition mod_1018_f2 : txmod := mod4 (λ _, tx1018_f2_fn) None.
Definition mod_1018_f3 : txmod := mod4 (λ _, tx1018_f3_fn) None.
Definition mod_1018_f4 : txmod := mod4 (λ _, tx1018_f4_fn) (Some tx1018_f4_msgfn).
Definition mod_1018_g1 : txmod := mod4 (λ _, tx1018_g1_fn) (Some tx1018_g1_msgfn).
Definition mod_1018_g2 : txmod := mod4 (λ _, tx1018_g2_fn) (Some tx1018_g2_msgfn).
Definition mod_1019 : txmod := mod4 (λ _, tx1019_fn) (Some tx1019_msgfn).
Definition mod_1019b : txmod := mod4 (λ _, tx1019b_fn) (Some tx1019b_msgfn).

(** ** Tables by file *)

Lemma dict_rows_elem {A : Type} (d : list (string * list A)) k :
  dict_rows d k = [] ∨ (k, dict_rows d k) ∈ d.
Proof.
  unfold dict_rows, dict_get. destruct (List.find _ d) as [[k' l]|] eqn:E; simpl; [right|by left].
  apply find_some in E as [Hin He]. apply bool_decide_eq_true in He. simpl in He. subst k'.
  by apply list_elem_of_In.
Qed.

(** Every row of every file is settled after one pass. *)
Definition dict_settled (look : string → row → arow) (d : list (string * list row)) : bool :=
  forallb (λ e, forallb nonempty (look e.1 <$> e.2) &&
                match unchecked (look e.1 <$> e.2) with [] => true | _ => false end) d.

Section dict.
Context (look : string → row → arow) (body : row → text → outcome).
Context (look_path : ∀ p r, a_path (look p r) = p).
Context (look_law : ∀ p r, body_law (look p r) (body r)).

Lemma rows_again p l s hits t h hits' :
  forallb nonempty (look p <$> l) = true → unchecked (look p <$> l) = [] →
  for_rows body l s hits = Ok (t, h) → for_rows body l t hits' = Ok (t, hits').
Proof.
  intros Hne Hu Hr.
  apply (for_rows_again (look p) body (λ _, true) p (λ r _, look_path p r) l s hits t h hits');
    [intros; apply look_law|done|exact Hr|].
  unfold doubts. rewrite Hu. by intros o ?%not_elem_of_nil.
Qed.

Lemma dict_again d p s hits t h hits' :
  dict_settled look d = true →
  for_rows body (dict_rows d p) s hits = Ok (t, h) →
  for_rows body (dict_rows d p) t hits' = Ok (t, hits').
Proof.
  intros Hd. destruct (dict_rows_elem d p) as [->|Hin]; [by intros [= <- <-]|].
  unfold dict_settled in Hd. rewrite forallb_forall in Hd.
  specialize (Hd _ (proj1 (list_elem_of_In _ _) Hin)). cbn [fst snd] in Hd. bools.
  apply (rows_again p); [done|]. by destruct (unchecked _).
Qed.
End dict.

Lemma sub_in_dict_again d p s hits t h hits' :
  dict_settled plain d = true →
  for_rows sub_in (dict_rows d p) s hits = Ok (t, h) →
  for_rows sub_in (dict_rows d p) t hits' = Ok (t, hits').
Proof. apply dict_again; [done|]. intros; apply sub_in_law. Qed.

Lemma sub_assert_dict_again d p s hits t h hits' :
  dict_settled plain d = true →
  for_rows sub_assert (dict_rows d p) s hits = Ok (t, h) →
  for_rows sub_assert (dict_rows d p) t hits' = Ok (t, hits').
Proof. apply dict_again; [done|]. intros; apply sub_assert_law. Qed.

(** ** Modules that may run twice *)

(** [fn] of the module, after itself. *)
Definition fn_repeats (fn : bool → string → text → text → res (text * list string)) : Prop :=
  ∀ has path s subj t h subj', fn has path s subj = Ok (t, h) → fn has path t subj' = Ok (t, []).

Lemma mod4_repeats fn msgfn has path s subj t subj' :
  fn_repeats fn → tx_fn (mod4 fn msgfn) has path s subj = Ok t →
  tx_fn (mod4 fn msgfn) has path t subj' = Ok t.
Proof.
  intros Hf ([u h] & Hu & [= <-])%res_bind_Ok. cbn [tx_fn mod4 fst]. by rewrite (Hf _ _ _ _ _ _ subj' Hu).
Qed.

Lemma dict_fn_repeats d (fn : bool → string → text → text → res (text * list string)) :
  dict_settled plain d = true → (∀ has path s subj, fn has path s subj = for_rows sub_in (dict_rows d path) s []) →
  fn_repeats fn.
Proof. intros Hd Hfn has path s subj t h subj'. rewrite !Hfn. by apply sub_in_dict_again. Qed.

Lemma dict_assert_fn_repeats d (fn : bool → string → text → text → res (text * list string)) :
  dict_settled plain d = true →
  (∀ has path s subj, fn has path s subj = for_rows sub_assert (dict_rows d path) s []) →
  fn_repeats fn.
Proof. intros Hd Hfn has path s subj t h subj'. rewrite !Hfn. by apply sub_assert_dict_again. Qed.

(** One row for one file. *)
Lemma one_fn_repeats (body : row → text → outcome) p r (fn : bool → string → text → text → res (text * list string)) :
  (∀ r, body_law (plain p r) (body r)) → forallb nonempty [plain p r] = true → unchecked [plain p r] = [] →
  (∀ has path s subj, fn has path s subj = if String.eqb path p then for_rows body [r] s [] else Ok (s, [])) →
  fn_repeats fn.
Proof.
  intros HL Hne Hu Hfn has path s subj t h subj'. rewrite !Hfn. destruct (String.eqb path p); [|by intros [= <- <-]].
  intros Hr. apply (for_rows_again (plain p) body (λ _, true) p (λ r _, eq_refl) [r] s [] t h []);
    [intros; apply HL|done|exact Hr|]. unfold doubts. rewrite fmap_cons, fmap_nil, Hu. by intros o ?%not_elem_of_nil.
Qed.

Lemma idle_repeats (fn : bool → string → text → text → res (text * list string)) :
  (∀ has path s subj, fn has path s subj = Ok (s, [])) → fn_repeats fn.
Proof. intros Hfn has path s subj t h subj'. by rewrite !Hfn. Qed.

(** [s.replace(O, N) if path == P else s] *)
Lemma replace_fn_repeats o n p (fn : bool → string → text → text → res (text * list string)) :
  o ≠ [] → self_clearing o n = true →
  (∀ has path s subj, fn has path s subj =
     if String.eqb path p then Ok (py_replace o n s, []) else Ok (s, [])) →
  fn_repeats fn.
Proof.
  intros Hne Hsc Hfn has path s subj t h subj'. rewrite !Hfn.
  destruct (String.eqb path p); [|by intros [= <- <-]]. intros [= <- _].
  unfold py_replace at 1. by rewrite replace_absent by (done || by apply replace_clears).
Qed.

(** A table for one file. *)
Lemma list_fn_repeats p (l : list row) (fn : bool → string → text → text → res (text * list string)) :
  forallb nonempty (plain p <$> l) = true → unchecked (plain p <$> l) = [] →
  (∀ has path s subj, fn has path s subj =
     if negb (String.eqb path p) then Ok (s, []) else for_rows sub_in l s []) →
  fn_repeats fn.
Proof.
  intros Hne Hu Hfn has path s subj t h subj'. rewrite !Hfn.
  destruct (negb (String.eqb path p)); [by intros [= <- <-]|].
  intros Hr. eapply (rows_again plain sub_in); [done|intros; apply sub_in_law|exact Hne|exact Hu|exact Hr].
Qed.

Lemma tx1014_rename_repeats : fn_repeats (λ _, tx1014_rename_fn).
Proof.
  intros has path s subj t h subj'. unfold tx1014_rename_fn.
  destruct (tx1014_rename_in_gss path); [by intros [= <- <-]|]. intros [= <- _].
  rewrite sub_words_again; [done|vm_compute; reflexivity].
Qed.

Lemma tx1018_g1_repeats : fn_repeats (λ _, tx1018_g1_fn).
Proof.
  intros has path s subj t h subj'. unfold tx1018_g1_fn.
  apply (dict_again plain (λ r, sub_assert (Row (basename path) (r_old r) (r_new r))));
    [done| |vm_compute; reflexivity].
  intros p r. apply (sub_assert_law p (Row (basename path) (r_old r) (r_new r))).
Qed.

Lemma tx1019b_repeats : fn_repeats (λ _, tx1019b_fn).
Proof.
  intros has path s subj t h subj' Hr.
  apply (for_rows_again (λ r, inserts (f_path r) Once (f_row r)) (λ r, sub_assert_skip (f_row r))
           (λ r, String.eqb (f_path r) path && gate_ok [] (f_gate r)) path) with s [] h;
    [by intros r [Hp%String.eqb_eq _]%andb_true_iff|intros; apply sub_assert_skip_law|
     vm_compute; reflexivity|exact Hr|].
  assert (doubts (λ r, inserts (f_path r) Once (f_row r)) tx1019b_R = []) as -> by (vm_compute; reflexivity).
  by intros o ?%not_elem_of_nil.
Qed.

Definition repeatable : list txmod :=
  [mod_1017_156; mod_1017_159msg; mod_1017_163man; mod_1017_300a_skip; mod_1017_300c_split;
   mod_1017_501msg; mod_1017_502; mod_1017_726race; mod_1017_shardwiden; mod_1018_156;
   mod_1018_160_163; mod_1018_c; mod_1018_e; mod_1018_f2; mod_1018_f3; mod_1018_g1; mod_1018_g2; mod_1019b;
   mod_1014_rootfid; mod_1014_lma; mod_1014_fix159; mod_1014_fix288; mod_1014_fix415; mod_1014_fix416;
   mod_1014_fix418; mod_1014_fmt2; mod_1014_hdrblank; mod_1014_rename; mod_1014_t16; mod_1014_300c_rc].

Ltac by_dict lem d := apply (lem d); [vm_compute; reflexivity|reflexivity].
Ltac by_replace o n p := apply (replace_fn_repeats o n p); [by vm_compute|vm_compute; reflexivity|reflexivity].
Ltac by_one body law p r := apply (one_fn_repeats body p r); [intros; apply law|vm_compute; reflexivity..|reflexivity].

(** C32: Thirty of the modules of a-1014, a-1017, a-1018 and a-1019 may run twice: on every file,
    whatever it holds, the result of fn goes through fn again unchanged, under any
    subject. *)
Theorem earlier_modules_repeat m has path s subj subj' t :
  m ∈ repeatable → tx_fn m has path s subj = Ok t → tx_fn m has path t subj' = Ok t.
Proof.
  unfold repeatable. rewrite !elem_of_cons. intros Hm.
  repeat destruct Hm as [->|Hm]; [..|by apply not_elem_of_nil in Hm]; apply mod4_repeats.
  - by_dict dict_fn_repeats tx1017_156_R.
  - by apply idle_repeats.
  - by_dict dict_fn_repeats tx1017_163man_R.
  - by_dict dict_fn_repeats tx1017_300a_skip_R.
  - by_one sub_in sub_in_law "lustre/tests/conf-sanity.sh" (Row "" tx1017_300c_split_OLD tx1017_300c_split_NEW).
  - by apply idle_repeats.
  - by_dict dict_fn_repeats tx1017_502_R.
  - by_dict dict_fn_repeats tx1017_726race_R.
  - by_dict dict_fn_repeats tx1017_shardwiden_R.
  - by_dict dict_fn_repeats tx1018_156_R.
  - by_dict dict_assert_fn_repeats tx1018_160_163_R.
  - by_one sub_in sub_in_law tx1018_c_LF tx1018_c_row.
  - by_one sub_in sub_in_law tx1018_e_PF tx1018_e_row.
  - by_one sub_assert sub_assert_law tx1018_f2_PF (Row "warn" tx1018_f2_O tx1018_f2_N).
  - by_one sub_assert sub_assert_law tx1018_f3_SD (Row "comment" tx1018_f3_O tx1018_f3_N).
  - exact tx1018_g1_repeats.
  - by apply idle_repeats.
  - exact tx1019b_repeats.
  - by_replace tx1014_rootfid_O tx1014_rootfid_N tx1014_rootfid_P.
  - by_dict dict_fn_repeats tx1014_lma_R.
  - apply (list_fn_repeats tx1014_fix159_P tx1014_fix159_R); [vm_compute; reflexivity..|reflexivity].
  - by_dict dict_fn_repeats tx1014_fix288_R.
  - by_replace tx1014_fix415_O tx1014_fix415_N tx1014_fix415_M.
  - by_dict dict_fn_repeats tx1014_fix416_R.
  - by_dict dict_fn_repeats tx1014_fix418_R.
  - by_dict dict_fn_repeats tx1014_fmt2_R.
  - by_replace tx1014_hdrblank_O tx1014_hdrblank_N "include/lustre/lustreapi.h".
  - exact tx1014_rename_repeats.
  - by_replace tx1014_t16_O tx1014_t16_N tx1014_t16_P.
  - by_replace tx1014_300c_rc_O tx1014_300c_rc_N tx1014_300c_rc_P.
Qed.

Lemma earlier_modules_repeat_witness :
  tx_fn mod_1018_f3 false tx1018_f3_SD tx1018_f3_O [] = Ok tx1018_f3_N ∧
  tx_fn mod_1018_f3 false tx1018_f3_SD tx1018_f3_N [] = Ok tx1018_f3_N.
Proof.
  assert (tx_fn mod_1018_f3 false tx1018_f3_SD tx1018_f3_O [] = Ok tx1018_f3_N) as H by (vm_compute; reflexivity).
  split; [exact H|]. eapply earlier_modules_repeat; [|exact H].
  do 14 (apply list_elem_of_further). apply list_elem_of_here.
Defined.

(** ** Messages that are rewritten once *)

(** The first row's text is gone after the pass, and no later row brings it back. *)
Definition one_shot (l : list row) : bool :=
  match plain "" <$> l with
  | [] => false
  | x :: l' => forallb nonempty (x :: l') && row_ok x && forallb (pair_ok x) l'
  end.

Section one_shot.
Context (body : row → text → outcome).
Context (body_assert : ∀ r s, if py_in (r_old r) s
  then ∃ tag, body r s = Ok (py_replace (r_old r) (r_new r) s, Some tag)
  else ∃ e, body r s = Raise (AssertionError e)).

Lemma assert_rows_absent x l s hits t h :
  nonempty x = true → a_guard x = Never → a_path x = "" →
  forallb nonempty (plain "" <$> l) = true → forallb (pair_ok x) (plain "" <$> l) = true →
  py_in (a_old x) s = false → for_rows body l s hits = Ok (t, h) → py_in (a_old x) t = false.
Proof.
  intros Hx Hg Hp. revert s hits. induction l as [|r l IH]; intros s hits Hne Hok Hs; [by intros [= <- _]|].
  rewrite fmap_cons in Hne, Hok. cbn [forallb] in Hne, Hok. bools. cbn [for_rows].
  pose proof (body_assert r s) as Hb. destruct (py_in (r_old r) s); destruct Hb as [z ->]; [|done].
  cbn [res_bind fst snd]. apply IH; [done..|].
  match goal with H : pair_ok x _ = true |- _ => rename H into Hpr end.
  unfold pair_ok in Hpr. rewrite Hp in Hpr. cbn [plain a_path a_old a_news forallb] in Hpr.
  rewrite String.eqb_refl in Hpr. bools.
  apply replace_absent_other; [by apply (nonempty_ne (plain "" r))|by apply nonempty_ne|done|done].
Qed.

Lemma one_shot_rows l s hits t h hits' :
  one_shot l = true → for_rows body l s hits = Ok (t, h) →
  ∃ e, for_rows body l t hits' = Raise (AssertionError e).
Proof.
  unfold one_shot. destruct l as [|r l]; [done|]. rewrite fmap_cons. intros Hos Hr. cbn [forallb] in Hos. bools.
  cbn [for_rows] in Hr |- *.
  assert (py_in (r_old r) t = false) as Habs.
  { pose proof (body_assert r s) as Hb. destruct (py_in (r_old r) s) eqn:Ein; destruct Hb as [z Hz]; rewrite Hz in Hr; [|done].
    cbn [res_bind fst snd] in Hr.
    eapply (assert_rows_absent (plain "" r)); [done..| |exact Hr].
    apply replace_clears; [|by apply (nonempty_ne (plain "" r))].
    match goal with H : row_ok _ = true |- _ => unfold row_ok, plain in H; cbn in H; by bools end. }
  pose proof (body_assert r t) as Hb. rewrite Habs in Hb. destruct Hb as [e ->]. by exists e.
Qed.
End one_shot.

Lemma msg_assert_asserts r s :
  if py_in (r_old r) s
  then ∃ tag, msg_assert r s = Ok (py_replace (r_old r) (r_new r) s, Some tag)
  else ∃ e, msg_assert r s = Raise (AssertionError e).
Proof. unfold msg_assert, substitute. destruct (py_in _ s); by eexists. Qed.

Lemma hit_msg_assert_asserts pre r s :
  if py_in (r_old r) s
  then ∃ tag, hit_prefix pre msg_assert r s = Ok (py_replace (r_old r) (r_new r) s, Some tag)
  else ∃ e, hit_prefix pre msg_assert r s = Raise (AssertionError e).
Proof. unfold hit_prefix, msg_assert, substitute. destruct (py_in _ s); by eexists. Qed.

(** The subjects, with the function that rewrites the message. *)
Definition one_shot_msgs : list (text * (text → text → res (text * list string))) :=
  [(tx1017_158_SUBJ, tx1017_158_msgfn); (tx1017_159msg_SUBJ, tx1017_159msg_msgfn);
   (tx1017_415_416_417_SUBJ417, tx1017_415_416_417_msgfn);
   (tx1018_156_S156, tx1018_156_msgfn); (tx1018_159_S159, tx1018_159_msgfn);
   (tx1018_288_S288, tx1018_288_msgfn); (tx1018_419_S419, tx1018_419_msgfn);
   (tx1018_c_S, tx1018_c_msgfn); (tx1018_d_S, tx1018_d_msgfn); (tx1018_f1_S, tx1018_f1_msgfn);
   (tx1018_f4_S, tx1018_f4_msgfn)].

Lemma msgfn_one_shot body (rows : list row) S (f : text → text → res (text * list string)) msg t h :
  (∀ r s, if py_in (r_old r) s
     then ∃ tag, body r s = Ok (py_replace (r_old r) (r_new r) s, Some tag)
     else ∃ e, body r s = Raise (AssertionError e)) →
  one_shot rows = true →
  (∀ msg subj, f msg subj = if bool_decide (subj = S) then for_rows body rows msg [] else Ok (msg, [])) →
  f msg S = Ok (t, h) → ∃ e, f t S = Raise (AssertionError e).
Proof.
  intros Hb Ho Hf. rewrite !Hf, bool_decide_eq_true_2 by done. by apply one_shot_rows.
Qed.

Ltac by_one_shot body law rows := apply (msgfn_one_shot body rows); [intros; apply law|vm_compute; reflexivity|reflexivity].

(** The message of a commit is rewritten at most once.  For each of these eleven subjects,
    a message that msgfn has rewritten makes msgfn raise AssertionError: the script does
    not go over a series it has already rewritten, where text would be changed twice. *)
Theorem messages_once S f msg t h :
  (S, f) ∈ one_shot_msgs → f msg S = Ok (t, h) → ∃ e, f t S = Raise (AssertionError e).
Proof.
  unfold one_shot_msgs. rewrite !elem_of_cons. intros Hm.
  repeat destruct Hm as [[= -> ->]|Hm]; [..|by apply not_elem_of_nil in Hm].
  - by_one_shot msg_assert msg_assert_asserts tx1017_158_MSG.
  - by_one_shot msg_assert msg_assert_asserts tx1017_159msg_MSG.
  - by_one_shot msg_assert msg_assert_asserts [tx1017_415_416_417_MSG417].
  - by_one_shot msg_assert msg_assert_asserts [tx1018_156_M156].
  - by_one_shot msg_assert msg_assert_asserts [tx1018_159_M159].
  - by_one_shot msg_assert msg_assert_asserts [tx1018_288_M288].
  - by_one_shot msg_assert msg_assert_asserts tx1018_419_M419.
  - by_one_shot msg_assert msg_assert_asserts [tx1018_c_msg].
  - by_one_shot (hit_prefix "msg" msg_assert) hit_msg_assert_asserts tx1018_d_M.
  - by_one_shot (hit_prefix "msg" msg_assert) hit_msg_assert_asserts tx1018_f1_M.
  - by_one_shot (hit_prefix "msg" msg_assert) hit_msg_assert_asserts tx1018_f4_M.
Qed.

Lemma messages_once_witness :
  tx1018_156_msgfn (r_old tx1018_156_M156) tx1018_156_S156 = Ok (r_new tx1018_156_M156, [""]) ∧
  ∃ e, tx1018_156_msgfn (r_new tx1018_156_M156) tx1018_156_S156 = Raise (AssertionError e).
Proof.
  assert (tx1018_156_msgfn (r_old tx1018_156_M156) tx1018_156_S156 = Ok (r_new tx1018_156_M156, [""])) as H
    by (vm_compute; reflexivity).
  split; [exact H|]. eapply messages_once; [|exact H].
  do 3 (apply list_elem_of_further). apply list_elem_of_here.
Defined.
