(* ===== verification/SeriesTheorems.v ===== *)
(** forktx.py with its modules: that a run with modules that do not raise comes to its end
    and reaches every commit, and what a run with tx_shard.py leaves in every commit. *)
From S2P Require Import Prelude PyStr Stable R3Engine Git Drive Utf8 ForkTx ForkTxTheorems.
From S2P Require Import TxEngine TxFacts Tx1017 Tx1014 Tx1014Tree TxEarlier.

(** ** Modules that do not raise *)

Record sm_total (sm : series_mod) : Prop := {
  total_fn has path s subj : res_is_ok (sm_fn sm has path s subj) = true;
  total_msg has msg subj : res_is_ok (edit_msg sm has msg subj) = true;
  total_tree : sm_tree sm = None;
}.

Definition mod_total (m : txmod) : Prop :=
  (∀ has path s subj, res_is_ok (tx_fn m has path s subj) = true) ∧
  (∀ f has msg subj, tx_msgfn m = Some f → res_is_ok (f has msg subj) = true).

Lemma res_is_ok_bind {A B} (x : res A) (k : A → res B) :
  res_is_ok x = true → (∀ a, res_is_ok (k a) = true) → res_is_ok (res_bind x k) = true.
Proof. destruct x; [|done]. intros _ Hk. apply Hk. Qed.

Lemma Chain_total mods : Forall mod_total mods → sm_total (Chain mods).
Proof.
  intros Hm. constructor; [| |done].
  - induction Hm as [|m mods [Hf _] _ IH]; intros has path s subj; [done|].
    cbn. apply res_is_ok_bind; [apply Hf|]. intros t. apply IH.
  - induction Hm as [|m mods [_ Hf] _ IH]; intros has msg subj; [done|].
    cbn. apply res_is_ok_bind; [|intros t; apply IH].
    destruct (tx_msgfn m) as [f|]; [by apply Hf|done].
Qed.

Lemma for_rows_total {A : Type} (body : A → text → outcome) l s hits :
  (∀ r s, res_is_ok (body r s) = true) → res_is_ok (for_rows body l s hits) = true.
Proof.
  intros Hb. revert s hits. induction l as [|r l IH]; intros s hits; [done|]. cbn [for_rows].
  apply res_is_ok_bind; [apply Hb|]. intros x. apply IH.
Qed.

Lemma sub_in_total r s : res_is_ok (sub_in r s) = true.
Proof. unfold sub_in. by destruct (py_in _ _). Qed.

(** A module whose fn replaces what it finds, and that has no msgfn. *)
Lemma dict_mod_total d (fn : bool → string → text → text → res (text * list string)) :
  (∀ has path s subj, fn has path s subj = for_rows sub_in (dict_rows d path) s []) →
  mod_total (mod4 fn None).
Proof.
  intros Hfn. split; [|done]. intros has path s subj. cbn. rewrite Hfn.
  apply res_is_ok_bind; [|done]. apply for_rows_total. apply sub_in_total.
Qed.

(** ** Progress *)

Lemma edit_paths_total tree fn paths idx b :
  (∀ path s, res_is_ok (fn path s) = true) → res_is_ok (edit_paths tree fn paths idx b) = true.
Proof.
  intros Hfn. revert idx b. induction paths as [|p paths IH]; intros idx b; [done|]. cbn [edit_paths].
  destruct (String.eqb p ""); [apply IH|]. destruct (tree !! p); [|apply IH].
  destruct (negb _); [apply IH|]. apply res_is_ok_bind; [apply Hfn|]. intros t.
  case_bool_decide; apply IH.
Qed.

Section progress.
Context {sha repo : Type} `{EqDecision sha} `{GitGraphLaws sha repo} `{!GitRefsLaws sha repo}.
Context (BRANCHES : list string) (BASE : sha) (R288 : option sha) (sm : series_mod).
Context (Htot : sm_total sm).
Implicit Types (r : repo) (c n par start : sha) (newof : list (sha * sha)).

Lemma edit_commit_total has subj names tree : res_is_ok (edit_commit sm has subj names tree) = true.
Proof.
  unfold edit_commit. apply res_is_ok_bind.
  - apply edit_paths_total. intros path s. by apply total_fn.
  - intros [idx b]. unfold edit_tree. by rewrite (total_tree _ Htot).
Qed.

Lemma run_one_returns r newof c par :
  parent_of r c par → ∃ r' n, run_one BASE R288 sm r newof c = (r', Ok n) ∧ keeps r r'.
Proof.
  intros (cc & Hc & Hp). unfold run_one. rewrite Hc, Hp.
  pose proof (edit_commit_total (has288 R288 r c) (tx_subj cc) (g_diff_names r BASE c) (c_tree cc)) as He.
  destruct (edit_commit _ _ _ _ _) as [[tree b]|]; [|done].
  pose proof (total_msg _ Htot (has288 R288 r c) (tx_msg cc) (tx_subj cc)) as Hm.
  destruct (edit_msg _ _ _ _) as [nmsg|]; [|done].
  destruct (_ && _); [by exists r, c|]. destruct (g_commit_tree _ _) as [r' n] eqn:Hct.
  exists r', n. split; [done|]. intros x d. by apply (commit_tree_keep _ _ _ _ x d Hct).
Qed.

Lemma run_loop_returns r0 todo r newof :
  keeps r0 r → (∀ c, c ∈ todo → ∃ par, parent_of r0 c par) →
  ∃ r' newof', run_loop BASE R288 sm r newof todo = (r', Ok newof') ∧ keeps r0 r'.
Proof.
  revert r newof. induction todo as [|c todo IH]; intros r newof Hk Hp; [by exists r, newof|].
  cbn [run_loop]. destruct (Hp c ltac:(by left)) as (par & cc & Hc & Hpar).
  destruct (run_one_returns r newof c par) as (r1 & n & -> & Hk1); [exists cc; split; [by apply Hk|done]|].
  apply IH; [by etrans|]. intros d Hd. apply Hp. by right.
Qed.

(** A descendant of a commit that has a parent has one. *)
Lemma descends_parent r start p c :
  parent_of r start p → ancestor r start c → ∃ par, parent_of r c par.
Proof. intros Hp Ha. destruct Ha as [|x y z Hxy _]; eauto. Qed.

(** C12: A run with a module, or a Chain of modules, that has no tree_fn and whose fn and
    msgfn do not raise comes to its end, and reaches every commit: each one that descends from the start and that a branch
    holds is given its new name.  This needs the branches to be there, and a commit to
    start from that is not the root. *)
Theorem run_reaches dry start p r :
  g_ok r → is_Some (g_show r BASE) → NoDup BRANCHES → parent_of r start p →
  (∀ b, b ∈ BRANCHES → ∃ t, g_ref r b = Some t ∧ is_Some (g_show r t)) →
  ∃ r' newof, run BRANCHES BASE R288 sm dry start r = (r', Ok newof) ∧
    ∀ c b t, b ∈ BRANCHES → g_ref r b = Some t → ancestor r start c → ancestor r c t →
      ∃ n, (c, n) ∈ newof.
Proof.
  intros Hok Hbase Hnd Hp Hbr.
  assert (∃ tips, mapM (g_ref r) BRANCHES = Some tips) as [tips Hm].
  { apply mapM_is_Some. apply Forall_forall. intros b Hb. destruct (Hbr b Hb) as (t & Ht & _). by exists t. }
  assert (∀ t, t ∈ tips ↔ ∃ b, b ∈ BRANCHES ∧ g_ref r b = Some t) as Htips.
  { intros t. split.
    - intros Ht. apply list_elem_of_lookup in Ht as [i Hi]. apply mapM_Some_1 in Hm.
      destruct (Forall2_lookup_r _ _ _ _ _ Hm Hi) as (b & Hb & ?). exists b.
      split; [by eapply list_elem_of_lookup_2|done].
    - intros (b & Hb & Ht). apply list_elem_of_lookup in Hb as [i Hi]. apply mapM_Some_1 in Hm.
      destruct (Forall2_lookup_l _ _ _ _ _ Hm Hi) as (t' & Ht' & Hr). rewrite Ht in Hr.
      injection Hr as ->. by eapply list_elem_of_lookup_2. }
  assert (∀ t, t ∈ tips → is_Some (g_show r t)) as Hsh.
  { intros t (b & Hb & Ht)%Htips. destruct (Hbr b Hb) as (t' & Ht' & ?). by simplify_eq. }
  destruct (topo_total r start p tips Hok Hp Hsh) as [order Ho].
  set (todo := List.filter (g_is_ancestor r start) order).
  destruct (run_loop_returns r todo r []) as (rm & nf & Hl & _); [done| |].
  { intros c Hc. apply list_elem_of_In, filter_In in Hc as [Hin Ha]. eapply descends_parent; [done|].
    eapply is_ancestor_spec; [done| |exact Ha]. eapply topo_shown; [done..|]. by apply list_elem_of_In. }
  pose proof (run_spec BRANCHES BASE R288 sm dry start r Hok Hbase Hnd) as Hrun.
  assert (∃ r' newof, run BRANCHES BASE R288 sm dry start r = (r', Ok newof)) as (r' & newof & Hr).
  { unfold run. rewrite Hm, Ho. fold todo. rewrite Hl.
    pose proof (run_loop_ok BASE R288 sm r todo [] r [] Hbase) as Hinv. cbn [app] in Hinv.
    rewrite Hl in Hinv.
    destruct (move_branches_ok dry rm nf BRANCHES Hnd) as (r' & -> & _); [|by exists r', nf].
    intros b Hb. destruct Hinv as (_ & (_ & Hrefs & _) & _).
    - apply NoDup_ListNoDup, List.NoDup_filter, NoDup_ListNoDup. by eapply topo_NoDup.
    - by eapply topo_filter_first.
    - intros d Hd. apply list_elem_of_In, filter_In in Hd as [Hd _].
      eapply topo_shown; [done..|]. by apply list_elem_of_In.
    - split; [done|]. split; [reflexivity|]. split; [done|]. by intros ?? ?%not_elem_of_nil.
    - rewrite Hrefs. destruct (Hbr b Hb) as (t & -> & _). done. }
  exists r', newof. split; [done|]. rewrite Hr in Hrun.
  destruct Hrun as (_ & (tips' & order' & Hm' & Ho' & Hkeys) & _). simplify_eq.
  intros c b t Hb Ht Hsc Hct.
  assert (c ∈ newof.*1) as Hin.
  { rewrite Hkeys. apply list_elem_of_In, in_rev. rewrite rev_involutive. apply filter_In.
    assert (is_Some (g_show r c)) as Hc.
    { destruct (descends_parent r start p c Hp Hsc) as (? & cc & ? & _). by exists cc. }
    split; [|by apply is_ancestor_spec]. apply list_elem_of_In. eapply topo_spec; [done|done|done|done|].
    split; [exists t; split; [apply Htips; by exists b|done]|].
    intros Hcp. apply (ok_acyclic r start p Hok Hp). unfold ancestor in *. by etrans. }
  apply list_elem_of_fmap in Hin as ([c' n] & -> & Hin). by exists n.
Qed.
End progress.

(** Two branches, and a Chain of two of the modules. *)
Definition two_mods : list txmod := [mod_1014_lma; mod_1017_156].

Lemma two_mods_total : Forall mod_total two_mods.
Proof.
  apply Forall_cons. split; [by apply (dict_mod_total tx1014_lma_R)|].
  apply Forall_singleton. by apply (dict_mod_total tx1017_156_R).
Qed.

Lemma run_reaches_witness :
  ∃ r' newof, run ["left"; "right"] 0 (Some 0) (Chain two_mods) false 1 fork_repo = (r', Ok newof) ∧
    ∀ c b t, b ∈ ["left"; "right"] → g_ref fork_repo b = Some t → ancestor fork_repo 1 c →
      ancestor fork_repo c t → ∃ n, (c, n) ∈ newof.
Proof.
  apply (run_reaches ["left"; "right"] 0 (Some 0) (Chain two_mods) (Chain_total _ two_mods_total)
           false 1 0 fork_repo fork_repo_ok).
  - by eexists.
  - apply (bool_decide_unpack _). vm_compute. reflexivity.
  - eexists. split; [reflexivity|reflexivity].
  - intros b [->|[->|[]%not_elem_of_nil]%elem_of_cons]%elem_of_cons;
      eexists; (split; [reflexivity|by eexists]).
Defined.
