(* ===== verification/ShardTheorems.v ===== *)
(** forktx.py with tx_shard.py: what tree_fn leaves in every commit of the series. *)
From S2P Require Import Prelude PyStr Stable R3Engine Git Drive Utf8 ForkTx ForkTxTheorems.
From S2P Require Import TxEngine TxFacts Tx1014Tree.

(** What the script sees of tx_shard.py. *)
Definition mod_1014_shard : series_mod :=
  SeriesMod (λ _ path s subj, let! x := tx1014_shard_fn path s subj in Ok x.1) None
            (Some (tx1014_shard_R.*1, tx1014_shard_tree_fn)).

(** ** Reading and writing the files of a commit *)

Lemma read_files_spec tree paths files0 files :
  read_files tree paths files0 = Ok files →
  (∀ p, files !! p = if decide (p ∈ paths) then match tree !! p with Some s => Some s | None => files0 !! p end
                     else files0 !! p) ∧
  ∀ p s, p ∈ paths → tree !! p = Some s → utf8_ok s = true.
Proof.
  revert files0. induction paths as [|q paths IH]; intros files0; cbn [read_files].
  { intros [= ->]. split; [|by intros p s ?%not_elem_of_nil].
    intros p. by rewrite decide_False by apply not_elem_of_nil. }
  destruct (tree !! q) as [u|] eqn:Eq.
  - destruct (utf8_ok u) eqn:Hu; [|done]. intros [Hl Hv]%IH. split.
    + intros p. rewrite Hl. destruct (decide (p = q)) as [->|Hne].
      * rewrite lookup_insert_eq, Eq. rewrite (decide_True (P := q ∈ q :: paths)) by by left.
        by destruct (decide (q ∈ paths)).
      * rewrite lookup_insert_ne by done.
        destruct (decide (p ∈ paths)), (decide (p ∈ q :: paths)) as [Hin|Hin]; set_solver.
    + intros p s [->|Hp]%elem_of_cons Hs; [by simplify_eq|by eapply Hv].
  - intros [Hl Hv]%IH. split.
    + intros p. rewrite Hl. destruct (decide (p = q)) as [->|Hne].
      * rewrite Eq. by destruct (decide (q ∈ paths)), (decide (q ∈ q :: paths)).
      * destruct (decide (p ∈ paths)), (decide (p ∈ q :: paths)) as [Hin|Hin]; set_solver.
    + intros p s [->|Hp]%elem_of_cons Hs; [by simplify_eq|by eapply Hv].
Qed.

Lemma read_files_ok tree paths files0 :
  (∀ p s, p ∈ paths → tree !! p = Some s → utf8_ok s = true) →
  ∃ files, read_files tree paths files0 = Ok files.
Proof.
  revert files0. induction paths as [|q paths IH]; intros files0 Hv; cbn [read_files]; [by eexists|].
  destruct (tree !! q) as [u|] eqn:Eq; [rewrite (Hv q u) by (done || by left)|];
    apply IH; intros p s Hp; apply Hv; by right.
Qed.

(** The files [put_files] writes. *)
Lemma put_files_spec files items idx b idx' b' :
  NoDup items.*1 → (∀ p t, (p, t) ∈ items → files !! p = idx !! p) →
  put_files files items idx b = Ok (idx', b') →
  (∀ p t, (p, t) ∈ items → idx' !! p = Some t) ∧ ∀ p, p ∉ items.*1 → idx' !! p = idx !! p.
Proof.
  revert idx b. induction items as [|[q u] items IH]; intros idx b Hnd Hsame; cbn [put_files].
  { intros [= -> _]. split; [by intros p t ?%not_elem_of_nil|done]. }
  rewrite fmap_cons in Hnd. apply NoDup_cons in Hnd as [Hq Hnd]. cbn [fst] in Hq.
  assert (∀ p t, (p, t) ∈ items → p ≠ q) as Hne.
  { intros p t Hin ->. apply Hq, list_elem_of_fmap. by exists (q, t). }
  pose proof (Hsame q u ltac:(by left)) as Hqs.
  assert (∀ idx1 b1, (∀ p, p ≠ q → idx1 !! p = idx !! p) → idx1 !! q = Some u →
    put_files files items idx1 b1 = Ok (idx', b') →
    (∀ p t, (p, t) ∈ (q, u) :: items → idx' !! p = Some t) ∧
    ∀ p, p ∉ ((q, u) :: items).*1 → idx' !! p = idx !! p) as Hgo.
  { intros idx1 b1 Hoth Hu Hput. apply IH in Hput as [H1 H2]; [|done|].
    - split.
      + intros p t [[= -> ->]|Hin]%elem_of_cons; [by rewrite H2|by apply H1].
      + intros p [Hp1 Hp2]%not_elem_of_cons. rewrite H2 by done. by apply Hoth.
    - intros p t Hin. rewrite Hoth by by eapply Hne. apply (Hsame p t). by right. }
  case_bool_decide as Heq.
  - apply Hgo; [done|]. by rewrite <-Hqs.
  - destruct (idx !! q) eqn:Ei; [|done]. apply Hgo; [|by rewrite lookup_insert_eq].
    intros p Hp. by rewrite lookup_insert_ne.
Qed.

(** A module whose fn does nothing leaves the index alone. *)
Lemma edit_paths_idle tree fn paths idx b :
  (∀ path s, fn path s = Ok s) → edit_paths tree fn paths idx b = Ok (idx, b).
Proof.
  intros Hfn. induction paths as [|p paths IH]; [done|]. cbn [edit_paths].
  destruct (String.eqb p ""); [done|]. destruct (tree !! p); [|done]. destruct (negb _); [done|].
  rewrite Hfn. cbn [res_bind]. by rewrite bool_decide_eq_true_2.
Qed.

(** A dict has one value for a key. *)
Lemma NoDup_fst_unique {A : Type} (l : list (string * A)) k x y :
  NoDup l.*1 → (k, x) ∈ l → (k, y) ∈ l → x = y.
Proof.
  intros Hnd Hx Hy. apply (elem_of_list_to_map_1 (M := gmap string)) in Hx, Hy; [|done..]. congruence.
Qed.

(** ** The table *)

Definition good_row (r : row) : bool :=
  negb (bool_decide (r_old r = [])) && utf8_ok (r_old r) && utf8_ok (r_new r).

Lemma assert_rows_utf8 l s hits t h :
  forallb good_row l = true → for_rows assert_sub l s hits = Ok (t, h) →
  utf8_ok s = true → utf8_ok t = true.
Proof.
  revert s hits. induction l as [|r l IH]; intros s hits; [cbn; by intros _ [= <- _]|].
  cbn [forallb for_rows]. intros [Hr Hl]%andb_true_iff ([x tag] & Hx & Hrest)%res_bind_Ok Hs.
  eapply IH; [done|exact Hrest|]. unfold assert_sub in Hx. destruct (_ =? 1); [|done].
  injection Hx as <- _. unfold good_row in Hr.
  rewrite !andb_true_iff, negb_true_iff, bool_decide_eq_false in Hr. destruct Hr as [[Hne Ho] Hn].
  by apply utf8_replace_opt.
Qed.

#[local] Opaque tx1014_shard_R tx1014_shard_DEF.

(** What the check of the table finds: its keys are distinct, its texts are valid UTF-8,
    and the row for lustreapi.h puts the flag there. *)
Definition shard_ok (R : list (string * list row)) : bool :=
  bool_decide (NoDup R.*1) && forallb (λ e, forallb good_row e.2) R &&
  match dict_get R tx1014_shard_LUSTREAPI_H with
  | Some [r] => negb (bool_decide (r_old r = [])) && py_in tx1014_shard_DEF (r_new r)
  | _ => false
  end.

Lemma shard_R_ok : shard_ok tx1014_shard_R = true.
Proof. vm_compute. reflexivity. Qed.

Lemma shard_loop_spec R files out :
  tx1014_shard_loop R files = Ok out →
  out.*1 = R.*1 ∧
  ∀ p t, (p, t) ∈ out → ∃ s reps h,
    files !! p = Some s ∧ (p, reps) ∈ R ∧ for_rows assert_sub reps s [] = Ok (t, h).
Proof.
  revert out. induction R as [|[p reps] R IH]; intros out; cbn [tx1014_shard_loop].
  { intros [= <-]. split; [done|]. by intros p t ?%not_elem_of_nil. }
  destruct (files !! p) as [s|] eqn:Es; [|done].
  intros ([t h] & Hr & (out' & Ho & [= <-])%res_bind_Ok)%res_bind_Ok.
  destruct (IH out' Ho) as [Hk Hall]. split; [cbn; by rewrite Hk|]. cbn [fst].
  intros q u [[= -> ->]|Hin]%elem_of_cons; [exists s, reps, h; split_and!; [done|by left|done]|].
  destruct (Hall q u Hin) as (s' & reps' & h' & ? & ? & ?). exists s', reps', h'.
  split_and!; [done|by right|done].
Qed.

(** ** One commit *)

Definition has_device (tree : gmap string text) : Prop :=
  ∃ s, tree !! PFIND_C = Some s ∧ py_in (lit "int llapi_find_device(") s = true.

Definition has_flag (tree : gmap string text) : Prop :=
  ∃ h, tree !! tx1014_shard_LUSTREAPI_H = Some h ∧ py_in tx1014_shard_DEF h = true.

Lemma edit_commit_shard has subj names tree :
  edit_commit mod_1014_shard has subj names tree = edit_tree mod_1014_shard tree tree false.
Proof. unfold edit_commit. by rewrite edit_paths_idle. Qed.

Lemma R_keys : tx1014_shard_LUSTREAPI_H ∈ tx1014_shard_R.*1 ∧ PFIND_C ∈ tx1014_shard_R.*1.
Proof. split; apply (bool_decide_unpack _); vm_compute; reflexivity. Qed.

(** A commit that has the flag, or nothing to flag, is left as it is. *)
Lemma shard_idle tree :
  (∀ p s, p ∈ tx1014_shard_R.*1 → tree !! p = Some s → utf8_ok s = true) →
  (has_device tree → has_flag tree) →
  edit_tree mod_1014_shard tree tree false = Ok (tree, false).
Proof.
  intros Hv Hf. destruct R_keys as [HH HP]. unfold edit_tree. cbn [sm_tree mod_1014_shard].
  destruct (read_files_ok tree (tx1014_shard_R.*1 ++ [PFIND_C]) ∅) as [files Hr].
  { intros p s [Hp|Hp%list_elem_of_singleton]%elem_of_app; [|subst p]; by apply Hv. }
  rewrite Hr. cbn [res_bind]. apply read_files_spec in Hr as [Hl _].
  assert (∀ p, p ∈ tx1014_shard_R.*1 → files !! p = tree !! p) as Hsame.
  { intros p Hp. rewrite Hl, decide_True by (apply elem_of_app; by left). rewrite lookup_empty.
    by destruct (tree !! p). }
  assert (tx1014_shard_tree_fn files = Ok []) as ->; [|done].
  unfold tx1014_shard_tree_fn. rewrite !Hsame by done.
  destruct (tree !! PFIND_C) as [s|] eqn:Es; [|done].
  destruct (py_in (lit "int llapi_find_device(") s) eqn:Ed; [|done]. cbn [negb].
  destruct Hf as (h & -> & Hh); [by exists s|]. cbn [from_option]. unfold id. by rewrite Hh.
Qed.

(** The rows of lustreapi.h leave the flag there. *)
Lemma shard_flagged reps s t h :
  (tx1014_shard_LUSTREAPI_H, reps) ∈ tx1014_shard_R → for_rows assert_sub reps s [] = Ok (t, h) →
  py_in tx1014_shard_DEF t = true.
Proof.
  intros Hin Hr. pose proof shard_R_ok as Hok. unfold shard_ok in Hok. rewrite !andb_true_iff in Hok.
  destruct Hok as [[Hnd _] Hd]. apply bool_decide_eq_true in Hnd. unfold dict_get in Hd.
  destruct (List.find _ tx1014_shard_R) as [[k l]|] eqn:E; [|done]. apply find_some in E as [Hin2 Hk].
  apply bool_decide_eq_true in Hk. cbn [fst] in Hk. subst k. apply list_elem_of_In in Hin2.
  assert (reps = l) as -> by (by eapply NoDup_fst_unique).
  cbn [fmap option_fmap option_map snd] in Hd. destruct l as [|r [|]]; [done| |done].
  apply andb_true_iff in Hd as [Hne Hdef]. apply negb_true_iff, bool_decide_eq_false in Hne.
  cbn [for_rows] in Hr. apply res_bind_Ok in Hr as ([x tag] & Hx & Hr). injection Hr as <- _.
  unfold assert_sub in Hx. destruct (py_count (r_old r) s =? 1) eqn:Ec; [|done]. bools.
  injection Hx as <- _. cbn [fst]. eapply py_in_trans; [exact Hdef|]. apply replace_new_in; [done|].
  apply count_pos; [done|]. lia.
Qed.

(** What the stage makes of a commit: the flag is there if the search is, only the files of
    the table differ, and a second pass finds nothing to do. *)
Lemma shard_commit tree idx b :
  edit_tree mod_1014_shard tree tree false = Ok (idx, b) →
  (has_device idx → has_flag idx) ∧ (∀ p, p ∉ tx1014_shard_R.*1 → idx !! p = tree !! p) ∧
  ∀ p s, p ∈ tx1014_shard_R.*1 → idx !! p = Some s → utf8_ok s = true.
Proof.
  destruct R_keys as [HH HP]. unfold edit_tree. cbn [sm_tree mod_1014_shard].
  intros (files & Hr & (items & Hi & Hput)%res_bind_Ok)%res_bind_Ok.
  apply read_files_spec in Hr as [Hl Hv].
  assert (∀ p, p ∈ tx1014_shard_R.*1 → files !! p = tree !! p) as Hsame.
  { intros p Hp. rewrite Hl, decide_True by (apply elem_of_app; by left). rewrite lookup_empty.
    by destruct (tree !! p). }
  assert (∀ p s, p ∈ tx1014_shard_R.*1 → tree !! p = Some s → utf8_ok s = true) as Hv'.
  { intros p s Hp. apply Hv, elem_of_app. by left. }
  unfold tx1014_shard_tree_fn in Hi. rewrite !Hsame in Hi by done.
  destruct (tree !! PFIND_C) as [s|] eqn:Es.
  2: { injection Hi as <-. injection Hput as <- _. split; [|by split].
       intros (s & Hs & _). by rewrite Es in Hs. }
  destruct (py_in (lit "int llapi_find_device(") s) eqn:Ed; cbn [negb] in Hi.
  2: { injection Hi as <-. injection Hput as <- _. split; [|by split].
       intros (s' & Hs & Hd). rewrite Es in Hs. injection Hs as <-. by rewrite Ed in Hd. }
  destruct (py_in tx1014_shard_DEF (default [] (tree !! tx1014_shard_LUSTREAPI_H))) eqn:Ef.
  { injection Hi as <-. injection Hput as <- _. split; [|by split]. intros _.
    unfold has_flag. destruct (tree !! tx1014_shard_LUSTREAPI_H) as [h|]; [by exists h|].
    cbn [from_option] in Ef. apply py_in_app in Ef as (x & y & Hxy).
    apply symmetry, app_eq_nil in Hxy as [_ Hxy]. apply app_eq_nil in Hxy as [Hxy _].
    by vm_compute in Hxy. }
  apply shard_loop_spec in Hi as [Hkeys Hall].
  pose proof shard_R_ok as Hok. unfold shard_ok in Hok. rewrite !andb_true_iff in Hok.
  destruct Hok as [[Hnd Hgood] _]. apply bool_decide_eq_true in Hnd.
  assert (∀ p t, (p, t) ∈ items → p ∈ tx1014_shard_R.*1) as Hin.
  { intros p t Hp. rewrite <-Hkeys. apply (list_elem_of_fmap_2 fst _ _ Hp). }
  apply put_files_spec in Hput as [Hnew Hold]; [|by rewrite Hkeys|].
  2: { intros p t Hp. apply Hsame. by eapply Hin. }
  assert (∀ p, p ∈ tx1014_shard_R.*1 → ∃ t, (p, t) ∈ items) as Hget.
  { intros p Hp. rewrite <-Hkeys in Hp. apply list_elem_of_fmap in Hp as ([q t] & -> & Hq). by exists t. }
  split; [|split].
  - intros _. destruct (Hget _ HH) as [t Ht]. exists t. split; [by apply Hnew|].
    destruct (Hall _ _ Ht) as (u & reps & h & _ & Hreps & Hrows). by eapply shard_flagged.
  - intros p Hp. apply Hold. by rewrite Hkeys.
  - intros p u Hp Hu. destruct (Hget p Hp) as [t Ht]. rewrite (Hnew _ _ Ht) in Hu. injection Hu as <-.
    destruct (Hall _ _ Ht) as (s0 & reps & h & Hs0 & Hreps & Hrows).
    eapply assert_rows_utf8; [|exact Hrows|].
    + rewrite forallb_forall in Hgood. by apply (Hgood (p, reps)), list_elem_of_In.
    + apply (Hv' p); [done|]. by rewrite <-Hsame.
Qed.

Section series.
Context {sha repo : Type} `{EqDecision sha} `{GitLaws sha repo} `{!GitRefs sha repo}
        `{!GitRefsLaws sha repo}.
Context (BRANCHES : list string) (BASE : sha).

(** C13: A run of forktx.py with tx_shard.py.  In every commit it has rewritten, where
    liblustreapi_pfind.c has llapi_find_device() lustreapi.h has the flag
    LLAPI_SCAN_LMV_SHARD; the files outside the module's table are those of the commit;
    and the module finds nothing to do in the new commit, so that a second pass over the
    series would leave every tree as it is. *)
Theorem shard_in_series dry start r r' newof c n :
  g_ok r → is_Some (g_show r BASE) → NoDup BRANCHES →
  run BRANCHES BASE None mod_1014_shard dry start r = (r', Ok newof) → (c, n) ∈ newof →
  ∃ cc nc, g_show r c = Some cc ∧ g_show r' n = Some nc ∧
    (has_device (c_tree nc) → has_flag (c_tree nc)) ∧
    (∀ p, p ∉ tx1014_shard_R.*1 → c_tree nc !! p = c_tree cc !! p) ∧
    ∀ subj names, edit_commit mod_1014_shard false subj names (c_tree nc) = Ok (c_tree nc, false).
Proof.
  intros Hok Hb Hnd Hrun Hin.
  pose proof (run_spec BRANCHES BASE None mod_1014_shard dry start r Hok Hb Hnd) as H'.
  rewrite Hrun in H'. destruct H' as (Hk & _ & Hrw & _).
  destruct (Hrw c n Hin) as (cc & par & tree & changed & nmsg & Hc & _ & He & _ & Hn).
  rewrite edit_commit_shard in He. apply shard_commit in He as (Hflag & Hrest & Hv).
  assert (∃ nc, g_show r' n = Some nc ∧ c_tree nc = tree) as (nc & Hnc & <-).
  { destruct Hn as [(-> & _ & -> & _)|Hn]; [exists cc; split; [by apply Hk|done]|by eexists]. }
  exists cc, nc. split_and!; [done..|]. intros subj names. rewrite edit_commit_shard.
  by apply shard_idle.
Qed.
End series.

(** ** An instance *)

(** A commit with the texts the table looks for, between one without them and one that
    has the flag already. *)
Definition unflagged : gmap string text :=
  list_to_map ((λ '(p, reps),
    (p, (if String.eqb p PFIND_C then lit "int llapi_find_device(
" else []) ++ concat (r_old <$> reps))) <$> tx1014_shard_R).

Definition shard_repo : ListGit.repo := ListGit.Repo [
  Commit {["f" := lit "base"]} None (lit "base
") (Meta "a" "b" "1" "d" "e" "f");
  Commit {["f" := lit "one"]} (Some 0) (lit "one
") (Meta "a" "b" "2" "d" "e" "f");
  Commit unflagged (Some 1) (lit "two
") (Meta "a" "b" "3" "d" "e" "f");
  Commit (<[tx1014_shard_LUSTREAPI_H := tx1014_shard_DEF]> unflagged) (Some 2) (lit "three
") (Meta "a" "b" "4" "d" "e" "f")
] "9" {[heads "tip" := 3]}.

Lemma shard_repo_ok : g_ok shard_repo.
Proof.
  split.
  - apply (bool_decide_unpack _). vm_compute. reflexivity.
  - intros n c p Hn Hp. do 4 (destruct n as [|n]; [injection Hn as <-; cbn in Hp; simplify_eq; lia|]).
    done.
Qed.

Lemma shard_in_series_witness :
  match run ["tip"] 0 None mod_1014_shard false 1 shard_repo with
  | (r', Ok newof) =>
      (2, 4) ∈ newof ∧ ∃ cc nc, g_show shard_repo 2 = Some cc ∧ g_show r' 4 = Some nc ∧
        (has_device (c_tree nc) → has_flag (c_tree nc)) ∧
        (∀ p, p ∉ tx1014_shard_R.*1 → c_tree nc !! p = c_tree cc !! p) ∧
        ∀ subj names, edit_commit mod_1014_shard false subj names (c_tree nc) = Ok (c_tree nc, false)
  | (_, Raise _) => False
  end.
Proof.
  assert ((run ["tip"] 0 None mod_1014_shard false 1 shard_repo).2 = Ok [(3, 5); (2, 4); (1, 1)]) as E
    by (vm_compute; reflexivity).
  pose proof (shard_in_series ["tip"] 0 false 1 shard_repo) as Hs.
  destruct (run ["tip"] 0 None mod_1014_shard false 1 shard_repo) as [r' o] eqn:Er.
  cbn [snd] in E. subst o. split; [apply list_elem_of_further, list_elem_of_here|].
  apply (Hs r' [(3, 5); (2, 4); (1, 1)] 2 4 shard_repo_ok).
  - by eexists.
  - apply (bool_decide_unpack _). vm_compute. reflexivity.
  - reflexivity.
  - apply list_elem_of_further, list_elem_of_here.
Defined.
