(* ===== verification/TxLoop.v ===== *)
(** The loop of docs/rounds/a-1017/tx_lrv.py, [union_fix]: it ends, after one turn for each
    initialiser. *)
From S2P Require Import Prelude PyStr Stable TxEngine TxFacts Tx1017.

(** ** Counting across a line break *)

Section lines.
Context (u : text) (no_nl : nl ∉ u).
Implicit Types (x y : text).

(** A text whose only newline is its last character. *)
#[local] Abbreviation sub := (u ++ [nl]).

Definition full_lines (x : text) : Prop := x = [] ∨ ∃ x', x = x' ++ [nl].

Lemma full_lines_tail c x : full_lines (c :: x) → full_lines x.
Proof.
  intros [?|[x' Hx]]; [done|]. destruct x' as [|d x']; simpl in Hx; simplify_eq; [by left|]. right. by exists x'.
Qed.

Lemma full_lines_app_r x y : full_lines (x ++ y) → full_lines y.
Proof. induction x as [|c x IH]; [done|]. intros H. by apply IH, full_lines_tail with c. Qed.

(** What starts in full lines ends there. *)
Lemma no_straddle x y z : x ≠ [] → full_lines x → x ++ y = sub ++ z → ∃ r, x = sub ++ r.
Proof.
  intros Hne [->|[x' ->]] He; [done|]. apply app_eq_inv in He as [(k & Hx & _)|(k & Hs & Hy)]; [by exists k|].
  destruct k as [|c k _] using rev_ind; [exists []; by rewrite Hs, !app_nil_r|].
  rewrite !app_assoc in Hs. apply app_inj_2 in Hs as [Hs _]; [|done].
  exfalso. apply no_nl. rewrite Hs. apply elem_of_app. left. apply elem_of_app. right. by left.
Qed.

Lemma count_cut x y : full_lines x → py_count sub (x ++ y) = py_count sub x + py_count sub y.
Proof.
  assert (sub ≠ []) as Hne by by destruct u.
  revert x. refine (scan_ind sub _ Hne _ _ _).
  - intros _. by rewrite count_nil.
  - intros r IH Hf. rewrite <-app_assoc, !count_hit by done. rewrite IH; [done|]. by eapply full_lines_app_r.
  - intros c s Hs IH Hf. cbn [app]. rewrite !count_miss; [apply IH; by eapply full_lines_tail|done..|].
    destruct (py_startswith (c :: s ++ y) sub) eqn:E; [|done].
    apply py_startswith_true in E as [z Hz]. destruct (no_straddle (c :: s) y z) as [r Hr]; [done..|].
    rewrite Hr, py_startswith_app in Hs. done.
Qed.
End lines.

(** ** union_fix *)

#[local] Abbreviation INIT := tx1017_lrv_INIT.
#[local] Abbreviation big := tx1017_lrv_big.
#[local] Abbreviation memset := tx1017_lrv_memset.

(** The lines without their newline. *)
Definition init_line : text := take (length INIT - 1) INIT.
Definition big_line : text := take (length big - 1) big.

Lemma INIT_line : INIT = init_line ++ [nl] ∧ nl ∉ init_line.
Proof. split; [by vm_compute|]. apply (bool_decide_unpack _). by vm_compute. Qed.

Lemma big_line_ok : big = big_line ++ [nl] ∧ nl ∉ big_line.
Proof. split; [by vm_compute|]. apply (bool_decide_unpack _). by vm_compute. Qed.

Lemma INIT_ne : INIT ≠ [].
Proof. done. Qed.

Lemma INIT_count_cut x y : full_lines x → py_count INIT (x ++ y) = py_count INIT x + py_count INIT y.
Proof. destruct INIT_line as [-> Hn]. by apply count_cut. Qed.

(** The text up to and with the first initialiser, once replaced, has none. *)
Lemma count_replaced a b :
  py_find INIT (a ++ INIT ++ b) = Some (length a) → py_count INIT (a ++ big) = 0.
Proof.
  intros Hf. apply count_zero; [apply INIT_ne|].
  assert (py_find INIT (a ++ INIT ++ []) = Some (length a)) as Hf'.
  { apply py_find_Some. apply py_find_Some in Hf as [_ Hmin]. split; [by exists a, []|].
    intros j Hj Ho. apply (Hmin j Hj). rewrite app_assoc. apply occ_app_r. by rewrite app_nil_r in Ho. }
  pose proof (replace_clears INIT big (a ++ INIT ++ []) ltac:(by vm_compute) INIT_ne) as Hc.
  rewrite replace_leftmost in Hc by (apply INIT_ne || done).
  unfold py_replace in Hc. rewrite replace_nil, app_nil_r in Hc by apply INIT_ne. done.
Qed.

(** The first blank line after a newline-ended line. *)
Lemma blank_after w b x y :
  nl ∉ w → (w ++ [nl]) ++ b = x ++ [nl; nl] ++ y →
  ∃ w', x ++ [nl] = (w ++ [nl]) ++ w' ∧ b = w' ++ nl :: y ∧ full_lines w'.
Proof.
  intros Hw He. assert (x ++ [nl; nl] ++ y = (x ++ [nl]) ++ nl :: y) as Hx by by rewrite <-app_assoc.
  rewrite Hx in He. apply app_eq_inv in He as [(k & Hk & Hb)|(k & Hk & Hb)].
  - destruct k as [|c k _] using rev_ind.
    + exists []. rewrite !app_nil_r in *. split; [done|]. split; [done|]. by left.
    + exfalso. rewrite app_assoc in Hk. apply app_inj_2 in Hk as [Hk _]; [|done].
      apply Hw. rewrite Hk. apply elem_of_app. left. apply elem_of_app. right. by left.
  - exists k. split; [done|]. split; [done|].
    apply (full_lines_app_r (w ++ [nl])). rewrite <-Hk. right. by exists x.
Qed.

(** The insertion changes no count. *)
Lemma count_memset w y :
  full_lines w → py_count INIT (w ++ memset ++ nl :: y) = py_count INIT (w ++ nl :: y).
Proof.
  intros Hw. rewrite !(INIT_count_cut w) by done.
  change (nl :: y) with ([nl] ++ y). rewrite (app_assoc memset), !(INIT_count_cut _ y) by (right; by eexists).
  by vm_compute (py_count INIT (memset ++ [nl])).
Qed.

(** What a turn does: the first initialiser is replaced, and the block goes before the first
    blank line after it. *)
Lemma union_step_shape s t :
  tx1017_lrv_union_step s = Ok t →
  ∃ a w y, s = a ++ INIT ++ w ++ nl :: y ∧ full_lines w ∧ t = a ++ big ++ w ++ memset ++ nl :: y ∧
           py_find INIT s = Some (length a).
Proof.
  unfold tx1017_lrv_union_step, py_index, py_index_from. destruct (py_find INIT s) as [i|] eqn:Hf; [|done].
  cbn [res_bind]. destruct (find_split INIT s i Hf) as (a & b & -> & <-).
  rewrite take_app_length, drop_app_ge, Nat.add_sub_swap, Nat.sub_diag by lia.
  cbn [Nat.add]. rewrite drop_app_length.
  unfold py_find_from. destruct (_ <=? _); [|done]. rewrite drop_app_length.
  destruct (py_find [nl; nl] (big ++ b)) as [k|] eqn:Hk; cbn [fmap option_fmap option_map res_bind]; [|done].
  intros Ht. apply (inj Ok) in Ht as <-.
  destruct (find_split _ _ _ Hk) as (x & y & He & <-).
  destruct big_line_ok as [Hbig Hn]. rewrite Hbig in He.
  destruct (blank_after _ _ _ _ Hn He) as (w & Hx & -> & Hw). rewrite <-Hbig in Hx.
  exists a, w, y. split; [done|]. split; [done|]. split; [|done].
  assert (a ++ big ++ w ++ nl :: y = (a ++ x ++ [nl]) ++ nl :: y) as ->.
  { rewrite Hx. by rewrite <-!app_assoc. }
  replace (length a + length x + 1) with (length (a ++ x ++ [nl])) by (rewrite !length_app; simpl; lia).
  rewrite take_app_length, drop_app_length, Hx. by rewrite <-!app_assoc.
Qed.

(** One turn takes one initialiser away. *)
Lemma union_step_ok s t :
  tx1017_lrv_union_step s = Ok t →
  py_count INIT s = S (py_count INIT t) ∧
  length t + length INIT = length s + (length big + length memset).
Proof.
  intros (a & w & y & -> & Hw & -> & Hf)%union_step_shape. destruct big_line_ok as [Hbig _]. split.
  - rewrite (app_assoc a big), (INIT_count_cut (a ++ big)) by (right; exists (a ++ big_line); by rewrite Hbig, <-app_assoc).
    rewrite (count_replaced a (w ++ nl :: y)) by done. rewrite count_memset by done.
    clear -Hf. revert Hf. generalize (w ++ nl :: y). intros b Hf.
    assert (py_count INIT (a ++ INIT ++ b) = S (py_count INIT b)) as ->; [|done].
    induction a as [|c a IH]; [rewrite app_nil_l; apply count_hit, INIT_ne|]. cbn [app length py_find] in *.
    destruct (py_startswith _ INIT) eqn:E; [done|]. rewrite count_miss by (apply INIT_ne || done).
    apply IH. destruct (py_find INIT (a ++ INIT ++ b)); by simplify_eq/=.
  - rewrite !length_app. cbn [length]. lia.
Qed.

(** ** Blank lines *)

(** A blank line comes after the line before [b], at once or later. *)
Definition blank_in (b : text) : bool := py_in [nl; nl] (nl :: b).

(** An initialiser that no blank line follows. *)
Definition unfollowed (s : text) : Prop := ∃ a b, s = a ++ INIT ++ b ∧ blank_in b = false.

Lemma blank_lines w y : full_lines w → blank_in (w ++ nl :: y) = true.
Proof.
  intros [->|[w' ->]]; unfold blank_in; apply py_in_occ.
  - exists 0, [], y. done.
  - exists (S (length w')), (nl :: w'), y. split; [|done]. cbn. by rewrite <-app_assoc.
Qed.

(** An initialiser in a text cut at a line end is before the cut or after it. *)
Lemma INIT_side A X p q :
  full_lines A → A ++ X = p ++ INIT ++ q →
  (∃ r, A = p ++ INIT ++ r ∧ q = r ++ X) ∨ ∃ r, p = A ++ r ∧ X = r ++ INIT ++ q.
Proof.
  destruct INIT_line as [HI Hn]. rewrite HI.
  intros HA He. apply app_eq_inv in He as [(k & Hk & Hx)|(k & Hk & Hx)].
  - destruct k as [|c k].
    { right. exists []. by rewrite app_nil_r in Hk |- *. }
    left. symmetry in Hx.
    destruct (no_straddle init_line Hn (c :: k) X q) as [r Hr]; [done| |done|].
    { apply (full_lines_app_r p). by rewrite <-Hk. }
    exists r. rewrite Hk, Hr in *. split; [done|]. rewrite <-(app_assoc _ r X) in Hx.
    by apply app_inv_head in Hx.
  - right. by exists k.
Qed.

(** A turn leaves the same initialisers without a blank line. *)
Lemma union_step_follows s t :
  tx1017_lrv_union_step s = Ok t → unfollowed s ↔ unfollowed t.
Proof.
  intros (a & w & y & -> & Hw & -> & Hf)%union_step_shape.
  assert (full_lines (a ++ INIT)) as HaI.
  { right. exists (a ++ init_line). rewrite (proj1 INIT_line) at 1. by rewrite app_assoc. }
  split; intros (p & q & He & Hq).
  - rewrite app_assoc in He. destruct (INIT_side _ _ _ _ HaI He) as [(r & Hr & ->)|(r & -> & Hr)].
    { exfalso. assert (length p = length a ∧ r = []) as [_ ->].
      { apply py_find_Some in Hf as [_ Hmin].
        assert (¬ length p < length a) as Hlt.
        { intros Hl. apply (Hmin _ Hl). exists p, (r ++ w ++ nl :: y). split; [|done].
          rewrite app_assoc, Hr. by rewrite <-!app_assoc. }
        apply (f_equal length) in Hr. rewrite !length_app in Hr.
        split; [lia|]. apply nil_length_inv. lia. }
      cbn [app] in Hq. by rewrite blank_lines in Hq. }
    destruct (INIT_side w (nl :: y) r q Hw Hr) as [(r' & -> & ->)|(r' & -> & Hr')].
    { exfalso. rewrite blank_lines in Hq; [done|].
      apply (full_lines_app_r (r ++ INIT)). by rewrite <-app_assoc. }
    destruct (INIT_side [nl] y r' q) as [(r3 & Hr3 & _)|(r3 & -> & ->)]; [right; by exists []|done| |].
    { exfalso. apply (f_equal length) in Hr3. rewrite !length_app in Hr3. cbn in Hr3. lia. }
    exists (a ++ big ++ w ++ memset ++ nl :: r3), q. split; [|done].
    rewrite <-!app_assoc. cbn [app]. by rewrite <-?app_assoc.
  - set (A := a ++ big ++ w) in *.
    assert (full_lines A) as HA.
    { destruct big_line_ok as [Hb _]. destruct Hw as [->|[w' ->]]; right.
      - exists (a ++ big_line). unfold A. rewrite app_nil_r, Hb. by rewrite app_assoc.
      - exists (a ++ big ++ w'). unfold A. by rewrite <-!app_assoc. }
    assert (A ++ memset ++ nl :: y = p ++ INIT ++ q) as He'.
    { unfold A. rewrite <-He, <-!app_assoc. done. }
    destruct (INIT_side A _ _ _ HA He') as [(r & Hr & ->)|(r & -> & Hr)].
    { exfalso. assert (full_lines r) as Hfr.
      { apply (full_lines_app_r (p ++ INIT)). by rewrite <-app_assoc, <-Hr. }
      change (memset ++ nl :: y) with (nl :: (tl memset ++ nl :: y)) in Hq.
      by rewrite blank_lines in Hq. }
    assert ((memset ++ [nl]) ++ y = r ++ INIT ++ q) as Hr' by (by rewrite <-app_assoc).
    destruct (INIT_side (memset ++ [nl]) y r q) as [(r' & Hm & _)|(r' & -> & ->)];
      [right; by exists memset|done| |].
    { exfalso. assert (py_in INIT (memset ++ [nl]) = false) as Hno by (vm_compute; reflexivity).
      rewrite py_in_false in Hno. apply (Hno (length r)). by exists r, r'. }
    exists (a ++ INIT ++ w ++ nl :: r'), q. split; [|done].
    rewrite <-!app_assoc. cbn [app]. by rewrite <-?app_assoc.
Qed.

Lemma union_step_raise s e :
  py_in INIT s = true → tx1017_lrv_union_step s = Raise e →
  e = ValueError "substring not found" ∧ unfollowed s.
Proof.
  unfold tx1017_lrv_union_step, py_index, py_index_from. intros Hin.
  destruct (py_find INIT s) as [i|] eqn:Hf.
  2:{ exfalso. apply py_in_occ in Hin as [j Hj]. by apply (proj1 (py_find_None _ _) Hf j). }
  cbn [res_bind]. destruct (find_split INIT s i Hf) as (a & b & -> & <-).
  rewrite take_app_length, drop_app_ge, Nat.add_sub_swap, Nat.sub_diag by lia.
  cbn [Nat.add]. rewrite drop_app_length.
  unfold py_find_from. rewrite (proj2 (Nat.leb_le _ _)) by (rewrite length_app; lia).
  rewrite drop_app_length.
  destruct (py_find [nl; nl] (big ++ b)) as [k|] eqn:Hk; cbn [fmap option_fmap option_map res_bind]; [done|].
  intros [= <-]. split; [done|]. exists a, b. split; [done|].
  unfold blank_in. apply py_in_false. intros j (x & z & E & _).
  apply (proj1 (py_find_None _ _) Hk (length (big_line ++ x))).
  exists (big_line ++ x), z. split; [|done]. rewrite (proj1 big_line_ok), <-!app_assoc. cbn [app].
  by rewrite E.
Qed.

(** What the loop gives for a text with [n] initialisers, with enough fuel. *)
Definition union_result (s : text) (x : res text) : Prop :=
  match x with
  | Ok t =>
      ¬ unfollowed s ∧ py_in INIT t = false ∧
      length t + py_count INIT s * length INIT = length s + py_count INIT s * (length big + length memset)
  | Raise e => e = ValueError "substring not found" ∧ unfollowed s
  end.

Lemma union_loop_ends n s :
  py_count INIT s = n →
  ∃ x, union_result s x ∧ ∀ fuel, n ≤ fuel → tx1017_lrv_union_loop fuel s = Some x.
Proof.
  revert s. induction n as [|n IH]; intros s Hc.
  - apply count_zero in Hc as Hin; [|apply INIT_ne]. exists (Ok s). cbn [union_result]. rewrite Hc, Hin.
    split; [|intros fuel _; unfold tx1017_lrv_union_loop; destruct fuel; by rewrite Hin].
    split; [|split; [done|lia]]. intros (a & b & -> & _). rewrite py_in_false in Hin.
    apply (Hin (length a)). by exists a, b.
  - assert (py_in INIT s = true) as Hin by (apply count_pos; [apply INIT_ne|lia]).
    destruct (tx1017_lrv_union_step s) as [t|e] eqn:Hs.
    + destruct (union_step_ok _ _ Hs) as [Hct Hl]. destruct (IH t ltac:(lia)) as (x & Hx & Hf).
      exists x. split.
      * destruct x as [u|]; cbn [union_result] in *; rewrite (union_step_follows _ _ Hs); [|done].
        destruct Hx as (? & ? & Hlen). do 2 (split; [done|]). rewrite Hct. lia.
      * intros [|fuel] Hle; [lia|]. cbn [tx1017_lrv_union_loop]. rewrite Hin, Hs. apply Hf. lia.
    + exists (Raise e). split; [by apply union_step_raise|].
      intros [|fuel] Hle; [lia|]. cbn [tx1017_lrv_union_loop]. by rewrite Hin, Hs.
Qed.

(** A count is not above the length. *)
Lemma count_length (sub s : text) : sub ≠ [] → py_count sub s ≤ length s.
Proof.
  intros Hne. revert s. refine (scan_ind sub _ Hne _ _ _).
  - by rewrite count_nil.
  - intros r IH. rewrite count_hit, length_app by done. destruct sub; cbn [length]; [done|lia].
  - intros c s Hs IH. rewrite count_miss by done. cbn [length]. lia.
Qed.

(** C31: [union_fix] ends on every text.  It takes exactly one turn for each initialiser of the
    union, its own insertions make no new one; when it returns none is left and the text
    has grown by one memset block for each.  It returns exactly if a blank line follows
    every initialiser of the text it is given; otherwise it raises the ValueError of
    [index]. *)
Theorem union_fix_ends s :
  union_result s (tx1017_lrv_union_fix s) ∧
  ∀ fuel, py_count INIT s ≤ fuel → tx1017_lrv_union_loop fuel s = Some (tx1017_lrv_union_fix s).
Proof.
  destruct (union_loop_ends _ s eq_refl) as (x & Hx & Hf).
  assert (tx1017_lrv_union_fix s = x) as ->; [|done].
  unfold tx1017_lrv_union_fix. rewrite Hf; [done|]. apply count_length, INIT_ne.
Qed.

Lemma union_fix_ends_witness :
  let s := lit "int f(void)
{
	union {
" ++ INIT ++ lit "	int rc;

	rc = g(&big.sp);
" in
  union_result s (tx1017_lrv_union_fix s) ∧ py_count INIT s = 1 ∧
  tx1017_lrv_union_loop 1 s = Some (tx1017_lrv_union_fix s) ∧
  tx1017_lrv_union_fix s = Ok (lit "int f(void)
{
	union {
" ++ big ++ lit "	int rc;
" ++ memset ++ lit "
	rc = g(&big.sp);
").
Proof.
  intros s. destruct (union_fix_ends s) as [Hr Hf]. split; [exact Hr|].
  assert (py_count INIT s = 1) as Hc by (vm_compute; reflexivity).
  split; [exact Hc|]. split; [apply Hf; rewrite Hc; constructor|]. vm_compute. reflexivity.
Defined.
