(* ===== verification/ForkTx5.v ===== *)
(** The series rewriter docs/rounds/a-1019/forktx5.py: forktx4.py with one module, which
    is given [ANC], the Change-Ids of the commit and of its ancestors from the start up,
    and [base], the file as the base has it; which sees None for a file the commit
    does not have and may give None to remove one.

    Only the driver is here; the modules it loads are in Tx1019Fork5.v and Tx1019c.v.
    Their report HITS is theirs: the driver does not read it. *)
From stdpp Require Import sorting.
From S2P Require Import Prelude PyStr R3Engine Git Utf8 ForkTx.

(** ** Modules *)

(** [fn(path, s, subj)] under [ANC] and [base]; [msgfn] if there is one; [ALWAYS]. *)
Record txmod5 := TxMod5 {
  t_fn : list string → (string → res text) → string → option text → text →
         res (option text * list string);
  t_msgfn : option (list string → text → text → res (text * list string));
  t_ALWAYS : list string;
}.

(** ** What the driver may rely on *)

(** [fn_doubts], [msg_doubts]: texts that may turn up again after they were replaced.  Where
    they do not, a second pass changes nothing, whatever the subject now is. *)
Class Settling (m : txmod5) := {
  fn_doubts : list (string * text);
  msg_doubts : list text;
  fn_again ANC base path s subj t h subj' :
    t_fn m ANC base path s subj = Ok (Some t, h) →
    (∀ o, (path, o) ∈ fn_doubts → py_in o t = false) →
    t_fn m ANC base path (Some t) subj' = Ok (Some t, []);
  fn_again_none ANC base path s subj h subj' :
    t_fn m ANC base path s subj = Ok (None, h) → t_fn m ANC base path None subj' = Ok (None, []);
  msg_again f ANC msg subj t h subj' :
    t_msgfn m = Some f → f ANC msg subj = Ok (t, h) →
    (∀ o, o ∈ msg_doubts → py_in o t = false) → f ANC t subj' = Ok (t, []);
}.

(** ** cid *)

Definition is_hex (c : ascii) : bool :=
  let n := nat_of_ascii c in ((48 <=? n) && (n <=? 57)) || ((97 <=? n) && (n <=? 102)).

Fixpoint take_hex (s : text) : text :=
  match s with
  | [] => []
  | c :: s' => if is_hex c then c :: take_hex s' else []
  end.

(** [re.search(r'^Change-Id: (I[0-9a-f]+)', msg, re.M)]; [bol]: at the start of a line. *)
Fixpoint change_id (bol : bool) (s : text) : option text :=
  match s with
  | [] => None
  | c :: s' =>
      let next := change_id (Ascii.eqb c nl) s' in
      if bol then
        match strip_prefix (lit "Change-Id: I") s with
        | Some r => match take_hex r with [] => next | h => Some ("I"%char :: h) end
        | None => next
        end
      else next
  end.

(** ** Paths *)

Definition str_le (x y : string) : Prop := String.leb x y = true.

#[export] Instance str_le_dec : RelDecision str_le.
Proof. intros x y. unfold str_le. apply _. Defined.

(** [sorted(p for p in set(names) | set(ALWAYS) if p)] *)
Definition tx_paths (names ALWAYS : list string) : list string :=
  merge_sort str_le (remove_dups (List.filter (λ p, negb (String.eqb p "")) (names ++ ALWAYS))).

(** The file as [git show c:path] and [decode()] give it: [None] when it cannot be decoded,
    [Some None] when it is not there. *)
Definition tx_file (tree : gmap string text) (path : string) : option (option text) :=
  match tree !! path with
  | None => Some None
  | Some d => if utf8_ok d then Some (Some d) else None
  end.

Section run5.
Context {sha repo : Type} `{EqDecision sha} `{Git sha repo} `{!GitRefs sha repo} `{!GitForce sha repo}.
Context (hex : sha → string) (BASE : sha) (m5 : txmod5).

(** [git('log', '-1', '--format=%B', c)], stripped *)
Definition log_stripped (c : commit sha) : text :=
  py_rstrip (py_lstrip (R3.universal_newlines (g_log_B c))).

(** [cid(c)]: the Change-Id, or the commit's own name *)
Definition cid (c : sha) (cc : commit sha) : string :=
  match change_id true (log_stripped cc) with
  | Some t => String.string_of_list_ascii t
  | None => hex c
  end.

(** [mod.base]: [git('show', BASE + ':' + p).decode()], [b] being the commit [BASE] *)
Definition base_file (b : option (commit sha)) (p : string) : res text :=
  match b with
  | None => Raise (CalledProcessError "show")
  | Some b =>
      match c_tree b !! p with
      | None => Raise (CalledProcessError "show")
      | Some s => if utf8_ok s then Ok s else Raise (ValueError "UnicodeDecodeError")
      end
  end.

(** The loop over the paths: the index and [changed]. *)
Fixpoint edit_paths5 (tree : gmap string text) (fn : string → option text → res (option text * list string))
    (paths : list string) (idx : gmap string text) (changed : bool)
    : res (gmap string text * bool) :=
  match paths with
  | [] => Ok (idx, changed)
  | path :: paths' =>
      match tx_file tree path with
      | None => edit_paths5 tree fn paths' idx changed
      | Some s =>
          let! t := fn path s in
          if bool_decide (t.1 = s) then edit_paths5 tree fn paths' idx changed
          else match t.1 with
               | None => edit_paths5 tree fn paths' (delete path idx) true
               | Some d => edit_paths5 tree fn paths' (<[path := d]> idx) true
               end
      end
  end.

(** [newof] and [anc], newest entry first. *)
Record maps := Maps { m_newof : list (sha * sha); m_anc : list (sha * list string) }.

(** [anc.get(par, frozenset())] *)
Definition anc_get (anc : list (sha * list string)) (x : sha) : list string :=
  match list_find (λ e, e.1 = x) anc with Some (_, e) => e.2 | None => [] end.

(** [mod.msgfn(msg, subj) if hasattr(mod, 'msgfn') else msg] *)
Definition tx_message (ANC : list string) (msg subj : text) : res text :=
  match t_msgfn m5 with
  | Some f => let! x := f ANC msg subj in Ok x.1
  | None => Ok msg
  end.

(** What a commit is rewritten to, its parent aside: the tree, whether it changed, and the
    message. *)
Definition rewrite5 (r : repo) (ANC : list string) (c : sha) (cc : commit sha)
    : res (gmap string text * bool * text) :=
  let subj := tx_subj cc in
  let! e := edit_paths5 (c_tree cc) (λ path s, t_fn m5 ANC (base_file (g_show r BASE)) path s subj)
              (tx_paths (g_diff_names r BASE c) (t_ALWAYS m5)) (c_tree cc) false in
  let! nmsg := tx_message ANC (tx_msg cc) subj in
  Ok (e, nmsg).

(** The loop body. *)
Definition run5_one (r : repo) (m : maps) (c : sha) : repo * res maps :=
  match g_show r c with
  | None => (r, Raise (CalledProcessError "rev-parse"))
  | Some cc =>
      match c_parent cc with
      | None => (r, Raise (CalledProcessError "rev-parse"))
      | Some par =>
          let np := newof_get (m_newof m) par in
          let ANC := cid c cc :: anc_get (m_anc m) par in
          match rewrite5 r ANC c cc with
          | Raise e => (r, Raise e)
          | Ok (tree, changed, nmsg) =>
              let m' n := Maps ((c, n) :: m_newof m) ((c, ANC) :: m_anc m) in
              if bool_decide (np = par) && negb changed && bool_decide (nmsg = tx_msg cc)
              then (r, Ok (m' c))
              else let (r', n) := g_commit_tree r (Commit tree (Some np) nmsg (c_meta cc)) in
                   (r', Ok (m' n))
          end
      end
  end.

Fixpoint run5_loop (r : repo) (m : maps) (order : list sha) : repo * res maps :=
  match order with
  | [] => (r, Ok m)
  | c :: order' =>
      match run5_one r m c with
      | (r', Raise e) => (r', Raise e)
      | (r', Ok m') => run5_loop r' m' order'
      end
  end.

(** ['refs/tx1019c/' + b] *)
Definition dry_ref (b : string) : string := String.append "refs/tx1019c/" b.

(** [for b, o in tips.items()]: in a dry run refs/tx1019c/b, else the branch if it moves. *)
Fixpoint move_tips (dry : bool) (r : repo) (newof : list (sha * sha)) (tips : list (string * sha))
    : repo * res unit :=
  match tips with
  | [] => (r, Ok ())
  | (b, o) :: tips' =>
      let n := newof_get newof o in
      if dry then move_tips dry (g_force_ref r (dry_ref b) n) newof tips'
      else if bool_decide (n = o) then move_tips dry r newof tips'
      else match g_update_ref r b n o with
           | None => (r, Raise (CalledProcessError "update-ref"))
           | Some r' => move_tips dry r' newof tips'
           end
  end.

(** [{b: git('rev-parse', b) for b in BRANCHES}]: a branch named twice is there once. *)
Fixpoint nub (l : list string) : list string :=
  match l with
  | [] => []
  | b :: l' => b :: List.filter (λ x, negb (String.eqb x b)) (nub l')
  end.

Definition tips_of (r : repo) (BRANCHES : list string) : option (list (string * sha)) :=
  mapM (λ b, o ← g_ref r b; Some (b, o)) (nub BRANCHES).

(** [run(start, mod)] *)
Definition run5 (BRANCHES : list string) (dry : bool) (start : sha) (r : repo) : repo * res maps :=
  match tips_of r BRANCHES with
  | None => (r, Raise (CalledProcessError "rev-parse"))
  | Some tips =>
      match g_topo r start tips.*2 with
      | None => (r, Raise (CalledProcessError "rev-list"))
      | Some order =>
          match run5_loop r (Maps [] []) (List.filter (g_is_ancestor r start) order) with
          | (r', Raise e) => (r', Raise e)
          | (r', Ok m) =>
              match move_tips dry r' (m_newof m) tips with
              | (r2, Raise e) => (r2, Raise e)
              | (r2, Ok _) => (r2, Ok m)
              end
          end
      end
  end.
End run5.
