(* ===== verification/ForkTx5Again.v ===== *)
(** A second run of forktx5.py over its own output, with a module that is [Settling]: every
    commit keeps its name and no branch moves. *)
From stdpp Require Import sorting.
From S2P Require Import Prelude PyStr R3Engine Git Drive Utf8 ForkTx ForkTxTheorems ForkTx5 ForkTx5Theorems.

(** ** One tree *)

Lemma elem_of_tx_paths p names ALWAYS :
  p ∈ tx_paths names ALWAYS ↔ (p ∈ names ∨ p ∈ ALWAYS) ∧ p ≠ "".
Proof.
  unfold tx_paths. rewrite merge_sort_Permutation, elem_of_remove_dups.
  rewrite list_elem_of_In, filter_In, <-list_elem_of_In, elem_of_app, negb_true_iff, String.eqb_neq. done.
Qed.

Lemma NoDup_tx_paths names ALWAYS : NoDup (tx_paths names ALWAYS).
Proof. unfold tx_paths. rewrite merge_sort_Permutation. apply NoDup_remove_dups. Qed.

Section trees.
Context (tree : gmap string text) (fn : string → option text → res (option text * list string)).
Implicit Types (paths : list string) (idx : gmap string text).

(** What the loop over the paths does to each file. *)
Lemma edit_paths5_spec paths idx ch idx' ch' :
  NoDup paths → (∀ p, p ∈ paths → idx !! p = tree !! p) →
  edit_paths5 tree fn paths idx ch = Ok (idx', ch') →
  ∀ p, match (if bool_decide (p ∈ paths) then tx_file tree p else None) with
       | None => idx' !! p = idx !! p
       | Some s => ∃ t h, fn p s = Ok (t, h) ∧ idx' !! p = t
       end.
Proof.
  revert idx ch. induction paths as [|q paths IH]; intros idx ch Hnd Hidx.
  { simpl. by intros [= <- _] p. }
  apply NoDup_cons in Hnd as [Hq Hnd]. cbn [edit_paths5].
  assert (∀ i c, (∀ p, p ≠ q → i !! p = idx !! p) → edit_paths5 tree fn paths i c = Ok (idx', ch') →
    i !! q = idx' !! q ∧
    ∀ p, p ≠ q → match (if bool_decide (p ∈ q :: paths) then tx_file tree p else None) with
         | None => idx' !! p = idx !! p
         | Some s => ∃ t h, fn p s = Ok (t, h) ∧ idx' !! p = t
         end) as Hrest.
  { intros i c Hi Hr. assert (∀ p, p ∈ paths → i !! p = tree !! p) as Hit.
    { intros p Hp. rewrite Hi; [apply Hidx; by right|]. by intros ->. }
    pose proof (IH i c Hnd Hit Hr) as Hp. split.
    - specialize (Hp q). by rewrite bool_decide_eq_false_2 in Hp.
    - intros p Hne. specialize (Hp p). rewrite <-(Hi p Hne).
      assert (bool_decide (p ∈ q :: paths) = bool_decide (p ∈ paths)) as ->; [|done].
      apply bool_decide_ext. rewrite elem_of_cons. naive_solver. }
  intros Hrun p. destruct (decide (p = q)) as [->|Hne].
  - rewrite bool_decide_eq_true_2 by by left. destruct (tx_file tree q) as [s|] eqn:Ef.
    2: { destruct (Hrest idx ch (λ _ _, eq_refl) Hrun) as [-> _]. done. }
    apply res_bind_Ok in Hrun as ([t h] & Hf & Hrun). cbn [fst] in Hrun. exists t, h. split; [done|].
    case_bool_decide as Et.
    + subst t. destruct (Hrest _ _ (λ _ _, eq_refl) Hrun) as [<- _]. rewrite Hidx by by left.
      unfold tx_file in Ef. destruct (tree !! q); simplify_eq; [by case_match; simplify_eq|done].
    + destruct t as [d|].
      * destruct (Hrest (<[q := d]> idx) true) as [<- _]; [|done|by rewrite lookup_insert_eq].
        intros; by rewrite lookup_insert_ne.
      * destruct (Hrest (delete q idx) true) as [<- _]; [|done|by rewrite lookup_delete_eq].
        intros; by rewrite lookup_delete_ne.
  - destruct (tx_file tree q) as [s|]; [|by apply (Hrest idx ch)].
    apply res_bind_Ok in Hrun as ([t h] & Hf & Hrun). cbn [fst] in Hrun.
    case_bool_decide; [by apply (Hrest idx ch)|]. destruct t as [d|].
    + apply (Hrest (<[q := d]> idx) true); [|done|done]. intros; by rewrite lookup_insert_ne.
    + apply (Hrest (delete q idx) true); [|done|done]. intros; by rewrite lookup_delete_ne.
Qed.

(** A loop in which no file changes. *)
Lemma edit_paths5_idle paths idx ch :
  (∀ p s, p ∈ paths → tx_file tree p = Some s → ∃ h, fn p s = Ok (s, h)) →
  edit_paths5 tree fn paths idx ch = Ok (idx, ch).
Proof.
  induction paths as [|q paths IH]; intros Hf; [done|]. cbn [edit_paths5].
  assert (edit_paths5 tree fn paths idx ch = Ok (idx, ch)) as Hr
    by (apply IH; intros; apply Hf; [by right|done]).
  destruct (tx_file tree q) as [s|] eqn:Ef; [|done].
  destruct (Hf q s ltac:(by left) Ef) as [h ->]. simpl. by rewrite bool_decide_eq_true_2.
Qed.
End trees.

Lemma edit_paths5_unchanged tree fn paths idx idx' :
  edit_paths5 tree fn paths idx false = Ok (idx', false) → idx' = idx.
Proof.
  assert (∀ paths idx idx' b, edit_paths5 tree fn paths idx true = Ok (idx', b) → b = true) as Ht.
  { clear. induction paths as [|p paths IH]; intros idx idx' b; simpl; [naive_solver|].
    destruct (tx_file tree p); [|apply IH]. destruct (fn p _) as [[[d|] ?]|]; simpl; [| |done];
      case_bool_decide; apply IH. }
  revert idx. induction paths as [|p paths IH]; intros idx; simpl; [by intros [= ->]|].
  destruct (tx_file tree p); [|apply IH]. destruct (fn p _) as [[[d|] ?]|]; simpl; [| |done];
    (case_bool_decide; [apply IH|]; intros Hx%Ht; done).
Qed.

Section again.
Context {sha repo : Type} `{EqDecision sha} `{GitLaws sha repo} `{!GitRefs sha repo}
        `{!GitRefsLaws sha repo} `{!GitForce sha repo} `{!GitGraphLaws sha repo}.
Context (hex : sha → string) (BASE : sha) (m5 : txmod5) `{!Settling m5}.
Implicit Types (r : repo) (c n par : sha) (m : maps (sha := sha)) (nc : commit sha).

(** Nothing in commit [nc] is a text that may be replaced a second time. *)
Definition no_doubts nc : Prop :=
  (∀ path s o, c_tree nc !! path = Some s → (path, o) ∈ fn_doubts (m := m5) → py_in o s = false) ∧
  (∀ o, o ∈ msg_doubts (m := m5) → py_in o (tx_msg nc) = false).

Lemma no_doubts_nil nc : fn_doubts (m := m5) = [] ∧ msg_doubts (m := m5) = [] → no_doubts nc.
Proof.
  intros [Hf Hm]. unfold no_doubts. rewrite Hf, Hm.
  split; [intros ??? _ ?%not_elem_of_nil|intros ? ?%not_elem_of_nil]; done.
Qed.

(** ** One commit *)

Lemma rewrite5_again r r' ANC c cc n nc b changed :
  g_show r BASE = Some b → g_show r' BASE = Some b → g_show r c = Some cc → g_show r' n = Some nc →
  rewrite5 BASE m5 r ANC c cc = Ok (c_tree nc, changed, tx_msg nc) → no_doubts nc →
  rewrite5 BASE m5 r' ANC n nc = Ok (c_tree nc, false, tx_msg nc).
Proof.
  intros Hb Hb' Hc Hn Hr [Hfd Hmd]. unfold rewrite5 in *. rewrite Hb in Hr. rewrite Hb'.
  apply res_bind_Ok in Hr as ([tree ch] & He & Hr). apply res_bind_Ok in Hr as (nmsg & Hm & Hr).
  injection Hr as -> _ ->. rewrite edit_paths5_idle.
  - unfold res_bind at 1. unfold tx_message in *. destruct (t_msgfn m5) as [f|] eqn:Ef; [|done].
    apply res_bind_Ok in Hm as ([t h] & Hf & [= Ht]). cbn [fst] in Ht. subst t.
    by erewrite (msg_again f) by done.
  - intros p s Hp Hs. set (names := g_diff_names r BASE c) in He.
    assert (p ∈ tx_paths names (t_ALWAYS m5)) as Hp1.
    { apply elem_of_tx_paths in Hp as [Hor Hne]. apply elem_of_tx_paths. split; [|done].
      destruct (decide (p ∈ t_ALWAYS m5)) as [|Hal]; [by right|left].
      destruct Hor as [Hd|]; [|done]. apply dec_stable. intros Hno.
      apply (diff_names_spec _ _ _ _ _ _ Hb' Hn) in Hd. apply Hd.
      pose proof (edit_paths5_spec _ _ _ _ _ _ _ (NoDup_tx_paths names _) (λ _ _, eq_refl) He p) as Hs1.
      rewrite bool_decide_eq_false_2 in Hs1
        by (intros [[?|?] _]%elem_of_tx_paths; done).
      rewrite Hs1. apply dec_stable. intros Hdiff. apply Hno.
      by apply (diff_names_spec _ _ _ _ _ _ Hb Hc). }
    pose proof (edit_paths5_spec _ _ _ _ _ _ _ (NoDup_tx_paths names _) (λ _ _, eq_refl) He p) as Hs1.
    rewrite bool_decide_eq_true_2 in Hs1 by done. destruct (tx_file (c_tree cc) p) as [s0|] eqn:E0.
    + destruct Hs1 as (t & h & Hf & Ht). unfold tx_file in Hs. rewrite Ht in Hs. destruct t as [d|].
      * destruct (utf8_ok d); [|done]. injection Hs as <-. exists [].
        eapply fn_again; [exact Hf|]. intros o Ho. by eapply Hfd.
      * injection Hs as <-. exists []. by eapply fn_again_none.
    + unfold tx_file in Hs, E0. rewrite Hs1 in Hs. destruct (c_tree cc !! p); [|done].
      by destruct (utf8_ok _).
Qed.

(** ** The graph *)

Lemma ancestor_shown r a h : g_ok r → is_Some (g_show r h) → ancestor r a h → is_Some (g_show r a).
Proof.
  intros Hok Hh Ha. induction Ha as [x|x y z (d & Hd & Hp) _ IH]; [done|].
  apply IH. by eapply ok_parent.
Qed.

Lemma elem_of_todo r start p tips order c :
  g_ok r → parent_of r start p → (∀ t, t ∈ tips → is_Some (g_show r t)) →
  g_topo r start tips = Some order →
  c ∈ todo_of r start order ↔ (∃ t, t ∈ tips ∧ ancestor r c t) ∧ ancestor r start c.
Proof.
  intros Hok Hp Ht Ho. unfold todo_of. rewrite list_elem_of_In, filter_In, <-list_elem_of_In.
  rewrite (topo_spec _ _ _ _ _ _ Hok Hp Ht Ho). split.
  - intros [[(t & Hin & Ha) Hnp] Hs]. split; [by exists t|].
    apply is_ancestor_spec; [done| |done]. by eapply ancestor_shown; [|apply (Ht t)|].
  - intros [(t & Hin & Ha) Hs].
    assert (is_Some (g_show r c)) by by eapply ancestor_shown; [|apply (Ht t)|].
    split; [|by apply is_ancestor_spec]. split; [by exists t|]. intros Hcp.
    eapply ok_acyclic; [done|exact Hp|]. unfold ancestor in *. by etrans.
Qed.

Lemma parent_of_fun r x p q : parent_of r x p → parent_of r x q → p = q.
Proof. intros (c & Hc & Hp) (d & Hd & Hq). by simplify_eq. Qed.

Lemma keeps_parent r r' x p : keeps r r' → parent_of r x p → parent_of r' x p.
Proof. intros K (c & Hc & Hp). exists c. split; [by apply K|done]. Qed.

(** A commit above the start has its parent above it too. *)
Lemma above_start r start p x q :
  ancestor r start x → parent_of r start p → parent_of r x q → x = start ∧ q = p ∨ ancestor r start q.
Proof.
  intros Ha Hp Hq. unfold ancestor in Ha. inversion Ha as [|? y ? Hxy Hy]; subst.
  - left. split; [done|]. by eapply parent_of_fun.
  - right. by rewrite (parent_of_fun _ _ _ _ Hq Hxy).
Qed.

(** ** After a first run *)

(** [n] holds what [c] was rewritten to, on the new name of its parent, under its Change-Id. *)
Definition settled5 r r' m c n : Prop :=
  ∃ cc par changed nc,
    g_show r c = Some cc ∧ c_parent cc = Some par ∧
    anc_get (m_anc m) c = cid hex c cc :: anc_get (m_anc m) par ∧
    rewrite5 BASE m5 r (anc_get (m_anc m) c) c cc = Ok (c_tree nc, changed, tx_msg nc) ∧
    g_show r' n = Some nc ∧ c_parent nc = Some (newof_get (m_newof m) par) ∧
    cid hex n nc = cid hex c cc ∧ no_doubts nc.

(** The new commit keeps the Change-Id, git keeps the message as it was given, and no text is
    there again that the module replaces. *)
Definition tidy5 r r' c n : Prop :=
  ∃ cc nc, g_show r c = Some cc ∧ g_show r' n = Some nc ∧
    cid hex n nc = cid hex c cc ∧ tx_msg nc = c_msg nc ∧ no_doubts nc.

Lemma settled5_from r r' m c n :
  keeps r r' → rewritten5_from hex BASE m5 r r' m c n → tidy5 r r' c n → settled5 r r' m c n.
Proof.
  intros K (cc & par & tree & changed & nmsg & Hc & Hp & Ha & Hr & Hn) (cc' & nc & Hc' & Hnc & Hid & Hms & Hd).
  rewrite Hc in Hc'. injection Hc' as <-. exists cc, par, changed, nc. do 3 (split; [done|]).
  destruct Hn as [(-> & Hnp & -> & ->)|Hn].
  - pose proof (K _ _ Hc) as Hk. rewrite Hnc in Hk. injection Hk as ->.
    assert (tree = c_tree cc) as ->.
    { unfold rewrite5 in Hr. apply res_bind_Ok in Hr as ([t ch] & He & Hr).
      apply res_bind_Ok in Hr as (ms & _ & Hr). injection Hr as -> -> _. by eapply edit_paths5_unchanged. }
    rewrite Hnp. done.
  - rewrite Hnc in Hn. injection Hn as ->. cbn [c_tree c_msg c_parent] in *.
    by rewrite Hms.
Qed.

Section second.
Context (r r' : repo) (start p : sha) (tips : list sha) (order : list sha) (m : maps (sha := sha)) (b : commit sha).
Context (Hok : g_ok r) (Hok' : g_ok r') (K : keeps r r') (Hb : g_show r BASE = Some b).
Context (Hp : parent_of r start p) (Htips : ∀ t, t ∈ tips → is_Some (g_show r t) ∧ ancestor r start t).
Context (Hsome : ∃ t, t ∈ tips) (Hord : g_topo r start tips = Some order).
Context (Hkeys : (m_newof m).*1 = rev (todo_of r start order) ∧ (m_anc m).*1 = rev (todo_of r start order)).
Context (Hset : ∀ c n, (c, n) ∈ m_newof m → settled5 r r' m c n).

#[local] Abbreviation nw := (newof_get (m_newof m)).
#[local] Abbreviation todo := (todo_of r start order).

Lemma nw_pair c : c ∈ todo → (c, nw c) ∈ m_newof m.
Proof.
  intros Hc. assert (c ∈ (m_newof m).*1) as Hin.
  { destruct Hkeys as [-> _]. by apply list_elem_of_In, in_rev; rewrite rev_involutive; apply list_elem_of_In. }
  clear -Hin. revert Hin. generalize (m_newof m). intros l. induction l as [|[x y] l IH]; [by intros ?%not_elem_of_nil|].
  rewrite newof_get_cons, fmap_cons. intros Hin. destruct (decide (x = c)) as [->|Hne]; [by left|].
  apply elem_of_cons in Hin as [?|Hin]; [done|]. right. by apply IH.
Qed.

Lemma pair_todo c n : (c, n) ∈ m_newof m → c ∈ todo.
Proof. apply keys_past. apply Hkeys. Qed.

Lemma in_todo c : c ∈ todo ↔ (∃ t, t ∈ tips ∧ ancestor r c t) ∧ ancestor r start c.
Proof. eapply elem_of_todo; [done..| |done]. intros t Ht. by apply Htips. Qed.

Lemma start_todo : start ∈ todo.
Proof. destruct Hsome as [t Ht]. apply in_todo. split; [|apply rtc_refl]. exists t. split; [done|]. by apply Htips. Qed.

Lemma tip_todo t : t ∈ tips → t ∈ todo.
Proof. intros Ht. apply in_todo. split; [|by apply Htips]. exists t. split; [done|]. apply rtc_refl. Qed.

Lemma start_parent_out : p ∉ todo.
Proof. intros [_ Ha]%in_todo. exact (ok_acyclic _ _ _ Hok Hp Ha). Qed.

Lemma nw_p : nw p = p.
Proof.
  apply newof_get_other. destruct Hkeys as [-> _]. intros Hin. apply start_parent_out.
  by apply list_elem_of_In, in_rev, list_elem_of_In.
Qed.

(** The parent of a rewritten commit: rewritten, or the commit before the start. *)
Lemma todo_parent c par :
  c ∈ todo → parent_of r c par → par ∈ todo ∨ c = start ∧ par = p.
Proof.
  intros Hc Hpar. pose proof (proj1 (in_todo c) Hc) as [(t & Ht & Ha) Hs].
  destruct (above_start _ _ _ _ _ Hs Hp Hpar) as [|Hq]; [by right|left].
  apply in_todo. split; [|done]. exists t. split; [done|]. unfold ancestor in *. etrans; [exact Ha|by apply rtc_once].
Qed.

Lemma settled_parent c n par : (c, n) ∈ m_newof m → parent_of r c par → parent_of r' n (nw par).
Proof.
  intros Hin (dc & Hdc & Hdp). destruct (Hset c n Hin) as (cc & q & ch & nc & Hc & Hq & _ & _ & Hnc & Hnp & _).
  rewrite Hc in Hdc. injection Hdc as <-. rewrite Hq in Hdp. injection Hdp as ->. by exists nc.
Qed.

Lemma todo_has_parent c : c ∈ todo → ∃ q, parent_of r c q.
Proof. intros Hc%nw_pair. destruct (Hset _ _ Hc) as (cc & q & ch & nc & ? & ? & _). by exists q, cc. Qed.

Lemma start'_parent : parent_of r' (nw start) p.
Proof. rewrite <-nw_p. eapply settled_parent; [apply nw_pair, start_todo|done]. Qed.

(** Lines of commits are carried over. *)
Lemma ancestor_carried x y :
  y ∈ todo → ancestor r x y → ancestor r start x → x ∈ todo ∧ ancestor r' (nw x) (nw y).
Proof.
  intros Hy Ha Hs. induction Ha as [y|y z x Hyz Hzx IH]; [split; [done|apply rtc_refl]|].
  assert (z ∈ todo) as Hz.
  { destruct (todo_parent _ _ Hy Hyz) as [|[-> ->]]; [done|]. exfalso.
    eapply ok_acyclic; [exact Hok|exact Hp|]. unfold ancestor in *. by etrans. }
  destruct (IH Hz Hs) as [Hx Hax]. split; [done|].
  eapply rtc_l; [|exact Hax]. eapply settled_parent; [by apply nw_pair|done].
Qed.

(** Every commit of the second order is the new name of one of the first. *)
Lemma ancestor_back x c :
  c ∈ todo → ancestor r' x (nw c) → ¬ ancestor r' x p → ∃ d, d ∈ todo ∧ x = nw d.
Proof.
  intros Hc Ha Hnp. remember (nw c) as y eqn:Hy. revert c Hc Hy.
  induction Ha as [y|y z x Hyz Hzx IH]; intros c Hc ->; [by exists c|].
  destruct (todo_has_parent _ Hc) as [par Hpar].
  pose proof (settled_parent _ _ _ (nw_pair _ Hc) Hpar) as Hpn.
  rewrite (parent_of_fun _ _ _ _ Hyz Hpn) in *.
  destruct (todo_parent _ _ Hc Hpar) as [Hd|[-> ->]]; [by eapply IH|].
  rewrite nw_p in Hzx. done.
Qed.

Section order2.
Context (tips2 order2 : list sha) (Ht2 : tips2 = nw <$> tips) (Ho2 : g_topo r' (nw start) tips2 = Some order2).

#[local] Abbreviation todo2 := (todo_of r' (nw start) order2).

Lemma tips2_shown t : t ∈ tips2 → is_Some (g_show r' t).
Proof.
  rewrite Ht2. intros (o & -> & Ho)%list_elem_of_fmap.
  destruct (Hset _ _ (nw_pair _ (tip_todo _ Ho))) as (? & ? & ? & nc & _ & _ & _ & _ & Hn & _). by exists nc.
Qed.

Lemma in_todo2 x : x ∈ todo2 ↔ (∃ t, t ∈ tips2 ∧ ancestor r' x t) ∧ ancestor r' (nw start) x.
Proof. eapply elem_of_todo; [done|apply start'_parent|apply tips2_shown|done]. Qed.

Lemma nw_todo2 c : c ∈ todo → nw c ∈ todo2.
Proof.
  intros Hc. apply in_todo2. pose proof (proj1 (in_todo c) Hc) as [(t & Ht & Ha) Hs]. split.
  - exists (nw t). split; [rewrite Ht2; by apply list_elem_of_fmap_2|].
    by apply ancestor_carried; [apply tip_todo| |].
  - apply (ancestor_carried start c); [done..|]. apply rtc_refl.
Qed.

Lemma todo2_nw x : x ∈ todo2 → ∃ c, c ∈ todo ∧ x = nw c.
Proof.
  intros [(t & Ht & Ha) Hs]%in_todo2. rewrite Ht2 in Ht. apply list_elem_of_fmap in Ht as (o & -> & Ho).
  eapply ancestor_back; [by apply tip_todo|done|]. intros Hxp.
  eapply (ok_acyclic r'); [done|apply start'_parent|]. unfold ancestor in *. by etrans.
Qed.

Lemma p_todo2 : p ∉ todo2.
Proof. intros [_ Ha]%in_todo2. exact (ok_acyclic _ _ _ Hok' start'_parent Ha). Qed.

(** The loop with the commits [past] behind it: every commit kept its name, and has the
    Change-Ids it had the first time. *)
Definition again_inv (past : list sha) (m2 : maps) : Prop :=
  ((m_newof m2).*1 = rev past ∧ (m_anc m2).*1 = rev past) ∧ (∀ x y, (x, y) ∈ m_newof m2 → y = x) ∧
  ∀ c n, (c, n) ∈ m_newof m → n ∈ past → anc_get (m_anc m2) n = anc_get (m_anc m) c.

Lemma same_newof m2 x : (∀ x y, (x, y) ∈ m_newof m2 → y = x) → newof_get (m_newof m2) x = x.
Proof.
  intros Hid. unfold newof_get. destruct (list_find _ _) as [[i [y z]]|] eqn:E; [|done].
  apply list_find_Some in E as (Hi & Heq & _). cbn [fst snd] in *. subst y.
  apply Hid. by eapply list_elem_of_lookup_2.
Qed.

Lemma anc_get_other (anc : list (sha * list string)) x : x ∉ anc.*1 → anc_get anc x = [].
Proof.
  unfold anc_get. intros Hx. destruct (list_find _ anc) as [[i e]|] eqn:E; [|done].
  apply list_find_Some in E as (Hi & <- & _). destruct Hx.
  apply list_elem_of_fmap. exists e. split; [done|]. by eapply list_elem_of_lookup_2.
Qed.

Lemma again_anc past x rest m2 c nc :
  todo2 = past ++ x :: rest → again_inv past m2 → (c, x) ∈ m_newof m → g_show r' x = Some nc →
  ∀ par, c_parent nc = Some par → cid hex x nc :: anc_get (m_anc m2) par = anc_get (m_anc m) c.
Proof.
  intros Htd ([_ Hak] & _ & Hanc) Hin Hnc par Hpar.
  destruct (Hset c x Hin) as (cc & q & ch & nc' & Hc & Hq & Ha & _ & Hnc' & Hnp & Hid & _).
  rewrite Hnc in Hnc'. injection Hnc' as <-. rewrite Hpar in Hnp. injection Hnp as ->.
  rewrite Ha, Hid. f_equal.
  destruct (todo_parent c q (pair_todo _ _ Hin) ltac:(by exists cc)) as [Hqt|[-> ->]].
  - apply Hanc; [by apply nw_pair|].
    eapply (topo_filter_first r'); [exact Hok'|exact Ho2|exact Htd|exact Hnc|exact Hpar|].
    by apply (nw_todo2 q).
  - rewrite nw_p. rewrite !anc_get_other; [done| |].
    + destruct Hkeys as [_ ->]. intros Hx. apply start_parent_out.
      by apply list_elem_of_In, in_rev, list_elem_of_In.
    + rewrite Hak. intros Hx. apply p_todo2. rewrite Htd. apply elem_of_app. left.
      by apply list_elem_of_In, in_rev, list_elem_of_In.
Qed.

Lemma again_step past x rest m2 :
  todo2 = past ++ x :: rest → again_inv past m2 →
  ∃ m3, run5_one hex BASE m5 r' m2 x = (r', Ok m3) ∧ again_inv (past ++ [x]) m3.
Proof.
  intros Htd Hinv. destruct (todo2_nw x) as (c & Hc & ->).
  { rewrite Htd. apply elem_of_app. right. by left. }
  pose proof (Hset _ _ (nw_pair _ Hc)) as (cc & q & ch & nc & Hcc & Hq & Ha & Hr & Hnc & Hnp & Hid & Hnd).
  pose proof (again_anc _ _ _ _ _ _ Htd Hinv (nw_pair _ Hc) Hnc _ Hnp) as Hanc.
  unfold run5_one. rewrite Hnc, Hnp, Hanc.
  pose proof Hinv as ([Hk1 Hk2] & Hsame & Hall).
  rewrite (rewrite5_again r r' _ c cc _ nc b ch Hb (K _ _ Hb) Hcc Hnc Hr Hnd).
  rewrite (same_newof m2) by done. rewrite !bool_decide_eq_true_2 by done. simpl.
  eexists. split; [done|]. split; [|split].
  - cbn [m_newof m_anc]. by rewrite !fmap_cons, Hk1, Hk2, rev_app_distr.
  - cbn [m_newof]. intros y z [[= -> ->]|Hin]%elem_of_cons; [done|by apply Hsame].
  - cbn [m_anc]. intros d n Hin Hn. rewrite anc_get_cons. destruct (decide (nw c = n)) as [Heq|Hne].
    + subst n. pose proof (again_anc _ _ _ _ _ _ Htd Hinv Hin Hnc _ Hnp) as Hd. by rewrite <-Hanc.
    + apply Hall; [done|]. apply elem_of_app in Hn as [?|?%list_elem_of_singleton]; [done|]. by subst.
Qed.

Lemma again_loop rest past m2 :
  todo2 = past ++ rest → again_inv past m2 →
  ∃ m3, run5_loop hex BASE m5 r' m2 rest = (r', Ok m3) ∧ again_inv todo2 m3.
Proof.
  revert past m2. induction rest as [|x rest IH]; intros past m2 Htd Hinv.
  { exists m2. rewrite app_nil_r in Htd. rewrite Htd. done. }
  destruct (again_step _ _ _ _ Htd Hinv) as (m3 & H1 & Hinv3). cbn [run5_loop]. rewrite H1.
  apply (IH (past ++ [x])); [|done]. by rewrite <-app_assoc.
Qed.
End order2.
End second.

Lemma move_tips_same r newof tips :
  (∀ b o, (b, o) ∈ tips → newof_get newof o = o) → move_tips false r newof tips = (r, Ok ()).
Proof.
  induction tips as [|[b o] tips IH]; intros Hs; [done|]. cbn [move_tips].
  rewrite bool_decide_eq_true_2 by (apply (Hs b); by left). apply IH. intros b' o' Hin. apply (Hs b'). by right.
Qed.

Lemma tips_of_moved r r' f BRANCHES tips :
  tips_of r BRANCHES = Some tips → (∀ b, b ∈ BRANCHES → g_ref r' b = f <$> g_ref r b) →
  tips_of r' BRANCHES = Some ((λ e, (e.1, f e.2)) <$> tips).
Proof.
  intros Ht Hr. assert (∀ b, b ∈ nub BRANCHES → g_ref r' b = f <$> g_ref r b) as Hr'
    by (intros b Hb; apply Hr; by apply elem_of_nub).
  unfold tips_of in *. clear Hr. revert tips Ht Hr'. generalize (nub BRANCHES). intros l.
  induction l as [|x l IH]; intros tips Ht Hr; simpl in *; [by injection Ht as <-|].
  rewrite Hr by by left. destruct (g_ref r x) as [o|]; simpl in *; [|done].
  destruct (mapM _ l) as [tips'|]; simpl in *; [|done]. injection Ht as <-.
  rewrite (IH tips' eq_refl) by (intros; apply Hr; by right). done.
Qed.

(** What a run that returns leaves for the next one. *)
Lemma run5_moved BRANCHES start r r' m :
  g_ok r → is_Some (g_show r BASE) → run5 hex BASE m5 BRANCHES false start r = (r', Ok m) →
  g_ok r' ∧ keeps r r' ∧ (∀ c n, (c, n) ∈ m_newof m → rewritten5_from hex BASE m5 r r' m c n) ∧
  ∃ tips order, tips_of r BRANCHES = Some tips ∧ g_topo r start tips.*2 = Some order ∧
    ((m_newof m).*1 = rev (todo_of r start order) ∧ (m_anc m).*1 = rev (todo_of r start order)) ∧
    tips_of r' BRANCHES = Some ((λ e, (e.1, newof_get (m_newof m) e.2)) <$> tips).
Proof.
  intros Hok Hb Hrun. pose proof (run5_inv hex BASE m5 BRANCHES false start r Hok Hb) as Hi. rewrite Hrun in Hi.
  destruct Hi as (tips & order & rm & Ht & Ho & (Hokm & Hx & Hkeys & Hall) & Hmv).
  pose proof Hx as (K & R & _). destruct (tips_of_spec _ _ _ Ht) as [Htk Htr].
  destruct (move_tips_ok rm (m_newof m) tips) as (r2 & E & Hok2 & Hs & Hrefs);
    [rewrite Htk; apply NoDup_nub|intros x o Hin; rewrite R; by apply Htr|done|].
  rewrite Hmv in E. injection E as <-. split; [done|].
  split; [intros x d Hd; rewrite Hs; by apply K|]. split.
  - intros c n Hin. eapply rewritten5_back; [exact Hx|done| |exact Hs|by apply Hall].
    eapply todo_shown; [done..|]. eapply keys_past; [exact (proj1 Hkeys)|exact Hin].
  - exists tips, order. do 3 (split; [done|]).
    apply (tips_of_moved r); [done|]. intros x Hin. rewrite Hrefs, R, bool_decide_eq_true_2; [done|].
    by eapply branch_in_tips.
Qed.

(** Branches that hold the start. *)
Lemma tips_hold_start BRANCHES start r tips :
  g_ok r → BRANCHES ≠ [] → tips_of r BRANCHES = Some tips →
  (∀ b, b ∈ BRANCHES → ∃ o, g_ref r b = Some o ∧ is_Some (g_show r o) ∧ g_is_ancestor r start o = true) →
  (∀ t, t ∈ tips.*2 → is_Some (g_show r t) ∧ ancestor r start t) ∧ ∃ t, t ∈ tips.*2.
Proof.
  intros Hok Hne Ht Hbr. destruct (tips_of_spec _ _ _ Ht) as [Htk Htr]. split.
  - intros t ([x o] & -> & Hin)%list_elem_of_fmap. cbn [snd].
    destruct (Hbr x) as (o' & Ho' & Hsh & Ha).
    { eapply branch_in_tips; [exact Ht|]. apply list_elem_of_fmap. by exists (x, o). }
    rewrite (Htr _ _ Hin) in Ho'. injection Ho' as <-. split; [done|]. by apply is_ancestor_spec.
  - destruct tips as [|[x o] tips]; [|exists o; by left]. destruct BRANCHES; [done|]. by simpl in Htk.
Qed.

(** C26: A second run of forktx5.py.  Start from a commit that every branch holds, with a module
    that is [Settling], and run it again from the new name of the start.  If the new
    commits have the Change-Ids and the messages they were given, and no replaced text is
    there again where a row could find it, then the second run returns, stores nothing,
    moves no branch and gives every commit its own name: running the script twice is
    running it once. *)
Theorem run5_again BRANCHES start p r r' m :
  g_ok r → is_Some (g_show r BASE) → parent_of r start p → BRANCHES ≠ [] →
  (∀ b, b ∈ BRANCHES → ∃ o, g_ref r b = Some o ∧ is_Some (g_show r o) ∧ g_is_ancestor r start o = true) →
  run5 hex BASE m5 BRANCHES false start r = (r', Ok m) →
  (∀ c n, (c, n) ∈ m_newof m → tidy5 r r' c n) →
  ∃ m', run5 hex BASE m5 BRANCHES false (newof_get (m_newof m) start) r' = (r', Ok m') ∧
        ∀ c n, (c, n) ∈ m_newof m' → n = c.
Proof.
  intros Hok [b Hb] Hp Hne Hbr Hrun Htidy.
  destruct (run5_moved _ _ _ _ _ Hok ltac:(by exists b) Hrun) as
    (Hok2 & Hk & Hfrom & tips & order & Ht & Ho & Hkeys & Ht2).
  destruct (tips_hold_start _ _ _ _ Hok Hne Ht Hbr) as [Htips Hsome].
  assert (∀ c n, (c, n) ∈ m_newof m → settled5 r r' m c n) as Hset
    by (intros c n Hin; apply settled5_from; [done|by apply Hfrom|by apply Htidy]).
  set (nw := newof_get (m_newof m)) in *. set (tips2 := (λ e, (e.1, nw e.2)) <$> tips) in *.
  assert (tips2.*2 = nw <$> tips.*2) as Hts by (unfold tips2; by rewrite <-!list_fmap_compose).
  assert (parent_of r' (nw start) p) as Hp' by by eapply (start'_parent r r').
  assert (∀ t, t ∈ tips2.*2 → is_Some (g_show r' t)) as Hsh2
    by (intros t Hin; by eapply (tips2_shown r r' start p tips.*2 order m)).
  destruct (topo_total r' (nw start) p tips2.*2 Hok2 Hp' Hsh2) as [order2 Ho2].
  destruct (again_loop r r' start p tips.*2 order m b Hok Hok2 Hk Hb Hp Htips Hsome Ho Hkeys Hset
              tips2.*2 order2 Hts Ho2 (todo_of r' (nw start) order2) [] (Maps [] [])) as (m3 & Hl & Hinv);
    [done|split; [done|split; [intros ?? ?%not_elem_of_nil; done|intros ??? ?%not_elem_of_nil; done]]|].
  destruct Hinv as (_ & Hsame & _). exists m3. split; [|exact Hsame].
  unfold run5. rewrite Ht2, Ho2. unfold todo_of in Hl. rewrite Hl.
  rewrite move_tips_same; [done|]. intros x o _. by apply same_newof.
Qed.
End again.
