(* ===== verification/TxModules.v ===== *)
(** The modules of docs/rounds/a-1019 as forktx5.py loads them, and what the driver may
    rely on: [Settling], that a second pass over a rewritten commit finds nothing to do.
    A module names the texts it cannot vouch for; the headers of tx_1019d.py to
    tx_1019h.py claim there are none. *)
From S2P Require Import Prelude PyStr Stable TxEngine TxFacts Tx1019Fork5 Tx1019c ForkTx5.

(** ** The modules *)

Definition mod_1019c : txmod5 := TxMod5 tx1019c_fn (Some tx1019c_msgfn) tx1019c_ALWAYS.
Definition mod_1019d : txmod5 := TxMod5 tx1019d_fn (Some tx1019d_msgfn) tx1019d_ALWAYS.
Definition mod_1019e : txmod5 := TxMod5 tx1019e_fn (Some tx1019e_msgfn) [].
Definition mod_1019f : txmod5 := TxMod5 tx1019f_fn (Some tx1019f_msgfn) [].
Definition mod_1019g : txmod5 := TxMod5 tx1019g_fn (Some tx1019g_msgfn) [].
Definition mod_1019h : txmod5 := TxMod5 tx1019h_fn None [].

(** ** Flat tables *)

Section flat.
Context (look : string → row → arow) (body : row → text → outcome).
Context (look_path : ∀ p r, a_path (look p r) = p).
Context (look_law : ∀ p r, body_law (look p r) (body r)).
Implicit Types (R : list frow).

Definition look_at (r : frow) : arow := look (f_path r) (f_row r).

Lemma flat_again ANC path R s hits t h hits' :
  forallb nonempty (look_at <$> R) = true →
  for_rows (at_path ANC path body) R s hits = Ok (t, h) →
  (∀ o, (path, o) ∈ doubts look_at R → py_in o t = false) →
  for_rows (at_path ANC path body) R t hits' = Ok (t, hits').
Proof.
  apply (for_rows_again look_at (λ r, body (f_row r))
           (λ r, String.eqb (f_path r) path && gate_ok ANC (f_gate r)) path).
  - intros r [Hp%String.eqb_eq _]%andb_true_iff. unfold look_at. by rewrite look_path.
  - intros r _. apply look_law.
Qed.
End flat.

(** Messages have one text and no path. *)
Lemma msgs_again (look : string → row → arow) pre (body : row → text → outcome) M s hits t h hits' :
  (∀ r, a_path (look "" r) = "") → (∀ r, body_law (look "" r) (body r)) →
  forallb nonempty (look "" <$> M) = true →
  for_rows (hit_prefix pre body) M s hits = Ok (t, h) →
  (∀ o, o ∈ (doubts (look "") M).*2 → py_in o t = false) →
  for_rows (hit_prefix pre body) M t hits' = Ok (t, hits').
Proof.
  intros Hp HL Hne Hr Hd.
  apply (for_rows_again (look "") (hit_prefix pre body) (λ _, true) "" (λ r _, Hp r)
           M s hits t h hits'); [by intros; apply hit_prefix_law|done..|].
  intros o Ho. apply Hd. apply list_elem_of_fmap. by exists ("", o).
Qed.

(** ** The instances *)

(** A module whose fn is one loop over a flat table. *)
Lemma flat_module_again (look : string → row → arow) (body : row → text → outcome) ANC path R s t h :
  (∀ p r, a_path (look p r) = p) → (∀ p r, body_law (look p r) (body r)) →
  forallb nonempty (look_at look <$> R) = true →
  (let! x := for_rows (at_path ANC path body) R s [] in Ok (Some x.1, x.2)) = Ok (Some t, h) →
  (∀ o, (path, o) ∈ doubts (look_at look) R → py_in o t = false) →
  (let! x := for_rows (at_path ANC path body) R t [] in Ok (Some x.1, x.2)) = Ok (Some t, []).
Proof.
  intros Hp HL Hne ([u hu] & Hu & [= <- <-])%res_bind_Ok Hd.
  by rewrite (flat_again look body Hp HL _ _ _ _ _ _ _ [] Hne Hu Hd).
Qed.

Lemma loop_not_none {A} (x : res (text * A)) (h : A) :
  (let! y := x in Ok (Some y.1, y.2)) ≠ Ok (None, h).
Proof. by destruct x. Qed.

(** The instance of a module made of one flat loop and one message loop. *)
Ltac fn_again_by look law :=
  intros ANC base path s subj t h subj'; destruct s as [s|]; [|done];
  apply (flat_module_again look); [intros; reflexivity|intros; apply law|vm_compute; reflexivity].

Ltac fn_none :=
  intros ANC base path s subj h subj' H; destruct s; [|done]; by apply loop_not_none in H.

Ltac msg_again_by look law :=
  intros f ANC msg subj t h subj' [= <-]; apply (msgs_again look);
  [intros; try unfold new_or_cut; by repeat case_match|intros; apply law|vm_compute; reflexivity].

#[export] Program Instance settling_1019e : Settling mod_1019e := {|
  fn_doubts := doubts (look_at plain) tx1019e_R;
  msg_doubts := (doubts (plain "") tx1019e_M).*2;
|}.
Next Obligation. fn_again_by plain sub_assert_law. Qed.
Next Obligation. fn_none. Qed.
Next Obligation. msg_again_by plain sub_in_law. Qed.

#[export] Program Instance settling_1019d : Settling mod_1019d := {|
  fn_doubts := doubts (look_at (λ p, inserts p Once)) tx1019d_R;
  msg_doubts := (doubts (new_or_cut "") tx1019d_M).*2;
|}.
Next Obligation. fn_again_by (λ p, inserts p Once) sub_assert_skip_law. Qed.
Next Obligation. fn_none. Qed.
Next Obligation. msg_again_by new_or_cut msg_new_or_cut_law. Qed.

#[export] Program Instance settling_1019f : Settling mod_1019f := {|
  fn_doubts := doubts (look_at (λ p, inserts p Always)) tx1019f_R;
  msg_doubts := (doubts (with_new "") tx1019f_M).*2;
|}.
Next Obligation. fn_again_by (λ p, inserts p Always) sub_skip_assert_law. Qed.
Next Obligation. fn_none. Qed.
Next Obligation. msg_again_by with_new msg_new_law. Qed.

#[export] Program Instance settling_1019g : Settling mod_1019g := {|
  fn_doubts := doubts (look_at (λ p, inserts p Always)) tx1019g_R;
  msg_doubts := (doubts (with_new "") tx1019g_M).*2;
|}.
Next Obligation.
  intros ANC base path s subj t h subj'. destruct s as [s|]; [|done].
  cbn [t_fn mod_1019g]. unfold tx1019g_fn. destruct (negb _); [by intros [= <- <-]|].
  apply (flat_module_again (λ p, inserts p Always));
    [intros; reflexivity|intros; apply sub_skip_assert_law|vm_compute; reflexivity].
Qed.
Next Obligation.
  intros ANC base path s subj h subj'. destruct s as [s|]; [|done].
  cbn [t_fn mod_1019g]. unfold tx1019g_fn. destruct (negb _); [done|].
  by intros ?%loop_not_none.
Qed.
Next Obligation.
  intros f ANC msg subj t h subj' [= <-]. unfold tx1019g_msgfn.
  destruct (negb (py_in _ msg)) eqn:E; [by intros [= <- <-] _; rewrite E|].
  intros H Hd. destruct (negb (py_in _ t)); [done|]. revert H Hd.
  apply (msgs_again with_new);
    [intros; reflexivity|intros; apply msg_new_law|vm_compute; reflexivity].
Qed.

(** tx_1019h: one row has a second new text. *)
Definition look_1019h (p : string) (r : row) : arow :=
  ARow p (r_old r) [r_new r; tx1019h_P69443] Never.

Lemma tx1019h_law p r : body_law (look_1019h p r) (tx1019h_body r).
Proof.
  unfold tx1019h_body, assert_sub, substitute, keep. constructor; unfold settled; simpl.
  - intros s [->|[]]. done.
  - intros s t. repeat (case_match; simpl; try done). by intros [= ->].
  - intros s t tag. destruct (py_in (r_old r) s) eqn:Ei; simpl; [|done].
    repeat (case_match; simpl; try done); intros [= <- _]; (split; [done|]; split; [done|]);
      eexists; (split; [|reflexivity]); apply list_elem_of_In; simpl; auto.
  - intros s _ _ _. destruct (py_in (r_old r) s) eqn:Ei; simpl; [|by left].
    by repeat (case_match; simpl; try done).
Qed.

#[export] Program Instance settling_1019h : Settling mod_1019h := {|
  fn_doubts := doubts (look_at look_1019h) tx1019h_R;
  msg_doubts := [];
|}.
Next Obligation.
  intros ANC base path s subj t h subj'. destruct s as [s|]; [|done].
  cbn [t_fn mod_1019h]. unfold tx1019h_fn. destruct (negb _); [by intros [= <- <-]|].
  apply (flat_module_again look_1019h);
    [intros; reflexivity|intros; apply tx1019h_law|vm_compute; reflexivity].
Qed.
Next Obligation.
  intros ANC base path s subj h subj'. destruct s as [s|]; [|done].
  cbn [t_fn mod_1019h]. unfold tx1019h_fn. destruct (negb _); [done|].
  by intros ?%loop_not_none.
Qed.
Next Obligation. done. Qed.

(** tx_1019c: the two loops as one, rows of [R] and then of [R_FN]. *)

(** The texts a row of [R_FN] can put there, with 68288 below or not and for either kind of
    target. *)
Definition candidates (r : fnrow) : list text :=
  [fn_new r [] []; fn_new r [] (lit "zfs_scan_unbuilt");
   fn_new r [tx1019c_C288] []; fn_new r [tx1019c_C288] (lit "zfs_scan_unbuilt")].

Definition look_1019c (r : frow + fnrow) : arow :=
  match r with
  | inl r => inserts (f_path r) Once (f_row r)
  | inr r => ARow (fn_path r) (fn_old r) (candidates r) Unsure
  end.

Definition both_1019c : list (frow + fnrow) := (inl <$> tx1019c_R) ++ (inr <$> tx1019c_R_FN).

(** All that a row looks at. *)
Definition anc_seen (ANC : list string) : list string :=
  if str_mem tx1019c_C288 ANC then [tx1019c_C288] else [].

Definition text_seen (s : text) : text :=
  if py_in (lit "zfs_scan_unbuilt") s then lit "zfs_scan_unbuilt" else [].

Lemma anc_seen_same ANC : str_mem tx1019c_C288 (anc_seen ANC) = str_mem tx1019c_C288 ANC.
Proof. unfold anc_seen. by destruct (str_mem _ ANC). Qed.

Lemma text_seen_same s :
  py_in (lit "zfs_scan_unbuilt") (text_seen s) = py_in (lit "zfs_scan_unbuilt") s.
Proof. unfold text_seen. by destruct (py_in _ s). Qed.

Lemma fn_new_seen r ANC s : r ∈ tx1019c_R_FN → fn_new r ANC s = fn_new r (anc_seen ANC) (text_seen s).
Proof.
  intros Hr. apply list_elem_of_In in Hr.
  destruct Hr as [<-|[<-|[<-|[<-|[]]]]];
    cbn [fn_new tx1019c_R_FN_1 tx1019c_R_FN_2 tx1019c_R_FN_3 tx1019c_R_FN_4];
    unfold tx1019c_b_setup, tx1019c_b_check, tx1019c_b_fmt;
    by rewrite ?anc_seen_same, ?text_seen_same.
Qed.

Lemma candidates_all r ANC s : r ∈ tx1019c_R_FN → fn_new r ANC s ∈ candidates r.
Proof.
  intros Hr. rewrite (fn_new_seen r ANC s Hr). unfold candidates, anc_seen, text_seen.
  apply list_elem_of_In. destruct (str_mem _ ANC), (py_in _ s); cbn [In]; auto.
Qed.

Section c1019.
Context (ANC : list string) (path : string).

Definition body_1019c (r : frow + fnrow) : text → outcome :=
  match r with
  | inl r => sub_assert_skip (f_row r)
  | inr r => tx1019c_sub_fn ANC (fn_path r) r
  end.

Definition live_1019c (r : frow + fnrow) : bool :=
  match r with
  | inl r => String.eqb (f_path r) path && gate_ok ANC (f_gate r)
  | inr r => String.eqb (fn_path r) path
  end.

Lemma live_1019c_path r : live_1019c r = true → a_path (look_1019c r) = path.
Proof. destruct r; simpl; intros H; bools; done. Qed.

Lemma body_1019c_law r : r ∈ both_1019c → body_law (look_1019c r) (body_1019c r).
Proof.
  destruct r as [r|r]; [intros _; apply sub_assert_skip_law|].
  intros [Hr|Hr]%elem_of_app; apply list_elem_of_fmap in Hr as (r' & Heq & Hr); simplify_eq.
  unfold body_1019c, tx1019c_sub_fn, keep, substitute. rewrite String.eqb_refl.
  constructor; unfold settled; simpl.
  - intros s [->|[]]. done.
  - intros s t. repeat (case_match; simpl; try done); by intros [= ->].
  - intros s t tag. destruct (py_in (fn_old r') s) eqn:Ei; simpl; [|done].
    repeat (case_match; simpl; try done). intros [= <- _]. split; [done|]. split; [done|].
    eexists. split; [by apply candidates_all|done].
  - done.
Qed.

Lemma for_rows_map {A B : Type} (f : A → B) (b : B → text → outcome) l s hits :
  for_rows b (f <$> l) s hits = for_rows (λ r, b (f r)) l s hits.
Proof.
  revert s hits. induction l as [|r l IH]; intros s hits; [done|]. simpl.
  destruct (b (f r) s) as [[t tag]|]; [|done]. simpl. apply IH.
Qed.

Lemma for_rows_ext {A : Type} (b b' : A → text → outcome) l s hits :
  (∀ r s, b r s = b' r s) → for_rows b l s hits = for_rows b' l s hits.
Proof.
  intros He. revert s hits. induction l as [|r l IH]; intros s hits; [done|]. simpl.
  rewrite He. destruct (b' r s) as [[t tag]|]; [|done]. simpl. apply IH.
Qed.

Lemma loops_1019c s :
  tx1019c_loops ANC path s =
  for_rows (λ r s, if live_1019c r then body_1019c r s else keep s) both_1019c s [].
Proof.
  unfold both_1019c. rewrite for_rows_app, !for_rows_map. unfold tx1019c_loops.
  transitivity (let! x := for_rows (at_path ANC path sub_assert_skip) tx1019c_R s [] in
    for_rows (λ r s, if live_1019c r then body_1019c r s else keep s) (inr <$> tx1019c_R_FN) x.1 x.2);
    [|reflexivity].
  destruct (for_rows (at_path _ _ _) _ _ _) as [[u hu]|]; [|done]. cbn [res_bind fst snd].
  rewrite for_rows_map. apply for_rows_ext. intros r v.
  cbn [live_1019c body_1019c]. unfold tx1019c_sub_fn. rewrite String.eqb_refl.
  by destruct (String.eqb (fn_path r) path).
Qed.
End c1019.

#[export] Program Instance settling_1019c : Settling mod_1019c := {|
  fn_doubts := doubts look_1019c both_1019c;
  msg_doubts := (doubts (with_new "") tx1019c_M).*2;
|}.
Next Obligation.
  intros ANC base path s subj t h subj'. cbn [t_fn mod_1019c]. unfold tx1019c_fn.
  assert (∀ s', (let! x := tx1019c_loops ANC path s' in Ok (Some x.1, x.2)) = Ok (Some t, h) →
    (∀ o, (path, o) ∈ doubts look_1019c both_1019c → py_in o t = false) →
    (let! x := tx1019c_loops ANC path t in Ok (Some x.1, x.2)) = Ok (Some t, [])) as Hl.
  { intros s' ([u hu] & Hu & [= <- <-])%res_bind_Ok Hd. rewrite loops_1019c in Hu |- *.
    by rewrite (for_rows_again look_1019c (body_1019c ANC) (live_1019c ANC path) path
      (live_1019c_path ANC path) both_1019c s' [] u hu [] (body_1019c_law ANC)
      ltac:(vm_compute; reflexivity) Hu Hd). }
  destruct (tx1019c_early ANC); [|destruct s as [s|]; [apply Hl|done]].
  destruct (String.eqb path tx1019c_TOOL); [done|].
  destruct (str_mem path tx1019c_TU || _); [|destruct s as [s|]; [apply Hl|done]].
  intros (b & Hb & [= -> <-])%res_bind_Ok _. rewrite Hb. simpl. by rewrite bool_decide_eq_true_2.
Qed.
Next Obligation.
  intros ANC base path s subj h subj'. cbn [t_fn mod_1019c]. unfold tx1019c_fn.
  destruct (tx1019c_early ANC); [|destruct s as [s|]; [by intros ?%loop_not_none|done]].
  destruct (String.eqb path tx1019c_TOOL); [done|].
  destruct (str_mem path tx1019c_TU || _); [by intros (b & _ & [=])%res_bind_Ok|].
  destruct s as [s|]; [by intros ?%loop_not_none|done].
Qed.
Next Obligation. msg_again_by with_new msg_new_law. Qed.

(** What each module leaves in doubt. *)
Lemma doubts_1019e : @fn_doubts _ settling_1019e = [] ∧ @msg_doubts _ settling_1019e = [].
Proof. split; vm_compute; reflexivity. Qed.
Lemma doubts_1019f : @fn_doubts _ settling_1019f = [] ∧ @msg_doubts _ settling_1019f = [].
Proof. split; vm_compute; reflexivity. Qed.
Lemma doubts_1019g : @fn_doubts _ settling_1019g = [] ∧ @msg_doubts _ settling_1019g = [].
Proof. split; vm_compute; reflexivity. Qed.
Lemma doubts_1019h : @fn_doubts _ settling_1019h = [] ∧ @msg_doubts _ settling_1019h = [].
Proof. split; vm_compute; reflexivity. Qed.
Lemma doubts_1019d :
  @fn_doubts _ settling_1019d = [] ∧
  @msg_doubts _ settling_1019d = r_old <$> List.filter (λ r, str_mem (r_tag r) ["L1"; "B1"; "E1"]) tx1019d_M.
Proof. split; vm_compute; reflexivity. Qed.
