(* ===== verification/TxTheorems.v ===== *)
(** What the rewrite modules of docs/rounds/a-1019 promise, and what a run of forktx5.py
    with them leaves in the commits. *)
From S2P Require Import Prelude PyStr Stable Git Drive TxEngine TxFacts Tx1019Fork5 Tx1019c.
From S2P Require Import Utf8 ForkTx ForkTxTheorems ForkTx5 ForkTx5Theorems ForkTx5Again TxModules.

(** ** One module, one text *)

(** A module without doubts is idempotent on every file. *)
Lemma no_doubts_again m `{!Settling m} ANC base path s subj t h subj' :
  fn_doubts (m := m) = [] → t_fn m ANC base path s subj = Ok (t, h) →
  t_fn m ANC base path t subj' = Ok (t, []).
Proof.
  intros Hd Hf. destruct t as [t|]; [|by eapply fn_again_none].
  eapply fn_again; [exact Hf|]. rewrite Hd. by intros o ?%not_elem_of_nil.
Qed.

Lemma no_msg_doubts_again m `{!Settling m} f ANC msg subj t h subj' :
  msg_doubts (m := m) = [] → t_msgfn m = Some f → f ANC msg subj = Ok (t, h) →
  f ANC t subj' = Ok (t, []).
Proof.
  intros Hd Hm Hf. eapply msg_again; [exact Hm|exact Hf|]. rewrite Hd. by intros o ?%not_elem_of_nil.
Qed.

(** C29: The headers of tx_1019d.py to tx_1019h.py say "idempotent", and they are: for every
    file, present or not, whatever it holds and under any Change-Ids, the result of fn
    goes through fn again unchanged and without a hit; and so does the result of msgfn
    for every message in tx_1019e.py, tx_1019f.py and tx_1019g.py. *)
Theorem modules_idempotent m ANC base path s msg subj subj' t h :
  (m ∈ [mod_1019d; mod_1019e; mod_1019f; mod_1019g; mod_1019h] →
   t_fn m ANC base path s subj = Ok (t, h) → t_fn m ANC base path t subj' = Ok (t, [])) ∧
  (∀ f u, m ∈ [mod_1019e; mod_1019f; mod_1019g] → t_msgfn m = Some f →
   f ANC msg subj = Ok (u, h) → f ANC u subj' = Ok (u, [])).
Proof.
  split.
  - intros Hm. rewrite !elem_of_cons in Hm.
    destruct Hm as [->|[->|[->|[->|[->|[]%not_elem_of_nil]]]]].
    + apply (no_doubts_again mod_1019d), doubts_1019d.
    + apply (no_doubts_again mod_1019e), doubts_1019e.
    + apply (no_doubts_again mod_1019f), doubts_1019f.
    + apply (no_doubts_again mod_1019g), doubts_1019g.
    + apply (no_doubts_again mod_1019h), doubts_1019h.
  - intros f u Hm. rewrite !elem_of_cons in Hm.
    destruct Hm as [->|[->|[->|[]%not_elem_of_nil]]].
    + apply (no_msg_doubts_again mod_1019e), doubts_1019e.
    + apply (no_msg_doubts_again mod_1019f), doubts_1019f.
    + apply (no_msg_doubts_again mod_1019g), doubts_1019g.
Qed.

(** ** Commits *)

(** A tree that has the old text of the first row of tx_1019e.py, and messages with
    Change-Ids; two branches on one commit. *)
Definition e_old : text := default [] (r_old ∘ f_row <$> head tx1019e_R).
Definition e_new : text := default [] (r_new ∘ f_row <$> head tx1019e_R).

Definition scan_repo : ListGit.repo := ListGit.Repo [
  Commit {[tx1019e_SAN := lit "base"]} None (lit "base
") fork_meta;
  Commit {[tx1019e_SAN := lit "one" ++ e_old]} (Some 0) (lit "one

Change-Id: I0a1
") fork_meta;
  Commit {[tx1019e_SAN := lit "one" ++ e_old; "g" := lit "left"]} (Some 1) (lit "left

Change-Id: I0a2
") fork_meta;
  Commit {[tx1019e_SAN := lit "two" ++ e_old]} (Some 1) (lit "right

Change-Id: I0a3
") fork_meta
] "9" {[heads "left" := 2; heads "right" := 3; heads "other" := 0]}.

Lemma scan_repo_ok : g_ok scan_repo.
Proof.
  split.
  - apply (bool_decide_unpack _). vm_compute. reflexivity.
  - intros n c p Hn Hp. do 4 (destruct n as [|n]; [injection Hn as <-; simpl in Hp; simplify_eq; lia|]).
    done.
Qed.

Definition scan_hex (n : nat) : string := "commit".

Lemma run5_rewrites_witness :
  match run5 scan_hex 0 mod_1019e ["left"; "right"] true 1 scan_repo with
  | (r', Ok m) =>
      m_newof m = [(3, 6); (2, 5); (1, 4)] ∧ keeps scan_repo r' ∧
      (∀ c n, (c, n) ∈ m_newof m → rewritten5_from scan_hex 0 mod_1019e scan_repo r' m c n) ∧
      g_ref r' "left" = Some 2 ∧ g_read_ref r' "refs/tx1019c/left" = Some 5
  | (_, Raise _) => False
  end.
Proof.
  pose proof (run5_rewrites scan_hex 0 mod_1019e ["left"; "right"] true 1 scan_repo
                scan_repo_ok ltac:(by eexists)) as H.
  destruct (run5 scan_hex 0 mod_1019e ["left"; "right"] true 1 scan_repo) as [r' [m|e]] eqn:E.
  - assert (m_newof m = [(3, 6); (2, 5); (1, 4)]) as Hn by (vm_compute in E; by injection E as _ <-).
    destruct H as (K & _ & Hrw & Hrefs & Hdry). split; [exact Hn|]. split; [exact K|].
    split; [exact Hrw|]. split.
    + by rewrite Hrefs.
    + change "refs/tx1019c/left" with (dry_ref "left"). rewrite (Hdry "left" 2); [by rewrite Hn|by left|done].
  - vm_compute in E. discriminate.
Defined.

Lemma run5_again_witness :
  ∃ r' m m', run5 scan_hex 0 mod_1019e ["left"; "right"] false 1 scan_repo = (r', Ok m) ∧
    m_newof m = [(3, 6); (2, 5); (1, 4)] ∧
    run5 scan_hex 0 mod_1019e ["left"; "right"] false (newof_get (m_newof m) 1) r' = (r', Ok m') ∧
    ∀ c n, (c, n) ∈ m_newof m' → n = c.
Proof.
  destruct (run5 scan_hex 0 mod_1019e ["left"; "right"] false 1 scan_repo) as [r' [m|e]] eqn:E.
  2: { vm_compute in E. discriminate. }
  assert (m_newof m = [(3, 6); (2, 5); (1, 4)] ∧
    map (λ n, (λ c, (c_msg c, bool_decide (tx_msg c = c_msg c), cid scan_hex n c)) <$> g_show r' n) [4; 5; 6] =
    [Some (lit "one

Change-Id: I0a1
", true, "I0a1"); Some (lit "left

Change-Id: I0a2
", true, "I0a2"); Some (lit "right

Change-Id: I0a3
", true, "I0a3")]) as [Hn Hshow].
  { vm_compute in E. injection E as <- <-. by vm_compute. }
  exists r', m.
  destruct (run5_again scan_hex 0 mod_1019e ["left"; "right"] 1 0 scan_repo r' m) as (m' & H1 & H2).
  - exact scan_repo_ok.
  - by eexists.
  - eexists. by split.
  - done.
  - intros b Hb. rewrite !elem_of_cons in Hb.
    destruct Hb as [->|[->|[]%not_elem_of_nil]]; eexists; (split; [reflexivity|]; split; [by eexists|]);
      vm_compute; reflexivity.
  - exact E.
  - assert (∀ c n cc id, g_show scan_repo c = Some cc → cid scan_hex c cc = id →
      (∃ s, (λ c, (c_msg c, bool_decide (tx_msg c = c_msg c), cid scan_hex n c)) <$> g_show r' n =
            Some (s, true, id)) → tidy5 scan_hex mod_1019e scan_repo r' c n) as Ht.
    { intros c n cc id Hc Hid (s & Hs). destruct (g_show r' n) as [nc|] eqn:Hnc; [|done].
      simpl in Hs. injection Hs as _ Htd Hid'. apply bool_decide_eq_true in Htd.
      exists cc, nc. do 2 (split; [done|]). split; [congruence|]. split; [done|].
      apply no_doubts_nil, doubts_1019e. }
    simpl in Hshow. injection Hshow as H4 H5 H6. rewrite Hn. intros c n Hin. rewrite !elem_of_cons in Hin.
    destruct Hin as [[= -> ->]|[[= -> ->]|[[= -> ->]|[]%not_elem_of_nil]]].
    + eapply (Ht 3 6 _ "I0a3"); [reflexivity|by vm_compute|]. eexists. exact H6.
    + eapply (Ht 2 5 _ "I0a2"); [reflexivity|by vm_compute|]. eexists. exact H5.
    + eapply (Ht 1 4 _ "I0a1"); [reflexivity|by vm_compute|]. eexists. exact H4.
  - exists m'. by repeat split.
Defined.

(** ** Early commits *)

Section early.
Context {sha repo : Type} `{EqDecision sha} `{GitLaws sha repo} `{!GitRefs sha repo}
        `{!GitRefsLaws sha repo} `{!GitForce sha repo} `{!GitGraphLaws sha repo}.
Context (hex : sha → string) (BASE : sha).
Implicit Types (r : repo) (c n : sha) (b cc nc : commit sha).

(** The file of a commit that was rewritten: what fn makes of it, or the base's file. *)
Lemma rewrite5_file (m5 : txmod5) r ANC c cc b tree changed nmsg p :
  g_show r BASE = Some b → g_show r c = Some cc → p ≠ "" →
  rewrite5 BASE m5 r ANC c cc = Ok (tree, changed, nmsg) →
  match tx_file (c_tree cc) p with
  | None => tree !! p = c_tree cc !! p
  | Some s =>
      tree !! p = c_tree b !! p ∨
      ∃ t h, t_fn m5 ANC (base_file (Some b)) p s (tx_subj cc) = Ok (t, h) ∧ tree !! p = t
  end.
Proof.
  intros Hb Hc Hp Hr. unfold rewrite5 in Hr. rewrite Hb in Hr.
  apply res_bind_Ok in Hr as ([idx ch] & He & Hr). apply res_bind_Ok in Hr as (ms & _ & Hr).
  injection Hr as -> _ _.
  pose proof (edit_paths5_spec _ _ _ _ _ _ _ (NoDup_tx_paths (g_diff_names r BASE c) _) (λ _ _, eq_refl) He p) as Hs.
  case_bool_decide as Hin.
  - destruct (tx_file (c_tree cc) p) as [s|]; [by right|done].
  - destruct (tx_file (c_tree cc) p) as [s|]; [left|done]. rewrite Hs. symmetry.
    apply dec_stable. intros Hdiff. apply Hin. apply elem_of_tx_paths. split; [left|done].
    by apply (diff_names_spec _ _ _ _ _ _ Hb Hc).
Qed.

(** C28: A run with tx_1019c.py takes the device tests out of the commits before
    lfs find --device.  In every rewritten commit that has 68156 below it and not yet 68160,
    llapi_scan_device_test.c is gone, and conf-sanity.sh and llapi_test_utils.[ch] are as the
    base has them, whether or not the old commit had changed them; only a file that is
    not UTF-8 is passed over. *)
Theorem early_commits_have_no_tool BRANCHES start r r' m b c n cc :
  g_ok r → g_show r BASE = Some b → c_tree b !! tx1019c_TOOL = None →
  run5 hex BASE mod_1019c BRANCHES false start r = (r', Ok m) →
  (c, n) ∈ m_newof m → g_show r c = Some cc → tx1019c_early (anc_get (m_anc m) c) = true →
  ∃ nc, g_show r' n = Some nc ∧
    (is_Some (tx_file (c_tree cc) tx1019c_TOOL) → c_tree nc !! tx1019c_TOOL = None) ∧
    ∀ p, p ∈ tx1019c_CS :: tx1019c_TU → is_Some (tx_file (c_tree cc) p) →
         c_tree nc !! p = c_tree b !! p.
Proof.
  intros Hok Hb Htool Hrun Hin Hcc He.
  destruct (run5_moved hex BASE mod_1019c _ _ _ _ _ Hok ltac:(by exists b) Hrun) as (_ & K & Hfrom & _).
  destruct (Hfrom c n Hin) as (cc' & par & tree & changed & nmsg & Hc & Hp & Ha & Hr & Hn).
  rewrite Hcc in Hc. injection Hc as <-.
  assert (∃ nc, g_show r' n = Some nc ∧ c_tree nc = tree) as (nc & Hnc & <-).
  { destruct Hn as [(-> & _ & -> & _)|Hn]; [|eexists; split; [exact Hn|done]].
    exists cc. split; [by apply K|]. unfold rewrite5 in Hr. apply res_bind_Ok in Hr as ([idx ch] & Hed & Hr).
    apply res_bind_Ok in Hr as (ms & _ & Hr). injection Hr as -> -> _.
    symmetry. by eapply edit_paths5_unchanged. }
  exists nc. split; [done|]. split.
  - intros [s Hs]. pose proof (rewrite5_file _ _ _ _ _ _ _ _ _ tx1019c_TOOL Hb Hcc ltac:(done) Hr) as Hf.
    rewrite Hs in Hf. destruct Hf as [->|(t & h & Hf & ->)]; [done|].
    cbn [t_fn mod_1019c] in Hf. unfold tx1019c_fn in Hf. rewrite He, String.eqb_refl in Hf. by injection Hf as <- _.
  - intros p Hpin [s Hs]. assert (p ≠ "" ∧ String.eqb p tx1019c_TOOL = false ∧
      str_mem p tx1019c_TU || String.eqb p tx1019c_CS = true) as (Hne & Hnt & Hyes).
    { unfold tx1019c_TU in Hpin. rewrite !elem_of_cons in Hpin. by destruct Hpin as [->|[->|[->|[]%not_elem_of_nil]]]. }
    pose proof (rewrite5_file _ _ _ _ _ _ _ _ _ p Hb Hcc Hne Hr) as Hf. rewrite Hs in Hf.
    destruct Hf as [|(t & h & Hf & ->)]; [done|].
    cbn [t_fn mod_1019c] in Hf. unfold tx1019c_fn in Hf. rewrite He, Hnt, Hyes in Hf.
    apply res_bind_Ok in Hf as (bt & Hbt & [= <- _]). unfold base_file in Hbt.
    destruct (c_tree b !! p); [|done]. destruct (utf8_ok _); by simplify_eq.
Qed.
End early.

(** 68156 with the tool, on a base that has the test files. *)
Definition early_repo : ListGit.repo := ListGit.Repo [
  Commit (list_to_map [(tx1019c_CS, lit "base"); ("lustre/tests/llapi_test_utils.c", lit "utils")]) None (lit "base
") fork_meta;
  Commit (list_to_map [(tx1019c_CS, lit "300a"); ("lustre/tests/llapi_test_utils.c", lit "split");
                       (tx1019c_TOOL, lit "int main")]) (Some 0)
    (lit "scan

Change-Id: " ++ lit tx1019c_C156 ++ lit "
") fork_meta
] "9" {[heads "left" := 1]}.

Lemma early_repo_ok : g_ok early_repo.
Proof.
  split.
  - apply (bool_decide_unpack _). vm_compute. reflexivity.
  - intros n c p Hn Hp. do 2 (destruct n as [|n]; [injection Hn as <-; simpl in Hp; simplify_eq; lia|]).
    done.
Qed.

Lemma early_commits_have_no_tool_witness :
  ∃ r' m nc, run5 scan_hex 0 mod_1019c ["left"] false 1 early_repo = (r', Ok m) ∧
    m_newof m = [(1, 2)] ∧ g_show r' 2 = Some nc ∧ c_tree nc !! tx1019c_TOOL = None ∧
    c_tree nc !! tx1019c_CS = Some (lit "base").
Proof.
  destruct (run5 scan_hex 0 mod_1019c ["left"] false 1 early_repo) as [r' [m|e]] eqn:E.
  2: { vm_compute in E. discriminate. }
  assert (m_newof m = [(1, 2)] ∧ tx1019c_early (anc_get (m_anc m) 1) = true) as [Hn He].
  { vm_compute in E. injection E as <- <-. by vm_compute. }
  edestruct (early_commits_have_no_tool scan_hex 0 ["left"] 1 early_repo r' m) as (nc & Hnc & Ht & Hf).
  - exact early_repo_ok.
  - reflexivity.
  - by vm_compute.
  - exact E.
  - rewrite Hn. by left.
  - reflexivity.
  - exact He.
  - exists r', m, nc. split; [done|]. split; [done|]. split; [exact Hnc|]. split.
    + apply Ht. eexists. by vm_compute.
    + rewrite Hf; [by vm_compute|by left|]. eexists. by vm_compute.
Defined.

Lemma modules_idempotent_witness :
  t_fn mod_1019e [] (λ _, Raise (KeyError "")) tx1019e_SAN (Some e_old) [] = Ok (Some e_new, ["S1"]) ∧
  t_fn mod_1019e [] (λ _, Raise (KeyError "")) tx1019e_SAN (Some e_new) [] = Ok (Some e_new, []).
Proof.
  assert (t_fn mod_1019e [] (λ _, Raise (KeyError "")) tx1019e_SAN (Some e_old) [] = Ok (Some e_new, ["S1"])) as H
    by (vm_compute; reflexivity).
  split; [exact H|].
  apply (proj1 (modules_idempotent mod_1019e [] (λ _, Raise (KeyError "")) tx1019e_SAN (Some e_old) [] [] []
                  (Some e_new) ["S1"])); [right; by left|exact H].
Defined.
