(* ===== verification/GenfixFacts.v ===== *)
(** What genfix.py's hunks are: [search] against the reference it optimises (the
    first context with the highest score), and the regions of two files as an
    edit script from one to the other. *)
From S2P Require Import Prelude PyStr R3Engine R3Table B2bTable Genfix.
Import R3 Difflib Genfix.

(** ** Lines *)

Lemma split_from_concat cur k s : concat (split_from cur k s) = rev cur ++ s.
Proof.
  revert cur k. induction s as [|c s IH]; intros cur k.
  - destruct cur; simpl; by rewrite ?app_nil_r.
  - cbn [split_from]. destruct (match k with 0 => _ | _ => k end) as [|[|k']];
      cbn [concat rev]; rewrite IH; cbn [rev app]; by rewrite <-?app_assoc.
Qed.

Lemma splitlines_concat s : concat (splitlines s) = s.
Proof. apply split_from_concat. Qed.

(** ** Slices *)

Section slices.
Context {A : Type}.
Implicit Types l : list A.

Lemma slice_nil l i : slice l i i = [].
Proof. unfold slice. by rewrite Nat.sub_diag. Qed.

Lemma slice_app l i k j : i ≤ k → k ≤ j → slice l i j = slice l i k ++ slice l k j.
Proof.
  intros H1 H2. unfold slice. rewrite <-(take_drop (k - i) (take (j - i) (drop i l))).
  rewrite take_take, Nat.min_l by lia. f_equal.
  rewrite skipn_firstn_comm, drop_drop. f_equal; [lia|f_equal; lia].
Qed.

Lemma take_slice l i j : i ≤ j → take j l = take i l ++ slice l i j.
Proof.
  intros H. unfold slice. rewrite <-(take_drop i (take j l)).
  by rewrite take_take, Nat.min_l, skipn_firstn_comm by lia.
Qed.

Lemma drop_slice l i j : i ≤ j → drop i l = slice l i j ++ drop j l.
Proof.
  intros H. unfold slice. rewrite <-(take_drop (j - i) (drop i l)) at 1.
  rewrite drop_drop. do 2 f_equal. lia.
Qed.

Lemma length_slice l i j : i ≤ j → j ≤ length l → length (slice l i j) = j - i.
Proof. intros ??. unfold slice. rewrite length_take, length_drop. lia. Qed.

(** Runs of equal lines stay equal when both are cut in the same way. *)
Lemma slice_sub l l' i j i' j' d e :
  slice l i j = slice l' i' j' → j - i = j' - i' → i' ≤ j' → d ≤ e → i + e ≤ j →
  slice l (i + d) (i + e) = slice l' (i' + d) (i' + e).
Proof.
  intros Heq Hlen Hle Hde He.
  assert (∀ (x : list A) p q, p + e ≤ q →
    slice x (p + d) (p + e) = slice (slice x p q) d e) as Hs.
  { intros x p q ?. unfold slice.
    rewrite skipn_firstn_comm, take_take, drop_drop, Nat.min_l by lia. f_equal. lia. }
  rewrite (Hs l i j), (Hs l' i' j') by lia. by rewrite Heq.
Qed.
End slices.

(** ** The regions are an edit script *)

(** From line [i] of [a] and line [j] of [b]: equal lines up to each region, and
    equal lines after the last one. *)
Inductive script (a b : list text) : nat → nat → list region → Prop :=
  | script_nil i j :
      i ≤ length a → j ≤ length b → length a - i = length b - j →
      slice a i (length a) = slice b j (length b) → script a b i j []
  | script_cons i j r rs :
      i ≤ i1 r → j ≤ j1 r → i1 r - i = j1 r - j → slice a i (i1 r) = slice b j (j1 r) →
      i1 r ≤ i2 r → j1 r ≤ j2 r → i2 r ≤ length a → j2 r ≤ length b →
      script a b (i2 r) (j2 r) rs → script a b i j (r :: rs).

(** The same loop, front to back. *)
Definition region_of (op : opcode) : region :=
  Region (op_i1 op) (op_i2 op) (op_j1 op) (op_j2 op).

Fixpoint regions_on (cur : option region) (ops : list opcode) : list region :=
  match ops with
  | [] => match cur with Some r => [r] | None => [] end
  | op :: ops' =>
      match op_tag op, cur with
      | Equal, _ => regions_on cur ops'
      | _, Some r =>
          if op_i1 op - i2 r <=? GAP
          then regions_on (Some (Region (i1 r) (op_i2 op) (j1 r) (op_j2 op))) ops'
          else r :: regions_on (Some (region_of op)) ops'
      | _, None => regions_on (Some (region_of op)) ops'
      end
  end.

Lemma regions_on_fold ops r out :
  rev (fold_left regions_step ops (r :: out)) = rev out ++ regions_on (Some r) ops.
Proof.
  revert r out. induction ops as [|op ops IH]; intros r out; [done|].
  cbn [fold_left regions_on]. unfold regions_step at 2.
  destruct (op_tag op); try apply IH;
    (destruct (op_i1 op - i2 r <=? GAP); rewrite IH; [done|]);
    cbn [rev]; by rewrite <-app_assoc.
Qed.

Lemma regions_on_nil ops : rev (fold_left regions_step ops []) = regions_on None ops.
Proof.
  induction ops as [|op ops IH]; [done|]. cbn [fold_left regions_on].
  unfold regions_step at 2. destruct (op_tag op); try apply IH; apply regions_on_fold.
Qed.

Section script.
Context (a b : list text).

Lemma tiles_le i j ops : tiles a b i j ops → i ≤ length a ∧ j ≤ length b.
Proof. induction 1; lia. Qed.

(** Two adjacent runs of equal lines. *)
Lemma equal_app i k i' j l j' :
  slice a i k = slice b j l → slice a k i' = slice b l j' →
  i ≤ k → k ≤ i' → j ≤ l → l ≤ j' → slice a i i' = slice b j j'.
Proof. intros H1 H2 ????. rewrite (slice_app a i k), (slice_app b j l) by lia. congruence. Qed.

Lemma equal_length i k j l :
  slice a i k = slice b j l → i ≤ k → k ≤ length a → j ≤ l → l ≤ length b → k - i = l - j.
Proof.
  intros H ????. pose proof (f_equal length H) as Hl. by rewrite !length_slice in Hl by lia.
Qed.

Lemma script_some ops i j :
  tiles a b i j ops →
  ∀ i0 j0 r, i0 ≤ i1 r → j0 ≤ j1 r → slice a i0 (i1 r) = slice b j0 (j1 r) →
    i1 r ≤ i2 r → j1 r ≤ j2 r → i2 r ≤ i → j2 r ≤ j →
    slice a (i2 r) i = slice b (j2 r) j → script a b i0 j0 (regions_on (Some r) ops).
Proof.
  induction 1 as [|tag x1 x2 y1 y2 ops Hx Hy Heq Ht IH];
    intros i0 j0 r H1 H2 H3 H4 H5 H6 H7 H8; cbn [regions_on].
  - constructor; try done; [eapply equal_length; eauto; lia|].
    constructor; try done. by eapply equal_length; eauto.
  - pose proof (tiles_le _ _ _ Ht) as [??]. cbn [op_tag op_i1 op_i2 op_j1 op_j2].
    destruct (decide (tag = Equal)) as [->|Hn].
    { apply IH; try done; try lia. eapply (equal_app _ x1 _ _ y1); eauto. }
    assert (script a b i0 j0 (if x1 - i2 r <=? GAP
      then regions_on (Some (Region (i1 r) x2 (j1 r) y2)) ops
      else r :: regions_on (Some (region_of (Opcode tag x1 x2 y1 y2))) ops)).
    { destruct (x1 - i2 r <=? GAP).
      - apply IH; cbn; try done; try lia. by rewrite !slice_nil.
      - constructor; try done; try lia; [eapply equal_length; eauto; lia|].
        apply IH; cbn; try done; try lia. by rewrite !slice_nil. }
    by destruct tag.
Qed.

Lemma script_none ops i j :
  tiles a b i j ops →
  ∀ i0 j0, i0 ≤ i → j0 ≤ j → slice a i0 i = slice b j0 j →
    script a b i0 j0 (regions_on None ops).
Proof.
  induction 1 as [|tag x1 x2 y1 y2 ops Hx Hy Heq Ht IH]; intros i0 j0 H1 H2 H3; cbn [regions_on].
  - constructor; try done. by eapply equal_length; eauto.
  - pose proof (tiles_le _ _ _ Ht) as [??]. cbn [op_tag].
    destruct (decide (tag = Equal)) as [->|Hn].
    { apply IH; try lia. eapply (equal_app _ x1 _ _ y1); eauto. }
    assert (script a b i0 j0 (regions_on (Some (region_of (Opcode tag x1 x2 y1 y2))) ops)).
    { eapply script_some; cbn; eauto; try lia. by rewrite !slice_nil. }
    by destruct tag.
Qed.

Lemma regions_script `{Difflib} : script a b 0 0 (regions a b).
Proof.
  unfold regions. rewrite regions_on_nil.
  eapply script_none; [apply get_opcodes_tiles|lia|lia|]. by rewrite !slice_nil.
Qed.
End script.

(** ** The search for a context *)

Section search.
Context (a b : list text) (old : text) (stack : list text) (r : region).
Implicit Types c d : nat * nat.

(** The hunk with [c.1] lines of context before it and [c.2] after it. *)
Definition hunk_with c : hunk :=
  (context a (i1 r) (i2 r) c.1 c.2, context b (j1 r) (j2 r) c.1 c.2).

(** Its old text stands once in its source and at most once in each tree. *)
Definition usable c : bool :=
  let o := (hunk_with c).1 in
  match o with
  | [] => false
  | _ => if py_count o old =? 1 then forallb (λ t, py_count o t <=? 1) stack else false
  end.

(** The number of trees it matches. *)
Definition score c : nat :=
  length (List.filter (λ t, py_count (hunk_with c).1 t =? 1) stack).

Definition better (best : option (nat * nat)) c : option (nat * nat) :=
  if usable c
  then match best with
       | Some d => if score d <? score c then Some c else best
       | None => Some c
       end
  else best.

(** The reference: the first of the usable contexts with the highest score. *)
Definition best_context : option (nat * nat) := fold_left better PAIRS None.

Lemma score_le c : score c ≤ length stack.
Proof. apply List.filter_length_le. Qed.

(** Once a context matches every tree, no later one is preferred. *)
Lemma better_full pairs d :
  score d = length stack → fold_left better pairs (Some d) = Some d.
Proof.
  intros Hd. induction pairs as [|c pairs IH]; [done|]. cbn [fold_left].
  unfold better at 2. destruct (usable c); [|done].
  pose proof (score_le c). destruct (score d <? score c) eqn:E; bools; [lia|done].
Qed.

Lemma counts_usable (o : text) :
  existsb (Nat.ltb 1) (map (py_count o) stack) =
  negb (forallb (λ t, py_count o t <=? 1) stack).
Proof.
  induction stack as [|t l IH]; [done|]. cbn [map existsb forallb]. rewrite IH.
  destruct (py_count o t <=? 1) eqn:E, (1 <? py_count o t) eqn:E'; bools; try lia; done.
Qed.

Lemma counts_score (o : text) :
  length (List.filter (Nat.eqb 1) (map (py_count o) stack)) =
  length (List.filter (λ t, py_count o t =? 1) stack).
Proof.
  induction stack as [|t l IH]; [done|]. cbn [map List.filter].
  rewrite (Nat.eqb_sym 1). destruct (_ =? _); cbn [length]; by rewrite IH.
Qed.

#[local] Arguments Nat.ltb : simpl never.

Definition scored c : nat * hunk := (score c, hunk_with c).

Lemma search_better pairs best :
  search a b old stack r (scored <$> best) pairs = scored <$> fold_left better pairs best.
Proof.
  revert best. induction pairs as [|[cb ca] pairs IH]; intros best; [done|].
  cbn [search fold_left]. rewrite counts_usable, counts_score, length_map.
  change (context a (i1 r) (i2 r) cb ca) with (hunk_with (cb, ca)).1.
  change (context b (j1 r) (j2 r) cb ca) with (hunk_with (cb, ca)).2.
  rewrite <-surjective_pairing. fold (score (cb, ca)). fold (scored (cb, ca)).
  unfold better at 2, usable. cbv zeta.
  destruct (hunk_with (cb, ca)).1 as [|x o] eqn:Ho; [apply IH|].
  destruct (py_count _ old =? 1); cbn [negb]; [|apply IH].
  destruct (forallb _ stack); cbn [negb]; [|apply IH].
  rewrite <-IH. destruct best as [d|]; cbn.
  - destruct (score d <? score (cb, ca)) eqn:E; cbn; (case_match; [|done]); bools.
    + change (Some (scored (cb, ca))) with (scored <$> Some (cb, ca)).
      by rewrite IH, better_full.
    + change (Some (scored d)) with (scored <$> Some d). rewrite IH, better_full; [done|].
      pose proof (score_le d). lia.
  - case_match; [|done]. bools.
    change (Some (scored (cb, ca))) with (scored <$> Some (cb, ca)). by rewrite IH, better_full.
Qed.

Lemma search_best : search a b old stack r None PAIRS = scored <$> best_context.
Proof. apply (search_better PAIRS None). Qed.

(** [c], at place [k], is the best of [pairs]. *)
Definition is_best (pairs : list (nat * nat)) (k : nat) c : Prop :=
  pairs !! k = Some c ∧ usable c = true ∧
  ∀ k' c', pairs !! k' = Some c' → usable c' = true →
    score c' ≤ score c ∧ (k' < k → score c' < score c).

Lemma better_best pairs :
  match fold_left better pairs None with
  | Some c => ∃ k, is_best pairs k c
  | None => ∀ c, c ∈ pairs → usable c = false
  end.
Proof.
  induction pairs as [|c pairs IH] using rev_ind.
  { intros c Hc. by apply not_elem_of_nil in Hc. }
  rewrite fold_left_app. cbn [fold_left].
  set (f := fold_left better pairs None) in *. clearbody f. unfold better.
  destruct (usable c) eqn:Eu.
  - destruct f as [d|].
    + destruct IH as (k & Hk & Hu & Hmax). pose proof (lookup_lt_Some _ _ _ Hk) as Hlt.
      destruct (score d <? score c) eqn:E; bools.
      * exists (length pairs). split; [by apply list_lookup_middle|]. split; [done|].
        intros k' c' [Hk'|[-> <-]]%lookup_snoc_Some Hu'; [|lia].
        destruct Hk' as [? Hk']. apply (Hmax _ _ Hk') in Hu'. lia.
      * exists k. split; [by rewrite lookup_app_l|]. split; [done|].
        intros k' c' [[? Hk']|[-> <-]]%lookup_snoc_Some Hu'; [by eapply Hmax|lia].
    + exists (length pairs). split; [by apply list_lookup_middle|]. split; [done|].
      intros k' c' [[? Hk']|[-> <-]]%lookup_snoc_Some Hu'; [|lia].
      rewrite IH in Hu'; [done|]. by eapply list_elem_of_lookup_2.
  - destruct f as [d|].
    + destruct IH as (k & Hk & Hu & Hmax). exists k.
      split; [rewrite lookup_app_l; [done|by eapply lookup_lt_Some]|]. split; [done|].
      intros k' c' [[? Hk']|[-> <-]]%lookup_snoc_Some Hu'; [by eapply Hmax|congruence].
    + intros c' [Hc|Hc%list_elem_of_singleton]%elem_of_app; [by apply IH|by subst].
Qed.

Lemma best_context_best :
  match best_context with
  | Some c => ∃ k, is_best PAIRS k c
  | None => ∀ c, c ∈ PAIRS → usable c = false
  end.
Proof. unfold best_context. apply better_best. Qed.
End search.
