(* ===== verification/GenfixEmit.v ===== *)
(** The text of the module that genfix.py writes: HEAD, a call of [t] for each row with
    its strings as [repr] writes them, and TAIL; and that the calls read back. *)
From S2P Require Import Prelude PyStr PyParse PyRe R3Engine B2bTable Genfix.
Import R3 Genfix.

(** ** repr *)

Definition hex_char (n : nat) : ascii := ascii_of_nat (if n <? 10 then 48 + n else 87 + n).

(** The quote [repr] takes: single, unless only a double one avoids escapes. *)
Definition repr_quote (s : text) : ascii :=
  if existsb (Ascii.eqb "'") s && negb (existsb (Ascii.eqb "034") s) then "034"%char else "'"%char.

(** A byte between quotes; a byte outside ASCII is part of a printable character. *)
Definition repr_char (q c : ascii) : text :=
  let n := nat_of_ascii c in
  if Ascii.eqb c q || Ascii.eqb c "\" then ["\"%char; c]
  else if Ascii.eqb c "009" then ["\"; "t"]%char
  else if Ascii.eqb c "010" then ["\"; "n"]%char
  else if Ascii.eqb c "013" then ["\"; "r"]%char
  else if (n <? 32) || (n =? 127) then ["\"; "x"]%char ++ [hex_char (n / 16); hex_char (n mod 16)]
  else [c].

(** [%r] of a string *)
Definition py_repr (s : text) : text :=
  let q := repr_quote s in q :: (s ≫= repr_char q) ++ [q].

(** ** The module *)

Definition str_text (s : string) : text := String.list_ascii_of_string s.

Definition since_text (s : since_arg) : text :=
  match s with
  | Quoted v => lit "\q" ++ str_text v ++ lit "\q"
  | Named v => str_text v
  end.

(** An element of [body]. *)
Definition call_text (c : call) : text :=
  lit "t(" ++ py_repr (str_text (c_id c)) ++ lit ", " ++ str_text (c_var c) ++ lit ",
  " ++ py_repr (c_old c) ++ lit ",
  " ++ py_repr (c_new c) ++
  match c_since c with
  | None => lit ")
"
  | Some s => lit ", since=" ++ since_text s ++ lit ")
"
  end.

Definition genfix_HEAD : text := lit "#!/usr/bin/env python3
\q\q\qBatch 2's second pass on 68288, 2026-09-22.  GENERATED by genfix.py.

The 09-21 re-review asked whether skipping the lookup was right for
--fid2path, which has a live mount.  Not as it stands: lmv_fid2path()
routes by FID, so an MDT object's own FID goes to the MDT being scanned --
stopped, for a device scan -- while an OST object is named by its owner's
FID on an MDT.  Measured: with the gate forced open, a --fid2path scan of a
stopped MDT0001 waited 180s and printed nothing while the console filled
with \qlustre-MDT0001: not available for connect\q.

So the fall back is taken only where the lookup does not go to the scanned
target: the target is in service, or the record carries an owner.  And only
for a class that has a name somewhere, so an object a target keeps for
itself, a DNE agent inode and an orphan cost no ioctl to be told they have
none.

Split across the stack.  c08 (68288) gets the restructuring, the class test
and a man page that promises no MDT lookup; the liveness test waits for c22
(LU-20722), which is what first makes an in-service target scannable --
below it SCAN_BACKEND_MAX is 2 and the test could only ever be false, which
is what lreview called out.

Also here: the pp_ran assignment moved below the declarations it was
inserted above, and an EXAMPLES entry each for --fid2path and --paths.

These transforms run after b2fix's and rewrite some of its hunks, so the
list is b2fix's followed by these.
\q\q\q
import os
import sys

HERE = os.path.dirname(os.path.abspath(__file__))
sys.path.insert(0, HERE)
sys.path.insert(0, os.path.join(HERE, \q..\q, \qb2-0921\q))
sys.path.insert(0, os.path.join(HERE, \q..\q, \qr3-0913\q))
import b2bextra  # noqa: E402
import b2cextra  # noqa: E402
import b2dartem  # noqa: E402
import b2eminor  # noqa: E402
import b2fix  # noqa: E402
import r3fix  # noqa: E402

MSG = r3fix.MSG
r3fix.ORDER = [\qc%02d\q % i for i in range(64)]

PFIND = \qlustre/utils/liblustreapi_pfind.c\q
DEV = \qlustre/utils/liblustreapi_scan_device.c\q
INT = \qlustre/utils/lustreapi_internal.h\q
KERNEL = \qlustre/utils/libscan_kernel.c\q
LFUREC = \qlustre/utils/lustreapi_lfu_rec.h\q
SPEC = \qlustre.spec.in\q
FIND1 = \qDocumentation/man1/lfs-find.1\q
DEV3 = \qDocumentation/man3/llapi_scan_device.3\q
CONF = \qlustre/tests/conf-sanity.sh\q
BACKEND = \qlustre/utils/lustreapi_scan_backend.h\q
LDISKFS = \qlustre/utils/libscan_ldiskfs.c\q
ZFS = \qlustre/utils/libscan_zfs.c\q
MAKEAM = \qlustre/utils/Makefile.am\q
LFUH = \qinclude/uapi/linux/lustre/lustre_lfu.h\q
DTOBJ = \qlustre/obdclass/dt_object.c\q
DTOBJH = \qlustre/include/dt_object.h\q
RING = \qlustre/lfu/lfu_ring.c\q
MAN4RS = \qDocumentation/man4/lfu.ring_size.4\q
MAN4B = \qDocumentation/man4/lfu.batch.4\q
LFS = \qlustre/utils/lfs.c\q
PARSE = \qlustre/utils/lfs_find_parse.c\q
SCAN = \qlustre/utils/liblustreapi_scan.c\q
APIH = \qinclude/lustre/lustreapi.h\q
MAN3NS = \qDocumentation/man3/llapi_scan_namespace.3\q
SCANTEST = \qlustre/tests/llapi_scan_test.c\q
CLOG = \qlustre/utils/liblustreapi_scan_changelog.c\q
CLOGTEST = \qlustre/tests/llapi_scan_changelog_test.c\q
MAN3FD = \qDocumentation/man3/llapi_find_device.3\q

# LU-20720: the commit that introduces the wire record and fills it
PROD = \qc21\q
# LU-20722: the first commit with a backend that reads a target in service
LIVE = \qc22\q

T = list(b2fix.T)


def t(tid, path, old, new, only=None, since=\qc08\q):
    T.append(dict(id=tid, path=path, old=old, new=new, only=only,
                  since=since, all=False))


".

Definition genfix_TAIL : text := lit "
# the same fixes in the spelling the commits below LU-20730 have
b2bextra.add(t, LIVE, MSG)
b2bextra.add_ring(t, PROD)
# LU-20606 c02 reads the count; LU-20611 c05 bounds the array
b2bextra.add_lmv(t, \qc02\q, \qc05\q)
b2bextra.add_msgfix(t, MSG)
# the 09-23 lreview fixes on c06 and c07
b2cextra.add(t, MSG)
# Artem Blagodarenko's fix for 68156/68159, TLC ae5a21241a
b2dartem.add(t, MSG)
# the 09-23 minor batch
b2eminor.add(t, MSG)


def apply(tree, name, msg):
    saved = r3fix.T
    r3fix.T = T
    try:
        return r3fix.apply(tree, name, msg)
    finally:
        r3fix.T = saved
".

(** What [open(OUT, "w").write(..)] writes. *)
Definition module_text (calls : list call) : text :=
  genfix_HEAD ++ py_join (lit "
") (map call_text calls) ++ genfix_TAIL.

(** The line that is printed at the end. *)
Definition wrote_line (counts : nat * nat) (OUT : text) : text :=
  lit "wrote " ++ str_text (pretty (N.of_nat counts.1)) ++ lit " lower + " ++
  str_text (pretty (N.of_nat counts.2)) ++ lit " upper hunks to " ++ OUT.

(** ** Reading a call back *)

Definition hex_nat (c : ascii) : option nat :=
  let n := nat_of_ascii c in
  if (48 <=? n) && (n <=? 57) then Some (n - 48)
  else if (97 <=? n) && (n <=? 102) then Some (n - 87)
  else None.

Definition push (c : ascii) (x : option (text * text)) : option (text * text) :=
  match x with Some (s, r) => Some (c :: s, r) | None => None end.

(** The value of a string literal of one line up to its closing quote [q], for the escapes
    that [repr] writes. *)
Fixpoint string_body (q : ascii) (s : text) : option (text * text) :=
  match s with
  | [] => None
  | c :: r =>
      if Ascii.eqb c q then Some ([], r)
      else if Ascii.eqb c "\" then
        match r with
        | "t"%char :: r' => push "009" (string_body q r')
        | "n"%char :: r' => push "010" (string_body q r')
        | "r"%char :: r' => push "013" (string_body q r')
        | "x"%char :: a :: b :: r' =>
            match hex_nat a, hex_nat b with
            | Some a, Some b => push (ascii_of_nat (a * 16 + b)) (string_body q r')
            | _, _ => None
            end
        | "\"%char :: r' => push "\" (string_body q r')
        | "'"%char :: r' => push "'" (string_body q r')
        | "034"%char :: r' => push "034" (string_body q r')
        | _ => None
        end
      else if Ascii.eqb c nl then None
      else push c (string_body q r)
  end.

Definition read_string (s : text) : option (text * text) :=
  match s with
  | c :: r => if Ascii.eqb c "'" || Ascii.eqb c "034" then string_body c r else None
  | [] => None
  end.

(** The name a text starts with. *)
Fixpoint read_name (s : text) : text * text :=
  match s with
  | c :: r => if is_word c then let (w, r') := read_name r in (c :: w, r') else ([], s)
  | [] => ([], [])
  end.

Definition of_text (t : text) : string := String.string_of_list_ascii t.

(** [t(id, VAR,\n  old,\n  new)] or with [since=] and a literal or a name *)
Definition read_call (s : text) : option (call * text) :=
  s ← strip_prefix (lit "t(") s;
  '(id, s) ← read_string s;
  s ← strip_prefix (lit ", ") s;
  let (var, s) := read_name s in
  s ← strip_prefix (lit ",
  ") s;
  '(old, s) ← read_string s;
  s ← strip_prefix (lit ",
  ") s;
  '(new, s) ← read_string s;
  match strip_prefix (lit ")
") s with
  | Some s => Some (Call (of_text id) (of_text var) old new None, s)
  | None =>
      s ← strip_prefix (lit ", since=") s;
      match read_string s with
      | Some (v, s) =>
          s ← strip_prefix (lit ")
") s;
          Some (Call (of_text id) (of_text var) old new (Some (Quoted (of_text v))), s)
      | None =>
          let (v, s) := read_name s in
          s ← strip_prefix (lit ")
") s;
          Some (Call (of_text id) (of_text var) old new (Some (Named (of_text v))), s)
      end
  end.

(** The calls of a text, an empty line between two of them; every call takes a byte. *)
Fixpoint read_calls (n : nat) (s : text) : option (list call) :=
  match n with
  | 0 => None
  | S n' =>
      '(c, s) ← read_call s;
      match s with
      | [] => Some [c]
      | _ => s ← strip_prefix [nl] s; cs ← read_calls n' s; Some (c :: cs)
      end
  end.

Definition read_body (s : text) : option (list call) :=
  match s with [] => Some [] | _ => read_calls (length s) s end.
