(* ===== verification/GenfixTheorems.v ===== *)
(** What the rows genfix.py writes do when r3fix.apply runs them: the hunks of a
    file are the best anchors there are, and they turn the one file into the
    other. *)
From S2P Require Import Prelude PyStr R3Engine R3Facts R3Refine R3Table RoundTables B2bTable Genfix GenfixFacts PyParse PyRe GenfixEmit.
Import R3 Difflib Genfix.

(** ** One site *)

(** [o] stands in [t], and does not start again after its first byte. *)
Definition sole_site (o t : text) : bool :=
  match py_find o t with
  | Some i => negb (py_in o (drop (S i) t))
  | None => false
  end.

Lemma count_first sub a b :
  sub ≠ [] → py_find sub (a ++ sub ++ b) = Some (length a) →
  py_count sub (a ++ sub ++ b) = S (py_count sub b).
Proof.
  intros Hne. induction a as [|c a IH]; intros Hf; [by apply (count_hit sub)|].
  rewrite <-!app_comm_cons in *. cbn [py_find] in Hf.
  destruct (py_startswith (c :: a ++ sub ++ b) sub) eqn:E; [done|].
  rewrite count_miss by done. apply IH.
  by destruct (py_find sub (a ++ sub ++ b)); simplify_eq/=.
Qed.

Lemma sole_site_find o x y :
  sole_site o (x ++ o ++ y) = true → py_find o (x ++ o ++ y) = Some (length x).
Proof.
  unfold sole_site. destruct (py_find o _) as [i|] eqn:E; [|done]. intros Hs. f_equal.
  assert (occ o (x ++ o ++ y) (length x)) as Hx by (by exists x, y).
  apply py_find_Some in E as [_ Hlt]. destruct (decide (length x < i)); [by edestruct Hlt|].
  destruct (decide (i = length x)) as [|Hn]; [done|]. exfalso.
  apply negb_true_iff in Hs. rewrite py_in_false in Hs. apply (Hs (length x - S i)).
  exists (drop (S i) x), y. rewrite drop_app_le, length_drop by lia. done.
Qed.

Lemma sole_site_count o x y :
  o ≠ [] → sole_site o (x ++ o ++ y) = true → py_count o (x ++ o ++ y) = 1.
Proof.
  intros Hne Hs. pose proof (sole_site_find _ _ _ Hs) as Hf. rewrite count_first by done.
  f_equal. apply count_zero; [done|]. unfold sole_site in Hs. rewrite Hf in Hs.
  apply negb_true_iff in Hs. rewrite py_in_false in Hs |- *. intros i Hi.
  apply (Hs (length o - 1 + i)). destruct o as [|c o]; [done|]. apply occ_lookup.
  apply occ_lookup in Hi as [Hl Hk]. rewrite length_drop, !length_app in *. cbn [length] in *.
  split; [lia|]. intros k Hkl. rewrite lookup_drop, <-Hk by done.
  rewrite lookup_app_r, lookup_app_r by (cbn [length]; lia). f_equal. cbn [length]. lia.
Qed.

(** ** A region's hunk takes one file a step towards the other *)

Section step.
Context (a b : list text).

(** The lines of [b] up to [j] and the lines of [a] from [i] on. *)
Definition mix (i j : nat) : text := concat (take j b ++ drop i a).

(** [lo] lines down the equal run before a region, and [m] lines into the one
    after it. *)
Lemma mix_step i j d x2 y2 m hi hj lo lj :
  slice a i lo = slice b j lj → slice a x2 hi = slice b y2 hj →
  lo = i + d → lj = j + d → hi = x2 + m → hj = y2 + m → lo ≤ x2 → lj ≤ y2 →
  ∃ x y, mix i j = x ++ concat (slice a lo hi) ++ y ∧
         mix x2 y2 = x ++ concat (slice b lj hj) ++ y.
Proof.
  intros Hl Hr -> -> -> -> H1 H2. unfold mix.
  exists (concat (take j b ++ slice a i (i + d))), (concat (drop (x2 + m) a)).
  rewrite <-!concat_app, <-!app_assoc. split; f_equal.
  - rewrite <-(drop_slice a (i + d) (x2 + m)) by lia. rewrite <-drop_slice by lia. done.
  - rewrite (drop_slice a x2 (x2 + m)), Hr, Hl by lia.
    rewrite (slice_app b (j + d) y2 (y2 + m)) by lia.
    rewrite (take_slice b j y2), (slice_app b j (j + d)) by lia.
    by rewrite <-!app_assoc.
Qed.

Lemma slice_prefix i j e f k l m :
  slice a i e = slice b j f → e - i = f - j → j ≤ f → k = i + m → l = j + m → k ≤ e →
  slice a i k = slice b j l.
Proof.
  intros Heq Hlen Hf -> -> Hk. pose proof (slice_sub a b i e j f 0 m) as Hs.
  rewrite !Nat.add_0_r in Hs. apply Hs; [done..|lia|done].
Qed.

(** [e] and [f] are where the equal lines after the region end. *)
Lemma hunk_here i j e f r c :
  i ≤ i1 r → j ≤ j1 r → i1 r - i = j1 r - j → slice a i (i1 r) = slice b j (j1 r) →
  i1 r ≤ i2 r → j1 r ≤ j2 r →
  i2 r ≤ e → j2 r ≤ f → e - i2 r = f - j2 r → slice a (i2 r) e = slice b (j2 r) f →
  e ≤ length a → f ≤ length b →
  i + c.1 ≤ i1 r ∨ i = 0 ∧ j = 0 →
  i2 r + c.2 ≤ e ∨ e = length a ∧ f = length b →
  ∃ x y, mix i j = x ++ (hunk_with a b r c).1 ++ y ∧
         mix (i2 r) (j2 r) = x ++ (hunk_with a b r c).2 ++ y.
Proof.
  intros Hi Hj Hd Heq H12 H12' He Hf Hef Heq' Hea Hfb Hb Ha.
  destruct c as [cb ca]. unfold hunk_with, context. cbn [fst snd] in *.
  assert (∃ d, i1 r - cb = i + d ∧ j1 r - cb = j + d) as (d & Hlo & Hlj).
  { clear -Hi Hj Hd Hb. exists (i1 r - cb - i). lia. }
  assert (∃ m, length a `min` (i2 r + ca) = i2 r + m ∧ length b `min` (j2 r + ca) = j2 r + m
               ∧ i2 r + m ≤ e) as (m & Hhi & Hhj & Hm).
  { clear -He Hf Hef Hea Hfb Ha. exists (length a `min` (i2 r + ca) - i2 r). lia. }
  apply (mix_step i j d (i2 r) (j2 r) m); try done.
  - apply (slice_prefix i j (i1 r) (j1 r) _ _ d); try done. clear. lia.
  - apply (slice_prefix _ _ e f _ _ m); try done. by rewrite Hhi.
  - clear -H12. lia.
  - clear -H12'. lia.
Qed.
End step.

(** ** All hunks of a file *)

(** The contexts stay between the regions around them. *)
Fixpoint fits_after (prev : option nat) (rcs : list (region * option (nat * nat))) : bool :=
  match rcs with
  | (r, Some c) :: rcs' =>
      (match prev with Some i => i + c.1 <=? i1 r | None => true end) &&
      (match rcs' with (r', _) :: _ => i2 r + c.2 <=? i1 r' | [] => true end) &&
      fits_after (Some (i2 r)) rcs'
  | (_, None) :: _ => false
  | [] => true
  end.

Definition fits (best : region → option (nat * nat)) (prev : option nat) (rs : list region)
    : bool :=
  fits_after prev (map (λ r, (r, best r)) rs).

(** When its turn comes each old text stands at one place, and the insertion it
    makes is not there yet. *)
Fixpoint clear_run (t : text) (hs : list hunk) : bool :=
  match hs with
  | [] => true
  | (o, n) :: hs' =>
      if sole_site o t
      then if inserted o n t then false else clear_run (py_replace_n o n t 1) hs'
      else false
  end.

Definition replace_each (hs : list hunk) (t : text) : text :=
  fold_left (λ t h, py_replace_n h.1 h.2 t 1) hs t.

(** The hunk of a region, with the context [best] gives it. *)
Definition hunk_for (a b : list text) (best : region → option (nat * nat)) (r : region) (h : hunk)
    : Prop :=
  ∃ c, best r = Some c ∧ h = hunk_with a b r c.

#[local] Opaque PAIRS best_context.

Section loop.
Context (a b : list text) (old : text) (stack : list text).

Lemma hunk_loop_for rs hs :
  hunk_loop a b old stack rs = Ok hs ↔ Forall2 (hunk_for a b (best_context a b old stack)) rs hs.
Proof.
  revert hs. induction rs as [|r rs IH]; intros hs; cbn [hunk_loop].
  { split; [intros [= <-]; constructor|by inversion 1]. }
  rewrite search_best.
  destruct (best_context a b old stack r) as [c|] eqn:E; cbn [fmap option_fmap option_map scored].
  - rewrite res_bind_Ok. split.
    + intros (hs' & Hf & Heq). apply (inj Ok) in Heq as <-.
      constructor; [|by apply IH]. exists c. split; [exact E|reflexivity].
    + intros Hf. inversion Hf as [|? h ? hs' (d & Hd & Hh) Hf']; subst.
      rewrite E in Hd. apply (inj Some) in Hd as <-. exists hs'. split; [by apply IH|reflexivity].
  - split; [done|]. intros Hf. inversion Hf as [|? h ? hs' (d & Hd & _)]. rewrite E in Hd. discriminate Hd.
Qed.

Lemma hunk_loop_raise rs e :
  hunk_loop a b old stack rs = Raise e →
  e = AssertionError "no context" ∧ ∃ r, r ∈ rs ∧ best_context a b old stack r = None.
Proof.
  induction rs as [|r rs IH]; cbn [hunk_loop]; [done|]. rewrite search_best.
  destruct (best_context a b old stack r) as [c|] eqn:E; cbn [fmap option_fmap option_map scored].
  - intros [Hr|(? & _ & ?)]%res_bind_Raise; [|discriminate].
    destruct (IH Hr) as (-> & r' & Hin & Hn). split; [done|]. exists r'.
    split; [by right|exact Hn].
  - intros [= <-]. split; [done|]. exists r. split; [by left|exact E].
Qed.

(** An old text is never empty. *)
Lemma hunk_for_ne r h : hunk_for a b (best_context a b old stack) r h → h.1 ≠ [].
Proof.
  intros (c & Hc & ->). pose proof (best_context_best a b old stack r) as H.
  rewrite Hc in H. destruct H as (k & _ & Hu & _).
  unfold usable in Hu. by destruct (hunk_with a b r c).1.
Qed.

End loop.

Section hunks.
Context (a b : list text).

Lemma mix_end i j : script a b i j [] → mix a b i j = concat b.
Proof.
  inversion 1 as [? ? Hi Hj Hl Heq|]; subst. unfold mix. f_equal.
  rewrite (drop_slice a i (length a)), Heq, drop_all, app_nil_r by lia.
  rewrite <-(take_slice b j) by lia. by rewrite firstn_all.
Qed.

(** Where the equal lines after a region end. *)
Lemma script_next i j rs :
  script a b i j rs →
  ∃ e f, i ≤ e ∧ j ≤ f ∧ e - i = f - j ∧ slice a i e = slice b j f ∧ e ≤ length a ∧
         f ≤ length b ∧
         match rs with r' :: _ => e = i1 r' | [] => e = length a ∧ f = length b end.
Proof.
  inversion 1 as [|? ? r rs' ? ? ? ? ? ? ? ?]; subst.
  - by exists (length a), (length b).
  - exists (i1 r), (j1 r). repeat split; try done; lia.
Qed.

Context (best : region → option (nat * nat)).

Lemma hunks_replace rs hs i j prev :
  script a b i j rs → match prev with Some k => k = i | None => i = 0 ∧ j = 0 end →
  fits best prev rs = true → Forall2 (hunk_for a b best) rs hs →
  Forall (λ h, h.1 ≠ []) hs →
  clear_run (mix a b i j) hs = true → replace_each hs (mix a b i j) = concat b.
Proof.
  intros Hs Hp Hfit Hf Hnes. revert i j prev Hs Hp Hfit Hnes.
  induction Hf as [|r h rs hs Hr Hf IH]; intros i j prev Hs Hp Hfit Hnes Hc; [by apply mix_end|].
  inversion Hs as [|? ? ? ? Hi Hj Hd Heq Hi2 Hj2 Hia Hjb Hs']; subst.
  destruct (script_next _ _ _ Hs') as (e & f & He & Hfe & Hef & Heq' & Hea & Hfb & Hend).
  apply Forall_cons in Hnes as [Hne Hnes]. destruct Hr as (c & Hbc & ->).
  unfold fits in Hfit. cbn [map] in Hfit. rewrite Hbc in Hfit. cbn [fits_after] in Hfit. bools.
  destruct (hunk_here a b i j e f r c) as (x & y & Hx & Hy); try done.
  { destruct prev; bools; subst; auto. }
  { destruct rs; cbn [map] in *; bools; subst; auto. }
  destruct (hunk_with a b r c) as [o n] eqn:Eh. cbn [fst snd] in *. cbn [clear_run] in Hc.
  rewrite Hx in Hc. destruct (sole_site o _) eqn:Eo; [|done].
  destruct (inserted o n _); [done|].
  unfold replace_each. cbn [fold_left fst snd]. rewrite Hx.
  rewrite replace_first in Hc |- * by (exact Hne || by apply sole_site_find).
  rewrite <-Hy in Hc |- *. by eapply (IH _ _ (Some (i2 r))).
Qed.
End hunks.

(** ** The engine runs the hunks *)

Lemma row_runs tr o n t :
  tr_body tr = Subst o n false → o ≠ [] → sole_site o t = true → inserted o n t = false →
  transform_text tr t = Ok (py_replace_n o n t 1, true).
Proof.
  intros Hb Hne Hs Hi. assert (∃ x y, t = x ++ o ++ y) as (x & y & ->).
  { unfold sole_site in Hs. destruct (py_find o t) as [k|] eqn:E; [|done].
    apply py_find_Some in E as [(x & y & -> & _) _]. by exists x, y. }
  unfold transform_text. rewrite Hb, sole_site_count by done. unfold inserted in Hi.
  cbn [Nat.eqb negb]. by rewrite Hi.
Qed.

(** A row of a file that the commit [name] gets. *)
Definition row_for (ORDER : list string) (name path : string) (tr : transform) (h : hunk) : Prop :=
  tr_path tr = path ∧ tr_body tr = Subst h.1 h.2 false ∧ allowed ORDER tr name = Ok true.

Lemma spec_rows_hunks ORDER name path T hs :
  Forall2 (row_for ORDER name path) T hs → Forall (λ h, h.1 ≠ []) hs →
  ∀ d t, d !! path = Some t → clear_run t hs = true →
  spec_rows ORDER name d T = Ok (<[path := replace_each hs t]> d, tr_id <$> T).
Proof.
  intros Hf Hnes. induction Hf as [|tr [o n] T hs (Hp & Hb & Ha) Hf IH]; intros d t Hd Hc.
  { cbn. by rewrite insert_id. }
  apply Forall_cons in Hnes as [Hne Hnes]. cbn [clear_run] in Hc.
  destruct (sole_site o t) eqn:Es; [|done]. destruct (inserted o n t) eqn:Ei; [done|].
  cbn [spec_rows]. unfold spec_row. rewrite Ha. cbn [res_bind negb]. rewrite Hp, Hd.
  rewrite (row_runs _ _ _ _ Hb Hne Es Ei). cbn [res_bind fst snd].
  rewrite (IH Hnes _ (py_replace_n o n t 1)) by (done || by rewrite lookup_insert_eq).
  cbn [res_bind fst snd]. by rewrite insert_insert_eq.
Qed.

(** [apply] with such rows for one file. *)
Lemma apply_hunks_file ORDER name path T hs wt msg t :
  Forall2 (row_for ORDER name path) T hs → Forall (λ h, h.1 ≠ []) hs → path ≠ MSG →
  read wt path = Some t → clear_run t hs = true → crfree (replace_each hs t) = true →
  ∃ wt', apply ORDER T wt name msg = (wt', Ok (msg, tr_id <$> T)) ∧
         read wt' path = Some (replace_each hs t) ∧ ∀ p, p ≠ path → wt' !! p = wt !! p.
Proof.
  intros Hf Hnes Hp Hr Hc Hcr. pose proof (apply_spec ORDER T wt name msg) as Hs.
  assert (doc_of wt msg !! path = Some t) as Hd.
  { unfold doc_of. by rewrite lookup_insert_ne, lookup_fmap. }
  rewrite (spec_rows_hunks _ _ _ _ _ Hf Hnes _ _ Hd Hc) in Hs.
  destruct (apply ORDER T wt name msg) as [wt' [[msg' ids]|e]]; [|by destruct Hs].
  destruct Hs as (d & Heq & Hm & Hwt). apply (inj Ok) in Heq. injection Heq as <- <-.
  exists wt'. rewrite lookup_insert_ne in Hm by done. unfold doc_of in Hm.
  rewrite lookup_insert_eq in Hm. injection Hm as ->. split; [done|]. split.
  - unfold read. rewrite Hwt. destruct (String.eqb_spec path MSG) as [|_]; [done|].
    rewrite lookup_insert_eq. unfold read in Hr. destruct (wt !! path) as [cur|]; [|done].
    cbn. unfold written. f_equal. case_bool_decide as Hb; [done|]. by apply crfree_universal.
  - intros p Hpp. rewrite Hwt. destruct (String.eqb_spec p MSG) as [|Hpm]; [done|].
    rewrite lookup_insert_ne by done. unfold doc_of. rewrite lookup_insert_ne, lookup_fmap by done.
    destruct (wt !! p) as [cur|]; [|done]. cbn. unfold written. by rewrite bool_decide_eq_true_2.
Qed.

(** ** The calls that are written *)

(** A [since] that names a commit up to c22. *)
Definition since_early (s : option since_arg) : bool :=
  match eval_since s with
  | Some v => match list_index ORDER64 v with Ok j => j <=? 22 | Raise _ => false end
  | None => false
  end.

Lemma since_for_early n d :
  since_early (Some d) = true → since_early (Some (since_for n d)) = true.
Proof.
  intros Hd. unfold since_for.
  assert (forallb (λ m, since_early (Some (Quoted m.2))) SINCE_MARKERS = true) as Hall
    by (vm_compute; reflexivity).
  revert Hall. induction SINCE_MARKERS as [|[m v] l IH]; [done|]. cbn [forallb since_markers_for].
  intros [Hv Hl]%andb_true_iff. destruct (py_in m n); [done|]. by apply IH.
Qed.

Lemma upper_since_early path n : since_early (Some (upper_since path n)) = true.
Proof.
  unfold upper_since. destruct (assoc FILE_SINCE path) as [v|] eqn:E.
  - assert (forallb (λ m, since_early (Some (Quoted m.2))) FILE_SINCE = true) as Hall
      by (vm_compute; reflexivity).
    revert E Hall. induction FILE_SINCE as [|[k v'] l IH]; [done|]. cbn [assoc forallb].
    intros E [Hv Hl]%andb_true_iff. destruct (String.eqb k path); [by simplify_eq|].
    by apply IH.
  - apply since_for_early. by destruct (str_mem path PROD_FILES); vm_compute.
Qed.

Lemma head_paths var path : (var, path) ∈ FILES → assoc HEAD_names var = Some path ∧ path ≠ MSG.
Proof.
  assert (forallb (λ f, bool_decide (assoc HEAD_names f.1 = Some f.2 ∧ f.2 ≠ MSG)) FILES = true)
    as Hall by (vm_compute; reflexivity).
  rewrite forallb_forall in Hall. intros Hin%list_elem_of_In.
  by apply Hall, bool_decide_eq_true in Hin.
Qed.

Lemma eval_calls var path name k id since hs i :
  assoc HEAD_names var = Some path → list_index ORDER64 name = Ok k → 22 ≤ k →
  (∀ n, since_early (since n) = true) →
  ∃ T, mapM eval_call (calls_from i id var since hs) = Some T ∧
       Forall2 (row_for ORDER64 name path) T hs ∧
       tr_id <$> T = c_id <$> calls_from i id var since hs.
Proof.
  intros Hv Hk Hle Hs. revert i. induction hs as [|[o n] hs IH]; intros i.
  { exists []. repeat split. constructor. }
  destruct (IH (S i)) as (T & HT & Hf & Hid). specialize (Hs n). unfold since_early in Hs.
  destruct (eval_since (since n)) as [v|] eqn:Ev; [|done].
  destruct (list_index ORDER64 v) as [j|] eqn:Ej; [|done]. bools.
  set (c := Call (id +:+ pretty (N.of_nat i)) var o n (since n)).
  set (tr := b2b_t (id +:+ pretty (N.of_nat i)) path o n None (Some v)).
  assert (eval_call c = Some tr) as Hc.
  { unfold eval_call, c. cbn [c_var c_since c_id c_old c_new]. by rewrite Hv, Ev. }
  exists (tr :: T). cbn [calls_from]. fold c. split; [|split; [|cbn; by rewrite Hid]].
  { apply mapM_Some. constructor; [done|by apply mapM_Some]. }
  constructor; [|done]. split; [done|]. split; [done|].
  unfold allowed, tr, b2b_t, r3_t. cbn [tr_only tr_since]. rewrite Hk, Ej. cbn [res_bind].
  destruct (k <? j) eqn:E; bools; [lia|done].
Qed.

Lemma length_calls i id var since hs : length (calls_from i id var since hs) = length hs.
Proof. revert i. induction hs as [|[o n] hs IH]; intros i; cbn; [done|]. by rewrite IH. Qed.

Lemma filter_all {A} (f : A → bool) (l : list A) : forallb f l = true → List.filter f l = l.
Proof.
  induction l as [|x l IH]; cbn; [done|]. intros [-> Hl]%andb_true_iff. by rewrite IH.
Qed.

Lemma replace_each_app hs hs' t :
  replace_each (hs ++ hs') t = replace_each hs' (replace_each hs t).
Proof. apply fold_left_app. Qed.

(** ** The properties *)

(** What the author has to look at: a file that changes has contexts that keep
    clear of the neighbouring regions, and each old text at one place in its turn. *)
Definition clean `{Difflib} (old new : text) (stack : list text) (hs : list hunk) : bool :=
  if decide (old = new) then true
  else let a := splitlines old in
       let b := splitlines new in
       fits (best_context a b old stack) None (regions a b) && clear_run old hs.

Section properties.
Context `{Difflib}.

Lemma hunks_ne old new stack hs : hunks old new stack = Ok hs → Forall (λ h, h.1 ≠ []) hs.
Proof.
  intros Hh%hunk_loop_for. eapply Forall2_Forall_r; [exact Hh|]. apply Forall_forall.
  intros r _ h Hr. by eapply hunk_for_ne.
Qed.

Lemma hunks_clean old new stack hs :
  old ≠ new → hunks old new stack = Ok hs → clean old new stack hs = true →
  clear_run old hs = true ∧ replace_each hs old = new.
Proof.
  intros Hne Hh Hc. unfold clean in Hc. rewrite decide_False in Hc by done. bools.
  split; [done|]. pose proof (hunks_ne _ _ _ _ Hh) as Hnes. apply hunk_loop_for in Hh.
  assert (mix (splitlines old) (splitlines new) 0 0 = old) as Hm by apply splitlines_concat.
  rewrite <-Hm at 1. rewrite <-(splitlines_concat new) at 2.
  eapply (hunks_replace _ _ _ _ _ _ _ None); [apply regions_script|done|eassumption..|].
  by rewrite Hm.
Qed.

Context (show : string → string → option text) (SHAS : list string) (WT LOWER : tree).

Lemma lower_h_clean path tip low hs :
  show "b2-tip" path = Some tip → file_low show LOWER path = Some low →
  file_lower_h show SHAS LOWER path = Ok hs →
  clean tip low (file_stack show SHAS path) hs = true →
  Forall (λ h, h.1 ≠ []) hs ∧ clear_run tip hs = true ∧ replace_each hs tip = low.
Proof.
  unfold file_low, file_lower_h. intros Ht Hl Hh Hc. rewrite Ht in *.
  destruct (read LOWER path) as [l|]; simplify_eq; [|done].
  destruct (decide _) as [|Hn] in Hh; simplify_eq; [done|].
  split; [by eapply hunks_ne|]. eapply hunks_clean; [congruence|done..].
Qed.

Lemma upper_h_clean path low up lower_h hs :
  file_low show LOWER path = Some low →
  file_upper_h show SHAS LOWER path up lower_h = Ok hs →
  clean low up (file_after show SHAS path lower_h) hs = true →
  Forall (λ h, h.1 ≠ []) hs ∧ clear_run low hs = true ∧ replace_each hs low = up.
Proof.
  unfold file_upper_h. intros Hl Hh Hc. rewrite Hl in Hh.
  destruct (decide _) as [|Hn] in Hh; simplify_eq; [done|].
  split; [by eapply hunks_ne|]. eapply hunks_clean; [congruence|done..].
Qed.

Lemma clear_run_app t hs hs' :
  clear_run t hs = true → clear_run (replace_each hs t) hs' = true →
  clear_run t (hs ++ hs') = true.
Proof.
  revert t. induction hs as [|[o n] hs IH]; intros t; [done|]. cbn [clear_run app].
  destruct (sole_site o t); [|done]. destruct (inserted o n t); [done|]. apply IH.
Qed.

(** C39: The hunks of two files are one for each region, in order, each with the best
    context: usable (its old text is not empty, stands once in its source and at most
    once in every tree of the stack), with the highest number of trees matched, and the
    first such pair in the order of [PAIRS]; leaving the loop early loses none.  Where a
    region has no usable context at all, and only there, the assertion stops the
    script. *)
Theorem hunks_best old new stack :
  let a := splitlines old in
  let b := splitlines new in
  match hunks old new stack with
  | Ok hs => Forall2 (λ r h, ∃ k c, is_best a b old stack r PAIRS k c ∧ h = hunk_with a b r c)
               (regions a b) hs
  | Raise e => e = AssertionError "no context" ∧
      ∃ r, r ∈ regions a b ∧ ∀ c, c ∈ PAIRS → usable a b old stack r c = false
  end.
Proof.
  cbv zeta. destruct (hunks old new stack) as [hs|e] eqn:E.
  - apply hunk_loop_for in E. eapply Forall2_impl; [exact E|].
    intros r h (c & Hc & ->).
    pose proof (best_context_best (splitlines old) (splitlines new) old stack r) as Hb.
    rewrite Hc in Hb. destruct Hb as (k & Hk). exists k, c.
    split; [exact Hk|reflexivity].
  - apply hunk_loop_raise in E as (-> & r & Hr & Hn). split; [done|]. exists r.
    split; [exact Hr|].
    pose proof (best_context_best (splitlines old) (splitlines new) old stack r) as Hb.
    rewrite Hn in Hb. exact Hb.
Qed.

(** C30: Round trip of genfix.py and r3fix.py.  For every file of [FILES] whose hunks are
    [clean] (no context reaches into a neighbouring region, each old text has one place when
    its turn comes, and no insertion is there already) and none of which is left to be
    written by hand for a marker in its texts, the script writes the calls;
    loading them gives a table; and [apply] with that table, at a commit from c22 on and on
    any worktree that has the tip's text of the file, returns, reports every row in order,
    leaves the upper tree's text in the file, and touches no other file and not the
    message. *)
Theorem generated_rows_apply var path tip low up lower_h upper_h wt name k msg :
  (var, path) ∈ FILES → show "b2-tip" path = Some tip → file_low show LOWER path = Some low →
  read WT path = Some up → file_lower_h show SHAS LOWER path = Ok lower_h →
  file_upper_h show SHAS LOWER path up lower_h = Ok upper_h →
  clean tip low (file_stack show SHAS path) lower_h = true →
  clean low up (file_after show SHAS path lower_h) upper_h = true →
  forallb (λ h, negb (by_hand h)) upper_h = true →
  read wt path = Some tip → list_index ORDER64 name = Ok k → 22 ≤ k →
  ∃ calls T wt',
    gen_file show SHAS WT LOWER var path = Ok (calls, (length lower_h, length upper_h)) ∧
    mapM eval_call calls = Some T ∧
    apply ORDER64 T wt name msg = (wt', Ok (msg, c_id <$> calls)) ∧
    read wt' path = Some up ∧ ∀ p, p ≠ path → wt' !! p = wt !! p.
Proof.
  intros Hin Ht Hl Hu Hlh Huh Hcl Hcu Hhand Hwt Hk Hle.
  destruct (lower_h_clean _ _ _ _ Ht Hl Hlh Hcl) as (Hne1 & Hc1 & Hr1).
  destruct (upper_h_clean _ _ _ _ _ Hl Huh Hcu) as (Hne2 & Hc2 & Hr2).
  destruct (head_paths _ _ Hin) as [Hv Hm].
  destruct (eval_calls var path name k (lower var +:+ "-") (λ _, None) lower_h 0 Hv Hk Hle)
    as (T1 & HT1 & Hf1 & Hid1); [done|].
  destruct (eval_calls var path name k (lower var +:+ "-live-")
    (λ n, Some (upper_since path n)) upper_h 0 Hv Hk Hle) as (T2 & HT2 & Hf2 & Hid2).
  { apply upper_since_early. }
  destruct (apply_hunks_file ORDER64 name path (T1 ++ T2) (lower_h ++ upper_h) wt msg tip)
    as (wt' & Ha & Hr & Hfr); try done.
  { by apply Forall2_app. }
  { by apply Forall_app. }
  { apply clear_run_app; [done|]. by rewrite Hr1. }
  { rewrite replace_each_app, Hr1, Hr2. by eapply read_crfree. }
  exists (lower_calls var lower_h ++ upper_calls var path upper_h), (T1 ++ T2), wt'.
  assert (upper_calls var path upper_h = calls_from 0 (lower var +:+ "-live-") var
    (λ n, Some (upper_since path n)) upper_h) as Huc by (unfold upper_calls; by rewrite filter_all).
  rewrite Huc. split.
  { unfold gen_file. rewrite Hu, Hlh. cbn [res_bind]. rewrite Huh. cbn [res_bind].
    rewrite Huc. unfold lower_calls. by rewrite !length_calls. }
  split; [by apply mapM_Some, Forall2_app; apply mapM_Some|].
  split; [by rewrite Ha, !fmap_app, Hid1, Hid2|].
  split; [|done]. by rewrite Hr, replace_each_app, Hr1, Hr2.
Qed.
End properties.

(** ** A difflib, and the properties at work *)

(** Line by line: equal or replaced, and the rest inserted or deleted. *)
Fixpoint line_ops (k : nat) (a b : list text) : list opcode :=
  match a, b with
  | [], [] => []
  | x :: a', y :: b' =>
      Opcode (if decide (x = y) then Equal else Replace) k (S k) k (S k) :: line_ops (S k) a' b'
  | _ :: _, [] => [Opcode Delete k (k + length a) k k]
  | [], _ :: _ => [Opcode Insert k k k (k + length b)]
  end.

Lemma tiles_end a b i j : i = length a → j = length b → tiles a b i j [].
Proof. intros -> ->. constructor. Qed.

Lemma line_ops_tiles pa pb a b :
  length pa = length pb → tiles (pa ++ a) (pb ++ b) (length pa) (length pb)
                                (line_ops (length pa) a b).
Proof.
  revert pa pb b. induction a as [|x a IH]; intros pa pb [|y b] Hl; cbn [line_ops].
  - by rewrite !app_nil_r; constructor.
  - rewrite Hl. constructor; [lia|lia|done|]. apply tiles_end; rewrite length_app; cbn [length]; lia.
  - rewrite Hl. constructor; [lia|lia|done|]. apply tiles_end; rewrite length_app; cbn [length]; lia.
  - rewrite Hl. constructor; [lia|lia| |].
    + destruct (decide (x = y)) as [->|]; [|done]. intros _. unfold slice.
      replace (S (length pb) - length pb) with 1 by lia.
      rewrite <-Hl at 1. by rewrite !drop_app_length.
    + specialize (IH (pa ++ [x]) (pb ++ [y]) b). rewrite !length_app, <-!app_assoc in IH.
      cbn in IH. replace (length pa + 1) with (S (length pb)) in IH by lia.
      replace (length pb + 1) with (S (length pb)) in IH by lia. by apply IH.
Qed.

#[export] Instance line_difflib : Difflib := {
  get_opcodes a b := line_ops 0 a b;
  get_opcodes_tiles a b := line_ops_tiles [] [] a b eq_refl;
}.

(** Two functions of one file; the tip returns rc in both. *)
Definition demo_page (mid ret1 ret2 : text) : text :=
  lit "int one(void)
{
	int rc;

	rc = a();
" ++ ret1 ++ lit "}

/* 1 */
/* 2 */
/* 3 */
/* 4 */
" ++ mid ++ lit "/* 6 */
/* 7 */

int two(void)
{
	int rc;

	rc = b();
" ++ ret2 ++ lit "}
".

Definition demo_ret : text := lit "	return rc;
".
Definition demo_five : text := lit "/* 5 */
".
Definition demo_tip : text := demo_page demo_five demo_ret demo_ret.
Definition demo_low : text := demo_page demo_five (lit "	return -rc;
") demo_ret.
Definition demo_up : text := demo_page demo_five (lit "	goto out;
") (lit "	return rc ? -1 : 0;
").

(** Two commits, of which the older has other text around the second function. *)
Definition demo_show (sha path : string) : option text :=
  if String.eqb path b2b_LFS
  then if String.eqb sha "s1" then Some (demo_page (lit "/* five */
") demo_ret (lit "	return 0;
")) else Some demo_tip
  else None.

Definition demo_tree (s : text) : tree := {[ b2b_LFS := s ]}.

Definition demo_lower_h : list hunk :=
  [(lit "	rc = a();
	return rc;
", lit "	rc = a();
	return -rc;
")].
Definition demo_upper_h : list hunk :=
  [(lit "	return -rc;
", lit "	goto out;
"); (lit "	return rc;
", lit "	return rc ? -1 : 0;
")].

Lemma hunks_best_witness :
  hunks demo_tip demo_low [demo_tip] = Ok demo_lower_h ∧
  Forall2 (λ r h, ∃ k c,
      is_best (splitlines demo_tip) (splitlines demo_low) demo_tip [demo_tip] r PAIRS k c ∧
      h = hunk_with (splitlines demo_tip) (splitlines demo_low) r c)
    (regions (splitlines demo_tip) (splitlines demo_low)) demo_lower_h.
Proof.
  assert (hunks demo_tip demo_low [demo_tip] = Ok demo_lower_h) as Hh by (vm_compute; reflexivity).
  split; [exact Hh|]. pose proof (hunks_best demo_tip demo_low [demo_tip]) as Hb.
  cbv zeta in Hb. rewrite Hh in Hb. exact Hb.
Defined.

Lemma generated_rows_apply_witness :
  ∃ calls T wt',
    gen_file demo_show ["s1"; "s2"] (demo_tree demo_up) (demo_tree demo_low) "LFS" b2b_LFS
      = Ok (calls, (1, 2)) ∧
    mapM eval_call calls = Some T ∧
    apply ORDER64 T (demo_tree demo_tip) "c22" [] = (wt', Ok ([], c_id <$> calls)) ∧
    read wt' b2b_LFS = Some demo_up ∧
    ∀ p, p ≠ b2b_LFS → wt' !! p = demo_tree demo_tip !! p.
Proof.
  apply (generated_rows_apply demo_show ["s1"; "s2"] (demo_tree demo_up) (demo_tree demo_low)
    "LFS" b2b_LFS demo_tip demo_low demo_up demo_lower_h demo_upper_h (demo_tree demo_tip)
    "c22" 22 []); try (vm_compute; reflexivity).
  apply (bool_decide_unpack _). vm_compute. exact I.
Defined.

(** [old.count(o) == 1] does not count overlapping places: of three equal lines two
    stand once, and a line to be put before the last one goes before the second.  The
    region is the one difflib reports. *)
Definition three_lines : text := lit "x
x
x
".
Definition four_lines : text := lit "x
x
y
x
".

Lemma overlap_misplaced :
  ∃ o n, hunk_loop (splitlines three_lines) (splitlines four_lines) three_lines [three_lines]
           [Region 2 2 2 3] = Ok [(o, n)] ∧
    py_count o three_lines = 1 ∧ py_replace_n o n three_lines 1 ≠ four_lines.
Proof.
  exists (lit "x
x
"), (lit "x
y
x
"). split; [vm_compute; reflexivity|]. split; [reflexivity|]. vm_compute. discriminate.
Qed.

(** What genfix.py writes reads back: the strings of the rows, the rows, and the module. *)

(** ** Strings *)

Definition is_quote (q : ascii) : bool := Ascii.eqb q "'" || Ascii.eqb q "034".

Lemma repr_char_read q c t :
  is_quote q = true → string_body q (repr_char q c ++ t) = push c (string_body q t).
Proof.
  intros [->%Ascii.eqb_eq| ->%Ascii.eqb_eq]%orb_true_iff;
    destruct c as [[] [] [] [] [] [] [] []]; reflexivity.
Qed.

Lemma repr_body_read q s t :
  is_quote q = true → string_body q ((s ≫= repr_char q) ++ q :: t) = Some (s, t).
Proof.
  intros Hq. induction s as [|c s IH].
  - cbn. by rewrite Ascii.eqb_refl.
  - change ((c :: s) ≫= repr_char q) with (repr_char q c ++ (s ≫= repr_char q)).
    rewrite <-app_assoc, repr_char_read by done. by rewrite IH.
Qed.

Lemma repr_quote_ok s : is_quote (repr_quote s) = true.
Proof. unfold repr_quote. by destruct (_ && _). Qed.

Lemma read_repr s t : read_string (py_repr s ++ t) = Some (s, t).
Proof.
  unfold py_repr, read_string. cbn [app]. pose proof (repr_quote_ok s) as Hq.
  unfold is_quote in Hq. rewrite Hq, <-app_assoc. by apply repr_body_read.
Qed.

(** ** Names *)

Lemma read_name_app w r :
  forallb is_word w = true → no_word_head r = true → read_name (w ++ r) = (w, r).
Proof.
  intros Hw Hr. induction w as [|c w IH]; cbn.
  - destruct r as [|c r]; [done|]. cbn in Hr |- *. by apply negb_true_iff in Hr as ->.
  - apply andb_true_iff in Hw as [Hc Hw]. rewrite Hc. by rewrite IH.
Qed.

Lemma word_string_body q w t :
  forallb is_word w = true → is_quote q = true → string_body q (w ++ q :: t) = Some (w, t).
Proof.
  intros Hw Hq. induction w as [|c w IH].
  - cbn. by rewrite Ascii.eqb_refl.
  - apply andb_true_iff in Hw as [Hc Hw]. specialize (IH Hw). cbn [app].
    transitivity (push c (string_body q (w ++ q :: t))); [|by rewrite IH].
    revert Hc. apply orb_true_iff in Hq as [->%Ascii.eqb_eq| ->%Ascii.eqb_eq]; clear;
      destruct c as [[] [] [] [] [] [] [] []]; intros H; (discriminate H || reflexivity).
Qed.

Lemma of_str_text s : of_text (str_text s) = s.
Proof. apply String.string_of_list_ascii_of_string. Qed.

(** ** Calls *)

(** A call whose variable is a name, and whose since is a word in quotes or a name. *)
Definition call_ok (c : call) : bool :=
  is_name (str_text (c_var c)) &&
  match c_since c with
  | None => true
  | Some (Quoted v) => forallb is_word (str_text v)
  | Some (Named v) => is_name (str_text v)
  end.

Lemma strip_app p s : strip_prefix p (p ++ s) = Some s.
Proof. by apply strip_prefix_Some. Qed.

Lemma read_string_name w t : is_name w = true → read_string (w ++ t) = None.
Proof.
  intros [Hn Hw]%is_name_spec. destruct w as [|c w]; [done|]. apply andb_true_iff in Hw as [Hc _].
  cbn. revert Hc. clear.
  destruct c as [[] [] [] [] [] [] [] []]; intros H; (discriminate H || reflexivity).
Qed.

Lemma read_call_text c r : call_ok c = true → read_call (call_text c ++ r) = Some (c, r).
Proof.
  intros [[_ Hv]%is_name_spec Hs]%andb_true_iff. unfold read_call, call_text.
  rewrite <-!app_assoc, strip_app. cbn [mbind option_bind].
  rewrite read_repr. cbn [mbind option_bind]. rewrite strip_app. cbn [mbind option_bind].
  rewrite read_name_app by done. rewrite strip_app. cbn [mbind option_bind].
  rewrite read_repr. cbn [mbind option_bind]. rewrite strip_app. cbn [mbind option_bind].
  rewrite read_repr. cbn [mbind option_bind]. rewrite !of_str_text.
  destruct c as [id var old new [[v|v]|]]; cbn [c_since] in Hs |- *; rewrite <-?app_assoc.
  - change (strip_prefix (lit ")
") (lit ", since=" ++ ?x)) with (@None text).
    rewrite strip_app. cbn [mbind option_bind since_text]. rewrite <-!app_assoc.
    change (read_string (lit "\q" ++ ?x)) with (string_body "034" x).
    change (lit "\q" ++ ?x) with ("034"%char :: x).
    rewrite (word_string_body "034" (str_text v)) by done.
    rewrite strip_app. cbn [mbind option_bind]. by rewrite of_str_text.
  - change (strip_prefix (lit ")
") (lit ", since=" ++ ?x)) with (@None text).
    rewrite strip_app. cbn [mbind option_bind since_text].
    rewrite read_string_name by done. rewrite read_name_app; [|by apply is_name_spec|done].
    rewrite strip_app. cbn [mbind option_bind]. by rewrite of_str_text.
  - by rewrite strip_app.
Qed.

(** ** The rows between the head and the tail *)

Lemma call_text_ne c : call_text c ≠ [].
Proof. done. Qed.

Lemma read_calls_join n cs :
  Forall (λ c, call_ok c = true) cs → cs ≠ [] → length cs ≤ n →
  read_calls n (py_join (lit "
") (map call_text cs)) = Some cs.
Proof.
  revert n. induction cs as [|c cs IH]; intros n Hok Hne Hn; [done|].
  apply Forall_cons in Hok as [Hc Hok]. destruct n as [|n]; [cbn in Hn; lia|].
  destruct cs as [|c' cs].
  - cbn [map py_join read_calls]. rewrite <-(app_nil_r (call_text c)).
    by rewrite read_call_text.
  - change (py_join ?j (map call_text (c :: c' :: cs)))
      with (call_text c ++ [nl] ++ py_join j (map call_text (c' :: cs))).
    cbn [read_calls]. rewrite read_call_text by done. cbn [mbind option_bind].
    specialize (IH n Hok). rewrite strip_app. cbn [app mbind option_bind].
    rewrite IH by (done || cbn in Hn |- *; lia). done.
Qed.

Lemma length_join_calls cs :
  length cs ≤ length (py_join (lit "
") (map call_text cs)).
Proof.
  induction cs as [|c [|c' cs] IH]; [done| |].
  - cbn [map py_join length]. pose proof (call_text_ne c). destruct (call_text c); cbn; [done|lia].
  - change (py_join ?j (map call_text (c :: c' :: cs)))
      with (call_text c ++ [nl] ++ py_join j (map call_text (c' :: cs))).
    rewrite !length_app. cbn [length] in *. lia.
Qed.

Lemma read_body_join cs :
  Forall (λ c, call_ok c = true) cs →
  read_body (py_join (lit "
") (map call_text cs)) = Some cs.
Proof.
  intros Hok. destruct cs as [|c cs]; [done|].
  pose proof (length_join_calls (c :: cs)) as Hl. unfold read_body.
  destruct (py_join _ _) as [|x s] eqn:E; [cbn in Hl; lia|].
  rewrite <-E in *. by apply read_calls_join.
Qed.

(** ** The calls of the script *)

Lemma calls_from_ok i id var since hs :
  is_name (str_text var) = true →
  (∀ o n, call_ok (Call id var o n (since n)) = true) →
  Forall (λ c, call_ok c = true) (calls_from i id var since hs).
Proof.
  intros Hv Hs. revert i. induction hs as [|[o n] hs IH]; intros i; constructor; [|apply IH].
  exact (Hs o n).
Qed.

Lemma since_markers_word l n d :
  Forall (λ p, forallb is_word (str_text p.2) = true) l →
  since_markers_for l n d = d ∨
  ∃ v, since_markers_for l n d = Quoted v ∧ forallb is_word (str_text v) = true.
Proof.
  induction 1 as [|[m v] l Hv Hl IH]; cbn [since_markers_for]; [by left|].
  destruct (py_in m n); [right; by exists v|exact IH].
Qed.

Lemma assoc_Forall (P : string → Prop) l k v :
  Forall (λ p, P p.2) l → assoc l k = Some v → P v.
Proof.
  induction 1 as [|[k' v'] l Hv Hl IH]; cbn [assoc]; [done|].
  destruct (String.eqb k' k); [by intros [= <-]|done].
Qed.

Lemma since_values_words :
  Forall (λ p, forallb is_word (str_text p.2) = true) SINCE_MARKERS ∧
  Forall (λ p, forallb is_word (str_text p.2) = true) FILE_SINCE.
Proof. split; apply (bool_decide_unpack _); vm_compute; exact I. Qed.

Lemma files_names : Forall (λ f, is_name (str_text f.1) = true) FILES.
Proof. apply (bool_decide_unpack _). vm_compute. exact I. Qed.

Lemma upper_since_ok id var path o n :
  is_name (str_text var) = true →
  call_ok (Call id var o n (Some (upper_since path n))) = true.
Proof.
  intros Hv. unfold call_ok. cbn [c_var c_since]. rewrite Hv. cbn [andb].
  destruct since_values_words as [Hm Hf]. unfold upper_since.
  destruct (assoc FILE_SINCE path) as [v|] eqn:E.
  { by apply (assoc_Forall (λ v, forallb is_word (str_text v) = true) _ _ _ Hf E). }
  unfold since_for.
  edestruct since_markers_word as [->|(v & -> & Hw)]; [exact Hm| |exact Hw].
  by destruct (str_mem path PROD_FILES).
Qed.

Section script.
Context `{Difflib} (show : string → string → option text) (SHAS : list string) (WT LOWER : tree).

Lemma gen_file_ok var path cs k :
  is_name (str_text var) = true →
  gen_file show SHAS WT LOWER var path = Ok (cs, k) →
  Forall (λ c, call_ok c = true) cs ∧ k.1 + k.2 = length cs.
Proof.
  intros Hv. unfold gen_file. destruct (read WT path) as [up|]; [|done].
  intros (lh & _ & (uh & _ & Heq)%res_bind_Ok)%res_bind_Ok. apply (inj Ok) in Heq.
  injection Heq as <- <-. rewrite length_app. split; [|done].
  apply Forall_app. split; apply calls_from_ok; try done; intros o n.
  - unfold call_ok. cbn [c_var c_since]. by rewrite Hv.
  - by apply upper_since_ok.
Qed.

Lemma gen_files_ok files body counts cs k :
  Forall (λ f, is_name (str_text f.1) = true) files →
  Forall (λ c, call_ok c = true) body → counts.1 + counts.2 = length body →
  gen_files show SHAS WT LOWER files body counts = Ok (cs, k) →
  Forall (λ c, call_ok c = true) cs ∧ k.1 + k.2 = length cs.
Proof.
  intros Hf. revert body counts. induction Hf as [|[var path] files Hv Hf IH];
    intros body counts Hb Hc; cbn [gen_files].
  { by intros [= <- <-]. }
  intros ([cs' k'] & Hg & Hr)%res_bind_Ok. apply gen_file_ok in Hg as [Hok Hl]; [|done].
  apply (IH _ _) in Hr; [done| |]; cbn [fst snd] in *.
  - by apply Forall_app.
  - rewrite length_app. lia.
Qed.

(** C20: b2bfix.py says what genfix.py worked out.  When the script gets to its end, the
    file it writes is the head, the rows and the tail, and the rows read as Python reads
    them - the string literals [%r] wrote with their escapes and quotes, the name of the
    file's constant, the [since] as a literal or as PROD or LIVE - are the very calls that
    were worked out, in their order; the two counts it prints add up to their number. *)
Theorem written_module_reads_back calls counts :
  genfix show SHAS WT LOWER = Ok (calls, counts) →
  ∃ body, module_text calls = genfix_HEAD ++ body ++ genfix_TAIL ∧
          read_body body = Some calls ∧ counts.1 + counts.2 = length calls.
Proof.
  unfold genfix. intros Hg. destruct (gen_files_ok FILES [] (0, 0) calls counts) as [Hok Hl];
    [exact files_names|constructor|reflexivity|exact Hg|].
  exists (py_join (lit "
") (map call_text calls)).
  split; [reflexivity|]. split; [by apply read_body_join|exact Hl].
Qed.
End script.

(** ** A run *)

Definition demo_show_all (sha path : string) : option text :=
  if String.eqb path b2b_LFS then demo_show sha path else Some [].

Definition demo_WT : tree :=
  <[b2b_LFS := demo_up]> (list_to_map (map (λ f, (f.2, [])) FILES)).

Lemma written_module_reads_back_witness :
  ∃ calls, genfix demo_show_all ["s1"; "s2"] demo_WT (demo_tree demo_low) = Ok (calls, (1, 2)) ∧
    ∃ body, module_text calls = genfix_HEAD ++ body ++ genfix_TAIL ∧
            read_body body = Some calls ∧ 1 + 2 = length calls.
Proof.
  eexists. split; [vm_compute; reflexivity|].
  apply (written_module_reads_back demo_show_all ["s1"; "s2"] demo_WT (demo_tree demo_low) _ (1, 2)).
  vm_compute. reflexivity.
Defined.
