(* ===== verification/Scripts.v ===== *)
(** The scripts that share their functions, each over its own tables: the rebuild scripts of
    a-1007 and a-1008, and [apply] of the fix modules of the later rounds. *)
From S2P Require Import Prelude PyStr Git R3Engine R3Table RoundTables B2bTable B2eTable Rebuild R1007Table PyRe Rebuild8 R1008Table.

(** ** The rebuild scripts *)

Section rebuild.
Context {sha repo : Type} `{EqDecision sha} `{Git sha repo}.
Context (rev_parse : string → option sha) (ident : repo → string * string).

(** build(dry) of a-1007/rebuild.py *)
Definition build_1007 (dry : bool) (r : repo) : repo * res (bool * sha * list (line sha)) :=
  build rev_parse ident r1007_BASE r1007_STACK (edit_stage r1007_EDITS) r1007_MSG dry r.

(** The script of a-1007 with its argument: [tip] works on the worktree and exits; else the
    stack is rebuilt. *)
Definition rebuild_1007 (argv1 : option string) (wt : R3.tree) (r : repo)
    : R3.tree * repo * res (nat * option sha) :=
  if bool_decide (argv1 = Some "tip") then
    match tip r1007_STACK r1007_EDITS wt with
    | (wt', Ok (status, _)) => (wt', r, Ok (status, None))
    | (wt', Raise x) => (wt', r, Raise x)
    end
  else
    let dry := bool_decide (argv1 = Some "dry") in
    match build_1007 dry r with
    | (r', Raise x) => (wt, r', Raise x)
    | (r', Ok (fail, tip, _)) =>
        (wt, r', Ok (if fail then (1, None) else (0, if dry then None else Some tip)))
    end.

(** build(dry) of a-1008/rebuild.py, whose edits are followed by renames and edits of the
    renamed text *)
Definition build_1008 `{Grep} (dry : bool) (r : repo) : repo * res (bool * sha * list (line sha)) :=
  build rev_parse ident r1008_BASE r1008_STACK
    (stage8 r1008_EDITS r1008_RENAMES r1008_POST) r1008_MSG dry r.

Definition rebuild_1008 `{Grep} (argv1 : option string) (r : repo) : repo * res (nat * option sha) :=
  main rev_parse ident r1008_BASE r1008_STACK (stage8 r1008_EDITS r1008_RENAMES r1008_POST)
    r1008_MSG (bool_decide (argv1 = Some "dry")) r.
End rebuild.

(** ** The fix modules *)

Definition apply_r0918 := R3.apply_with r0918_T.
Definition apply_r0920 := R3.apply_with r0920_T.
Definition apply_r0921 := R3.apply_with r0921_T.
Definition apply_b1 := R3.apply_with b1_T.
Definition apply_b2 := R3.apply_with b2_T.
Definition apply_b2b := R3.apply_with b2b_T.

(** A dry run and a run of [tip] make no object, and only [tip] writes to the worktree. *)
Lemma rebuild_1007_frame {sha repo : Type} `{EqDecision sha} `{Git sha repo}
    (rev_parse : string → option sha) (ident : repo → string * string) argv1 wt r :
  (rebuild_1007 rev_parse ident argv1 wt r).1.1 = wt ∨
  (argv1 = Some "tip" ∧ (rebuild_1007 rev_parse ident argv1 wt r).1.2 = r).
Proof.
  unfold rebuild_1007. case_bool_decide as E.
  - right. split; [done|]. by destruct (tip _ _ _) as [? [[??]|?]].
  - left. by destruct (build_1007 _ _ _ _) as [? [[[??]?]|?]].
Qed.
