(* ===== verification/Gpoll.v ===== *)
(** The watch on the changes in review, tests/gerrit-poll/gpoll.py: it asks Gerrit for all
    comments, drops those it has seen, filters and formats the rest, and keeps the keys of
    what it has seen in seen.json.  The answer of the server, local time and the clock are
    parameters.  Strings and whole numbers are taken where Gerrit gives them; another type
    of value there is a TypeError here. *)
From S2P Require Import Prelude PyStr PyParse PyRe PyRegex Json Replies.
From S2P Require Genfix.

(** ** Values *)

Definition jtext (j : json) : res text :=
  match j with JStr s => Ok s | _ => Raise (TypeError "not a string") end.

(** [j.get(k, d)] for a text *)
Definition jget_text (k : string) (d : text) (j : json) : res text :=
  match j with
  | JObj l => match dict_find (lit k) l with Some v => jtext v | None => Ok d end
  | _ => Raise (AttributeError "get")
  end.

(** The text up to its first line boundary. *)
Fixpoint to_line_end (s : text) : text :=
  match s with
  | [] => []
  | c :: s' => match Genfix.Genfix.line_end s with 0 => c :: to_line_end s' | _ => [] end
  end.

(** [s.splitlines()[0]] *)
Definition head_line (s : text) : res text :=
  match s with
  | [] => Raise (IndexError "list index out of range")
  | _ => Ok (to_line_end s)
  end.

(** [int(s)] for digits *)
Definition digits_int (s : text) : Z := Z.of_uint (read_uint s).1.

Definition is_user (who : text) (u : string) : bool := bool_decide (who = lit u).

(** ** Patterns *)

Definition NUM : regex := RPlus true (RSet is_digit).
Definition SPACES : regex := RStar true (RSet is_space).
Definition COMMENTS : regex := RLit (lit " comment") ⋅ ROpt (RLit (lit "s")).

(** [Patch Set (\d+)] *)
Definition PATCH_SET : regex := RLit (lit "Patch Set ") ⋅ RGroup 1 NUM.
(** [Uploaded patch set \d+] *)
Definition UPLOADED : regex := RLit (lit "Uploaded patch set ") ⋅ NUM.
(** [Patch Set \d+:\s*$] *)
Definition BARE : regex := RLit (lit "Patch Set ") ⋅ NUM ⋅ RLit (lit ":") ⋅ SPACES ⋅ RLook Eol.
(** [^\(\d+ comments?\)$], re.M *)
Definition COUNT_LINE : regex :=
  RLook Bol ⋅ RLit (lit "(") ⋅ NUM ⋅ COMMENTS ⋅ RLit (lit ")") ⋅ RLook EolM.
(** [^Patch Set \d+: Verified-1] and [Verified\+1], re.M *)
Definition VERIFIED (v : string) : regex :=
  RLook Bol ⋅ RLit (lit "Patch Set ") ⋅ NUM ⋅ RLit (lit ": Verified") ⋅ RLit (lit v).
(** [Failed enforced test (\S+).*?tests failed: (\S+?)\.], re.S *)
Definition FAILED : regex :=
  RLit (lit "Failed enforced test ") ⋅ RGroup 1 (RPlus true (RSet not_space)) ⋅
  RStar false (RSet any) ⋅ RLit (lit "tests failed: ") ⋅
  RGroup 2 (RPlus false (RSet not_space)) ⋅ RLit (lit ".").
(** [\((\d+) comments?\)] *)
Definition COUNT : regex := RLit (lit "(") ⋅ RGroup 1 NUM ⋅ COMMENTS ⋅ RLit (lit ")").

(** ** The answer *)

(** A line of the answer: an object to look at, or nothing. *)
Definition answer_line (line : text) : res (option json) :=
  match py_strip line with
  | [] => Ok None
  | _ =>
      match json_loads line with
      | Raise _ => Ok None
      | Ok (JObj l) =>
          Ok (match dict_find (lit "type") l with
              | Some (JStr t) => if bool_decide (t = lit "stats") then None else Some (JObj l)
              | _ => Some (JObj l)
              end)
      | Ok _ => Raise (AttributeError "get")
      end
  end.

Fixpoint answer_lines (lines : list text) : res (list json) :=
  match lines with
  | [] => Ok []
  | line :: lines' =>
      let! o := answer_line line in
      let! out := answer_lines lines' in
      Ok (match o with Some j => j :: out | None => out end)
  end.

(** [fetch()], of what ssh printed *)
Definition fetch (stdout : text) : res (list json) :=
  answer_lines (py_split_on nl (py_strip stdout)).

(** ** One comment *)

Section format.
(** [fromtimestamp(..).strftime("%m-%d %H:%M")], and the same of [now()] *)
Context (local : Z → res text) (now : text).

Definition key (n : Z) (c : json) : res text :=
  let! ts := jget "timestamp" c in
  let! reviewer := jget "reviewer" c in
  let! user := jget_text "username" [] reviewer in
  let! message := jget "message" c in
  let! m := jtext message in
  let! t := jint ts in
  Ok (Z_text n ++ lit "|" ++ Z_text t ++ lit "|" ++ user ++ lit "|" ++ take_chars 50 m).

(** What a comment comes to: nothing, a count for LU-20598, or a line. *)
Inductive verdict := Silent | Lu20598 | Event (e : text).

Definition BOTS : list string :=
  ["maloo"; "jenkins"; "lgerritjanitor"; "hpdd-checkpatch"; "smatchreview"; "autotest";
   "lustre-riscv-builder"; "hnishida"].

(** Our own review replies. *)
Definition own_reply (who m : text) : res bool :=
  if is_user who "hnishida" then
    let! first := head_line m in
    Ok (match re_match BARE first with
        | Some _ => match re_search COUNT_LINE m with Some _ => true | None => false end
        | None => false
        end)
  else Ok false.

Definition vote (m : text) : text :=
  match re_search (VERIFIED "-1") m with
  | Some _ => lit " **Verified-1**"
  | None => match re_search (VERIFIED "+1") m with
            | Some _ => lit " Verified+1"
            | None => []
            end
  end.

(** ["%s %s PS%d "], before each line *)
Definition stamp (t : text) (n cur : Z) : text :=
  t ++ lit " " ++ Z_text n ++ lit " PS" ++ Z_text cur ++ lit " ".

(** The line of a comment that passed the filters. *)
Definition event_line (t : text) (n cur : Z) (who m : text) : res text :=
  match re_search FAILED m with
  | Some mm =>
      Ok (stamp t n cur ++ who ++ lit ": FAILED " ++ default [] (group mm 1) ++ lit " / " ++
          default [] (group mm 2) ++
          (if py_in (lit "CRASHED") m then lit "  %%CRASHED%%" else []) ++ vote m)
  | None =>
      if is_user who "aireview" then
        Ok (stamp t n cur ++ lit "AI REVIEW -- " ++
            (match re_search COUNT m with Some cm => default [] (group cm 1) | None => lit "?" end) ++
            lit " comments")
      else if negb (existsb (is_user who) BOTS) then
        let! first := head_line m in
        Ok (stamp t n cur ++ lit "HUMAN " ++ who ++ lit ": " ++ take_chars 110 first)
      else
        Ok (stamp t n cur ++ who ++ lit ": " ++
            take_chars 130 (py_join (lit " | ")
              (List.filter (λ x, negb (bool_decide (py_strip x = []))) (py_split_on nl m))) ++ vote m)
  end.

(** The body of the loop after [seen.add(k)]. *)
Definition judge (n cur : Z) (c : json) : res verdict :=
  let! message := jget "message" c in
  let! m := jtext message in
  let! reviewer := jget "reviewer" c in
  let! who := jget_text "username" (lit "?") reviewer in
  let ps := match re_match PATCH_SET m with
            | Some g => digits_int (default [] (group g 1))
            | None => (-1)%Z
            end in
  if negb (ps =? -1)%Z && negb (ps =? cur)%Z then Ok Silent
  else if py_in (lit "review-dne-selinux-ssk-part-2") m && py_in (lit "sanity-sec") m
  then Ok Lu20598
  else if is_user who "maloo" && py_in (lit "sessions will be run") m then Ok Silent
  else if is_user who "hnishida" && match re_match UPLOADED m with Some _ => true | None => false end
  then Ok Silent
  else
    let! own := own_reply who m in
    if own then Ok Silent
    else
      let! ts := jget "timestamp" c in
      let! z := jint ts in
      let! t := local z in
      let! e := event_line t n cur who m in
      Ok (Event e).

(** ** The loops *)

Record found := Found { f_seen : gset text; f_events : list text; f_lu20598 : list Z }.

Definition note (n : Z) (f : found) (v : verdict) : found :=
  match v with
  | Silent => f
  | Lu20598 => Found (f_seen f) (f_events f) (f_lu20598 f ++ [n])
  | Event e => Found (f_seen f) (f_events f ++ [e]) (f_lu20598 f)
  end.

Definition poll_comment (seeding : bool) (n cur : Z) (f : found) (c : json) : res found :=
  let! k := key n c in
  if decide (k ∈ f_seen f) then Ok f
  else
    let f' := Found ({[k]} ∪ f_seen f) (f_events f) (f_lu20598 f) in
    if seeding then Ok f'
    else let! v := judge n cur c in Ok (note n f' v).

(** [d.get("comments", [])] *)
Definition comments_of (d : json) : res (list json) :=
  match d with
  | JObj l => match dict_find (lit "comments") l with Some v => jiter v | None => Ok [] end
  | _ => Raise (AttributeError "get")
  end.

Definition poll_change (seeding : bool) (f : found) (d : json) : res found :=
  let! number := jget "number" d in
  let! current := jget "currentPatchSet" d in
  let! cnumber := jget "number" current in
  let! n := jint number in
  let! cur := jint cnumber in
  let! cs := comments_of d in
  foldM (poll_comment seeding n cur) cs f.

(** ** The state file and the whole script *)

(** [sorted(l)] *)
Definition sorted_texts (l : list text) : list text := merge_sort text_le l.

(** What [json.dump(sorted(seen), ..)] writes. *)
Definition state_text (seen : gset text) : text :=
  json_dumps (JList (JStr <$> sorted_texts (elements seen))).

(** [set(json.load(open(STATE)))] where the file is there *)
Definition load_seen (state : option text) : res (gset text) :=
  match state with
  | None => Ok ∅
  | Some s =>
      let! j := json_loads s in
      let! l := jiter j in
      foldM (λ seen x, let! k := jtext x in Ok ({[k]} ∪ seen)) l ∅
  end.

Definition lu_line (lu : list Z) : text :=
  now ++ lit " LU-20598 sanity-sec: " ++ Z_text (Z.of_nat (length lu)) ++ lit " new on " ++
  py_join (lit ",") (Z_text <$> merge_sort Z.le (remove_dups lu)).

(** The state file and the lines printed, or the exception that got out. *)
Definition poll (state : option text) (stdout : text) : option text * list text * res unit :=
  match load_seen state with
  | Raise e => (state, [], Raise e)
  | Ok seen =>
      match fetch stdout with
      | Raise e => (state, [], Raise e)
      | Ok [] => (state, [], Ok ())
      | Ok changes =>
          let seeding := bool_decide (seen = ∅) in
          match foldM (poll_change seeding) changes (Found seen [] []) with
          | Raise e => (state, [], Raise e)
          | Ok f =>
              (Some (state_text (f_seen f)),
               sorted_texts (f_events f) ++
                 (if bool_decide (f_lu20598 f = []) || seeding then [] else [lu_line (f_lu20598 f)]),
               Ok ())
          end
      end
  end.
End format.

(** ** An answer *)

Definition demo_local (z : Z) : res text := Ok (lit "10-20 09:00").

Definition demo_comment (ts : string) (who m : string) : text :=
  lit "{\qtimestamp\q:" ++ lit ts ++ lit ",\qreviewer\q:{\qusername\q:\q" ++ lit who ++
  lit "\q},\qmessage\q:\q" ++ lit m ++ lit "\q}".

Definition demo_answer (cs : list text) : text :=
  lit "{\qnumber\q:68156,\qcurrentPatchSet\q:{\qnumber\q:7},\qcomments\q:[" ++
  py_join (lit ",") cs ++ lit "]}
{\qtype\q:\qstats\q,\qrowCount\q:1}
".

Definition demo_c1 := demo_comment "10" "adilger" "Patch Set 7: Code-Review+1\\n\\n(1 comment)".
Definition demo_c2 := demo_comment "11" "maloo" "Patch Set 7: Verified-1\\n\\nFailed enforced test review-zfs on x, 1 tests failed: sanity. CRASHED".
Definition demo_c3 := demo_comment "12" "hnishida" "Patch Set 7:\\n\\n(3 comments)".
Definition demo_c4 := demo_comment "13" "maloo" "Patch Set 6: old".

Example poll_ex :
  let s1 := (poll demo_local (lit "now") None (demo_answer [demo_c1])).1.1 in
  poll demo_local (lit "now") None (demo_answer [demo_c1]) =
    (Some (lit "[\q68156|10|adilger|Patch Set 7: Code-Review+1\\n\\n(1 comment)\q]"), [], Ok ()) ∧
  (poll demo_local (lit "now") s1 (demo_answer [demo_c1; demo_c2; demo_c3; demo_c4])).1.2 =
    [lit "10-20 09:00 68156 PS7 maloo: FAILED review-zfs / sanity  %%CRASHED%% **Verified-1**"].
Proof. vm_compute. split; reflexivity. Qed.
