(* ===== verification/GpollTheorems.v ===== *)
(** What gpoll.py promises: the state file is a set of keys, each poll adds the keys of the
    answer and reports the comments that were not in the set, and what was seen once is
    never reported again. *)
From S2P Require Import Prelude PyStr PyParse PyRe PyRegex Json Replies RepliesFacts Gpoll.

(** ** The watch without its file and its loops *)

(** A comment: its change, the current patch set and the object. *)
Abbreviation comment := (Z * Z * json)%type.

Fixpoint mapR {A B} (f : A → res B) (l : list A) : res (list B) :=
  match l with
  | [] => Ok []
  | a :: l' => let! b := f a in let! bs := mapR f l' in Ok (b :: bs)
  end.

Definition keyed (x : comment) : res (text * comment) :=
  let! k := key x.1.1 x.2 in Ok (k, x).

(** The comments of a change, and with their keys. *)
Definition change_list (d : json) : res (list comment) :=
  let! number := jget "number" d in
  let! current := jget "currentPatchSet" d in
  let! cnumber := jget "number" current in
  let! n := jint number in
  let! cur := jint cnumber in
  let! cs := comments_of d in
  Ok ((λ c, (n, cur, c)) <$> cs).

Definition change_comments (d : json) : res (list (text * comment)) :=
  let! xs := change_list d in mapR keyed xs.

(** The changes of an answer, and all comments with their keys. *)
Definition answer_of (stdout : text) : res (list json * list (text * comment)) :=
  let! ds := fetch stdout in
  let! css := mapR change_comments ds in
  Ok (ds, concat css).

Definition keys (cs : list (text * comment)) : gset text := list_to_set cs.*1.

(** The comments whose key is not in the set, the first of each key. *)
Fixpoint fresh (S : gset text) (cs : list (text * comment)) : list comment :=
  match cs with
  | [] => []
  | (k, x) :: cs' => if decide (k ∈ S) then fresh S cs' else x :: fresh ({[k]} ∪ S) cs'
  end.

Section watch.
Context (local : Z → res text) (now : text).

Definition judged (x : comment) : res (Z * verdict) :=
  let! v := judge local x.1.1 x.1.2 x.2 in Ok (x.1.1, v).

Definition events (vs : list (Z * verdict)) : list text :=
  omap (λ x, match x.2 with Event e => Some e | _ => None end) vs.
Definition lu20598 (vs : list (Z * verdict)) : list Z :=
  omap (λ x, match x.2 with Lu20598 => Some x.1 | _ => None end) vs.

Definition watch_lines (vs : list (Z * verdict)) : list text :=
  sorted_texts (events vs) ++ match lu20598 vs with [] => [] | lu => [lu_line now lu] end.

(** A poll of the set: what is in it after, and what is printed. *)
Definition watch (S : gset text) (cs : list (text * comment)) : res (gset text * list text) :=
  if decide (S = ∅) then Ok (keys cs, [])
  else let! vs := mapR judged (fresh S cs) in Ok (keys cs ∪ S, watch_lines vs).

(** ** The loops are the watch *)

Definition add (f : found) (vs : list (Z * verdict)) : found :=
  Found (f_seen f) (f_events f ++ events vs) (f_lu20598 f ++ lu20598 vs).

Lemma add_nil f : add f [] = f.
Proof. destruct f. unfold add. cbn. by rewrite !app_nil_r. Qed.

Lemma note_add n f v vs : add (note n f v) vs = add f ((n, v) :: vs).
Proof. destruct v; unfold add, note; cbn; by rewrite <-?app_assoc. Qed.

Definition seen_with (S : gset text) (f : found) : found := Found S (f_events f) (f_lu20598 f).

Definition step (seeding : bool) (f : found) (x : comment) : res found :=
  poll_comment local seeding x.1.1 x.1.2 f x.2.

Lemma keyed_Ok x y : keyed x = Ok y ↔ y.2 = x ∧ key x.1.1 x.2 = Ok y.1.
Proof.
  unfold keyed. destruct (key x.1.1 x.2) as [k|]; cbn; destruct y; cbn; [|naive_solver].
  split; [by intros [= <- <-]|]. by intros [-> [= ->]].
Qed.

Lemma loop_seeding xs cs f :
  mapR keyed xs = Ok cs → foldM (step true) xs f = Ok (seen_with (keys cs ∪ f_seen f) f).
Proof.
  revert cs f. induction xs as [|x xs IH]; intros cs f.
  { intros [= <-]. cbn. unfold keys. cbn. rewrite (left_id_L ∅ (∪)). by destruct f. }
  intros ([k y] & [Hy Hk]%keyed_Ok & (cs' & Hcs & [= <-])%res_bind_Ok)%res_bind_Ok.
  cbn [snd fst] in *. subst y.
  cbn [foldM]. unfold step at 1, poll_comment. rewrite Hk. cbn [res_bind].
  destruct (decide (k ∈ f_seen f)) as [Hin|Hn]; cbn [res_bind]; rewrite (IH cs') by done;
    unfold seen_with, keys; cbn [f_seen f_events f_lu20598 fmap list_fmap fst list_to_set]; do 2 f_equal.
  - set_solver.
  - set_solver.
Qed.

Lemma loop_fresh xs cs f :
  mapR keyed xs = Ok cs →
  foldM (step false) xs f =
    (let! vs := mapR judged (fresh (f_seen f) cs) in Ok (add (seen_with (keys cs ∪ f_seen f) f) vs)).
Proof.
  revert cs f. induction xs as [|x xs IH]; intros cs f.
  { intros [= <-]. cbn. rewrite add_nil. unfold keys. cbn. rewrite (left_id_L ∅ (∪)). by destruct f. }
  intros ([k y] & [Hy Hk]%keyed_Ok & (cs' & Hcs & [= <-])%res_bind_Ok)%res_bind_Ok.
  cbn [snd fst] in *. subst y.
  cbn [foldM fresh]. unfold step at 1, poll_comment. rewrite Hk. cbn [res_bind].
  destruct (decide (k ∈ f_seen f)) as [Hin|Hn]; cbn [res_bind].
  { rewrite (IH cs') by done. unfold seen_with, keys. cbn [fmap list_fmap fst list_to_set].
    replace ({[k]} ∪ list_to_set cs'.*1 ∪ f_seen f) with (list_to_set cs'.*1 ∪ f_seen f) by set_solver.
    done. }
  cbn [mapR]. unfold judged at 1. destruct (judge local x.1.1 x.1.2 x.2) as [v|e]; cbn [res_bind]; [|done].
  rewrite (IH cs') by done.
  replace (f_seen (note x.1.1 _ v)) with ({[k]} ∪ f_seen f) by (by destruct v).
  destruct (mapR judged _) as [vs|e]; cbn [res_bind]; [|done]. f_equal. rewrite <-note_add.
  unfold seen_with, keys. cbn [fmap list_fmap fst list_to_set].
  replace ({[k]} ∪ list_to_set cs'.*1 ∪ f_seen f) with (list_to_set cs'.*1 ∪ ({[k]} ∪ f_seen f)) by set_solver.
  by destruct v.
Qed.

Lemma foldM_map {A B C} (g : B → A → res B) (h : C → A) l b :
  foldM g (h <$> l) b = foldM (λ b c, g b (h c)) l b.
Proof. revert b. induction l as [|c l IH]; intros b; [done|]. cbn. destruct (g b (h c)); [apply IH|done]. Qed.

Lemma poll_change_list seeding f d :
  poll_change local seeding f d = (let! xs := change_list d in foldM (step seeding) xs f).
Proof.
  unfold poll_change, change_list.
  repeat (match goal with |- (let! _ := ?r in _) = _ => destruct r; cbn [res_bind]; [|done] end).
  by rewrite foldM_map.
Qed.

Lemma mapR_app {A B} (g : A → res B) l1 l2 k1 k2 :
  mapR g l1 = Ok k1 → mapR g l2 = Ok k2 → mapR g (l1 ++ l2) = Ok (k1 ++ k2).
Proof.
  revert k1. induction l1 as [|a l1 IH]; intros k1; [by intros [= <-]|].
  intros (b & Hb & (bs & Hbs & [= <-])%res_bind_Ok)%res_bind_Ok H2. cbn. rewrite Hb. cbn.
  by rewrite (IH bs Hbs H2).
Qed.

Lemma loop_changes ds css :
  mapR change_comments ds = Ok css →
  ∃ xs, mapR keyed xs = Ok (concat css) ∧
        ∀ seeding f, foldM (poll_change local seeding) ds f = foldM (step seeding) xs f.
Proof.
  revert css. induction ds as [|d ds IH]; intros css; [intros [= <-]; by exists []|].
  intros (cs & (xs & Hx & Hk)%res_bind_Ok & (css' & Hcss & [= <-])%res_bind_Ok)%res_bind_Ok.
  destruct (IH _ Hcss) as (xs' & Hk' & Hf). exists (xs ++ xs'). split; [by apply mapR_app|].
  intros seeding f. rewrite foldM_app. cbn [foldM]. rewrite poll_change_list, Hx. cbn [res_bind].
  by destruct (foldM (step seeding) xs f); cbn [res_bind].
Qed.
End watch.

(** ** The state file *)

(** The file holds the keys of [S]; there is none before the first poll. *)
Definition saved (S : gset text) (state : option text) : Prop :=
  state = None ∧ S = ∅ ∨
  state = Some (state_text S) ∧ ∀ k, k ∈ S → is_utf8 k = true.

Lemma sorted_texts_perm l : sorted_texts l ≡ₚ l.
Proof. apply merge_sort_Permutation. Qed.

Lemma load_keys (l : list text) (S : gset text) :
  foldM (λ seen x, let! k := jtext x in Ok ({[k]} ∪ seen)) (JStr <$> l) S = Ok (list_to_set l ∪ S).
Proof.
  revert S. induction l as [|k l IH]; intros S; [cbn; by rewrite (left_id_L ∅ (∪))|].
  cbn [fmap list_fmap foldM jtext res_bind]. rewrite IH. f_equal. cbn [list_to_set]. set_solver.
Qed.

Lemma load_saved S state : saved S state → load_seen state = Ok S.
Proof.
  intros [[-> ->]|[-> Hu]]; [done|]. unfold load_seen, state_text, json_dumps.
  pose proof (loads_dump None [] (JList (JStr <$> sorted_texts (elements S))) eq_refl) as Hl.
  cbn [app] in Hl. rewrite Hl.
  - cbn [res_bind jiter]. rewrite load_keys. f_equal. rewrite (right_id_L ∅ (∪)).
    apply set_eq. intros k. rewrite elem_of_list_to_set, sorted_texts_perm. apply elem_of_elements.
  - cbn [plain]. apply forallb_forall. intros j Hj.
    apply list_elem_of_In, list_elem_of_fmap in Hj as (k & -> & Hk).
    rewrite sorted_texts_perm in Hk. by apply Hu, elem_of_elements.
Qed.

(** ** Keys are UTF-8 *)

Lemma is_utf8_app a b : is_utf8 a = true → is_utf8 (a ++ b) = is_utf8 b.
Proof.
  induction a as [a IH] using (induction_ltof1 _ (@length ascii)); unfold ltof in IH.
  destruct a as [|c a]; [done|]. cbn [is_utf8 app].
  destruct (N_of_ascii c <? 128)%N; [apply IH; cbn; lia|].
  destruct a as [|c1 a]; [done|]. cbn [app].
  destruct (N_of_ascii c <? 224)%N.
  { intros [-> H]%andb_true_iff. cbn [andb]. apply IH; [cbn; lia|done]. }
  destruct a as [|c2 a]; [done|]. cbn [app]. destruct (N_of_ascii c <? 240)%N.
  { intros [-> H]%andb_true_iff. cbn [andb]. apply IH; [cbn; lia|done]. }
  destruct a as [|c3 a]; [done|]. cbn [app].
  intros [-> H]%andb_true_iff. cbn [andb]. apply IH; [cbn; lia|done].
Qed.

Lemma cont_lead c : (N_of_ascii c <? 128)%N = true ∨ (194 <=? N_of_ascii c)%N = true → in_char c = false.
Proof. unfold in_char, cont. destruct (N.leb_spec 128 (N_of_ascii c)), (N.leb_spec (N_of_ascii c) 191); cbn; [|done..]. intros [?%N.ltb_lt|?%N.leb_le]; lia. Qed.

Lemma take_chars_lead n c s :
  in_char c = false → take_chars (S n) (c :: s) = c :: take_chars n s.
Proof. intros H. cbn [take_chars]. by rewrite H. Qed.

Lemma take_chars_in n c s : cont c = true → take_chars n (c :: s) = c :: take_chars n s.
Proof. intros H. cbn [take_chars]. unfold in_char. by rewrite H. Qed.

Lemma take_chars_0 c s : in_char c = false → take_chars 0 (c :: s) = [].
Proof. intros H. cbn [take_chars]. by rewrite H. Qed.

Lemma take_chars_utf8 n s : is_utf8 s = true → is_utf8 (take_chars n s) = true.
Proof.
  revert n. induction s as [s IH] using (induction_ltof1 _ (@length ascii)); unfold ltof in IH.
  intros n. destruct s as [|c s]; [done|]. cbn [is_utf8].
  destruct (N_of_ascii c <? 128)%N eqn:E0.
  { intros H. destruct n; [rewrite take_chars_0; auto using cont_lead|].
    rewrite take_chars_lead by auto using cont_lead. cbn [is_utf8]. rewrite E0. apply IH; [cbn; lia|done]. }
  destruct s as [|c1 s]; [done|].
  assert (∀ b : bool, (N_of_ascii c <? 224)%N = b → b = false → in_char c = false) as Hbig.
  { intros b <- H%N.ltb_ge. apply cont_lead. right. apply N.leb_le. lia. }
  destruct (N_of_ascii c <? 224)%N eqn:E1.
  { intros [[H0 H1]%andb_true_iff H]%andb_true_iff.
    destruct n; [rewrite take_chars_0; auto using cont_lead|].
    rewrite take_chars_lead by auto using cont_lead. rewrite take_chars_in by done.
    cbn [is_utf8]. rewrite E0, E1, H0, H1. apply IH; [cbn; lia|done]. }
  specialize (Hbig false eq_refl eq_refl).
  destruct n as [|n]; [by rewrite take_chars_0|]. rewrite take_chars_lead by done.
  destruct s as [|c2 s]; [done|]. destruct (N_of_ascii c <? 240)%N eqn:E2.
  { intros [Hc H]%andb_true_iff. pose proof Hc as [[[H1 H2]%andb_true_iff _]%andb_true_iff _]%andb_true_iff.
    rewrite !take_chars_in by done. cbn [is_utf8]. rewrite E0, E1, E2, Hc. apply IH; [cbn; lia|done]. }
  destruct s as [|c3 s]; [done|]. intros [Hc H]%andb_true_iff.
  pose proof Hc as [[[[[_ H1]%andb_true_iff H2]%andb_true_iff H3]%andb_true_iff _]%andb_true_iff _]%andb_true_iff.
  rewrite !take_chars_in by done. cbn [is_utf8]. rewrite E0, E1, E2, Hc. apply IH; [cbn; lia|done].
Qed.

Lemma uint_text_utf8 d : is_utf8 (uint_text d) = true.
Proof. induction d; cbn [uint_text is_utf8]; done. Qed.

Lemma Z_text_utf8 n : is_utf8 (Z_text n) = true.
Proof. unfold Z_text. destruct (Z.to_int n); cbn [is_utf8]; apply uint_text_utf8. Qed.

(** The name and the message of a comment are UTF-8, as what ssh printed is. *)
Definition utf8_comment (c : json) : bool :=
  match (let! r := jget "reviewer" c in jget_text "username" [] r) with
  | Ok u => is_utf8 u
  | Raise _ => true
  end &&
  match jget "message" c with Ok (JStr m) => is_utf8 m | _ => true end.

Definition utf8_comments (cs : list (text * comment)) : bool :=
  forallb (λ x, utf8_comment x.2.2) cs.

Lemma key_utf8 n c k : key n c = Ok k → utf8_comment c = true → is_utf8 k = true.
Proof.
  unfold key, utf8_comment.
  intros (ts & _ & (r & -> & (u & Hu & (mj & -> & (m & Hm & (t & _ & Hk)%res_bind_Ok)%res_bind_Ok)
    %res_bind_Ok)%res_bind_Ok)%res_bind_Ok)%res_bind_Ok.
  cbn [res_bind]. rewrite Hu. destruct mj; try discriminate Hm. apply (inj Ok) in Hm as ->.
  intros [Hu8 Hm8]%andb_true_iff. apply (inj Ok) in Hk as <-.
  rewrite !is_utf8_app by (apply Z_text_utf8 || exact Hu8 || reflexivity).
  by apply take_chars_utf8.
Qed.

Lemma keyed_utf8 xs cs k :
  mapR keyed xs = Ok cs → utf8_comments cs = true → k ∈ keys cs → is_utf8 k = true.
Proof.
  revert cs. induction xs as [|x xs IH]; intros cs; [intros [= <-]; unfold keys; set_solver|].
  intros ([k' y] & [Hy Hk]%keyed_Ok & (cs' & Hcs & [= <-])%res_bind_Ok)%res_bind_Ok.
  cbn [fst snd] in *. subst y. intros [Hx Hcs8]%andb_true_iff. unfold keys.
  cbn [fmap list_fmap fst list_to_set]. intros [->%elem_of_singleton|Hin]%elem_of_union.
  - by eapply key_utf8.
  - by eapply IH.
Qed.

Lemma watch_lines_nil now : watch_lines now [] = [].
Proof. done. Qed.

Lemma poll_watch local now S state stdout ds cs :
  saved S state → answer_of stdout = Ok (ds, cs) → ds ≠ [] → utf8_comments cs = true →
  match watch local now S cs with
  | Ok (S', lines) => ∃ state', poll local now state stdout = (state', lines, Ok ()) ∧
                                saved S' state' ∧ state' ≠ None
  | Raise e => poll local now state stdout = (state, [], Raise e)
  end.
Proof.
  intros Hsv (ds' & Hf & (css & Hcss & [= <- <-])%res_bind_Ok)%res_bind_Ok Hne Hu.
  destruct (loop_changes local _ _ Hcss) as (xs & Hxs & Hloop).
  assert (∀ k, k ∈ S → is_utf8 k = true) as HS.
  { destruct Hsv as [[_ ->]|[_ H]]; [set_solver|exact H]. }
  assert (∀ k, k ∈ keys (concat css) → is_utf8 k = true) as HK by (intros k; by apply (keyed_utf8 xs)).
  unfold watch, poll. rewrite (load_saved _ _ Hsv), Hf.
  destruct ds' as [|d ds']; [done|]. rewrite Hloop. destruct (decide (S = ∅)) as [->|HneS].
  - rewrite bool_decide_true by done. rewrite (loop_seeding local xs _ _ Hxs).
    eexists. split; [|split]; [reflexivity| |done].
    cbn [f_seen]. right. split; [by rewrite (right_id_L ∅ (∪))|exact HK].
  - rewrite bool_decide_false by done. rewrite (loop_fresh local xs _ _ Hxs). cbn [f_seen].
    destruct (mapR (judged local) _) as [vs|e]; cbn [res_bind]; [|done].
    exists (Some (state_text (keys (concat css) ∪ S))). split; [|split]; [| |done].
    + unfold watch_lines. cbn. rewrite orb_false_r. f_equal. f_equal. f_equal.
      by destruct (lu20598 vs).
    + right. split; [done|]. intros k [Hk|Hk]%elem_of_union; auto.
Qed.

(** C15: a poll refines the watch on a set of keys.  Where seen.json holds the set [S] (or
    is not there, for the empty set) and the answer lists changes, the poll does what the
    watch does: on the empty set it takes in all keys and prints nothing; otherwise it
    prints the sorted lines, and the LU-20598 line, of the comments whose key is not in
    [S], each key once, and seen.json holds [S] and the keys of the answer.  Where one of
    those comments cannot be judged, the exception gets out, nothing is printed and
    seen.json stays. *)
Theorem poll_refines local now S state stdout ds cs :
  saved S state → answer_of stdout = Ok (ds, cs) → ds ≠ [] → utf8_comments cs = true →
  match watch local now S cs with
  | Ok (S', lines) => ∃ state', poll local now state stdout = (state', lines, Ok ()) ∧
                                saved S' state'
  | Raise e => poll local now state stdout = (state, [], Raise e)
  end.
Proof.
  intros Hs Ha Hne Hu. pose proof (poll_watch local now S state stdout ds cs Hs Ha Hne Hu) as H.
  destruct (watch local now S cs) as [[S' lines]|e]; [|exact H]. naive_solver.
Qed.

(** ** Any number of polls *)

(** [outs] are the answers that have been polled to the end, the last one first. *)
Inductive polled : option text → list text → Prop :=
  | polled_none : polled None []
  | polled_step local now state outs stdout ds cs state' lines r :
      polled state outs → answer_of stdout = Ok (ds, cs) → utf8_comments cs = true →
      poll local now state stdout = (state', lines, r) →
      polled state' (if res_is_ok r then stdout :: outs else outs).

Lemma polled_first local now stdout ds cs state lines :
  answer_of stdout = Ok (ds, cs) → utf8_comments cs = true →
  poll local now None stdout = (state, lines, Ok ()) → polled state [stdout].
Proof. intros Ha Hu Hp. exact (polled_step _ _ _ _ _ _ _ _ _ _ polled_none Ha Hu Hp). Qed.

Definition answer_keys (stdout : text) : gset text :=
  match answer_of stdout with Ok (_, cs) => keys cs | Raise _ => ∅ end.

Definition all_keys (outs : list text) : gset text := ⋃ (answer_keys <$> outs).

Lemma watch_keys local now S cs S' lines :
  watch local now S cs = Ok (S', lines) → S' = keys cs ∪ S.
Proof.
  unfold watch. destruct (decide (S = ∅)) as [->|_].
  - intros [= <- _]. by rewrite (right_id_L ∅ (∪)).
  - intros (vs & _ & [= <- _])%res_bind_Ok. done.
Qed.

(** An answer without changes has no comments, and leaves everything as it is. *)
Lemma poll_no_changes local now S state stdout cs :
  saved S state → answer_of stdout = Ok ([], cs) →
  cs = [] ∧ poll local now state stdout = (state, [], Ok ()).
Proof.
  intros Hs (ds & Hf & (css & Hcss & Heq)%res_bind_Ok)%res_bind_Ok. injection Heq as -> <-.
  injection Hcss as <-. unfold poll. by rewrite (load_saved _ _ Hs), Hf.
Qed.

Lemma polled_saved state outs : polled state outs → saved (all_keys outs) state.
Proof.
  induction 1 as [|local now state outs stdout ds cs state' lines r Hp IH Ha Hu Hpoll]; [by left|].
  assert (all_keys (stdout :: outs) = keys cs ∪ all_keys outs) as Hall.
  { unfold all_keys, answer_keys. cbn. by rewrite Ha. }
  destruct ds as [|d ds].
  { destruct (poll_no_changes local now _ _ _ _ IH Ha) as [-> Hp']. rewrite Hp' in Hpoll.
    injection Hpoll as <- <- <-. cbn [res_is_ok]. rewrite Hall. unfold keys. cbn.
    by rewrite (left_id_L ∅ (∪)). }
  pose proof (poll_watch local now _ _ _ _ _ IH Ha ltac:(done) Hu) as H.
  destruct (watch local now _ cs) as [[S' ls]|e] eqn:E.
  - destruct H as (st & Hp' & Hs & _). rewrite Hp' in Hpoll. injection Hpoll as <- <- <-.
    cbn [res_is_ok]. by rewrite Hall, <-(watch_keys _ _ _ _ _ _ E).
  - rewrite H in Hpoll. by injection Hpoll as <- <- <-.
Qed.

Lemma fresh_none S cs : keys cs ⊆ S → fresh S cs = [].
Proof.
  induction cs as [|[k x] cs IH]; [done|]. unfold keys. cbn [fmap list_fmap fst list_to_set fresh].
  intros H. rewrite decide_True by set_solver. apply IH. unfold keys. set_solver.
Qed.

(** C22: what has been seen is not reported again.  After any polls, failed ones among
    them, at any times, a poll of an answer whose comments all came in answers that were
    polled to the end prints nothing and leaves seen.json byte for byte as it is. *)
Theorem polled_quiet local now state outs stdout ds cs :
  polled state outs → answer_of stdout = Ok (ds, cs) → utf8_comments cs = true →
  cs ≠ [] → keys cs ⊆ all_keys outs →
  poll local now state stdout = (state, [], Ok ()).
Proof.
  intros Hp%polled_saved Ha Hu Hne Hk. destruct ds as [|d ds].
  { by destruct (poll_no_changes local now _ _ _ _ Hp Ha). }
  assert (all_keys outs ≠ ∅) as HS.
  { destruct cs as [|[k x] cs]; [done|]. unfold keys in Hk. cbn in Hk. set_solver. }
  pose proof (poll_watch local now _ _ _ _ _ Hp Ha ltac:(done) Hu) as H.
  unfold watch in H. rewrite decide_False in H by done. rewrite fresh_none in H by done.
  cbn [mapR res_bind] in H. rewrite watch_lines_nil in H.
  destruct H as (st & -> & Hs & Hn). f_equal. f_equal.
  replace (keys cs ∪ all_keys outs) with (all_keys outs) in Hs by set_solver.
  destruct Hs as [[? ?]|[-> _]]; [done|]. by destruct Hp as [[? ?]|[-> _]].
Qed.

(** C25: one comment with an empty message stops the watch.  Where seen.json is there with
    keys in it and the answer brings a new comment without text, whose author is a person or
    hnishida (no first line is taken of a comment of aireview or of a bot), every poll of such an answer ends with an exception, prints nothing of the other
    comments and leaves seen.json as it is, so that the next poll fails in the same way. *)
Theorem empty_message_stops local now state outs stdout ds cs n cur c who :
  polled state outs → all_keys outs ≠ ∅ → answer_of stdout = Ok (ds, cs) → utf8_comments cs = true →
  (n, cur, c) ∈ fresh (all_keys outs) cs →
  jget "message" c = Ok (JStr []) →
  (let! r := jget "reviewer" c in jget_text "username" (lit "?") r) = Ok who →
  is_user who "aireview" = false →
  is_user who "hnishida" = true ∨ existsb (is_user who) BOTS = false →
  ∃ e, poll local now state stdout = (state, [], Raise e).
Proof.
  intros Hp%polled_saved HS Ha Hu Hin Hm Hw Hai Hwho. destruct ds as [|d ds].
  { destruct (poll_no_changes local now _ _ _ _ Hp Ha) as [-> _]. by apply elem_of_nil in Hin. }
  assert (∃ e, judged local (n, cur, c) = Raise e) as [e He].
  { unfold judged, judge. cbn [fst snd]. rewrite Hm. cbn [res_bind jtext].
    apply res_bind_Ok in Hw as (r & -> & Hw). cbn [res_bind]. rewrite Hw. cbn [res_bind].
    change (re_match PATCH_SET []) with (@None place).
    change (re_match UPLOADED []) with (@None place). cbv zeta. cbn [negb andb Z.eqb].
    change (py_in ?x []) with false. cbn [andb]. rewrite !andb_false_r. unfold own_reply.
    destruct (is_user who "hnishida"); [by eexists|]. destruct Hwho as [?|Hb]; [done|]. cbn [res_bind].
    destruct (let! ts := jget "timestamp" c in _) as [|e] eqn:E; [|by exists e].
    exfalso. apply res_bind_Ok in E as (ts & _ & (z & _ & (t & _ & (ev & Hev & _)%res_bind_Ok)
      %res_bind_Ok)%res_bind_Ok).
    unfold event_line in Hev. change (re_search FAILED []) with (@None place) in Hev.
    rewrite Hai, Hb in Hev. discriminate Hev. }
  assert (∀ l, (n, cur, c) ∈ l → ∃ e, mapR (judged local) l = Raise e) as Hall.
  { induction l as [|x l IH]; [by intros ?%elem_of_nil|]. cbn.
    intros [<-|Hx]%elem_of_cons; [rewrite He; by eexists|].
    destruct (judged local x); cbn; [|by eexists]. destruct (IH Hx) as [e' ->]. by eexists. }
  destruct (Hall _ Hin) as [e' He']. exists e'.
  pose proof (poll_watch local now _ _ _ _ _ Hp Ha ltac:(done) Hu) as H.
  unfold watch in H. rewrite decide_False in H by done. by rewrite He' in H.
Qed.

(** ** Runs *)

Definition demo_key : text := lit "68156|10|adilger|Patch Set 7: Code-Review+1

(1 comment)".
Definition demo_out1 : text := demo_answer [demo_c1].
Definition demo_out4 : text := demo_answer [demo_c1; demo_c2; demo_c3; demo_c4].
Definition demo_out_empty : text := demo_answer [demo_comment "14" "adilger" ""; demo_c2].

Definition ok_or {A} (a : A) (r : res A) : A := match r with Ok x => x | Raise _ => a end.
Abbreviation demo_of out := (ok_or ([], []) (answer_of out)).

Definition demo_line : text :=
  lit "10-20 09:00 68156 PS7 maloo: FAILED review-zfs / sanity  %%CRASHED%% **Verified-1**".

Lemma poll_refines_witness :
  ∃ state', poll demo_local (lit "now") (Some (state_text {[demo_key]})) demo_out4 =
              (state', [demo_line], Ok ()) ∧
            saved (keys (demo_of demo_out4).2 ∪ {[demo_key]}) state'.
Proof.
  pose proof (poll_refines demo_local (lit "now") {[demo_key]} (Some (state_text {[demo_key]}))
    demo_out4 (demo_of demo_out4).1 (demo_of demo_out4).2) as H.
  assert ((let! x := watch demo_local (lit "now") {[demo_key]} (demo_of demo_out4).2 in Ok x.2) =
          Ok [demo_line]) as Hw by (vm_compute; reflexivity).
  destruct (watch demo_local (lit "now") {[demo_key]} (demo_of demo_out4).2) as [[S' ls]|e] eqn:E;
    [|discriminate Hw].
  cbn [res_bind snd] in Hw. apply (inj Ok) in Hw as ->. apply watch_keys in E as ->.
  apply H; [|vm_compute; reflexivity|vm_compute; discriminate|vm_compute; reflexivity].
  right. split; [reflexivity|]. intros k ->%elem_of_singleton. vm_compute. reflexivity.
Defined.

Definition demo_state : option text := Some (state_text {[demo_key]}).

Lemma demo_polled : polled demo_state [demo_out1].
Proof.
  apply (polled_first demo_local (lit "now") demo_out1 (demo_of demo_out1).1
    (demo_of demo_out1).2 demo_state []); vm_compute; reflexivity.
Qed.

Lemma polled_quiet_witness :
  poll demo_local (lit "later") demo_state demo_out1 = (demo_state, [], Ok ()).
Proof.
  apply (polled_quiet demo_local (lit "later") demo_state [demo_out1] demo_out1 (demo_of demo_out1).1
    (demo_of demo_out1).2 demo_polled).
  - vm_compute. reflexivity.
  - vm_compute. reflexivity.
  - vm_compute. discriminate.
  - apply (bool_decide_unpack _). vm_compute. exact I.
Defined.

Lemma empty_message_stops_witness :
  ∃ e, poll demo_local (lit "later") demo_state demo_out_empty = (demo_state, [], Raise e).
Proof.
  destruct (fresh (all_keys [demo_out1]) (demo_of demo_out_empty).2) as [|[[n cur] c] l] eqn:E;
    [vm_compute in E; discriminate E|].
  pose proof E as E'. vm_compute in E'. injection E' as En Ecur Ec _.
  apply (empty_message_stops demo_local (lit "later") demo_state [demo_out1] demo_out_empty
    (demo_of demo_out_empty).1 (demo_of demo_out_empty).2 n cur c (lit "adilger") demo_polled).
  - intros H. assert (demo_key ∈ all_keys [demo_out1]) as Hk
      by (apply (bool_decide_unpack _); vm_compute; exact I). rewrite H in Hk. by apply elem_of_empty in Hk.
  - vm_compute. reflexivity.
  - vm_compute. reflexivity.
  - rewrite E. by left.
  - rewrite <-Ec. vm_compute. reflexivity.
  - rewrite <-Ec. vm_compute. reflexivity.
  - vm_compute. reflexivity.
  - right. vm_compute. reflexivity.
Defined.
